(* ===== verification/_CoqProject ===== *)
-Q . S2P
Prelude.v
PyStr.v
Regex.v
PyFloat.v
Json.v
JsonFacts.v
PyUrl.v
PyBytes.v
Types.v
Alias.v
Packages.v
Messages.v
PyTime.v
AuditTrail.v
Middleware.v
Harness.v
PolicyBundle.v
KeiEvaluator.v
RuntimeSocket.v
RuntimeSocketFacts.v
McpRoute.v
ToolSpec.v
ToolRegistry.v
LintTools.v
ToolSync.v
Memory.v
MemoryFacts.v
LinkConfig.v
FixtureDaemon.v
MinimalHarness.v
PyLines.v
JsonLines.v
Capabilities.v
ControlPlane.v
ControlBody.v
ConformanceGate.v
Release.v
ReleaseFacts.v
ReleaseSet.v
EvalCase.v
EvalCaseFacts.v
EvalCases.v
EvalExecutors.v
EvalRunner.v
EvalRunnerFacts.v
EvalSuite.v
EvalSuiteFacts.v
EvalProfiles.v
EvalModels.v
EvalModelsFacts.v
EvalTable.v
EvalTableFacts.v
WikiTools.v
EvalMain.v
EvalTranscripts.v
EvalMainFacts.v
Conversation.v
Compaction.v
CompactionFacts.v
Guardrails.v
Jobs.v
Executor.v
ResponseValidator.v
Inference.v
Reasoning.v
ToolFormat.v
ChildWire.v
LinkEvents.v
LinkSupervisor.v
LinkSupervisorFacts.v
LinkReader.v
LinkChild.v
LiveCapture.v
LiveCaptureFacts.v
Adapters.v
DockerFixtures.v
