(* ===== verification/Prelude.v ===== *)
(** * Verification of the Agentware Python SDK

    The program is the Python package [haikeilabs.agentware] (under
    [src/python/src/haikeilabs/agentware]): middleware that decides, records and
    executes the tool calls of an agent; the Kei governance clients that take
    those decisions; the supervisor that keeps a [kei-proxy] child alive; and the
    guards and loops around a language model.  Beside it stands the package
    [evals] (under [src/python/src/evals]), which measures a model with the same
    data: suites of cases, a loop that drives the model, and a score.  Around them
    stand the programs the repository is tested and released with: fixtures of the
    daemon and of the control plane, the conformance gate, the live captures, the
    release scripts, adapters of other frameworks, and examples.

    ** How the parts interact

    A caller (a framework, or [AuditedToolClient]) hands a tool call to the
    middleware.  The middleware asks a [PolicyEvaluator] for a [Decision], gives
    the record to an [Auditor], and runs the executor unless the call is denied.
    Two evaluators implement the policy: the local policy bundle fetched from a
    control plane, and the [kei-proxy] evaluator, over one of two authorization
    clients: one spawns a child per call, the other asks the daemon over its
    socket, in a session it keeps.  Governed calls go to the daemon's MCP route.
    Beside that runs the RuntimeLink: a supervisor that
    spawns [kei-proxy runtime heartbeat], reads its JSON lines, keeps a state
    machine and emits lifecycle events.  Above it, [run_inference] and the
    [InferenceExecutor] drive a model: they separate its reasoning from its text,
    compact the conversation, validate or rescue its tool calls, enforce steps,
    and track errors.  Before a run, the tools of a registry are exported as a
    manifest, linted, parsed by the strict parser and sent to the platform.
    Beside all this a memory core keeps claims, whose confidence is inferred.
    The evals load cases (built in, or from a JSON suite), ask a model client,
    execute its calls with mock executors of which some deny, judge what came out
    against the expectations of the case, and print a table, a page and an exit
    code.

    The fixtures stand on the other side of the clients: the socket client and the
    [kei-proxy] evaluator talk to the fixture of the daemon, the manifest sync and
    the flush of audit records to the fixture of the control plane, whose files the
    audit check reads.  The conformance gate reads the logs that the languages'
    test suites leave, the live captures record model answers and stage them among
    the shared fixtures, and the release scripts keep one version in every file that
    carries it.

    ** Files

    - [Prelude.v]: this header; results, state with exceptions, insertion-ordered
      dictionaries, hint databases ([py], [pyrw]), the tactics [py_inv],
      [py_cases], [py_bool], [res_inv], reachability.
    - [PyStr.v], [PyFloat.v], [PyTime.v], [PyUrl.v], [PyBytes.v], [Regex.v]: the
      parts of the language and its standard library the code relies on: strings
      of code points in UTF-8, binary64 floats with [repr], the calendar,
      [urllib.parse], decoding of bytes, and a backtracking [re].
    - [Json.v], [JsonFacts.v]: untyped values, [json.loads] and [json.dumps], and
      the proof that they are inverse.
    - [Types.v]: [middleware/types.py], exceptions, [datetime], and operations on
      untyped values that raise.
    - [AuditTrail.v]: [middleware/audit.py]; the class [Auditor] with its laws is
      the interface the middleware is proved against, and [InMemoryAuditor]
      discharges it.
    - [Middleware.v]: [middleware/middleware.py] ([MiddlewareImpl]) and
      [middleware/tool_client.py] ([AuditedToolClient]); the class
      [PolicyEvaluator] is the interface to policies.
    - [PolicyBundle.v]: [kei/policy_bundle.py], from the wire format to the
      lifecycle, which is an instance of [PolicyEvaluator].
    - [KeiEvaluator.v]: [kei/evaluator.py] over the class [AuthorizationClient],
      and [kei/authorize_client.py], which is an instance of it.
    - [RuntimeSocket.v], [RuntimeSocketFacts.v]: [kei/runtime_socket.py], the
      sessions of the daemon's socket and the authorization client over it, the
      second instance of [AuthorizationClient].
    - [McpRoute.v]: [kei/mcproute.py].
    - [Harness.v]: [kei/auth.py], [kei/proxy.py], [kei/config.py] and
      [kei/contract.py], a Module each ([Auth], [Proxy], [Config], [Contract]).
    - [ToolSpec.v]: [toolspec/__init__.py]; [ToolRegistry.v]: [tools/] and
      [prompts/generator.py]; [LintTools.v]: [lint_tools.py]; [ToolSync.v]:
      [kei/tool_sync.py].  They share the manifest: the registry writes it, the
      linter and the strict parser read it, the sync sends it.
    - [Memory.v]: [memory/]: Modules [Client], [Confidence] and [Infer];
      [MemoryFacts.v] composes the last two (Module [Vault]).
    - [LinkConfig.v], [ChildWire.v], [LinkEvents.v], [LinkSupervisor.v],
      [LinkSupervisorFacts.v]: [kei/runtime_link.py], in the order of that file:
      configuration and backoff, the child's lines, lifecycle events, the class
      [Link], and the theorems about it.  [LinkChild.v] adds the processes it spawns,
      waits for and kills; [LinkReader.v] the consumer of [Link.events].
    - [Messages.v]: [llm/request.py] and [llm/response.py].
    - [Conversation.v]: [llmcontext/manager.py].
    - [Reasoning.v]: [reasoning/types.py] and [reasoning/adapter.py];
      [ToolFormat.v]: [toolformat/formatter.py].
    - [Compaction.v], [CompactionFacts.v]: [llmcontext/strategies.py] and
      [llmcontext/context_window.py].
    - [Guardrails.v]: [middleware/guardrails/]: nudges, [StepEnforcer],
      [ErrorTracker] and the [Facade] (the class [Guardrails] of [facade.py]).
    - [ResponseValidator.v]: [middleware/guardrails/response_validator.py].
    - [Inference.v]: [middleware/inference.py].
    - [Executor.v]: [executor/executor.py].
    - [Jobs.v]: [jobs/job.py] and [jobs/manager.py].
    - [EvalCase.v], [EvalCaseFacts.v]: [evals/cases/base.py] and
      [evals/expectations.py], the case and its score; [EvalCases.v]: the built-in
      cases of [evals/cases], as data; [EvalExecutors.v]: the mock executors of
      those files and of [evals/runner.py].
    - [EvalRunner.v], [EvalRunnerFacts.v]: [evals/runner.py], the loops over the
      turns of a model.
    - [EvalSuite.v], [EvalSuiteFacts.v]: [evals/suite.py], the strict loader of
      suites; [EvalProfiles.v]: [evals/profiles.py].
    - [EvalModels.v], [EvalModelsFacts.v]: [evals/models.py], the payloads and
      answers of the model clients.
    - [EvalTable.v], [EvalTableFacts.v]: the results of a run, its table, the
      scrubbing of secrets and [evals/benchmark.py]; [EvalMain.v],
      [EvalMainFacts.v]: [evals/main.py], from the arguments to the exit code;
      [EvalTranscripts.v]: its file of transcripts.
    - [PyLines.v], [JsonLines.v]: [str.splitlines], and files of one JSON text per
      line.
    - [FixtureDaemon.v]: [fixtures/kei/fake-kei-proxy-socket.py];
      [MinimalHarness.v]: [examples/python/minimal-harness], which starts it.
    - [ControlPlane.v]: [fixtures/kei/fake-control-plane.py] and (Module [Assert])
      [fixtures/kei/assert-audit-records.py]; [ControlBody.v]: how the former reads
      bodies off a kept-alive connection.
    - [Capabilities.v]: [scripts/generate-connector-capabilities.py], which writes the
      table of capabilities that [LintTools.v] is given.
    - [ConformanceGate.v]: [scripts/conformance/gate.py].
    - [Release.v], [ReleaseFacts.v], [ReleaseSet.v]: [scripts/release], versions and
      compatibility, and what [set] leaves for [check].
    - [LiveCapture.v], [LiveCaptureFacts.v]: [scripts/live-captures].
    - [WikiTools.v]: the constructor of [memory/client.py], the callables of
      [memory/langgraph.py] and [python/examples/wiki_memory_dogfood.py].
    - [Alias.v]: the package [pedro_agentware]; [Packages.v]: what each
      [__init__.py] imports and exports.
    - [Adapters.v]: [python/adapters]: the base, Hermes, Kitaru and pydantic-ai.
    - [DockerFixtures.v]: [docker/kitaru-mock] and [docker/websearch-agent].

    ** How code becomes definitions

    A Python object is a [Record] of its attributes, a method a function that
    takes and returns it: [eff W E A] is [W -> res E A * W], so that the state
    survives an exception.  A method that holds a lock is one step.  Readings of
    the clock, random numbers, identifiers from [uuid], environment variables and
    files are arguments.  What lies outside the repository is a parameter of the
    definitions that use it: the HTTP transport, the daemon, pgmpy, pydantic and
    the memory core, [re.match] on patterns given by
    users and the text forms of [datetime] in [PolicyBundle.v], SHA-256, the
    process table, the answers of model servers, the command-line parser, [urlsplit]'s check of the network location, tools and models.
    Untyped values ([Any], decoded JSON) are [json], with the exceptions their
    misuse raises.  Integers are unbounded, as in Python; floats are binary64,
    rounded as the code rounds them.  Strings are the UTF-8 bytes of their code
    points; [len] and slices count code points, while [lower] maps ASCII letters
    only.  The [lower] of other letters matters in none of the comparisons made.

    ** What is proved

    - Safety of the gate: a call the bundle gate lets through was allowed by a
      parsed, unexpired bundle (or local-only mode); before a bundle nothing runs;
      what ran is what the audit trail says, with redactions applied; an allowance
      of the [kei-proxy] evaluator needs a child that exited 0 and said so, or an
      affirmative answer of the daemon in a session it issued for that subject;
      delegation keeps the human subject.  The default harness contract denies
      every call; the proxy starts closed.
    - Confinement: children see allowlisted variables only; the MCP client dials
      local targets only; sync errors hold no token; a loaded manifest names no
      bootstrap secret, and tokens are that secret.
    - Well-formedness: what the strict manifest parser accepts is well typed; the
      session cache holds sessions that were issued; a reasoning tree is a bounded
      chain of nodes with the identifiers of their content.
    - Round trips: a cached bundle, a lifecycle event of the years 1000 to 9999, a
      manifest, a tool call printed as JSON in a model's text, and an array of
      calls printed for a model of a JSON family.
    - Refinement: the link follows a two-field state machine and never raises on
      accepted lines; the guardrails facade, the registry (what was bound last),
      the conversation store, the job store and the error tracker follow their
      specifications; stripping removes exactly the thinking blocks, or fails.
    - Composition: what a registry exports is accepted by the strict parser and by
      the linter, in whatever order it was filled, and what is sent is what the
      file declares; the inference loop reads text without its reasoning; a
      request built from a consistent vault is accepted by inference, and the
      marginals come back to the claims they are about.
    - Errors: the classes of JSON-RPC errors; which answers become results; the
      checks before a spawn.
    - Evals: a tool that a case does not allow is never executed, nor one whose
      denial it expects, nor the expected tool of a legacy case; the score accepts
      exactly the transcripts that meet each expectation; a suite that loads is
      consistent; the totals count every run once; what is printed holds no
      secret; and the exit code is 0 exactly when every selected case ran and
      passed the threshold.  As lemmas: every built-in case can be passed, and the
      calls sent to an OpenAI server are read back.
    - Fixtures and scripts: the evaluator, the socket client and the fixture of the
      daemon together decide and audit as the fixture's rules say; a record that is
      flushed to the control plane is found by the audit check; requests on a
      kept-alive connection are each read to their end; the conformance gate passes
      exactly when every language covers every case; a version that was set is the
      version that is checked; and comparing captures restores the shared fixtures,
      whatever fails.
    - As lemmas: one child runs at a time and none outlives the link, unless the
      link refuses an event; the consumer of events is given the audit log in order,
      and all of it if it keeps up; errors of the link's configuration come from a
      fixed list and hold nothing that was configured; the transcripts have one line
      per run; requests to the memory core are numbered; every package exports what
      it imports, and the old name of the package is the same module.
    - Bounds and termination: the child's lines and counters, the restart delay,
      configuration ranges, the event ring, compaction, warnings, attempts of the
      inference loop, requests of a decision, and iterations of the executor.
    - Behaviour that surprises, stated as theorems where it is a property of every
      run: a missing token opens the gate, a bundle never redacts, a mute child is
      restarted for ever (when no restart setting is a NaN), the end of the child's output is never noticed; and as
      examples: [protection_lost], [null_tool_hides_unknown],
      [brace_in_string_is_lost], [disallowed_step_is_returned],
      [export_can_be_refused], [empty_resource_type_is_exported],
      [missing_claim_refused], [early_year_is_not_read],
      [nan_restart_ends_supervision], [strip_leaves_tags], [surrogate_escapes],
      [multi_line_is_lost], [accepted_but_dropped], [cut_token_is_not_removed],
      [empty_token_differs], [client_answers]; in the evals
      [contradictory_case_loads], [page_and_exit_code_differ],
      [garbled_call_fails_a_deny_case], [ollama_sends_no_names],
      [anthropic_drops_calls], [anthropic_truncation], [profile_edges],
      [id_with_a_line_feed]; around them [refused_event_leaks_the_child],
      [late_reader_loses_the_first], [entry_on_two_lines_is_empty],
      [partial_copy_is_left], [slow_daemon_is_left], [chunk_extension_is_left],
      [negative_size_reads_all], [hermes_reports], [kitaru_adapter_is_never_created],
      [pydantic_adapter_is_never_created], [init_spawns].

    ** Fuel

    [json_loads] has fuel from the length of the text, and the round trip shows
    that it is enough for what [json_dumps] prints.  [Regex.matches] allows as many
    iterations of a star as there are characters, each of which must consume one;
    [find_all], [sub_all] and [scan_json] consume one character a step.  The
    executor's [turns] and the inference loop's [attempts_from] take as fuel the
    number of rounds the code allows itself, and running out is what the code does
    then.  [split_blocks] and [find_matches] consume a character or a tag a step, and
    [put_loop] has the number of attempts as fuel, which is the code's own bound;
    [innermost] descends into a value and has its depth.  The loops of the evals
    ([table_turns], [legacy_turns], [agent_turns]) have [max_turns], the bound of
    the code's own [range]; [split_pieces] consumes a character a step.
    [_watch_child] and [_supervise] run over the list of what they are
    waiting for, so that [None] and [SLoop] mean still running, and so does [await]
    of [MinimalHarness.v] over its looks at the socket.  The patterns of the release
    scripts and of the capture consume a character a step; a body in chunks is read
    with the length of the stream as fuel, and every chunk consumes its size line.

    ** What is not modelled

    Command lines as [argparse] builds them, and printing; threads and tasks between
    locked methods, so that an interleaving is a sequence of whole steps; sleeping,
    while how long to sleep is computed, and may raise;
    the HTTP exchange itself, of which the outcome is an argument, and the routing
    and validation of FastAPI and pydantic; and protocols, whose methods have no
    body.  [_consume_body] of the control plane and [_jittered_backoff] of the policy
    bundle have no caller; the second is modelled.  The tests are not modelled. *)
From Stdlib Require Import ZArith Lia Sorting.Sorted.
From stdpp Require Export base tactics list strings gmap.

#[global] Open Scope string_scope.
#[global] Open Scope list_scope.

(** ** Hint databases and tactics of the development *)

Create HintDb py discriminated.
Create Rewrite HintDb pyrw.
#[export] Set Warnings "-clear-no-such-hyp".

(** Split every conjunction, existential and equation in the context. *)
Ltac py_inv :=
  repeat match goal with
  | H : _ /\ _ |- _ => destruct H
  | H : exists _, _ |- _ => destruct H
  | H : (_, _) = (_, _) |- _ => injection H as ?; subst
  | H : Some _ = Some _ |- _ => injection H as ?; subst
  | H : Some _ = None |- _ => discriminate H
  | H : None = Some _ |- _ => discriminate H
  | H : true = false |- _ => discriminate H
  | H : false = true |- _ => discriminate H
  end.

(** Case on every scrutinee of a match, in the goal or in a hypothesis. *)
Ltac py_cases :=
  repeat (case_match; simplify_eq/=; try done).

(** Boolean tests to propositions. *)
Ltac py_bool :=
  repeat match goal with
  | H : _ && _ = true |- _ => apply andb_true_iff in H; destruct H
  | H : _ || _ = false |- _ => apply orb_false_iff in H; destruct H
  | H : negb _ = true |- _ => apply negb_true_iff in H
  | H : negb _ = false |- _ => apply negb_false_iff in H
  | H : bool_decide _ = true |- _ => apply bool_decide_eq_true in H
  | H : bool_decide _ = false |- _ => apply bool_decide_eq_false in H
  | H : (_ <=? _)%Z = true |- _ => apply Z.leb_le in H
  | H : (_ <=? _)%Z = false |- _ => apply Z.leb_gt in H
  | H : (_ <? _)%Z = true |- _ => apply Z.ltb_lt in H
  | H : (_ <? _)%Z = false |- _ => apply Z.ltb_ge in H
  | H : (_ =? _)%Z = true |- _ => apply Z.eqb_eq in H
  | H : (_ =? _)%Z = false |- _ => apply Z.eqb_neq in H
  | H : String.eqb _ _ = true |- _ => apply String.eqb_eq in H
  | H : String.eqb _ _ = false |- _ => apply String.eqb_neq in H
  end.

(** ** Results: a Python call returns a value or raises an exception *)

Inductive res (E A : Type) : Type :=
| Ok (a : A)
| Raise (e : E).
Arguments Ok {E A} a.
Arguments Raise {E A} e.

#[global] Instance res_ret {E} : MRet (res E) := fun _ a => Ok a.
#[global] Instance res_bind {E} : MBind (res E) := fun _ _ f m =>
  match m with Ok a => f a | Raise e => Raise e end.
#[global] Instance res_fmap {E} : FMap (res E) := fun _ _ f m =>
  match m with Ok a => Ok (f a) | Raise e => Raise e end.

(** [guard_or b e]: continue when [b] holds, raise [e] otherwise. *)
Definition guard_or {E} (b : bool) (e : E) : res E unit :=
  if b then Ok tt else Raise e.

Definition of_option {E A} (e : E) (o : option A) : res E A :=
  match o with Some a => Ok a | None => Raise e end.

Definition is_ok {E A} (m : res E A) : bool :=
  match m with Ok _ => true | Raise _ => false end.

(** A list comprehension whose element expression may raise. *)
Fixpoint res_map {E A B} (f : A -> res E B) (l : list A) : res E (list B) :=
  match l with
  | [] => Ok []
  | x :: l' => y ← f x; ys ← res_map f l'; Ok (y :: ys)
  end.

Section Res.
Context {E A B : Type}.
Implicit Types (m : res E A) (f : A -> res E B).

Lemma bind_Ok_inv m f b : m ≫= f = Ok b -> exists a, m = Ok a /\ f a = Ok b.
Proof. destruct m; simpl; [eauto | discriminate]. Qed.

Lemma bind_Raise_inv m f e :
  m ≫= f = Raise e -> m = Raise e \/ exists a, m = Ok a /\ f a = Raise e.
Proof. destruct m; simpl; intros H; [right; eauto | left; congruence]. Qed.

Lemma of_option_Ok (e : E) (o : option A) a : of_option e o = Ok a <-> o = Some a.
Proof. destruct o; simpl; split; congruence. Qed.

Lemma guard_or_Ok (b : bool) (e : E) u : guard_or b e = Ok u <-> b = true.
Proof. destruct b, u; simpl; split; congruence. Qed.
End Res.

#[export] Hint Resolve bind_Ok_inv : py.
#[export] Hint Rewrite @of_option_Ok @guard_or_Ok : pyrw.

(** Run a bind chain known to succeed (or to raise) backwards. *)
Ltac res_inv :=
  repeat match goal with
  | H : (_ ≫= _) = Ok _ |- _ =>
      let a := fresh "a" in let H1 := fresh "Hr" in
      apply bind_Ok_inv in H; destruct H as (a & H1 & H)
  | H : of_option _ _ = Ok _ |- _ => apply of_option_Ok in H
  | H : guard_or _ _ = Ok _ |- _ => apply guard_or_Ok in H
  | H : Ok _ = Ok _ |- _ => injection H as H; subst
  | H : Raise _ = Ok _ |- _ => discriminate H
  | H : Ok _ = Raise _ |- _ => discriminate H
  end.

Lemma res_map_Ok {E A B} (f : A -> res E B) (l : list A) (k : list B) :
  res_map f l = Ok k <-> Forall2 (fun x y => f x = Ok y) l k.
Proof.
  revert k; induction l as [|x l IH]; intros k; simpl.
  - split; [intros [= <-]; constructor | by inversion 1].
  - split.
    + intros H. res_inv. constructor; [done | by apply IH].
    + inversion 1 as [|? y ? ys Hy Hl]; subst.
      rewrite Hy; simpl. apply IH in Hl. by rewrite Hl.
Qed.

(** ** Effects: state passing with exceptions

    A method of a stateful object: it receives the state of the objects it can
    reach and returns the new state, also when it raises. *)

Definition eff (W E A : Type) : Type := W -> res E A * W.

#[global] Instance eff_ret {W E} : MRet (eff W E) := fun _ a w => (Ok a, w).
#[global] Instance eff_bind {W E} : MBind (eff W E) := fun _ _ f m w =>
  match m w with (Ok a, w') => f a w' | (Raise e, w') => (Raise e, w') end.

#[global] Instance eff_fmap {W E} : FMap (eff W E) := fun _ _ f m w =>
  match m w with (Ok a, w') => (Ok (f a), w') | (Raise e, w') => (Raise e, w') end.

Definition eff_raise {W E A} (e : E) : eff W E A := fun w => (Raise e, w).
Definition eff_get {W E} : eff W E W := fun w => (Ok w, w).
Definition eff_put {W E} (w : W) : eff W E unit := fun _ => (Ok tt, w).
Definition eff_modify {W E} (f : W -> W) : eff W E unit := fun w => (Ok tt, f w).
Definition eff_lift {W E A} (m : res E A) : eff W E A := fun w => (m, w).
(** Run a method of a component of the state. *)
Definition eff_zoom {W V E A} (get : W -> V) (set : V -> W -> W) (m : eff V E A) : eff W E A :=
  fun w => let '(r, v) := m (get w) in (r, set v w).

(** ** Python dictionaries with string keys, in insertion order

    A [dict] is an association list whose keys are distinct; assigning to a
    present key keeps its position, as CPython does. *)

Abbreviation dict V := (list (string * V)).

Section Dict.
Context {V : Type}.
Implicit Types (d : dict V) (k : string) (v : V).

Fixpoint dget d k : option V :=
  match d with
  | [] => None
  | (k', v) :: d' => if String.eqb k k' then Some v else dget d' k
  end.

Fixpoint dset d k v : dict V :=
  match d with
  | [] => [(k, v)]
  | (k', v') :: d' => if String.eqb k k' then (k', v) :: d' else (k', v') :: dset d' k v
  end.

Fixpoint ddel d k : dict V :=
  match d with
  | [] => []
  | (k', v) :: d' => if String.eqb k k' then d' else (k', v) :: ddel d' k
  end.

Definition dmem d k : bool := bool_decide (is_Some (dget d k)).
Definition dkeys d : list string := map fst d.
Definition dvals d : list V := map snd d.
Definition dget_or d k v : V := default v (dget d k).
(** [{**d, **e}] and [d.update(e)]: the right operand wins. *)
Definition dmerge d (e : dict V) : dict V :=
  foldl (fun acc kv => dset acc kv.1 kv.2) d e.
Definition dict_ok d : Prop := NoDup (dkeys d).

Lemma dget_dset d k v k' :
  dget (dset d k v) k' = if String.eqb k' k then Some v else dget d k'.
Proof.
  induction d as [|[k0 v0] d IH]; simpl; [done|].
  destruct (String.eqb_spec k k0) as [->|Hk]; simpl.
  - by destruct (String.eqb k' k0).
  - destruct (String.eqb_spec k' k0) as [->|]; [|done].
    by destruct (String.eqb_spec k0 k) as [->|].
Qed.

Lemma dget_dset_eq d k v : dget (dset d k v) k = Some v.
Proof. by rewrite dget_dset, String.eqb_refl. Qed.

Lemma dget_dset_ne d k v k' : k' <> k -> dget (dset d k v) k' = dget d k'.
Proof. intros H%String.eqb_neq. by rewrite dget_dset, H. Qed.

Lemma dget_In d k v : dget d k = Some v -> (k, v) ∈ d.
Proof.
  induction d as [|[k0 v0] d IH]; simpl; [done|].
  destruct (String.eqb_spec k k0) as [->|]; intros H; simplify_eq; set_solver.
Qed.

Lemma dset_In d k v kv : In kv (dset d k v) -> In kv d \/ kv = (k, v).
Proof.
  induction d as [|[k0 v0] d IH]; simpl; [naive_solver|]. destruct (String.eqb_spec k k0) as [->|]; simpl; naive_solver.
Qed.

Lemma dget_None d k : dget d k = None <-> k ∉ dkeys d.
Proof.
  induction d as [|[k0 v0] d IH]; simpl; [set_solver|].
  destruct (String.eqb_spec k k0) as [->|]; set_solver.
Qed.

Lemma dkeys_dset d k v :
  dkeys (dset d k v) = if dmem d k then dkeys d else dkeys d ++ [k].
Proof.
  unfold dmem. induction d as [|[k0 v0] d IH]; simpl; [done|].
  destruct (String.eqb_spec k k0) as [->|]; simpl; [done|].
  rewrite IH. by case_bool_decide.
Qed.

Lemma dict_ok_dset d k v : dict_ok d -> dict_ok (dset d k v).
Proof.
  unfold dict_ok. rewrite dkeys_dset. unfold dmem.
  case_bool_decide as Hk; [done|]. intros Hd. apply NoDup_app. split; [done|].
  rewrite <- eq_None_not_Some, dget_None in Hk. split; [set_solver | apply NoDup_singleton].
Qed.

Lemma dget_ddel d k k' :
  dict_ok d -> dget (ddel d k) k' = if String.eqb k' k then None else dget d k'.
Proof.
  unfold dict_ok. induction d as [|[k0 v0] d IH]; simpl; [by destruct (String.eqb k' k)|].
  intros [Hn Hd]%NoDup_cons. destruct (String.eqb_spec k k0) as [->|Hk]; simpl.
  - destruct (String.eqb_spec k' k0) as [Hk|]; [|done]. subst k'. by apply dget_None.
  - rewrite IH by done. destruct (String.eqb_spec k' k0) as [Hk'|]; [|done]. subst k'.
    by destruct (String.eqb_spec k0 k) as [Hk'|]; [subst|].
Qed.

Lemma dict_ok_ddel d k : dict_ok d -> dict_ok (ddel d k).
Proof.
  unfold dict_ok. induction d as [|[k0 v0] d IH]; simpl; [done|].
  intros [Hn Hd]%NoDup_cons. destruct (String.eqb k k0); simpl; [done|].
  apply NoDup_cons. split; [|by apply IH].
  intros Hin. apply Hn. clear -Hin. induction d as [|[k1 v1] d IH]; simpl in *; [done|].
  destruct (String.eqb k k1); set_solver.
Qed.

(** A well-formed dictionary is determined by the order of its pairs: adding
    pairs with fresh distinct keys one by one appends them. *)
Lemma dset_fresh d k v : k ∉ dkeys d -> dset d k v = d ++ [(k, v)].
Proof.
  induction d as [|[k0 v0] d IH]; simpl; [done|]. intros H.
  destruct (String.eqb_spec k k0) as [->|]; [set_solver|].
  rewrite IH by set_solver. done.
Qed.

Lemma dmerge_fresh d (e : dict V) : dict_ok (d ++ e) -> dmerge d e = d ++ e.
Proof.
  unfold dmerge, dict_ok. revert d. induction e as [|[k v] e IH]; intros d; simpl.
  - by rewrite app_nil_r.
  - intros Hd. rewrite dset_fresh.
    + rewrite IH, <- (assoc_L (++)); [done|]. by rewrite <- (assoc_L (++)).
    + unfold dkeys in Hd. rewrite map_app in Hd. simpl in Hd.
      apply NoDup_app in Hd as (_ & Hd & _). intros Hin. apply (Hd k Hin). set_solver.
Qed.

Lemma dget_dmerge d (e : dict V) k :
  dict_ok e -> dget (dmerge d e) k = match dget e k with Some v => Some v | None => dget d k end.
Proof.
  unfold dmerge, dict_ok. revert d. induction e as [|[k0 v0] e IH]; intros d; simpl; [done|].
  intros [Hn He]%NoDup_cons. rewrite IH by done.
  destruct (String.eqb_spec k k0) as [->|Hk]; simpl.
  - rewrite (proj2 (dget_None e k0)) by done. apply dget_dset_eq.
  - destruct (dget e k); [done|]. by apply dget_dset_ne.
Qed.
End Dict.

#[export] Hint Resolve dict_ok_dset dict_ok_ddel : py.
#[export] Hint Rewrite @dget_dset_eq : pyrw.

(** ** Lists *)

(** Python's [next((x for x in l if p x), None)]. *)
Definition find_first {A} (p : A -> bool) (l : list A) : option A := List.find p l.
Lemma find_first_inv {A} (p : A -> bool) l x : find_first p l = Some x -> x ∈ l /\ p x = true.
Proof. unfold find_first. intros [H Hp]%find_some. by rewrite list_elem_of_In. Qed.

(** [l[:-1]] and [l[-1]]. *)
Definition py_all {A} (p : A -> bool) (l : list A) : bool := forallb p l.
Definition py_any {A} (p : A -> bool) (l : list A) : bool := existsb p l.

(** [k in l] for a list of strings. *)
Definition str_in (k : string) (l : list string) : bool := existsb (String.eqb k) l.
#[global] Arguments str_in : simpl never.

Lemma str_in_spec k l : str_in k l = true <-> k ∈ l.
Proof.
  unfold str_in. rewrite existsb_exists. split.
  - intros (x & Hx & He%String.eqb_eq). subst. by apply list_elem_of_In.
  - intros H. exists k. split; [by apply list_elem_of_In | apply String.eqb_refl].
Qed.

Lemma str_in_false k l : str_in k l = false <-> k ∉ l.
Proof. rewrite <- str_in_spec. destruct (str_in k l); split; congruence. Qed.

Lemma filter_length_le {A} (p : A -> bool) l : length (List.filter p l) <= length l.
Proof. induction l; simpl; [lia|]. destruct (p a); simpl; lia. Qed.

(** Nothing is selected. *)
Lemma filter_nil {A} (p : A -> bool) l : List.filter p l = [] <-> Forall (fun x => p x = false) l.
Proof.
  split.
  - induction l as [|x l IH]; simpl; [constructor|]. destruct (p x) eqn:E; [done|]. constructor; auto.
  - induction 1 as [|x l Hx _ IH]; simpl; [done|]. by rewrite Hx.
Qed.
Lemma omap_nil {A B} (f : A -> option B) l : omap f l = [] <-> Forall (fun x => f x = None) l.
Proof.
  induction l as [|x l IH]; csimpl; [split; constructor|]. rewrite Forall_cons, <- IH. destruct (f x); csimpl; naive_solver.
Qed.

(** A decidable property of small numbers is checked on all of them. *)
Lemma all_below (P : N -> bool) (k : nat) (n : N) :
  forallb (fun i => P (N.of_nat i)) (seq 0 k) = true -> (n < N.of_nat k)%N -> P n = true.
Proof.
  rewrite forallb_forall. intros H Hn. rewrite <- (N2Nat.id n). apply H, in_seq. lia.
Qed.

(** ** Sorting *)

(** [sorted]: stable insertion by an order given as a test. *)
Section Sort.
Context {A : Type} (leb : A -> A -> bool).

Fixpoint insert_by (x : A) (l : list A) : list A :=
  match l with
  | [] => [x]
  | y :: l' => if leb x y then x :: l else y :: insert_by x l'
  end.
Definition sort_by (l : list A) : list A := foldr insert_by [] l.

Lemma insert_by_perm x l : insert_by x l ≡ₚ x :: l.
Proof.
  induction l as [|y l IH]; simpl; [done|]. destruct (leb x y); [done|]. rewrite IH. apply Permutation_swap.
Qed.

Lemma sort_by_perm l : sort_by l ≡ₚ l.
Proof. induction l as [|x l IH]; simpl; [done|]. by rewrite insert_by_perm, IH. Qed.

Context (leb_total : forall x y, leb x y = false -> leb y x = true)
  (leb_trans : forall x y z, leb x y = true -> leb y z = true -> leb x z = true).

Definition ordered (l : list A) : Prop := StronglySorted (fun x y => leb x y = true) l.

Lemma insert_by_ordered x l : ordered l -> ordered (insert_by x l).
Proof.
  induction 1 as [|y l Hl IH Hy]; simpl; [repeat constructor|].
  destruct (leb x y) eqn:Hxy.
  - constructor; [by constructor|]. constructor; [done|]. eapply Forall_impl; [exact Hy|]. eauto.
  - constructor; [done|]. rewrite insert_by_perm. constructor; [by apply leb_total | done].
Qed.

Lemma sort_by_ordered l : ordered (sort_by l).
Proof. induction l; simpl; [constructor | by apply insert_by_ordered]. Qed.

(** An ordered list is its own sorted form. *)
Lemma sort_by_id l : ordered l -> sort_by l = l.
Proof.
  induction 1 as [|x l Hl IH Hx]; simpl; [done|]. rewrite IH. destruct l as [|y l]; simpl; [done|].
  apply Forall_cons in Hx as [-> _]. done.
Qed.

(** With an antisymmetric order, the sorted form does not depend on the order
    of the elements. *)
Lemma sort_by_unique l k : (forall x y, x ∈ l -> y ∈ l -> leb x y = true -> leb y x = true -> x = y) ->
  l ≡ₚ k -> sort_by l = sort_by k.
Proof.
  intros Ha Hp. assert (Hs : sort_by l ≡ₚ sort_by k) by (by rewrite !sort_by_perm).
  assert (Ha' : forall x y, x ∈ sort_by l -> y ∈ sort_by l -> leb x y = true -> leb y x = true -> x = y).
  { intros x y Hx Hy. apply Ha; by rewrite <- sort_by_perm. }
  pose proof (sort_by_ordered l) as Hl. pose proof (sort_by_ordered k) as Hk.
  clear Ha Hp. revert Hs Ha' Hl Hk. generalize (sort_by l) (sort_by k). clear l k.
  induction l as [|x l IH]; intros k Hp Ha Hl Hk; [by apply Permutation_nil in Hp|].
  destruct k as [|y k]; [by apply Permutation_sym, Permutation_nil in Hp|].
  apply StronglySorted_inv in Hl as [Hl Hx], Hk as [Hk Hy].
  assert (x = y) as ->.
  { assert (Hxin : x ∈ y :: k) by (rewrite <- Hp; apply list_elem_of_here).
    assert (Hyin : y ∈ x :: l) by (rewrite Hp; apply list_elem_of_here).
    apply elem_of_cons in Hxin as [?|Hxk], Hyin as [?|Hyl]; try done.
    rewrite Forall_forall in Hx, Hy. apply Ha; auto; set_solver. }
  f_equal. apply Permutation_cons_inv in Hp. apply IH; auto. intros; apply Ha; auto; set_solver.
Qed.
End Sort.

(** ** Reachability *)

Inductive steps {S : Type} (R : S -> S -> Prop) : S -> S -> Prop :=
| steps_refl s : steps R s s
| steps_snoc s t u : steps R s t -> R t u -> steps R s u.

Lemma steps_invariant {S} (R : S -> S -> Prop) (I : S -> Prop) s t :
  (forall a b, I a -> R a b -> I b) -> I s -> steps R s t -> I t.
Proof. intros HR Hs H. induction H; eauto. Qed.
