(* ===== verification/PyStr.v ===== *)
(** * Python text

    A Python [str] is represented by its UTF-8 encoding, a Stdlib [string] of
    bytes.  UTF-8 is self-synchronising, so equality, concatenation, substring
    tests, prefix and suffix tests and the ordering of code points are the
    byte-level operations; [len] and slices go through [py_chars], which groups
    the bytes into code points.  [lower] folds the ASCII letters (the text the
    code compares with is ASCII); [strip] removes every code point for which
    [str.isspace] holds. *)
From Stdlib Require Import ZArith Lia Ascii String.
From stdpp Require Import base tactics list strings pretty.
From S2P Require Import Prelude.

#[global] Arguments String.append !_ _ / : simpl nomatch.

(** ** Characters *)

Definition code (a : ascii) : N := N_of_ascii a.
Definition is_cont (a : ascii) : bool := (128 <=? code a)%N && (code a <? 192)%N.
Definition is_digit (a : ascii) : bool := (48 <=? code a)%N && (code a <=? 57)%N.
Definition is_upper (a : ascii) : bool := (65 <=? code a)%N && (code a <=? 90)%N.
Definition is_lower (a : ascii) : bool := (97 <=? code a)%N && (code a <=? 122)%N.
Definition is_alnum (a : ascii) : bool := is_digit a || is_upper a || is_lower a.
Definition is_hex_lower (a : ascii) : bool := is_digit a || ((97 <=? code a)%N && (code a <=? 102)%N).
(** A member of a set of ASCII characters. *)
Fixpoint char_in (a : ascii) (set : string) : bool :=
  match set with
  | EmptyString => false
  | String b set' => Ascii.eqb a b || char_in a set'
  end.

Definition lower_char (a : ascii) : ascii :=
  if is_upper a then ascii_of_N (code a + 32) else a.

Definition chr (n : N) : string := String (ascii_of_N n) EmptyString.
Definition nl : string := chr 10.
Definition cr : string := chr 13.
Definition tab : string := chr 9.
Definition dquote : string := chr 34.

(** ** Code points, length and slices *)

Definition starts_cont (s : string) : bool :=
  match s with String a _ => is_cont a | EmptyString => false end.

Fixpoint py_chars (s : string) : list string :=
  match s with
  | EmptyString => []
  | String a s' =>
      match py_chars s' with
      | c :: cs => if starts_cont c then String a c :: cs
                   else String a EmptyString :: c :: cs
      | [] => [String a EmptyString]
      end
  end.

Fixpoint str_join (l : list string) : string :=
  match l with [] => EmptyString | c :: l' => String.append c (str_join l') end.

Definition py_len (s : string) : nat := length (py_chars s).
(** [s[:n]] and [s[n:]]. *)
Definition py_take (n : nat) (s : string) : string := str_join (take n (py_chars s)).
Definition py_drop (n : nat) (s : string) : string := str_join (drop n (py_chars s)).
(** [len(s.encode())]. *)
Definition py_bytes_len (s : string) : nat := String.length s.

(** ** Case, whitespace *)

Fixpoint py_lower (s : string) : string :=
  match s with
  | EmptyString => EmptyString
  | String a s' => String (lower_char a) (py_lower s')
  end.

(** The code points of [str.isspace], each as its UTF-8 bytes. *)
Definition bytes (l : list N) : string := foldr (fun n s => String (ascii_of_N n) s) EmptyString l.
Definition space_chars : list string :=
  map bytes
    ([[9]; [10]; [11]; [12]; [13]; [28]; [29]; [30]; [31]; [32];
      [194; 133]; [194; 160]; [225; 154; 128]] ++
     map (fun n => [226; 128; n]) [128; 129; 130; 131; 132; 133; 134; 135; 136; 137; 138; 168; 169; 175] ++
     [[226; 129; 159]; [227; 128; 128]])%N.
Definition is_space (c : string) : bool := str_in c space_chars.

Fixpoint drop_while {A} (p : A -> bool) (l : list A) : list A :=
  match l with
  | [] => []
  | x :: l' => if p x then drop_while p l' else x :: l'
  end.

Definition strip_list {A} (p : A -> bool) (l : list A) : list A :=
  rev (drop_while p (rev (drop_while p l))).

Definition py_strip (s : string) : string := str_join (strip_list is_space (py_chars s)).

(** ** Substrings *)

Definition py_startswith (p s : string) : bool := String.prefix p s.

Fixpoint py_in (sub s : string) : bool :=
  String.prefix sub s ||
  match s with EmptyString => false | String _ s' => py_in sub s' end.

Fixpoint str_drop (n : nat) (s : string) : string :=
  match n, s with
  | S n', String _ s' => str_drop n' s'
  | _, _ => s
  end.

Definition py_removeprefix (p s : string) : string :=
  if String.prefix p s then str_drop (String.length p) s else s.

Definition str_rev (s : string) : string :=
  string_of_list_ascii (rev (list_ascii_of_string s)).

Definition py_endswith (p s : string) : bool := String.prefix (str_rev p) (str_rev s).
Definition py_removesuffix (p s : string) : string :=
  if py_endswith p s then str_rev (str_drop (String.length p) (str_rev s)) else s.

(** [s.split(sep, 1)[0]]: everything before the first [sep]. *)
Fixpoint py_before (sep s : string) : string :=
  if String.prefix sep s then EmptyString
  else match s with
       | EmptyString => EmptyString
       | String a s' => String a (py_before sep s')
       end.

(** [s.split(sep)] on one character. *)
Fixpoint py_split (sep : ascii) (s : string) : list string :=
  match s with
  | EmptyString => [EmptyString]
  | String a s' =>
      if Ascii.eqb a sep then EmptyString :: py_split sep s'
      else match py_split sep s' with
           | x :: l => String a x :: l
           | [] => [String a EmptyString]
           end
  end.

Definition py_truthy_str (s : string) : bool := negb (String.eqb s EmptyString).
(** [a or b] on strings. *)
Definition str_or (a b : string) : string := if py_truthy_str a then a else b.

(** ** Integers *)

Definition int_str (z : Z) : string := pretty z.

Definition digit_val (a : ascii) : Z := Z.of_N (code a) - 48.
Fixpoint digits_val (acc : Z) (s : string) : Z :=
  match s with
  | EmptyString => acc
  | String a s' => digits_val (acc * 10 + digit_val a)%Z s'
  end.
Fixpoint str_forall (p : ascii -> bool) (s : string) : bool :=
  match s with EmptyString => true | String a s' => p a && str_forall p s' end.

(** [repr(s)] of a string whose non-ASCII characters are printable. *)
Definition hex_digit (n : N) : ascii := if (n <? 10)%N then ascii_of_N (48 + n) else ascii_of_N (87 + n).
Definition repr_char (q a : ascii) : string :=
  if Ascii.eqb a q || Ascii.eqb a "\" then String "\" (String a EmptyString)
  else if Ascii.eqb a "010" then "\n"
  else if Ascii.eqb a "013" then "\r"
  else if Ascii.eqb a "009" then "\t"
  else if (code a <? 32)%N || (code a =? 127)%N
  then String.append "\x" (String (hex_digit (code a / 16)) (String (hex_digit (code a mod 16)) EmptyString))
  else String a EmptyString.
Fixpoint repr_body (q : ascii) (s : string) : string :=
  match s with EmptyString => EmptyString | String a s' => String.append (repr_char q a) (repr_body q s') end.
Definition py_repr (s : string) : string :=
  let q := if char_in "'" s && negb (char_in "034" s) then "034"%char else "'"%char in
  String q (String.append (repr_body q s) (String q EmptyString)).

(** ** Lemmas *)

Lemma str_app_assoc (a b c : string) : String.append (String.append a b) c = String.append a (String.append b c).
Proof. induction a; simpl; congruence. Qed.

Lemma str_app_nil_r (a : string) : String.append a EmptyString = a.
Proof. induction a; simpl; congruence. Qed.

Lemma str_length_app (a b : string) : String.length (String.append a b) = String.length a + String.length b.
Proof. induction a; simpl; congruence. Qed.

Lemma str_join_app l k : str_join (l ++ k) = String.append (str_join l) (str_join k).
Proof. induction l as [|x l IH]; simpl; [done|]. by rewrite IH, str_app_assoc. Qed.

Lemma str_join_chars s : str_join (py_chars s) = s.
Proof.
  induction s as [|a s IH]; simpl; [done|].
  destruct (py_chars s) as [|c cs]; simpl in *; [congruence|].
  destruct (starts_cont c); simpl; congruence.
Qed.

Lemma py_take_drop n s : String.append (py_take n s) (py_drop n s) = s.
Proof. unfold py_take, py_drop. by rewrite <- str_join_app, take_drop, str_join_chars. Qed.

(** A slice is a prefix, and no longer in bytes. *)
Lemma py_take_bytes n s : py_bytes_len (py_take n s) <= py_bytes_len s.
Proof.
  unfold py_bytes_len. rewrite <- (py_take_drop n s) at 2. rewrite str_length_app. lia.
Qed.

Lemma py_chars_cons_start a s :
  exists c cs, py_chars (String a s) = c :: cs /\ starts_cont c = is_cont a.
Proof.
  simpl. destruct (py_chars s) as [|c cs]; [by eexists _, _|].
  destruct (starts_cont c); by eexists _, _.
Qed.

(** Grouping an appended string: the seam is a code point boundary exactly when
    the right operand does not start with a continuation byte. *)
Lemma py_chars_app s t :
  starts_cont t = false -> py_chars (String.append s t) = py_chars s ++ py_chars t.
Proof.
  intros Ht. induction s as [|a s IH]; [done|]. simpl. rewrite IH.
  destruct (py_chars s) as [|c cs] eqn:Hs; simpl.
  - destruct t as [|b t]; [done|].
    destruct (py_chars_cons_start b t) as (c & cs & -> & Hc).
    simpl in Ht. by rewrite Hc, Ht.
  - by destruct (starts_cont c).
Qed.

Lemma py_chars_tail s c cs : py_chars s = c :: cs ->
  c <> EmptyString /\ py_chars c = [c] /\ py_chars (str_join cs) = cs /\ starts_cont (str_join cs) = false.
Proof.
  revert c cs. induction s as [|a s IH]; intros c cs; simpl; [done|].
  destruct (py_chars s) as [|c0 cs0] eqn:Hs; [intros [= <- <-]; done|].
  destruct (IH _ _ eq_refl) as (Hne & Hc & Hcs & Hst).
  destruct (starts_cont c0) eqn:Hc0; intros [= <- <-].
  - split_and!; [done| |done|done]. simpl. by rewrite Hc, Hc0.
  - assert (Hj : str_join (c0 :: cs0) = s) by (rewrite <- Hs; apply str_join_chars).
    split_and!; [done|done|by rewrite Hj|]. simpl.
    destruct c0; [done|]. by simpl in *.
Qed.

Lemma py_chars_suffix s l1 l2 : py_chars s = l1 ++ l2 -> py_chars (str_join l2) = l2.
Proof.
  revert s. induction l1 as [|c l1 IH]; intros s H; simpl in H.
  - rewrite <- H at 1. by rewrite str_join_chars.
  - destruct (py_chars_tail _ _ _ H) as (_ & _ & Ht & _). by apply (IH (str_join (l1 ++ l2))).
Qed.

Lemma py_chars_prefix s l1 l2 : py_chars s = l1 ++ l2 -> py_chars (str_join l1) = l1.
Proof.
  revert s. induction l1 as [|c l1 IH]; intros s H; simpl in H; [done|].
  destruct (py_chars_tail _ _ _ H) as (Hne & Hc & Ht & Hst). simpl.
  rewrite py_chars_app.
  - rewrite Hc, (IH (str_join (l1 ++ l2))) by done. done.
  - destruct l1 as [|c1 l1]; [done|]. simpl in Hst |- *.
    destruct (py_chars_tail (str_join (c1 :: l1 ++ l2)) c1 (l1 ++ l2) Ht) as (Hne1 & _).
    by destruct c1.
Qed.

(** [len(s[:n]) == min(n, len(s))]. *)
Lemma py_len_take n s : py_len (py_take n s) = n `min` py_len s.
Proof.
  unfold py_len, py_take.
  rewrite (py_chars_prefix s _ (drop n (py_chars s))) by (by rewrite take_drop).
  by rewrite length_take.
Qed.

Lemma py_take_take k n s : py_take k (py_take n s) = py_take (k `min` n) s.
Proof.
  unfold py_take. rewrite (py_chars_prefix s (take n (py_chars s)) (drop n (py_chars s))) by (by rewrite take_drop).
  by rewrite take_take.
Qed.

Lemma py_take_all n s : py_len s <= n -> py_take n s = s.
Proof. intros H. unfold py_take. rewrite take_ge by done. apply str_join_chars. Qed.

Lemma py_take_idem n s : py_take n (py_take n s) = py_take n s.
Proof. apply py_take_all. rewrite py_len_take. lia. Qed.

Lemma drop_while_split {A} (p : A -> bool) l :
  exists k, l = k ++ drop_while p l /\ Forall (fun x => p x = true) k /\
    match drop_while p l with [] => True | x :: _ => p x = false end.
Proof.
  induction l as [|x l (k & Hl & Hk & Hh)]; simpl; [by exists []|].
  destruct (p x) eqn:Hx.
  - exists (x :: k). simpl. split_and!; [by f_equal | by constructor | done].
  - by exists [].
Qed.

Lemma drop_while_head {A} (p : A -> bool) l x k : drop_while p l = x :: k -> p x = false.
Proof. destruct (drop_while_split p l) as (? & _ & _ & H). intros He. by rewrite He in H. Qed.

Lemma drop_while_id {A} (p : A -> bool) l :
  match l with [] => True | x :: _ => p x = false end -> drop_while p l = l.
Proof. destruct l as [|x l]; simpl; [done|]. by intros ->. Qed.

(** [strip] keeps a contiguous slice and is idempotent. *)
Lemma strip_list_split {A} (p : A -> bool) l :
  exists k1 k2, l = k1 ++ strip_list p l ++ k2.
Proof.
  unfold strip_list. destruct (drop_while_split p l) as (k1 & H1 & _).
  destruct (drop_while_split p (rev (drop_while p l))) as (k2 & H2 & _).
  exists k1, (rev k2). rewrite H1 at 1. f_equal.
  rewrite <- rev_app_distr, <- H2. by rewrite rev_involutive.
Qed.

Lemma strip_list_idem {A} (p : A -> bool) l : strip_list p (strip_list p l) = strip_list p l.
Proof.
  unfold strip_list at 1. set (m := strip_list p l).
  assert (Hl : drop_while p (rev m) = rev m).
  { apply drop_while_id. subst m. unfold strip_list. rewrite rev_involutive.
    by destruct (drop_while_split p (rev (drop_while p l))) as (? & _ & _ & H). }
  assert (Hf : drop_while p m = m).
  { apply drop_while_id. subst m. unfold strip_list.
    destruct (drop_while_split p l) as (k0 & _ & _ & Hh).
    destruct (drop_while_split p (rev (drop_while p l))) as (k & Hk & Hall & _).
    set (d := drop_while p l) in *. set (e := drop_while p (rev d)) in *.
    assert (Hd : d = rev e ++ rev k) by (by rewrite <- rev_app_distr, <- Hk, rev_involutive).
    destruct (rev e) as [|x r] eqn:He; [done|]. by rewrite Hd in Hh. }
  by rewrite Hf, Hl, rev_involutive.
Qed.

Lemma py_chars_strip s : py_chars (py_strip s) = strip_list is_space (py_chars s).
Proof.
  unfold py_strip. destruct (strip_list_split is_space (py_chars s)) as (k1 & k2 & H).
  assert (H2 := py_chars_suffix _ _ _ H). by apply (py_chars_prefix _ _ _ H2).
Qed.

Lemma py_strip_idem s : py_strip (py_strip s) = py_strip s.
Proof. unfold py_strip at 1. by rewrite py_chars_strip, strip_list_idem. Qed.

Lemma lower_char_idem a : lower_char (lower_char a) = lower_char a.
Proof. by destruct a as [[] [] [] [] [] [] [] []]. Qed.

Lemma py_lower_idem s : py_lower (py_lower s) = py_lower s.
Proof. induction s; simpl; [done|]. rewrite lower_char_idem. congruence. Qed.

Lemma prefix_app p s : String.prefix p (String.append p s) = true.
Proof. induction p as [|a p IH]; simpl; [by destruct s|]. by destruct (ascii_dec a a). Qed.

Lemma prefix_split p s : String.prefix p s = true <-> exists t, s = String.append p t.
Proof.
  split; [|intros [t ->]; apply prefix_app].
  revert s. induction p as [|a p IH]; intros s; [by exists s|].
  destruct s as [|b s]; simpl; [done|]. destruct (ascii_dec a b) as [->|]; [|done].
  intros (t & ->)%IH. by exists t.
Qed.

(** [sub in s] holds exactly when [s] is [a + sub + b]. *)
Lemma py_in_spec sub s :
  py_in sub s = true <-> exists a b, s = String.append a (String.append sub b).
Proof.
  induction s as [|c s IH]; cbn [py_in]; rewrite orb_true_iff, prefix_split.
  - split; [intros [(t & Ht)|]; [by exists EmptyString, t | done]|].
    intros (a & b & H). destruct a; [|done]. left. by exists b.
  - rewrite IH. split.
    + intros [(t & ->)|(a & b & ->)]; [by exists EmptyString, t | by exists (String c a), b].
    + intros ([|c' a] & b & H); simpl in H; [left; by exists b|].
      right. injection H as -> ->. by exists a, b.
Qed.

Lemma str_drop_app p s : str_drop (String.length p) (String.append p s) = s.
Proof. induction p as [|a p IH]; simpl; [by destruct s | done]. Qed.

Lemma py_removeprefix_app p s : py_removeprefix p (String.append p s) = s.
Proof. unfold py_removeprefix. by rewrite prefix_app, str_drop_app. Qed.

Lemma str_rev_app a b : str_rev (String.append a b) = String.append (str_rev b) (str_rev a).
Proof.
  unfold str_rev. assert (H : forall x y, list_ascii_of_string (String.append x y)
    = list_ascii_of_string x ++ list_ascii_of_string y) by (induction x; simpl; congruence).
  assert (H' : forall x y, string_of_list_ascii (x ++ y)
    = String.append (string_of_list_ascii x) (string_of_list_ascii y)) by (induction x; simpl; congruence).
  by rewrite H, rev_app_distr, H'.
Qed.

Lemma str_rev_involutive a : str_rev (str_rev a) = a.
Proof.
  unfold str_rev. by rewrite list_ascii_of_string_of_list_ascii, rev_involutive,
    string_of_list_ascii_of_string.
Qed.

Lemma str_rev_length a : String.length (str_rev a) = String.length a.
Proof.
  unfold str_rev. assert (H : forall l, String.length (string_of_list_ascii l) = length l)
    by (induction l; simpl; congruence).
  rewrite H, length_rev. by induction a; simpl; congruence.
Qed.

Lemma py_removesuffix_app s p : py_removesuffix p (String.append s p) = s.
Proof.
  unfold py_removesuffix, py_endswith. rewrite str_rev_app, prefix_app.
  rewrite <- (str_rev_length p), str_drop_app. apply str_rev_involutive.
Qed.

Lemma py_truthy_str_true s : py_truthy_str s = true <-> s <> EmptyString.
Proof. unfold py_truthy_str. rewrite negb_true_iff. apply String.eqb_neq. Qed.

Lemma py_truthy_str_false s : py_truthy_str s = false <-> s = EmptyString.
Proof. unfold py_truthy_str. rewrite negb_false_iff. apply String.eqb_eq. Qed.

#[export] Hint Rewrite py_truthy_str_true py_truthy_str_false str_in_spec : pyrw.
#[export] Hint Rewrite str_join_chars py_strip_idem py_lower_idem : pyrw.

(** The first code point begins with the first byte, and [strip] keeps it when
    no white space begins with that byte. *)
Lemma py_chars_head a s : exists t cs, py_chars (String a s) = String a t :: cs.
Proof.
  simpl. destruct (py_chars s) as [|c cs]; [by eexists _, _|]. destruct (starts_cont c); by eexists _, _.
Qed.

Lemma py_take_head n a s : 0 < n -> exists t, py_take n (String a s) = String a t.
Proof.
  intros Hn. unfold py_take. destruct (py_chars_head a s) as (t & cs & ->).
  destruct n; [lia|]. simpl. eauto.
Qed.

Definition starts_space (a : ascii) : bool :=
  existsb (fun c => match c with String b _ => Ascii.eqb a b | EmptyString => false end) space_chars.

Lemma is_space_head a t : starts_space a = false -> is_space (String a t) = false.
Proof.
  unfold starts_space, is_space, str_in. generalize space_chars. intros l.
  induction l as [|c l IH]; cbn [existsb]; [done|]. intros [H1 H2]%orb_false_iff. rewrite IH by done.
  destruct c as [|b c]; [done|]. simpl. by rewrite H1.
Qed.

Lemma drop_while_keeps_last {A} (p : A -> bool) l x :
  p x = false -> exists k, drop_while p (l ++ [x]) = k ++ [x].
Proof.
  intros Hx. induction l as [|y l [k Hk]]; simpl; [rewrite Hx; by exists []|].
  destruct (p y); [by exists k | by exists (y :: l)].
Qed.

Lemma py_strip_head a s : starts_space a = false -> exists t, py_strip (String a s) = String a t.
Proof.
  intros Ha. unfold py_strip, strip_list. destruct (py_chars_head a s) as (t & cs & ->).
  simpl drop_while. rewrite (is_space_head a t Ha). cbn [rev].
  destruct (drop_while_keeps_last is_space (rev cs) (String a t) (is_space_head a t Ha)) as [k ->].
  rewrite rev_app_distr. simpl. eauto.
Qed.

(** Text without continuation bytes has one code point per byte. *)
Lemma py_chars_single s : str_forall (fun a => negb (is_cont a)) s = true ->
  py_chars s = map (fun a => String a EmptyString) (list_ascii_of_string s).
Proof.
  induction s as [|a s IH]; [done|]. cbn [str_forall]. intros [Ha Hs]%andb_true_iff.
  cbn [py_chars list_ascii_of_string map]. rewrite IH by done.
  destruct s as [|b s]; [done|]. cbn [list_ascii_of_string map starts_cont].
  cbn [str_forall] in Hs. apply andb_true_iff in Hs as [Hb _]. by rewrite (proj1 (negb_true_iff _) Hb).
Qed.

(** ** Order *)

Lemma str_leb_total x y : String.leb x y = false -> String.leb y x = true.
Proof. intros H. destruct (String.leb_total x y); [congruence | done]. Qed.

Lemma str_leb_cons a b x y : String.leb (String a x) (String b y) =
  match (code a ?= code b)%N with Lt => true | Gt => false | Eq => String.leb x y end.
Proof. unfold String.leb, code. simpl. unfold Ascii.compare. by destruct (_ ?= _)%N. Qed.

Lemma str_leb_trans x y z : String.leb x y = true -> String.leb y z = true -> String.leb x z = true.
Proof.
  revert y z. induction x as [|a x IH]; intros [|b y] [|c z]; try done. rewrite !str_leb_cons.
  destruct (N.compare_spec (code a) (code b)) as [Hab|Hab|Hab]; try done;
    destruct (N.compare_spec (code b) (code c)) as [Hbc|Hbc|Hbc]; try done;
    destruct (N.compare_spec (code a) (code c)) as [Hac|Hac|Hac]; try done; try lia. apply IH.
Qed.

(** [sorted(l)] of strings. *)
Definition py_sorted (l : list string) : list string := sort_by String.leb l.

Lemma py_sorted_perm l : py_sorted l ≡ₚ l.
Proof. apply sort_by_perm. Qed.
Lemma py_sorted_ordered l : ordered String.leb (py_sorted l).
Proof. apply sort_by_ordered; eauto using str_leb_total, str_leb_trans. Qed.
Lemma py_sorted_unique l k : l ≡ₚ k -> py_sorted l = py_sorted k.
Proof.
  apply sort_by_unique; eauto using str_leb_total, str_leb_trans. intros. by apply String.leb_antisym.
Qed.

(** ** [s.replace(old, new)] for a non-empty [old]: the occurrences from the left
    that do not overlap.  [skip]: the characters of an occurrence yet to drop. *)
Section Replace.
Context (old new : string).

Fixpoint replace_from (skip : nat) (s : string) : string :=
  match s with
  | EmptyString => EmptyString
  | String a s' =>
      match skip with
      | S k => replace_from k s'
      | O => if String.prefix old s then String.append new (replace_from (String.length old - 1) s')
             else String a (replace_from 0 s')
      end
  end.
Definition py_replace (s : string) : string := replace_from 0 s.

Lemma replace_skip p s : replace_from (String.length p) (String.append p s) = replace_from 0 s.
Proof. induction p as [|a p IH]; simpl; [by destruct s | done]. Qed.

Lemma replace_match s : old <> EmptyString -> py_replace (String.append old s) = String.append new (py_replace s).
Proof.
  intros Ho. pose proof (prefix_app old s) as Hp. pose proof (replace_skip (str_drop 1 old) s) as Hs.
  unfold py_replace. destruct old as [|a o] eqn:E; [done|]. rewrite <- E in *.
  assert (Hc : String.append old s = String a (String.append o s)) by (by rewrite E). rewrite Hc in *.
  cbn [replace_from]. rewrite Hp. f_equal. rewrite E in *. cbn in Hs |- *. by rewrite Nat.sub_0_r.
Qed.
End Replace.

(** ** A replaced text does not come back *)

Definition lacks (c : ascii) (s : string) : bool := str_forall (fun a => negb (Ascii.eqb a c)) s.

Lemma prefix_before c old x y : lacks c old = true ->
  String.prefix old (String.append x (String c y)) = true -> String.prefix old x = true.
Proof.
  unfold lacks. revert x. induction old as [|a old IH]; intros x Hl H; [by destruct x|]. cbn [str_forall] in Hl. py_bool.
  destruct x as [|b x]; cbn [String.append String.prefix] in *; destruct (ascii_dec a _) as [->|]; try done.
  - by rewrite Ascii.eqb_refl in H0.
  - by apply IH.
Qed.

Lemma py_in_around c old x y : old <> EmptyString -> lacks c old = true ->
  py_in old (String.append x (String c y)) = true -> py_in old x = true \/ py_in old y = true.
Proof.
  intros Ho Hl. induction x as [|a x IH]; intros H.
  - right. cbn [String.append py_in] in H. apply orb_true_iff in H as [H|H]; [|done].
    apply (prefix_before c old EmptyString y Hl) in H. by destruct old.
  - cbn [String.append py_in] in H. apply orb_true_iff in H as [H|H].
    + left. apply (prefix_before c old (String a x) y Hl) in H. cbn [py_in]. by rewrite H.
    + apply IH in H as [H|H]; [left; cbn [py_in]; rewrite H; apply orb_true_r | by right].
Qed.

Section Scrub.
Context (old middle : string) (b c : ascii) (nonempty : old <> EmptyString) (no_b : lacks b old = true) (no_c : lacks c old = true).
Let new : string := String b (String.append middle (String c EmptyString)).

Lemma prefix_replace t s : lacks b t = true -> String.prefix t (py_replace old new s) = true -> String.prefix t s = true.
Proof.
  revert s. induction t as [|a t IH]; intros s Hl H; [by destruct s|]. unfold lacks in Hl. cbn [str_forall] in Hl. py_bool.
  destruct s as [|d s]; [done|]. unfold py_replace in H. cbn [replace_from] in H.
  destruct (String.prefix old (String d s)).
  - cbn in H. destruct (ascii_dec a b) as [->|]; [by rewrite Ascii.eqb_refl in H0 | done].
  - cbn [String.prefix] in *. destruct (ascii_dec a d); [|done]. by apply IH.
Qed.

Lemma replace_removes s : py_in old middle = false -> py_in old (py_replace old new s) = false.
Proof using nonempty no_b no_c.
  intros Hm. induction s as [s IH] using (induction_ltof1 _ String.length). unfold ltof in IH.
  destruct s as [|a s]; [by destruct old|]. destruct (String.prefix old (String a s)) eqn:Hp.
  - apply prefix_split in Hp as [t Ht]. rewrite Ht, replace_match by done.
    assert (Hlt : String.length t < String.length (String a s)).
    { rewrite Ht, str_length_app. destruct old; simpl; [done|lia]. }
    specialize (IH t Hlt). apply not_true_is_false. intros H. unfold new in H at 1. cbn [String.append] in H.
    apply (py_in_around b old EmptyString) in H as [H|H]; [by destruct old| |done..].
    rewrite str_app_assoc in H. apply (py_in_around c old) in H as [H|H]; [congruence | cbn in H; congruence | done..].
  - unfold py_replace. cbn [replace_from]. rewrite Hp. cbn [py_in]. apply orb_false_iff. split.
    + apply not_true_is_false. intros H. change (String a (replace_from old new 0 s)) with (String a (py_replace old new s)) in H.
      destruct old as [|d o] eqn:E; [done|]. cbn [String.prefix] in H, Hp. destruct (ascii_dec d a); [|done].
      unfold lacks in no_b. cbn [str_forall] in no_b. py_bool. rewrite <- E in H. apply prefix_replace in H; [congruence | done].
    + apply IH. simpl. lia.
Qed.
End Scrub.
