(* ===== verification/Regex.v ===== *)
(** * The part of [re] the SDK uses

    A backtracking matcher with Python's priorities (leftmost, greedy or lazy),
    over lists of code points, with [findall] and [sub("")] for patterns that
    match at least one character.  What [\w] matches outside ASCII is the
    argument [word_char]. *)
From Stdlib Require Import ZArith Lia Ascii String.
From stdpp Require Import base tactics list strings.
From S2P Require Import Prelude PyStr.

Inductive regex :=
| RChar (p : string -> bool)
| REps
| RCat (a b : regex)
| RAlt (a b : regex)
| RStar (greedy : bool) (r : regex)
| RGroup (n : nat) (r : regex).

(** The text of each group that took part. *)
Definition groups : Type := list (nat * list string).
Definition group (n : nat) (g : groups) : list string :=
  match List.find (fun p => Nat.eqb (fst p) n) g with Some p => snd p | None => [] end.

(** [matches r s g k]: match a prefix of [s] by [r], then let [k] go on with what
    is left; the first success in priority order.  An iteration of a star has to
    consume something, so [length s] of them are enough. *)
Fixpoint matches {A} (r : regex) (s : list string) (g : groups) (k : list string -> groups -> option A) : option A :=
  match r with
  | RChar p => match s with c :: s' => if p c then k s' g else None | [] => None end
  | REps => k s g
  | RCat a b => matches a s g (fun s' g' => matches b s' g' k)
  | RAlt a b => match matches a s g k with Some x => Some x | None => matches b s g k end
  | RStar greedy a =>
      (fix loop (n : nat) (s : list string) (g : groups) : option A :=
         let more :=
           match n with
           | O => None
           | S n' => matches a s g (fun s' g' => if (length s' <? length s)%nat then loop n' s' g' else None)
           end in
         if (greedy : bool) then match more with Some x => Some x | None => k s g end
         else match k s g with Some x => Some x | None => more end) (length s) s g
  | RGroup n a => matches a s g (fun s' g' => k s' ((n, take (length s - length s') s) :: g'))
  end.

Definition match_at (r : regex) (s : list string) : option (list string * groups) :=
  matches r s [] (fun s' g => Some (s', g)).

(** The matches, left to right, none overlapping the one before. *)
Fixpoint find_all (fuel : nat) (r : regex) (s : list string) : list groups :=
  match fuel with
  | O => []
  | S fuel' =>
      match s with
      | [] => []
      | _ :: s' =>
          match match_at r s with
          | Some (rest, g) => g :: find_all fuel' r rest
          | None => find_all fuel' r s'
          end
      end
  end.
Definition findall (r : regex) (s : string) : list groups :=
  let cs := py_chars s in find_all (length cs) r cs.

(** [sub("", s)]. *)
Fixpoint sub_all (fuel : nat) (r : regex) (s : list string) : list string :=
  match fuel with
  | O => s
  | S fuel' =>
      match s with
      | [] => []
      | c :: s' =>
          match match_at r s with
          | Some (rest, _) => sub_all fuel' r rest
          | None => c :: sub_all fuel' r s'
          end
      end
  end.
Definition sub_empty (r : regex) (s : string) : string :=
  let cs := py_chars s in str_join (sub_all (length cs) r cs).

(** ** Building patterns *)

Definition is_char (c d : string) : bool := String.eqb c d.
(** A literal, and one under [(?i)]: besides the other case, [i] is matched by
    U+0130 and U+0131, [k] by U+212A and [s] by U+017F. *)
Fixpoint lit_chars (l : list string) : regex :=
  match l with [] => REps | [c] => RChar (is_char c) | c :: l' => RCat (RChar (is_char c)) (lit_chars l') end.
Definition lit (s : string) : regex := lit_chars (py_chars s).
Definition fold_char (c d : string) : bool :=
  String.eqb (py_lower c) (py_lower d) ||
  (String.eqb (py_lower c) "i" && (String.eqb d (bytes [196; 176]%N) || String.eqb d (bytes [196; 177]%N))) ||
  (String.eqb (py_lower c) "k" && String.eqb d (bytes [226; 132; 170]%N)) ||
  (String.eqb (py_lower c) "s" && String.eqb d (bytes [197; 191]%N)).
Fixpoint ilit_chars (l : list string) : regex :=
  match l with [] => REps | [c] => RChar (fold_char c) | c :: l' => RCat (RChar (fold_char c)) (ilit_chars l') end.
Definition ilit (s : string) : regex := ilit_chars (py_chars s).
Definition dot : regex := RChar (fun c => negb (String.eqb c nl)).
Definition any_char : regex := RChar (fun _ => true).
Definition plus (r : regex) : regex := RCat r (RStar true r).
Definition opt (r : regex) : regex := RAlt r REps.
Fixpoint cats (l : list regex) : regex :=
  match l with [] => REps | [r] => r | r :: l' => RCat r (cats l') end.

Example lazy_stops_first :
  sub_empty (cats [ilit "<think>"; RStar false dot; ilit "</think>"]) "a<THINK>b</think>c</think>d" = "ac</think>d".
Proof. vm_compute. reflexivity. Qed.

(** ** Patterns that begin or end with an assertion *)

(** [before] looks at the character before the position, if any, and at what
    follows; [after] at what is left. *)
Record pattern := {
  p_before : option string -> list string -> bool; p_body : regex; p_after : list string -> bool }.
Definition anywhere (r : regex) : pattern := {| p_before := fun _ _ => true; p_body := r; p_after := fun _ => true |}.

(** A [$] at the end of a pattern: the end, or before a last line feed. *)
Definition at_end (s : list string) : bool := match s with [] => true | [c] => is_char nl c | _ => false end.
(** A [\b] at the beginning of a pattern. *)
Definition word_boundary (word_char : string -> bool) (prev : option string) (s : list string) : bool :=
  xorb (match prev with Some c => word_char c | None => false end) (match s with c :: _ => word_char c | [] => false end).

Definition match_pattern (p : pattern) (prev : option string) (s : list string) : option (list string * groups) :=
  if p_before p prev s then matches (p_body p) s [] (fun s' g => if p_after p s' then Some (s', g) else None) else None.

(** [search]: what is before the first match, the match, what is after it, and
    its groups. *)
Fixpoint search_from (p : pattern) (prev : option string) (s : list string)
  : option (list string * list string * list string * groups) :=
  match match_pattern p prev s with
  | Some (rest, g) => Some ([], take (length s - length rest) s, rest, g)
  | None =>
      match s with
      | [] => None
      | c :: s' =>
          match search_from p (Some c) s' with
          | Some (b, m, rest, g) => Some (c :: b, m, rest, g)
          | None => None
          end
      end
  end.

(** The matches from left to right, and the pieces between them, for a pattern
    that matches at least one character. *)
Fixpoint find_matches (fuel : nat) (p : pattern) (prev : option string) (s : list string) : list (list string * groups) :=
  match fuel with
  | O => []
  | S fuel' =>
      match search_from p prev s with
      | None => []
      | Some (b, m, rest, g) =>
          (m, g) :: find_matches fuel' p (match last (b ++ m) with Some c => Some c | None => prev end) rest
      end
  end.
Fixpoint split_pieces (fuel : nat) (p : pattern) (prev : option string) (s : list string) : list (list string) :=
  match fuel with
  | O => [s]
  | S fuel' =>
      match search_from p prev s with
      | None => [s]
      | Some (b, m, rest, _) =>
          b :: split_pieces fuel' p (match last (b ++ m) with Some c => Some c | None => prev end) rest
      end
  end.

(** ** What a match consumes *)

(** A lower bound on the number of characters. *)
Fixpoint width (r : regex) : nat :=
  match r with
  | RChar _ => 1
  | REps => 0
  | RCat a b => width a + width b
  | RAlt a b => width a `min` width b
  | RStar _ _ => 0
  | RGroup _ a => width a
  end.

Lemma matches_consumes {A} (r : regex) : forall s g (k : list string -> groups -> option A) x,
  matches r s g k = Some x -> exists m s' g', s = m ++ s' /\ width r <= length m /\ k s' g' = Some x.
Proof.
  induction r as [p| |a IHa b IHb|a IHa b IHb|greedy a IHa|n a IHa]; intros s g k x H; simpl in H.
  - destruct s as [|c s]; [done|]. destruct (p c); [|done]. by exists [c], s, g.
  - by exists [], s, g.
  - apply IHa in H as (m & s' & g' & -> & Hm & H). apply IHb in H as (m' & s'' & g'' & -> & Hm' & H).
    exists (m ++ m'), s'', g''. rewrite length_app, (assoc_L (++)). simpl. split_and!; [done | lia | done].
  - destruct (matches a s g k) as [y|] eqn:Ha.
    + injection H as <-. apply IHa in Ha as (m & s' & g' & -> & Hm & Ha). exists m, s', g'. simpl. split_and!; [done | lia | done].
    + apply IHb in H as (m & s' & g' & -> & Hm & H). exists m, s', g'. simpl. split_and!; [done | lia | done].
  - remember (length s) as n eqn:Hn. clear Hn. revert s g H. induction n as [|n IHn]; intros s g H.
    + exists [], s, g. simpl. destruct greedy; [|destruct (k s g)]; split_and!; done || lia.
    + set (more := matches a s g _) in H.
      assert (Hcase : k s g = Some x \/ more = Some x).
      { destruct greedy; [destruct more; naive_solver | destruct (k s g); naive_solver]. }
      destruct Hcase as [Hk|Hmore]; [exists [], s, g; simpl; split_and!; [done | lia | done]|].
      apply IHa in Hmore as (m & s' & g' & -> & Hm & Hmore). destruct (length s' <? _)%nat; [|done].
      apply IHn in Hmore as (m' & s'' & g'' & -> & _ & Hmore).
      exists (m ++ m'), s'', g''. rewrite (assoc_L (++)). simpl. split_and!; [done | lia | done].
  - apply IHa in H as (m & s' & g' & -> & Hm & H). by exists m, s', ((n, take (length (m ++ s') - length s') (m ++ s')) :: g').
Qed.

Lemma match_pattern_consumes p prev s rest g : match_pattern p prev s = Some (rest, g) ->
  exists m, s = m ++ rest /\ width (p_body p) <= length m /\ p_after p rest = true.
Proof.
  unfold match_pattern. destruct (p_before p prev s); [|done]. intros H.
  apply matches_consumes in H as (m & s' & g' & -> & Hm & H). destruct (p_after p s') eqn:Ha; [|done].
  injection H as <- <-. by exists m.
Qed.

(** A search finds a leftmost match. *)
Lemma search_from_Some p prev s b m rest g : search_from p prev s = Some (b, m, rest, g) ->
  s = b ++ m ++ rest /\ width (p_body p) <= length m /\ p_after p rest = true.
Proof.
  revert prev b. induction s as [|c s IH]; intros prev b H; cbn [search_from] in H.
  - destruct (match_pattern p prev []) as [[r g']|] eqn:Hm; [|done]. injection H as <- <- <- <-.
    apply match_pattern_consumes in Hm as (m' & Hs & Hw & Ha).
    symmetry in Hs. apply app_eq_nil in Hs as [-> ->]. done.
  - destruct (match_pattern p prev (c :: s)) as [[r g']|] eqn:Hm.
    + assert (b = [] /\ m = take (length (c :: s) - length r) (c :: s) /\ rest = r) as (-> & -> & ->) by (split_and!; congruence).
      apply match_pattern_consumes in Hm as (m' & Hs & Hw & Ha). rewrite Hs, length_app. replace (length m' + length r - length r) with (length m') by lia.
      by rewrite take_app_length.
    + destruct (search_from p (Some c) s) as [[[[b' m'] r'] g']|] eqn:Hf; [|done]. injection H as <- <- <- <-.
      apply IH in Hf as (-> & Hw & Ha). done.
Qed.

(** ** The leftmost match, without a search

    [r] matches [m] in front of [s], and no match of [r] begins inside [b] in
    front of [s]. *)
Definition is_match (r : regex) (m s : list string) : Prop := exists g, match_at r (m ++ s) = Some (s, g).
Definition free (r : regex) (b s : list string) : Prop :=
  forall x y, b = x ++ y -> y <> [] -> match_at r (y ++ s) = None.

Lemma search_leftmost r prev s : 0 < width r ->
  match search_from (anywhere r) prev s with
  | Some (b, m, rest, _) => s = b ++ m ++ rest /\ m <> [] /\ is_match r m rest /\ free r b (m ++ rest)
  | None => free r s []
  end.
Proof.
  intros Hw. revert prev. induction s as [|c s IH]; intros prev; cbn [search_from];
    change (match_pattern (anywhere r)) with (fun (_ : option string) s => match_at r s); cbv beta.
  - destruct (match_at r []) as [[rest g]|] eqn:Hm.
    + unfold match_at in Hm. apply matches_consumes in Hm as (m & s' & g' & Hs & Hlen & _).
      symmetry in Hs. apply app_eq_nil in Hs as [-> ->]. simpl in Hlen. lia.
    + intros x y H Hy. symmetry in H. apply app_eq_nil in H as [-> ->]. done.
  - destruct (match_at r (c :: s)) as [[rest g]|] eqn:Hm.
    + pose proof Hm as Hc. apply (match_pattern_consumes (anywhere r) prev) in Hc as (m & Hs & Hlen & _). simpl in Hlen.
      replace (take (length (c :: s) - length rest) (c :: s)) with m.
      2: { rewrite Hs, length_app. replace (length m + length rest - length rest) with (length m) by lia. by rewrite take_app_length. }
      split_and!; [done | by destruct m; simpl in *; [lia|] | exists g; by rewrite <- Hs |].
      intros x y Hxy Hy. symmetry in Hxy. apply app_eq_nil in Hxy as [_ ->]. done.
    + specialize (IH (Some c)). destruct (search_from (anywhere r) (Some c) s) as [[[[b m] rest] g]|].
      * destruct IH as (-> & Hne & Hma & Hf). split_and!; [done..|]. intros x y Hxy Hy. destruct x as [|d x].
        -- simpl in Hxy. subst y. exact Hm.
        -- injection Hxy as <- Hxy. by eapply Hf.
      * intros x y Hxy Hy. destruct x as [|d x].
        -- simpl in Hxy. subst y. by rewrite app_nil_r.
        -- injection Hxy as <- Hxy. by eapply IH.
Qed.

Lemma search_free r prev b m rest : 0 < width r -> is_match r m rest -> free r b (m ++ rest) ->
  exists g, search_from (anywhere r) prev (b ++ m ++ rest) = Some (b, m, rest, g).
Proof.
  intros Hw [g Hm] Hf. revert prev. induction b as [|c b IH]; intros prev.
  - exists g. simpl. destruct (m ++ rest) eqn:Hs; cbn [search_from];
      change (match_pattern (anywhere r) prev) with (match_at r); rewrite Hm; rewrite <- Hs, length_app;
      replace (length m + length rest - length rest) with (length m) by lia; by rewrite take_app_length.
  - assert (Hc : match_at r ((c :: b) ++ m ++ rest) = None) by (by apply (Hf [])).
    destruct (IH ltac:(intros x y -> Hy; by apply (Hf (c :: x))) (Some c)) as (g' & Hg).
    exists g'. simpl. simpl in Hc. change (match_pattern (anywhere r) prev) with (match_at r). by rewrite Hc, Hg.
Qed.

Lemma search_none r prev s : 0 < width r -> free r s [] -> search_from (anywhere r) prev s = None.
Proof.
  intros Hw Hf. pose proof (search_leftmost r prev s Hw) as H.
  destruct (search_from (anywhere r) prev s) as [[[[b m] rest] g]|]; [|done].
  destruct H as (-> & Hm & [g' Hg] & _). specialize (Hf b (m ++ rest) eq_refl). rewrite app_nil_r, Hg in Hf.
  destruct m; [done|]. by specialize (Hf ltac:(done)).
Qed.

(** ** What a match is made of *)

(** The language of a pattern, its groups aside. *)
Inductive lang : regex -> list string -> Prop :=
| lang_char p c : p c = true -> lang (RChar p) [c]
| lang_eps : lang REps []
| lang_cat a b m n : lang a m -> lang b n -> lang (RCat a b) (m ++ n)
| lang_left a b m : lang a m -> lang (RAlt a b) m
| lang_right a b m : lang b m -> lang (RAlt a b) m
| lang_stop greedy a : lang (RStar greedy a) []
| lang_more greedy a m n : lang a m -> lang (RStar greedy a) n -> lang (RStar greedy a) (m ++ n)
| lang_group n a m : lang a m -> lang (RGroup n a) m.

Fixpoint group_free (r : regex) : bool :=
  match r with
  | RChar _ | REps => true
  | RCat a b | RAlt a b => group_free a && group_free b
  | RStar _ a => group_free a
  | RGroup _ _ => false
  end.

Lemma matches_lang {A} (r : regex) : forall s g (k : list string -> groups -> option A) x,
  matches r s g k = Some x ->
  exists m s' g', s = m ++ s' /\ lang r m /\ (group_free r = true -> g' = g) /\ k s' g' = Some x.
Proof.
  induction r as [p| |a IHa b IHb|a IHa b IHb|greedy a IHa|n a IHa]; intros s g k x H; simpl in H |- *.
  - destruct s as [|c s]; [done|]. destruct (p c) eqn:Hp; [|done]. exists [c], s, g. by repeat constructor.
  - exists [], s, g. by repeat constructor.
  - apply IHa in H as (m & s' & g' & -> & Hm & Hg & H). apply IHb in H as (m' & s'' & g'' & -> & Hm' & Hg' & H).
    exists (m ++ m'), s'', g''. rewrite (assoc_L (++)). split_and!; [done | by constructor | | done].
    intros [? ?]%andb_true_iff. rewrite Hg' by done. auto.
  - destruct (matches a s g k) as [y|] eqn:Ha.
    + injection H as <-. apply IHa in Ha as (m & s' & g' & -> & Hm & Hg & Ha). exists m, s', g'.
      split_and!; [done | by apply lang_left | intros [? ?]%andb_true_iff; auto | done].
    + apply IHb in H as (m & s' & g' & -> & Hm & Hg & H). exists m, s', g'.
      split_and!; [done | by apply lang_right | intros [? ?]%andb_true_iff; auto | done].
  - remember (length s) as n eqn:Hn. clear Hn. revert s g H. induction n as [|n IHn]; intros s g H.
    + exists [], s, g. destruct greedy; [|destruct (k s g)]; split_and!; done || constructor.
    + set (more := matches a s g _) in H.
      assert (Hcase : k s g = Some x \/ more = Some x).
      { destruct greedy; [destruct more; naive_solver | destruct (k s g); naive_solver]. }
      destruct Hcase as [Hk|Hmore]; [exists [], s, g; split_and!; done || constructor|].
      apply IHa in Hmore as (m & s' & g' & -> & Hm & Hg & Hmore). destruct (length s' <? _)%nat; [|done].
      apply IHn in Hmore as (m' & s'' & g'' & -> & Hm' & Hg' & Hmore).
      exists (m ++ m'), s'', g''. rewrite (assoc_L (++)). split_and!; [done | by constructor | | done].
      intros Hf. rewrite Hg' by done. auto.
  - apply IHa in H as (m & s' & g' & -> & Hm & Hg & H).
    exists m, s', ((n, take (length (m ++ s') - length s') (m ++ s')) :: g'). by repeat constructor.
Qed.

(** A group holds what it matched. *)
Lemma matches_group {A} n (r : regex) s g (k : list string -> groups -> option A) x : group_free r = true ->
  matches (RGroup n r) s g k = Some x -> exists m s', s = m ++ s' /\ lang r m /\ k s' ((n, m) :: g) = Some x.
Proof.
  intros Hr H. simpl in H. apply matches_lang in H as (m & s' & g' & -> & Hm & Hg & H). rewrite (Hg Hr) in H.
  exists m, s'. rewrite length_app in H. replace (length m + length s' - length s') with (length m) in H by lia.
  by rewrite take_app_length in H.
Qed.

Lemma lang_star_forall greedy p m : lang (RStar greedy (RChar p)) m -> Forall (fun c => p c = true) m.
Proof.
  remember (RStar greedy (RChar p)) as r eqn:Hr. intros H. induction H; simplify_eq; [constructor|].
  inversion H; subst. constructor; auto.
Qed.

Lemma lang_plus_forall p m : lang (plus (RChar p)) m -> Forall (fun c => p c = true) m /\ m <> [].
Proof.
  unfold plus. inversion 1 as [| |? ? x y Hx Hy| | | | |]; subst. inversion Hx; subst.
  split; [|done]. constructor; [done|]. by eapply lang_star_forall.
Qed.

(** Each match found lies in the text. *)
Lemma find_matches_in fuel p prev s m g : (m, g) ∈ find_matches fuel p prev s ->
  exists x y prev', s = x ++ m ++ y /\ match_pattern p prev' (m ++ y) = Some (y, g).
Proof.
  revert prev s. induction fuel as [|fuel IH]; intros prev s; cbn [find_matches]; [set_solver|].
  destruct (search_from p prev s) as [[[[b m0] rest] g0]|] eqn:Hs; [|set_solver]. intros [H|H]%elem_of_cons.
  - injection H as -> ->. clear IH. revert prev b Hs. induction s as [|c s IH]; intros prev b Hs; cbn [search_from] in Hs.
    + destruct (match_pattern p prev []) as [[r g']|] eqn:Hm; [|done]. injection Hs as <- <- <- <-.
      pose proof Hm as Hc. apply match_pattern_consumes in Hc as (m' & Hs & _).
      symmetry in Hs. apply app_eq_nil in Hs as [-> ->]. exists [], [], prev. done.
    + destruct (match_pattern p prev (c :: s)) as [[r g']|] eqn:Hm.
      * assert (b = [] /\ m0 = take (length (c :: s) - length r) (c :: s) /\ rest = r /\ g0 = g') as (-> & -> & -> & ->) by (split_and!; congruence).
        pose proof Hm as Hc. apply match_pattern_consumes in Hc as (m' & Hc & _). exists [], r, prev.
        rewrite Hc, length_app. replace (length m' + length r - length r) with (length m') by lia.
        rewrite take_app_length. rewrite <- Hc. done.
      * destruct (search_from p (Some c) s) as [[[[b' m'] r'] g']|] eqn:Hf; [|done]. injection Hs as <- <- <- <-.
        apply IH in Hf as (x & y & prev' & -> & Hx). by exists (c :: x), y, prev'.
  - apply search_from_Some in Hs as (-> & _ & _). apply IH in H as (x & y & prev' & -> & H).
    exists (b ++ m0 ++ x), y, prev'. by rewrite !(assoc_L (++)).
Qed.

Lemma lang_lit_chars l m : lang (lit_chars l) m -> m = l.
Proof.
  revert m. induction l as [|c [|d l] IH]; intros m H; simpl in H; [by inversion H|..].
  - inversion H as [p x Hx| | | | | | |]; subst. apply String.eqb_eq in Hx. by subst.
  - inversion H as [| |? ? x y Hx Hy| | | | |]; subst. apply IH in Hy as ->.
    inversion Hx as [p z Hz| | | | | | |]; subst. apply String.eqb_eq in Hz. by subst.
Qed.

Lemma lang_lit s m : lang (lit s) m -> m = py_chars s.
Proof. apply lang_lit_chars. Qed.

(** A part of a pattern without groups, and a part that is a group. *)
Lemma matches_plain {A} (r b : regex) s g (k : list string -> groups -> option A) x : group_free r = true ->
  matches (RCat r b) s g k = Some x -> exists m s', s = m ++ s' /\ lang r m /\ matches b s' g k = Some x.
Proof.
  intros Hr H. cbn [matches] in H. apply matches_lang in H as (m & s' & g' & -> & Hm & Hg & H). rewrite (Hg Hr) in H. eauto.
Qed.

Lemma matches_group_cat {A} n (r b : regex) s g (k : list string -> groups -> option A) x : group_free r = true ->
  matches (RCat (RGroup n r) b) s g k = Some x ->
  exists m s', s = m ++ s' /\ lang r m /\ matches b s' ((n, m) :: g) k = Some x.
Proof. intros Hr H. change (matches (RGroup n r) s g (fun s' g' => matches b s' g' k) = Some x) in H. exact (matches_group n r s g _ x Hr H). Qed.
