(* ===== verification/PyFloat.v ===== *)
(** * Python floats

    A Python [float] is an IEEE 754 binary64 number, represented by the
    Standard Library's [spec_float].  [float_of_dec] is [float("...")] of a
    decimal literal (correctly rounded, ties to even); [float_repr] is
    [repr(f)]: the shortest decimal that reads back as the same number. *)
From Stdlib Require Import ZArith Lia Ascii String SpecFloat.
From stdpp Require Import base tactics list strings pretty.
From S2P Require Import Prelude PyStr.

Definition f_prec : Z := 53.
Definition f_emax : Z := 1024.

#[global] Instance spec_float_eq_dec : EqDecision spec_float.
Proof. solve_decision. Defined.

(** [m * 10^e] (negated when [neg]), rounded to the nearest float. *)
Definition float_of_dec (neg : bool) (m e : Z) : spec_float :=
  match m with
  | Zpos p =>
      if (0 <=? e)%Z then binary_normalize f_prec f_emax (if neg then - (m * 10 ^ e) else m * 10 ^ e) 0 neg
      else
        let '(q, e', l) := SFdiv_core_binary f_prec f_emax m 0 (10 ^ (- e)) 0 in
        binary_round_aux f_prec f_emax neg q e' l
  | _ => S754_zero neg
  end.

Definition float_of_Z (z : Z) : spec_float := float_of_dec (z <? 0)%Z (Z.abs z) 0.

(** ** Exact comparisons, between floats and with integers *)

(** A finite float is [m * 2^e] exactly. *)
Definition float_parts (f : spec_float) : option (Z * Z) :=
  match f with
  | S754_zero _ => Some (0, 0)%Z
  | S754_finite s m e => Some (if s then Zneg m else Zpos m, e)
  | _ => None
  end.

Definition dyadic_compare (a b : Z * Z) : comparison :=
  let e := Z.min a.2 b.2 in
  ((a.1 * 2 ^ (a.2 - e)) ?= (b.1 * 2 ^ (b.2 - e)))%Z.

(** [None] when the operands are unordered (a NaN). *)
Definition float_compare (f g : spec_float) : option comparison :=
  match f, g with
  | S754_nan, _ | _, S754_nan => None
  | S754_infinity s, S754_infinity t => Some (if Bool.eqb s t then Eq else if s then Lt else Gt)
  | S754_infinity s, _ => Some (if s then Lt else Gt)
  | _, S754_infinity s => Some (if s then Gt else Lt)
  | _, _ =>
      match float_parts f, float_parts g with
      | Some a, Some b => Some (dyadic_compare a b)
      | _, _ => None
      end
  end.

Definition float_compare_Z (f : spec_float) (z : Z) : option comparison :=
  match f with
  | S754_nan => None
  | S754_infinity s => Some (if s then Lt else Gt)
  | _ => match float_parts f with Some a => Some (dyadic_compare a (z, 0)%Z) | None => None end
  end.

(** [int(f)] of a finite float: truncation toward zero. *)
Definition float_trunc (f : spec_float) : option Z :=
  match float_parts f with
  | Some (m, e) => Some (if (0 <=? e)%Z then m * 2 ^ e else Z.quot m (2 ^ (- e)))%Z
  | None => None
  end.

Definition float_is_zero (f : spec_float) : bool :=
  match f with S754_zero _ => true | _ => false end.

(** ** Printing *)

Definition z_digits (z : Z) : Z := Z.of_nat (String.length (int_str z)).

(** Round the quotient of non-negative integers to nearest, ties to even. *)
Definition div_half_even (a b : Z) : Z :=
  let q := (a / b)%Z in let r := (a mod b)%Z in
  if (2 * r <? b)%Z then q
  else if (b <? 2 * r)%Z then (q + 1)%Z
  else if Z.even q then q else (q + 1)%Z.

Fixpoint trim_zeros (fuel : nat) (d e : Z) : Z * Z :=
  match fuel with
  | O => (d, e)
  | S fuel' => if ((d mod 10 =? 0) && (0 <? d))%Z then trim_zeros fuel' (d / 10) (e + 1) else (d, e)
  end.

(** The shortest [d * 10^e] that rounds to [f], trying [n], [n+1], ... digits. *)
Fixpoint shortest (fuel : nat) (n : Z) (f : spec_float) (num den k : Z) : option (Z * Z) :=
  match fuel with
  | O => None
  | S fuel' =>
      let e := (k - n)%Z in
      let d := if (0 <=? e)%Z then div_half_even num (den * 10 ^ e)
               else div_half_even (num * 10 ^ (- e)) den in
      if bool_decide (float_of_dec false d e = f) then Some (trim_zeros 20 d e)
      else shortest fuel' (n + 1) f num den k
  end.

Fixpoint zeros (n : nat) : string :=
  match n with O => EmptyString | S n' => String "0" (zeros n') end.

(** Lay out [d * 10^e] the way [float.__repr__] does: fixed notation when the
    decimal exponent is in [-4, 16), scientific otherwise. *)
Definition dec_layout (d e : Z) : string :=
  let ds := int_str d in
  let nd := Z.of_nat (String.length ds) in
  let x := (nd + e - 1)%Z in
  if ((-4 <=? x) && (x <? 16))%Z then
    if (0 <=? e)%Z then String.append ds (String.append (zeros (Z.to_nat e)) ".0")
    else if (0 <? nd + e)%Z then
      String.append (py_take (Z.to_nat (nd + e)) ds) (String.append "." (py_drop (Z.to_nat (nd + e)) ds))
    else String.append "0." (String.append (zeros (Z.to_nat (- (nd + e)))) ds)
  else
    let m := if (nd =? 1)%Z then ds
             else String.append (py_take 1 ds) (String.append "." (py_drop 1 ds)) in
    let ex := int_str (Z.abs x) in
    let ex2 := if (Z.abs x <? 10)%Z then String.append "0" ex else ex in
    String.append m (String.append (if (x <? 0)%Z then "e-" else "e+") ex2).

Definition float_repr_abs (m : positive) (e : Z) : string :=
  let '(num, den) := if (0 <=? e)%Z then (Zpos m * 2 ^ e, 1)%Z else (Zpos m, 2 ^ (- e))%Z in
  let k := if (den <=? num)%Z then z_digits (num / den)
           else (1 - z_digits ((den + num - 1) / num - 1))%Z in
  match shortest 17 1 (S754_finite false m e) num den k with
  | Some (d, e') => dec_layout d e'
  | None => "0.0"
  end.

Definition float_repr (f : spec_float) : string :=
  match f with
  | S754_zero s => if s then "-0.0" else "0.0"
  | S754_infinity s => if s then "-inf" else "inf"
  | S754_nan => "nan"
  | S754_finite s m e => String.append (if s then "-" else EmptyString) (float_repr_abs m e)
  end.

Example float_repr_tenth : float_repr (float_of_dec false 1 (-1)) = "0.1".
Proof. vm_compute. reflexivity. Qed.
Example float_repr_third :
  float_repr (float_of_dec true 3333333333333333333333 (-22)) = "-0.3333333333333333".
Proof. vm_compute. reflexivity. Qed.
Example float_repr_big : float_repr (float_of_dec false 15 20) = "1.5e+21".
Proof. vm_compute. reflexivity. Qed.
Example float_repr_small : float_repr (float_of_dec false 5 (-324)) = "5e-324".
Proof. vm_compute. reflexivity. Qed.
Example float_repr_int : float_repr (float_of_Z 1800) = "1800.0".
Proof. vm_compute. reflexivity. Qed.

(** ** Comparing both ways *)

Lemma dyadic_compare_swap a b : dyadic_compare b a = CompOpp (dyadic_compare a b).
Proof. unfold dyadic_compare. rewrite (Z.min_comm b.2). apply Z.compare_antisym. Qed.

Lemma float_compare_swap f g : float_compare g f = CompOpp <$> float_compare f g.
Proof.
  destruct f as [sf|sf| |sf mf ef], g as [sg|sg| |sg mg eg]; try done; try (by destruct sf); try (by destruct sg);
    try (by destruct sf, sg); unfold float_compare; cbn [float_parts fmap option_fmap option_map]; f_equal; apply dyadic_compare_swap.
Qed.
