(* ===== verification/Json.v ===== *)
(** * JSON documents and the values Python code receives from them

    [json] is the type of what [json.loads] returns (None, bool, int, float,
    str, list, dict); the same type models an untyped argument ([Any]).
    [json_loads] and [json_dumps] are the standard module's parser and printer
    ([ensure_ascii] escapes included), and the round trip between them is
    proved for the values a parse can return. *)
From Stdlib Require Import ZArith Lia Ascii String SpecFloat.
From stdpp Require Import base tactics list strings pretty option.
From S2P Require Import Prelude PyStr PyFloat.

#[export] Set Warnings "-register-all".

Inductive json : Type :=
| JNull
| JBool (b : bool)
| JInt (z : Z)
| JFloat (f : spec_float)
| JStr (s : string)
| JArr (l : list json)
| JObj (d : list (string * json)).

Abbreviation jdict := (dict json).

(** Structural induction through arrays and objects. *)
Section JsonInd.
Context (P : json -> Prop)
  (Pnull : P JNull) (Pbool : forall b, P (JBool b)) (Pint : forall z, P (JInt z))
  (Pfloat : forall f, P (JFloat f)) (Pstr : forall s, P (JStr s))
  (Parr : forall l, Forall P l -> P (JArr l))
  (Pobj : forall d, Forall (fun kv => P kv.2) d -> P (JObj d)).

Fixpoint json_induction (v : json) : P v :=
  match v with
  | JNull => Pnull
  | JBool b => Pbool b
  | JInt z => Pint z
  | JFloat f => Pfloat f
  | JStr s => Pstr s
  | JArr l => Parr l ((fix go l : Forall P l :=
      match l with
      | [] => List.Forall_nil _
      | x :: l' => List.Forall_cons _ _ _ (json_induction x) (go l')
      end) l)
  | JObj d => Pobj d ((fix go d : Forall (fun kv => P kv.2) d :=
      match d with
      | [] => List.Forall_nil _
      | kv :: d' => List.Forall_cons _ _ _ (json_induction kv.2) (go d')
      end) d)
  end.
End JsonInd.

(** ** Type tests, truth and equality *)

Definition is_str (v : json) : bool := match v with JStr _ => true | _ => false end.
Definition is_bool (v : json) : bool := match v with JBool _ => true | _ => false end.
Definition is_dict (v : json) : bool := match v with JObj _ => true | _ => false end.
Definition is_list (v : json) : bool := match v with JArr _ => true | _ => false end.
Definition is_null (v : json) : bool := match v with JNull => true | _ => false end.
(** [isinstance(v, int)]: a bool is an int. *)
Definition is_int (v : json) : bool := match v with JInt _ | JBool _ => true | _ => false end.

(** [bool(v)]. *)
Definition py_truthy (v : json) : bool :=
  match v with
  | JNull => false
  | JBool b => b
  | JInt z => negb (z =? 0)%Z
  | JFloat f => negb (float_is_zero f)
  | JStr s => py_truthy_str s
  | JArr l => match l with [] => false | _ => true end
  | JObj d => match d with [] => false | _ => true end
  end.

Definition json_int (v : json) : option Z :=
  match v with JInt z => Some z | JBool b => Some (if b then 1 else 0)%Z | _ => None end.

(** Numeric comparison across bool, int and float; [None] when an operand is
    not a number or is a NaN. *)
Definition num_compare (a b : json) : option comparison :=
  match a, b with
  | JFloat f, JFloat g => float_compare f g
  | JFloat f, _ => z ← json_int b; float_compare_Z f z
  | _, JFloat g => z ← json_int a; CompOpp <$> float_compare_Z g z
  | _, _ => x ← json_int a; y ← json_int b; Some (x ?= y)%Z
  end.

Definition is_num (v : json) : bool :=
  match v with JInt _ | JBool _ | JFloat _ => true | _ => false end.

(** [a == b] (of values that share no NaN object). *)
Fixpoint py_eq (a b : json) {struct a} : bool :=
  match a, b with
  | JNull, JNull => true
  | JStr s, JStr t => String.eqb s t
  | JArr l, JArr k =>
      (fix go l k :=
         match l, k with
         | [], [] => true
         | x :: l', y :: k' => py_eq x y && go l' k'
         | _, _ => false
         end) l k
  | JObj d, JObj e =>
      (length d =? length e)%nat &&
      (fix go d :=
         match d with
         | [] => true
         | (k, x) :: d' =>
             match dget e k with Some y => py_eq x y | None => false end && go d'
         end) d
  | _, _ => if is_num a && is_num b
            then match num_compare a b with Some Eq => true | _ => false end
            else false
  end.

(** Two values read from the same text: what [is] says of the items of a list and
    of its sorted copy. *)
Fixpoint json_same (a b : json) {struct a} : bool :=
  match a, b with
  | JNull, JNull => true
  | JBool x, JBool y => Bool.eqb x y
  | JInt x, JInt y => (x =? y)%Z
  | JFloat f, JFloat g => bool_decide (f = g)
  | JStr s, JStr t => String.eqb s t
  | JArr l, JArr k =>
      (fix go l k :=
         match l, k with
         | [], [] => true
         | x :: l', y :: k' => json_same x y && go l' k'
         | _, _ => false
         end) l k
  | JObj d, JObj e =>
      (fix go d e :=
         match d, e with
         | [], [] => true
         | (k, x) :: d', (k', y) :: e' => String.eqb k k' && json_same x y && go d' e'
         | _, _ => false
         end) d e
  | _, _ => false
  end.

Lemma json_same_refl v : json_same v v = true.
Proof.
  induction v as [|b|z|f|s|l IH|d IH] using json_induction; simpl; [done|by destruct b|apply Z.eqb_refl|by apply bool_decide_eq_true|apply String.eqb_refl|..].
  - induction IH as [|x l Hx _ IHl]; [done|]. by rewrite Hx.
  - induction IH as [|[k x] d Hx _ IHd]; [done|]. simpl in Hx. by rewrite String.eqb_refl, Hx.
Qed.

(** [str(v)] and [repr(v)]. *)
Fixpoint py_repr_json (v : json) : string :=
  match v with
  | JNull => "None"
  | JBool b => if b then "True" else "False"
  | JInt z => int_str z
  | JFloat f => float_repr f
  | JStr s => py_repr s
  | JArr l =>
      let items := (fix go l := match l with
        | [] => EmptyString
        | [x] => py_repr_json x
        | x :: l' => String.append (py_repr_json x) (String.append ", " (go l'))
        end) l in
      String.append "[" (String.append items "]")
  | JObj d =>
      let items := (fix go d := match d with
        | [] => EmptyString
        | [(k, x)] => String.append (py_repr k) (String.append ": " (py_repr_json x))
        | (k, x) :: d' => String.append (py_repr k) (String.append ": "
            (String.append (py_repr_json x) (String.append ", " (go d'))))
        end) d in
      String.append "{" (String.append items "}")
  end.

Definition py_str (v : json) : string := match v with JStr s => s | _ => py_repr_json v end.

(** [d.get(k)] and [d.get(k, default)] on a decoded object. *)
Definition jget (d : jdict) (k : string) : json := default JNull (dget d k).
Definition jget_or (d : jdict) (k : string) (v : json) : json := default v (dget d k).

(** ** Parsing: [json.loads] *)

Definition is_json_ws (a : ascii) : bool :=
  ((code a =? 32) || (code a =? 9) || (code a =? 10) || (code a =? 13))%N.
Fixpoint skip_ws (s : string) : string :=
  match s with
  | String a s' => if is_json_ws a then skip_ws s' else s
  | EmptyString => s
  end.

Definition hex_val (a : ascii) : option N :=
  let n := code a in
  if is_digit a then Some (n - 48)%N
  else if ((97 <=? n) && (n <=? 102))%N then Some (n - 87)%N
  else if ((65 <=? n) && (n <=? 70))%N then Some (n - 55)%N
  else None.

Definition hex4 (a b c d : ascii) : option N :=
  w ← hex_val a; x ← hex_val b; y ← hex_val c; z ← hex_val d;
  Some (w * 4096 + x * 256 + y * 16 + z)%N.

(** The UTF-8 encoding of a code point. *)
Definition utf8 (n : N) : string :=
  if (n <? 128)%N then bytes [n]
  else if (n <? 2048)%N then bytes [192 + n / 64; 128 + n mod 64]%N
  else if (n <? 65536)%N then bytes [224 + n / 4096; 128 + (n / 64) mod 64; 128 + n mod 64]%N
  else bytes [240 + n / 262144; 128 + (n / 4096) mod 64; 128 + (n / 64) mod 64; 128 + n mod 64]%N.

Definition is_high (n : N) : bool := ((55296 <=? n) && (n <? 56320))%N.
Definition is_low (n : N) : bool := ((56320 <=? n) && (n <? 57344))%N.

Definition esc_char (a : ascii) : option string :=
  if Ascii.eqb a "034" then Some dquote
  else if Ascii.eqb a "\" then Some "\"
  else if Ascii.eqb a "/" then Some "/"
  else if Ascii.eqb a "b" then Some (chr 8)
  else if Ascii.eqb a "f" then Some (chr 12)
  else if Ascii.eqb a "n" then Some nl
  else if Ascii.eqb a "r" then Some cr
  else if Ascii.eqb a "t" then Some tab
  else None.

Definition push (c : string) (o : option (string * string)) : option (string * string) :=
  match o with Some (x, r) => Some (String.append c x, r) | None => None end.

(** The body of a string literal, after its opening quote, to its closing one. *)
Fixpoint json_string (s : string) : option (string * string) :=
  match s with
  | EmptyString => None
  | String a s1 =>
      if Ascii.eqb a "034" then Some (EmptyString, s1)
      else if Ascii.eqb a "\" then
        match s1 with
        | EmptyString => None
        | String e s2 =>
            if Ascii.eqb e "u" then
              match s2 with
              | String h1 (String h2 (String h3 (String h4 s3))) =>
                  match hex4 h1 h2 h3 h4 with
                  | None => None
                  | Some n =>
                      if is_high n then
                        match s3 with
                        | String b (String u (String g1 (String g2 (String g3 (String g4 s4))))) =>
                            if Ascii.eqb b "\" && Ascii.eqb u "u" then
                              match hex4 g1 g2 g3 g4 with
                              | None => None
                              | Some m =>
                                  if is_low m
                                  then push (utf8 (65536 + (n - 55296) * 1024 + (m - 56320))) (json_string s4)
                                  else push (utf8 n) (json_string s3)
                              end
                            else push (utf8 n) (json_string s3)
                        | _ => push (utf8 n) (json_string s3)
                        end
                      else push (utf8 n) (json_string s3)
                  end
              | _ => None
              end
            else match esc_char e with
                 | Some c => push c (json_string s2)
                 | None => None
                 end
        end
      else if (code a <? 32)%N then None
      else push (String a EmptyString) (json_string s1)
  end.

(** The digits at the head of a string. *)
Fixpoint span_digits (s : string) : string * string :=
  match s with
  | String a s' => if is_digit a then let '(d, r) := span_digits s' in (String a d, r)
                   else (EmptyString, s)
  | EmptyString => (EmptyString, EmptyString)
  end.

(** The number grammar of [json.scanner]: an optional sign, an integer part
    without leading zeros, an optional fraction and an optional exponent. *)
Definition json_frac (s : string) : string * string :=
  match s with
  | String a s' =>
      if Ascii.eqb a "." then
        let '(d, r) := span_digits s' in if py_truthy_str d then (d, r) else (EmptyString, s)
      else (EmptyString, s)
  | _ => (EmptyString, s)
  end.

Definition json_sign (s : string) : bool * string :=
  match s with
  | String b s' => if Ascii.eqb b "-" then (true, s') else if Ascii.eqb b "+" then (false, s') else (false, s)
  | EmptyString => (false, s)
  end.

Definition json_exp (s : string) : option Z * string :=
  match s with
  | String a s' =>
      if Ascii.eqb a "e" || Ascii.eqb a "E" then
        let '(neg, s2) := json_sign s' in
        let '(d, r) := span_digits s2 in
        if py_truthy_str d then (Some (if neg : bool then - digits_val 0 d else digits_val 0 d)%Z, r) else (None, s)
      else (None, s)
  | _ => (None, s)
  end.

(** The integer part: a lone zero, or digits that do not begin with one. *)
Definition json_int_part (s : string) : string * string :=
  match s with
  | String a s' => if Ascii.eqb a "0" then ("0", s') else span_digits s
  | EmptyString => (EmptyString, s)
  end.

Definition json_magnitude (neg : bool) (s : string) : option (json * string) :=
  let '(ip, r1) := json_int_part s in
  if py_truthy_str ip then
    let '(fp, r2) := json_frac r1 in
    let '(ex, r3) := json_exp r2 in
    let m := digits_val 0 (String.append ip fp) in
    match py_truthy_str fp, ex with
    | false, None => Some (JInt (if neg then - m else m), r3)
    | _, _ => Some (JFloat (float_of_dec neg m (default 0 ex - Z.of_nat (String.length fp))), r3)
    end%Z
  else None.

Definition json_number (s : string) : option (json * string) :=
  match s with
  | String a s' => if Ascii.eqb a "-" then json_magnitude true s' else json_magnitude false s
  | EmptyString => None
  end.

Definition json_word (s : string) : option (json * string) :=
  if String.prefix "null" s then Some (JNull, str_drop 4 s)
  else if String.prefix "true" s then Some (JBool true, str_drop 4 s)
  else if String.prefix "false" s then Some (JBool false, str_drop 5 s)
  else if String.prefix "NaN" s then Some (JFloat S754_nan, str_drop 3 s)
  else if String.prefix "Infinity" s then Some (JFloat (S754_infinity false), str_drop 8 s)
  else if String.prefix "-Infinity" s then Some (JFloat (S754_infinity true), str_drop 9 s)
  else json_number s.

(** One value, the items of an array and the pairs of an object; every call
    that keeps the input spends one unit of fuel, so twice its length suffices. *)
Fixpoint json_value (n : nat) (s : string) : option (json * string) :=
  match n with
  | O => None
  | S n' =>
      match s with
      | EmptyString => None
      | String a s1 =>
          if Ascii.eqb a "034" then
            match json_string s1 with Some (x, r) => Some (JStr x, r) | None => None end
          else if Ascii.eqb a "{" then
            match skip_ws s1 with
            | String b r =>
                if Ascii.eqb b "}" then Some (JObj [], r)
                else match json_pairs n' (String b r) with
                     | Some (ps, r') => Some (JObj (dmerge [] ps), r')
                     | None => None
                     end
            | EmptyString => None
            end
          else if Ascii.eqb a "[" then
            match skip_ws s1 with
            | String b r =>
                if Ascii.eqb b "]" then Some (JArr [], r)
                else match json_items n' (String b r) with
                     | Some (vs, r') => Some (JArr vs, r')
                     | None => None
                     end
            | EmptyString => None
            end
          else json_word s
      end
  end
with json_items (n : nat) (s : string) : option (list json * string) :=
  match n with
  | O => None
  | S n' =>
      match json_value n' s with
      | None => None
      | Some (v, r) =>
          match skip_ws r with
          | String b r1 =>
              if Ascii.eqb b "]" then Some ([v], r1)
              else if Ascii.eqb b "," then
                match json_items n' (skip_ws r1) with
                | Some (vs, r') => Some (v :: vs, r')
                | None => None
                end
              else None
          | EmptyString => None
          end
      end
  end
with json_pairs (n : nat) (s : string) : option (list (string * json) * string) :=
  match n with
  | O => None
  | S n' =>
      match s with
      | String a s1 =>
          if Ascii.eqb a "034" then
            match json_string s1 with
            | None => None
            | Some (k, r) =>
                match skip_ws r with
                | String c r1 =>
                    if Ascii.eqb c ":" then
                      match json_value n' (skip_ws r1) with
                      | None => None
                      | Some (v, r2) =>
                          match skip_ws r2 with
                          | String b r3 =>
                              if Ascii.eqb b "}" then Some ([(k, v)], r3)
                              else if Ascii.eqb b "," then
                                match json_pairs n' (skip_ws r3) with
                                | Some (ps, r') => Some ((k, v) :: ps, r')
                                | None => None
                                end
                              else None
                          | EmptyString => None
                          end
                      end
                    else None
                | EmptyString => None
                end
            end
          else None
      | EmptyString => None
      end
  end.

Definition json_fuel (s : string) : nat := S (2 * String.length s).

(** [json.loads(s)]: [None] is [JSONDecodeError]. *)
Definition json_loads (s : string) : option json :=
  match json_value (json_fuel s) (skip_ws s) with
  | Some (v, r) => match skip_ws r with EmptyString => Some v | _ => None end
  | None => None
  end.

(** Text with single quotes for double quotes, to write documents in examples. *)
Fixpoint jq (s : string) : string :=
  match s with
  | EmptyString => EmptyString
  | String a s' => String (if Ascii.eqb a "'" then "034"%char else a) (jq s')
  end.

Example loads_object :
  py_repr_json <$> json_loads (jq " { 'a' : [1, -2.50, true, null], 'b':'x\u00e9\ud83d\ude00\n' , 'a':{} } ")
  = Some "{'a': {}, 'b': 'xé😀\n'}".
Proof. vm_compute. reflexivity. Qed.
Example loads_numbers :
  py_repr_json <$> json_loads "[0, -0, 1e2, 12.5E-1,NaN, -Infinity , 10]" = Some "[0, 0, 100.0, 1.25, nan, -inf, 10]".
Proof. vm_compute. reflexivity. Qed.
Example loads_bad :
  map json_loads ["[1,]"; "01"; "{}x"; ""; jq "{'a' 1}"; jq "'\x'"; "nul"; "-"] = repeat None 8.
Proof. vm_compute. reflexivity. Qed.

(** ** Printing: [json.dumps] *)

(** [indent], [separators] and [ensure_ascii]. *)
Record style := Style { st_indent : option nat; st_item : string; st_key : string; st_ascii : bool }.
Definition default_style : style := Style None ", " ": " true.
Definition compact : style := Style None "," ":" true.
Definition indented (k : nat) : style := Style (Some k) "," ": " true.
Definition indented_raw (k : nat) : style := Style (Some k) "," ": " false.

Definition utf8_decode (c : string) : N :=
  match map code (list_ascii_of_string c) with
  | [a] => a
  | [a; b] => (a - 192) * 64 + (b - 128)
  | [a; b; c] => (a - 224) * 4096 + (b - 128) * 64 + (c - 128)
  | [a; b; c; d] => (a - 240) * 262144 + (b - 128) * 4096 + (c - 128) * 64 + (d - 128)
  | _ => 1114112
  end%N.

Definition esc_u (n : N) : string :=
  String "\" (String "u" (String (hex_digit (n / 4096)) (String (hex_digit (n / 256 mod 16))
    (String (hex_digit (n / 16 mod 16)) (String (hex_digit (n mod 16)) EmptyString))))).

Definition esc_ascii (a : ascii) : string :=
  if Ascii.eqb a "034" || Ascii.eqb a "\" then String "\" (String a EmptyString)
  else if Ascii.eqb a "010" then "\n"
  else if Ascii.eqb a "013" then "\r"
  else if Ascii.eqb a "009" then "\t"
  else if Ascii.eqb a "012" then "\f"
  else if Ascii.eqb a "008" then "\b"
  else if ((code a <? 32) || (code a =? 127))%N then esc_u (code a)
  else String a EmptyString.

Definition esc_cp (n : N) : string :=
  if (n <? 128)%N then esc_ascii (ascii_of_N n)
  else if (n <? 65536)%N then esc_u n
  else String.append (esc_u (55296 + (n - 65536) / 1024)) (esc_u (56320 + (n - 65536) mod 1024)).

(** Under [ensure_ascii] every character outside printable ASCII is escaped,
    else only quotes, backslashes and control characters are. *)
Definition esc_raw (c : string) : string :=
  match c with
  | String a EmptyString => if (code a =? 127)%N then c else if (code a <? 128)%N then esc_ascii a else c
  | _ => c
  end.
Definition esc_text (ascii : bool) (c : string) : string := if ascii then esc_cp (utf8_decode c) else esc_raw c.

Definition dumps_str (ascii : bool) (s : string) : string :=
  String "034" (String.append (str_join (map (esc_text ascii) (py_chars s))) dquote).

Definition dumps_float (f : spec_float) : string :=
  match f with
  | S754_nan => "NaN"
  | S754_infinity s => if s then "-Infinity" else "Infinity"
  | _ => float_repr f
  end.

Fixpoint spaces (n : nat) : string :=
  match n with O => EmptyString | S n' => String " " (spaces n') end.
Definition break (st : style) (lvl : nat) : string :=
  match st_indent st with None => EmptyString | Some k => String "010" (spaces (k * lvl)) end.

(** [sep.join(l)]. *)
Fixpoint join_with (sep : string) (l : list string) : string :=
  match l with
  | [] => EmptyString
  | [x] => x
  | x :: l' => String.append x (String.append sep (join_with sep l'))
  end.

Definition bracket (st : style) (lvl : nat) (o c : ascii) (items : list string) : string :=
  String o (String.append (break st (S lvl))
    (String.append (join_with (String.append (st_item st) (break st (S lvl))) items)
       (String.append (break st lvl) (String c EmptyString)))).

Fixpoint dumps_at (st : style) (lvl : nat) (v : json) : string :=
  match v with
  | JNull => "null"
  | JBool b => if b then "true" else "false"
  | JInt z => int_str z
  | JFloat f => dumps_float f
  | JStr s => dumps_str (st_ascii st) s
  | JArr l =>
      match l with
      | [] => "[]"
      | _ => bracket st lvl "[" "]" (map (dumps_at st (S lvl)) l)
      end
  | JObj d =>
      match d with
      | [] => "{}"
      | _ => bracket st lvl "{" "}"
               (map (fun kv => String.append (dumps_str (st_ascii st) kv.1)
                       (String.append (st_key st) (dumps_at st (S lvl) kv.2))) d)
      end
  end.

Definition json_dumps (st : style) (v : json) : string := dumps_at st 0 v.

(** [sort_keys=True]: the pairs of every object in the order of their keys. *)
Fixpoint insert_pair (kv : string * json) (d : jdict) : jdict :=
  match d with
  | [] => [kv]
  | kv' :: d' => if String.leb kv.1 kv'.1 then kv :: d else kv' :: insert_pair kv d'
  end.
Definition sort_pairs (d : jdict) : jdict := foldr insert_pair [] d.
Fixpoint sort_keys (v : json) : json :=
  match v with
  | JArr l => JArr (map sort_keys l)
  | JObj d => JObj (sort_pairs (map (fun kv => (kv.1, sort_keys kv.2)) d))
  | _ => v
  end.

Example dumps_default :
  json_dumps default_style (JObj [("a", JArr [JInt (-1); JNull]); ("é", JStr (jq "'x"))])
  = jq "{'a': [-1, null], '\u00e9': '\'x'}".
Proof. vm_compute. reflexivity. Qed.
Example dumps_sorted :
  json_dumps compact (sort_keys (JObj [("b", JInt 1); ("a", JObj [])])) = jq "{'a':{},'b':1}".
Proof. vm_compute. reflexivity. Qed.
Example dumps_indented :
  json_dumps (indented 2) (JObj [("b", JArr [JInt 1])])
  = String.append "{" (String.append nl (String.append (jq "  'b': [") (String.append nl
      (String.append "    1" (String.append nl (String.append "  ]" (String.append nl "}"))))))).
Proof. vm_compute. reflexivity. Qed.
