(* ===== verification/JsonFacts.v ===== *)
(** * JSON: parsing what was printed

    [json_loads (json_dumps st v) = Some v] for every value [v] a parse can
    return (text without lone surrogates, distinct keys, finite floats) and
    every layout [st] the code prints with. *)
From Stdlib Require Import ZArith Lia Ascii String SpecFloat.
From stdpp Require Import base tactics list strings pretty option.
From S2P Require Import Prelude PyStr PyFloat Json.

(** ** Characters and strings *)

Definition cp_ok (n : N) : bool := (n <? 1114112)%N && negb (is_high n) && negb (is_low n).
Definition char_ok (c : string) : bool :=
  cp_ok (utf8_decode c) && String.eqb (utf8 (utf8_decode c)) c.
(** Well-formed UTF-8. *)
Definition utf8_ok (s : string) : bool := forallb char_ok (py_chars s).

Lemma hex_val_digit n : (n < 16)%N -> hex_val (hex_digit n) = Some n.
Proof.
  intros H.
  assert (Hb : (match hex_val (hex_digit n) with Some m => N.eqb m n | None => false end) = true)
    by (by apply (all_below (fun n => match hex_val (hex_digit n) with Some m => N.eqb m n | None => false end) 16)).
  destruct (hex_val (hex_digit n)); [by apply N.eqb_eq in Hb as -> | done].
Qed.

Lemma hex4_esc n : (n < 65536)%N ->
  hex4 (hex_digit (n / 4096)) (hex_digit (n / 256 mod 16)) (hex_digit (n / 16 mod 16)) (hex_digit (n mod 16))
  = Some n.
Proof.
  intros H. unfold hex4.
  rewrite !hex_val_digit by (try apply N.mod_lt; try apply N.Div0.div_lt_upper_bound; lia).
  simpl. f_equal.
  pose proof (N.Div0.div_mod n 16) as H1. pose proof (N.Div0.div_mod (n / 16) 16) as H2.
  pose proof (N.Div0.div_mod (n / 256) 16) as H3.
  rewrite N.Div0.div_div in H2, H3. change (16 * 16)%N with 256%N in H2.
  change (256 * 16)%N with 4096%N in H3.
  lia.
Qed.

Lemma json_string_esc_u n s :
  (n < 65536)%N -> is_high n = false ->
  json_string (String.append (esc_u n) s) = push (utf8 n) (json_string s).
Proof.
  intros Hn Hh. unfold esc_u. cbn [String.append]. cbn [json_string].
  change (Ascii.eqb "\" "034") with false. change (Ascii.eqb "\" "\") with true.
  change (Ascii.eqb "u" "u") with true. cbn iota. rewrite hex4_esc, Hh by done. done.
Qed.

Lemma json_string_esc_pair h l s :
  (h < 65536)%N -> (l < 65536)%N -> is_high h = true -> is_low l = true ->
  json_string (String.append (esc_u h) (String.append (esc_u l) s))
  = push (utf8 (65536 + (h - 55296) * 1024 + (l - 56320))) (json_string s).
Proof.
  intros Hh Hl Hhh Hll. unfold esc_u at 1. cbn [String.append]. cbn [json_string].
  change (Ascii.eqb "\" "034") with false. change (Ascii.eqb "\" "\") with true.
  change (Ascii.eqb "u" "u") with true. cbn iota. rewrite hex4_esc, Hhh by done.
  unfold esc_u at 1. cbn [String.append andb].
  change (Ascii.eqb "\" "\") with true. change (Ascii.eqb "u" "u") with true. cbn [andb].
  rewrite hex4_esc, Hll by done. done.
Qed.

Lemma json_string_esc_ascii a s :
  (code a < 128)%N ->
  json_string (String.append (esc_ascii a) s) = push (String a EmptyString) (json_string s).
Proof.
  destruct a as [[] [] [] [] [] [] [] []]; intros H; try (vm_compute in H; discriminate); reflexivity.
Qed.

Lemma json_string_esc_cp n s :
  cp_ok n = true -> json_string (String.append (esc_cp n) s) = push (utf8 n) (json_string s).
Proof.
  unfold cp_ok. intros H. py_bool. rename H into Hn.
  apply N.ltb_lt in Hn. unfold esc_cp.
  destruct (N.ltb_spec n 128) as [Hs|Hs].
  - rewrite json_string_esc_ascii; [|unfold code; by rewrite N_ascii_embedding by lia].
    f_equal. unfold utf8. by rewrite (proj2 (N.ltb_lt n 128)) by done.
  - destruct (N.ltb_spec n 65536) as [Hb|Hb]; [by apply json_string_esc_u|].
    remember (n - 65536)%N as m eqn:Em. rewrite str_app_assoc.
    assert (Hm : (m < 1048576)%N) by lia.
    assert (Hd : (m / 1024 < 1024)%N) by (apply N.Div0.div_lt_upper_bound; lia).
    assert (Hr : (m mod 1024 < 1024)%N) by (apply N.mod_lt; lia).
    pose proof (N.Div0.div_mod m 1024) as Hm'. revert Hd Hr Hm'.
    generalize (m / 1024)%N (m mod 1024)%N. intros q r Hd Hr Hm'.
    rewrite json_string_esc_pair.
    + do 2 f_equal. lia.
    + lia.
    + lia.
    + unfold is_high. apply andb_true_iff. split; [apply N.leb_le | apply N.ltb_lt]; lia.
    + unfold is_low. apply andb_true_iff. split; [apply N.leb_le | apply N.ltb_lt]; lia.
Qed.

(** A character that is printed as it is. *)
Definition plain (a : ascii) : bool :=
  negb (Ascii.eqb a "034") && negb (Ascii.eqb a "\") && negb (code a <? 32)%N.

Lemma json_string_plain c s : str_forall plain c = true ->
  json_string (String.append c s) = push c (json_string s).
Proof.
  induction c as [|a c IH]; cbn [str_forall String.append].
  - intros _. by destruct (json_string s) as [[]|].
  - intros [Ha Hc]%andb_true_iff. unfold plain in Ha. py_bool. cbn [json_string].
    repeat match goal with H : _ = false |- _ => rewrite H end. rewrite IH by done.
    by destruct (json_string s) as [[]|].
Qed.

Lemma plain_high n : (128 <= n < 256)%N -> plain (ascii_of_N n) = true.
Proof.
  intros H. pose proof (all_below (fun n => (n <? 128)%N || plain (ascii_of_N n)) 256 n ltac:(reflexivity)) as Hp.
  cbn beta in Hp. destruct (N.ltb_spec n 128); [lia|]. apply Hp. lia.
Qed.

Lemma plain_off k m x : (128 <= k)%N -> (x < m)%N -> (k + m <= 256)%N -> plain (ascii_of_N (k + x)) = true.
Proof. intros. apply plain_high. lia. Qed.

Lemma utf8_plain n : cp_ok n = true -> (128 <= n)%N -> str_forall plain (utf8 n) = true.
Proof.
  intros Hn Hl. unfold cp_ok in Hn. apply andb_true_iff in Hn as [[Hn _]%andb_true_iff _]. apply N.ltb_lt in Hn.
  assert (Hc : forall k, plain (ascii_of_N (128 + k mod 64)) = true).
  { intros k. apply (plain_off 128 64); [done | apply N.mod_lt; lia | done]. }
  assert (Hh : forall k m d, (128 <= k)%N -> (k + m <= 256)%N -> (d <> 0)%N -> (n < d * m)%N ->
                plain (ascii_of_N (k + n / d)) = true).
  { intros k m d Hk Hkm Hd Hnd. apply (plain_off k m); [done | apply N.Div0.div_lt_upper_bound; lia | done]. }
  unfold utf8. destruct (N.ltb_spec n 128); [lia|].
  destruct (N.ltb_spec n 2048); [|destruct (N.ltb_spec n 65536)]; cbn [bytes foldr str_forall]; rewrite !Hc.
  - rewrite (Hh 192 32)%N; (done || lia).
  - rewrite (Hh 224 16)%N; (done || lia).
  - rewrite (Hh 240 8)%N; (done || lia).
Qed.

(** Well-formed text does not begin inside a character, so that appending keeps
    both sides well formed. *)
Lemma utf8_starts n : cp_ok n = true -> starts_cont (utf8 n) = false.
Proof.
  intros Hn. unfold cp_ok in Hn. apply andb_true_iff in Hn as [[Hn _]%andb_true_iff _]. apply N.ltb_lt in Hn.
  assert (Hs : forall k rest, (k < 128)%N \/ (192 <= k < 256)%N -> starts_cont (bytes (k :: rest)) = false).
  { intros k rest Hk. cbn [bytes foldr starts_cont]. unfold is_cont, code. rewrite N_ascii_embedding by lia.
    destruct (N.leb_spec 128 k); [|done]. destruct (N.ltb_spec k 192); [lia | done]. }
  unfold utf8. destruct (N.ltb_spec n 128); [|destruct (N.ltb_spec n 2048); [|destruct (N.ltb_spec n 65536)]]; apply Hs; [by left|right..].
  - assert (Hq : (n / 64 < 32)%N) by (apply N.Div0.div_lt_upper_bound; lia). revert Hq. generalize (n / 64)%N. lia.
  - assert (Hq : (n / 4096 < 16)%N) by (apply N.Div0.div_lt_upper_bound; lia). revert Hq. generalize (n / 4096)%N. lia.
  - assert (Hq : (n / 262144 < 16)%N) by (apply N.Div0.div_lt_upper_bound; lia). revert Hq. generalize (n / 262144)%N. lia.
Qed.

Lemma utf8_ok_starts s : utf8_ok s = true -> starts_cont s = false.
Proof.
  destruct s as [|a s]; [done|]. unfold utf8_ok. destruct (py_chars_cons_start a s) as (c & cs & -> & Hc).
  cbn [forallb]. intros [[Hcp He]%andb_true_iff _]%andb_true_iff. apply String.eqb_eq in He.
  cbn [starts_cont]. rewrite <- Hc, <- He. by apply utf8_starts.
Qed.

Lemma utf8_ok_app s t : utf8_ok s = true -> utf8_ok t = true -> utf8_ok (String.append s t) = true.
Proof.
  intros Hs Ht. unfold utf8_ok in *. rewrite py_chars_app by (by apply utf8_ok_starts). by rewrite forallb_app, Hs, Ht.
Qed.

Lemma json_string_esc_text b c s : cp_ok (utf8_decode c) = true -> utf8 (utf8_decode c) = c ->
  json_string (String.append (esc_text b c) s) = push c (json_string s).
Proof.
  intros Hc He. destruct b; cbn [esc_text]; [by rewrite json_string_esc_cp, He|].
  rewrite <- He. remember (utf8_decode c) as n eqn:En. clear En He.
  destruct (N.ltb_spec n 128) as [Hn|Hn].
  - unfold utf8. rewrite (proj2 (N.ltb_lt n 128)) by done. cbn [bytes foldr esc_raw].
    unfold code at 1 2. rewrite N_ascii_embedding by lia. rewrite (proj2 (N.ltb_lt n 128)) by done.
    destruct (N.eqb_spec n 127) as [->|]; [by apply json_string_plain|].
    apply json_string_esc_ascii. unfold code. by rewrite N_ascii_embedding by lia.
  - replace (esc_raw (utf8 n)) with (utf8 n).
    + by apply json_string_plain, utf8_plain.
    + unfold utf8. destruct (N.ltb_spec n 128); [lia|]. by repeat case_match.
Qed.

Lemma json_string_dumps b s r :
  utf8_ok s = true ->
  json_string (String.append (str_join (map (esc_text b) (py_chars s)))
                             (String.append dquote r)) = Some (s, r).
Proof.
  intros H. rewrite <- (str_join_chars s) at 2. unfold utf8_ok in H. revert H.
  induction (py_chars s) as [|c cs IH]; intros H; simpl in *; [done|].
  apply andb_true_iff in H as [Hc Hcs]. apply andb_true_iff in Hc as [Hc He].
  apply String.eqb_eq in He. rewrite str_app_assoc, json_string_esc_text by done.
  by rewrite IH by done.
Qed.

(** ** Numbers *)

Lemma digits_val_app acc a b :
  digits_val acc (String.append a b) = digits_val (digits_val acc a) b.
Proof. revert acc. induction a; intros; simpl; auto. Qed.

Lemma str_forall_app p a b :
  str_forall p (String.append a b) = str_forall p a && str_forall p b.
Proof. induction a; simpl; [done|]. by rewrite IHa, andb_assoc. Qed.

Lemma pretty_char_digit n : (n < 10)%N ->
  is_digit (pretty_N_char n) = true /\ digit_val (pretty_N_char n) = Z.of_N n /\
  (n <> 0%N -> Ascii.eqb (pretty_N_char n) "0" = false).
Proof.
  intros H. assert (Hb : is_digit (pretty_N_char n) && (digit_val (pretty_N_char n) =? Z.of_N n)%Z &&
    ((n =? 0)%N || negb (Ascii.eqb (pretty_N_char n) "0")) = true).
  { by apply (all_below (fun n => is_digit (pretty_N_char n) && (digit_val (pretty_N_char n) =? Z.of_N n)%Z &&
      ((n =? 0)%N || negb (Ascii.eqb (pretty_N_char n) "0"))) 10). }
  py_bool. split_and!; [done | done |]. intros Hn%N.eqb_neq.
  match goal with Ho : _ || _ = true |- _ => rewrite Hn in Ho; by apply negb_true_iff in Ho end.
Qed.

Lemma pretty_go_spec x s : (0 < x)%N ->
  exists a d, pretty_N_go x s = String a (String.append d s) /\
    is_digit a = true /\ Ascii.eqb a "0" = false /\
    str_forall is_digit d = true /\ digits_val 0 (String a d) = Z.of_N x.
Proof.
  revert s. induction (N.lt_wf_0 x) as [x _ IH]; intros s Hx.
  rewrite pretty_N_go_step by done.
  destruct (pretty_char_digit (x mod 10)) as (Hd & Hv & Hz); [by apply N.mod_lt|].
  destruct (decide (x < 10)%N) as [Hs|Hs].
  - rewrite N.div_small, pretty_N_go_0 by done. rewrite N.mod_small in * by done.
    eexists _, EmptyString. split_and!; simpl; [done | done | apply Hz; lia | done | lia].
  - assert (Hdiv : (0 < x / 10)%N) by (apply N.div_str_pos; lia).
    edestruct (IH (x / 10)%N) as (a & d & -> & Ha & Ha0 & Hd' & Hv'); [by apply N.div_lt | done |].
    eexists a, (String.append d (String (pretty_N_char (x mod 10)) EmptyString)). split_and!; auto.
    + by rewrite str_app_assoc.
    + rewrite str_forall_app, Hd'. simpl. by rewrite Hd.
    + change (String a (String.append d ?t)) with (String.append (String a d) t).
      rewrite digits_val_app, Hv'. simpl. rewrite Hv.
      pose proof (N.Div0.div_mod x 10). lia.
Qed.

(** The decimal text of a non-negative integer. *)
Lemma int_str_pos p : exists a d, int_str (Zpos p) = String a d /\
  is_digit a = true /\ Ascii.eqb a "0" = false /\ str_forall is_digit d = true /\
  digits_val 0 (String a d) = Zpos p /\ int_str (Zneg p) = String "-" (String a d).
Proof.
  destruct (pretty_go_spec (Npos p) EmptyString) as (a & d & H & Ha & H0 & Hd & Hv); [done|].
  rewrite str_app_nil_r in H. exists a, d.
  assert (E : int_str (Zpos p) = String a d).
  { unfold int_str, pretty, pretty_Z, pretty, pretty_positive, pretty, pretty_N. simpl. exact H. }
  split_and!; auto.
  change (int_str (Zneg p)) with (String.append "-" (int_str (Zpos p))). by rewrite E.
Qed.

(** What may follow a number: not a character of the number grammar. *)
Definition num_end (s : string) : bool :=
  match s with
  | EmptyString => true
  | String a _ => negb (is_digit a || char_in a ".eE+-")
  end.

Lemma span_digits_app s r d t :
  num_end r = true -> span_digits s = (d, t) -> span_digits (String.append s r) = (d, String.append t r).
Proof.
  intros Hr. revert d t. induction s as [|a s IH]; intros d t; simpl.
  - intros [= <- <-]. destruct r as [|b r]; [done|]. simpl in *.
    destruct (is_digit b); [done|]. done.
  - destruct (is_digit a); [|by intros [= <- <-]].
    destruct (span_digits s) as [d' r'] eqn:E. intros [= <- <-]. by rewrite (IH _ _ eq_refl).
Qed.

Lemma span_digits_all d : str_forall is_digit d = true -> span_digits d = (d, EmptyString).
Proof.
  induction d as [|a d IH]; simpl; [done|]. intros [-> H]%andb_true_iff. by rewrite IH.
Qed.

Lemma num_end_cons b r :
  num_end (String b r) = true ->
  is_digit b = false /\ Ascii.eqb b "." = false /\ Ascii.eqb b "e" = false /\
  Ascii.eqb b "E" = false /\ Ascii.eqb b "+" = false /\ Ascii.eqb b "-" = false.
Proof. cbn [num_end char_in]. intros H. apply negb_true_iff in H. py_bool. by split_and!. Qed.

Lemma json_frac_app s r d t :
  num_end r = true -> json_frac s = (d, t) -> json_frac (String.append s r) = (d, String.append t r).
Proof.
  intros Hr. destruct s as [|a s]; simpl.
  - intros [= <- <-]. destruct r as [|b r]; [done|].
    apply num_end_cons in Hr as (_ & Hd & _). simpl. by rewrite Hd.
  - destruct (Ascii.eqb a "."); [|by intros [= <- <-]].
    destruct (span_digits s) as [d' r'] eqn:E. rewrite (span_digits_app _ _ _ _ Hr E).
    by destruct (py_truthy_str d'); intros [= <- <-].
Qed.

Lemma json_sign_app s r :
  num_end r = true -> (json_sign (String.append s r)).1 = (json_sign s).1 /\
    (json_sign (String.append s r)).2 = String.append (json_sign s).2 r.
Proof.
  intros Hr. destruct s as [|b s]; simpl.
  - destruct r as [|b r]; [done|]. apply num_end_cons in Hr as (_ & _ & _ & _ & Hp & Hm).
    simpl. by rewrite Hp, Hm.
  - by destruct (Ascii.eqb b "-"), (Ascii.eqb b "+").
Qed.

Lemma json_exp_app s r d t :
  num_end r = true -> json_exp s = (d, t) -> json_exp (String.append s r) = (d, String.append t r).
Proof.
  intros Hr. destruct s as [|a s]; simpl.
  - intros [= <- <-]. destruct r as [|b r]; [done|].
    apply num_end_cons in Hr as (_ & _ & He & HE & _). simpl. by rewrite He, HE.
  - destruct (Ascii.eqb a "e" || Ascii.eqb a "E"); [|by intros [= <- <-]].
    pose proof (json_sign_app s r Hr) as [H1 H2].
    destruct (json_sign (String.append s r)) as [n1 s1], (json_sign s) as [n2 s2]. simpl in *. subst.
    destruct (span_digits s2) as [d' r'] eqn:E. rewrite (span_digits_app _ _ _ _ Hr E).
    by destruct (py_truthy_str d'); intros [= <- <-].
Qed.

Lemma json_int_part_app s r d t :
  num_end r = true -> json_int_part s = (d, t) ->
  json_int_part (String.append s r) = (d, String.append t r) \/ d = EmptyString.
Proof.
  intros Hr. destruct s as [|a s]; simpl; [by right; simplify_eq|].
  destruct (Ascii.eqb a "0"); [by left; simplify_eq|]. intros H. left.
  by apply (span_digits_app (String a s)).
Qed.

Lemma json_magnitude_app neg s v r t :
  num_end r = true -> json_magnitude neg s = Some (v, t) ->
  json_magnitude neg (String.append s r) = Some (v, String.append t r).
Proof.
  intros Hr. unfold json_magnitude. destruct (json_int_part s) as [ip r1] eqn:Ei.
  destruct (json_int_part_app _ _ _ _ Hr Ei) as [-> | ->]; [|done].
  destruct (py_truthy_str ip); [|done].
  destruct (json_frac r1) as [f r2] eqn:Ef. rewrite (json_frac_app _ _ _ _ Hr Ef).
  destruct (json_exp r2) as [e r3] eqn:Ee. rewrite (json_exp_app _ _ _ _ Hr Ee).
  by destruct (py_truthy_str f), e; intros [= <- <-].
Qed.

Lemma json_number_app s v r t :
  num_end r = true -> json_number s = Some (v, t) ->
  json_number (String.append s r) = Some (v, String.append t r).
Proof.
  intros Hr. destruct s as [|a s]; [done|]. simpl.
  destruct (Ascii.eqb a "-"); [by apply json_magnitude_app|].
  by apply (json_magnitude_app false (String a s)).
Qed.

Lemma json_number_int z : json_number (int_str z) = Some (JInt z, EmptyString).
Proof.
  destruct z as [|p|p]; [done| |]; destruct (int_str_pos p) as (a & d & E & Ha & H0 & Hd & Hv & En).
  - rewrite E. unfold json_number.
    destruct (Ascii.eqb_spec a "-") as [->|_]; [done|].
    unfold json_magnitude, json_int_part. rewrite H0. cbn [span_digits]. rewrite Ha, span_digits_all by done.
    simpl py_truthy_str. cbn iota. simpl json_frac. cbn iota. simpl json_exp. cbn iota.
    by rewrite str_app_nil_r, Hv.
  - rewrite En. unfold json_number. simpl (Ascii.eqb "-" "-"). cbn iota.
    unfold json_magnitude, json_int_part. rewrite H0. cbn [span_digits]. rewrite Ha, span_digits_all by done.
    simpl py_truthy_str. cbn iota. simpl json_frac. cbn iota. simpl json_exp. cbn iota.
    by rewrite str_app_nil_r, Hv.
Qed.

Definition num_head (s : string) : bool :=
  match s with
  | String a s' =>
      is_digit a || (Ascii.eqb a "-" && match s' with String b _ => is_digit b | _ => false end)
  | EmptyString => false
  end.

Lemma num_head_app s r : num_head s = true -> num_head (String.append s r) = true.
Proof.
  destruct s as [|a [|b s]]; simpl; [done| |done].
  rewrite andb_false_r, orb_false_r. by intros ->.
Qed.

Lemma prefix_head a b p s : Ascii.eqb a b = false -> String.prefix (String a p) (String b s) = false.
Proof. intros H. simpl. destruct (ascii_dec a b) as [->|]; [by rewrite Ascii.eqb_refl in H | done]. Qed.

Lemma digit_neq a b : is_digit b = true -> is_digit a = false -> Ascii.eqb a b = false.
Proof. intros Hb Ha. destruct (Ascii.eqb_spec a b) as [->|]; congruence. Qed.

Lemma json_word_number s : num_head s = true -> json_word s = json_number s.
Proof.
  destruct s as [|a s]; [done|]. simpl num_head. intros [Ha|Hm]%orb_true_iff; unfold json_word.
  - rewrite !(prefix_head _ a) by (by apply digit_neq). done.
  - apply andb_true_iff in Hm as [->%Ascii.eqb_eq Hb]. destruct s as [|b s]; [done|].
    rewrite !(prefix_head _ "-") by done.
    replace (String.prefix "-Infinity" (String "-" (String b s))) with false; [done|].
    symmetry. change (String.prefix "-Infinity" (String "-" (String b s)))
      with (String.prefix "Infinity" (String b s)).
    apply prefix_head. by apply digit_neq.
Qed.

Lemma json_word_head a : is_digit a = true \/ a = "-"%char ->
  Ascii.eqb a "034" = false /\ Ascii.eqb a "{" = false /\ Ascii.eqb a "[" = false /\
  is_json_ws a = false /\ Ascii.eqb a "]" = false.
Proof. destruct a as [[] [] [] [] [] [] [] []]; intros [H|H]; try discriminate H; by split_and!. Qed.

Lemma num_head_cons s : num_head s = true ->
  exists a t, s = String a t /\ (is_digit a = true \/ a = "-"%char).
Proof.
  destruct s as [|a s]; [done|]. simpl. intros [Ha|[->%Ascii.eqb_eq _]%andb_true_iff]%orb_true_iff; eauto.
Qed.

Lemma num_head_int z : num_head (int_str z) = true.
Proof.
  destruct z as [|p|p]; [done| |]; destruct (int_str_pos p) as (a & d & E & Ha & _ & _ & _ & En).
  - rewrite E. simpl. by rewrite Ha.
  - rewrite En. simpl. by rewrite Ha.
Qed.

(** A number text reads back, whatever follows it in a document. *)
Lemma json_value_number s v r n :
  num_end r = true -> num_head s = true -> json_number s = Some (v, EmptyString) -> 0 < n ->
  json_value n (String.append s r) = Some (v, r).
Proof.
  intros Hr Hh Hs Hn. destruct n as [|n]; [lia|].
  pose proof (num_head_app s r Hh) as Hh'. apply (json_number_app _ _ r _ Hr) in Hs.
  rewrite <- json_word_number in Hs by done.
  destruct (num_head_cons _ Hh') as (a & t & E & Ha). rewrite E in *.
  destruct (json_word_head a Ha) as (H1 & H2 & H3 & _). cbn [json_value]. by rewrite H1, H2, H3.
Qed.

(** ** The values a parse returns *)

Definition float_ok (f : spec_float) : bool :=
  match f with
  | S754_nan | S754_infinity _ => false
  | _ => num_head (float_repr f) &&
         match json_number (float_repr f) with
         | Some (JFloat g, EmptyString) => bool_decide (g = f)
         | _ => false
         end
  end.

Fixpoint json_ok (v : json) : bool :=
  match v with
  | JStr s => utf8_ok s
  | JFloat f => float_ok f
  | JArr l => forallb json_ok l
  | JObj d => bool_decide (NoDup (dkeys d)) && forallb (fun kv => utf8_ok kv.1 && json_ok kv.2) d
  | _ => true
  end.

Lemma float_ok_number f : float_ok f = true ->
  num_head (dumps_float f) = true /\ json_number (dumps_float f) = Some (JFloat f, EmptyString).
Proof.
  destruct f as [s|s| |s m e]; try done; unfold float_ok, dumps_float;
    intros [Hh Hn]%andb_true_iff; (split; [done|]);
    destruct (json_number _) as [[[] []]|]; try done; by apply bool_decide_eq_true in Hn; subst.
Qed.

(** White space, as the separators and line breaks of a layout. *)
Definition all_ws (s : string) : bool := str_forall is_json_ws s.

Definition style_ok (st : style) : Prop :=
  (exists w, st_item st = String "," w /\ all_ws w = true) /\
  (exists w, st_key st = String ":" w /\ all_ws w = true).

Lemma skip_ws_app w s : all_ws w = true -> skip_ws (String.append w s) = skip_ws s.
Proof.
  induction w as [|a w IH]; [done|]. unfold all_ws in *. simpl.
  intros [-> H]%andb_true_iff. auto.
Qed.

Lemma break_ws st lvl : all_ws (break st lvl) = true.
Proof.
  unfold break. destruct (st_indent st) as [k|]; [|done]. unfold all_ws. simpl.
  generalize (k * lvl). intros n. by induction n.
Qed.

Lemma skip_ws_break st lvl s : skip_ws (String.append (break st lvl) s) = skip_ws s.
Proof. apply skip_ws_app, break_ws. Qed.

(** A printed value begins with neither white space nor a closing bracket. *)
Lemma dumps_head st lvl v : json_ok v = true -> exists a t,
  dumps_at st lvl v = String a t /\ is_json_ws a = false /\ Ascii.eqb a "]" = false.
Proof.
  assert (Hnum : forall s, num_head s = true -> exists a t,
    s = String a t /\ is_json_ws a = false /\ Ascii.eqb a "]" = false).
  { intros s (a & t & -> & Ha)%num_head_cons. exists a, t.
    by destruct (json_word_head a Ha) as (_ & _ & _ & ? & ?). }
  destruct v as [|b|z|f|s|l|d]; intros H.
  - by eexists _, _.
  - destruct b; by eexists _, _.
  - apply Hnum, num_head_int.
  - apply Hnum. by apply float_ok_number.
  - by eexists _, _.
  - destruct l; by eexists _, _.
  - destruct d; by eexists _, _.
Qed.

(** [json_value] inverts [dumps_at] on [v], given twice the text's length. *)
Definition reads (v : json) : Prop := forall st lvl n r,
  style_ok st -> num_end r = true -> 2 * String.length (dumps_at st lvl v) <= n ->
  json_value n (String.append (dumps_at st lvl v) r) = Some (v, r).

Lemma num_end_break st lvl c s : num_end (String c s) = true ->
  num_end (String.append (break st lvl) (String c s)) = true.
Proof. unfold break. by destruct (st_indent st). Qed.

(** The text of an item followed by its separator and the rest, or by the rest. *)
Lemma join_cons sep x l r :
  String.append (join_with sep (x :: l)) r
  = String.append x match l with
                    | [] => r
                    | _ => String.append sep (String.append (join_with sep l) r)
                    end.
Proof. destruct l; simpl; by rewrite ?str_app_assoc. Qed.

Lemma skip_ws_join sep x l s a t :
  x = String a t -> is_json_ws a = false ->
  skip_ws (String.append (join_with sep (x :: l)) s) = String.append (join_with sep (x :: l)) s.
Proof. intros -> Ha. rewrite join_cons. simpl. by rewrite Ha. Qed.

Lemma skip_ws_item st lvl s : style_ok st ->
  exists w, all_ws w = true /\ st_item st = String "," w /\
    skip_ws (String.append w (String.append (break st lvl) s)) = skip_ws s.
Proof.
  intros [(w & Hi & Hw) _]. exists w. split_and!; [done | done |].
  by rewrite skip_ws_app, skip_ws_break.
Qed.

Lemma json_items_reads st lvl lvl' l : style_ok st -> l <> [] ->
  Forall (fun v => json_ok v = true) l -> Forall reads l -> forall n r,
  let text := String.append
    (join_with (String.append (st_item st) (break st lvl)) (map (dumps_at st lvl) l))
    (String.append (break st lvl') "]") in
  2 * String.length text < n ->
  json_items n (String.append text r) = Some (l, r).
Proof.
  intros Hst Hne Hok Hall. induction l as [|v l IH]; [done|]. intros n r text Hn. subst text.
  destruct n as [|n]; [lia|]. inversion Hok as [|?? Hv Hl]; inversion Hall as [|?? Rv Rl]; subst.
  cbn [map] in *. rewrite join_cons in *. rewrite str_app_assoc. cbn [json_items].
  rewrite str_length_app in Hn.
  destruct l as [|v' l]; cbn [map] in *.
  - rewrite str_app_assoc, Rv by (done || lia || by apply num_end_break).
    by rewrite skip_ws_break.
  - destruct (skip_ws_item st lvl (String.append (join_with (String.append (st_item st) (break st lvl))
      (dumps_at st lvl v' :: map (dumps_at st lvl) l)) (String.append (String.append (break st lvl') "]") r)) Hst)
      as (w & Hw & Hi & Hskip).
    destruct (dumps_head st lvl v') as (a & t & Ea & Hws & _); [by inversion Hl|].
    rewrite (skip_ws_join _ _ _ _ _ _ Ea Hws) in Hskip.
    rewrite !str_app_assoc, Hi, Rv by (done || lia). rewrite Hi in Hskip, Hn, IH.
    cbn [String.append] in *. rewrite !str_app_assoc in Hskip.
    change (skip_ws (String "," ?s)) with (String "," s). cbn iota.
    change (Ascii.eqb "," "]") with false. change (Ascii.eqb "," ",") with true. cbn iota.
    rewrite !str_app_assoc in *. cbn [String.append] in *. rewrite Hskip.
    cbn [String.length] in Hn. rewrite !str_length_app in Hn.
    specialize (IH ltac:(done) Hl Rl n r). rewrite !str_app_assoc in IH. cbn [String.append] in IH. rewrite IH; [done|].
    rewrite !str_length_app. lia.
Qed.

Definition pair_text (st : style) (lvl : nat) (kv : string * json) : string :=
  String.append (dumps_str (st_ascii st) kv.1) (String.append (st_key st) (dumps_at st lvl kv.2)).

Lemma pair_text_head st lvl kv : exists t, pair_text st lvl kv = String "034" t.
Proof. by eexists. Qed.

Lemma dumps_str_read b k x : utf8_ok k = true -> exists body,
  String.append (dumps_str b k) x = String "034" (String.append body x) /\
  json_string (String.append body x) = Some (k, x) /\ String.length (dumps_str b k) = S (String.length body).
Proof.
  intros Hk. unfold dumps_str.
  exists (String.append (str_join (map (esc_text b) (py_chars k))) dquote).
  split_and!; [done | | done].
  rewrite str_app_assoc. by apply json_string_dumps.
Qed.

(** One pair, up to whatever follows it. *)
Lemma json_pair_reads st lvl k v n x : style_ok st ->
  utf8_ok k = true -> json_ok v = true -> reads v -> num_end x = true ->
  2 * String.length (dumps_at st lvl v) <= n ->
  json_pairs (S n) (String.append (pair_text st lvl (k, v)) x)
  = match skip_ws x with
    | String b r3 =>
        if Ascii.eqb b "}" then Some ([(k, v)], r3)
        else if Ascii.eqb b "," then
          match json_pairs n (skip_ws r3) with
          | Some (ps, r') => Some ((k, v) :: ps, r')
          | None => None
          end
        else None
    | EmptyString => None
    end.
Proof.
  intros Hst Hk Hv Rv Hx Hn. unfold pair_text. cbn [fst snd]. rewrite !str_app_assoc.
  destruct (dumps_str_read (st_ascii st) k (String.append (st_key st) (String.append (dumps_at st lvl v) x)) Hk)
    as (body & -> & Hb & _).
  cbn [json_pairs]. change (Ascii.eqb "034" "034") with true. cbn iota. rewrite Hb.
  destruct Hst as [Hi (w & Hw & Hws)]. rewrite Hw. cbn [String.append].
  change (skip_ws (String ":" ?s)) with (String ":" s). cbn iota.
  change (Ascii.eqb ":" ":") with true. cbn iota.
  rewrite skip_ws_app by done.
  destruct (dumps_head st lvl v Hv) as (a & t & Ea & Ha & _).
  replace (skip_ws (String.append (dumps_at st lvl v) x)) with (String.append (dumps_at st lvl v) x)
    by (rewrite Ea; simpl; by rewrite Ha).
  rewrite Rv; [done | by split; eauto | done | done].
Qed.

Lemma json_pairs_reads st lvl lvl' d : style_ok st -> d <> [] ->
  Forall (fun kv => utf8_ok kv.1 = true /\ json_ok kv.2 = true) d ->
  Forall (fun kv => reads kv.2) d -> forall n r,
  let text := String.append
    (join_with (String.append (st_item st) (break st lvl)) (map (pair_text st lvl) d))
    (String.append (break st lvl') "}") in
  2 * String.length text < n ->
  json_pairs n (String.append text r) = Some (d, r).
Proof.
  intros Hst Hne Hok Hall. induction d as [|[k v] d IH]; [done|]. intros n r text Hn. subst text.
  destruct n as [|n]; [lia|].
  inversion Hok as [|?? [Hk Hv] Hd]; inversion Hall as [|?? Rv Rd]; subst. simpl in Hk, Hv, Rv.
  cbn [map] in *. rewrite join_cons in *. rewrite str_app_assoc.
  rewrite str_length_app in Hn.
  assert (Hlen : String.length (dumps_at st lvl v) <= String.length (pair_text st lvl (k, v)))
    by (unfold pair_text; rewrite !str_length_app; simpl; lia).
  destruct d as [|[k' v'] d]; cbn [map] in *.
  - rewrite str_app_assoc, json_pair_reads by (done || lia || by apply num_end_break).
    by rewrite skip_ws_break.
  - destruct (skip_ws_item st lvl (String.append (join_with (String.append (st_item st) (break st lvl))
      (pair_text st lvl (k', v') :: map (pair_text st lvl) d)) (String.append (String.append (break st lvl') "}") r)) Hst)
      as (w & Hw & Hi & Hskip).
    destruct (pair_text_head st lvl (k', v')) as (t & Et).
    rewrite (skip_ws_join _ _ _ _ _ _ Et eq_refl) in Hskip.
    rewrite !str_app_assoc, Hi, json_pair_reads by (done || lia). rewrite Hi in Hskip, Hn, IH.
    cbn [String.append] in *. rewrite !str_app_assoc in Hskip.
    change (skip_ws (String "," ?s)) with (String "," s). cbn iota.
    change (Ascii.eqb "," "}") with false. change (Ascii.eqb "," ",") with true. cbn iota.
    rewrite !str_app_assoc in *. cbn [String.append] in *. rewrite Hskip.
    cbn [String.length] in Hn. rewrite !str_length_app in Hn.
    specialize (IH ltac:(done) Hd Rd n r). rewrite !str_app_assoc in IH. cbn [String.append] in IH.
    rewrite IH; [done|]. rewrite !str_length_app. lia.
Qed.

Lemma json_word_const r :
  json_word (String.append "null" r) = Some (JNull, r) /\
  json_word (String.append "true" r) = Some (JBool true, r) /\
  json_word (String.append "false" r) = Some (JBool false, r).
Proof.
  unfold json_word. rewrite !prefix_app. split_and!.
  - by rewrite (str_drop_app "null").
  - rewrite (prefix_head "n" "t" "ull" (String.append "rue" r) eq_refl : String.prefix "null" (String.append "true" r) = false). by rewrite (str_drop_app "true").
  - rewrite (prefix_head "n" "f" "ull" (String.append "alse" r) eq_refl : String.prefix "null" (String.append "false" r) = false).
    rewrite (prefix_head "t" "f" "rue" (String.append "alse" r) eq_refl : String.prefix "true" (String.append "false" r) = false). by rewrite (str_drop_app "false").
Qed.

Lemma Forall_json_ok l : forallb json_ok l = true -> Forall (fun v => json_ok v = true) l.
Proof. intros H. apply List.Forall_forall. by apply forallb_forall. Qed.

Lemma json_reads v : json_ok v = true -> reads v.
Proof.
  induction v as [|b|z|f|s|l IH|d IH] using json_induction; intros Hok st lvl n r Hst Hr Hn.
  - destruct n as [|n]; [simpl in Hn; lia|]. apply (json_word_const r).
  - destruct n as [|n]; [destruct b; simpl in Hn; lia|]. destruct b; apply (json_word_const r).
  - apply json_value_number; [done | apply num_head_int | apply json_number_int |].
    cbn [dumps_at] in Hn. pose proof (num_head_int z). destruct (int_str z); [done | simpl in Hn; lia].
  - destruct (float_ok_number f Hok) as [Hh Hs]. apply json_value_number; auto.
    cbn [dumps_at] in Hn. destruct (dumps_float f); [done | simpl in Hn; lia].
  - cbn [dumps_at json_ok] in *. destruct (dumps_str_read (st_ascii st) s r Hok) as (body & E & Hb & Hl).
    destruct n as [|n]; [lia|]. rewrite E. cbn [json_value].
    change (Ascii.eqb "034" "034") with true. cbn iota. by rewrite Hb.
  - cbn [json_ok] in Hok. destruct l as [|v l].
    { destruct n as [|n]; [simpl in Hn; lia|]. done. }
    apply Forall_json_ok in Hok. cbn [dumps_at] in *. unfold bracket in *. cbn [String.append String.length] in *.
    destruct n as [|n]; [lia|]. cbn [json_value].
    change (Ascii.eqb "[" "034") with false. change (Ascii.eqb "[" "{") with false.
    change (Ascii.eqb "[" "[") with true. cbn iota.
    rewrite !str_length_app in Hn. rewrite !str_app_assoc, skip_ws_break.
    destruct (dumps_head st (S lvl) v) as (a & t & Ea & Hws & Ha); [by inversion Hok|].
    cbn [map]. rewrite (skip_ws_join _ _ _ _ _ _ Ea Hws).
    assert (Hi : json_items n (String.append (String.append (join_with (String.append (st_item st)
      (break st (S lvl))) (map (dumps_at st (S lvl)) (v :: l))) (String.append (break st lvl) "]")) r)
      = Some (v :: l, r)).
    { apply json_items_reads; [done | done | done | |].
      - rewrite Forall_forall in Hok, IH |- *. eauto.
      - rewrite !str_length_app. simpl in *. lia. }
    rewrite !str_app_assoc in Hi. cbn [map String.append] in Hi |- *. rewrite join_cons in Hi |- *.
    rewrite Ea in Hi |- *. cbn [String.append] in *. by rewrite Ha, Hi.
  - cbn [json_ok] in Hok. apply andb_true_iff in Hok as [Hnd Hok]. apply bool_decide_eq_true in Hnd.
    destruct d as [|kv d].
    { destruct n as [|n]; [simpl in Hn; lia|]. done. }
    assert (Hp : Forall (fun kv => utf8_ok kv.1 = true /\ json_ok kv.2 = true) (kv :: d)).
    { apply List.Forall_forall. intros x Hx. rewrite forallb_forall in Hok. by apply andb_true_iff, Hok. }
    cbn [dumps_at] in *. unfold bracket in *. cbn [String.append String.length] in *.
    destruct n as [|n]; [lia|]. cbn [json_value].
    change (Ascii.eqb "{" "034") with false. change (Ascii.eqb "{" "{") with true. cbn iota.
    change (map _ (kv :: d)) with (map (pair_text st (S lvl)) (kv :: d)) in *.
    rewrite !str_length_app in Hn. rewrite !str_app_assoc, skip_ws_break.
    assert (Hi : json_pairs n (String.append (String.append (join_with (String.append (st_item st)
      (break st (S lvl))) (map (pair_text st (S lvl)) (kv :: d))) (String.append (break st lvl) "}")) r)
      = Some (kv :: d, r)).
    { apply json_pairs_reads; [done | done | done | |].
      - rewrite Forall_forall in Hp, IH |- *. intros x Hx. apply IH; [done|]. by apply Hp.
      - rewrite !str_length_app. simpl in *. lia. }
    destruct (pair_text_head st (S lvl) kv) as (t & Et).
    cbn [map] in *. rewrite (skip_ws_join _ _ _ _ _ _ Et eq_refl).
    rewrite !str_app_assoc in Hi. cbn [map String.append] in Hi |- *. rewrite join_cons in Hi |- *.
    rewrite Et in Hi |- *. cbn [String.append] in *. change (Ascii.eqb "034" "}") with false. cbn iota. rewrite Hi.
    by rewrite (dmerge_fresh [] (kv :: d) Hnd).
Qed.

(** The printer and the parser of the [json] module are inverse. *)
Lemma loads_dumps st v : style_ok st -> json_ok v = true -> json_loads (json_dumps st v) = Some v.
Proof.
  intros Hst Hv. unfold json_loads, json_dumps.
  destruct (dumps_head st 0 v Hv) as (a & t & Ea & Ha & _).
  replace (skip_ws (dumps_at st 0 v)) with (String.append (dumps_at st 0 v) EmptyString)
    by (rewrite str_app_nil_r, Ea; simpl; by rewrite Ha).
  rewrite (json_reads v Hv); [done | done | done |]. unfold json_fuel. lia.
Qed.

Lemma default_style_ok : style_ok default_style.
Proof. split; by eexists. Qed.
Lemma compact_ok : style_ok compact.
Proof. split; by eexists. Qed.
Lemma indented_ok k : style_ok (indented k).
Proof. split; by eexists. Qed.
Lemma indented_raw_ok k : style_ok (indented_raw k).
Proof. split; by eexists. Qed.

#[export] Hint Resolve default_style_ok compact_ok indented_ok indented_raw_ok : py.

(** ** The text of a value that is not a string *)

Definition value_head (a : ascii) : bool := is_digit a || char_in a "-[{NTFin".

Lemma int_str_head z : exists a t, int_str z = String a t /\ (is_digit a = true \/ a = "-"%char).
Proof. apply num_head_cons, num_head_int. Qed.

Lemma dec_layout_head d e : exists a t, dec_layout d e = String a t /\ (is_digit a = true \/ a = "-"%char).
Proof.
  unfold dec_layout. destruct (int_str_head d) as (a & t & -> & Ha).
  assert (Htk : forall n, 0 < n -> forall r, exists t', String.append (py_take n (String a t)) r = String a t').
  { intros n Hn r. destruct (py_take_head n a t Hn) as [t' ->]. eexists. done. }
  set (nd := Z.of_nat _). destruct (_ && _); [destruct (0 <=? e)%Z; [|destruct (Z.ltb_spec 0 (nd + e))]|].
  - eexists a, _. by split.
  - destruct (Htk (Z.to_nat (nd + e)) ltac:(lia)
      (String.append "." (py_drop (Z.to_nat (nd + e)) (String a t)))) as [t' E]. exists a, t'. by split.
  - eexists "0"%char, _. split; [done | by left].
  - destruct (nd =? 1)%Z; [eexists a, _; by split|].
    destruct (py_take_head 1 a t ltac:(lia)) as [t' ->]. eexists a, _. by split.
Qed.

Lemma py_repr_json_head v : is_str v = false ->
  exists a t, py_repr_json v = String a t /\ value_head a = true.
Proof.
  assert (Hd : forall a, is_digit a = true \/ a = "-"%char -> value_head a = true).
  { intros a [Ha| ->]; [|done]. unfold value_head. by rewrite Ha. }
  assert (Hf : forall m e, exists a t, float_repr_abs m e = String a t /\ value_head a = true).
  { intros m e. unfold float_repr_abs. destruct (if (0 <=? e)%Z then _ else _) as [num den].
    destruct (shortest _ _ _ _ _ _) as [[d e']|]; [|by eexists _, _].
    destruct (dec_layout_head d e') as (a & t & -> & Ha). eauto. }
  destruct v as [|[]|z|[[]|[]| |[] m e]|s|l|d]; intros H;
    try discriminate H; try (by eexists _, _).
  - destruct (int_str_head z) as (a & t & E & Ha). exists a, t. auto.
  - destruct (Hf m e) as (a & t & E & Ha). exists a, t. auto.
Qed.

Lemma py_eq_str v s : py_eq v (JStr s) = true <-> v = JStr s.
Proof.
  split; [|intros ->; simpl; apply String.eqb_refl]. destruct v; simpl; try done.
  intros ?%String.eqb_eq. congruence.
Qed.
