(* ===== verification/PyUrl.v ===== *)
(** * URLs and network addresses

    What the SDK uses of [urllib.parse] and [ipaddress]: [urlsplit], the quoting
    of a path segment and of query parameters, and [ip_address(..).is_loopback]. *)
From Stdlib Require Import ZArith Lia Ascii String.
From stdpp Require Import base tactics list strings.
From S2P Require Import Prelude PyStr Json.

(** ** Splitting a URL *)

Definition ascii_alpha (a : ascii) : bool := is_upper a || is_lower a.
Definition scheme_char (a : ascii) : bool := is_alnum a || char_in a "+-.".

(** The text before and after the first character in a set. *)
Fixpoint cut_at (p : ascii -> bool) (s : string) : string * option string :=
  match s with
  | EmptyString => (EmptyString, None)
  | String a s' => if p a then (EmptyString, Some s)
                   else let '(x, r) := cut_at p s' in (String a x, r)
  end.

Fixpoint drop_chars (p : ascii -> bool) (s : string) : string :=
  match s with
  | EmptyString => EmptyString
  | String a s' => if p a then drop_chars p s' else String a (drop_chars p s')
  end.
Fixpoint lstrip_chars (p : ascii -> bool) (s : string) : string :=
  match s with String a s' => if p a then lstrip_chars p s' else s | EmptyString => s end.

(** After the last [@]. *)
Fixpoint after_at (s : string) : string :=
  match s with
  | EmptyString => EmptyString
  | String a s' => if char_in "@" s' then after_at s' else if Ascii.eqb a "@" then s' else s
  end.

(** [urlsplit(raw)]: the scheme, the network location and the host name.
    [netloc_ok] is the check of bracketed and of NFKC-normalised hosts, whose
    failure is a [ValueError]. *)
Definition urlsplit (netloc_ok : string -> bool) (raw : string) : option (string * string * string) :=
  let url := drop_chars (fun a => char_in a (String.append tab (String.append nl cr)))
               (lstrip_chars (fun a => (code a <=? 32)%N) raw) in
  let '(scheme, rest) :=
    match cut_at (fun a => Ascii.eqb a ":") url with
    | (String a x, Some (String _ r)) =>
        if ascii_alpha a && str_forall scheme_char x then (py_lower (String a x), r) else ("", url)
    | _ => ("", url)
    end in
  let netloc := if String.prefix "//" rest
                then (cut_at (fun a => char_in a "/?#") (str_drop 2 rest)).1 else "" in
  if negb (Bool.eqb (char_in "[" netloc) (char_in "]" netloc)) || negb (netloc_ok netloc) then None
  else
    let hostinfo := after_at netloc in
    let hostname :=
      match cut_at (fun a => Ascii.eqb a "[") hostinfo with
      | (_, Some (String _ r)) => (cut_at (fun a => Ascii.eqb a "]") r).1
      | (h, _) => (cut_at (fun a => Ascii.eqb a ":") h).1
      end in
    Some (scheme, netloc, py_lower hostname).

(** ** Quoting *)

Definition always_safe (a : ascii) : bool := is_alnum a || char_in a "_.-~".
Definition hex_upper (n : N) : ascii := if (n <? 10)%N then ascii_of_N (48 + n) else ascii_of_N (55 + n).
Definition percent (a : ascii) : string :=
  String "%" (String (hex_upper (code a / 16)) (String (hex_upper (code a mod 16)) EmptyString)).

(** [quote(s, safe='')] and [quote_plus(s)], on the UTF-8 bytes. *)
Fixpoint quote (s : string) : string :=
  match s with
  | EmptyString => EmptyString
  | String a s' => if always_safe a then String a (quote s') else String.append (percent a) (quote s')
  end.
Fixpoint quote_plus (s : string) : string :=
  match s with
  | EmptyString => EmptyString
  | String a s' =>
      if always_safe a then String a (quote_plus s')
      else if Ascii.eqb a " " then String "+" (quote_plus s')
      else String.append (percent a) (quote_plus s')
  end.
Definition urlencode (query : dict string) : string :=
  join_with "&" (map (fun kv => String.append (quote_plus kv.1) (String "=" (quote_plus kv.2))) query).

Example quote_examples :
  (quote "a b/c?é", urlencode [("agent_id", "a b&c"); ("k", "~")]) = ("a%20b%2Fc%3F%C3%A9", "agent_id=a+b%26c&k=~").
Proof. vm_compute. reflexivity. Qed.

(** A quoted text holds safe characters and percent signs only: no slash,
    question mark, colon or space. *)
Lemma quote_chars s : str_forall (fun a => always_safe a || Ascii.eqb a "%") (quote s) = true.
Proof.
  assert (Hh : forall n, (n < 16)%N -> always_safe (hex_upper n) = true).
  { intros n Hn. apply (all_below (fun n => always_safe (hex_upper n)) 16); [reflexivity | lia]. }
  induction s as [|a s IH]; simpl; [done|].
  destruct (always_safe a) eqn:Ha; simpl; [by rewrite Ha|].
  rewrite IH. pose proof (N_ascii_bounded a). unfold code.
  rewrite !Hh; [done | apply N.mod_lt; lia | apply N.Div0.div_lt_upper_bound; lia].
Qed.

(** ** Addresses *)

Definition nonempty_digits (s : string) : bool := py_truthy_str s && str_forall is_digit s.

(** One decimal octet: at most three digits, no leading zero, at most 255. *)
Definition parse_octet (s : string) : option N :=
  if nonempty_digits s && (String.length s <=? 3)%nat
     && negb (String.prefix "0" s && (2 <=? String.length s)%nat)
  then let n := Z.to_N (digits_val 0 s) in if (n <=? 255)%N then Some n else None
  else None.

Definition parse_ipv4 (s : string) : option (list N) :=
  match py_split "." s with
  | [a; b; c; d] => mapM parse_octet [a; b; c; d]
  | _ => None
  end.

Fixpoint hex_number (acc : N) (s : string) : option N :=
  match s with
  | EmptyString => Some acc
  | String a s' => v ← hex_val a; hex_number (acc * 16 + v)%N s'
  end.
Definition parse_hextet (s : string) : option N :=
  if py_truthy_str s && (String.length s <=? 4)%nat then hex_number 0 s else None.

(** The indices of the empty parts that are neither first nor last. *)
Definition inner_empty (parts : list string) : list nat :=
  List.filter (fun i => match parts !! i with Some p => negb (py_truthy_str p) | None => false end)
    (seq 1 (length parts - 2)).

(** The eight groups of a textual IPv6 address, without its scope. *)
Definition ipv6_groups (parts : list string) : option (list N) :=
  let n := length parts in
  let empty_at i := match parts !! i with Some p => negb (py_truthy_str p) | None => true end in
  if (n <? 3)%nat || (9 <? n)%nat then None
  else
    match inner_empty parts with
    | [] =>
        if (n =? 8)%nat then mapM parse_hextet parts else None
    | [skip] =>
        let hi := if empty_at 0%nat then (skip - 1)%nat else skip in
        let lo := if empty_at (n - 1)%nat then (n - skip - 2)%nat else (n - skip - 1)%nat in
        if (empty_at 0%nat && negb (hi =? 0)%nat) || (empty_at (n - 1)%nat && negb (lo =? 0)%nat)
           || (8 <=? hi + lo)%nat
        then None
        else
          h ← mapM parse_hextet (take hi parts);
          l ← mapM parse_hextet (drop (n - lo) parts);
          Some (h ++ repeat 0%N (8 - (hi + lo)) ++ l)
    | _ => None
    end.

(** An IPv4 address may stand for the last two groups. *)
Definition parse_ipv6 (s : string) : option (list N) :=
  match py_split "%" s with
  | [] => None
  | addr :: scope =>
      if match scope with [] => false | [z] => negb (py_truthy_str z) | _ => true end || char_in "/" s then None
      else
        let parts := py_split ":" addr in
        if (length parts <? 3)%nat then None
        else
          let tail := List.last parts EmptyString in
          if char_in "." tail then
            match parse_ipv4 tail with
            | Some [a; b; c; d] =>
                let hextet x y := String (hex_digit (x / 16)) (String (hex_digit (x mod 16))
                                    (String (hex_digit (y / 16)) (String (hex_digit (y mod 16)) EmptyString))) in
                ipv6_groups (removelast parts ++ [hextet a b; hextet c d])
            | _ => None
            end
          else ipv6_groups parts
  end.

(** [ip_address(host).is_loopback], false when [host] is no address.  Python
    3.13 and later look through an IPv4-mapped IPv6 address ([mapped]). *)
Definition is_loopback_address (mapped : bool) (host : string) : bool :=
  match parse_ipv4 host with
  | Some (a :: _) => (a =? 127)%N
  | Some [] => false
  | None =>
      match parse_ipv6 host with
      | Some [0; 0; 0; 0; 0; x; y; z]%N =>
          ((x =? 0) && (y =? 0) && (z =? 1))%N || (mapped && (x =? 65535)%N && (y / 256 =? 127)%N)
      | _ => false
      end
  end.

Example loopback_examples :
  map (is_loopback_address true)
    ["127.0.0.1"; "127.255.0.9"; "::1"; "0:0:0:0:0:0:0:1"; "::1%lo"; "::ffff:127.0.0.1"; "::0001";
     "128.0.0.1"; "localhost"; "127.0.0.01"; "127.1"; "::2"; ":::1"; "1::1"; "::ffff:10.0.0.1"; "::1%"; ""; "127.0.0.1/8"]
  = repeat true 7 ++ repeat false 11.
Proof. vm_compute. reflexivity. Qed.
