(* ===== verification/PyBytes.v ===== *)
(** * Bytes and their decoding

    [bytes.decode("utf-8", errors="replace")], [bytes.strip], and [json.loads] of
    a [bytes] value with its detection of the encoding.  Text is UTF-8 in this
    development, so that a strict decoding is a check. *)
From Stdlib Require Import ZArith Lia Ascii String.
From stdpp Require Import base tactics list strings.
From S2P Require Import Prelude PyStr PyFloat Json.

(** ** UTF-8 *)

Definition in_range (lo hi : N) (a : ascii) : bool := ((lo <=? code a) && (code a <=? hi))%N.

(** The second byte of a sequence, given the first ([pass]: surrogates are let
    through, as under [surrogatepass]). *)
Definition second_of_three (pass : bool) (a b : ascii) : bool :=
  if (code a =? 224)%N then in_range 160 191 b
  else if (code a =? 237)%N && negb pass then in_range 128 159 b
  else in_range 128 191 b.
Definition second_of_four (a b : ascii) : bool :=
  if (code a =? 240)%N then in_range 144 191 b
  else if (code a =? 244)%N then in_range 128 143 b
  else in_range 128 191 b.
Definition cont (a : ascii) : bool := in_range 128 191 a.

Definition replacement : string := bytes [239; 191; 189]%N.

(** Every maximal ill-formed piece becomes U+FFFD. *)
Fixpoint decode_replace (s : string) : string :=
  let bad s' := String.append replacement (decode_replace s') in
  match s with
  | EmptyString => EmptyString
  | String a s1 =>
      if (code a <? 128)%N then String a (decode_replace s1)
      else if in_range 194 223 a then
        match s1 with
        | String b s2 => if cont b then String a (String b (decode_replace s2)) else bad s1
        | EmptyString => replacement
        end
      else if in_range 224 239 a then
        match s1 with
        | String b s2 =>
            if second_of_three false a b then
              match s2 with
              | String c s3 => if cont c then String a (String b (String c (decode_replace s3))) else bad s2
              | EmptyString => replacement
              end
            else bad s1
        | EmptyString => replacement
        end
      else if in_range 240 244 a then
        match s1 with
        | String b s2 =>
            if second_of_four a b then
              match s2 with
              | String c s3 =>
                  if cont c then
                    match s3 with
                    | String d s4 =>
                        if cont d then String a (String b (String c (String d (decode_replace s4)))) else bad s3
                    | EmptyString => replacement
                    end
                  else bad s2
              | EmptyString => replacement
              end
            else bad s1
        | EmptyString => replacement
        end
      else bad s1
  end.

Fixpoint utf8_valid (pass : bool) (s : string) : bool :=
  match s with
  | EmptyString => true
  | String a s1 =>
      if (code a <? 128)%N then utf8_valid pass s1
      else if in_range 194 223 a then
        match s1 with String b s2 => cont b && utf8_valid pass s2 | EmptyString => false end
      else if in_range 224 239 a then
        match s1 with
        | String b (String c s3) => second_of_three pass a b && cont c && utf8_valid pass s3
        | _ => false
        end
      else if in_range 240 244 a then
        match s1 with
        | String b (String c (String d s4)) => second_of_four a b && cont c && cont d && utf8_valid pass s4
        | _ => false
        end
      else false
  end.

(** Well-formed text is decoded as it is. *)
Lemma decode_replace_valid s : utf8_valid false s = true -> decode_replace s = s.
Proof.
  induction s as [s IH] using (induction_ltof1 _ String.length). unfold ltof in IH.
  destruct s as [|a s1]; [done|]. cbn [utf8_valid decode_replace].
  destruct (code a <? 128)%N; [intros H; by rewrite IH by (simpl; lia || done)|].
  destruct (in_range 194 223 a).
  { destruct s1 as [|b s2]; [done|]. intros [-> H]%andb_true_iff. by rewrite IH by (simpl; lia || done). }
  destruct (in_range 224 239 a).
  { destruct s1 as [|b [|c s3]]; try done. intros [[-> ->]%andb_true_iff H]%andb_true_iff.
    by rewrite IH by (simpl; lia || done). }
  destruct (in_range 240 244 a); [|done].
  destruct s1 as [|b [|c [|d s4]]]; try done.
  intros [[[-> ->]%andb_true_iff ->]%andb_true_iff H]%andb_true_iff. by rewrite IH by (simpl; lia || done).
Qed.

(** ** UTF-16 and UTF-32 *)

Fixpoint units16 (big : bool) (s : string) : option (list N) :=
  match s with
  | EmptyString => Some []
  | String a (String b s') =>
      rest ← units16 big s';
      Some ((if big then code a * 256 + code b else code b * 256 + code a)%N :: rest)
  | _ => None
  end.
Fixpoint units32 (big : bool) (s : string) : option (list N) :=
  match s with
  | EmptyString => Some []
  | String a (String b (String c (String d s'))) =>
      rest ← units32 big s';
      let n := (if big then ((code a * 256 + code b) * 256 + code c) * 256 + code d
                else ((code d * 256 + code c) * 256 + code b) * 256 + code a)%N in
      if (n <? 1114112)%N then Some (n :: rest) else None
  | _ => None
  end.
(** Pairs of surrogates are joined, lone ones are passed. *)
Fixpoint join_surrogates (l : list N) : string :=
  match l with
  | [] => EmptyString
  | n :: l' =>
      match l' with
      | m :: l'' =>
          if is_high n && is_low m
          then String.append (utf8 (65536 + (n - 55296) * 1024 + (m - 56320))) (join_surrogates l'')
          else String.append (utf8 n) (join_surrogates l')
      | [] => utf8 n
      end
  end.
Definition utf32_text (l : list N) : string := str_join (map utf8 l).

(** ** [json.loads] of bytes *)

Definition nul (a : ascii) : bool := (code a =? 0)%N.

(** The text of a JSON document, [None] when it cannot be decoded. *)
Definition decode_json_bytes (s : string) : option string :=
  let u16 big t := join_surrogates <$> units16 big t in
  let u32 big t := utf32_text <$> units32 big t in
  let u8 t := if utf8_valid true t then Some t else None in
  if String.prefix (bytes [0; 0; 254; 255]%N) s then u32 true (str_drop 4 s)
  else if String.prefix (bytes [255; 254; 0; 0]%N) s then u32 false (str_drop 4 s)
  else if String.prefix (bytes [254; 255]%N) s then u16 true (str_drop 2 s)
  else if String.prefix (bytes [255; 254]%N) s then u16 false (str_drop 2 s)
  else if String.prefix (bytes [239; 187; 191]%N) s then u8 (str_drop 3 s)
  else match s with
       | String a (String b (String c (String d _))) =>
           if nul a then (if nul b then u32 true s else u16 true s)
           else if nul b then (if nul c && nul d then u32 false s else u16 false s)
           else u8 s
       | String a (String b EmptyString) =>
           if nul a then u16 true s else if nul b then u16 false s else u8 s
       | _ => u8 s
       end.

Inductive loads_error := NotJSON | NotText.
Definition json_loads_bytes (s : string) : res loads_error json :=
  text ← of_option NotText (decode_json_bytes s); of_option NotJSON (json_loads text).

Example bytes_examples :
  (decode_replace (bytes [97; 240; 159; 152; 98; 237; 160; 128; 255; 195]%N),
   map json_loads_bytes [jq "{'a':1}"; bytes [239; 187; 191; 49]%N; bytes [49; 0; 50; 0]%N; bytes [0; 49]%N; bytes [34; 255; 34]%N; "x";
     bytes [254; 255; 0; 34; 216; 61; 222; 0; 0; 34]%N])
  = (str_join ["a"; replacement; "b"; replacement; replacement; replacement; replacement; replacement],
     [Ok (JObj [("a", JInt 1)]); Ok (JInt 1); Ok (JInt 12); Ok (JInt 1); Raise NotText; Raise NotJSON; Ok (JStr "😀")]).
Proof. vm_compute. reflexivity. Qed.

(** [bytes.strip] and [b[:n]]. *)
Definition is_blank_byte (a : ascii) : bool := ((code a =? 32) || ((9 <=? code a) && (code a <=? 13)))%N.
Fixpoint bytes_lstrip (s : string) : string :=
  match s with String a s' => if is_blank_byte a then bytes_lstrip s' else s | EmptyString => s end.
Definition bytes_strip (s : string) : string := str_rev (bytes_lstrip (str_rev (bytes_lstrip s))).
Definition bytes_blank (s : string) : bool := str_forall is_blank_byte s.
Fixpoint bytes_take (n : N) (s : string) : string :=
  match s with
  | EmptyString => EmptyString
  | String a s' => if (n =? 0)%N then EmptyString else String a (bytes_take (n - 1) s')
  end.

Lemma bytes_take_all n s : (N.of_nat (String.length s) <= n)%N -> bytes_take n s = s.
Proof.
  revert n. induction s as [|a s IH]; intros n; simpl; [done|]. intros H.
  destruct (N.eqb_spec n 0) as [->|Hn]; [lia|]. rewrite IH by lia. done.
Qed.
