(* ===== verification/Types.v ===== *)
(** * Decisions, callers and time

    [middleware/types.py]: the actions of a policy decision, the caller context
    that carries the delegation chain, and the decision record; with the
    exceptions and the [datetime] values the whole SDK uses. *)
From Stdlib Require Import ZArith Lia Ascii String SpecFloat.
From stdpp Require Import base tactics list strings.
From S2P Require Import Prelude PyStr PyFloat Json.

(** ** Exceptions *)

(** The class of an exception and its message. *)
Inductive exn_class :=
| TypeError | ValueError | KeyError | AttributeError | IndexError | PermissionError
| RuntimeError | OSError | TimeoutError | OverflowError | JSONDecodeError
| UserError (name : string).
#[global] Instance exn_class_eq_dec : EqDecision exn_class.
Proof. solve_decision. Defined.

(** What [except OSError] catches. *)
Definition is_os_error (c : exn_class) : bool := match c with OSError | PermissionError | TimeoutError => true | _ => false end.

Record exn := Exn { exn_cls : exn_class; exn_msg : string }.

(** ** Operations on untyped values *)

Definition attr_error {A} (msg : string) : res exn A := Raise (Exn AttributeError msg).

(** [for c in v]: what iterating over a decoded value yields. *)
Definition py_iter (v : json) : res exn (list json) :=
  match v with
  | JArr l => Ok l
  | JObj d => Ok (map (fun kv => JStr kv.1) d)
  | JStr s => Ok (map JStr (py_chars s))
  | _ => Raise (Exn TypeError "object is not iterable")
  end.

(** [v.get(k, default)], [v[k]] of an untyped value, and hashing one. *)
Definition any_get (v : json) (k : string) (default : json) : res exn json :=
  match v with JObj d => Ok (dget_or d k default) | _ => attr_error "object has no attribute 'get'" end.
Definition any_item (v : json) (k : string) : res exn json :=
  match v with
  | JObj d => of_option (Exn KeyError k) (dget d k)
  | _ => Raise (Exn TypeError "object is not subscriptable by a string")
  end.
(** [v[0]] of an untyped value. *)
Definition any_first (v : json) : res exn json :=
  match v with
  | JArr (x :: _) => Ok x
  | JArr [] => Raise (Exn IndexError "list index out of range")
  | JStr s => match py_chars s with c :: _ => Ok (JStr c) | [] => Raise (Exn IndexError "string index out of range") end
  | JObj _ => Raise (Exn KeyError "0")
  | _ => Raise (Exn TypeError "object is not subscriptable")
  end.
(** [len(v)] of an untyped value. *)
Definition any_length (v : json) : res exn Z :=
  match v with
  | JArr l => Ok (Z.of_nat (length l))
  | JObj d => Ok (Z.of_nat (length d))
  | JStr s => Ok (Z.of_nat (py_len s))
  | _ => Raise (Exn TypeError "object has no len()")
  end.
Definition any_hash (v : json) : res exn unit :=
  match v with JArr _ | JObj _ => Raise (Exn TypeError "unhashable type") | _ => Ok tt end.
(** [x in v]; a text is searched for a text. *)
Definition any_in (x v : json) : res exn bool :=
  match v with
  | JArr l => Ok (existsb (py_eq x) l)
  | JObj d => _ ← any_hash x; Ok (existsb (fun kv => py_eq x (JStr kv.1)) d)
  | JStr s => match x with JStr c => Ok (py_in c s) | _ => Raise (Exn TypeError "'in <string>' requires string as left operand") end
  | _ => Raise (Exn TypeError "argument is not iterable")
  end.
(** [v in s] of a set [s]: hashes, then compares. *)
Definition in_set (v : json) (s : list json) : res exn bool := _ ← any_hash v; Ok (existsb (py_eq v) s).
(** [type(v).__name__]. *)
Definition type_name (v : json) : string :=
  match v with
  | JNull => "NoneType" | JBool _ => "bool" | JInt _ => "int" | JFloat _ => "float" | JStr _ => "str"
  | JArr _ => "list" | JObj _ => "dict"
  end.

(** [json.loads] of an untyped value, with [{}] for a false one where the code
    says so. *)
Definition any_loads (v : json) : res exn json :=
  match v with
  | JStr s => of_option (Exn JSONDecodeError s) (json_loads s)
  | _ => Raise (Exn TypeError (String.append "the JSON object must be str, bytes or bytearray, not " (type_name v)))
  end.
Definition loads_or_empty (v : json) : res exn json := if py_truthy v then any_loads v else Ok (JObj []).

(** [sorted(l)] of values: of texts, or by [other], which compares anything. *)
Definition strings_of (l : list json) : option (list string) :=
  mapM (fun v => match v with JStr s => Some s | _ => None end) l.
Definition sorted_values (other : list json -> res exn (list json)) (l : list json) : res exn (list json) :=
  match strings_of l with Some ss => Ok (map JStr (py_sorted ss)) | None => other l end.

Lemma strings_of_strs k : strings_of (map JStr k) = Some k.
Proof. unfold strings_of. induction k as [|x k IH]; [done|]. cbn in *. by rewrite IH. Qed.

Lemma sorted_texts other l : sorted_values other (map JStr (py_sorted l)) = Ok (map JStr (py_sorted l)).
Proof. unfold sorted_values. rewrite strings_of_strs. unfold py_sorted at 1. by rewrite sort_by_id by apply py_sorted_ordered. Qed.

(** [a / b] of integers: the correctly rounded quotient. *)
Definition int_div (a b : Z) : res exn spec_float :=
  if (b =? 0)%Z then Raise (Exn (UserError "ZeroDivisionError") "division by zero")
  else if (a =? 0)%Z then Ok (S754_zero (b <? 0)%Z)
  else
    let neg := xorb (a <? 0)%Z (b <? 0)%Z in
    let '(q, e, l) := SFdiv_core_binary f_prec f_emax (Z.abs a) 0 (Z.abs b) 0 in
    match binary_round_aux f_prec f_emax neg q e l with
    | S754_infinity _ => Raise (Exn OverflowError "integer division result too large for a float")
    | f => Ok f
    end.

(** [v + 1] and [a > b] of numbers. *)
Definition any_succ (v : json) : res exn json :=
  match v with
  | JInt z => Ok (JInt (z + 1))
  | JBool b => Ok (JInt (if b then 2 else 1))
  | JFloat f => Ok (JFloat (SFadd f_prec f_emax f (float_of_Z 1)))
  | _ => Raise (Exn TypeError "unsupported operand type(s) for +")
  end.
Definition any_gt (a b : json) : res exn bool :=
  if is_num a && is_num b then Ok match num_compare a b with Some Gt => true | _ => false end
  else Raise (Exn TypeError "'>' not supported between instances").

(** Python's [any] and [next] over a condition that may raise, stopping at the
    first element for which it holds. *)
Fixpoint res_find {A} (p : A -> res exn bool) (l : list A) : res exn (option A) :=
  match l with
  | [] => Ok None
  | x :: l' => b ← p x; if (b : bool) then Ok (Some x) else res_find p l'
  end.
Definition res_any {A} (p : A -> res exn bool) (l : list A) : res exn bool :=
  o ← res_find p l; Ok match o with Some _ => true | None => false end.
Fixpoint res_filter {A} (p : A -> res exn bool) (l : list A) : res exn (list A) :=
  match l with
  | [] => Ok []
  | x :: l' => b ← p x; rest ← res_filter p l'; Ok (if (b : bool) then x :: rest else rest)
  end.

Lemma res_find_pure {A} (p : A -> res exn bool) (q : A -> bool) l :
  (forall x, x ∈ l -> p x = Ok (q x)) -> res_find p l = Ok (List.find q l).
Proof.
  induction l as [|x l IH]; intros H; [done|]. simpl. rewrite H by set_solver. simpl.
  destruct (q x); [done|]. apply IH. set_solver.
Qed.
Lemma res_any_pure {A} (p : A -> res exn bool) (q : A -> bool) l :
  (forall x, x ∈ l -> p x = Ok (q x)) -> res_any p l = Ok (existsb q l).
Proof.
  intros H. unfold res_any. rewrite (res_find_pure p q) by done. simpl. f_equal. clear H.
  induction l as [|x l IH]; simpl; [done|]. by destruct (q x).
Qed.
Lemma res_filter_pure {A} (p : A -> res exn bool) (q : A -> bool) l :
  (forall x, x ∈ l -> p x = Ok (q x)) -> res_filter p l = Ok (List.filter q l).
Proof.
  induction l as [|x l IH]; intros H; [done|]. simpl. rewrite H by set_solver. simpl.
  rewrite IH by set_solver. done.
Qed.

(** ** [datetime]: a wall clock in microseconds, with a UTC offset (also in
    microseconds) when it is timezone-aware. *)

Record datetime := DT { dt_wall : Z; dt_offset : option Z }.
#[global] Instance datetime_eq_dec : EqDecision datetime.
Proof. solve_decision. Defined.

Definition dt_utc (us : Z) : datetime := DT us (Some 0%Z).

(** [a < b]: comparing a naive with an aware value raises. *)
Definition dt_lt (a b : datetime) : res exn bool :=
  match dt_offset a, dt_offset b with
  | None, None => Ok (dt_wall a <? dt_wall b)%Z
  | Some o, Some p => Ok (dt_wall a - o <? dt_wall b - p)%Z
  | _, _ => Raise (Exn TypeError "can't compare offset-naive and offset-aware datetimes")
  end.

Definition dt_comparable (a b : datetime) : bool :=
  match dt_offset a, dt_offset b with None, None | Some _, Some _ => true | _, _ => false end.

Lemma dt_lt_ok a b : dt_comparable a b = true -> exists c, dt_lt a b = Ok c.
Proof. unfold dt_comparable, dt_lt. destruct (dt_offset a), (dt_offset b); eauto; done. Qed.

(** ** Message types *)

Inductive MessageType :=
| SYSTEM_PROMPT | USER_INPUT | TOOL_CALL | TOOL_RESULT | REASONING | TEXT_RESPONSE
| STEP_NUDGE | PREREQUISITE_NUDGE | RETRY_NUDGE | CONTEXT_WARNING | SUMMARY.
#[global] Instance MessageType_eq_dec : EqDecision MessageType.
Proof. solve_decision. Defined.

Definition message_type_value (t : MessageType) : string :=
  match t with
  | SYSTEM_PROMPT => "system_prompt"
  | USER_INPUT => "user_input"
  | TOOL_CALL => "tool_call"
  | TOOL_RESULT => "tool_result"
  | REASONING => "reasoning"
  | TEXT_RESPONSE => "text_response"
  | STEP_NUDGE => "step_nudge"
  | PREREQUISITE_NUDGE => "prerequisite_nudge"
  | RETRY_NUDGE => "retry_nudge"
  | CONTEXT_WARNING => "context_warning"
  | SUMMARY => "summary"
  end.

Record MessageMeta := {
  mm_type : MessageType;
  mm_step_index : option Z;
  mm_original_type : option MessageType;
  mm_token_estimate : option Z;
}.
Definition MessageMeta_default : MessageMeta := Build_MessageMeta USER_INPUT None None None.

(** ** Decisions *)

Inductive Action := ALLOW | DENY | FILTER.
#[global] Instance Action_eq_dec : EqDecision Action.
Proof. solve_decision. Defined.

Definition action_value (a : Action) : string :=
  match a with ALLOW => "allow" | DENY => "deny" | FILTER => "filter" end.

Record Decision := {
  d_action : Action;
  d_rule : json;
  d_reason : string;
  d_redacted_args : jdict;
  d_enrollment : option jdict;
  d_connect : option jdict;
  d_timestamp : datetime;
  d_reason_code : option string;
  d_hint : option string;
}.

(** [Decision(action=..., rule=..., reason=...)] at time [now]. *)
Definition mk_decision (now : datetime) (a : Action) (rule reason : string) : Decision :=
  {| d_action := a; d_rule := JStr rule; d_reason := reason; d_redacted_args := [];
     d_enrollment := None; d_connect := None; d_timestamp := now;
     d_reason_code := None; d_hint := None |}.

Section DecisionDict.
(** [datetime.isoformat], of the standard library. *)
Context (isoformat : datetime -> string).

Definition opt_field {A} (k : string) (o : option A) (f : A -> json) : jdict :=
  match o with Some a => [(k, f a)] | None => [] end.

Definition decision_to_dict (d : Decision) : jdict :=
  [("action", JStr (action_value (d_action d)));
   ("rule", d_rule d);
   ("reason", JStr (d_reason d));
   ("redacted_args", JObj (d_redacted_args d));
   ("timestamp", JStr (isoformat (d_timestamp d)))]
  ++ opt_field "reason_code" (d_reason_code d) JStr
  ++ opt_field "hint" (d_hint d) JStr
  ++ opt_field "enrollment" (d_enrollment d) JObj
  ++ opt_field "connect" (d_connect d) JObj.

(** The keys are distinct whatever is set. *)
Lemma decision_to_dict_ok d : dict_ok (decision_to_dict d).
Proof.
  unfold dict_ok, decision_to_dict, opt_field.
  destruct (d_reason_code d), (d_hint d), (d_enrollment d), (d_connect d);
    apply (bool_decide_unpack _); reflexivity.
Qed.
End DecisionDict.

(** ** The caller and its delegation chain *)

Record CallerContext := {
  cc_user_id : string;
  cc_session_id : string;
  cc_role : string;
  cc_source : string;
  cc_trusted : bool;
  cc_metadata : dict string;
  cc_invoking_subject : string;
  cc_parent_span : string;
  cc_delegation_depth : Z;
  cc_span_id : string;
  cc_agent_version : string;
  cc_framework : string;
  cc_workspace_id : string;
}.

Definition CallerContext_default : CallerContext :=
  {| cc_user_id := ""; cc_session_id := ""; cc_role := ""; cc_source := ""; cc_trusted := false;
     cc_metadata := []; cc_invoking_subject := ""; cc_parent_span := "";
     cc_delegation_depth := 0; cc_span_id := ""; cc_agent_version := ""; cc_framework := "";
     cc_workspace_id := "" |}.

(** The keyword arguments a caller of [delegate] may pass. *)
Record Overrides := {
  ov_user_id : option string;
  ov_session_id : option string;
  ov_role : option string;
  ov_source : option string;
  ov_trusted : option bool;
  ov_metadata : option (dict string);
  ov_invoking_subject : option string;
  ov_parent_span : option string;
  ov_delegation_depth : option Z;
  ov_span_id : option string;
  ov_agent_version : option string;
  ov_framework : option string;
  ov_workspace_id : option string;
  ov_other : list string;
}.
Definition no_overrides : Overrides :=
  Build_Overrides None None None None None None None None None None None None None [].

(** [dataclasses.replace] is given [parent_span], [delegation_depth] and
    [span_id] by [delegate] itself: a second value for one of them, or a name
    that is not a field, is a [TypeError]. *)
Definition delegate (c : CallerContext) (span : string) (ov : Overrides) : res exn CallerContext :=
  if bool_decide (is_Some (ov_parent_span ov) \/ is_Some (ov_delegation_depth ov) \/
                  is_Some (ov_span_id ov) \/ ov_other ov <> [])
  then Raise (Exn TypeError "replace() got an unexpected or repeated keyword argument")
  else Ok
    {| cc_user_id := default (cc_user_id c) (ov_user_id ov);
       cc_session_id := default (cc_session_id c) (ov_session_id ov);
       cc_role := default (cc_role c) (ov_role ov);
       cc_source := default (cc_source c) (ov_source ov);
       cc_trusted := default (cc_trusted c) (ov_trusted ov);
       cc_metadata := default (cc_metadata c) (ov_metadata ov);
       cc_invoking_subject := cc_invoking_subject c;
       cc_parent_span := str_or span (str_or (cc_span_id c) (cc_parent_span c));
       cc_delegation_depth := cc_delegation_depth c + 1;
       cc_span_id := "";
       cc_agent_version := default (cc_agent_version c) (ov_agent_version ov);
       cc_framework := default (cc_framework c) (ov_framework ov);
       cc_workspace_id := default (cc_workspace_id c) (ov_workspace_id ov) |}.

(** A chain of delegations, from the human entry point down. *)
Fixpoint delegate_chain (c : CallerContext) (hops : list (string * Overrides)) : res exn CallerContext :=
  match hops with
  | [] => Ok c
  | (span, ov) :: hops' => c' ← delegate c span ov; delegate_chain c' hops'
  end.

Lemma delegate_Ok c span ov c' : delegate c span ov = Ok c' ->
  cc_invoking_subject c' = cc_invoking_subject c /\
  cc_delegation_depth c' = (cc_delegation_depth c + 1)%Z /\
  cc_span_id c' = "" /\
  cc_parent_span c' = str_or span (str_or (cc_span_id c) (cc_parent_span c)).
Proof. unfold delegate. case_bool_decide; [done|]. intros [= <-]. by split_and!. Qed.

Lemma delegate_chain_Ok c hops c' : delegate_chain c hops = Ok c' ->
  cc_invoking_subject c' = cc_invoking_subject c /\
  cc_delegation_depth c' = (cc_delegation_depth c + Z.of_nat (length hops))%Z.
Proof.
  revert c. induction hops as [|[span ov] hops IH]; intros c H; simpl in H.
  - injection H as <-. split; [done|]. simpl. lia.
  - res_inv. apply delegate_Ok in Hr as (Hs & Hd & _). apply IH in H as [Hs' Hd'].
    split; [congruence|]. rewrite Hd', Hd. simpl length. lia.
Qed.

(** ** [int(...)] *)

Fixpoint int_digits (after_digit : bool) (acc : Z) (s : string) : option Z :=
  match s with
  | EmptyString => if after_digit then Some acc else None
  | String a s' =>
      if is_digit a then int_digits true (acc * 10 + digit_val a)%Z s'
      else if Ascii.eqb a "_" && after_digit then int_digits false acc s'
      else None
  end.

(** [int(s)] of a string of ASCII digits, with an optional sign, surrounding
    white space and single underscores between digits. *)
Definition int_of_str (s : string) : option Z :=
  match py_strip s with
  | String a s' =>
      if Ascii.eqb a "-" then Z.opp <$> int_digits false 0 s'
      else if Ascii.eqb a "+" then int_digits false 0 s'
      else int_digits false 0 (String a s')
  | EmptyString => None
  end.

Definition py_int (v : json) : res exn Z :=
  match v with
  | JInt z => Ok z
  | JBool b => Ok (if b then 1 else 0)%Z
  | JFloat S754_nan => Raise (Exn ValueError "cannot convert float NaN to integer")
  | JFloat f => of_option (Exn OverflowError "cannot convert float infinity to integer") (float_trunc f)
  | JStr s => of_option (Exn ValueError "invalid literal for int() with base 10") (int_of_str s)
  | _ => Raise (Exn TypeError "int() argument must be a string, a bytes-like object or a real number")
  end.

Example int_of_str_ok : map int_of_str [" 42 "; "-1_000"; "+7"; "1__0"; "_1"; "1_"; ""; "0x1"]
  = [Some 42; Some (-1000); Some 7; None; None; None; None; None]%Z.
Proof. reflexivity. Qed.
