(* ===== verification/Alias.v ===== *)
(** * The deprecated alias package

    [python/src/pedro_agentware/__init__.py]: a finder and a loader that make
    [pedro_agentware.<x>] the same module object as [haikeilabs.agentware.<x>].

    Modules are objects with identities.  Of [importlib], [import_module] and
    [module_from_spec] are modelled as documented: a loaded name is not loaded
    again, and the [__spec__] of a module that a loader creates is overwritten with
    the spec it was found by.  Parameters: [has_spec], whether [find_spec] finds a
    module of the new package, and [load_new], the loading of one. *)
From Stdlib Require Import ZArith Lia Ascii String.
From stdpp Require Import base tactics list strings.
From S2P Require Import Prelude PyStr Types.

Definition _OLD := "pedro_agentware".
Definition _NEW := "haikeilabs.agentware".
Definition old_name (x : string) : string := str_join [_OLD; "."; x].
Definition new_name (x : string) : string := str_join [_NEW; "."; x].

(** [sys.modules], and the name in the [__spec__] of each module object. *)
Record Sys := { modules : dict nat; spec_of : nat -> option string }.
Definition set_module (name : string) (m : nat) (s : Sys) : Sys := {| modules := dset (modules s) name m; spec_of := spec_of s |}.
Definition set_spec (m : nat) (spec : option string) (s : Sys) : Sys :=
  {| modules := modules s; spec_of := fun m' => if Nat.eqb m' m then spec else spec_of s m' |}.

(** [sys.modules.setdefault]. *)
Definition set_default (name : string) (m : nat) (s : Sys) : Sys :=
  match dget (modules s) name with Some _ => s | None => set_module name m s end.

(** [name.startswith(prefix + ".")] and the rest of the name. *)
Definition after_package (package name : string) : option string :=
  let p := String.append package "." in if py_startswith p name then Some (str_drop (String.length p) name) else None.

(** The loop at the end of the module: what is loaded under the new name is
    aliased. *)
Fixpoint alias_loaded (items : dict nat) (s : Sys) : Sys :=
  match items with
  | [] => s
  | (name, m) :: items' =>
      alias_loaded items' (match after_package _NEW name with Some x => set_default (old_name x) m s | None => s end)
  end.
Definition install (s : Sys) : Sys := alias_loaded (modules s) s.

Section Alias.
Context (has_spec : string -> bool) (load_new : string -> eff Sys exn nat).

Definition ModuleNotFoundError (name : string) : exn := Exn (UserError "ModuleNotFoundError") (str_join ["No module named '"; name; "'"]).

(** [importlib.import_module] of a name of the new package. *)
Definition import_new (name : string) : eff Sys exn nat := fun s =>
  match dget (modules s) name with Some m => (Ok m, s) | None => load_new name s end.

(** [_AliasFinder.find_spec]: the name the loader is to import. *)
Definition find_spec (fullname : string) : option string :=
  match after_package _OLD fullname with
  | None => None
  | Some x => if has_spec (new_name x) then Some (new_name x) else None
  end.

(** [_AliasLoader]: [create_module], then the machinery's attributes and entry,
    then [exec_module]. *)
Definition create_module (target : string) : eff Sys exn (nat * option string) := fun s =>
  match import_new target s with
  | (Ok m, s') => (Ok (m, spec_of s' m), s')
  | (Raise e, s') => (Raise e, s')
  end.
Definition exec_module (m : nat) (spec : option string) (s : Sys) : Sys := set_spec m spec s.
Definition import_old (fullname : string) : eff Sys exn nat := fun s =>
  match dget (modules s) fullname with
  | Some m => (Ok m, s)
  | None =>
      match find_spec fullname with
      | None => (Raise (ModuleNotFoundError fullname), s)
      | Some target =>
          match create_module target s with
          | (Raise e, s') => (Raise e, s')
          | (Ok (m, saved), s') => (Ok m, exec_module m saved (set_module fullname m (set_spec m (Some fullname) s')))
          end
      end
  end.

(** [__getattr__], over the attributes of the new package. *)
Definition __getattr__ {A} (target : string -> option A) (name : string) : res exn A :=
  of_option (Exn AttributeError (str_join ["module '"; _OLD; "' has no attribute '"; name; "'"])) (target name).

(** ** Aliases are the same objects *)

(** Loading a module of the new package enters it under its name, keeps what is
    loaded with its specs, enters no alias, and gives it a spec of its name. *)
Context (load_enters : forall x s m s', load_new (new_name x) s = (Ok m, s') ->
  dget (modules s') (new_name x) = Some m /\ spec_of s' m = Some (new_name x)).
Context (load_keeps : forall name s r s', load_new name s = (r, s') ->
  (forall k m, dget (modules s) k = Some m -> dget (modules s') k = Some m) /\
  (forall k m, dget (modules s) k = Some m -> spec_of s' m = spec_of s m) /\
  (forall x, dget (modules s') (old_name x) = dget (modules s) (old_name x))).
Context (load_specs : forall name s r s', load_new name s = (r, s') ->
  forall x m, dget (modules s) (new_name x) = None -> dget (modules s') (new_name x) = Some m -> spec_of s' m = Some (new_name x)).

(** An alias is the module of the new name, and that module has its own spec. *)
Definition aliased (s : Sys) : Prop :=
  (forall x m, dget (modules s) (old_name x) = Some m -> dget (modules s) (new_name x) = Some m) /\
  (forall x m, dget (modules s) (new_name x) = Some m -> spec_of s m = Some (new_name x)).

Lemma old_new x y : old_name x <> new_name y.
Proof. unfold old_name, new_name, _OLD, _NEW. cbn. discriminate. Qed.
Lemma old_name_inj x y : old_name x = old_name y -> x = y.
Proof. unfold old_name. cbn. rewrite !str_app_nil_r. intros H. by injection H. Qed.
Lemma new_name_inj x y : new_name x = new_name y -> x = y.
Proof. unfold new_name. cbn. rewrite !str_app_nil_r. intros H. by injection H. Qed.
Lemma after_package_spec p name x : after_package p name = Some x <-> name = str_join [p; "."; x].
Proof.
  unfold after_package, py_startswith. destruct (String.prefix _ name) eqn:Hp; split; intros H; try done.
  - apply prefix_split in Hp as [t ->]. rewrite str_drop_app in H. injection H as ->. cbn. by rewrite str_app_assoc, str_app_nil_r.
  - subst. cbn in *. rewrite str_app_nil_r. f_equal. replace (String.append p (String "." x)) with (String.append (String.append p ".") x) by (by rewrite str_app_assoc). apply str_drop_app.
  - subst. exfalso. replace (str_join [p; "."; x]) with (String.append (String.append p ".") x) in Hp; [by rewrite prefix_app in Hp|].
    cbn. by rewrite str_app_assoc, str_app_nil_r.
Qed.

Lemma set_default_aliased x m s : dget (modules s) (new_name x) = Some m -> aliased s ->
  aliased (set_default (old_name x) m s) /\ (forall k, dget (modules (set_default (old_name x) m s)) (new_name k) = dget (modules s) (new_name k)).
Proof.
  intros Hx [Ho Hn]. unfold set_default. destruct (dget (modules s) (old_name x)) as [m'|] eqn:Hd; [by split|].
  assert (Hnew : forall k, dget (modules (set_module (old_name x) m s)) (new_name k) = dget (modules s) (new_name k)).
  { intros k. cbn [set_module modules]. apply dget_dset_ne. intros He. symmetry in He. by apply old_new in He. }
  split; [|exact Hnew]. split; intros y m0; rewrite ?Hnew.
  - cbn [set_module modules]. rewrite dget_dset. destruct (String.eqb_spec (old_name y) (old_name x)) as [He|_]; [|apply Ho].
    apply old_name_inj in He as ->. congruence.
  - apply Hn.
Qed.

Lemma alias_loaded_aliased items s : (forall k m, (k, m) ∈ items -> dget (modules s) k = Some m) -> aliased s -> aliased (alias_loaded items s).
Proof.
  revert s. induction items as [|[name m] items IH]; intros s Hin Ha; [done|]. cbn [alias_loaded].
  destruct (after_package _NEW name) as [x|] eqn:Hx; [|apply IH; [set_solver | done]].
  apply after_package_spec in Hx. change (name = new_name x) in Hx. subst name.
  destruct (set_default_aliased x m s) as [Ha' Hnew]; [apply Hin; set_solver | done |]. apply IH; [|done].
  intros k m' Hk. assert (Hk' : dget (modules s) k = Some m') by (apply Hin; set_solver).
  unfold set_default. destruct (dget (modules s) (old_name x)) eqn:Hd; [done|]. cbn [set_module modules].
  rewrite dget_dset_ne; [done|]. intros ->. congruence.
Qed.

(** Installing over what is loaded, when no alias is wrong yet. *)
Lemma install_aliased s : dict_ok (modules s) -> aliased s -> aliased (install s).
Proof.
  intros Hd Ha. apply alias_loaded_aliased; [|done]. revert Hd. generalize (modules s). intros d Hd k m Hin.
  induction d as [|[k' m'] d IH]; [set_solver|]. apply NoDup_cons in Hd as [Hk Hd]. cbn. apply elem_of_cons in Hin as [[= -> ->]|Hin].
  - by rewrite String.eqb_refl.
  - destruct (String.eqb_spec k k') as [->|_]; [|auto]. destruct Hk. apply list_elem_of_fmap. by exists (k', m).
Qed.

Lemma import_new_aliased x s r s' : aliased s -> import_new (new_name x) s = (r, s') -> aliased s' /\
  (forall m, r = Ok m -> dget (modules s') (new_name x) = Some m /\ spec_of s' m = Some (new_name x)).
Proof.
  intros [Ho Hn]. unfold import_new. destruct (dget (modules s) (new_name x)) as [m|] eqn:Hx.
  - intros [= <- <-]. split; [by split|]. intros m' [= ->]. auto.
  - intros Hl. destruct (load_keeps _ _ _ _ Hl) as (Hk & Hs & Hold). split; [split|].
    + intros y m. rewrite Hold. intros Hy. auto.
    + intros y m Hy. destruct (dget (modules s) (new_name y)) as [m'|] eqn:Hy'; [|by eapply load_specs].
      assert (m' = m) as -> by (apply Hk in Hy'; congruence). rewrite (Hs _ _ Hy'). auto.
    + intros m ->. by eapply load_enters.
Qed.

Lemma import_old_aliased x s r s' : aliased s -> import_old (old_name x) s = (r, s') -> aliased s' /\
  (forall m, r = Ok m -> dget (modules s') (old_name x) = Some m /\ dget (modules s') (new_name x) = Some m /\ spec_of s' m = Some (new_name x)).
Proof.
  intros Ha. unfold import_old. destruct (dget (modules s) (old_name x)) as [m|] eqn:Hx.
  { intros [= <- <-]. split; [done|]. intros m' [= ->]. destruct Ha as [Ho Hn]. auto. }
  unfold find_spec. rewrite (proj2 (after_package_spec _OLD (old_name x) x) eq_refl).
  destruct (has_spec (new_name x)); [|by intros [= <- <-]]. unfold create_module.
  destruct (import_new (new_name x) s) as [[m|e] s1] eqn:Hi; destruct (import_new_aliased _ _ _ _ Ha Hi) as [Ha1 Hm]; [|by intros [= <- <-]].
  destruct (Hm m eq_refl) as [Hx1 Hs1]. intros [= <- <-].
  assert (Hnew : forall k, dget (dset (modules s1) (old_name x) m) (new_name k) = dget (modules s1) (new_name k)).
  { intros k. apply dget_dset_ne. intros He. symmetry in He. by apply old_new in He. }
  assert (Hspec : forall n, spec_of (exec_module m (spec_of s1 m) (set_module (old_name x) m (set_spec m (Some (old_name x)) s1))) n = spec_of s1 n).
  { intros n. cbn. by destruct (Nat.eqb_spec n m) as [->|]. }
  destruct Ha1 as [Ho1 Hn1]. split; [split|].
  - intros y m0. cbn [exec_module set_module set_spec modules]. rewrite Hnew, dget_dset. destruct (String.eqb_spec (old_name y) (old_name x)) as [He|_]; [|apply Ho1].
    apply old_name_inj in He as ->. congruence.
  - intros y m0 Hy. rewrite Hspec. cbn [exec_module set_module set_spec modules] in Hy. rewrite Hnew in Hy. auto.
  - intros m0 [= <-]. rewrite Hspec. cbn [exec_module set_module set_spec modules]. rewrite Hnew, dget_dset_eq. auto.
Qed.

(** Imports under either name. *)
Inductive imports (s s' : Sys) : Prop :=
| of_new x r : import_new (new_name x) s = (r, s') -> imports s s'
| of_old x r : import_old (old_name x) s = (r, s') -> imports s s'.

(** Whatever was loaded before the alias package, and in whatever order modules
    are imported under either name afterwards, an import under the old name gives
    the object that the new name gives, with the spec of its own name. *)
Lemma alias_is_the_same_module s0 s x m s' : dict_ok (modules s0) -> aliased s0 -> steps imports (install s0) s ->
  import_old (old_name x) s = (Ok m, s') -> import_new (new_name x) s' = (Ok m, s') /\ spec_of s' m = Some (new_name x).
Proof.
  intros Hd Ha0 Hs Hi. assert (Ha : aliased s).
  { revert Hs. apply (steps_invariant imports aliased); [|by apply install_aliased].
    intros a b Ha [y r H|y r H]; [by apply import_new_aliased in H as [? _] | by apply import_old_aliased in H as [? _]]. }
  destruct (import_old_aliased _ _ _ _ Ha Hi) as [_ Hm]. destruct (Hm m eq_refl) as (_ & Hn & Hsp). unfold import_new. by rewrite Hn.
Qed.
End Alias.

(** ** A registry of modules to load

    Loading makes a new object; the classes of a module are the same under both
    names. *)
Definition ex_load (name : string) : eff Sys exn nat := fun s =>
  let m := length (modules s) in (Ok m, set_spec m (Some name) (set_module name m s)).
Definition ex_import (name : string) : eff Sys exn nat := fun s =>
  match after_package _OLD name with
  | Some _ => import_old (fun n => negb (String.eqb n (new_name "nothing"))) ex_load name s
  | None => import_new ex_load name s
  end.
Definition ex_sys : Sys := {| modules := [("sys", 0); (new_name "kei", 1)]; spec_of := fun m => nth_error [Some "sys"; Some (new_name "kei")] m ≫= id |}.
Example both_names :
  (fst ((a ← ex_import (old_name "kei"); b ← ex_import (new_name "kei"); c ← ex_import (old_name "jobs.job"); d ← ex_import (new_name "jobs.job");
         mret (a, b, c, d)) (install ex_sys)),
   fst (ex_import (old_name "nothing") (install ex_sys)))
  = (Ok (1, 1, 3, 3), Raise (ModuleNotFoundError "pedro_agentware.nothing")).
Proof. vm_compute. reflexivity. Qed.
