(* ===== verification/Packages.v ===== *)
(** * The packages and what they export

    The [__init__.py] of the packages: the names each imports from its modules and
    lists in [__all__], as data, and what importing it binds.

    [importlib.metadata.version], the version of the installed distribution, is a
    parameter. *)
From Stdlib Require Import ZArith Lia Ascii String.
From stdpp Require Import base tactics list strings.
From S2P Require Import Prelude PyStr Types.

(** [from .<module> import <names>] *)
Abbreviation import := (string * list string)%type.

(** A binding of a package: a submodule, which importing from it binds as well, or
    a name of one. *)
Inductive binding := Submodule (m : string) | NameOf (m name : string).

Definition bind_names (m : string) (names : list string) (ns : dict binding) : dict binding :=
  foldl (fun ns name => dset ns name (NameOf m name)) ns names.
Fixpoint run_imports (imports : list import) (ns : dict binding) : dict binding :=
  match imports with
  | [] => ns
  | (m, names) :: imports' => run_imports imports' (bind_names m names (dset ns m (Submodule m)))
  end.
(** [from <package> import *] *)
Definition import_star (imports : list import) (all : list string) : res exn (dict binding) :=
  res_map (fun x => b ← of_option (Exn AttributeError x) (dget (run_imports imports []) x); Ok (x, b)) all.

(** The version of the distribution, or that of a source tree. *)
Definition __version__ (distribution : string -> option string) : string := default "0+unknown" (distribution "haikeilabs-agentware").

(** ** The packages *)

(** [python/src/haikeilabs/agentware/__init__.py] *)
Definition Agentware_imports : list import :=
  [("executor",
     ["Executor"]);
   ("jobs",
     ["Job"; "JobManager"]);
   ("llm",
     ["Backend"; "Message"]);
   ("llmcontext",
     ["ContextManager"]);
   ("middleware",
     ["Auditor"; "Middleware"; "PolicyEvaluator"]);
   ("prompts",
     ["PromptGenerator"]);
   ("reasoning",
     ["ReasoningAdapter"]);
   ("toolformat",
     ["ToolFormatter"]);
   ("tools",
     ["Result"; "Tool"; "ToolRegistry"]);
   ("toolspec",
     ["ToolSpec"; "register_tool_specs"; "serialize_tool_specs"])].
Definition Agentware_all : list string :=
  ["Tool"; "ToolRegistry"; "ToolSpec"; "serialize_tool_specs"; "register_tool_specs"; "Result"; "Middleware";
   "PolicyEvaluator"; "Auditor"; "Executor"; "Job"; "JobManager"; "Message"; "Backend"; "ContextManager"; "PromptGenerator";
   "ToolFormatter"; "ReasoningAdapter"].

(** [python/src/haikeilabs/agentware/executor/__init__.py] *)
Definition Executor_imports : list import :=
  [("executor",
     ["ExecuteRequest"; "ExecuteResult"; "Executor"; "TerminationReason"])].
Definition Executor_all : list string :=
  ["Executor"; "ExecuteRequest"; "ExecuteResult"; "TerminationReason"].

(** [python/src/haikeilabs/agentware/jobs/__init__.py] *)
Definition Jobs_imports : list import :=
  [("job",
     ["Job"; "JobStatus"]);
   ("manager",
     ["JobManager"])].
Definition Jobs_all : list string :=
  ["Job"; "JobStatus"; "JobManager"].

(** [python/src/haikeilabs/agentware/kei/__init__.py] *)
Definition Kei_imports : list import :=
  [("auth",
     ["BOOTSTRAP_TOKEN_ENV"; "AuthProvider"; "AuthProviderFactory"; "EnvSecretProvider"; "JWTTokenProvider";
     "OpaqueTokenProvider"; "SecretProvider"; "TokenInfo"; "TokenType"; "get_auth_provider"]);
   ("authorize_client",
     ["AUTHORIZE_CHILD_ENV_ALLOWLIST"; "DEFAULT_AUTHORIZE_TIMEOUT"; "KeiProxyAuthorizeClient"; "parse_authorize_output"]);
   ("config",
     ["BINDINGS_GRANT_PERMISSIONS"; "BOOTSTRAP_SECRET_NAME"; "HarnessConfig"; "HarnessManifest"; "HarnessType"; "SecretRef";
     "ToolBinding"; "get_config"; "load_manifest"; "validate_manifest"]);
   ("contract",
     ["HarnessContract"; "ToolExecutionError"; "ToolExecutor"; "ToolNotFoundError"; "validate_contract"]);
   ("evaluator",
     ["AFFIRMATIVE_DECISIONS"; "REASON_CLASSES"; "AuthorizationClient"; "AuthorizationResponse"; "KeiProxyAuthorizeError";
     "KeiProxyEvaluator"; "resources_touched"; "tool_args_digest"]);
   ("mcproute",
     ["CODE_DENIED"; "CODE_HEADER_MISMATCH"; "CODE_MANIFEST"; "CODE_UNAUTHENTICATED"; "CODE_UPSTREAM"; "ROUTE_KEY_ENV";
     "Client"; "ContentBlock"; "HeaderMismatchError"; "ManifestDriftError"; "MCPRouteError"; "PolicyDeniedError"; "RouteError";
     "RouteNotLocalError"; "SessionEndedError"; "ToolDescriptor"; "ToolResult"; "UpstreamError"]);
   ("policy_bundle",
     ["RUNTIME_CONTROL_PLANE_URL_ENV"; "RUNTIME_TOKEN_ENV"; "BundleFetchError"; "BundleNotLoadedError"; "BundleParseError";
     "PolicyBundleData"; "PolicyBundleError"; "PolicyBundleLifecycle"]);
   ("proxy",
     ["LocalProxyProcess"; "ProxyConfig"; "ProxyDiscoveryError"; "ProxyExecutionError"; "ProxyNotFoundError"; "ProxyProcess";
     "discover_proxy"; "run_proxy"; "stop_proxy"]);
   ("runtime_link",
     ["CONTRACT_VERSION"; "AssignedAgent"; "Backoff"; "BeatEvent"; "BeatOutcome"; "BinaryRef"; "ChildLineError";
     "ContractMismatchError"; "EventHarness"; "FailureClass"; "HarnessEnvelope"; "HarnessKind"; "IgnoredEvent";
     "InvalidLinkEventError"; "LifecycleAuditSink"; "LifecycleEventName"; "LineTooLongError"; "Link"; "LinkEvent"; "LinkState";
     "LinkStatus"; "MalformedLineError"; "MetricsSink"; "RuntimeIdentity"; "RuntimeLink"; "RuntimeLinkConfig";
     "RuntimeLinkConfigError"; "SecretSource"; "TerminalEvent"; "config_from_env"; "new_link"; "normalize_config";
     "parse_child_line"; "parse_child_line_counted"]);
   ("runtime_socket",
     ["AUTHORIZE_REQUEST_SCHEMA"; "AUTHORIZE_RESPONSE_SCHEMA"; "DEFAULT_RUNTIME_SOCKET_PATH"; "RUNTIME_SOCKET_PATH_ENV";
     "SESSION_HEADER"; "SESSION_SCHEMA"; "KeiProxySocketAuthorizationClient"; "KeiProxySocketAuthorizeClient";
     "KeiProxySocketError"; "KeiProxySocketIdentity"; "KeiProxySocketSession"; "select_authorization_client"]);
   ("tool_sync",
     ["TOOL_MANIFEST_V3_MEDIA_TYPE"; "TOOLS_PATH"; "ToolManifestSyncConfig"; "ToolManifestSyncError"; "ToolManifestSyncResult";
     "manifest_tool_count"; "sync_manifest_path"; "sync_tool_manifest"; "sync_tool_specs"])].
Definition Kei_all : list string :=
  ["AFFIRMATIVE_DECISIONS"; "AuthorizationClient"; "AuthorizationResponse"; "AUTHORIZE_CHILD_ENV_ALLOWLIST";
   "DEFAULT_AUTHORIZE_TIMEOUT"; "KeiProxyAuthorizeClient"; "KeiProxyAuthorizeError"; "KeiProxyEvaluator"; "REASON_CLASSES";
   "parse_authorize_output"; "resources_touched"; "tool_args_digest"; "AuthProvider"; "AuthProviderFactory";
   "BOOTSTRAP_TOKEN_ENV"; "EnvSecretProvider"; "HarnessContract"; "JWTTokenProvider"; "OpaqueTokenProvider"; "SecretProvider";
   "TokenInfo"; "TokenType"; "ToolExecutor"; "ToolExecutionError"; "ToolNotFoundError"; "get_auth_provider";
   "BINDINGS_GRANT_PERMISSIONS"; "BOOTSTRAP_SECRET_NAME"; "HarnessConfig"; "HarnessManifest"; "HarnessType"; "SecretRef";
   "ToolBinding"; "get_config"; "load_manifest"; "validate_contract"; "validate_manifest"; "BundleFetchError";
   "BundleNotLoadedError"; "BundleParseError"; "PolicyBundleData"; "PolicyBundleError"; "PolicyBundleLifecycle";
   "RUNTIME_CONTROL_PLANE_URL_ENV"; "RUNTIME_TOKEN_ENV"; "LocalProxyProcess"; "ProxyConfig"; "ProxyDiscoveryError";
   "ProxyExecutionError"; "ProxyNotFoundError"; "ProxyProcess"; "discover_proxy"; "run_proxy"; "stop_proxy";
   "CONTRACT_VERSION"; "HarnessKind"; "LinkState"; "FailureClass"; "BeatOutcome"; "LifecycleEventName";
   "RuntimeLinkConfigError"; "BinaryRef"; "SecretSource"; "Backoff"; "HarnessEnvelope"; "RuntimeLinkConfig";
   "normalize_config"; "config_from_env"; "LinkStatus"; "RuntimeIdentity"; "AssignedAgent"; "ChildLineError";
   "LineTooLongError"; "MalformedLineError"; "ContractMismatchError"; "BeatEvent"; "TerminalEvent"; "IgnoredEvent";
   "parse_child_line"; "parse_child_line_counted"; "InvalidLinkEventError"; "EventHarness"; "LinkEvent"; "RuntimeLink"; "Link";
   "MetricsSink"; "LifecycleAuditSink"; "new_link"; "AUTHORIZE_REQUEST_SCHEMA"; "AUTHORIZE_RESPONSE_SCHEMA";
   "DEFAULT_RUNTIME_SOCKET_PATH"; "RUNTIME_SOCKET_PATH_ENV"; "SESSION_HEADER"; "SESSION_SCHEMA";
   "KeiProxySocketAuthorizationClient"; "KeiProxySocketAuthorizeClient"; "KeiProxySocketError"; "KeiProxySocketIdentity";
   "KeiProxySocketSession"; "select_authorization_client"; "TOOL_MANIFEST_V3_MEDIA_TYPE"; "TOOLS_PATH";
   "ToolManifestSyncConfig"; "ToolManifestSyncError"; "ToolManifestSyncResult"; "manifest_tool_count"; "sync_manifest_path";
   "sync_tool_manifest"; "sync_tool_specs"; "Client"; "CODE_DENIED"; "CODE_HEADER_MISMATCH"; "CODE_MANIFEST";
   "CODE_UNAUTHENTICATED"; "CODE_UPSTREAM"; "ContentBlock"; "HeaderMismatchError"; "ManifestDriftError"; "MCPRouteError";
   "PolicyDeniedError"; "ROUTE_KEY_ENV"; "RouteError"; "RouteNotLocalError"; "SessionEndedError"; "ToolDescriptor";
   "ToolResult"; "UpstreamError"].

(** [python/src/haikeilabs/agentware/llm/__init__.py] *)
Definition Llm_imports : list import :=
  [("backend",
     ["Backend"]);
   ("request",
     ["Message"; "Request"; "Role"]);
   ("response",
     ["Response"; "ToolCall"])].
Definition Llm_all : list string :=
  ["Backend"; "Response"; "Message"; "Request"; "Role"; "ToolCall"].

(** [python/src/haikeilabs/agentware/llmcontext/__init__.py] *)
Definition Llmcontext_imports : list import :=
  [("context_window",
     ["CompactEvent"; "ContextWindowManager"]);
   ("manager",
     ["ContextManager"])].
Definition Llmcontext_all : list string :=
  ["CompactEvent"; "ContextManager"; "ContextWindowManager"].

(** [python/src/haikeilabs/agentware/memory/__init__.py] *)
Definition Memory_imports : list import :=
  [("client",
     ["MEMORY_TOOLS"; "DiagnosticViolation"; "MemoryServerError"; "WikiMemory"; "parse_diagnostics"]);
   ("langgraph",
     ["LangGraphMemoryTools"])].
Definition Memory_all : list string :=
  ["WikiMemory"; "MemoryServerError"; "DiagnosticViolation"; "parse_diagnostics"; "MEMORY_TOOLS"; "LangGraphMemoryTools"].

(** [python/src/haikeilabs/agentware/middleware/__init__.py] *)
Definition Middleware_imports : list import :=
  [("audit",
     ["AuditFilter"; "Auditor"; "AuditRecord"; "InMemoryAuditor"]);
   ("middleware",
     ["Middleware"; "MiddlewareImpl"]);
   ("policy",
     ["PolicyEvaluator"]);
   ("tool_client",
     ["AuditedToolClient"]);
   ("types",
     ["Action"; "CallerContext"; "Decision"])].
Definition Middleware_all : list string :=
  ["AuditedToolClient"; "Middleware"; "MiddlewareImpl"; "Action"; "CallerContext"; "Decision"; "PolicyEvaluator"; "Auditor";
   "AuditRecord"; "AuditFilter"; "InMemoryAuditor"].

(** [python/src/haikeilabs/agentware/middleware/guardrails/__init__.py] *)
Definition Guardrails_imports : list import :=
  [("error_tracker",
     ["ErrorTracker"]);
   ("facade",
     ["Guardrails"]);
   ("nudge",
     ["Nudge"; "NudgeKind"; "retry_nudge"; "step_nudge"; "unknown_tool_nudge"]);
   ("response_validator",
     ["ResponseValidator"; "ToolCall"; "ValidationResult"]);
   ("step_enforcer",
     ["StepEnforcer"; "StepNotAllowedError"])].
Definition Guardrails_all : list string :=
  ["ErrorTracker"; "Guardrails"; "Nudge"; "NudgeKind"; "retry_nudge"; "step_nudge"; "unknown_tool_nudge"; "ResponseValidator";
   "ToolCall"; "ValidationResult"; "StepEnforcer"; "StepNotAllowedError"].

(** [python/src/haikeilabs/agentware/prompts/__init__.py] *)
Definition Prompts_imports : list import :=
  [("generator",
     ["PromptGenerator"])].
Definition Prompts_all : list string :=
  ["PromptGenerator"].

(** [python/src/haikeilabs/agentware/reasoning/__init__.py] *)
Definition Reasoning_imports : list import :=
  [("adapter",
     ["MalformedContentError"; "MalformedInputError"; "MalformedJSONError"; "MalformedReasoningFieldError"; "ReasoningAdapter";
     "ReasoningError"; "ReasoningOptions"; "ReasoningTooLargeError"; "TooDeepError"; "TooManyNodesError";
     "UnbalancedThinkingError"]);
   ("types",
     ["CONTRACT_VERSION"; "ContextTree"; "Format"; "Node"; "NodeKind"; "NodeStatus"])].
Definition Reasoning_all : list string :=
  ["CONTRACT_VERSION"; "ReasoningAdapter"; "ReasoningOptions"; "ReasoningError"; "ContextTree"; "Node"; "NodeKind";
   "NodeStatus"; "Format"; "MalformedInputError"; "MalformedJSONError"; "MalformedReasoningFieldError";
   "MalformedContentError"; "UnbalancedThinkingError"; "ReasoningTooLargeError"; "TooManyNodesError"; "TooDeepError"].

(** [python/src/haikeilabs/agentware/toolformat/__init__.py] *)
Definition Toolformat_imports : list import :=
  [("formatter",
     ["AnthropicFormatter"; "DeepSeekFormatter"; "GenericFormatter"; "GLMFormatter"; "OpenAIFOrmatter"; "ParsedToolCall";
     "QwenFormatter"; "ToolFormatter"; "get_formatter"])].
Definition Toolformat_all : list string :=
  ["AnthropicFormatter"; "DeepSeekFormatter"; "GenericFormatter"; "GLMFormatter"; "OpenAIFOrmatter"; "ParsedToolCall";
   "QwenFormatter"; "ToolFormatter"; "get_formatter"].

(** [python/src/haikeilabs/agentware/tools/__init__.py] *)
Definition Tools_imports : list import :=
  [("registry",
     ["KeiToolRegistration"; "ToolRegistry"]);
   ("tool",
     ["BaseTool"; "GovernedTool"; "KeiResourceType"; "KeiScope"; "Result"; "Tool"])].
Definition Tools_all : list string :=
  ["Tool"; "Result"; "ToolRegistry"; "KeiToolRegistration"; "BaseTool"; "KeiScope"; "KeiResourceType"; "GovernedTool"].

(** [python/src/evals/cases/__init__.py] *)
Definition EvalCases_imports : list import :=
  [("beta_tools",
     ["BETA_TOOL_CASES"; "BETA_TOOLS"]);
   ("calendar",
     ["CALENDAR_CASES"]);
   ("file_search",
     ["FILE_SEARCH_CASES"]);
   ("general",
     ["GENERAL_CASES"]);
   ("github",
     ["GITHUB_CASES"])].
Definition EvalCases_all : list string :=
  ["BETA_TOOLS"; "BETA_TOOL_CASES"; "CALENDAR_CASES"; "FILE_SEARCH_CASES"; "GENERAL_CASES"; "GITHUB_CASES"].

(** [python/adapters/__init__.py] *)
Definition Adapters_imports : list import :=
  [("base",
     ["AgentBackend"; "AgentResult"; "AgentTool"])].
Definition Adapters_all : list string :=
  ["AgentBackend"; "AgentResult"; "AgentTool"].

(** [python/adapters/hermes/__init__.py] *)
Definition Hermes_imports : list import :=
  [("adapter",
     ["HermesAdapter"; "HermesConfig"; "create_adapter"]);
   ("client",
     ["Client"; "HermesTool"])].
Definition Hermes_all : list string :=
  ["Client"; "HermesTool"; "HermesAdapter"; "HermesConfig"; "create_adapter"].

(** [python/adapters/kitaru/__init__.py] *)
Definition Kitaru_imports : list import :=
  [("adapter",
     ["KitaruAdapter"; "KitaruConfig"; "create_adapter"]);
   ("client",
     ["Client"; "Execution"])].
Definition Kitaru_all : list string :=
  ["Client"; "Execution"; "KitaruAdapter"; "KitaruConfig"; "create_adapter"].

(** [python/adapters/pydantic/__init__.py] *)
Definition Pydantic_imports : list import :=
  [("adapter",
     ["PydanticAdapter"; "PydanticAdapterAsync"; "PydanticConfig"; "create_adapter"]);
   ("client",
     ["Client"; "PydanticTool"])].
Definition Pydantic_all : list string :=
  ["Client"; "PydanticTool"; "PydanticAdapter"; "PydanticAdapterAsync"; "PydanticConfig"; "create_adapter"].

Record package := { p_name : string; p_imports : list import; p_all : list string }.
Definition packages : list package :=
  [{| p_name := "agentware"; p_imports := Agentware_imports; p_all := Agentware_all |};
   {| p_name := "executor"; p_imports := Executor_imports; p_all := Executor_all |};
   {| p_name := "jobs"; p_imports := Jobs_imports; p_all := Jobs_all |};
   {| p_name := "kei"; p_imports := Kei_imports; p_all := Kei_all |};
   {| p_name := "llm"; p_imports := Llm_imports; p_all := Llm_all |};
   {| p_name := "llmcontext"; p_imports := Llmcontext_imports; p_all := Llmcontext_all |};
   {| p_name := "memory"; p_imports := Memory_imports; p_all := Memory_all |};
   {| p_name := "middleware"; p_imports := Middleware_imports; p_all := Middleware_all |};
   {| p_name := "guardrails"; p_imports := Guardrails_imports; p_all := Guardrails_all |};
   {| p_name := "prompts"; p_imports := Prompts_imports; p_all := Prompts_all |};
   {| p_name := "reasoning"; p_imports := Reasoning_imports; p_all := Reasoning_all |};
   {| p_name := "toolformat"; p_imports := Toolformat_imports; p_all := Toolformat_all |};
   {| p_name := "tools"; p_imports := Tools_imports; p_all := Tools_all |};
   {| p_name := "evalcases"; p_imports := EvalCases_imports; p_all := EvalCases_all |};
   {| p_name := "adapters"; p_imports := Adapters_imports; p_all := Adapters_all |};
   {| p_name := "hermes"; p_imports := Hermes_imports; p_all := Hermes_all |};
   {| p_name := "kitaru"; p_imports := Kitaru_imports; p_all := Kitaru_all |};
   {| p_name := "pydantic"; p_imports := Pydantic_imports; p_all := Pydantic_all |}].

(** The module of the distribution that a name of the root package comes from,
    through the packages it passes; [None] when a package does not bind it. *)
Definition find_package (name : string) : option package := List.find (fun p => String.eqb (p_name p) name) packages.
Fixpoint origin (fuel : nat) (package name : string) : option (string * string) :=
  match fuel with
  | O => None
  | S fuel' =>
      match find_package package with
      | None => Some (package, name)
      | Some p =>
          match dget (run_imports (p_imports p) []) name with
          | Some (NameOf m x) => if String.eqb m package then Some (m, x) else origin fuel' m x
          | _ => None
          end
      end
  end.

(** ** What is exported *)

Definition names_of (imports : list import) : list string := concat (map snd imports).
(** Nothing is imported twice, no name hides a module, and [__all__] lists each
    name once. *)
Definition exports_ok (imports : list import) (all : list string) : bool :=
  bool_decide (NoDup (names_of imports)) && bool_decide (NoDup all) &&
  forallb (fun x => negb (str_in x (map fst imports))) (names_of imports) &&
  forallb (fun x => str_in x (names_of imports)) all && forallb (fun x => str_in x all) (names_of imports).

Lemma dget_bind_names m names ns x :
  dget (bind_names m names ns) x = if str_in x names then Some (NameOf m x) else dget ns x.
Proof.
  unfold bind_names. revert ns. induction names as [|y names IH]; intros ns; [done|]. cbn [foldl]. rewrite IH, dget_dset.
  unfold str_in. cbn [existsb]. destruct (existsb (String.eqb x) names); [by rewrite orb_true_r|]. rewrite orb_false_r.
  by destruct (String.eqb_spec x y) as [->|].
Qed.

Lemma dget_run_imports imports ns x : x ∉ map fst imports -> NoDup (names_of imports) ->
  dget (run_imports imports ns) x =
    match List.find (fun i => str_in x (snd i)) imports with Some (m, _) => Some (NameOf m x) | None => dget ns x end.
Proof.
  revert ns. induction imports as [|[m names] imports IH]; intros ns Hx Hn; [done|].
  cbn [map fst] in Hx. apply not_elem_of_cons in Hx as [Hm Hx]. unfold names_of in Hn. cbn [map concat snd] in Hn.
  apply NoDup_app in Hn as (_ & Hd & Hn). cbn [run_imports List.find snd]. rewrite (IH _ Hx Hn), dget_bind_names, dget_dset_ne by done.
  destruct (str_in x names) eqn:Hin; [|done]. destruct (List.find _ imports) as [[m' names']|] eqn:Hf; [|done]. exfalso.
  apply find_some in Hf as [Hf Hx']. cbn [snd] in Hx'. apply str_in_spec in Hin, Hx'. apply (Hd x Hin).
  apply list_elem_of_In, in_concat. exists names'. split; [apply in_map_iff; by exists (m', names') | by apply list_elem_of_In].
Qed.

(** A package whose lists agree exports each of its names from the module that it
    imports it from. *)
Lemma star_exports imports all : exports_ok imports all = true ->
  exists ns, import_star imports all = Ok ns /\
    Forall2 (fun x kv => kv.1 = x /\ exists m names, (m, names) ∈ imports /\ x ∈ names /\ kv.2 = NameOf m x) all ns.
Proof.
  unfold exports_ok. rewrite !andb_true_iff, !bool_decide_eq_true, !forallb_forall. intros [[[[Hn _] Hsub] Hall] _].
  unfold import_star. assert (H : forall x, In x all -> exists m names, (m, names) ∈ imports /\ x ∈ names /\ dget (run_imports imports []) x = Some (NameOf m x)).
  { intros x Hx. apply Hall, str_in_spec in Hx. pose proof Hx as Hin. apply list_elem_of_In in Hin. pose proof (Hsub x Hin) as Hs.
    apply negb_true_iff, str_in_false in Hs. rewrite dget_run_imports by done. unfold names_of in Hin. apply in_concat in Hin as (names & Hi & Hxn).
    apply in_map_iff in Hi as ([m names0] & Heq & Hi). cbn in Heq. subst names0.
    destruct (List.find _ imports) as [[m' names']|] eqn:Hf.
    - apply find_some in Hf as [Hf Hx']. exists m', names'. split_and!; [by apply list_elem_of_In | by apply str_in_spec | done].
    - exfalso. apply (find_none _ _ Hf) in Hi. cbn [snd] in Hi. apply str_in_false in Hi. by apply Hi, list_elem_of_In. }
  clear Hall Hsub. induction all as [|x all IH]; [by exists []|]. cbn [res_map]. destruct (H x) as (m & names & Hi & Hx & ->); [by left|].
  destruct IH as (ns & -> & Hns); [intros y Hy; apply H; by right|]. eexists. split; [reflexivity|]. constructor; [|done]. split; [done|]. by exists m, names.
Qed.

(** Every package of the repository is one. *)
Lemma packages_export : Forall (fun p => exports_ok (p_imports p) (p_all p) = true) packages.
Proof. repeat constructor. Qed.

(** Where the names of the root package are defined. *)
Example root_names :
  map (fun x => origin 3 "agentware" x) ["Executor"; "Job"; "JobManager"; "Middleware"; "PolicyEvaluator"; "Auditor"; "ToolRegistry"; "Result"; "ToolSpec"; "ContextManager"]
  = [Some ("executor", "Executor"); Some ("job", "Job"); Some ("manager", "JobManager"); Some ("middleware", "Middleware"); Some ("policy", "PolicyEvaluator");
     Some ("audit", "Auditor"); Some ("registry", "ToolRegistry"); Some ("tool", "Result"); Some ("toolspec", "ToolSpec"); Some ("manager", "ContextManager")].
Proof. vm_compute. reflexivity. Qed.
Example root_names_have_origins : forallb (fun x => bool_decide (is_Some (origin 3 "agentware" x))) Agentware_all = true.
Proof. vm_compute. reflexivity. Qed.
