(* ===== verification/Messages.v ===== *)
(** * Conversations

    [llm/request.py] and [llm/response.py]: the turns of a conversation, the
    tool calls a model makes, and what a completion returns.  The arguments of a
    call are untyped: those rescued from text need not be an object. *)
From Stdlib Require Import ZArith.
From stdpp Require Import base tactics list strings.
From S2P Require Import Prelude PyStr Json Types.

Inductive Role := R_SYSTEM | R_USER | R_ASSISTANT | R_TOOL.
#[global] Instance Role_eq_dec : EqDecision Role.
Proof. solve_decision. Defined.

Definition role_value (r : Role) : string :=
  match r with R_SYSTEM => "system" | R_USER => "user" | R_ASSISTANT => "assistant" | R_TOOL => "tool" end.
(** [str(role)]: an enumeration mixed with [str] prints its member name. *)
Definition role_str (r : Role) : string :=
  match r with
  | R_SYSTEM => "Role.SYSTEM" | R_USER => "Role.USER" | R_ASSISTANT => "Role.ASSISTANT" | R_TOOL => "Role.TOOL"
  end.

Record ToolCall := { tc_id : string; tc_name : string; tc_arguments : json }.

Record Message := {
  msg_role : Role;
  msg_content : string;
  msg_tool_call_id : string;
  msg_tool_calls : list ToolCall;
  msg_meta : MessageMeta;
}.
(** [Message(role=..., content=...)]. *)
Definition mk_message (r : Role) (content : string) : Message :=
  {| msg_role := r; msg_content := content; msg_tool_call_id := ""; msg_tool_calls := [];
     msg_meta := MessageMeta_default |}.
Definition typed_message (r : Role) (content : string) (t : MessageType) : Message :=
  {| msg_role := r; msg_content := content; msg_tool_call_id := ""; msg_tool_calls := [];
     msg_meta := Build_MessageMeta t None None None |}.
Definition msg_type (m : Message) : MessageType := mm_type (msg_meta m).
Definition msg_step (m : Message) : option Z := mm_step_index (msg_meta m).
Definition set_content (c : string) (m : Message) : Message :=
  {| msg_role := msg_role m; msg_content := c; msg_tool_call_id := msg_tool_call_id m;
     msg_tool_calls := msg_tool_calls m; msg_meta := msg_meta m |}.

Record ToolDefinition := { td_name : string; td_description : string; td_input_schema : jdict }.

Record TokenUsage := { prompt_tokens : Z; completion_tokens : Z; total_tokens : Z }.
Record Response := {
  rsp_content : string;
  rsp_reasoning : string;
  rsp_tool_calls : list ToolCall;
  rsp_finish_reason : string;
  rsp_usage_tokens : TokenUsage;
}.
Definition no_usage : TokenUsage := {| prompt_tokens := 0; completion_tokens := 0; total_tokens := 0 |}.
Definition text_response (s : string) : Response :=
  {| rsp_content := s; rsp_reasoning := ""; rsp_tool_calls := []; rsp_finish_reason := "";
     rsp_usage_tokens := no_usage |}.
