(* ===== verification/PyTime.v ===== *)
(** * Calendar dates

    The proleptic Gregorian calendar of [datetime] (the ordinals of
    [_ymd2ord] and [_ord2ymd]), the fixed-width fields of its text formats,
    and the round trip between an instant and its printed form. *)
From Stdlib Require Import ZArith Lia Ascii String.
From stdpp Require Import base tactics list strings pretty.
From S2P Require Import Prelude PyStr PyFloat Json JsonFacts Types.

#[local] Open Scope Z_scope.

(** ** Ordinals *)

Definition is_leap (y : Z) : bool := (y mod 4 =? 0) && (negb (y mod 100 =? 0) || (y mod 400 =? 0)).
Definition days_in_month (y m : Z) : Z :=
  if m =? 2 then (if is_leap y then 29 else 28)
  else if (m =? 4) || (m =? 6) || (m =? 9) || (m =? 11) then 30 else 31.

Definition days_before_year (y : Z) : Z :=
  let p := y - 1 in p * 365 + p / 4 - p / 100 + p / 400.

(** Days before the first of month [m], in a leap year or not. *)
Fixpoint days_before (leap : bool) (m : nat) : Z :=
  match m with
  | O | S O => 0
  | S m' => days_before leap m' + days_in_month (if leap then 4 else 1) (Z.of_nat m')
  end.

Definition ymd2ord (y m d : Z) : Z :=
  days_before_year y + days_before (is_leap y) (Z.to_nat m) + d.

(** The month and day of the [n]-th day (from 0) of a year. *)
Fixpoint find_month (leap : bool) (m : nat) (n : Z) : Z * Z :=
  match m with
  | O | S O => (1, n + 1)
  | S m' => if days_before leap m <=? n then (Z.of_nat m, n - days_before leap m + 1)
            else find_month leap m' n
  end.

Definition ord2ymd (ord : Z) : Z * Z * Z :=
  let n := ord - 1 in
  let n400 := n / 146097 in let n := n mod 146097 in
  let n100 := n / 36524 in let n := n mod 36524 in
  let n4 := n / 1461 in let n := n mod 1461 in
  let n1 := n / 365 in let n := n mod 365 in
  let y := n400 * 400 + n100 * 100 + n4 * 4 + n1 + 1 in
  if (n1 =? 4) || (n100 =? 4) then (y - 1, 12, 31)
  else let '(m, d) := find_month (is_leap y) 12 n in (y, m, d).

Definition date_ok (y m d : Z) : bool :=
  (1 <=? y) && (y <=? 9999) && (1 <=? m) && (m <=? 12) && (1 <=? d) && (d <=? days_in_month y m).

Example ord_epoch : ymd2ord 1970 1 1 = 719163 /\ ord2ymd 719163 = (1970, 1, 1) /\ ord2ymd (719163 + 11016) = (2000, 2, 29).
Proof. by vm_compute. Qed.

Lemma find_month_ok (leap : bool) n : 0 <= n < (if leap then 366 else 365) ->
  let '(m, d) := find_month leap 12 n in
  1 <= m <= 12 /\ 1 <= d <= days_in_month (if leap then 4 else 1) m /\
  days_before leap (Z.to_nat m) + d = n + 1.
Proof.
  intros Hn.
  assert (H : forallb (fun k => let '(m, d) := find_month leap 12 (Z.of_nat k) in
    (1 <=? m) && (m <=? 12) && (1 <=? d) && (d <=? days_in_month (if leap then 4 else 1) m) &&
    (days_before leap (Z.to_nat m) + d =? Z.of_nat k + 1)) (seq 0 (if leap then 366 else 365)) = true)
    by (destruct leap; vm_compute; reflexivity).
  rewrite forallb_forall in H. specialize (H (Z.to_nat n)). rewrite Z2Nat.id in H by lia.
  destruct (find_month leap 12 n) as [m d].
  assert (Hin : In (Z.to_nat n) (seq 0 (if leap then 366 else 365))) by (apply in_seq; destruct leap; lia).
  specialize (H Hin). rewrite !andb_true_iff, !Z.leb_le, Z.eqb_eq in H. lia.
Qed.

Lemma days_in_month_leap y m : days_in_month (if is_leap y then 4 else 1) m = days_in_month y m.
Proof. unfold days_in_month. by destruct (m =? 2), (is_leap y). Qed.

Lemma div_mod_eq a b q r : a = b * q + r -> 0 <= r < b -> a / b = q /\ a mod b = r.
Proof. intros -> Hr. split; [symmetry; by apply (Z.div_unique_pos _ _ q r) | symmetry; by apply (Z.mod_unique_pos _ _ q r)]. Qed.

(** The leap days before year [400 a + 100 b + 4 c + e + 1]. *)
Lemma days_before_year_eq a b c e : 0 <= b <= 3 -> 0 <= c <= 24 -> 0 <= e <= 3 ->
  days_before_year (400 * a + 100 * b + 4 * c + e + 1) = 146097 * a + 36524 * b + 1461 * c + 365 * e.
Proof.
  intros Hb Hc He. unfold days_before_year. set (p := _ - 1).
  destruct (div_mod_eq p 4 (100 * a + 25 * b + c) e) as [-> _]; [lia | lia |].
  destruct (div_mod_eq p 100 (4 * a + b) (4 * c + e)) as [-> _]; [lia | lia |].
  destruct (div_mod_eq p 400 a (100 * b + 4 * c + e)) as [-> _]; [lia | lia |]. lia.
Qed.

Lemma is_leap_4 a b c : 0 <= b <= 3 -> 1 <= c <= 24 -> is_leap (400 * a + 100 * b + 4 * c) = true.
Proof.
  intros Hb Hc. unfold is_leap. set (y := _ + 4 * c).
  destruct (div_mod_eq y 4 (100 * a + 25 * b + c) 0) as [_ ->]; [lia | lia |].
  destruct (div_mod_eq y 100 (4 * a + b) (4 * c)) as [_ ->]; [lia | lia |].
  apply andb_true_iff. split; [done|]. apply orb_true_iff. left. apply negb_true_iff, Z.eqb_neq. lia.
Qed.

Lemma is_leap_400 a : is_leap (400 * a) = true.
Proof.
  unfold is_leap.
  destruct (div_mod_eq (400 * a) 4 (100 * a) 0) as [_ ->]; [lia | lia |].
  destruct (div_mod_eq (400 * a) 400 a 0) as [_ ->]; [lia | lia |]. by rewrite orb_true_r.
Qed.

(** The four cycles of a 400-year era. *)
Lemma ord2ymd_spec ord y m d : ord2ymd ord = (y, m, d) ->
  ymd2ord y m d = ord /\ 1 <= m <= 12 /\ 1 <= d <= days_in_month y m.
Proof.
  unfold ord2ymd. cbv zeta. set (n := ord - 1).
  set (a := n / 146097). set (r1 := n mod 146097). set (b := r1 / 36524). set (r2 := r1 mod 36524).
  set (c := r2 / 1461). set (r3 := r2 mod 1461). set (e := r3 / 365). set (r4 := r3 mod 365).
  assert (H1 : n = 146097 * a + r1 /\ 0 <= r1 < 146097) by (subst a r1; split; [apply Z.div_mod; lia | apply Z.mod_pos_bound; lia]).
  assert (H2 : r1 = 36524 * b + r2 /\ 0 <= r2 < 36524) by (subst b r2; split; [apply Z.div_mod; lia | apply Z.mod_pos_bound; lia]).
  assert (H3 : r2 = 1461 * c + r3 /\ 0 <= r3 < 1461) by (subst c r3; split; [apply Z.div_mod; lia | apply Z.mod_pos_bound; lia]).
  assert (H4 : r3 = 365 * e + r4 /\ 0 <= r4 < 365) by (subst e r4; split; [apply Z.div_mod; lia | apply Z.mod_pos_bound; lia]).
  clearbody a r1 b r2 c r3 e r4.
  assert (Hb : 0 <= b <= 4) by lia. assert (Hc : 0 <= c <= 24) by lia. assert (He : 0 <= e <= 4) by lia.
  destruct (Z.eqb_spec e 4) as [He4|Hne]; [|destruct (Z.eqb_spec b 4) as [Hb4|Hnb]]; cbn [orb].
  - assert (r4 = 0 /\ c <= 23 /\ b <= 3) as (Hr4 & Hc' & Hb') by lia. intros [= <- <- <-]. subst e.
    replace (a * 400 + b * 100 + c * 4 + 4 + 1 - 1) with (400 * a + 100 * b + 4 * (c + 1)) by lia.
    unfold ymd2ord, days_in_month. rewrite is_leap_4 by lia.
    replace (400 * a + 100 * b + 4 * (c + 1)) with (400 * a + 100 * b + 4 * c + 3 + 1) by lia.
    rewrite days_before_year_eq by lia. change (days_before true (Z.to_nat 12)) with 335. simpl. lia.
  - assert (r2 = 0 /\ c = 0 /\ e = 0 /\ r4 = 0) as (Hr2 & -> & -> & ->) by lia. subst b. intros [= <- <- <-].
    replace (a * 400 + 4 * 100 + 0 * 4 + 0 + 1 - 1) with (400 * (a + 1)) by lia.
    unfold ymd2ord, days_in_month. rewrite is_leap_400.
    replace (400 * (a + 1)) with (400 * a + 100 * 3 + 4 * 24 + 3 + 1) by lia.
    rewrite days_before_year_eq by lia. change (days_before true (Z.to_nat 12)) with 335. simpl. lia.
  - set (y' := a * 400 + b * 100 + c * 4 + e + 1).
    pose proof (find_month_ok (is_leap y') r4 ltac:(destruct (is_leap y'); lia)) as Hf.
    destruct (find_month (is_leap y') 12 r4) as [m' d']. destruct Hf as (Hm & Hd & Hs).
    intros [= <- <- <-]. rewrite days_in_month_leap in Hd. split; [|done].
    unfold ymd2ord. replace y' with (400 * a + 100 * b + 4 * c + e + 1) in Hs |- * by lia.
    rewrite days_before_year_eq by lia. lia.
Qed.

(** ** Broken-down time *)

Definition day_us : Z := 86400000000.
Definition epoch_ord : Z := 719163.

Record civil := Civil { tm_year : Z; tm_month : Z; tm_day : Z; tm_hour : Z; tm_min : Z; tm_sec : Z; tm_us : Z }.

(** The fields of a wall clock in microseconds since 1970-01-01. *)
Definition civil_of_wall (w : Z) : civil :=
  let '(y, m, d) := ord2ymd (w / day_us + epoch_ord) in
  let t := w mod day_us in
  Civil y m d (t / 3600000000) (t / 60000000 mod 60) (t / 1000000 mod 60) (t mod 1000000).

Definition wall_of_civil (c : civil) : Z :=
  (ymd2ord (tm_year c) (tm_month c) (tm_day c) - epoch_ord) * day_us
  + tm_hour c * 3600000000 + tm_min c * 60000000 + tm_sec c * 1000000 + tm_us c.

Definition civil_ok (c : civil) : bool :=
  date_ok (tm_year c) (tm_month c) (tm_day c) &&
  (0 <=? tm_hour c) && (tm_hour c <=? 23) && (0 <=? tm_min c) && (tm_min c <=? 59) &&
  (0 <=? tm_sec c) && (tm_sec c <=? 59) && (0 <=? tm_us c) && (tm_us c <=? 999999).

Lemma civil_of_wall_spec w :
  let c := civil_of_wall w in
  wall_of_civil c = w /\ 1 <= tm_month c <= 12 /\ 1 <= tm_day c <= days_in_month (tm_year c) (tm_month c) /\
  0 <= tm_hour c <= 23 /\ 0 <= tm_min c <= 59 /\ 0 <= tm_sec c <= 59 /\ 0 <= tm_us c <= 999999.
Proof.
  unfold civil_of_wall. destruct (ord2ymd _) as [[y m] d] eqn:Ho.
  apply ord2ymd_spec in Ho as (Ho & Hm & Hd). unfold wall_of_civil. cbn [tm_year tm_month tm_day tm_hour tm_min tm_sec tm_us].
  rewrite Ho.
  pose proof (Z.div_mod w day_us ltac:(done)) as Hw. pose proof (Z.mod_pos_bound w day_us ltac:(done)) as Ht.
  set (t := w mod day_us) in *. change day_us with 86400000000 in *.
  pose proof (Z.div_mod t 3600000000 ltac:(done)). pose proof (Z.mod_pos_bound t 3600000000 ltac:(done)).
  pose proof (Z.div_mod t 60000000 ltac:(done)). pose proof (Z.mod_pos_bound t 60000000 ltac:(done)).
  pose proof (Z.div_mod t 1000000 ltac:(done)). pose proof (Z.mod_pos_bound t 1000000 ltac:(done)).
  pose proof (Z.div_mod (t / 60000000) 60 ltac:(done)). pose proof (Z.mod_pos_bound (t / 60000000) 60 ltac:(done)).
  pose proof (Z.div_mod (t / 1000000) 60 ltac:(done)). pose proof (Z.mod_pos_bound (t / 1000000) 60 ltac:(done)).
  rewrite !Z.div_div in * by done. change (60000000 * 60) with 3600000000 in *. change (1000000 * 60) with 60000000 in *.
  split_and!; lia.
Qed.

(** ** Fixed-width decimal fields *)

Definition dchar (k : Z) : ascii := ascii_of_N (48 + Z.to_N k).
Definition pad2 (n : Z) : string := String (dchar (n / 10)) (String (dchar (n mod 10)) EmptyString).
Definition pad3 (n : Z) : string := String (dchar (n / 100)) (pad2 (n mod 100)).
Definition pad4 (n : Z) : string := String (dchar (n / 1000)) (pad3 (n mod 1000)).

Lemma dchar_digit k : 0 <= k <= 9 -> is_digit (dchar k) = true /\ digit_val (dchar k) = k.
Proof.
  intros Hk. assert (Hc : k = 0 \/ k = 1 \/ k = 2 \/ k = 3 \/ k = 4 \/ k = 5 \/ k = 6 \/ k = 7 \/ k = 8 \/ k = 9) by lia.
  by destruct_or! Hc; subst.
Qed.

Lemma pad2_digits n : 0 <= n <= 99 ->
  str_forall is_digit (pad2 n) = true /\ forall acc, digits_val acc (pad2 n) = acc * 100 + n.
Proof.
  intros Hn. pose proof (Z.div_mod n 10 ltac:(done)). pose proof (Z.mod_pos_bound n 10 ltac:(done)).
  destruct (dchar_digit (n / 10)) as [H1 H2]; [lia|]. destruct (dchar_digit (n mod 10)) as [H3 H4]; [lia|].
  unfold pad2. simpl. rewrite H1, H3. split; [done|]. intros acc. rewrite H2, H4. lia.
Qed.

Lemma pad3_digits n : 0 <= n <= 999 ->
  str_forall is_digit (pad3 n) = true /\ forall acc, digits_val acc (pad3 n) = acc * 1000 + n.
Proof.
  intros Hn. pose proof (Z.div_mod n 100 ltac:(done)). pose proof (Z.mod_pos_bound n 100 ltac:(done)).
  destruct (dchar_digit (n / 100)) as [H1 H2]; [lia|]. destruct (pad2_digits (n mod 100)) as [H3 H4]; [lia|].
  unfold pad3. cbn [str_forall digits_val]. rewrite H1, H3. split; [done|]. intros acc. rewrite H4, H2. lia.
Qed.

Lemma pad4_digits n : 0 <= n <= 9999 ->
  str_forall is_digit (pad4 n) = true /\ forall acc, digits_val acc (pad4 n) = acc * 10000 + n.
Proof.
  intros Hn. pose proof (Z.div_mod n 1000 ltac:(done)). pose proof (Z.mod_pos_bound n 1000 ltac:(done)).
  destruct (dchar_digit (n / 1000)) as [H1 H2]; [lia|]. destruct (pad3_digits (n mod 1000)) as [H3 H4]; [lia|].
  unfold pad4. cbn [str_forall digits_val]. rewrite H1, H3. split; [done|]. intros acc. rewrite H4, H2. lia.
Qed.

(** [%Y] is not padded; from the year 1000 on it has four digits anyway. *)
Lemma int_str_year y : 1000 <= y <= 9999 -> int_str y = pad4 y.
Proof.
  intros Hy. unfold int_str, pretty, pretty_Z. destruct y as [|p|p]; [lia | | lia].
  unfold pretty, pretty_positive, pretty, pretty_N. simpl.
  assert (Hc : forall k, (k < 10)%N -> pretty_N_char k = dchar (Z.of_N k)).
  { intros k Hk. assert (Hk' : (k = 0 \/ k = 1 \/ k = 2 \/ k = 3 \/ k = 4 \/ k = 5 \/ k = 6 \/ k = 7 \/ k = 8 \/ k = 9)%N) by lia.
    by destruct_or! Hk'; subst. }
  assert (Hstep : forall n s, (0 < n)%N -> pretty_N_go n s = pretty_N_go (n / 10) (String (dchar (Z.of_N (n mod 10))) s)).
  { intros n s Hn. rewrite pretty_N_go_step by done. rewrite Hc; [done|]. apply N.mod_lt. lia. }
  set (n := N.pos p). assert (Hn : (1000 <= n <= 9999)%N) by lia.
  rewrite Hstep by lia. rewrite Hstep by (apply N.div_str_pos; lia).
  rewrite N.Div0.div_div. rewrite Hstep by (apply N.div_str_pos; lia). rewrite N.Div0.div_div.
  rewrite Hstep by (apply N.div_str_pos; lia). rewrite N.Div0.div_div.
  change (10 * 10 * 10 * 10)%N with 10000%N. change (10 * 10 * 10)%N with 1000%N. change (10 * 10)%N with 100%N.
  rewrite (N.div_small n 10000), pretty_N_go_0 by lia.
  unfold pad4, pad3, pad2. change (Z.pos p) with (Z.of_N n).
  rewrite !N2Z.inj_mod, !N2Z.inj_div. change (Z.of_N 10) with 10. change (Z.of_N 100) with 100. change (Z.of_N 1000) with 1000.
  set (z := Z.of_N n). assert (Hz : 1000 <= z <= 9999) by lia. clearbody z. clear -Hz.
  assert (E1 : z / 1000 mod 10 = z / 1000) by (Z.to_euclidean_division_equations; lia).
  assert (E2 : z / 100 mod 10 = z mod 1000 / 100) by (Z.to_euclidean_division_equations; lia).
  assert (E3 : z / 10 mod 10 = z mod 1000 mod 100 / 10) by (Z.to_euclidean_division_equations; lia).
  assert (E4 : z mod 10 = z mod 1000 mod 100 mod 10) by (Z.to_euclidean_division_equations; lia).
  by rewrite E1, E2, E3, E4.
Qed.
