(* ===== verification/AuditTrail.v ===== *)
(** * The audit log

    [middleware/audit.py]: audit records, filters, the [Auditor] protocol as a
    type class and the in-memory auditor that implements it. *)
From Stdlib Require Import ZArith Lia Ascii String.
From stdpp Require Import base tactics list strings.
From S2P Require Import Prelude PyStr PyFloat Json Types.

Record AuditRecord := {
  ar_session_id : string;
  ar_tool_name : string;
  ar_args : jdict;
  ar_decision : Decision;
  ar_timestamp : datetime;
  ar_invoking_subject : string;
  ar_parent_span : string;
  ar_delegation_depth : Z;
  ar_framework : string;
}.

Record AuditFilter := {
  f_session_id : string;
  f_tool_name : string;
  f_action : option Action;
  f_since : option datetime;
  f_limit : Z;
  f_parent_span : string;
  f_invoking_subject : string;
}.
Definition AuditFilter_default : AuditFilter := Build_AuditFilter "" "" None None 0 "" "".

(** [class Auditor(Protocol)]: what the middleware and the client ask of an
    auditor, with [aud_log], the records it holds, as its abstract state. *)
Class Auditor (A : Type) := {
  aud_record : AuditRecord -> eff A exn unit;
  aud_query : AuditFilter -> A -> res exn (list AuditRecord);
  aud_log : A -> list AuditRecord;
}.

(** The laws of an auditor that neither loses nor rejects a record. *)
Class AuditorLaws (A : Type) `{Auditor A} : Prop := {
  aud_record_ok : forall r a, (aud_record r a).1 = Ok tt;
  aud_record_log : forall r a, aud_log (aud_record r a).2 = aud_log a ++ [r];
}.

Module InMemoryAuditor.

Record t := { _records : list AuditRecord }.
Definition init : t := {| _records := [] |}.

Definition record (r : AuditRecord) : eff t exn unit :=
  eff_modify (fun a => {| _records := _records a ++ [r] |}).

Definition clear : eff t exn unit := eff_put {| _records := [] |}.

(** A set filter field differs from the record's. *)
Definition str_mismatch (want have : string) : bool :=
  py_truthy_str want && negb (String.eqb have want).

(** The chain of [continue] tests of the loop body, in order. *)
Definition skips (f : AuditFilter) (r : AuditRecord) : res exn bool :=
  if str_mismatch (f_session_id f) (ar_session_id r) then Ok true
  else if str_mismatch (f_tool_name f) (ar_tool_name r) then Ok true
  else if match f_action f with
          | Some a => negb (bool_decide (d_action (ar_decision r) = a))
          | None => false
          end then Ok true
  else
    before ← match f_since f with Some s => dt_lt (ar_timestamp r) s | None => Ok false end;
    if before : bool then Ok true
    else if str_mismatch (f_parent_span f) (ar_parent_span r) then Ok true
    else if str_mismatch (f_invoking_subject f) (ar_invoking_subject r) then Ok true
    else Ok false.

(** The loop: [results] is the list built so far. *)
Fixpoint query_loop (f : AuditFilter) (results rs : list AuditRecord) : res exn (list AuditRecord) :=
  match rs with
  | [] => Ok results
  | r :: rs' =>
      skip ← skips f r;
      if skip : bool then query_loop f results rs'
      else
        let results := results ++ [r] in
        if ((0 <? f_limit f) && (f_limit f <=? Z.of_nat (length results)))%Z then Ok results
        else query_loop f results rs'
  end.

Definition query (f : AuditFilter) (a : t) : res exn (list AuditRecord) :=
  query_loop f [] (_records a).

#[global] Instance auditor : Auditor t :=
  {| aud_record := record; aud_query := query; aud_log := _records |}.

#[global] Instance auditor_laws : AuditorLaws t.
Proof. by split. Qed.

(** ** What a query selects *)

(** The filter as a predicate. *)
Definition matches (f : AuditFilter) (r : AuditRecord) : bool :=
  negb (str_mismatch (f_session_id f) (ar_session_id r)) &&
  negb (str_mismatch (f_tool_name f) (ar_tool_name r)) &&
  match f_action f with Some a => bool_decide (d_action (ar_decision r) = a) | None => true end &&
  match f_since f with
  | Some s => match dt_lt (ar_timestamp r) s with Ok b => negb b | Raise _ => false end
  | None => true
  end &&
  negb (str_mismatch (f_parent_span f) (ar_parent_span r)) &&
  negb (str_mismatch (f_invoking_subject f) (ar_invoking_subject r)).

(** The time bound and the records' times are of one kind. *)
Definition times_comparable (f : AuditFilter) (rs : list AuditRecord) : Prop :=
  Forall (fun r => match f_since f with
                   | Some s => dt_comparable (ar_timestamp r) s = true
                   | None => True end) rs.

Definition limited {A} (n : Z) (l : list A) : list A :=
  if (0 <? n)%Z then take (Z.to_nat n) l else l.

Lemma skips_matches f r :
  match f_since f with Some s => dt_comparable (ar_timestamp r) s = true | None => True end ->
  skips f r = Ok (negb (matches f r)).
Proof.
  intros Hc. unfold skips, matches.
  destruct (str_mismatch (f_session_id f) _); [done|].
  destruct (str_mismatch (f_tool_name f) _); [done|].
  destruct (match f_action f with Some a => negb (bool_decide (d_action (ar_decision r) = a)) | None => false end) eqn:Ha.
  { destruct (f_action f) as [a|]; [|done]. by destruct (bool_decide _). }
  assert (Hm : match f_action f with Some a => bool_decide (d_action (ar_decision r) = a) | None => true end = true).
  { destruct (f_action f); [by apply negb_false_iff in Ha | done]. }
  rewrite Hm. destruct (f_since f) as [s|]; [destruct (dt_lt_ok _ _ Hc) as [[] ->]; [done|]|];
    simpl; by destruct (str_mismatch (f_parent_span f) _), (str_mismatch (f_invoking_subject f) _).
Qed.

Lemma query_loop_spec f results rs :
  times_comparable f rs ->
  ((0 < f_limit f)%Z -> (Z.of_nat (length results) < f_limit f)%Z) ->
  query_loop f results rs = Ok (limited (f_limit f) (results ++ List.filter (matches f) rs)).
Proof.
  unfold limited. intros Hc. revert results. induction rs as [|r rs IH]; intros results Hlen; simpl.
  - rewrite app_nil_r. destruct (Z.ltb_spec 0 (f_limit f)) as [H|H]; [|done].
    rewrite take_ge; [done|]. specialize (Hlen H). lia.
  - inversion Hc as [|?? Hr Hrs]; subst. rewrite skips_matches by done. simpl.
    destruct (matches f r); simpl; [|by apply IH].
    destruct (Z.ltb_spec 0 (f_limit f)) as [H|H]; simpl.
    + specialize (Hlen H).
      destruct (Z.leb_spec (f_limit f) (Z.of_nat (length (results ++ [r])))) as [Hl|Hl].
      * replace (Z.to_nat (f_limit f)) with (length (results ++ [r]))
          by (rewrite length_app in *; simpl in *; lia).
        by rewrite (cons_middle r results (List.filter (matches f) rs)), (assoc_L (++) results [r]),
          take_app_length.
      * rewrite IH by done. by rewrite <- (assoc_L (++)).
    + rewrite (IH Hrs) by (intros; lia). by rewrite <- (assoc_L (++)).
Qed.

(** An audit query returns the matching records in the order they were
    recorded, cut at the limit when one is set. *)
Lemma query_selects (f : AuditFilter) (a : t) :
  times_comparable f (_records a) ->
  query f a = Ok (limited (f_limit f) (List.filter (matches f) (_records a))).
Proof. intros H. unfold query. by rewrite query_loop_spec. Qed.

(** A set of records and a filter with a time bound and a limit. *)
Definition sample (tool : string) (a : Action) (us : Z) : AuditRecord :=
  {| ar_session_id := "s"; ar_tool_name := tool; ar_args := [];
     ar_decision := mk_decision (DT us None) a "" ""; ar_timestamp := DT us None;
     ar_invoking_subject := "u"; ar_parent_span := ""; ar_delegation_depth := 0; ar_framework := "" |}.

Lemma query_selects_witness :
  let a := {| _records := [sample "t" DENY 1; sample "t" ALLOW 5; sample "x" DENY 6; sample "t" DENY 7; sample "t" DENY 9] |} in
  let f := Build_AuditFilter "s" "t" (Some DENY) (Some (DT 2 None)) 1 "" "" in
  query f a = Ok [sample "t" DENY 7].
Proof.
  intros a f. rewrite (query_selects f a); [reflexivity|].
  repeat constructor.
Defined.

End InMemoryAuditor.
