(* ===== verification/Middleware.v ===== *)
(** * The policy middleware and the audited tool client

    [middleware/middleware.py] (class [MiddlewareImpl]) and
    [middleware/tool_client.py] (class [AuditedToolClient]): every tool call is
    evaluated, recorded and only then executed.  The policy evaluator is a type
    class, the auditor the class of [Audit]; the executor is the caller's code,
    a parameter with a state of its own, so that a theorem can say whether it
    ran. *)
From Stdlib Require Import ZArith Lia Ascii String.
From stdpp Require Import base tactics list strings.
From S2P Require Import Prelude PyStr PyFloat Json Types AuditTrail.

(** [middleware/policy.py]. *)
Class PolicyEvaluator (E : Type) :=
  pe_evaluate : string -> jdict -> CallerContext -> eff E exn Decision.

Definition tool_result : Type := json * bool * string.

(** [{**args, **decision.redacted_args}] when the decision filters. *)
Definition effective_args (d : Decision) (args : jdict) : jdict :=
  if bool_decide (d_action d = FILTER) && py_truthy (JObj (d_redacted_args d))
  then dmerge args (d_redacted_args d)
  else args.

Definition deny_message (d : Decision) : string :=
  String.append "denied by policy: " (d_reason d).

Definition no_policy (now : datetime) : Decision := mk_decision now ALLOW "" "no policy configured".

(** The record both classes write. *)
Definition audit_entry (now : datetime) (framework tool : string) (args : jdict)
    (caller : CallerContext) (d : Decision) : AuditRecord :=
  {| ar_session_id := cc_session_id caller;
     ar_tool_name := tool;
     ar_args := args;
     ar_decision := d;
     ar_timestamp := now;
     ar_invoking_subject := cc_invoking_subject caller;
     ar_parent_span := cc_parent_span caller;
     ar_delegation_depth := cc_delegation_depth caller;
     ar_framework := framework |}.

(** What a recorded call may have run: nothing when it was denied. *)
Definition executed_of (r : AuditRecord) : list (string * jdict) :=
  if bool_decide (d_action (ar_decision r) = DENY) then []
  else [(ar_tool_name r, effective_args (ar_decision r) (ar_args r))].

(** The time stamps [datetime.now] gives to the decision and to the record. *)
Record clock := { c_decision : datetime; c_record : datetime }.

Module MiddlewareImpl.
Section Impl.
Context {E A X : Type} `{PolicyEvaluator E} `{Auditor A}.
Context (executor_execute : string -> jdict -> eff X exn tool_result).

Record t := { _executor : X; _evaluator : option E; _auditor : option A }.

Definition set_executor (x : X) (m : t) : t :=
  {| _executor := x; _evaluator := _evaluator m; _auditor := _auditor m |}.
Definition with_policy (e : E) (m : t) : t :=
  {| _executor := _executor m; _evaluator := Some e; _auditor := _auditor m |}.
Definition with_auditor (a : A) (m : t) : t :=
  {| _executor := _executor m; _evaluator := _evaluator m; _auditor := Some a |}.
Definition new_middleware (x : X) : t := {| _executor := x; _evaluator := None; _auditor := None |}.

Definition decide_call (now : datetime) (tool : string) (args : jdict) (caller : CallerContext)
  : eff t exn Decision := fun m =>
  match _evaluator m with
  | Some e => let '(r, e') := pe_evaluate tool args caller e in (r, with_policy e' m)
  | None => (Ok (no_policy now), m)
  end.

Definition record_call (r : AuditRecord) : eff t exn unit := fun m =>
  match _auditor m with
  | Some a => let '(u, a') := aud_record r a in (u, with_auditor a' m)
  | None => (Ok tt, m)
  end.

Definition execute (now : clock) (tool : string) (args : jdict) (caller : CallerContext)
    (framework : string) : eff t exn tool_result :=
  decision ← decide_call (c_decision now) tool args caller;
  _ ← record_call (audit_entry (c_record now) framework tool args caller decision);
  if bool_decide (d_action decision = DENY) then
    mret (JNull, false, deny_message decision)
  else
    eff_zoom _executor set_executor (executor_execute tool (effective_args decision args)).

(** A sequence of calls on one middleware: what each returned, and the final state. *)
Record call := { k_clock : clock; k_tool : string; k_args : jdict; k_caller : CallerContext; k_framework : string }.
Fixpoint run (calls : list call) (m : t) : list (res exn tool_result) * t :=
  match calls with
  | [] => ([], m)
  | k :: calls' =>
      let '(r, m') := execute (k_clock k) (k_tool k) (k_args k) (k_caller k) (k_framework k) m in
      let '(rs, m'') := run calls' m' in (r :: rs, m'')
  end.

(** The outcome of one call on a middleware with a lawful auditor. *)
Lemma execute_unfold `{!AuditorLaws A} now tool args caller framework m a :
  _auditor m = Some a ->
  let '(r, m') := execute now tool args caller framework m in
  match decide_call (c_decision now) tool args caller m with
  | (Raise e, m1) => r = Raise e /\ m' = m1
  | (Ok d, m1) =>
      let a' := (aud_record (audit_entry (c_record now) framework tool args caller d) a).2 in
      let m2 := with_auditor a' m1 in
      if bool_decide (d_action d = DENY) then r = Ok (JNull, false, deny_message d) /\ m' = m2
      else (r, m') = let '(r', x) := executor_execute tool (effective_args d args) (_executor m) in
                     (r', set_executor x m2)
  end.
Proof.
  intros Ha. unfold execute, mbind, eff_bind.
  destruct (decide_call _ _ _ _ m) as [[d|e] m1] eqn:Hd; [|done].
  assert (Hm1 : _auditor m1 = Some a /\ _executor m1 = _executor m).
  { unfold decide_call in Hd. destruct (_evaluator m) as [e|]; [|by simplify_eq].
    destruct (pe_evaluate _ _ _ e) as [r e']. by simplify_eq/=. }
  destruct Hm1 as [Ha1 Hx1]. unfold record_call. rewrite Ha1.
  pose proof (aud_record_ok (audit_entry (c_record now) framework tool args caller d) a) as Hok.
  destruct (aud_record _ a) as [u a'] eqn:Hr. simpl in Hok. subst u.
  case_bool_decide; [done|]. unfold eff_zoom. simpl. rewrite Hx1.
  by destruct (executor_execute _ _ _).
Qed.

Lemma decide_call_frame now tool args caller m r m1 :
  decide_call now tool args caller m = (r, m1) ->
  _auditor m1 = _auditor m /\ _executor m1 = _executor m.
Proof.
  unfold decide_call. destruct (_evaluator m) as [e|]; [|by intros [= <- <-]].
  destruct (pe_evaluate _ _ _ e). by intros [= <- <-].
Qed.

End Impl.
Arguments t : clear implicits.

(** The log of an executor that answers with [respond] and remembers its calls. *)
Definition logging (respond : string -> jdict -> res exn tool_result)
    (tool : string) (args : jdict) : eff (list (string * jdict)) exn tool_result :=
  fun log => (respond tool args, log ++ [(tool, args)]).

Section Log.
Context {E A : Type} `{PolicyEvaluator E} `{!Auditor A, !AuditorLaws A}.
Context (respond : string -> jdict -> res exn tool_result).

(** The executor has run exactly what the audit log says it may have run. *)
Definition log_consistent (m : t E A (list (string * jdict))) : Prop :=
  exists a, _auditor m = Some a /\ _executor m = flat_map executed_of (aud_log a).

Lemma execute_consistent now tool args caller framework m :
  log_consistent m ->
  log_consistent (execute (logging respond) now tool args caller framework m).2.
Proof.
  intros (a & Ha & Hx).
  pose proof (execute_unfold (logging respond) now tool args caller framework m a Ha) as Hu.
  destruct (execute _ _ _ _ _ _ m) as [r m']. simpl.
  destruct (decide_call _ _ _ _ m) as [[d|e] m1] eqn:Hd;
    apply decide_call_frame in Hd as [Ha1 Hx1].
  - set (en := audit_entry _ _ _ _ _ d) in *.
    pose proof (aud_record_log en a) as Hlog.
    assert (He : executed_of en = if bool_decide (d_action d = DENY) then [] else [(tool, effective_args d args)])
      by done.
    case_bool_decide.
    + destruct Hu as [_ ->]. eexists. split; [done|]. simpl.
      by rewrite Hlog, flat_map_app, Hx1, Hx; simpl; rewrite He, !app_nil_r.
    + unfold logging in Hu. injection Hu as -> ->. eexists. split; [done|]. simpl.
      by rewrite Hlog, flat_map_app, Hx; simpl; rewrite He.
  - destruct Hu as [_ ->]. exists a. by rewrite Ha1, Hx1.
Qed.

(** C2: whatever sequence of calls a middleware serves, and whatever the policy
    decides or raises, the executor has run exactly the recorded calls that were
    not denied, in the order they were recorded, with the policy's redactions
    applied to their arguments. *)
Theorem run_executes_what_is_audited (calls : list call) (m : t E A (list (string * jdict))) :
  log_consistent m -> log_consistent (run (logging respond) calls m).2.
Proof.
  revert m. induction calls as [|k calls IH]; intros m Hm; [done|]. simpl.
  pose proof (execute_consistent (k_clock k) (k_tool k) (k_args k) (k_caller k) (k_framework k) m Hm) as H1.
  destruct (execute _ _ _ _ _ _ m) as [r m']. specialize (IH m' H1).
  by destruct (run _ calls m').
Qed.
End Log.

(** ** A concrete policy: deny one tool, redact an argument of another *)

#[local] Instance example_policy : PolicyEvaluator datetime := fun tool args caller now =>
  (if String.eqb tool "rm" then Ok (mk_decision now DENY "no-rm" "destructive")
   else if String.eqb tool "boom" then Raise (Exn RuntimeError "policy unavailable")
   else if String.eqb tool "mail" then
     Ok {| d_action := FILTER; d_rule := JStr "redact"; d_reason := ""; d_redacted_args := [("to", JStr "***")];
           d_enrollment := None; d_connect := None; d_timestamp := now; d_reason_code := None; d_hint := None |}
   else Ok (mk_decision now ALLOW "" ""), now).

Definition example_call (tool : string) (args : jdict) : call :=
  {| k_clock := {| c_decision := DT 0 None; c_record := DT 1 None |}; k_tool := tool; k_args := args;
     k_caller := CallerContext_default; k_framework := "langchain" |}.

Definition example_calls : list call :=
  [example_call "ls" []; example_call "rm" []; example_call "boom" [];
   example_call "mail" [("to", JStr "a@b"); ("body", JStr "x")]].

Definition example_mw : t datetime InMemoryAuditor.t (list (string * jdict)) :=
  with_auditor InMemoryAuditor.init (with_policy (DT 0 None) (new_middleware [])).

Lemma run_executes_what_is_audited_witness :
  log_consistent (run (logging (fun _ _ => Ok (JNull, true, ""))) example_calls example_mw).2 /\
  _executor (run (logging (fun _ _ => Ok (JNull, true, ""))) example_calls example_mw).2
  = [("ls", []); ("mail", [("to", JStr "***"); ("body", JStr "x")])].
Proof.
  split; [|reflexivity].
  apply (run_executes_what_is_audited (fun _ _ => Ok (JNull, true, "")) example_calls example_mw).
  exists InMemoryAuditor.init. split; reflexivity.
Defined.

(** The answer to a call: a denial names the policy's reason and leaves the
    executor alone; an evaluator's exception reaches the caller with nothing
    recorded and nothing run; otherwise the executor's own answer to the
    redacted arguments, the decision having been recorded under the caller's
    identity. *)
Lemma execute_outcome {E A X} `{PolicyEvaluator E} `{!Auditor A, !AuditorLaws A}
    (exec : string -> jdict -> eff X exn tool_result) (e : E) (a : A) (x : X)
    now tool args caller framework :
  let m := with_auditor a (with_policy e (new_middleware x)) in
  let '(r, m') := execute exec now tool args caller framework m in
  match pe_evaluate tool args caller e with
  | (Raise err, e') => r = Raise err /\ m' = with_policy e' m
  | (Ok d, e') =>
      _evaluator m' = Some e' /\
      (exists a', _auditor m' = Some a' /\
         aud_log a' = aud_log a ++ [audit_entry (c_record now) framework tool args caller d]) /\
      (d_action d = DENY -> r = Ok (JNull, false, deny_message d) /\ _executor m' = x) /\
      (d_action d <> DENY -> (r, _executor m') = exec tool (effective_args d args) x)
  end.
Proof.
  intros m. pose proof (execute_unfold exec now tool args caller framework m a eq_refl) as Hu.
  destruct (execute _ _ _ _ _ _ m) as [r m']. unfold decide_call in Hu. simpl in Hu.
  destruct (pe_evaluate tool args caller e) as [[d|err] e']; [|done].
  case_bool_decide.
  - destruct Hu as [-> ->]. simpl. split_and!; [done | | done | done].
    eexists. split; [done | apply aud_record_log].
  - destruct (exec _ _ x) as [r' x']. injection Hu as -> ->. simpl. split_and!; [done | | done | done].
    eexists. split; [done | apply aud_record_log].
Qed.

Lemma execute_outcome_witness :
  let '(r, m') := execute (logging (fun _ _ => Ok (JNull, true, ""))) {| c_decision := DT 0 None; c_record := DT 1 None |}
                    "rm" [] CallerContext_default "" example_mw in
  r = Ok (JNull, false, "denied by policy: destructive") /\ _executor m' = [].
Proof.
  pose proof (execute_outcome (logging (fun _ _ => Ok (JNull, true, ""))) (DT 0 None) InMemoryAuditor.init []
    {| c_decision := DT 0 None; c_record := DT 1 None |} "rm" [] CallerContext_default "") as H.
  exact (proj1 (proj2 (proj2 H)) eq_refl).
Defined.

End MiddlewareImpl.

Module AuditedToolClient.
Section Client.
Context {E A X : Type} `{PolicyEvaluator E} `{Auditor A}.

(** The tool functions of the caller act on the state [X]; [world] is that
    state, [_executor] the contract executor when one was configured.  An
    awaitable result is awaited: the model returns what it resolves to. *)
Record t := {
  source : string;
  auditor : A;
  _evaluator : option E;
  _executor : option (string -> jdict -> eff X exn json);
  world : X;
}.

Definition with_policy (e : E) (c : t) : t :=
  {| source := source c; auditor := auditor c; _evaluator := Some e; _executor := _executor c; world := world c |}.
Definition with_auditor (a : A) (c : t) : t :=
  {| source := source c; auditor := a; _evaluator := _evaluator c; _executor := _executor c; world := world c |}.
Definition set_world (x : X) (c : t) : t :=
  {| source := source c; auditor := auditor c; _evaluator := _evaluator c; _executor := _executor c; world := x |}.

Definition records (f : option AuditFilter) (c : t) : res exn (list AuditRecord) :=
  aud_query (default AuditFilter_default f) (auditor c).

Definition pick_func (tool : string) (func : option (jdict -> eff X exn json)) (c : t)
  : res exn (jdict -> eff X exn json) :=
  match func with
  | Some f => Ok f
  | None =>
      match _executor c with
      | Some ex => Ok (ex tool)
      | None => Raise (Exn TypeError "func is required when no executor is configured")
      end
  end.

(** The caller of an entry-point call is the invoking subject. *)
Definition entry_caller (user_id channel_id : string) (guild_id : option string) (src : string) : CallerContext :=
  {| cc_user_id := user_id; cc_session_id := channel_id; cc_role := ""; cc_source := src; cc_trusted := false;
     cc_metadata := [("channel_id", channel_id); ("guild_id", str_or (default "" guild_id) "")];
     cc_invoking_subject := user_id; cc_parent_span := ""; cc_delegation_depth := 0; cc_span_id := "";
     cc_agent_version := ""; cc_framework := ""; cc_workspace_id := "" |}.

Definition with_span (uuid : string) (c : CallerContext) : CallerContext :=
  if py_truthy_str (cc_span_id c) then c else
  {| cc_user_id := cc_user_id c; cc_session_id := cc_session_id c; cc_role := cc_role c;
     cc_source := cc_source c; cc_trusted := cc_trusted c; cc_metadata := cc_metadata c;
     cc_invoking_subject := cc_invoking_subject c; cc_parent_span := cc_parent_span c;
     cc_delegation_depth := cc_delegation_depth c; cc_span_id := uuid;
     cc_agent_version := cc_agent_version c; cc_framework := cc_framework c;
     cc_workspace_id := cc_workspace_id c |}.

Definition decide_call (now : datetime) (tool : string) (args : jdict) (caller : CallerContext)
  : eff t exn Decision := fun c =>
  match _evaluator c with
  | Some e => let '(r, e') := pe_evaluate tool args caller e in (r, with_policy e' c)
  | None => (Ok (no_policy now), c)
  end.

(** [uuid] is the value of [str(uuid4())] at the call. *)
Definition Execute (now : clock) (uuid tool : string) (tool_args : jdict) (user_id channel_id : string)
    (guild_id : option string) (func : option (jdict -> eff X exn json)) (caller : option CallerContext)
  : eff t exn json :=
  c ← eff_get;
  f ← eff_lift (pick_func tool func c);
  let caller := with_span uuid (default (entry_caller user_id channel_id guild_id (source c)) caller) in
  decision ← decide_call (c_decision now) tool tool_args caller;
  _ ← eff_zoom auditor with_auditor
        (aud_record (audit_entry (c_record now) (source c) tool tool_args caller decision));
  if bool_decide (d_action decision = DENY) then
    eff_raise (Exn PermissionError (deny_message decision))
  else eff_zoom world set_world (f (effective_args decision tool_args)).

Definition effective_caller (uuid user_id channel_id : string) (guild_id : option string)
    (caller : option CallerContext) (c : t) : CallerContext :=
  with_span uuid (default (entry_caller user_id channel_id guild_id (source c)) caller).
End Client.
Arguments t : clear implicits.

(** The client runs the tool function only for a call the policy allowed
    and the auditor recorded; a denial is a [PermissionError] that leaves the
    caller's world alone and is recorded too; a call with neither function nor
    executor is refused before anything happens; and every record carries the
    delegation fields of the caller it was made for. *)
Lemma Execute_outcome {E A X} `{PolicyEvaluator E} `{!Auditor A, !AuditorLaws A}
    (c : t E A X) now uuid tool args user channel guild func caller :
  let who := effective_caller uuid user channel guild caller c in
  let '(r, c') := Execute now uuid tool args user channel guild func caller c in
  match pick_func tool func c with
  | Raise err => r = Raise err /\ c' = c
  | Ok f =>
      match decide_call (c_decision now) tool args who c with
      | (Raise err, c1) => r = Raise err /\ auditor c' = auditor c /\ world c' = world c
      | (Ok d, c1) =>
          aud_log (auditor c') = aud_log (auditor c) ++ [audit_entry (c_record now) (source c) tool args who d] /\
          (d_action d = DENY -> r = Raise (Exn PermissionError (deny_message d)) /\ world c' = world c) /\
          (d_action d <> DENY -> (r, world c') = f (effective_args d args) (world c))
      end
  end.
Proof.
  intros who. unfold Execute, mbind, eff_bind, eff_get, eff_lift. fold (effective_caller uuid user channel guild caller c).
  fold who. destruct (pick_func tool func c) as [f|err]; [|done].
  destruct (decide_call _ _ _ who c) as [[d|err] c1] eqn:Hd.
  - assert (Hf : auditor c1 = auditor c /\ world c1 = world c).
    { unfold decide_call in Hd. destruct (_evaluator c); [|by simplify_eq].
      destruct (pe_evaluate _ _ _ _). by simplify_eq/=. }
    destruct Hf as [Ha Hw]. unfold eff_zoom. rewrite Ha.
    set (en := audit_entry _ _ _ _ _ d).
    pose proof (aud_record_ok en (auditor c)) as Hok. pose proof (aud_record_log en (auditor c)) as Hl.
    destruct (aud_record en (auditor c)) as [u a']. simpl in Hok, Hl. subst u.
    case_bool_decide; simpl; [by rewrite Hw|]. rewrite Hw.
    by destruct (f _ (world c)).
  - unfold decide_call in Hd. destruct (_evaluator c); [|by simplify_eq].
    destruct (pe_evaluate _ _ _ _). by simplify_eq/=.
Qed.

(** The example policy of the middleware, and a client over it. *)
#[local] Instance example_policy : PolicyEvaluator unit := fun tool _ _ u =>
  (if String.eqb tool "rm" then Ok (mk_decision (DT 0 None) DENY "no-rm" "destructive")
   else Ok (mk_decision (DT 0 None) ALLOW "" ""), u).
Definition example_client : t unit InMemoryAuditor.t nat :=
  {| source := "pedro"; auditor := InMemoryAuditor.init; _evaluator := Some tt; _executor := None; world := 0 |}.

Lemma Execute_outcome_witness :
  let now := {| c_decision := DT 0 None; c_record := DT 1 None |} in
  let f := fun (_ : jdict) (n : nat) => (Ok JNull, S n) : res exn json * nat in
  let '(r, c') := Execute now "span-1" "rm" [] "ana" "chan" None (Some f) None example_client in
  r = Raise (Exn PermissionError "denied by policy: destructive") /\ world c' = 0.
Proof.
  intros now f.
  pose proof (Execute_outcome example_client now "span-1" "rm" [] "ana" "chan" None (Some f) None) as H.
  exact (proj1 (proj2 H) eq_refl).
Defined.

(** Down any chain of delegations, a client call is recorded under the
    human who started the chain, at the depth of the chain: no override on the
    way can replace the invoking subject. *)
Lemma delegated_calls_keep_the_subject {E A X} `{PolicyEvaluator E} `{!Auditor A, !AuditorLaws A}
    (c : t E A X) (human sub : CallerContext) (hops : list (string * Overrides))
    now uuid tool args user channel guild f d c1 :
  delegate_chain human hops = Ok sub ->
  decide_call (c_decision now) tool args (with_span uuid sub) c = (Ok d, c1) ->
  exists r, aud_log (auditor (Execute now uuid tool args user channel guild (Some f) (Some sub) c).2)
              = aud_log (auditor c) ++ [r] /\
    ar_invoking_subject r = cc_invoking_subject human /\
    ar_delegation_depth r = (cc_delegation_depth human + Z.of_nat (length hops))%Z.
Proof.
  intros Hch Hd. apply delegate_chain_Ok in Hch as [Hs Hdep].
  exists (audit_entry (c_record now) (source c) tool args (with_span uuid sub) d).
  assert (Hf : auditor c1 = auditor c).
  { unfold decide_call in Hd. destruct (_evaluator c); [|by simplify_eq].
    destruct (pe_evaluate _ _ _ _). by simplify_eq/=. }
  assert (Hw : cc_invoking_subject (with_span uuid sub) = cc_invoking_subject sub /\
               cc_delegation_depth (with_span uuid sub) = cc_delegation_depth sub)
    by (unfold with_span; destruct (py_truthy_str _); done).
  destruct Hw as [Hw1 Hw2]. simpl. rewrite Hw1, Hw2, <- Hs, <- Hdep. split; [|done].
  unfold Execute, mbind, eff_bind, eff_get, eff_lift, pick_func. simpl. rewrite Hd.
  unfold eff_zoom. rewrite Hf. set (en := audit_entry _ _ _ _ _ d).
  pose proof (aud_record_ok en (auditor c)) as Hok. pose proof (aud_record_log en (auditor c)) as Hl.
  destruct (aud_record en (auditor c)) as [u a']. simpl in Hok, Hl. subst u.
  case_bool_decide; [done|]. by destruct (f _ _).
Qed.

Definition ana : CallerContext := entry_caller "ana" "chan" None "cli".
Definition evil : Overrides :=
  Build_Overrides None None (Some "admin") None None None (Some "agent") None None None None None None [].

Lemma delegated_calls_keep_the_subject_witness :
  exists sub r, delegate_chain ana [("s1", evil); ("", no_overrides)] = Ok sub /\
    aud_log (auditor (Execute {| c_decision := DT 0 None; c_record := DT 1 None |} "u" "ls" [] "bot" "c" None
      (Some (fun (_ : jdict) (n : nat) => (Ok JNull, n))) (Some sub) example_client).2) = [r] /\
    ar_invoking_subject r = "ana" /\ ar_delegation_depth r = 2%Z.
Proof.
  destruct (delegate_chain ana [("s1", evil); ("", no_overrides)]) as [sub|] eqn:Hs; [|discriminate Hs].
  edestruct (delegated_calls_keep_the_subject example_client ana sub [("s1", evil); ("", no_overrides)]
    {| c_decision := DT 0 None; c_record := DT 1 None |} "u" "ls" [] "bot" "c" None
    (fun (_ : jdict) (n : nat) => (Ok JNull, n))) as (r & H1 & H2 & H3);
    [exact Hs | reflexivity |].
  exists sub, r. split; [reflexivity | split; [exact H1 | split; [exact H2 | exact H3]]].
Defined.

End AuditedToolClient.
