(* ===== verification/Harness.v ===== *)
(** * The harness: credentials, local proxy, manifest and contract

    [kei/auth.py] (Module Auth), [kei/proxy.py] (Proxy), [kei/config.py] (Config)
    and [kei/contract.py] (Contract), which ties a harness's parts to the audited
    client of [Middleware.v].

    Parameters: the environment, the secret provider, the file system and the
    process table; [pydantic]'s validation of a manifest; [str.upper]. *)
From Stdlib Require Import ZArith Lia Ascii String SpecFloat.
From stdpp Require Import base tactics list strings.
From S2P Require Import Prelude PyStr PyFloat Json Types AuditTrail Middleware.

Fixpoint drop_slashes (s : string) : string :=
  match s with String a s' => if Ascii.eqb a "/" then drop_slashes s' else s | EmptyString => s end.
(** [url.rstrip('/')]. *)
Definition rstrip_slash (s : string) : string :=
  str_rev (drop_slashes (str_rev s)).

Module Auth.

Inductive TokenType := OPAQUE | JWT.
Definition BOOTSTRAP_TOKEN_ENV := "KEI_RUNTIME_TOKEN".

Record TokenInfo := {
  tok_token : string; tok_type : TokenType; tok_expires_at : option datetime; tok_refresh_token : option string;
  tok_issued_at : option datetime }.

(** [now >= t]. *)
Definition reached (now t : datetime) : res exn bool := b ← dt_lt now t; Ok (negb b).
Definition is_expired (now : datetime) (i : TokenInfo) : res exn bool :=
  match tok_expires_at i with None => Ok false | Some t => reached now t end.
(** [buffer] in microseconds. *)
Definition default_buffer : Z := 300000000.
Definition is_expiring_soon (now : datetime) (buffer : Z) (i : TokenInfo) : res exn bool :=
  match tok_expires_at i with
  | None => Ok false
  | Some t => reached now (DT (dt_wall t - buffer) (dt_offset t))
  end.

(** A secret provider, and the environment as one. *)
Definition SecretProvider : Type := string -> option string.
Definition EnvSecretProvider (environ : dict string) : SecretProvider := dget environ.

(** The bootstrap secret: an explicit token, then the provider's, then the
    environment's; an empty one is refused, not skipped. *)
Definition resolve (environ : dict string) (token : option string) (provider : option SecretProvider) : option string :=
  let resolved := match token with
                  | Some t => Some t
                  | None =>
                      match (p ← provider; p BOOTSTRAP_TOKEN_ENV) with
                      | Some t => Some t
                      | None => dget environ BOOTSTRAP_TOKEN_ENV
                      end
                  end in
  match resolved with Some t => if py_truthy_str t then Some t else None | None => None end.

Definition OpaqueTokenProvider (environ : dict string) (now : datetime) (token : option string) (provider : option SecretProvider)
  : res exn TokenInfo :=
  match resolve environ token provider with
  | Some t => Ok {| tok_token := t; tok_type := OPAQUE; tok_expires_at := None; tok_refresh_token := None; tok_issued_at := Some now |}
  | None => Raise (Exn ValueError "No bootstrap token available: set KEI_RUNTIME_TOKEN or provide a SecretProvider")
  end.

Record JWTTokenProvider := {
  _api_url : string; _exchange_endpoint : string; _refresh_endpoint : string; _revoke_endpoint : string;
  _token_info : option TokenInfo; _enabled : bool; _bootstrap_token : string }.

Definition new_jwt (environ : dict string) (api_url : string) (token : option string) (provider : option SecretProvider)
    (exchange refresh revoke : string) : res exn JWTTokenProvider :=
  match resolve environ token provider with
  | Some t => Ok {| _api_url := rstrip_slash api_url; _exchange_endpoint := exchange; _refresh_endpoint := refresh;
                    _revoke_endpoint := revoke; _token_info := None; _enabled := false; _bootstrap_token := t |}
  | None => Raise (Exn ValueError "Cannot initialize JWT provider without bootstrap token: set KEI_RUNTIME_TOKEN or provide a SecretProvider")
  end.

Definition set_enabled (p : JWTTokenProvider) : JWTTokenProvider :=
  {| _api_url := _api_url p; _exchange_endpoint := _exchange_endpoint p; _refresh_endpoint := _refresh_endpoint p;
     _revoke_endpoint := _revoke_endpoint p; _token_info := _token_info p; _enabled := true; _bootstrap_token := _bootstrap_token p |}.
Definition drop_token (p : JWTTokenProvider) : JWTTokenProvider :=
  {| _api_url := _api_url p; _exchange_endpoint := _exchange_endpoint p; _refresh_endpoint := _refresh_endpoint p;
     _revoke_endpoint := _revoke_endpoint p; _token_info := None; _enabled := _enabled p; _bootstrap_token := _bootstrap_token p |}.

Definition NotImplementedError : exn_class := UserError "NotImplementedError".
Definition _ensure_enabled (p : JWTTokenProvider) : res exn unit :=
  guard_or (_enabled p) (Exn RuntimeError "JWT exchange is not enabled; enable it explicitly via config before use").
Definition _exchange (p : JWTTokenProvider) : res exn TokenInfo :=
  Raise (Exn NotImplementedError (str_join ["JWT exchange contract not implemented; server endpoint "; _api_url p;
                                            _exchange_endpoint p; " not claimed to exist"])).
Definition _renew (p : JWTTokenProvider) : res exn TokenInfo :=
  Raise (Exn NotImplementedError (str_join ["JWT renewal contract not implemented; server endpoint "; _api_url p;
                                            _refresh_endpoint p; " not claimed to exist"])).

(** [AuthProvider]: the two implementations as one state. *)
Inductive AuthProvider := Opaque (info : TokenInfo) | Jwt (p : JWTTokenProvider).

Definition get_token (now : datetime) (a : AuthProvider) : res exn TokenInfo :=
  match a with
  | Opaque info => Ok info
  | Jwt p =>
      _ ← _ensure_enabled p;
      match _token_info p with
      | None => _exchange p
      | Some info => soon ← is_expiring_soon now default_buffer info; if soon : bool then _renew p else Ok info
      end
  end.

Definition HTTPStatusError : exn_class := UserError "HTTPStatusError".
(** [OpaqueTokenProvider.invalidate]. *)
Definition opaque_invalidate : res exn AuthProvider :=
  Raise (Exn HTTPStatusError "Opaque token invalidated; renewal requires a new bootstrap secret via KEI_RUNTIME_TOKEN").
Definition invalidate (a : AuthProvider) : res exn AuthProvider :=
  match a with
  | Opaque _ => opaque_invalidate
  | Jwt p => _ ← _ensure_enabled p; Ok (Jwt (drop_token p))
  end.
Definition get_token_type (a : AuthProvider) : TokenType := match a with Opaque _ => OPAQUE | Jwt _ => JWT end.

Definition get_auth_provider (environ : dict string) (now : datetime) (api_url : string) (jwt_exchange_enabled : bool)
    (provider : option SecretProvider) (token : option string) : res exn AuthProvider :=
  if jwt_exchange_enabled then
    (fun p => Jwt (set_enabled p)) <$> new_jwt environ api_url token provider "/auth/exchange" "/auth/refresh" "/auth/revoke"
  else Opaque <$> OpaqueTokenProvider environ now token provider.

(** A provider after some invalidations. *)
Inductive invalidated : AuthProvider -> AuthProvider -> Prop :=
| inv_none a : invalidated a a
| inv_step a b c : invalidated a b -> invalidate b = Ok c -> invalidated a c.

(** A token a harness obtains is its bootstrap secret.  Whatever provider
    the configuration builds, and however often it is invalidated, a token it
    gives is opaque and is the first of the explicit token, the secret provider's
    and the environment's, which is not empty; the JWT provider gives none; and
    without such a secret there is no provider. *)
Lemma tokens_are_the_bootstrap_secret (environ : dict string) (now later : datetime) (api_url : string) (jwt : bool)
    (provider : option SecretProvider) (token : option string) :
  match get_auth_provider environ now api_url jwt provider token with
  | Ok a => exists secret, resolve environ token provider = Some secret /\ secret <> "" /\
      forall b, invalidated a b ->
        match get_token later b with
        | Ok info => jwt = false /\ tok_token info = secret /\ tok_type info = OPAQUE /\ is_expired later info = Ok false
        | Raise e => jwt = true
        end
  | Raise e => resolve environ token provider = None
  end.
Proof.
  unfold get_auth_provider, new_jwt, OpaqueTokenProvider.
  assert (Hne : forall s, resolve environ token provider = Some s -> s <> "").
  { intros s. unfold resolve. destruct (match token with Some _ => _ | None => _ end) as [t|]; [|done].
    destruct (py_truthy_str t) eqn:Ht; [|done]. intros [= <-]. by apply py_truthy_str_true. }
  destruct jwt, (resolve environ token provider) as [s|] eqn:Hr; cbn [fmap res_fmap]; try done; exists s; (split_and!; [done | by apply Hne |]).
  - intros b Hb. assert (Hi : exists p, b = Jwt p /\ _token_info p = None).
    { clear -Hb. match type of Hb with invalidated ?x _ => remember x as a0 eqn:Ha end. induction Hb as [a|a b c Hb IH Hc]; [subst; eauto|].
      destruct (IH Ha) as (p & -> & Hp). cbn in Hc. res_inv. subst. eauto. }
    destruct Hi as (p & -> & Hp). cbn. unfold _ensure_enabled. destruct (_enabled p); cbn; [|done]. by rewrite Hp.
  - intros b Hb. assert (b = Opaque {| tok_token := s; tok_type := OPAQUE; tok_expires_at := None; tok_refresh_token := None; tok_issued_at := Some now |}) as ->; [|done].
    match type of Hb with invalidated ?x _ => remember x as a0 eqn:Ha end. induction Hb as [a|a b c Hb IH Hc]; [done|].
    rewrite (IH Ha), Ha in Hc. discriminate Hc.
Qed.
End Auth.

Module Proxy.

Inductive proxy_error :=
| ProxyNotFoundError (message : string)
| ProxyExecutionError (message : string).

Record ProxyConfig := {
  executable : string; port : Z; api_url : string; token : option string; secret_provider : option Auth.SecretProvider;
  env : dict string; timeout : spec_float }.

(** The host: files, the search path, the interpreter's and the current
    directories, the environment, and [pathlib]'s reading and joining of paths. *)
Record Host := {
  exists_ : string -> bool; can_execute : string -> bool; which : string -> option string;
  python_dir : string; cwd : string; windows : bool; environ : dict string;
  path_of : string -> string; path_join : string -> string -> string }.

Definition isabs (s : string) : bool := String.prefix "/" s.

(** [if value], of an optional text. *)
Definition truthy (o : option string) : option string :=
  match o with Some s => if py_truthy_str s then Some s else None | None => None end.

(** An empty secret is skipped here. *)
Definition resolve_token (h : Host) (c : ProxyConfig) : res proxy_error string :=
  match truthy (token c) with
  | Some t => Ok t
  | None =>
      match truthy (p ← secret_provider c; p Auth.BOOTSTRAP_TOKEN_ENV) with
      | Some t => Ok t
      | None =>
          of_option (ProxyExecutionError "No bootstrap secret available: set KEI_RUNTIME_TOKEN or provide a SecretProvider")
            (truthy (dget (environ h) Auth.BOOTSTRAP_TOKEN_ENV))
      end
  end.

Definition usable (h : Host) (path : string) : bool := exists_ h path && can_execute h path.

Definition _discover_executable (h : Host) (c : ProxyConfig) : res proxy_error string :=
  if py_truthy_str (executable c) && isabs (executable c) then
    let path := path_of h (executable c) in
    if usable h path then Ok path
    else Raise (ProxyNotFoundError (String.append "Explicit executable not found: " path))
  else
    let exe_name := if windows h then String.append (executable c) ".exe" else executable c in
    match truthy (which h exe_name) with
    | Some found => Ok (path_of h found)
    | None =>
        let adjacent := path_join h (python_dir h) exe_name in
        let here := path_join h (cwd h) exe_name in
        if usable h adjacent then Ok adjacent
        else if usable h here then Ok here
        else Raise (ProxyNotFoundError (str_join ["kei-proxy executable not found. Searched: PATH, "; python_dir h; ", "; cwd h;
               ". Consider installing kei-proxy or providing explicit path."]))
    end.

Definition discover_proxy (h : Host) (c : ProxyConfig) : option string :=
  match _discover_executable h c with Ok p => Some p | Raise _ => None end.

(** ** The process *)

Record spawn := { s_args : list string; s_env : dict string }.
Inductive spawn_error := NoSuchFile | Forbidden (message : string) | SpawnFailed (message : string).

Definition proxy_args (exe : string) (c : ProxyConfig) : list string :=
  [exe; "--port"; int_str (port c)] ++ (if py_truthy_str (api_url c) then ["--api-url"; api_url c] else []).
Definition proxy_env (h : Host) (c : ProxyConfig) (tok : string) : dict string :=
  dset (dmerge (environ h) (env c)) Auth.BOOTSTRAP_TOKEN_ENV tok.

Section Process.
Context {P W : Type} (h : Host) (popen : spawn -> W -> res spawn_error P * W) (poll : P -> W -> option Z)
  (terminate kill wait : P -> W -> W) (wait_5s : P -> W -> bool * W).

(** [spawned]: the spawns asked for. *)
Record t := { _config : ProxyConfig; _process : option P; _executable_path : option string; world : W; spawned : list spawn }.
Definition new_process (c : ProxyConfig) (w : W) : t :=
  {| _config := c; _process := None; _executable_path := None; world := w; spawned := [] |}.

Definition is_running (p : t) : bool :=
  match _process p with Some q => bool_decide (poll q (world p) = None) | None => false end.

Definition spawn_failure (exe : string) (e : spawn_error) : proxy_error :=
  match e with
  | NoSuchFile => ProxyNotFoundError (String.append "Failed to start kei-proxy: executable not found at " exe)
  | Forbidden m => ProxyExecutionError (String.append "Permission denied executing kei-proxy: " m)
  | SpawnFailed m => ProxyExecutionError (String.append "Failed to start kei-proxy: " m)
  end.

Definition start : eff t proxy_error unit := fun p =>
  if is_running p then (Ok tt, p)
  else
    match _discover_executable h (_config p) with
    | Raise e => (Raise e, p)
    | Ok exe =>
        let p := {| _config := _config p; _process := _process p; _executable_path := Some exe; world := world p; spawned := spawned p |} in
        match resolve_token h (_config p) with
        | Raise e => (Raise e, p)
        | Ok tok =>
            let s := {| s_args := proxy_args exe (_config p); s_env := proxy_env h (_config p) tok |} in
            let '(r, w) := popen s (world p) in
            let after q := {| _config := _config p; _process := q; _executable_path := Some exe; world := w; spawned := spawned p ++ [s] |} in
            match r with
            | Ok q => (Ok tt, after (Some q))
            | Raise e => (Raise (spawn_failure exe e), after (_process p))
            end
        end
    end.

(** A process that does not end in five seconds is killed. *)
Definition stop (p : t) : t :=
  let w := match _process p with
           | Some q =>
               if bool_decide (poll q (world p) = None) then
                 let w := terminate q (world p) in
                 let '(ended, w) := wait_5s q w in
                 if ended : bool then w else wait q (kill q w)
               else world p
           | None => world p
           end in
  {| _config := _config p; _process := None; _executable_path := _executable_path p; world := w; spawned := spawned p |}.

Definition get_url (p : t) : string := String.append "http://localhost:" (int_str (port (_config p))).

Definition run_proxy (c : ProxyConfig) (w : W) : res proxy_error unit * t := start (new_process c w).
Definition stop_proxy (p : t) : t := stop p.

(** [with LocalProxyProcess(config): body]. *)
Definition __enter__ : eff t proxy_error unit := start.
Definition __exit__ (p : t) : t := stop p.
Definition with_process {A} (body : t -> res proxy_error A * t) : eff t proxy_error A := fun p =>
  match __enter__ p with
  | (Raise e, p) => (Raise e, p)
  | (Ok _, p) => let '(r, p) := body p in (r, __exit__ p)
  end.

(** ** Facts *)

Lemma discovered_usable c exe : _discover_executable h c = Ok exe ->
  usable h exe = true \/ exists found, which h (if windows h then String.append (executable c) ".exe" else executable c) = Some found /\
    exe = path_of h found.
Proof.
  unfold _discover_executable. destruct (py_truthy_str (executable c) && isabs (executable c)).
  - destruct (usable h (path_of h (executable c))) eqn:Hu; [|done]. intros [= <-]. by left.
  - destruct (which h _) as [found|]; cbn [truthy].
    + destruct (py_truthy_str found); [intros [= <-]; right; eauto|].
      destruct (usable h (path_join h (python_dir h) _)) eqn:Hu; [intros [= <-]; by left|].
      destruct (usable h (path_join h (cwd h) _)) eqn:Hv; [intros [= <-]; by left | done].
    + destruct (usable h (path_join h (python_dir h) _)) eqn:Hu; [intros [= <-]; by left|].
      destruct (usable h (path_join h (cwd h) _)) eqn:Hv; [intros [= <-]; by left | done].
Qed.

(** After a [with] no process is held, whatever its body does, unless the start
    failed: then what was held before still is. *)
Lemma with_process_ends {A} (body : t -> res proxy_error A * t) p :
  let '(r, p') := with_process body p in is_ok (fst (start p)) = true -> is_running p' = false.
Proof.
  unfold with_process, __enter__. destruct (start p) as [[u|e] q]; cbn; [|done]. by destruct (body q) as [r q'].
Qed.

(** The local proxy is started closed.  [start] spawns at most once, and
    only when no process runs, an executable was found (it exists and can be
    executed, or the search path has it) and there is a secret; the command line
    is the executable, the port and the URL and nothing else, and the secret is in
    the environment under its name, whatever the configured environment says; a
    success leaves a process, a failure leaves the process there was; and [stop]
    leaves none. *)
Lemma proxy_starts_closed (p : t) :
  let '(r, p') := start p in
  is_running (stop p') = false /\ _config p' = _config p /\
  ((spawned p' = spawned p /\ _process p' = _process p /\ (r = Ok tt -> is_running p = true)) \/
   exists exe tok s, is_running p = false /\ _discover_executable h (_config p) = Ok exe /\
     (usable h exe = true \/ exists name found, which h name = Some found /\ exe = path_of h found) /\
     resolve_token h (_config p) = Ok tok /\ tok <> "" /\
     spawned p' = spawned p ++ [s] /\ s_args s = proxy_args exe (_config p) /\
     dget (s_env s) Auth.BOOTSTRAP_TOKEN_ENV = Some tok /\
     match r with Ok _ => is_Some (_process p') | Raise _ => _process p' = _process p end).
Proof.
  unfold start. destruct (is_running p) eqn:Hr; [split_and!; auto|].
  destruct (_discover_executable h (_config p)) as [exe|e] eqn:Hd; [|split_and!; auto; left; done].
  cbn. destruct (resolve_token h (_config p)) as [tok|e] eqn:Ht; [|split_and!; auto; left; done].
  destruct (popen _ (world p)) as [r w] eqn:Hp.
  assert (Hs : tok <> "").
  { unfold resolve_token in Ht. apply py_truthy_str_true.
    assert (Htr : forall o x, truthy o = Some x -> py_truthy_str x = true).
    { intros [x|] y; [|done]. unfold truthy. destruct (py_truthy_str x) eqn:Hx; [|done]. by intros [= <-]. }
    match type of Ht with match ?o with _ => _ end = _ => destruct o eqn:H1 end; [injection Ht as <-; eauto|].
    match type of Ht with match ?o with _ => _ end = _ => destruct o eqn:H2 end; [injection Ht as <-; eauto|].
    apply of_option_Ok in Ht. eauto. }
  destruct r as [q|e]; cbn; (split_and!; [done | done |]); right; eexists exe, tok, _; (split_and!; [done | done | |done | done | done | done | apply dget_dset_eq | done || eauto]).
  all: apply discovered_usable in Hd as [?|(found & ? & ?)]; eauto.
Qed.
End Process.
Arguments t : clear implicits.
End Proxy.

Module Config.

Definition BOOTSTRAP_SECRET_NAME := "KEI_RUNTIME_TOKEN".
Definition BINDINGS_GRANT_PERMISSIONS : bool := false.

Record HarnessType := { ht_slug : string; ht_version : string }.
Record SecretRef := { sr_source : string; sr_key : string }.
Record ToolBinding := { tb_tool_name : string; tb_connector_id : string; tb_config : jdict }.
Record HarnessManifest := {
  schema_version : string; kei_api_url : string; harness_id : string; workspace_id : option string;
  harness_type : HarnessType; environment : string; installation_id : option string; config_revision : option string;
  tool_bindings : list ToolBinding; secret_refs : dict SecretRef }.

Section Config.
Context (upper : string -> string).

Definition forbidden (name : string) : bool := str_in (upper name) [BOOTSTRAP_SECRET_NAME].

Definition validate_manifest (m : HarnessManifest) : list string :=
  omap (fun kv => if forbidden kv.1
                  then Some (str_join ["Manifest must not contain a secret_ref for the bootstrap secret '"; kv.1;
                                       "'; it is loaded separately from the environment/secret provider"])
                  else None) (secret_refs m)
  ++ omap (fun ref => if forbidden (sr_key ref)
                      then Some (str_join ["Secret reference key must not reference the bootstrap secret '"; sr_key ref; "'"])
                      else None) (dvals (secret_refs m))
  ++ (if String.eqb (schema_version m) "1.0.0" then []
      else [str_join ["Unsupported schema version: "; schema_version m; ". Supported: ['1.0.0']"]]).

(** [exists] and [read] are the file's; [json_error] is the decoder's text and
    [parse] is pydantic's validation of the fields, with its text of a failure. *)
Definition load_manifest (exists_ : string -> bool) (read : string -> res exn string) (json_error : string -> string)
    (parse : jdict -> res string HarnessManifest) (path : string) : res exn HarnessManifest :=
  _ ← guard_or (exists_ path) (Exn (UserError "FileNotFoundError") (String.append "Manifest not found: " path));
  text ← read path;
  data ← of_option (Exn ValueError (String.append "Invalid JSON in manifest: " (json_error text))) (json_loads text);
  match data with
  | JObj d =>
      match parse d with
      | Raise e => Raise (Exn ValueError (String.append "Invalid manifest schema: " e))
      | Ok m =>
          match validate_manifest m with
          | [] => Ok m
          | errors => Raise (Exn ValueError (String.append "Manifest validation failed: " (join_with "; " errors)))
          end
      end
  | _ => Raise (Exn TypeError "argument after ** must be a mapping")
  end.

Record HarnessConfig := { manifest : HarnessManifest }.
Definition get_config exists_ read json_error parse (path : string) : res exn HarnessConfig :=
  m ← load_manifest exists_ read json_error parse path; Ok {| manifest := m |}.

(** A loaded configuration does not name the bootstrap secret.  No reference
    of a manifest that loads has its name, or its key, equal to the secret's name
    in any case; its version is 1.0.0; and it is what pydantic made of the file. *)
Lemma loaded_manifest_names_no_secret exists_ read json_error parse (path : string) (c : HarnessConfig) :
  get_config exists_ read json_error parse path = Ok c ->
  Forall (fun kv => upper kv.1 <> BOOTSTRAP_SECRET_NAME /\ upper (sr_key kv.2) <> BOOTSTRAP_SECRET_NAME) (secret_refs (manifest c)) /\
  schema_version (manifest c) = "1.0.0" /\
  exists text d, read path = Ok text /\ json_loads text = Some (JObj d) /\ parse d = Ok (manifest c).
Proof.
  unfold get_config, load_manifest. intros H. res_inv. destruct a2 as [| | | | | |d]; try done.
  destruct (parse d) as [m|] eqn:Hp; [|done]. destruct (validate_manifest m) as [|] eqn:Hv; [|done]. injection Hr as <-. cbn [manifest].
  unfold validate_manifest in Hv. apply app_eq_nil in Hv as [H1 Hv]. apply app_eq_nil in Hv as [H2 H3].
  apply omap_nil in H1, H2. split_and!.
  - unfold dvals in H2. apply Forall_map in H2. rewrite Forall_forall in H1, H2 |- *. intros kv Hin. specialize (H1 kv Hin). specialize (H2 kv Hin).
    cbn in H1, H2. unfold forbidden in H1, H2. split; intros E; rewrite E in *; discriminate.
  - destruct (String.eqb_spec (schema_version m) "1.0.0"); [done | discriminate H3].
  - eauto.
Qed.
End Config.
End Config.

Module Contract.

(** What [hasattr] finds of an object: the names of its attributes; [None] stands
    for the object [None]. *)
Definition attributes : Type := option (list string).

Section Contract.
Context {E A X : Type} `{PolicyEvaluator E} `{!Auditor A, !AuditorLaws A}.

(** [_DenyAllEvaluator]; it holds the reading of the clock. *)
Inductive evaluator := Provided (e : E) | _DenyAllEvaluator (now : datetime).
Definition deny_all (now : datetime) : Decision :=
  mk_decision now DENY "default-deny" "no policy evaluator configured (fail-closed)".
#[global] Instance contract_evaluator : PolicyEvaluator evaluator := fun tool args caller ev =>
  match ev with
  | Provided e => let '(r, e') := pe_evaluate tool args caller e in (r, Provided e')
  | _DenyAllEvaluator now => (Ok (deny_all now), ev)
  end.

(** The auditor of the contract, or the client's own. *)
Inductive auditor := ProvidedAuditor (a : A) | DefaultAuditor (a : InMemoryAuditor.t).
#[global] Instance contract_auditor : Auditor auditor := {
  aud_record r a := match a with
                    | ProvidedAuditor a => let '(x, a') := aud_record r a in (x, ProvidedAuditor a')
                    | DefaultAuditor a => let '(x, a') := aud_record r a in (x, DefaultAuditor a')
                    end;
  aud_query f a := match a with ProvidedAuditor a => aud_query f a | DefaultAuditor a => aud_query f a end;
  aud_log a := match a with ProvidedAuditor a => aud_log a | DefaultAuditor a => aud_log a end }.
#[global] Instance contract_auditor_laws : AuditorLaws auditor.
Proof.
  split; intros r [a|a]; cbn.
  - pose proof (aud_record_ok r a). by destruct (aud_record r a).
  - done.
  - pose proof (aud_record_log r a). by destruct (aud_record r a).
  - done.
Qed.

(** [truthy]: whether an evaluator counts as true, as [or] asks. *)
Record HarnessContract := {
  tool_executor : string -> jdict -> eff X exn json; policy_evaluator : evaluator; contract_log : option A }.
Definition new_contract (truthy : E -> bool) (now : datetime) (tool_executor : string -> jdict -> eff X exn json)
    (policy : option E) (audit : option A) : HarnessContract :=
  {| tool_executor := tool_executor;
     policy_evaluator := match policy with
                         | Some e => if truthy e then Provided e else _DenyAllEvaluator now
                         | None => _DenyAllEvaluator now
                         end;
     contract_log := audit |}.

Definition create_tool_client (c : HarnessContract) (source : string) (x : X) : AuditedToolClient.t evaluator auditor X :=
  {| AuditedToolClient.source := source;
     AuditedToolClient.auditor := match contract_log c with
                                  | Some a => ProvidedAuditor a
                                  | None => DefaultAuditor InMemoryAuditor.init
                                  end;
     AuditedToolClient._evaluator := Some (policy_evaluator c);
     AuditedToolClient._executor := Some (tool_executor c);
     AuditedToolClient.world := x |}.

(** A call of the client. *)
Record tool_call := {
  c_clock : clock; c_uuid : string; c_tool : string; c_args : jdict; c_user : string; c_channel : string;
  c_guild : option string; c_func : option (jdict -> eff X exn json); c_caller : option CallerContext }.
Definition make (k : tool_call) : eff (AuditedToolClient.t evaluator auditor X) exn json :=
  AuditedToolClient.Execute (c_clock k) (c_uuid k) (c_tool k) (c_args k) (c_user k) (c_channel k) (c_guild k) (c_func k) (c_caller k).
Fixpoint make_all (ks : list tool_call) (c : AuditedToolClient.t evaluator auditor X)
  : list (res exn json) * AuditedToolClient.t evaluator auditor X :=
  match ks with
  | [] => ([], c)
  | k :: ks' => let '(r, c) := make k c in let '(rs, c) := make_all ks' c in (r :: rs, c)
  end.

(** [validate_contract]. *)
Definition required_methods : list (string * list string) :=
  [("auth_provider", ["get_token"; "invalidate"; "get_token_type"]); ("tool_executor", ["execute"]); ("secret_provider", ["get_secret"])].
Definition missing_methods (attr : string) (methods have : list string) : list string :=
  omap (fun m => if str_in m have then None else Some (str_join [attr; " must implement method "; m; "()"])) methods.
Definition validate_contract (part : string -> attributes) : list string :=
  concat (map (fun am => match part am.1 with
                         | None => [String.append am.1 " is required but not set"]
                         | Some have => missing_methods am.1 am.2 have
                         end) required_methods)
  ++ concat (map (fun am => match part am.1 with Some have => missing_methods am.1 am.2 have | None => [] end)
       [("policy_evaluator", ["evaluate"]); ("auditor", ["record"; "query"]); ("proxy_process", ["start"; "stop"; "is_running"; "get_url"])]).

(** ** Facts *)

Definition denied (r : res exn json) : Prop :=
  r = Raise (Exn PermissionError "denied by policy: no policy evaluator configured (fail-closed)").

Lemma denied_call (k : tool_call) (now : datetime) c :
  AuditedToolClient._evaluator c = Some (_DenyAllEvaluator now) -> is_Some (AuditedToolClient._executor c) ->
  let '(r, c') := make k c in
  denied r /\ AuditedToolClient.world c' = AuditedToolClient.world c /\
  AuditedToolClient._evaluator c' = Some (_DenyAllEvaluator now) /\ AuditedToolClient._executor c' = AuditedToolClient._executor c /\
  exists rec, aud_log (AuditedToolClient.auditor c') = aud_log (AuditedToolClient.auditor c) ++ [rec] /\
    ar_tool_name rec = c_tool k /\ d_action (ar_decision rec) = DENY.
Proof.
  intros He [ex Hx]. unfold make, AuditedToolClient.Execute, mbind, eff_bind, eff_get, eff_lift.
  assert (Hp : exists f, AuditedToolClient.pick_func (c_tool k) (c_func k) c = Ok f)
    by (unfold AuditedToolClient.pick_func; rewrite Hx; destruct (c_func k); eauto).
  destruct Hp as [f ->]. set (who := AuditedToolClient.with_span _ _).
  assert (Hd : AuditedToolClient.decide_call (c_decision (c_clock k)) (c_tool k) (c_args k) who c =
    (Ok (deny_all now), AuditedToolClient.with_policy (_DenyAllEvaluator now) c)) by (unfold AuditedToolClient.decide_call; by rewrite He).
  rewrite Hd. unfold eff_zoom. cbn [AuditedToolClient.auditor AuditedToolClient.with_policy].
  set (en := audit_entry _ _ _ _ _ _).
  pose proof (aud_record_ok en (AuditedToolClient.auditor c)) as Hok. pose proof (aud_record_log en (AuditedToolClient.auditor c)) as Hl.
  destruct (aud_record en (AuditedToolClient.auditor c)) as [u a']. simpl in Hok, Hl. subst u.
  cbn. split_and!; try done. eauto.
Qed.

(** A contract without a policy denies everything.  Through the client of a
    contract made without an evaluator (or with one that counts as false), every
    call, with the contract's executor or with a function of its own, for whatever
    tool, arguments and caller, ends in a permission error; nothing is executed;
    and each call is recorded as denied, in order. *)
Lemma default_contract_denies_everything (truthy : E -> bool) (now : datetime) (ex : string -> jdict -> eff X exn json)
    (policy : option E) (audit : option A) (source : string) (x : X) (calls : list tool_call) :
  (forall e, policy = Some e -> truthy e = false) ->
  let c := create_tool_client (new_contract truthy now ex policy audit) source x in
  let '(rs, c') := make_all calls c in
  Forall denied rs /\ length rs = length calls /\ AuditedToolClient.world c' = x /\
  exists recs, aud_log (AuditedToolClient.auditor c') = aud_log (AuditedToolClient.auditor c) ++ recs /\
    map ar_tool_name recs = map c_tool calls /\ Forall (fun rec => d_action (ar_decision rec) = DENY) recs.
Proof.
  intros Hp c. assert (He : AuditedToolClient._evaluator c = Some (_DenyAllEvaluator now)).
  { cbn. destruct policy as [e|]; [by rewrite (Hp e)|done]. }
  assert (Hx : is_Some (AuditedToolClient._executor c)) by (by eexists).
  change x with (AuditedToolClient.world c). clearbody c. clear Hp. revert c He Hx.
  induction calls as [|k calls IH]; intros c He Hx; cbn [make_all].
  - split_and!; [constructor | done | done |]. exists []. by rewrite app_nil_r.
  - pose proof (denied_call k now c He Hx) as Hk. destruct (make k c) as [r c1].
    destruct Hk as (Hr & Hw & He1 & Hx1 & rec & Hl & Ht & Ha). specialize (IH c1 He1 ltac:(by rewrite Hx1)).
    destruct (make_all calls c1) as [rs c2]. destruct IH as (Hrs & Hlen & Hw2 & recs & Hl2 & Ht2 & Ha2).
    split_and!; [by constructor | simpl; lia | congruence |].
    exists (rec :: recs). rewrite Hl2, Hl, <- (assoc_L (++)). simpl. rewrite Ht, Ht2. split_and!; [done..|by constructor].
Qed.
End Contract.
End Contract.

(** ** Examples *)

Module Example.
Import Config.

Definition upper_char (a : ascii) : ascii := if is_lower a then ascii_of_N (code a - 32) else a.
Fixpoint upper (s : string) : string :=
  match s with EmptyString => EmptyString | String a s' => String (upper_char a) (upper s') end.
Definition refs_manifest (version : string) (refs : dict SecretRef) : HarnessManifest :=
  {| schema_version := version; kei_api_url := "https://kei"; harness_id := "h"; workspace_id := None;
     harness_type := {| ht_slug := "slack"; ht_version := "1" |}; environment := "dev"; installation_id := None;
     config_revision := None; tool_bindings := []; secret_refs := refs |}.
(** A parser of the reference's key only. *)
Definition ex_parse (d : jdict) : res string HarnessManifest :=
  match jget d "key" with
  | JStr k => Ok (refs_manifest "1.0.0" [("github", {| sr_source := "vault"; sr_key := k |})])
  | _ => Raise "key is missing"
  end.
Definition ex_load (text : string) : res exn HarnessConfig :=
  get_config upper (fun _ => true) (fun _ => Ok text) (fun _ => "bad") ex_parse "kei-harness.json".

Example refused_manifests :
  map (fun t => match ex_load (jq t) with Ok _ => "loaded" | Raise e => exn_msg e end)
    ["{"; "{}"; "[]"; "{'key': 'kei_runtime_token'}"] =
  ["Invalid JSON in manifest: bad"; "Invalid manifest schema: key is missing"; "argument after ** must be a mapping";
   "Manifest validation failed: Secret reference key must not reference the bootstrap secret 'kei_runtime_token'"].
Proof. reflexivity. Qed.

Lemma loaded_manifest_names_no_secret_witness : exists c,
  ex_load (jq "{'key': 'github/app'}") = Ok c /\ schema_version (manifest c) = "1.0.0".
Proof.
  destruct (ex_load (jq "{'key': 'github/app'}")) as [c|] eqn:H; [|vm_compute in H; discriminate H].
  exists c. split; [reflexivity|].
  apply (loaded_manifest_names_no_secret upper (fun _ => true) (fun _ => Ok (jq "{'key': 'github/app'}")) (fun _ => "bad") ex_parse
    "kei-harness.json" c H).
Defined.

#[local] Instance no_policy_class : PolicyEvaluator unit := fun _ _ _ u => (Ok (no_policy (DT 0 None)), u).
Definition ex_executor (tool : string) (args : jdict) (n : nat) : res exn json * nat := (Ok JNull, S n).
Definition ex_calls : list (@Contract.tool_call nat) :=
  [Contract.Build_tool_call {| c_decision := DT 0 None; c_record := DT 1 None |} "u1" "rm" [] "ana" "chan" None None None;
   Contract.Build_tool_call {| c_decision := DT 2 None; c_record := DT 3 None |} "u2" "ls" [] "ana" "chan" None
     (Some (fun _ n => (Ok JNull, S n))) None].

Lemma default_contract_denies_everything_witness :
  let c := Contract.create_tool_client (E := unit) (A := InMemoryAuditor.t)
             (Contract.new_contract (fun _ => true) (DT 0 None) ex_executor None None) "pedro" 0 in
  Forall Contract.denied (Contract.make_all ex_calls c).1 /\ AuditedToolClient.world (Contract.make_all ex_calls c).2 = 0.
Proof.
  intros c.
  pose proof (Contract.default_contract_denies_everything (E := unit) (A := InMemoryAuditor.t) (fun _ => true) (DT 0 None) ex_executor
    None None "pedro" 0 ex_calls ltac:(discriminate)) as H.
  split; [exact (proj1 H) | exact (proj1 (proj2 (proj2 H)))].
Defined.

(** The same secret, empty: refused by the token provider, skipped by the proxy. *)
Example empty_token_differs :
  (Auth.resolve [("KEI_RUNTIME_TOKEN", "s")] (Some "") None,
   Proxy.resolve_token {| Proxy.exists_ := fun _ => true; Proxy.can_execute := fun _ => true; Proxy.which := fun _ => None;
       Proxy.python_dir := ""; Proxy.cwd := ""; Proxy.windows := false; Proxy.environ := [("KEI_RUNTIME_TOKEN", "s")];
       Proxy.path_of := fun p => p; Proxy.path_join := fun a b => b |}
     {| Proxy.executable := "kei-proxy"; Proxy.port := 8080; Proxy.api_url := ""; Proxy.token := Some ""; Proxy.secret_provider := None;
        Proxy.env := []; Proxy.timeout := float_of_Z 30 |}) = (None, Ok "s").
Proof. reflexivity. Qed.

Example contract_checked :
  Contract.validate_contract (fun part =>
    if String.eqb part "auth_provider" then Some ["get_token"; "get_token_type"]
    else if String.eqb part "tool_executor" then None
    else if String.eqb part "auditor" then None else Some ["get_secret"; "evaluate"; "start"; "stop"; "is_running"]) =
  ["auth_provider must implement method invalidate()"; "tool_executor is required but not set"; "proxy_process must implement method get_url()"].
Proof. reflexivity. Qed.
End Example.
