(* ===== verification/PolicyBundle.v ===== *)
(** * Policy bundles

    [kei/policy_bundle.py]: conditions and rules, the wire format and its
    parser, evaluation by the first matching rule, persistence, and the
    lifecycle that fetches, activates and refreshes a bundle.

    Parameters: [re_match] is [re.match] on a rule's pattern ([None] when the
    pattern does not compile), [isoformat] and [fromisoformat] are those of
    [datetime], and the control plane is the [fetch] function with a state of
    its own. *)
From Stdlib Require Import ZArith Lia Ascii String SpecFloat.
From stdpp Require Import base tactics list strings.
From S2P Require Import Prelude PyStr PyFloat PyBytes Json JsonFacts Types AuditTrail Middleware.

Definition BundleFetchError : exn_class := UserError "BundleFetchError".
Definition BundleParseError : exn_class := UserError "BundleParseError".
(** [except PolicyBundleError]. *)
Definition is_bundle_error (e : exn) : bool :=
  bool_decide (exn_cls e = BundleFetchError \/ exn_cls e = BundleParseError).

(** ** Conditions and rules *)

Inductive Operator := EQ | NOT_EQ | CONTAINS | NOT_CONTAINS | MATCHES | NOT_MATCHES | EXISTS | NOT_EXISTS.
#[global] Instance Operator_eq_dec : EqDecision Operator.
Proof. solve_decision. Defined.

Definition operator_value (o : Operator) : string :=
  match o with
  | EQ => "eq" | NOT_EQ => "not_eq" | CONTAINS => "contains" | NOT_CONTAINS => "not_contains"
  | MATCHES => "matches" | NOT_MATCHES => "not_matches" | EXISTS => "exists" | NOT_EXISTS => "not_exists"
  end.

Definition _CONDITION_OPERATOR_MAP : dict Operator :=
  [("eq", EQ); ("not_eq", NOT_EQ); ("contains", CONTAINS); ("not_contains", NOT_CONTAINS);
   ("matches", MATCHES); ("not_matches", NOT_MATCHES); ("exists", EXISTS); ("not_exists", NOT_EXISTS)].

Record Condition := { c_field : string; c_operator : Operator; c_value : string }.
Record RateLimit := { rl_count : Z; rl_window : Z }.
Record Rule := {
  r_name : json;
  r_tools : list json;
  r_action : Action;
  r_conditions : list Condition;
  r_max_rate : option RateLimit;
  r_redact_fields : list json;
}.

Definition get_value (c : Condition) (args : jdict) (caller : CallerContext) : string :=
  if py_startswith "caller." (c_field c) then
    let field_name := py_removeprefix "caller." (c_field c) in
    if String.eqb field_name "role" then cc_role caller
    else if String.eqb field_name "source" then cc_source caller
    else if String.eqb field_name "trusted" then (if cc_trusted caller then "true" else "false")
    else if String.eqb field_name "user_id" then cc_user_id caller
    else if String.eqb field_name "session_id" then cc_session_id caller
    else ""
  else if py_startswith "args." (c_field c) then
    match dget args (py_removeprefix "args." (c_field c)) with
    | Some v => py_str v
    | None => ""
    end
  else "".

Definition matches_tool (r : Rule) (tool : string) : bool :=
  match r_tools r with
  | [] => true
  | tools => existsb (py_eq (JStr tool)) tools || existsb (py_eq (JStr "*")) tools
  end.

Section Evaluate.
Context (re_match : string -> string -> option bool).

Definition compare (c : Condition) (value : string) : bool :=
  match c_operator c with
  | EQ => String.eqb value (c_value c)
  | NOT_EQ => negb (String.eqb value (c_value c))
  | CONTAINS => py_in (c_value c) value
  | NOT_CONTAINS => negb (py_in (c_value c) value)
  | MATCHES => match re_match (c_value c) value with Some b => b | None => false end
  | NOT_MATCHES => match re_match (c_value c) value with Some b => negb b | None => true end
  | EXISTS => negb (String.eqb value "")
  | NOT_EXISTS => String.eqb value ""
  end.

Definition condition_evaluate (c : Condition) (args : jdict) (caller : CallerContext) : bool :=
  compare c (get_value c args caller).

Definition evaluate_conditions (r : Rule) (args : jdict) (caller : CallerContext) : bool :=
  match r_conditions r with
  | [] => true
  | cs => forallb (fun c => condition_evaluate c args caller) cs
  end.

(** An operator and its negation partition the calls, also for a pattern that
    does not compile. *)
Lemma compare_negated c1 c2 v :
  c_value c1 = c_value c2 ->
  (c_operator c1, c_operator c2) ∈ [(EQ, NOT_EQ); (CONTAINS, NOT_CONTAINS); (MATCHES, NOT_MATCHES); (EXISTS, NOT_EXISTS)] ->
  compare c2 v = negb (compare c1 v).
Proof.
  intros Hv Ho. unfold compare. rewrite Hv.
  set_unfold in Ho. destruct_or! Ho; injection Ho as -> ->; try done.
  - by destruct (re_match _ _).
  - by rewrite negb_involutive.
Qed.
End Evaluate.

(** ** The bundle and its wire format *)

Record PolicyBundleData := {
  b_rules : list Rule;
  b_version : json;
  b_bundle_id : string;
  b_default_deny : bool;
  b_expires_at : option datetime;
  b_fetched_at : datetime;
}.

Definition parse_error {A} (msg : string) : res exn A := Raise (Exn BundleParseError msg).

(** [str(raw.get(k, default)).strip().lower()]. *)
Definition wire_word (d : jdict) (k default : string) : string :=
  py_lower (py_strip (py_str (jget_or d k (JStr default)))).

Definition rule_ctx (name : json) (msg : string) : string :=
  String.append "rule " (String.append (py_repr_json name) (String.append ": " msg)).

Definition _parse_condition (rule_name : json) (raw : json) : res exn Condition :=
  match raw with
  | JObj d =>
      let field := py_str (jget_or d "field" (JStr "")) in
      if negb (py_truthy_str field) then parse_error (rule_ctx rule_name "condition is missing 'field'")
      else
        match dget _CONDITION_OPERATOR_MAP (wire_word d "operator" "eq") with
        | None => parse_error (rule_ctx rule_name "unknown condition operator")
        | Some op => Ok {| c_field := field; c_operator := op; c_value := py_str (jget_or d "value" (JStr "")) |}
        end
  | _ => parse_error (rule_ctx rule_name "condition must be a dict")
  end.

Definition action_of (s : string) : option Action :=
  if String.eqb s "allow" then Some ALLOW
  else if String.eqb s "deny" then Some DENY
  else if String.eqb s "filter" then Some FILTER
  else None.

(** The largest [timedelta], in seconds. *)
Definition max_timedelta : Z := 86399999999999.

Definition parse_max_rate (raw : json) : res exn (option RateLimit) :=
  match raw with
  | JNull => Ok None
  | JObj d =>
      count ← py_int (jget_or d "count" (JInt 0));
      window ← py_int (jget_or d "window_seconds" (JInt 60));
      if ((0 <? count) && (0 <? window))%Z then
        if (max_timedelta <? window)%Z then Raise (Exn OverflowError "days out of range")
        else Ok (Some {| rl_count := count; rl_window := window |})
      else Ok None
  | _ => attr_error "object has no attribute 'get'"
  end.

Definition _parse_rule (raw : json) : res exn Rule :=
  match raw with
  | JObj d =>
      let name := jget_or d "name" (JStr "") in
      if negb (py_truthy name) then parse_error "rule is missing 'name'"
      else
        match jget_or d "tools" (JArr []) with
        | JArr raw_tools =>
            match action_of (wire_word d "action" "deny") with
            | None => parse_error (rule_ctx name "unknown action")
            | Some action =>
                raw_conditions ← py_iter (jget_or d "conditions" (JArr []));
                conditions ← res_map (_parse_condition name) raw_conditions;
                max_rate ← parse_max_rate (jget d "max_rate");
                Ok {| r_name := name; r_tools := raw_tools; r_action := action;
                      r_conditions := conditions; r_max_rate := max_rate;
                      r_redact_fields := match jget_or d "redact_fields" (JArr []) with JArr l => l | _ => [] end |}
            end
        | _ => parse_error (rule_ctx name "'tools' must be a list")
        end
  | _ => attr_error "object has no attribute 'get'"
  end.

Definition condition_to_dict (c : Condition) : json :=
  JObj [("field", JStr (c_field c)); ("operator", JStr (operator_value (c_operator c)));
        ("value", JStr (c_value c))].

Definition _rule_to_dict (r : Rule) : json :=
  JObj [("name", r_name r);
        ("tools", JArr (r_tools r));
        ("action", JStr (action_value (r_action r)));
        ("conditions", JArr (map condition_to_dict (r_conditions r)));
        ("max_rate", match r_max_rate r with
                     | Some m => JObj [("count", JInt (rl_count m)); ("window_seconds", JInt (rl_window m))]
                     | None => JNull
                     end);
        ("redact_fields", JArr (r_redact_fields r))].

Section Bundle.
Context (re_match : string -> string -> option bool).
Context (isoformat : datetime -> string) (fromisoformat : string -> option datetime).

Definition parse_expires (raw : json) : res exn (option datetime) :=
  if py_truthy raw then
    match fromisoformat (py_str raw) with
    | Some t => Ok (Some t)
    | None => parse_error (String.append "unparseable expires_at: " (py_repr_json raw))
    end
  else Ok None.

(** [now] is [datetime.now()], the default of [fetched_at]. *)
Definition from_wire (now : datetime) (data : json) : res exn PolicyBundleData :=
  match data with
  | JObj d =>
      let version := jget_or d "version" (JStr "") in
      if negb (py_truthy version) then parse_error "bundle is missing 'version'"
      else
        expires_at ← parse_expires (jget d "expires_at");
        match jget_or d "rules" (JArr []) with
        | JArr raw_rules =>
            rules ← res_map _parse_rule raw_rules;
            Ok {| b_rules := rules; b_version := version;
                  b_bundle_id := py_str (jget_or d "bundle_id" (JStr ""));
                  b_default_deny := py_truthy (jget_or d "default_deny" (JBool true));
                  b_expires_at := expires_at; b_fetched_at := now |}
        | _ => parse_error "'rules' must be a list"
        end
  | _ => attr_error "object has no attribute 'get'"
  end.

(** [now >= expires_at]. *)
Definition is_expired (now : datetime) (b : PolicyBundleData) : res exn bool :=
  match b_expires_at b with
  | None => Ok false
  | Some e => negb <$> dt_lt now e
  end.

Definition rule_applies (tool : string) (args : jdict) (caller : CallerContext) (r : Rule) : bool :=
  matches_tool r tool && evaluate_conditions re_match r args caller.

Definition rule_decision (now : datetime) (r : Rule) : Decision :=
  {| d_action := r_action r; d_rule := r_name r;
     d_reason := String.append "matched rule " (py_str (r_name r));
     d_redacted_args := []; d_enrollment := None; d_connect := None; d_timestamp := now;
     d_reason_code := None; d_hint := None |}.

Definition default_decision (now : datetime) (b : PolicyBundleData) : Decision :=
  if b_default_deny b
  then mk_decision now DENY "default" "no matching rules and default deny is enabled"
  else mk_decision now ALLOW "default" "no matching rules and default allow is enabled".

Fixpoint evaluate_rules (now : datetime) (tool : string) (args : jdict) (caller : CallerContext)
    (b : PolicyBundleData) (rules : list Rule) : Decision :=
  match rules with
  | [] => default_decision now b
  | r :: rules' =>
      if negb (matches_tool r tool) then evaluate_rules now tool args caller b rules'
      else if negb (evaluate_conditions re_match r args caller) then evaluate_rules now tool args caller b rules'
      else rule_decision now r
  end.

Definition bundle_evaluate (now : datetime) (tool : string) (args : jdict) (caller : CallerContext)
    (b : PolicyBundleData) : Decision := evaluate_rules now tool args caller b (b_rules b).

Definition bundle_to_dict (b : PolicyBundleData) : json :=
  JObj [("version", b_version b);
        ("bundle_id", JStr (b_bundle_id b));
        ("default_deny", JBool (b_default_deny b));
        ("expires_at", match b_expires_at b with Some t => JStr (isoformat t) | None => JNull end);
        ("fetched_at", JStr (isoformat (b_fetched_at b)));
        ("rules", JArr (map _rule_to_dict (b_rules b)))].

(** [sha256_hex] is [hashlib.sha256(...).hexdigest()]. *)
Definition digest (sha256_hex : string -> string) (b : PolicyBundleData) : string :=
  py_take 16 (sha256_hex (json_dumps compact (sort_keys (bundle_to_dict b)))).
End Bundle.

(** ** Well-formed bundles, and the wire round trip *)

Definition condition_ok (c : Condition) : Prop := c_field c <> "".
Definition rate_ok (m : RateLimit) : Prop :=
  (0 < rl_count m /\ 0 < rl_window m <= max_timedelta)%Z.
Definition rule_ok (r : Rule) : Prop :=
  py_truthy (r_name r) = true /\ Forall condition_ok (r_conditions r) /\
  match r_max_rate r with Some m => rate_ok m | None => True end.
Definition bundle_ok (b : PolicyBundleData) : Prop :=
  py_truthy (b_version b) = true /\ Forall rule_ok (b_rules b).

Lemma parse_condition_ok name raw c : _parse_condition name raw = Ok c -> condition_ok c.
Proof.
  destruct raw; try done. simpl.
  destruct (py_truthy_str _) eqn:Hf; [|done]. simpl. case_match; [|done].
  intros [= <-]. unfold condition_ok. simpl. by apply py_truthy_str_true.
Qed.

Lemma parse_max_rate_ok raw m : parse_max_rate raw = Ok (Some m) -> rate_ok m.
Proof.
  destruct raw; try done. simpl. intros H. res_inv.
  destruct ((0 <? a) && (0 <? a0))%Z eqn:Hc; [|done].
  destruct (max_timedelta <? a0)%Z eqn:Hm; [done|]. py_bool. simplify_eq/=. by split.
Qed.

Lemma parse_rule_ok raw r : _parse_rule raw = Ok r -> rule_ok r.
Proof.
  destruct raw; try done. unfold _parse_rule.
  destruct (py_truthy (jget_or d "name" _)) eqn:Hn; [|done]. cbn [negb].
  destruct (jget_or d "tools" _); try done. destruct (action_of _); [|done].
  intros H. res_inv. split_and!; simpl; [done | |].
  - apply res_map_Ok in Hr0. clear -Hr0. induction Hr0; constructor; eauto using parse_condition_ok.
  - destruct a2; [|done]. by apply parse_max_rate_ok in Hr1.
Qed.

Lemma condition_roundtrip name c : condition_ok c -> _parse_condition name (condition_to_dict c) = Ok c.
Proof.
  unfold condition_ok. intros H%py_truthy_str_true. destruct c as [f o v]. simpl in *.
  change (jget_or _ "field" _) with (JStr f). simpl. rewrite H. by destruct o.
Qed.

Lemma rate_roundtrip o :
  match o with Some m => rate_ok m | None => True end ->
  parse_max_rate (match o with
    | Some m => JObj [("count", JInt (rl_count m)); ("window_seconds", JInt (rl_window m))]
    | None => JNull end) = Ok o.
Proof.
  destruct o as [[n w]|]; [|done]. intros (Hn & Hw & Hm). simpl in *.
  change (py_int (jget_or _ "count" _)) with (Ok n : res exn Z).
  change (py_int (jget_or _ "window_seconds" _)) with (Ok w : res exn Z). simpl.
  by rewrite (proj2 (Z.ltb_lt 0 n)), (proj2 (Z.ltb_lt 0 w)), (proj2 (Z.ltb_ge max_timedelta w)) by done.
Qed.

Lemma rule_roundtrip r : rule_ok r -> _parse_rule (_rule_to_dict r) = Ok r.
Proof.
  intros (Hn & Hc & Hm). destruct r as [name tools act conds rate red]. simpl in Hn, Hc, Hm.
  unfold _rule_to_dict, _parse_rule. cbn [r_name r_tools r_action r_conditions r_max_rate r_redact_fields].
  change (jget_or _ "name" _) with name. rewrite Hn. cbn [negb].
  change (jget_or _ "tools" _) with (JArr tools). cbn iota.
  change (jget_or _ "conditions" _) with (JArr (map condition_to_dict conds)).
  change (jget_or _ "redact_fields" _) with (JArr red).
  assert (Ha : action_of (wire_word [("name", name); ("tools", JArr tools); ("action", JStr (action_value act));
      ("conditions", JArr (map condition_to_dict conds));
      ("max_rate", match rate with
                   | Some m => JObj [("count", JInt (rl_count m)); ("window_seconds", JInt (rl_window m))]
                   | None => JNull end); ("redact_fields", JArr red)] "action" "deny") = Some act)
    by (by destruct act).
  rewrite Ha. simpl.
  assert (Hcs : res_map (_parse_condition name) (map condition_to_dict conds) = Ok conds).
  { apply res_map_Ok. clear -Hc. induction Hc; simpl; constructor; auto using condition_roundtrip. }
  rewrite Hcs. simpl. change (jget _ "max_rate") with
    (match rate with
     | Some m => JObj [("count", JInt (rl_count m)); ("window_seconds", JInt (rl_window m))]
     | None => JNull end).
  by rewrite rate_roundtrip.
Qed.

Section BundleFacts.
Context (re_match : string -> string -> option bool).
Context (isoformat : datetime -> string) (fromisoformat : string -> option datetime).

Lemma from_wire_ok now data b : from_wire fromisoformat now data = Ok b -> bundle_ok b.
Proof.
  destruct data; try done. unfold from_wire.
  destruct (py_truthy (jget_or d "version" _)) eqn:Hv; [|done]. cbn [negb]. intros H. res_inv.
  destruct (jget_or d "rules" _); try done. res_inv. split; simpl; [done|].
  apply res_map_Ok in Hr0. clear -Hr0. induction Hr0; constructor; eauto using parse_rule_ok.
Qed.

(** The text of the bundle's expiry reads back. *)
Definition expiry_reads (b : PolicyBundleData) : Prop :=
  forall t, b_expires_at b = Some t -> fromisoformat (isoformat t) = Some t /\ isoformat t <> "".

Definition refetched (now : datetime) (b : PolicyBundleData) : PolicyBundleData :=
  {| b_rules := b_rules b; b_version := b_version b; b_bundle_id := b_bundle_id b;
     b_default_deny := b_default_deny b; b_expires_at := b_expires_at b; b_fetched_at := now |}.

Lemma from_wire_to_dict now b : bundle_ok b -> expiry_reads b ->
  from_wire fromisoformat now (bundle_to_dict isoformat b) = Ok (refetched now b).
Proof.
  intros [Hv Hr] He. destruct b as [rules ver id dd ex fa]. simpl in Hv, Hr.
  unfold expiry_reads in He. simpl in He.
  unfold bundle_to_dict, from_wire. cbn [b_version b_rules b_bundle_id b_default_deny b_expires_at b_fetched_at].
  change (jget_or _ "version" _) with ver. rewrite Hv. cbn [negb].
  change (jget _ "expires_at") with (match ex with Some t => JStr (isoformat t) | None => JNull end).
  assert (Hex : parse_expires fromisoformat (match ex with Some t => JStr (isoformat t) | None => JNull end) = Ok ex).
  { destruct ex as [t|]; [|done]. destruct (He t eq_refl) as [H1 H2%py_truthy_str_true].
    unfold parse_expires. simpl. by rewrite H2, H1. }
  rewrite Hex. simpl. change (jget_or _ "rules" _) with (JArr (map _rule_to_dict rules)).
  assert (Hrs : res_map _parse_rule (map _rule_to_dict rules) = Ok rules).
  { apply res_map_Ok. clear -Hr. induction Hr; simpl; constructor; auto using rule_roundtrip. }
  by rewrite Hrs.
Qed.

Lemma evaluate_rules_find now tool args caller b rules :
  evaluate_rules re_match now tool args caller b rules
  = match find_first (rule_applies re_match tool args caller) rules with
    | Some r => rule_decision now r
    | None => default_decision now b
    end.
Proof.
  unfold find_first. induction rules as [|r rules IH]; [done|]. simpl. unfold rule_applies at 1.
  destruct (matches_tool r tool); simpl; [|done].
  by destruct (evaluate_conditions re_match r args caller).
Qed.

Lemma bundle_decision_unredacted now tool args caller b :
  d_redacted_args (bundle_evaluate re_match now tool args caller b) = [].
Proof.
  unfold bundle_evaluate. rewrite evaluate_rules_find. case_match; [done|].
  unfold default_decision. by destruct (b_default_deny b).
Qed.
End BundleFacts.

(** ** The transport *)

(** What one HTTP exchange comes to: a response body, a status error with its
    text, a timeout or a transport failure. *)
Inductive http_outcome :=
| HBody (body : string)
| HStatus (code : Z) (text : string)
| HTimeout
| HUnreachable (reason : string).

(** [_fetch_with_httpx], whose client decodes the texts. *)
Definition fetch_result (url timeout : string) (o : http_outcome) : res exn json :=
  match o with
  | HBody body => of_option (Exn JSONDecodeError "Expecting value") (json_loads body)
  | HStatus code text =>
      Raise (Exn BundleFetchError (String.append "Control plane returned HTTP "
        (String.append (int_str code) (String.append ": " (py_take 500 text)))))
  | HTimeout =>
      Raise (Exn BundleFetchError (String.append "Control plane timed out after "
        (String.append timeout (String.append "s: " url))))
  | HUnreachable reason => Raise (Exn BundleFetchError (String.append "Control plane unreachable: " reason))
  end.

(** The same of [urllib]: bytes, which [_fetch_with_urllib_sync] decodes. *)
Inductive urllib_outcome :=
| UBody (body : string)
| UStatus (code : Z) (body : string)
| UError (reason : string)
| UTimeout.
Definition _fetch_with_urllib_sync (url timeout : string) (o : urllib_outcome) : res exn json :=
  match o with
  | UBody body =>
      if utf8_valid false body then fetch_result url timeout (HBody body)
      else Raise (Exn (UserError "UnicodeDecodeError") "'utf-8' codec can't decode")
  | UStatus code body => fetch_result url timeout (HStatus code (decode_replace body))
  | UError reason => fetch_result url timeout (HUnreachable reason)
  | UTimeout => fetch_result url timeout HTimeout
  end.

(** [s.rstrip("/")]. *)
Fixpoint rstrip_slash (s : string) : string :=
  match s with
  | EmptyString => EmptyString
  | String a s' =>
      match rstrip_slash s' with
      | EmptyString => if Ascii.eqb a "/" then EmptyString else String a EmptyString
      | r => String a r
      end
  end.

Definition bundle_url (base_url : string) : string := String.append (rstrip_slash base_url) "/v1/policy-bundle".
Definition bundle_headers (token : string) : dict string :=
  [("Authorization", String.append "Bearer " token); ("Accept", "application/json");
   ("User-Agent", "pedro-agentware/0.1")].

(** [httpx] is the exchange when that package is installed, [urllib] the
    standard library's. *)
Definition _fetch_bundle_from_plane {F}
    (httpx : option (string -> dict string -> F -> http_outcome * F))
    (urllib : string -> dict string -> F -> urllib_outcome * F)
    (timeout base_url token : string) : eff F exn json := fun w =>
  let url := bundle_url base_url in
  match httpx with
  | Some get => let '(o, w') := get url (bundle_headers token) w in (fetch_result url timeout o, w')
  | None => let '(o, w') := urllib url (bundle_headers token) w in (_fetch_with_urllib_sync url timeout o, w')
  end.

(** ** Backoff

    [_jittered_backoff], which nothing calls; [random] is [random.random()]. *)
Definition two_to (attempt : Z) : res exn spec_float :=
  match binary_normalize f_prec f_emax 1 attempt false with
  | S754_infinity _ => Raise (Exn OverflowError "int too large to convert to float")
  | f => Ok f
  end.
Definition capped_delay (attempt : Z) (base cap : spec_float) : res exn spec_float :=
  p ← two_to attempt;
  let delay := SFmul f_prec f_emax base p in
  Ok (match float_compare delay cap with Some Lt => delay | _ => cap end).
Definition _jittered_backoff (attempt : Z) (base cap random : spec_float) : res exn spec_float :=
  delay ← capped_delay attempt base cap;
  let half := float_of_dec false 5 (-1) in
  Ok (SFmul f_prec f_emax delay (SFadd f_prec f_emax half (SFmul f_prec f_emax random half))).

(** With the default base and cap the delay before the jitter is 2^attempt
    seconds up to 60, for every attempt whose power is a float; later ones raise. *)
Lemma default_delays n : (n < 1024)%N -> exists f,
  capped_delay (Z.of_N n) (float_of_Z 1) (float_of_Z 60) = Ok f /\ SFeqb f (float_of_Z (Z.min 60 (2 ^ Z.of_N n))) = true.
Proof.
  set (same := fun n => match capped_delay (Z.of_N n) (float_of_Z 1) (float_of_Z 60) with
    | Ok f => SFeqb f (float_of_Z (Z.min 60 (2 ^ Z.of_N n))) | Raise _ => false end).
  intros Hn. assert (H : same n = true) by (apply (all_below same 1024); [vm_compute; reflexivity | exact Hn]).
  unfold same in H. destruct (capped_delay _ _ _) as [f|e]; [by exists f | done].
Qed.
Example backoff_edges :
  (is_ok (_jittered_backoff 1024 (float_of_Z 1) (float_of_Z 60) (float_of_Z 0)),
   _jittered_backoff (-1) (float_of_Z 1) (float_of_Z 60) (float_of_Z 0),
   _jittered_backoff 9 (float_of_Z 1) (float_of_Z 60) (float_of_dec false 5 (-1)))
  = (false, Ok (float_of_dec false 25 (-2)), Ok (float_of_Z 45)).
Proof. vm_compute. reflexivity. Qed.

(** ** Credentials *)

Definition environ : Type := string -> option string.
Definition env_or_empty (env : environ) (k : string) : string := default "" (env k).

Definition RUNTIME_CONTROL_PLANE_URL_ENV := "KEI_RUNTIME_CONTROL_PLANE_URL".
Definition RUNTIME_TOKEN_ENV := "KEI_RUNTIME_TOKEN".
Definition LEGACY_ABAC_URL_ENV := "ABAC_URL".
Definition LEGACY_KEI_API_URL_ENV := "KEI_API_URL".
Definition DEFAULT_REFRESH_INTERVAL_SECONDS : Z := 300.
Definition MIN_REFRESH_INTERVAL_SECONDS : Z := 30.

Definition _resolve_control_plane_url (env : environ) : res exn string :=
  match find_first py_truthy_str
          [env_or_empty env RUNTIME_CONTROL_PLANE_URL_ENV; env_or_empty env LEGACY_ABAC_URL_ENV;
           env_or_empty env LEGACY_KEI_API_URL_ENV] with
  | Some url => Ok url
  | None => Raise (Exn BundleFetchError "Control-plane URL not configured.")
  end.

Definition _resolve_runtime_token (env : environ) : res exn string :=
  if py_truthy_str (env_or_empty env RUNTIME_TOKEN_ENV) then Ok (env_or_empty env RUNTIME_TOKEN_ENV)
  else Raise (Exn BundleFetchError "Runtime token not configured.").

(** [x or resolve()], with a failed resolution leaving the attribute [None]
    (the empty string here: the code only tests its truth). *)
Definition resolve_or (given : string) (m : res exn string) : string :=
  if py_truthy_str given then given else match m with Ok s => s | Raise _ => "" end.

(** ** The lifecycle *)

(** The persisted file and whether reading or writing it fails. *)
Record Disk := { disk_file : option string; disk_unreadable : bool; disk_unwritable : bool }.

Module PolicyBundleLifecycle.
Section Lifecycle.
Context (re_match : string -> string -> option bool).
Context (isoformat : datetime -> string) (fromisoformat : string -> option datetime).
(** [str] of a [datetime]. *)
Context (dt_str : datetime -> string).
Context {F : Type} (_fetch_fn : string -> string -> eff F exn json).

(** The attributes, with the clocks and the disk an operation reads: [wall] is
    [datetime.now()], [monotonic] is [time.monotonic()] in microseconds. *)
Record t := {
  _resolved_url : string;
  _resolved_token : string;
  _bundle : option PolicyBundleData;
  _loaded : bool;
  _last_refresh_attempt : Z;
  _local_only : bool;
  _refresh_interval : Z;
  disk : Disk;
  plane : F;
  wall : datetime;
  monotonic : Z;
}.

Definition set_bundle (b : PolicyBundleData) (s : t) : t :=
  {| _resolved_url := _resolved_url s; _resolved_token := _resolved_token s; _bundle := Some b;
     _loaded := _loaded s; _last_refresh_attempt := _last_refresh_attempt s; _local_only := _local_only s;
     _refresh_interval := _refresh_interval s; disk := disk s; plane := plane s; wall := wall s;
     monotonic := monotonic s |}.
Definition set_loaded (s : t) : t :=
  {| _resolved_url := _resolved_url s; _resolved_token := _resolved_token s; _bundle := _bundle s;
     _loaded := true; _last_refresh_attempt := _last_refresh_attempt s; _local_only := _local_only s;
     _refresh_interval := _refresh_interval s; disk := disk s; plane := plane s; wall := wall s;
     monotonic := monotonic s |}.
Definition set_attempt (now : Z) (s : t) : t :=
  {| _resolved_url := _resolved_url s; _resolved_token := _resolved_token s; _bundle := _bundle s;
     _loaded := _loaded s; _last_refresh_attempt := now; _local_only := _local_only s;
     _refresh_interval := _refresh_interval s; disk := disk s; plane := plane s; wall := wall s;
     monotonic := monotonic s |}.
Definition set_disk (d : Disk) (s : t) : t :=
  {| _resolved_url := _resolved_url s; _resolved_token := _resolved_token s; _bundle := _bundle s;
     _loaded := _loaded s; _last_refresh_attempt := _last_refresh_attempt s; _local_only := _local_only s;
     _refresh_interval := _refresh_interval s; disk := d; plane := plane s; wall := wall s;
     monotonic := monotonic s |}.
Definition set_plane (f : F) (s : t) : t :=
  {| _resolved_url := _resolved_url s; _resolved_token := _resolved_token s; _bundle := _bundle s;
     _loaded := _loaded s; _last_refresh_attempt := _last_refresh_attempt s; _local_only := _local_only s;
     _refresh_interval := _refresh_interval s; disk := disk s; plane := f; wall := wall s;
     monotonic := monotonic s |}.
Definition set_clock (w : datetime) (m : Z) (s : t) : t :=
  {| _resolved_url := _resolved_url s; _resolved_token := _resolved_token s; _bundle := _bundle s;
     _loaded := _loaded s; _last_refresh_attempt := _last_refresh_attempt s; _local_only := _local_only s;
     _refresh_interval := _refresh_interval s; disk := disk s; plane := plane s; wall := w;
     monotonic := m |}.

(** [__init__] with [_resolve_credentials]: both given, or each from the
    environment; local-only when either is still missing. *)
Definition init (env : environ) (control_plane_url runtime_token : string) (refresh_interval : Z)
    (d : Disk) (f : F) (w : datetime) (m : Z) : t :=
  let both := py_truthy_str control_plane_url && py_truthy_str runtime_token in
  let url := if both then control_plane_url
             else resolve_or control_plane_url (_resolve_control_plane_url env) in
  let token := if both then runtime_token else resolve_or runtime_token (_resolve_runtime_token env) in
  {| _resolved_url := url; _resolved_token := token; _bundle := None; _loaded := false;
     _last_refresh_attempt := 0;
     _local_only := if both then false else negb (py_truthy_str url) || negb (py_truthy_str token);
     _refresh_interval := Z.max refresh_interval MIN_REFRESH_INTERVAL_SECONDS;
     disk := d; plane := f; wall := w; monotonic := m |}.

(** The write lands only when the rename does. *)
Definition _persist_bundle (b : PolicyBundleData) : eff t exn unit := fun s =>
  if disk_unwritable (disk s) then (Raise (Exn OSError "cannot write the policy bundle"), s)
  else (Ok tt, set_disk {| disk_file := Some (json_dumps (indented 2) (bundle_to_dict isoformat b));
                           disk_unreadable := disk_unreadable (disk s);
                           disk_unwritable := false |} s).

(** [None] when the file is missing, unreadable, not JSON or rejected by the
    parser with a [BundleParseError]; any other exception escapes. *)
Definition _load_bundle_from_disk (now : datetime) (d : Disk) : res exn (option PolicyBundleData) :=
  match disk_file d with
  | None => Ok None
  | Some text =>
      if disk_unreadable d then Ok None
      else match json_loads text with
           | None => Ok None
           | Some data =>
               match from_wire fromisoformat now data with
               | Ok b => Ok (Some b)
               | Raise e => if bool_decide (exn_cls e = BundleParseError) then Ok None else Raise e
               end
           end
  end.

Definition _do_fetch : eff t exn PolicyBundleData := fun s =>
  if negb (py_truthy_str (_resolved_url s)) || negb (py_truthy_str (_resolved_token s))
  then (Raise (Exn BundleFetchError "Control-plane credentials not resolved"), s)
  else
    let '(r, f) := _fetch_fn (_resolved_url s) (_resolved_token s) (plane s) in
    let s := set_plane f s in
    match r with
    | Raise e => (Raise (Exn BundleFetchError (String.append "Fetch failed: " (exn_msg e))), s)
    | Ok raw => (from_wire fromisoformat (wall s) raw, s)
    end.

(** The [try] body shared by [start] and [refresh]. *)
Definition activate : eff t exn PolicyBundleData :=
  bundle ← _do_fetch;
  _ ← eff_modify (fun s => set_loaded (set_bundle bundle s));
  _ ← _persist_bundle bundle;
  mret bundle.

Definition start : eff t exn unit := fun s =>
  if _local_only s then (Ok tt, set_loaded s)
  else
    match _load_bundle_from_disk (wall s) (disk s) with
    | Raise e => (Raise e, s)
    | Ok cached =>
        let s := match cached with Some b => set_bundle b s | None => s end in
        match activate s with
        | (Ok _, s) => (Ok tt, s)
        | (Raise e, s) =>
            if is_bundle_error e then
              (Ok tt, match _bundle s with Some _ => set_loaded s | None => s end)
            else (Raise e, s)
        end
    end.

Definition throttled (s : t) : bool :=
  (monotonic s - _last_refresh_attempt s <? MIN_REFRESH_INTERVAL_SECONDS * 1000000)%Z.

Definition refresh : eff t exn (option PolicyBundleData) := fun s =>
  if _local_only s then (Ok None, s)
  else if throttled s then (Ok (_bundle s), s)
  else
    match activate (set_attempt (monotonic s) s) with
    | (Ok b, s) => (Ok (Some b), s)
    | (Raise e, s) => if is_bundle_error e then (Ok None, s) else (Raise e, s)
    end.

(** The properties [is_loaded], [active_bundle] and [is_local_only]. *)
Definition is_loaded (s : t) : bool := _loaded s.
Definition active_bundle (s : t) : option PolicyBundleData := _bundle s.
Definition is_local_only (s : t) : bool := _local_only s.

Definition evaluate (tool : string) (args : jdict) (caller : CallerContext) : eff t exn Decision := fun s =>
  let deny rule reason := mk_decision (wall s) DENY rule reason in
  (match (if _loaded s then _bundle s else None) with
   | None =>
       Ok (if _local_only s
           then mk_decision (wall s) ALLOW "local-only" "local-only mode (no control plane configured)"
           else deny "no-bundle" "no policy bundle loaded; all tool calls denied until a valid bundle is fetched")
   | Some bundle =>
       expired ← is_expired (wall s) bundle;
       if expired : bool then
         Ok (deny "expired-bundle"
           (String.append "policy bundle version=" (String.append (py_str (b_version bundle))
             (String.append " expired at " (from_option dt_str "None" (b_expires_at bundle))))))
       else Ok (bundle_evaluate re_match (wall s) tool args caller bundle)
   end, s).

(** ** Reachable states and the gate's invariant *)

(** Time passes, the disk changes under the process, and the operations run;
    the clock of [time.monotonic] does not go back. *)
Inductive lstep : t -> t -> Prop :=
| ls_clock s w m : (monotonic s <= m)%Z -> lstep s (set_clock w m s)
| ls_disk s d : lstep s (set_disk d s)
| ls_start s : lstep s (start s).2
| ls_refresh s : lstep s (refresh s).2.

Definition inv (s : t) : Prop :=
  (_local_only s = true -> _bundle s = None) /\
  (_loaded s = true -> _local_only s = true \/ is_Some (_bundle s)) /\
  (forall b, _bundle s = Some b -> bundle_ok b).

Lemma inv_set_plane f s : inv s -> inv (set_plane f s).
Proof. done. Qed.

Lemma load_bundle_ok now d b : _load_bundle_from_disk now d = Ok (Some b) -> bundle_ok b.
Proof.
  unfold _load_bundle_from_disk. intros H. py_cases. by eapply from_wire_ok.
Qed.

Lemma do_fetch_frame s r s' : _do_fetch s = (r, s') ->
  (exists f, s' = set_plane f s) /\ (forall b, r = Ok b -> bundle_ok b).
Proof.
  unfold _do_fetch. intros H.
  destruct (_ || _); [simplify_eq; split; [exists (plane s'); by destruct s' | done]|].
  destruct (_fetch_fn _ _ _) as [[raw|e] f]; simplify_eq; (split; [by eexists|]); [|done].
  intros b. apply from_wire_ok.
Qed.

(** An activation either leaves the bundle and the flag alone or installs a
    well-formed bundle. *)
Lemma activate_spec s r s' : activate s = (r, s') ->
  _local_only s' = _local_only s /\ _last_refresh_attempt s' = _last_refresh_attempt s /\
  ((_bundle s' = _bundle s /\ _loaded s' = _loaded s /\ disk s' = disk s /\
      exists e, r = Raise e /\ (_do_fetch s).1 = Raise e) \/
   (exists b, bundle_ok b /\ _bundle s' = Some b /\ _loaded s' = true /\ (_do_fetch s).1 = Ok b /\
      (r = Ok b \/ (disk_unwritable (disk s) = true /\ exists e, r = Raise e /\ exn_cls e = OSError)))).
Proof.
  unfold activate, mbind, eff_bind. intros H.
  destruct (_do_fetch s) as [[b|e] s1] eqn:Hf; destruct (do_fetch_frame _ _ _ Hf) as [[f ->] Hb].
  - unfold eff_modify, _persist_bundle, mret, eff_ret in H. simpl in H.
    destruct (disk_unwritable (disk s)) eqn:Hw; injection H as <- <-; (split; [done|]; split; [done|]; right);
      exists b; (split_and!; [by apply Hb | done..|]); [right|by left]. split; [done|]. by eexists.
  - simplify_eq/=. split; [done|]. split; [done|]. left. split_and!; eauto.
Qed.

Lemma inv_activate s r s' : inv s -> _local_only s = false -> activate s = (r, s') -> inv s'.
Proof.
  intros (Hl & Hld & Hok) Hlo H. apply activate_spec in H as (Hlo' & _ & [(Hb & Hl' & _)|(b & Hb & Hb' & _)]).
  - unfold inv. by rewrite Hlo', Hb, Hl'.
  - unfold inv. rewrite Hlo', Hlo, Hb'. split_and!; [done | eauto | by intros ? [= <-]].
Qed.

Lemma inv_set_bundle b s : inv s -> _local_only s = false -> bundle_ok b -> inv (set_bundle b s).
Proof.
  intros (Hl & Hld & Hok) Hlo Hb. unfold inv. simpl. rewrite Hlo.
  split_and!; [done | eauto | by intros ? [= <-]].
Qed.

Lemma inv_set_loaded s : inv s -> (_local_only s = true \/ is_Some (_bundle s)) -> inv (set_loaded s).
Proof. intros (Hl & Hld & Hok) H. split_and!; auto. Qed.

Lemma inv_step s s' : inv s -> lstep s s' -> inv s'.
Proof.
  intros Hi Hs. destruct Hs as [s w m Hm|s d|s|s]; [done | done | |].
  - unfold start. destruct (_local_only s) eqn:Hlo; [apply inv_set_loaded; auto|].
    destruct (_load_bundle_from_disk _ _) as [[b|]|e] eqn:Hd; [| |done].
    + assert (H1 : inv (set_bundle b s)) by eauto using inv_set_bundle, load_bundle_ok.
      destruct (activate (set_bundle b s)) as [r s1] eqn:Ha.
      pose proof (inv_activate _ _ _ H1 Hlo Ha) as H2. destruct r; [done|].
      destruct (is_bundle_error e); [|done]. simpl.
      destruct (_bundle s1) eqn:Hb; [|done]. apply inv_set_loaded; [done|]. rewrite Hb. eauto.
    + destruct (activate s) as [r s1] eqn:Ha.
      pose proof (inv_activate _ _ _ Hi Hlo Ha) as H2. destruct r; [done|].
      destruct (is_bundle_error e); [|done]. simpl.
      destruct (_bundle s1) eqn:Hb; [|done]. apply inv_set_loaded; [done|]. rewrite Hb. eauto.
  - unfold refresh. destruct (_local_only s) eqn:Hlo; [done|]. destruct (throttled s); [done|].
    destruct (activate _) as [r s1] eqn:Ha.
    assert (H1 : inv (set_attempt (monotonic s) s)) by done.
    pose proof (inv_activate _ _ _ H1 Hlo Ha) as H2. destruct r; [done|]. by destruct (is_bundle_error e).
Qed.

Lemma inv_init env url tok ri d f w m : inv (init env url tok ri d f w m).
Proof. by split_and!. Qed.

Lemma inv_reachable env url tok ri d f w m s : steps lstep (init env url tok ri d f w m) s -> inv s.
Proof. apply steps_invariant; [apply inv_step | apply inv_init]. Qed.

Lemma local_only_step s s' : lstep s s' -> _local_only s' = _local_only s.
Proof.
  intros [| |s0|s0]; try done.
  - unfold start. destruct (_local_only s0) eqn:Hlo; [done|].
    destruct (_load_bundle_from_disk _ _) as [c|e]; [|done].
    set (s1 := match c with Some b => set_bundle b s0 | None => s0 end).
    assert (H1 : _local_only s1 = _local_only s0) by (by destruct c).
    destruct (activate s1) as [r s2] eqn:Ha. apply activate_spec in Ha as (Ha & _).
    destruct r; simpl; [congruence|]. destruct (is_bundle_error e); simpl; [|congruence].
    destruct (_bundle s2); simpl; congruence.
  - unfold refresh. destruct (_local_only s0) eqn:Hlo; [done|]. destruct (throttled s0); [done|].
    destruct (activate _) as [r s1] eqn:Ha. apply activate_spec in Ha as (Ha & _). simpl in Ha.
    destruct r; simpl; [congruence|]. destruct (is_bundle_error e); simpl; congruence.
Qed.

Lemma local_only_reachable s s' : steps lstep s s' -> _local_only s' = _local_only s.
Proof. induction 1; [done|]. erewrite local_only_step by done. done. Qed.


(** ** What the gate lets through *)

(** C1: the gate fails closed.  In every reachable state a call that is not
    denied is let through by local-only mode or by the active bundle: parsed,
    unexpired, and with the decision's action on its first rule that applies
    (or with default-deny off when none does). *)
Theorem gate_fails_closed env url tok ri dk f w m s tool args caller d s' :
  steps lstep (init env url tok ri dk f w m) s ->
  evaluate tool args caller s = (Ok d, s') -> d_action d <> DENY ->
  _local_only s = true \/
  exists b, _loaded s = true /\ _bundle s = Some b /\ bundle_ok b /\ is_expired (wall s) b = Ok false /\
    match find_first (rule_applies re_match tool args caller) (b_rules b) with
    | Some r => d_action d = r_action r
    | None => b_default_deny b = false
    end.
Proof.
  intros Hr He Hd. apply inv_reachable in Hr as (_ & _ & Hok). unfold evaluate in He.
  destruct (if _loaded s then _bundle s else None) as [b|] eqn:Hb.
  - right. destruct (_loaded s); [|done]. exists b. injection He as He <-.
    destruct (is_expired (wall s) b) as [[]|] eqn:Hx; simplify_eq/=; try done.
    split_and!; auto. unfold bundle_evaluate in Hd |- *. rewrite evaluate_rules_find in Hd |- *.
    case_match; [done|]. unfold default_decision in Hd. by destruct (b_default_deny b).
  - left. destruct (_local_only s); [done|]. by simplify_eq/=.
Qed.

(** A control-plane URL without a token (or the reverse) is local-only mode:
    every call of every reachable state is allowed, rather than the missing
    credential being reported. *)
Lemma missing_token_opens_the_gate env url tok ri dk f w m s tool args caller :
  py_truthy_str tok = false -> env_or_empty env RUNTIME_TOKEN_ENV = "" ->
  steps lstep (init env url tok ri dk f w m) s ->
  exists d, evaluate tool args caller s = (Ok d, s) /\ d_action d = ALLOW.
Proof.
  intros Ht Hn Hr. pose proof (inv_reachable _ _ _ _ _ _ _ _ _ Hr) as (Hl & _).
  assert (Hlo : _local_only s = true).
  { rewrite (local_only_reachable _ _ Hr). simpl. unfold resolve_or, _resolve_runtime_token.
    rewrite Ht, Hn, andb_false_r. simpl. by rewrite orb_true_r. }
  unfold evaluate. rewrite (Hl Hlo), Hlo. destruct (_loaded s); eauto.
Qed.

(** A refresh is throttled, keeps the active bundle when the control plane
    fails it, and installs exactly the bundle it fetched otherwise (also when
    writing the cache file raises). *)
Lemma refresh_outcome s r s' :
  _local_only s = false -> refresh s = (r, s') ->
  (throttled s = true -> r = Ok (_bundle s) /\ s' = s) /\
  (throttled s = false ->
     _last_refresh_attempt s' = monotonic s /\
     match (_do_fetch (set_attempt (monotonic s) s)).1 with
     | Raise e => _bundle s' = _bundle s /\ _loaded s' = _loaded s /\
                  r = (if is_bundle_error e then Ok None else Raise e)
     | Ok b => _bundle s' = Some b /\ _loaded s' = true /\
               (disk_unwritable (disk s) = false -> r = Ok (Some b))
     end).
Proof.
  unfold refresh. intros Hlo H. rewrite Hlo in H. destruct (throttled s).
  { simplify_eq. by split. }
  split; [done|]. intros _. destruct (activate _) as [r1 s1] eqn:Ha.
  apply activate_spec in Ha as (_ & Hat & [(Hb & Hl & _ & e & -> & ->)|(b & _ & Hb & Hl & -> & Hr)]).
  - simpl in *. destruct (is_bundle_error e); simplify_eq; auto.
  - simpl in Hat, Hr. assert (Hs : s' = s1).
    { destruct r1; [by simplify_eq|]. by destruct (is_bundle_error e); simplify_eq. }
    subst s'. split; [done|]. split_and!; [done..|]. intros Hw.
    destruct Hr as [->|[Hw' _]]; [by simplify_eq | congruence].
Qed.
End Lifecycle.
Arguments t : clear implicits.

(** C11: a bundle written to disk is read back whole: same rules, version,
    default and expiry, with [fetched_at] set to the time of the load. *)
Theorem persisted_bundle_loads {F} isoformat fromisoformat (b : PolicyBundleData) (s s' : t F) (now : datetime) :
  bundle_ok b -> expiry_reads isoformat fromisoformat b -> json_ok (bundle_to_dict isoformat b) = true ->
  disk_unreadable (disk s) = false ->
  _persist_bundle isoformat b s = (Ok tt, s') ->
  _load_bundle_from_disk fromisoformat now (disk s') = Ok (Some (refetched now b)).
Proof.
  intros Hb He Hj Hr H. unfold _persist_bundle in H. destruct (disk_unwritable (disk s)); [done|].
  simplify_eq/=. unfold _load_bundle_from_disk. simpl. rewrite Hr, loads_dumps by eauto with py.
  by rewrite from_wire_to_dict.
Qed.

(** ** The gate behind the middleware *)

Section Gate.
Context (re_match : string -> string -> option bool) (dt_str : datetime -> string) {F A : Type}
  `{!Auditor A, !AuditorLaws A}.

#[local] Instance gate : PolicyEvaluator (t F) := evaluate re_match dt_str.

(** No bundle is active and the lifecycle is not local-only. *)
Definition closed (s : t F) : Prop :=
  _local_only s = false /\ (_loaded s = false \/ _bundle s = None).

Lemma evaluate_closed tool args caller s : closed s ->
  evaluate re_match dt_str tool args caller s
  = (Ok (mk_decision (wall s) DENY "no-bundle"
          "no policy bundle loaded; all tool calls denied until a valid bundle is fetched"), s).
Proof. intros [Hl [Hb|Hb]]; unfold evaluate; rewrite Hb, Hl; [done | by destruct (_loaded s)]. Qed.

Lemma evaluate_frame tool args caller (s : t F) : (evaluate re_match dt_str tool args caller s).2 = s.
Proof. done. Qed.

Lemma evaluate_unredacted tool args caller (s : t F) d s' :
  evaluate re_match dt_str tool args caller s = (Ok d, s') -> d_redacted_args d = [].
Proof.
  unfold evaluate. destruct (if _loaded s then _bundle s else None) as [b|].
  - destruct (is_expired _ b) as [[]|]; intros [= <- _]; [done | apply bundle_decision_unredacted].
  - intros [= <- _]. by destruct (_local_only s).
Qed.

(** Before a first bundle is active nothing runs.  A middleware whose
    evaluator is a closed gate answers every call of every sequence with the
    gate's denial, leaves the executor alone, and records each call. *)
Lemma nothing_runs_before_a_bundle {X} (exec : string -> jdict -> eff X exn tool_result)
    (calls : list MiddlewareImpl.call) (m : MiddlewareImpl.t (t F) A X) (s : t F) (a : A) :
  MiddlewareImpl._evaluator m = Some s -> closed s -> MiddlewareImpl._auditor m = Some a ->
  let '(rs, m') := MiddlewareImpl.run exec calls m in
  MiddlewareImpl._executor m' = MiddlewareImpl._executor m /\
  Forall (fun r => r = Ok (JNull, false, "denied by policy: no policy bundle loaded; all tool calls denied until a valid bundle is fetched")) rs /\
  length rs = length calls /\
  exists a', MiddlewareImpl._auditor m' = Some a' /\ length (aud_log a') = length (aud_log a) + length calls.
Proof.
  revert m a. induction calls as [|k calls IH]; intros m a He Hc Ha.
  { simpl. split_and!; [done | constructor | done |]. exists a. split; [done | lia]. }
  cbn [MiddlewareImpl.run].
  pose proof (MiddlewareImpl.execute_unfold exec (MiddlewareImpl.k_clock k) (MiddlewareImpl.k_tool k)
    (MiddlewareImpl.k_args k) (MiddlewareImpl.k_caller k) (MiddlewareImpl.k_framework k) m a Ha) as Hu.
  destruct (MiddlewareImpl.execute _ _ _ _ _ _ m) as [r m1].
  unfold MiddlewareImpl.decide_call in Hu. rewrite He in Hu.
  unfold pe_evaluate, gate in Hu. rewrite evaluate_closed in Hu by done. cbn in Hu. destruct Hu as [-> ->].
  set (m2 := MiddlewareImpl.with_auditor _ _). set (en := audit_entry _ _ _ _ _ _) in m2.
  specialize (IH m2 (aud_record en a).2 eq_refl Hc eq_refl).
  destruct (MiddlewareImpl.run exec calls m2) as [rs m']. destruct IH as (Hx & Hrs & Hlen & a' & Ha' & Hl).
  split_and!; [by rewrite Hx | by constructor | by simpl; rewrite Hlen |].
  exists a'. split; [done|]. rewrite Hl, aud_record_log, length_app. simpl. lia.
Qed.

(** A bundle's redactions are not enforced: whatever its rules say,
    [redact_fields] included, every call a middleware behind the gate executes
    is executed with the arguments it was made with. *)
Lemma bundle_never_redacts (respond : string -> jdict -> res exn tool_result)
    (calls : list MiddlewareImpl.call) (m : MiddlewareImpl.t (t F) A (list (string * jdict))) (s : t F) (a : A) :
  MiddlewareImpl._evaluator m = Some s -> MiddlewareImpl._auditor m = Some a ->
  forall x, x ∈ MiddlewareImpl._executor (MiddlewareImpl.run (MiddlewareImpl.logging respond) calls m).2 ->
  x ∈ MiddlewareImpl._executor m \/
  exists k, k ∈ calls /\ x = (MiddlewareImpl.k_tool k, MiddlewareImpl.k_args k).
Proof.
  revert m a. induction calls as [|k calls IH]; intros m a He Ha x Hx; [by left|].
  cbn [MiddlewareImpl.run] in Hx.
  pose proof (MiddlewareImpl.execute_unfold (MiddlewareImpl.logging respond) (MiddlewareImpl.k_clock k)
    (MiddlewareImpl.k_tool k) (MiddlewareImpl.k_args k) (MiddlewareImpl.k_caller k)
    (MiddlewareImpl.k_framework k) m a Ha) as Hu.
  destruct (MiddlewareImpl.execute _ _ _ _ _ _ m) as [r m1].
  unfold MiddlewareImpl.decide_call in Hu. rewrite He in Hu. unfold pe_evaluate, gate in Hu.
  destruct (evaluate re_match dt_str _ _ _ s) as [r0 s0] eqn:Hev.
  assert (s0 = s) as -> by (pose proof (evaluate_frame (MiddlewareImpl.k_tool k) (MiddlewareImpl.k_args k)
    (MiddlewareImpl.k_caller k) s) as Hf; by rewrite Hev in Hf).
  assert (Hm1 : MiddlewareImpl._evaluator m1 = Some s /\ (exists a1, MiddlewareImpl._auditor m1 = Some a1) /\
    (x ∈ MiddlewareImpl._executor m1 -> x ∈ MiddlewareImpl._executor m \/
       x = (MiddlewareImpl.k_tool k, MiddlewareImpl.k_args k))).
  { destruct r0 as [d|e].
    - assert (He' : effective_args d (MiddlewareImpl.k_args k) = MiddlewareImpl.k_args k).
      { unfold effective_args. rewrite (evaluate_unredacted _ _ _ _ _ _ Hev). by rewrite andb_false_r. }
      case_bool_decide.
      + destruct Hu as [_ ->]. cbn. split_and!; eauto.
      + unfold MiddlewareImpl.logging in Hu. rewrite He' in Hu. injection Hu as _ ->. cbn.
        split_and!; [done | eauto | set_solver].
    - destruct Hu as [_ ->]. cbn. split_and!; eauto. }
  destruct Hm1 as (He1 & (a1 & Ha1) & Hx1).
  destruct (MiddlewareImpl.run _ calls m1) as [rs m'] eqn:Hrun. simpl in Hx.
  specialize (IH m1 a1 He1 Ha1 x). rewrite Hrun in IH. simpl in IH.
  destruct (IH Hx) as [H|(k' & Hk & ->)]; [|right; exists k'; set_solver].
  destruct (Hx1 H) as [? | ->]; [by left|]. right. exists k. set_solver.
Qed.
End Gate.
End PolicyBundleLifecycle.

(** ** Concrete bundles *)
Module PolicyBundleExamples.
Import PolicyBundleLifecycle.

Definition wire : json :=
  JObj [("version", JStr "v7"); ("bundle_id", JStr "b1"); ("default_deny", JBool true);
        ("expires_at", JStr "2030-01-01T00:00:00");
        ("rules", JArr [
           JObj [("name", JStr "mask"); ("tools", JArr [JStr "mail"]); ("action", JStr " Filter ");
                 ("redact_fields", JArr [JStr "to"]); ("max_rate", JObj [("count", JInt 3)])];
           JObj [("name", JStr "read"); ("tools", JArr [JStr "ls"]); ("action", JStr "allow");
                 ("conditions", JArr [JObj [("field", JStr "caller.role"); ("value", JStr "dev")]])]])].

(** A [datetime] codec for the one instant the examples use. *)
Definition ex_time : datetime := DT 1893456000000000 None.
Definition iso (t : datetime) : string := if decide (t = ex_time) then "2030-01-01T00:00:00" else "1970-01-01T00:00:00".
Definition from_iso (s : string) : option datetime :=
  if String.eqb s "2030-01-01T00:00:00" then Some ex_time else None.
Definition re_any (_ _ : string) : option bool := Some true.

Definition fetch_ok (_ _ : string) : eff nat exn json := fun n => (Ok wire, S n).
Definition fetch_down (_ _ : string) : eff nat exn json := fun n => (Raise (Exn OSError "no route"), S n).
Definition env0 : environ := fun _ => None.
Definition empty_disk : Disk := {| disk_file := None; disk_unreadable := false; disk_unwritable := false |}.

Definition fresh : t nat := init env0 "https://plane" "tok" 300 empty_disk 0 (DT 0 None) 60000000.
Definition dev : CallerContext := AuditedToolClient.entry_caller "ana" "chan" None "cli".
Definition dev_role : CallerContext :=
  {| cc_user_id := "ana"; cc_session_id := "s"; cc_role := "dev"; cc_source := ""; cc_trusted := false;
     cc_metadata := []; cc_invoking_subject := "ana"; cc_parent_span := ""; cc_delegation_depth := 0;
     cc_span_id := ""; cc_agent_version := ""; cc_framework := ""; cc_workspace_id := "" |}.

Definition started : t nat := (start iso from_iso fetch_ok fresh).2.

Definition parsed : PolicyBundleData :=
  match from_wire from_iso (DT 0 None) wire with
  | Ok b => b
  | Raise _ => Build_PolicyBundleData [] JNull "" true None (DT 0 None)
  end.

Example parsed_rules : map (fun r => (r_action r, r_redact_fields r, r_max_rate r)) (b_rules parsed)
  = [(FILTER, [JStr "to"], Some {| rl_count := 3; rl_window := 60 |}); (ALLOW, [], None)].
Proof. vm_compute. reflexivity. Qed.

Lemma gate_fails_closed_witness :
  _local_only started = true \/
  exists b, _loaded started = true /\ _bundle started = Some b /\ bundle_ok b /\
    is_expired (wall started) b = Ok false /\
    match find_first (rule_applies re_any "ls" [] dev_role) (b_rules b) with
    | Some r => ALLOW = r_action r
    | None => b_default_deny b = false
    end.
Proof.
  apply (gate_fails_closed re_any iso from_iso iso fetch_ok env0 "https://plane" "tok" 300 empty_disk 0
    (DT 0 None) 60000000 started "ls" [] dev_role
    {| d_action := ALLOW; d_rule := JStr "read"; d_reason := "matched rule read"; d_redacted_args := [];
       d_enrollment := None; d_connect := None; d_timestamp := DT 0 None; d_reason_code := None; d_hint := None |}
    started).
  - eapply steps_snoc; [apply steps_refl | apply ls_start].
  - vm_compute. reflexivity.
  - discriminate.
Defined.

Lemma missing_token_opens_the_gate_witness :
  exists d, evaluate re_any iso "rm" [] dev
      (init env0 "https://plane" "" 300 empty_disk 0 (DT 0 None) 60000000)
    = (Ok d, init env0 "https://plane" "" 300 empty_disk 0 (DT 0 None) 60000000) /\ d_action d = ALLOW.
Proof.
  apply (missing_token_opens_the_gate re_any iso from_iso iso fetch_ok env0 "https://plane" "" 300
    empty_disk 0 (DT 0 None) 60000000); [reflexivity | reflexivity | apply steps_refl].
Defined.

Lemma refresh_outcome_witness :
  let s := set_clock (DT 0 None) 90000000 (set_attempt 60000000 started) in
  let '(r, s') := refresh iso from_iso fetch_down s in
  r = Ok None /\ _bundle s' = _bundle started /\ _last_refresh_attempt s' = 90000000%Z.
Proof.
  intros s. destruct (refresh iso from_iso fetch_down s) as [r s'] eqn:H.
  destruct (refresh_outcome iso from_iso fetch_down s r s' eq_refl H) as [_ H2].
  destruct (H2 eq_refl) as (H3 & H4 & H5 & H6).
  split; [exact H6 | split; [exact H4 | exact H3]].
Defined.

Lemma persisted_bundle_loads_witness :
  _load_bundle_from_disk from_iso (DT 5 None) (disk (_persist_bundle iso parsed fresh).2)
  = Ok (Some (refetched (DT 5 None) parsed)).
Proof.
  apply (persisted_bundle_loads iso from_iso parsed fresh (_persist_bundle iso parsed fresh).2 (DT 5 None)).
  - split; [reflexivity|]. repeat constructor; discriminate.
  - intros u H. vm_compute in H. injection H as <-. split; [reflexivity | discriminate].
  - vm_compute. reflexivity.
  - reflexivity.
  - reflexivity.
Defined.

Definition example_calls : list MiddlewareImpl.call :=
  [MiddlewareImpl.example_call "ls" []; MiddlewareImpl.example_call "mail" [("to", JStr "a@b")]].
Definition gated (s : t nat) : MiddlewareImpl.t (t nat) InMemoryAuditor.t (list (string * jdict)) :=
  MiddlewareImpl.with_auditor InMemoryAuditor.init
    (MiddlewareImpl.with_policy s (MiddlewareImpl.new_middleware [])).

Lemma nothing_runs_before_a_bundle_witness :
  let '(rs, m') := MiddlewareImpl.run (H := gate re_any iso)
     (MiddlewareImpl.logging (fun _ _ => Ok (JNull, true, ""))) example_calls (gated fresh) in
  MiddlewareImpl._executor m' = [] /\ length rs = 2.
Proof.
  pose proof (nothing_runs_before_a_bundle re_any iso (MiddlewareImpl.logging (fun _ _ => Ok (JNull, true, "")))
    example_calls (gated fresh) fresh InMemoryAuditor.init eq_refl
    (conj eq_refl (or_introl eq_refl)) eq_refl) as H.
  exact (conj (proj1 H) (proj1 (proj2 (proj2 H)))).
Defined.

(** The [mask] rule filters [mail] and names [to] for redaction; the executor
    still receives the address. *)
Lemma bundle_never_redacts_witness :
  let log := MiddlewareImpl._executor (MiddlewareImpl.run (H := gate re_any iso)
     (MiddlewareImpl.logging (fun _ _ => Ok (JNull, true, ""))) example_calls (gated started)).2 in
  ("mail", [("to", JStr "a@b")]) ∈ log /\
  (forall x, x ∈ log -> x ∈ @nil (string * jdict) \/
     exists k, k ∈ example_calls /\ x = (MiddlewareImpl.k_tool k, MiddlewareImpl.k_args k)).
Proof.
  split.
  - vm_compute. apply list_elem_of_here.
  - exact (bundle_never_redacts re_any iso (fun _ _ => Ok (JNull, true, "")) example_calls (gated started)
      started InMemoryAuditor.init eq_refl eq_refl).
Defined.
End PolicyBundleExamples.
