(* ===== verification/KeiEvaluator.v ===== *)
(** * Authorization by kei-proxy

    [kei/evaluator.py] ([KeiProxyEvaluator]: the request, the coercion of an
    answer and its translation into a decision) and [kei/authorize_client.py]
    ([KeiProxyAuthorizeClient]: the environment, the command line, the pin on
    the executable and the exit-code contract).

    Parameters: the client the evaluator is given (its calls act on a state of
    their own), [sha256_hex], the file system the pin is proved against and the
    process that is spawned.  A client's answer is decoded text: decoding with
    [errors="replace"] is the identity on valid UTF-8. *)
From Stdlib Require Import ZArith Lia Ascii String SpecFloat.
From stdpp Require Import base tactics list strings.
From S2P Require Import Prelude PyStr PyFloat PyBytes Json JsonFacts Types AuditTrail Middleware.

Definition AFFIRMATIVE_DECISIONS : list string := ["permit"; "allow"].

Definition REASON_CLASSES : list string :=
  ["allow"; "deny"; "enrollment_required"; "unknown_decision"; "no_decision"; "malformed_response";
   "empty_response"; "proxy_error"; "exit_mismatch"; "proxy_unavailable"; "proxy_timeout";
   "missing_token"; "pin_mismatch"].

(** What a client raises: [KeiProxyAuthorizeError], or anything else with its text. *)
Inductive client_error :=
| KeiProxyAuthorizeError (reason_class detail : string)
| OtherException (msg : string).

(** What a client returns: a decoded value, an object with attributes, or an
    object whose attributes cannot be read. *)
Inductive client_result :=
| RJson (v : json)
| RObject (attrs : jdict)
| RUnreadable (msg : string).

Record AuthorizationResponse := {
  a_decision : string;
  a_reason : option string;
  a_policy_id : option string;
  a_enrollment : option jdict;
  a_connect : option jdict;
  a_reason_code : option string;
  a_hint : option string;
}.
Definition empty_response : AuthorizationResponse :=
  Build_AuthorizationResponse "" None None None None None None.

Definition _as_optional_str (v : json) : option string :=
  match v with
  | JNull => None
  | _ => let text := py_str v in if py_truthy_str text then Some text else None
  end.

Definition as_dict (v : json) : option jdict := match v with JObj d => Some d | _ => None end.

(** [read(name)]: a key of a mapping, an attribute of an object; the other
    decoded values have none of the attributes read. *)
Definition read (r : client_result) (name : string) : json :=
  match r with
  | RJson (JObj d) => jget d name
  | RObject attrs => jget attrs name
  | _ => JNull
  end.

Definition from_result (r : client_result) : res string AuthorizationResponse :=
  match r with
  | RUnreadable msg => Raise msg
  | RJson JNull => Ok empty_response
  | _ =>
      let policy_id := match read r "policy_id" with JNull => read r "policy" | p => p end in
      Ok {| a_decision := match read r "decision" with JNull => "" | d => py_str d end;
            a_reason := _as_optional_str (read r "reason");
            a_reason_code := _as_optional_str (read r "reason_code");
            a_hint := _as_optional_str (read r "hint");
            a_policy_id := _as_optional_str policy_id;
            a_enrollment := as_dict (read r "enrollment");
            a_connect := as_dict (read r "connect") |}
  end.

Definition _reason (cls : string) (detail : option string) : string :=
  let head := String.append "kei-proxy " cls in
  match detail with
  | Some d => if py_truthy_str d then String.append head (String.append ": " d) else head
  | None => head
  end.

(** ** The resources a call names *)

(** [a or b]. *)
Definition json_or (a b : json) : json := if py_truthy a then a else b.

Definition resource_type (tool_name : string) : string :=
  py_lower (py_before "_" (py_before "." tool_name)).

Definition add (rtype kind : string) (identifier : json) (touched : list string) : list string :=
  match identifier with
  | JNull => touched
  | _ =>
      let value := py_strip (py_str identifier) in
      if py_truthy_str value then
        let entry := String.append rtype (String.append ":" (String.append kind (String.append ":" value))) in
        if str_in entry touched then touched else touched ++ [entry]
      else touched
  end.

Definition resources_touched (tool_name : string) (args : jdict) : list string :=
  let rtype := resource_type tool_name in
  if negb (py_truthy_str rtype) then []
  else
    let owner := jget args "owner" in
    let repo := json_or (jget args "repo") (jget args "repository") in
    let t0 := if py_truthy owner && py_truthy repo
              then add rtype "repo" (JStr (String.append (py_str owner) (String.append "/" (py_str repo)))) []
              else if py_truthy repo then add rtype "repo" repo []
              else [] in
    let t1 := add rtype "issue" (jget args "issue_number") t0 in
    let t2 := add rtype "pull_request" (json_or (jget args "pull_number") (jget args "pr_number")) t1 in
    let t3 := add rtype "branch" (json_or (jget args "branch") (jget args "ref")) t2 in
    add rtype "file" (json_or (jget args "path") (jget args "file_path")) t3.

(** ** The authorization request *)

Record AuthContext := {
  x_span_id : string;
  x_invoking_subject : string;
  x_parent_span : string;
  x_delegation_depth : Z;
  x_agent_version : string;
  x_framework : string;
  x_tool_args_digest : string;
  x_resources : list string;
  x_workspace_id : string;
}.

Record AuthRequest := { q_user_id : string; q_tool : string; q_action : string; q_resource : string }.

(** An authorization client: which call shapes [inspect.signature] says its
    [authorize] accepts ([None]: it has no signature), and the call itself,
    without the context for a client of the minimal shape. *)
Class AuthorizationClient (C : Type) := {
  sig_binds : option (bool * bool);
  authorize : AuthRequest -> option AuthContext -> eff C client_error client_result;
}.

Module KeiProxyEvaluator.
Section Evaluator.
Context (sha256_hex : string -> string).
Context {C : Type} `{AuthorizationClient C}.

Record t := { _client : C; _default_action : string; now : datetime }.

Definition set_client (c : C) (e : t) : t :=
  {| _client := c; _default_action := _default_action e; now := now e |}.

Definition tool_args_digest (args : jdict) : string :=
  sha256_hex (json_dumps compact (sort_keys (JObj args))).

Definition audit_context (user_id : string) (caller : CallerContext) (resources : list string)
    (args : jdict) : AuthContext :=
  {| x_span_id := cc_span_id caller;
     x_invoking_subject := user_id;
     x_parent_span := cc_parent_span caller;
     x_delegation_depth := cc_delegation_depth caller;
     x_agent_version := str_or (cc_agent_version caller) (dget_or (cc_metadata caller) "agent_version" "");
     x_framework := str_or (cc_framework caller) (cc_source caller);
     x_tool_args_digest := tool_args_digest args;
     x_resources := resources;
     x_workspace_id := str_or (cc_workspace_id caller) (dget_or (cc_metadata caller) "workspace_id" "") |}.

(** The call shape is chosen before the call is made, so that a client is never
    called twice for one request. *)
Definition _authorize (q : AuthRequest) (x : AuthContext) : eff C client_error client_result :=
  match sig_binds with
  | None => authorize q (Some x)
  | Some (true, _) => authorize q (Some x)
  | Some (false, true) => authorize q None
  | Some (false, false) => eff_raise (OtherException "missing a required argument")
  end.

Definition _decision (e : t) (action : Action) (reason : string) (policy_id : option string)
    (enrollment connect : option jdict) (reason_code hint : option string) : Decision :=
  {| d_action := action;
     d_rule := JStr (str_or (default "" policy_id) "kei-proxy");
     d_reason := reason;
     d_redacted_args := [];
     d_enrollment := enrollment;
     d_connect := connect;
     d_timestamp := now e;
     d_reason_code := reason_code;
     d_hint := hint |}.

Definition deny_error (e : t) (reason : string) : Decision := _decision e DENY reason None None None None None.

(** The request built for a tool call. *)
Definition request (e : t) (tool : string) (args : jdict) (caller : CallerContext) : AuthRequest :=
  {| q_user_id := str_or (cc_invoking_subject caller) (cc_user_id caller);
     q_tool := tool;
     q_action := py_str (json_or (jget args "action") (JStr (_default_action e)));
     q_resource := match resources_touched tool args with r :: _ => r | [] => tool end |}.

Definition normal_decision (r : AuthorizationResponse) : string := py_lower (py_strip (a_decision r)).

(** The translation of a readable answer. *)
Definition translate (e : t) (response : AuthorizationResponse) : Decision :=
  let decision := normal_decision response in
  if str_in decision AFFIRMATIVE_DECISIONS then
    _decision e ALLOW (_reason "allow" (a_reason response)) (a_policy_id response) None None
      (a_reason_code response) (a_hint response)
  else
    let '(reason_class, detail, enrollment, connect) :=
      if negb (py_truthy_str decision) then ("no_decision", None, None, None)
      else if String.eqb decision "deny" then
        ("deny", a_reason response, a_enrollment response, a_connect response)
      else if String.eqb decision "enrollment_required" then
        ("enrollment_required",
         Some (str_or (default "" (a_reason response)) "enrollment is required before this call"),
         a_enrollment response, a_connect response)
      else
        ("unknown_decision",
         Some (String.append (py_repr decision)
           (match a_reason response with
            | Some r => if py_truthy_str r then String.append " (" (String.append r ")") else ""
            | None => ""
            end)), None, None) in
    _decision e DENY (_reason reason_class detail) (a_policy_id response) enrollment connect
      (a_reason_code response) (a_hint response).

Definition evaluate (tool : string) (args : jdict) (caller : CallerContext) : eff t exn Decision := fun e =>
  let q := request e tool args caller in
  let '(r, c) := _authorize q (audit_context (q_user_id q) caller (resources_touched tool args) args) (_client e) in
  let e := set_client c e in
  (Ok match r with
      | Raise (KeiProxyAuthorizeError cls detail) => deny_error e (_reason cls (Some detail))
      | Raise (OtherException msg) =>
          deny_error e (_reason "proxy_error" (Some (String.append "authorize failed: " msg)))
      | Ok raw =>
          match from_result raw with
          | Raise msg =>
              deny_error e (_reason "malformed_response" (Some (String.append "unreadable response: " msg)))
          | Ok response => translate e response
          end
      end, e).

#[global] Instance evaluator : PolicyEvaluator t := evaluate.

Lemma translate_action e r :
  d_action (translate e r) = if str_in (normal_decision r) AFFIRMATIVE_DECISIONS then ALLOW else DENY.
Proof. unfold translate. destruct (str_in _ _); [done|]. by repeat case_match. Qed.

Lemma translate_reason e r :
  exists cls detail, cls ∈ REASON_CLASSES /\ d_reason (translate e r) = _reason cls detail.
Proof.
  assert (Hin : forall c, str_in c REASON_CLASSES = true -> c ∈ REASON_CLASSES) by (intros c; apply str_in_spec).
  unfold translate. destruct (str_in _ AFFIRMATIVE_DECISIONS).
  { exists "allow", (a_reason r). split; [by apply Hin | done]. }
  destruct (negb (py_truthy_str (normal_decision r))).
  { exists "no_decision", None. split; [by apply Hin | done]. }
  destruct (String.eqb (normal_decision r) "deny").
  { exists "deny", (a_reason r). split; [by apply Hin | done]. }
  destruct (String.eqb (normal_decision r) "enrollment_required").
  { eexists "enrollment_required", _. split; [by apply Hin | done]. }
  eexists "unknown_decision", _. split; [by apply Hin | done].
Qed.

(** The answer of the client to the request of a call. *)
Definition answer (tool : string) (args : jdict) (caller : CallerContext) (e : t) : res client_error client_result :=
  let q := request e tool args caller in
  (_authorize q (audit_context (q_user_id q) caller (resources_touched tool args) args) (_client e)).1.

(** C3: the evaluator fails closed.  It never raises and never filters, and it
    allows a call exactly when the client answered, readably, with an
    affirmative decision; the reason it gives begins with a class of the shared
    vocabulary (for a client that raises such classes). *)
Theorem evaluate_allows_iff (tool : string) (args : jdict) (caller : CallerContext) (e : t) :
  (forall cls detail, answer tool args caller e = Raise (KeiProxyAuthorizeError cls detail) -> cls ∈ REASON_CLASSES) ->
  exists d, (evaluate tool args caller e).1 = Ok d /\
    (d_action d = ALLOW <->
       exists raw resp, answer tool args caller e = Ok raw /\ from_result raw = Ok resp /\
         str_in (normal_decision resp) AFFIRMATIVE_DECISIONS = true) /\
    (d_action d <> ALLOW -> d_action d = DENY) /\
    exists cls detail, cls ∈ REASON_CLASSES /\ d_reason d = _reason cls detail.
Proof.
  intros Hcls. unfold evaluate, answer in *. cbn zeta in *. destruct (_authorize _ _ _) as [r c]. simpl in *.
  eexists. split; [done|]. destruct r as [raw|[cls detail|msg]].
  - destruct (from_result raw) as [resp|msg] eqn:Hr.
    + rewrite translate_action. split_and!; [|by destruct (str_in _ _)|apply translate_reason].
      destruct (str_in (normal_decision resp) _) eqn:Hs; split; try done.
      * intros _. by exists raw, resp.
      * intros (raw' & resp' & [= <-] & Hr' & Hin). rewrite Hr in Hr'. injection Hr' as <-.
        by rewrite Hs in Hin.
    + split_and!; [split; [done|] | done |].
      * intros (raw' & resp' & [= <-] & Hr' & _). congruence.
      * exists "malformed_response", (Some (String.append "unreadable response: " msg)). split; [by apply str_in_spec | done].
  - split_and!; [split; [done | by intros (? & ? & [=] & _)] | done |].
    exists cls, (Some detail). split; [by eapply Hcls | done].
  - split_and!; [split; [done | by intros (? & ? & [=] & _)] | done |].
    exists "proxy_error", (Some (String.append "authorize failed: " msg)). split; [by apply str_in_spec | done].
Qed.
End Evaluator.
Arguments t : clear implicits.
End KeiProxyEvaluator.

(** ** The kei-proxy command *)

Module KeiProxyAuthorizeClient.

Definition BOOTSTRAP_TOKEN_ENV := "KEI_RUNTIME_TOKEN".
Definition AUTHORIZE_CHILD_ENV_ALLOWLIST : list string :=
  ["TZ"; BOOTSTRAP_TOKEN_ENV; "KEI_RUNTIME_CONTROL_PLANE_URL"; "KEI_RUNTIME_VERSION"; "KEI_API_URL";
   "KEI_PROXY_REGISTRY"; "KEI_PROXY_AUDIT"; "KEI_PROXY_AUDIT_MAX_BYTES"; "KEI_PROXY_PROVIDER_USER";
   "KEI_CREDENTIAL_STORE_INSTALLATION_ID"; "KEI_AWS_SECRETS_MANAGER_ENDPOINT"].
Definition INSTALL_COMMAND : string :=
  String.append "curl -fsSL https://haikeilabs.com/install.sh | sh -s -- --proxy-only -d "
    (String.append dquote (String.append "$HOME/.local/bin" dquote)).
Definition MAX_EXECUTABLE_BYTES : Z := 256 * 1024 * 1024.

(** *** Locating and pinning the executable *)

Definition isabs (p : string) : bool := String.prefix "/" p.
Definition path_dirs (path : option string) : list string :=
  List.filter isabs (py_split ":" (default "" path)).

(** [abspath] is [os.path.abspath] in the current directory; [which] is
    [shutil.which] on a search path. *)
Definition _resolve_executable (abspath : string -> string) (which : string -> string -> option string)
    (executable : string) (path : option string) : option string :=
  if isabs executable then Some executable
  else if py_in "/" executable then Some (abspath executable)
  else
    let search := join_with ":" (path_dirs path) in
    if py_truthy_str search then which executable search else None.

(** [os.path.join(d, x)] of a name without a leading slash. *)
Definition join_path (d x : string) : string :=
  if py_endswith "/" d || negb (py_truthy_str d) then String.append d x
  else String.append d (String.append "/" x).

Definition _candidate_executables (abspath : string -> string) (executable : string) (path : option string)
  : list string :=
  if isabs executable then [executable]
  else if py_in "/" executable then [abspath executable]
  else match map (fun d => join_path d executable) (path_dirs path) with
       | [] => [String.append executable " (PATH has no absolute entries)"]
       | l => l
       end.

(** The file system as the pin sees it: the canonical path, whether
    [O_NOFOLLOW] exists, and what opening a path without following links
    yields: whether it is a regular file, and its bytes in the chunks read. *)
Record FileSystem := {
  realpath : string -> option string;
  has_no_follow : bool;
  open_file : string -> option (bool * list string);
}.

Definition pin_mismatch {A} (detail : string) : res client_error A :=
  Raise (KeiProxyAuthorizeError "pin_mismatch" detail).

(** The read loop: the running total is tested before a chunk is hashed. *)
Fixpoint read_chunks (total : Z) (hashed : string) (chunks : list string) : res client_error string :=
  match chunks with
  | [] => Ok hashed
  | c :: chunks' =>
      if py_truthy_str c then
        let total := (total + Z.of_nat (py_bytes_len c))%Z in
        if (MAX_EXECUTABLE_BYTES <? total)%Z then pin_mismatch "executable exceeds the size limit"
        else read_chunks total (String.append hashed c) chunks'
      else Ok hashed
  end.

Definition _prove_executable (sha256_hex : string -> string) (fs : FileSystem) (path expected : string)
  : res client_error unit :=
  match realpath fs path with
  | None => pin_mismatch "executable is missing"
  | Some real =>
      if negb (String.eqb real path) then pin_mismatch "executable path is not canonical"
      else if negb (has_no_follow fs) then pin_mismatch "O_NOFOLLOW is unavailable"
      else
        match open_file fs path with
        | None => pin_mismatch "executable could not be opened without following links"
        | Some (regular, chunks) =>
            if negb regular then pin_mismatch "executable is not a regular file"
            else
              content ← read_chunks 0 EmptyString chunks;
              if String.eqb (sha256_hex content) expected then Ok tt
              else pin_mismatch "executable digest does not match the pin"
        end
  end.

(** *** The answer

    [stdout] is bytes, which are decoded with replacement. *)

Definition parse_authorize_output (stdout : string) (exit_code : Z) : res client_error json :=
  let exited := KeiProxyAuthorizeError "proxy_error" (String.append "kei-proxy exited " (int_str exit_code)) in
  if negb ((exit_code =? 0) || (exit_code =? 1))%Z then Raise exited
  else
    let text := py_strip (decode_replace stdout) in
    if negb (py_truthy_str text) then
      Raise (if (exit_code =? 0)%Z then KeiProxyAuthorizeError "empty_response" "kei-proxy printed nothing"
             else exited)
    else
      match json_loads text with
      | None => Raise (KeiProxyAuthorizeError "malformed_response" "stdout is not JSON")
      | Some (JObj result) =>
          match jget result "decision" with
          | JStr decision =>
              if negb (exit_code =? 0)%Z && str_in (py_lower (py_strip decision)) AFFIRMATIVE_DECISIONS then
                Raise (KeiProxyAuthorizeError "exit_mismatch"
                  (String.append decision (String.append " with exit " (int_str exit_code))))
              else Ok (JObj result)
          | _ => Ok (JObj result)
          end
      | Some _ => Raise (KeiProxyAuthorizeError "malformed_response" "stdout is not a JSON object")
      end.

(** *** One call *)

(** What the spawned process comes to. *)
Inductive proc_outcome :=
| StartFailed (error_class : string)
| TimedOut
| WaitFailed (msg : string)
| Exited (code : Z) (stdout : string).

Record Config := {
  _expected_digest : option string;
  _timeout : string;
  _env : dict string;
  _extra_env : dict string;
  _executable : option string;
  _executable_candidates : list string;
}.

Definition is_hex (a : ascii) : bool := match hex_val a with Some _ => true | None => false end.

(** [__init__]; the pin is kept as its lower-case digits, which identify the
    bytes, and [timeout] as the text of its [%g] format. *)
Definition init (abspath : string -> string) (which : string -> string -> option string)
    (executable timeout : string) (env extra_env : dict string) (expected_sha256 : option string)
  : res exn Config :=
  digest ← match expected_sha256 with
           | None => Ok None
           | Some h =>
               if negb (str_forall is_hex h && (py_bytes_len h =? 64)%nat)
               then Raise (Exn ValueError "expected_sha256 must be 64 hex digits")
               else if negb (isabs executable)
               then Raise (Exn ValueError "a pinned executable must be an absolute path")
               else Ok (Some (py_lower h))
           end;
  Ok {| _expected_digest := digest; _timeout := timeout; _env := env; _extra_env := extra_env;
        _executable := _resolve_executable abspath which executable (dget env "PATH");
        _executable_candidates := _candidate_executables abspath executable (dget env "PATH") |}.

Definition child_env (c : Config) : dict string :=
  dmerge (omap (fun k => v ← dget (_env c) k; Some (k, v)) AUTHORIZE_CHILD_ENV_ALLOWLIST) (_extra_env c).

Definition optional_flags (x : AuthContext) : list (string * string) :=
  [("--span-id", x_span_id x); ("--invoking-subject", x_invoking_subject x);
   ("--parent-span", x_parent_span x);
   ("--delegation-depth", if (0 <? x_delegation_depth x)%Z then int_str (x_delegation_depth x) else "");
   ("--agent-version", x_agent_version x); ("--framework", x_framework x);
   ("--tool-args-digest", x_tool_args_digest x); ("--resources", join_with "," (x_resources x))].

Definition argv (executable : string) (q : AuthRequest) (x : AuthContext) : list string :=
  [executable; "authorize"; "--user"; q_user_id q; "--tool"; q_tool q; "--action"; q_action q;
   "--resource"; q_resource q]
  ++ flat_map (fun fv => if py_truthy_str fv.2 then [fv.1; fv.2] else []) (optional_flags x).

Definition default_context : AuthContext := Build_AuthContext "" "" "" 0 "" "" "" [] "".

Lemma omap_dict_get (env : dict string) ks k : NoDup ks ->
  dget (omap (fun k => v ← dget env k; Some (k, v)) ks) k = if str_in k ks then dget env k else None.
Proof.
  induction ks as [|k0 ks IH]; intros Hn; [done|]. apply NoDup_cons in Hn as [Hk0 Hn].
  unfold str_in. cbn [existsb]. fold (str_in k ks). csimpl.
  destruct (String.eqb_spec k k0) as [->|Hk]; simpl.
  - destruct (dget env k0) as [v|] eqn:Hv; simpl; [by rewrite String.eqb_refl|].
    rewrite IH by done. by apply str_in_false in Hk0 as ->.
  - destruct (dget env k0) as [v|]; simpl; [|by apply IH].
    apply String.eqb_neq in Hk as ->. by apply IH.
Qed.

(** The child's environment holds an allowlisted variable of the parent, or
    an explicit extra one, and nothing else: [PATH], [HOME] and the identity
    variables of the parent never reach it. *)
Lemma child_env_confined (c : Config) (k : string) :
  dict_ok (_extra_env c) ->
  dget (child_env c) k =
    match dget (_extra_env c) k with
    | Some v => Some v
    | None => if str_in k AUTHORIZE_CHILD_ENV_ALLOWLIST then dget (_env c) k else None
    end.
Proof.
  intros Hx. unfold child_env. rewrite dget_dmerge by done. destruct (dget (_extra_env c) k); [done|].
  apply omap_dict_get. by apply (bool_decide_unpack _).
Qed.

Section Call.
Context (sha256_hex : string -> string) (fs : FileSystem).
(** The process table: [spawn] starts the child in its own session and waits
    for it; the session can be killed as a group, or else the child, and the child
    be reaped. *)
Context {P : Type} (spawn : list string -> dict string -> P -> proc_outcome * P)
  (killpg : P -> bool * P) (kill close_stdout wait : P -> P).

Definition _kill_group (p : P) : P :=
  let '(killed, p) := killpg p in
  wait (close_stdout (if killed : bool then p else kill p)).

Record t := { config : Config; procs : P }.

Definition unavailable (c : Config) : client_error :=
  KeiProxyAuthorizeError "proxy_unavailable"
    (String.append "kei-proxy was not found on PATH (tried: "
      (String.append (join_with ", " (_executable_candidates c))
        (String.append "); install with: " INSTALL_COMMAND))).

(** The checks made before a process exists. *)
Definition preflight (c : Config) : res client_error string :=
  if negb (py_truthy_str (dget_or (child_env c) BOOTSTRAP_TOKEN_ENV ""))
  then Raise (KeiProxyAuthorizeError "missing_token" "KEI_RUNTIME_TOKEN is not set")
  else
    match _executable c with
    | None => Raise (unavailable c)
    | Some exe =>
        _ ← match _expected_digest c with
            | Some expected => _prove_executable sha256_hex fs exe expected
            | None => Ok tt
            end;
        Ok exe
    end.

Definition authorize_cli (q : AuthRequest) (ctx : option AuthContext) : eff t client_error client_result := fun s =>
  match preflight (config s) with
  | Raise e => (Raise e, s)
  | Ok exe =>
      let '(o, p) := spawn (argv exe q (default default_context ctx)) (child_env (config s)) (procs s) in
      let s' := {| config := config s; procs := p |} in
      let killed := {| config := config s; procs := _kill_group p |} in
      match o with
      | StartFailed cls =>
          (Raise (KeiProxyAuthorizeError "proxy_unavailable"
             (String.append "could not start kei-proxy at " (String.append exe
               (String.append " (" (String.append cls (String.append "); install with: " INSTALL_COMMAND)))))), s')
      | TimedOut =>
          (Raise (KeiProxyAuthorizeError "proxy_timeout"
             (String.append "no answer within " (String.append (_timeout (config s)) "s"))), killed)
      | WaitFailed msg => (Raise (OtherException msg), killed)
      | Exited code stdout =>
          if (code <? 0)%Z then
            (Raise (KeiProxyAuthorizeError "proxy_error"
               (String.append "kei-proxy terminated by signal " (int_str (- code)))), s')
          else (RJson <$> parse_authorize_output stdout code, s')
      end
  end.

#[global] Instance client : AuthorizationClient t :=
  {| sig_binds := Some (true, true); authorize := authorize_cli |}.

Lemma parse_authorize_ok stdout code v :
  parse_authorize_output stdout code = Ok v ->
  exists d, v = JObj d /\ json_loads (py_strip (decode_replace stdout)) = Some v /\ (code = 0 \/ code = 1)%Z /\
    (code = 1%Z -> forall s, jget d "decision" = JStr s -> str_in (py_lower (py_strip s)) AFFIRMATIVE_DECISIONS = false).
Proof.
  unfold parse_authorize_output. destruct ((code =? 0) || (code =? 1))%Z eqn:Hc; [|done]. simpl.
  apply orb_true_iff in Hc. rewrite !Z.eqb_eq in Hc.
  destruct (py_truthy_str _); [|done]. simpl.
  destruct (json_loads _) as [[]|] eqn:Hj; try done. intros H. exists d.
  assert (v = JObj d) as -> by (py_cases).
  split_and!; [done.. | ]. intros -> s Hs. rewrite Hs in H. simpl in H.
  by destruct (str_in _ _).
Qed.

(** Only a string can normalise to an affirmative decision. *)
Lemma affirmative_is_str v :
  str_in (py_lower (py_strip (py_str v))) AFFIRMATIVE_DECISIONS = true -> exists s, v = JStr s.
Proof.
  intros H. destruct (is_str v) eqn:Hs; [destruct v; try done; eauto|]. exfalso.
  destruct (py_repr_json_head v Hs) as (a & t & E & Ha).
  replace (py_str v) with (py_repr_json v) in H by (by destruct v). rewrite E in H.
  assert (Hh : starts_space a = false /\ Ascii.eqb (lower_char a) "p" = false /\ Ascii.eqb (lower_char a) "a" = false).
  { revert Ha. clear. destruct a as [[] [] [] [] [] [] [] []]; intros Ha; try discriminate Ha; by split_and!. }
  destruct Hh as (Hsp & Hp & Hal). destruct (py_strip_head a t Hsp) as [t' E']. rewrite E' in H.
  unfold str_in, AFFIRMATIVE_DECISIONS in H. cbn [py_lower existsb String.eqb] in H.
  by rewrite Hp, Hal in H.
Qed.

Lemma parse_authorize_class stdout code e :
  parse_authorize_output stdout code = Raise e ->
  exists cls detail, e = KeiProxyAuthorizeError cls detail /\ cls ∈ REASON_CLASSES.
Proof.
  assert (Hin : forall c, str_in c REASON_CLASSES = true -> c ∈ REASON_CLASSES) by (intros c; apply str_in_spec).
  unfold parse_authorize_output. intros H.
  repeat case_match; simplify_eq/=; eexists _, _; (split; [done | by apply Hin]).
Qed.

Lemma read_chunks_class total h cs e : read_chunks total h cs = Raise e ->
  exists detail, e = KeiProxyAuthorizeError "pin_mismatch" detail.
Proof.
  revert total h. induction cs as [|c cs IH]; intros total h; simpl; [done|].
  destruct (py_truthy_str c); [|done]. destruct (_ <? _)%Z; [|apply IH].
  intros [= <-]. eauto.
Qed.

Lemma prove_class path expected e : _prove_executable sha256_hex fs path expected = Raise e ->
  exists detail, e = KeiProxyAuthorizeError "pin_mismatch" detail.
Proof.
  unfold _prove_executable, pin_mismatch. intros H.
  destruct (realpath fs path); [|simplify_eq; eauto].
  destruct (negb _); [simplify_eq; eauto|]. destruct (negb _); [simplify_eq; eauto|].
  destruct (open_file fs path) as [[reg cs]|]; [|simplify_eq; eauto].
  destruct (negb reg); [simplify_eq; eauto|].
  apply bind_Raise_inv in H as [H|(content & _ & H)]; [by apply read_chunks_class in H|].
  destruct (String.eqb _ _); simplify_eq; eauto.
Qed.

Lemma preflight_class c e : preflight c = Raise e ->
  exists cls detail, e = KeiProxyAuthorizeError cls detail /\ cls ∈ REASON_CLASSES.
Proof.
  assert (Hin : forall c, str_in c REASON_CLASSES = true -> c ∈ REASON_CLASSES) by (intros c'; apply str_in_spec).
  unfold preflight. intros H. destruct (negb _).
  { simplify_eq. eexists _, _. split; [done | by apply Hin]. }
  destruct (_executable c); [|simplify_eq; eexists _, _; split; [done | by apply Hin]].
  apply bind_Raise_inv in H as [H|(u & _ & H)]; [|done].
  destruct (_expected_digest c); [|done]. apply prove_class in H as [detail ->].
  eexists _, _. split; [done | by apply Hin].
Qed.

(** Every [KeiProxyAuthorizeError] of the client carries a class of the vocabulary. *)
Lemma authorize_class q ctx s cls detail s' :
  authorize_cli q ctx s = (Raise (KeiProxyAuthorizeError cls detail), s') -> cls ∈ REASON_CLASSES.
Proof.
  assert (Hin : forall c, str_in c REASON_CLASSES = true -> c ∈ REASON_CLASSES) by (intros c'; apply str_in_spec).
  unfold authorize_cli. destruct (preflight (config s)) as [exe|e] eqn:Hp.
  - destruct (spawn _ _ _) as [[ec| |msg|code out] p]; try (by intros [= <- _ _]; apply Hin).
    destruct (code <? 0)%Z; [by intros [= <- _ _]; apply Hin|].
    destruct (parse_authorize_output out code) as [v|e] eqn:Ho; [done|]. intros [= -> _].
    by apply parse_authorize_class in Ho as (? & ? & [= <- <-] & ?).
  - intros [= -> _]. by apply preflight_class in Hp as (? & ? & [= <- <-] & ?).
Qed.

(** C4: end to end, a call is allowed only by a kei-proxy process.  When the
    evaluator over the command-line client allows a call, the runtime token was
    in the child's environment, the executable was found and, when pinned,
    proved; exactly one process was spawned, with the request on its command
    line; it exited with status 0 and printed one JSON object whose decision is
    affirmative. *)
Theorem allow_needs_proxy_exit_zero tool args caller (e : KeiProxyEvaluator.t t) d e' :
  KeiProxyEvaluator.evaluate sha256_hex tool args caller e = (Ok d, e') -> d_action d = ALLOW ->
  let s := KeiProxyEvaluator._client e in
  let q := KeiProxyEvaluator.request e tool args caller in
  exists exe ctx stdout obj decision,
    preflight (config s) = Ok exe /\
    dget_or (child_env (config s)) BOOTSTRAP_TOKEN_ENV "" <> "" /\
    (forall pin, _expected_digest (config s) = Some pin -> _prove_executable sha256_hex fs exe pin = Ok tt) /\
    spawn (argv exe q ctx) (child_env (config s)) (procs s)
      = (Exited 0 stdout, procs (KeiProxyEvaluator._client e')) /\
    json_loads (py_strip (decode_replace stdout)) = Some (JObj obj) /\
    jget obj "decision" = decision /\ str_in (py_lower (py_strip (py_str decision))) AFFIRMATIVE_DECISIONS = true.
Proof.
  unfold KeiProxyEvaluator.evaluate, KeiProxyEvaluator._authorize. intros He Ha. cbn zeta in *.
  set (q := KeiProxyEvaluator.request e tool args caller) in *.
  set (ctx := KeiProxyEvaluator.audit_context _ _ _ _ _) in *. cbn [sig_binds client authorize] in He.
  unfold authorize_cli in He. set (s := KeiProxyEvaluator._client e) in *.
  destruct (preflight (config s)) as [exe|err] eqn:Hp; [|by destruct err; simplify_eq/=].
  cbn [default] in He. destruct (spawn _ _ _) as [o p] eqn:Hsp.
  destruct o as [ec| |msg|code out]; [by simplify_eq/=..|].
  destruct (code <? 0)%Z; [by simplify_eq/=|].
  destruct (parse_authorize_output out code) as [v|err] eqn:Ho;
    [|by destruct err; simplify_eq/=].
  apply parse_authorize_ok in Ho as (obj & -> & Hj & Hcode & Hneg). simpl in He.
  injection He as <- <-. rewrite KeiProxyEvaluator.translate_action in Ha.
  destruct (str_in _ AFFIRMATIVE_DECISIONS) eqn:Haff; [|done].
  unfold KeiProxyEvaluator.normal_decision in Haff. cbn in Haff.
  assert (Hdec : str_in (py_lower (py_strip (py_str (jget obj "decision")))) AFFIRMATIVE_DECISIONS = true)
    by (destruct (jget obj "decision"); [done|exact Haff..]).
  destruct (affirmative_is_str _ Hdec) as [str Hstr].
  assert (code = 0)%Z as ->.
  { destruct Hcode as [|Hc]; [done|]. specialize (Hneg Hc str Hstr). rewrite Hstr in Hdec. cbn [py_str] in Hdec. by rewrite Hneg in Hdec. }
  unfold preflight in Hp. fold s in Hsp.
  exists exe, ctx, out, obj, (jget obj "decision"). split_and!; [done | | | done | done | done | done].
  - apply py_truthy_str_true. by destruct (py_truthy_str _).
  - intros pin Hpin. destruct (negb _); [done|]. destruct (_executable (config s)) as [exe'|]; [|done].
    rewrite Hpin in Hp. apply bind_Ok_inv in Hp as ([] & Hpr & [= ->]). done.
Qed.

(** Nothing is spawned before the checks pass: a missing token, an
    executable that is not found, or a failed pin answers with its own error
    and leaves the process table alone. *)
Lemma no_spawn_before_checks q ctx s :
  dget_or (child_env (config s)) BOOTSTRAP_TOKEN_ENV "" = "" \/
  _executable (config s) = None \/
  (exists exe pin err, _executable (config s) = Some exe /\ _expected_digest (config s) = Some pin /\
     _prove_executable sha256_hex fs exe pin = Raise err) ->
  exists cls detail, authorize_cli q ctx s = (Raise (KeiProxyAuthorizeError cls detail), s) /\
    cls ∈ ["missing_token"; "proxy_unavailable"; "pin_mismatch"].
Proof.
  intros H. unfold authorize_cli, preflight.
  destruct (py_truthy_str (dget_or _ _ _)) eqn:Htok; cbn [negb].
  - apply py_truthy_str_true in Htok. destruct H as [H|[->|(exe & pin & err & -> & -> & Hp)]]; [done| |].
    + eexists _, _. split; [done | set_solver].
    + destruct (prove_class _ _ _ Hp) as [detail ->]. rewrite Hp. eexists _, _. split; [done | set_solver].
  - eexists _, _. split; [done | set_solver].
Qed.
End Call.
Arguments t : clear implicits.

(** ** A concrete proxy *)

Definition ex_env : dict string := [("PATH", "/usr/bin"); (BOOTSTRAP_TOKEN_ENV, "tok"); ("HOME", "/root")].
Definition ex_config : Config :=
  match init (fun p => p) (fun n _ => Some (String.append "/usr/bin/" n)) "kei-proxy" "10" ex_env [("X", "1")] None with
  | Ok c => c
  | Raise _ => Build_Config None "" [] [] None []
  end.
Definition ex_fs : FileSystem := {| realpath := fun _ => None; has_no_follow := true; open_file := fun _ => None |}.
Definition ex_spawn (av : list string) (env : dict string) (log : list (list string))
  : proc_outcome * list (list string) := (Exited 0 (jq "{'decision': ' Permit', 'policy': 'p1'}"), log ++ [av]).
Definition ex_client : t (list (list string)) := {| config := ex_config; procs := [] |}.
#[local] Instance ex_auth : AuthorizationClient (t (list (list string))) :=
  client (fun s => s) ex_fs ex_spawn (fun p => (true, p)) (fun p => p) (fun p => p) (fun p => p).
Definition ex_evaluator : KeiProxyEvaluator.t (t (list (list string))) :=
  {| KeiProxyEvaluator._client := ex_client; KeiProxyEvaluator._default_action := "execute";
     KeiProxyEvaluator.now := DT 0 None |}.
Definition ex_args : jdict := [("owner", JStr "acme"); ("repo", JStr "pipe"); ("issue_number", JInt 12)].

Example resources_example : resources_touched "GitHub.list_issues" ex_args
  = ["github:repo:acme/pipe"; "github:issue:12"].
Proof. reflexivity. Qed.

Lemma child_env_confined_witness : child_env ex_config = [(BOOTSTRAP_TOKEN_ENV, "tok"); ("X", "1")] /\
  dget (child_env ex_config) "HOME" = None.
Proof.
  split; [reflexivity|]. rewrite (child_env_confined ex_config "HOME"); [reflexivity|].
  apply (bool_decide_unpack _). vm_compute. exact I.
Defined.

Lemma no_spawn_before_checks_witness :
  let c := Build_Config None "10" [("PATH", "/usr/bin")] [] (Some "/usr/bin/kei-proxy") [] in
  exists cls detail,
    authorize_cli (fun s => s) ex_fs ex_spawn (fun p => (true, p)) (fun p => p) (fun p => p) (fun p => p) (Build_AuthRequest "u" "t" "a" "r") None
      {| config := c; procs := [] |} = (Raise (KeiProxyAuthorizeError cls detail), {| config := c; procs := [] |}) /\
    cls ∈ ["missing_token"; "proxy_unavailable"; "pin_mismatch"].
Proof.
  intros c. apply (no_spawn_before_checks (fun s => s) ex_fs ex_spawn (fun p => (true, p)) (fun p => p) (fun p => p) (fun p => p)
    (Build_AuthRequest "u" "t" "a" "r") None {| config := c; procs := [] |}).
  left. reflexivity.
Defined.

Lemma allow_needs_proxy_exit_zero_witness :
  let '(r, e') := KeiProxyEvaluator.evaluate (fun s => s) "GitHub.list_issues" ex_args CallerContext_default ex_evaluator in
  (exists d, r = Ok d /\ d_action d = ALLOW /\ d_rule d = JStr "p1") /\
  exists exe ctx stdout obj decision,
    preflight (fun s => s) ex_fs ex_config = Ok exe /\
    dget_or (child_env ex_config) BOOTSTRAP_TOKEN_ENV "" <> "" /\
    (forall pin, _expected_digest ex_config = Some pin -> _prove_executable (fun s => s) ex_fs exe pin = Ok tt) /\
    ex_spawn (argv exe (KeiProxyEvaluator.request ex_evaluator "GitHub.list_issues" ex_args CallerContext_default) ctx)
      (child_env ex_config) [] = (Exited 0 stdout, procs (KeiProxyEvaluator._client e')) /\
    json_loads (py_strip (decode_replace stdout)) = Some (JObj obj) /\
    jget obj "decision" = decision /\ str_in (py_lower (py_strip (py_str decision))) AFFIRMATIVE_DECISIONS = true.
Proof.
  destruct (KeiProxyEvaluator.evaluate (fun s => s) "GitHub.list_issues" ex_args CallerContext_default ex_evaluator)
    as [r e'] eqn:He.
  assert (Hr : exists d, r = Ok d /\ d_action d = ALLOW /\ d_rule d = JStr "p1").
  { apply (f_equal fst) in He. simpl fst in He. rewrite <- He. eexists. split; [vm_compute; reflexivity|].
    split; reflexivity. }
  split; [exact Hr|]. destruct Hr as (d & -> & Hd & _).
  exact (allow_needs_proxy_exit_zero (fun s => s) ex_fs ex_spawn (fun p => (true, p)) (fun p => p) (fun p => p) (fun p => p) "GitHub.list_issues" ex_args
    CallerContext_default ex_evaluator d e' He Hd).
Defined.

Lemma evaluate_allows_iff_witness :
  exists d, (KeiProxyEvaluator.evaluate (fun s => s) "ls" [] CallerContext_default ex_evaluator).1 = Ok d /\
    (d_action d <> ALLOW -> d_action d = DENY).
Proof.
  destruct (KeiProxyEvaluator.evaluate_allows_iff (fun s => s) "ls" [] CallerContext_default ex_evaluator)
    as (d & Hd & _ & Hdeny & _).
  - vm_compute. discriminate.
  - exists d. split; [exact Hd | exact Hdeny].
Defined.
End KeiProxyAuthorizeClient.
