(* ===== verification/RuntimeSocket.v ===== *)
(** * The client of the kei-proxy daemon

    [kei/runtime_socket.py]: named sessions over the daemon's Unix socket, the
    routes that run in them, the recovery from a session the daemon forgot, the
    synchronous adapter [KeiProxySocketAuthorizationClient] (an instance of the
    interface [AuthorizationClient]) and the choice of a client.

    The code is asynchronous: while a request is in flight other tasks run.  A
    method is a sequence of atomic segments between requests, and [others] is
    what the other tasks do to the session cache and to the history of exchanges
    during a request.  Parameters: [http] (httpx over the socket), the process
    environment, [Response.json], [Response.is_error]. *)
From Stdlib Require Import ZArith Lia Ascii String SpecFloat.
From stdpp Require Import base tactics list strings gmap.
From S2P Require Import Prelude PyStr PyFloat PyUrl Json JsonFacts PyBytes Types AuditTrail Middleware KeiEvaluator.

Definition DEFAULT_RUNTIME_SOCKET_PATH := "/run/kei-proxy/runtime.sock".
Definition RUNTIME_SOCKET_PATH_ENV := "KEI_RUNTIME_SOCKET_PATH".
Definition BOOTSTRAP_TOKEN_ENV := "KEI_RUNTIME_TOKEN".
Definition SESSION_SCHEMA := "kei.session/v2".
Definition AUTHORIZE_REQUEST_SCHEMA := "kei.authorize-request/v1".
Definition AUTHORIZE_RESPONSE_SCHEMA := "kei.authorize-response/v1".
Definition CREDENTIAL_RELEASE_REQUEST_SCHEMA := "kei.credential-release-request/v1".
Definition CREDENTIAL_RELEASE_RESPONSE_SCHEMA := "kei.credential-release-response/v1".
Definition POLICY_BUNDLE_STATUS_SCHEMA := "kei.policy-bundle-status/v1".
Definition SESSION_NOT_FOUND := "session_not_found".
Definition DEFAULT_SOCKET_TIMEOUT : spec_float := float_of_Z 10.
Definition DEFAULT_MODEL_TIMEOUT : spec_float := float_of_Z 120.

(** [KeiProxySocketError] with its class, detail and code; the [ValueError] of
    an argument check; whatever else httpx raises. *)
Inductive sock_error :=
| KeiProxySocketError (reason_class detail code : string)
| SocketValueError (msg : string)
| Unhandled (cls msg : string).

Record Identity := { i_source : string; i_external_id : string }.
Record Session := { s_source : string; s_external_id : string; s_session_id : string }.
#[global] Instance Session_eq_dec : EqDecision Session.
Proof. solve_decision. Defined.
Definition identity (s : Session) : Identity := {| i_source := s_source s; i_external_id := s_external_id s |}.
Definition session_key (s : Session) : string * string := (s_source s, s_external_id s).

(** ** Requests, responses and what may go wrong in between *)

Record http_request := {
  rq_method : string;
  rq_path : string;
  rq_bearer : string;
  rq_session : option string;
  rq_body : option json;
  rq_timeout : spec_float;
}.
Record http_response := { status_code : Z; content : string }.

(** [httpx.TimeoutException], another [httpx.HTTPError], an [OSError], anything else. *)
Inductive http_exn :=
| HTimeout (cls : string)
| HError (cls : string)
| HOSError (cls : string)
| HOther (cls msg : string).

Definition exchange : Type := http_request * res http_exn http_response.

Definition _PROXY_INSTALL_COMMAND : string := KeiProxyAuthorizeClient.INSTALL_COMMAND.

Definition cats_str (l : list string) : string := str_join l.

Definition _transport_error (exc : http_exn) (socket_path : string) : sock_error :=
  let unreachable cls := KeiProxySocketError "proxy_unavailable"
    (cats_str ["the kei-proxy daemon is unreachable at socket "; socket_path; " ("; cls; "); install with: ";
               _PROXY_INSTALL_COMMAND]) "" in
  match exc with
  | HTimeout _ => KeiProxySocketError "proxy_timeout"
      (String.append "the kei-proxy daemon did not answer in time at socket " socket_path) ""
  | HError cls | HOSError cls => unreachable cls
  | HOther cls msg => Unhandled cls msg
  end.

Definition _status_error (status : Z) (code : string) : sock_error :=
  let what := if (status =? 401)%Z then "runtime authentication failed"
              else String.append "the daemon answered " (int_str status) in
  KeiProxySocketError "proxy_error"
    (if py_truthy_str code then cats_str [what; " ("; code; ")"] else what) code.

Definition json_is_str (v : json) (s : string) : bool :=
  match v with JStr t => String.eqb t s | _ => false end.

Section Response.
Context (response_json : string -> option json).

Definition _error_code (response : http_response) : string :=
  match response_json (content response) with
  | Some (JObj body) =>
      match jget body "error" with
      | JObj error => py_str (json_or (jget error "code") (JStr ""))
      | JStr error => error
      | _ => py_str (json_or (jget body "code") (JStr ""))
      end
  | _ => ""
  end.

Definition status_ok (response : http_response) : bool :=
  ((200 <=? status_code response) && (status_code response <? 300))%Z.

Definition _check_status (response : http_response) : res sock_error unit :=
  guard_or (status_ok response) (_status_error (status_code response) (_error_code response)).

Definition malformed (detail : string) : sock_error := KeiProxySocketError "malformed_response" detail "".

Definition _json_object (response : http_response) : res sock_error jdict :=
  _ ← _check_status response;
  if (status_code response =? 204)%Z || bytes_blank (content response) then Ok []
  else
    match response_json (content response) with
    | None => Raise (malformed "the daemon's answer is not JSON")
    | Some (JObj body) => Ok body
    | Some _ => Raise (malformed "the daemon's answer is not a JSON object")
    end.

(** The session identifier of a valid answer to [PUT /v1/session]. *)
Definition session_id_of (body : jdict) : option string :=
  match jget body "session_id" with
  | JStr session_id =>
      if json_is_str (jget body "schema") SESSION_SCHEMA && py_truthy_str session_id then Some session_id else None
  | _ => None
  end.
End Response.

(** ** Model metadata without credentials *)

Definition model_secrets : list string := ["secret_ref"; "credential"; "api_key"; "apiKey"].

Fixpoint _without_model_secrets (value : json) : json :=
  match value with
  | JObj d =>
      JObj ((fix go d :=
               match d with
               | [] => []
               | (k, v) :: d' => if str_in k model_secrets then go d' else (k, _without_model_secrets v) :: go d'
               end) d)
  | JArr l => JArr (map _without_model_secrets l)
  | _ => value
  end.

(** ** The client *)

Record Client := {
  _socket_path : string;
  _timeout : spec_float;
  _model_timeout : spec_float;
  _env : option (dict string);
}.

(** [a or b] on optional strings. *)
Definition opt_or (a : option string) (b : string) : string :=
  match a with Some s => str_or s b | None => b end.

Definition init (os_environ : dict string) (socket_path : option string) (timeout model_timeout : spec_float)
    (env : option (dict string)) : Client :=
  let source := default os_environ env in
  {| _socket_path := opt_or socket_path (opt_or (dget source RUNTIME_SOCKET_PATH_ENV) DEFAULT_RUNTIME_SOCKET_PATH);
     _timeout := timeout; _model_timeout := model_timeout; _env := env |}.

Record AuthorizeArgs := {
  g_tool : string; g_action : string; g_resource : string; g_span_id : string; g_parent_span : string;
  g_delegation_depth : Z; g_framework : string; g_tool_args_digest : string;
  g_connector_id : string; g_capability : string;
}.

Definition truthy_items (d : jdict) : jdict := List.filter (fun kv => py_truthy kv.2) d.

Definition connector_pair (connector_id capability : string) : json :=
  JObj [("connector_id", JStr connector_id); ("capability", JStr capability)].

Definition trace_fields (g : AuthorizeArgs) : jdict :=
  [("span_id", JStr (g_span_id g)); ("parent_span", JStr (g_parent_span g));
   ("delegation_depth", JInt (g_delegation_depth g)); ("framework", JStr (g_framework g));
   ("tool_args_digest", JStr (g_tool_args_digest g))].

Definition blank (s : string) : bool := negb (py_truthy_str (py_strip s)).

Definition named (session : Session) : bool :=
  py_truthy_str (s_source session) && py_truthy_str (s_external_id session) && py_truthy_str (s_session_id session).

(** The body of [POST /v1/authorize], after the argument checks. *)
Definition authorize_request (session : Session) (g : AuthorizeArgs) : res sock_error jdict :=
  let connector := py_truthy_str (g_connector_id g) in
  _ ← guard_or (named session) (SocketValueError "socket authorize needs an explicit named session");
  _ ← guard_or (Bool.eqb connector (py_truthy_str (g_capability g)))
        (SocketValueError "connector_id and capability must be provided together");
  _ ← guard_or (negb (connector && (blank (g_connector_id g) || blank (g_capability g))))
        (SocketValueError "connector_id and capability must be non-empty");
  _ ← guard_or (negb (connector && blank (g_resource g)))
        (SocketValueError "an exact connector target requires a non-empty resource");
  Ok (dmerge ([("schema", JStr AUTHORIZE_REQUEST_SCHEMA); ("tool", JStr (g_tool g))]
              ++ if connector then [("connector", connector_pair (g_connector_id g) (g_capability g))] else [])
        (truthy_items ([("action", JStr (g_action g)); ("resource", JStr (g_resource g))] ++ trace_fields g))).

(** The body of [POST /v1/credentials:release]. *)
Definition release_request (session : Session) (g : AuthorizeArgs) : res sock_error jdict :=
  _ ← guard_or (named session) (SocketValueError "socket release_credential needs an explicit named session");
  Ok (dmerge ([("schema", JStr CREDENTIAL_RELEASE_REQUEST_SCHEMA); ("resource", JStr (g_resource g));
               ("connector", connector_pair (g_connector_id g) (g_capability g))]
              ++ if py_truthy_str (g_tool g) then [("tool", JStr (g_tool g))] else [])
        (truthy_items (trace_fields g))).

(** The routes that answer with a decision. *)
Record route := { rt_path : string; rt_schema : string; rt_invalid : string; rt_exhausted : string }.
Definition authorize_route : route :=
  {| rt_path := "/v1/authorize"; rt_schema := AUTHORIZE_RESPONSE_SCHEMA;
     rt_invalid := "the daemon returned an invalid authorize response";
     rt_exhausted := "socket authorize failed closed" |}.
Definition release_route : route :=
  {| rt_path := "/v1/credentials:release"; rt_schema := CREDENTIAL_RELEASE_RESPONSE_SCHEMA;
     rt_invalid := "the daemon returned an invalid credential release response";
     rt_exhausted := "socket credential release failed closed" |}.

(** What a streaming response delivers: its body when read whole, or its lines
    and how they end. *)
Record stream_response := {
  sr_status : Z; sr_body : res http_exn string; sr_lines : list string; sr_end : option http_exn }.

Definition select_query (items : list (string * option string)) : dict string :=
  omap (fun kv => match kv.2 with Some v => if py_truthy_str v then Some (kv.1, v) else None | None => None end) items.
Definition with_query (path : string) (query : dict string) : string :=
  String.append path (match query with [] => "" | _ => String "?" (urlencode query) end).

Definition advertised (m : json) : option jdict :=
  match m with
  | JObj d => match jget d "id" with JStr s => if py_truthy_str s then Some d else None | _ => None end
  | _ => None
  end.

Abbreviation cache := (gmap (string * string) Session).

(** ** The methods *)

Module KeiProxySocketAuthorizeClient.
Section Methods.
Context (response_json : string -> option json) (is_error : Z -> bool).
Context {W : Type} (environ : W -> dict string) (http : http_request -> W -> res http_exn http_response * W)
  (http_stream : http_request -> W -> res http_exn stream_response * W)
  (others : W -> cache * list exchange -> cache * list exchange).

Record t := { client : Client; _sessions : cache; world : W; history : list exchange }.

Abbreviation sock A := (eff t sock_error A).

Definition set_sessions (f : cache -> cache) (s : t) : t :=
  {| client := client s; _sessions := f (_sessions s); world := world s; history := history s |}.

(** The token, read when a request is made. *)
Definition _client (s : t) : res sock_error string :=
  let env := default (environ (world s)) (_env (client s)) in
  let token := dget_or env BOOTSTRAP_TOKEN_ENV "" in
  if py_truthy_str token then Ok token
  else Raise (KeiProxySocketError "missing_token" "KEI_RUNTIME_TOKEN is not set" "").

(** A request has been answered, or has failed; meanwhile the others ran. *)
Definition exchanged (rq : http_request) (r : res http_exn http_response) (w : W) (s : t) : t :=
  let '(m, h) := others w (_sessions s, history s ++ [(rq, r)]) in
  {| client := client s; _sessions := m; world := w; history := h |}.

Definition _send (method path session_id : string) (json_body : option json) (timeout : spec_float)
  : sock http_response := fun s =>
  match _client s with
  | Raise e => (Raise e, s)
  | Ok token =>
      let rq := {| rq_method := method; rq_path := path; rq_bearer := token;
                   rq_session := if py_truthy_str session_id then Some session_id else None;
                   rq_body := json_body; rq_timeout := timeout |} in
      let '(r, w) := http rq (world s) in
      (match r with Ok response => Ok response | Raise exc => Raise (_transport_error exc (_socket_path (client s))) end,
       exchanged rq r w s)
  end.

Definition short (s : t) : spec_float := _timeout (client s).

(** [_send] with the client's own timeout, and the object it answers. *)
Definition send_object (method path session_id : string) (json_body : option json) : sock jdict := fun s =>
  (response ← _send method path session_id json_body (short s); eff_lift (_json_object response_json response)) s.

(** *** Sessions *)

Definition session_request (i : Identity) : json :=
  JObj [("schema", JStr SESSION_SCHEMA); ("source", JStr (i_source i)); ("external_id", JStr (i_external_id i))].

Definition open_session (i : Identity) : sock Session := fun s =>
  if blank (i_source i) then (Raise (SocketValueError "a socket session needs a non-empty source"), s)
  else if blank (i_external_id i) then (Raise (SocketValueError "a socket session needs a non-empty external_id"), s)
  else
    match _sessions s !! (i_source i, i_external_id i) with
    | Some cached => (Ok cached, s)
    | None =>
        (body ← send_object "PUT" "/v1/session" "" (Some (session_request i));
         match session_id_of body with
         | None => eff_raise (malformed "the daemon returned an invalid session")
         | Some session_id =>
             let session := {| s_source := i_source i; s_external_id := i_external_id i; s_session_id := session_id |} in
             _ ← eff_modify (set_sessions <[session_key session := session]>);
             mret session
         end) s
    end.

(** Drop a session from the cache, unless it was already replaced. *)
Definition _forget (session : Session) : sock unit :=
  eff_modify (set_sessions (fun m =>
    match m !! session_key session with
    | Some cached => if String.eqb (s_session_id cached) (s_session_id session) then delete (session_key session) m else m
    | None => m
    end)).

Definition forget_session (i : Identity) : sock unit :=
  eff_modify (set_sessions (delete (i_source i, i_external_id i))).

Definition _reopen (stale : Session) : sock Session := _ ← _forget stale; open_session (identity stale).

Definition close_session (session : Session) : sock unit := fun s =>
  (_ ← _forget session;
   response ← _send "DELETE" "/v1/session" (s_session_id session) None (short s);
   if (status_code response =? 404)%Z && String.eqb (_error_code response_json response) SESSION_NOT_FOUND
   then mret tt
   else eff_lift (_check_status response_json response)) s.

(** *** Decisions *)

(** [for attempt in range(2)]: a session the daemon does not know is reopened
    after the first attempt, whether it says so in an error or in its answer. *)
Fixpoint decide (attempts : list nat) (rt : route) (request : json) (session : Session) : sock jdict :=
  match attempts with
  | [] => eff_raise (KeiProxySocketError "proxy_error" (rt_exhausted rt) "")
  | attempt :: attempts' => fun s =>
      let retry := _reopen session ≫= decide attempts' rt request in
      match send_object "POST" (rt_path rt) (s_session_id session) (Some request) s with
      | (Raise (KeiProxySocketError cls detail code), s') =>
          if (attempt =? 0)%nat && String.eqb code SESSION_NOT_FOUND then retry s'
          else (Raise (KeiProxySocketError cls detail code), s')
      | (Raise e, s') => (Raise e, s')
      | (Ok response, s') =>
          if negb (json_is_str (jget response "schema") (rt_schema rt) && is_str (jget response "decision"))
          then (Raise (malformed (rt_invalid rt)), s')
          else if (attempt =? 0)%nat && json_is_str (jget response "reason_code") SESSION_NOT_FOUND then retry s'
          else (Ok response, s')
      end
  end.

Definition authorize (session : Session) (g : AuthorizeArgs) : sock jdict :=
  request ← eff_lift (authorize_request session g); decide [0; 1] authorize_route (JObj request) session.

Definition release_credential (session : Session) (g : AuthorizeArgs) : sock jdict :=
  request ← eff_lift (release_request session g); decide [0; 1] release_route (JObj request) session.

(** *** Models *)

Definition selection (agent_id profile_id : option string) : dict string :=
  select_query [("agent_id", agent_id); ("profile_id", profile_id)].

Definition model_config (agent_id profile_id : option string) : sock json :=
  body ← send_object "GET" (with_query "/v1/model-config" (selection agent_id profile_id)) "" None;
  mret (_without_model_secrets (JObj body)).

Definition list_model_profiles (agent_id : option string) : sock (list json) :=
  body ← send_object "GET" (with_query "/v1/model-profiles" (select_query [("agent_id", agent_id)])) "" None;
  match jget body "model_profiles" with
  | JArr profiles => mret (map _without_model_secrets (List.filter is_dict profiles))
  | _ => eff_raise (malformed "the daemon returned no model profile list")
  end.

Definition list_models (agent_id profile_id : option string) : sock (list jdict) :=
  body ← send_object "GET" (with_query "/v1/models" (selection agent_id profile_id)) "" None;
  match jget body "data" with
  | JArr data => mret (omap advertised data)
  | _ => eff_raise (malformed "the daemon returned no model list")
  end.

(** Run a call in a session, reopening it once. *)
Definition _with_session (session : Session) (call : string -> sock http_response) : sock http_response :=
  response ← call (s_session_id session);
  if is_error (status_code response) && String.eqb (_error_code response_json response) SESSION_NOT_FOUND
  then session' ← _reopen session; call (s_session_id session')
  else mret response.

Definition chat_completion (session : Session) (payload : jdict) : sock jdict := fun s =>
  (response ← _with_session session (fun session_id =>
     _send "POST" "/v1/chat/completions" session_id (Some (JObj (dset payload "stream" (JBool false))))
       (_model_timeout (client s)));
   eff_lift (_json_object response_json response)) s.

(** The lines a consumer that reads to the end receives, then the outcome. *)
Fixpoint stream (attempts : list nat) (body : json) (session : Session) (s : t)
  : list string * res sock_error unit * t :=
  match attempts with
  | [] => ([], Ok tt, s)
  | attempt :: attempts' =>
      match _client s with
      | Raise e => ([], Raise e, s)
      | Ok token =>
          let rq := {| rq_method := "POST"; rq_path := "/v1/chat/completions"; rq_bearer := token;
                       rq_session := Some (s_session_id session); rq_body := Some body;
                       rq_timeout := _model_timeout (client s) |} in
          let '(r, w) := http_stream rq (world s) in
          let failed exc := _transport_error exc (_socket_path (client s)) in
          match r with
          | Raise exc => ([], Raise (failed exc), exchanged rq (Raise exc) w s)
          | Ok sr =>
              let seen text := {| status_code := sr_status sr; content := text |} in
              if is_error (sr_status sr) then
                match sr_body sr with
                | Raise exc =>
                    ([], Raise match exc with
                               | HTimeout cls | HError cls | HOSError cls => Unhandled cls "read failed"
                               | HOther cls msg => Unhandled cls msg
                               end, exchanged rq (Raise exc) w s)
                | Ok text =>
                    let code := _error_code response_json (seen text) in
                    let s' := exchanged rq (Ok (seen text)) w s in
                    if (attempt =? 0)%nat && String.eqb code SESSION_NOT_FOUND then
                      match _reopen session s' with
                      | (Raise e, s'') => ([], Raise e, s'')
                      | (Ok session', s'') => stream attempts' body session' s''
                      end
                    else ([], Raise (_status_error (sr_status sr) code), s')
                end
              else
                (List.filter (String.prefix "data:") (sr_lines sr),
                 match sr_end sr with
                 | None => Ok tt
                 | Some (HOSError cls) => Raise (Unhandled cls "read failed")
                 | Some exc => Raise (failed exc)
                 end, exchanged rq (Ok (seen EmptyString)) w s)
          end
      end
  end.

Definition stream_chat_completion (session : Session) (payload : jdict) (s : t) :=
  stream [0; 1] (JObj (dset payload "stream" (JBool true))) session s.

(** *** Status and tools *)

Definition policy_bundle_status : sock jdict :=
  body ← send_object "GET" "/v1/policy-bundle/status" "" None;
  if json_is_str (jget body "schema") POLICY_BUNDLE_STATUS_SCHEMA then mret body
  else eff_raise (malformed "the daemon returned an invalid bundle status").

Definition register_tools (manifest : jdict) : sock jdict := fun s =>
  (response ← _send "POST" "/v1/tools:register" "" (Some (JObj manifest)) (short s);
   eff_lift (_ ← _check_status response_json response;
             if py_truthy_str (content response) then _json_object response_json response else Ok [])) s.
End Methods.
Arguments t : clear implicits.
End KeiProxySocketAuthorizeClient.

(** ** The synchronous adapter *)

Module KeiProxySocketAuthorizationClient.
Module S := KeiProxySocketAuthorizeClient.
Section Adapter.
Context (response_json : string -> option json).
Context {W : Type} (environ : W -> dict string) (http : http_request -> W -> res http_exn http_response * W)
  (others : W -> cache * list exchange -> cache * list exchange).

Record t := { _source : string; socket : S.t W }.

Definition init (source : string) (client : S.t W) : res exn t :=
  if blank source then Raise (Exn ValueError "source must be non-empty")
  else Ok {| _source := source; socket := client |}.

(** Run on the socket client, to completion. *)
Definition _run_blocking {A} (m : eff (S.t W) sock_error A) : eff t sock_error A :=
  eff_zoom socket (fun c a => {| _source := _source a; socket := c |}) m.

Definition no_subject : sock_error :=
  KeiProxySocketError "proxy_error" "no invoking subject to open a session for" "".

(** Open, or reuse, the session of the user and act in it. *)
Definition in_session (user_id : string) (act : Session -> eff (S.t W) sock_error jdict) : eff t sock_error jdict :=
  fun a =>
  if negb (py_truthy_str user_id) then (Raise no_subject, a)
  else _run_blocking (session ← S.open_session response_json environ http others
                                  {| i_source := _source a; i_external_id := user_id |};
                      act session) a.

Definition authorize (user_id : string) (g : AuthorizeArgs) : eff t sock_error jdict :=
  in_session user_id (fun session => S.authorize response_json environ http others session g).

Definition release_credential (user_id : string) (g : AuthorizeArgs) : eff t sock_error jdict :=
  in_session user_id (fun session => S.release_credential response_json environ http others session g).

(** The evaluator's call: the subject, the resources and the workspace are
    accepted and not sent. *)
Definition args_of (q : AuthRequest) (x : AuthContext) : AuthorizeArgs :=
  {| g_tool := q_tool q; g_action := q_action q; g_resource := q_resource q; g_span_id := x_span_id x;
     g_parent_span := x_parent_span x; g_delegation_depth := x_delegation_depth x;
     g_framework := x_framework x; g_tool_args_digest := x_tool_args_digest x;
     g_connector_id := ""; g_capability := "" |}.

Definition client_error_of (e : sock_error) : client_error :=
  match e with
  | KeiProxySocketError cls detail _ => KeiProxyAuthorizeError cls detail
  | SocketValueError msg | Unhandled _ msg => OtherException msg
  end.

Definition authorize_call (q : AuthRequest) (x : option AuthContext) : eff t client_error client_result := fun a =>
  match authorize (q_user_id q) (args_of q (default KeiProxyAuthorizeClient.default_context x)) a with
  | (Ok body, a') => (Ok (RJson (JObj body)), a')
  | (Raise e, a') => (Raise (client_error_of e), a')
  end.

#[global] Instance socket_client : AuthorizationClient t :=
  {| sig_binds := Some (true, true); KeiEvaluator.authorize := authorize_call |}.
End Adapter.
Arguments t : clear implicits.
End KeiProxySocketAuthorizationClient.

(** ** The choice of a client *)

Inductive selected :=
| SocketSelected (source : string) (client : Client)
| SubprocessSelected (config : KeiProxyAuthorizeClient.Config).

(** [format_g] is the [%g] form of a timeout. *)
Definition select_authorization_client (format_g : spec_float -> string) (abspath : string -> string)
    (which : string -> string -> option string) (os_environ : dict string) (source : string)
    (socket_path : option string) (env : option (dict string)) (executable : string) (timeout : spec_float)
    (expected_sha256 : option string) : res exn selected :=
  let source_env := default os_environ env in
  let path := opt_or socket_path (dget_or source_env RUNTIME_SOCKET_PATH_ENV "") in
  if py_truthy_str path then
    if blank source then Raise (Exn ValueError "source must be non-empty")
    else Ok (SocketSelected source (init os_environ (Some path) timeout DEFAULT_MODEL_TIMEOUT env))
  else SubprocessSelected <$>
         KeiProxyAuthorizeClient.init abspath which executable (format_g timeout) source_env [] expected_sha256.
