(* ===== verification/RuntimeSocketFacts.v ===== *)
(** * Properties of the daemon client

    What the session cache may hold whatever other tasks do, what an allowance
    through the daemon rests on, how many requests one decision costs, and what
    is left of model metadata. *)
From Stdlib Require Import ZArith Lia Ascii String SpecFloat.
From stdpp Require Import base tactics list strings gmap.
From S2P Require Import Prelude PyStr PyFloat Json JsonFacts Types AuditTrail Middleware KeiEvaluator RuntimeSocket.

Module S := KeiProxySocketAuthorizeClient.
Module A := KeiProxySocketAuthorizationClient.

Section Facts.
Context (response_json : string -> option json) (is_error : Z -> bool).
Context {W : Type} (environ : W -> dict string) (http : http_request -> W -> res http_exn http_response * W)
  (http_stream : http_request -> W -> res http_exn stream_response * W)
  (others : W -> cache * list exchange -> cache * list exchange).

Implicit Types (s : S.t W) (h : list exchange) (m : cache) (i : Identity).

(** An exchange in which the daemon opened a session for an identity. *)
Definition opens i (session_id : string) (e : exchange) : Prop :=
  rq_method e.1 = "PUT" /\ rq_path e.1 = "/v1/session" /\ rq_body e.1 = Some (S.session_request i) /\
  exists rsp body, e.2 = Ok rsp /\ _json_object response_json rsp = Ok body /\ session_id_of body = Some session_id.

Definition issued h (session : Session) : Prop :=
  exists e, e ∈ h /\ opens (identity session) (s_session_id session) e.

Definition cache_ok h m : Prop :=
  forall k session, m !! k = Some session -> k = session_key session /\ issued h session.

(** The other tasks extend the history and keep the cache to issued sessions. *)
Definition fair : Prop := forall w m h m' h', others w (m, h) = (m', h') ->
  (exists h2, h' = h ++ h2) /\ (cache_ok h m -> cache_ok h' m').

Definition advances s s' : Prop :=
  S.client s' = S.client s /\ (exists h2, S.history s' = S.history s ++ h2) /\
  (cache_ok (S.history s) (S._sessions s) -> cache_ok (S.history s') (S._sessions s')).

#[local] Instance advances_preorder : PreOrder advances.
Proof.
  split.
  - intros s. split_and!; [done | exists []; by rewrite app_nil_r | done].
  - intros s1 s2 s3 (C1 & (h1 & H1) & K1) (C2 & (h2 & H2) & K2). split_and!; [congruence | | auto].
    exists (h1 ++ h2). by rewrite H2, H1, (assoc_L (++)).
Qed.

Definition safe {X} (op : eff (S.t W) sock_error X) : Prop := forall s, advances s (op s).2.

Lemma issued_app h h2 session : issued h session -> issued (h ++ h2) session.
Proof. intros (e & He & Ho). exists e. split; [set_solver | done]. Qed.

Lemma cache_ok_app h h2 m : cache_ok h m -> cache_ok (h ++ h2) m.
Proof. intros H k x Hk. destruct (H k x Hk). eauto using issued_app. Qed.

Lemma cache_ok_delete h m k : cache_ok h m -> cache_ok h (delete k m).
Proof. intros H k' x Hk. apply lookup_delete_Some in Hk as [_ Hk]. eauto. Qed.

Lemma cache_ok_insert h m session : cache_ok h m -> issued h session ->
  cache_ok h (<[session_key session := session]> m).
Proof.
  intros H Hi k x Hk. apply lookup_insert_Some in Hk as [[<- <-]|[_ Hk]]; [done | eauto].
Qed.

Lemma safe_ret {X} (x : X) : safe (mret x).
Proof. intros s. reflexivity. Qed.
Lemma safe_raise {X} (e : sock_error) : safe (eff_raise (A := X) e).
Proof. intros s. reflexivity. Qed.
Lemma safe_lift {X} (r : res sock_error X) : safe (eff_lift r).
Proof. intros s. reflexivity. Qed.
Lemma safe_bind {X Y} (op : eff (S.t W) sock_error X) (f : X -> eff (S.t W) sock_error Y) :
  safe op -> (forall x, safe (f x)) -> safe (op ≫= f).
Proof.
  intros Ho Hf s. unfold mbind, eff_bind. specialize (Ho s).
  destruct (op s) as [[x|e] s1]; [|exact Ho]. etransitivity; [exact Ho | apply Hf].
Qed.
(** Methods that read the client before they act. *)
Lemma safe_read {X Z} (get : S.t W -> Z) (f : Z -> eff (S.t W) sock_error X) :
  (forall z, safe (f z)) -> safe (fun s => f (get s) s).
Proof. intros H s. apply (H (get s) s). Qed.
Lemma safe_set (f : cache -> cache) :
  (forall h m, cache_ok h m -> cache_ok h (f m)) -> safe (eff_modify (S.set_sessions f)).
Proof. intros H s. split_and!; [done | exists []; by rewrite app_nil_r | apply H]. Qed.

Section Fair.
Context (Hfair : fair).

Lemma exchanged_advances rq r w s : advances s (S.exchanged others rq r w s).
Proof.
  unfold S.exchanged. destruct (others w _) as [m h] eqn:Ho. destruct (Hfair _ _ _ _ _ Ho) as [[h2 ->] Hk].
  split_and!; [done | | simpl; intros H; apply Hk; by apply cache_ok_app].
  exists ([(rq, r)] ++ h2). simpl. by rewrite <- (assoc_L (++)).
Qed.

Lemma exchanged_In rq r w s : (rq, r) ∈ S.history (S.exchanged others rq r w s).
Proof.
  unfold S.exchanged. destruct (others w _) as [m h] eqn:Ho.
  destruct (Hfair _ _ _ _ _ Ho) as [[h2 ->] _]. cbn [S.history].
  apply elem_of_app. left. apply elem_of_app. right. apply list_elem_of_here.
Qed.

Lemma send_safe method path sid body timeout : safe (S._send environ http others method path sid body timeout).
Proof.
  intros s. unfold S._send. destruct (S._client environ s); [|reflexivity].
  destruct (http _ _). apply exchanged_advances.
Qed.

Lemma send_object_safe method path sid body : safe (S.send_object response_json environ http others method path sid body).
Proof.
  apply (safe_read S.short (fun t => S._send _ _ _ method path sid body t ≫= fun r => eff_lift (_json_object response_json r))).
  intros t. apply safe_bind; [apply send_safe | intros; apply safe_lift].
Qed.

(** What a request that was answered with an object looks like in the history. *)
Lemma send_object_Ok method path sid body s o s' :
  S.send_object response_json environ http others method path sid body s = (Ok o, s') ->
  exists rq rsp, (rq, Ok rsp) ∈ S.history s' /\ rq_method rq = method /\ rq_path rq = path /\ rq_body rq = body /\
    rq_session rq = (if py_truthy_str sid then Some sid else None) /\ rq_bearer rq <> "" /\
    _json_object response_json rsp = Ok o.
Proof.
  unfold S.send_object, S._send, mbind, eff_bind. unfold S._client.
  destruct (py_truthy_str _) eqn:Ht; [|done]. destruct (http _ _) as [[rsp|exc] w]; [|done].
  intros [= Ho <-]. eexists _, rsp. split; [apply exchanged_In|]. simpl. split_and!; try done.
  by apply py_truthy_str_true in Ht.
Qed.

Lemma forget_safe session : safe (S._forget session).
Proof.
  apply safe_set. intros h m H. destruct (m !! _); [|done]. destruct (String.eqb _ _); [|done].
  by apply cache_ok_delete.
Qed.

Lemma open_session_safe i : safe (S.open_session response_json environ http others i).
Proof.
  intros s. unfold S.open_session. destruct (blank _); [reflexivity|]. destruct (blank _); [reflexivity|].
  destruct (_ !! _); [reflexivity|]. unfold mbind, eff_bind at 1.
  destruct (S.send_object _ _ _ _ _ _ _ _ s) as [[body|e] s1] eqn:Hs;
    pose proof (send_object_safe "PUT" "/v1/session" "" (Some (S.session_request i)) s) as Ha; rewrite Hs in Ha;
    [|exact Ha].
  destruct (session_id_of body) as [sid|] eqn:Hsid; [|exact Ha].
  etransitivity; [exact Ha|]. apply send_object_Ok in Hs as (rq & rsp & Hin & Hm & Hp & Hb & _ & _ & Hj).
  split_and!; [done | exists []; by rewrite app_nil_r|]. intros Hk. apply cache_ok_insert; [done|].
  exists (rq, Ok rsp). split; [done|]. destruct i. split_and!; eauto.
Qed.

Lemma open_session_Ok i s session s' :
  S.open_session response_json environ http others i s = (Ok session, s') ->
  cache_ok (S.history s) (S._sessions s) -> identity session = i /\ issued (S.history s') session.
Proof.
  unfold S.open_session. intros H Hk. destruct (blank _); [done|]. destruct (blank _); [done|].
  destruct (_ !! _) as [c|] eqn:Hc.
  - injection H as <- <-. destruct (Hk _ _ Hc) as [Hkey Hi]. split; [|done].
    destruct i. unfold session_key in Hkey. simpl in Hkey. unfold identity. by injection Hkey as -> ->.
  - unfold mbind, eff_bind at 1 in H.
    destruct (S.send_object _ _ _ _ _ _ _ _ s) as [[body|e] s1] eqn:Hs; [|done].
    destruct (session_id_of body) as [sid|] eqn:Hsid; [|done]. injection H as <- <-.
    apply send_object_Ok in Hs as (rq & rsp & Hin & Hm & Hp & Hb & _ & _ & Hj).
    destruct i. split; [done|]. exists (rq, Ok rsp). split; [done|]. split_and!; eauto.
Qed.

Lemma reopen_safe session : safe (S._reopen response_json environ http others session).
Proof. apply safe_bind; [apply forget_safe | intros; apply open_session_safe]. Qed.

Lemma reopen_Ok stale s session s' :
  S._reopen response_json environ http others stale s = (Ok session, s') ->
  cache_ok (S.history s) (S._sessions s) -> identity session = identity stale /\ issued (S.history s') session.
Proof.
  unfold S._reopen, mbind, eff_bind. intros H Hk. eapply open_session_Ok; [exact H|].
  by apply (forget_safe stale s).
Qed.

Lemma decide_safe ks rt request session : safe (S.decide response_json environ http others ks rt request session).
Proof.
  revert session. induction ks as [|k ks IH]; intros session s; [reflexivity|]. cbn [S.decide].
  pose proof (send_object_safe "POST" (rt_path rt) (s_session_id session) (Some request) s) as Ha.
  assert (Hr : safe (S._reopen response_json environ http others session ≫=
                     S.decide response_json environ http others ks rt request)).
  { apply safe_bind; [apply reopen_safe | apply IH]. }
  destruct (S.send_object _ _ _ _ _ _ _ _ s) as [[o|[]] s1]; simpl in Ha.
  - destruct (negb _); [exact Ha|]. destruct (_ && _); [etransitivity; [exact Ha | apply Hr] | exact Ha].
  - destruct (_ && _); [etransitivity; [exact Ha | apply Hr] | exact Ha].
  - exact Ha.
  - exact Ha.
Qed.

(** A decision received in a session of the given identity. *)
Definition decided (rt : route) (request : json) (session : Session) h (response : jdict) : Prop :=
  exists rq rsp session',
    (rq, Ok rsp) ∈ h /\ rq_method rq = "POST" /\ rq_path rq = rt_path rt /\ rq_body rq = Some request /\
    rq_bearer rq <> "" /\ _json_object response_json rsp = Ok response /\
    jget response "schema" = JStr (rt_schema rt) /\ is_str (jget response "decision") = true /\
    identity session' = identity session /\ (session' = session \/ issued h session') /\
    rq_session rq = (if py_truthy_str (s_session_id session') then Some (s_session_id session') else None).

Lemma decide_Ok ks rt request session s response s' :
  S.decide response_json environ http others ks rt request session s = (Ok response, s') ->
  cache_ok (S.history s) (S._sessions s) -> decided rt request session (S.history s') response.
Proof.
  revert session s. induction ks as [|k ks IH]; intros session s; [done|]. cbn [S.decide]. intros H Hk.
  pose proof (send_object_safe "POST" (rt_path rt) (s_session_id session) (Some request) s) as (_ & _ & Hk1).
  assert (Hretry : forall s1, cache_ok (S.history s1) (S._sessions s1) ->
    (S._reopen response_json environ http others session ≫=
       S.decide response_json environ http others ks rt request) s1 = (Ok response, s') ->
    decided rt request session (S.history s') response).
  { intros s1 Hs1 Hr. unfold mbind, eff_bind in Hr.
    destruct (S._reopen _ _ _ _ session s1) as [[session'|e] s2] eqn:Ho; [|done].
    destruct (reopen_Ok _ _ _ _ Ho Hs1) as [Hid Hi].
    pose proof (reopen_safe session s1) as (_ & _ & Hs2). rewrite Ho in Hs2.
    destruct (decide_safe ks rt request session' s2) as (_ & (h2 & Hh) & _). rewrite Hr in Hh. simpl in Hh.
    destruct (IH _ _ Hr (Hs2 Hs1)) as (rq & rsp & x & Hin & Hm & Hp & Hb & Ht & Hj & Hsc & Hd & Hx & Hor & Hses).
    exists rq, rsp, x. split_and!; try done; [congruence|].
    right. destruct Hor as [->|]; [|done]. rewrite Hh. by apply issued_app. }
  destruct (S.send_object _ _ _ _ _ _ _ _ s) as [[o|[cls detail code| |]] s1] eqn:Hs; simpl in Hk1; try done.
  - destruct (json_is_str _ _ && _) eqn:Hv; [|done]. cbn [negb] in H.
    destruct (_ && _) eqn:Hr in H; [by eapply Hretry, H; auto|]. injection H as <- <-.
    apply send_object_Ok in Hs as (rq & rsp & Hin & Hm & Hp & Hb & Hses & Ht & Hj). py_bool.
    exists rq, rsp, session. split_and!; auto.
    unfold json_is_str in *. destruct (jget o "schema"); try done. py_bool. by subst.
  - destruct (_ && _) in H; [|done]. by eapply Hretry, H; auto.
Qed.

(** A 2xx answer with a schema is a JSON object of the body. *)
Lemma json_object_keys rsp body k v : _json_object response_json rsp = Ok body -> jget body k = JStr v ->
  status_ok rsp = true /\ response_json (content rsp) = Some (JObj body).
Proof.
  unfold _json_object, _check_status. intros H Hk. res_inv. split; [done|].
  destruct (_ || _); [by simplify_eq|]. by destruct (response_json (content rsp)) as [[]|]; simplify_eq.
Qed.

(** *** Sequences of calls *)

Inductive op :=
| OpOpen i | OpClose (session : Session) | OpForget i
| OpAuthorize (session : Session) (g : AuthorizeArgs) | OpRelease (session : Session) (g : AuthorizeArgs)
| OpConfig (agent_id profile_id : option string) | OpProfiles (agent_id : option string)
| OpModels (agent_id profile_id : option string) | OpChat (session : Session) (payload : jdict)
| OpStream (session : Session) (payload : jdict) | OpStatus | OpRegister (manifest : jdict).

Definition run_op s (o : op) : S.t W :=
  match o with
  | OpOpen i => (S.open_session response_json environ http others i s).2
  | OpClose session => (S.close_session response_json environ http others session s).2
  | OpForget i => (S.forget_session i s).2
  | OpAuthorize session g => (S.authorize response_json environ http others session g s).2
  | OpRelease session g => (S.release_credential response_json environ http others session g s).2
  | OpConfig a p => (S.model_config response_json environ http others a p s).2
  | OpProfiles a => (S.list_model_profiles response_json environ http others a s).2
  | OpModels a p => (S.list_models response_json environ http others a p s).2
  | OpChat session payload => (S.chat_completion response_json is_error environ http others session payload s).2
  | OpStream session payload =>
      (S.stream_chat_completion response_json is_error environ http http_stream others session payload s).2
  | OpStatus => (S.policy_bundle_status response_json environ http others s).2
  | OpRegister m => (S.register_tools response_json environ http others m s).2
  end.

Lemma with_session_safe session call : (forall sid, safe (call sid)) ->
  safe (S._with_session response_json is_error environ http others session call).
Proof.
  intros Hc. apply safe_bind; [apply Hc|]. intros rsp. destruct (_ && _); [|apply safe_ret].
  apply safe_bind; [apply reopen_safe | intros; apply Hc].
Qed.

Lemma stream_safe ks body session s :
  advances s (S.stream response_json is_error environ http http_stream others ks body session s).2.
Proof.
  revert session s. induction ks as [|k ks IH]; intros session s; [reflexivity|]. cbn [S.stream].
  destruct (S._client environ s); [|reflexivity]. destruct (http_stream _ _) as [[sr|exc] w]; [|apply exchanged_advances].
  destruct (is_error _); [|apply exchanged_advances]. destruct (sr_body sr); [|apply exchanged_advances].
  destruct (_ && _); [|apply exchanged_advances].
  match goal with |- context [S._reopen _ _ _ _ session ?x] => pose proof (reopen_safe session x) as Hr;
    destruct (S._reopen response_json environ http others session x) as [[session'|e] s1] end; simpl in Hr.
  - etransitivity; [apply exchanged_advances | etransitivity; [exact Hr | apply IH]].
  - etransitivity; [apply exchanged_advances | exact Hr].
Qed.

#[local] Hint Resolve safe_ret safe_raise safe_lift send_safe send_object_safe forget_safe decide_safe : py.
Ltac safe_tac :=
  repeat first [apply safe_bind; [auto with py|intros] | progress auto with py | case_match].

Lemma run_op_advances s o : advances s (run_op s o).
Proof.
  destruct o; simpl.
  - apply open_session_safe.
  - apply (safe_read S.short (fun t => S._forget session ≫= fun _ =>
      S._send environ http others "DELETE" "/v1/session" (s_session_id session) None t ≫= _)).
    intros t. safe_tac.
  - apply safe_set. intros. by apply cache_ok_delete.
  - unfold S.authorize. safe_tac.
  - unfold S.release_credential. safe_tac.
  - unfold S.model_config. safe_tac.
  - unfold S.list_model_profiles. safe_tac.
  - unfold S.list_models. safe_tac.
  - apply (safe_read (fun s => _model_timeout (S.client s)) (fun t => S._with_session response_json is_error environ http others session
      (fun sid => S._send environ http others "POST" "/v1/chat/completions" sid
         (Some (JObj (dset payload "stream" (JBool false)))) t) ≫= _)).
    intros t. apply safe_bind; [|intros; apply safe_lift]. apply with_session_safe. intros. apply send_safe.
  - apply stream_safe.
  - unfold S.policy_bundle_status. safe_tac.
  - apply (safe_read S.short (fun t => S._send environ http others "POST" "/v1/tools:register" ""
      (Some (JObj manifest)) t ≫= _)). intros t. safe_tac.
Qed.

(** C7: the cache only ever holds sessions the daemon issued: from an empty
    cache, through any sequence of calls and whatever fair tasks run in between,
    a cached session sits under its own source and external id, and some
    exchange of the history is the [PUT] of exactly that identity, answered with
    that session identifier; the history is never rewritten. *)
Theorem cache_holds_issued_sessions (ops : list op) s :
  S._sessions s = ∅ ->
  let s' := foldl run_op s ops in
  (exists h2, S.history s' = S.history s ++ h2) /\
  forall k session, S._sessions s' !! k = Some session ->
    k = session_key session /\ issued (S.history s') session.
Proof.
  intros Hs. assert (Ha : advances s (foldl run_op s ops)).
  { clear Hs. revert s. induction ops as [|o ops IH]; intros s; [reflexivity|]. simpl.
    etransitivity; [apply run_op_advances | apply IH]. }
  destruct Ha as (_ & Hh & Hk). split; [done|]. apply Hk. rewrite Hs. intros k x Hx. by rewrite lookup_empty in Hx.
Qed.

(** C5: end to end, a call is allowed only by the daemon and only for its
    subject.  When the evaluator over the socket client allows a call, an
    exchange of the history is an authorize request that carried the token and
    was answered 2xx with a JSON object of the authorize schema whose decision
    is affirmative; it was sent in a session the daemon issued for the client's
    source and the call's subject, and its body is the request of that call. *)
Theorem allow_needs_daemon_decision sha256_hex tool args caller
    (e : @KeiProxyEvaluator.t (A.t W)) d e' :
  let a := KeiProxyEvaluator._client e in
  let q := KeiProxyEvaluator.request e tool args caller in
  cache_ok (S.history (A.socket a)) (S._sessions (A.socket a)) ->
  KeiProxyEvaluator.evaluate (H := A.socket_client response_json environ http others) sha256_hex tool args caller e
    = (Ok d, e') -> d_action d = ALLOW ->
  let h := S.history (A.socket (KeiProxyEvaluator._client e')) in
  exists rq rsp session request body decision ctx,
    (rq, Ok rsp) ∈ h /\ rq_method rq = "POST" /\ rq_path rq = "/v1/authorize" /\ rq_bearer rq <> "" /\
    rq_session rq = Some (s_session_id session) /\
    identity session = {| i_source := A._source a; i_external_id := q_user_id q |} /\ q_user_id q <> "" /\
    issued h session /\
    rq_body rq = Some (JObj request) /\ authorize_request session (A.args_of q ctx) = Ok request /\
    status_ok rsp = true /\ response_json (content rsp) = Some (JObj body) /\
    jget body "schema" = JStr AUTHORIZE_RESPONSE_SCHEMA /\ jget body "decision" = JStr decision /\
    str_in (py_lower (py_strip decision)) AFFIRMATIVE_DECISIONS = true.
Proof.
  intros a q Hk He Ha h. unfold KeiProxyEvaluator.evaluate, KeiProxyEvaluator._authorize in He. cbn zeta in He.
  fold q a in He. set (ctx := KeiProxyEvaluator.audit_context _ _ _ _ _) in He.
  cbn [sig_binds A.socket_client KeiEvaluator.authorize default] in He.
  unfold A.authorize_call, A.authorize, A.in_session in He.
  destruct (py_truthy_str (q_user_id q)) eqn:Hu; cbn [negb] in He; [|by simplify_eq/=].
  apply py_truthy_str_true in Hu. unfold A._run_blocking, eff_zoom, mbind, eff_bind in He. cbn [default] in He.
  destruct (S.open_session _ _ _ _ _ _) as [[session|err] s1] eqn:Ho; [|by destruct err; simplify_eq/=].
  destruct (open_session_Ok _ _ _ _ Ho Hk) as [Hid Hiss].
  pose proof (open_session_safe {| i_source := A._source a; i_external_id := q_user_id q |} (A.socket a)) as (_ & _ & Hk1).
  rewrite Ho in Hk1. specialize (Hk1 Hk). simpl in Hk1.
  unfold S.authorize, mbind, eff_bind, eff_lift in He.
  destruct (authorize_request session _) as [request|err] eqn:Hrq; [|by destruct err; simplify_eq/=].
  pose proof (decide_safe [0; 1] authorize_route (JObj request) session s1) as (_ & (h2 & Hh) & _).
  destruct (S.decide _ _ _ _ _ _ _ _ s1) as [[body|err] s2] eqn:Hd; [|by destruct err; simplify_eq/=].
  apply decide_Ok in Hd as (rq & rsp & x & Hin & Hm & Hp & Hb & Ht & Hj & Hsc & Hds & Hx & Hor & Hses); [|done].
  simpl in He, Hh. injection He as <- <-. subst h. simpl.
  destruct (json_object_keys _ _ _ _ Hj Hsc) as [Hst Hrj].
  destruct (jget body "decision") as [| | | |decision| |] eqn:Hdec; try done.
  rewrite KeiProxyEvaluator.translate_action in Ha. unfold KeiProxyEvaluator.normal_decision in Ha.
  cbn [a_decision] in Ha. destruct (str_in _ AFFIRMATIVE_DECISIONS) eqn:Haff; [|done].
  assert (Hxi : issued (S.history s2) x).
  { destruct Hor as [->|]; [|done]. rewrite Hh. by apply issued_app. }
  assert (Hne : s_session_id x <> "").
  { destruct Hxi as (ex & _ & _ & _ & _ & rsp' & body' & _ & _ & Hsid). unfold session_id_of in Hsid.
    destruct (jget body' "session_id"); try done. destruct (_ && _) eqn:Hv; [|done]. py_bool.
    injection Hsid as <-. by apply py_truthy_str_true. }
  apply py_truthy_str_true in Hne as Hne'. rewrite Hne' in Hses.
  assert (Hreq : authorize_request x (A.args_of q ctx) = Ok request).
  { unfold authorize_request in *. replace (named x) with (named session); [exact Hrq|].
    unfold named. assert (Hids : identity x = identity session) by done. unfold identity in Hids. injection Hids as -> ->.
    assert (Hns : named session = true) by (by res_inv). unfold named in Hns. py_bool. congruence. }
  exists rq, rsp, x, request, body, decision, ctx. split_and!; try done.
  exact (eq_trans Hx Hid).
Qed.
End Fair.

(** ** The cost of a decision, when no other task runs *)

Definition alone : Prop := forall w p, others w p = p.

Definition is_post (rt : route) (request : json) (rq : http_request) : Prop :=
  rq_method rq = "POST" /\ rq_path rq = rt_path rt /\ rq_body rq = Some request.
Definition is_put i (rq : http_request) : Prop :=
  rq_method rq = "PUT" /\ rq_path rq = "/v1/session" /\ rq_body rq = Some (S.session_request i).

(** The requests a call may have made: none, one, a retry served from the cache,
    or a reopened session and a retry. *)
Inductive decision_trace (rt : route) (request : json) i : list http_request -> Prop :=
| trace_none : decision_trace rt request i []
| trace_post p : is_post rt request p -> decision_trace rt request i [p]
| trace_cached p p' : is_post rt request p -> is_post rt request p' -> decision_trace rt request i [p; p']
| trace_put p u : is_post rt request p -> is_put i u -> decision_trace rt request i [p; u]
| trace_retry p u p' : is_post rt request p -> is_put i u -> is_post rt request p' ->
    decision_trace rt request i [p; u; p'].

Section Alone.
Context (Halone : alone).

Lemma send_object_alone method path sid body s :
  let '(r, s') := S.send_object response_json environ http others method path sid body s in
  (S.history s' = S.history s /\ S._sessions s' = S._sessions s /\ exists d, r = Raise (KeiProxySocketError "missing_token" d "")) \/
  exists rq o, S.history s' = S.history s ++ [(rq, o)] /\ rq_method rq = method /\ rq_path rq = path /\ rq_body rq = body.
Proof.
  unfold S.send_object, S._send, S._client, mbind, eff_bind.
  destruct (py_truthy_str _); [|left; eauto]. destruct (http _ _) as [[rsp|exc] w].
  - right. unfold S.exchanged. rewrite Halone. simpl. eauto 10.
  - right. unfold S.exchanged. rewrite Halone. simpl. eauto 10.
Qed.

Lemma reopen_alone session s :
  let '(r, s') := S._reopen response_json environ http others session s in
  exists new, S.history s' = S.history s ++ new /\
    (new = [] \/ exists rq o, new = [(rq, o)] /\ is_put (identity session) rq).
Proof.
  unfold S._reopen, S._forget, eff_modify, mbind, eff_bind at 1. unfold S.open_session.
  destruct (blank _); [exists []; rewrite app_nil_r; simpl; auto|].
  destruct (blank _); [exists []; rewrite app_nil_r; simpl; auto|].
  destruct (_ !! _); [exists []; rewrite app_nil_r; simpl; auto|].
  unfold mbind, eff_bind at 1.
  match goal with |- context [S.send_object _ _ _ _ ?m ?p ?i ?b ?x] =>
    pose proof (send_object_alone m p i b x) as Ha; destruct (S.send_object response_json environ http others m p i b x) as [[o|e] s1] end.
  - destruct Ha as [(_ & _ & d & ?)|(rq & r & Hh & Hm & Hp & Hb)]; [done|].
    destruct (session_id_of o); simpl; exists [(rq, r)]; (split; [done|]); right; exists rq, r; by destruct session.
  - destruct Ha as [(Hh & _ & d & ?)|(rq & r & Hh & Hm & Hp & Hb)].
    + exists []. rewrite app_nil_r. auto.
    + exists [(rq, r)]. split; [done|]. right. exists rq, r. by destruct session.
Qed.

Lemma decide_last_alone rt request session s : exists new,
  S.history (S.decide response_json environ http others [1] rt request session s).2 = S.history s ++ new /\
  (new = [] \/ exists p o, new = [(p, o)] /\ is_post rt request p).
Proof.
  cbn [S.decide Nat.eqb andb].
  pose proof (send_object_alone "POST" (rt_path rt) (s_session_id session) (Some request) s) as Ha.
  destruct (S.send_object _ _ _ _ _ _ _ _ s) as [[o|[]] s1]; simpl;
    (destruct Ha as [(Hh & _ & d & ?)|(rq & r & Hh & Hm & Hp & Hb)];
     [try done; exists []; rewrite app_nil_r, Hh; auto
     |exists [(rq, r)]; split; [by repeat case_match | right; exists rq, r; done]]).
Qed.

(** A decision costs at most three requests: whatever the daemon answers,
    [authorize] and [release_credential] (when no other task runs) send their
    request at most twice, unchanged, with at most one [PUT] of the same identity
    in between, and nothing at all when an argument check fails. *)
Lemma decision_costs_three_requests rt request session s : exists new,
  S.history (S.decide response_json environ http others [0; 1] rt request session s).2 = S.history s ++ new /\
  decision_trace rt request (identity session) (map fst new).
Proof.
  cbn [S.decide]. cbn [Nat.eqb andb].
  pose proof (send_object_alone "POST" (rt_path rt) (s_session_id session) (Some request) s) as Ha.
  assert (Hretry : forall s1 rq r, S.history s1 = S.history s ++ [(rq, r)] -> is_post rt request rq ->
    exists new, S.history ((S._reopen response_json environ http others session ≫=
      S.decide response_json environ http others [1] rt request) s1).2 = S.history s ++ new /\
    decision_trace rt request (identity session) (map fst new)).
  { intros s1 rq r Hh Hp. unfold mbind, eff_bind. pose proof (reopen_alone session s1) as Hr.
    destruct (S._reopen _ _ _ _ session s1) as [[session'|e] s2]; destruct Hr as (new & Hn & Hnew).
    - destruct (decide_last_alone rt request session' s2) as (last & Hl & Hlast). rewrite Hl, Hn, Hh, <- !(assoc_L (++)).
      eexists. split; [done|].
      destruct Hnew as [->|(u & o & -> & Hu)], Hlast as [->|(p' & o' & -> & Hp')]; simpl; by constructor.
    - simpl. rewrite Hn, Hh, <- (assoc_L (++)). eexists. split; [done|].
      destruct Hnew as [->|(u & o & -> & Hu)]; simpl; by constructor. }
  destruct (S.send_object _ _ _ _ _ _ _ _ s) as [[o|[cls d code| |]] s1];
    (destruct Ha as [(Hh & _ & det & He)|(rq & r & Hh & Hp)];
     [try done; injection He as -> -> ->; cbn; exists []; rewrite app_nil_r; by eauto using trace_none|]).
  - destruct (negb _); [exists [(rq, r)]; split; [done | by constructor]|].
    destruct (json_is_str _ _); [by eapply Hretry | exists [(rq, r)]; split; [done | by constructor]].
  - destruct (String.eqb _ _); [by eapply Hretry | exists [(rq, r)]; split; [done | by constructor]].
  - exists [(rq, r)]; split; [done | by constructor].
  - exists [(rq, r)]; split; [done | by constructor].
Qed.
End Alone.

(** ** Model metadata *)

Inductive segment := Key (k : string) | Index (n : nat).

(** What a path of keys and indices leads to. *)
Fixpoint json_at (path : list segment) (v : json) : option json :=
  match path, v with
  | [], _ => Some v
  | Key k :: path', JObj d => x ← dget d k; json_at path' x
  | Index n :: path', JArr l => x ← l !! n; json_at path' x
  | _, _ => None
  end.

Definition secret_segment (s : segment) : bool := match s with Key k => str_in k model_secrets | Index _ => false end.

Lemma dget_without_secrets d k : exists d', _without_model_secrets (JObj d) = JObj d' /\
  dget d' k = if str_in k model_secrets then None else _without_model_secrets <$> dget d k.
Proof.
  eexists. split; [reflexivity|]. induction d as [|[k0 v0] d IH]; simpl; [by destruct (str_in _ _)|].
  destruct (str_in k0 model_secrets) eqn:H0; simpl; destruct (String.eqb_spec k k0) as [->|Hk]; rewrite ?H0 in *; try done.
Qed.

(** Credentials are removed from model metadata, and only they: every path
    through a forbidden key leads nowhere, and every other path leads to what it
    led to before, itself cleaned. *)
Lemma secrets_removed_only path (v : json) :
  json_at path (_without_model_secrets v) =
    if existsb secret_segment path then None else _without_model_secrets <$> json_at path v.
Proof.
  revert v. induction path as [|[k|n] path IH]; intros v; [done| |]; simpl.
  - destruct v; try (by destruct (str_in k model_secrets), (existsb secret_segment path)).
    destruct (dget_without_secrets d k) as (d' & -> & Hk). simpl. rewrite Hk.
    destruct (str_in k model_secrets); simpl; [done|]. destruct (dget d k); simpl; [apply IH|].
    by destruct (existsb secret_segment path).
  - destruct v; simpl; try (by destruct (existsb secret_segment path)).
    rewrite list_lookup_fmap. destruct (l !! n); simpl; [apply IH|]. by destruct (existsb secret_segment path).
Qed.
End Facts.

(** ** A daemon that forgets its first session *)

Module Example.
Definition respond (status : Z) (body : string) : res http_exn http_response :=
  Ok {| status_code := status; content := jq body |}.
Definition daemon (rq : http_request) (n : nat) : res http_exn http_response * nat :=
  if String.eqb (rq_method rq) "PUT" then
    (respond 200 (cats_str ["{'schema': 'kei.session/v2', 'session_id': 's"; int_str (Z.of_nat n); "'}"]), S n)
  else match rq_session rq with
       | Some sid => if String.eqb sid "s0" then (respond 404 "{'error': {'code': 'session_not_found'}}", n)
                     else (respond 200 "{'schema': 'kei.authorize-response/v1', 'decision': 'Permit'}", n)
       | None => (respond 401 "", n)
       end.
Definition no_stream (rq : http_request) (n : nat) : res http_exn stream_response * nat := (Raise (HTimeout "x"), n).
(** Another task keeps closing bob's session. *)
Definition closer (n : nat) (p : cache * list exchange) : cache * list exchange :=
  (delete ("discord", "bob") p.1, p.2).
Definition environ (n : nat) : dict string := [(BOOTSTRAP_TOKEN_ENV, "tok")].
Definition start : S.t nat :=
  {| S.client := init [] None DEFAULT_SOCKET_TIMEOUT DEFAULT_MODEL_TIMEOUT None; S._sessions := ∅; S.world := 0; S.history := [] |}.

Lemma closer_fair : fair json_loads closer.
Proof. intros w m h m' h' [= <- <-]. split; [exists []; by rewrite app_nil_r | apply cache_ok_delete]. Qed.

Definition alice : Identity := {| i_source := "discord"; i_external_id := "alice" |}.
Definition alice0 : Session := {| s_source := "discord"; s_external_id := "alice"; s_session_id := "s0" |}.
Definition read_args : AuthorizeArgs := Build_AuthorizeArgs "read" "" "" "" "" 0 "" "" "" "".

Lemma cache_holds_issued_sessions_witness :
  let s' := foldl (run_op json_loads (fun z => (400 <=? z)%Z) environ daemon no_stream closer) start
              [OpOpen alice; OpAuthorize alice0 read_args; OpOpen {| i_source := "discord"; i_external_id := "bob" |}] in
  map_to_list (S._sessions s') = [(("discord", "alice"), {| s_source := "discord"; s_external_id := "alice"; s_session_id := "s1" |});
                                  (("discord", "bob"), {| s_source := "discord"; s_external_id := "bob"; s_session_id := "s2" |})] /\
  forall k session, S._sessions s' !! k = Some session -> k = session_key session /\ issued json_loads (S.history s') session.
Proof.
  intros s'. split; [vm_compute; reflexivity|].
  exact (proj2 (cache_holds_issued_sessions json_loads (fun z => (400 <=? z)%Z) environ daemon no_stream closer closer_fair
    [OpOpen alice; OpAuthorize alice0 read_args; OpOpen {| i_source := "discord"; i_external_id := "bob" |}] start eq_refl)).
Defined.

Lemma decision_costs_three_requests_witness :
  let s := {| S.client := S.client start; S._sessions := {[("discord", "alice") := alice0]}; S.world := 1; S.history := [] |} in
  let s' := (S.decide json_loads environ daemon (fun _ p => p) [0; 1] authorize_route (JObj []) alice0 s).2 in
  map (fun e => rq_method e.1) (S.history s') = ["POST"; "PUT"; "POST"] /\
  exists new, S.history s' = S.history s ++ new /\
    decision_trace authorize_route (JObj []) (identity alice0) (map fst new).
Proof.
  intros s s'. split; [vm_compute; reflexivity|].
  exact (decision_costs_three_requests json_loads environ daemon (fun _ p => p) (fun _ _ => eq_refl)
    authorize_route (JObj []) alice0 s).
Defined.

Definition evaluator : KeiProxyEvaluator.t (A.t nat) :=
  {| KeiProxyEvaluator._client := {| A._source := "discord"; A.socket := start |};
     KeiProxyEvaluator._default_action := "execute"; KeiProxyEvaluator.now := DT 0 None |}.
#[local] Instance client_instance : AuthorizationClient (A.t nat) := A.socket_client json_loads environ daemon closer.
Definition bob : CallerContext :=
  match delegate CallerContext_default "" {| ov_user_id := Some "bob"; ov_session_id := None; ov_role := None; ov_source := None;
    ov_trusted := None; ov_metadata := None; ov_invoking_subject := None; ov_parent_span := None; ov_delegation_depth := None;
    ov_span_id := None; ov_agent_version := None; ov_framework := None; ov_workspace_id := None; ov_other := [] |}
  with Ok c => c | Raise _ => CallerContext_default end.

Lemma allow_needs_daemon_decision_witness :
  let '(r, e') := KeiProxyEvaluator.evaluate (fun x => x) "ls" [] bob evaluator in
  exists d, r = Ok d /\ d_action d = ALLOW /\
  let h := S.history (A.socket (KeiProxyEvaluator._client e')) in
  exists rq rsp session, (rq, Ok rsp) ∈ h /\ rq_session rq = Some (s_session_id session) /\
    identity session = {| i_source := "discord"; i_external_id := "bob" |} /\ issued json_loads h session.
Proof.
  destruct (KeiProxyEvaluator.evaluate (fun x => x) "ls" [] bob evaluator) as [r e'] eqn:He.
  assert (Hr : exists d, r = Ok d /\ d_action d = ALLOW).
  { apply (f_equal fst) in He. simpl fst in He. rewrite <- He. eexists. split; [vm_compute; reflexivity|]. reflexivity. }
  destruct Hr as (d & -> & Ha). exists d. split; [reflexivity|]. split; [exact Ha|].
  destruct (allow_needs_daemon_decision json_loads environ daemon closer closer_fair (fun x => x) "ls" [] bob evaluator d e')
    as (rq & rsp & session & request & body & decision & ctx & H1 & _ & _ & _ & H2 & H3 & _ & H4 & _).
  - intros k x Hk. discriminate Hk.
  - exact He.
  - exact Ha.
  - exists rq, rsp, session. split; [exact H1|]. split; [exact H2|]. split; [exact H3|]. exact H4.
Defined.
End Example.
