(* ===== verification/McpRoute.v ===== *)
(** * The client of the kei-proxy MCP route

    [kei/mcproute.py]: error classes, tool descriptors and results, the choice of
    a transport (never a remote host), one JSON-RPC call, the event-stream reader
    and the two methods over it.

    Parameters: [http] (one POST by httpx to a target), [lstat] and [getuid], the
    environment, and whether the interpreter looks through IPv4-mapped addresses.
    The client keeps no state; [dials] is the history of the requests made. *)
From Stdlib Require Import ZArith Lia Ascii String SpecFloat.
From stdpp Require Import base tactics list strings.
From S2P Require Import Prelude PyStr PyFloat PyUrl PyBytes Json JsonFacts Types.

Definition SOCKET_PATH_ENV := "KEI_RUNTIME_SOCKET_PATH".
Definition ROUTE_KEY_ENV := "KEI_MCP_ROUTE_KEY".
Definition DEFAULT_LOOPBACK_PORT := "8080".
Definition MCP_ROUTE_PREFIX := "/mcp/".
Definition MAX_RESPONSE_BYTES : N := 8388608.
Definition CODE_UNAUTHENTICATED : Z := -31401.
Definition CODE_DENIED : Z := -31403.
Definition CODE_MANIFEST : Z := -31409.
Definition CODE_UPSTREAM : Z := -31502.
Definition CODE_HEADER_MISMATCH : Z := -32020.
Definition _BASE_URL := "http://kei-mcp".

(** ** Errors *)

Inductive route_class :=
| RouteErrorClass | SessionEndedError | PolicyDeniedError | ManifestDriftError | UpstreamError | HeaderMismatchError.
#[global] Instance route_class_eq_dec : EqDecision route_class.
Proof. solve_decision. Defined.

(** The fields come from a decoded document. *)
Record route_error := RouteError {
  re_class : route_class; re_code : json; re_message : json; re_reason : json; re_decision_id : json }.

Definition _default_code (c : route_class) : Z :=
  match c with
  | RouteErrorClass => 0
  | SessionEndedError => CODE_UNAUTHENTICATED
  | PolicyDeniedError => CODE_DENIED
  | ManifestDriftError => CODE_MANIFEST
  | UpstreamError => CODE_UPSTREAM
  | HeaderMismatchError => CODE_HEADER_MISMATCH
  end%Z.

(** [RouteError.__init__]: a zero code stands for the class's own. *)
Definition new_route_error (c : route_class) (code message reason decision_id : json) : route_error :=
  let code := if py_eq code (JInt 0) && negb (_default_code c =? 0)%Z then JInt (_default_code c) else code in
  RouteError c code message reason decision_id.

Definition route_error_str (e : route_error) : string :=
  let s := str_join ["mcp route error "; py_str (re_code e); " ("; py_str (re_message e); ")"] in
  if py_truthy (re_reason e) then
    let s := str_join [s; ": "; py_str (re_reason e)] in
    if py_truthy (re_decision_id e) then str_join [s; " ["; py_str (re_decision_id e); "]"] else s
  else s.

Definition _CODE_MAP : list (Z * route_class) :=
  [(CODE_UNAUTHENTICATED, SessionEndedError); (CODE_DENIED, PolicyDeniedError); (CODE_MANIFEST, ManifestDriftError);
   (CODE_UPSTREAM, UpstreamError); (CODE_HEADER_MISMATCH, HeaderMismatchError)].

Inductive wire_exn :=
| ConnectError (msg : string)
| RemoteProtocolError (msg : string)
| WireOSError (msg : string)
| OtherHTTPError (cls msg : string)
| NotHTTP (cls msg : string).

Inductive mcp_error :=
| MCPRouteError (msg : string)
| RouteNotLocalError
| Structured (e : route_error)
| WireExn (e : wire_exn)
| UnicodeDecodeError
| PyExn (e : exn).

Definition py_to_mcp {A} (r : res exn A) : res mcp_error A :=
  match r with Ok a => Ok a | Raise e => Raise (PyExn e) end.

(** A code that cannot be a dictionary key raises in the lookup. *)
Definition _route_error_from_code (code message reason decision_id : json) : res mcp_error route_error :=
  _ ← py_to_mcp (any_hash code);
  let c := match List.find (fun p => py_eq code (JInt p.1)) _CODE_MAP with
           | Some (_, c) => c
           | None => RouteErrorClass
           end in
  Ok (new_route_error c code message reason decision_id).

(** The exception an [error] object stands for. *)
Definition error_of_object (err : jdict) : res mcp_error route_error :=
  let '(reason, decision_id) :=
    match jget err "data" with
    | JObj data => (jget_or data "reason" (JStr ""), jget_or data "decision_id" (JStr ""))
    | _ => (JStr "", JStr "")
    end in
  _route_error_from_code (jget_or err "code" (JInt 0)) (jget_or err "message" (JStr "")) reason decision_id.

Definition loads {A} (raw : string) (not_json : res mcp_error A) (f : json -> res mcp_error A) : res mcp_error A :=
  match json_loads_bytes raw with
  | Ok v => f v
  | Raise NotJSON => not_json
  | Raise NotText => Raise UnicodeDecodeError
  end.

Definition _parse_route_error (raw : string) : res mcp_error (option route_error) :=
  loads raw (Ok None) (fun v =>
    match v with
    | JObj body => match jget body "error" with JObj err => Some <$> error_of_object err | _ => Ok None end
    | _ => Ok None
    end).

(** ** Tools *)

Record ToolDescriptor := { td_name : json; td_description : json; td_input_schema : json }.
Record ContentBlock := { cb_type : json; cb_text : json }.
Record ToolResult := { tr_content : list ContentBlock; tr_is_error : bool }.

Definition any_or (a b : json) : json := if py_truthy a then a else b.

Definition descriptor_from_dict (t : json) : res exn ToolDescriptor :=
  match t with
  | JObj d =>
      Ok {| td_name := jget_or d "name" (JStr ""); td_description := jget_or d "description" (JStr "");
            td_input_schema := any_or (any_or (jget d "inputSchema") (jget_or d "input_schema" (JObj []))) (JObj []) |}
  | _ => attr_error "object has no attribute 'get'"
  end.

Definition block_from (c : json) : ContentBlock :=
  match c with
  | JObj d => {| cb_type := jget_or d "type" (JStr ""); cb_text := jget_or d "text" (JStr "") |}
  | _ => {| cb_type := JStr "text"; cb_text := JStr (py_str c) |}
  end.

Definition result_from_dict (d : jdict) : ToolResult :=
  {| tr_content := match jget_or d "content" (JArr []) with JArr l => map block_from l | _ => [] end;
     tr_is_error := py_truthy (jget_or d "isError" (JBool false)) |}.

(** ** Where a request may go *)

Record stat := { st_is_socket : bool; st_uid : Z; st_mode : Z }.

(** Owned by the user, or not writable by group or others. *)
Definition _validate_socket (lstat : string -> option stat) (getuid : option Z) (path : string) : bool :=
  match lstat path with
  | None => false
  | Some st =>
      if negb (st_is_socket st) then false
      else match getuid with
           | None => true
           | Some own => (st_uid st =? own)%Z || (Z.land (st_mode st) 18 =? 0)%Z
           end
  end.

Inductive target :=
| InjectedTransport
| BaseUrl (url : string)
| UnixSocket (path : string)
| LoopbackTCP (host port : string).

Record dial := {
  d_target : target; d_path : string; d_body : string; d_headers : list (string * string); d_timeout : spec_float }.

Record Response := { status_code : Z; content : string; content_type : string }.

Record Client := {
  _slug : string; _base_url : string; _socket_path : option string; _timeout : spec_float; _sse_timeout : spec_float;
  _env : option (dict string); _transport : bool }.

Definition init (slug base_url : string) (socket_path : option string) (timeout sse_timeout : spec_float)
    (env : option (dict string)) (transport : bool) : res exn Client :=
  if py_truthy_str slug
  then Ok {| _slug := slug; _base_url := base_url; _socket_path := socket_path; _timeout := timeout;
             _sse_timeout := sse_timeout; _env := env; _transport := transport |}
  else Raise (Exn ValueError "slug is required").

Definition exn_text (e : wire_exn) : string :=
  match e with
  | ConnectError m | RemoteProtocolError m | WireOSError m | OtherHTTPError _ m | NotHTTP _ m => m
  end.
Definition transport_error (e : wire_exn) : mcp_error := MCPRouteError (String.append "mcp route: transport: " (exn_text e)).
(** [httpx.HTTPError] and its subclasses. *)
Definition is_http_error (e : wire_exn) : bool :=
  match e with ConnectError _ | RemoteProtocolError _ | OtherHTTPError _ _ => true | _ => false end.
(** What discovery goes on after. *)
Definition tries_next (e : wire_exn) : bool :=
  match e with ConnectError _ | RemoteProtocolError _ | WireOSError _ => true | _ => false end.

Definition _is_loopback (mapped : bool) (host : string) : bool := is_loopback_address mapped host.

(** [url.rstrip("/")]. *)
Definition rstrip_slash (s : string) : string :=
  str_rev (lstrip_chars (fun a => Ascii.eqb a "/") (str_rev s)).

Definition _build_url (c : Client) : string := String.append MCP_ROUTE_PREFIX (quote (_slug c)).

(** [json.dumps(...).encode()] of a call. *)
Definition request_body (request_id : Z) (method : string) (params : option jdict) : string :=
  json_dumps default_style (JObj [("jsonrpc", JStr "2.0"); ("id", JInt request_id); ("method", JStr method);
    ("params", match params with Some p => JObj p | None => JNull end)]).

Definition call_headers (route_key method tool_name : string) : list (string * string) :=
  [("Authorization", String.append "Bearer " route_key); ("Content-Type", "application/json");
   ("MCP-Protocol-Version", "2026-07-28"); ("Mcp-Method", method)]
  ++ if py_truthy_str tool_name then [("Mcp-Name", tool_name)] else [].

(** ** Reading an answer *)

(** The lines of an event stream: [data_buf] holds the data of the event being
    read; the first event whose data is an object with an [id] is the answer. *)
Fixpoint read_events (data_buf : list string) (lines : list string) : res mcp_error json :=
  match lines with
  | [] => Raise (MCPRouteError "mcp route: sse stream ended without a response")
  | line :: lines' =>
      let line_stripped := py_strip line in
      if String.prefix "data:" line_stripped then
        read_events (data_buf ++ [py_strip (str_drop 5 line_stripped)]) lines'
      else if String.eqb line_stripped "" && negb (bool_decide (data_buf = [])) then
        match json_loads (str_join data_buf) with
        | Some (JObj msg) =>
            match jget msg "id" with
            | JNull => read_events [] lines'
            | _ => Ok (jget msg "result")
            end
        | _ => read_events [] lines'
        end
      else read_events data_buf lines'
  end.
Definition _read_sse (body : string) (expected_id : Z) : res mcp_error json :=
  read_events [] (py_split "010" (decode_replace body)).

Definition raise_parsed {A} (raw : string) (otherwise : mcp_error) : res mcp_error A :=
  re ← _parse_route_error raw;
  Raise match re with Some e => Structured e | None => otherwise end.

Definition http_error (status : Z) : mcp_error := MCPRouteError (String.append "mcp route: HTTP " (int_str status)).

(** What [call] makes of the response. *)
Definition interpret (r : Response) (request_id : Z) : res mcp_error json :=
  if (status_code r =? 401)%Z then
    raise_parsed (content r) (Structured (new_route_error SessionEndedError (JInt CODE_UNAUTHENTICATED)
      (JStr "session ended — the route key expired or was revoked") (JStr "") (JStr "")))
  else if (status_code r =? 403)%Z then raise_parsed (content r) (http_error 403)
  else if py_in "text/event-stream" (content_type r) then _read_sse (content r) request_id
  else
    let raw := bytes_take MAX_RESPONSE_BYTES (content r) in
    if ((status_code r <? 200) || (299 <? status_code r))%Z then raise_parsed raw (http_error (status_code r))
    else
      loads raw (Raise (MCPRouteError "mcp route: decode response: invalid JSON")) (fun v =>
        match v with
        | JObj rpc =>
            match dget rpc "error" with
            | Some (JObj err) => e ← error_of_object err; Raise (Structured e)
            | Some err => Raise (Structured (new_route_error RouteErrorClass (JInt 0) (JStr (py_str err)) (JStr "") (JStr "")))
            | None => Ok (jget rpc "result")
            end
        | _ => Raise (MCPRouteError "mcp route: decode response: not a JSON object")
        end).

(** ** The client *)

Section Client.
Context {W : Type} (http : dial -> W -> res wire_exn Response * W) (environ : W -> dict string)
  (lstat : W -> string -> option stat) (getuid : option Z) (netloc_ok : string -> bool) (mapped : bool).

Record world := { w_state : W; dials : list dial }.

Definition _lookup (c : Client) (w : world) (key : string) : string :=
  dget_or (default (environ (w_state w)) (_env c)) key "".

Definition socket_path (c : Client) (w : world) : string :=
  match _socket_path c with
  | Some p => str_or p (_lookup c w SOCKET_PATH_ENV)
  | None => _lookup c w SOCKET_PATH_ENV
  end.

Definition post (t : target) (url_path body : string) (headers : list (string * string)) (timeout : spec_float)
  : eff world wire_exn Response := fun w =>
  let d := {| d_target := t; d_path := url_path; d_body := body; d_headers := headers; d_timeout := timeout |} in
  let '(r, s) := http d (w_state w) in (r, {| w_state := s; dials := dials w ++ [d] |}).

(** One target, whose httpx errors become the route's. *)
Definition post_only (t : target) url_path body headers timeout : eff world mcp_error Response := fun w =>
  match post t url_path body headers timeout w with
  | (Ok r, w') => (Ok r, w')
  | (Raise e, w') => (Raise (if is_http_error e then transport_error e else WireExn e), w')
  end.

(** The URL of a TCP target is built from its host as it is. *)
Definition url_for (t : target) (url_path : string) : string :=
  match t with
  | LoopbackTCP host port => str_join ["http://"; host; ":"; port; url_path]
  | _ => url_path
  end.

(** Target after target, while the connection fails. *)
Fixpoint discover (targets : list target) (last_error : option wire_exn) url_path body headers timeout
  : eff world mcp_error Response := fun w =>
  match targets with
  | [] => (Raise match last_error with
                 | Some e => transport_error e
                 | None => MCPRouteError "mcp route: no transport available"
                 end, w)
  | t :: targets' =>
      match post t (url_for t url_path) body headers timeout w with
      | (Ok r, w') => (Ok r, w')
      | (Raise e, w') =>
          if tries_next e then discover targets' (Some e) url_path body headers timeout w' else (Raise (WireExn e), w')
      end
  end.

(** The socket when it is safe, then the two loopback addresses. *)
Definition discovery_targets (c : Client) (w : world) : list target :=
  let p := socket_path c w in
  (if py_truthy_str p && _validate_socket (lstat (w_state w)) getuid p then [UnixSocket p] else [])
  ++ [LoopbackTCP "127.0.0.1" DEFAULT_LOOPBACK_PORT; LoopbackTCP "::1" DEFAULT_LOOPBACK_PORT].

(** A base URL whose host is named must be loopback. *)
Definition base_url_local (url : string) : option bool :=
  match urlsplit netloc_ok url with
  | None => None
  | Some (scheme, _, host) =>
      Some (negb (py_truthy_str host && negb (_is_loopback mapped host) && negb (String.eqb scheme "unix")))
  end.

Definition _send (c : Client) (url_path body : string) (headers : list (string * string)) : eff world mcp_error Response :=
  fun w =>
  if _transport c then post_only InjectedTransport url_path body headers (_timeout c) w
  else if py_truthy_str (_base_url c) then
    match base_url_local (_base_url c) with
    | None => (Raise (PyExn (Exn ValueError "Invalid URL")), w)
    | Some false => (Raise RouteNotLocalError, w)
    | Some true => post_only (BaseUrl (rstrip_slash (_base_url c))) url_path body headers (_timeout c) w
    end
  else discover (discovery_targets c w) None url_path body headers (_timeout c) w.

(** [request_id] is [int(time.time() * 1000)]. *)
Definition call (c : Client) (request_id : Z) (method tool_name : string) (params : option jdict)
  : eff world mcp_error json := fun w =>
  let route_key := _lookup c w ROUTE_KEY_ENV in
  if negb (py_truthy_str route_key) then (Raise (MCPRouteError "mcp route: KEI_MCP_ROUTE_KEY is not set"), w)
  else
    (response ← _send c (_build_url c) (request_body request_id method params) (call_headers route_key method tool_name);
     eff_lift (interpret response request_id)) w.

Definition decode_error (what expected : string) : mcp_error :=
  MCPRouteError (str_join ["mcp route: decode "; what; " result: expected "; expected]).

Definition list_tools (c : Client) (request_id : Z) : eff world mcp_error (list ToolDescriptor) :=
  result ← call c request_id "tools/list" "" None;
  eff_lift match result with
  | JObj d =>
      match jget_or d "tools" (JArr []) with
      | JArr tools => py_to_mcp (res_map descriptor_from_dict tools)
      | _ => Raise (decode_error "tools/list" "a tools array")
      end
  | _ => Raise (decode_error "tools/list" "an object")
  end.

Definition call_tool (c : Client) (request_id : Z) (name : string) (arguments : option jdict) : eff world mcp_error ToolResult :=
  let params := ("name", JStr name) :: match arguments with
                                       | None | Some [] => []
                                       | Some a => [("arguments", JObj a)]
                                       end in
  result ← call c request_id "tools/call" name (Some params);
  eff_lift match result with
  | JObj d => Ok (result_from_dict d)
  | _ => Raise (decode_error "tools/call" "an object")
  end.

(** ** Facts *)

(** Where a client may send a request, given its settings and some state of the
    file system. *)
Definition local_target (c : Client) (t : target) : Prop :=
  match t with
  | InjectedTransport => _transport c = true
  | BaseUrl url => url = rstrip_slash (_base_url c) /\ exists scheme netloc host,
      urlsplit netloc_ok (_base_url c) = Some (scheme, netloc, host) /\
      (host = "" \/ is_loopback_address mapped host = true \/ scheme = "unix")
  | UnixSocket path => exists s st, lstat s path = Some st /\ st_is_socket st = true /\
      (getuid = None \/ getuid = Some (st_uid st) \/ Z.land (st_mode st) 18 = 0%Z)
  | LoopbackTCP host _ => is_loopback_address mapped host = true
  end.

Lemma base_url_is_local url : base_url_local url = Some true -> exists scheme netloc host,
  urlsplit netloc_ok url = Some (scheme, netloc, host) /\
  (host = "" \/ is_loopback_address mapped host = true \/ scheme = "unix").
Proof.
  unfold base_url_local. destruct (urlsplit netloc_ok url) as [[[scheme netloc] host]|]; [|done]. intros [= H].
  eexists _, _, _. split; [done|]. destruct (py_truthy_str host) eqn:Hh; [|left; by destruct host].
  right. unfold _is_loopback in H. destruct (is_loopback_address mapped host); [by left|].
  right. by destruct (String.eqb_spec scheme "unix").
Qed.

Lemma validated_socket s path : _validate_socket (lstat s) getuid path = true -> exists s st, lstat s path = Some st /\
  st_is_socket st = true /\ (getuid = None \/ getuid = Some (st_uid st) \/ Z.land (st_mode st) 18 = 0%Z).
Proof.
  unfold _validate_socket. intros H. exists s. destruct (lstat s path) as [st|]; [|done]. exists st. split; [done|].
  destruct (st_is_socket st); [|done]. split; [done|]. cbn [negb] in H. destruct getuid as [own|]; [|by left].
  right. apply orb_true_iff in H as [H|H]; apply Z.eqb_eq in H; [left; by rewrite H | by right].
Qed.

Definition adds_dials (P : dial -> Prop) (n : nat) (w w' : world) : Prop :=
  exists new, dials w' = dials w ++ new /\ length new <= n /\ Forall P new.

Lemma adds_none P n w : adds_dials P n w w.
Proof. exists []. rewrite app_nil_r. simpl. split_and!; [done | lia | constructor]. Qed.

Lemma post_adds (P : dial -> Prop) t path body headers timeout w :
  P {| d_target := t; d_path := path; d_body := body; d_headers := headers; d_timeout := timeout |} ->
  adds_dials P 1 w (post t path body headers timeout w).2.
Proof.
  intros HP. unfold post. destruct (http _ _). eexists. split; [done|]. split; [done|]. by repeat constructor.
Qed.

Lemma post_only_adds (P : dial -> Prop) n t path body headers timeout w :
  0 < n -> P {| d_target := t; d_path := path; d_body := body; d_headers := headers; d_timeout := timeout |} ->
  adds_dials P n w (post_only t path body headers timeout w).2.
Proof.
  intros Hn HP. unfold post_only. destruct (post_adds P t path body headers timeout w HP) as (new & H & Hl & HF).
  destruct (post _ _ _ _ _ w) as [[] w']; exists new; (split_and!; [done | lia | done]).
Qed.

Lemma discover_adds (P : dial -> Prop) ts last path body headers timeout w :
  Forall (fun t => P {| d_target := t; d_path := url_for t path; d_body := body; d_headers := headers; d_timeout := timeout |}) ts ->
  adds_dials P (length ts) w (discover ts last path body headers timeout w).2.
Proof.
  revert last w. induction ts as [|t ts IH]; intros last w HF; [apply adds_none|]. apply Forall_cons in HF as [Ht HF].
  cbn [discover]. destruct (post_adds P t _ body headers timeout w Ht) as (new & H & Hl & HFn).
  destruct (post _ _ _ _ _ w) as [[r|e] w']; simpl in H.
  - exists new. split_and!; [done | simpl; lia | done].
  - destruct (tries_next e); [|exists new; split_and!; [done | simpl; lia | done]].
    destruct (IH (Some e) w' HF) as (new' & H' & Hl' & HF'). exists (new ++ new').
    rewrite H', H, <- (assoc_L (++)), length_app. split_and!; [done | simpl; lia | by apply Forall_app].
Qed.

(** C8: the client never dials a remote host.  A call makes at most three
    requests, each to the injected transport, to a base URL whose host is loopback
    or absent (or whose scheme is [unix]), to a socket that is the user's own or
    not writable by others, or to a loopback address; each carries the route key,
    read from the environment for this call, and a path made of the route prefix
    and the quoted slug; without a key nothing is sent. *)
Theorem requests_stay_local (c : Client) (request_id : Z) (method tool_name : string) (params : option jdict) (w : world) :
  let w' := (call c request_id method tool_name params w).2 in
  adds_dials (fun d => local_target c (d_target d) /\
      d_path d = url_for (d_target d) (String.append "/mcp/" (quote (_slug c))) /\
      str_forall (fun a => always_safe a || Ascii.eqb a "%") (quote (_slug c)) = true /\
      _lookup c w ROUTE_KEY_ENV <> "" /\
      d_headers d = call_headers (_lookup c w ROUTE_KEY_ENV) method tool_name) 3 w w'.
Proof.
  intros w'. subst w'. unfold call. destruct (py_truthy_str (_lookup c w ROUTE_KEY_ENV)) eqn:Hk; [|apply adds_none].
  apply py_truthy_str_true in Hk. cbn [negb]. unfold mbind, eff_bind, eff_lift.
  assert (Hs : adds_dials (fun d => local_target c (d_target d) /\
      d_path d = url_for (d_target d) (String.append "/mcp/" (quote (_slug c))) /\
      str_forall (fun a => always_safe a || Ascii.eqb a "%") (quote (_slug c)) = true /\
      _lookup c w ROUTE_KEY_ENV <> "" /\
      d_headers d = call_headers (_lookup c w ROUTE_KEY_ENV) method tool_name) 3 w
     (_send c (_build_url c) (request_body request_id method params)
        (call_headers (_lookup c w ROUTE_KEY_ENV) method tool_name) w).2); [|by destruct (_send _ _ _ _ w) as [[] ?]].
  pose proof (quote_chars (_slug c)) as Hq. unfold _send. destruct (_transport c) eqn:Ht.
  { apply post_only_adds; [lia | by split_and!]. }
  destruct (py_truthy_str (_base_url c)).
  { destruct (base_url_local (_base_url c)) as [[]|] eqn:Hb; try apply adds_none.
    apply post_only_adds; [lia|]. split; [split; [done | by apply base_url_is_local] | by split_and!]. }
  assert (Hl : length (discovery_targets c w) <= 3) by (unfold discovery_targets; destruct (_ && _); simpl; lia).
  match goal with |- adds_dials ?P _ _ _ => destruct (discover_adds P (discovery_targets c w) None (_build_url c)
    (request_body request_id method params) (call_headers (_lookup c w ROUTE_KEY_ENV) method tool_name) (_timeout c) w)
    as (new & H & Hn & HF) end.
  - unfold discovery_targets. apply Forall_app. split.
    + destruct (_ && _) eqn:Hv; [|constructor]. py_bool. constructor; [|constructor].
      split; [by apply (validated_socket (w_state w)) | by split_and!].
    + repeat constructor; done.
  - exists new. split_and!; [done | lia | done].
Qed.
End Client.

(** ** Answers *)

Definition classify (code : Z) : route_class :=
  if (code =? CODE_UNAUTHENTICATED)%Z then SessionEndedError
  else if (code =? CODE_DENIED)%Z then PolicyDeniedError
  else if (code =? CODE_MANIFEST)%Z then ManifestDriftError
  else if (code =? CODE_UPSTREAM)%Z then UpstreamError
  else if (code =? CODE_HEADER_MISMATCH)%Z then HeaderMismatchError
  else RouteErrorClass.

Lemma py_eq_int a b : py_eq (JInt a) (JInt b) = (a =? b)%Z.
Proof. cbn. destruct (Z.compare_spec a b), (Z.eqb_spec a b); congruence || lia. Qed.

Lemma code_map_find (code : Z) :
  match List.find (fun p => py_eq (JInt code) (JInt p.1)) _CODE_MAP with Some (_, c) => c | None => RouteErrorClass end
  = classify code.
Proof.
  unfold _CODE_MAP, classify. cbn [List.find fst]. rewrite !py_eq_int.
  repeat (destruct (code =? _)%Z; [done|]). done.
Qed.

Lemma error_of_object_int err code : jget_or err "code" (JInt 0) = JInt code ->
  exists e, error_of_object err = Ok e /\ re_class e = classify code /\ re_code e = JInt code /\
    re_message e = jget_or err "message" (JStr "").
Proof.
  intros Hc. unfold error_of_object, _route_error_from_code. rewrite Hc.
  destruct (match jget err "data" with JObj _ => _ | _ => _ end) as [reason decision_id].
  eexists. split; [reflexivity|]. rewrite code_map_find. unfold new_route_error. rewrite py_eq_int.
  cbn [re_class re_code re_message]. split_and!; [done | | done].
  destruct (code =? 0)%Z eqn:H0; [|done]. py_bool. by subst.
Qed.

Lemma raise_parsed_error {A} raw other body err code :
  json_loads_bytes raw = Ok (JObj body) -> dget body "error" = Some (JObj err) -> jget_or err "code" (JInt 0) = JInt code ->
  exists e, @raise_parsed A raw other = Raise (Structured e) /\ re_class e = classify code /\ re_code e = JInt code.
Proof.
  intros Hl He Hc. destruct (error_of_object_int _ _ Hc) as (e & Ho & Hcl & Hco & _).
  unfold raise_parsed, _parse_route_error, loads, jget. rewrite Hl, He. simpl. rewrite Ho. simpl. eauto.
Qed.

(** A JSON-RPC error answers with the class of its code whatever the HTTP
    status: for a body of at most 8 MiB that is an object with an [error] object
    whose code is an integer, [interpret] raises that class with that code, on
    401 and 403 as on 2xx and on the others; the one exception is an event
    stream, whose [error] is not looked at. *)
Lemma json_rpc_errors_are_classified (r : Response) (request_id : Z) (body err : jdict) (code : Z) :
  (N.of_nat (String.length (content r)) <= MAX_RESPONSE_BYTES)%N ->
  json_loads_bytes (content r) = Ok (JObj body) ->
  dget body "error" = Some (JObj err) -> jget_or err "code" (JInt 0) = JInt code ->
  status_code r = 401%Z \/ status_code r = 403%Z \/ py_in "text/event-stream" (content_type r) = false ->
  exists e, interpret r request_id = Raise (Structured e) /\ re_class e = classify code /\ re_code e = JInt code.
Proof.
  intros Hlen Hl He Hc Hs. unfold interpret. rewrite bytes_take_all by done.
  destruct (status_code r =? 401)%Z eqn:H1; [by eapply raise_parsed_error|].
  destruct (status_code r =? 403)%Z eqn:H3; [by eapply raise_parsed_error|]. py_bool.
  destruct Hs as [?|[?| ->]]; [done..|].
  destruct (_ || _); [by eapply raise_parsed_error|]. unfold loads. rewrite Hl, He.
  destruct (error_of_object_int _ _ Hc) as (e & Ho & Hcl & Hco & _). rewrite Ho. simpl. eauto.
Qed.

(** The data of the events of a stream: blocks of [data:] lines closed by a
    blank line; other lines do not count, and an open block at the end is lost. *)
Fixpoint stream_events (open : list string) (lines : list string) : list string :=
  match lines with
  | [] => []
  | line :: lines' =>
      let l := py_strip line in
      if String.prefix "data:" l then stream_events (open ++ [py_strip (str_drop 5 l)]) lines'
      else match open with
           | _ :: _ => if String.eqb l "" then str_join open :: stream_events [] lines' else stream_events open lines'
           | [] => stream_events [] lines'
           end
  end.

(** The answer an event gives, if it is one. *)
Definition event_answer (data : string) : option json :=
  match json_loads data with
  | Some (JObj msg) => match jget msg "id" with JNull => None | _ => Some (jget msg "result") end
  | _ => None
  end.

Lemma read_events_spec open lines :
  read_events open lines =
    match omap event_answer (stream_events open lines) with
    | v :: _ => Ok v
    | [] => Raise (MCPRouteError "mcp route: sse stream ended without a response")
    end.
Proof.
  revert open. induction lines as [|line lines IH]; intros open; [done|]. cbn [read_events stream_events].
  destruct (String.prefix "data:" (py_strip line)); [apply IH|].
  destruct (String.eqb (py_strip line) "") eqn:He; destruct open as [|x open]; cbn [andb negb bool_decide]; try apply IH.
  rewrite bool_decide_eq_false_2 by done. cbn [negb omap list_omap]. unfold event_answer at 1.
  destruct (json_loads _) as [[| | | | | |msg]|]; try apply IH. by destruct (jget msg "id"); try apply IH.
Qed.

(** Where a result comes from.  [interpret] returns a value only for the
    first answering event of an event stream whose status is neither 401 nor 403,
    or for a 2xx response that is one JSON object without an [error] key, of which
    it is the [result]. *)
Lemma results_come_from_answers (r : Response) (request_id : Z) (v : json) :
  interpret r request_id = Ok v <->
  status_code r <> 401%Z /\ status_code r <> 403%Z /\
  ((py_in "text/event-stream" (content_type r) = true /\
    exists rest, omap event_answer (stream_events [] (py_split "010" (decode_replace (content r)))) = v :: rest) \/
   (py_in "text/event-stream" (content_type r) = false /\ (200 <= status_code r <= 299)%Z /\
    exists rpc, json_loads_bytes (bytes_take MAX_RESPONSE_BYTES (content r)) = Ok (JObj rpc) /\
      dget rpc "error" = None /\ v = jget rpc "result")).
Proof.
  assert (Hrp : forall raw other, @raise_parsed json raw other <> Ok v).
  { intros raw other H. unfold raise_parsed in H. res_inv. }
  unfold interpret. destruct (status_code r =? 401)%Z eqn:H1; py_bool.
  { split; [intros H; by apply Hrp in H | tauto]. }
  destruct (status_code r =? 403)%Z eqn:H3; py_bool.
  { split; [intros H; by apply Hrp in H | tauto]. }
  destruct (py_in _ (content_type r)).
  - unfold _read_sse. rewrite read_events_spec. destruct (omap _ _) as [|x rest] eqn:Ho.
    + split; [done|]. intros (_ & _ & [(_ & rest & [=])|([=] & _)]).
    + split; [intros [= ->]; split_and!; eauto|]. intros (_ & _ & [(_ & rest' & [= -> _])|([=] & _)]). done.
  - destruct ((_ <? 200) || _)%Z eqn:Hst.
    { split; [intros H; by apply Hrp in H|]. intros (_ & _ & [([=] & _)|(_ & Hr & _)]).
      apply orb_true_iff in Hst as [H%Z.ltb_lt|H%Z.ltb_lt]; lia. }
    py_bool. unfold loads.
    destruct (json_loads_bytes _) as [[| | | | | |rpc]|[]] eqn:Hl;
      try (split; [done | intros (_ & _ & [([=] & _)|(_ & _ & rpc' & [=] & _)])]).
    destruct (dget rpc "error") as [err|] eqn:He.
    + split.
      * intros Hv. destruct err; try done. by res_inv.
      * intros (_ & _ & [([=] & _)|(_ & _ & rpc' & [= <-] & Hn & _)]). congruence.
    + split; [intros [= <-]; split_and!; try done; right; split_and!; eauto; lia|].
      intros (_ & _ & [([=] & _)|(_ & _ & rpc' & [= <-] & _ & ->)]). done.
Qed.

(** ** Examples *)

Definition denied_body : string := jq "{'error': {'code': -31403, 'message': 'denied', 'data': {'reason': 'policy', 'decision_id': 'd1'}}, 'id': 1}".

Lemma json_rpc_errors_are_classified_witness :
  let r := {| status_code := 401; content := denied_body; content_type := "application/json" |} in
  exists e, interpret r 1 = Raise (Structured e) /\ re_class e = PolicyDeniedError /\ re_code e = JInt (-31403).
Proof.
  intros r.
  apply (json_rpc_errors_are_classified r 1
    [("error", JObj [("code", JInt (-31403)); ("message", JStr "denied");
                     ("data", JObj [("reason", JStr "policy"); ("decision_id", JStr "d1")])]); ("id", JInt 1)]
    [("code", JInt (-31403)); ("message", JStr "denied");
     ("data", JObj [("reason", JStr "policy"); ("decision_id", JStr "d1")])] (-31403)).
  - vm_compute. discriminate.
  - vm_compute. reflexivity.
  - reflexivity.
  - reflexivity.
  - left. reflexivity.
Defined.

(** A denial delivered over an event stream is a null result; so is a response
    to another request, whatever its status. *)
Example sse_error_is_swallowed :
  let stream body := {| status_code := 500; content := String.append "data: " (String.append body (String.append nl nl));
                        content_type := "text/event-stream; charset=utf-8" |} in
  (interpret (stream denied_body) 1, interpret (stream (jq "{'id': 7, 'result': 3}")) 1) = (Ok JNull, Ok (JInt 3)).
Proof. vm_compute. reflexivity. Qed.

Example error_texts :
  map (fun code => match error_of_object [("code", code); ("message", JStr "m"); ("data", JObj [("reason", JStr "r")])] with
                   | Ok e => (re_class e, route_error_str e)
                   | Raise _ => (RouteErrorClass, "raises")
                   end) [JInt (-31401); JInt 5; JArr []]
  = [(SessionEndedError, "mcp route error -31401 (m): r"); (RouteErrorClass, "mcp route error 5 (m): r");
     (RouteErrorClass, "raises")].
Proof. vm_compute. reflexivity. Qed.

Definition ex_client (base_url : string) : Client :=
  {| _slug := "a/b"; _base_url := base_url; _socket_path := Some "/s"; _timeout := float_of_Z 10;
     _sse_timeout := float_of_Z 120; _env := Some [(ROUTE_KEY_ENV, "k")]; _transport := false |}.
Definition refuse_tcp (d : dial) (n : nat) : res wire_exn Response * nat :=
  (Raise match d_target d with LoopbackTCP "::1" _ => NotHTTP "InvalidURL" "Invalid port" | _ => ConnectError "refused" end, S n).
Definition ex_call (base_url : string) (lstat : nat -> string -> option stat) :=
  let '(r, w) := call refuse_tcp (fun _ => []) lstat (Some 1000%Z) (fun _ => true) true (ex_client base_url) 1
                   "tools/list" "" None {| w_state := 0; dials := [] |} in
  (r, map (fun d => (d_target d, d_path d)) (dials w)).

(** The IPv6 fallback has a URL without brackets, which no request survives. *)
Example discovery_order :
  ex_call "" (fun _ _ => Some {| st_is_socket := true; st_uid := 0; st_mode := 49645 |}) =
  (Raise (WireExn (NotHTTP "InvalidURL" "Invalid port")),
   [(UnixSocket "/s", "/mcp/a%2Fb"); (LoopbackTCP "127.0.0.1" "8080", "http://127.0.0.1:8080/mcp/a%2Fb");
    (LoopbackTCP "::1" "8080", "http://::1:8080/mcp/a%2Fb")]).
Proof. vm_compute. reflexivity. Qed.
Example remote_is_refused :
  ex_call "https://kei.example:443" (fun _ _ => None) = (Raise RouteNotLocalError, []).
Proof. vm_compute. reflexivity. Qed.
