(* ===== verification/ToolSpec.v ===== *)
(** * Tool declarations and the manifest v3

    [toolspec/__init__.py]: [ToolSpec] with its serialization [to_wire], the
    strict parser of [kei.tool-manifest/v3] documents with its error codes, and
    the serializer of a list of declarations.

    The fields of a [ToolSpec] are untyped values, as [from_dict] takes them; the
    parser is what makes them well-typed.  A registrar (the socket client) is an
    argument of [register_tool_specs]. *)
From Stdlib Require Import ZArith Lia Ascii String.
From stdpp Require Import base tactics list strings.
From S2P Require Import Prelude PyStr PyFloat PyBytes Json JsonFacts Types Messages.

Definition MANIFEST_SCHEMA := "kei.tool-manifest/v3".

Record ToolSpec := {
  sp_name : json; sp_description : json; sp_parameters : json; sp_service : json; sp_source : json;
  sp_operation_class : json; sp_route : json; sp_required_capabilities : json; sp_resource_types : json;
  sp_enabled : json }.

(** [None] is the default of the optional fields. *)
Definition new_spec (d : jdict) : ToolSpec :=
  {| sp_name := jget d "name"; sp_description := jget_or d "description" (JStr "");
     sp_parameters := jget_or d "parameters" (JObj []); sp_service := jget d "service"; sp_source := jget d "source";
     sp_operation_class := jget d "operation_class"; sp_route := jget d "route";
     sp_required_capabilities := jget d "required_capabilities"; sp_resource_types := jget d "resource_types";
     sp_enabled := jget_or d "enabled" (JBool true) |}.

Definition spec_fields : list string :=
  ["name"; "description"; "parameters"; "service"; "source"; "operation_class"; "route"; "required_capabilities";
   "resource_types"; "enabled"].

(** The fields as keyword arguments. *)
Definition from_dict (value : jdict) : res exn ToolSpec :=
  if forallb (fun kv => str_in kv.1 spec_fields) value && dmem value "name" then Ok (new_spec value)
  else Raise (Exn TypeError "ToolSpec.__init__() got an unexpected or misses a required argument").

Definition from_tool_definition (name description : string) (input_schema : jdict) : ToolSpec :=
  new_spec [("name", JStr name); ("description", JStr description); ("parameters", JObj input_schema)].

(** What a formatter and the legacy request model read of a declaration; the
    dataclass [ToolDefinition] takes the three values as they are. *)
Definition input_schema (s : ToolSpec) : json := sp_parameters s.
Definition to_tool_definition (s : ToolSpec) : json * json * json :=
  (sp_name s, sp_description s, sp_parameters s).

(** ** Serialization *)

Definition value_error (msg : string) : exn := Exn ValueError msg.
Definition missing (v : json) : bool := is_null v || py_eq v (JStr "").

(** A falsy value of a route: absent, or empty. *)
Definition route_has (d : jdict) (k : string) : bool := py_truthy (jget d k).

Definition check_route (route : json) : res exn unit :=
  let bad := Raise (value_error "route must contain exactly one route kind") in
  match route with
  | JObj [(kind, JObj value)] =>
      if String.eqb kind "harness_executor" then
        guard_or (route_has value "executor" && route_has value "registration")
          (value_error "harness_executor route requires executor and registration")
      else if String.eqb kind "connector_binding" then
        guard_or (route_has value "agent_id" && route_has value "connector_id")
          (value_error "connector_binding route requires agent_id and connector_id")
      else bad
  | _ => bad
  end.

Definition opt_entry (k : string) (v : json) : jdict := if is_null v then [] else [(k, v)].

Definition wire_entry (s : ToolSpec) : jdict :=
  [("name", sp_name s); ("service", sp_service s); ("source", sp_source s);
   ("operation_class", sp_operation_class s); ("route", sp_route s)]
  ++ opt_entry "required_capabilities" (sp_required_capabilities s)
  ++ opt_entry "resource_types" (sp_resource_types s)
  ++ [("description", sp_description s); ("enabled", sp_enabled s)].

Definition to_wire (s : ToolSpec) : res exn jdict :=
  let required name v := guard_or (negb (missing v)) (value_error (String.append name " is required")) in
  _ ← required "service" (sp_service s);
  _ ← required "source" (sp_source s);
  _ ← required "operation_class" (sp_operation_class s);
  _ ← required "route" (sp_route s);
  _ ← guard_or (py_eq (sp_operation_class s) (JStr "read") || py_eq (sp_operation_class s) (JStr "write"))
        (value_error "operation_class must be read or write");
  _ ← check_route (sp_route s);
  Ok (wire_entry s).

(** A declaration made from a model-only definition gives that definition back,
    and is never written to a manifest: the missing route and service are not
    made up. *)
Lemma legacy_definition_has_no_wire (name description : string) (schema : jdict) :
  let s := from_tool_definition name description schema in
  to_tool_definition s = (JStr name, JStr description, JObj schema) /\ input_schema s = JObj schema /\
  to_wire s = Raise (value_error "service is required").
Proof. split_and!; reflexivity. Qed.

Definition manifest_of (entries : list jdict) : jdict :=
  [("schema", JStr MANIFEST_SCHEMA); ("tools", JArr (map JObj entries))].

Definition serialize_tool_specs (specs : list ToolSpec) : res exn jdict :=
  entries ← res_map to_wire specs; Ok (manifest_of entries).

(** Serialize first, then submit: nothing is sent when serializing raises. *)
Definition register_tool_specs {W} (register_tools : jdict -> eff W exn jdict) (specs : list ToolSpec) : eff W exn jdict :=
  manifest ← eff_lift (serialize_tool_specs specs); register_tools manifest.

(** ** The strict parser *)

Inductive manifest_error :=
| ManifestV3Error (code message : string)
| UnreadableFile (e : exn).

Definition _fail (code message : string) : manifest_error :=
  ManifestV3Error code (String.append "tool manifest: " message).
Definition at_tool (index : nat) (rest : string) : string :=
  str_join ["tools["; int_str (Z.of_nat index); "]"; rest].

Definition _nonempty_str (v : json) : bool := match v with JStr s => py_truthy_str s | _ => false end.

Definition _TOOL_FIELD_TYPES : list (string * (json -> bool)) :=
  [("name", is_str); ("description", is_str); ("service", is_str); ("source", is_str); ("operation_class", is_str);
   ("route", is_dict); ("required_capabilities", is_list); ("resource_types", is_list); ("parameters", is_dict);
   ("enabled", is_bool)].
Definition _HARNESS_ROUTE_FIELDS : list string := ["executor"; "registration"].
Definition _CONNECTOR_ROUTE_FIELDS : list string := ["agent_id"; "connector_id"].

(** [set(value) != fields or not all(nonempty)], for a dictionary. *)
Definition exact_fields (value : jdict) (fields : list string) : bool :=
  forallb (fun kv => str_in kv.1 fields) value && forallb (fun k => _nonempty_str (jget value k)) fields.

Definition _parse_route (index : nat) (tool : jdict) : res manifest_error unit :=
  let invalid rest := _fail "invalid_route" (at_tool index rest) in
  match jget tool "route" with
  | JObj [(kind, value)] =>
      _ ← guard_or (str_in kind ["harness_executor"; "connector_binding"])
            (_fail "unknown_field" (at_tool index ".route has an unknown route kind"));
      match value with
      | JObj value =>
          if String.eqb kind "harness_executor" then
            _ ← guard_or (exact_fields value _HARNESS_ROUTE_FIELDS)
                  (invalid ".route.harness_executor needs non-empty executor and registration");
            _ ← guard_or (negb (dmem tool "required_capabilities"))
                  (invalid ".required_capabilities must not be present on a harness route");
            guard_or (negb (dmem tool "resource_types"))
              (invalid ".resource_types must not be present on a harness route")
          else
            _ ← guard_or (exact_fields value _CONNECTOR_ROUTE_FIELDS)
                  (invalid ".route.connector_binding needs non-empty agent_id and connector_id");
            _ ← guard_or match jget tool "required_capabilities" with
                         | JArr (c :: cs) => forallb _nonempty_str (c :: cs)
                         | _ => false
                         end
                  (invalid " needs a non-empty required_capabilities array of strings on a connector route");
            guard_or (is_null (jget tool "resource_types") || py_truthy (jget tool "resource_types"))
              (invalid ".resource_types must not be empty on a connector route")
      | _ => Raise (invalid (str_join [".route."; kind; " must be an object"]))
      end
  | _ => Raise (invalid ".route must hold exactly one route kind")
  end.

Fixpoint parse_resource_types_from (index position : nat) (entries : list json) : res manifest_error unit :=
  match entries with
  | [] => Ok tt
  | entry :: entries' =>
      let at_entry rest := at_tool index (str_join [".resource_types["; int_str (Z.of_nat position); "]"; rest]) in
      match entry with
      | JObj d =>
          _ ← guard_or (_nonempty_str (jget d "type")) (_fail "missing_field" (at_entry ".type is missing or empty"));
          _ ← guard_or match dget d "parent_type" with Some v => is_str v | None => true end
                (_fail "invalid_type" (at_entry ".parent_type must be a string"));
          parse_resource_types_from index (S position) entries'
      | _ => Raise (_fail "invalid_type" (at_entry " must be an object"))
      end
  end.
Definition _parse_resource_types (index : nat) (tool : jdict) : res manifest_error unit :=
  match jget tool "resource_types" with
  | JArr entries => parse_resource_types_from index 0 entries
  | _ => Ok tt
  end.

(** A loop of checks that raises at the first failure. *)
Fixpoint check_all {A} (p : A -> bool) (e : A -> manifest_error) (l : list A) : res manifest_error unit :=
  match l with
  | [] => Ok tt
  | x :: l' => _ ← guard_or (p x) (e x); check_all p e l'
  end.

(** The declaration, and the names seen so far. *)
Definition _parse_tool (index : nat) (tool : jdict) (seen_names : list string)
  : res manifest_error (ToolSpec * list string) :=
  let at_key k rest := at_tool index (str_join ["."; k; rest]) in
  _ ← check_all (fun k => str_in k (map fst _TOOL_FIELD_TYPES))
        (fun _ => _fail "unknown_field" (at_tool index " has an unknown field")) (dkeys tool);
  _ ← check_all (fun kt => match dget tool kt.1 with Some v => kt.2 v | None => true end)
        (fun kt => _fail "invalid_type" (at_key kt.1 " has the wrong type")) _TOOL_FIELD_TYPES;
  _ ← check_all (fun k => _nonempty_str (jget tool k))
        (fun k => _fail "missing_field" (at_key k " is missing or empty")) ["name"; "description"; "service"; "source"];
  _ ← guard_or (_nonempty_str (jget tool "operation_class"))
        (_fail "missing_field" (at_tool index ".operation_class is missing or empty"));
  _ ← guard_or (py_eq (jget tool "operation_class") (JStr "read") || py_eq (jget tool "operation_class") (JStr "write"))
        (_fail "invalid_operation_class" (at_tool index ".operation_class must be read or write"));
  _ ← guard_or (dmem tool "route") (_fail "missing_field" (at_tool index ".route is missing"));
  _ ← _parse_route index tool;
  _ ← _parse_resource_types index tool;
  let name := py_str (jget tool "name") in
  _ ← guard_or (negb (str_in name seen_names)) (_fail "duplicate_tool_name" (at_tool index " repeats a tool name"));
  Ok (new_spec tool, name :: seen_names).

Fixpoint parse_tools (index : nat) (tools : list json) (seen_names : list string) : res manifest_error (list ToolSpec) :=
  match tools with
  | [] => Ok []
  | JObj tool :: tools' =>
      p ← _parse_tool index tool seen_names;
      rest ← parse_tools (S index) tools' p.2;
      Ok (p.1 :: rest)
  | _ :: _ => Raise (_fail "invalid_type" (at_tool index " must be an object"))
  end.

Definition parse_document (document : json) : res manifest_error (list ToolSpec) :=
  match document with
  | JObj d =>
      _ ← guard_or (py_eq (jget d "schema") (JStr MANIFEST_SCHEMA))
            (_fail "unsupported_schema" (String.append "the manifest schema is not " MANIFEST_SCHEMA));
      _ ← check_all (fun k => str_in k ["schema"; "tools"])
            (fun _ => _fail "unknown_field" "the manifest has an unknown field") (dkeys d);
      match dget d "tools" with
      | None => Raise (_fail "missing_field" "the manifest is missing tools")
      | Some (JArr tools) => parse_tools 0 tools []
      | Some _ => Raise (_fail "invalid_type" "tools must be an array")
      end
  | _ => Raise (_fail "invalid_type" "the manifest must be a JSON object")
  end.

Inductive manifest_data := DataBytes (s : string) | DataText (s : string).
Definition load_data (data : manifest_data) : option json :=
  match data with
  | DataText s => json_loads s
  | DataBytes s => match json_loads_bytes s with Ok v => Some v | Raise _ => None end
  end.

Definition parse_manifest_v3 (data : manifest_data) : res manifest_error (list ToolSpec) :=
  match load_data data with
  | Some document => parse_document document
  | None => Raise (_fail "invalid_json" "the manifest is not valid JSON")
  end.

Definition load_manifest_v3 (read_bytes : string -> res exn string) (path : string) : res manifest_error (list ToolSpec) :=
  match read_bytes path with
  | Ok s => parse_manifest_v3 (DataBytes s)
  | Raise e => Raise (UnreadableFile e)
  end.

(** ** What the parser guarantees *)

Definition nonempty (v : json) : Prop := exists s, v = JStr s /\ s <> "".

Inductive valid_route : json -> json -> json -> Prop :=
| harness_route value : exact_fields value _HARNESS_ROUTE_FIELDS = true ->
    valid_route (JObj [("harness_executor", JObj value)]) JNull JNull
| connector_route value caps resources : exact_fields value _CONNECTOR_ROUTE_FIELDS = true ->
    caps <> [] -> Forall nonempty caps ->
    (resources = JNull \/ exists x l, resources = JArr (x :: l)) ->
    valid_route (JObj [("connector_binding", JObj value)]) (JArr caps) resources.

Definition valid_resource (v : json) : Prop :=
  exists d, v = JObj d /\ nonempty (jget d "type") /\
    match dget d "parent_type" with Some p => is_str p = true | None => True end.

(** A well-typed declaration. *)
Record well_typed (s : ToolSpec) : Prop := {
  wt_name : nonempty (sp_name s);
  wt_description : nonempty (sp_description s);
  wt_service : nonempty (sp_service s);
  wt_source : nonempty (sp_source s);
  wt_operation : sp_operation_class s = JStr "read" \/ sp_operation_class s = JStr "write";
  wt_route : valid_route (sp_route s) (sp_required_capabilities s) (sp_resource_types s);
  wt_resources : forall l, sp_resource_types s = JArr l -> Forall valid_resource l;
  wt_parameters : is_dict (sp_parameters s) = true;
  wt_enabled : is_bool (sp_enabled s) = true }.

Lemma nonempty_str_spec v : _nonempty_str v = true <-> nonempty v.
Proof.
  unfold nonempty. split; [|by intros (s & -> & ?%py_truthy_str_true)].
  destruct v; try done. simpl. intros ?%py_truthy_str_true. eauto.
Qed.

Lemma check_all_Ok {A} (p : A -> bool) e l u : check_all p e l = Ok u <-> Forall (fun x => p x = true) l.
Proof.
  destruct u. induction l as [|x l IH]; simpl; [split; [constructor | done]|]. rewrite Forall_cons, <- IH.
  destruct (p x); simpl; [tauto|]. split; [done | by intros [[=] _]].
Qed.

Lemma parse_resources_Ok index k l u : parse_resource_types_from index k l = Ok u <-> Forall valid_resource l.
Proof.
  destruct u. revert k. induction l as [|v l IH]; intros k; [split; [constructor | done]|].
  cbn [parse_resource_types_from]. rewrite Forall_cons. unfold valid_resource at 1. split.
  - destruct v; try done. intros H. res_inv. apply nonempty_str_spec in Hr. apply IH in H. split; [|done].
    exists d. split_and!; [done.. |]. by destruct (dget d "parent_type").
  - intros [(d & -> & Hn & Hp) Hl]. apply nonempty_str_spec in Hn as ->. simpl.
    apply (IH (S k)) in Hl. by destruct (dget d "parent_type") as [p|]; [rewrite Hp|].
Qed.

Lemma route_Ok index tool u : _parse_route index tool = Ok u ->
  (forall v, dget tool "required_capabilities" = Some v -> is_list v = true) ->
  (forall v, dget tool "resource_types" = Some v -> is_list v = true) ->
  valid_route (jget tool "route") (jget tool "required_capabilities") (jget tool "resource_types").
Proof.
  unfold _parse_route. intros H Hc Ht. destruct (jget tool "route") as [| | | | | |[|[kind value] [|]]]; try done.
  res_inv. destruct value as [| | | | | |value]; try done.
  destruct (String.eqb_spec kind "harness_executor") as [->|Hk].
  - res_inv. unfold dmem in *. py_bool. rewrite <- eq_None_not_Some in *. unfold jget.
    repeat match goal with H : dget tool _ = None |- _ => rewrite H end. by constructor.
  - res_inv. unfold str_in in Hr. cbn [existsb] in Hr. rewrite orb_false_r in Hr. apply orb_true_iff in Hr as [Hr|Hr]; py_bool; subst; [done|].
    destruct (jget tool "required_capabilities") as [| | | | |[|c cs]|]; try done. constructor; [done..| |].
    + apply Forall_forall. intros x Hx. apply nonempty_str_spec. rewrite forallb_forall in Hr1.
      by apply Hr1, list_elem_of_In.
    + unfold jget in *. destruct (dget tool "resource_types") as [v|] eqn:Hv; simpl in *; [|by left].
      right. specialize (Ht v eq_refl). destruct v as [| | | | |[|x l]|]; try done. by exists x, l.
Qed.

Lemma parse_tool_Ok index tool seen s seen' : _parse_tool index tool seen = Ok (s, seen') ->
  well_typed s /\ s = new_spec tool /\ Forall (fun k => str_in k spec_fields = true) (dkeys tool) /\
  exists name, sp_name s = JStr name /\ (name ∉ seen) /\ seen' = name :: seen.
Proof.
  unfold _parse_tool. intros H. res_inv. apply check_all_Ok in Hr, Hr0, Hr1.
  simplify_eq/=. unfold dmem in Hr4. py_bool. apply str_in_false in Hr7.
  assert (Hty : forall k p, (k, p) ∈ _TOOL_FIELD_TYPES -> forall v, dget tool k = Some v -> p v = true).
  { intros k p Hin v Hv. rewrite Forall_forall in Hr0. specialize (Hr0 _ Hin). simpl in Hr0. by rewrite Hv in Hr0. }
  rewrite !Forall_cons in Hr1. destruct Hr1 as (Hn & Hd & Hs & Hso & _).
  apply nonempty_str_spec in Hn, Hd, Hs, Hso. split; [|split_and!; [done | |]].
  - split; simpl; try done.
    + unfold jget_or. unfold jget in Hd. destruct Hd as (x & Hx & ?). by destruct (dget tool "description"); [exists x|].
    + apply orb_true_iff in Hr3 as [Hr3|Hr3]; apply py_eq_str in Hr3; auto.
    + eapply route_Ok; [done | | ]; intros v; apply Hty; unfold _TOOL_FIELD_TYPES; set_solver.
    + intros l Hl. unfold _parse_resource_types in Hr6. rewrite Hl in Hr6. by apply parse_resources_Ok in Hr6.
    + unfold jget_or. destruct (dget tool "parameters") eqn:Hp; [|done]. simpl.
      by apply (Hty "parameters" is_dict ltac:(unfold _TOOL_FIELD_TYPES; set_solver)).
    + unfold jget_or. destruct (dget tool "enabled") eqn:Hp; [|done]. simpl.
      by apply (Hty "enabled" is_bool ltac:(unfold _TOOL_FIELD_TYPES; set_solver)).
  - eapply Forall_impl; [exact Hr | ]. intros k Hk. apply str_in_spec in Hk. apply str_in_spec.
    unfold spec_fields. unfold _TOOL_FIELD_TYPES in Hk. simpl in Hk. set_solver.
  - destruct Hn as (name & Hn & _). exists name. rewrite Hn in *. done.
Qed.

Lemma parse_tools_Ok index tools seen specs : parse_tools index tools seen = Ok specs ->
  Forall well_typed specs /\
  exists ds names, tools = map JObj ds /\ specs = map new_spec ds /\
    Forall (fun d => Forall (fun k => str_in k spec_fields = true) (dkeys d)) ds /\
    map sp_name specs = map JStr names /\ NoDup names /\ forall n, n ∈ names -> n ∉ seen.
Proof.
  revert index seen specs. induction tools as [|t tools IH]; intros index seen specs H.
  - injection H as <-. split; [constructor|]. exists [], []. split_and!; try done; try constructor. set_solver.
  - cbn [parse_tools] in H. destruct t as [| | | | | |tool]; try done. res_inv. destruct a as [s seen'].
    apply parse_tool_Ok in Hr as (Hw & -> & Hk & name & Hn & Hns & ->). simpl in *.
    apply IH in Hr0 as (Hws & ds & names & -> & -> & Hks & Hnm & Hnd & Hseen). split; [by constructor|].
    exists (tool :: ds), (name :: names). split_and!; try done; [by constructor | simpl; congruence | |].
    + constructor; [|done]. intros Hin. apply (Hseen name Hin). set_solver.
    + intros n Hin. apply elem_of_cons in Hin as [->|Hin]; [done|]. specialize (Hseen n Hin). set_solver.
Qed.

Lemma parsed_names data specs : parse_manifest_v3 data = Ok specs ->
  Forall well_typed specs /\ exists names, map sp_name specs = map JStr names /\ NoDup names.
Proof.
  unfold parse_manifest_v3, parse_document. intros H. destruct (load_data data) as [[| | | | | |d]|]; try done.
  res_inv. destruct (dget d "tools") as [[| | | | |tools|]|]; try done.
  apply parse_tools_Ok in H as (Hw & ds & names & _ & _ & _ & Hn & Hd & _). eauto.
Qed.

(** What the parser accepts is well-typed.  Every declaration of an accepted
    manifest has a non-empty name, description, service and source, an operation
    class that is read or write, a route of exactly one kind with exactly its
    fields, capabilities and resource types that suit that route, an object of
    parameters and a boolean flag; and no two declarations share a name. *)
Lemma parsed_specs_are_well_typed (data : manifest_data) (specs : list ToolSpec) :
  parse_manifest_v3 data = Ok specs ->
  Forall well_typed specs /\ exists names, map sp_name specs = map JStr names /\ NoDup names.
Proof. apply parsed_names. Qed.

(** ** Printing and parsing again *)

(** The manifest does not carry the model-side parameters. *)
Definition without_parameters (s : ToolSpec) : ToolSpec :=
  {| sp_name := sp_name s; sp_description := sp_description s; sp_parameters := JObj []; sp_service := sp_service s;
     sp_source := sp_source s; sp_operation_class := sp_operation_class s; sp_route := sp_route s;
     sp_required_capabilities := sp_required_capabilities s; sp_resource_types := sp_resource_types s;
     sp_enabled := sp_enabled s |}.

Lemma nonempty_not_missing v : nonempty v -> missing v = false.
Proof. intros (s & -> & Hs). unfold missing. simpl. by apply String.eqb_neq. Qed.

Lemma exact_fields_has value fields k : exact_fields value fields = true -> k ∈ fields -> route_has value k = true.
Proof.
  unfold exact_fields, route_has. intros H Hk. py_bool. rewrite forallb_forall in H0.
  specialize (H0 k ltac:(by apply list_elem_of_In)). apply nonempty_str_spec in H0 as (x & -> & Hx).
  by apply py_truthy_str_true.
Qed.

Lemma well_typed_wire s : well_typed s -> to_wire s = Ok (wire_entry s).
Proof.
  intros []. unfold to_wire. rewrite (nonempty_not_missing (sp_service s)), (nonempty_not_missing (sp_source s)) by done.
  replace (missing (sp_operation_class s)) with false by (by destruct wt_operation0 as [-> | ->]).
  replace (missing (sp_route s)) with false by (by inversion wt_route0). cbn [negb guard_or mbind res_bind].
  replace (py_eq _ (JStr "read") || _) with true by (by destruct wt_operation0 as [-> | ->]).
  inversion wt_route0 as [value Hx H1 H2 H3|value caps resources Hx Hc Hn Hr H1 H2 H3]; cbn [check_route guard_or mbind res_bind].
  - change (String.eqb "harness_executor" "harness_executor") with true. cbn iota.
    rewrite !(exact_fields_has _ _ _ Hx) by (unfold _HARNESS_ROUTE_FIELDS; set_solver). done.
  - change (String.eqb "connector_binding" "harness_executor") with false.
    change (String.eqb "connector_binding" "connector_binding") with true. cbn iota.
    rewrite !(exact_fields_has _ _ _ Hx) by (unfold _CONNECTOR_ROUTE_FIELDS; set_solver). done.
Qed.

Lemma parse_tool_intro index tool seen :
  Forall (fun k => str_in k (map fst _TOOL_FIELD_TYPES) = true) (dkeys tool) ->
  Forall (fun kt => match dget tool kt.1 with Some v => kt.2 v | None => true end = true) _TOOL_FIELD_TYPES ->
  Forall (fun k => _nonempty_str (jget tool k) = true) ["name"; "description"; "service"; "source"; "operation_class"] ->
  jget tool "operation_class" = JStr "read" \/ jget tool "operation_class" = JStr "write" ->
  dmem tool "route" = true -> _parse_route index tool = Ok () -> _parse_resource_types index tool = Ok () ->
  str_in (py_str (jget tool "name")) seen = false ->
  _parse_tool index tool seen = Ok (new_spec tool, py_str (jget tool "name") :: seen).
Proof.
  intros Hk Ht Hn Ho Hr Hpr Hps Hs. unfold _parse_tool.
  rewrite (proj2 (check_all_Ok _ _ _ ()) Hk), (proj2 (check_all_Ok _ _ _ ()) Ht).
  cbn [check_all]. rewrite !Forall_cons in Hn. destruct Hn as (-> & -> & -> & -> & -> & _). simpl.
  assert (py_eq (jget tool "operation_class") (JStr "read") || py_eq (jget tool "operation_class") (JStr "write") = true) as ->
    by (by destruct Ho as [-> | ->]).
  by rewrite Hr, Hpr, Hps, Hs.
Qed.

Lemma forallb_nonempty cs : Forall nonempty cs -> forallb _nonempty_str cs = true.
Proof.
  intros H. apply forallb_forall. intros x Hx. apply nonempty_str_spec. rewrite Forall_forall in H.
  by apply H, list_elem_of_In.
Qed.

Lemma nonempty_is_str v : nonempty v -> is_str v = true.
Proof. by intros (s & -> & _). Qed.

(** A predicate on each element of a list that computes. *)
Ltac each := cbn; repeat (apply List.Forall_cons; [done|]); apply List.Forall_nil.

Lemma wire_entry_parses s index seen name : well_typed s -> sp_name s = JStr name -> name ∉ seen ->
  _parse_tool index (wire_entry s) seen = Ok (without_parameters s, name :: seen).
Proof.
  intros [Hn Hd Hs Hso Hop Hr Hres Hp He] Hname Hseen. destruct s as [nm ds ps sv so opc rt caps res en]. simpl in *. subst nm.
  pose proof (nonempty_is_str _ Hd). pose proof (nonempty_is_str _ Hs). pose proof (nonempty_is_str _ Hso).
  apply nonempty_str_spec in Hn, Hd, Hs, Hso. apply str_in_false in Hseen.
  assert (Hopn : _nonempty_str opc = true /\ is_str opc = true) by (destruct Hop as [-> | ->]; by split_and!).
  destruct Hopn as [Hopn Hops].
  assert (Hresources : forall l, res = JArr l -> parse_resource_types_from index 0 l = Ok ()).
  { intros l ->. apply parse_resources_Ok. by apply Hres. }
  inversion Hr as [value Hx H1' H2' H3'|value cs resources Hx Hc Hcn Hrr H1' H2' H3']; subst;
    [|destruct cs as [|c cs]; [done|]; apply forallb_nonempty in Hcn; destruct Hrr as [-> |(x & l & ->)]];
    (rewrite parse_tool_intro;
      [done | each | each | each | done | done
      | unfold _parse_route; cbn -[forallb exact_fields]; rewrite Hx; cbn -[forallb]; by rewrite ?Hcn
      | first [done | exact (Hresources _ eq_refl)] | done]).
Qed.

Lemma reparse specs index seen names : Forall well_typed specs -> map sp_name specs = map JStr names ->
  NoDup names -> (forall n, n ∈ names -> n ∉ seen) ->
  parse_tools index (map JObj (map wire_entry specs)) seen = Ok (map without_parameters specs).
Proof.
  revert index seen names. induction specs as [|s specs IH]; intros index seen names Hw Hn Hd Hs; [done|].
  apply Forall_cons in Hw as [Hw Hws]. destruct names as [|name names]; [done|]. injection Hn as Hn Hns.
  apply NoDup_cons in Hd as [Hnin Hd]. cbn [map parse_tools].
  rewrite (wire_entry_parses s index seen name) by (auto || (apply Hs; set_solver)). cbn [mbind res_bind fst snd].
  rewrite (IH (S index) (name :: seen) names); [done..|]. intros n Hin. specialize (Hs n). set_solver.
Qed.

Lemma parsed_reparses (data : manifest_data) (specs : list ToolSpec) :
  parse_manifest_v3 data = Ok specs ->
  exists m, serialize_tool_specs specs = Ok m /\ parse_document (JObj m) = Ok (map without_parameters specs) /\
    (json_ok (JObj m) = true -> forall st, style_ok st ->
       parse_manifest_v3 (DataText (json_dumps st (JObj m))) = Ok (map without_parameters specs)).
Proof.
  intros H. apply parsed_names in H as (Hw & names & Hn & Hd). exists (manifest_of (map wire_entry specs)).
  assert (Hs : serialize_tool_specs specs = Ok (manifest_of (map wire_entry specs))).
  { unfold serialize_tool_specs. assert (res_map to_wire specs = Ok (map wire_entry specs)) as ->; [|done].
    apply res_map_Ok. clear -Hw. induction Hw; simpl; constructor; [by apply well_typed_wire | done]. }
  assert (Hd' : parse_document (JObj (manifest_of (map wire_entry specs))) = Ok (map without_parameters specs)).
  { unfold parse_document. cbn. apply (reparse specs 0 [] names); [done..|]. set_solver. }
  split_and!; [done.. |]. intros Hok st Hst. unfold parse_manifest_v3. cbn [load_data]. by rewrite loads_dumps.
Qed.

(** C33: serializing what was parsed and parsing it again gives the same
    declarations without their parameters, which the manifest does not carry: a
    parsed declaration always serializes, the document it makes is accepted by the
    strict parser, and so is its printed text (for printable values). *)
Theorem manifest_roundtrip (data : manifest_data) (specs : list ToolSpec) :
  parse_manifest_v3 data = Ok specs ->
  exists m, serialize_tool_specs specs = Ok m /\ parse_document (JObj m) = Ok (map without_parameters specs) /\
    (json_ok (JObj m) = true -> forall st, style_ok st ->
       parse_manifest_v3 (DataText (json_dumps st (JObj m))) = Ok (map without_parameters specs)).
Proof. apply parsed_reparses. Qed.

(** ** An example *)

Definition ex_manifest : string := jq
  "{'schema': 'kei.tool-manifest/v3', 'tools': [
     {'name': 'ls', 'description': 'list', 'service': 's', 'source': 'local', 'operation_class': 'read',
      'route': {'harness_executor': {'executor': 'e', 'registration': 'r'}}, 'parameters': {'type': 'object'}},
     {'name': 'pr', 'description': 'open', 'service': 's', 'source': 'github', 'operation_class': 'write',
      'route': {'connector_binding': {'agent_id': 'a', 'connector_id': 'c'}}, 'required_capabilities': ['pull'],
      'resource_types': [{'type': 'repo', 'parent_type': 'org'}], 'enabled': false}]}".
Definition ex_specs : list ToolSpec :=
  match parse_manifest_v3 (DataBytes ex_manifest) with Ok l => l | Raise _ => [] end.

Example parse_errors :
  map (fun t => match parse_manifest_v3 (DataText (jq (str_join ["{'schema':'kei.tool-manifest/v3','tools':["; t; "]}"]))) with
                | Raise (ManifestV3Error code _) => code | _ => "accepted" end)
    ["{}"; "3"; "{'x':1}"; "{'name':1}";
     "{'name':'a','description':'d','service':'s','source':'o','operation_class':'run'}";
     "{'name':'a','description':'d','service':'s','source':'o','operation_class':'read','route':{}}";
     "{'name':'a','description':'d','service':'s','source':'o','operation_class':'read','route':{'harness_executor':{'executor':'e','registration':'r'}},'resource_types':[]}"]
  = ["missing_field"; "invalid_type"; "unknown_field"; "invalid_type"; "invalid_operation_class"; "invalid_route"; "invalid_route"].
Proof. vm_compute. reflexivity. Qed.

Lemma parsed_specs_are_well_typed_witness :
  length ex_specs = 2 /\ Forall well_typed ex_specs /\
  exists names, map sp_name ex_specs = map JStr names /\ NoDup names.
Proof.
  split; [vm_compute; reflexivity|].
  apply (parsed_specs_are_well_typed (DataBytes ex_manifest) ex_specs). vm_compute. reflexivity.
Defined.

Lemma manifest_roundtrip_witness :
  exists m, serialize_tool_specs ex_specs = Ok m /\
    parse_manifest_v3 (DataText (json_dumps default_style (JObj m))) = Ok (map without_parameters ex_specs).
Proof.
  destruct (manifest_roundtrip (DataBytes ex_manifest) ex_specs) as (m & Hm & _ & Hp); [vm_compute; reflexivity|].
  exists m. split; [exact Hm|]. apply Hp; [|split; eexists; split; reflexivity].
  vm_compute in Hm. injection Hm as <-. vm_compute. reflexivity.
Defined.
