(* ===== verification/ToolRegistry.v ===== *)
(** * Tools, their registry and the prompt generator

    [tools/tool.py], [tools/registry.py] and [prompts/generator.py]: registration
    of tools with trusted route metadata, lookups, the deterministic export of the
    manifest v3, and the documentation of tools for a prompt.

    A registration is a [TypedDict] whose keys are all optional; its fields have
    the declared types here. *)
From Stdlib Require Import ZArith Lia Ascii String.
From stdpp Require Import base tactics list strings.
From S2P Require Import Prelude PyStr PyFloat Json JsonFacts Types ToolSpec.

(** ** Tools *)

(** An attribute that may be absent, a value, or a method that returns one. *)
Inductive attribute := Absent | Value (v : json) | Method (result : json).

Record Tool := { t_name : string; t_description : string; t_parameters : attribute; t_input_schema : attribute }.

Record Result := { r_success : bool; r_data : json; r_error : option string; r_timestamp : datetime }.

Definition result_to_dict (isoformat : datetime -> string) (r : Result) : jdict :=
  [("success", JBool (r_success r)); ("data", r_data r);
   ("error", match r_error r with Some e => JStr e | None => JNull end);
   ("timestamp", JStr (isoformat (r_timestamp r)))].

Record KeiToolRegistration := {
  k_service : option string; k_source : option string; k_operation_class : option string;
  k_route : option (dict (dict string)); k_required_capabilities : option (list string);
  k_resource_types : option (list (dict string)) }.

(** ** The registry *)

Record ToolRegistry := { _tools : dict Tool; _registrations : dict KeiToolRegistration }.
Definition new_registry : ToolRegistry := {| _tools := []; _registrations := [] |}.

Definition register (tool : Tool) (registration : option KeiToolRegistration) (r : ToolRegistry) : ToolRegistry :=
  let name := t_name tool in
  let cleared := ddel (_registrations r) name in
  {| _tools := dset (_tools r) name tool;
     _registrations := match registration with Some g => dset cleared name g | None => cleared end |}.

Definition get (r : ToolRegistry) (name : string) : option Tool * bool :=
  let tool := dget (_tools r) name in (tool, bool_decide (is_Some tool)).

Definition key_error (k : string) : exn := Exn KeyError k.
Definition names (r : ToolRegistry) : list string := py_sorted (dkeys (_tools r)).
Definition all (r : ToolRegistry) : res exn (list Tool) :=
  res_map (fun name => of_option (key_error name) (dget (_tools r) name)) (names r).

(** The tools that have [input_schema], which is called. *)
Definition schemas (r : ToolRegistry) : res exn (dict json) :=
  res_map (fun kv => match t_input_schema kv.2 with
                     | Method v => Ok (kv.1, v)
                     | _ => Raise (Exn TypeError "object is not callable")
                     end)
    (List.filter (fun kv => match t_input_schema kv.2 with Absent => false | _ => true end) (_tools r)).

Definition clear (r : ToolRegistry) : ToolRegistry := new_registry.

(** ** Validation and export *)

(** [not s.strip()] of a possibly absent text. *)
Definition blank (s : option string) : bool := negb (py_truthy_str (py_strip (default "" s))).

Definition _validate_registration (v : KeiToolRegistration) : res exn unit :=
  let fail := value_error in
  _ ← guard_or (negb (blank (k_service v)) && negb (blank (k_source v)))
        (fail "v3 registration requires non-empty service and source");
  _ ← guard_or match k_operation_class v with Some c => str_in c ["read"; "write"] | None => false end
        (fail "invalid operation_class");
  let route := default [] (k_route v) in
  match dget route "connector_binding", dget route "harness_executor" with
  | Some connector, None =>
      guard_or (negb (blank (dget connector "agent_id")) && negb (blank (dget connector "connector_id")) &&
                match k_required_capabilities v with
                | Some (c :: cs) => forallb (fun item => negb (blank (Some item))) (c :: cs)
                | _ => false
                end)
        (fail "connector route requires binding and non-empty capabilities")
  | None, Some harness =>
      _ ← guard_or (negb (blank (dget harness "executor")) && negb (blank (dget harness "registration")))
            (fail "harness route requires explicit identity");
      guard_or (bool_decide (k_required_capabilities v = None /\ k_resource_types v = None))
        (fail "harness route omits connector-only fields")
  | _, _ => Raise (fail "route must contain exactly one branch")
  end.

Definition str_dict (d : dict string) : json := JObj (map (fun kv => (kv.1, JStr kv.2)) d).
Definition route_json (route : dict (dict string)) : json := JObj (map (fun kv => (kv.1, str_dict kv.2)) route).

(** The sort key of a resource type. *)
Definition resource_key (item : dict string) : res exn (string * string) :=
  t ← of_option (key_error "type") (dget item "type"); Ok (t, dget_or item "parent_type" "").
Definition pair_leb (a b : string * string) : bool :=
  if String.eqb a.1 b.1 then String.leb a.2 b.2 else String.leb a.1 b.1.
Lemma pair_leb_total x y : pair_leb x y = false -> pair_leb y x = true.
Proof.
  unfold pair_leb. destruct (String.eqb_spec x.1 y.1) as [->|Hn]; [rewrite String.eqb_refl; apply str_leb_total|].
  intros H. destruct (String.eqb_spec y.1 x.1); [congruence|]. by apply str_leb_total.
Qed.
Lemma pair_leb_trans x y z : pair_leb x y = true -> pair_leb y z = true -> pair_leb x z = true.
Proof.
  unfold pair_leb. destruct (String.eqb_spec x.1 y.1) as [Hxy|Hxy], (String.eqb_spec y.1 z.1) as [Hyz|Hyz],
    (String.eqb_spec x.1 z.1) as [Hxz|Hxz]; try congruence; intros H1 H2.
  - by eapply str_leb_trans.
  - rewrite Hxz in H1. by destruct (Hyz (String.leb_antisym _ _ H2 H1)).
  - by eapply str_leb_trans.
Qed.
Definition sort_resources (items : list (dict string)) : res exn (list (dict string)) :=
  keyed ← res_map (fun item => k ← resource_key item; Ok (k, item)) items;
  Ok (map snd (sort_by (fun a b => pair_leb a.1 b.1) keyed)).

Definition export_entry (r : ToolRegistry) (name : string) : res exn jdict :=
  g ← of_option (key_error name) (dget (_registrations r) name);
  _ ← _validate_registration g;
  service ← of_option (key_error "service") (k_service g);
  source ← of_option (key_error "source") (k_source g);
  operation_class ← of_option (key_error "operation_class") (k_operation_class g);
  route ← of_option (key_error "route") (k_route g);
  tool ← of_option (key_error name) (dget (_tools r) name);
  extra ← (if dmem route "connector_binding" then
             caps ← of_option (key_error "required_capabilities") (k_required_capabilities g);
             resources ← match k_resource_types g with
                         | Some (i :: items) =>
                             sorted ← sort_resources (i :: items);
                             Ok [("resource_types", JArr (map str_dict sorted))]
                         | _ => Ok []
                         end;
             Ok (("required_capabilities", JArr (map JStr (py_sorted caps))) :: resources)
           else Ok []);
  Ok ([("name", JStr name); ("service", JStr service); ("source", JStr source);
       ("operation_class", JStr operation_class); ("route", route_json route);
       ("description", JStr (t_description tool)); ("enabled", JBool true)] ++ extra).

Definition export_document (r : ToolRegistry) : res exn json :=
  entries ← res_map (export_entry r) (py_sorted (dkeys (_registrations r)));
  Ok (JObj (manifest_of entries)).
Definition export_kei_tool_manifest (r : ToolRegistry) (version : Z) : res exn string :=
  _ ← guard_or (version =? 3)%Z (value_error "only manifest v3 is supported");
  document ← export_document r;
  Ok (json_dumps (indented_raw 2) document).

(** ** The prompt generator *)

Definition generate_tool_section (r : ToolRegistry) : res exn string :=
  tools ← all r;
  Ok match tools with
     | [] => ""
     | _ => join_with nl (String.append "## Available Tools" nl ::
              map (fun t => str_join ["- **"; t_name t; "**: "; t_description t]) tools)
     end.

(** The parameters of a schema: [getattr(tool, "input_schema", {}) or {}], which
    is the bound method itself when the tool has one. *)
Inductive schema_parameters := ParametersValue (v : json) | ParametersMethod.
Record ToolSchema := { ts_name : string; ts_description : string; ts_parameters : schema_parameters }.

Definition generate_tool_schemas (r : ToolRegistry) : res exn (list ToolSchema) :=
  tools ← all r;
  Ok (map (fun t => {| ts_name := t_name t; ts_description := t_description t;
                       ts_parameters := match t_input_schema t with
                                        | Absent => ParametersValue (JObj [])
                                        | Value v => ParametersValue (if py_truthy v then v else JObj [])
                                        | Method _ => ParametersMethod
                                        end |}) tools).


(** ** A registry is what was bound last *)

Inductive op := Register (tool : Tool) (registration : option KeiToolRegistration) | Clear.
Definition apply_op (r : ToolRegistry) (o : op) : ToolRegistry :=
  match o with Register t g => register t g r | Clear => clear r end.
Definition run (h : list op) : ToolRegistry := foldl apply_op new_registry h.

(** The specification: the tool bound last to a name since the last [clear], with
    the registration it was bound with. *)
Definition bind_op (name : string) (b : option (Tool * option KeiToolRegistration)) (o : op) :=
  match o with
  | Register t g => if String.eqb name (t_name t) then Some (t, g) else b
  | Clear => None
  end.
Definition binding (h : list op) (name : string) : option (Tool * option KeiToolRegistration) :=
  foldl (bind_op name) None h.

Record registry_ok (r : ToolRegistry) (b : string -> option (Tool * option KeiToolRegistration)) : Prop := {
  ok_tools : dict_ok (_tools r);
  ok_registrations : dict_ok (_registrations r);
  ok_tool : forall n, dget (_tools r) n = fst <$> b n;
  ok_registration : forall n, dget (_registrations r) n = b n ≫= snd }.

Lemma register_ok t g r b : registry_ok r b ->
  registry_ok (register t g r) (fun n => bind_op n (b n) (Register t g)).
Proof.
  intros [Ht Hr Hg Hgr]. split; simpl.
  - by apply dict_ok_dset.
  - destruct g; [apply dict_ok_dset|]; by apply dict_ok_ddel.
  - intros n. rewrite dget_dset, Hg. by destruct (String.eqb n (t_name t)).
  - intros n. destruct g as [g|]; rewrite ?dget_dset, dget_ddel, Hgr by done; by destruct (String.eqb n (t_name t)).
Qed.

Lemma run_ok h : registry_ok (run h) (binding h).
Proof.
  unfold run, binding. induction h as [|o h IH] using rev_ind; [split; try constructor; done|].
  rewrite foldl_snoc. destruct o as [t g|].
  - destruct (register_ok t g _ _ IH) as [H1 H2 H3 H4]. split; simpl in *; [done..| |]; intros n; rewrite foldl_snoc; eauto.
  - split; simpl; [constructor..| |]; intros n; by rewrite foldl_snoc.
Qed.

(** After any sequence of registrations and clearings, looking a name up
    gives the tool bound to it last since the last clearing, under its own name;
    and the registration kept for it is the one that came with that binding:
    binding a tool again without a registration forgets the old one. *)
Lemma registry_refines_bindings (h : list op) (name : string) :
  get (run h) name = (fst <$> binding h name, bool_decide (is_Some (binding h name))) /\
  dget (_registrations (run h)) name = binding h name ≫= snd /\
  (forall t, (get (run h) name).1 = Some t -> t_name t = name).
Proof.
  destruct (run_ok h) as [Ht Hr Hg Hgr]. unfold get. rewrite Hg, Hgr. split_and!.
  - f_equal. apply bool_decide_ext. destruct (binding h name); simpl; split; intros [? [=]]; eauto.
  - done.
  - simpl. intros t H. unfold binding in H. clear -H. induction h as [|o h IH] using rev_ind; [done|].
    rewrite foldl_snoc in H. destruct o as [t' g|]; [|done]. simpl in H.
    destruct (String.eqb_spec name (t_name t')); [by simplify_eq/= | auto].
Qed.

(** ** Determinism *)

Lemma dict_perm {V} (d e : dict V) : dict_ok d -> dict_ok e -> (forall n, dget d n = dget e n) -> dkeys d ≡ₚ dkeys e.
Proof.
  intros Hd He H. apply NoDup_Permutation; [done..|]. intros n.
  assert (Hk : forall d : dict V, n ∈ dkeys d <-> dget d n <> None).
  { intros f. rewrite dget_None. split; [tauto|]. intros Hf. by destruct (decide (n ∈ dkeys f)). }
  by rewrite !Hk, H.
Qed.

Lemma res_map_ext {E A B} (f g : A -> res E B) l : (forall x, f x = g x) -> res_map f l = res_map g l.
Proof. intros H. induction l as [|x l IH]; simpl; [done|]. by rewrite H, IH. Qed.

Section SameBindings.
Context (h h' : list op) (same : forall n, binding h n = binding h' n).

Lemma same_tools n : dget (_tools (run h)) n = dget (_tools (run h')) n.
Proof using same. by rewrite (ok_tool _ _ (run_ok h)), (ok_tool _ _ (run_ok h')), same. Qed.
Lemma same_registrations n : dget (_registrations (run h)) n = dget (_registrations (run h')) n.
Proof using same. by rewrite (ok_registration _ _ (run_ok h)), (ok_registration _ _ (run_ok h')), same. Qed.

Lemma same_names : names (run h) = names (run h').
Proof using same. apply py_sorted_unique, dict_perm; [apply run_ok.. | apply same_tools]. Qed.

Lemma same_entry n : export_entry (run h) n = export_entry (run h') n.
Proof using same. unfold export_entry. by rewrite same_tools, same_registrations. Qed.

Lemma same_all : all (run h) = all (run h').
Proof using same. unfold all. rewrite same_names. apply res_map_ext. intros n. by rewrite same_tools. Qed.
End SameBindings.

(** What a registry shows does not depend on the order in which tools were
    registered, nor on bindings that were replaced or cleared: two histories that
    leave the same bindings list the same names and tools, make the same prompt
    section and tool schemas, and export the same manifest, byte for byte, or the
    same error. *)
Lemma registry_order_irrelevant (h h' : list op) : (forall n, binding h n = binding h' n) ->
  names (run h) = names (run h') /\ all (run h) = all (run h') /\
  generate_tool_section (run h) = generate_tool_section (run h') /\
  generate_tool_schemas (run h) = generate_tool_schemas (run h') /\
  forall version, export_kei_tool_manifest (run h) version = export_kei_tool_manifest (run h') version.
Proof.
  intros H. unfold generate_tool_section, generate_tool_schemas, export_kei_tool_manifest, export_document.
  rewrite (same_all _ _ H), (same_names _ _ H). split_and!; [done..|]. intros version.
  assert (py_sorted (dkeys (_registrations (run h))) = py_sorted (dkeys (_registrations (run h')))) as ->
    by (apply py_sorted_unique, dict_perm; [apply run_ok.. | by apply same_registrations]).
  by rewrite (res_map_ext _ _ _ (same_entry _ _ H)).
Qed.

(** ** The exported manifest is what the strict parser reads *)

(** A registration in the shape that the manifest format asks for: exactly the
    fields of its route's kind, and a non-empty type in each resource type.
    The exporter itself checks neither. *)
Record exact_registration (g : KeiToolRegistration) : Prop := {
  ex_route : exists kind fields, k_route g = Some [(kind, fields)] /\
    exact_fields (map (fun kv => (kv.1, JStr kv.2)) fields)
      (if String.eqb kind "harness_executor" then _HARNESS_ROUTE_FIELDS else _CONNECTOR_ROUTE_FIELDS) = true;
  ex_resources : forall l, k_resource_types g = Some l -> Forall (fun d => dget_or d "type" "" <> "") l }.

Lemma blank_empty : blank (Some "") = true.
Proof. reflexivity. Qed.

Lemma not_blank s : blank s = false -> exists x, s = Some x /\ x <> "".
Proof. destruct s as [s|]; intros H; [|done]. exists s. split; [done|]. by intros ->. Qed.

Lemma dget_strs k (d : dict string) : dget (map (fun kv => (kv.1, JStr kv.2)) d) k = JStr <$> dget d k.
Proof. induction d as [|[k0 v0] d IH]; simpl; [done|]. by destruct (String.eqb k k0). Qed.

Lemma res_map_Forall {E A B} (f : A -> res E B) (P : A -> Prop) (Q : B -> Prop) l k :
  res_map f l = Ok k -> Forall P l -> (forall x y, P x -> f x = Ok y -> Q y) -> Forall Q k.
Proof.
  intros H%res_map_Ok Hl Hpq. induction H as [|x y l k Hxy H IH]; [constructor|].
  apply Forall_cons in Hl as [Hx Hl]. constructor; [by eapply Hpq | by apply IH].
Qed.

Lemma sort_resources_Forall (P : dict string -> Prop) items sorted :
  sort_resources items = Ok sorted -> Forall P items -> Forall P sorted /\ length sorted = length items.
Proof.
  unfold sort_resources. intros H HP. res_inv. split.
  - assert (Hk : Forall (fun kv => P kv.2) a).
    { eapply res_map_Forall; [exact Hr | exact HP |]. intros x y Hx Hy. simpl in Hy. res_inv. exact Hx. }
    rewrite <- (sort_by_perm (fun a b => pair_leb a.1 b.1) a) in Hk. apply Forall_map. exact Hk.
  - rewrite length_map. rewrite (Permutation_length (sort_by_perm _ a)). apply res_map_Ok, Forall2_length in Hr. done.
Qed.

Lemma resource_valid d : dget_or d "type" "" <> "" -> valid_resource (str_dict d).
Proof.
  intros H. eexists. split; [reflexivity|]. unfold jget. rewrite !dget_strs. unfold dget_or in H.
  split; [|by destruct (dget d "parent_type")]. destruct (dget d "type") as [x|]; simpl in *; [by exists x | done].
Qed.

Lemma nonempty_strs caps : forallb (fun item => negb (blank (Some item))) caps = true ->
  forallb _nonempty_str (map JStr (py_sorted caps)) = true.
Proof.
  intros H. apply forallb_nonempty, Forall_map. rewrite py_sorted_perm. apply Forall_forall. intros x Hx.
  rewrite forallb_forall in H. specialize (H x ltac:(by apply list_elem_of_In)). apply negb_true_iff in H.
  apply not_blank in H as (y & [= <-] & Hy). by eexists.
Qed.

Definition base_entry (name service source operation_class : string) (route : dict (dict string)) (description : string) : jdict :=
  [("name", JStr name); ("service", JStr service); ("source", JStr source);
   ("operation_class", JStr operation_class); ("route", route_json route);
   ("description", JStr description); ("enabled", JBool true)].

(** The shape of an exported entry. *)
Lemma export_entry_shape r name e : export_entry r name = Ok e ->
  exists g t service source operation_class route extra,
    dget (_registrations r) name = Some g /\ dget (_tools r) name = Some t /\
    _validate_registration g = Ok () /\ k_route g = Some route /\ k_source g = Some source /\
    service <> "" /\ source <> "" /\ (operation_class = "read" \/ operation_class = "write") /\
    e = base_entry name service source operation_class route (t_description t) ++ extra /\
    (if dmem route "connector_binding" then
       exists caps resources, k_required_capabilities g = Some caps /\
         extra = ("required_capabilities", JArr (map JStr (py_sorted caps))) :: resources /\
         (resources = [] \/ exists l sorted, k_resource_types g = Some l /\ l <> [] /\ sort_resources l = Ok sorted /\
                              resources = [("resource_types", JArr (map str_dict sorted))])
     else extra = []).
Proof.
  unfold export_entry. intros H. res_inv. destruct a0. pose proof Hr0 as Hv. unfold _validate_registration in Hr0. res_inv.
  rewrite Hr1, Hr2 in *. rewrite Hr3 in *. py_bool.
  apply not_blank in H, H0. destruct H as (s1 & [= <-] & Hs1), H0 as (s2 & [= <-] & Hs2).
  exists a, a5, a1, a2, a3, a4, a6. split_and!; [done..| |done|].
  - apply str_in_spec in Hr8. set_solver.
  - destruct (dmem a4 "connector_binding"); [|by res_inv]. res_inv. eexists _, _. split_and!; [done..|].
    destruct (k_resource_types a) as [[|i l]|]; res_inv; [by left| |by left]. right. exists (i :: l), a6. by split_and!.
Qed.

Lemma base_entry_strings name sv so oc route d extra :
  py_truthy_str name = true -> py_truthy_str sv = true -> py_truthy_str so = true -> py_truthy_str oc = true ->
  py_truthy_str d = true ->
  Forall (fun k => _nonempty_str (jget (base_entry name sv so oc route d ++ extra) k) = true)
    ["name"; "description"; "service"; "source"; "operation_class"].
Proof. intros. by repeat apply List.Forall_cons. Qed.

Lemma export_entry_parses r name e index seen : export_entry r name = Ok e ->
  (forall g, dget (_registrations r) name = Some g -> exact_registration g) ->
  (forall t, dget (_tools r) name = Some t -> t_description t <> "") ->
  name <> "" -> name ∉ seen ->
  _parse_tool index e seen = Ok (new_spec e, name :: seen) /\ sp_name (new_spec e) = JStr name.
Proof.
  intros He Hg Hd Hname Hseen. apply export_entry_shape in He as (g & t & sv & so & oc & route & extra & Hgr & Ht & Hv & Hr & _ & Hsv & Hso & Hoc & -> & Hex).
  split; [|done]. destruct (Hg g Hgr) as [(kind & fields & Hkf & Hfields) Hres]. rewrite Hkf in Hr. injection Hr as <-. specialize (Hd t Ht).
  apply str_in_false in Hseen. apply py_truthy_str_true in Hname, Hsv, Hso, Hd.
  assert (Hocn : py_truthy_str oc = true) by (by destruct Hoc as [-> | ->]).
  unfold _validate_registration in Hv. rewrite Hkf in Hv. res_inv. unfold dmem in Hex. cbn [dget from_option id] in Hv, Hex.
  destruct (String.eqb_spec "connector_binding" kind) as [<-|Hk].
  - destruct Hex as (caps & resources & Hc & -> & Hrs). simpl in Hv. res_inv. rewrite Hc in Hv. py_bool.
    destruct caps as [|c caps]; [done|]. apply (nonempty_strs (c :: caps)) in H0. remember (map JStr (py_sorted (c :: caps))) as cs eqn:Hcs.
    destruct cs as [|c' cs]; [apply (f_equal length) in Hcs; rewrite length_map, (Permutation_length (py_sorted_perm _)) in Hcs; done|].
    assert (Hp : forall l, resources = [("resource_types", JArr l)] -> parse_resource_types_from index 0 l = Ok () /\ l <> []).
    { intros l ->. destruct Hrs as [?|(items & sorted & Hit & Hne & Hsort & [= ->])]; [done|].
      apply (sort_resources_Forall _ _ _ Hsort) in Hres as [Hvalid Hlen]; [|done].
      split; [|by destruct sorted, items]. apply parse_resources_Ok, Forall_map. eapply Forall_impl; [exact Hvalid|]. exact resource_valid. }
    destruct Hrs as [-> |(items & sorted & _ & _ & _ & ->)]; [|destruct (Hp _ eq_refl) as [Hp1 Hp2]];
      (rewrite parse_tool_intro; [done | each | each | by apply base_entry_strings | destruct Hoc as [-> | ->]; auto | done
      | unfold _parse_route; cbn -[forallb exact_fields]; cbn -[forallb exact_fields] in Hfields; rewrite Hfields; cbn -[forallb]; rewrite H0; cbn
      | .. | done]).
    all: try done. by destruct sorted.
  - assert (extra = []) as -> by exact Hex.
    destruct (String.eqb_spec "harness_executor" kind) as [<-|Hk']; [|done].
    rewrite parse_tool_intro; [done | each | each | by apply base_entry_strings | destruct Hoc as [-> | ->]; auto | done | | done..].
    unfold _parse_route. cbn -[forallb exact_fields]. cbn -[forallb exact_fields] in Hfields. rewrite Hfields. done.
Qed.

Lemma export_entries_parse r names : forall index seen entries,
  res_map (export_entry r) names = Ok entries -> NoDup names -> (forall n, n ∈ names -> n ∉ seen) ->
  (forall n g, n ∈ names -> dget (_registrations r) n = Some g -> exact_registration g) ->
  (forall n t, n ∈ names -> dget (_tools r) n = Some t -> t_description t <> "") -> (~ "" ∈ names) ->
  parse_tools index (map JObj entries) seen = Ok (map new_spec entries) /\
  map (fun e => sp_name (new_spec e)) entries = map JStr names.
Proof.
  induction names as [|n names IH]; intros index seen entries H Hnd Hs Hg Hd Hne; simpl in H; res_inv; [done|].
  apply NoDup_cons in Hnd as [Hnin Hnd].
  destruct (export_entry_parses _ _ _ index seen Hr) as [Hp Hn]; 
    [intros g; apply Hg; set_solver | intros t; apply Hd; set_solver | set_solver | apply Hs; set_solver |].
  destruct (IH (S index) (n :: seen) _ Hr0) as [Hps Hns]; [done | set_solver | intros ? ? ?; apply Hg; set_solver
    | intros ? ? ?; apply Hd; set_solver | set_solver |].
  cbn [map parse_tools]. rewrite Hp. cbn [mbind res_bind fst snd]. rewrite Hps, Hns, Hn. done.
Qed.

Definition registered (h : list op) : list string := py_sorted (dkeys (_registrations (run h))).

(** C23: what a registry exports is a manifest that the strict parser accepts,
    declaring exactly the registered tools, sorted by name. This holds for an
    export that does not raise and can be printed, when each registered tool has
    a name and a description, and each registration carries exactly the fields of
    its route's kind and gives each of its resource types a non-empty type. The
    exporter checks none of these four: a tool without a description, or a
    resource type whose type is empty, is exported and then refused. *)
Theorem export_is_accepted (h : list op) (document : json) :
  (forall name t g, binding h name = Some (t, Some g) -> name <> "" /\ t_description t <> "" /\ exact_registration g) ->
  export_document (run h) = Ok document -> json_ok document = true ->
  exists text specs, export_kei_tool_manifest (run h) 3 = Ok text /\ parse_manifest_v3 (DataText text) = Ok specs /\
    map sp_name specs = map JStr (registered h) /\ Forall well_typed specs.
Proof.
  intros Hb H Hok. unfold export_kei_tool_manifest. rewrite H. unfold export_document in H. res_inv. rename a into a0, Hr into Hr0.
  destruct (run_ok h) as [Ht Hrd Hg Hgr].
  assert (Hbound : forall n, n ∈ registered h -> exists t g, binding h n = Some (t, Some g)).
  { intros n Hn. unfold registered in Hn. rewrite py_sorted_perm in Hn. specialize (Hgr n).
    destruct (binding h n) as [[t [g|]]|]; [eauto| |]; by apply dget_None in Hgr. }
  destruct (export_entries_parse (run h) (registered h) 0 [] a0 Hr0) as [Hp Hn].
  - unfold registered. rewrite py_sorted_perm. exact Hrd.
  - set_solver.
  - intros n g Hn Hgn. destruct (Hbound n Hn) as (t & g' & Hbn). rewrite Hgr, Hbn in Hgn. injection Hgn as <-. by apply (Hb n t).
  - intros n t Hn Htn. destruct (Hbound n Hn) as (t' & g & Hbn). rewrite Hg, Hbn in Htn. injection Htn as <-. by apply (Hb n _ g).
  - intros Hn. destruct (Hbound _ Hn) as (t & g & Hbn). by apply Hb in Hbn as [? _].
  - assert (Hd : parse_manifest_v3 (DataText (json_dumps (indented_raw 2) (JObj (manifest_of a0)))) = Ok (map new_spec a0)).
    { unfold parse_manifest_v3. cbn [load_data]. rewrite loads_dumps by (done || apply indented_raw_ok). exact Hp. }
    eexists _, _. split_and!; [done | exact Hd | by rewrite map_map | by apply (parsed_names _ _ Hd)].
Qed.

(** ** Examples *)

Definition ex_tool (name description : string) : Tool :=
  {| t_name := name; t_description := description; t_parameters := Absent; t_input_schema := Absent |}.
Definition ex_registration (route : dict (dict string)) (caps : option (list string)) resources : KeiToolRegistration :=
  {| k_service := Some "s"; k_source := Some "github"; k_operation_class := Some "read"; k_route := Some route;
     k_required_capabilities := caps; k_resource_types := resources |}.
Definition ex_connector := ex_registration [("connector_binding", [("agent_id", "a"); ("connector_id", "c")])]
  (Some ["pull"; "issues"]) (Some [[("type", "repo"); ("parent_type", "org")]; [("type", "org")]]).
Definition ex_harness := ex_registration [("harness_executor", [("executor", "e"); ("registration", "r")])] None None.
Definition ex_history : list op :=
  [Register (ex_tool "z" "old") None; Register (ex_tool "pr" "list") (Some ex_connector); Clear;
   Register (ex_tool "ls" "list") (Some ex_harness); Register (ex_tool "pr" "open") (Some ex_connector);
   Register (ex_tool "help" "") None].
Definition ex_other_order : list op :=
  [Register (ex_tool "help" "") None; Register (ex_tool "pr" "open") (Some ex_connector);
   Register (ex_tool "ls" "list") (Some ex_harness)].

(** A tool without a description is exported, and the strict parser refuses it. *)
Example export_can_be_refused :
  match export_kei_tool_manifest (run [Register (ex_tool "ls" "") (Some ex_harness)]) 3 with
  | Ok text => parse_manifest_v3 (DataText text)
  | Raise _ => Ok []
  end = Raise (_fail "missing_field" (at_tool 0 ".description is missing or empty")).
Proof. vm_compute. reflexivity. Qed.

(** So is a resource type whose type is empty. *)
Example empty_resource_type_is_exported :
  let g := ex_registration [("connector_binding", [("agent_id", "a"); ("connector_id", "c")])]
             (Some ["pull"]) (Some [[("type", "")]]) in
  match export_kei_tool_manifest (run [Register (ex_tool "pr" "open") (Some g)]) 3 with
  | Ok text => is_ok (parse_manifest_v3 (DataText text))
  | Raise _ => true
  end = false /\
  is_ok (export_kei_tool_manifest (run [Register (ex_tool "pr" "open") (Some g)]) 3) = true.
Proof. vm_compute. split; reflexivity. Qed.

Example rebinding_forgets :
  export_kei_tool_manifest (run [Register (ex_tool "ls" "l") (Some ex_harness); Register (ex_tool "ls" "l") None]) 3
  = export_kei_tool_manifest new_registry 3.
Proof. reflexivity. Qed.

Lemma ex_bindings name : binding ex_history name = binding ex_other_order name.
Proof.
  unfold binding. simpl. destruct (String.eqb name "help") eqn:H1; [apply String.eqb_eq in H1 as ->; done|].
  destruct (String.eqb name "pr") eqn:H2; [apply String.eqb_eq in H2 as ->; done|]. done.
Qed.

Lemma registry_order_irrelevant_witness :
  all (run ex_history) = all (run ex_other_order) /\
  names (run ex_history) = ["help"; "ls"; "pr"] /\
  export_kei_tool_manifest (run ex_history) 3 = export_kei_tool_manifest (run ex_other_order) 3.
Proof.
  destruct (registry_order_irrelevant ex_history ex_other_order ex_bindings) as (_ & Ha & _ & _ & He).
  split; [exact Ha|]. split; [vm_compute; reflexivity | apply He].
Defined.

Lemma ex_exact name t g : binding ex_history name = Some (t, Some g) ->
  name <> "" /\ t_description t <> "" /\ exact_registration g.
Proof.
  rewrite ex_bindings. unfold binding. simpl. intros H.
  destruct (String.eqb_spec name "ls") as [->|]; [|destruct (String.eqb_spec name "pr") as [->|]; [|by destruct (String.eqb name "help")]];
    simplify_eq; (split_and!; [done..|]); split; try (eexists _, _; split; [done | vm_compute; reflexivity]); intros l Hl; simplify_eq/=.
  by repeat constructor.
Qed.

Definition ex_document : json := match export_document (run ex_history) with Ok d => d | Raise _ => JNull end.

Lemma export_is_accepted_witness : exists text specs,
  export_kei_tool_manifest (run ex_history) 3 = Ok text /\ parse_manifest_v3 (DataText text) = Ok specs /\
  map sp_name specs = [JStr "ls"; JStr "pr"].
Proof.
  destruct (export_is_accepted ex_history ex_document ex_exact) as (text & specs & H & Hp & Hn & _);
    [vm_compute; reflexivity..|].
  exists text, specs. split_and!; [exact H | exact Hp | exact Hn].
Defined.
