(* ===== verification/LintTools.v ===== *)
(** * The lint of tool manifests

    [lint_tools.py]: the diagnostics of a manifest v3 document, sorted.

    Parameters: the connector capabilities (a fixture file read when the module is
    loaded), [lower] ([str.lower]), [json_message] (the decoder's message) and
    [sorted_any], [sorted] of a list that does not consist of texts. *)
From Stdlib Require Import ZArith Lia Ascii String.
From stdpp Require Import base tactics list strings.
From S2P Require Import Prelude PyStr PyFloat PyBytes Json JsonFacts Types ToolSpec ToolRegistry.

(** [^[A-Za-z][A-Za-z0-9_.-]*$], of the whole text. *)
Definition _IDENTIFIER (s : string) : bool :=
  match s with
  | String a s' => (is_upper a || is_lower a) && str_forall (fun c => is_alnum c || char_in c "_.-") s'
  | EmptyString => false
  end.
Definition _RETIRED : list string := ["allow"; "approval"; "approval_id"; "approval_required"; "requires_approval"].

Definition note (b : bool) (e : string) : list string := if b then [e] else [].

(** [l != sorted(l)]: lists of the same objects, an object being equal to itself
    even when it holds a NaN. *)
Definition reordered (l sorted : list json) : bool :=
  existsb (fun p => negb (json_same p.1 p.2 || py_eq p.1 p.2)) (zip l sorted).

Section Lint.
Context (capabilities : jdict) (lower json_message : string -> string) (sorted_any : list json -> res exn (list json)).

Fixpoint _has_retired_field (v : json) : bool :=
  match v with
  | JObj d => existsb (fun kv => str_in (lower kv.1) _RETIRED || py_in "approval" (lower kv.1) || _has_retired_field kv.2) d
  | JArr l => existsb _has_retired_field l
  | JStr s => String.eqb (lower s) "allow"
  | _ => false
  end.

(** [sorted(caps, key=str)] and the sort of resource types by their key. *)
Definition str_le (a b : json) : bool := String.leb (py_str a) (py_str b).
Definition lint_key (item : json) : string * string :=
  match item with
  | JObj d => (py_str (jget_or d "type" (JStr "")), py_str (jget_or d "parent_type" (JStr "")))
  | _ => ("", "")
  end.
Definition key_le (a b : json) : bool := pair_leb (lint_key a) (lint_key b).

Definition check_capability (prefix source : string) (cap : json) : res exn (list string) :=
  ok ← any_in cap (jget_or capabilities source (JArr []));
  Ok (note (negb ok) (str_join [prefix; " capability "; py_repr_json cap; " is not declared for source "; py_repr source])).

Definition check_capabilities (prefix : string) (connector : bool) (source caps : json) : res exn (list string) :=
  if connector then
    match caps with
    | JArr (c :: cs) =>
        match source with
        | JStr s =>
            undeclared ← res_map (check_capability prefix s) (c :: cs);
            Ok (note (reordered (c :: cs) (sort_by str_le (c :: cs)))
                  (String.append prefix " required_capabilities are not sorted") ++ concat undeclared)
        | _ => Ok []
        end
    | _ => Ok [String.append prefix " is missing required_capabilities"]
    end
  else Ok [].

Definition check_resource (prefix : string) (resource : json) : list string :=
  match resource with
  | JObj d =>
      concat (map (fun key =>
        let value := jget d key in
        if String.eqb key "parent_type" && is_null value then []
        else note (negb match value with JStr s => _IDENTIFIER s | _ => false end)
               (str_join [prefix; " invalid resource type "; key; ": "; py_repr_json value])) ["type"; "parent_type"])
  | _ => [String.append prefix " resource type must be an object"]
  end.
Definition check_resources (prefix : string) (resources : json) : list string :=
  match resources with
  | JArr l =>
      note (reordered l (sort_by key_le l)) (String.append prefix " resource_types are not sorted")
      ++ concat (map (check_resource prefix) l)
  | _ => [String.append prefix ".resource_types must be an array"]
  end.

(** The diagnostics of one tool, and the names seen so far. *)
Definition lint_tool (index : nat) (tool : jdict) (seen : list string) : res exn (list string * list string) :=
  let prefix := at_tool index "" in
  let say := String.append prefix in
  let '(duplicate, seen) := match jget tool "name" with
                            | JStr name => (note (str_in name seen) (String.append "duplicate tool name: " name), name :: seen)
                            | _ => ([], seen)
                            end in
  let source := jget tool "source" in
  let branch k := match jget tool "route" with JObj route => jget route k | _ => JNull end in
  let connector := branch "connector_binding" in
  let harness := branch "harness_executor" in
  let lacks v a b := match v with JObj d => negb (py_truthy (jget d a)) || negb (py_truthy (jget d b)) | _ => false end in
  caps ← check_capabilities prefix (is_dict connector) source (jget tool "required_capabilities");
  Ok (duplicate
      ++ note (negb (_nonempty_str source)) (say " is missing source")
      ++ note (Bool.eqb (is_dict connector) (is_dict harness)) (say " route must contain exactly one route kind")
      ++ note (lacks connector "agent_id" "connector_id") (say " connector_binding requires agent_id and connector_id")
      ++ note (lacks harness "executor" "registration") (say " harness_executor requires executor and registration")
      ++ caps
      ++ check_resources prefix (jget_or tool "resource_types" (JArr []))
      ++ note (negb (py_eq (jget tool "operation_class") (JStr "read") || py_eq (jget tool "operation_class") (JStr "write")))
           (say " operation_class must be read or write")
      ++ note (_has_retired_field (JObj tool)) (say " contains allow or a retired approval field"), seen).

Fixpoint lint_tools (index : nat) (tools : list json) (seen : list string) : res exn (list string) :=
  match tools with
  | [] => Ok []
  | JObj tool :: tools' =>
      p ← lint_tool index tool seen;
      rest ← lint_tools (S index) tools' p.2;
      Ok (p.1 ++ rest)
  | _ :: tools' => rest ← lint_tools (S index) tools' seen; Ok (at_tool index " must be an object" :: rest)
  end.

Definition tool_names (tools : list json) : list json :=
  omap (fun t => match t with JObj d => Some (jget_or d "name" (JStr "")) | _ => None end) tools.

Definition lint_manifest (raw : string) : res exn (list string) :=
  match json_loads raw with
  | None => Ok [String.append "invalid JSON: " (json_message raw)]
  | Some (JObj manifest) =>
      if negb (py_eq (jget manifest "schema") (JStr "kei.tool-manifest/v3")) then Ok ["schema must be kei.tool-manifest/v3"]
      else match jget manifest "tools" with
           | JArr tools =>
               errors ← lint_tools 0 tools [];
               let names := tool_names tools in
               sorted ← sorted_values sorted_any names;
               Ok (py_sorted (errors ++ note (reordered names sorted) "tools are not sorted by name"))
           | _ => Ok ["tools must be an array"]
           end
  | Some _ => Ok ["schema must be kei.tool-manifest/v3"]
  end.

(** What [main] prints, and the code it exits with; [argument] is [sys.argv[1]]
    when it is alone, [read_text] reads it or fails with a text. *)
Definition main (read_text : string -> res string string) (argument : option string) : res exn (json * Z) :=
  let report errors := JObj [("valid", JBool (match errors with [] => true | _ => false end)); ("errors", JArr (map JStr errors))] in
  let code errors := match errors with [] => 0%Z | _ => 1%Z end in
  match argument with
  | None => let usage := ["usage: python -m haikeilabs.agentware.lint_tools MANIFEST.json"] in Ok (report usage, 1%Z)
  | Some path =>
      errors ← match read_text path with Ok raw => lint_manifest raw | Raise e => Ok [e] end;
      Ok (report errors, code errors)
  end.
(** ** What the registry exports has no diagnostics *)

Lemma json_same_self v : reordered v v = false.
Proof. unfold reordered. induction v as [|x v IH]; simpl; [done|]. by rewrite json_same_refl. Qed.

Lemma ordered_map {A B} (f : A -> B) (le : B -> B -> bool) (l : list A) :
  ordered (fun x y => le (f x) (f y)) l -> ordered le (map f l).
Proof. unfold ordered. induction 1 as [|x l Hl IH Hx]; simpl; constructor; [done | by apply Forall_map]. Qed.

Lemma ordered_ext {A} (le le' : A -> A -> bool) (l : list A) : (forall x y, x ∈ l -> y ∈ l -> le x y = le' x y) ->
  ordered le l -> ordered le' l.
Proof.
  unfold ordered. intros H Hl. induction Hl as [|x l Hl IH Hx]; [constructor|]. constructor.
  - apply IH. intros y z Hy Hz. apply H; by apply list_elem_of_further.
  - rewrite Forall_forall in *. intros y Hy. rewrite <- H; [auto | set_solver..].
Qed.

(** A registration whose capabilities are declared for its source and whose
    resource types are identifiers. *)
Record lintable (g : KeiToolRegistration) : Prop := {
  li_capabilities : forall source caps, k_source g = Some source -> k_required_capabilities g = Some caps ->
    exists declared, jget_or capabilities source (JArr []) = JArr declared /\ Forall (fun c => JStr c ∈ declared) caps;
  li_resources : forall l, k_resource_types g = Some l -> Forall (fun d =>
    (exists t, dget d "type" = Some t /\ _IDENTIFIER t = true) /\
    (forall p, dget d "parent_type" = Some p -> _IDENTIFIER p = true)) l }.

Lemma lint_capabilities prefix source caps : caps <> [] ->
  (exists declared, jget_or capabilities source (JArr []) = JArr declared /\ Forall (fun c => JStr c ∈ declared) caps) ->
  check_capabilities prefix true (JStr source) (JArr (map JStr (py_sorted caps))) = Ok [].
Proof.
  intros Hne (declared & Hd & Hc). rewrite <- (py_sorted_perm caps) in Hc.
  assert (Hs : sort_by str_le (map JStr (py_sorted caps)) = map JStr (py_sorted caps))
    by (apply sort_by_id, ordered_map, py_sorted_ordered).
  assert (Hu : res_map (check_capability prefix source) (map JStr (py_sorted caps)) = Ok (map (fun _ => []) (py_sorted caps))).
  { apply res_map_Ok. clear Hs. induction Hc as [|c cs Hc _ IH]; simpl; constructor; [|done].
    unfold check_capability. rewrite Hd. cbn [any_in mbind res_bind].
    assert (existsb (py_eq (JStr c)) declared = true) as ->; [|done].
    apply existsb_exists. exists (JStr c). split; [by apply list_elem_of_In | apply String.eqb_refl]. }
  assert (Hnil : py_sorted caps <> []).
  { intros Hn. apply Hne, Permutation_nil. by rewrite <- Hn, py_sorted_perm. }
  unfold check_capabilities. destruct (py_sorted caps) as [|c cs]; [done|]. cbn [map] in *.
  rewrite Hu, Hs, json_same_self. cbn [mbind res_bind note app]. f_equal. clear. induction cs; simpl; auto.
Qed.

Lemma lint_resources prefix l sorted : sort_resources l = Ok sorted ->
  Forall (fun d => (exists t, dget d "type" = Some t /\ _IDENTIFIER t = true) /\
    (forall p, dget d "parent_type" = Some p -> _IDENTIFIER p = true)) l ->
  check_resources prefix (JArr (map str_dict sorted)) = [].
Proof.
  intros Hs Hl. destruct (sort_resources_Forall _ _ _ Hs Hl) as [Hf _].
  assert (Ho : ordered key_le (map str_dict sorted)).
  { apply ordered_map. unfold sort_resources in Hs. res_inv.
    assert (Hk : Forall (fun kv => lint_key (str_dict kv.2) = kv.1) a).
    { eapply res_map_Forall; [exact Hr | exact Hl |]. intros d kv [(t & Ht & _) _] Hkv. unfold resource_key in Hkv.
      rewrite Ht in Hkv. cbn in Hkv. injection Hkv as <-. cbn. unfold jget_or. rewrite !dget_strs, Ht. cbn.
      unfold dget_or. by destruct (dget d "parent_type"). }
    apply ordered_map. eapply ordered_ext; [|apply sort_by_ordered; intros *; [apply pair_leb_total | apply pair_leb_trans]].
    rewrite <- (sort_by_perm (fun x y => pair_leb x.1 y.1) a) in Hk. rewrite Forall_forall in Hk.
    intros x y Hx Hy. unfold key_le. by rewrite !Hk. }
  unfold check_resources. rewrite (sort_by_id _ _ Ho), json_same_self. cbn [note app]. clear Ho Hs.
  induction Hf as [|d ds [(t & Ht & Hi) Hp] _ IH]; [done|]. cbn [map concat]. rewrite IH, app_nil_r.
  cbn -[_IDENTIFIER]. unfold jget. rewrite !dget_strs, Ht. cbn -[_IDENTIFIER]. rewrite Hi.
  destruct (dget d "parent_type") as [p|]; [|done]. cbn -[_IDENTIFIER]. by rewrite (Hp p eq_refl).
Qed.

Ltac not_blanks :=
  repeat match goal with H : blank (dget _ _) = false |- _ => apply not_blank in H as (? & H & ?%py_truthy_str_true) end.
Ltac field_truthy :=
  repeat match goal with H : dget ?d ?k = Some _ |- context [dget ?d ?k] => rewrite H; cbn [from_option default id fmap option_fmap option_map] end;
  cbn [py_truthy]; repeat match goal with H : py_truthy_str _ = true |- _ => rewrite H; clear H end;
  cbn -[check_capabilities check_resources at_tool py_sorted].

Lemma lint_entry r name e index seen : export_entry r name = Ok e ->
  (forall g, dget (_registrations r) name = Some g -> lintable g) ->
  _has_retired_field (JObj e) = false -> name ∉ seen ->
  lint_tool index e seen = Ok ([], name :: seen).
Proof.
  intros He Hg Hret Hseen. apply export_entry_shape in He as
    (g & t & sv & so & oc & route & extra & Hgr & Ht & Hv & Hr & Hso' & Hsv & Hso & Hoc & -> & Hex).
  destruct (Hg g Hgr) as [Hcap Hres]. apply str_in_false in Hseen. apply py_truthy_str_true in Hso.
  assert (Hop : negb (py_eq (JStr oc) (JStr "read") || py_eq (JStr oc) (JStr "write")) = false) by (by destruct Hoc as [-> | ->]).
  assert (Hbr : forall k, match route_json route with JObj d => jget d k | _ => JNull end = default JNull (str_dict <$> dget route k)).
  { intros k. cbn. unfold jget. f_equal. clear. induction route as [|[k0 v0] d IH]; simpl; [done|]. by destruct (String.eqb k k0). }
  assert (Hj : forall k d, jget (map (fun kv => (kv.1, JStr kv.2)) d) k = default JNull (JStr <$> dget d k)).
  { intros k d. unfold jget. by rewrite dget_strs. }
  unfold lint_tool. rewrite Hret. cbn -[check_capabilities check_resources py_eq route_json at_tool note].
  rewrite Hseen, Hso, !Hbr, Hop. unfold _validate_registration in Hv. rewrite Hr in Hv. res_inv. unfold dmem in Hex. cbn [from_option id default] in Hv.
  destruct (dget route "connector_binding") as [connector|], (dget route "harness_executor") as [harness|]; res_inv.
  - py_bool. not_blanks. cbn in Hex. destruct Hex as (caps & resources & Hc & -> & Hrs). rewrite Hc in *.
    cbn -[check_capabilities check_resources py_sorted at_tool]. rewrite !Hj. field_truthy.
    rewrite (lint_capabilities _ so caps); [|by destruct caps | by apply Hcap].
    cbn -[check_resources at_tool]. destruct Hrs as [-> |(l & sorted & Hl & _ & Hs & ->)]; [done|].
    cbn -[check_resources at_tool]. by rewrite (lint_resources _ _ _ Hs (Hres _ Hl)).
  - py_bool. not_blanks. cbn in Hex. subst extra. cbn -[at_tool]. rewrite !Hj. by field_truthy.
Qed.

Lemma lint_entries r names : forall index seen entries, res_map (export_entry r) names = Ok entries -> NoDup names ->
  (forall n, n ∈ names -> n ∉ seen) -> (forall n g, dget (_registrations r) n = Some g -> lintable g) ->
  existsb _has_retired_field (map JObj entries) = false ->
  lint_tools index (map JObj entries) seen = Ok [] /\ tool_names (map JObj entries) = map JStr names.
Proof.
  induction names as [|n names IH]; intros index seen entries H Hnd Hs Hg Hret; simpl in H; res_inv; [done|].
  apply NoDup_cons in Hnd as [Hnin Hnd]. cbn [map existsb] in Hret. apply orb_false_iff in Hret as [Hr1 Hr2].
  destruct (IH (S index) (n :: seen) _ Hr0 Hnd) as [Hl Hn]; [set_solver | done | done |].
  pose proof (lint_entry _ _ _ index seen Hr (Hg n) Hr1 ltac:(set_solver)) as He.
  cbn [map lint_tools]. rewrite He. cbn [mbind res_bind fst snd]. rewrite Hl. split; [done|].
  cbn [tool_names omap list_omap]. unfold tool_names in Hn. rewrite Hn. f_equal.
  apply export_entry_shape in Hr as (? & ? & ? & ? & ? & ? & ? & _ & _ & _ & _ & _ & _ & _ & _ & -> & _). done.
Qed.


(** C34: the linter accepts what the registry exports: of registrations whose
    capabilities are declared for their source and whose resource types are
    identifiers, an export that does not raise, holds no retired approval word and
    is printable has no diagnostics, and [lint_tools] on the exported file reports
    it valid and exits with 0. *)
Theorem export_lints_clean (h : list op) (document : json) :
  (forall name t g, binding h name = Some (t, Some g) -> lintable g) ->
  export_document (run h) = Ok document -> _has_retired_field document = false -> json_ok document = true ->
  exists text, export_kei_tool_manifest (run h) 3 = Ok text /\ lint_manifest text = Ok [] /\
    forall read_text path, read_text path = Ok text ->
      main read_text (Some path) = Ok (JObj [("valid", JBool true); ("errors", JArr [])], 0%Z).
Proof.
  intros Hb H Hret Hok. unfold export_kei_tool_manifest. rewrite H. unfold export_document in H. res_inv.
  destruct (run_ok h) as [_ Hrd _ Hgr].
  assert (Hre : existsb _has_retired_field (map JObj a) = false).
  { cbn [_has_retired_field manifest_of existsb snd] in Hret. rewrite orb_false_r in Hret.
    apply orb_false_iff in Hret as [_ Hret]. apply orb_false_iff in Hret as [_ Hret]. exact Hret. }
  destruct (lint_entries _ _ 0 [] a Hr) as [Hl Hn]; [by rewrite py_sorted_perm | set_solver | | done |].
  { intros n g Hg. rewrite Hgr in Hg. destruct (binding h n) as [[t [g'|]]|] eqn:E; [|done..]. simpl in Hg. injection Hg as <-. by eapply Hb. }
  assert (Hd : lint_manifest (json_dumps (indented_raw 2) (JObj (manifest_of a))) = Ok []).
  { unfold lint_manifest. rewrite loads_dumps by (done || apply indented_raw_ok). cbn -[lint_tools tool_names reordered sorted_values].
    rewrite Hl, Hn. cbn [mbind res_bind]. rewrite sorted_texts. cbn [mbind res_bind]. by rewrite json_same_self. }
  eexists. split_and!; [done | exact Hd |]. intros read_text path Hread. unfold main. by rewrite Hread, Hd.
Qed.
End Lint.

(** ** Examples *)

Definition ex_capabilities : jdict := [("github", JArr [JStr "issue.read"; JStr "issues"; JStr "pull"])].
Definition ex_sorted_any (l : list json) : res exn (list json) := Raise (Exn TypeError "'<' not supported").
Abbreviation ex_lint := (lint_manifest ex_capabilities py_lower (fun _ => "Expecting value") ex_sorted_any).

Lemma ex_lintable name t g : binding ex_history name = Some (t, Some g) -> lintable ex_capabilities g.
Proof.
  intros H. assert (g = ex_connector \/ g = ex_harness) as [-> | ->].
  { cbn in H. repeat case_match; simplify_eq; auto. }
  - split; [intros ? ? [= <-] [= <-]; eexists; split; [reflexivity|]; repeat constructor; set_solver|].
    intros l [= <-]. repeat constructor; simpl; (eexists; split; reflexivity) || by intros ? [= <-].
  - split; [by intros ? ? _ | done].
Qed.

Lemma export_lints_clean_witness : exists text,
  export_kei_tool_manifest (run ex_history) 3 = Ok text /\ ex_lint text = Ok [].
Proof.
  destruct (export_lints_clean ex_capabilities py_lower (fun _ => "Expecting value") ex_sorted_any ex_history ex_document
    ex_lintable) as (text & H & Hl & _); [vm_compute; reflexivity..|].
  exists text. split; [exact H | exact Hl].
Defined.

(** Diagnostics are sorted as texts, whatever tool they are about, and one tool
    can have several. *)
Example lint_diagnoses : ex_lint (json_dumps (indented_raw 2) (JObj (manifest_of
    [[("name", JStr "b"); ("source", JStr "github"); ("route", JObj [("connector_binding", JObj [("agent_id", JStr "a"); ("connector_id", JStr "c")])]);
      ("required_capabilities", JArr [JStr "push"]); ("operation_class", JStr "read")];
     [("name", JStr "a"); ("source", JStr "x"); ("operation_class", JStr "delete"); ("Approval", JNull)]])))
  = Ok ["tools are not sorted by name"; "tools[0] capability 'push' is not declared for source 'github'";
        "tools[1] contains allow or a retired approval field"; "tools[1] operation_class must be read or write";
        "tools[1] route must contain exactly one route kind"].
Proof. vm_compute. reflexivity. Qed.
