(* ===== verification/ToolSync.v ===== *)
(** * Registering the tool manifest with the control plane

    [kei/tool_sync.py]: the configuration from the environment, the choice of a
    proxy, the PUT with its retries, and the entry points for a document, for
    typed declarations and for a file.

    Parameters: [put] (one PUT by httpx) and [open_client] (what making the client
    raises), [sleep], the file reader, [netloc_ok] and [lower].  A world records
    the requests and the delays. *)
From Stdlib Require Import ZArith Lia Ascii String SpecFloat.
From stdpp Require Import base tactics list strings.
From S2P Require Import Prelude PyStr PyFloat PyUrl PyBytes Json JsonFacts Types ToolSpec.

Definition TOOLS_PATH := "/api/v1/runtime/tools".
Definition TOOL_MANIFEST_V3_MEDIA_TYPE := "application/vnd.kei.tool-manifest.v3+json".
Definition EGRESS_PROXY_ENV := "KEI_PROXY_EGRESS_PROXY".
Definition NO_PROXY_ENV := "KEI_PROXY_NO_PROXY".
Definition RUNTIME_CONTROL_PLANE_URL_ENV := "KEI_RUNTIME_CONTROL_PLANE_URL".
Definition RUNTIME_TOKEN_ENV := "KEI_RUNTIME_TOKEN".
Definition DEFAULT_ATTEMPTS : Z := 5.
Definition DEFAULT_BACKOFF_SECONDS : spec_float := float_of_Z 1.
Definition MAX_BACKOFF_SECONDS : spec_float := float_of_Z 16.
Definition DEFAULT_TIMEOUT_SECONDS : spec_float := float_of_Z 30.
Definition _ERROR_BODY_LIMIT : nat := 300.

(** What a sync raises: its own error, a manifest error, or another exception. *)
Inductive sync_error :=
| ToolManifestSyncError (message : string)
| BadManifest (e : manifest_error)
| SyncExn (e : exn).

Record ToolManifestSyncConfig := {
  control_plane_url : string; token : string; egress_proxy : string; no_proxy : string; attempts : Z;
  backoff_seconds : spec_float; timeout : spec_float; expect_tools : bool }.

Record ToolManifestSyncResult := { sent : bool; tool_count : nat; counts : jdict }.

(** [urllib.request.proxy_bypass_environment(host, {'no': no_proxy})]: a port is
    cut off, and an entry matches a host or a domain. *)
Definition host_only (host : string) : string :=
  let r := str_rev host in
  match cut_at (fun a => negb (is_digit a)) r with
  | (_, Some (String a rest)) => if Ascii.eqb a ":" then str_rev rest else host
  | _ => host
  end.

Section Sync.
Context (netloc_ok : string -> bool) (lower : string -> string).

Definition proxy_bypass (host no_proxy : string) : bool :=
  if String.eqb no_proxy "*" then true
  else
    let host := lower host in
    let hostonly := host_only host in
    existsb (fun entry =>
      let name := py_strip entry in
      if negb (py_truthy_str name) then false
      else
        let name := lower (lstrip_chars (fun a => Ascii.eqb a ".") name) in
        String.eqb hostonly name || String.eqb host name ||
        py_endswith (String "." name) hostonly || py_endswith (String "." name) host)
      (py_split "," no_proxy).

Definition from_env (env : dict string) : res sync_error ToolManifestSyncConfig :=
  let url := py_strip (dget_or env RUNTIME_CONTROL_PLANE_URL_ENV "") in
  let tok := py_strip (dget_or env RUNTIME_TOKEN_ENV "") in
  let fail m := ToolManifestSyncError m in
  _ ← guard_or (py_truthy_str url) (fail (String.append RUNTIME_CONTROL_PLANE_URL_ENV " is not set"));
  _ ← guard_or (py_truthy_str tok) (fail (String.append RUNTIME_TOKEN_ENV " is not set"));
  '(scheme, netloc, _) ← of_option (SyncExn (Exn ValueError "Invalid URL")) (urlsplit netloc_ok url);
  _ ← guard_or (str_in scheme ["https"; "http"] && py_truthy_str netloc)
        (fail (String.append RUNTIME_CONTROL_PLANE_URL_ENV " is not an http(s) URL"));
  Ok {| control_plane_url := url; token := tok; egress_proxy := py_strip (dget_or env EGRESS_PROXY_ENV "");
        no_proxy := py_strip (dget_or env NO_PROXY_ENV ""); attempts := DEFAULT_ATTEMPTS;
        backoff_seconds := DEFAULT_BACKOFF_SECONDS; timeout := DEFAULT_TIMEOUT_SECONDS; expect_tools := true |}.

Definition tools_url (c : ToolManifestSyncConfig) : string :=
  String.append (str_rev (lstrip_chars (fun a => Ascii.eqb a "/") (str_rev (control_plane_url c)))) TOOLS_PATH.

Definition proxy (c : ToolManifestSyncConfig) : res sync_error (option string) :=
  if negb (py_truthy_str (egress_proxy c)) then Ok None
  else
    '(_, _, host) ← of_option (SyncExn (Exn ValueError "Invalid URL")) (urlsplit netloc_ok (control_plane_url c));
    Ok (if py_truthy_str (no_proxy c) && proxy_bypass host (no_proxy c) then None else Some (egress_proxy c)).

(** ** The manifest *)

Inductive manifest_input := ManifestText (s : string) | ManifestMapping (d : jdict).

Definition _document (manifest : manifest_input) : res sync_error jdict :=
  match manifest with
  | ManifestMapping d => Ok d
  | ManifestText s =>
      match json_loads s with
      | None => Raise (ToolManifestSyncError "the tool manifest is not JSON")
      | Some (JObj d) => Ok d
      | Some _ => Raise (ToolManifestSyncError "the tool manifest is not a JSON object")
      end
  end.

Definition document_count (document : jdict) : nat :=
  match jget document "tools" with JArr tools => length tools | _ => 0 end.
Definition manifest_tool_count (manifest : manifest_input) : res sync_error nat :=
  document ← _document manifest; Ok (document_count document).

(** ** The PUT and its retries *)

Inductive client_route := TestTransport | EgressRoute (proxy : option string) | AmbientRoute.
Definition _client (c : ToolManifestSyncConfig) (transport : bool) : res sync_error client_route :=
  if transport then Ok TestTransport
  else if py_truthy_str (egress_proxy c) then p ← proxy c; Ok (EgressRoute p)
  else Ok AmbientRoute.

Record put_request := {
  q_route : client_route; q_url : string; q_body : string; q_headers : list (string * string); q_timeout : spec_float }.

(** [response.content], and [response.text] as httpx decodes it. *)
Record Response := { status_code : Z; content : string; text : string }.

(** What a PUT raises: an [httpx.HTTPError] of a class, or another exception. *)
Inductive put_exn := HTTPError (cls : string) | OtherExn (e : exn).

Definition _counts (r : Response) : jdict :=
  match json_loads_bytes (content r) with Ok (JObj d) => d | _ => [] end.

Definition _scrub (text token : string) : string :=
  if py_truthy_str token then py_replace token "[redacted]" text else text.

Definition int_to_float (z : Z) : res sync_error spec_float :=
  match float_of_Z z with
  | S754_infinity _ => Raise (SyncExn (Exn OverflowError "int too large to convert to float"))
  | f => Ok f
  end.
(** [min(a, b)]. *)
Definition float_min (a b : spec_float) : spec_float :=
  match float_compare b a with Some Lt => b | _ => a end.
Definition delay (c : ToolManifestSyncConfig) (attempt : nat) : res sync_error spec_float :=
  p ← int_to_float (2 ^ (Z.of_nat attempt - 1));
  Ok (float_min (SFmul f_prec f_emax (backoff_seconds c) p) MAX_BACKOFF_SECONDS).

Section Run.
Context {W : Type} (put : put_request -> W -> res put_exn Response * W) (open_client : client_route -> option exn)
  (sleep : spec_float -> W -> W).

Record world := { w_state : W; puts : list put_request; sleeps : list spec_float }.
Definition run_put (q : put_request) : world -> res put_exn Response * world := fun w =>
  let '(r, s) := put q (w_state w) in (r, {| w_state := s; puts := puts w ++ [q]; sleeps := sleeps w |}).
Definition run_sleep (d : spec_float) (w : world) : world :=
  {| w_state := sleep d (w_state w); puts := puts w; sleeps := sleeps w ++ [d] |}.

Definition is_success (r : Response) : bool := ((200 <=? status_code r) && (status_code r <? 300))%Z.
(** The text of a failure, before the token is removed. *)
Definition failure_text (r : res put_exn Response) : string :=
  match r with
  | Raise (HTTPError cls) => String.append "network error: " cls
  | Ok r => str_join ["HTTP "; int_str (status_code r); ": "; py_take _ERROR_BODY_LIMIT (text r)]
  | Raise (OtherExn _) => ""
  end.

Definition exhausted (total : nat) (last : string) : sync_error :=
  ToolManifestSyncError
    (str_join ["PUT "; TOOLS_PATH; " failed after "; int_str (Z.of_nat total); " attempt(s): "; last]).

(** [left] attempts are left, the next one is the [attempt]th. *)
Fixpoint put_loop (c : ToolManifestSyncConfig) (q : put_request) (count total left attempt : nat) (last : string)
  : eff world sync_error ToolManifestSyncResult := fun w =>
  match left with
  | O => (Raise (exhausted total last), w)
  | S left' =>
      let '(r, w) := run_put q w in
      let failed (w : world) :=
        let last := _scrub (failure_text r) (token c) in
        if (attempt <? total)%nat then
          match delay c attempt with
          | Raise e => (Raise e, w)
          | Ok d => put_loop c q count total left' (S attempt) last (run_sleep d w)
          end
        else put_loop c q count total left' (S attempt) last w in
      match r with
      | Raise (OtherExn e) => (Raise (SyncExn e), w)
      | Raise (HTTPError _) => failed w
      | Ok response =>
          if is_success response then (Ok {| sent := true; tool_count := count; counts := _counts response |}, w)
          else failed w
      end
  end.

Definition put_headers (c : ToolManifestSyncConfig) : list (string * string) :=
  [("Authorization", String.append "Bearer " (token c)); ("Content-Type", TOOL_MANIFEST_V3_MEDIA_TYPE);
   ("Accept", TOOL_MANIFEST_V3_MEDIA_TYPE)].
Definition put_of (c : ToolManifestSyncConfig) (route : client_route) (document : jdict) : put_request :=
  {| q_route := route; q_url := tools_url c; q_body := json_dumps default_style (JObj document);
     q_headers := put_headers c; q_timeout := timeout c |}.
Definition total_attempts (c : ToolManifestSyncConfig) : nat := Z.to_nat (Z.max 1 (attempts c)).

Definition sync_document (document : jdict) (c : ToolManifestSyncConfig) (expected : option bool) (transport : bool)
  : eff world sync_error ToolManifestSyncResult := fun w =>
  let count := document_count document in
  if (count =? 0)%nat then
    (if default (expect_tools c) expected
     then Raise (ToolManifestSyncError (str_join ["refusing to PUT an empty manifest to "; TOOLS_PATH;
                                                  ": it would unregister every tool"]))
     else Ok {| sent := false; tool_count := 0; counts := [] |}, w)
  else
    match _client c transport with
    | Raise e => (Raise e, w)
    | Ok route =>
        match open_client route with
        | Some e => (Raise (SyncExn e), w)
        | None => put_loop c (put_of c route document) count (total_attempts c) (total_attempts c) 1 "no attempt made" w
        end
    end.

Definition sync_tool_manifest (manifest : manifest_input) (c : ToolManifestSyncConfig) (expected : option bool)
    (transport : bool) : eff world sync_error ToolManifestSyncResult := fun w =>
  match _document manifest with
  | Raise e => (Raise e, w)
  | Ok document => sync_document document c expected transport w
  end.

Definition sync_tool_specs (specs : list ToolSpec) (c : ToolManifestSyncConfig) (expected : option bool) (transport : bool)
  : eff world sync_error ToolManifestSyncResult := fun w =>
  match serialize_tool_specs specs with
  | Raise e => (Raise (SyncExn e), w)
  | Ok manifest => sync_tool_manifest (ManifestMapping manifest) c expected transport w
  end.

Definition sync_manifest_path (read_bytes : string -> res exn string) (path : string) (c : ToolManifestSyncConfig)
    (expected : option bool) (transport : bool) : eff world sync_error ToolManifestSyncResult := fun w =>
  match load_manifest_v3 read_bytes path with
  | Raise e => (Raise (BadManifest e), w)
  | Ok specs => sync_tool_specs specs c expected transport w
  end.
End Run.
End Sync.

(** ** Delays *)

Lemma float_min_le a b : float_compare b b = Some Eq -> float_compare (float_min a b) b <> Some Gt.
Proof.
  unfold float_min. intros Hb. destruct (float_compare b a) as [[]|] eqn:H; rewrite ?Hb; try done;
    rewrite float_compare_swap, H; done.
Qed.

Lemma delay_capped c attempt d : delay c attempt = Ok d -> float_compare d MAX_BACKOFF_SECONDS <> Some Gt.
Proof. unfold delay. intros H. res_inv. apply float_min_le. reflexivity. Qed.

(** ** What a sync sends *)

Section Facts.
Context {W : Type} (netloc_ok : string -> bool) (lower : string -> string)
  (put : put_request -> W -> res put_exn Response * W) (open_client : client_route -> option exn) (sleep : spec_float -> W -> W).
Abbreviation world := (@world W).

(** [k] requests [q], and a delay after each but the last of a full run. *)
Record ran (c : ToolManifestSyncConfig) (q : put_request) (k j : nat) (w w' : world) : Prop := {
  ran_puts : puts w' = puts w ++ replicate k q;
  ran_sleeps : exists ds, sleeps w' = sleeps w ++ ds /\ length ds = j /\
    Forall (fun d => float_compare d MAX_BACKOFF_SECONDS <> Some Gt) ds }.

Lemma ran_none c q w : ran c q 0 0 w w.
Proof. split; [by rewrite app_nil_r|]. exists []. by rewrite app_nil_r. Qed.

Lemma ran_put c q (w : world) : ran c q 1 0 w (run_put put q w).2.
Proof. unfold run_put. destruct (put _ _). split; [done|]. exists []. by rewrite app_nil_r. Qed.

Lemma ran_trans c q k k' j j' w w' w'' : ran c q k j w w' -> ran c q k' j' w' w'' -> ran c q (k + k') (j + j') w w''.
Proof.
  intros [Hp (ds & Hs & Hl & Hf)] [Hp' (ds' & Hs' & Hl' & Hf')]. split.
  - by rewrite Hp', Hp, <- (assoc_L (++)), replicate_add.
  - exists (ds ++ ds'). rewrite Hs', Hs, <- (assoc_L (++)), length_app. split_and!; [done | lia | by apply Forall_app].
Qed.

Lemma ran_sleep c q k attempt d (w w' : world) : delay c attempt = Ok d -> ran c q k 0 w w' ->
  ran c q k 1 w (run_sleep sleep d w').
Proof.
  intros Hd [Hp (ds & Hs & Hl & _)]. destruct ds; [|done]. split; [done|]. exists [d]. cbn. rewrite Hs, app_nil_r.
  split_and!; [done..|]. repeat constructor. by eapply delay_capped.
Qed.

(** How a sync ends, after [k] of [total] requests: the only answer is a success
    of the last request, and failing takes all of them. *)
Definition loop_outcome (count total k : nat) (r : res sync_error ToolManifestSyncResult) : Prop :=
  match r with
  | Ok x => sent x = true /\ tool_count x = count
  | Raise (ToolManifestSyncError m) => k = total
  | Raise _ => True
  end.

Lemma put_loop_ran c q count total left attempt last w : left + attempt = S total -> 0 < left ->
  let '(r, w') := put_loop put sleep c q count total left attempt last w in
  exists k j, ran c q k j w w' /\ 0 < k <= left /\ j < k /\ loop_outcome count left k r.
Proof.
  revert attempt last w. induction left as [|left IH]; intros attempt last w Hl Hpos; [lia|]. cbn [put_loop].
  pose proof (ran_put c q w) as Hput. destruct (run_put put q w) as [r w1]. cbn [snd] in Hput.
  set (next := (if (attempt <? total)%nat then _ else _)).
  assert (Hnext : let '(r, w') := next in
    exists k j, ran c q k j w w' /\ 0 < k <= S left /\ j < k /\ loop_outcome count (S left) k r).
  { subst next. destruct (Nat.ltb_spec attempt total) as [Hlt|Hge].
    - destruct (delay c attempt) as [d|e] eqn:Hd.
      + specialize (IH (S attempt) (_scrub (failure_text r) (token c)) (run_sleep sleep d w1) ltac:(lia) ltac:(lia)).
        destruct (put_loop _ _ _ _ _ _ _ _ _ _) as [r' w']. destruct IH as (k & j & Hr & Hk & Hj & Ho).
        exists (1 + k), (1 + j). split_and!; [by eapply ran_trans; [eapply ran_sleep|] | lia | lia | lia |].
        destruct r' as [|[]]; simpl in *; auto; lia.
      + exists 1, 0. split_and!; [done | lia | lia | lia |]. unfold delay, int_to_float in Hd.
        destruct (float_of_Z _); simpl in Hd; try discriminate Hd; injection Hd as <-; exact I.
    - assert (left = 0) as -> by lia. cbn [put_loop]. exists 1, 0. split_and!; [done | lia | lia | lia | done]. }
  clearbody next. destruct r as [response|[cls|e]]; [|exact Hnext|].
  - destruct (is_success response); [|exact Hnext]. exists 1, 0. split_and!; [done | lia | lia | lia | done].
  - exists 1, 0. split_and!; [done | lia | lia | lia | exact I].
Qed.

(** What a result says of the [k] requests of a sync. *)
Definition sync_outcome (document : jdict) (c : ToolManifestSyncConfig) (expected : option bool) (k : nat)
    (r : res sync_error ToolManifestSyncResult) : Prop :=
  match r with
  | Ok x => if sent x then 0 < k /\ tool_count x = document_count document
            else k = 0 /\ document_count document = 0 /\ default (expect_tools c) expected = false
  | Raise (ToolManifestSyncError m) => k = 0 \/ k = total_attempts c
  | Raise _ => True
  end.

Lemma sync_document_ran document c expected transport w :
  let '(r, w') := sync_document netloc_ok lower put open_client sleep document c expected transport w in
  exists route k j, ran c (put_of c route document) k j w w' /\ k <= total_attempts c /\ j <= pred k /\
    (0 < k -> 0 < document_count document) /\
    sync_outcome document c expected k r.
Proof.
  unfold sync_document. destruct (Nat.eqb_spec (document_count document) 0) as [Hz|Hz].
  - exists TestTransport, 0, 0. split_and!; [apply ran_none | lia | lia | lia |].
    destruct (default (expect_tools c) expected) eqn:He; cbn; rewrite ?He; auto.
  - assert (Hn : forall (route : client_route) e, (forall m, e <> ToolManifestSyncError m) -> exists (route' : client_route) k j,
      ran c (put_of c route' document) k j w w /\ k <= total_attempts c /\ j <= pred k /\ (0 < k -> 0 < document_count document) /\
      sync_outcome document c expected k (Raise e)).
    { intros route e He. exists route, 0, 0. split_and!; [apply ran_none | lia | lia | lia |]. destruct e; cbn; auto. }
    destruct (_client _ _ c transport) as [route|e] eqn:Hc.
    2: { apply (Hn TestTransport). intros m ->. unfold _client, proxy in Hc. destruct transport; [done|].
         destruct (py_truthy_str (egress_proxy c)); [|done]. cbn in Hc. destruct (urlsplit _ _) as [[[? ?] ?]|]; done. }
    destruct (open_client route) as [e|]; [by apply (Hn route)|]. clear Hn.
    pose proof (put_loop_ran c (put_of c route document) (document_count document) (total_attempts c) (total_attempts c) 1
      "no attempt made" w ltac:(lia) ltac:(unfold total_attempts; lia)) as H.
    destruct (put_loop _ _ _ _ _ _ _ _ _ _) as [r w']. destruct H as (k & j & Hr & Hk & Hj & Ho).
    exists route, k, j. split_and!; [done | lia | lia | lia |]. destruct r as [x|[]]; simpl in Ho |- *; auto.
    destruct Ho as [-> ->]. lia.
Qed.

(** An empty manifest is never sent, and a sync makes at most its attempts.
    Every request of a sync is one and the same PUT of the document to the tools
    URL with the token in its header, of a document with at least one tool; there
    are at most [max(1, attempts)] of them with a delay of at most 16 seconds
    between two; a result that says nothing was sent is of a document without
    tools where none are expected; a result that says it was sent names the
    document's number of tools; and after requests were made, the sync's own error
    comes only when all attempts are used up. *)
Lemma sync_never_sends_an_empty_manifest (manifest : manifest_input) (c : ToolManifestSyncConfig) (expected : option bool)
    (transport : bool) (w : world) :
  let '(r, w') := sync_tool_manifest netloc_ok lower put open_client sleep manifest c expected transport w in
  (exists e, _document manifest = Raise e /\ r = Raise e /\ w' = w) \/
  exists document route k j, _document manifest = Ok document /\
    ran c (put_of c route document) k j w w' /\ k <= total_attempts c /\ j <= pred k /\
    (0 < k -> 0 < document_count document) /\
    sync_outcome document c expected k r.
Proof.
  unfold sync_tool_manifest. destruct (_document manifest) as [document|e]; [|left; eauto].
  pose proof (sync_document_ran document c expected transport w) as H.
  destruct (sync_document _ _ _ _ _ _ _ _ _ _) as [r w']. destruct H as (route & k & j & H). right. eauto 10.
Qed.

(** ** The file is what is sent *)

(** Syncing a file registers what the file declares.  Every request of
    [sync_manifest_path] carries a body that the strict parser reads as the
    declarations loaded from the file, without their parameters (for a printable
    document); and when the file cannot be loaded nothing is sent. *)
Lemma path_sync_sends_the_file (read_bytes : string -> res exn string) (path : string) (c : ToolManifestSyncConfig)
    (expected : option bool) (transport : bool) (w : world) :
  let '(r, w') := sync_manifest_path netloc_ok lower put open_client sleep read_bytes path c expected transport w in
  match load_manifest_v3 read_bytes path with
  | Raise e => r = Raise (BadManifest e) /\ w' = w
  | Ok specs => exists document q k, puts w' = puts w ++ replicate k q /\ serialize_tool_specs specs = Ok document /\
      (json_ok (JObj document) = true -> 0 < k ->
       parse_manifest_v3 (DataText (q_body q)) = Ok (map without_parameters specs))
  end.
Proof.
  unfold sync_manifest_path. destruct (load_manifest_v3 read_bytes path) as [specs|e] eqn:Hl; [|done].
  unfold load_manifest_v3 in Hl. destruct (read_bytes path) as [s|]; [|done]. apply parsed_reparses in Hl as (m & Hm & _ & Hp).
  unfold sync_tool_specs. rewrite Hm. unfold sync_tool_manifest. cbn [_document].
  pose proof (sync_document_ran m c expected transport w) as H.
  destruct (sync_document _ _ _ _ _ _ _ _ _ _) as [r w']. destruct H as (route & k & j & [Hr _] & _).
  exists m, (put_of c route m), k. split_and!; [done..|]. intros Hok _. apply Hp; [done | apply default_style_ok].
Qed.

(** ** The token stays in its header *)

(** The texts that the module's errors are made of. *)
Definition own_texts (c : ToolManifestSyncConfig) : list string :=
  ["redacted"; "no attempt made"; "the tool manifest is not JSON"; "the tool manifest is not a JSON object";
     str_join ["refusing to PUT an empty manifest to "; TOOLS_PATH; ": it would unregister every tool"];
     str_join ["PUT "; TOOLS_PATH; " failed after "; int_str (Z.of_nat (total_attempts c)); " attempt(s):"]].


Section Token.
Context (c : ToolManifestSyncConfig) (nonempty : token c <> "") (no_space : lacks " " (token c) = true)
  (no_open : lacks "[" (token c) = true) (no_close : lacks "]" (token c) = true)
  (not_ours : forallb (fun s => negb (py_in (token c) s)) (own_texts c) = true).

Lemma own_text s : s ∈ own_texts c -> py_in (token c) s = false.
Proof using not_ours.
  intros Hs. rewrite forallb_forall in not_ours. apply negb_true_iff, not_ours. by apply list_elem_of_In.
Qed.

Ltac own := apply own_text; unfold own_texts; repeat first [apply list_elem_of_here | apply list_elem_of_further].

Lemma scrubbed s : py_in (token c) (_scrub s (token c)) = false.
Proof using nonempty no_open no_close not_ours.
  unfold _scrub. rewrite (proj2 (py_truthy_str_true _) nonempty).
  apply (replace_removes (token c) "redacted" "[" "]"); [done..|]. own.
Qed.

Lemma exhausted_clean last m : py_in (token c) last = false ->
  exhausted (total_attempts c) last = ToolManifestSyncError m -> py_in (token c) m = false.
Proof using nonempty no_space not_ours.
  intros Hl He. set (head := str_join ["PUT "; TOOLS_PATH; " failed after "; int_str (Z.of_nat (total_attempts c)); " attempt(s):"]).
  assert (Hh : py_in (token c) head = false) by own.
  assert (E : str_join ["PUT "; TOOLS_PATH; " failed after "; int_str (Z.of_nat (total_attempts c)); " attempt(s): "; last]
    = String.append head (String " " last)).
  { subst head. cbn [str_join]. rewrite !str_app_nil_r. by rewrite !str_app_assoc. }
  assert (m = String.append head (String " " last)) as -> by (rewrite <- E; unfold exhausted in He; congruence).
  clear E He. apply not_true_is_false. intros H. apply (py_in_around " ") in H as [H|H]; [congruence..|done|done].
Qed.

Lemma put_loop_clean q count left attempt last w : py_in (token c) last = false ->
  match (put_loop put sleep c q count (total_attempts c) left attempt last w).1 with
  | Raise (ToolManifestSyncError m) => py_in (token c) m = false
  | _ => True
  end.
Proof using nonempty no_space no_open no_close not_ours.
  revert attempt last w. induction left as [|left IH]; intros attempt last w Hl; cbn [put_loop].
  - cbn [fst]. destruct (exhausted _ _) eqn:He; auto. by eapply exhausted_clean.
  - destruct (run_put put q w) as [r w1]. pose proof (scrubbed (failure_text r)) as Hs.
    set (next := (if (attempt <? total_attempts c)%nat then _ else _)).
    assert (Hnext : match next.1 with Raise (ToolManifestSyncError m) => py_in (token c) m = false | _ => True end).
    { subst next. destruct (attempt <? total_attempts c)%nat; [|by apply IH].
      destruct (delay c attempt) as [d|e] eqn:Hd; [by apply IH|]. cbn. unfold delay, int_to_float in Hd.
      destruct (float_of_Z _); simpl in Hd; try discriminate Hd; by injection Hd as <-. }
    clearbody next. destruct r as [response|[cls|e]]; [by destruct (is_success response) | done | done].
Qed.

(** C24: no error of a sync holds the token.  For a token without blanks and
    brackets that is no part of the module's own texts, the message of the error a
    sync raises does not contain it, whatever the control plane answers, the
    token included. *)
Theorem sync_errors_hold_no_token (manifest : manifest_input) (expected : option bool) (transport : bool) (w : world) (m : string) :
  (sync_tool_manifest netloc_ok lower put open_client sleep manifest c expected transport w).1 = Raise (ToolManifestSyncError m) ->
  py_in (token c) m = false.
Proof using nonempty no_space no_open no_close not_ours.
  unfold sync_tool_manifest. destruct (_document manifest) as [document|e] eqn:Hd.
  - unfold sync_document. destruct (document_count document =? 0)%nat.
    + cbn [fst]. destruct (default _ _); [|done]. intros [= <-]. own.
    + destruct (_client _ _ c transport) as [route|e] eqn:Hc.
      * destruct (open_client route); [done|]. intros H.
        pose proof (put_loop_clean (put_of c route document) (document_count document) (total_attempts c) 1 "no attempt made" w
          ltac:(own)) as Hl. by rewrite H in Hl.
      * cbn. intros [= ->]. unfold _client, proxy in Hc. destruct transport; [done|].
        destruct (py_truthy_str (egress_proxy c)); [|done]. cbn in Hc. destruct (urlsplit _ _) as [[[? ?] ?]|]; done.
  - cbn. intros [= ->]. unfold _document in Hd. destruct manifest as [s|d]; [|done].
    destruct (json_loads s) as [[]|]; try done; injection Hd as <-; own.
Qed.
End Token.
End Facts.

(** ** Examples *)

Definition ex_config (attempts : Z) : ToolManifestSyncConfig :=
  {| control_plane_url := "https://kei.example/"; token := "sekret-1"; egress_proxy := "http://proxy:3128";
     no_proxy := "localhost, .internal"; attempts := attempts; backoff_seconds := DEFAULT_BACKOFF_SECONDS;
     timeout := DEFAULT_TIMEOUT_SECONDS; expect_tools := true |}.
(** A control plane that fails [n] times, echoing a text, and then registers. *)
Definition ex_put (echo : string) (_ : put_request) (n : nat) : res put_exn Response * nat :=
  match n with
  | O => (Ok {| status_code := 200; content := jq "{'created': 1}"; text := "" |}, O)
  | S O => (Raise (HTTPError "ConnectTimeout"), O)
  | S n' => (Ok {| status_code := 503; content := ""; text := echo |}, n')
  end.
Definition ex_sync (n : nat) (echo : string) (manifest : string) (attempts : Z) :=
  sync_tool_manifest (fun _ => true) py_lower (ex_put echo) (fun _ => None) (fun _ n => n) (ManifestText (jq manifest))
    (ex_config attempts) None false {| w_state := n; puts := []; sleeps := [] |}.

Example sync_retries :
  let '(r, w) := ex_sync 7 "bad sekret-1" "{'tools': [{}]}" 9 in
  (r, length (puts w), map float_repr (sleeps w)) =
  (Ok {| sent := true; tool_count := 1; counts := [("created", JInt 1)] |}, 8, ["1.0"; "2.0"; "4.0"; "8.0"; "16.0"; "16.0"; "16.0"]).
Proof. vm_compute. reflexivity. Qed.

Example sync_gives_up :
  (ex_sync 7 "bad sekret-1" "{'tools': [{}]}" 1).1 =
    Raise (ToolManifestSyncError "PUT /api/v1/runtime/tools failed after 1 attempt(s): HTTP 503: bad [redacted]").
Proof. vm_compute. reflexivity. Qed.

(** The text is cut before the token is removed: a token over the limit leaves
    its beginning. *)
Example cut_token_is_not_removed :
  match (ex_sync 7 (String.append (str_join (repeat "x" 294)) "sekret-1") "{'tools': [{}]}" 1).1 with
  | Raise (ToolManifestSyncError m) => py_in "sekret" m
  | _ => false
  end = true.
Proof. vm_compute. reflexivity. Qed.

Example proxy_choice :
  map (fun np => proxy (fun _ => true) py_lower {| control_plane_url := "https://API.kei.internal:8443/x"; token := "t";
         egress_proxy := "p"; no_proxy := np; attempts := 1; backoff_seconds := DEFAULT_BACKOFF_SECONDS;
         timeout := DEFAULT_TIMEOUT_SECONDS; expect_tools := true |})
    [""; "*"; "a, .Internal"; "kei.internal"; "ei.internal"; "api.kei.internal"]
  = [Ok (Some "p"); Ok None; Ok None; Ok None; Ok (Some "p"); Ok None].
Proof. vm_compute. reflexivity. Qed.

Lemma sync_errors_hold_no_token_witness : exists m,
  (ex_sync 7 "bad sekret-1" "{'tools': [{}]}" 2).1 = Raise (ToolManifestSyncError m) /\ py_in "sekret-1" m = false.
Proof.
  destruct ((ex_sync 7 "bad sekret-1" "{'tools': [{}]}" 2).1) as [|[m| |]] eqn:H; [vm_compute in H; discriminate H | | vm_compute in H; discriminate H..].
  exists m. split; [reflexivity|].
  apply (sync_errors_hold_no_token (fun _ => true) py_lower (ex_put "bad sekret-1") (fun _ => None) (fun _ n => n) (ex_config 2)
    ltac:(discriminate) eq_refl eq_refl eq_refl eq_refl (ManifestText (jq "{'tools': [{}]}")) None false
    {| w_state := 7; puts := []; sleeps := [] |} m). exact H.
Defined.
