(* ===== verification/Memory.v ===== *)
(** * Wiki memory

    - [Client]: [memory/client.py] and [memory/langgraph.py]: the JSON-RPC client of
      the memory core over the standard streams of a subprocess ([WikiTools.v] adds
      its constructor and the callables).
    - [Confidence]: [memory/confidence.py]: the inference request built from the
      claims of a vault, and the merge of the marginals that come back.
    - [Infer]: [memory/infer.py]: the validated network, the model it becomes, and
      the claims marked contested.

    Parameters: the memory core (its exit code, the lines it writes and its standard
    error, each a function of the lines sent to it so far), pgmpy's belief propagation and
    Gibbs sampling, [round(v, 6)], [float] of a text, and [sorted] of a list that
    does not consist of texts. *)
From Stdlib Require Import ZArith Lia Ascii String SpecFloat.
From stdpp Require Import base tactics list strings.
From S2P Require Import Prelude PyStr PyFloat PyBytes Json JsonFacts Types LintTools.

Module Client.
Definition MEMORY_TOOLS : list string :=
  ["memory_ingest"; "memory_write_page"; "memory_query"; "memory_get_claims"; "memory_lint"].
Definition DIAGNOSTICS_MARKER : string := "diagnostics: ".
Definition MemoryServerError (msg : string) : exn := Exn (UserError "MemoryServerError") msg.

Record DiagnosticViolation := { dv_constraint : json; dv_term : json; dv_message : json; dv_nearest : json }.

(** What follows the first occurrence of [mark]. *)
Fixpoint after (mark s : string) : option string :=
  if String.prefix mark s then Some (String.substring (String.length mark) (String.length s) s)
  else match s with EmptyString => None | String _ s' => after mark s' end.

Definition diagnostic (v : json) : res exn DiagnosticViolation :=
  constraint ← any_get v "constraint" (JStr "");
  term ← any_get v "term" (JStr "");
  message ← any_get v "message" (JStr "");
  nearest ← any_get v "nearest" (JArr []);
  Ok {| dv_constraint := constraint; dv_term := term; dv_message := message;
        dv_nearest := if py_truthy nearest then nearest else JArr [] |}.

Definition parse_diagnostics (error_text : string) : res exn (list DiagnosticViolation) :=
  match after DIAGNOSTICS_MARKER error_text with
  | None => Ok []
  | Some payload =>
      match json_loads payload with
      | None => Ok []
      | Some raw => items ← py_iter raw; res_map diagnostic items
      end
  end.

(** The client: the last request id, the lines written so far, and whether the
    standard error was read. *)
Record WikiMemory := { _next_id : Z; sent : list string; drained : bool }.
Definition spawned : WikiMemory := {| _next_id := 0; sent := []; drained := false |}.

Section Transport.
Context (poll : list string -> option Z) (write_error : list string -> option exn)
  (readline stderr : list string -> string).

Definition op (A : Type) : Type := eff WikiMemory exn A.

Definition _death_reason : op string := fun w =>
  let code := match poll (sent w) with None => "None" | Some z => int_str z end in
  let text := match poll (sent w) with
              | Some _ => if drained w then "" else py_strip (stderr (sent w))
              | None => ""
              end in
  (Ok (str_join ["memory server exited (code="; code; "): "; text]),
   {| _next_id := _next_id w; sent := sent w;
      drained := drained w || bool_decide (is_Some (poll (sent w))) |}).

Definition die {A} : op A := reason ← _death_reason; eff_raise (MemoryServerError reason).

Definition _send (message : jdict) : op unit := fun w =>
  match poll (sent w) with
  | Some _ => die w
  | None =>
      match write_error (sent w) with
      | Some e => (Raise e, w)
      | None => (Ok tt, {| _next_id := _next_id w; drained := drained w;
                           sent := sent w ++ [json_dumps default_style (JObj message)] |})
      end
  end.

Definition notification (method : string) : jdict := [("jsonrpc", JStr "2.0"); ("method", JStr method)].
Definition request (id : Z) (method : string) (params : jdict) : jdict :=
  [("jsonrpc", JStr "2.0"); ("id", JInt id); ("method", JStr method); ("params", JObj params)].
Definition _notify (method : string) : op unit := _send (notification method).

(** The result in a response line; its id is not compared. *)
Definition result_of (response : json) : res exn json :=
  has ← any_in (JStr "error") response;
  failed ← (if has : bool then err ← any_item response "error"; Ok (negb (is_null err)) else Ok false);
  if failed : bool then
    err ← any_item response "error";
    code ← any_get err "code" JNull;
    message ← any_get err "message" JNull;
    Raise (MemoryServerError (str_join ["rpc "; py_str code; ": "; py_str message]))
  else any_get response "result" (JObj []).

Definition _request (method : string) (params : jdict) : op json :=
  _ ← eff_modify (fun w => {| _next_id := _next_id w + 1; sent := sent w; drained := drained w |});
  w ← eff_get;
  _ ← _send (request (_next_id w) method params);
  w ← eff_get;
  let line := readline (sent w) in
  if negb (py_truthy_str line) then die
  else match json_loads line with
       | None => eff_raise (Exn JSONDecodeError line)
       | Some response => eff_lift (result_of response)
       end.

(** ["".join(b.get("text", "") for b in blocks if b.get("type") == "text")] *)
Fixpoint text_blocks (blocks : list json) : res exn (list json) :=
  match blocks with
  | [] => Ok []
  | b :: blocks' =>
      kind ← any_get b "type" JNull;
      if py_eq kind (JStr "text") then
        text ← any_get b "text" (JStr ""); rest ← text_blocks blocks'; Ok (text :: rest)
      else text_blocks blocks'
  end.
Definition block_text (v : json) : res exn string :=
  match v with JStr s => Ok s | _ => Raise (Exn TypeError "sequence item: expected str instance") end.

Definition tool_result (result : json) : res exn (json * bool * string) :=
  content ← any_get result "content" (JArr []);
  blocks ← py_iter content;
  values ← text_blocks blocks;
  texts ← res_map block_text values;
  let text := str_join texts in
  is_error ← any_get result "isError" JNull;
  Ok (if py_truthy is_error then (JNull, false, text) else (JStr text, true, "")).

Definition execute (tool_name : string) (args : jdict) : op (json * bool * string) :=
  result ← _request "tools/call" [("name", JStr tool_name); ("arguments", JObj args)];
  eff_lift (tool_result result).

Definition tools : op json := result ← _request "tools/list" []; eff_lift (any_get result "tools" (JArr [])).

Definition ingest (source_id text : string) := execute "memory_ingest" [("source_id", JStr source_id); ("text", JStr text)].
Definition write_page (content : string) := execute "memory_write_page" [("content", JStr content)].

(** [(json.loads(output) if ok and output else output), ok, err] *)
Definition decoded (r : json * bool * string) : res exn (json * bool * string) :=
  match r with
  | (JStr output, true, err) =>
      if py_truthy_str output then
        v ← of_option (Exn JSONDecodeError output) (json_loads output); Ok (v, true, err)
      else Ok r
  | _ => Ok r
  end.
Definition query (question : string) : op (json * bool * string) :=
  r ← execute "memory_query" [("question", JStr question)]; eff_lift (decoded r).
Definition get_claims (page_id : option string) : op (json * bool * string) :=
  r ← execute "memory_get_claims" match page_id with
                                  | Some p => if py_truthy_str p then [("page_id", JStr p)] else []
                                  | None => []
                                  end; eff_lift (decoded r).
Definition lint : op (json * bool * string) := r ← execute "memory_lint" []; eff_lift (decoded r).

(** [__init__] once the process runs. *)
Definition handshake : op unit := _ ← _request "initialize" []; _notify "notifications/initialized".
End Transport.

(** The command of the subprocess. *)
Definition server_command (user_id root : string) (tbox_paths : list string) (memctl_path environ_memctl : option string)
    (session_id : string) : res exn (list string) :=
  _ ← guard_or (py_truthy_str user_id) (Exn ValueError "user_id is required");
  _ ← guard_or (negb (bool_decide (tbox_paths = []))) (Exn ValueError "tbox_paths is required (the T-box is a parameter)");
  let binary := match memctl_path with
                | Some p => if py_truthy_str p then p else default "memctl" environ_memctl
                | None => default "memctl" environ_memctl
                end in
  Ok ([binary; "serve"; "-root"; root; "-user"; user_id; "-session"; session_id]
      ++ concat (map (fun path => ["-tbox"; path]) tbox_paths)).

(** [close]: what is done to the process, given its exit code and whether waiting
    for it times out. *)
Inductive process_op := CloseStdin | Wait (seconds : Z) | Kill.
Definition close (exit_code : option Z) (times_out : bool) : list process_op :=
  match exit_code with
  | Some _ => []
  | None => [CloseStdin; Wait 5] ++ (if times_out then [Kill; Wait 5] else [])
  end.

(** [langgraph._render] *)
Definition _render (r : json * bool * string) : string :=
  match r with
  | (_, false, err) => String.append "DENIED: " err
  | (JStr s, true, _) => s
  | (output, true, _) => json_dumps (indented 2) output
  end.
End Client.

Module Confidence.
(** [f"{page}#{claim_id}"] *)
Definition claim_node_id (page claim_id : json) : json := JStr (str_join [py_str page; "#"; py_str claim_id]).
Definition _resolve_ref (page ref : json) : res exn json :=
  qualified ← any_in (JStr "#") ref; Ok (if (qualified : bool) then ref else claim_node_id page ref).

Definition new_edge (type : string) (source target : json) : json :=
  JObj [("type", JStr type); ("source", source); ("target", target)].
Definition claim_node (node : json) : json := JObj [("id", node); ("kind", JStr "claim")].

(** [claim.get(k) or []], iterated. *)
Definition listed (claim : jdict) (k : string) : res exn (list json) :=
  let v := jget claim k in if py_truthy v then py_iter v else Ok [].
Definition field (claim : jdict) (k : string) : res exn json := of_option (Exn KeyError k) (dget claim k).

(** Adding to a set. *)
Definition set_add (seen : list json) (v : json) : res exn (list json) :=
  b ← in_set v seen; Ok (if (b : bool) then seen else seen ++ [v]).
Fixpoint set_update (seen vs : list json) : res exn (list json) :=
  match vs with [] => Ok seen | v :: vs' => seen ← set_add seen v; set_update seen vs' end.

(** The nodes, the edges and the source ids of one claim. *)
Definition claim_part (claim : jdict) (source_ids : list json) : res exn (json * list json * list json) :=
  page ← field claim "page";
  id ← field claim "id";
  let node := claim_node_id page id in
  sources ← listed claim "sources";
  source_ids ← set_update source_ids sources;
  supports ← listed claim "supports";
  supported ← res_map (_resolve_ref page) supports;
  contradicts ← listed claim "contradicts";
  contradicted ← res_map (_resolve_ref page) contradicts;
  Ok (claim_node node,
      map (fun s => new_edge "sourceOf" s node) sources ++ map (new_edge "supports" node) supported
      ++ map (new_edge "contradicts" node) contradicted,
      source_ids).

Fixpoint claim_parts (claims : list jdict) (source_ids : list json) : res exn (list json * list json * list json) :=
  match claims with
  | [] => Ok ([], [], source_ids)
  | claim :: claims' =>
      p ← claim_part claim source_ids;
      q ← claim_parts claims' p.2;
      Ok (p.1.1 :: q.1.1, p.1.2 ++ q.1.2, q.2)
  end.

Definition source_node (reliability : jdict) (source_id : json) : json :=
  JObj ([("id", source_id); ("kind", JStr "source")] ++
        match source_id with
        | JStr s => match dget reliability s with Some r => [("reliability", r)] | None => [] end
        | _ => []
        end).

Definition build_inference_request (sorted_any : list json -> res exn (list json)) (claims : list jdict)
    (supersedes : list (string * string)) (reliability weights : jdict) : res exn jdict :=
  p ← claim_parts claims [];
  let '(nodes, edges, source_ids) := p in
  source_ids ← set_update source_ids (concat (map (fun '(newer, older) => [JStr newer; JStr older]) supersedes));
  sorted ← sorted_values sorted_any source_ids;
  Ok ([("nodes", JArr (nodes ++ map (source_node reliability) sorted));
       ("edges", JArr (edges ++ map (fun '(newer, older) => new_edge "supersedes" (JStr newer) (JStr older)) supersedes))]
      ++ match weights with [] => [] | _ => [("weights", JObj weights)] end).

Definition merge_claim (marginals contested : json) (claim : jdict) : res exn jdict :=
  page ← field claim "page";
  id ← field claim "id";
  let node := claim_node_id page id in
  found ← any_in node marginals;
  if found : bool then
    confidence ← any_item marginals (py_str node);
    flag ← any_get contested (py_str node) (JBool false);
    Ok (dset (dset claim "confidence" confidence) "contested" (JBool (py_truthy flag)))
  else Ok claim.
Definition merge_confidence (claims : list jdict) (response : jdict) : res exn (list jdict) :=
  res_map (merge_claim (jget_or response "marginals" (JObj [])) (jget_or response "contested" (JObj []))) claims.
End Confidence.

Module Infer.
Import Confidence.
Definition InferenceError (msg : string) : exn := Exn (UserError "InferenceError") msg.

(** A dictionary whose keys are untyped values. *)
Abbreviation kdict V := (list (json * V)).
Definition kget {V} (d : kdict V) (k : json) : option V := snd <$> find_first (fun kv => py_eq k kv.1) d.
Fixpoint kset {V} (d : kdict V) (k : json) (v : V) : kdict V :=
  match d with
  | [] => [(k, v)]
  | (k', v') :: d' => if py_eq k k' then (k', v) :: d' else (k', v') :: kset d' k v
  end.

Definition float_const (m e : Z) : json := JFloat (float_of_dec false m e).
Definition DEFAULT_WEIGHTS : jdict :=
  [("supports", float_const 8 (-1)); ("contradicts", float_const 9 (-1)); ("sourceOf", float_const 85 (-2));
   ("sourcePrior", float_const 7 (-1)); ("supersededPrior", float_const 4 (-1)); ("contestedThreshold", float_const 6 (-1))].
Definition EDGE_TYPES : list string := ["supports"; "contradicts"; "sourceOf"; "supersedes"].

Record Network := {
  claims : list json; sources : list json; reliability : kdict json;
  edges : list (json * json * json); weights : jdict; contradicts_pairs : list (json * json) }.

Section Build.
Context (float_of_text : string -> res exn spec_float).

(** [float(v)] *)
Definition to_float (v : json) : res exn spec_float :=
  match v with
  | JFloat f => Ok f
  | JStr s => float_of_text s
  | _ => match json_int v with
         | Some z => match float_of_Z z with
                     | S754_infinity _ => Raise (Exn OverflowError "int too large to convert to float")
                     | f => Ok f
                     end
         | None => Raise (Exn TypeError "float() argument must be a string or a real number")
         end
  end.

(** [{**DEFAULT_WEIGHTS, **(v or {})}] *)
Definition effective_weights (v : json) : res exn jdict :=
  if py_truthy v then
    match v with JObj d => Ok (dmerge DEFAULT_WEIGHTS d) | _ => Raise (Exn TypeError "object is not a mapping") end
  else Ok DEFAULT_WEIGHTS.

(** The node loop: the claims, the sources with their reliability, and the ids
    seen, in order. *)
Record nodes_read := { nr_claims : list json; nr_sources : kdict json; nr_seen : list json }.
Definition read_node (weights : jdict) (node : json) (r : nodes_read) : res exn nodes_read :=
  node_id ← any_get node "id" JNull;
  kind ← any_get node "kind" JNull;
  let claim := py_eq kind (JStr "claim") in
  _ ← guard_or (py_truthy node_id && (claim || py_eq kind (JStr "source")))
        (InferenceError (String.append "bad node: " (py_repr_json node)));
  dup ← in_set node_id (nr_seen r);
  _ ← guard_or (negb dup) (InferenceError (String.append "duplicate node id: " (py_str node_id)));
  let seen := nr_seen r ++ [node_id] in
  if claim then Ok {| nr_claims := nr_claims r ++ [node_id]; nr_sources := nr_sources r; nr_seen := seen |}
  else
    prior ← field weights "sourcePrior";
    given ← any_get node "reliability" prior;
    f ← to_float given;
    Ok {| nr_claims := nr_claims r; nr_sources := nr_sources r ++ [(node_id, JFloat f)]; nr_seen := seen |}.
Fixpoint read_nodes (weights : jdict) (nodes : list json) (r : nodes_read) : res exn nodes_read :=
  match nodes with [] => Ok r | n :: nodes' => r ← read_node weights n r; read_nodes weights nodes' r end.

(** The edge loop. *)
Record edges_read := { er_edges : list (json * json * json); er_superseded : list json }.
Definition read_edge (seen : list json) (edge : json) (r : edges_read) : res exn edges_read :=
  etype ← any_get edge "type" JNull;
  src ← any_get edge "source" JNull;
  dst ← any_get edge "target" JNull;
  known ← in_set etype (map JStr EDGE_TYPES);
  _ ← guard_or known (InferenceError (String.append "bad edge type: " (py_str etype)));
  a ← in_set src seen;
  b ← (if a : bool then in_set dst seen else Ok false);
  _ ← guard_or b (InferenceError (String.append "edge references unknown node: " (py_repr_json edge)));
  Ok (if py_eq etype (JStr "supersedes")
      then {| er_edges := er_edges r; er_superseded := er_superseded r ++ [dst] |}
      else {| er_edges := er_edges r ++ [(etype, src, dst)]; er_superseded := er_superseded r |}).
Fixpoint read_edges (seen edges : list json) (r : edges_read) : res exn edges_read :=
  match edges with [] => Ok r | e :: edges' => r ← read_edge seen e r; read_edges seen edges' r end.

(** [node.get("id") == node_id] of nodes that were read already. *)
Definition has_id (node_id n : json) : bool := match n with JObj d => py_eq (jget d "id") node_id | _ => false end.
Definition _node_by_id (nodes : list json) (node_id : json) : jdict :=
  match find_first (has_id node_id) nodes with
  | Some (JObj d) => d
  | _ => []
  end.

Definition demote (nodes : list json) (prior : res exn json) (superseded : list json) (r : kdict json) : res exn (kdict json) :=
  foldl (fun acc s =>
    r ← acc;
    match kget r s with
    | Some _ => if dmem (_node_by_id nodes s) "reliability" then Ok r else p ← prior; Ok (kset r s p)
    | None => Ok r
    end) (Ok r) superseded.

Definition is_edge (type : string) (e : json * json * json) : bool := py_eq e.1.1 (JStr type).

Definition _build_network (request : json) : res exn Network :=
  given ← any_get request "weights" JNull;
  weights ← effective_weights given;
  nodes_value ← any_get request "nodes" (JArr []);
  nodes ← py_iter nodes_value;
  r ← read_nodes weights nodes {| nr_claims := []; nr_sources := []; nr_seen := [] |};
  _ ← guard_or match nr_claims r with [] => false | _ => true end (InferenceError "no claim nodes");
  edges_value ← any_get request "edges" (JArr []);
  edge_list ← py_iter edges_value;
  e ← read_edges (nr_seen r) edge_list {| er_edges := []; er_superseded := [] |};
  reliability ← demote nodes (field weights "supersededPrior") (er_superseded e) (nr_sources r);
  Ok {| claims := nr_claims r; sources := map fst (nr_sources r); reliability := reliability; edges := er_edges e;
        weights := weights;
        contradicts_pairs := map (fun t => (t.1.2, t.2)) (List.filter (is_edge "contradicts") (er_edges e)) |}.

(** ** The model *)

(** A factor: its variables, each of two states, and its values in row order. *)
Record factor := { f_vars : list json; f_values : list json }.
Record markov := { mn_nodes : list json; mn_edges : list (json * json); mn_factors : list factor }.

(** [1 - w] *)
Definition one_minus (w : json) : res exn json :=
  match w with
  | JFloat f => Ok (JFloat (SFsub f_prec f_emax (float_of_Z 1) f))
  | _ => match json_int w with
         | Some z => Ok (JInt (1 - z))
         | None => Raise (Exn TypeError "unsupported operand type(s) for -")
         end
  end.
Definition agreement (a b w : json) : res exn factor :=
  v ← one_minus w; Ok {| f_vars := [a; b]; f_values := [w; v; v; w] |}.
Definition disagreement (a b w : json) : res exn factor :=
  v ← one_minus w; Ok {| f_vars := [a; b]; f_values := [v; w; w; v] |}.
Definition half : json := float_const 5 (-1).
Definition prior_factor (id r : json) : res exn factor := v ← one_minus r; Ok {| f_vars := [id]; f_values := [v; r] |}.

Definition edge_factors (weights : jdict) (e : json * json * json) : res exn (list factor) :=
  let '(etype, src, dst) := e in
  _ ← guard_or (negb (py_eq src dst)) (InferenceError (String.append "self edge on " (py_str src)));
  let potential (make : json -> json -> json -> res exn factor) k := w ← field weights k; f ← make src dst w; Ok [f] in
  if py_eq etype (JStr "supports") then potential agreement "supports"
  else if py_eq etype (JStr "contradicts") then potential disagreement "contradicts"
  else if py_eq etype (JStr "sourceOf") then potential agreement "sourceOf"
  else Ok [].

Definition connected (net : Network) : list json := concat (map (fun e => [e.1.2; e.2]) (edges net)).
Definition linked (net : Network) (id : json) : bool := existsb (py_eq id) (connected net).

(** A source without an edge is removed from the model. *)
Definition _build_model (net : Network) : res exn markov :=
  let live := List.filter (linked net) (sources net) in
  priors ← res_map (fun s => r ← of_option (Exn KeyError (py_str s)) (kget (reliability net) s); prior_factor s r) live;
  let uniform := map (fun c => {| f_vars := [c]; f_values := [half; half] |}) (claims net) in
  potentials ← res_map (edge_factors (weights net)) (edges net);
  Ok {| mn_nodes := claims net ++ live; mn_edges := map (fun e => (e.1.2, e.2)) (edges net);
        mn_factors := priors ++ uniform ++ concat potentials |}.

(** ** Inference *)

Record response := { rs_marginals : kdict spec_float; rs_contested : kdict bool; rs_method : string }.

(** One contradiction: each side is contested when the other one is likely. *)
Definition mark (marginals : kdict spec_float) (threshold : json) (a b : json) (contested : kdict bool) : res exn (kdict bool) :=
  match kget contested a with
  | Some _ => likely ← any_gt (JFloat (default (float_of_Z 0) (kget marginals b))) threshold;
              Ok (if (likely : bool) then kset contested a true else contested)
  | None => Ok contested
  end.
Definition mark_pair (marginals : kdict spec_float) (threshold : json) (contested : kdict bool) (p : json * json) : res exn (kdict bool) :=
  contested ← mark marginals threshold p.1 p.2 contested;
  mark marginals threshold p.2 p.1 contested.
Fixpoint mark_pairs (marginals : kdict spec_float) (threshold : json) (pairs : list (json * json)) (contested : kdict bool) :
    res exn (kdict bool) :=
  match pairs with
  | [] => Ok contested
  | p :: pairs' => contested ← mark_pair marginals threshold contested p; mark_pairs marginals threshold pairs' contested
  end.

(** pgmpy: calibrating the model, the probability of the true state of a claim in
    it, and the mean of each claim in a frame of Gibbs samples. *)
Context (calibrate : markov -> res exn unit) (belief : markov -> json -> res exn spec_float)
  (sample : markov -> Z -> Z -> res exn (json -> res exn spec_float)) (round6 : spec_float -> spec_float).

Definition per_claim (value : json -> res exn spec_float) (claims : list json) : res exn (kdict spec_float) :=
  res_map (fun claim_id => v ← value claim_id; Ok (claim_id, v)) claims.
Definition _marginals_bp (model : markov) (claims : list json) : res exn (kdict spec_float) :=
  _ ← calibrate model; per_claim (belief model) claims.
Definition _marginals_gibbs (model : markov) (claims : list json) (samples : Z) : res exn (kdict spec_float) :=
  frame ← sample model samples 7; per_claim frame claims.

Definition infer (request : json) : res exn response :=
  net ← _build_network request;
  model ← _build_model net;
  found ← match _marginals_bp model (claims net) with
          | Ok m => Ok (m, "belief_propagation")
          | Raise _ => m ← _marginals_gibbs model (claims net) 4000; Ok (m, "gibbs")
          end;
  let '(marginals, method) := found in
  threshold ← field (weights net) "contestedThreshold";
  contested ← mark_pairs marginals threshold (contradicts_pairs net) (map (fun c => (c, false)) (claims net));
  Ok {| rs_marginals := map (fun kv => (kv.1, round6 kv.2)) marginals; rs_contested := contested; rs_method := method |}.

(** The keys [json.dump] writes, the response on the wire, and [main] on the text
    of its standard input: what it writes, and its exit code. *)
Definition dump_key (k : json) : string :=
  match k with
  | JStr s => s
  | JBool b => if b then "true" else "false"
  | JNull => "null"
  | JFloat f => dumps_float f
  | _ => py_str k
  end.
Definition response_json (r : response) : json :=
  JObj [("marginals", JObj (map (fun kv => (dump_key kv.1, JFloat kv.2)) (rs_marginals r)));
        ("contested", JObj (map (fun kv => (dump_key kv.1, JBool kv.2)) (rs_contested r)));
        ("method", JStr (rs_method r))].
Definition main (exc_str : exn -> string) (stdin : string) : string * Z :=
  match (request ← of_option (Exn JSONDecodeError stdin) (json_loads stdin); infer request) with
  | Ok r => (json_dumps default_style (response_json r), 0%Z)
  | Raise e => (json_dumps default_style (JObj [("error", JStr (exc_str e))]), 1%Z)
  end.
End Build.
End Infer.
