(* ===== verification/MemoryFacts.v ===== *)
(** * Inference over a vault

    The composition of [Memory.Confidence] and [Memory.Infer]: the request built
    from the claims of a vault is accepted, and the marginals come back to the
    claims; with examples of both and of [Memory.Client]. *)
From Stdlib Require Import ZArith Lia Ascii String SpecFloat.
From stdpp Require Import base tactics list strings.
From S2P Require Import Prelude PyStr PyFloat Json JsonFacts Types LintTools Memory.

Module Vault.
Import Confidence Infer.

(** A claim of the vault, as [memory_get_claims] lists it. *)
Record vault_claim := {
  vc_page : string; vc_id : string; vc_sources : list string; vc_supports : list string; vc_contradicts : list string }.
Definition strs (l : list string) : json := JArr (map JStr l).
Record has_claim (d : jdict) (c : vault_claim) : Prop := {
  hc_page : dget d "page" = Some (JStr (vc_page c)); hc_id : dget d "id" = Some (JStr (vc_id c));
  hc_sources : jget d "sources" = strs (vc_sources c); hc_supports : jget d "supports" = strs (vc_supports c);
  hc_contradicts : jget d "contradicts" = strs (vc_contradicts c) }.

Definition node (c : vault_claim) : string := str_join [vc_page c; "#"; vc_id c].
Definition ref_node (c : vault_claim) (ref : string) : string :=
  if py_in "#" ref then ref else str_join [vc_page c; "#"; ref].

(** The edges of a claim, and the ids named as sources, each once. *)
Definition claim_edges (c : vault_claim) : list (string * string * string) :=
  map (fun s => ("sourceOf", s, node c)) (vc_sources c)
  ++ map (fun r => ("supports", node c, ref_node c r)) (vc_supports c)
  ++ map (fun r => ("contradicts", node c, ref_node c r)) (vc_contradicts c).
Definition vault_edges (cs : list vault_claim) : list (string * string * string) := concat (map claim_edges cs).
Fixpoint add_all (seen l : list string) : list string :=
  match l with [] => seen | x :: l' => add_all (if str_in x seen then seen else seen ++ [x]) l' end.
Definition named (cs : list vault_claim) (supersedes : list (string * string)) : list string :=
  concat (map vc_sources cs) ++ concat (map (fun '(newer, older) => [newer; older]) supersedes).
Definition source_ids (cs : list vault_claim) supersedes : list string := py_sorted (add_all [] (named cs supersedes)).

Definition edge_json (e : string * string * string) : json := new_edge e.1.1 (JStr e.1.2) (JStr e.2).
Definition triple (e : string * string * string) : json * json * json := (JStr e.1.1, JStr e.1.2, JStr e.2).

Lemma in_strs x l : existsb (py_eq (JStr x)) (map JStr l) = str_in x l.
Proof. unfold str_in. induction l as [|y l IH]; cbn [map existsb]; [done|]. by rewrite IH. Qed.

Lemma in_set_strs x l : in_set (JStr x) (map JStr l) = Ok (str_in x l).
Proof. change (Ok (existsb (py_eq (JStr x)) (map JStr l)) = @Ok exn bool (str_in x l)). by rewrite in_strs. Qed.

Lemma add_all_app seen l k : add_all seen (l ++ k) = add_all (add_all seen l) k.
Proof. revert seen. induction l as [|x l IH]; intros seen; simpl; auto. Qed.
Lemma elem_of_add_all x l : forall seen, x ∈ add_all seen l <-> x ∈ seen \/ x ∈ l.
Proof.
  induction l as [|y l IH]; intros seen; simpl; [set_solver|]. rewrite IH.
  destruct (str_in y seen) eqn:E; [apply str_in_spec in E|]; set_solver.
Qed.
Lemma NoDup_add_all l : forall seen, NoDup seen -> NoDup (add_all seen l).
Proof.
  induction l as [|y l IH]; intros seen H; simpl; [done|]. apply IH. destruct (str_in y seen) eqn:E; [done|].
  apply str_in_false in E. apply NoDup_app. split_and!; [done | set_solver | apply NoDup_singleton].
Qed.
Lemma set_update_strs l : forall seen, set_update (map JStr seen) (map JStr l) = Ok (map JStr (add_all seen l)).
Proof.
  induction l as [|x l IH]; intros seen; cbn [map set_update add_all]; [done|]. unfold set_add. rewrite in_set_strs. cbn [mbind res_bind]. destruct (str_in x seen); cbn [mbind res_bind]; [apply IH|]. rewrite <- IH. by rewrite map_app.
Qed.

Lemma listed_strs d k l : jget d k = strs l -> listed d k = Ok (map JStr l).
Proof. unfold listed. intros ->. by destruct l. Qed.
Lemma resolve_strs c l : res_map (_resolve_ref (JStr (vc_page c))) (map JStr l) = Ok (map (fun r => JStr (ref_node c r)) l).
Proof.
  induction l as [|x l IH]; cbn [map res_map]; [done|]. rewrite IH. unfold _resolve_ref, ref_node.
  cbn [any_in mbind res_bind]. by destruct (py_in "#" x).
Qed.

Lemma claim_part_strs d c seen : has_claim d c ->
  claim_part d (map JStr seen)
  = Ok (claim_node (JStr (node c)), map edge_json (claim_edges c), map JStr (add_all seen (vc_sources c))).
Proof.
  intros [Hp Hi Hs Hu Hc]. unfold claim_part, field. rewrite Hp, Hi. cbn [of_option mbind res_bind].
  rewrite (listed_strs _ _ _ Hs), (listed_strs _ _ _ Hu), (listed_strs _ _ _ Hc). cbn [mbind res_bind].
  rewrite set_update_strs. cbn [mbind res_bind]. rewrite !resolve_strs. cbn [mbind res_bind].
  unfold claim_edges. by rewrite !map_app, !map_map.
Qed.

Lemma claim_parts_strs ds cs : Forall2 has_claim ds cs -> forall seen,
  claim_parts ds (map JStr seen)
  = Ok (map (fun c => claim_node (JStr (node c))) cs, map edge_json (vault_edges cs),
        map JStr (add_all seen (concat (map vc_sources cs)))).
Proof.
  induction 1 as [|d c ds cs H _ IH]; intros seen; [done|]. cbn [claim_parts]. rewrite (claim_part_strs _ _ _ H).
  cbn [mbind res_bind fst snd]. rewrite IH. cbn. unfold vault_edges. cbn. by rewrite add_all_app, map_app.
Qed.

Lemma find_source rel s l srcs : s ∈ srcs -> s ∉ map node l ->
  List.find (has_id (JStr s)) (map (fun c => claim_node (JStr (node c))) l ++ map (fun t => source_node rel (JStr t)) srcs)
  = Some (source_node rel (JStr s)).
Proof.
  intros Hs. induction l as [|c l IH]; cbn [map app List.find].
  - intros _. induction srcs as [|t srcs IH]; [set_solver|]. cbn [map List.find].
    change (has_id (JStr s) (source_node rel (JStr t))) with (String.eqb t s).
    destruct (String.eqb_spec t s) as [->|Ht]; [done|]. apply IH. set_solver.
  - intros Hn. change (has_id (JStr s) (claim_node (JStr (node c)))) with (String.eqb (node c) s).
    destruct (String.eqb_spec (node c) s) as [Hc|Hc]; [set_solver|]. apply IH. set_solver.
Qed.

Lemma elem_of_sources cs supersedes s : s ∈ source_ids cs supersedes <-> s ∈ named cs supersedes.
Proof. unfold source_ids. rewrite py_sorted_perm, elem_of_add_all. set_solver. Qed.
Lemma NoDup_sources cs supersedes : NoDup (source_ids cs supersedes).
Proof. unfold source_ids. rewrite py_sorted_perm. apply NoDup_add_all, NoDup_nil_2. Qed.

(** A dictionary of texts. *)
Definition table {V} (f : string -> V) (l : list string) : kdict V := map (fun s => (JStr s, f s)) l.

Lemma kget_table {V} (f : string -> V) l x : kget (table f l) (JStr x) = if str_in x l then Some (f x) else None.
Proof.
  unfold table, kget, find_first, str_in. induction l as [|y l IH]; cbn [map List.find existsb fst]; [done|].
  change (py_eq (JStr x) (JStr y)) with (String.eqb x y). by destruct (String.eqb_spec x y) as [->|].
Qed.

Lemma kset_table {V} (f : string -> V) l x v : NoDup l -> x ∈ l ->
  kset (table f l) (JStr x) v = table (fun s => if String.eqb s x then v else f s) l.
Proof.
  unfold table. induction 1 as [|y l Hy Hl IH]; intros Hx; [set_solver|]. cbn [map kset].
  change (py_eq (JStr x) (JStr y)) with (String.eqb x y). rewrite (String.eqb_sym x y).
  destruct (String.eqb_spec y x) as [->|Hn].
  - f_equal. apply map_ext_in. intros s Hs%list_elem_of_In. destruct (String.eqb_spec s x); [congruence | done].
  - f_equal. apply IH. set_solver.
Qed.

Lemma table_ext {V} (f g : string -> V) l : (forall s, f s = g s) -> table f l = table g l.
Proof. intros H. apply map_ext. intros s. by rewrite H. Qed.

Definition by_name (f : string -> json) (l : list string) : jdict := map (fun s => (s, f s)) l.
Lemma dget_by_name f l x : dget (by_name f l) x = if str_in x l then Some (f x) else None.
Proof.
  unfold by_name, str_in. induction l as [|y l IH]; cbn [map dget existsb]; [done|].
  by destruct (String.eqb_spec x y) as [->|].
Qed.
Lemma existsb_by_name f l x : existsb (fun kv => py_eq (JStr x) (JStr kv.1)) (by_name f l) = str_in x l.
Proof. unfold by_name, str_in. induction l as [|y l IH]; cbn [map existsb fst]; [done|]. by rewrite IH. Qed.

Section Request.
Context (float_of_text : string -> res exn spec_float).
Context (ds : list jdict) (cs : list vault_claim) (supersedes : list (string * string)) (reliability : dict spec_float).

Definition reliability_json : jdict := map (fun kv => (kv.1, JFloat kv.2)) reliability.
Definition sup_edge (p : string * string) : string * string * string := ("supersedes", p.1, p.2).
Definition built : jdict :=
  [("nodes", JArr (map (fun c => claim_node (JStr (node c))) cs
                   ++ map (fun s => source_node reliability_json (JStr s)) (source_ids cs supersedes)));
   ("edges", JArr (map edge_json (vault_edges cs ++ map sup_edge supersedes)))].

Lemma build_strs sorted_any : Forall2 has_claim ds cs ->
  build_inference_request sorted_any ds supersedes reliability_json [] = Ok built.
Proof.
  intros shape. unfold build_inference_request. pose proof (claim_parts_strs _ _ shape []) as Hp.
  change (map JStr []) with (@nil json) in Hp. rewrite Hp. cbn [mbind res_bind].
  assert (concat (map (fun '(newer, older) => [JStr newer; JStr older]) supersedes)
          = map JStr (concat (map (fun '(newer, older) => [newer; older]) supersedes))) as ->.
  { rewrite concat_map, map_map. f_equal. apply map_ext. by intros []. }
  rewrite set_update_strs. cbn [mbind res_bind]. rewrite <- add_all_app.
  unfold sorted_values. rewrite strings_of_strs. cbn [mbind res_bind app]. unfold built, source_ids, named.
  assert (map (fun '(newer, older) => new_edge "supersedes" (JStr newer) (JStr older)) supersedes
          = map (fun p => edge_json (sup_edge p)) supersedes) as -> by (apply map_ext; by intros []).
  rewrite !map_map, map_app, !map_map. done.
Qed.

(** The reliability of a source: its override, or the prior of a superseded or of
    an ordinary source. *)
Definition weight (k : string) : json := default JNull (dget DEFAULT_WEIGHTS k).
Definition prior (s : string) : json :=
  match dget reliability s with Some f => JFloat f | None => weight "sourcePrior" end.
Definition reliability_of (s : string) : json :=
  match dget reliability s with
  | Some f => JFloat f
  | None => if str_in s (map snd supersedes) then weight "supersededPrior" else weight "sourcePrior"
  end.

Lemma dget_reliability s : dget reliability_json s = JFloat <$> dget reliability s.
Proof. unfold reliability_json. induction reliability as [|[k v] d IH]; simpl; [done|]. by destruct (String.eqb s k). Qed.

Lemma read_nodes_app w l k : forall r,
  read_nodes float_of_text w (l ++ k) r = (r' ← read_nodes float_of_text w l r; read_nodes float_of_text w k r').
Proof. induction l as [|n l IH]; intros r; cbn [app read_nodes]; [done|]. destruct (read_node _ _ n r); cbn [mbind res_bind]; auto. Qed.

Lemma node_truthy c : py_truthy_str (node c) = true.
Proof. unfold node, str_join. cbn. by destruct (vc_page c). Qed.

Lemma read_claim_nodes w l : forall cl sr seen, NoDup (seen ++ map node l) ->
  read_nodes float_of_text w (map (fun c => claim_node (JStr (node c))) l) {| nr_claims := cl; nr_sources := sr; nr_seen := map JStr seen |}
  = Ok {| nr_claims := cl ++ map JStr (map node l); nr_sources := sr; nr_seen := map JStr (seen ++ map node l) |}.
Proof.
  induction l as [|c l IH]; intros cl sr seen H; cbn [map read_nodes]; [by rewrite !app_nil_r|].
  assert (Hc : str_in (node c) seen = false).
  { apply str_in_false. intros Hin. apply NoDup_app in H as (_ & H & _). apply (H _ Hin). cbn. set_solver. }
  unfold read_node. cbn [any_get claim_node dget_or dget default String.eqb Ascii.eqb Bool.eqb mbind res_bind py_eq nr_seen nr_claims nr_sources py_truthy].
  cbn -[in_set node read_nodes map]. rewrite node_truthy, in_set_strs, Hc. cbn -[read_nodes map node].
  change [JStr (node c)] with (map JStr [node c]). rewrite <- map_app, IH by (by rewrite <- app_assoc).
  by rewrite <- !app_assoc.
Qed.

Lemma read_source_nodes l : forall cl sr seen, NoDup (seen ++ l) -> Forall (fun s => s <> "") l ->
  read_nodes float_of_text DEFAULT_WEIGHTS (map (fun s => source_node reliability_json (JStr s)) l)
    {| nr_claims := cl; nr_sources := sr; nr_seen := map JStr seen |}
  = Ok {| nr_claims := cl; nr_sources := sr ++ map (fun s => (JStr s, prior s)) l; nr_seen := map JStr (seen ++ l) |}.
Proof.
  induction l as [|s l IH]; intros cl sr seen H Hne; cbn [map read_nodes]; [by rewrite !app_nil_r|].
  apply Forall_cons in Hne as [Hs Hne]. apply py_truthy_str_true in Hs.
  assert (Hc : str_in s seen = false).
  { apply str_in_false. intros Hin. apply NoDup_app in H as (_ & H & _). apply (H _ Hin). set_solver. }
  assert (Hg : forall p, any_get (source_node reliability_json (JStr s)) "reliability" p = Ok (default p (JFloat <$> dget reliability s))).
  { intros p. unfold source_node. rewrite dget_reliability. by destruct (dget reliability s). }
  assert (Hi : any_get (source_node reliability_json (JStr s)) "id" JNull = Ok (JStr s)) by done.
  assert (Hk : any_get (source_node reliability_json (JStr s)) "kind" JNull = Ok (JStr "source")) by done.
  assert (Hp : field DEFAULT_WEIGHTS "sourcePrior" = Ok (weight "sourcePrior")) by done.
  unfold read_node. rewrite Hi, Hk, Hp. cbn -[in_set read_nodes map any_get source_node weight to_float].
  rewrite Hs, in_set_strs, Hc. cbn -[read_nodes map any_get source_node weight to_float].
  rewrite Hg. cbn [mbind res_bind].
  assert (to_float float_of_text (default (weight "sourcePrior") (JFloat <$> dget reliability s))
          = Ok match prior s with JFloat f => f | _ => float_of_Z 0 end /\ exists f, prior s = JFloat f) as [Hf (f & Ep)].
  { unfold prior. destruct (dget reliability s); [by eauto|]. split; [vm_compute; reflexivity|]. by eexists. }
  rewrite Hf. cbn [mbind res_bind]. rewrite Ep. change [JStr s] with (map JStr [s]). rewrite <- map_app, IH; [|by rewrite <- app_assoc | done].
  by rewrite <- !app_assoc.
Qed.

Definition plain (e : string * string * string) : bool := negb (String.eqb e.1.1 "supersedes").
Lemma read_edges_strs seen es : forall r,
  Forall (fun e => e.1.1 ∈ EDGE_TYPES /\ e.1.2 ∈ seen /\ e.2 ∈ seen) es ->
  read_edges (map JStr seen) (map edge_json es) r
  = Ok {| er_edges := er_edges r ++ map triple (List.filter plain es);
          er_superseded := er_superseded r ++ map (fun e => JStr e.2) (List.filter (fun e => negb (plain e)) es) |}.
Proof.
  induction es as [|[[t s] d] es IH]; intros r H; cbn [map read_edges List.filter].
  { rewrite !app_nil_r. by destruct r. }
  apply Forall_cons in H as [(Ht & Hs%str_in_spec & Hd%str_in_spec) H]. apply str_in_spec in Ht. cbn [fst snd] in *.
  assert (Hg : any_get (edge_json (t, s, d)) "type" JNull = Ok (JStr t) /\ any_get (edge_json (t, s, d)) "source" JNull = Ok (JStr s)
    /\ any_get (edge_json (t, s, d)) "target" JNull = Ok (JStr d)) by done.
  destruct Hg as (H1 & H2 & H3). unfold read_edge. rewrite H1, H2, H3. cbn -[in_set read_edges map String.eqb].
  rewrite !in_set_strs, Ht, Hs. cbn -[in_set read_edges map String.eqb]. rewrite ?in_set_strs, Hd. cbn -[read_edges map String.eqb].
  change (plain (t, s, d)) with (negb (String.eqb t "supersedes")).
  destruct (String.eqb t "supersedes"); cbn [negb map]; rewrite IH by done; cbn [er_edges er_superseded]; by rewrite <- app_assoc.
Qed.



Definition request_nodes : list json :=
  map (fun c => claim_node (JStr (node c))) cs ++ map (fun s => source_node reliability_json (JStr s)) (source_ids cs supersedes).

Lemma node_by_id s : s ∈ source_ids cs supersedes -> s ∉ map node cs ->
  dmem (_node_by_id request_nodes (JStr s)) "reliability" = bool_decide (is_Some (dget reliability s)).
Proof.
  intros Hs Hn. unfold _node_by_id, request_nodes, find_first. rewrite find_source by done.
  unfold source_node. rewrite dget_reliability. by destruct (dget reliability s).
Qed.

Lemma demote_table olds f : (forall s, s ∈ olds -> s ∈ source_ids cs supersedes /\ s ∉ map node cs) ->
  demote request_nodes (Ok (weight "supersededPrior")) (map JStr olds) (table f (source_ids cs supersedes))
  = Ok (table (fun s => match dget reliability s with
                        | Some _ => f s
                        | None => if str_in s olds then weight "supersededPrior" else f s
                        end) (source_ids cs supersedes)).
Proof.
  revert f. induction olds as [|x olds IH]; intros f H.
  { cbn. unfold table. f_equal. apply map_ext. intros s. by destruct (dget reliability s). }
  destruct (H x ltac:(set_solver)) as [Hx Hn]. unfold demote. cbn [map foldl mbind res_bind].
  rewrite kget_table. destruct (str_in x (source_ids cs supersedes)) eqn:Ex; [|by apply str_in_false in Ex].
  rewrite (node_by_id x Hx Hn). destruct (dget reliability x) as [fx|] eqn:Er.
  - rewrite bool_decide_true by by eexists. etrans; [apply IH; set_solver|]. unfold table. f_equal. apply map_ext.
    intros s. destruct (dget reliability s) eqn:Es; [done|]. unfold str_in. cbn [existsb].
    by destruct (String.eqb_spec s x) as [->|]; [congruence|].
  - rewrite bool_decide_false by by intros [? ?]. cbn [mbind res_bind]. rewrite kset_table by (done || apply NoDup_sources).
    etrans; [apply IH; set_solver|]. unfold table. f_equal. apply map_ext.
    intros s. destruct (dget reliability s) eqn:Es; [by destruct (String.eqb_spec s x) as [->|]; [congruence|]|].
    unfold str_in. cbn [existsb]. destruct (String.eqb s x); [by destruct (existsb _ olds) | done].
Qed.

Context (shape : Forall2 has_claim ds cs) (some : cs <> []) (distinct : NoDup (map node cs))
  (sources_named : forall s, s ∈ named cs supersedes -> s <> "" /\ s ∉ map node cs)
  (resolved : forall c r, c ∈ cs -> r ∈ vc_supports c ++ vc_contradicts c -> ref_node c r ∈ map node cs ++ named cs supersedes).

Lemma edges_known : Forall (fun e => e.1.1 ∈ EDGE_TYPES /\ e.1.2 ∈ map node cs ++ source_ids cs supersedes
    /\ e.2 ∈ map node cs ++ source_ids cs supersedes) (vault_edges cs ++ map sup_edge supersedes).
Proof using resolved.
  clear shape some distinct sources_named float_of_text.
  assert (Hn : forall s, s ∈ named cs supersedes -> s ∈ map node cs ++ source_ids cs supersedes).
  { intros s Hs. apply elem_of_app. right. by apply elem_of_sources. }
  assert (Hr : forall c r, c ∈ cs -> r ∈ vc_supports c ++ vc_contradicts c -> ref_node c r ∈ map node cs ++ source_ids cs supersedes).
  { intros c r Hc Hr. pose proof (resolved c r Hc Hr) as Hcr. apply elem_of_app in Hcr as [?|?]; [|by apply Hn]. apply elem_of_app. by left. }
  apply Forall_app. split; apply Forall_forall; intros e He.
  - unfold vault_edges in He. apply list_elem_of_In, in_concat in He as (es & Hes & He).
    apply in_map_iff in Hes as (c & <- & Hc). apply list_elem_of_In in Hc, He.
    assert (Hnode : node c ∈ map node cs) by (by apply list_elem_of_fmap_2).
    unfold claim_edges in He. rewrite !elem_of_app in He.
    destruct He as [He|[He|He]]; apply list_elem_of_fmap in He as (s & -> & Hs); cbn [fst snd];
      (split; [unfold EDGE_TYPES; set_solver|]); split; try (apply elem_of_app; by left); try (apply (Hr c); [done | set_solver]).
    apply Hn. unfold named. apply elem_of_app. left. apply list_elem_of_In, in_concat. exists (vc_sources c).
    split; [by apply in_map, list_elem_of_In | by apply list_elem_of_In].
  - apply list_elem_of_fmap in He as ((newer & older) & -> & Hp). cbn [fst snd sup_edge].
    split; [unfold EDGE_TYPES; set_solver|].
    assert (forall s, s = newer \/ s = older -> s ∈ named cs supersedes).
    { intros s Hs. unfold named. apply elem_of_app. right. apply list_elem_of_In, in_concat. exists [newer; older]. split.
      - apply in_map_iff. exists (newer, older). split; [done | by apply list_elem_of_In].
      - destruct Hs as [-> | ->]; simpl; auto. }
    split; apply Hn; auto.
Qed.

Lemma vault_edge_types e : e ∈ vault_edges cs -> e.1.1 ∈ ["sourceOf"; "supports"; "contradicts"].
Proof.
  unfold vault_edges. intros He. apply list_elem_of_In, in_concat in He as (es & Hes & He).
  apply in_map_iff in Hes as (c & <- & _). apply list_elem_of_In in He. unfold claim_edges in He. rewrite !elem_of_app in He.
  destruct He as [He|[He|He]]; apply list_elem_of_fmap in He as (s & -> & _); cbn [fst]; set_solver.
Qed.

Lemma plain_edges : List.filter plain (vault_edges cs ++ map sup_edge supersedes) = vault_edges cs /\
  List.filter (fun e => negb (plain e)) (vault_edges cs ++ map sup_edge supersedes) = map sup_edge supersedes.
Proof.
  assert (Hp : Forall (fun e => plain e = true) (vault_edges cs)).
  { apply Forall_forall. intros e He%vault_edge_types. unfold plain. rewrite !elem_of_cons in He.
    destruct He as [-> |[-> |[-> |He]]]; [done..|]. by apply elem_of_nil in He. }
  rewrite !List.filter_app. split.
  - rewrite (forallb_filter_id plain (vault_edges cs)).
    + rewrite <- (app_nil_r (vault_edges cs)) at 2. f_equal. clear. induction supersedes as [|p l IH]; [done|]. exact IH.
    + apply forallb_forall. intros e He. rewrite Forall_forall in Hp. by apply Hp, list_elem_of_In.
  - replace (List.filter (fun e => negb (plain e)) (vault_edges cs)) with (@nil (string * string * string)).
    + clear. induction supersedes as [|p l IH]; [done|]. simpl in *. f_equal. exact IH.
    + induction Hp as [|e l He _ IH]; [done|]. simpl. by rewrite He.
Qed.

Lemma read_request : exists seen, seen = map node cs ++ source_ids cs supersedes /\
  read_nodes float_of_text DEFAULT_WEIGHTS request_nodes {| nr_claims := []; nr_sources := []; nr_seen := [] |}
  = Ok {| nr_claims := map JStr (map node cs); nr_sources := table prior (source_ids cs supersedes); nr_seen := map JStr seen |}.
Proof using distinct sources_named.
  eexists. split; [done|]. unfold request_nodes. rewrite read_nodes_app.
  pose proof (read_claim_nodes DEFAULT_WEIGHTS cs [] [] [] distinct) as H. change (map JStr []) with (@nil json) in H. rewrite H.
  cbn [mbind res_bind app]. rewrite read_source_nodes; [done| |].
  - apply NoDup_app. split_and!; [done| |apply NoDup_sources]. intros n Hn Hs. by apply elem_of_sources, sources_named in Hs as [_ Hs].
  - apply Forall_forall. intros n Hs. by apply elem_of_sources, sources_named in Hs as [Hs _].
Qed.

Lemma network_strs : _build_network float_of_text (JObj built)
  = Ok {| claims := map JStr (map node cs); sources := map JStr (source_ids cs supersedes);
          Infer.reliability := table reliability_of (source_ids cs supersedes); edges := map triple (vault_edges cs);
          weights := DEFAULT_WEIGHTS;
          contradicts_pairs := map (fun t => (t.1.2, t.2)) (List.filter (is_edge "contradicts") (map triple (vault_edges cs))) |}.
Proof using shape distinct sources_named resolved some.
  destruct read_request as (seen & Hseen & Hread). unfold _build_network.
  change (any_get (JObj built) "weights" JNull) with (@Ok exn json JNull).
  change (any_get (JObj built) "nodes" (JArr [])) with (@Ok exn json (JArr request_nodes)).
  change (any_get (JObj built) "edges" (JArr [])) with (@Ok exn json (JArr (map edge_json (vault_edges cs ++ map sup_edge supersedes)))).
  cbn [mbind res_bind effective_weights py_truthy py_iter]. rewrite Hread. cbn [mbind res_bind nr_claims nr_seen nr_sources].
  assert (Hc : match map JStr (map node cs) with [] => false | _ => true end = true) by (by destruct cs).
  rewrite Hc. cbn [guard_or mbind res_bind]. rewrite Hseen, read_edges_strs by apply edges_known.
  cbn [mbind res_bind er_edges er_superseded app]. destruct plain_edges as [-> ->].
  change (field DEFAULT_WEIGHTS "supersededPrior") with (@Ok exn json (weight "supersededPrior")).
  assert (map (fun e => JStr e.2) (map sup_edge supersedes) = map JStr (map snd supersedes)) as -> by by rewrite !map_map.
  rewrite demote_table.
  - cbn [mbind res_bind]. f_equal. f_equal; unfold table; [by rewrite map_map|]. apply map_ext. intros s.
    unfold prior, reliability_of. by destruct (dget reliability s).
  - intros s Hs. rewrite elem_of_sources. assert (s ∈ named cs supersedes) as Hn; [|split; [done | by apply sources_named]].
    apply list_elem_of_fmap in Hs as ((newer & older) & -> & Hp). unfold named. apply elem_of_app. right.
    apply list_elem_of_In, in_concat. exists [newer; older]. split; [|simpl; auto].
    apply in_map_iff. exists (newer, older). split; [done | by apply list_elem_of_In].
Qed.

Lemma edge_factors_strs t a b : t ∈ ["sourceOf"; "supports"; "contradicts"] -> a <> b ->
  exists fs, edge_factors DEFAULT_WEIGHTS (triple (t, a, b)) = Ok fs.
Proof.
  intros Ht Hab%String.eqb_neq. unfold edge_factors, triple. cbn [fst snd]. cbv beta iota.
  change (py_eq (JStr a) (JStr b)) with (String.eqb a b). rewrite Hab. cbn [negb guard_or mbind res_bind].
  rewrite !elem_of_cons in Ht. destruct Ht as [-> |[-> |[-> |Ht]]]; [by eexists..|]. by apply elem_of_nil in Ht.
Qed.

(** Without a claim that refers to itself, the network becomes a model. *)
Lemma model_strs net : (forall c r, c ∈ cs -> r ∈ vc_supports c ++ vc_contradicts c -> ref_node c r <> node c) ->
  _build_network float_of_text (JObj built) = Ok net -> is_ok (_build_model net) = true.
Proof using shape distinct sources_named resolved some.
  rewrite network_strs. intros Hself [= <-]. unfold _build_model. cbn [Infer.sources Infer.claims Infer.edges Infer.weights Infer.reliability].
  assert (Hp : forall l, is_ok (res_map (fun s => r ← of_option (Exn KeyError (py_str s)) (kget (table reliability_of (source_ids cs supersedes)) s);
      prior_factor s r) (List.filter l (map JStr (source_ids cs supersedes)))) = true).
  { intros l. assert (Hin : forall s, s ∈ List.filter l (map JStr (source_ids cs supersedes)) -> exists x, s = JStr x /\ x ∈ source_ids cs supersedes).
    { intros s Hs%list_elem_of_In. apply filter_In in Hs as [Hs _]. apply in_map_iff in Hs as (x & <- & Hx). exists x. by rewrite list_elem_of_In. }
    revert Hin. generalize (List.filter l (map JStr (source_ids cs supersedes))) as k. induction k as [|s k IH]; intros Hin; [done|].
    destruct (Hin s ltac:(by apply list_elem_of_here)) as (x & -> & Hx%str_in_spec). cbn [res_map]. rewrite kget_table, Hx. cbn [of_option mbind res_bind].
    assert (exists f, reliability_of x = JFloat f) as (f & ->).
    { unfold reliability_of. destruct (dget reliability x); [by eexists|].
      destruct (str_in x (map snd supersedes)); [by exists (float_of_dec false 4 (-1)) | by exists (float_of_dec false 7 (-1))]. }
    unfold prior_factor. cbn [one_minus mbind res_bind]. specialize (IH (fun y Hy => Hin y (list_elem_of_further _ _ _ Hy))).
    by destruct (res_map _ k). }
  assert (He : is_ok (res_map (edge_factors DEFAULT_WEIGHTS) (map triple (vault_edges cs))) = true).
  { assert (Hne : Forall (fun e => e.1.1 ∈ ["sourceOf"; "supports"; "contradicts"] /\ e.1.2 <> e.2) (vault_edges cs)).
    { apply Forall_forall. intros e He. split; [by apply vault_edge_types|]. unfold vault_edges in He.
      apply list_elem_of_In, in_concat in He as (es & Hes & He). apply in_map_iff in Hes as (c & <- & Hc).
      apply list_elem_of_In in Hc, He. unfold claim_edges in He. rewrite !elem_of_app in He.
      destruct He as [He|[He|He]]; apply list_elem_of_fmap in He as (s & -> & Hs); cbn [fst snd].
      - intros ->. destruct (sources_named (node c)) as [_ Hn]; [|by apply Hn, list_elem_of_fmap_2].
        unfold named. apply elem_of_app. left. apply list_elem_of_In, in_concat. exists (vc_sources c).
        split; [by apply in_map, list_elem_of_In | by apply list_elem_of_In].
      - intros Heq. symmetry in Heq. apply (Hself c s Hc) in Heq; [done|]. apply elem_of_app. by left.
      - intros Heq. symmetry in Heq. apply (Hself c s Hc) in Heq; [done|]. apply elem_of_app. by right. }
    induction Hne as [|[[t a] b] es [Ht Hab] _ IH]; [done|]. cbn [map res_map].
    destruct (edge_factors_strs t a b Ht Hab) as (fs & ->). cbn [mbind res_bind]. by destruct (res_map _ (map triple es)). }
  specialize (Hp (linked {| claims := map JStr (map node cs); sources := map JStr (source_ids cs supersedes);
          Infer.reliability := table reliability_of (source_ids cs supersedes); edges := map triple (vault_edges cs);
          weights := DEFAULT_WEIGHTS;
          contradicts_pairs := map (fun t => (t.1.2, t.2)) (List.filter (is_edge "contradicts") (map triple (vault_edges cs))) |})).
  destruct (res_map _ (List.filter _ _)); [|done]. cbn [mbind res_bind]. by destruct (res_map _ (map triple _)).
Qed.

(** C26: the request built from a consistent vault, with the default weights, is
    one that inference accepts. Consistent: at least one claim, their pages, ids
    and references texts, no two under the same page and id, every reference of a claim naming a claim of the vault or a
    source, and no source id empty or equal to that of a claim (without these it
    may be refused, as when a claim supports a missing one). Its claims are those
    of the vault under their page, its sources are the ids named as sources or
    in supersessions, each once and sorted, with the reliability given for them,
    or the prior of a superseded or of an ordinary source; its edges are those of
    the claims, in order, without the supersessions; and a model is built of it
    when no claim refers to itself. *)
Theorem built_requests_are_accepted (sorted_any : list json -> res exn (list json)) :
  exists req net, build_inference_request sorted_any ds supersedes reliability_json [] = Ok req /\
    _build_network float_of_text (JObj req) = Ok net /\
    claims net = map JStr (map node cs) /\ sources net = map JStr (source_ids cs supersedes) /\
    NoDup (source_ids cs supersedes) /\ (forall s, s ∈ source_ids cs supersedes <-> s ∈ named cs supersedes) /\
    (forall s, s ∈ named cs supersedes -> kget (Infer.reliability net) (JStr s) = Some (reliability_of s)) /\
    edges net = map triple (vault_edges cs) /\
    ((forall c r, c ∈ cs -> r ∈ vc_supports c ++ vc_contradicts c -> ref_node c r <> node c) ->
     is_ok (_build_model net) = true).
Proof using shape some distinct sources_named resolved.
  exists built. eexists. split; [by apply build_strs|]. split; [apply network_strs|]. cbn [Infer.claims Infer.sources Infer.reliability Infer.edges].
  split_and!; [done..|apply NoDup_sources|apply elem_of_sources| |done|].
  - intros s Hs. rewrite kget_table. by apply elem_of_sources, str_in_spec in Hs as ->.
  - intros Hself. apply (model_strs _ Hself), network_strs.
Qed.

(** ** Back to the claims *)

Definition THRESHOLD : spec_float := float_of_dec false 6 (-1).
(** A claim more probable than the threshold; a source is never one. *)
Definition likely (p : string -> spec_float) (n : string) : bool :=
  str_in n (map node cs) && match float_compare (p n) THRESHOLD with Some Gt => true | _ => false end.
Definition rivals (p : string -> spec_float) (n : string) (e : string * string) : bool :=
  (String.eqb n e.1 && likely p e.2) || (String.eqb n e.2 && likely p e.1).
Definition contradictions : list (string * string) :=
  map (fun e => (e.1.2, e.2)) (List.filter (fun e => String.eqb e.1.1 "contradicts") (vault_edges cs)).
Definition contested (p : string -> spec_float) (n : string) : bool := existsb (rivals p n) contradictions.

Lemma mark_table p g a b :
  mark (table p (map node cs)) (JFloat THRESHOLD) (JStr a) (JStr b) (table g (map node cs))
  = Ok (table (fun n => g n || (String.eqb n a && likely p b)) (map node cs)).
Proof using distinct.
  unfold mark. rewrite !kget_table. destruct (str_in a (map node cs)) eqn:Ea.
  - apply str_in_spec in Ea.
    assert (Hl : any_gt (JFloat (default (float_of_Z 0) (if str_in b (map node cs) then Some (p b) else None))) (JFloat THRESHOLD)
                 = Ok (likely p b)).
    { unfold likely. destruct (str_in b (map node cs)); [done|]. vm_compute. reflexivity. }
    rewrite Hl. cbn [mbind res_bind]. f_equal. destruct (likely p b).
    + rewrite kset_table by done. apply table_ext. intros n. rewrite andb_true_r. destruct (String.eqb n a); by rewrite ?orb_true_r, ?orb_false_r.
    + apply table_ext. intros n. by rewrite andb_false_r, orb_false_r.
  - f_equal. apply map_ext_in. intros n Hn%list_elem_of_In. apply str_in_false in Ea.
    destruct (String.eqb_spec n a) as [->|]; [done|]. by rewrite orb_false_r.
Qed.

Lemma mark_pairs_table p pairs : forall g,
  mark_pairs (table p (map node cs)) (JFloat THRESHOLD) (map (fun e => (JStr e.1, JStr e.2)) pairs) (table g (map node cs))
  = Ok (table (fun n => g n || existsb (rivals p n) pairs) (map node cs)).
Proof using distinct.
  induction pairs as [|[a b] pairs IH]; intros g; cbn [map mark_pairs fst snd].
  - f_equal. apply table_ext. intros n. by rewrite orb_false_r.
  - unfold mark_pair. cbn [fst snd]. rewrite mark_table. cbn [mbind res_bind]. rewrite mark_table. cbn [mbind res_bind].
    rewrite IH. f_equal. apply table_ext. intros n. cbn [existsb]. unfold rivals at 2. cbn [fst snd]. by rewrite !orb_assoc.
Qed.

Lemma per_claim_table value l m : per_claim value (map JStr l) = Ok m -> exists p, m = table p l.
Proof.
  intros Hm. exists (fun s => match value (JStr s) with Ok v => v | Raise _ => float_of_Z 0 end). revert m Hm.
  induction l as [|x l IH]; intros m Hm; [by injection Hm as <-|]. unfold per_claim in Hm. cbn [map res_map] in Hm.
  destruct (value (JStr x)) as [v|] eqn:Ev; [|done]. cbn [mbind res_bind] in Hm.
  destruct (res_map _ (map JStr l)) as [m'|] eqn:Em; [|done]. injection Hm as <-.
  unfold table. cbn [map]. rewrite Ev. f_equal. by apply IH.
Qed.

Lemma contradicts_strs :
  map (fun t => (t.1.2, t.2)) (List.filter (is_edge "contradicts") (map triple (vault_edges cs)))
  = map (fun e => (JStr e.1, JStr e.2)) contradictions.
Proof.
  unfold contradictions. clear. induction (vault_edges cs) as [|[[t a] b] es IH]; [done|]. cbn [map List.filter].
  unfold is_edge at 1, triple at 1. cbn [fst snd]. change (py_eq (JStr t) (JStr "contradicts")) with (String.eqb t "contradicts").
  destruct (String.eqb t "contradicts"); cbn [map fst snd triple]; by rewrite IH.
Qed.

Context (calibrate : markov -> res exn unit) (belief : markov -> json -> res exn spec_float)
  (sample : markov -> Z -> Z -> res exn (json -> res exn spec_float)) (round6 : spec_float -> spec_float).

Lemma infer_strs net model : _build_network float_of_text (JObj built) = Ok net -> _build_model net = Ok model ->
  is_ok (_marginals_bp calibrate belief model (claims net)) || is_ok (_marginals_gibbs sample model (claims net) 4000) = true ->
  exists p r, infer float_of_text calibrate belief sample round6 (JObj built) = Ok r /\
    (_marginals_bp calibrate belief model (claims net) = Ok (table p (map node cs)) \/
     _marginals_gibbs sample model (claims net) 4000 = Ok (table p (map node cs))) /\
    rs_marginals r = table (fun n => round6 (p n)) (map node cs) /\ rs_contested r = table (contested p) (map node cs).
Proof using shape distinct sources_named resolved some.
  intros Hn Hm Hv. pose proof Hn as Hnet. rewrite network_strs in Hn. injection Hn as <-. unfold infer. rewrite Hnet. cbn [mbind res_bind].
  rewrite Hm. cbn [mbind res_bind Infer.claims Infer.weights Infer.contradicts_pairs] in *.
  assert (Hbp : forall m, _marginals_bp calibrate belief model (map JStr (map node cs)) = Ok m -> exists p, m = table p (map node cs)).
  { intros m H. unfold _marginals_bp in H. res_inv. by eapply per_claim_table. }
  assert (Hgb : forall m, _marginals_gibbs sample model (map JStr (map node cs)) 4000 = Ok m -> exists p, m = table p (map node cs)).
  { intros m H. unfold _marginals_gibbs in H. res_inv. by eapply per_claim_table. }
  assert (Hmark : forall p, mark_pairs (table p (map node cs)) (JFloat THRESHOLD)
      (map (fun t => (t.1.2, t.2)) (List.filter (is_edge "contradicts") (map triple (vault_edges cs))))
      (map (fun c => (c, false)) (map JStr (map node cs))) = Ok (table (contested p) (map node cs))).
  { intros p. rewrite contradicts_strs. rewrite (map_map JStr). exact (mark_pairs_table p contradictions (fun _ => false)). }
  change (field DEFAULT_WEIGHTS "contestedThreshold") with (@Ok exn json (JFloat THRESHOLD)).
  destruct (_marginals_bp _ _ _ _) as [m|e] eqn:Eb.
  - destruct (Hbp m eq_refl) as (p & ->). cbn [mbind res_bind]. rewrite Hmark. cbn [mbind res_bind]. eexists p, _.
    split; [done|]. split; [by left|]. split; [|done]. cbn [rs_marginals]. unfold table. by rewrite map_map.
  - cbn [is_ok orb] in Hv. destruct (_marginals_gibbs _ _ _ _) as [m|e'] eqn:Eg; [|done].
    destruct (Hgb m eq_refl) as (p & ->). cbn [mbind res_bind]. rewrite Hmark. cbn [mbind res_bind]. eexists p, _.
    split; [done|]. split; [by right|]. split; [|done]. cbn [rs_marginals]. unfold table. by rewrite map_map.
Qed.

(** The claims with what the response says of each. *)
Definition updated (p : string -> spec_float) (d : jdict) (c : vault_claim) : jdict :=
  dset (dset d "confidence" (JFloat (round6 (p (node c))))) "contested" (JBool (contested p (node c))).

Lemma merge_claim_strs d c p g : has_claim d c -> c ∈ cs ->
  merge_claim (JObj (by_name (fun n => JFloat (round6 (p n))) (map node cs))) (JObj (by_name (fun n => JBool (g n)) (map node cs))) d
  = Ok (dset (dset d "confidence" (JFloat (round6 (p (node c))))) "contested" (JBool (g (node c)))).
Proof.
  intros [Hp Hi _ _ _] Hc. unfold merge_claim, field. rewrite Hp, Hi. cbn [of_option mbind res_bind].
  change (claim_node_id (JStr (vc_page c)) (JStr (vc_id c))) with (JStr (node c)). change (py_str (JStr (node c))) with (node c).
  assert (Hn : str_in (node c) (map node cs) = true) by (by apply str_in_spec, list_elem_of_fmap_2).
  cbn [any_in any_item any_get any_hash mbind res_bind]. rewrite existsb_by_name, Hn. cbn [mbind res_bind].
  unfold dget_or. rewrite !dget_by_name, Hn. cbn [of_option mbind res_bind default py_truthy]. by destruct (g (node c)).
Qed.

(** C25: the marginals come back to the claims they are about: a vault whose
    request becomes a model, on which belief propagation or else Gibbs sampling
    gives the marginals, is inferred; and merging the response into the claims
    gives every claim, in order and with its other fields, its own marginal,
    rounded, and the mark that some claim it contradicts, or that contradicts it,
    is more probable than the threshold of 0.6. *)
Theorem marginals_return_to_claims (net : Network) (model : markov) :
  _build_network float_of_text (JObj built) = Ok net -> _build_model net = Ok model ->
  is_ok (_marginals_bp calibrate belief model (claims net)) || is_ok (_marginals_gibbs sample model (claims net) 4000) = true ->
  exists p r response, infer float_of_text calibrate belief sample round6 (JObj built) = Ok r /\
    (_marginals_bp calibrate belief model (claims net) = Ok (table p (map node cs)) \/
     _marginals_gibbs sample model (claims net) 4000 = Ok (table p (map node cs))) /\
    response_json r = JObj response /\ merge_confidence ds response = Ok (zip_with (updated p) ds cs).
Proof using shape some distinct sources_named resolved.
  intros Hn Hm Hv. destruct (infer_strs net model Hn Hm Hv) as (p & r & Hr & Hp & Hmar & Hcon). exists p, r. eexists. split_and!; [done..|].
  unfold merge_confidence, jget_or. cbn [dget String.eqb Ascii.eqb Bool.eqb default]. rewrite Hmar, Hcon.
  unfold table. rewrite !map_map. cbn [fst snd dump_key].
  assert (Hds : forall l k, Forall2 has_claim l k -> (forall c, c ∈ k -> c ∈ cs) ->
    res_map (merge_claim (JObj (by_name (fun n => JFloat (round6 (p n))) (map node cs)))
      (JObj (by_name (fun n => JBool (contested p n)) (map node cs)))) l = Ok (zip_with (updated p) l k)).
  { induction 1 as [|d c l k H _ IH]; intros Hk; [done|]. cbn [res_map zip_with]. rewrite (merge_claim_strs d c) by (done || apply Hk, list_elem_of_here).
    cbn [mbind res_bind]. rewrite IH; [done|]. intros c' Hc'. by apply Hk, list_elem_of_further. }
  unfold by_name in Hds. rewrite !map_map in Hds. by apply Hds.
Qed.
End Request.

(** ** Examples *)

Definition ex_claim (page id : string) (sources supports contradicts : list string) : vault_claim :=
  {| vc_page := page; vc_id := id; vc_sources := sources; vc_supports := supports; vc_contradicts := contradicts |}.
Definition ex_claims : list vault_claim :=
  [ex_claim "p" "c1" ["new"; "blog"] ["c2"] []; ex_claim "p" "c2" ["old"] [] ["q#c1"]; ex_claim "q" "c1" ["new"] [] []].
Definition claim_dict (c : vault_claim) : jdict :=
  [("page", JStr (vc_page c)); ("id", JStr (vc_id c)); ("text", JStr "t"); ("sources", strs (vc_sources c));
   ("supports", strs (vc_supports c)); ("contradicts", strs (vc_contradicts c))].
Definition ex_supersedes : list (string * string) := [("new", "old"); ("erratum", "old")].
Definition ex_reliability : dict spec_float := [("blog", float_of_dec false 3 (-1))].
Definition ex_unsorted (l : list json) : res exn (list json) := Raise (Exn TypeError "'<' not supported").
Definition ex_float (s : string) : res exn spec_float := Raise (Exn ValueError s).

Lemma ex_shape : Forall2 has_claim (map claim_dict ex_claims) ex_claims.
Proof. repeat constructor. Qed.
Lemma ex_distinct : NoDup (map node ex_claims).
Proof. apply (bool_decide_unpack _). vm_compute. exact I. Qed.
Lemma ex_named s : s ∈ named ex_claims ex_supersedes -> s <> "" /\ s ∉ map node ex_claims.
Proof.
  revert s. apply Forall_forall. apply (bool_decide_unpack _). vm_compute. exact I.
Qed.
Lemma ex_resolved c r : c ∈ ex_claims -> r ∈ vc_supports c ++ vc_contradicts c ->
  ref_node c r ∈ map node ex_claims ++ named ex_claims ex_supersedes /\ ref_node c r <> node c.
Proof.
  intros Hc. revert r. apply Forall_forall. revert c Hc. apply Forall_forall. repeat constructor; vm_compute; set_solver.
Qed.

Lemma built_requests_are_accepted_witness : exists req net,
  build_inference_request ex_unsorted (map claim_dict ex_claims) ex_supersedes (reliability_json ex_reliability) [] = Ok req /\
  _build_network ex_float (JObj req) = Ok net /\
  sources net = map JStr ["blog"; "erratum"; "new"; "old"] /\ is_ok (_build_model net) = true.
Proof.
  destruct (built_requests_are_accepted ex_float (map claim_dict ex_claims) ex_claims ex_supersedes ex_reliability
    ex_shape ltac:(discriminate) ex_distinct ex_named (fun c r Hc Hr => proj1 (ex_resolved c r Hc Hr)) ex_unsorted)
    as (req & net & Hb & Hn & _ & Hs & _ & _ & _ & _ & Hm).
  exists req, net. split_and!; [exact Hb | exact Hn | | apply Hm; intros c r Hc Hr; exact (proj2 (ex_resolved c r Hc Hr))].
  rewrite Hs. vm_compute. reflexivity.
Defined.

(** A claim that supports a missing one, and a source with the id of a claim, are
    built into requests that inference refuses. *)
Definition ex_refused (cs : list vault_claim) : res exn Network :=
  req ← build_inference_request ex_unsorted (map claim_dict cs) [] [] []; _build_network ex_float (JObj req).
Example missing_claim_refused :
  ex_refused [ex_claim "p" "c1" ["s"] ["c9"] []] =
  Raise (InferenceError "edge references unknown node: {'type': 'supports', 'source': 'p#c1', 'target': 'p#c9'}") /\
  ex_refused [ex_claim "p" "c1" ["p#c1"] [] []] = Raise (InferenceError "duplicate node id: p#c1") /\
  ex_refused [] = Raise (InferenceError "no claim nodes").
Proof. vm_compute. split_and!; reflexivity. Qed.

(** [q#c1] is likely and contradicts [p#c2], which is marked. *)
Definition ex_belief (m : markov) (c : json) : res exn spec_float :=
  Ok (float_of_dec false (if py_eq c (JStr "q#c1") then 9 else 5) (-1)).
Definition ex_sample (m : markov) (size seed : Z) : res exn (json -> res exn spec_float) := Raise (Exn ValueError "no sample").
Definition ex_infer := infer ex_float (fun _ => Ok tt) ex_belief ex_sample (fun f => f).
Definition ex_net : Network :=
  match _build_network ex_float (JObj (built ex_claims ex_supersedes ex_reliability)) with Ok n => n | Raise _ =>
    {| claims := []; sources := []; reliability := []; edges := []; weights := []; contradicts_pairs := [] |} end.
Definition ex_model : markov := match _build_model ex_net with Ok m => m | Raise _ => {| mn_nodes := []; mn_edges := []; mn_factors := [] |} end.

Lemma marginals_return_to_claims_witness : exists r response merged,
  ex_infer (JObj (built ex_claims ex_supersedes ex_reliability)) = Ok r /\ response_json r = JObj response /\
  merge_confidence (map claim_dict ex_claims) response = Ok merged.
Proof.
  destruct (marginals_return_to_claims ex_float (map claim_dict ex_claims) ex_claims ex_supersedes ex_reliability
    ex_shape ltac:(discriminate) ex_distinct ex_named (fun c r Hc Hr => proj1 (ex_resolved c r Hc Hr))
    (fun _ => Ok tt) ex_belief ex_sample (fun f => f) ex_net ex_model) as (p & r & response & Hr & _ & Hj & Hm);
    [vm_compute; reflexivity..|].
  exists r, response. eexists. split_and!; [exact Hr | exact Hj | exact Hm].
Defined.

Example contested_example :
  rs_contested <$> ex_infer (JObj (built ex_claims ex_supersedes ex_reliability))
  = Ok [(JStr "p#c1", false); (JStr "p#c2", true); (JStr "q#c1", false)].
Proof. vm_compute. reflexivity. Qed.

(** A denied write is an answer, with the reason; a request the server fails is an
    exception; and what is read is taken for the answer to the request just made,
    whatever its id is. *)
Definition ex_server (sent : list string) : string :=
  match length sent with
  | 1 => jq "{'result':{'isError':true,'content':[{'type':'text','text':'no'}]}}"
  | 2 => jq "{'id':7,'result':{'content':[{'type':'image'},{'type':'text','text':'ok'}]}}"
  | _ => jq "{'error':{'code':-32601,'message':'unknown'}}"
  end.
Definition ex_call (args : jdict) : Client.op (json * bool * string) :=
  Client.execute (fun _ => None) (fun _ => None) ex_server (fun _ => "") "memory_lint" args.
Example client_answers :
  let '(first, w1) := ex_call [] Client.spawned in
  let '(second, w2) := ex_call [] w1 in
  let '(third, w3) := ex_call [("n", JInt 1)] w2 in
  first = Ok (JNull, false, "no") /\ second = Ok (JStr "ok", true, "") /\
  third = Raise (Client.MemoryServerError "rpc -32601: unknown") /\ Client._next_id w3 = 3%Z /\
  last (Client.sent w3) = Some (jq "{'jsonrpc': '2.0', 'id': 3, 'method': 'tools/call', 'params': {'name': 'memory_lint', 'arguments': {'n': 1}}}").
Proof. vm_compute. by split_and!. Qed.
End Vault.
