(* ===== verification/LinkConfig.v ===== *)
(** * RuntimeLink configuration and backoff

    The first part of [kei/runtime_link.py]: the closed enumerations, the
    configuration with its validation and its environment variables, and the
    restart backoff with its floating-point product.

    Durations are Python floats ([spec_float]), so a NaN is a value like any
    other; comparisons with one are false, as in Python. *)
From Stdlib Require Import ZArith Lia Ascii String SpecFloat.
From stdpp Require Import base tactics list strings.
From S2P Require Import Prelude PyStr PyFloat PyUrl Json JsonFacts Types.

(** ** Closed sets *)

Inductive HarnessKind := ASSISTANT | PDE | CHAT_DISCORD | CHAT_SLACK | CHAT_TEAMS | CLI.
Definition harness_kind_value (k : HarnessKind) : string :=
  match k with
  | ASSISTANT => "assistant" | PDE => "pde" | CHAT_DISCORD => "chat-discord"
  | CHAT_SLACK => "chat-slack" | CHAT_TEAMS => "chat-teams" | CLI => "cli"
  end.
Definition _HARNESS_KINDS : list string :=
  map harness_kind_value [ASSISTANT; PDE; CHAT_DISCORD; CHAT_SLACK; CHAT_TEAMS; CLI].

Inductive LinkState := DISABLED | STARTING | CONNECTED | DEGRADED | RECONNECTING | TERMINAL | STOPPED.
#[global] Instance LinkState_eq_dec : EqDecision LinkState.
Proof. solve_decision. Defined.
Definition link_state_value (s : LinkState) : string :=
  match s with
  | DISABLED => "disabled" | STARTING => "starting" | CONNECTED => "connected" | DEGRADED => "degraded"
  | RECONNECTING => "reconnecting" | TERMINAL => "terminal" | STOPPED => "stopped"
  end.
Definition link_states : list LinkState :=
  [DISABLED; STARTING; CONNECTED; DEGRADED; RECONNECTING; TERMINAL; STOPPED].

Inductive FailureClass :=
| CONFIG_INVALID | RUNTIME_UNAVAILABLE | RUNTIME_CRASHLOOP | RUNTIME_UNRESPONSIVE | CONTRACT_MISMATCH
| F_CATALOG_UNREACHABLE | F_CATALOG_TIMEOUT | F_CATALOG_ERROR | F_CATALOG_BACKPRESSURE
| INSTALLATION_UNAUTHORIZED | INSTALLATION_STALE | INSTALLATION_OFFLINE | AUDIT_BACKLOG
| LEGACY_RUNTIME_UNVERIFIED.
#[global] Instance FailureClass_eq_dec : EqDecision FailureClass.
Proof. solve_decision. Defined.
Definition failure_class_value (f : FailureClass) : string :=
  match f with
  | CONFIG_INVALID => "config_invalid"
  | RUNTIME_UNAVAILABLE => "runtime_unavailable"
  | RUNTIME_CRASHLOOP => "runtime_crashloop"
  | RUNTIME_UNRESPONSIVE => "runtime_unresponsive"
  | CONTRACT_MISMATCH => "contract_mismatch"
  | F_CATALOG_UNREACHABLE => "catalog_unreachable"
  | F_CATALOG_TIMEOUT => "catalog_timeout"
  | F_CATALOG_ERROR => "catalog_error"
  | F_CATALOG_BACKPRESSURE => "catalog_backpressure"
  | INSTALLATION_UNAUTHORIZED => "installation_unauthorized"
  | INSTALLATION_STALE => "installation_stale"
  | INSTALLATION_OFFLINE => "installation_offline"
  | AUDIT_BACKLOG => "audit_backlog"
  | LEGACY_RUNTIME_UNVERIFIED => "legacy_runtime_unverified"
  end.
Definition failure_classes : list FailureClass :=
  [CONFIG_INVALID; RUNTIME_UNAVAILABLE; RUNTIME_CRASHLOOP; RUNTIME_UNRESPONSIVE; CONTRACT_MISMATCH;
   F_CATALOG_UNREACHABLE; F_CATALOG_TIMEOUT; F_CATALOG_ERROR; F_CATALOG_BACKPRESSURE;
   INSTALLATION_UNAUTHORIZED; INSTALLATION_STALE; INSTALLATION_OFFLINE; AUDIT_BACKLOG;
   LEGACY_RUNTIME_UNVERIFIED].

Inductive BeatOutcome :=
| BEAT_OK | CATALOG_UNREACHABLE | CATALOG_TIMEOUT | CATALOG_ERROR | CATALOG_BACKPRESSURE
| CATALOG_REJECTED | UNAUTHORIZED.
#[global] Instance BeatOutcome_eq_dec : EqDecision BeatOutcome.
Proof. solve_decision. Defined.
Definition beat_outcome_value (o : BeatOutcome) : string :=
  match o with
  | BEAT_OK => "ok" | CATALOG_UNREACHABLE => "catalog_unreachable" | CATALOG_TIMEOUT => "catalog_timeout"
  | CATALOG_ERROR => "catalog_error" | CATALOG_BACKPRESSURE => "catalog_backpressure"
  | CATALOG_REJECTED => "catalog_rejected" | UNAUTHORIZED => "unauthorized"
  end.
Definition beat_outcomes : list BeatOutcome :=
  [BEAT_OK; CATALOG_UNREACHABLE; CATALOG_TIMEOUT; CATALOG_ERROR; CATALOG_BACKPRESSURE; CATALOG_REJECTED;
   UNAUTHORIZED].

Inductive LifecycleEventName := LE_STARTED | LE_CONNECTED | LE_DEGRADED | LE_RECONNECTING | LE_TERMINAL | LE_STOPPED.
#[global] Instance LifecycleEventName_eq_dec : EqDecision LifecycleEventName.
Proof. solve_decision. Defined.
Definition lifecycle_value (n : LifecycleEventName) : string :=
  match n with
  | LE_STARTED => "runtime.link.started" | LE_CONNECTED => "runtime.link.connected"
  | LE_DEGRADED => "runtime.link.degraded" | LE_RECONNECTING => "runtime.link.reconnecting"
  | LE_TERMINAL => "runtime.link.terminal" | LE_STOPPED => "runtime.link.stopped"
  end.
Definition lifecycle_names : list LifecycleEventName :=
  [LE_STARTED; LE_CONNECTED; LE_DEGRADED; LE_RECONNECTING; LE_TERMINAL; LE_STOPPED].

(** [Enum(value)]: the member with that value. *)
Definition enum_of {A} (value : A -> string) (members : list A) (v : string) : option A :=
  find_first (fun a => String.eqb (value a) v) members.

(** The enumerations decode what they encode. *)
Lemma enum_roundtrip :
  (forall k, enum_of link_state_value link_states (link_state_value k) = Some k) /\
  (forall k, enum_of failure_class_value failure_classes (failure_class_value k) = Some k) /\
  (forall k, enum_of beat_outcome_value beat_outcomes (beat_outcome_value k) = Some k) /\
  (forall k, enum_of lifecycle_value lifecycle_names (lifecycle_value k) = Some k).
Proof. split_and!; by intros []. Qed.

Definition SDK_LANGS : list string := ["go"; "python"; "typescript"].
Definition CHILD_ENV_ALLOWLIST : list string :=
  ["KEI_RUNTIME_TOKEN"; "KEI_RUNTIME_CONTROL_PLANE_URL"; "KEI_HARNESS_KIND"; "KEI_HARNESS_VERSION";
   "KEI_DEPLOYMENT_ENV"; "KEI_AGENTWARE_SDK_LANG"; "KEI_AGENTWARE_SDK_VERSION"; "KEI_HEARTBEAT_RUN_ID";
   "PATH"; "HOME"; "TZ"].

(** ** Identifier patterns

    [^...$] tried with [re.match]: a non-empty run of the class, up to a bound,
    before the end of the text or before one final newline. *)

(** [re.match("^[class]{lo,hi}$", s)]. *)
Definition class_match (p : ascii -> bool) (lo hi : nat) (s : string) : bool :=
  let body := if py_endswith nl s && negb (str_forall p s) then py_removesuffix nl s else s in
  str_forall p body && (lo <=? String.length body)%nat && (String.length body <=? hi)%nat.

Definition _VERSION_RE := class_match (fun a => is_alnum a || char_in a "._+-") 1 64.
Definition _ENV_NAME_RE := class_match (fun a => is_alnum a || char_in a "._-") 1 32.
Definition _SHA256_RE := class_match is_hex_lower 64 64.
Definition _ID_RE := class_match (fun a => is_alnum a || char_in a "._:-") 1 128.
Definition _REASON_RE := class_match (fun a => is_digit a || is_lower a || Ascii.eqb a "_") 1 64.

Example id_re_newline : map _ID_RE ["run-1"; String.append "run-1" nl; ""; "a b"; nl] = [true; true; false; false; false].
Proof. vm_compute. reflexivity. Qed.

(** ** Floats: comparison, rounding *)

Definition f_lt (a b : spec_float) : bool := match float_compare a b with Some Lt => true | _ => false end.
Definition f_le (a b : spec_float) : bool :=
  match float_compare a b with Some Lt | Some Eq => true | _ => false end.
(** [max(a, b)] and [min(a, b)]: the first unless the second is strictly beyond it. *)
Definition f_max (a b : spec_float) : spec_float := if f_lt a b then b else a.
Definition f_min (a b : spec_float) : spec_float := if f_lt b a then b else a.
Definition fz (z : Z) : spec_float := float_of_Z z.
#[global] Arguments fz : simpl never.
#[global] Arguments f_le : simpl never.
#[global] Arguments f_lt : simpl never.

(** [2 * a >= b], exactly: doubling a float loses nothing. *)
Definition f_double (a : spec_float) : spec_float :=
  match a with S754_finite s m e => S754_finite s m (e + 1) | _ => a end.

(** A dyadic [m * 2^e] with [0 <= m], rounded to 53 significant bits, ties to
    even: the result of a floating-point product away from overflow and
    underflow. *)
Definition dyadic_round (m e : Z) : Z * Z :=
  let s := (Z.log2 m + 1 - 53)%Z in
  if (s <=? 0)%Z then (m, e) else (div_half_even m (2 ^ s), e + s)%Z.

Definition dyadic_floor (a : Z * Z) : Z :=
  if (0 <=? a.2)%Z then (a.1 * 2 ^ a.2)%Z else (a.1 / 2 ^ (- a.2))%Z.

(** [round(f * 1000)] of a finite non-negative float. *)
Definition ms_of (f : spec_float) : res exn Z :=
  match f with
  | S754_nan => Raise (Exn ValueError "cannot convert float NaN to integer")
  | S754_infinity _ => Raise (Exn OverflowError "cannot convert float infinity to integer")
  | _ =>
      match float_parts f with
      | Some (m, e) =>
          let '(m', e') := dyadic_round (Z.abs m * 1000) e in
          if (1024 <? Z.log2 m' + 1 + e')%Z then Raise (Exn OverflowError "cannot convert float infinity to integer") else
          let r := if (0 <=? e')%Z then (m' * 2 ^ e')%Z else div_half_even m' (2 ^ (- e')) in
          Ok (if (m <? 0)%Z then - r else r)%Z
      | None => Ok 0%Z
      end
  end.

(** ** Configuration *)

Record BinaryRef := { bin_path : string; bin_sha256 : string }.
Record Backoff := { bo_min : spec_float; bo_max : spec_float; bo_stable_reset : spec_float }.
Record HarnessEnvelope := { h_kind : string; h_version : string; h_deployment_env : string }.
Record RuntimeLinkConfig := {
  cfg_enabled : bool;
  cfg_binary : BinaryRef;
  cfg_control_plane_url : string;
  cfg_token_env : string;
  cfg_interval : spec_float;
  cfg_beat_timeout : spec_float;
  cfg_grace : spec_float;
  cfg_restart : Backoff;
  cfg_stop_timeout : spec_float;
  cfg_log_count : Z;
  cfg_harness : HarnessEnvelope;
}.

Definition ENV_ENABLED := "KEI_RUNTIME_ENABLED".
Definition ENV_TOKEN := "KEI_RUNTIME_TOKEN".
Definition ENV_CONTROL_PLANE_URL := "KEI_RUNTIME_CONTROL_PLANE_URL".
Definition ENV_PROXY_PATH := "KEI_PROXY_PATH".
Definition ENV_PROXY_SHA := "KEI_PROXY_SHA".
Definition ENV_INTERVAL := "KEI_HEARTBEAT_INTERVAL".
Definition ENV_TIMEOUT := "KEI_HEARTBEAT_TIMEOUT".
Definition ENV_RESTART_MIN := "KEI_HEARTBEAT_RESTART_MIN".
Definition ENV_RESTART_MAX := "KEI_HEARTBEAT_RESTART_MAX".
Definition ENV_STABLE_SECONDS := "KEI_HEARTBEAT_STABLE_SECONDS".
Definition ENV_LOG_COUNT := "KEI_HEARTBEAT_LOG_COUNT".
Definition ENV_HARNESS_KIND := "KEI_HARNESS_KIND".
Definition ENV_HARNESS_VERSION := "KEI_HARNESS_VERSION".
Definition ENV_DEPLOYMENT_ENV := "KEI_DEPLOYMENT_ENV".

Definition DEFAULT_BINARY_PATH := "kei-proxy".
Definition MIN_INTERVAL := fz 15.
Definition MAX_INTERVAL := fz 300.
Definition MAX_GRACE := fz 300.
Definition MIN_RESTART := fz 1.
Definition MAX_RESTART := fz 3600.
Definition MIN_STABLE_RESET := fz 1.
Definition MAX_STABLE_RESET := fz 3600.
Definition MIN_STOP_TIMEOUT := fz 1.
Definition MAX_STOP_TIMEOUT := fz 60.
Definition MAX_LOG_COUNT : Z := 100.

Definition default_backoff : Backoff := {| bo_min := fz 1; bo_max := fz 300; bo_stable_reset := fz 300 |}.
Definition default_config : RuntimeLinkConfig :=
  {| cfg_enabled := false; cfg_binary := {| bin_path := DEFAULT_BINARY_PATH; bin_sha256 := "" |};
     cfg_control_plane_url := ""; cfg_token_env := ENV_TOKEN; cfg_interval := fz 60;
     cfg_beat_timeout := fz 10; cfg_grace := fz 15; cfg_restart := default_backoff;
     cfg_stop_timeout := fz 10; cfg_log_count := 3;
     cfg_harness := {| h_kind := ""; h_version := ""; h_deployment_env := "" |} |}.

(** [RuntimeLinkConfigError(code, field)]. *)
Record config_error := ConfigError { ce_code : string; ce_field : string }.

Definition CODE_INVALID_VALUE := "invalid_value".
Definition CODE_OUT_OF_RANGE := "out_of_range".
Definition CODE_BEAT_TIMEOUT := "beat_timeout".
Definition CODE_HARNESS_KIND := "harness_kind".
Definition CODE_ENVELOPE := "envelope".
Definition CODE_TOKEN_MISSING := "token_missing".
Definition CODE_CONTROL_PLANE_URL := "control_plane_url".
Definition CODE_BINARY := "binary".
Definition CONFIG_ERROR_CODES : list string :=
  [CODE_INVALID_VALUE; CODE_OUT_OF_RANGE; CODE_BEAT_TIMEOUT; CODE_HARNESS_KIND; CODE_ENVELOPE;
   CODE_TOKEN_MISSING; CODE_CONTROL_PLANE_URL; CODE_BINARY].
Definition _MAX_ENV_INT_DIGITS : nat := 9.

(** *** The control-plane URL *)

Definition control_plane_url_ok (netloc_ok : string -> bool) (raw : string) : bool :=
  match urlsplit netloc_ok raw with
  | Some (scheme, netloc, hostname) =>
      str_in scheme ["http"; "https"] && py_truthy_str hostname && negb (char_in "@" netloc)
  | None => false
  end.

Example url_examples :
  map (control_plane_url_ok (fun _ => true))
    ["https://plane.example:8443/x"; "HTTP://h"; "ftp://h"; "https://u:p@h"; "https:///x"; "//h"; "https://[::1]:1"; "http://[x"]
  = [true; true; false; false; false; false; true; false].
Proof. vm_compute. reflexivity. Qed.

(** *** Validation *)

(** Raise on the first violated condition. *)
Definition reject (bad : bool) (code field : string) : res config_error unit :=
  if bad then Raise (ConfigError code field) else Ok tt.

Definition unless_empty (s : string) (p : string -> bool) : bool := py_truthy_str s && negb (p s).
Definition outside (lo x hi : spec_float) : bool := negb (f_le lo x && f_le x hi).

Definition clamp_interval (x : spec_float) : spec_float := f_min (f_max x MIN_INTERVAL) MAX_INTERVAL.

Definition set_interval (i : spec_float) (c : RuntimeLinkConfig) : RuntimeLinkConfig :=
  {| cfg_enabled := cfg_enabled c; cfg_binary := cfg_binary c;
     cfg_control_plane_url := cfg_control_plane_url c; cfg_token_env := cfg_token_env c;
     cfg_interval := i; cfg_beat_timeout := cfg_beat_timeout c; cfg_grace := cfg_grace c;
     cfg_restart := cfg_restart c; cfg_stop_timeout := cfg_stop_timeout c;
     cfg_log_count := cfg_log_count c; cfg_harness := cfg_harness c |}.

Section Normalize.
Context (netloc_ok : string -> bool).

Definition check_harness (c : RuntimeLinkConfig) : res config_error unit :=
  let h := cfg_harness c in
  _ ← reject ((py_truthy_str (h_kind h) && negb (str_in (h_kind h) _HARNESS_KINDS)) ||
              (cfg_enabled c && negb (py_truthy_str (h_kind h)))) CODE_HARNESS_KIND "harness.kind";
  _ ← reject (unless_empty (h_version h) _VERSION_RE) CODE_ENVELOPE "harness.version";
  reject (unless_empty (h_deployment_env h) _ENV_NAME_RE) CODE_ENVELOPE "harness.deployment_env".

Definition check_enabled (c : RuntimeLinkConfig) : res config_error unit :=
  if cfg_enabled c then
    _ ← reject (negb (String.eqb (cfg_token_env c) ENV_TOKEN)) CODE_INVALID_VALUE "token";
    _ ← reject (negb (control_plane_url_ok netloc_ok (cfg_control_plane_url c))) CODE_CONTROL_PLANE_URL "control_plane_url";
    _ ← reject (negb (py_truthy_str (bin_path (cfg_binary c))) || char_in "000" (bin_path (cfg_binary c))) CODE_BINARY "binary.path";
    reject (negb (py_truthy_str (bin_sha256 (cfg_binary c))) &&
            String.eqb (h_deployment_env (cfg_harness c)) "prod") CODE_BINARY "binary.sha256"
  else Ok tt.

Definition normalize_config (c : RuntimeLinkConfig) : res config_error RuntimeLinkConfig :=
  _ ← check_harness c;
  _ ← check_enabled c;
  _ ← reject (unless_empty (bin_sha256 (cfg_binary c)) _SHA256_RE) CODE_BINARY "binary.sha256";
  let interval := clamp_interval (cfg_interval c) in
  _ ← reject (f_le (cfg_beat_timeout c) (fz 0) || f_le interval (f_double (cfg_beat_timeout c))) CODE_BEAT_TIMEOUT "beat_timeout";
  _ ← reject (outside (fz 0) (cfg_grace c) MAX_GRACE) CODE_OUT_OF_RANGE "grace";
  let r := cfg_restart c in
  _ ← reject (f_lt (bo_min r) MIN_RESTART || f_lt MAX_RESTART (bo_max r) || f_lt (bo_max r) (bo_min r)) CODE_OUT_OF_RANGE "restart";
  _ ← reject (outside MIN_STABLE_RESET (bo_stable_reset r) MAX_STABLE_RESET) CODE_OUT_OF_RANGE "restart.stable_reset";
  _ ← reject (outside MIN_STOP_TIMEOUT (cfg_stop_timeout c) MAX_STOP_TIMEOUT) CODE_OUT_OF_RANGE "stop_timeout";
  _ ← reject (negb ((0 <=? cfg_log_count c) && (cfg_log_count c <=? MAX_LOG_COUNT)))%Z CODE_OUT_OF_RANGE "log_count";
  Ok (set_interval interval c).

(** *** From the environment *)

Definition _parse_env_int (name raw : string) : res config_error Z :=
  if (_MAX_ENV_INT_DIGITS <? py_len raw)%nat || negb (str_forall is_digit raw) || negb (py_truthy_str raw)
  then Raise (ConfigError CODE_INVALID_VALUE name)
  else Ok (digits_val 0 raw).

Definition _parse_env_bool (name raw : string) : res config_error bool :=
  let value := py_lower raw in
  if str_in value ["true"; "1"] then Ok true
  else if str_in value ["false"; "0"] then Ok false
  else Raise (ConfigError CODE_INVALID_VALUE name).

Definition env_get (env : dict string) (key : string) : string := py_strip (dget_or env key "").

Definition env_seconds (env : dict string) (name : string) (default : spec_float) : res config_error spec_float :=
  let raw := env_get env name in
  if py_truthy_str raw then fz <$> _parse_env_int name raw else Ok default.

(** Enabled by a present token, or as [KEI_RUNTIME_ENABLED] says. *)
Definition env_enabled (env : dict string) : res config_error bool :=
  let has_token := py_truthy_str (env_get env ENV_TOKEN) in
  if py_truthy_str (env_get env ENV_ENABLED) then
    b ← _parse_env_bool ENV_ENABLED (env_get env ENV_ENABLED);
    _ ← reject (b && negb has_token) CODE_TOKEN_MISSING ENV_TOKEN;
    Ok b
  else Ok has_token.

Definition config_from_env (env : dict string) (harness : HarnessEnvelope) : res config_error RuntimeLinkConfig :=
  let get := env_get env in
  interval ← env_seconds env ENV_INTERVAL (cfg_interval default_config);
  beat_timeout ← env_seconds env ENV_TIMEOUT (cfg_beat_timeout default_config);
  restart_min ← env_seconds env ENV_RESTART_MIN (bo_min default_backoff);
  restart_max ← env_seconds env ENV_RESTART_MAX (bo_max default_backoff);
  stable ← env_seconds env ENV_STABLE_SECONDS (bo_stable_reset default_backoff);
  log_count ← (if py_truthy_str (get ENV_LOG_COUNT) then _parse_env_int ENV_LOG_COUNT (get ENV_LOG_COUNT) else Ok 3%Z);
  enabled ← env_enabled env;
  normalize_config
    {| cfg_enabled := enabled;
       cfg_binary := {| bin_path := str_or (get ENV_PROXY_PATH) DEFAULT_BINARY_PATH; bin_sha256 := get ENV_PROXY_SHA |};
       cfg_control_plane_url := get ENV_CONTROL_PLANE_URL;
       cfg_token_env := ENV_TOKEN;
       cfg_interval := interval;
       cfg_beat_timeout := beat_timeout;
       cfg_grace := cfg_grace default_config;
       cfg_restart := {| bo_min := restart_min; bo_max := restart_max; bo_stable_reset := stable |};
       cfg_stop_timeout := cfg_stop_timeout default_config;
       cfg_log_count := log_count;
       cfg_harness := {| h_kind := str_or (h_kind harness) (get ENV_HARNESS_KIND);
                         h_version := str_or (h_version harness) (get ENV_HARNESS_VERSION);
                         h_deployment_env := str_or (h_deployment_env harness) (get ENV_DEPLOYMENT_ENV) |} |}.
End Normalize.

(** ** Backoff *)

Definition next_below_one : spec_float := S754_finite false 9007199254740991 (-53).

(** [floor(r * min(max, min * 2^attempt))], [r] clamped to [0, 1). *)
Definition delay_cap (b : Backoff) (attempt : Z) : res exn Z :=
  let attempt := Z.min (Z.max attempt 0) 30 in
  hi ← ms_of (bo_max b);
  lo ← ms_of (bo_min b);
  Ok (Z.min hi (Z.shiftl lo attempt)).

Definition clamp_r (r : spec_float) : spec_float := f_min (f_max r (S754_zero false)) next_below_one.

Definition delay_ms (b : Backoff) (attempt : Z) (r : spec_float) : res exn Z :=
  cap_ms ← delay_cap b attempt;
  match float_parts (clamp_r r) with
  | Some (m, e) =>
      let '(c, ce) := dyadic_round cap_ms 0 in
      let '(p, pe) := dyadic_round (m * c) (e + ce) in
      Ok (dyadic_floor (p, pe))
  | None => Raise (Exn ValueError "cannot convert float NaN to integer")
  end.

(** [delay_ms(...) / 1000]: the nearest float. *)
Definition delay (b : Backoff) (attempt : Z) (r : spec_float) : res exn spec_float :=
  ms ← delay_ms b attempt r; Ok (float_of_dec (ms <? 0)%Z (Z.abs ms) (-3)).

(** [Backoff.wait]: computing the delay may raise; sleeping it changes nothing. *)
Definition wait (b : Backoff) (attempt : Z) (r : spec_float) : res exn unit :=
  _ ← delay b attempt r; Ok tt.

Example delay_example : map (fun n => delay_ms default_backoff n (float_of_dec false 5 (-1))) [0; 3; 12; -1]%Z
  = [Ok 500; Ok 4000; Ok 150000; Ok 500]%Z.
Proof. vm_compute. reflexivity. Qed.

(** ** The backoff never waits longer than its cap *)

Lemma div_half_even_upper a b : (0 < b)%Z -> (2 * b * div_half_even a b <= 2 * a + b)%Z.
Proof.
  intros Hb. unfold div_half_even. pose proof (Z.div_mod a b ltac:(lia)) as Hd.
  pose proof (Z.mod_pos_bound a b Hb) as Hm. set (q := (a / b)%Z) in *. set (r := (a mod b)%Z) in *.
  destruct (Z.ltb_spec (2 * r) b); [nia|]. destruct (Z.ltb_spec b (2 * r)); [nia|]. destruct (Z.even q); nia.
Qed.

Lemma div_half_even_nonneg a b : (0 <= a)%Z -> (0 < b)%Z -> (0 <= div_half_even a b)%Z.
Proof.
  intros Ha Hb. unfold div_half_even. pose proof (Z.div_pos a b Ha Hb). repeat case_match; lia.
Qed.

(** Rounding moves a positive dyadic up by at most one part in [2^53]. *)
Lemma dyadic_round_upper m e : (0 <= m)%Z ->
  let '(q, e') := dyadic_round m e in
  (0 <= q /\ e <= e' /\ q * 2 ^ (e' - e) * 2 ^ 53 <= m * (2 ^ 53 + 1))%Z.
Proof.
  intros Hm. unfold dyadic_round. set (s := (Z.log2 m + 1 - 53)%Z).
  destruct (Z.leb_spec s 0) as [Hs|Hs].
  - replace (e - e)%Z with 0%Z by lia. split_and!; lia.
  - assert (Hpos : (0 < 2 ^ s)%Z) by (apply Z.pow_pos_nonneg; lia).
    pose proof (div_half_even_upper m (2 ^ s) Hpos) as Hu.
    pose proof (div_half_even_nonneg m (2 ^ s) Hm Hpos) as Hq.
    assert (Hm0 : (0 < m)%Z) by (destruct (Z.eq_dec m 0%Z) as [->|]; [simpl in s; lia | lia]).
    assert (Hl : (2 ^ s * 2 ^ 52 <= m)%Z).
    { rewrite <- Z.pow_add_r by lia. replace (s + 52)%Z with (Z.log2 m) by lia. by apply Z.log2_spec. }
    replace (e + s - e)%Z with s by lia. set (q := div_half_even m (2 ^ s)) in *.
    split_and!; [lia | lia |]. change (2 ^ 53)%Z with (2 * 2 ^ 52)%Z. nia.
Qed.

(** The clamped random factor: a dyadic in [[0, 1 - 2^-53]]. *)
Lemma clamp_r_parts r : r <> S754_nan -> exists m e, float_parts (clamp_r r) = Some (m, e) /\
  (0 <= m /\ m * 2 ^ (e - Z.min e (-53)) <= 9007199254740991 * 2 ^ (-53 - Z.min e (-53)))%Z.
Proof.
  intros Hr. unfold clamp_r, f_min, f_max, f_lt.
  destruct r as [s|s| |s m e]; [| |done|].
  - destruct s; vm_compute; eexists _, _; by split_and!.
  - destruct s; vm_compute; eexists _, _; by split_and!.
  - destruct s.
    + assert (Hc : float_compare (S754_finite true m e) (S754_zero false) = Some Lt).
      { unfold float_compare, float_parts, dyadic_compare. cbn [fst snd]. f_equal. apply Z.compare_lt_iff.
        rewrite Z.mul_0_l. apply Z.mul_neg_pos; [lia|]. apply Z.pow_pos_nonneg; lia. }
      rewrite Hc. vm_compute. eexists _, _. by split_and!.
    + assert (Hc : float_compare (S754_finite false m e) (S754_zero false) = Some Gt).
      { unfold float_compare, float_parts, dyadic_compare. cbn [fst snd]. f_equal. apply Z.compare_gt_iff.
        rewrite Z.mul_0_l. apply Z.mul_pos_pos; [lia|]. apply Z.pow_pos_nonneg; lia. }
      rewrite Hc. unfold next_below_one at 1.
      destruct (float_compare (S754_finite false 9007199254740991 (-53)) (S754_finite false m e)) as [[]|] eqn:Hn.
      all: unfold float_compare, float_parts, dyadic_compare in Hn; cbn [fst snd] in Hn.
      all: try (eexists _, _; split; [done|]).
      * injection Hn as Hn%Z.compare_eq_iff. rewrite Z.min_comm in Hn. split; lia.
      * vm_compute. by split.
      * injection Hn as Hn. apply Z.compare_gt_iff in Hn. rewrite Z.min_comm in Hn. split; lia.
      * done.
Qed.

Lemma dyadic_floor_bound q e c k : (0 <= k)%Z -> (0 <= e + k)%Z -> (0 <= q)%Z ->
  (q * 2 ^ (e + k) < c * 2 ^ k)%Z -> (0 <= dyadic_floor (q, e) < c)%Z.
Proof.
  intros Hk Hek Hq H. unfold dyadic_floor. cbn [fst snd].
  assert (H2k : (0 < 2 ^ k)%Z) by (apply Z.pow_pos_nonneg; lia).
  destruct (Z.leb_spec 0 e) as [He|He].
  - rewrite Z.pow_add_r in H by lia. assert (0 < 2 ^ e)%Z by (apply Z.pow_pos_nonneg; lia). nia.
  - assert (H2e : (0 < 2 ^ (- e))%Z) by (apply Z.pow_pos_nonneg; lia).
    assert (H2ek : (0 < 2 ^ (e + k))%Z) by (apply Z.pow_pos_nonneg; lia).
    replace k with ((- e) + (e + k))%Z in H at 2 by lia. rewrite (Z.pow_add_r 2 (- e)) in H by lia.
    split; [by apply Z.div_pos|]. apply Z.div_lt_upper_bound; nia.
Qed.

(** The restart delay in milliseconds lies in [[0, cap)], where the cap is
    [min(max, min * 2^attempt)]: the floating-point product of a factor below
    one never rounds up to the cap. *)
Lemma delay_ms_below_cap (b : Backoff) (attempt cap : Z) (r : spec_float) :
  r <> S754_nan -> delay_cap b attempt = Ok cap -> (0 < cap < 2 ^ 53)%Z ->
  exists ms, delay_ms b attempt r = Ok ms /\ (0 <= ms < cap)%Z.
Proof.
  intros Hr Hc Hcap. unfold delay_ms. rewrite Hc. cbn [mbind res_bind].
  destruct (clamp_r_parts r Hr) as (m & e & -> & Hm & Hle).
  assert (Hexact : dyadic_round cap 0 = (cap, 0)%Z).
  { unfold dyadic_round. destruct (Z.leb_spec (Z.log2 cap + 1 - 53) 0) as [|Hs]; [done|].
    assert (Z.log2 cap < 53)%Z by (apply Z.log2_lt_pow2; lia). lia. }
  rewrite Hexact, Z.add_0_r.
  pose proof (dyadic_round_upper (m * cap) e ltac:(nia)) as Hu.
  destruct (dyadic_round (m * cap) e) as [q e']. destruct Hu as (Hq & He & Hu).
  eexists. split; [done|]. set (k := (- Z.min e (-53))%Z).
  apply (dyadic_floor_bound q e' cap k); [lia | lia | done |].
  replace (e - Z.min e (-53))%Z with (e + k)%Z in Hle by lia.
  replace (-53 - Z.min e (-53))%Z with (k - 53)%Z in Hle by lia.
  replace (e' + k)%Z with ((e' - e) + (e + k))%Z by lia. rewrite Z.pow_add_r by lia.
  assert (Hk : (2 ^ k = 2 ^ (k - 53) * 2 ^ 53)%Z) by (rewrite <- Z.pow_add_r by lia; f_equal; lia).
  assert (H1 : (0 < 2 ^ (e + k))%Z) by (apply Z.pow_pos_nonneg; lia).
  assert (H2 : (0 < 2 ^ (k - 53))%Z) by (apply Z.pow_pos_nonneg; lia).
  rewrite Hk. revert Hu Hle H1 H2 Hq Hm Hcap. clear.
  generalize (2 ^ (e' - e))%Z (2 ^ (e + k))%Z (2 ^ (k - 53))%Z. intros x y z Hu Hle Hy Hz Hq Hm Hcap.
  change (2 ^ 53)%Z with 9007199254740992%Z in *.
  assert (H3 : (q * x * y * 9007199254740992 <= m * y * (cap * 9007199254740993))%Z) by nia.
  assert (H4 : (m * y * (cap * 9007199254740993) <= 9007199254740991 * z * (cap * 9007199254740993))%Z) by nia.
  assert (H5 : (9007199254740991 * z * (cap * 9007199254740993) < cap * z * (9007199254740992 * 9007199254740992))%Z) by nia.
  nia.
Qed.

Lemma delay_ms_below_cap_witness :
  exists ms, delay_ms default_backoff 40 (S754_infinity false) = Ok ms /\ (0 <= ms < 300000)%Z.
Proof.
  apply (delay_ms_below_cap default_backoff 40 300000 (S754_infinity false)).
  - discriminate.
  - vm_compute. reflexivity.
  - split; reflexivity.
Defined.

(** ** Waiting raises for settings out of range only *)

Definition scaled (k : Z) (a : Z * Z) : Z := (a.1 * 2 ^ (a.2 - k))%Z.
Lemma dyadic_compare_at k a b : (k <= a.2)%Z -> (k <= b.2)%Z -> dyadic_compare a b = (scaled k a ?= scaled k b)%Z.
Proof.
  intros Ha Hb. unfold dyadic_compare, scaled. set (e := Z.min a.2 b.2).
  replace (a.2 - k)%Z with ((a.2 - e) + (e - k))%Z by lia. replace (b.2 - k)%Z with ((b.2 - e) + (e - k))%Z by lia.
  rewrite !Z.pow_add_r, !Z.mul_assoc by lia. apply Zmult_compare_compat_r. apply Z.lt_gt, Z.pow_pos_nonneg; lia.
Qed.

Lemma f_le_cases a b : f_le a b = true <->
  match a, b with
  | S754_nan, _ | _, S754_nan => False
  | S754_infinity true, _ | _, S754_infinity false => True
  | S754_infinity false, _ | _, S754_infinity true => False
  | _, _ => forall x y k, float_parts a = Some x -> float_parts b = Some y -> (k <= x.2)%Z -> (k <= y.2)%Z -> (scaled k x <= scaled k y)%Z
  end.
Proof.
  assert (Hfin : forall x y, float_parts a = Some x -> float_parts b = Some y -> float_compare a b = Some (dyadic_compare x y) ->
    (f_le a b = true <-> forall x y k, float_parts a = Some x -> float_parts b = Some y -> (k <= x.2)%Z -> (k <= y.2)%Z -> (scaled k x <= scaled k y)%Z)).
  { intros x y Hx Hy Hc. unfold f_le. rewrite Hc, Hx, Hy. split.
    - intros H x' y' k [= <-] [= <-] H1 H2. rewrite (dyadic_compare_at k) in H by done. unfold Z.le. by destruct (_ ?= _)%Z.
    - intros H. specialize (H x y (Z.min x.2 y.2) eq_refl eq_refl ltac:(lia) ltac:(lia)).
      rewrite (dyadic_compare_at (Z.min x.2 y.2)) by lia. unfold Z.le in H. by destruct (_ ?= _)%Z. }
  destruct a as [s|[]| |s m e], b as [t|[]| |t n f]; try (unfold f_le; simpl; by split); by eapply Hfin.
Qed.

Lemma f_le_trans a b c : f_le a b = true -> f_le b c = true -> f_le a c = true.
Proof.
  rewrite !f_le_cases.
  destruct a as [s|[]| |s m e], b as [t|[]| |t n f], c as [u|[]| |u o g]; try done; intros H1 H2 x y k Hx Hy Hkx Hky.
  all: match type of H1 with forall x y k, _ -> float_parts ?b = _ -> _ => destruct (float_parts b) as [z|] eqn:Hz; [|done] end.
  all: set (j := Z.min k z.2); specialize (H1 x z j Hx eq_refl ltac:(lia) ltac:(lia)); specialize (H2 z y j eq_refl Hy ltac:(lia) ltac:(lia)).
  all: unfold scaled in *; replace (x.2 - j)%Z with ((x.2 - k) + (k - j))%Z in H1 by lia;
    replace (y.2 - j)%Z with ((y.2 - k) + (k - j))%Z in H2 by lia; rewrite Z.pow_add_r, Z.mul_assoc in H1, H2 by lia.
  all: apply (Z.mul_le_mono_pos_r _ _ (2 ^ (k - j))); [apply Z.pow_pos_nonneg; lia | lia].
Qed.

(** What normalization asks of the restart settings, when they are numbers. *)
Definition backoff_in_range (b : Backoff) : Prop :=
  f_le MIN_RESTART (bo_min b) = true /\ f_le (bo_min b) (bo_max b) = true /\ f_le (bo_max b) MAX_RESTART = true.

Lemma dyadic_round_size m e : (0 < m)%Z -> let '(q, e') := dyadic_round m e in (Z.log2 q + e' <= Z.log2 m + 1 + e)%Z.
Proof.
  intros Hm. unfold dyadic_round. set (s := (Z.log2 m + 1 - 53)%Z). destruct (Z.leb_spec s 0) as [|Hs]; [lia|].
  enough (Z.log2 (div_half_even m (2 ^ s)) <= 53)%Z by lia.
  assert (Hp : (0 < 2 ^ s)%Z) by (apply Z.pow_pos_nonneg; lia).
  assert (Hq : (m / 2 ^ s < 2 ^ 53)%Z).
  { apply Z.div_lt_upper_bound; [done|]. rewrite <- Z.pow_add_r by lia. replace (s + 53)%Z with (Z.succ (Z.log2 m)) by lia. by apply Z.log2_spec. }
  change 53%Z with (Z.log2 (2 ^ 53)) at 1. apply Z.log2_le_mono. unfold div_half_even. repeat case_match; lia.
Qed.

Lemma ms_in_range x : f_le MIN_RESTART x = true -> f_le x MAX_RESTART = true -> is_ok (ms_of x) = true.
Proof.
  rewrite !f_le_cases. unfold MIN_RESTART, MAX_RESTART.
  change (fz 1) with (S754_finite false 4503599627370496 (-52)). change (fz 3600) with (S754_finite false 7916483719987200 (-41)).
  destruct x as [s|[]| |s m e]; try done. intros Hlo Hhi. cbn [ms_of float_parts].
  destruct s; [specialize (Hlo _ _ (Z.min e (-52)) eq_refl eq_refl); unfold scaled in Hlo; cbn [fst snd] in Hlo;
    specialize (Hlo ltac:(lia) ltac:(lia)); exfalso;
    assert (0 < 2 ^ (-52 - Z.min e (-52)))%Z by (apply Z.pow_pos_nonneg; lia);
    assert (0 < 2 ^ (e - Z.min e (-52)))%Z by (apply Z.pow_pos_nonneg; lia); nia|].
  specialize (Hhi _ _ (Z.min e (-41)) eq_refl eq_refl ltac:(cbn; lia) ltac:(cbn; lia)). unfold scaled in Hhi. cbn [fst snd] in Hhi.
  apply Z.log2_le_mono in Hhi. rewrite !Z.log2_mul_pow2 in Hhi by lia.
  change (Z.log2 7916483719987200) with 52%Z in Hhi.
  change (Z.abs (Zpos m)) with (Zpos m). assert (Hm : (0 < Zpos m * 1000)%Z) by lia.
  pose proof (dyadic_round_size (Zpos m * 1000) e Hm) as Hr.
  destruct (dyadic_round (Zpos m * 1000) e) as [q e'].
  assert (Hl : (Z.log2 (Zpos m * 1000) <= Z.log2 (Zpos m) + 10)%Z).
  { transitivity (Z.log2 (Zpos m * 2 ^ 10)); [apply Z.log2_le_mono; lia|]. rewrite Z.log2_mul_pow2 by lia. lia. }
  cbv beta iota zeta. destruct (Z.ltb_spec 1024 (Z.log2 q + 1 + e')) as [H|H]; [lia|]. reflexivity.
Qed.

Lemma wait_in_range b attempt r : backoff_in_range b -> r <> S754_nan -> wait b attempt r = Ok tt.
Proof.
  intros (Hlo & Hle & Hhi) Hr. assert (H1 : is_ok (ms_of (bo_max b)) = true) by (apply ms_in_range; [by eapply f_le_trans | done]).
  assert (H2 : is_ok (ms_of (bo_min b)) = true) by (apply ms_in_range; [done | by eapply f_le_trans]).
  unfold wait, delay, delay_ms, delay_cap. destruct (ms_of (bo_max b)) as [hi|]; [|done]. destruct (ms_of (bo_min b)) as [lo|]; [|done].
  cbn [mbind res_bind]. destruct (clamp_r_parts r Hr) as (m & e & -> & _). destruct (dyadic_round _ 0) as [c ce].
  by destruct (dyadic_round _ _).
Qed.

(** ** What validation guarantees *)

Lemma float_compare_antisym a b : float_compare b a = CompOpp <$> float_compare a b.
Proof.
  assert (Hd : forall p q, dyadic_compare q p = CompOpp (dyadic_compare p q)).
  { intros p q. unfold dyadic_compare. rewrite (Z.min_comm q.2 p.2). apply Z.compare_antisym. }
  destruct a as [s|s| |s m e], b as [t|t| |t n f]; simpl; try done; try (by destruct s); try (by destruct t);
    try (by rewrite Hd). by destruct s, t.
Qed.

Lemma f_le_of_not_lt a b : a <> S754_nan -> b <> S754_nan -> f_lt a b = false -> f_le b a = true.
Proof.
  intros Ha Hb. unfold f_lt, f_le. rewrite (float_compare_antisym a b).
  destruct (float_compare a b) as [[]|] eqn:H; try done.
  destruct a, b; by simplify_eq/=.
Qed.

Lemma clamp_interval_idem x : clamp_interval (clamp_interval x) = clamp_interval x.
Proof.
  unfold clamp_interval at 2 3, f_min, f_max.
  destruct (f_lt x MIN_INTERVAL) eqn:H1; [by vm_compute|].
  destruct (f_lt MAX_INTERVAL x) eqn:H2; [by vm_compute|].
  unfold clamp_interval, f_min, f_max. by rewrite H1, H2.
Qed.

Lemma clamp_interval_bounds x : x <> S754_nan ->
  f_le MIN_INTERVAL (clamp_interval x) = true /\ f_le (clamp_interval x) MAX_INTERVAL = true.
Proof.
  intros Hx. unfold clamp_interval, f_min, f_max.
  destruct (f_lt x MIN_INTERVAL) eqn:H1; [by vm_compute|].
  destruct (f_lt MAX_INTERVAL x) eqn:H2; [by vm_compute|].
  split; apply f_le_of_not_lt; done.
Qed.

Lemma reject_Ok b code field u : reject b code field = Ok u <-> b = false.
Proof. unfold reject. destruct b, u; split; congruence. Qed.

(** The harness may be absent from a disabled link only; an enabled one has
    everything a child needs. *)
Definition config_valid (netloc_ok : string -> bool) (c : RuntimeLinkConfig) : Prop :=
  let h := cfg_harness c in
  (h_kind h = "" \/ h_kind h ∈ _HARNESS_KINDS) /\
  (h_version h = "" \/ _VERSION_RE (h_version h) = true) /\
  (h_deployment_env h = "" \/ _ENV_NAME_RE (h_deployment_env h) = true) /\
  (bin_sha256 (cfg_binary c) = "" \/ _SHA256_RE (bin_sha256 (cfg_binary c)) = true) /\
  (cfg_enabled c = true ->
     h_kind h ∈ _HARNESS_KINDS /\ cfg_token_env c = ENV_TOKEN /\
     control_plane_url_ok netloc_ok (cfg_control_plane_url c) = true /\
     bin_path (cfg_binary c) <> "" /\
     (h_deployment_env h = "prod" -> bin_sha256 (cfg_binary c) <> "")) /\
  f_le (cfg_interval c) (f_double (cfg_beat_timeout c)) = false /\
  f_le (cfg_beat_timeout c) (fz 0) = false /\
  f_le (fz 0) (cfg_grace c) = true /\ f_le (cfg_grace c) MAX_GRACE = true /\
  f_le MIN_STOP_TIMEOUT (cfg_stop_timeout c) = true /\ f_le (cfg_stop_timeout c) MAX_STOP_TIMEOUT = true /\
  (0 <= cfg_log_count c <= MAX_LOG_COUNT)%Z.

Lemma outside_false lo x hi : outside lo x hi = false -> f_le lo x = true /\ f_le x hi = true.
Proof. unfold outside. intros H. by py_bool. Qed.

Lemma unless_empty_false s p : unless_empty s p = false -> s = "" \/ p s = true.
Proof.
  unfold unless_empty. intros [H|H]%andb_false_iff; [left; by apply py_truthy_str_false|].
  right. by apply negb_false_iff.
Qed.

Section NormalizeFacts.
Context (netloc_ok : string -> bool).

Lemma check_harness_Ok c u : check_harness c = Ok u ->
  (h_kind (cfg_harness c) = "" \/ h_kind (cfg_harness c) ∈ _HARNESS_KINDS) /\
  (cfg_enabled c = true -> h_kind (cfg_harness c) ∈ _HARNESS_KINDS) /\
  (h_version (cfg_harness c) = "" \/ _VERSION_RE (h_version (cfg_harness c)) = true) /\
  (h_deployment_env (cfg_harness c) = "" \/ _ENV_NAME_RE (h_deployment_env (cfg_harness c)) = true).
Proof.
  unfold check_harness. intros H. res_inv. rewrite reject_Ok in *. py_bool.
  rename H0 into Hk. rename H1 into He.
  assert (Hin : h_kind (cfg_harness c) = "" \/ h_kind (cfg_harness c) ∈ _HARNESS_KINDS).
  { apply andb_false_iff in Hk as [Hk|Hk]; [left; by apply py_truthy_str_false|].
    right. apply str_in_spec. by apply negb_false_iff. }
  split_and!; [done | | by apply unless_empty_false | by apply unless_empty_false].
  intros Hen. rewrite Hen in He. simpl in He. apply negb_false_iff, py_truthy_str_true in He. by destruct Hin.
Qed.

Lemma check_enabled_Ok c u : check_enabled netloc_ok c = Ok u -> cfg_enabled c = true ->
  cfg_token_env c = ENV_TOKEN /\ control_plane_url_ok netloc_ok (cfg_control_plane_url c) = true /\
  bin_path (cfg_binary c) <> "" /\
  (h_deployment_env (cfg_harness c) = "prod" -> bin_sha256 (cfg_binary c) <> "").
Proof.
  unfold check_enabled. intros H Hen. rewrite Hen in H. res_inv. rewrite reject_Ok in *. py_bool.
  split_and!; [done | done | by apply py_truthy_str_true |].
  intros Hp. rewrite Hp in H. simpl in H. rewrite andb_true_r in H. by apply negb_false_iff, py_truthy_str_true in H.
Qed.

Lemma normalize_facts (c c' : RuntimeLinkConfig) :
  normalize_config netloc_ok c = Ok c' ->
  c' = set_interval (clamp_interval (cfg_interval c)) c /\ config_valid netloc_ok c'.
Proof.
  intros H. unfold normalize_config in H. res_inv. rewrite reject_Ok in *.
  destruct (check_harness_Ok _ _ Hr) as (Hk & Hke & Hv & Hd).
  pose proof (check_enabled_Ok _ _ Hr0) as He. clear Hr Hr0. split; [done|].
  apply orb_false_iff in Hr2 as [Hb0 Hb1]. apply outside_false in Hr3, Hr5, Hr6.
  apply negb_false_iff, andb_true_iff in Hr7. rewrite !Z.leb_le in Hr7.
  unfold config_valid. simpl. destruct Hr3, Hr6, Hr7.
  split_and!; try done; [by apply unless_empty_false |]. intros Hen. destruct (He Hen) as (? & ? & ? & ?). auto.
Qed.

(** A NaN passes the checks of the restart settings; numbers are in range. *)
Lemma normalize_restart (c c' : RuntimeLinkConfig) : normalize_config netloc_ok c = Ok c' ->
  bo_min (cfg_restart c') <> S754_nan -> bo_max (cfg_restart c') <> S754_nan -> backoff_in_range (cfg_restart c').
Proof.
  intros H. unfold normalize_config in H. res_inv. rewrite reject_Ok in *. cbn. intros Hlo Hhi. py_bool.
  split_and!; by apply f_le_of_not_lt.
Qed.

(** What a normalized configuration guarantees: the interval is the clamped
    one (in [15s, 300s] unless it was a NaN), every other field is the one
    given and within its bounds, an enabled link has a harness kind, a token
    variable, an HTTP(S) control plane and a binary (pinned in production), and
    normalizing again changes nothing. *)
Lemma normalize_config_sound (c c' : RuntimeLinkConfig) :
  normalize_config netloc_ok c = Ok c' ->
  c' = set_interval (clamp_interval (cfg_interval c)) c /\
  config_valid netloc_ok c' /\
  (cfg_interval c <> S754_nan ->
     f_le MIN_INTERVAL (cfg_interval c') = true /\ f_le (cfg_interval c') MAX_INTERVAL = true) /\
  normalize_config netloc_ok c' = Ok c'.
Proof.
  intros H. destruct (normalize_facts _ _ H) as [-> Hv]. split; [done|]. split; [done|]. split.
  - intros Hi. by apply clamp_interval_bounds.
  - unfold normalize_config, check_harness, check_enabled in H |- *. simpl.
    rewrite clamp_interval_idem. exact H.
Qed.

(** The errors of the configuration: a code of the closed vocabulary, and the name
    of a field or of an environment variable. *)
Definition config_errors : list config_error :=
  [ConfigError CODE_HARNESS_KIND "harness.kind"; ConfigError CODE_ENVELOPE "harness.version";
   ConfigError CODE_ENVELOPE "harness.deployment_env"; ConfigError CODE_INVALID_VALUE "token";
   ConfigError CODE_CONTROL_PLANE_URL "control_plane_url"; ConfigError CODE_BINARY "binary.path";
   ConfigError CODE_BINARY "binary.sha256"; ConfigError CODE_BEAT_TIMEOUT "beat_timeout";
   ConfigError CODE_OUT_OF_RANGE "grace"; ConfigError CODE_OUT_OF_RANGE "restart";
   ConfigError CODE_OUT_OF_RANGE "restart.stable_reset"; ConfigError CODE_OUT_OF_RANGE "stop_timeout";
   ConfigError CODE_OUT_OF_RANGE "log_count"; ConfigError CODE_TOKEN_MISSING ENV_TOKEN]
  ++ map (ConfigError CODE_INVALID_VALUE)
       [ENV_INTERVAL; ENV_TIMEOUT; ENV_RESTART_MIN; ENV_RESTART_MAX; ENV_STABLE_SECONDS; ENV_LOG_COUNT; ENV_ENABLED].

Definition raises_listed {A} (m : res config_error A) : Prop := forall e, m = Raise e -> e ∈ config_errors.

Lemma listed_ok {A} (a : A) : raises_listed (Ok a).
Proof. done. Qed.
Lemma listed_bind {A B} (m : res config_error A) (f : A -> res config_error B) :
  raises_listed m -> (forall a, raises_listed (f a)) -> raises_listed (m ≫= f).
Proof. intros Hm Hf e. destruct m as [a|e']; [apply Hf | intros [= <-]; by apply Hm]. Qed.
Lemma listed_fmap {A B} (m : res config_error A) (f : A -> B) : raises_listed m -> raises_listed (f <$> m).
Proof. intros Hm e. destruct m; [done | intros [= <-]; by apply Hm]. Qed.
Lemma listed_if {A} (b : bool) (m m' : res config_error A) :
  raises_listed m -> raises_listed m' -> raises_listed (if b then m else m').
Proof. by destruct b. Qed.
Lemma listed_raise {A} code field : ConfigError code field ∈ config_errors -> raises_listed (@Raise _ A (ConfigError code field)).
Proof. by intros H e [= <-]. Qed.
Lemma listed_reject b code field : ConfigError code field ∈ config_errors -> raises_listed (reject b code field).
Proof. intros H. apply listed_if; [by apply listed_raise | apply listed_ok]. Qed.

Ltac listed :=
  repeat lazymatch goal with
  | |- raises_listed (_ ≫= _) => apply listed_bind; [|intros ?]
  | |- raises_listed (_ <$> _) => apply listed_fmap
  | |- raises_listed (Ok _) => apply listed_ok
  | |- raises_listed (if _ then _ else _) => apply listed_if
  | |- raises_listed (reject _ _ _) => apply listed_reject; set_solver
  | |- raises_listed (Raise _) => apply listed_raise; set_solver
  | |- raises_listed (let _ := _ in _) => cbv zeta
  end.

Lemma normalize_listed c : raises_listed (normalize_config netloc_ok c).
Proof. unfold normalize_config, check_harness, check_enabled. listed. Qed.

(** No error of the configuration carries what was configured: whatever the
    environment holds, it is one of 21 fixed pairs of a code of the closed
    vocabulary and a name. *)
Lemma config_errors_are_fixed (env : dict string) (h : HarnessEnvelope) (e : config_error) :
  config_from_env netloc_ok env h = Raise e ->
  e ∈ config_errors /\ ce_code e ∈ CONFIG_ERROR_CODES /\ length config_errors = 21%nat.
Proof.
  intros H. enough (He : e ∈ config_errors).
  { split_and!; [done | | done]. clear H. revert e He. apply Forall_forall. repeat (constructor; [set_solver|]). constructor. }
  revert e H. change (raises_listed (config_from_env netloc_ok env h)).
  unfold config_from_env, env_seconds, env_enabled, _parse_env_int, _parse_env_bool.
  listed. apply normalize_listed.
Qed.

Lemma env_enabled_spec env en : env_enabled env = Ok en ->
  (en = true <-> env_get env ENV_TOKEN <> "" /\
     (env_get env ENV_ENABLED = "" \/ py_lower (env_get env ENV_ENABLED) ∈ ["true"; "1"])).
Proof.
  unfold env_enabled. rewrite <- py_truthy_str_true, <- py_truthy_str_false, <- str_in_spec.
  destruct (py_truthy_str (env_get env ENV_ENABLED)) eqn:Ht; intros H.
  - res_inv. rewrite reject_Ok in *. unfold _parse_env_bool in Hr.
    destruct (str_in _ ["true"; "1"]).
    + injection Hr as <-. simpl in Hr0. apply negb_false_iff in Hr0. rewrite Hr0. tauto.
    + destruct (str_in _ _); [|done]. injection Hr as <-. split; [done | intros [_ [?|?]]; done].
  - injection H as <-. split; [intros ->; auto | by intros [? _]].
Qed.

(** The link is enabled exactly when a runtime token is present and
    [KEI_RUNTIME_ENABLED] is unset or says so; asking for it without a token is
    an error. *)
Lemma config_from_env_enabled (env : dict string) (h : HarnessEnvelope) (c : RuntimeLinkConfig) :
  config_from_env netloc_ok env h = Ok c ->
  (cfg_enabled c = true <->
     env_get env ENV_TOKEN <> "" /\
     (env_get env ENV_ENABLED = "" \/ py_lower (env_get env ENV_ENABLED) ∈ ["true"; "1"])) /\
  config_valid netloc_ok c.
Proof.
  unfold config_from_env. intros H. res_inv.
  destruct (normalize_facts _ _ H) as (-> & Hv). split; [|exact Hv].
  match goal with He : env_enabled env = Ok _ |- _ => exact (env_enabled_spec _ _ He) end.
Qed.
End NormalizeFacts.

Definition ex_link_env : dict string :=
  [(ENV_TOKEN, " tok "); (ENV_CONTROL_PLANE_URL, "https://plane"); (ENV_HARNESS_KIND, "cli"); (ENV_INTERVAL, "5")].
Definition no_harness : HarnessEnvelope := {| h_kind := ""; h_version := ""; h_deployment_env := "" |}.
Definition ex_link_config : RuntimeLinkConfig :=
  match config_from_env (fun _ => true) ex_link_env no_harness with
  | Ok c => c
  | Raise _ => default_config
  end.

Example short_interval_is_rejected :
  config_from_env (fun _ => true) ex_link_env no_harness = Raise (ConfigError "beat_timeout" "beat_timeout").
Proof. vm_compute. reflexivity. Qed.

Definition ex_link_env2 : dict string := dset ex_link_env ENV_INTERVAL "900".
Lemma config_from_env_enabled_witness :
  exists c, config_from_env (fun _ => true) ex_link_env2 no_harness = Ok c /\
    cfg_interval c = MAX_INTERVAL /\ cfg_enabled c = true.
Proof.
  destruct (config_from_env (fun _ => true) ex_link_env2 no_harness) as [c|e] eqn:H; [|discriminate H].
  exists c. split; [reflexivity|]. split; [vm_compute in H; injection H as <-; vm_compute; reflexivity|].
  apply (proj1 (config_from_env_enabled (fun _ => true) ex_link_env2 no_harness c H)).
  split; [vm_compute; discriminate | left; reflexivity].
Defined.

Lemma normalize_config_sound_witness :
  exists c', normalize_config (fun _ => true) default_config = Ok c' /\
    normalize_config (fun _ => true) c' = Ok c'.
Proof.
  destruct (normalize_config (fun _ => true) default_config) as [c'|e] eqn:H; [|discriminate H].
  exists c'. split; [reflexivity|]. apply (normalize_config_sound (fun _ => true) default_config c' H).
Defined.

Lemma config_errors_are_fixed_witness :
  config_from_env (fun _ => true) (dset ex_link_env ENV_LOG_COUNT "secret") no_harness = Raise (ConfigError CODE_INVALID_VALUE ENV_LOG_COUNT) /\
  ConfigError CODE_INVALID_VALUE ENV_LOG_COUNT ∈ config_errors.
Proof.
  split; [vm_compute; reflexivity|].
  apply (config_errors_are_fixed (fun _ => true) (dset ex_link_env ENV_LOG_COUNT "secret") no_harness).
  vm_compute. reflexivity.
Defined.
