(* ===== verification/FixtureDaemon.v ===== *)
(** * The daemon of the repository's fixtures, behind the client

    [fixtures/kei/fake-kei-proxy-socket.py], the daemon that local development
    and the tests run against, and [examples/python/minimal-harness/main.py],
    which asks it for two decisions.  The daemon is a concrete instance of the
    parameter [http] of [RuntimeSocket.v]: the theorem at the end is about the
    evaluator, the socket client and this daemon together.

    A request arrives as [RuntimeSocket.v] sends it, with its body decoded; a
    body that is not an object is taken as the empty one, as in [_body].  The
    audit file is the list of its lines. *)
From Stdlib Require Import ZArith Lia Ascii String SpecFloat.
From stdpp Require Import base tactics list strings gmap.
From S2P Require Import Prelude PyStr PyFloat Json JsonFacts PyBytes Types Middleware KeiEvaluator RuntimeSocket LinkConfig.

Definition SESSION_ID := "fake-session".
Definition AUTHORIZE_SCHEMA := "kei.authorize-response/v1".
(** [^[a-z][a-z0-9_]{0,63}$] under [match]. *)
Definition SOURCE_RE (s : string) : bool :=
  class_match (fun a => is_lower a || is_digit a || Ascii.eqb a "_") 1 64 s &&
  match s with String a _ => is_lower a | EmptyString => false end.

(** [_SESSIONS] and the audit file. *)
Record Daemon := { _SESSIONS : dict (string * string); audit_file : list string }.
Definition new_daemon : Daemon := {| _SESSIONS := []; audit_file := [] |}.

Definition _body (rq : http_request) : jdict :=
  match rq_body rq with Some (JObj d) => d | _ => [] end.

Definition _send (status : Z) (body : option json) : http_response :=
  {| status_code := status; content := match body with None => "" | Some b => json_dumps default_style b end |}.

Definition error_body (code message : string) : json :=
  JObj [("error", JObj [("code", JStr code); ("message", JStr message); ("type", JStr "runtime_error")])].
Definition _error (status : Z) (code : string) : http_response := _send status (Some (error_body code code)).

(** The header is [Bearer] and the token. *)
Definition _authed (rq : http_request) : bool := py_truthy_str (py_strip (rq_bearer rq)).

Definition audit_record (d : Daemon) (tool decision reason_code session : string) : json :=
  let who := dget_or (_SESSIONS d) session ("", "") in
  JObj [("tool", JStr tool); ("decision", JStr decision); ("reason_code", JStr reason_code); ("session", JStr session);
        ("harness", JStr (fst who)); ("invoking_user", JStr (snd who))].
Definition _audit (tool decision reason_code session : string) (d : Daemon) : Daemon :=
  {| _SESSIONS := _SESSIONS d;
     audit_file := audit_file d ++ [json_dumps default_style (audit_record d tool decision reason_code session)] |}.

(** ** The routes *)

Definition put_session (body : jdict) (d : Daemon) : http_response * Daemon :=
  let external_id := py_str (jget_or body "external_id" (JStr "")) in
  (_send 201 (Some (JObj [("schema", JStr "kei.session/v2"); ("session_id", JStr SESSION_ID);
                          ("user_id", JStr (String.append "u-" external_id)); ("status", JStr "linked")])),
   {| _SESSIONS := dset (_SESSIONS d) SESSION_ID (py_str (jget_or body "source" (JStr "")), external_id);
      audit_file := audit_file d |}).

(** The first tool of a manifest that is refused. *)
Fixpoint invalid_tool (idx : Z) (tools : list json) : option string :=
  let refused what := Some (str_join ["invalid tool manifest: tools["; int_str idx; "]: "; what]) in
  match tools with
  | [] => None
  | JObj tool :: tools' =>
      match jget_or tool "source" (JStr "") with
      | JStr src => if SOURCE_RE src then invalid_tool (idx + 1) tools' else refused "invalid source"
      | _ => refused "invalid source"
      end
  | _ :: _ => refused "not an object"
  end.
Definition register (body : jdict) : http_response :=
  match jget body "tools" with
  | JArr tools =>
      if json_is_str (jget body "schema") "kei.tool-manifest/v3" then
        match invalid_tool 0 tools with
        | Some message => _send 400 (Some (error_body "invalid_manifest" message))
        | None => _send 200 (Some (JObj [("registered", JInt (Z.of_nat (length tools)))]))
        end
      else _error 400 "invalid_tool_manifest"
  | _ => _error 400 "invalid_tool_manifest"
  end.

Definition denial (reason_code reason hint : string) (enrollment : jdict) : jdict :=
  [("schema", JStr AUTHORIZE_SCHEMA); ("decision", JStr "deny"); ("reason_code", JStr reason_code); ("reason", JStr reason);
   ("hint", JStr hint)] ++ enrollment ++ [("bundle_state", JStr "fresh")].

(** The canned decision of a tool, with the decision and the code it is audited
    with. *)
Definition canned (tool : string) : jdict * string * string :=
  if String.eqb tool "echo" then
    ([("schema", JStr AUTHORIZE_SCHEMA); ("decision", JStr "permit"); ("policy_id", JStr "fake-allow-echo");
      ("bundle_state", JStr "fresh")], "permit", "")
  else if String.eqb tool "delete_everything" then
    (denial "no_matching_policy" "no policy permits this tool" "Add a policy for this tool: kei policies create" [],
     "deny", "no_matching_policy")
  else if String.eqb tool "subject_unlinked_tool" then
    (denial "subject_unlinked" "the subject is not linked to this installation"
       "Link this identity to the installation: open the enrollment link when the response carries one, or link the user on the console Users page."
       [("enrollment", JObj [("claim_url", JStr "https://kei.example.test/claim/1")])], "deny", "subject_unlinked")
  else if String.eqb tool "preflight_required_tool" then
    (denial "preflight_required" "no registered tool by this name"
       "Register the tool so the active policy bundle lists it (POST /v1/tools:register on the runtime socket, or kei harness sync --harness custom --manifest tools.json), then wait for the next bundle refresh."
       [], "deny", "preflight_required")
  else
    (denial "tool_not_registered" "no registered tool by this name"
       "Register the harness tools: kei harness sync --harness custom --manifest tools.json" [], "deny", "tool_not_registered").

Definition decide_tool (rq : http_request) (body : jdict) (d : Daemon) : http_response * Daemon :=
  let tool := py_str (jget_or body "tool" (JStr "")) in
  let '(answer, decision, reason_code) := canned tool in
  (_send 200 (Some (JObj answer)), _audit tool decision reason_code (default "" (rq_session rq)) d).

Definition _route (rq : http_request) (d : Daemon) : http_response * Daemon :=
  let body := _body rq in
  let route m p := String.eqb (rq_method rq) m && String.eqb (rq_path rq) p in
  if negb (_authed rq) then (_error 401 "invalid_runtime_token", d)
  else if route "PUT" "/v1/session" then put_session body d
  else if route "DELETE" "/v1/session" then (_send 204 None, d)
  else if route "POST" "/v1/tools:register" then (register body, d)
  else if route "POST" "/v1/authorize" then decide_tool rq body d
  else (_error 404 "not_found", d).

Definition http (rq : http_request) (d : Daemon) : res http_exn http_response * Daemon :=
  let '(response, d') := _route rq d in (Ok response, d').

(** ** The minimal harness *)

Module S := KeiProxySocketAuthorizeClient.
Module A := KeiProxySocketAuthorizationClient.

Section Harness.
Context (environ : Daemon -> dict string).
(** No other task of the harness uses the client. *)
Definition nobody (_ : Daemon) (p : cache * list exchange) : cache * list exchange := p.

Definition printing (A : Type) : Type := eff (S.t Daemon * list string) sock_error A.
Definition socket_call {A} (m : eff (S.t Daemon) sock_error A) : printing A := eff_zoom fst (fun c w => (c, snd w)) m.

(** [str(answer.get(key, ""))] inside an f-string. *)
Definition shown (answer : jdict) (key : string) : string := py_str (jget_or answer key (JStr "")).
Definition decision_line (tool : string) (answer : jdict) : string :=
  if json_is_str (jget answer "decision") "permit" || json_is_str (jget answer "decision") "allow"
  then str_join ["ALLOW tool="; tool; " policy_id="; shown answer "policy_id"]
  else str_join ["DENY tool="; tool; " reason_code="; shown answer "reason_code"; " hint="; shown answer "hint"].
Definition _print_decision (tool : string) (answer : jdict) : printing unit :=
  eff_modify (fun w => (fst w, snd w ++ [decision_line tool answer])).

(** [try: body finally: last]. *)
Definition finally {A} (body : printing A) (last : printing unit) : printing A := fun w =>
  let '(r, w1) := body w in
  match last w1 with
  | (Ok _, w2) => (r, w2)
  | (Raise e, w2) => (Raise e, w2)
  end.

Definition IDENTITY : Identity := {| i_source := "my-harness"; i_external_id := "local" |}.
Definition tool_only (tool : string) : AuthorizeArgs := Build_AuthorizeArgs tool "" "" "" "" 0 "" "" "" "".
Definition ask_and_print (session : Session) (tool : string) : printing unit :=
  answer ← socket_call (S.authorize json_loads environ http nobody session (tool_only tool));
  _print_decision tool answer.

Definition _run_demo : printing unit :=
  session ← socket_call (S.open_session json_loads environ http nobody IDENTITY);
  finally (_ ← ask_and_print session "echo"; ask_and_print session "delete_everything")
          (socket_call (S.close_session json_loads environ http nobody session)).
End Harness.

(** ** The evaluator over the client over the daemon *)

Section Composed.
Context (environ : Daemon -> dict string) (sha256_hex : string -> string).

#[local] Instance fixture_client : AuthorizationClient (A.t Daemon) := A.socket_client json_loads environ http nobody.

Record ToolCall := { tc_tool : string; tc_args : jdict; tc_caller : CallerContext }.
Definition evaluate (c : ToolCall) : eff (KeiProxyEvaluator.t (A.t Daemon)) exn Decision :=
  KeiProxyEvaluator.evaluate sha256_hex (tc_tool c) (tc_args c) (tc_caller c).
Fixpoint evaluate_all (calls : list ToolCall) : eff (KeiProxyEvaluator.t (A.t Daemon)) exn (list Decision) :=
  match calls with
  | [] => mret []
  | c :: calls' => d ← evaluate c; ds ← evaluate_all calls'; mret (d :: ds)
  end.

(** *** What the daemon's files say afterwards, without any of this *)

(** The users with a session, who opened one last, and for each call the tool
    and who it is put down to. *)
Record Ledger := { l_users : list string; l_last : string; l_calls : list (string * string) }.
Definition ledger_call (L : Ledger) (uid tool : string) : Ledger :=
  let last := if str_in uid (l_users L) then l_last L else uid in
  {| l_users := uid :: l_users L; l_last := last; l_calls := l_calls L ++ [(tool, last)] |}.
Definition user_of (c : ToolCall) : string := str_or (cc_invoking_subject (tc_caller c)) (cc_user_id (tc_caller c)).
Definition ledger (calls : list ToolCall) : Ledger :=
  foldl (fun L c => ledger_call L (user_of c) (tc_tool c)) {| l_users := []; l_last := ""; l_calls := [] |} calls.

(** What is decided about a tool, and why: only [echo] is permitted. *)
Definition verdict (tool : string) : string * string :=
  if String.eqb tool "echo" then ("permit", "")
  else ("deny", if String.eqb tool "delete_everything" then "no_matching_policy"
                else if String.eqb tool "subject_unlinked_tool" then "subject_unlinked"
                else if String.eqb tool "preflight_required_tool" then "preflight_required"
                else "tool_not_registered").
(** The line of the audit file for a tool asked for by a user. *)
Definition ledger_line (source : string) (entry : string * string) : string :=
  json_dumps default_style (JObj [("tool", JStr entry.1); ("decision", JStr (verdict entry.1).1);
    ("reason_code", JStr (verdict entry.1).2); ("session", JStr "fake-session"); ("harness", JStr source);
    ("invoking_user", JStr entry.2)]).

Lemma canned_verdict tool : (canned tool).1.2 = (verdict tool).1 /\ (canned tool).2 = (verdict tool).2.
Proof. unfold canned, verdict. by repeat destruct (String.eqb tool _). Qed.

(** A user the client opens a session for, whose name the daemon reads back. *)
Definition user_ok (uid : string) : Prop := blank uid = false /\ utf8_ok uid = true.

Lemma blank_truthy s : blank s = false -> py_truthy_str s = true.
Proof. by destruct s. Qed.

(** *** One request *)

Lemma canned_ok tool : json_ok (JObj (canned tool).1.1) = true.
Proof. unfold canned. repeat case_match; vm_compute; reflexivity. Qed.

Lemma answered status v : ((200 <=? status) && (status <? 300))%Z = true -> (status =? 204)%Z = false ->
  json_ok (JObj v) = true -> v <> [] -> _json_object json_loads (_send status (Some (JObj v))) = Ok v.
Proof.
  intros Hs Hn Hv Hne. unfold _json_object, _check_status, status_ok, _send. cbn [status_code content]. rewrite Hs. cbn [guard_or].
  unfold mbind, res_bind. rewrite Hn, loads_dumps by (done || eauto with py). by destruct v.
Qed.

Context (Htoken : forall d, blank (dget_or (environ d) BOOTSTRAP_TOKEN_ENV "") = false).

(** The state of the client after a request. *)
Definition moved (s : S.t Daemon) (m : cache) (d : Daemon) (h : list exchange) : S.t Daemon :=
  {| S.client := S.client s; S._sessions := m; S.world := d; S.history := h |}.

Lemma send_object_ok method path sid body s status v d' :
  _env (S.client s) = None ->
  (forall rq, rq_method rq = method -> rq_path rq = path -> rq_body rq = body ->
     rq_session rq = (if py_truthy_str sid then Some sid else None) -> _authed rq = true ->
     _route rq (S.world s) = (_send status (Some (JObj v)), d')) ->
  ((200 <=? status) && (status <? 300))%Z = true -> (status =? 204)%Z = false -> json_ok (JObj v) = true -> v <> [] ->
  exists h, S.send_object json_loads environ http nobody method path sid body s = (Ok v, moved s (S._sessions s) d' h).
Proof.
  intros He Hrt Hs Hn Hv Hne. unfold S.send_object, S._send, S._client, mbind, eff_bind. rewrite He. cbn [default].
  rewrite (blank_truthy _ (Htoken _)). unfold http. rewrite Hrt; try done; cbn [rq_method rq_path rq_body rq_session].
  - unfold eff_lift. rewrite answered by done. eexists. reflexivity.
  - unfold _authed. cbn [rq_bearer]. specialize (Htoken (S.world s)). unfold blank in Htoken. by apply negb_false_iff in Htoken.
Qed.

(** *** A session, and a decision in it *)

Lemma str_in_cons k x l : str_in k (x :: l) = (k =? x) || str_in k l.
Proof. reflexivity. Qed.

(** The client's cache, the daemon and the ledger agree. *)
Record agrees (src : string) (L : Ledger) (s : S.t Daemon) : Prop := {
  g_env : _env (S.client s) = None;
  g_cache : forall uid, S._sessions s !! (src, uid) =
    if str_in uid (l_users L) then Some {| s_source := src; s_external_id := uid; s_session_id := SESSION_ID |} else None;
  g_daemon : l_users L <> [] -> dget (_SESSIONS (S.world s)) SESSION_ID = Some (src, l_last L);
  g_audit : audit_file (S.world s) = map (ledger_line src) (l_calls L) }.

(** The ledger after a session was asked for. *)
Definition opened (L : Ledger) (uid : string) : Ledger :=
  {| l_users := uid :: l_users L; l_last := if str_in uid (l_users L) then l_last L else uid; l_calls := l_calls L |}.

Lemma open_ok src L uid s : blank src = false -> user_ok uid -> agrees src L s ->
  exists s', S.open_session json_loads environ http nobody {| i_source := src; i_external_id := uid |} s
    = (Ok {| s_source := src; s_external_id := uid; s_session_id := SESSION_ID |}, s') /\ agrees src (opened L uid) s'.
Proof.
  intros Hsrc [Hb Hu] [He Hc Hd Ha]. unfold S.open_session. cbn [i_source i_external_id]. rewrite Hsrc, Hb, Hc.
  destruct (str_in uid (l_users L)) eqn:Hin.
  - eexists. split; [reflexivity|]. unfold opened. rewrite Hin. split; cbn; try done.
    + intros uid'. rewrite Hc, str_in_cons. destruct (String.eqb_spec uid' uid) as [->|Hne]; [by rewrite Hin | done].
    + intros _. apply Hd. by destruct (l_users L).
  - unfold mbind at 1, eff_bind at 1.
    destruct (send_object_ok "PUT" "/v1/session" "" (Some (S.session_request {| i_source := src; i_external_id := uid |})) s 201
      [("schema", JStr "kei.session/v2"); ("session_id", JStr SESSION_ID); ("user_id", JStr (String.append "u-" uid)); ("status", JStr "linked")]
      {| _SESSIONS := dset (_SESSIONS (S.world s)) SESSION_ID (src, uid); audit_file := audit_file (S.world s) |})
      as (h & Hsend); try done.
    { intros rq Hm Hp Hbd _ Hau. unfold _route. rewrite Hau, Hm, Hp. unfold put_session, _body. rewrite Hbd. reflexivity. }
    { cbn [json_ok forallb fst snd]. rewrite bool_decide_eq_true_2 by (repeat constructor; set_solver).
      by rewrite (utf8_ok_app "u-" uid). }
    rewrite Hsend. cbn. eexists. split; [reflexivity|]. unfold opened. rewrite Hin. split; cbn; try done.
    + intros uid'. rewrite str_in_cons. unfold session_key. cbn. destruct (String.eqb_spec uid' uid) as [->|Hne].
      * by rewrite lookup_insert_eq.
      * rewrite lookup_insert_ne by congruence. apply Hc.
    + intros _. by rewrite dget_dset_eq.
Qed.

Lemma filter_keys (p : string * json -> bool) (d : jdict) : dkeys (List.filter p d) `sublist_of` dkeys d.
Proof. induction d as [|kv d IH]; simpl; [done|]. destruct (p kv); simpl; by constructor. Qed.

(** The request of a call without a connector names its tool. *)
Lemma request_built session g : named session = true -> g_connector_id g = "" -> g_capability g = "" ->
  exists request, authorize_request session g = Ok request /\ dget request "tool" = Some (JStr (g_tool g)).
Proof.
  intros Hn Hcon Hcap. unfold authorize_request. rewrite Hn, Hcon, Hcap. eexists. split; [reflexivity|].
  set (fields := _ ++ trace_fields g). assert (Hsub := filter_keys (fun kv => py_truthy kv.2) fields).
  assert (Hok : dict_ok fields) by (refine (bool_decide_unpack (NoDup (dkeys fields)) _); vm_compute; exact I).
  rewrite dget_dmerge by (by eapply sublist_NoDup).
  assert (Hno : dget (truthy_items fields) "tool" = None); [|by rewrite Hno].
  apply dget_None. intros Hin. eapply elem_of_sublist in Hin; [|exact Hsub]. cbn in Hin. set_solver.
Qed.

Lemma canned_shape tool : let answer := (canned tool).1.1 in
  json_is_str (jget answer "schema") AUTHORIZE_RESPONSE_SCHEMA && is_str (jget answer "decision") = true /\
  json_is_str (jget answer "reason_code") SESSION_NOT_FOUND = false.
Proof. unfold canned. by repeat case_match. Qed.

(** A decision is the daemon's canned one, and leaves one line. *)
Lemma decide_ok src L uid g s : blank src = false -> user_ok uid -> agrees src L s -> uid ∈ l_users L ->
  g_connector_id g = "" -> g_capability g = "" ->
  exists s', S.authorize json_loads environ http nobody {| s_source := src; s_external_id := uid; s_session_id := SESSION_ID |} g s
    = (Ok (canned (g_tool g)).1.1, s') /\
    agrees src {| l_users := l_users L; l_last := l_last L; l_calls := l_calls L ++ [(g_tool g, l_last L)] |} s'.
Proof.
  intros Hsrc [Hb Hu] [He Hc Hd Ha] Hin Hcon Hcap. unfold S.authorize. set (session := {| s_source := src |}).
  destruct (request_built session g) as (request & Hreq & Htool); [|done..|].
  { unfold named, session. cbn [s_source s_external_id s_session_id]. by rewrite (blank_truthy src), (blank_truthy uid). }
  unfold mbind, eff_bind, eff_lift. rewrite Hreq. cbn [S.decide Nat.eqb andb].
  destruct (send_object_ok "POST" "/v1/authorize" SESSION_ID (Some (JObj request)) s 200 (canned (g_tool g)).1.1
    (_audit (g_tool g) (canned (g_tool g)).1.2 (canned (g_tool g)).2 SESSION_ID (S.world s))) as (h & Hsend); try done.
  { intros rq Hm Hp Hbd Hse Hau. unfold _route. rewrite Hau, Hm, Hp. cbn. unfold decide_tool, _body. rewrite Hbd, Hse.
    unfold jget_or. rewrite Htool. cbn. by destruct (canned (g_tool g)) as [[? ?] ?]. }
  { apply canned_ok. }
  { unfold canned. by repeat case_match. }
  cbn [rt_path authorize_route]. unfold session. cbn [s_session_id]. rewrite Hsend.
  destruct (canned_shape (g_tool g)) as [Hshape Hfound]. cbn [rt_schema authorize_route]. rewrite Hshape, Hfound. cbn [negb].
  eexists. split; [reflexivity|]. split; cbn; try done.
  rewrite Ha, map_app. f_equal. cbn. unfold ledger_line, audit_record, dget_or. cbn.
  destruct (canned_verdict (g_tool g)) as [-> ->].
  by rewrite Hd by (by intros Hnil; rewrite Hnil in Hin; set_solver).
Qed.

(** *** The evaluator *)

(** What the evaluator decides about a tool. *)
Definition decided (tool : string) (d : Decision) : Prop :=
  d_action d = (if String.eqb tool "echo" then ALLOW else DENY) /\
  d_reason_code d = (if String.eqb tool "echo" then None else Some (verdict tool).2).

Lemma canned_decided (e : KeiProxyEvaluator.t (A.t Daemon)) tool :
  exists resp, from_result (RJson (JObj (canned tool).1.1)) = Ok resp /\ decided tool (KeiProxyEvaluator.translate e resp).
Proof.
  eexists. split; [reflexivity|]. unfold decided, canned, verdict.
  repeat destruct (String.eqb tool _); split; vm_compute; reflexivity.
Qed.

Lemma evaluate_ok src L c e : blank src = false -> user_ok (user_of c) -> A._source (KeiProxyEvaluator._client e) = src ->
  agrees src L (A.socket (KeiProxyEvaluator._client e)) ->
  exists d e', evaluate c e = (Ok d, e') /\ decided (tc_tool c) d /\ A._source (KeiProxyEvaluator._client e') = src /\
    agrees src (ledger_call L (user_of c) (tc_tool c)) (A.socket (KeiProxyEvaluator._client e')).
Proof.
  intros Hsrc Huser Hs Hag. unfold evaluate, KeiProxyEvaluator.evaluate, KeiProxyEvaluator._authorize. cbn zeta.
  set (q := KeiProxyEvaluator.request e _ _ _). set (ctx := KeiProxyEvaluator.audit_context _ _ _ _ _).
  cbn [sig_binds fixture_client A.socket_client KeiEvaluator.authorize default].
  unfold A.authorize_call, A.authorize, A.in_session. change (q_user_id q) with (user_of c).
  rewrite (blank_truthy (user_of c)) by apply Huser. cbn [negb]. unfold A._run_blocking, eff_zoom. rewrite Hs.
  destruct (open_ok src L (user_of c) (A.socket (KeiProxyEvaluator._client e))) as (s1 & H1 & Hag1); [done..|].
  unfold mbind at 1, eff_bind at 1. rewrite H1.
  destruct (decide_ok src (opened L (user_of c)) (user_of c) (A.args_of q (default KeiProxyAuthorizeClient.default_context (Some ctx))) s1)
    as (s2 & H2 & Hag2); [done | done | done | by left | done | done |].
  rewrite H2. destruct (canned_decided (KeiProxyEvaluator.set_client {| A._source := src; A.socket := s2 |} e) (tc_tool c))
    as (resp & Hr & Hd).
  eexists _, _. split; [reflexivity|]. change (g_tool (A.args_of q _)) with (tc_tool c). rewrite Hr.
  split; [exact Hd|]. split; [done|]. exact Hag2.
Qed.

Lemma evaluate_all_ok src calls L e : blank src = false -> Forall (fun c => user_ok (user_of c)) calls ->
  A._source (KeiProxyEvaluator._client e) = src -> agrees src L (A.socket (KeiProxyEvaluator._client e)) ->
  exists ds e', evaluate_all calls e = (Ok ds, e') /\ Forall2 (fun c d => decided (tc_tool c) d) calls ds /\
    agrees src (foldl (fun L c => ledger_call L (user_of c) (tc_tool c)) L calls) (A.socket (KeiProxyEvaluator._client e')).
Proof.
  intros Hsrc. revert L e. induction calls as [|c calls IH]; intros L e Hu Hs Hag; [by exists [], e|].
  apply Forall_cons in Hu as [Hc Hu]. destruct (evaluate_ok src L c e) as (d & e1 & H1 & Hd & Hs1 & Hag1); [done..|].
  destruct (IH _ e1 Hu Hs1 Hag1) as (ds & e2 & H2 & Hds & Hag2). exists (d :: ds), e2.
  cbn [evaluate_all]. unfold mbind, eff_bind. rewrite H1, H2. split; [done|]. split; [by constructor | done].
Qed.

(** A client of the fixture daemon that has made no request yet. *)
Definition fresh (src : string) (client : Client) (default_action : string) (now : datetime) : KeiProxyEvaluator.t (A.t Daemon) :=
  {| KeiProxyEvaluator._client := {| A._source := src;
       A.socket := {| S.client := client; S._sessions := ∅; S.world := new_daemon; S.history := [] |} |};
     KeiProxyEvaluator._default_action := default_action; KeiProxyEvaluator.now := now |}.

(** C27: the evaluator, the socket client with its sessions, and the daemon of the
    fixtures, together.  The evaluator is fresh, its source is not blank, its
    client reads the process environment (no mapping was given) and finds a
    token there that is not blank.  Then over any sequence of calls by users
    whose names are not blank and are text of UTF-8, each evaluation answers; it
    allows exactly the tool [echo] and denies every other with the code written
    in [verdict]; and the daemon's audit file has one line per call, in order,
    with the tool, [permit] or [deny], that code, the session and the harness.
    The user of a line is the one who opened a session last, which is not always
    who made the call. *)
Theorem fixture_decides_and_audits (src : string) (client : Client) (default_action : string) (now : datetime)
    (calls : list ToolCall) :
  blank src = false -> _env client = None -> Forall (fun c => user_ok (user_of c)) calls ->
  exists ds e', evaluate_all calls (fresh src client default_action now) = (Ok ds, e') /\
    Forall2 (fun c d => decided (tc_tool c) d) calls ds /\
    audit_file (S.world (A.socket (KeiProxyEvaluator._client e'))) = map (ledger_line src) (l_calls (ledger calls)) /\
    map fst (l_calls (ledger calls)) = map tc_tool calls.
Proof.
  intros Hsrc He Hu.
  destruct (evaluate_all_ok src calls {| l_users := []; l_last := ""; l_calls := [] |} (fresh src client default_action now))
    as (ds & e' & Hrun & Hds & [_ _ _ Ha]); [done | done | done | by split|].
  exists ds, e'. split; [done|]. split; [done|]. split; [exact Ha|]. unfold ledger.
  enough (H : forall L, map fst (l_calls (foldl (fun L c => ledger_call L (user_of c) (tc_tool c)) L calls))
                = map fst (l_calls L) ++ map tc_tool calls) by apply H.
  clear. induction calls as [|c calls IH]; intros L; simpl; [by rewrite app_nil_r|].
  rewrite IH. simpl. by rewrite map_app, <- (assoc_L (++)).
Qed.
End Composed.

(** ** Witnesses *)

Module Example.
Definition token_env (_ : Daemon) : dict string := [(BOOTSTRAP_TOKEN_ENV, "kei_rt_fake-local-token")].
Definition ex_client : Client := init [] None DEFAULT_SOCKET_TIMEOUT DEFAULT_MODEL_TIMEOUT None.
Definition ex_socket : S.t Daemon :=
  {| S.client := ex_client; S._sessions := ∅; S.world := new_daemon; S.history := [] |}.

(** The demonstration of the minimal harness: one allowed call, one denied, and
    a session that is closed. *)
Example demo_prints :
  let '(r, (c, printed)) := _run_demo token_env (ex_socket, []) in
  r = Ok tt /\ size (S._sessions c) = 0 /\ length (audit_file (S.world c)) = 2 /\
  printed = ["ALLOW tool=echo policy_id=fake-allow-echo";
             "DENY tool=delete_everything reason_code=no_matching_policy hint=Add a policy for this tool: kei policies create"].
Proof. vm_compute. done. Qed.

Definition call_by (user tool : string) : ToolCall :=
  {| tc_tool := tool; tc_args := [];
     tc_caller := {| cc_user_id := user; cc_session_id := ""; cc_role := ""; cc_source := ""; cc_trusted := false;
       cc_metadata := []; cc_invoking_subject := ""; cc_parent_span := ""; cc_delegation_depth := 0;
       cc_span_id := ""; cc_agent_version := ""; cc_framework := ""; cc_workspace_id := "" |} |}.
Definition ex_calls : list ToolCall := [call_by "ana" "echo"; call_by "bo" "delete_everything"; call_by "ana" "rm"].

(** The daemon gives every session the same identifier: the third call is ana's
    and is put down to bo. *)
Lemma fixture_decides_and_audits_witness :
  exists ds e', evaluate_all token_env (fun x => x) ex_calls (fresh "my-harness" ex_client "execute" (DT 0 None)) = (Ok ds, e') /\
    map d_action ds = [ALLOW; DENY; DENY] /\
    audit_file (S.world (A.socket (KeiProxyEvaluator._client e')))
      = map (ledger_line "my-harness") [("echo", "ana"); ("delete_everything", "bo"); ("rm", "bo")].
Proof.
  destruct (fixture_decides_and_audits token_env (fun x => x) (fun _ => eq_refl) "my-harness" ex_client "execute" (DT 0 None) ex_calls)
    as (ds & e' & Hrun & Hds & Ha & _).
  - reflexivity.
  - reflexivity.
  - repeat constructor.
  - exists ds, e'. split; [exact Hrun|]. split; [|exact Ha].
    apply Forall2_cons_inv_l in Hds as (d1 & ds1 & [H1 _] & Hds & ->).
    apply Forall2_cons_inv_l in Hds as (d2 & ds2 & [H2 _] & Hds & ->).
    apply Forall2_cons_inv_l in Hds as (d3 & ds3 & [H3 _] & Hds & ->).
    apply Forall2_nil_inv_l in Hds as ->. simpl. rewrite H1, H2, H3. reflexivity.
Defined.

Example manifests_checked :
  map (fun d => content (register d))
    [[("schema", JStr "kei.tool-manifest/v3"); ("tools", JArr [JObj [("source", JStr "github")]])];
     [("schema", JStr "kei.tool-manifest/v3"); ("tools", JArr [JObj [("source", JStr "github")]; JObj [("source", JStr "Git")]])];
     [("tools", JArr [])]]
  = map (json_dumps default_style)
      [JObj [("registered", JInt 1)]; error_body "invalid_manifest" "invalid tool manifest: tools[1]: invalid source";
       error_body "invalid_tool_manifest" "invalid_tool_manifest"].
Proof. vm_compute. reflexivity. Qed.
End Example.
