(* ===== verification/MinimalHarness.v ===== *)
(** * The minimal harness, from its arguments to its exit code

    [_start_fake] and [main] of [examples/python/minimal-harness/main.py]; the
    decisions it asks for are [FixtureDaemon._run_demo].

    Parameters: the parsed arguments, the names [mkdtemp] gives, what each round
    of the wait for the socket sees, whether the daemon ends in five seconds, what
    removing the directory raises, and the run of the demo in an environment. *)
From Stdlib Require Import ZArith Lia Ascii String.
From stdpp Require Import base tactics list strings.
From S2P Require Import Prelude PyStr Types.

(** What is done to files and processes. *)
Inductive event := MakeDir (path : string) | Spawn (argv : list string) | Terminate | Wait (seconds : Z) | Kill | Unlink (path : string) | Rmdir (path : string).

Record World := { environ : dict string; events : list event; stderr_lines : list string }.
Definition happen (es : list event) (w : World) : World :=
  {| environ := environ w; events := events w ++ es; stderr_lines := stderr_lines w |}.

(** A round of the wait: whether the deadline has passed, whether the socket is
    there, and whether the daemon has exited. *)
Record look := { late : bool; appeared : bool; exited : bool }.
(** [None]: still waiting after the rounds given. *)
Fixpoint await (looks : list look) : option (res exn unit) :=
  match looks with
  | [] => None
  | l :: looks' =>
      if late l then Some (Raise (Exn TimeoutError "fake daemon socket did not appear"))
      else if appeared l then Some (Ok tt)
      else if exited l then Some (Raise (Exn RuntimeError "fake daemon exited before its socket appeared"))
      else await looks'
  end.

Section Harness.
Context (python fake_daemon : string) (mkdtemp : string -> string) (ends_in_time : bool) (rmdir_error : option exn)
  (demo : dict string -> res exn unit).

Definition joined (d name : string) : string := str_join [d; "/"; name].
Definition _start_fake (audit_path : string) (looks : list look) (w : World) : option (res exn string * World) :=
  let directory := mkdtemp "fakekei-" in
  let socket_path := joined directory "runtime.sock" in
  let w := happen [MakeDir directory; Spawn [python; fake_daemon; socket_path; "--audit"; audit_path]] w in
  r ← await looks;
  Some (_ ← r; Ok socket_path, w).

(** The [finally] of [main], given the directory of the socket. *)
Definition cleanup (socket_dir : string) (w : World) : res exn unit * World :=
  let w := happen ([Terminate; Wait 5] ++ (if ends_in_time then [] else [Kill]) ++ [Unlink (joined socket_dir "runtime.sock"); Rmdir socket_dir]) w in
  (match rmdir_error with Some e => Raise e | None => Ok tt end, w).

Inductive ending := Returned (code : Z) | UsageError (message : string) | Raised (e : exn).
Definition ended (r : res exn unit) : ending := match r with Ok _ => Returned 0 | Raise e => Raised e end.

Record Arguments := { fake : bool; audit : string }.
Definition SOCKET_PATH := "KEI_RUNTIME_SOCKET_PATH".

Definition main (args : Arguments) (looks : list look) (w : World) : option (ending * World) :=
  if fake args then
    let '(audit_path, w) :=
      if py_truthy_str (audit args) then (audit args, w)
      else let directory := mkdtemp "fakekei-audit-" in (joined directory "audit.jsonl", happen [MakeDir directory] w) in
    '(r, w) ← _start_fake audit_path looks w;
    Some match r with
    | Raise e => (Raised e, w)
    | Ok socket_path =>
        let env := dset (environ w) SOCKET_PATH socket_path in
        let env := if dmem env "KEI_RUNTIME_TOKEN" then env else dset env "KEI_RUNTIME_TOKEN" "kei_rt_fake-local-token" in
        let w := {| environ := env; events := events w; stderr_lines := stderr_lines w ++ [String.append "audit=" audit_path] |} in
        let '(last, w) := cleanup (mkdtemp "fakekei-") w in
        (match last with Raise e => Raised e | Ok _ => ended (demo env) end, w)
    end
  else if negb (py_truthy_str (dget_or (environ w) SOCKET_PATH "")) then
    Some (UsageError "KEI_RUNTIME_SOCKET_PATH is not set (run with --fake, or point it at a real kei-proxy)", w)
  else Some (ended (demo (environ w)), w).

(** ** What it leaves behind *)

(** The daemon it starts is ended and its socket removed, whatever the demo does,
    once its socket appeared; one whose socket does not appear, or that exits
    first, is left as it is: nothing terminates it or removes its directory. *)
Lemma fake_daemon_is_ended args looks w r w' : fake args = true -> main args looks w = Some (r, w') ->
  exists before, events w' = events w ++ before ++ match await looks with
    | Some (Ok _) => [Terminate; Wait 5] ++ (if ends_in_time then [] else [Kill]) ++
                     [Unlink (joined (mkdtemp "fakekei-") "runtime.sock"); Rmdir (mkdtemp "fakekei-")]
    | _ => []
    end /\ Forall (fun e => match e with MakeDir _ | Spawn _ => True | _ => False end) before.
Proof.
  intros Hf. unfold main, _start_fake. rewrite Hf. set (start := if py_truthy_str (audit args) then _ else _).
  assert (Hs : exists path made, start = (path, happen made w) /\ Forall (fun e => match e with MakeDir _ | Spawn _ => True | _ => False end) made).
  { unfold start. destruct (py_truthy_str _); [exists (audit args), []|eexists _, _; by repeat constructor].
    split; [|constructor]. unfold happen. rewrite app_nil_r. by destruct w. }
  destruct Hs as (path & made & -> & Hm). set (dir := mkdtemp "fakekei-").
  set (spawned := [MakeDir dir; Spawn [python; fake_daemon; joined dir "runtime.sock"; "--audit"; path]]).
  assert (Hall : Forall (fun e => match e with MakeDir _ | Spawn _ => True | _ => False end) (made ++ spawned))
    by (apply Forall_app; split; [exact Hm | by repeat constructor]).
  destruct (await looks) as [[u|e]|]; cbn -[app]; [| |done]; intros H; exists (made ++ spawned); (split; [|exact Hall]).
  - destruct rmdir_error as [e|]; simplify_eq; cbn -[app]; by rewrite !app_assoc.
  - simplify_eq. cbn -[app]. by rewrite app_nil_r, app_assoc.
Qed.

(** The token of the environment is kept, and without [--fake] nothing is spawned. *)
Lemma without_fake_nothing_runs args looks w r w' : fake args = false -> main args looks w = Some (r, w') -> w' = w /\
  (dget_or (environ w) SOCKET_PATH "" = "" -> exists m, r = UsageError m).
Proof.
  intros Hf. unfold main. rewrite Hf. destruct (py_truthy_str _) eqn:Ht; cbn; intros [= <- <-]; (split; [done|]).
  - intros He. by rewrite He in Ht.
  - eauto.
Qed.
End Harness.

Example slow_daemon_is_left :
  let wait_look := {| late := false; appeared := false; exited := false |} in
  main "python" "fake.py" (fun prefix => String.append prefix "x") true None (fun _ => Ok tt) {| fake := true; audit := "a.jsonl" |}
    [wait_look; {| late := true; appeared := false; exited := false |}] {| environ := []; events := []; stderr_lines := [] |}
  = Some (Raised (Exn TimeoutError "fake daemon socket did not appear"),
          {| environ := []; events := [MakeDir "fakekei-x"; Spawn ["python"; "fake.py"; "fakekei-x/runtime.sock"; "--audit"; "a.jsonl"]]; stderr_lines := [] |}).
Proof. vm_compute. reflexivity. Qed.
Example quick_daemon_is_ended :
  (fun x => (fst x, dget (environ (snd x)) "KEI_RUNTIME_TOKEN", events (snd x))) <$>
  main "python" "fake.py" (fun prefix => String.append prefix "x") false None (fun _ => Raise (Exn RuntimeError "no")) {| fake := true; audit := "" |}
    [{| late := false; appeared := true; exited := false |}] {| environ := [("KEI_RUNTIME_TOKEN", "t")]; events := []; stderr_lines := [] |}
  = Some (Raised (Exn RuntimeError "no"), Some "t",
          [MakeDir "fakekei-audit-x"; MakeDir "fakekei-x"; Spawn ["python"; "fake.py"; "fakekei-x/runtime.sock"; "--audit"; "fakekei-audit-x/audit.jsonl"];
           Terminate; Wait 5; Kill; Unlink "fakekei-x/runtime.sock"; Rmdir "fakekei-x"]).
Proof. vm_compute. reflexivity. Qed.
