(* ===== verification/PyLines.v ===== *)
(** * Lines, stripping and shell patterns

    The parts of [str] and [fnmatch] that the repository's scripts use:
    [splitlines], [strip] of given characters, [lstrip], [count], [find], and
    [fnmatch.fnmatchcase]. *)
From Stdlib Require Import ZArith Lia Ascii String.
From stdpp Require Import base tactics list strings.
From S2P Require Import Prelude PyStr Regex.

(** ** Lines *)

(** The characters that end a line, the pair CR LF aside. *)
Definition line_ends : list string :=
  [nl; cr; chr 11; chr 12; chr 28; chr 29; chr 30; bytes [194; 133]%N; bytes [226; 128; 168]%N; bytes [226; 128; 169]%N].

(** [acc]: the line so far, reversed. *)
Fixpoint lines_of (acc cs : list string) : list string :=
  match cs with
  | [] => match acc with [] => [] | _ => [str_join (reverse acc)] end
  | c :: cs' =>
      if str_in c line_ends then
        str_join (reverse acc) ::
        lines_of [] (match cs' with d :: cs'' => if String.eqb c cr && String.eqb d nl then cs'' else cs' | [] => cs' end)
      else lines_of (c :: acc) cs'
  end.
Definition splitlines (s : string) : list string := lines_of [] (py_chars s).

Example splitlines_ends :
  splitlines (str_join ["a"; cr; nl; "b"; nl; nl; "c"; cr; "d"; nl]) = ["a"; "b"; ""; "c"; "d"] /\ splitlines "" = [].
Proof. vm_compute. done. Qed.

(** [s.strip(chars)], [s.lstrip()]. *)
Definition strip_of (chars s : string) : string := str_join (strip_list (fun c => str_in c (py_chars chars)) (py_chars s)).
Definition py_lstrip (s : string) : string := str_join (drop_while is_space (py_chars s)).

(** [enumerate(l, 1)]. *)
Definition numbered {A} (l : list A) : list (Z * A) := zip (map Z.of_nat (seq 1 (length l))) l.

(** ** Shell patterns *)

Inductive set_item := Single (c : string) | Range (a b : string).
Inductive glob_item := GStar | GAny | GChar (c : string) | GSet (negated : bool) (items : list set_item).

Fixpoint set_items (l : list string) : list set_item :=
  match l with
  | [] => []
  | c :: l' =>
      match l' with
      | h :: d :: l'' => if String.eqb h "-" then Range c d :: set_items l'' else Single c :: set_items l'
      | _ => Single c :: set_items l'
      end
  end.

(** The characters up to a closing bracket, and what is after it. *)
Fixpoint to_bracket (l : list string) : option (list string * list string) :=
  match l with
  | [] => None
  | c :: l' => if String.eqb c "]" then Some ([], l')
               else match to_bracket l' with Some (b, r) => Some (c :: b, r) | None => None end
  end.

(** What is after [\[]: an exclamation mark negates, and a bracket in first place
    is a member. *)
Definition bracket (l : list string) : option (glob_item * list string) :=
  let '(neg, l) := match l with c :: l' => if String.eqb c "!" then (true, l') else (false, l) | [] => (false, l) end in
  match l with
  | c :: l' =>
      if String.eqb c "]"
      then match to_bracket l' with Some (b, r) => Some (GSet neg (set_items (c :: b)), r) | None => None end
      else match to_bracket l with Some (b, r) => Some (GSet neg (set_items b), r) | None => None end
  | [] => None
  end.

Fixpoint glob_items (fuel : nat) (l : list string) : list glob_item :=
  match fuel, l with
  | S fuel', c :: l' =>
      if String.eqb c "*" then GStar :: glob_items fuel' l'
      else if String.eqb c "?" then GAny :: glob_items fuel' l'
      else if String.eqb c "[" then
        match bracket l' with
        | Some (item, r) => item :: glob_items fuel' r
        | None => GChar c :: glob_items fuel' l'
        end
      else GChar c :: glob_items fuel' l'
  | _, _ => []
  end.

Definition in_item (c : string) (i : set_item) : bool :=
  match i with Single d => String.eqb c d | Range a b => String.leb a c && String.leb c b end.
Definition item_matches (i : glob_item) (c : string) : bool :=
  match i with
  | GStar => false
  | GAny => true
  | GChar d => String.eqb c d
  | GSet neg items => xorb neg (existsb (in_item c) items)
  end.

Fixpoint glob_match (items : list glob_item) (s : list string) : bool :=
  match items with
  | [] => match s with [] => true | _ => false end
  | GStar :: items' =>
      (fix star (s : list string) : bool :=
         glob_match items' s || match s with [] => false | _ :: s' => star s' end) s
  | i :: items' => match s with c :: s' => item_matches i c && glob_match items' s' | [] => false end
  end.

Definition fnmatchcase (name pattern : string) : bool :=
  let p := py_chars pattern in glob_match (glob_items (length p) p) (py_chars name).

Example patterns_match :
  map (fun p => fnmatchcase "toolformat/glm-cases.json#parse_calls/single call" p)
    ["toolformat/*#parse_calls/*"; "toolformat/glm-cases.json#parse_calls/single?call"; "*#[!pq]*"; "*#[a-p]arse_calls/*"; "*[]#]parse*"; "*["]
  = [true; true; false; true; true; false].
Proof. vm_compute. reflexivity. Qed.

(** The pieces a pattern cuts a name into. *)
Inductive cut : list glob_item -> list string -> Prop :=
| cut_end : cut [] []
| cut_star items m s : cut items s -> cut (GStar :: items) (m ++ s)
| cut_char i items c s : i <> GStar -> item_matches i c = true -> cut items s -> cut (i :: items) (c :: s).

Lemma glob_match_cut items s : glob_match items s = true <-> cut items s.
Proof.
  revert s. induction items as [|i items IH]; intros s.
  - destruct s; simpl; split; intros H; [constructor | done | done | inversion H].
  - assert (Hcase : i = GStar \/ i <> GStar) by (destruct i; auto). destruct Hcase as [->|Hi].
    + assert (Hstar : glob_match (GStar :: items) s = true <-> exists m s', s = m ++ s' /\ glob_match items s' = true).
      { simpl. induction s as [|c s IHs].
        - rewrite orb_false_r. split; [by exists [], [] | intros (m & s' & Hs & H)].
          symmetry in Hs. by apply app_eq_nil in Hs as [-> ->].
        - rewrite orb_true_iff, IHs. split.
          + intros [H|(m & s' & -> & H)]; [by exists [], (c :: s) | by exists (c :: m), s'].
          + intros ([|c' m] & s' & Hs & H); [left; by rewrite Hs | right]. injection Hs as <- ->. by exists m, s'. }
      rewrite Hstar. split.
      * intros (m & s' & -> & H). constructor. by apply IH.
      * inversion 1 as [|? m s' H'|]; subst; [|done]. exists m, s'. split; [done | by apply IH].
    + assert (Hone : glob_match (i :: items) s = match s with c :: s' => item_matches i c && glob_match items s' | [] => false end)
        by (by destruct i).
      rewrite Hone. destruct s as [|c s]; [split; [done | inversion 1; congruence]|].
      rewrite andb_true_iff, IH. split.
      * intros [Hc Hs]. by constructor.
      * inversion 1; subst; done.
Qed.
