(* ===== verification/JsonLines.v ===== *)
(** * Files of one JSON text per line

    What [json.dumps] prints is visible ASCII, so that a file of such lines is
    read back line by line: [splitlines] gives the lines, [strip] leaves them as
    they are and [loads] gives the values. *)
From Stdlib Require Import ZArith Lia Ascii String SpecFloat.
From stdpp Require Import base tactics list strings.
From S2P Require Import Prelude PyStr PyFloat Json JsonFacts PyBytes PyLines.

Definition visible (a : ascii) : bool := ((32 <=? code a) && (code a <? 127))%N.
Abbreviation visible_text := (str_forall visible).

Lemma visible_app s t : visible_text s = true -> visible_text t = true -> visible_text (String.append s t) = true.
Proof. intros Hs Ht. by rewrite str_forall_app, Hs, Ht. Qed.
Lemma visible_join l : Forall (fun s => visible_text s = true) l -> visible_text (str_join l) = true.
Proof. induction 1; [done|]. cbn [str_join]. by apply visible_app. Qed.
Lemma visible_chars s : visible_text s = true -> Forall (fun c => visible_text c = true) (py_chars s).
Proof.
  remember (py_chars s) as l eqn:Hl. intros Hs. rewrite <- (str_join_chars s), <- Hl in Hs. clear Hl.
  induction l as [|c l IH]; [constructor|]. cbn [str_join] in Hs. rewrite str_forall_app in Hs. apply andb_true_iff in Hs as [? ?]. auto.
Qed.
Lemma visible_take n s : visible_text s = true -> visible_text (py_take n s) = true.
Proof. intros Hs. by apply visible_join, Forall_take, visible_chars. Qed.
Lemma visible_drop n s : visible_text s = true -> visible_text (py_drop n s) = true.
Proof. intros Hs. by apply visible_join, Forall_drop, visible_chars. Qed.

Create HintDb visible.
#[export] Hint Resolve visible_app visible_take visible_drop : visible.
#[export] Hint Extern 1 (_ = true) => reflexivity : visible.

(** ** What is printed *)

Lemma digit_visible a : is_digit a = true -> visible a = true.
Proof. unfold is_digit, visible. rewrite !andb_true_iff, !N.leb_le, N.ltb_lt. lia. Qed.
Lemma digits_visible s : str_forall is_digit s = true -> visible_text s = true.
Proof. induction s as [|a s IH]; [done|]. cbn [str_forall]. intros [Ha Hs]%andb_true_iff. by rewrite (digit_visible a Ha), IH. Qed.
Lemma int_visible z : visible_text (int_str z) = true.
Proof.
  destruct z as [|p|p]; [done|..]; destruct (int_str_pos p) as (a & d & Hp & Ha & _ & Hd & _ & Hn); rewrite ?Hp, ?Hn; cbn [str_forall];
    by rewrite (digit_visible a Ha), (digits_visible d Hd).
Qed.
Lemma zeros_visible n : visible_text (zeros n) = true.
Proof. by induction n. Qed.
#[export] Hint Resolve int_visible zeros_visible : visible.

Lemma layout_visible d e : visible_text (dec_layout d e) = true.
Proof. unfold dec_layout. repeat case_match; auto 10 with visible. Qed.
Lemma float_visible f : visible_text (dumps_float f) = true.
Proof.
  assert (Hf : forall m e, visible_text (float_repr_abs m e) = true).
  { intros m e. unfold float_repr_abs. destruct (if (0 <=? e)%Z then _ else _). destruct (shortest _ _ _ _ _ _) as [[]|]; [apply layout_visible | done]. }
  destruct f as [[]|[]| |[] m e]; try done; cbn [dumps_float float_repr]; auto with visible.
Qed.

Lemma hex_visible n : (n < 16)%N -> visible (hex_digit n) = true.
Proof. intros Hn. by apply (all_below (fun n => visible (hex_digit n)) 16). Qed.
Lemma esc_u_visible n : (n < 65536)%N -> visible_text (esc_u n) = true.
Proof.
  intros Hn. unfold esc_u. cbn [str_forall]. rewrite !hex_visible; [done | by apply N.mod_lt..|]. by apply N.Div0.div_lt_upper_bound.
Qed.
Lemma esc_ascii_visible a : (code a < 128)%N -> visible_text (esc_ascii a) = true.
Proof.
  intros Ha. assert (H : visible_text (esc_ascii (ascii_of_N (code a))) = true) by (by apply (all_below (fun n => visible_text (esc_ascii (ascii_of_N n))) 128)).
  unfold code in H. by rewrite ascii_N_embedding in H.
Qed.
Lemma esc_cp_visible n : cp_ok n = true -> visible_text (esc_cp n) = true.
Proof.
  unfold cp_ok, esc_cp. intros H. destruct (N.ltb_spec n 128).
  - apply (all_below (fun n => visible_text (esc_ascii (ascii_of_N n))) 128); [reflexivity | done].
  - destruct (N.ltb_spec n 65536); [by apply esc_u_visible|].
    assert (Hn : (n < 1114112)%N) by (apply andb_true_iff in H as [[H _]%andb_true_iff _]; by apply N.ltb_lt). apply visible_app; apply esc_u_visible.
    + assert ((n - 65536) / 1024 < 1024)%N by (apply N.Div0.div_lt_upper_bound; lia). lia.
    + assert ((n - 65536) mod 1024 < 1024)%N by (by apply N.mod_lt). lia.
Qed.
Lemma dumps_str_visible s : utf8_ok s = true -> visible_text (dumps_str true s) = true.
Proof.
  intros Hs. unfold dumps_str. cbn [str_forall]. apply visible_app; [|done]. apply visible_join.
  unfold utf8_ok in Hs. rewrite forallb_forall in Hs. apply Forall_forall. intros x (c & -> & Hc)%list_elem_of_fmap.
  apply list_elem_of_In in Hc. apply Hs in Hc. unfold char_ok in Hc. apply andb_true_iff in Hc as [Hc _]. by apply esc_cp_visible.
Qed.

Lemma join_visible sep l : visible_text sep = true -> Forall (fun s => visible_text s = true) l -> visible_text (join_with sep l) = true.
Proof.
  intros Hsep. induction 1 as [|x l Hx Hl IH]; [done|]. destruct l as [|y l]; [done|].
  change (visible_text (String.append x (String.append sep (join_with sep (y :: l)))) = true). by repeat apply visible_app.
Qed.
Lemma bracket_visible lvl o c l : visible o = true -> visible c = true -> Forall (fun s => visible_text s = true) l ->
  visible_text (Json.bracket default_style lvl o c l) = true.
Proof.
  intros Ho Hc Hl. unfold Json.bracket. cbn [str_forall]. rewrite Ho. cbn [break st_indent default_style String.append andb].
  apply visible_app; [by apply join_visible | cbn [str_forall]; by rewrite Hc].
Qed.

(** What [json.dumps] prints by default. *)
Lemma dumps_visible v lvl : json_ok v = true -> visible_text (dumps_at default_style lvl v) = true.
Proof.
  revert lvl. induction v as [|b|z|f|s|l IH|d IH] using json_induction; intros lvl Hv.
  - done.
  - by destruct b.
  - apply int_visible.
  - apply float_visible.
  - by apply dumps_str_visible.
  - destruct l as [|v l]; [done|]. cbn [json_ok] in Hv. rewrite forallb_forall in Hv.
    apply bracket_visible; [done..|]. rewrite (Forall_forall _ (_ :: _)) in IH. apply Forall_forall. intros x (w & -> & Hw)%list_elem_of_fmap.
    apply IH; [done|]. by apply Hv, list_elem_of_In.
  - destruct d as [|kv d]; [done|]. cbn [json_ok] in Hv. apply andb_true_iff in Hv as [_ Hv]. rewrite forallb_forall in Hv.
    apply bracket_visible; [done..|]. rewrite (Forall_forall _ (_ :: _)) in IH. apply Forall_forall. intros x (w & -> & Hw)%list_elem_of_fmap.
    specialize (Hv w (proj1 (list_elem_of_In _ _) Hw)). apply andb_true_iff in Hv as [Hk Hv].
    apply visible_app; [by apply dumps_str_visible|]. apply visible_app; [done|]. by apply IH.
Qed.

(** ** What is read back *)

Lemma visible_single s : visible_text s = true -> py_chars s = map (fun a => String a EmptyString) (list_ascii_of_string s).
Proof.
  intros H. apply py_chars_single. revert H. induction s as [|a s IH]; [done|]. cbn [str_forall]. intros [Ha Hs]%andb_true_iff.
  rewrite IH by done. rewrite andb_true_r. revert Ha. unfold visible, is_cont. rewrite negb_true_iff, andb_true_iff, N.leb_le, N.ltb_lt. intros [? ?].
  apply andb_false_iff. left. apply N.leb_gt. lia.
Qed.

Lemma visible_not_end a : visible a = true -> str_in (String a EmptyString) line_ends = false.
Proof.
  intros Ha. assert (H : negb (visible (ascii_of_N (code a))) || negb (str_in (String (ascii_of_N (code a)) EmptyString) line_ends) = true).
  { apply (all_below (fun n => negb (visible (ascii_of_N n)) || negb (str_in (String (ascii_of_N n) EmptyString) line_ends)) 256); [reflexivity|].
    apply N_ascii_bounded. }
  unfold code in H. rewrite ascii_N_embedding, Ha in H. by apply negb_true_iff in H.
Qed.

(** The text of a file, a line feed after each line. *)
Definition lines_text (lines : list string) : string := str_join (map (fun line => String.append line nl) lines).

Lemma lines_of_visible acc s rest : visible_text s = true ->
  lines_of acc (py_chars s ++ nl :: rest) = str_join (reverse acc ++ py_chars s) :: lines_of [] rest.
Proof.
  intros Hs. rewrite (visible_single s Hs). revert acc Hs. induction s as [|a s IH]; intros acc Hs.
  - cbn [list_ascii_of_string map app]. rewrite app_nil_r. cbn [lines_of]. change (str_in nl line_ends) with true. cbn iota.
    by destruct rest.
  - cbn [str_forall] in Hs. apply andb_true_iff in Hs as [Ha Hs]. cbn [list_ascii_of_string map app lines_of].
    rewrite (visible_not_end a Ha), IH by done. by rewrite reverse_cons, <- (assoc_L (++)).
Qed.

Lemma splitlines_lines lines : Forall (fun s => visible_text s = true) lines -> splitlines (lines_text lines) = lines.
Proof.
  unfold splitlines, lines_text. induction 1 as [|s lines Hs Hl IH]; [done|]. cbn [map str_join].
  assert (Hst : forall s, visible_text s = true -> starts_cont s = false).
  { intros [|a t]; [done|]. cbn [str_forall starts_cont]. rewrite andb_true_iff. unfold visible, is_cont.
    rewrite andb_true_iff, N.leb_le, N.ltb_lt. intros [[_ ?] _]. apply andb_false_iff. left. apply N.leb_gt. lia. }
  rewrite py_chars_app, py_chars_app, <- (assoc_L (++)) by (done || (destruct Hl as [|t l Ht _]; [done|]; cbn [map str_join]; destruct t; [done | by apply Hst in Ht])).
  change (py_chars nl) with [nl]. cbn [app]. rewrite lines_of_visible, IH by done. change (reverse (@nil string)) with (@nil string). cbn [app]. by rewrite str_join_chars.
Qed.

(** A text between two characters that are not blanks is not stripped. *)
Lemma strip_framed a s b : visible_text (String a (String.append s (String b EmptyString))) = true ->
  Ascii.eqb a " " = false -> Ascii.eqb b " " = false ->
  py_strip (String a (String.append s (String b EmptyString))) = String a (String.append s (String b EmptyString)).
Proof.
  intros Hv Ha Hb. pose proof Hv as Hall. cbn [str_forall] in Hall. rewrite str_forall_app in Hall. cbn [str_forall] in Hall.
  rewrite andb_true_r, !andb_true_iff in Hall. destruct Hall as (Hva & Hvs & Hvb).
  assert (Hsp : forall x, visible x = true -> Ascii.eqb x " " = false -> is_space (String x EmptyString) = false).
  { intros x Hx Hne. assert (H : negb (visible (ascii_of_N (code x))) || Ascii.eqb (ascii_of_N (code x)) " " || negb (is_space (String (ascii_of_N (code x)) EmptyString)) = true).
    { apply (all_below (fun n => negb (visible (ascii_of_N n)) || Ascii.eqb (ascii_of_N n) " " || negb (is_space (String (ascii_of_N n) EmptyString))) 256);
        [reflexivity | apply N_ascii_bounded]. }
    unfold code in H. rewrite ascii_N_embedding, Hx, Hne in H. by apply negb_true_iff in H. }
  unfold py_strip. rewrite <- (str_join_chars (String a _)) at 2. f_equal. rewrite (visible_single _ Hv).
  assert (Hl : list_ascii_of_string (String.append s (String b EmptyString)) = list_ascii_of_string s ++ [b]).
  { clear. induction s as [|c s IH]; [done|]. cbn [String.append list_ascii_of_string app]. by rewrite IH. }
  cbn [list_ascii_of_string]. rewrite Hl. cbn [map]. rewrite map_app. cbn [map]. unfold strip_list.
  rewrite (drop_while_id _ (_ :: _)) by by apply Hsp.
  change (String a EmptyString :: ?l ++ [String b EmptyString]) with ((String a EmptyString :: l) ++ [String b EmptyString]).
  rewrite rev_app_distr. cbn [rev app]. rewrite (drop_while_id _ (_ :: _)) by by apply Hsp.
  change (String b EmptyString :: ?l) with ([String b EmptyString] ++ l). rewrite rev_app_distr. cbn [rev app].
  by rewrite rev_app_distr, rev_involutive.
Qed.

Lemma strip_object d : json_ok (JObj d) = true -> py_strip (json_dumps default_style (JObj d)) = json_dumps default_style (JObj d).
Proof.
  intros Hd. pose proof (dumps_visible (JObj d) 0 Hd) as Hv. unfold json_dumps in *. destruct d as [|kv d]; [reflexivity|].
  cbn [dumps_at] in Hv |- *. unfold Json.bracket in Hv |- *. cbn [break st_indent default_style String.append] in Hv |- *.
  by apply strip_framed.
Qed.

(** ** Bytes *)

Lemma visible_byte a : visible a = true -> nul a = false /\ (code a <? 128)%N = true.
Proof. unfold visible, nul. rewrite andb_true_iff, N.leb_le, !N.ltb_lt, N.eqb_neq. lia. Qed.

Lemma visible_valid s : visible_text s = true -> utf8_valid true s = true.
Proof.
  induction s as [|a s IH]; [done|]. cbn [str_forall utf8_valid]. intros [Ha Hs]%andb_true_iff.
  destruct (visible_byte a Ha) as [_ ->]. auto.
Qed.

(** A visible text is decoded as it is. *)
Lemma visible_decoded a s : visible_text (String a s) = true -> decode_json_bytes (String a s) = Some (String a s).
Proof.
  intros Hv. pose proof (visible_valid _ Hv) as Hu. unfold decode_json_bytes. rewrite Hu.
  assert (Hp : forall p, visible_text p = false -> String.prefix p (String a s) = false).
  { intros p. generalize dependent (String a s). clear. intros s Hv _. revert s Hv.
    induction p as [|b p IH]; intros s Hv Hp; [done|]. destruct s as [|c s]; [done|]. cbn [str_forall] in Hv, Hp. cbn [String.prefix].
    destruct (ascii_dec b c) as [->|]; [|done]. apply andb_true_iff in Hv as [Hc Hs]. rewrite Hc in Hp. by apply IH. }
  rewrite !Hp by reflexivity. clear Hp Hu.
  destruct s as [|b [|c [|d s]]]; cbn [str_forall] in Hv; rewrite ?andb_true_r, ?andb_true_iff in Hv; try done.
  - destruct Hv as [Ha Hb]. by rewrite (proj1 (visible_byte a Ha)), (proj1 (visible_byte b Hb)).
  - destruct Hv as (Ha & Hb & _). by rewrite (proj1 (visible_byte a Ha)), (proj1 (visible_byte b Hb)).
Qed.

Lemma loads_bytes_dumps v : json_ok v = true -> json_loads_bytes (json_dumps default_style v) = Ok v.
Proof.
  intros Hv. pose proof (dumps_visible v 0 Hv) as Hd. destruct (dumps_head default_style 0 v Hv) as (a & t & He & _).
  pose proof (loads_dumps default_style v ltac:(eauto with py) Hv) as Hl. unfold json_dumps in *. rewrite He in Hd, Hl |- *.
  unfold json_loads_bytes. rewrite visible_decoded by done. cbn [of_option]. unfold mbind, res_bind. by rewrite Hl.
Qed.
