(* ===== verification/Capabilities.v ===== *)
(** * The table of connector capabilities

    [scripts/generate-connector-capabilities.py] reads the declarations of the
    connector contracts out of their Go source and writes the table that the linter
    of tool manifests reads.  The arguments are [sys.argv]; the source is the text of
    [contract.go]; [word_char] is what [\w] matches. *)
From Stdlib Require Import ZArith Lia Ascii String.
From stdpp Require Import base tactics list strings.
From S2P Require Import Prelude PyStr PyFloat Json JsonFacts Types Regex LintTools PyLines.

Section Generate.
Context (word_char : string -> bool).

Definition blanks : regex := RStar true (RChar is_space).
Definition quoted (n : nat) : list regex :=
  [lit dquote; RGroup n (plus (RChar (fun c => negb (is_char dquote c)))); lit dquote].
Definition provider_name (n : nat) : regex := RGroup n (RCat (lit "Provider") (plus (RChar word_char))).

(** The three patterns of the script: a constant of the Go type Provider with its
    text, an entry of the table of definitions, and the name of a capability. *)
Definition constant_re : regex :=
  cats ([provider_name 1; plus (RChar is_space); lit "Provider"; blanks; lit "="; blanks] ++ quoted 2).
Definition entry_re : regex :=
  cats [blanks; provider_name 1; lit ":"; blanks; RGroup 2 (RStar true dot)].
Definition name_re : regex := cats ([lit "Name:"; blanks] ++ quoted 1).

Definition text_of (n : nat) (g : groups) : string := str_join (group n g).

(** [dict(re.findall(...))]. *)
Definition providers_of (text : string) : dict string :=
  foldl (fun d g => dset d (text_of 1 g) (text_of 2 g)) [] (findall constant_re text).

Definition MARKER := "var definitions = map[Provider][]Capability{".
Definition block_of (text : string) : res exn string :=
  if py_in MARKER text
  then Ok (py_before (String.append nl "}") (str_drop (String.length (py_before MARKER text) + String.length MARKER) text))
  else Raise (Exn IndexError "list index out of range").

(** The body of the loop over the lines. *)
Definition read_line (providers : dict string) (result : dict (list string)) (line : string) : res exn (dict (list string)) :=
  match match_at entry_re (py_chars line) with
  | None => Ok result
  | Some (_, g) =>
      provider ← of_option (Exn KeyError (text_of 1 g)) (dget providers (text_of 1 g));
      Ok (dset result provider (py_sorted (map (text_of 1) (findall name_re (text_of 2 g)))))
  end.
Fixpoint read_lines (providers : dict string) (lines : list string) (result : dict (list string)) : res exn (dict (list string)) :=
  match lines with
  | [] => Ok result
  | line :: lines' => result ← read_line providers result line; read_lines providers lines' result
  end.

(** [expected - set(result)], sorted. *)
Definition not_declared (expected : list string) (result : dict (list string)) : list string :=
  py_sorted (remove_dups (List.filter (fun p => negb (dmem result p)) expected)).
Definition same_set (expected : list string) (result : dict (list string)) : bool :=
  forallb (fun p => dmem result p) expected && forallb (fun p => str_in p expected) (dkeys result).

(** [dict(sorted(result.items()))]: the keys are distinct, so the values are not
    compared. *)
Definition table_of (result : dict (list string)) : jdict :=
  map (fun kv => (kv.1, JArr (map JStr kv.2))) (sort_by (fun a b => String.leb a.1 b.1) result).

Definition system_exit {A} (message : string) : res exn A := Raise (Exn (UserError "SystemExit") message).

(** [main]: the text that is written. *)
Definition table (text : string) : res exn jdict :=
  let providers := providers_of text in
  block ← block_of text;
  result ← read_lines providers (splitlines block) [];
  if same_set (dvals providers) result then Ok (table_of result)
  else system_exit (str_join ["could not parse all provider capability declarations: missing ";
                              py_repr_json (JArr (map JStr (not_declared (dvals providers) result)))]).
Definition main (argv : list string) (read_source : string -> res exn string) : res exn string :=
  match argv with
  | [_; path] =>
      text ← read_source (String.append path "/contract/contract.go");
      t ← table text;
      Ok (String.append (json_dumps (indented 2) (JObj t)) nl)
  | _ => system_exit "usage: generate-connector-capabilities.py PATH_TO_CONTRACTS_V0.5.0"
  end.

(** ** What the linter is given *)

Definition sorted_lists (result : dict (list string)) : Prop := Forall (fun kv => ordered String.leb kv.2) result.

Lemma read_line_keeps providers result line result' : read_line providers result line = Ok result' ->
  dict_ok result -> sorted_lists result -> dict_ok result' /\ sorted_lists result'.
Proof.
  unfold read_line. destruct (match_at _ _) as [[rest g]|]; [|by intros [= <-]]. intros H Hn Hs. res_inv. simplify_eq.
  split; [by apply dict_ok_dset|]. apply List.Forall_forall. intros kv Hkv. apply dset_In in Hkv as [Hkv | ->].
  - revert kv Hkv. by apply List.Forall_forall.
  - apply py_sorted_ordered.
Qed.

Lemma read_lines_keep providers lines result result' : read_lines providers lines result = Ok result' ->
  dict_ok result -> sorted_lists result -> dict_ok result' /\ sorted_lists result'.
Proof.
  revert result. induction lines as [|line lines IH]; intros result H Hn Hs; cbn in H; [by simplify_eq|].
  res_inv. eapply IH; [done|..]; eapply read_line_keeps; done.
Qed.

Lemma sorted_keys {V} (d : dict V) : map fst (sort_by (fun a b => String.leb a.1 b.1) d) = py_sorted (dkeys d).
Proof.
  unfold py_sorted, dkeys. induction d as [|kv d IH]; [done|]. cbn [sort_by foldr map]. unfold sort_by in IH. rewrite <- IH.
  generalize (foldr (insert_by (fun a b : string * V => String.leb a.1 b.1)) [] d). intros l. induction l as [|x l IHl]; [done|].
  cbn. destruct (String.leb _ _); [done|]. cbn. by rewrite IHl.
Qed.

(** The table has one entry for each provider that the source declares, in the
    order of their names, each with the sorted names of capabilities; nothing is
    written when a provider has no entry. *)
Lemma table_is_complete (text : string) (t : jdict) : table text = Ok t ->
  dkeys t = py_sorted (remove_dups (dvals (providers_of text))) /\
  Forall (fun kv => exists caps, kv.2 = JArr (map JStr caps) /\ ordered String.leb caps) t.
Proof.
  unfold table. intros H. res_inv. destruct (same_set _ _) eqn:Hsame; [|discriminate H]. injection H as <-.
  destruct (read_lines_keep _ _ _ _ Hr0) as [Hn Hs]; [constructor.. |]. unfold table_of. split.
  - unfold dkeys at 1. rewrite map_map. cbn. change (map (fun x => x.1) ?l) with (map fst l). rewrite sorted_keys.
    unfold same_set in Hsame. py_bool. rewrite !forallb_forall in *. apply py_sorted_unique, NoDup_Permutation; [done | apply NoDup_remove_dups|].
    intros k. rewrite elem_of_remove_dups. split; intros Hk.
    + apply list_elem_of_In in Hk. by apply str_in_spec, H0.
    + apply list_elem_of_In in Hk. rename H into Hall. apply Hall in Hk. unfold dmem in Hk. apply bool_decide_eq_true in Hk.
      rewrite <- not_eq_None_Some, dget_None in Hk. by apply dec_stable.
  - apply Forall_map. rewrite sort_by_perm. eapply Forall_impl; [exact Hs|]. cbn. eauto.
Qed.

Lemma loads_dumps_nl st v : style_ok st -> json_ok v = true -> json_loads (String.append (json_dumps st v) nl) = Some v.
Proof.
  intros Hst Hv. unfold json_loads, json_dumps. destruct (dumps_head st 0 v Hv) as (a & t & Ea & Ha & _).
  replace (skip_ws (String.append (dumps_at st 0 v) nl)) with (String.append (dumps_at st 0 v) nl) by (rewrite Ea; simpl; by rewrite Ha).
  rewrite (json_reads v Hv); [done | done | done |]. unfold json_fuel. rewrite str_length_app. lia.
Qed.

(** What [main] writes is decoded by the linter to that table. *)
Lemma written_table_loads argv read_source out : main argv read_source = Ok out ->
  exists text t, table text = Ok t /\ (json_ok (JObj t) = true -> json_loads out = Some (JObj t)).
Proof.
  unfold main. destruct argv as [|a0 [|path [|]]]; try done. intros H. res_inv. simplify_eq. eexists _, _. split; [done|].
  intros Hok. apply loads_dumps_nl; [apply indented_ok | done].
Qed.
End Generate.

Definition ex_go : string := jq (String.concat nl
  ["const ("; "  ProviderGitHub Provider = 'github'"; "  ProviderCRM    Provider = 'crm'"; ")";
   "var definitions = map[Provider][]Capability{";
   "  ProviderGitHub: {{Name: 'issue.read'}, {Name: 'check.read'}},"; "  // none";
   "  ProviderCRM: {{Name: 'lead.read'}},"; "}"; "}"]).
Definition ex_word (c : string) : bool := match c with String a EmptyString => is_alnum a || Ascii.eqb a "_" | _ => false end.
Example generated :
  table ex_word ex_go = Ok [("crm", JArr [JStr "lead.read"]); ("github", JArr [JStr "check.read"; JStr "issue.read"])].
Proof. vm_compute. reflexivity. Qed.

(** An entry on several lines declares nothing, and the table is written all the
    same. *)
Example entry_on_two_lines_is_empty :
  table ex_word (jq (String.concat nl
    ["ProviderGitHub Provider = 'github'"; "var definitions = map[Provider][]Capability{";
     "  ProviderGitHub: {"; "    {Name: 'issue.read'}},"; "}"])) = Ok [("github", JArr [])].
Proof. vm_compute. reflexivity. Qed.
Example provider_without_entry :
  table ex_word (jq (String.concat nl ["ProviderGitHub Provider = 'github'"; "var definitions = map[Provider][]Capability{"; "}"]))
  = system_exit "could not parse all provider capability declarations: missing ['github']".
Proof. vm_compute. reflexivity. Qed.
