(* ===== verification/ControlPlane.v ===== *)
(** * The control plane of the repository's fixtures, and the audit check

    [fixtures/kei/fake-control-plane.py], the control plane that the tests run
    kei-proxy and the manifest sync against, and
    [fixtures/kei/assert-audit-records.py], which looks for decision records in
    the files that it and kei-proxy leave.

    Here a request arrives with its body; [ControlBody.v] reads it off a connection.
    The server's own lines on standard error are left out.  [issued_at] and
    [not_after] are the texts of two clock readings, and [sha256_hex] the digest
    of [hashlib]. *)
From Stdlib Require Import ZArith Lia Ascii String SpecFloat.
From stdpp Require Import base tactics list strings.
From S2P Require Import Prelude PyStr PyFloat PyBytes Json JsonFacts Types PyLines JsonLines RuntimeSocket ToolSpec ToolSync.

(** ** Requests and answers *)

Definition headers : Type := list (string * string).
Record Request := { command : string; path : string; rq_headers : headers; body : string }.
Record Answer := { a_status : Z; a_headers : headers; a_body : string }.

(** [self.headers.get(name, "")]: names are compared without case. *)
Definition header (name : string) (rq : Request) : string :=
  match List.find (fun kv => String.eqb (py_lower (fst kv)) (py_lower name)) (rq_headers rq) with
  | Some kv => snd kv
  | None => ""
  end.

(** [FAKE_CONTROL_PLANE_AUDIT_LOG] is set, and the lines of that file. *)
Record Plane := { logging : bool; flushed : list string }.

Definition obj (d : jdict) : json := JObj d.
Definition strs (kvs : list (string * string)) : json := JObj (map (fun kv => (fst kv, JStr (snd kv))) kvs).

Definition WHOAMI_BODY : json :=
  strs [("id", "ci-installation"); ("org_id", "ci-org"); ("workspace_id", "ci-ws"); ("platform", "ci"); ("status", "active");
        ("binding_status", "bound"); ("agent_id", "ci-agent")].

Section Plane.
Context (sha256_hex : string -> string) (issued_at not_after : string).

(** ** The policy bundle *)

Definition harness_tool (name operation_class : string) : json :=
  obj [("name", JStr name); ("source", JStr "minimal_harness"); ("operation_class", JStr operation_class);
       ("route", obj [("harness_executor", strs [("executor", "minimal_harness"); ("registration", name)])])].
Definition tool_policy (policy_id name effect tool : string) : json :=
  obj [("policy_id", JStr policy_id); ("name", JStr name); ("effect", JStr effect); ("priority", JInt 100);
       ("scope", obj [("org_id", JStr "ci-org"); ("workspace_id", JStr "ci-ws"); ("agent_id", JNull)]);
       ("selector", strs [("source_principal", "*"); ("tool", tool)])].
Definition identity (source external_id user_id : string) : json :=
  obj [("source", JStr source); ("external_id", JStr external_id); ("user_id", JStr user_id); ("status", JStr "linked");
       ("groups", JArr [JStr "everyone"])].
Definition policy_set : json :=
  obj [("schema", JStr "kei.policy-set/v2"); ("org_id", JStr "ci-org"); ("workspace_id", JStr "ci-ws");
       ("match_semantics", JStr "kei.match/v2");
       ("evaluation",
        obj [("precedence", JArr [JStr "priority_desc"; JStr "deny_before_permit"; JStr "policy_id_asc"]);
             ("checks", JStr "per_capability_first_match_and"); ("default", JStr "deny")]);
       ("tools", JArr [harness_tool "echo" "read"; harness_tool "delete_everything" "write"]);
       ("checks", JArr []);
       ("tool_policies",
        JArr [tool_policy "policy-allow-echo" "allow echo" "permit" "echo";
              tool_policy "policy-deny-delete-everything" "deny delete_everything" "deny" "delete_everything"]);
       ("harness_match_semantics", JStr "kei.harness-match/v1");
       ("harness_policies", JArr [])].
Definition POLICY_BUNDLE : json :=
  obj [("schema", JStr "kei.policy-bundle/v2"); ("bundle_id", JStr "ci-bundle-001"); ("bundle_version", JInt 1);
       ("policy_revision", JInt 1); ("issuer", JStr "kei-policy-catalog");
       ("audience", strs [("installation_id", "ci-installation"); ("org_id", "ci-org"); ("workspace_id", "ci-ws")]);
       ("issued_at", JStr issued_at); ("not_after", JStr not_after);
       ("refresh", obj [("poll_interval_seconds", JInt 120); ("stale_after_seconds", JInt 600)]);
       ("subject_resolution", obj [("mode", JStr "bundle"); ("max_cache_seconds", JInt 30)]);
       ("policy_set", policy_set);
       ("agent_connector_bindings", JArr []);
       ("identities",
        JArr [identity "ci" "ci-user" "u-ci-user"; identity "minimal-harness" "user-123" "u-user-123";
              identity "my-harness" "local" "u-local"; identity "example" "local-user" "u-local-user"]);
       ("subject",
        obj [("user_id", JStr "ci-installer"); ("email", JStr "ci@example.com"); ("groups", JArr [JStr "everyone"])]);
       ("agent_model_profiles", JArr [])].
Definition POLICY_BUNDLE_BYTES : string := json_dumps (indented 2) POLICY_BUNDLE.
Definition POLICY_BUNDLE_ETAG : string := str_join [dquote; "sha256:"; sha256_hex POLICY_BUNDLE_BYTES; dquote].

(** ** Answers *)

Definition _send_raw (status : Z) (data : string) (hs : headers) : Answer :=
  {| a_status := status; a_headers := hs ++ [("Content-Length", int_str (Z.of_nat (py_bytes_len data)))]; a_body := data |}.
(** The answers that give no header of their own. *)
Definition _send_json (status : Z) (v : json) : Answer :=
  _send_raw status (json_dumps default_style v) [("Content-Type", "application/json")].
Definition _send_empty (status : Z) (hs : headers) : Answer := _send_raw status "" hs.
Definition unauthorized : Answer := _send_json 401 (strs [("error", "invalid_runtime_token")]).
Definition not_found : Answer := _send_json 404 (strs [("error", "not_found")]).

Definition _accepts (media_type : string) (rq : Request) : bool :=
  existsb (fun part => String.eqb (py_strip (py_before ";" part)) media_type) (py_split "," (header "Accept" rq)).

(** A token that is not empty, of either kind. *)
Definition _check_token (rq : Request) : bool :=
  let auth := header "Authorization" rq in
  (py_startswith "Bearer " auth && (7 <? py_len auth)%nat) || py_truthy_str (header "X-Kei-Token" rq).

(** ** The handlers *)

Definition bundle_headers : headers :=
  [("Content-Type", "application/vnd.kei.policy-bundle.v2+json"); ("ETag", POLICY_BUNDLE_ETAG);
   ("Kei-Policy-Bundle-Version", "1"); ("Cache-Control", "no-store")].
Definition unchanged (rq : Request) : bool :=
  let inm := header "If-None-Match" rq in
  py_truthy_str inm &&
  (String.eqb inm POLICY_BUNDLE_ETAG || String.eqb (strip_of dquote inm) (strip_of dquote POLICY_BUNDLE_ETAG)).
Definition _handle_policy_bundles_current (rq : Request) : Answer :=
  if unchanged rq then _send_empty 304 [] else _send_raw 200 POLICY_BUNDLE_BYTES bundle_headers.

Definition do_GET (rq : Request) : Answer :=
  if negb (_check_token rq) then unauthorized
  else if String.eqb (path rq) "/api/v1/runtime/whoami" then _send_json 200 WHOAMI_BODY
  else if String.eqb (path rq) "/api/v1/runtime/policy-bundles/current" then _handle_policy_bundles_current rq
  else not_found.

Definition do_HEAD (rq : Request) : Answer :=
  if negb (_check_token rq) then _send_empty 401 []
  else if String.eqb (path rq) "/api/v1/runtime/whoami" then _send_empty 200 [("Content-Type", "application/json")]
  else if String.eqb (path rq) "/api/v1/runtime/policy-bundles/current"
  then (if unchanged rq then _send_empty 304 [] else _send_empty 200 bundle_headers)
  else _send_empty 404 [].

(** [str(v or "").strip()] is not empty. *)
Definition names_someone (v : json) : bool := py_truthy_str (py_strip (py_str (if py_truthy v then v else JStr ""))).
(** A record the catalog stores. *)
Definition stored_record (r : json) : bool :=
  match r with JObj d => names_someone (jget d "invoking_subject") | _ => false end.

Definition _handle_audit_flush (body_bytes : string) (p : Plane) : Answer * Plane :=
  match json_loads_bytes body_bytes with
  | Ok (JObj d) =>
      match dget d "records" with
      | Some (JArr records) =>
          let stored := List.filter stored_record records in
          (_send_json 200
             (obj [("upserted", JInt (Z.of_nat (length stored))); ("received", JInt (Z.of_nat (length records)));
                   ("skipped", JInt (Z.of_nat (length records) - Z.of_nat (length stored)))]),
           if logging p
           then {| logging := logging p; flushed := flushed p ++ map (json_dumps default_style) stored |}
           else p)
      | _ => (_send_json 400 (strs [("error", "invalid_json")]), p)
      end
  | _ => (_send_json 400 (strs [("error", "invalid_json")]), p)
  end.

Definition do_POST (rq : Request) (p : Plane) : Answer * Plane :=
  if String.eqb (path rq) "/api/v1/runtime:heartbeat" then (_send_empty 204 [], p)
  else if negb (_check_token rq) then (unauthorized, p)
  else if String.eqb (path rq) "/api/v1/runtime/audit:flush" then _handle_audit_flush (body rq) p
  else (not_found, p).

Definition manifest_v3 := "kei.tool-manifest/v3".
Definition accepted_headers : headers :=
  [("Content-Type", "application/json"); ("X-Kei-Tool-Manifest-Schema", manifest_v3);
   ("X-Kei-Supported-Tool-Manifest-Schemas", manifest_v3)].
Definition sync_counts (n : Z) : jdict := [("added", JInt n); ("updated", JInt 0); ("removed", JInt 0); ("unchanged", JInt 0)].

Definition _handle_tools_put (rq : Request) : res exn Answer :=
  match json_loads_bytes (body rq) with
  | Raise _ => Ok (_send_json 400 (strs [("error", "invalid_json")]))
  | Ok manifest =>
      schema ← any_get manifest "schema" (JStr "");
      tools ← any_get manifest "tools" (JArr []);
      if json_is_str schema manifest_v3 then
        if negb (_accepts TOOL_MANIFEST_V3_MEDIA_TYPE rq)
        then Ok (_send_json 400 (strs [("error", "missing_protocol_proposal");
               ("message", "Accept header must include the v3 protocol media type: application/vnd.kei.tool-manifest.v3+json")]))
        else n ← any_length tools; Ok (_send_raw 200 (json_dumps default_style (obj (sync_counts n))) accepted_headers)
      else Ok (_send_json 400 (obj [("error", JStr "unsupported_schema"); ("supported_schemas", JArr [JStr manifest_v3]);
                                    ("message", JStr (String.append "Unrecognized manifest schema: " (py_repr_json schema)))]))
  end.

Definition do_PUT (rq : Request) : res exn Answer :=
  if negb (_check_token rq) then Ok unauthorized
  else if String.eqb (path rq) "/api/v1/runtime/tools" then _handle_tools_put rq
  else Ok not_found.

Definition do_OPTIONS (_ : Request) : Answer := _send_empty 204 [].

(** One request: a handler that raises answers nothing, and a method without a
    handler is refused by the base class. *)
Definition handle (rq : Request) : eff Plane exn (option Answer) := fun p =>
  let pure a := (Ok (Some a), p) in
  if String.eqb (command rq) "GET" then pure (do_GET rq)
  else if String.eqb (command rq) "HEAD" then pure (do_HEAD rq)
  else if String.eqb (command rq) "POST" then let '(a, p') := do_POST rq p in (Ok (Some a), p')
  else if String.eqb (command rq) "PUT" then match do_PUT rq with Ok a => pure a | Raise e => (Raise e, p) end
  else if String.eqb (command rq) "OPTIONS" then pure (do_OPTIONS rq)
  else (Ok None, p).
End Plane.

(** ** Looking for decision records *)

Module Assert.

(** The text of a file, [None] when it does not exist. *)
Definition read_records (text : option string) : list jdict :=
  match text with
  | None => []
  | Some t =>
      omap (fun line =>
        let line := py_strip line in
        if negb (py_truthy_str line) then None
        else match json_loads line with Some (JObj record) => Some record | _ => None end) (splitlines t)
  end.

Definition is_record (tool decision : string) (record : jdict) : bool :=
  json_is_str (jget record "tool_name") tool && json_is_str (jget record "decision") decision &&
  names_someone (jget record "invoking_subject").
Definition find (records : list jdict) (tool decision : string) : option jdict := find_first (is_record tool decision) records.

(** Files by name, as they are at one moment. *)
Abbreviation snapshot := (list (string * option string)).
Abbreviation expectation := (string * string)%type.

Definition missing (files : snapshot) (expect : list expectation) : list string :=
  concat (map (fun '(name, text) =>
    let records := read_records text in
    omap (fun '(tool, decision) =>
      match find records tool decision with
      | Some _ => None
      | None => Some (str_join [name; ": no "; decision; " record for "; tool; " with an invoking_subject"])
      end) expect) files).

Definition parse_expect (value : string) : res exn expectation :=
  let tool := py_before "=" value in
  let decision := str_drop (py_bytes_len tool + 1) value in
  if negb (py_in "=" value) || negb (py_truthy_str tool) || negb (str_in decision ["allow"; "deny"])
  then Raise (Exn (UserError "ArgumentTypeError") (String.append "expected TOOL=allow|deny, got " (py_repr value)))
  else Ok (tool, decision).

(** The polling: each look is at the files and at whether the time is up.
    [None]: still waiting after the looks given. *)
Fixpoint poll (looks : list (snapshot * bool)) (expect : list expectation) : option (list string) :=
  match looks with
  | [] => None
  | (files, late) :: looks' =>
      let gaps := missing files expect in
      match gaps with [] => Some [] | _ => if late then Some gaps else poll looks' expect end
  end.

Definition shown (record : jdict) (key : string) : string := py_str (jget_or record key (JStr "")).
Definition found_lines (files : snapshot) (expect : list expectation) : list string :=
  concat (map (fun '(name, text) =>
    let records := read_records text in
    omap (fun '(tool, decision) =>
      match find records tool decision with
      | Some record =>
          Some (str_join [name; ": "; decision; " "; tool; " invoking_subject="; shown record "invoking_subject";
                          " policy_id="; shown record "policy_id"; " span_id="; shown record "span_id"])
      | None => None
      end) expect) files).

(** What is printed, then the lines on standard error and the exit code. *)
Definition main (looks : list (snapshot * bool)) (last : snapshot) (expect : list expectation)
  : option (list string * list string * Z) :=
  match poll looks expect with
  | None => None
  | Some gaps =>
      Some (found_lines last expect, map (String.append "::error::") gaps, match gaps with [] => 0%Z | _ => 1%Z end)
  end.
End Assert.

(** ** Together *)

Definition flush_request (tok : string) (records : list json) : Request :=
  {| command := "POST"; path := "/api/v1/runtime/audit:flush"; rq_headers := [("Authorization", String.append "Bearer " tok)];
     body := json_dumps default_style (obj [("records", JArr records)]) |}.

(** The collector's flushes, one after the other. *)
Fixpoint flush_all (handle : Request -> eff Plane exn (option Answer)) (tok : string) (batches : list (list json))
  : eff Plane exn (list (option Answer)) :=
  match batches with
  | [] => mret []
  | records :: batches' => a ← handle (flush_request tok records); l ← flush_all handle tok batches'; mret (a :: l)
  end.

(** The audit log as a file. *)
Definition log_file (p : Plane) : option string := match flushed p with [] => None | lines => Some (lines_text lines) end.

Definition flush_answer (records : list json) : Answer :=
  let n := Z.of_nat (length (List.filter stored_record records)) in
  _send_json 200 (obj [("upserted", JInt n); ("received", JInt (Z.of_nat (length records)));
                       ("skipped", JInt (Z.of_nat (length records) - n))]).

(** *** What the flushes mean, without the handler *)

(** A record that names who invoked it: an object whose subject is a true value
    with a text that is not blank. *)
Definition attributed (r : json) : Prop :=
  match r with
  | JObj d => let subject := jget d "invoking_subject" in py_truthy subject = true /\ py_strip (py_str subject) <> ""
  | _ => False
  end.
#[export] Instance attributed_dec r : base.Decision (attributed r).
Proof. destruct r; apply _. Defined.
(** A record of a decision on a tool that names who invoked it. *)
Definition decision_record (tool decision : string) (r : json) : Prop :=
  attributed r /\ exists d, r = JObj d /\ jget d "tool_name" = JStr tool /\ jget d "decision" = JStr decision.
(** The counts a flush is answered with. *)
Definition flush_counts (a : option Answer) (stored received skipped : nat) : Prop :=
  exists hs, a = Some {| a_status := 200; a_headers := hs;
    a_body := json_dumps default_style (JObj [("upserted", JInt (Z.of_nat stored)); ("received", JInt (Z.of_nat received));
                                              ("skipped", JInt (Z.of_nat skipped))]) |}.

Lemma names_someone_spec v : names_someone v = true <-> py_truthy v = true /\ py_strip (py_str v) <> "".
Proof.
  unfold names_someone. destruct (py_truthy v).
  - rewrite py_truthy_str_true. tauto.
  - split; [intros H; vm_compute in H; discriminate H | by intros [? _]].
Qed.
Lemma stored_attributed r : stored_record r = true <-> attributed r.
Proof. destruct r; try done. apply names_someone_spec. Qed.
Lemma stored_counts records :
  length (filter attributed records) = length (List.filter stored_record records) /\
  length (filter (fun r => ~ attributed r) records) + length (List.filter stored_record records) = length records.
Proof.
  induction records as [|r records [IH1 IH2]]; [done|]. pose proof (stored_attributed r) as Hr. cbn [List.filter length].
  destruct (stored_record r).
  - rewrite filter_cons_True, filter_cons_False by naive_solver. cbn [length]. lia.
  - rewrite filter_cons_False, filter_cons_True by naive_solver. cbn [length]. lia.
Qed.
Lemma flush_answer_counts records :
  flush_counts (Some (flush_answer records)) (length (filter attributed records)) (length records)
    (length (filter (fun r => ~ attributed r) records)).
Proof.
  destruct (stored_counts records) as [H1 H2]. unfold flush_counts, flush_answer, _send_json, _send_raw, obj. rewrite H1.
  eexists. repeat f_equal. lia.
Qed.

Lemma find_first_none {A} (p : A -> bool) l : find_first p l = None <-> forall x, x ∈ l -> p x = false.
Proof.
  unfold find_first. induction l as [|x l IH]; simpl; [set_solver|]. destruct (p x) eqn:Hp; [|set_solver].
  split; [done|]. intros H. rewrite H in Hp by set_solver. done.
Qed.

Lemma json_is_str_eq v s : json_is_str v s = true -> v = JStr s.
Proof. destruct v; try done. cbn. by intros ->%String.eqb_eq. Qed.

(** What the audit check reads of the log that the plane wrote. *)
Lemma read_log ds : Forall (fun d => json_ok (JObj d) = true) ds ->
  Assert.read_records (Some (lines_text (map (fun d => json_dumps default_style (JObj d)) ds))) = ds.
Proof.
  intros Hds. unfold Assert.read_records. rewrite splitlines_lines.
  2:{ apply Forall_forall. intros x (d & -> & Hd)%list_elem_of_fmap. rewrite Forall_forall in Hds. by apply (dumps_visible (JObj d)), Hds. }
  induction Hds as [|d ds Hd Hds IH]; [done|]. cbn [map omap list_omap]. rewrite strip_object by done.
  assert (Ht : py_truthy_str (json_dumps default_style (JObj d)) = true).
  { destruct (dumps_head default_style 0 (JObj d) Hd) as (a & t & He & _). unfold json_dumps. by rewrite He. }
  rewrite Ht, (loads_dumps default_style (JObj d) ltac:(eauto with py) Hd). cbn [negb]. f_equal. exact IH.
Qed.

Section Together.
Context (sha256_hex : string -> string) (issued_at not_after : string).
Abbreviation handle := (handle sha256_hex issued_at not_after).

(** A token that a header can carry. *)
Definition token_ok (tok : string) : Prop := tok <> "" /\ starts_cont tok = false.
Lemma bearer_checks rq tok : token_ok tok -> header "Authorization" rq = String.append "Bearer " tok -> _check_token rq = true.
Proof.
  intros [Htok Hs] H. unfold _check_token. rewrite H. unfold py_startswith. rewrite prefix_app. cbn [andb]. apply orb_true_iff. left.
  apply Nat.ltb_lt. unfold py_len. rewrite py_chars_app, length_app by done. destruct tok as [|a t]; [done|].
  destruct (py_chars_head a t) as (c & cs & ->). change (length (py_chars "Bearer ")) with 7. cbn [length]. lia.
Qed.

Lemma flush_answers tok records p : token_ok tok -> logging p = true -> forallb json_ok records = true ->
  handle (flush_request tok records) p =
    (Ok (Some (flush_answer records)),
     {| logging := true; flushed := flushed p ++ map (json_dumps default_style) (List.filter stored_record records) |}).
Proof.
  intros Htok Hl Hr. unfold ControlPlane.handle, do_POST. rewrite (bearer_checks (flush_request tok records) tok Htok eq_refl).
  change (String.eqb (command (flush_request tok records)) "GET") with false.
  change (String.eqb (command (flush_request tok records)) "HEAD") with false.
  change (String.eqb (command (flush_request tok records)) "POST") with true.
  change (String.eqb (path (flush_request tok records)) "/api/v1/runtime:heartbeat") with false.
  change (String.eqb (path (flush_request tok records)) "/api/v1/runtime/audit:flush") with true. cbn iota.
  unfold _handle_audit_flush, flush_request, body. rewrite loads_bytes_dumps; [|cbn; by rewrite Hr].
  cbn [obj]. change (dget _ "records") with (Some (JArr records)). cbn iota. by rewrite Hl.
Qed.

Lemma flush_all_answers tok batches p : token_ok tok -> logging p = true -> Forall (fun records => forallb json_ok records = true) batches ->
  flush_all handle tok batches p =
    (Ok (map (fun records => Some (flush_answer records)) batches),
     {| logging := true;
        flushed := flushed p ++ map (json_dumps default_style) (List.filter stored_record (concat batches)) |}).
Proof.
  intros Htok Hl Hok. revert p Hl. induction Hok as [|records batches Hr Hok IH]; intros p Hl.
  - cbn. rewrite app_nil_r, <- Hl. by destruct p.
  - cbn [flush_all]. unfold mbind at 1, eff_bind at 1. rewrite flush_answers by done.
    unfold mbind, eff_bind. rewrite IH by done. cbn [concat map flushed]. rewrite List.filter_app, map_app, <- (assoc_L (++)). done.
Qed.

Lemma stored_objects records : forallb json_ok records = true -> exists ds,
  List.filter stored_record records = map JObj ds /\ Forall (fun d => json_ok (JObj d) = true) ds /\
  forall d, d ∈ ds <-> JObj d ∈ records /\ names_someone (jget d "invoking_subject") = true.
Proof.
  induction records as [|r records IH]; intros Hok; [exists []; set_solver|]. cbn [forallb] in Hok. apply andb_true_iff in Hok as [Hr Hok].
  destruct (IH Hok) as (ds & He & Hds & Hin). clear IH. cbn [List.filter]. destruct (stored_record r) eqn:Hs.
  - destruct r as [| | | | | |d]; try done. exists (d :: ds). split_and!; [cbn; by rewrite He | by constructor|].
    intros d'. rewrite !elem_of_cons, Hin. split; [intros [->|[? ?]]; auto | intros [[[= ->]|?] ?]; auto].
  - exists ds. split_and!; [done | done|]. intros d'. rewrite elem_of_cons, Hin. split; [intros [? ?]; auto|].
    intros [[<-|?] Hn]; [|done]. cbn [stored_record] in Hs. congruence.
Qed.

(** C28: flushes and the audit check.  Each flush of records that can be
    printed, sent in order and with a token that is not empty, is answered 200 with how many of them name who invoked them
    ([upserted]), how many were received and how many were skipped.  Over the log
    that the flushes leave, with the one log of the plane to look at, the check
    finds no gap exactly when every expected decision was flushed in a record
    that names who invoked it; the command, when its first look is its last,
    then exits 0 and reports no error, and otherwise exits 1 and reports one. *)
Theorem flushed_records_are_found tok batches expect answers p :
  token_ok tok -> Forall (fun records => forallb json_ok records = true) batches ->
  flush_all handle tok batches {| logging := true; flushed := [] |} = (Ok answers, p) ->
  Forall2 (fun records a => flush_counts a (length (filter attributed records)) (length records)
                              (length (filter (fun r => ~ attributed r) records))) batches answers /\
  let covered := forall tool decision, (tool, decision) ∈ expect -> exists r, r ∈ concat batches /\ decision_record tool decision r in
  (Assert.missing [("log", log_file p)] expect = [] <-> covered) /\
  exists out err code, Assert.main [([("log", log_file p)], true)] [("log", log_file p)] expect = Some (out, err, code) /\
    ((covered /\ code = 0%Z /\ err = []) \/ (~ covered /\ code = 1%Z /\ err <> [])).
Proof.
  intros Htok Hok Hrun. rewrite flush_all_answers in Hrun by done. injection Hrun as <- <-. split.
  { apply Forall2_fmap_r, Forall_Forall2_diag, Forall_true. exact flush_answer_counts. }
  intros covered.
  assert (Hall : forallb json_ok (concat batches) = true).
  { apply forallb_forall. intros r (records & Hrs & Hr)%in_concat. rewrite Forall_forall in Hok.
    apply list_elem_of_In, Hok in Hrs. rewrite forallb_forall in Hrs. auto. }
  destruct (stored_objects _ Hall) as (ds & He & Hds & Hin). unfold log_file. cbn [flushed app]. rewrite He, map_map.
  assert (Hgap : Assert.missing [("log", match map (fun x => json_dumps default_style (JObj x)) ds with [] => None | lines => Some (lines_text lines) end)] expect = []
                 <-> covered).
  { unfold Assert.missing. cbn [map concat]. rewrite app_nil_r.
    replace (Assert.read_records _) with ds by (destruct ds as [|d ds']; [done | symmetry; by apply (read_log (d :: ds'))]).
    rewrite omap_nil, Forall_forall. unfold covered. split.
    - intros Hnone tool decision Hx. specialize (Hnone (tool, decision) Hx). cbn in Hnone.
      destruct (Assert.find ds tool decision) as [d|] eqn:Hf; [|done]. apply find_first_inv in Hf as [Hd Hp].
      apply Hin in Hd as [Hd Hn]. exists (JObj d). split; [done|]. split; [by apply names_someone_spec|].
      unfold Assert.is_record in Hp. rewrite !andb_true_iff in Hp.
      destruct Hp as [[Ht Hdec] _]. exists d. by rewrite (json_is_str_eq _ _ Ht), (json_is_str_eq _ _ Hdec).
    - intros Hcov [tool decision] Hx. destruct (Assert.find ds tool decision) eqn:Hf; [done|]. exfalso.
      destruct (Hcov tool decision Hx) as (r & Hr & Hat & d & -> & Ht & Hdec). pose proof (proj2 (names_someone_spec _) Hat) as Hn.
      unfold Assert.find in Hf. rewrite find_first_none in Hf. specialize (Hf d (proj2 (Hin d) (conj Hr Hn))). unfold Assert.is_record in Hf.
      rewrite Ht, Hdec, Hn in Hf. cbn in Hf. by rewrite !String.eqb_refl in Hf. }
  split; [exact Hgap|]. unfold Assert.main. cbn [Assert.poll].
  destruct (Assert.missing _ expect) as [|g gaps].
  - eexists _, _, _. split; [reflexivity|]. left. tauto.
  - eexists _, _, _. split; [reflexivity|]. right. split; [|done]. intros Hc. by apply Hgap in Hc.
Qed.

(** *** The manifest sync against the plane *)

(** One PUT to a server at [base]. *)
Definition put_at (base : string) (rq : put_request) (p : Plane) : res put_exn ToolSync.Response * Plane :=
  if String.prefix base (q_url rq) then
    match handle {| command := "PUT"; path := str_drop (String.length base) (q_url rq); rq_headers := q_headers rq; body := q_body rq |} p with
    | (Ok (Some a), p') => (Ok {| ToolSync.status_code := a_status a; ToolSync.content := a_body a; text := a_body a |}, p')
    | (_, p') => (Raise (HTTPError "RemoteProtocolError"), p')
    end
  else (Raise (HTTPError "ConnectError"), p).

Lemma jget_present d k v x : jget d k = v -> v <> JNull -> dget_or d k x = v.
Proof. unfold jget, dget_or. by destruct (dget d k) as [u|]; cbn; [|intros <-]. Qed.

(** A manifest with tools is acknowledged at the first attempt, and the result
    counts its tools. *)
Lemma sync_is_acknowledged netloc_ok lower open_client sleep base c document tools expected transport route w :
  token_ok (token c) -> tools_url c = String.append base TOOLS_PATH ->
  json_ok (JObj document) = true -> jget document "schema" = JStr manifest_v3 -> jget document "tools" = JArr tools -> tools <> [] ->
  _client netloc_ok lower c transport = Ok route -> open_client route = None ->
  let sent_once := put_of c route document in
  sync_document netloc_ok lower (put_at base) open_client sleep document c expected transport w =
    (Ok {| sent := true; tool_count := length tools; counts := sync_counts (Z.of_nat (length tools)) |},
     {| w_state := w_state w; puts := puts w ++ [sent_once]; sleeps := sleeps w |}).
Proof.
  intros Htok Hurl Hok Hschema Htools Hne Hroute Hopen sent_once. unfold sync_document, document_count. rewrite Htools.
  destruct (Nat.eqb_spec (length tools) 0) as [H0|_]; [by apply length_zero_iff_nil in H0|]. rewrite Hroute, Hopen.
  unfold total_attempts. destruct (Z.to_nat (Z.max 1 (attempts c))) as [|n] eqn:Hn; [lia|]. cbn [put_loop]. unfold run_put.
  assert (Hput : put_at base (put_of c route document) (w_state w) =
    (Ok {| ToolSync.status_code := 200; ToolSync.content := json_dumps default_style (obj (sync_counts (Z.of_nat (length tools))));
           text := json_dumps default_style (obj (sync_counts (Z.of_nat (length tools)))) |}, w_state w)).
  { unfold put_at. cbn [q_url put_of]. rewrite Hurl, prefix_app, str_drop_app.
    unfold ControlPlane.handle. cbn [command].
    change (String.eqb "PUT" "GET") with false. change (String.eqb "PUT" "HEAD") with false. change (String.eqb "PUT" "POST") with false.
    change (String.eqb "PUT" "PUT") with true. cbn iota. unfold do_PUT.
    rewrite (bearer_checks _ (token c) Htok) by reflexivity. cbn [path negb].
    change (String.eqb TOOLS_PATH "/api/v1/runtime/tools") with true. cbn iota. unfold _handle_tools_put. cbn [body q_body put_of].
    rewrite loads_bytes_dumps by done. cbn [any_get]. unfold mbind, res_bind.
    rewrite (jget_present document "schema" _ _ Hschema) by done. rewrite (jget_present document "tools" _ _ Htools) by done.
    cbn [json_is_str]. change (String.eqb manifest_v3 manifest_v3) with true. cbn iota.
    match goal with |- context [_accepts ?m ?r] => change (_accepts m r) with true end. reflexivity. }
  rewrite Hput. cbn [is_success ToolSync.status_code]. unfold _counts. cbn [ToolSync.content]. rewrite loads_bytes_dumps by done. reflexivity.
Qed.
End Together.

(** ** Two flushes and a check *)

Module Example.
Definition record (tool decision subject : string) : json :=
  strs [("tool_name", tool); ("decision", decision); ("invoking_subject", subject); ("policy_id", "p-1")].
Definition batches : list (list json) :=
  [[record "echo" "allow" "ana"; record "echo" "deny" " "]; [JNull; record "delete_everything" "deny" "bo"]].
Definition expect : list (string * string) := [("echo", "allow"); ("delete_everything", "deny")].
Definition plane : Request -> eff Plane exn (option Answer) := handle (fun x => x) "t0" "t1".

Lemma token_carried : token_ok "kei_rt_x".
Proof. by split. Qed.
Lemma batches_ok : Forall (fun records => forallb json_ok records = true) batches.
Proof. repeat constructor. Qed.

Lemma flushed_records_are_found_witness :
  exists answers p, flush_all plane "kei_rt_x" batches {| logging := true; flushed := [] |} = (Ok answers, p) /\
    Forall2 (fun n a => flush_counts a n.1 n.2.1 n.2.2) [(1, (2, 1)); (1, (2, 1))] answers /\
    Assert.missing [("log", log_file p)] expect = [] /\
    Assert.missing [("log", log_file p)] [("echo", "deny")] = ["log: no deny record for echo with an invoking_subject"].
Proof.
  pose proof (flush_all_answers (fun x => x) "t0" "t1" "kei_rt_x" batches {| logging := true; flushed := [] |} token_carried eq_refl batches_ok) as Hrun.
  destruct (flushed_records_are_found (fun x => x) "t0" "t1" "kei_rt_x" batches expect _ _ token_carried batches_ok Hrun) as (Ha & Hgap & _).
  eexists _, _. split; [exact Hrun|]. split.
  { apply Forall2_cons_inv_l in Ha as (a1 & l1 & H1 & Ha & ->). apply Forall2_cons_inv_l in Ha as (a2 & l2 & H2 & Ha & ->).
    apply Forall2_nil_inv_l in Ha as ->. repeat constructor; [exact H1 | exact H2]. }
  split.
  - apply Hgap. intros tool decision Hx. apply elem_of_cons in Hx as [[= -> ->]|Hx].
    + exists (record "echo" "allow" "ana"). split; [by left|]. split; [by vm_compute|]. eexists. split_and!; reflexivity.
    + apply list_elem_of_singleton in Hx as [= -> ->]. exists (record "delete_everything" "deny" "bo").
      split; [right; right; right; by left|]. split; [by vm_compute|]. eexists. split_and!; reflexivity.
  - vm_compute. reflexivity.
Defined.

Example answers_given :
  let get p hs := do_GET (fun x => "d") "t0" "t1" {| command := "GET"; path := p; rq_headers := hs; body := "" |} in
  let bearer := ("authorization", "Bearer t") in
  map a_status [get "/api/v1/runtime/whoami" []; get "/api/v1/runtime/whoami" [bearer];
                get "/api/v1/runtime/policy-bundles/current" [bearer];
                get "/api/v1/runtime/policy-bundles/current" [("If-None-Match", jq "'sha256:d'"); bearer];
                get "/api/v1/runtime/policy-bundles/current" [("If-None-Match", "sha256:d"); ("x-kei-token", "t")];
                get "/" [("Authorization", "Bearer "); ("X-Kei-Token", "")]]
  = [401; 200; 200; 304; 304; 401]%Z.
Proof. vm_compute. reflexivity. Qed.

(** A manifest that is not an object is not answered. *)
Example manifests_answered :
  map (fun b => a_status <$> (match do_PUT {| command := "PUT"; path := TOOLS_PATH; body := b;
      rq_headers := [("Authorization", "Bearer t"); ("Accept", "text/html, application/vnd.kei.tool-manifest.v3+json;q=1")] |} with
      | Ok a => Some a | Raise _ => None end))
    [jq "{'schema': 'kei.tool-manifest/v3', 'tools': [{}]}"; "{"; jq "{'schema': 'v2'}"; "[]"; jq "{'schema': 'kei.tool-manifest/v3', 'tools': 1}"]
  = [Some 200; Some 400; Some 400; None; None]%Z.
Proof. vm_compute. reflexivity. Qed.

Example expectations_parsed :
  (Assert.parse_expect "echo=allow", Assert.parse_expect "a=b=deny") =
  (Ok ("echo", "allow"), Raise (Exn (UserError "ArgumentTypeError") "expected TOOL=allow|deny, got 'a=b=deny'")).
Proof. vm_compute. reflexivity. Qed.
End Example.
