(* ===== verification/ControlBody.v ===== *)
(** * Request bodies of the fixture control plane

    [_read_body] of [fixtures/kei/fake-control-plane.py]: a body of a given length
    or in chunks, read off the bytes of a connection that is kept alive, and the
    requests served one after another on it.

    The end of the stream is the end of the bytes given.  The first line and the
    headers of a request, which the base class reads, are arguments. *)
From Stdlib Require Import ZArith Lia Ascii String.
From stdpp Require Import base tactics list strings.
From S2P Require Import Prelude PyStr Json JsonFacts PyUrl Types PyBytes ControlPlane.

(** ** The stream *)

(** [rfile.read(n)] and [rfile.readline()], with what is left. *)
Definition read (n : Z) (s : string) : string * string :=
  if (n <? 0)%Z then (s, "") else (bytes_take (Z.to_N n) s, str_drop (Z.to_nat n) s).
Fixpoint readline (s : string) : string * string :=
  match s with
  | EmptyString => ("", "")
  | String a s' => if Ascii.eqb a "010" then (nl, s') else let '(l, r) := readline s' in (String a l, r)
  end.

(** [int(b, 16)] of stripped bytes: a sign, the prefix [0x] with an underscore or
    without, and digits with single underscores between them. *)
Fixpoint hex_digits (after_digit : bool) (acc : N) (s : string) : option N :=
  match s with
  | EmptyString => if after_digit then Some acc else None
  | String a s' =>
      match hex_val a with
      | Some v => hex_digits true (acc * 16 + v) s'
      | None => if Ascii.eqb a "_" && after_digit then hex_digits false acc s' else None
      end
  end.
Definition after_prefix (s : string) : string :=
  match s with
  | String a (String b s') =>
      if Ascii.eqb a "0" && (Ascii.eqb b "x" || Ascii.eqb b "X")
      then py_removeprefix "_" s' else s
  | _ => s
  end.
Definition int_of_hex (s : string) : option Z :=
  match s with
  | String a s' =>
      if Ascii.eqb a "-" then (fun n => - Z.of_N n)%Z <$> hex_digits false 0 (after_prefix s')
      else if Ascii.eqb a "+" then Z.of_N <$> hex_digits false 0 (after_prefix s')
      else Z.of_N <$> hex_digits false 0 (after_prefix s)
  | EmptyString => None
  end.

Example int_of_hex_ok : map int_of_hex ["1f"; "-A"; "+0x_10"; "0"; "0x"; "1_0"; "1__0"; "_1"; "5;ext=1"; "0x+1"; ""]
  = [Some 31; Some (-10); Some 16; Some 0; None; Some 16; None; None; None; None; None]%Z.
Proof. reflexivity. Qed.

(** ** Bodies *)

(** The loop over the chunks: the body and what is left. *)
Fixpoint chunks (fuel : nat) (s : string) : option (string * string) :=
  match fuel with
  | O => None
  | S fuel' =>
      let '(line, s1) := readline s in
      if negb (py_truthy_str line) then Some ("", s1)
      else
        let chunk_size_str := bytes_strip line in
        if negb (py_truthy_str chunk_size_str) then chunks fuel' s1
        else
          match int_of_hex chunk_size_str with
          | None => Some ("", s1)
          | Some chunk_size =>
              if (chunk_size =? 0)%Z then Some ("", snd (readline s1))
              else
                let '(chunk, s2) := read chunk_size s1 in
                '(rest, remaining) ← chunks fuel' (snd (readline s2));
                Some (String.append chunk rest, remaining)
          end
  end.

Definition header_value (name : string) (hs : headers) : option string :=
  snd <$> List.find (fun kv => String.eqb (py_lower (fst kv)) (py_lower name)) hs.

Definition _read_body (hs : headers) (stream : string) : res exn (string * string) :=
  match header_value "Content-Length" hs with
  | Some v =>
      length ← of_option (Exn ValueError "invalid literal for int() with base 10") (int_of_str v);
      Ok (if (0 <? length)%Z then read length stream else ("", stream))
  | None =>
      if String.eqb (py_lower (default "" (header_value "Transfer-Encoding" hs))) "chunked"
      then of_option (Exn ValueError "the loop has not ended") (chunks (S (String.length stream)) stream)
      else Ok ("", stream)
  end.

(** ** A connection *)

(** Only [do_POST] and [do_PUT] read a body. *)
Definition reads_body (rq : Request) : bool := str_in (command rq) ["POST"; "PUT"].
Definition with_body (b : string) (rq : Request) : Request :=
  {| command := command rq; path := path rq; rq_headers := rq_headers rq; body := b |}.

Section Connection.
Context (sha256_hex : string -> string) (issued_at not_after : string).
Abbreviation handle := (handle sha256_hex issued_at not_after).

Definition serve_one (head : Request) (stream : string) (p : Plane) : res exn (option Answer) * (string * Plane) :=
  match (if reads_body head then _read_body (rq_headers head) stream else Ok ("", stream)) with
  | Raise e => (Raise e, (stream, p))
  | Ok (b, stream') => let '(r, p') := handle (with_body b head) p in (r, (stream', p'))
  end.

(** An exception, or a method that is not served, closes the connection. *)
Definition stays_open (r : res exn (option Answer)) : bool := match r with Ok (Some _) => true | _ => false end.
Fixpoint serve (heads : list Request) (stream : string) (p : Plane) : list (res exn (option Answer)) * (string * Plane) :=
  match heads with
  | [] => ([], (stream, p))
  | head :: heads' =>
      let '(r, (stream', p')) := serve_one head stream p in
      if stays_open r then let '(rs, last) := serve heads' stream' p' in (r :: rs, last) else ([r], (stream', p'))
  end.

(** The same over requests that have their bodies. *)
Fixpoint handle_all (rqs : list Request) (p : Plane) : list (res exn (option Answer)) * Plane :=
  match rqs with
  | [] => ([], p)
  | rq :: rqs' =>
      let '(r, p') := handle rq p in
      if stays_open r then let '(rs, last) := handle_all rqs' p' in (r :: rs, last) else ([r], p')
  end.
End Connection.

(** ** What reading gives *)

Lemma length_readline s l r : readline s = (l, r) -> s = String.append l r.
Proof.
  revert l r. induction s as [|a s IH]; intros l r; cbn [readline]; [by intros [= <- <-]|].
  destruct (Ascii.eqb_spec a "010") as [->|_]; [by intros [= <- <-]|].
  destruct (readline s) as [l' r']. intros [= <- <-]. cbn. by rewrite (IH l' r' eq_refl).
Qed.
Lemma readline_at t r : lacks "010" t = true -> readline (String.append t (String.append nl r)) = (String.append t nl, r).
Proof.
  induction t as [|a t IH]; [done|]. cbn [lacks str_forall]. intros [Ha Ht]%andb_true_iff. cbn [String.append readline].
  apply negb_true_iff in Ha. rewrite Ha. by rewrite (IH Ht).
Qed.
Lemma str_drop_length n s : String.length (str_drop n s) <= String.length s.
Proof. revert s. induction n as [|n IH]; intros [|a s]; cbn; try lia. specialize (IH s). lia. Qed.
Lemma bytes_take_app c r : bytes_take (N.of_nat (String.length c)) (String.append c r) = c.
Proof.
  induction c as [|a c IH]; [by destruct r|]. cbn [String.length String.append bytes_take].
  destruct (N.eqb_spec (N.of_nat (S (String.length c))) 0) as [H|_]; [lia|].
  replace (N.of_nat (S (String.length c)) - 1)%N with (N.of_nat (String.length c)) by lia. by rewrite IH.
Qed.
Lemma read_app c r : read (Z.of_nat (String.length c)) (String.append c r) = (c, r).
Proof.
  unfold read. destruct (Z.ltb_spec (Z.of_nat (String.length c)) 0); [lia|].
  rewrite Nat2Z.id, <- nat_N_Z, N2Z.id, bytes_take_app. by rewrite str_drop_app.
Qed.

(** The loop ends: each round consumes a line. *)
Lemma chunks_total fuel s : String.length s < fuel -> is_Some (chunks fuel s).
Proof.
  revert s. induction fuel as [|fuel IH]; intros s Hs; [lia|]. cbn [chunks].
  destruct (readline s) as [line s1] eqn:Hl. pose proof (length_readline _ _ _ Hl) as ->. rewrite str_length_app in Hs.
  destruct line as [|a line]; [by eexists|]. cbn [py_truthy_str String.eqb negb]. cbn [String.length] in Hs.
  change (negb (negb _)) with false. cbn [negb].
  destruct (negb _); [apply IH; lia|]. destruct (int_of_hex _) as [n|]; [|by eexists]. destruct (n =? 0)%Z; [by eexists|].
  destruct (read n s1) as [c s2] eqn:Hr. assert (Hs2 : String.length s2 <= String.length s1).
  { unfold read in Hr. destruct (n <? 0)%Z; injection Hr as _ <-; [cbn; lia | apply str_drop_length]. }
  destruct (readline s2) as [l3 s3] eqn:H3. pose proof (length_readline _ _ _ H3) as ->. rewrite str_length_app in Hs2. cbn [snd].
  destruct (IH s3) as [[rest remaining] ->]; [lia|]. by eexists.
Qed.
Lemma read_body_never_hangs hs s : header_value "Content-Length" hs = None -> is_ok (_read_body hs s) = true.
Proof.
  intros Hn. unfold _read_body. rewrite Hn. destruct (String.eqb _ _); [|done].
  by destruct (chunks_total (S (String.length s)) s) as [x ->]; [lia|].
Qed.

(** ** Framing

    How a client frames a body: its length, or chunks that are not empty, each
    under its size in hexadecimal digits of either case, then a chunk of size 0. *)
Definition crlf : string := String.append cr nl.
Definition size_text (t : string) (n : nat) : Prop := t <> "" /\ hex_number 0 t = Some (N.of_nat n).
Inductive chunked : list string -> string -> Prop :=
| last_chunk t : size_text t 0 -> chunked [] (str_join [t; crlf; crlf])
| next_chunk t c cs w : size_text t (String.length c) -> c <> "" -> chunked cs w ->
    chunked (c :: cs) (str_join [t; crlf; c; crlf; w]).

Inductive framed (hs : headers) : string -> string -> Prop :=
| by_length b v : header_value "Content-Length" hs = Some v -> int_of_str v = Some (Z.of_nat (String.length b)) -> framed hs b b
| by_chunks cs w v : header_value "Content-Length" hs = None -> header_value "Transfer-Encoding" hs = Some v ->
    py_lower v = "chunked" -> chunked cs w -> framed hs (str_join cs) w
| without_body : header_value "Content-Length" hs = None -> header_value "Transfer-Encoding" hs = None -> framed hs "" "".

Definition is_hex (a : ascii) : bool := bool_decide (is_Some (hex_val a)).
Lemma hex_number_is_hex acc t n : hex_number acc t = Some n -> str_forall is_hex t = true.
Proof.
  revert acc. induction t as [|a t IH]; intros acc; [done|]. cbn [hex_number str_forall]. unfold is_hex at 1.
  destruct (hex_val a) as [v|]; [|done]. rewrite bool_decide_eq_true_2 by eauto. apply IH.
Qed.
Lemma is_hex_cases a : is_hex a = true ->
  negb (Ascii.eqb a "010") && negb (is_blank_byte a) && negb (Ascii.eqb a "-") && negb (Ascii.eqb a "+") && negb (Ascii.eqb a "x") && negb (Ascii.eqb a "X") = true.
Proof.
  intros Ha. destruct (negb _ && _ && _ && _ && _ && _) eqn:E; [done|]. exfalso. revert Ha E.
  destruct a as [[] [] [] [] [] [] [] []]; vm_compute; congruence.
Qed.
Lemma hex_digits_number b acc t : b = true \/ t <> "" -> str_forall is_hex t = true -> hex_digits b acc t = hex_number acc t.
Proof.
  revert b acc. induction t as [|a t IH]; intros b acc Hb; [by destruct Hb as [->|]|]. cbn [str_forall hex_digits hex_number]. unfold is_hex at 1.
  intros [Ha Ht]%andb_true_iff. apply bool_decide_eq_true in Ha as [v Hv]. rewrite Hv. apply IH; auto.
Qed.
Lemma int_of_size t n : size_text t n -> int_of_hex t = Some (Z.of_nat n).
Proof.
  intros [Hne Hn]. pose proof (hex_number_is_hex _ _ _ Hn) as Hx.
  assert (Hp : after_prefix t = t).
  { destruct t as [|a [|b t]]; [done..|]. cbn [str_forall] in Hx. apply andb_true_iff in Hx as [_ [Hb _]%andb_true_iff].
    apply is_hex_cases in Hb. rewrite !andb_true_iff, !negb_true_iff in Hb. destruct Hb as [[_ Hx] HX]. cbn [after_prefix]. by rewrite Hx, HX, andb_false_r. }
  destruct t as [|a t]; [done|]. unfold int_of_hex. rewrite Hp.
  assert (Ha := proj1 (proj1 (andb_true_iff _ _) Hx)). apply is_hex_cases in Ha. rewrite !andb_true_iff, !negb_true_iff in Ha.
  destruct Ha as [[[[_ Hm] Hpl] _] _]. rewrite Hm, Hpl, hex_digits_number, Hn by auto. cbn. by rewrite nat_N_Z.
Qed.
Lemma bytes_lstrip_id s : str_forall (fun a => negb (is_blank_byte a)) s = true -> bytes_lstrip s = s.
Proof. destruct s as [|a s]; [done|]. cbn [str_forall bytes_lstrip]. intros [Ha _]%andb_true_iff. apply negb_true_iff in Ha. by rewrite Ha. Qed.
Lemma strip_line t : t <> "" -> str_forall (fun a => negb (is_blank_byte a)) t = true -> bytes_strip (String.append t crlf) = t.
Proof.
  intros Hne Ht. unfold bytes_strip. assert (Hl : bytes_lstrip (String.append t crlf) = String.append t crlf).
  { destruct t as [|a t]; [done|]. cbn [str_forall] in Ht. apply andb_true_iff in Ht as [Ha _]. cbn. apply negb_true_iff in Ha. by rewrite Ha. }
  rewrite Hl, str_rev_app. change (bytes_lstrip (String.append (str_rev crlf) (str_rev t))) with (bytes_lstrip (str_rev t)).
  rewrite bytes_lstrip_id; [apply str_rev_involutive|]. clear Hne Hl. induction t as [|a t IH]; [done|].
  cbn [str_forall] in Ht. apply andb_true_iff in Ht as [Ha Ht]. change (String a t) with (String.append (String a "") t).
  rewrite str_rev_app, str_forall_app, (IH Ht). cbn. by rewrite Ha.
Qed.

(** A size line is read as its size, and what follows it is left. *)
Lemma size_line t n r : size_text t n ->
  readline (str_join [t; crlf; r]) = (String.append t crlf, r) /\ bytes_strip (String.append t crlf) = t /\ t <> "" /\ int_of_hex t = Some (Z.of_nat n).
Proof.
  intros Ht. pose proof (int_of_size _ _ Ht) as Hi. destruct Ht as [Hne Hn]. apply hex_number_is_hex in Hn.
  assert (H : lacks "010" (String.append t cr) = true /\ str_forall (fun a => negb (is_blank_byte a)) t = true).
  { unfold lacks. rewrite str_forall_app. clear Hne Hi. induction t as [|a t IH]; [done|]. cbn [str_forall] in *.
    apply andb_true_iff in Hn as [Ha Hn]. apply is_hex_cases in Ha. rewrite !andb_true_iff in Ha. destruct Ha as [[[[[H1 H2] _] _] _] _].
    rewrite H1, H2. cbn. by apply IH. }
  destruct H as [Hl Hb]. split_and!; [|by apply strip_line | done | done].
  replace (str_join [t; crlf; r]) with (String.append (String.append t cr) (String.append nl r)).
  - rewrite (readline_at _ _ Hl). f_equal. unfold crlf. by rewrite str_app_assoc.
  - cbn [str_join]. unfold crlf. by rewrite !str_app_assoc, str_app_nil_r.
Qed.

Lemma chunks_read cs w rest : chunked cs w -> forall fuel, String.length (String.append w rest) < fuel ->
  chunks fuel (String.append w rest) = Some (str_join cs, rest).
Proof.
  induction 1 as [t Ht|t c cs w Ht Hc _ IH]; intros fuel Hf; (destruct fuel as [|fuel]; [lia|]); cbn [chunks].
  - replace (String.append (str_join [t; crlf; crlf]) rest) with (str_join [t; crlf; String.append crlf rest])
      by (cbn [str_join]; by rewrite !str_app_assoc, !str_app_nil_r).
    destruct (size_line t 0 (String.append crlf rest) Ht) as (-> & Hb & Hne & Hi). rewrite Hb, Hi.
    by destruct t.
  - replace (String.append (str_join [t; crlf; c; crlf; w]) rest)
      with (str_join [t; crlf; String.append c (String.append crlf (String.append w rest))]) in *
      by (cbn [str_join]; by rewrite !str_app_assoc, !str_app_nil_r).
    destruct (size_line t _ (String.append c (String.append crlf (String.append w rest))) Ht) as (-> & Hb & Hne & Hi). rewrite Hb, Hi, read_app.
    destruct t as [|a t]; [done|]. cbn [py_truthy_str String.append String.eqb negb].
    destruct (Z.eqb_spec (Z.of_nat (String.length c)) 0) as [H0|_]; [by destruct c|].
    change (String.append crlf (String.append w rest)) with (String.append cr (String.append nl (String.append w rest))).
    rewrite (readline_at cr) by done. cbn [snd]. rewrite IH; [done|].
    cbn [str_join] in Hf. rewrite !str_length_app in Hf. rewrite str_length_app. cbn in Hf. lia.
Qed.

(** A framed body is read whole, and what follows it on the connection is left. *)
Lemma framed_body_is_read hs b w rest : framed hs b w -> _read_body hs (String.append w rest) = Ok (b, rest).
Proof.
  intros [b' v Hv Hi|cs w' v Hn Hv Hl Hc|Hn Hv]; unfold _read_body.
  - rewrite Hv, Hi. cbn. rewrite read_app. destruct (Z.ltb_spec 0 (Z.of_nat (String.length b'))); [done|].
    destruct b'; [done | cbn in *; lia].
  - rewrite Hn, Hv. cbn [default from_option id]. rewrite Hl. change (String.eqb "chunked" "chunked") with true. cbn iota. rewrite (chunks_read cs w' rest Hc) by lia. done.
  - by rewrite Hn, Hv.
Qed.

Section Served.
Context (sha256_hex : string -> string) (issued_at not_after : string).

(** A request as it is sent: only [POST] and [PUT] carry a body. *)
Inductive sent : Request -> string -> Prop :=
| sent_body rq w : reads_body rq = true -> framed (rq_headers rq) (body rq) w -> sent rq w
| sent_bare rq : reads_body rq = false -> body rq = "" -> sent rq "".

Lemma with_own_body rq : with_body (body rq) rq = rq.
Proof. by destruct rq. Qed.

(** Requests on a connection that is kept alive are served as if each had come
    with its body: whatever the framing of each body (its length, or chunks of
    any size and spelling), the answers and the audit log are those of the
    requests themselves, one after another; and when all of them are served,
    exactly what follows them is left to read. *)
Lemma connection_serves_requests rqs ws rest p : Forall2 sent rqs ws ->
  exists remaining,
    serve sha256_hex issued_at not_after (map (with_body "") rqs) (String.append (str_join ws) rest) p =
      (fst (handle_all sha256_hex issued_at not_after rqs p), (remaining, snd (handle_all sha256_hex issued_at not_after rqs p))) /\
    (Forall (fun r => stays_open r = true) (fst (handle_all sha256_hex issued_at not_after rqs p)) -> remaining = rest).
Proof.
  intros Hs. revert p. induction Hs as [|rq w rqs ws Hrq _ IH]; intros p; [by exists rest|].
  cbn [map serve handle_all str_join].
  assert (Hone : serve_one sha256_hex issued_at not_after (with_body "" rq) (String.append (String.append w (str_join ws)) rest) p =
                 (fst (handle sha256_hex issued_at not_after rq p), (String.append (str_join ws) rest, snd (handle sha256_hex issued_at not_after rq p)))).
  { unfold serve_one. change (reads_body (with_body "" rq)) with (reads_body rq). change (rq_headers (with_body "" rq)) with (rq_headers rq).
    rewrite str_app_assoc. destruct Hrq as [rq w Hr Hf|rq Hr Hb]; rewrite Hr.
    - rewrite (framed_body_is_read _ _ _ _ Hf). change (with_body (body rq) (with_body "" rq)) with (with_body (body rq) rq). rewrite with_own_body.
      by destruct (handle _ _ _ rq p).
    - change (with_body "" (with_body "" rq)) with (with_body "" rq). replace (with_body "" rq) with rq by (by rewrite <- (with_own_body rq), Hb at 1).
      by destruct (handle _ _ _ rq p). }
  rewrite Hone. destruct (handle _ _ _ rq p) as [r p']. cbn [fst snd]. destruct (stays_open r) eqn:Ho.
  - destruct (IH p') as (remaining & -> & Hrest). exists remaining. destruct (handle_all _ _ _ rqs p') as [rs p'']. cbn [fst snd] in *. split; [done|].
    intros [_ Hall]%Forall_cons. auto.
  - eexists. split; [reflexivity|]. cbn. intros [H _]%Forall_cons. congruence.
Qed.
End Served.

(** ** Examples *)

Definition flush_body : string := json_dumps default_style (JObj [("records", JArr [JObj [("invoking_subject", JStr "ana")]])]).
Definition flush_in_chunks : Request :=
  {| command := "POST"; path := "/api/v1/runtime/audit:flush"; body := flush_body;
     rq_headers := [("Authorization", "Bearer t"); ("transfer-encoding", "Chunked")] |}.
Definition whoami : Request :=
  {| command := "GET"; path := "/api/v1/runtime/whoami"; body := ""; rq_headers := [("Authorization", "Bearer t")] |}.
Definition chunks_sent : string :=
  str_join ["00a"; crlf; bytes_take 10 flush_body; crlf; "20"; crlf; str_drop 10 flush_body; crlf; "0"; crlf; crlf].

Lemma connection_serves_requests_witness :
  exists remaining,
    serve (fun s => s) "t0" "t1" [with_body "" flush_in_chunks; whoami] (String.append chunks_sent "PUT /") {| logging := true; flushed := [] |} =
      ([Ok (Some (_send_json 200 (obj [("upserted", JInt 1); ("received", JInt 1); ("skipped", JInt 0)]))); Ok (Some (_send_json 200 WHOAMI_BODY))],
       (remaining, {| logging := true; flushed := [json_dumps default_style (JObj [("invoking_subject", JStr "ana")])] |})) /\ remaining = "PUT /".
Proof.
  destruct (connection_serves_requests (fun s => s) "t0" "t1" [flush_in_chunks; whoami] [chunks_sent; ""] "PUT /" {| logging := true; flushed := [] |})
    as (remaining & Hs & Hr).
  - constructor; [|constructor; [by apply sent_bare | constructor]]. apply sent_body; [done|].
    change flush_body with (str_join [bytes_take 10 flush_body; str_drop 10 flush_body]).
    apply (by_chunks _ [bytes_take 10 flush_body; str_drop 10 flush_body] _ "Chunked"); [done..|].
    apply (next_chunk "00a" _ _ (str_join ["20"; crlf; str_drop 10 flush_body; crlf; str_join ["0"; crlf; crlf]])); [done..|].
    apply (next_chunk "20" _ _ (str_join ["0"; crlf; crlf])); [done..|]. by apply last_chunk.
  - exists remaining. split; [exact Hs | apply Hr]. vm_compute. repeat constructor.
Defined.

(** An extension of a chunk, which a server may ignore, ends the reading: the body
    is empty, and the rest of it is what the next request is read from. *)
Example chunk_extension_is_left :
  _read_body [("Transfer-Encoding", "chunked")] (str_join ["2;a=1"; crlf; "{}"; crlf; "0"; crlf; crlf])
  = Ok ("", str_join ["{}"; crlf; "0"; crlf; crlf]).
Proof. vm_compute. reflexivity. Qed.
(** So does a trailer: its lines are left. *)
Example trailer_is_left :
  _read_body [("Transfer-Encoding", "chunked")] (str_join ["2"; crlf; "{}"; crlf; "0"; crlf; "X-Sum: 1"; crlf; crlf]) = Ok ("{}", crlf).
Proof. vm_compute. reflexivity. Qed.
(** A negative size reads to the end of the connection. *)
Example negative_size_reads_all :
  _read_body [("Transfer-Encoding", "chunked")] (str_join ["-1"; crlf; "ab"; crlf; "GET / HTTP/1.1"]) = Ok (str_join ["ab"; crlf; "GET / HTTP/1.1"], "").
Proof. vm_compute. reflexivity. Qed.
