(* ===== verification/ConformanceGate.v ===== *)
(** * The equal-coverage gate of the conformance suites

    [scripts/conformance/gate.py]: the cases of the shared fixtures, the
    exclusions, the log a language leaves of the cases it ran, and the check that
    every language ran every case that is not excluded for it.

    The files are arguments: [glob] gives the sorted paths of a pattern under
    [fixtures/], [read] the text of a path, and a log is absent or a text.
    [sys.exit] with a message is an exception.  Printing is left out; the report
    is returned. *)
From Stdlib Require Import ZArith Lia Ascii String.
From stdpp Require Import base tactics list strings gmap sets.
From S2P Require Import Prelude PyStr Json JsonFacts Types PyLines.

Definition LANGUAGES : list string := ["go"; "python"; "typescript"; "rust"].
Definition FAMILIES : list (string * list string) :=
  [("toolformat/*-cases.json", ["format_definitions"; "parse_calls"; "format_result"; "validate_format"]);
   ("reasoning/*-cases.json", ["examples"]);
   ("toolspec/manifest-v3/index.json", ["valid"; "invalid"]);
   ("toolspec/cases.v1.json", ["cases"])].

Definition case_id (fixture section name : string) : string := str_join [fixture; "#"; section; "/"; name].
Definition fixture_of (cid : string) : string := py_before "#" cid.

Definition sys_exit {A} (message : string) : res exn A := Raise (Exn (UserError "SystemExit") message).
Definition loads (text : string) : res exn json := of_option (Exn JSONDecodeError "invalid JSON") (json_loads text).

(** ** The cases *)

Section Cases.
Context (glob : string -> list string) (read : string -> string).

(** [entry.get("name") if isinstance(entry, dict) else None]. *)
Definition entry_name (entry : json) : json := match entry with JObj d => jget d "name" | _ => JNull end.

Fixpoint section_ids (fixture section : string) (entries : list json) (ids : list string) : res exn (list string) :=
  match entries with
  | [] => Ok ids
  | entry :: entries' =>
      let name := entry_name entry in
      if negb (py_truthy name) then sys_exit (str_join [fixture; ": an entry in "; section; " has no name"])
      else
        let cid := case_id fixture section (py_str name) in
        if str_in cid ids then sys_exit (str_join [fixture; ": duplicate case name "; section; "/"; py_str name])
        else section_ids fixture section entries' (ids ++ [cid])
  end.

Fixpoint fixture_ids (fixture : string) (data : json) (sections : list string) (ids : list string) : res exn (list string) :=
  match sections with
  | [] => Ok ids
  | section :: sections' =>
      value ← any_get data section JNull;
      entries ← (if py_truthy value then py_iter value else Ok []);
      ids' ← section_ids fixture section entries ids;
      fixture_ids fixture data sections' ids'
  end.

Fixpoint family_cases (sections : list string) (paths : list string) (cases : dict (list string)) : res exn (dict (list string)) :=
  match paths with
  | [] => Ok cases
  | fixture :: paths' =>
      data ← loads (read fixture);
      ids ← fixture_ids fixture data sections [];
      family_cases sections paths' (dset cases fixture ids)
  end.

Fixpoint load_families (families : list (string * list string)) (cases : dict (list string)) : res exn (dict (list string)) :=
  match families with
  | [] => Ok cases
  | (pattern, sections) :: families' =>
      cases' ← family_cases sections (glob pattern) cases;
      load_families families' cases'
  end.
Definition load_cases : res exn (dict (list string)) := load_families FAMILIES [].
End Cases.

(** ** Exclusions and logs *)

Record Exclusion := { x_language : string; x_pattern : string; x_line : Z }.
Definition matches (e : Exclusion) (cid : string) : bool := fnmatchcase cid (x_pattern e).

Definition row_cells (line : string) : list string := map py_strip (py_split "|" (strip_of "|" (py_strip line))).

Definition load_row (path_name : string) (lineno : Z) (line : string) : res exn (option Exclusion) :=
  match row_cells line with
  | cell0 :: cell1 :: _ :: _ :: _ =>
      if negb (py_startswith "|" (py_lstrip line)) then Ok None
      else
        let language := py_lower cell0 in
        let pattern := strip_of "`" cell1 in
        if str_in language ["language"; ""] || forallb (fun c => str_in c ["-"; ":"; " "]) (py_chars language) then Ok None
        else if negb (str_in language LANGUAGES)
        then sys_exit (str_join [path_name; ":"; int_str lineno; ": unknown language "; py_repr cell0])
        else if negb (py_in "#" pattern)
        then sys_exit (str_join [path_name; ":"; int_str lineno; ": case pattern "; py_repr pattern; " must be <fixture>#<section>/<case>"])
        else Ok (Some {| x_language := language; x_pattern := pattern; x_line := lineno |})
  | _ => Ok None
  end.

Fixpoint load_rows (path_name : string) (lines : list (Z * string)) : res exn (list Exclusion) :=
  match lines with
  | [] => Ok []
  | (lineno, line) :: lines' =>
      row ← load_row path_name lineno line;
      rows ← load_rows path_name lines';
      Ok (match row with Some e => e :: rows | None => rows end)
  end.
Definition load_exclusions (text : string) : res exn (list Exclusion) := load_rows "EXCLUSIONS.md" (numbered (splitlines text)).

Fixpoint log_lines (path language : string) (lines : list (Z * string)) (ran : gset string) : res exn (gset string) :=
  match lines with
  | [] => Ok ran
  | (lineno, line) :: lines' =>
      if negb (py_truthy_str (py_strip line)) then log_lines path language lines' ran
      else
        rec ← loads line;
        lang ← any_get rec "language" JNull;
        _ ← (if py_eq lang (JStr language) then Ok tt
             else sys_exit (str_join [path; ":"; int_str lineno; ": record is for "; py_repr_json lang; ", expected "; py_repr language]));
        fixture ← any_item rec "fixture";
        section ← any_item rec "section";
        case ← any_item rec "case";
        log_lines path language lines' ({[case_id (py_str fixture) (py_str section) (py_str case)]} ∪ ran)
  end.
Definition load_log (path language text : string) : res exn (gset string) := log_lines path language (numbered (splitlines text)) ∅.

(** ** The check *)

Definition known_cases (cases : dict (list string)) : gset string := list_to_set (concat (map snd cases)).
(** [sorted] of a set. *)
Definition sorted_set (s : gset string) : list string := py_sorted (elements s).

Definition excused (rows : list Exclusion) (cid : string) : bool := existsb (fun e => matches e cid) rows.
Definition rows_of (language : string) (exclusions : list Exclusion) : list Exclusion :=
  List.filter (fun e => String.eqb (x_language e) language) exclusions.

(** What one language's log shows: its failures, and the cases it was excused. *)
Definition check_language (known : gset string) (exclusions : list Exclusion) (language : string) (ran : gset string)
  : list string * gset string :=
  let rows := rows_of language exclusions in
  let skipped := known ∖ ran in
  (map (fun cid => str_join [language; ": recorded a case that is not in the fixtures: "; cid]) (sorted_set (ran ∖ known)) ++
   map (fun cid => str_join [language; ": did not run "; cid; " and it is not in fixtures/EXCLUSIONS.md"])
     (List.filter (fun cid => negb (excused rows cid)) (sorted_set skipped)) ++
   map (fun e => str_join [language; ": EXCLUSIONS.md line "; int_str (x_line e); " ("; x_pattern e;
                           ") excludes nothing this language skips; remove the row"])
     (List.filter (fun e => negb (existsb (matches e) (elements skipped))) rows),
   list_to_set (List.filter (excused rows) (elements skipped))).

Definition report_cell (ids : gset string) (ran excluded : gset string) : string :=
  let x := size (excluded ∩ ids) in
  String.append (int_str (Z.of_nat (size (ran ∩ ids))))
    (if (x =? 0)%nat then "" else str_join [" (+"; int_str (Z.of_nat x); " excl.)"]).

Definition piped (cells : list string) : string := match cells with [] => "" | c :: l => str_join (c :: map (String.append " | ") l) end.

Definition check (logs : dict (gset string)) (cases : dict (list string)) (exclusions : list Exclusion) : list string * list string :=
  let known := known_cases cases in
  let checked := map (fun '(language, ran) => (ran, check_language known exclusions language ran)) logs in
  (["### Fixture conformance (ran / excluded per language)"; "";
    str_join ["| Fixture | Cases | "; piped (dkeys logs); " |"];
    str_join ["|---|---:|"; str_join (map (fun _ => "---:|") logs)]] ++
   map (fun '(fixture, ids) =>
          str_join ["| `"; fixture; "` | "; int_str (Z.of_nat (length ids)); " | ";
                    piped (map (fun '(ran, (_, excluded)) => report_cell (list_to_set ids) ran excluded) checked); " |"]) cases,
   concat (map (fun '(_, (failures, _)) => failures) checked)).

Definition summarize (language : string) (ran : gset string) (cases : dict (list string)) : list string :=
  let known := known_cases cases in
  [str_join ["### "; language; ": ran "; int_str (Z.of_nat (size (ran ∩ known))); " of "; int_str (Z.of_nat (size known)); " fixture cases"];
   ""; "| Fixture | Ran | Cases |"; "|---|---:|---:|"] ++
  map (fun '(fixture, ids) =>
         str_join ["| `"; fixture; "` | "; int_str (Z.of_nat (size (ran ∩ list_to_set ids))); " | "; int_str (Z.of_nat (length ids)); " |"]) cases.

(** ** The command *)

Section Main.
Context (glob : string -> list string) (read : string -> string).
Context (logs_dir : string) (log_text : string -> option string) (exclusions_text : string).

Fixpoint load_logs (languages : list string) : res exn (dict (gset string) * list string) :=
  match languages with
  | [] => Ok ([], [])
  | language :: languages' =>
      ran ← (match log_text language with
             | Some text => load_log (str_join [logs_dir; "/"; language; ".jsonl"]) language text
             | None => Ok ∅
             end);
      rest ← load_logs languages';
      Ok ((language, ran) :: fst rest, match log_text language with Some _ => snd rest | None => language :: snd rest end)
  end.

Definition absent (language : string) : string :=
  str_join [language; ": no conformance log ("; language; ".jsonl); did its leg run?"].

(** [check --logs DIR]: the report and the exit code. *)
Definition main_check : res exn (list string * Z) :=
  cases ← load_cases glob read;
  loaded ← load_logs LANGUAGES;
  exclusions ← load_exclusions exclusions_text;
  let '(lines, failures) := check (fst loaded) cases exclusions in
  let failures := map absent (snd loaded) ++ failures in
  Ok (match failures with [] => lines | _ => lines ++ [""; "#### Failures"; ""] ++ map (String.append "- ") failures end,
      match failures with [] => 0%Z | _ => 1%Z end).

(** [report --language L --log FILE]. *)
Definition main_report (language path : string) (text : option string) : res exn (list string * Z) :=
  cases ← load_cases glob read;
  ran ← (match text with Some t => load_log path language t | None => Ok ∅ end);
  Ok (summarize language ran cases, 0%Z).
End Main.

(** ** What the gate demands *)

(** A language covers the known cases: it recorded no other, ran each or has an
    exclusion that matches it, and has no exclusion it does not need. *)
Record covers (known : gset string) (exclusions : list Exclusion) (language : string) (ran : gset string) : Prop := {
  c_known : ran ⊆ known;
  c_ran : forall cid, cid ∈ known -> cid ∈ ran \/ (exists e, e ∈ exclusions /\ x_language e = language /\ matches e cid = true);
  c_needed : forall e, e ∈ exclusions -> x_language e = language -> exists cid, cid ∈ known /\ (cid ∉ ran) /\ matches e cid = true }.

Lemma sorted_set_in s cid : cid ∈ sorted_set s <-> cid ∈ s.
Proof. unfold sorted_set. by rewrite py_sorted_perm, elem_of_elements. Qed.

Lemma map_nil {A B} (f : A -> B) l : map f l = [] <-> l = [].
Proof. by destruct l. Qed.

Lemma rows_of_in language exclusions e : e ∈ rows_of language exclusions <-> e ∈ exclusions /\ x_language e = language.
Proof. unfold rows_of. rewrite !list_elem_of_In, filter_In, String.eqb_eq. done. Qed.

Lemma existsb_elem {A} (p : A -> bool) l : existsb p l = true <-> exists x, x ∈ l /\ p x = true.
Proof. rewrite existsb_exists. by setoid_rewrite list_elem_of_In. Qed.

Lemma check_language_clean known exclusions language ran :
  fst (check_language known exclusions language ran) = [] <-> covers known exclusions language ran.
Proof.
  unfold check_language. cbn [fst]. rewrite !app_nil, !map_nil, !filter_nil, !Forall_forall. split.
  - intros (Hk & Hr & Hn). split.
    + intros cid Hc. destruct (decide (cid ∈ known)); [done|]. exfalso.
      assert (Hin : cid ∈ sorted_set (ran ∖ known)) by (rewrite sorted_set_in; set_solver). rewrite Hk in Hin. set_solver.
    + intros cid Hc. destruct (decide (cid ∈ ran)); [by left|right].
      assert (Hin : cid ∈ sorted_set (known ∖ ran)) by (rewrite sorted_set_in; set_solver).
      apply Hr in Hin. apply negb_false_iff, existsb_elem in Hin as (e & He & Hm). apply rows_of_in in He as [He Hl]. eauto.
    + intros e He Hl. assert (Hin : e ∈ rows_of language exclusions) by (by apply rows_of_in).
      apply Hn in Hin. apply negb_false_iff, existsb_elem in Hin as (cid & Hc & Hm). set_solver.
  - intros [Hk Hr Hn]. split_and!.
    + unfold sorted_set. rewrite (proj2 (elements_empty_iff _)); [done|]. set_solver.
    + intros cid Hc. apply sorted_set_in in Hc. destruct (Hr cid) as [|(e & He & Hl & Hm)]; [set_solver..|].
      apply negb_false_iff, existsb_elem. exists e. split; [by apply rows_of_in | done].
    + intros e [He Hl]%rows_of_in. destruct (Hn e He Hl) as (cid & Hc & Hnr & Hm).
      apply negb_false_iff, existsb_elem. exists cid. set_solver.
Qed.

Lemma check_clean logs cases exclusions :
  snd (check logs cases exclusions) = [] <-> forall language ran, (language, ran) ∈ logs -> covers (known_cases cases) exclusions language ran.
Proof.
  unfold check. cbn [snd]. induction logs as [|[language ran] logs IH]; cbn [map concat]; [set_solver|].
  destruct (check_language (known_cases cases) exclusions language ran) as [failures excluded] eqn:Hc.
  rewrite app_nil, IH. split.
  - intros [Hf Hl] language' ran' [[= -> ->]|Hin]%elem_of_cons; [|by apply Hl].
    apply check_language_clean. rewrite Hc. exact Hf.
  - intros H. split; [|intros; apply H; set_solver].
    change failures with (fst (failures, excluded)). rewrite <- Hc. apply check_language_clean, H. set_solver.
Qed.

(** ** What is read *)

(** A line of a log is a record of a case that a language ran. *)
Definition record_of (language line cid : string) : Prop :=
  exists record fixture section case, json_loads line = Some (JObj record) /\ dget record "language" = Some (JStr language) /\
    dget record "fixture" = Some fixture /\ dget record "section" = Some section /\ dget record "case" = Some case /\
    cid = case_id (py_str fixture) (py_str section) (py_str case).
Definition blank_line (line : string) : bool := negb (py_truthy_str (py_strip line)).
(** Every line that is not blank is one. *)
Definition readable (language : string) (lines : list string) : Prop :=
  forall line, line ∈ lines -> blank_line line = false -> exists cid, record_of language line cid.
Definition recorded (language : string) (lines : list string) (cid : string) : Prop :=
  exists line, line ∈ lines /\ blank_line line = false /\ record_of language line cid.

Lemma record_of_functional language line cid cid' :
  record_of language line cid -> record_of language line cid' -> cid = cid'.
Proof. intros (? & ? & ? & ? & ? & ? & ? & ? & ? & ->) (? & ? & ? & ? & ? & ? & ? & ? & ? & ->). congruence. Qed.

Lemma readable_cons language line lines : readable language (line :: lines) <->
  (blank_line line = false -> exists cid, record_of language line cid) /\ readable language lines.
Proof. unfold readable. setoid_rewrite elem_of_cons. naive_solver. Qed.
Lemma recorded_cons language line lines cid : recorded language (line :: lines) cid <->
  (blank_line line = false /\ record_of language line cid) \/ recorded language lines cid.
Proof. unfold recorded. setoid_rewrite elem_of_cons. naive_solver. Qed.

Lemma log_lines_blank path language lineno line lines ran : blank_line line = true ->
  log_lines path language ((lineno, line) :: lines) ran = log_lines path language lines ran.
Proof. intros H. cbn [log_lines]. fold (blank_line line). by rewrite H. Qed.
Lemma log_lines_record path language lineno line lines ran cid : blank_line line = false -> record_of language line cid ->
  log_lines path language ((lineno, line) :: lines) ran = log_lines path language lines ({[cid]} ∪ ran).
Proof.
  intros Hb (record & fx & sx & cx & Hj & Hl & Hf & Hs & Hc & ->). cbn [log_lines]. fold (blank_line line). rewrite Hb.
  unfold loads. rewrite Hj. unfold mbind. cbn [negb of_option res_bind any_get any_item].
  unfold dget_or. rewrite Hl, Hf, Hs, Hc. cbn [default from_option id of_option res_bind].
  by rewrite (proj2 (py_eq_str _ _) eq_refl).
Qed.
Lemma log_lines_Ok path language lineno line lines ran ran' : blank_line line = false ->
  log_lines path language ((lineno, line) :: lines) ran = Ok ran' -> exists cid, record_of language line cid.
Proof.
  intros Hb H. cbn [log_lines] in H. fold (blank_line line) in H. rewrite Hb in H. cbn [negb] in H. unfold loads in H. res_inv.
  destruct a as [| | | | | |record]; try discriminate. cbn [any_get any_item] in *. res_inv.
  destruct (py_eq _ (JStr language)) eqn:He; [|discriminate]. apply py_eq_str in He.
  eexists _, record, _, _, _. split_and!; try done. unfold dget_or in He. by destruct (dget record "language"); simplify_eq/=.
Qed.

(** A log is read when its lines are records for its language, and then names
    exactly their cases. *)
Lemma log_lines_ok path language lines : forall ran, is_ok (log_lines path language lines ran) = true <-> readable language (map snd lines).
Proof.
  induction lines as [|[lineno line] lines IH]; intros ran; [split; [by intros _ ? ?%elem_of_nil | done]|].
  cbn [map snd]. rewrite readable_cons. destruct (blank_line line) eqn:Hb.
  - rewrite log_lines_blank, IH by done. naive_solver.
  - split.
    + destruct (log_lines _ _ _ ran) as [ran'|] eqn:H; [|done]. destruct (log_lines_Ok _ _ _ _ _ _ _ Hb H) as [cid Hr].
      intros _. split; [by exists cid|]. rewrite (log_lines_record _ _ _ _ _ _ cid) in H by done.
      apply (IH ({[cid]} ∪ ran)). by rewrite H.
    + intros [Hr Hl]. destruct (Hr eq_refl) as [cid Hc]. rewrite (log_lines_record _ _ _ _ _ _ cid) by done. by apply IH.
Qed.
Lemma log_lines_in path language lines ran0 ran : log_lines path language lines ran0 = Ok ran ->
  forall cid, cid ∈ ran <-> cid ∈ ran0 \/ recorded language (map snd lines) cid.
Proof.
  revert ran0. induction lines as [|[lineno line] lines IH]; intros ran0 H cid.
  { injection H as <-. unfold recorded. set_solver. }
  cbn [map snd]. rewrite recorded_cons. destruct (blank_line line) eqn:Hb.
  - rewrite log_lines_blank in H by done. rewrite (IH _ H). naive_solver.
  - destruct (log_lines_Ok _ _ _ _ _ _ _ Hb H) as [cid0 Hr]. rewrite (log_lines_record _ _ _ _ _ _ cid0) in H by done.
    rewrite (IH _ H), elem_of_union, elem_of_singleton.
    assert (Hc : record_of language line cid <-> cid = cid0); [|naive_solver].
    split; [intros Hr'; exact (record_of_functional _ _ _ _ Hr' Hr) | by intros ->].
Qed.

Lemma map_snd_numbered {A} (l : list A) : map snd (numbered l) = l.
Proof.
  unfold numbered. assert (H : length l <= length (map Z.of_nat (seq 1 (length l)))) by (rewrite length_map, length_seq; lia).
  revert H. generalize (map Z.of_nat (seq 1 (length l))). induction l as [|x l IH]; intros [|n ns] H; simpl in *; try done; [lia|].
  f_equal. apply IH. lia.
Qed.

Lemma load_log_ok path language text : is_ok (load_log path language text) = true <-> readable language (splitlines text).
Proof. unfold load_log. by rewrite log_lines_ok, map_snd_numbered. Qed.
Lemma load_log_in path language text ran : load_log path language text = Ok ran ->
  forall cid, cid ∈ ran <-> recorded language (splitlines text) cid.
Proof. intros H cid. rewrite (log_lines_in _ _ _ _ _ H), map_snd_numbered. set_solver. Qed.

(** The parts of an identifier can be told from it. *)
Lemma sep_inj c a b x y : lacks c a = true -> lacks c b = true ->
  String.append a (String c x) = String.append b (String c y) -> a = b /\ x = y.
Proof.
  assert (Hself : forall t, lacks c (String c t) = false) by (intros t; unfold lacks; cbn; by rewrite Ascii.eqb_refl).
  revert b. induction a as [|d a IH]; intros [|e b] Ha Hb H; cbn [String.append] in H.
  - by injection H.
  - injection H as -> _. by rewrite Hself in Hb.
  - injection H as -> _. by rewrite Hself in Ha.
  - injection H as -> H. unfold lacks in *. cbn [str_forall] in *. py_bool. destruct (IH b) as [-> ->]; done.
Qed.
Lemma case_id_inj f s n f' s' n' : lacks "#" f = true -> lacks "#" f' = true -> lacks "/" s = true -> lacks "/" s' = true ->
  case_id f s n = case_id f' s' n' -> f = f' /\ s = s' /\ n = n'.
Proof.
  unfold case_id. cbn [str_join]. rewrite !str_app_nil_r. intros Hf Hf' Hs Hs' H.
  apply (sep_inj "#") in H as [-> H]; [|done..]. by apply (sep_inj "/") in H as [-> ->].
Qed.

(** The cases of a fixture have different identifiers. *)
Lemma section_ids_NoDup fixture section entries ids ids' : NoDup ids ->
  section_ids fixture section entries ids = Ok ids' -> NoDup ids'.
Proof.
  revert ids. induction entries as [|entry entries IH]; intros ids Hn H; cbn [section_ids] in H; [by injection H as <-|].
  destruct (negb _); [done|]. destruct (str_in _ ids) eqn:Hin; [done|]. eapply IH; [|exact H].
  apply str_in_false in Hin. apply NoDup_app. split_and!; [done | set_solver | by apply NoDup_singleton].
Qed.
Lemma fixture_ids_NoDup fixture data sections ids ids' : NoDup ids ->
  fixture_ids fixture data sections ids = Ok ids' -> NoDup ids'.
Proof.
  revert ids. induction sections as [|section sections IH]; intros ids Hn H; cbn [fixture_ids] in H; [by injection H as <-|].
  res_inv. eapply IH; [|exact H]. by eapply section_ids_NoDup.
Qed.
Definition distinct (cases : dict (list string)) : Prop := Forall (fun kv => NoDup (snd kv)) cases.
Lemma dset_distinct cases k ids : distinct cases -> NoDup ids -> distinct (dset cases k ids).
Proof.
  unfold distinct. intros Hc Hn. induction Hc as [|[k0 v0] cases H0 Hc IH]; cbn [dset]; [by repeat constructor|].
  destruct (String.eqb k k0); by constructor.
Qed.
Lemma load_cases_distinct glob read cases : load_cases glob read = Ok cases -> distinct cases.
Proof.
  assert (Hp : forall sections paths c c', distinct c -> family_cases read sections paths c = Ok c' -> distinct c').
  { intros sections paths. induction paths as [|fixture paths IH]; intros c c' Hc H; cbn [family_cases] in H; [by injection H as <-|].
    res_inv. eapply IH; [|exact H]. apply dset_distinct; [done|]. eapply fixture_ids_NoDup; [|done]. constructor. }
  unfold load_cases. assert (H0 : distinct []) by constructor. revert H0. generalize (@nil (string * list string)).
  induction FAMILIES as [|[pattern sections] families IH]; intros c Hc H; cbn [load_families] in H; [by injection H as <-|].
  res_inv. eapply IH; [|exact H]. by eapply Hp.
Qed.

(** ** The gate *)

Lemma load_logs_spec dir log_text languages logs missing : load_logs dir log_text languages = Ok (logs, missing) ->
  (forall l, l ∈ missing <-> l ∈ languages /\ log_text l = None) /\
  (forall l ran, (l, ran) ∈ logs -> l ∈ languages /\
     forall text, log_text l = Some text -> load_log (str_join [dir; "/"; l; ".jsonl"]) l text = Ok ran) /\
  (forall l, l ∈ languages -> exists ran, (l, ran) ∈ logs).
Proof.
  revert logs missing. induction languages as [|l0 languages IH]; intros logs missing H; cbn [load_logs] in H.
  { injection H as <- <-. set_solver. }
  res_inv. destruct a0 as [logs0 missing0]. cbn [fst snd] in *. destruct (IH _ _ Hr0) as (Hm & Hl & Ha). split_and!.
  - intros l. destruct (log_text l0) eqn:Ht; rewrite ?elem_of_cons, Hm; naive_solver.
  - intros l ran [[= -> ->]|Hin]%elem_of_cons; [|destruct (Hl _ _ Hin); set_solver].
    split; [set_solver|]. intros text Ht. by rewrite Ht in Hr.
  - intros l [->|Hin]%elem_of_cons; [set_solver|]. destruct (Ha l Hin). set_solver.
Qed.

Lemma load_logs_ok dir log_text languages : is_ok (load_logs dir log_text languages) = true <->
  forall language text, language ∈ languages -> log_text language = Some text -> readable language (splitlines text).
Proof.
  induction languages as [|l0 languages IH]; cbn [load_logs]; [set_solver|]. setoid_rewrite elem_of_cons.
  assert (H0 : is_ok (match log_text l0 with Some text => load_log (str_join [dir; "/"; l0; ".jsonl"]) l0 text | None => Ok ∅ end) = true
               <-> forall text, log_text l0 = Some text -> readable l0 (splitlines text)).
  { destruct (log_text l0) as [text|]; [|done]. rewrite load_log_ok. naive_solver. }
  transitivity ((forall text, log_text l0 = Some text -> readable l0 (splitlines text)) /\ is_ok (load_logs dir log_text languages) = true).
  - rewrite <- H0. clear. destruct (match log_text l0 with Some _ => _ | None => _ end); [|naive_solver].
    unfold mbind. cbn [res_bind]. destruct (load_logs _ _ languages); simpl; naive_solver.
  - rewrite IH. naive_solver.
Qed.

(** What a language must leave: a log whose lines are records for it, the cases
    of which cover the fixtures. *)
Definition language_covers (known : gset string) (rows : list Exclusion) (language : string) (log : option string) : Prop :=
  exists text ran, log = Some text /\ readable language (splitlines text) /\
    (forall cid, cid ∈ ran <-> recorded language (splitlines text) cid) /\ covers known rows language ran.

Section Gate.
Context (glob : string -> list string) (read : string -> string) (dir : string) (log_text : string -> option string)
  (exclusions_text : string).
Abbreviation gate := (main_check glob read dir log_text exclusions_text).

Lemma gate_returns : is_ok gate = true <->
  is_ok (load_cases glob read) = true /\ is_ok (load_exclusions exclusions_text) = true /\
  forall language text, language ∈ LANGUAGES -> log_text language = Some text -> readable language (splitlines text).
Proof.
  rewrite <- (load_logs_ok dir). unfold main_check. destruct (load_cases glob read) as [cases|]; [|naive_solver].
  unfold mbind. cbn [res_bind]. destruct (load_logs dir log_text LANGUAGES) as [[logs missing]|]; [|naive_solver]. cbn [res_bind].
  destruct (load_exclusions exclusions_text) as [rows|]; [|naive_solver]. cbn [res_bind fst snd].
  destruct (check logs cases rows). naive_solver.
Qed.

Lemma gate_code lines code : gate = Ok (lines, code) ->
  exists cases rows, load_cases glob read = Ok cases /\ load_exclusions exclusions_text = Ok rows /\
    (code = 0%Z \/ code = 1%Z) /\
    (code = 0%Z <-> forall language, language ∈ LANGUAGES -> language_covers (known_cases cases) rows language (log_text language)).
Proof.
  intros H. assert (Hok : is_ok gate = true) by by rewrite H. apply gate_returns in Hok as (_ & _ & Hread).
  unfold main_check in H. res_inv. destruct a0 as [logs missing]. cbn [fst snd] in *.
  destruct (check logs a a1) as [report failures] eqn:Hc. exists a, a1.
  apply load_logs_spec in Hr0 as (Hm & Hl & Ha). pose proof (check_clean logs a a1) as Hclean. rewrite Hc in Hclean. cbn [snd] in Hclean.
  split_and!; [done | done | injection H as _ <-; destruct (_ ++ failures); auto|].
  assert (Hcode : code = 0%Z <-> missing = [] /\ failures = []).
  { injection H as _ <-. destruct missing, failures; simpl; naive_solver. }
  rewrite Hcode, Hclean. unfold language_covers. split.
  - intros [-> Hcov] language Hin. destruct (Ha language Hin) as (ran & Hran).
    destruct (log_text language) as [text|] eqn:Ht; [|exfalso; assert (language ∈ @nil string) by (by apply Hm); set_solver].
    exists text, ran. destruct (Hl _ _ Hran) as [_ Hlog]. split_and!; [done | by eapply Hread | | by apply Hcov].
    eapply load_log_in. by apply Hlog.
  - intros Hall. split.
    + destruct missing as [|l missing]; [done|]. destruct (proj1 (Hm l)) as [Hin Hnone]; [set_solver|].
      destruct (Hall l Hin) as (text & ran & Ht & _). congruence.
    + intros language ran Hran. destruct (Hl _ _ Hran) as [Hin Hlog]. destruct (Hall language Hin) as (text & ran' & Ht & _ & Hrec & Hcov).
      replace ran with ran'; [done|]. apply leibniz_equiv. intros cid. rewrite Hrec, (load_log_in _ _ _ _ (Hlog _ Ht)). done.
Qed.

(** C31: the gate passes (returns, with code 0) exactly when the fixtures and the
    exclusions can be read and every language has a log that covers the fixtures:
    each of its lines that is not blank is a record for that language, the cases
    of its records are known cases, every other known case is matched by an
    exclusion for that language, and each such exclusion is still needed.  It
    returns at all, with code 0 or 1, exactly when fixtures and exclusions can be
    read and every such line of the logs that are there is a record for its
    language; any other, as a record for another language, ends the run with an
    exception.  The cases a fixture lists are distinct. *)
Theorem gate_passes_when_all_cover :
  ((exists lines, gate = Ok (lines, 0%Z)) <->
   exists cases rows, load_cases glob read = Ok cases /\ distinct cases /\ load_exclusions exclusions_text = Ok rows /\
     forall language, language ∈ LANGUAGES -> language_covers (known_cases cases) rows language (log_text language)) /\
  ((exists lines code, gate = Ok (lines, code) /\ (code = 0%Z \/ code = 1%Z)) <->
   is_ok (load_cases glob read) = true /\ is_ok (load_exclusions exclusions_text) = true /\
   forall language text, language ∈ LANGUAGES -> log_text language = Some text -> readable language (splitlines text)).
Proof.
  split.
  - split.
    + intros [lines H]. destruct (gate_code _ _ H) as (cases & rows & Hc & Hr & _ & Hpass). exists cases, rows.
      split_and!; [done | by eapply load_cases_distinct | done | by apply Hpass].
    + intros (cases & rows & Hc & _ & Hr & Hall). destruct gate as [[lines code]|e] eqn:H.
      * destruct (gate_code _ _ H) as (cases' & rows' & Hc' & Hr' & _ & Hpass).
        rewrite Hc in Hc'. rewrite Hr in Hr'. injection Hc' as <-. injection Hr' as <-.
        exists lines. by rewrite (proj2 Hpass Hall).
      * exfalso. assert (Hok : is_ok gate = true); [|by rewrite H in Hok]. apply gate_returns. rewrite Hc, Hr. split_and!; [done..|].
        intros language text Hin Ht. destruct (Hall language Hin) as (text' & ran & Ht' & Hread & _).
        rewrite Ht in Ht'. injection Ht' as <-. exact Hread.
  - rewrite <- gate_returns. split; [intros (lines & code & -> & _); done|].
    destruct gate as [[lines code]|] eqn:H; [|done]. intros _. exists lines, code. split; [done|].
    by destruct (gate_code _ _ H) as (_ & _ & _ & _ & ? & _).
Qed.
End Gate.

(** ** A run of the gate *)

Module Example.
Definition ex_glob (pattern : string) : list string :=
  if String.eqb pattern "toolformat/*-cases.json" then ["toolformat/glm-cases.json"] else [].
Definition ex_read (_ : string) : string := jq "{'family': 'glm', 'parse_calls': [{'name': 'single'}, {'name': 'two calls'}]}".
Definition ran_line (language case : string) : string :=
  str_join [jq "{'language': '"; language; jq "', 'fixture': 'toolformat/glm-cases.json', 'section': 'parse_calls', 'case': '"; case; jq "'}"; nl].
Definition jq_line (language case : string) : string := jq (ran_line language case).
(** Rust has no runner for one of the cases. *)
Definition ex_log (language : string) : option string :=
  Some (str_join (map (jq_line language) (if String.eqb language "rust" then ["single"] else ["single"; "two calls"]))).
Definition ex_exclusions (row : string) : string :=
  str_join ["| Language | Cases | Reason | Removed by |"; nl; "|---|---|---|---|"; nl; row; nl].
Definition rust_row : string := "| rust | `toolformat/*#parse_calls/two*` | no runner yet | HAI-1 |".

Definition ex_code (log : string -> option string) (row : string) : res exn Z :=
  r ← main_check ex_glob ex_read "logs" log (ex_exclusions row); Ok (snd r).
Lemma ex_passes : ex_code ex_log rust_row = Ok 0%Z.
Proof. vm_compute. reflexivity. Qed.

Lemma gate_passes_when_all_cover_witness :
  exists cases rows, load_exclusions (ex_exclusions rust_row) = Ok rows /\
    forall language, language ∈ LANGUAGES -> language_covers (known_cases cases) rows language (ex_log language).
Proof.
  assert (Hrun : exists lines, main_check ex_glob ex_read "logs" ex_log (ex_exclusions rust_row) = Ok (lines, 0%Z)).
  { pose proof ex_passes as Hcode. unfold ex_code in Hcode.
    destruct (main_check ex_glob ex_read "logs" ex_log (ex_exclusions rust_row)) as [[lines code]|]; [|discriminate Hcode].
    injection Hcode as ->. by exists lines. }
  destruct (proj1 (proj1 (gate_passes_when_all_cover ex_glob ex_read "logs" ex_log (ex_exclusions rust_row))) Hrun)
    as (cases & rows & _ & _ & Hrows & Hall).
  exists cases, rows. exact (conj Hrows Hall).
Defined.

(** A record for another language ends the run. *)
Example wrong_language_exits :
  ex_code (fun l => option_map (fun t => String.append t (if String.eqb l "go" then ran_line "rust" "single" else "")) (ex_log l)) rust_row
  = sys_exit "logs/go.jsonl:3: record is for 'rust', expected 'go'".
Proof. vm_compute. reflexivity. Qed.

(** A row that is no longer needed fails the gate, as a missing log does, and a
    bad row ends the run. *)
Example gate_fails :
  ex_code ex_log "| go | `*#*` | none | HAI-2 |" = Ok 1%Z /\
  ex_code (fun l => if String.eqb l "go" then None else ex_log l) rust_row = Ok 1%Z /\
  ex_code ex_log "| c | `*#*` | x | y |" = sys_exit "EXCLUSIONS.md:3: unknown language 'c'".
Proof. vm_compute. done. Qed.
End Example.
