(* ===== verification/Release.v ===== *)
(** * The release version and the compatibility table

    Module [Version]: [scripts/release/version.py], the one version of the
    repository and the files that carry it, with [check] and [set].  Module
    [Compat]: [scripts/release/compat.py], the table of supported proxies and the
    versions the documentation names.

    The repository is a dictionary from paths to texts, as [read_text] returns
    and [write_text] takes them; [denied] are the paths that cannot be written.
    What [\d] and [\w] match is an argument, and so is the value of a digit. *)
From Stdlib Require Import ZArith Lia Ascii String.
From stdpp Require Import base tactics list strings.
From S2P Require Import Prelude PyStr Types Regex PyLines.

(** ** Regular expressions *)

(** [fullmatch]: the groups. *)
Definition fullmatch (r : regex) (s : string) : option groups :=
  matches r (py_chars s) [] (fun rest g => match rest with [] => Some g | _ => None end).
(** [m.group(n)]: [None] for a group that took no part. *)
Definition group_opt (n : nat) (g : groups) : option string :=
  match List.find (fun p => Nat.eqb (fst p) n) g with Some p => Some (str_join (snd p)) | None => None end.
Definition group_str (n : nat) (g : groups) : string := str_join (group n g).

(** [re.MULTILINE]'s [^]: at the beginning, or after a line feed. *)
Definition line_start (prev : option string) (_ : list string) : bool :=
  match prev with None => true | Some c => is_char nl c end.

(** [finditer]: for each match what is before it, the match, its groups and what
    is after. *)
Fixpoint finditer (fuel : nat) (p : pattern) (prev : option string) (before s : list string)
  : list (list string * list string * groups * list string) :=
  match fuel with
  | O => []
  | S fuel' =>
      match search_from p prev s with
      | None => []
      | Some (b, m, rest, g) =>
          (before ++ b, m, g, rest) ::
          finditer fuel' p (match last (b ++ m) with Some c => Some c | None => prev end) (before ++ b ++ m) rest
      end
  end.

(** [subn]: the text with each match replaced, and how many there were. *)
Fixpoint subn (fuel : nat) (p : pattern) (f : list string -> groups -> list string) (prev : option string) (s : list string)
  : list string * nat :=
  match fuel with
  | O => (s, 0)
  | S fuel' =>
      match search_from p prev s with
      | None => (s, 0)
      | Some (b, m, rest, g) =>
          let '(t, n) := subn fuel' p f (match last (b ++ m) with Some c => Some c | None => prev end) rest in
          (b ++ f m g ++ t, S n)
      end
  end.

(** Whether a search or a match succeeded. *)
Definition found {A} (o : option A) : bool := match o with Some _ => true | None => false end.

Module Version.

Definition VERSION_FILE := "VERSION".
Definition RELEASE_TAG_PREFIX := "agentware-v".

Section Version.
Context (digit_char : string -> bool).

Definition nonzero (c : string) : bool := str_in c ["1"; "2"; "3"; "4"; "5"; "6"; "7"; "8"; "9"].
(** A number without leading zeros, as the group [n]. *)
Definition number (n : nat) : regex := RGroup n (RAlt (lit "0") (RCat (RChar nonzero) (RStar true (RChar digit_char)))).
Definition _SEMVER_RE : regex :=
  cats [number 1; lit "."; number 2; lit "."; number 3;
        opt (cats [lit "-"; RGroup 4 (RAlt (lit "alpha") (RAlt (lit "beta") (lit "rc"))); lit "."; number 5])].
Definition _PEP440_PRE : dict string := [("alpha", "a"); ("beta", "b"); ("rc", "rc")].

(** The groups of a match: the three numbers, and the pre-release. *)
Record semver := { major : string; minor : string; patch : string; prerelease : option (string * string) }.

Definition parse (value : string) : res exn semver :=
  match fullmatch _SEMVER_RE value with
  | None => Raise (Exn ValueError (str_join ["invalid version "; py_repr value; ": want X.Y.Z or X.Y.Z-(alpha|beta|rc).N"]))
  | Some g =>
      Ok {| major := group_str 1 g; minor := group_str 2 g; patch := group_str 3 g;
            prerelease := pre ← group_opt 4 g; num ← group_opt 5 g; Some (pre, num) |}
  end.

Definition pep440_of (v : semver) : string :=
  let base := str_join [major v; "."; minor v; "."; patch v] in
  match prerelease v with
  | None => base
  | Some (pre, num) => str_join [base; dget_or _PEP440_PRE pre ""; num]
  end.
Definition to_pep440 (value : string) : res exn string := v ← parse value; Ok (pep440_of v).

Definition release_tags (value : string) : res exn (dict string) :=
  _ ← parse value;
  python ← to_pep440 value;
  Ok [("release", String.append RELEASE_TAG_PREFIX value); ("go", String.append "go/v" value);
      ("python", String.append "agentware-py-v" python)].

(** ** The files that carry the version *)

(** The texts that may stand before the version at the beginning of a line; what
    follows its closing quote; and what is looked at after that.  The count is
    how many lines of the file carry it. *)
Record Target := {
  t_path : string; t_before : list string; t_suffix : string; t_ahead : list string; t_count : nat; t_pep440 : bool }.

Definition q : string := dquote.
Definition target (path before suffix : string) (pep440 : bool) : Target :=
  {| t_path := path; t_before := [before]; t_suffix := suffix; t_ahead := []; t_count := 1; t_pep440 := pep440 |}.
Definition version_key : string := str_join [q; "version"; q; ": "; q].
Definition TARGETS : list Target :=
  [target "typescript/package.json" (String.append "  " version_key) "" false;
   {| t_path := "typescript/package-lock.json";
      t_before := [String.append "  " version_key; String.append "      " version_key]; t_suffix := "";
      t_ahead := [str_join [","; nl; "  "; q; "lockfileVersion"; q]; str_join [","; nl; "      "; q; "license"; q]];
      t_count := 2; t_pep440 := false |};
   target "typescript/src/kei/runtimeLinkRuntime.ts" (String.append "const SDK_VERSION = " q) ";" false;
   target "python/pyproject.toml" (String.append "version = " q) "" true;
   target "python/src/haikeilabs/agentware/kei/runtime_link.py" (String.append "SDK_VERSION = " q) "" true;
   target "go/kei/runtimelink/link.go" (String.append "var sdkVersion = " q) "" false].

Fixpoint alts (l : list regex) : regex := match l with [] => REps | [r] => r | r :: l' => RAlt r (alts l') end.
Definition not_quote (c : string) : bool := negb (String.eqb c q).
Fixpoint is_prefix (l s : list string) : bool :=
  match l, s with
  | [], _ => true
  | c :: l', d :: s' => String.eqb c d && is_prefix l' s'
  | _ :: _, [] => false
  end.

(** The group 1 is the version; the group 0 is what is before it, so that it
    begins at [len(m.group(0))]. *)
Definition regex_of (t : Target) : pattern :=
  {| p_before := line_start;
     p_body := cats [RGroup 0 (alts (map lit (t_before t))); RGroup 1 (RStar true (RChar not_quote)); lit (String.append q (t_suffix t))];
     p_after := fun rest => match t_ahead t with [] => true | l => existsb (fun a => is_prefix (py_chars a) rest) l end |}.

Definition _expected (t : Target) (value : string) : res exn string := if t_pep440 t then to_pep440 value else Ok value.

(** [findall]: the versions a text carries. *)
Definition carried (t : Target) (text : string) : list string :=
  let cs := py_chars text in map (fun x => group_str 1 (snd (fst x))) (finditer (length cs) (regex_of t) None [] cs).

(** The replacement of the version inside a match. *)
Definition replaced (want : string) (m : list string) (g : groups) : list string :=
  take (length (group 0 g)) m ++ py_chars want ++ drop (length (group 0 g) + length (group 1 g)) m.
Definition rewritten (t : Target) (want text : string) : string * nat :=
  let cs := py_chars text in let '(out, n) := subn (length cs) (regex_of t) (replaced want) None cs in (str_join out, n).

(** ** Reading, checking, setting *)

Record Repo := { files : dict string; denied : string -> bool }.
Definition read_text (r : Repo) (path : string) : res exn string :=
  of_option (Exn OSError (str_join ["No such file or directory: "; path])) (dget (files r) path).
Definition write_text (path text : string) : eff Repo exn unit := fun r =>
  if denied r path then (Raise (Exn PermissionError (str_join ["Permission denied: "; path])), r)
  else (Ok tt, {| files := dset (files r) path text; denied := denied r |}).

Definition read_version (r : Repo) : res exn string :=
  text ← read_text r VERSION_FILE;
  let value := py_strip text in
  _ ← parse value;
  Ok value.

Definition found_lines (n count : nat) : string :=
  str_join ["found "; int_str (Z.of_nat n); " version line(s), want "; int_str (Z.of_nat count)].

Definition check_target (r : Repo) (value : string) (t : Target) : res exn (list string) :=
  want ← _expected t value;
  text ← read_text r (t_path t);
  let versions := carried t text in
  Ok (if negb (length versions =? t_count t)%nat
      then [str_join [t_path t; ": "; found_lines (length versions) (t_count t)]]
      else if existsb (fun got => negb (String.eqb got want)) versions
      then [str_join [t_path t; ": version "; String.concat ", " versions; ", want "; want]]
      else []).

Fixpoint check_targets (r : Repo) (value : string) (ts : list Target) : res exn (list string) :=
  match ts with
  | [] => Ok []
  | t :: ts' => errors ← check_target r value t; rest ← check_targets r value ts'; Ok (errors ++ rest)
  end.

Definition check (r : Repo) (tag : option string) : res exn (list string) :=
  match read_version r with
  | Raise e =>
      if is_os_error (exn_cls e) || bool_decide (exn_cls e = ValueError) then Ok [str_join [VERSION_FILE; ": "; exn_msg e]]
      else Raise e
  | Ok value =>
      errors ← check_targets r value TARGETS;
      Ok (match tag with
          | Some t => if String.eqb t (String.append RELEASE_TAG_PREFIX value) then errors
                      else str_join ["release tag "; t; " does not match "; VERSION_FILE; " "; value] :: errors
          | None => errors
          end)
  end.

(** The new text of every target, or an error before anything is written. *)
Fixpoint updates_of (r : Repo) (value : string) (ts : list Target) : res exn (list (string * string)) :=
  match ts with
  | [] => Ok []
  | t :: ts' =>
      text ← read_text r (t_path t);
      want ← _expected t value;
      let '(new, n) := rewritten t want text in
      _ ← guard_or (n =? t_count t)%nat (Exn ValueError (str_join [t_path t; ": "; found_lines n (t_count t)]));
      rest ← updates_of r value ts';
      Ok ((t_path t, new) :: rest)
  end.
Fixpoint write_all (updates : list (string * string)) : eff Repo exn unit :=
  match updates with
  | [] => mret tt
  | (path, text) :: updates' => _ ← write_text path text; write_all updates'
  end.

Definition set_version (value : string) : eff Repo exn unit := fun r =>
  match (_ ← parse value; updates_of r value TARGETS) with
  | Raise e => (Raise e, r)
  | Ok updates => (_ ← write_all updates; write_text VERSION_FILE (String.append value nl)) r
  end.
End Version.
End Version.

Module Compat.
Import Version.

Definition README := "README.md".
Definition PIN_FILE := "KEI_PROXY_VERSION".
Definition BEGIN := "<!-- compat:begin -->".
Definition END_ := "<!-- compat:end -->".

Section Compat.
Context (digit_char word_char : string -> bool) (digit_value : string -> Z).

Definition digits : regex := plus (RChar digit_char).
Definition dotted : regex := cats [digits; lit "."; digits; lit "."; digits].
Definition _PROXY_RE : regex := RCat (opt (lit "v")) (RGroup 1 dotted).
Definition _CLI_RE : regex := dotted.

Record Row := { sdk : string; kei_proxy : string; kei_cli : string }.

Definition _cells (line : string) : list string :=
  map (fun cell => strip_of "`" (py_strip cell)) (py_split "|" (strip_of "|" (py_strip line))).

(** ** The table *)

Definition value_error {A} (parts : list string) : res exn A := Raise (Exn ValueError (str_join parts)).

Definition parse_row (line : string) : res exn Row :=
  match _cells line with
  | [s; proxy; cli] =>
      _ ← parse digit_char s;
      _ ← guard_or (found (fullmatch _PROXY_RE proxy))
            (Exn ValueError (str_join [README; ": kei-proxy entry "; py_repr proxy; " is not a version"]));
      _ ← guard_or (found (fullmatch _CLI_RE cli))
            (Exn ValueError (str_join [README; ": kei-cli entry "; py_repr cli; " is not a version"]));
      Ok {| sdk := s; kei_proxy := proxy; kei_cli := cli |}
  | _ => value_error [README; ": compatibility row needs 3 columns: "; py_strip line]
  end.

(** [text[start + len(BEGIN) : end]], when both marks are there in order. *)
Definition between_marks (text : string) : option string :=
  match String.index 0 BEGIN text, String.index 0 END_ text with
  | Some start, Some end_ =>
      if (end_ <? start)%nat then None
      else let from := (start + String.length BEGIN)%nat in Some (String.substring from (end_ - from) text)
  | _, _ => None
  end.

Fixpoint parse_rows (lines : list string) : res exn (list Row) :=
  match lines with
  | [] => Ok []
  | line :: lines' => row ← parse_row line; rows ← parse_rows lines'; Ok (row :: rows)
  end.

Definition parse_table (text : string) : res exn (list Row) :=
  match between_marks text with
  | None => value_error [README; ": compatibility table markers "; BEGIN; " ... "; END_; " not found"]
  | Some body =>
      rows ← parse_rows (drop 2 (List.filter (fun line => py_truthy_str (py_strip line)) (splitlines body)));
      match rows with
      | [] => value_error [README; ": compatibility table has no rows"]
      | _ => Ok rows
      end
  end.

(** ** Versions named in the documentation *)

Definition white : regex := RChar is_space.
Definition not_word (s : list string) : bool := match s with c :: _ => negb (word_char c) | [] => true end.
(** The last character of a match is a digit or a letter, so that [\b] after it
    asks that no word character follows. *)
Definition _DOC_VERSION_RE : pattern :=
  {| p_before := word_boundary word_char;
     p_body := cats [ilit "agentware"; opt (cats [plus white; ilit "sdk"]); plus white; opt (ilit "v");
                     RGroup 1 digits; lit "."; RGroup 2 digits; lit "."; RGroup 3 digits];
     p_after := not_word |}.
Definition _FROM_RE : pattern :=
  {| p_before := word_boundary word_char; p_body := cats [ilit "from"; plus white]; p_after := at_end |}.
Definition _OR_LATER_RE : pattern :=
  {| p_before := fun _ _ => true; p_body := cats [plus white; ilit "or"; plus white; ilit "later"]; p_after := not_word |}.

Definition int_of (s : string) : Z := foldl (fun n c => (10 * n + digit_value c)%Z) 0%Z (py_chars s).
(** [a >= b] on tuples of three. *)
Definition not_older (a b : Z * Z * Z) : bool :=
  let '(a1, a2, a3) := a in let '(b1, b2, b3) := b in
  if (a1 =? b1)%Z then (if (a2 =? b2)%Z then (b3 <=? a3)%Z else (b2 <? a2)%Z) else (b1 <? a1)%Z.

Definition qualified (before after : list string) : bool :=
  found (search_from _FROM_RE None before) || found (match_pattern _OR_LATER_RE None after).
Definition line_of (before : list string) : Z := (Z.of_nat (length (List.filter (is_char nl) before)) + 1)%Z.

Definition stale_doc_versions (text current : string) : res exn (list (Z * string)) :=
  v ← parse digit_char current;
  let now := (int_of (major v), int_of (minor v), int_of (patch v)) in
  let cs := py_chars text in
  Ok (omap (fun '(before, m, g, after) =>
        let named := (int_of (group_str 1 g), int_of (group_str 2 g), int_of (group_str 3 g)) in
        if not_older named now then None
        else if qualified before after then None
        else Some (line_of before, str_join [group_str 1 g; "."; group_str 2 g; "."; group_str 3 g]))
      (finditer (length cs) _DOC_VERSION_RE None [] cs)).

(** [startswith(DOC_EXCLUDES)] and the directories of packages: which of the
    files the globs found are checked. *)
Definition doc_path (rel : string) : bool :=
  negb (py_startswith "docs/specs/" rel) && negb (str_in "node_modules" (py_split "/" rel)).

Fixpoint check_paths (r : Repo) (current : string) (paths : list string) : res exn (list string) :=
  match paths with
  | [] => Ok []
  | rel :: paths' =>
      text ← read_text r rel;
      stale ← stale_doc_versions text current;
      rest ← check_paths r current paths';
      Ok (map (fun '(line, named) =>
            str_join [rel; ":"; int_str line; ": names Agentware "; named; ", older than VERSION "; current; "; write "; q; "from "; named;
                      q; " or "; q; named; " or later"; q; ", or update it"]) stale ++ rest)
  end.

(** [globbed]: the files that [DOC_GLOBS] find, in order. *)
Definition check_docs (globbed : list string) (r : Repo) : res exn (list string) :=
  match read_version digit_char r with
  | Raise e => if is_os_error (exn_cls e) || bool_decide (exn_cls e = ValueError) then Ok [exn_msg e] else Raise e
  | Ok current => check_paths r current (List.filter doc_path globbed)
  end.

(** ** The check *)

Definition _normalize (proxy : string) : string :=
  match fullmatch _PROXY_RE proxy with Some g => group_str 1 g | None => proxy end.

Definition check (r : Repo) : res exn (list string) :=
  match read_text r PIN_FILE with
  | Raise e => Ok [str_join [PIN_FILE; ": "; exn_msg e]]
  | Ok text =>
      let pin := py_strip text in
      if negb (found (fullmatch _PROXY_RE pin))
      then Ok [str_join [PIN_FILE; ": "; py_repr pin; " is not a kei-proxy version (want vX.Y.Z)"]]
      else
        match (current ← read_version digit_char r; readme ← read_text r README; rows ← parse_table readme; Ok (current, rows)) with
        | Raise e => if is_os_error (exn_cls e) || bool_decide (exn_cls e = ValueError) then Ok [exn_msg e] else Raise e
        | Ok (current, rows) =>
            Ok match find_first (fun row => String.eqb (sdk row) current) rows with
               | None => [str_join [README; ": compatibility table has no row for agentware "; current; " (VERSION)"]]
               | Some row =>
                   if String.eqb (_normalize (kei_proxy row)) (_normalize pin) then []
                   else [str_join [README; ": agentware "; current; " lists kei-proxy "; kei_proxy row; ", but "; PIN_FILE; " pins "; pin]]
               end
        end
  end.

(** The command: its errors, or nothing and exit code 0. *)
Definition main (argv globbed : list string) (r : Repo) : res exn (list string * Z) :=
  if negb (bool_decide (argv = ["check"])) then Ok ([], 2%Z)
  else
    a ← check r;
    b ← check_docs globbed r;
    Ok (a ++ b, match a ++ b with [] => 0%Z | _ => 1%Z end).
End Compat.
End Compat.
