(* ===== verification/ReleaseFacts.v ===== *)
(** * What the patterns of the version targets match

    The matcher on a target's pattern, told exactly; that the replacement of
    [set_version] moves no match, makes none and loses none; and that each target
    of the repository is of the kind for which this holds. *)
From Stdlib Require Import ZArith Lia Ascii String.
From stdpp Require Import base tactics list strings.
From S2P Require Import Prelude PyStr Json JsonFacts Types Regex PyLines Release.

(** ** What the matcher does with the parts of a target *)

Lemma lit_chars_matches {A} l s g (k : list string -> groups -> option A) :
  matches (lit_chars l) (l ++ s) g k = k s g.
Proof.
  revert s. induction l as [|c [|d l] IH]; intros s; [done | |].
  - simpl. unfold is_char. by rewrite String.eqb_refl.
  - change (matches (lit_chars (c :: d :: l)) ((c :: d :: l) ++ s) g k)
      with (if is_char c c then matches (lit_chars (d :: l)) ((d :: l) ++ s) g k else None).
    unfold is_char. by rewrite String.eqb_refl.
Qed.

Lemma lit_chars_fails {A} l s g (k : list string -> groups -> option A) :
  (forall s', s <> l ++ s') -> matches (lit_chars l) s g k = None.
Proof.
  intros Hs. destruct (matches (lit_chars l) s g k) as [x|] eqn:Hm; [|done].
  apply matches_lang in Hm as (m & s' & g' & -> & Hl & _). apply lang_lit_chars in Hl as ->. by destruct (Hs s').
Qed.

(** A greedy run that cannot go further gives the rest its chance. *)
Lemma star_run {A} p u v g (k : list string -> groups -> option A) x :
  Forall (fun c => p c = true) u -> (forall c v', v = c :: v' -> p c = false) -> k v g = Some x ->
  matches (RStar true (RChar p)) (u ++ v) g k = Some x.
Proof.
  intros Hu Hv Hk. cbn [matches]. assert (Hn : length u <= length (u ++ v)) by (rewrite length_app; lia).
  revert Hn. generalize (length (u ++ v)). induction Hu as [|c u Hc Hu IH]; intros n Hn.
  - cbn [app]. destruct n as [|n]; [done|]. destruct v as [|c v]; [done|]. by rewrite (Hv c v eq_refl).
  - cbn [app length] in *. destruct n as [|n]; [lia|]. rewrite Hc.
    rewrite IH by lia. cbn [length]. by destruct (Nat.ltb_spec (length (u ++ v)) (S (length (u ++ v)))); [|lia].
Qed.

Section Targets.
Import Version.

Definition befores (t : Target) : list (list string) := map py_chars (t_before t).
Definition suffix (t : Target) : list string := py_chars (t_suffix t).
Definition ahead (t : Target) (s : list string) : bool :=
  match t_ahead t with [] => true | l => existsb (fun a => is_prefix (py_chars a) s) l end.
(** What has to follow the closing quote. *)
Definition tail_ok (t : Target) (s : list string) : Prop := exists rest, s = suffix t ++ rest /\ ahead t rest = true.
Definition quote_free (u : list string) : Prop := Forall (fun c => not_quote c = true) u.

(** What makes a target safe to rewrite: the texts before the version have a
    quote and no line feed and exclude each other; and what follows the quote is
    told without reading a version, the old one or the new one. *)
Record target_ok (t : Target) : Prop := {
  k_quote : py_chars (String.append q (t_suffix t)) = q :: suffix t;
  k_some : befores t <> [];
  k_before : forall bf, bf ∈ befores t -> (nl ∉ bf) /\ q ∈ bf;
  k_exclusive : forall bf bf' s s', bf ∈ befores t -> bf' ∈ befores t -> bf ++ s = bf' ++ s' -> bf = bf';
  k_suffix : nl ∉ suffix t;
  k_line : forall y bf z z', bf ∈ befores t -> last y = Some nl ->
    (tail_ok t (y ++ bf ++ z) -> tail_ok t (y ++ bf ++ z')) /\ ahead t (y ++ bf ++ z) = ahead t (y ++ bf ++ z');
  k_inside : forall h tl c z z', h ++ q :: tl ∈ befores t -> quote_free h -> is_char "0" c || nonzero c = true ->
    tail_ok t (tl ++ c :: z) -> tail_ok t (tl ++ z') }.

(** A match: one of the texts, a version, the quote and what has to follow. *)
Definition hit (t : Target) (prev : option string) (s bf u rest : list string) : Prop :=
  line_start prev s = true /\ bf ∈ befores t /\ quote_free u /\ s = bf ++ u ++ q :: suffix t ++ rest /\ ahead t rest = true.

Lemma alts_complete {A} l bf s g (k : list string -> groups -> option A) x :
  bf ∈ map py_chars l -> (forall bf' s', bf' ∈ map py_chars l -> bf ++ s = bf' ++ s' -> bf = bf') ->
  k s g = Some x -> matches (alts (map lit l)) (bf ++ s) g k = Some x.
Proof.
  induction l as [|a l IH]; intros Hin Hex Hk; [by apply elem_of_nil in Hin|].
  destruct l as [|b l].
  - cbn [map alts] in *. apply list_elem_of_singleton in Hin as ->. unfold lit. by rewrite lit_chars_matches.
  - change (match matches (lit a) (bf ++ s) g k with Some y => Some y | None => matches (alts (map lit (b :: l))) (bf ++ s) g k end = Some x).
    destruct (decide (bf = py_chars a)) as [->|Hne].
    + unfold lit at 1. rewrite lit_chars_matches. by rewrite Hk.
    + unfold lit at 1. rewrite lit_chars_fails; [|intros s' Hs; by apply Hne, (Hex _ s'); [left|]].
      apply IH; [|intros; eapply Hex; [by right | done] | done]. cbn [map] in Hin. by apply elem_of_cons in Hin as [->|].
Qed.

Lemma lit_group_free l : group_free (lit_chars l) = true.
Proof. induction l as [|c [|d l] IH]; done. Qed.
Lemma alts_group_free l : group_free (alts (map lit l)) = true.
Proof. induction l as [|a [|b l] IH]; [done | apply lit_group_free|]. apply andb_true_iff. split; [apply lit_group_free | exact IH]. Qed.
Lemma lang_alts l m : l <> [] -> lang (alts (map lit l)) m -> m ∈ map py_chars l.
Proof.
  induction l as [|a [|b l] IH]; intros Hl Hm; [done | |].
  - cbn in Hm. apply lang_lit in Hm as ->. by left.
  - change (lang (RAlt (lit a) (alts (map lit (b :: l)))) m) in Hm. inversion Hm; subst.
    + match goal with H : lang (lit a) m |- _ => apply lang_lit in H as -> end. by left.
    + right. by apply IH.
Qed.

Lemma take_front {A} (a b : list A) : take (length (a ++ b) - length b) (a ++ b) = a.
Proof. rewrite length_app. replace (length a + length b - length b) with (length a) by lia. apply take_app_length. Qed.

Lemma match_is_hit t prev s rest g : target_ok t -> match_pattern (regex_of t) prev s = Some (rest, g) ->
  exists bf u, hit t prev s bf u rest /\ g = [(1, u); (0, bf)].
Proof.
  intros Ht H. unfold match_pattern in H. cbn [p_before regex_of] in H. destruct (line_start prev s) eqn:Hl; [|done].
  cbn [p_body regex_of cats] in H.
  apply matches_group_cat in H as (bf & s1 & -> & Hbf & H); [|apply alts_group_free].
  apply matches_group_cat in H as (u & s2 & -> & Hu & H); [|done].
  apply matches_lang in H as (m & s3 & g' & -> & Hm & Hg & H). rewrite Hg in H by apply lit_group_free.
  apply lang_lit in Hm. rewrite (k_quote t Ht) in Hm. subst m. cbn [p_after regex_of] in H.
  destruct (match t_ahead t with [] => true | _ => _ end) eqn:Ha; [|done]. injection H as <- <-.
  exists bf, u. split; [|done]. split_and!; [done | | | done | done].
  - apply lang_alts; [|done]. intros Hnil. apply (k_some t Ht). unfold befores. by rewrite Hnil.
  - by eapply lang_star_forall.
Qed.

Lemma hit_matches t prev s bf u rest : target_ok t -> hit t prev s bf u rest ->
  match_pattern (regex_of t) prev s = Some (rest, [(1, u); (0, bf)]).
Proof.
  intros Ht (Hl & Hbf & Hu & -> & Ha). unfold match_pattern. cbn [p_before regex_of]. rewrite Hl.
  cbn [p_body regex_of cats]. cbn [matches].
  apply alts_complete; [done | intros bf' s' Hin He; by apply (k_exclusive t Ht _ _ _ _ Hbf Hin He)|].
  rewrite take_front. apply (star_run _ u (q :: suffix t ++ rest)); [done | |].
  - intros c v' [= <- _]. unfold not_quote. by rewrite String.eqb_refl.
  - rewrite take_front. unfold lit. rewrite (k_quote t Ht).
    change (q :: suffix t ++ rest) with ((q :: suffix t) ++ rest). rewrite lit_chars_matches. cbn [p_after regex_of].
    fold (ahead t rest). by rewrite Ha.
Qed.

(** ** Searching *)

(** The character before a position. *)
Definition at_pos (prev : option string) (x : list string) : option string :=
  match last x with Some c => Some c | None => prev end.
Lemma at_pos_cons prev c x : at_pos prev (c :: x) = at_pos (Some c) x.
Proof. unfold at_pos. change (c :: x) with ([c] ++ x). rewrite last_app. by destruct (last x). Qed.

Lemma search_inv p prev s b m rest g : search_from p prev s = Some (b, m, rest, g) ->
  s = b ++ m ++ rest /\ match_pattern p (at_pos prev b) (m ++ rest) = Some (rest, g) /\
  forall x y, b = x ++ y -> y <> [] -> match_pattern p (at_pos prev x) (y ++ m ++ rest) = None.
Proof.
  revert prev b. induction s as [|c s IH]; intros prev b H; cbn [search_from] in H.
  - destruct (match_pattern p prev []) as [[r g']|] eqn:Hm; [|done]. injection H as <- <- <- <-.
    pose proof Hm as (m' & Hs & _)%match_pattern_consumes. symmetry in Hs. apply app_eq_nil in Hs as [-> ->].
    split_and!; [done | done|]. intros x y Hb Hy. symmetry in Hb. by apply app_eq_nil in Hb as [_ ->].
  - destruct (match_pattern p prev (c :: s)) as [[r g']|] eqn:Hm.
    + assert (b = [] /\ m = take (length (c :: s) - length r) (c :: s) /\ rest = r /\ g = g') as (-> & -> & -> & ->) by (split_and!; congruence).
      pose proof Hm as (m' & Hs & _)%match_pattern_consumes. rewrite Hs, take_front. rewrite <- Hs. split_and!; [done | done|].
      intros x y Hb Hy. symmetry in Hb. by apply app_eq_nil in Hb as [_ ->].
    + destruct (search_from p (Some c) s) as [[[[b' m'] r'] g']|] eqn:Hf; [|done]. injection H as <- <- <- <-.
      apply IH in Hf as (-> & Hma & Hno). rewrite at_pos_cons. split_and!; [done | done|].
      intros [|d x] y Hb Hy; [cbn in Hb; subst y; exact Hm|]. injection Hb as <- Hb. rewrite at_pos_cons. by apply Hno.
Qed.

Lemma search_intro p prev b m rest g : match_pattern p (at_pos prev b) (m ++ rest) = Some (rest, g) ->
  (forall x y, b = x ++ y -> y <> [] -> match_pattern p (at_pos prev x) (y ++ m ++ rest) = None) ->
  search_from p prev (b ++ m ++ rest) = Some (b, m, rest, g).
Proof.
  revert prev. induction b as [|c b IH]; intros prev Hm Hno.
  - cbn in Hm. cbn [app]. destruct (m ++ rest) eqn:Hs; cbn [search_from]; rewrite Hm, <- Hs, take_front; done.
  - cbn [app search_from]. pose proof (Hno [] (c :: b) eq_refl ltac:(done)) as Hn. cbn in Hn. rewrite Hn.
    rewrite at_pos_cons in Hm. rewrite IH; [done | done|]. intros x y -> Hy.
    rewrite <- (at_pos_cons prev c x). by apply Hno.
Qed.

(** ** Rewriting and searching again *)

Lemma hit_line t prev b s bf u rest : hit t (at_pos prev b) s bf u rest -> b <> [] -> last b = Some nl.
Proof.
  intros (Hl & _) Hb. unfold at_pos in Hl. destruct (last b) as [c|] eqn:Hc; [|by apply last_None in Hc].
  unfold line_start, is_char in Hl. apply String.eqb_eq in Hl. by subst.
Qed.

Lemma last_tail {A} (x y : list A) c : y <> [] -> last (x ++ y) = Some c -> last y = Some c.
Proof. intros Hy. destruct (last y) as [d|] eqn:Hd; [|by apply last_None in Hd]. rewrite last_app, Hd. done. Qed.

Lemma quote_free_in u : quote_free u -> q ∈ u -> False.
Proof. intros Hu Hin. unfold quote_free in Hu. rewrite Forall_forall in Hu. by apply Hu in Hin. Qed.

(** No match begins before the version after the rewriting that did not begin
    there before. *)
Lemma no_new_match t prev x y bf c z z' : target_ok t -> bf ∈ befores t -> last y = Some nl ->
  is_char "0" c || nonzero c = true ->
  match_pattern (regex_of t) (at_pos prev x) (y ++ bf ++ z) = None ->
  match_pattern (regex_of t) (at_pos prev x) (y ++ bf ++ c :: z') = None.
Proof.
  intros Ht Hbf Hy Hc Hno. destruct (match_pattern _ _ (y ++ bf ++ c :: z')) as [[r g]|] eqn:Hm; [|done]. exfalso.
  apply match_is_hit in Hm as (bf2 & u2 & (Hl & Hbf2 & Hu2 & Hs & Ha) & _); [|done].
  assert (Hq : q ∈ bf) by by apply (k_before t Ht). assert (Hn : nl ∉ bf2) by by apply (k_before t Ht).
  assert (Hyn : y <> []) by by intros ->.
  assert (Hy2 : exists y2, y = bf2 ++ y2 /\ y2 <> []).
  { assert (Hnly : nl ∈ y) by (apply last_Some_elem_of in Hy; done).
    apply app_eq_app in Hs as (l & [[-> _]|[-> _]]).
    - exists l. split; [done|]. intros ->. rewrite app_nil_r in Hnly. done.
    - set_solver. }
  destruct Hy2 as (y2 & -> & Hy2). apply last_tail in Hy; [|done]. rewrite <- !(assoc_L (++)) in Hs. apply app_inv_head in Hs.
  assert (Hcut : exists tl, y2 ++ bf = u2 ++ q :: tl /\ tl ++ c :: z' = suffix t ++ r).
  { rewrite (assoc_L (++)) in Hs. apply app_eq_app in Hs as (l & [[He Hl']|[He Hl']]).
    - destruct l as [|d l]; [|injection Hl' as <- Hl'; by exists l].
      exfalso. apply (quote_free_in u2 Hu2). rewrite app_nil_r in He. rewrite <- He. set_solver.
    - exfalso. apply (quote_free_in u2 Hu2). rewrite He. set_solver. }
  destruct Hcut as (tl & Hcut & Htl).
  assert (Hok : tail_ok t (tl ++ z)).
  { assert (Hok' : tail_ok t (tl ++ c :: z')) by by exists r.
    apply app_eq_app in Hcut as (l & [[He Hl']|[He Hl']]).
    - destruct l as [|d t1]; [apply (k_inside t Ht [] tl c z'); [cbn in Hl' |- *; by rewrite Hl' | by apply Forall_nil | done | done]|].
      injection Hl' as <- ->. rewrite He in Hy. apply last_tail in Hy; [|done].
      destruct t1 as [|e t1]; [done|]. apply (last_tail [q]) in Hy; [|done].
      rewrite <- (assoc_L (++)). rewrite <- (assoc_L (++)) in Hok'. by eapply (k_line t Ht).
    - rewrite Hl' in Hbf. eapply (k_inside t Ht l); [done | | done | done].
      unfold quote_free in *. rewrite He in Hu2. by apply Forall_app in Hu2 as [_ ?]. }
  destruct Hok as (rest & Hrest & Har).
  assert (Hhit : hit t (at_pos prev x) ((bf2 ++ y2) ++ bf ++ z) bf2 u2 rest).
  { split_and!; try done. rewrite <- (assoc_L (++)), (assoc_L (++) y2), Hcut. rewrite <- (assoc_L (++)). cbn [app]. by rewrite Hrest. }
  apply hit_matches in Hhit; [|done]. congruence.
Qed.

Lemma last_not_line t s : target_ok t -> line_start (last (q :: suffix t)) s = false.
Proof.
  intros Ht. destruct (last (q :: suffix t)) as [d|] eqn:Hd; [|by apply last_None in Hd].
  unfold line_start, is_char. apply String.eqb_neq. intros <-. apply last_Some_elem_of, elem_of_cons in Hd as [Hd|Hd]; [done|].
  by apply (k_suffix t Ht).
Qed.

(** The rewriting replaces every match and makes no other: the text it returns
    has as many, each with the version wanted. *)
Lemma rescan t w c w' : target_ok t -> py_chars w = c :: w' -> quote_free (c :: w') -> is_char "0" c || nonzero c = true ->
  forall fuel prev s s' n, length s <= fuel -> subn fuel (regex_of t) (replaced w) prev s = (s', n) ->
  (line_start prev s = false -> ahead t s' = ahead t s) /\
  forall fuel' before, length s' <= fuel' ->
    map (fun x => group 1 (snd (fst x))) (finditer fuel' (regex_of t) prev before s') = repeat (c :: w') n.
Proof.
  intros Ht Hw Hwq Hc fuel. induction fuel as [|fuel IH]; intros prev s s' n Hfuel H.
  - destruct s; [|cbn in Hfuel; lia]. injection H as <- <-. split; [done|]. intros [|fuel'] before _; [done|]. cbn [finditer].
    destruct (search_from (regex_of t) prev []) as [[[[b m] rest] g]|] eqn:Hs; [|done]. exfalso.
    apply search_inv in Hs as (Hs & Hm & _). apply match_is_hit in Hm as (bf & u & (_ & Hbf & _ & He & _) & _); [|done].
    symmetry in Hs. apply app_eq_nil in Hs as [_ Hs]. rewrite Hs in He. apply (k_before t Ht) in Hbf as [_ Hq].
    symmetry in He. apply app_eq_nil in He as [-> _]. by apply elem_of_nil in Hq.
  - cbn [subn] in H. destruct (search_from (regex_of t) prev s) as [[[[b m] rest] g]|] eqn:Hs.
    2:{ injection H as <- <-. split; [done|]. intros [|fuel'] before _; [done|]. cbn [finditer]. by rewrite Hs. }
    destruct (subn fuel _ _ _ rest) as [rest' n'] eqn:Hr. injection H as <- <-.
    apply search_inv in Hs as (-> & Hm & Hno). apply match_is_hit in Hm as (bf & u & Hhit & ->); [|done].
    pose proof Hhit as (Hl & Hbf & Hu & He & Ha).
    assert (m = bf ++ u ++ q :: suffix t) as ->.
    { apply (app_inv_tail rest). rewrite He. rewrite <- !(assoc_L (++)). done. }
    assert (Hend : forall x, at_pos prev (b ++ bf ++ x ++ q :: suffix t) = last (q :: suffix t)).
    { intros x. unfold at_pos. rewrite !(assoc_L (++)), last_app. destruct (last (q :: suffix t)) eqn:Hd; [done|]. by apply last_None in Hd. }
    fold (at_pos prev (b ++ bf ++ u ++ q :: suffix t)) in Hr. assert (Hlen : length rest <= fuel) by (rewrite !length_app in Hfuel; cbn [length] in Hfuel; lia).
    rewrite Hend in Hr. destruct (IH _ _ _ _ Hlen Hr) as [Hah Hfind]. specialize (Hah (last_not_line t rest Ht)).
    assert (Hrep : replaced w (bf ++ u ++ q :: suffix t) [(1, u); (0, bf)] = bf ++ (c :: w') ++ q :: suffix t).
    { unfold replaced, group. cbn [List.find fst Nat.eqb snd]. rewrite take_app_length, Hw.
      rewrite (assoc_L (++) bf u), <- length_app, drop_app_length. done. }
    rewrite Hrep.
    assert (Hline : b <> [] -> last b = Some nl) by apply (hit_line _ _ _ _ _ _ _ Hhit).
    split.
    + intros Hprev. assert (Hb : b <> []) by (intros ->; change (line_start prev [] = true) in Hl; change (line_start prev [] = false) in Hprev; congruence).
      rewrite <- !(assoc_L (++)). apply (k_line t Ht); [done|]. by apply Hline.
    + intros fuel' before Hf. destruct fuel' as [|fuel']; [rewrite !length_app in Hf; cbn in Hf; lia|]. cbn [finditer].
      rewrite (search_intro (regex_of t) prev b (bf ++ (c :: w') ++ q :: suffix t) rest' [(1, c :: w'); (0, bf)]).
      * cbn [map fst snd repeat]. f_equal. rewrite <- (Hfind fuel' (before ++ b ++ bf ++ (c :: w') ++ q :: suffix t)) by (rewrite !length_app in Hf; cbn in Hf; lia).
        fold (at_pos prev (b ++ bf ++ (c :: w') ++ q :: suffix t)). by rewrite Hend.
      * apply hit_matches; [done|]. split_and!; [exact Hl | done | done | by rewrite <- !(assoc_L (++)) | by rewrite Hah].
      * intros x y -> Hy. specialize (Hno x y eq_refl Hy). rewrite <- (assoc_L (++)) in Hno |- *.
        eapply (no_new_match t prev x y bf c _ ((w' ++ q :: suffix t) ++ rest') Ht Hbf); [|exact Hc|exact Hno].
        apply (last_tail x); [done|]. apply Hline. by destruct x.
Qed.

(** ** The targets of the repository *)

(** What follows the first quote. *)
Definition after_quote (l : list string) : list string := tail (drop_while not_quote l).
Lemma after_quote_app h tl : quote_free h -> after_quote (h ++ q :: tl) = tl.
Proof. unfold after_quote, quote_free. induction 1 as [|c h Hc _ IH]; cbn [app drop_while]; [done|]. by rewrite Hc. Qed.

Lemma tail_line t y bf z z' : (nl ∉ suffix t) ->
  (forall y', last y' = Some nl -> ahead t (y' ++ bf ++ z) = ahead t (y' ++ bf ++ z')) ->
  last y = Some nl -> tail_ok t (y ++ bf ++ z) -> tail_ok t (y ++ bf ++ z').
Proof.
  intros Hs Hah Hy (rest & He & Ha). apply app_eq_app in He as (l & [[-> ->]|[He _]]).
  - assert (Hl : l <> []) by (intros ->; rewrite app_nil_r in Hy; by apply Hs, last_Some_elem_of).
    apply last_tail in Hy; [|done]. exists (l ++ bf ++ z'). rewrite <- (assoc_L (++)). split; [done|]. by rewrite <- (Hah l Hy).
  - destruct Hs. rewrite He. apply elem_of_app. left. by apply last_Some_elem_of.
Qed.

Lemma tail_free t s : suffix t = [] -> t_ahead t = [] -> tail_ok t s.
Proof. intros Hs Ha. exists s. unfold ahead. by rewrite Hs, Ha. Qed.

Definition simple (t : Target) : bool :=
  match t_ahead t, t_before t with
  | [], [b] =>
      bool_decide (py_chars (String.append q (t_suffix t)) = q :: suffix t) && bool_decide (nl ∉ py_chars b) &&
      bool_decide (q ∈ py_chars b) && bool_decide (nl ∉ suffix t) &&
      match suffix t with
      | [] => true
      | d :: _ => match after_quote (py_chars b) with [] => negb (is_char "0" d || nonzero d) | _ => false end
      end
  | _, _ => false
  end.

Lemma simple_ok t : simple t = true -> target_ok t.
Proof.
  unfold simple. intros H. destruct (t_ahead t) eqn:Ha; [|done]. destruct (t_before t) as [|b [|b' l]] eqn:Hb; try done.
  rewrite !andb_true_iff, !bool_decide_eq_true in H. destruct H as ((((Hq & Hnl) & Hqb) & Hs) & Hd).
  assert (Hbe : befores t = [py_chars b]) by (unfold befores; by rewrite Hb).
  assert (Hah : forall s, ahead t s = true) by (intros s; unfold ahead; by rewrite Ha).
  split; try done.
  - by rewrite Hbe.
  - intros bf Hin. rewrite Hbe in Hin. by apply list_elem_of_singleton in Hin as ->.
  - intros bf bf' s s' Hin Hin'. rewrite Hbe in Hin, Hin'. by apply list_elem_of_singleton in Hin as ->, Hin' as ->.
  - intros y bf z z' _ Hy. rewrite !Hah. split; [|done]. apply tail_line; [done | | done]. intros. by rewrite !Hah.
  - intros h tl c z z' Hin Hh Hc (rest & He & _). rewrite Hbe in Hin. apply list_elem_of_singleton in Hin.
    assert (Htl : after_quote (py_chars b) = tl) by (rewrite <- Hin; by apply after_quote_app). rewrite Htl in Hd.
    destruct (suffix t) as [|d u] eqn:Hsu; [by apply tail_free|]. destruct tl as [|e tl]; [|done].
    injection He as -> _. by rewrite Hc in Hd.
Qed.

(** A prefix without a line feed is told from what is before a line feed. *)
Lemma prefix_line l y x x' : (nl ∉ l) -> last y = Some nl -> is_prefix l (y ++ x) = is_prefix l (y ++ x').
Proof.
  intros Hl Hy. apply last_Some_elem_of in Hy. revert l Hl. induction y as [|d y IH]; intros [|c l] Hl; try done; [by apply elem_of_nil in Hy|].
  cbn [app is_prefix]. destruct (String.eqb_spec c d) as [->|]; [|done]. apply not_elem_of_cons in Hl as [Hd Hl]. apply IH; [|done].
  by apply elem_of_cons in Hy as [?|].
Qed.

(** A comma, a line feed and a text that the version line does not begin with. *)
Lemma prefix_comma l y bf z z' : (nl ∉ l) -> (forall x, is_prefix l (bf ++ x) = false) -> last y = Some nl ->
  is_prefix ("," :: nl :: l) (y ++ bf ++ z) = is_prefix ("," :: nl :: l) (y ++ bf ++ z').
Proof.
  intros Hl Hbf Hy. destruct y as [|d [|e y]]; [done | |].
  - injection Hy as ->. reflexivity.
  - cbn [app is_prefix]. destruct (String.eqb "," d); [|done]. destruct (String.eqb nl e); [|done]. cbn [andb].
    destruct y as [|f y]; [cbn [app]; by rewrite !Hbf|]. apply prefix_line; [done|]. by apply (last_tail [d; e]) in Hy.
Qed.

Definition lock_target : Target := List.nth 1 TARGETS (target "" "" "" false).
Lemma lock_target_ok : target_ok lock_target.
Proof.
  assert (Hah : forall y bf z z', bf ∈ befores lock_target -> last y = Some nl -> ahead lock_target (y ++ bf ++ z) = ahead lock_target (y ++ bf ++ z')).
  { intros y bf z z' Hbf Hy.
    change (is_prefix ("," :: nl :: py_chars (str_join ["  "; q; "lockfileVersion"; q])) (y ++ bf ++ z) ||
            (is_prefix ("," :: nl :: py_chars (str_join ["      "; q; "license"; q])) (y ++ bf ++ z) || false) =
            is_prefix ("," :: nl :: py_chars (str_join ["  "; q; "lockfileVersion"; q])) (y ++ bf ++ z') ||
            (is_prefix ("," :: nl :: py_chars (str_join ["      "; q; "license"; q])) (y ++ bf ++ z') || false)).
    assert (Hno : forall l, l ∈ [py_chars (str_join ["  "; q; "lockfileVersion"; q]); py_chars (str_join ["      "; q; "license"; q])] ->
              (nl ∉ l) /\ forall x, is_prefix l (bf ++ x) = false).
    { intros l Hin. split.
      - revert l Hin. apply (Forall_forall (fun l => nl ∉ l)). refine (bool_decide_unpack _ _). vm_compute. exact I.
      - intros x. apply elem_of_cons in Hbf as [->|Hbf]; [|apply list_elem_of_singleton in Hbf as ->];
          apply elem_of_cons in Hin as [->|Hin]; try apply list_elem_of_singleton in Hin as ->; reflexivity. }
    destruct (Hno _ (list_elem_of_here _ _)) as [Hn1 Hf1], (Hno _ (list_elem_of_further _ _ _ (list_elem_of_here _ _))) as [Hn2 Hf2].
    by rewrite (prefix_comma _ y bf z z' Hn1 Hf1 Hy), (prefix_comma _ y bf z z' Hn2 Hf2 Hy). }
  split.
  - reflexivity.
  - done.
  - apply (Forall_forall (fun bf => (nl ∉ bf) /\ q ∈ bf)). refine (bool_decide_unpack _ _). vm_compute. exact I.
  - intros bf bf' s s' Hin Hin'. vm_compute in Hin, Hin'.
    apply elem_of_cons in Hin as [->|Hin]; [|apply list_elem_of_singleton in Hin as ->];
      (apply elem_of_cons in Hin' as [->|Hin']; [|apply list_elem_of_singleton in Hin' as ->]); done.
  - exact (not_elem_of_nil nl).
  - intros y bf z z' Hbf Hy. split; [|by apply Hah]. apply tail_line; [exact (not_elem_of_nil nl) | | done]. intros. by apply Hah.
  - intros h tl c z z' Hin Hh Hc (rest & He & Ha). exfalso.
    assert (Htl : tl = py_chars (str_join ["version"; q; ": "; q])).
    { apply elem_of_cons in Hin as [Hin|Hin]; [|apply list_elem_of_singleton in Hin];
        rewrite <- (after_quote_app h tl Hh), Hin; reflexivity. }
    change (suffix lock_target) with (@nil string) in He. cbn [app] in He. rewrite <- He, Htl in Ha. done.
Qed.

Lemma targets_ok t : t ∈ TARGETS -> target_ok t.
Proof.
  intros H. assert (Hall : Forall (fun t => t = lock_target \/ simple t = true) TARGETS).
  { repeat (apply Forall_cons; split; [(right; vm_compute; reflexivity) || (left; reflexivity)|]). by apply Forall_nil. }
  rewrite Forall_forall in Hall. destruct (Hall t H) as [->|Hs]; [apply lock_target_ok | by apply simple_ok].
Qed.
End Targets.
