(* ===== verification/ReleaseSet.v ===== *)
(** * Setting a version makes the check pass

    What [parse] accepts, that the writing of [set_version] puts the new texts in
    place and leaves the other files alone, and that [check] then agrees. *)
From Stdlib Require Import ZArith Lia Ascii String.
From stdpp Require Import base tactics list strings.
From S2P Require Import Prelude PyStr Json JsonFacts Types Regex PyLines Release ReleaseFacts.
Import Version.

(** ** Lists of characters *)

(** A character as [py_chars] gives it. *)
Definition ok_char (c : string) : Prop := py_chars c = [c] /\ starts_cont c = false.

Lemma chars_ok s : starts_cont s = false -> Forall ok_char (py_chars s).
Proof.
  remember (py_chars s) as l eqn:Hl. revert s Hl. induction l as [|c l IH]; intros s Hl Hs; [constructor|].
  symmetry in Hl. destruct (py_chars_tail s c l Hl) as (Hne & Hc & Ht & Hst). constructor.
  - split; [done|]. rewrite <- (str_join_chars s), Hl in Hs. cbn [str_join] in Hs. by destruct c.
  - by apply (IH (str_join l)).
Qed.

Lemma ok_join_starts l : Forall ok_char l -> starts_cont (str_join l) = false.
Proof. intros [|c l' [Hc Hs] _]; [done|]. cbn [str_join]. by destruct c. Qed.

Lemma chars_join l : Forall ok_char l -> py_chars (str_join l) = l.
Proof.
  induction 1 as [|c l [Hc Hs] Hl IH]; [done|]. cbn [str_join]. rewrite py_chars_app by by apply ok_join_starts. by rewrite Hc, IH.
Qed.

(** ** What a version is made of *)

(** A character that is neither a quote nor white. *)
Definition plain (c : string) : Prop := not_quote c = true /\ is_space c = false.
(** The characters of a version: a digit first, and no quote or white space. *)
Definition version_chars (l : list string) : Prop :=
  exists c l', l = c :: l' /\ is_char "0" c || nonzero c = true /\ Forall plain l /\ Forall ok_char l.

Lemma first_digit c : is_char "0" c || nonzero c = true -> c ∈ ["0"; "1"; "2"; "3"; "4"; "5"; "6"; "7"; "8"; "9"].
Proof.
  intros [H|H]%orb_true_iff; [apply String.eqb_eq in H as <-; by left|].
  right. unfold nonzero, str_in in H. apply existsb_exists in H as (d & Hin & Hd).
  apply String.eqb_eq in Hd as ->. by apply list_elem_of_In.
Qed.

Lemma first_digit_plain c : is_char "0" c || nonzero c = true -> plain c /\ forall s, starts_cont (String.append c s) = false.
Proof.
  intros H%first_digit. revert c H. apply (Forall_forall (fun c => plain c /\ forall s, starts_cont (String.append c s) = false)).
  repeat constructor.
Qed.

Section Parse.
Context (digit_char : string -> bool).
(** [\d] matches digits: no white space and no quote. *)
Hypothesis digit_plain : forall c, digit_char c = true -> is_space c = false /\ c <> q.

Definition numeral (m : list string) : Prop := exists c m', m = c :: m' /\ is_char "0" c || nonzero c = true /\ Forall plain m.
Lemma number_lang m : lang (RAlt (lit "0") (RCat (RChar nonzero) (RStar true (RChar digit_char)))) m -> numeral m.
Proof.
  intros Hm. inversion Hm as [| | |? ? ? Hz|? ? ? Hz| | |]; subst.
  - apply lang_lit in Hz as ->. exists "0", []. split_and!; [done | done|]. by repeat constructor.
  - inversion Hz as [| |? ? x y Hx Hy| | | | |]; subst. inversion Hx as [? c Hc| | | | | | |]; subst.
    assert (Hd : is_char "0" c || nonzero c = true) by (rewrite Hc; apply orb_true_r).
    exists c, y. split_and!; [done | done|]. constructor; [by apply first_digit_plain|].
    apply lang_star_forall in Hy. eapply Forall_impl; [exact Hy|]. intros d Hdc. destruct (digit_plain d Hdc) as [Hs Hq].
    split; [|done]. unfold not_quote. apply negb_true_iff. by apply String.eqb_neq.
Qed.

(** The numbers and the name that [parse] accepted. *)
Definition parts_of (v : semver) (m1 m2 m3 : list string) (l : list string) : Prop :=
  major v = str_join m1 /\ minor v = str_join m2 /\ patch v = str_join m3 /\
  ((prerelease v = None /\ l = m1 ++ "." :: m2 ++ "." :: m3) \/
   exists m4 m5, m4 ∈ [py_chars "alpha"; py_chars "beta"; py_chars "rc"] /\ numeral m5 /\
     prerelease v = Some (str_join m4, str_join m5) /\ l = m1 ++ "." :: m2 ++ "." :: m3 ++ "-" :: m4 ++ "." :: m5).

Lemma name_lang m : lang (RAlt (lit "alpha") (RAlt (lit "beta") (lit "rc"))) m ->
  m ∈ [py_chars "alpha"; py_chars "beta"; py_chars "rc"].
Proof.
  intros H. inversion H as [| | |? ? ? Hm|? ? ? Hm| | |]; subst; [apply lang_lit in Hm as ->; by left|].
  right. inversion Hm as [| | |? ? ? Hn|? ? ? Hn| | |]; subst; apply lang_lit in Hn as ->; [by left | right; by left].
Qed.

Lemma matches_opt {A} r s g (k : list string -> groups -> option A) :
  matches (opt r) s g k = match matches r s g k with Some x => Some x | None => k s g end.
Proof. reflexivity. Qed.

Lemma parse_parts value v : parse digit_char value = Ok v ->
  exists m1 m2 m3, numeral m1 /\ numeral m2 /\ numeral m3 /\ parts_of v m1 m2 m3 (py_chars value).
Proof.
  unfold parse, fullmatch. destruct (matches _ _ _ _) as [g|] eqn:H; [|done]. intros [= <-].
  unfold _SEMVER_RE, number in H. cbn [cats] in H.
  apply matches_group_cat in H as (m1 & s1 & -> & H1%number_lang & H); [|done].
  apply matches_plain in H as (x1 & s2 & -> & Hx1%lang_lit & H); [|done].
  apply matches_group_cat in H as (m2 & s3 & -> & H2%number_lang & H); [|done].
  apply matches_plain in H as (x2 & s4 & -> & Hx2%lang_lit & H); [|done].
  apply matches_group_cat in H as (m3 & s5 & -> & H3%number_lang & H); [|done].
  exists m1, m2, m3. split_and!; [done | done | done|]. rewrite matches_opt in H.
  destruct (matches (RCat _ _) _ _ _) as [g'|] eqn:Hp.
  - injection H as ->. apply matches_plain in Hp as (x3 & s6 & -> & Hx3%lang_lit & H); [|done].
    apply matches_group_cat in H as (m4 & s7 & -> & H4%name_lang & H); [|done].
    apply matches_plain in H as (x4 & s8 & -> & Hx4%lang_lit & H); [|done].
    apply matches_group in H as (m5 & s9 & -> & H5%number_lang & H); [|done].
    destruct s9; [|done]. injection H as <-. subst. rewrite app_nil_r. unfold parts_of, group_str, group_opt, group. cbn.
    split_and!; [done..|]. right. by exists m4, m5.
  - destruct s5; [|done]. injection H as <-. subst. rewrite app_nil_r. unfold parts_of, group_str, group_opt, group. cbn.
    split_and!; [done..|]. by left.
Qed.

Lemma version_intro m x : numeral m -> Forall plain x -> Forall ok_char (m ++ x) -> version_chars (m ++ x).
Proof.
  intros (c & m' & -> & Hc & Hp) Hx Hok. exists c, (m' ++ x). split_and!; [done | done | | done].
  by apply Forall_app.
Qed.

Lemma numeral_plain m : numeral m -> Forall plain m.
Proof. by intros (c & m' & -> & _ & ?). Qed.

Lemma numeral_starts m s : numeral m -> starts_cont (str_join (m ++ s)) = false.
Proof. intros (c & m' & -> & Hc & _). apply first_digit_plain in Hc as [_ Hs]. exact (Hs (str_join (m' ++ s))). Qed.

Lemma name_spelling m : m ∈ [py_chars "alpha"; py_chars "beta"; py_chars "rc"] ->
  Forall plain m /\ exists p, dget_or _PEP440_PRE (str_join m) "" = str_join p /\ Forall plain p /\ Forall ok_char p.
Proof.
  intros [->|[->|[->|[]%elem_of_nil]%elem_of_cons]%elem_of_cons]%elem_of_cons;
    (split; [by repeat constructor|]); [exists ["a"] | exists ["b"] | exists ["r"; "c"]]; by repeat constructor.
Qed.

Ltac plain_parts := repeat first [apply Forall_app; split | apply Forall_cons; split | by apply numeral_plain | apply Forall_nil; exact I | done].

(** A version and its PEP 440 spelling are texts of plain characters that begin
    with a digit. *)
Lemma parse_version value v : parse digit_char value = Ok v ->
  version_chars (py_chars value) /\ version_chars (py_chars (pep440_of v)).
Proof.
  intros (m1 & m2 & m3 & H1 & H2 & H3 & Ha & Hb & Hc & H)%parse_parts.
  assert (Hok : Forall ok_char (py_chars value)).
  { apply chars_ok. rewrite <- (str_join_chars value). destruct H as [[_ ->]|(m4 & m5 & _ & _ & _ & ->)]; by apply numeral_starts. }
  destruct H as [[Hp He]|(m4 & m5 & H4 & H5 & Hp & He)]; rewrite He in Hok |- *.
  - assert (Hv : version_chars (m1 ++ "." :: m2 ++ "." :: m3)) by (apply version_intro; [done | plain_parts | done]).
    split; [done|]. replace (pep440_of v) with (str_join (m1 ++ "." :: m2 ++ "." :: m3)); [by rewrite chars_join|].
    unfold pep440_of. rewrite Hp, Ha, Hb, Hc. repeat (rewrite str_join_app; cbn [str_join]). by rewrite str_app_nil_r.
  - apply name_spelling in H4 as [H4 (p & Hpre & Hpp & Hpo)].
    split; [apply version_intro; [done | plain_parts | done]|].
    assert (Hoks : Forall ok_char (m1 ++ "." :: m2 ++ "." :: m3 ++ p ++ m5)).
    { repeat (rewrite Forall_app in Hok || rewrite Forall_cons in Hok). repeat (rewrite Forall_app || rewrite Forall_cons). tauto. }
    replace (pep440_of v) with (str_join (m1 ++ "." :: m2 ++ "." :: m3 ++ p ++ m5)).
    + rewrite chars_join by done. apply version_intro; [done | plain_parts | done].
    + unfold pep440_of. rewrite Hp, Ha, Hb, Hc, Hpre. cbn [str_join]. rewrite !str_app_nil_r.
      repeat (rewrite str_join_app; cbn [str_join]). by rewrite !str_app_assoc.
Qed.
End Parse.

(** ** Writing *)

Lemma write_all_ok updates r r' : NoDup (map fst updates) -> write_all updates r = (Ok tt, r') ->
  (forall p text, (p, text) ∈ updates -> dget (files r') p = Some text) /\
  (forall p, p ∉ map fst updates -> dget (files r') p = dget (files r) p).
Proof.
  revert r. induction updates as [|[p0 t0] updates IH]; intros r Hnd H.
  - injection H as <-. split; [by intros p text ?%elem_of_nil | done].
  - cbn [map fst] in Hnd. apply NoDup_cons in Hnd as [Hp0 Hnd]. cbn [write_all] in H. unfold mbind, eff_bind, write_text in H.
    destruct (denied r p0); [done|]. apply IH in H as [Hin Hout]; [|done]. split.
    + intros p text [[= -> ->]|Hu]%elem_of_cons; [|by apply Hin]. rewrite Hout by done. apply dget_dset_eq.
    + intros p Hp. cbn [map fst] in Hp. apply not_elem_of_cons in Hp as [Hne Hp]. rewrite Hout by done. by apply dget_dset_ne.
Qed.

Lemma write_all_total updates r : (forall p, denied r p = false) ->
  exists r', write_all updates r = (Ok tt, r') /\ forall p, denied r' p = false.
Proof.
  revert r. induction updates as [|[p t] updates IH]; intros r Hd; [by exists r|].
  cbn [write_all]. unfold mbind, eff_bind, write_text. rewrite Hd. by apply IH.
Qed.

(** ** What is found is what is replaced *)

Lemma found_replaced p f fuel prev before s : length (finditer fuel p prev before s) = snd (subn fuel p f prev s).
Proof.
  revert prev before s. induction fuel as [|fuel IH]; intros prev before s; [done|]. cbn [finditer subn].
  destruct (search_from p prev s) as [[[[b m] rest] g]|]; [|done]. cbn [length].
  rewrite (IH _ (before ++ b ++ m)). by destruct (subn fuel p f _ rest).
Qed.

Lemma carried_rewritten t w text : length (carried t text) = snd (rewritten t w text).
Proof.
  unfold carried, rewritten. rewrite length_map, (found_replaced _ (replaced w)). by destruct (subn _ _ _ _ _).
Qed.

Lemma subn_forall (P : string -> Prop) p f fuel prev s : (forall m g, Forall P m -> Forall P (f m g)) ->
  Forall P s -> Forall P (fst (subn fuel p f prev s)).
Proof.
  intros Hf. revert prev s. induction fuel as [|fuel IH]; intros prev s Hs; [done|]. cbn [subn].
  destruct (search_from p prev s) as [[[[b m] rest] g]|] eqn:Hm; [|done]. apply search_inv in Hm as (-> & _ & _).
  apply Forall_app in Hs as [Hb [Hm Hr]%Forall_app]. specialize (IH (at_pos prev (b ++ m)) rest Hr).
  unfold at_pos in IH. destruct (subn fuel p f _ rest). cbn [fst] in *. apply Forall_app. split; [done|]. apply Forall_app. auto.
Qed.

(** The new text carries the version wanted, as often as the old one carried any. *)
Lemma rewritten_carried t w text out n : t ∈ TARGETS -> version_chars (py_chars w) -> starts_cont text = false ->
  rewritten t w text = (out, n) -> carried t out = repeat w n.
Proof.
  intros Ht (c & l & Hw & Hc & Hp & Hok) Hs. unfold rewritten, carried.
  destruct (subn _ _ _ _ _) as [cs n'] eqn:Hsub. intros [= <- <-].
  assert (Hcs : Forall ok_char cs).
  { change cs with (fst (cs, n')). rewrite <- Hsub. apply subn_forall; [|by apply chars_ok]. intros m g Hm. unfold replaced.
    apply Forall_app; split; [by apply Forall_take|]. apply Forall_app; split; [done | by apply Forall_drop]. }
  rewrite (chars_join cs Hcs).
  eapply (rescan t w c l (targets_ok t Ht) Hw) in Hsub as [_ Hfind]; [|rewrite <- Hw; by eapply Forall_impl; [exact Hp | intros ? []]|done|done].
  specialize (Hfind (length cs) [] ltac:(done)).
  replace (map _ (finditer _ _ _ _ cs)) with (map str_join (map (fun x => group 1 (snd (fst x))) (finditer (length cs) (regex_of t) None [] cs))) by (by rewrite map_map).
  rewrite Hfind, map_repeat, <- Hw, str_join_chars. done.
Qed.

(** The version file: the version and a line feed. *)
Lemma strip_version value : version_chars (py_chars value) -> py_strip (String.append value nl) = value.
Proof.
  intros (c & l & Hv & _ & Hp & _). unfold py_strip. rewrite py_chars_app by done.
  assert (Hs : Forall (fun c => is_space c = false) (py_chars value)) by (eapply Forall_impl; [exact Hp | by intros ? []]).
  rewrite <- (str_join_chars value) at 2. f_equal. unfold strip_list. rewrite Hv in Hs |- *. change (py_chars nl) with [nl].
  cbn [app]. cbn [drop_while]. rewrite (Forall_inv Hs). change (c :: l ++ [nl]) with ((c :: l) ++ [nl]). rewrite rev_app_distr.
  cbn [rev app]. change (drop_while is_space (nl :: rev l ++ [c])) with (drop_while is_space (rev (c :: l))).
  rewrite drop_while_id; [by rewrite rev_involutive|].
  assert (Hr : Forall (fun c => is_space c = false) (rev (c :: l))) by by apply Forall_rev.
  destruct (rev (c :: l)); [done|]. by apply Forall_inv in Hr.
Qed.

Section SetCheck.
Context (digit_char : string -> bool).

Lemma updates_of_spec r value ts ups : updates_of digit_char r value ts = Ok ups ->
  Forall2 (fun t u => u.1 = t_path t /\ exists text want, dget (files r) (t_path t) = Some text /\
             _expected digit_char t value = Ok want /\ rewritten t want text = (u.2, t_count t)) ts ups.
Proof.
  revert ups. induction ts as [|t ts IH]; intros ups H; cbn [updates_of] in H; [injection H as <-; constructor|].
  destruct (read_text r (t_path t)) as [text|] eqn:Ht; [|done]. cbn in H.
  destruct (_expected digit_char t value) as [want|] eqn:Hw; [|done]. cbn in H.
  destruct (rewritten t want text) as [new n] eqn:Hr. destruct (Nat.eqb_spec n (t_count t)) as [->|]; [|done]. cbn in H.
  destruct (updates_of digit_char r value ts) as [rest|]; [|done]. injection H as <-. constructor; [|by apply IH].
  split; [done|]. exists text, want. unfold read_text, of_option in Ht. destruct (dget _ _); [|done]. by injection Ht as ->.
Qed.

Lemma updates_total r value v old ts : parse digit_char value = Ok v ->
  check_targets digit_char r old ts = Ok [] -> exists ups, updates_of digit_char r value ts = Ok ups.
Proof.
  intros Hv. induction ts as [|t ts IH]; intros H; [by exists []|]. cbn [check_targets] in H. unfold check_target in H.
  destruct (_expected digit_char t old) as [w0|]; [|done]. cbn in H.
  cbn [updates_of]. destruct (read_text r (t_path t)) as [text|]; [|done]. cbn in H |- *.
  assert (Hw : exists want, _expected digit_char t value = Ok want).
  { unfold _expected, to_pep440. rewrite Hv. destruct (t_pep440 t); by eexists. }
  destruct Hw as [want Hw]. rewrite Hw. cbn. pose proof (carried_rewritten t want text) as Hn.
  destruct (rewritten t want text) as [new n]. cbn in Hn. subst n. destruct (length (carried t text) =? t_count t)%nat; cbn in H |- *.
  - destruct (existsb _ _); [by destruct (check_targets _ _ _ _)|].
    destruct (check_targets digit_char r old ts) as [l|]; [|done]. cbn in H. destruct IH as [ups ->]; [by injection H as ->|]. by eexists.
  - by destruct (check_targets _ _ _ _).
Qed.

Lemma updates_names ts ups : Forall2 (fun (t : Target) (u : string * string) => u.1 = t_path t) ts ups -> map fst ups = map t_path ts.
Proof. induction 1 as [|t u ts ups Hu _ IH]; [done|]. cbn [map]. by rewrite IH, <- Hu. Qed.

Lemma check_new r value v t u want : t ∈ TARGETS -> parse digit_char value = Ok v ->
  (forall c, digit_char c = true -> is_space c = false /\ c <> q) ->
  dget (files r) (t_path t) = Some u -> _expected digit_char t value = Ok want -> carried t u = repeat want (t_count t) ->
  check_target digit_char r value t = Ok [].
Proof.
  intros Ht Hv Hd Hu Hw Hc. unfold check_target, read_text, of_option. rewrite Hw, Hu. cbn. rewrite Hc, repeat_length, Nat.eqb_refl. cbn.
  replace (existsb _ _) with false; [done|]. symmetry. apply not_true_iff_false. intros (x & Hx & Hne)%existsb_exists.
  apply repeat_spec in Hx as ->. by rewrite String.eqb_refl in Hne.
Qed.

Lemma check_targets_nil r value ts : (forall t, t ∈ ts -> check_target digit_char r value t = Ok []) ->
  check_targets digit_char r value ts = Ok [].
Proof.
  induction ts as [|t ts IH]; intros H; [done|]. cbn [check_targets]. rewrite (H t) by by left. cbn.
  rewrite IH; [done|]. intros t' Ht. apply H. by right.
Qed.

Lemma expected_version t value v want : (forall c, digit_char c = true -> is_space c = false /\ c <> q) ->
  parse digit_char value = Ok v -> _expected digit_char t value = Ok want -> version_chars (py_chars want).
Proof.
  intros Hd Hv Hw. pose proof (parse_version digit_char Hd value v Hv) as [H1 H2]. unfold _expected, to_pep440 in Hw.
  rewrite Hv in Hw. destruct (t_pep440 t); by injection Hw as <-.
Qed.

(** The repository after a version was set. *)
Lemma set_written r value r' : set_version digit_char value r = (Ok tt, r') ->
  exists v ups r1, parse digit_char value = Ok v /\ updates_of digit_char r value TARGETS = Ok ups /\
    write_all ups r = (Ok tt, r1) /\ files r' = dset (files r1) VERSION_FILE (String.append value nl).
Proof.
  unfold set_version. destruct (parse digit_char value) as [v|]; [|done]. unfold mbind at 1, res_bind at 1.
  destruct (updates_of digit_char r value TARGETS) as [ups|]; [|done]. unfold mbind, eff_bind.
  destruct (write_all ups r) as [[[]|] r1] eqn:Hw; [|done]. unfold write_text. destruct (denied r1 VERSION_FILE); [done|].
  intros [= <-]. by exists v, ups, r1.
Qed.
End SetCheck.

(** The paths that carry the version, and the version file, are all different. *)
Lemma paths_distinct : NoDup (map t_path TARGETS) /\ VERSION_FILE ∉ map t_path TARGETS.
Proof. split; refine (bool_decide_unpack _ _); vm_compute; exact I. Qed.

(** What every target holds after the version was set. *)
Lemma set_targets digit_char value r r' v :
  (forall c, digit_char c = true -> is_space c = false /\ c <> q) ->
  (forall path text, dget (files r) path = Some text -> starts_cont text = false) ->
  parse digit_char value = Ok v -> set_version digit_char value r = (Ok tt, r') ->
  forall t, t ∈ TARGETS -> exists u want, dget (files r') (t_path t) = Some u /\
    _expected digit_char t value = Ok want /\ carried t u = repeat want (t_count t).
Proof.
  intros Hd Hu Hv (v' & ups & r1 & _ & Hups & Hw & Hf)%set_written t Ht. apply updates_of_spec in Hups.
  assert (Hn : map fst ups = map t_path TARGETS) by (apply updates_names; eapply Forall2_impl; [exact Hups | by intros ? ? []]).
  destruct paths_distinct as [Hnd Hver]. apply write_all_ok in Hw as [Hin _]; [|by rewrite Hn].
  apply list_elem_of_lookup_1 in Ht as [i Hi]. destruct (Forall2_lookup_l _ _ _ _ _ Hups Hi) as ([p out] & Hj & Hp & text & want & Htext & Hwant & Hre).
  cbn in Hp, Hre. subst p. apply list_elem_of_lookup_2 in Hi. exists out, want. split_and!; [| done |].
  - rewrite Hf, dget_dset_ne; [apply Hin; by eapply list_elem_of_lookup_2|]. intros He. apply Hver. rewrite <- He.
    by apply list_elem_of_fmap_2.
  - eapply rewritten_carried; [done | by eapply expected_version | by eapply Hu | done].
Qed.

(** C30: Setting a version and checking it.  When [set_version] succeeds, [check]
    then finds no disagreement, and with a tag exactly the tag's; and no file but
    the targets and VERSION changed.  When it raises and every file can be
    written, the repository is as it was.  And in a repository that passes the
    check it succeeds for every version that [parse] accepts. *)
Theorem set_version_round_trip digit_char value r :
  (forall c, digit_char c = true -> is_space c = false /\ c <> q) ->
  (forall path text, dget (files r) path = Some text -> utf8_ok text = true) ->
  (forall r', set_version digit_char value r = (Ok tt, r') ->
    (forall tag, check digit_char r' tag = Ok match tag with
       | Some t => if String.eqb t (String.append RELEASE_TAG_PREFIX value) then []
                   else [str_join ["release tag "; t; " does not match "; VERSION_FILE; " "; value]]
       | None => []
       end) /\
    (forall path, path ∉ VERSION_FILE :: map t_path TARGETS -> dget (files r') path = dget (files r) path)) /\
  ((forall path, denied r path = false) ->
    (forall e r', set_version digit_char value r = (Raise e, r') -> r' = r) /\
    (forall v, check digit_char r None = Ok [] -> parse digit_char value = Ok v ->
       exists r', set_version digit_char value r = (Ok tt, r'))).
Proof.
  intros Hd Hu. split.
  - intros r' Hset. pose proof Hset as (v & ups & r1 & Hv & Hups & Hw & Hf)%set_written. split.
    + intros tag. unfold check.
      assert (Hver : read_version digit_char r' = Ok value).
      { unfold read_version, read_text. rewrite Hf, dget_dset_eq. cbn [of_option]. unfold mbind at 1, res_bind at 1.
        rewrite strip_version by by apply (parse_version digit_char Hd value v). by rewrite Hv. }
      rewrite Hver, check_targets_nil; [by destruct tag as [t|]; [cbn; destruct (String.eqb _ _)|]|]. intros t Ht.
      destruct (set_targets digit_char value r r' v Hd (fun p x Hp => utf8_ok_starts x (Hu p x Hp)) Hv Hset t Ht) as (u & want & Hu' & Hwant & Hc).
      by eapply check_new.
    + intros path [Hne Hp]%not_elem_of_cons. rewrite Hf, dget_dset_ne by done. destruct paths_distinct as [Hnd _].
      apply updates_of_spec in Hups.
      assert (Hn : map fst ups = map t_path TARGETS) by (apply updates_names; eapply Forall2_impl; [exact Hups | by intros ? ? []]).
      apply write_all_ok in Hw as [_ Hout]; [|by rewrite Hn]. apply Hout. by rewrite Hn.
  - intros Hden. unfold set_version. split.
    + intros e r'. destruct (_ ← parse digit_char value; updates_of digit_char r value TARGETS) as [ups|] eqn:Hups; [|by intros [= _ <-]].
      destruct (write_all_total ups r Hden) as (r1 & Hw & Hd1). unfold mbind at 1, eff_bind at 1. rewrite Hw. unfold write_text. by rewrite Hd1.
    + intros v Hc Hv.
      assert (Hups : exists ups, updates_of digit_char r value TARGETS = Ok ups).
      { unfold check in Hc. destruct (read_version digit_char r) as [old|e]; [|by destruct (_ || _)].
        destruct (check_targets digit_char r old TARGETS) as [l|] eqn:Hct; [|done]. unfold mbind, res_bind in Hc. injection Hc as ->.
        by eapply updates_total. }
      destruct Hups as [ups Hups]. rewrite Hv. unfold mbind at 2, res_bind at 1. rewrite Hups.
      destruct (write_all_total ups r Hden) as (r1 & Hw & Hd1). unfold mbind at 1, eff_bind at 1. rewrite Hw. unfold write_text.
      rewrite Hd1. by eexists.
Qed.

(** ** A repository *)

Module Example.
Definition dig (c : string) : bool := str_in c ["0"; "1"; "2"; "3"; "4"; "5"; "6"; "7"; "8"; "9"].
(** Lines, with an apostrophe for each quote. *)
Definition text (lines : list string) : string := jq (str_join (map (fun x => String.append x nl) lines)).
Definition repo : Repo :=
  {| files :=
       [("README.md", text ["Agentware"]);
        (VERSION_FILE, text ["0.16.0"]);
        ("typescript/package.json", text ["{"; "  'name': 'a',"; "  'version': '0.16.0',"; "}"]);
        ("typescript/package-lock.json",
         text ["{"; "  'name': 'a',"; "  'version': '0.16.0',"; "  'lockfileVersion': 3,"; "  'packages': {"; "    '': {";
               "      'version': '0.16.0',"; "      'license': 'Apache-2.0'"; "    },"; "    'x': {"; "      'version': '1.0.0',";
               "      'resolved': 'y'"; "}}}"]);
        ("typescript/src/kei/runtimeLinkRuntime.ts", text ["const SDK_VERSION = '0.16.0';"]);
        ("python/pyproject.toml", text ["[project]"; "version = '0.16.0'"]);
        ("python/src/haikeilabs/agentware/kei/runtime_link.py", text ["SDK_VERSION = '0.16.0'"]);
        ("go/kei/runtimelink/link.go", text ["var sdkVersion = '0.16.0'"])];
     denied := fun _ => false |}.

Lemma dig_plain c : dig c = true -> is_space c = false /\ c <> q.
Proof.
  intros (d & Hd & Hc)%existsb_exists. apply String.eqb_eq in Hc as ->. apply list_elem_of_In in Hd. revert d Hd.
  apply (Forall_forall (fun d => is_space d = false /\ d <> q)). by repeat constructor.
Qed.
Lemma repo_utf8 path x : dget (files repo) path = Some x -> utf8_ok x = true.
Proof.
  intros H%dget_In%list_elem_of_In. assert (Hall : forallb (fun kv => utf8_ok kv.2) (files repo) = true) by (vm_compute; reflexivity).
  rewrite forallb_forall in Hall. apply (Hall (path, x) H).
Qed.

Lemma set_version_round_trip_witness :
  check dig repo None = Ok [] /\
  exists r', set_version dig "1.2.3-rc.4" repo = (Ok tt, r') /\
    check dig r' (Some "agentware-v1.2.3-rc.4") = Ok [] /\
    dget (files r') "python/pyproject.toml" = Some (text ["[project]"; "version = '1.2.3rc4'"]) /\
    dget (files r') "README.md" = Some (text ["Agentware"]).
Proof.
  assert (Hc : check dig repo None = Ok []) by (vm_compute; reflexivity). split; [exact Hc|].
  destruct (set_version_round_trip dig "1.2.3-rc.4" repo dig_plain repo_utf8) as [Hok Hset].
  destruct (Hset (fun _ => eq_refl)) as [_ Htotal].
  destruct (Htotal {| major := "1"; minor := "2"; patch := "3"; prerelease := Some ("rc", "4") |} Hc eq_refl) as [r' Hr].
  exists r'. split; [exact Hr|]. destruct (Hok r' Hr) as [Hcheck Hsame]. split; [rewrite Hcheck; vm_compute; reflexivity|]. split.
  - assert (Hr' : r' = snd (set_version dig "1.2.3-rc.4" repo)) by (rewrite Hr; reflexivity). rewrite Hr'. vm_compute. reflexivity.
  - rewrite Hsame; [vm_compute; reflexivity|]. refine (bool_decide_unpack _ _). vm_compute. exact I.
Defined.
End Example.
