(* ===== verification/EvalCase.v ===== *)
(** * Evaluation cases and their scoring

    [evals/expectations.py], and the part of [evals/runner.py] that needs no model:
    the case, the check of a tool call against its schema and its expectations,
    the caller and the policy a case runs under, and the score of a transcript.

    Parameters: [lower] ([str.lower]), [re_search] ([re.search] with [IGNORECASE],
    of a pattern that comes with a case), [json_message] (the text of the decoder's
    exception) and [sorted_any], [sorted] of a list that does not consist of texts.
    The name of a tool call is a text. *)
From Stdlib Require Import ZArith Lia Ascii String.
From stdpp Require Import base tactics list strings.
From S2P Require Import Prelude PyStr PyFloat PyBytes Json Types Middleware.

(** [repr] of a list of texts. *)
Definition repr_strs (l : list string) : string := py_repr_json (JArr (map JStr l)).
Abbreviation outcome := (bool * string)%type.
Definition accept : outcome := (true, "").
Definition reject (parts : list string) : outcome := (false, str_join parts).

(** ** Content checks *)

Record ContentChecks := {
  contains_all : list string; contains_any : list string; regex : list string; not_contains : list string }.
Definition no_checks : ContentChecks := {| contains_all := []; contains_any := []; regex := []; not_contains := [] |}.
Definition null {A} (l : list A) : bool := match l with [] => true | _ => false end.
Definition is_empty (c : ContentChecks) : bool :=
  null (contains_all c) && null (contains_any c) && null (regex c) && null (not_contains c).

Section Content.
Context (lower : string -> string) (re_search : string -> string -> res exn bool).

(** The first pattern that does not match. *)
Fixpoint unmatched (patterns : list string) (text : string) : res exn (option string) :=
  match patterns with
  | [] => Ok None
  | p :: patterns' => b ← re_search p text; if (b : bool) then unmatched patterns' text else Ok (Some p)
  end.

Definition occurs (text p : string) : bool := py_in (lower p) (lower text).
Definition check_content (checks : ContentChecks) (text : string) : res exn outcome :=
  match List.filter (fun p => negb (occurs text p)) (contains_all checks) with
  | (_ :: _) as missing => Ok (reject ["final text is missing required phrases: "; repr_strs missing])
  | [] =>
      if negb (null (contains_any checks)) && negb (existsb (occurs text) (contains_any checks))
      then Ok (reject ["final text contains none of: "; repr_strs (contains_any checks)])
      else
        pattern ← unmatched (regex checks) text;
        match pattern with
        | Some p => Ok (reject ["final text does not match regex "; py_repr p])
        | None =>
            match List.filter (occurs text) (not_contains checks) with
            | (_ :: _) as present => Ok (reject ["final text contains forbidden phrases: "; repr_strs present])
            | [] => Ok accept
            end
        end
  end.
End Content.

(** ** Cases *)

Record EvalCase := {
  ec_name : string; ec_description : string; ec_system_prompt : string; ec_user_message : string;
  ec_tools : list json; ec_expected_tool : option string; ec_max_turns : Z;
  ec_expected_args : jdict; ec_required_arg_keys : list string; ec_forbidden_arg_keys : list string;
  ec_expect_no_tool_call : bool; ec_forbidden_tools : list string; ec_expect_deny : bool;
  ec_content : ContentChecks; ec_context : jdict; ec_allowed_tools : option (list string) }.

(** A call of a transcript. *)
Record made_call := { mc_turn : Z; mc_name : string; mc_arguments : json; mc_denied : bool }.

Definition opt_repr (o : option string) : string := match o with Some s => py_repr s | None => "None" end.
Definition is_expected (case : EvalCase) (name : string) : bool :=
  match ec_expected_tool case with Some t => String.eqb name t | None => false end.

(** The parameters the case declares for a tool: those of the first tool of that
    name, when they are an object. *)
Fixpoint declared_schema (tools : list json) (name : string) : res exn jdict :=
  match tools with
  | [] => Ok []
  | tool :: tools' =>
      fn ← any_get tool "function" JNull;
      match fn with
      | JObj f =>
          if py_eq (jget f "name") (JStr name)
          then Ok match jget f "parameters" with JObj schema => schema | _ => [] end
          else declared_schema tools' name
      | _ => declared_schema tools' name
      end
  end.

Section Scoring.
Context (lower : string -> string) (re_search : string -> string -> res exn bool)
  (json_message : string -> string) (sorted_any : list json -> res exn (list json)).

Definition lacking (args : jdict) (keys : list string) : list string :=
  py_sorted (List.filter (fun k => negb (dmem args k)) keys).

(** [sorted(k for k in required if k not in args)] of untyped keys. *)
Definition lacks_key (args : jdict) (k : json) : res exn bool :=
  _ ← any_hash k; Ok (negb match k with JStr s => dmem args s | _ => false end).
Definition missing_required (schema args : jdict) : res exn (list json) :=
  match jget_or schema "required" (JArr []) with
  | JArr required => missing ← res_filter (lacks_key args) required; sorted_values sorted_any missing
  | _ => Ok []
  end.

Definition undeclared (schema args : jdict) : list string :=
  match jget_or schema "properties" (JObj []) with
  | JObj (p :: ps) => lacking (p :: ps) (dkeys args)
  | _ => []
  end.

Fixpoint check_expected (args expected : jdict) : outcome :=
  match expected with
  | [] => accept
  | (key, want) :: expected' =>
      match dget args key with
      | None => reject ["expected argument "; py_repr key; " is absent"]
      | Some v =>
          if negb (py_eq v want)
          then reject ["argument "; py_repr key; " is "; py_repr_json v; ", expected "; py_repr_json want]
          else check_expected args expected'
      end
  end.

Definition check_args (case : EvalCase) (name : string) (args : jdict) : res exn outcome :=
  schema ← declared_schema (ec_tools case) name;
  match undeclared schema args with
  | (_ :: _) as extra => Ok (reject ["arguments not declared in the tool schema: "; repr_strs extra])
  | [] =>
      missing ← missing_required schema args;
      match missing with
      | _ :: _ => Ok (reject ["missing schema-required arguments: "; py_repr_json (JArr missing)])
      | [] =>
          match lacking args (ec_required_arg_keys case) with
          | (_ :: _) as keys => Ok (reject ["missing expected arguments: "; repr_strs keys])
          | [] =>
              match py_sorted (List.filter (dmem args) (ec_forbidden_arg_keys case)) with
              | (_ :: _) as keys => Ok (reject ["forbidden arguments present: "; repr_strs keys])
              | [] => Ok (check_expected args (ec_expected_args case))
              end
          end
      end
  end.

Definition validate_tool_call (case : EvalCase) (name : string) (raw_arguments : json) : res exn outcome :=
  if negb (is_expected case name)
  then Ok (reject ["called "; py_repr name; ", expected "; opt_repr (ec_expected_tool case)])
  else
    match loads_or_empty raw_arguments with
    | Raise (Exn JSONDecodeError text) => Ok (reject ["arguments are not valid JSON: "; json_message text])
    | Raise e => Raise e
    | Ok (JObj args) => check_args case name args
    | Ok v => Ok (reject ["arguments are not a JSON object: "; type_name v])
    end.

(** ** Scoring a transcript *)

Definition dedup_strs (l : list string) : list string := py_sorted (nodup string_dec l).
Definition allowed_of (case : EvalCase) : list string := default [] (ec_allowed_tools case).

Definition invalid_call (prefix name : string) (o : outcome) (next : res exn outcome) : res exn outcome :=
  let '(ok, reason) := o in
  if ok then next else Ok (reject [prefix; name; ": "; reason]).

(** The first branch of the score that rejects, before the final text is looked at. *)
Definition score_calls (case : EvalCase) (calls : list made_call) : res exn outcome :=
  if ec_expect_deny case then
    match List.filter (fun c => negb (str_in (mc_name c) (allowed_of case)) && negb (mc_denied c)) calls with
    | (_ :: _) as not_denied => Ok (reject ["disallowed call(s) were not denied: "; repr_strs (map mc_name not_denied)])
    | [] =>
        match List.find (fun c => is_expected case (mc_name c)) calls with
        | Some c =>
            o ← validate_tool_call case (mc_name c) (mc_arguments c);
            invalid_call "invalid call to " (mc_name c) o (Ok accept)
        | None => Ok accept
        end
    end
  else if ec_expect_no_tool_call case then
    match calls with
    | [] => Ok accept
    | _ => Ok (reject ["expected no tool call, called "; repr_strs (map mc_name calls)])
    end
  else
    match ec_expected_tool case with
    | None => Ok accept
    | Some tool =>
        match calls with
        | [] => Ok (reject ["expected tool "; py_repr tool; ", no tool was called"])
        | first :: _ =>
            o ← validate_tool_call case (mc_name first) (mc_arguments first);
            invalid_call "invalid first call to " (mc_name first) o
              (if mc_denied first then Ok (reject ["call to "; py_repr (mc_name first); " was denied by policy"])
               else Ok accept)
        end
    end.

Definition score_text (case : EvalCase) (final_text : string) (finished : bool) : res exn outcome :=
  if is_empty (ec_content case) then Ok accept
  else if negb finished then Ok (reject ["no final reply before the turn limit"])
  else check_content lower re_search (ec_content case) final_text.

Definition score_table_case (case : EvalCase) (calls : list made_call) (final_text : string) (finished : bool) : res exn outcome :=
  match List.filter (fun c => str_in (mc_name c) (ec_forbidden_tools case)) calls with
  | (_ :: _) as attempted => Ok (reject ["called forbidden tool(s): "; repr_strs (dedup_strs (map mc_name attempted))])
  | [] =>
      o ← score_calls case calls;
      if (o : outcome).1 then score_text case final_text finished else Ok o
  end.
End Scoring.

(** ** The caller and the policy of a case *)

Definition caller_context_for (case : EvalCase) (session_id : string) : res exn CallerContext :=
  let groups := jget (ec_context case) "groups" in
  items ← py_iter (if py_truthy groups then groups else JArr []);
  Ok {| cc_user_id := "eval-user"; cc_session_id := session_id; cc_role := py_str (jget_or (ec_context case) "role" (JStr ""));
        cc_source := "agentware-evals"; cc_trusted := false;
        cc_metadata := [("groups", join_with "," (map py_str items))];
        cc_invoking_subject := "eval-user"; cc_parent_span := cc_parent_span CallerContext_default;
        cc_delegation_depth := cc_delegation_depth CallerContext_default; cc_span_id := cc_span_id CallerContext_default;
        cc_agent_version := cc_agent_version CallerContext_default; cc_framework := "agentware-evals";
        cc_workspace_id := cc_workspace_id CallerContext_default |}.

(** The policy of a case: its allowed tools, and the time it stamps its next decision with. *)
Record EvalPolicy := { ep_allowed : list string; ep_now : datetime }.
#[export] Instance _EvalPolicyEvaluator : PolicyEvaluator EvalPolicy := fun tool args caller p =>
  (Ok (if str_in tool (ep_allowed p)
       then mk_decision (ep_now p) ALLOW "eval-allowed-tools" (str_join ["tool "; py_repr tool; " is in allowed list"])
       else mk_decision (ep_now p) DENY "eval-deny" (str_join ["tool "; py_repr tool; " not in allowed list"])), p).
Definition policy_for (case : EvalCase) (now : datetime) : option EvalPolicy :=
  (fun allowed => {| ep_allowed := allowed; ep_now := now |}) <$> ec_allowed_tools case.
