(* ===== verification/EvalCaseFacts.v ===== *)
(** * What a passed evaluation case means

    The check of a tool call, the content checks and the score of [EvalCase.v]
    against declarative descriptions of what they accept. *)
From Stdlib Require Import ZArith Lia Ascii String.
From stdpp Require Import base tactics list strings.
From S2P Require Import Prelude PyStr PyFloat PyBytes Json Types Middleware EvalCase.

(** ** Lists *)

Lemma py_sorted_nil l : py_sorted l = [] <-> l = [].
Proof.
  split; [|by intros ->]. intros H. apply Permutation_nil. by rewrite <- H, py_sorted_perm.
Qed.

Lemma dmem_spec {V} (d : dict V) k : dmem d k = true <-> k ∈ dkeys d.
Proof.
  unfold dmem. rewrite bool_decide_eq_true, <- not_eq_None_Some, dget_None. split; [|tauto].
  intros H. by destruct (decide (k ∈ dkeys d)).
Qed.

Lemma lacking_nil {V} (args : dict V) keys : py_sorted (List.filter (fun k => negb (dmem args k)) keys) = [] <-> keys ⊆ dkeys args.
Proof.
  rewrite py_sorted_nil, filter_nil, Forall_forall. split; intros H k Hk; specialize (H k Hk).
  - apply negb_false_iff in H. by apply dmem_spec.
  - apply negb_false_iff. by apply dmem_spec.
Qed.

(** ** What is accepted has no reason *)

Lemma check_expected_reason args expected r : check_expected args expected = (true, r) -> r = "".
Proof. induction expected as [|[k w] l IH]; simpl; [by intros [= <-]|]. destruct (dget args k) as [v|]; [|done]. by destruct (py_eq v w). Qed.

Lemma validate_tool_call_reason jm so case name raw r : validate_tool_call jm so case name raw = Ok (true, r) -> r = "".
Proof.
  unfold validate_tool_call, check_args. destruct (negb _); [done|]. destruct (loads_or_empty raw) as [[]|[[]]]; try done.
  intros H. res_inv. destruct (undeclared a d); [|done]. res_inv. destruct a0; [|done].
  destruct (lacking d _); [|done]. destruct (py_sorted _); [|done]. injection H as H. by apply check_expected_reason in H.
Qed.

(** ** A valid call *)

Section Facts.
Context (lower : string -> string) (re_search : string -> string -> res exn bool)
  (json_message : string -> string) (sorted_any : list json -> res exn (list json)).
Context (sorted_any_perm : forall l k, sorted_any l = Ok k -> l ≡ₚ k).

Definition present (args : jdict) (k : json) : Prop := exists s, k = JStr s /\ s ∈ dkeys args.

Record valid_args (case : EvalCase) (schema args : jdict) : Prop := {
  va_declared : forall p ps, jget_or schema "properties" (JObj []) = JObj (p :: ps) -> dkeys args ⊆ dkeys (p :: ps);
  va_required : forall l, jget_or schema "required" (JArr []) = JArr l -> Forall (present args) l;
  va_keys : ec_required_arg_keys case ⊆ dkeys args;
  va_forbidden : forall k, k ∈ ec_forbidden_arg_keys case -> k ∉ dkeys args;
  va_expected : Forall (fun kw => exists v, dget args kw.1 = Some v /\ py_eq v kw.2 = true) (ec_expected_args case) }.

Definition valid_call (case : EvalCase) (name : string) (raw : json) : Prop :=
  ec_expected_tool case = Some name /\
  exists args schema, loads_or_empty raw = Ok (JObj args) /\ declared_schema (ec_tools case) name = Ok schema /\
    valid_args case schema args.

Lemma undeclared_nil schema args : undeclared schema args = [] <->
  (forall p ps, jget_or schema "properties" (JObj []) = JObj (p :: ps) -> dkeys args ⊆ dkeys (p :: ps)).
Proof.
  unfold undeclared. destruct (jget_or schema "properties" (JObj [])) as [| | | | | |[|p ps]]; try by split.
  unfold lacking. rewrite lacking_nil. split; [by intros H ? ? [= <- <-] | auto].
Qed.

Lemma lacks_key_spec args k b : lacks_key args k = Ok b -> b = false <-> present args k.
Proof.
  unfold lacks_key, present. destruct k as [| | | |s|l|d]; cbn; intros [= <-]; split; try done; try by intros (? & ? & ?).
  - intros H%negb_false_iff. exists s. split; [done | by apply dmem_spec].
  - intros (s' & [= <-] & H). apply negb_false_iff. by apply dmem_spec.
Qed.

Lemma missing_required_nil schema args : missing_required sorted_any schema args = Ok [] <->
  (forall l, jget_or schema "required" (JArr []) = JArr l -> Forall (present args) l).
Proof using sorted_any_perm.
  unfold missing_required. destruct (jget_or schema "required" (JArr [])) as [| | | | |l|]; try by split.
  assert (Hf : forall l, res_filter (lacks_key args) l = Ok [] <-> Forall (present args) l).
  { clear l. induction l as [|k l IH]; simpl; [split; [constructor | done]|].
    rewrite Forall_cons, <- IH. destruct (lacks_key args k) as [b|e] eqn:Hb; cbn [mbind res_bind].
    - pose proof (lacks_key_spec _ _ _ Hb) as Hs. destruct (res_filter (lacks_key args) l) as [rest|]; cbn [mbind res_bind].
      + destruct b; split; [done | intros [Hp _]; by apply Hs in Hp | intros [= ->]; split; [by apply Hs | done] | by intros [_ [= ->]]].
      + by split; [|intros [_ ?]].
    - split; [done|]. intros [(s & -> & _) _]. done. }
  split.
  - intros H l' [= <-]. res_inv. apply Hf. rewrite Hr. f_equal. unfold sorted_values in H. destruct (strings_of a) as [ss|] eqn:Hs.
    + injection H as H. apply (f_equal length) in H. rewrite length_map, (Permutation_length (py_sorted_perm ss)) in H.
      destruct ss; [|done]. destruct a as [|x a]; [done|]. unfold strings_of in Hs. apply mapM_Some in Hs. inversion Hs.
    + apply sorted_any_perm in H. by apply Permutation_sym, Permutation_nil in H.
  - intros H. specialize (H l eq_refl). apply Hf in H. rewrite H. done.
Qed.

Lemma check_expected_accept args expected : check_expected args expected = accept <->
  Forall (fun kw => exists v, dget args kw.1 = Some v /\ py_eq v kw.2 = true) expected.
Proof.
  induction expected as [|[k w] expected IH]; simpl; [split; [constructor | done]|]. rewrite Forall_cons, <- IH. simpl.
  destruct (dget args k) as [v|] eqn:Hk.
  - destruct (py_eq v w) eqn:E; simpl; [|split; [done | by intros [(? & [= <-] & ?) _]; congruence]].
    split; [intros H; split; [by exists v | done] | by intros [_ ?]].
  - split; [done | by intros [(? & ? & _) _]].
Qed.

Lemma check_args_accept case name args : check_args sorted_any case name args = Ok accept <->
  exists schema, declared_schema (ec_tools case) name = Ok schema /\ valid_args case schema args.
Proof using sorted_any_perm.
  unfold check_args. destruct (declared_schema _ _) as [schema|e]; cbn [mbind res_bind];
    [|by split; [|intros (? & ? & _)]].
  assert (Hx : (exists s, Ok schema = @Ok exn _ s /\ valid_args case s args) <-> valid_args case schema args).
  { split; [by intros (? & [= <-] & ?) | eauto]. }
  rewrite Hx. pose proof (undeclared_nil schema args) as Hu. pose proof (missing_required_nil schema args) as Hm.
  pose proof (lacking_nil args (ec_required_arg_keys case)) as Hl. pose proof (check_expected_accept args (ec_expected_args case)) as He.
  assert (Hfb : py_sorted (List.filter (dmem args) (ec_forbidden_arg_keys case)) = [] <-> forall k, k ∈ ec_forbidden_arg_keys case -> k ∉ dkeys args).
  { rewrite py_sorted_nil, filter_nil, Forall_forall. split; intros H k Hk; specialize (H k Hk).
    - intros Hin. by rewrite (proj2 (dmem_spec args k) Hin) in H.
    - destruct (dmem args k) eqn:E; [|done]. by apply dmem_spec in E. }
  split.
  - intros H. destruct (undeclared schema args); [|done]. res_inv. destruct a; [|done]. unfold lacking in H.
    destruct (py_sorted (List.filter (fun k => negb (dmem args k)) (ec_required_arg_keys case))); [|done].
    destruct (py_sorted (List.filter (dmem args) (ec_forbidden_arg_keys case))); [|done].
    injection H as H. split; [by apply Hu | by apply Hm | by apply Hl | by apply Hfb | by apply He].
  - intros [H1 H2 H3 H4 H5]. apply Hu in H1 as ->. apply Hm in H2 as ->. cbn [mbind res_bind]. unfold lacking.
    apply Hl in H3 as ->. apply Hfb in H4 as ->. apply He in H5 as ->. done.
Qed.

Lemma validate_accept case name raw : validate_tool_call json_message sorted_any case name raw = Ok accept <-> valid_call case name raw.
Proof using sorted_any_perm.
  unfold validate_tool_call, valid_call, is_expected. destruct (ec_expected_tool case) as [t|]; [|by split; [|intros [? _]]].
  destruct (String.eqb_spec name t) as [<-|Hn]; [|split; [done | intros [[= ->] _]; done]]. cbn [negb].
  destruct (loads_or_empty raw) as [[| | | | | |args]|[[] text]] eqn:Hr;
    try (split; [done | by intros (_ & ? & ? & ? & _)]).
  rewrite check_args_accept. split.
  - intros (schema & Hs & Hv). split; [done|]. by exists args, schema.
  - intros (_ & a & schema & [= <-] & Hs & Hv). by exists schema.
Qed.

(** ** A passed case *)

Definition content_ok (c : ContentChecks) (text : string) : Prop :=
  Forall (fun p => occurs lower text p = true) (contains_all c) /\
  (contains_any c <> [] -> Exists (fun p => occurs lower text p = true) (contains_any c)) /\
  Forall (fun p => re_search p text = Ok true) (regex c) /\
  Forall (fun p => occurs lower text p = false) (not_contains c).

Lemma unmatched_none patterns text :
  unmatched re_search patterns text = Ok None <-> Forall (fun p => re_search p text = Ok true) patterns.
Proof.
  induction patterns as [|p l IH]; simpl; [split; [constructor | done]|]. rewrite Forall_cons, <- IH.
  destruct (re_search p text) as [[]|]; cbn [mbind res_bind]; try by (split; [|intros [? _]]). split; [done | by intros [_ ?]].
Qed.

Lemma check_content_accept c text : check_content lower re_search c text = Ok accept <-> content_ok c text.
Proof.
  unfold check_content, content_ok. rewrite <- unmatched_none, <- filter_nil.
  assert (Hall : List.filter (fun p => negb (occurs lower text p)) (contains_all c) = []
                 <-> Forall (fun p => occurs lower text p = true) (contains_all c)).
  { rewrite filter_nil. apply Forall_iff. intros p. by destruct (occurs lower text p). }
  assert (Hany : negb (null (contains_any c)) && negb (existsb (occurs lower text) (contains_any c)) = false
                 <-> (contains_any c <> [] -> Exists (fun p => occurs lower text p = true) (contains_any c))).
  { rewrite Exists_exists. destruct (contains_any c) as [|p ps]; [by split|]. cbn [null negb andb].
    rewrite negb_false_iff, existsb_exists. setoid_rewrite list_elem_of_In. split; [by intros H _ | intros H; by apply H]. }
  rewrite <- Hall, <- Hany. destruct (List.filter (fun p => negb _) _); [|by split; [|intros [? _]]].
  destruct (negb (null _) && _); [by split; [|intros (_ & ? & _)]|].
  destruct (unmatched re_search (regex c) text) as [[p|]|]; cbn [mbind res_bind]; try by split; [|intros (_ & _ & ? & _)].
  destruct (List.filter (occurs lower text) (not_contains c)); [done|]. by split; [|intros (_ & _ & _ & ?)].
Qed.

(** The outcome a case expects of its calls. *)
Definition calls_ok (case : EvalCase) (calls : list made_call) : Prop :=
  if ec_expect_deny case then
    (forall c, c ∈ calls -> mc_name c ∈ allowed_of case \/ mc_denied c = true) /\
    (forall c, List.find (fun c => is_expected case (mc_name c)) calls = Some c -> valid_call case (mc_name c) (mc_arguments c))
  else if ec_expect_no_tool_call case then calls = []
  else forall tool, ec_expected_tool case = Some tool ->
    exists c rest, calls = c :: rest /\ valid_call case (mc_name c) (mc_arguments c) /\ mc_denied c = false.

Lemma invalid_call_accept prefix name raw case next :
  (o ← validate_tool_call json_message sorted_any case name raw; invalid_call prefix name o next) = Ok accept <->
  valid_call case name raw /\ next = Ok accept.
Proof using sorted_any_perm.
  rewrite <- validate_accept. pose proof (validate_tool_call_reason json_message sorted_any case name raw) as Hr.
  destruct (validate_tool_call _ _ _ _ _) as [[[] reason]|]; cbn [mbind res_bind invalid_call].
  - rewrite (Hr reason eq_refl). split; [by intros -> | by intros [_ ->]].
  - split; [done | by intros [? _]].
  - split; [done | by intros [? _]].
Qed.

Lemma score_calls_accept case calls : score_calls json_message sorted_any case calls = Ok accept <-> calls_ok case calls.
Proof using sorted_any_perm.
  unfold score_calls, calls_ok. destruct (ec_expect_deny case).
  - assert (Hd : List.filter (fun c => negb (str_in (mc_name c) (allowed_of case)) && negb (mc_denied c)) calls = [] <->
      (forall c, c ∈ calls -> mc_name c ∈ allowed_of case \/ mc_denied c = true)).
    { rewrite filter_nil, Forall_forall. split; intros H c Hc; specialize (H c Hc).
      - rewrite <- str_in_spec. destruct (str_in _ _), (mc_denied c); auto.
      - rewrite <- str_in_spec in H. by destruct H as [-> | ->]; [|rewrite andb_false_r]. }
    destruct (List.filter _ calls); [|split; [done | intros [H _]; by apply Hd in H]].
    destruct (List.find _ calls) as [c|].
    + rewrite invalid_call_accept. split; [intros [H _]; split; [by apply Hd | by intros ? [= <-]] | intros [_ H]; auto].
    + split; [intros _; split; [by apply Hd | done] | done].
  - destruct (ec_expect_no_tool_call case); [by destruct calls|].
    destruct (ec_expected_tool case) as [tool|]; [|by split; [intros _ ? [=]|]].
    destruct calls as [|c calls]; [split; [done | intros H; by destruct (H tool eq_refl) as (? & ? & ? & _)]|].
    rewrite invalid_call_accept. split.
    + intros [Hv Hm] ? _. exists c, calls. by destruct (mc_denied c).
    + intros H. destruct (H tool eq_refl) as (c' & rest & [= <- <-] & Hv & Hm). by rewrite Hm.
Qed.

Lemma score_calls_reason case calls r : score_calls json_message sorted_any case calls = Ok (true, r) -> r = "".
Proof.
  assert (Hi : forall prefix name o next, invalid_call prefix name o next = Ok (true, r) -> next = Ok (true, r)).
  { intros prefix name [[] reason] next; [done | by intros [=]]. }
  unfold score_calls. destruct (ec_expect_deny case); [|destruct (ec_expect_no_tool_call case)].
  - destruct (List.filter _ calls); [|done]. destruct (List.find _ calls); [|by intros [= <-]]. intros H. res_inv.
    apply Hi in H. by injection H as <-.
  - destruct calls; [by intros [= <-] | done].
  - destruct (ec_expected_tool case); [|by intros [= <-]]. destruct calls as [|c calls]; [done|]. intros H. res_inv.
    apply Hi in H. destruct (mc_denied c); [done|]. by injection H as <-.
Qed.

(** C15: a table case passes exactly when its transcript meets its expectations.
    No forbidden tool was called; in a deny case every call of a tool that is not
    allowed was denied and the first call of the expected tool, if any, is valid;
    in a case without a call nothing was called; otherwise the first call is a
    valid call of the expected tool that was not denied; and, when there are
    content checks, the reply is finished and satisfies them.  A valid call has
    an object of arguments with no undeclared key, every required one, none that
    is forbidden, and the expected values. *)
Theorem score_accepts_what_is_expected (case : EvalCase) (calls : list made_call) (text : string) (finished : bool) :
  score_table_case lower re_search json_message sorted_any case calls text finished = Ok accept <->
  (forall c, c ∈ calls -> mc_name c ∉ ec_forbidden_tools case) /\ calls_ok case calls /\
  (is_empty (ec_content case) = false -> finished = true /\ content_ok (ec_content case) text).
Proof using sorted_any_perm.
  unfold score_table_case. rewrite <- score_calls_accept.
  assert (Hf : List.filter (fun c => str_in (mc_name c) (ec_forbidden_tools case)) calls = [] <->
    (forall c, c ∈ calls -> mc_name c ∉ ec_forbidden_tools case)).
  { rewrite filter_nil, Forall_forall. split; intros H c Hc; specialize (H c Hc); by apply str_in_false. }
  rewrite <- Hf. destruct (List.filter _ calls); [|by split; [|intros [? _]]].
  pose proof (score_calls_reason case calls) as Hr.
  destruct (score_calls _ _ _ _) as [[[] reason]|]; cbn [mbind res_bind fst]; try by split; [|intros (_ & ? & _)].
  rewrite (Hr reason eq_refl). unfold score_text. destruct (is_empty (ec_content case)); [by split|].
  destruct finished; cbn [negb]; [|split; [done | intros (_ & _ & H); by destruct (H eq_refl)]].
  rewrite check_content_accept. split; [auto | intros (_ & _ & H); by apply H].
Qed.
End Facts.

Lemma check_content_reason lower re_search c text r : check_content lower re_search c text = Ok (true, r) -> r = "".
Proof.
  unfold check_content. destruct (List.filter _ (contains_all c)); [|done]. destruct (negb (null _) && _); [done|]. intros H. res_inv.
  destruct a; [done|]. destruct (List.filter _ (not_contains c)); [by injection H as <- | done].
Qed.

Lemma score_reason lower re_search json_message sorted_any case calls text finished r :
  score_table_case lower re_search json_message sorted_any case calls text finished = Ok (true, r) -> r = "".
Proof.
  unfold score_table_case. destruct (List.filter _ calls); [|done]. pose proof (score_calls_reason json_message sorted_any case calls) as Hs.
  intros H. res_inv. destruct a as [[] r']; [|by injection H]. unfold score_text in H. cbn in H.
  destruct (is_empty (ec_content case)); [by injection H|]. destruct finished; [|done]. by apply check_content_reason in H.
Qed.

(** ** A concrete deny case *)

Definition example_tool (name : string) : json :=
  JObj [("type", JStr "function");
        ("function", JObj [("name", JStr name);
                           ("parameters", JObj [("properties", JObj [("id", JObj [("type", JStr "string")])]);
                                                ("required", JArr [JStr "id"])])])].
Definition example_case : EvalCase := {|
  ec_name := "deny-delete"; ec_description := ""; ec_system_prompt := ""; ec_user_message := "delete order 7";
  ec_tools := [example_tool "get_order"; example_tool "delete_order"]; ec_expected_tool := Some "delete_order"; ec_max_turns := 10;
  ec_expected_args := [("id", JStr "7")]; ec_required_arg_keys := []; ec_forbidden_arg_keys := ["tenant"];
  ec_expect_no_tool_call := false; ec_forbidden_tools := ["wipe"]; ec_expect_deny := true;
  ec_content := {| contains_all := ["not"]; contains_any := []; regex := []; not_contains := ["deleted it"] |};
  ec_context := [("role", JStr "viewer")]; ec_allowed_tools := Some ["get_order"] |}.
Definition delete_args : json := JStr (json_dumps default_style (JObj [("id", JStr "7")])).
Definition example_calls : list made_call :=
  [{| mc_turn := 1; mc_name := "get_order"; mc_arguments := delete_args; mc_denied := false |};
   {| mc_turn := 1; mc_name := "delete_order"; mc_arguments := delete_args; mc_denied := true |}].
Definition never_searches (pattern text : string) : res exn bool := Ok false.

Lemma score_accepts_what_is_expected_witness :
  score_table_case id never_searches id Ok example_case example_calls "I may not delete it" true = Ok accept /\
  calls_ok example_case example_calls.
Proof.
  assert (H : score_table_case id never_searches id Ok example_case example_calls "I may not delete it" true = Ok accept) by by vm_compute.
  split; [exact H|].
  apply (score_accepts_what_is_expected id never_searches id Ok ltac:(by intros ? ? [= ->]) example_case example_calls
           "I may not delete it" true) in H.
  apply H.
Defined.
