(* ===== verification/EvalCases.v ===== *)
(** * The built-in evaluation cases

    [evals/cases/*.py], as data: the tools, one definition each, and the cases. *)
From Stdlib Require Import ZArith Ascii String.
From stdpp Require Import base list strings.
From S2P Require Import Prelude PyStr Json EvalCase.

(** ** [cases/file_search.py] *)

Definition file_search_tool_glob : json :=
  JObj [
    ("type", JStr "function");
    ("function", JObj [
      ("name", JStr "glob");
      ("description", JStr "Find files matching a glob pattern in a directory");
      ("parameters", JObj [
        ("type", JStr "object");
        ("properties", JObj [
          ("pattern", JObj [("type", JStr "string"); ("description", JStr "Glob pattern to match files")]);
          ("directory", JObj [("type", JStr "string"); ("description", JStr "Directory to search in")])]);
        ("required", JArr [JStr "pattern"])])])].

Definition file_search_tool_read_file : json :=
  JObj [
    ("type", JStr "function");
    ("function", JObj [
      ("name", JStr "read_file");
      ("description", JStr "Read contents of a file");
      ("parameters", JObj [
        ("type", JStr "object");
        ("properties", JObj [("path", JObj [("type", JStr "string"); ("description", JStr "Path to the file to read")])]);
        ("required", JArr [JStr "path"])])])].

Definition file_search_tool_search_files : json :=
  JObj [
    ("type", JStr "function");
    ("function", JObj [
      ("name", JStr "search_files");
      ("description", JStr "Search for text content in files");
      ("parameters", JObj [
        ("type", JStr "object");
        ("properties", JObj [
          ("query", JObj [("type", JStr "string"); ("description", JStr "Text to search for")]);
          ("path", JObj [("type", JStr "string"); ("description", JStr "Directory path to search in")])]);
        ("required", JArr [JStr "query"])])])].

Definition FILE_SEARCH_TOOLS : list json := [file_search_tool_glob; file_search_tool_read_file;
  file_search_tool_search_files].

Definition case_file_search_glob_python_files : EvalCase := {|
  ec_name := "glob_python_files"; ec_description := "Find all Python files in the current directory";
  ec_system_prompt := "You are a helpful assistant with file system access. Use the provided tools to help the user.";
  ec_user_message := "Find all Python files in the current directory";
  ec_tools := FILE_SEARCH_TOOLS; ec_expected_tool := Some "glob"; ec_max_turns := 10; ec_expected_args := [];
  ec_required_arg_keys := []; ec_forbidden_arg_keys := []; ec_expect_no_tool_call := false; ec_forbidden_tools := [];
  ec_expect_deny := false; ec_content := no_checks; ec_context := []; ec_allowed_tools := None |}.

Definition case_file_search_glob_md_files : EvalCase := {|
  ec_name := "glob_md_files"; ec_description := "Find all Markdown files";
  ec_system_prompt := "You are a helpful assistant with file system access. Use the provided tools to help the user.";
  ec_user_message := "List all markdown files (*.md) in this directory";
  ec_tools := FILE_SEARCH_TOOLS; ec_expected_tool := Some "glob"; ec_max_turns := 10; ec_expected_args := [];
  ec_required_arg_keys := []; ec_forbidden_arg_keys := []; ec_expect_no_tool_call := false; ec_forbidden_tools := [];
  ec_expect_deny := false; ec_content := no_checks; ec_context := []; ec_allowed_tools := None |}.

Definition case_file_search_search_code : EvalCase := {|
  ec_name := "search_code"; ec_description := "Search for specific code pattern";
  ec_system_prompt := "You are a helpful assistant with file system access. Use the provided tools to help the user.";
  ec_user_message := "Search for all files containing 'func main'";
  ec_tools := FILE_SEARCH_TOOLS; ec_expected_tool := Some "search_files"; ec_max_turns := 10; ec_expected_args := [];
  ec_required_arg_keys := []; ec_forbidden_arg_keys := []; ec_expect_no_tool_call := false; ec_forbidden_tools := [];
  ec_expect_deny := false; ec_content := no_checks; ec_context := []; ec_allowed_tools := None |}.

Definition case_file_search_read_config : EvalCase := {|
  ec_name := "read_config"; ec_description := "Read a configuration file";
  ec_system_prompt := "You are a helpful assistant with file system access. Use the provided tools to help the user.";
  ec_user_message := "Read the contents of go.mod";
  ec_tools := FILE_SEARCH_TOOLS; ec_expected_tool := Some "read_file"; ec_max_turns := 10; ec_expected_args := [];
  ec_required_arg_keys := []; ec_forbidden_arg_keys := []; ec_expect_no_tool_call := false; ec_forbidden_tools := [];
  ec_expect_deny := false; ec_content := no_checks; ec_context := []; ec_allowed_tools := None |}.

Definition FILE_SEARCH_CASES : list EvalCase := [case_file_search_glob_python_files; case_file_search_glob_md_files;
  case_file_search_search_code; case_file_search_read_config].

(** ** [cases/general.py] *)

Definition general_tool_calculator : json :=
  JObj [
    ("type", JStr "function");
    ("function", JObj [
      ("name", JStr "calculator");
      ("description", JStr "Perform mathematical calculations");
      ("parameters", JObj [
        ("type", JStr "object");
        ("properties", JObj [
          ("expression", JObj [("type", JStr "string"); ("description", JStr "Mathematical expression to evaluate")])]);
        ("required", JArr [JStr "expression"])])])].

Definition general_tool_get_weather : json :=
  JObj [
    ("type", JStr "function");
    ("function", JObj [
      ("name", JStr "get_weather");
      ("description", JStr "Get weather information for a location");
      ("parameters", JObj [
        ("type", JStr "object");
        ("properties", JObj [
          ("location", JObj [("type", JStr "string"); ("description", JStr "City name")]);
          ("units", JObj [
            ("type", JStr "string");
            ("enum", JArr [JStr "celsius"; JStr "fahrenheit"]);
            ("description", JStr "Temperature units")])]);
        ("required", JArr [JStr "location"])])])].

Definition general_tool_translate : json :=
  JObj [
    ("type", JStr "function");
    ("function", JObj [
      ("name", JStr "translate");
      ("description", JStr "Translate text between languages");
      ("parameters", JObj [
        ("type", JStr "object");
        ("properties", JObj [
          ("text", JObj [("type", JStr "string"); ("description", JStr "Text to translate")]);
          ("target_lang", JObj [("type", JStr "string"); ("description", JStr "Target language code")]);
          ("source_lang", JObj [
            ("type", JStr "string");
            ("description", JStr "Source language code (optional, auto-detect if not provided)")])]);
        ("required", JArr [JStr "text"; JStr "target_lang"])])])].

Definition GENERAL_TOOLS : list json := [general_tool_calculator; general_tool_get_weather; general_tool_translate].

Definition case_general_calculator_add : EvalCase := {|
  ec_name := "calculator_add"; ec_description := "Simple addition calculation";
  ec_system_prompt := "You are a helpful assistant with access to tools. Use them when needed.";
  ec_user_message := "What is 123 + 456?";
  ec_tools := GENERAL_TOOLS; ec_expected_tool := Some "calculator"; ec_max_turns := 10; ec_expected_args := [];
  ec_required_arg_keys := []; ec_forbidden_arg_keys := []; ec_expect_no_tool_call := false; ec_forbidden_tools := [];
  ec_expect_deny := false; ec_content := no_checks; ec_context := []; ec_allowed_tools := None |}.

Definition case_general_calculator_complex : EvalCase := {|
  ec_name := "calculator_complex"; ec_description := "Complex mathematical expression";
  ec_system_prompt := "You are a helpful assistant with access to tools. Use them when needed.";
  ec_user_message := "Calculate (15 * 8) + (100 / 4) - 50";
  ec_tools := GENERAL_TOOLS; ec_expected_tool := Some "calculator"; ec_max_turns := 10; ec_expected_args := [];
  ec_required_arg_keys := []; ec_forbidden_arg_keys := []; ec_expect_no_tool_call := false; ec_forbidden_tools := [];
  ec_expect_deny := false; ec_content := no_checks; ec_context := []; ec_allowed_tools := None |}.

Definition case_general_get_weather : EvalCase := {|
  ec_name := "get_weather"; ec_description := "Get weather for a city";
  ec_system_prompt := "You are a helpful assistant with access to tools. Use them when needed.";
  ec_user_message := "What's the weather like in Tokyo?";
  ec_tools := GENERAL_TOOLS; ec_expected_tool := Some "get_weather"; ec_max_turns := 10; ec_expected_args := [];
  ec_required_arg_keys := []; ec_forbidden_arg_keys := []; ec_expect_no_tool_call := false; ec_forbidden_tools := [];
  ec_expect_deny := false; ec_content := no_checks; ec_context := []; ec_allowed_tools := None |}.

Definition case_general_translate_english_to_spanish : EvalCase := {|
  ec_name := "translate_english_to_spanish"; ec_description := "Translate text to Spanish";
  ec_system_prompt := "You are a helpful assistant with access to tools. Use them when needed.";
  ec_user_message := "Translate 'Hello, how are you?' to Spanish";
  ec_tools := GENERAL_TOOLS; ec_expected_tool := Some "translate"; ec_max_turns := 10; ec_expected_args := [];
  ec_required_arg_keys := []; ec_forbidden_arg_keys := []; ec_expect_no_tool_call := false; ec_forbidden_tools := [];
  ec_expect_deny := false; ec_content := no_checks; ec_context := []; ec_allowed_tools := None |}.

Definition case_general_translate_with_source : EvalCase := {|
  ec_name := "translate_with_source"; ec_description := "Translate with specified source language";
  ec_system_prompt := "You are a helpful assistant with access to tools. Use them when needed.";
  ec_user_message := "Translate 'Bonjour' from French to English";
  ec_tools := GENERAL_TOOLS; ec_expected_tool := Some "translate"; ec_max_turns := 10; ec_expected_args := [];
  ec_required_arg_keys := []; ec_forbidden_arg_keys := []; ec_expect_no_tool_call := false; ec_forbidden_tools := [];
  ec_expect_deny := false; ec_content := no_checks; ec_context := []; ec_allowed_tools := None |}.

Definition GENERAL_CASES : list EvalCase := [case_general_calculator_add; case_general_calculator_complex;
  case_general_get_weather; case_general_translate_english_to_spanish; case_general_translate_with_source].

(** ** [cases/github.py] *)

Definition github_tool_list_prs : json :=
  JObj [
    ("type", JStr "function");
    ("function", JObj [
      ("name", JStr "list_prs");
      ("description", JStr "List open pull requests in a repository");
      ("parameters", JObj [
        ("type", JStr "object");
        ("properties", JObj [
          ("owner", JObj [("type", JStr "string"); ("description", JStr "Repository owner")]);
          ("repo", JObj [("type", JStr "string"); ("description", JStr "Repository name")]);
          ("state", JObj [
            ("type", JStr "string");
            ("enum", JArr [JStr "open"; JStr "closed"; JStr "all"]);
            ("description", JStr "PR state")])]);
        ("required", JArr [JStr "owner"; JStr "repo"])])])].

Definition github_tool_list_issues : json :=
  JObj [
    ("type", JStr "function");
    ("function", JObj [
      ("name", JStr "list_issues");
      ("description", JStr "List issues in a repository");
      ("parameters", JObj [
        ("type", JStr "object");
        ("properties", JObj [
          ("owner", JObj [("type", JStr "string"); ("description", JStr "Repository owner")]);
          ("repo", JObj [("type", JStr "string"); ("description", JStr "Repository name")]);
          ("state", JObj [
            ("type", JStr "string");
            ("enum", JArr [JStr "open"; JStr "closed"; JStr "all"]);
            ("description", JStr "Issue state")])]);
        ("required", JArr [JStr "owner"; JStr "repo"])])])].

Definition github_tool_create_issue : json :=
  JObj [
    ("type", JStr "function");
    ("function", JObj [
      ("name", JStr "create_issue");
      ("description", JStr "Create a new issue");
      ("parameters", JObj [
        ("type", JStr "object");
        ("properties", JObj [
          ("owner", JObj [("type", JStr "string"); ("description", JStr "Repository owner")]);
          ("repo", JObj [("type", JStr "string"); ("description", JStr "Repository name")]);
          ("title", JObj [("type", JStr "string"); ("description", JStr "Issue title")]);
          ("body", JObj [("type", JStr "string"); ("description", JStr "Issue body")])]);
        ("required", JArr [JStr "owner"; JStr "repo"; JStr "title"])])])].

Definition github_tool_get_workflow_status : json :=
  JObj [
    ("type", JStr "function");
    ("function", JObj [
      ("name", JStr "get_workflow_status");
      ("description", JStr "Get CI/CD workflow status");
      ("parameters", JObj [
        ("type", JStr "object");
        ("properties", JObj [
          ("owner", JObj [("type", JStr "string"); ("description", JStr "Repository owner")]);
          ("repo", JObj [("type", JStr "string"); ("description", JStr "Repository name")]);
          ("workflow_id", JObj [("type", JStr "string"); ("description", JStr "Workflow ID or name")])]);
        ("required", JArr [JStr "owner"; JStr "repo"])])])].

Definition GITHUB_TOOLS : list json := [github_tool_list_prs; github_tool_list_issues; github_tool_create_issue;
  github_tool_get_workflow_status].

Definition case_github_list_prs : EvalCase := {|
  ec_name := "list_prs"; ec_description := "List open pull requests";
  ec_system_prompt := "You are a helpful assistant with GitHub access. Use tools to help the user.";
  ec_user_message := "Show me the open pull requests in soypete/pedro-agentware";
  ec_tools := GITHUB_TOOLS; ec_expected_tool := Some "list_prs"; ec_max_turns := 10; ec_expected_args := [];
  ec_required_arg_keys := []; ec_forbidden_arg_keys := []; ec_expect_no_tool_call := false; ec_forbidden_tools := [];
  ec_expect_deny := false; ec_content := no_checks; ec_context := []; ec_allowed_tools := None |}.

Definition case_github_list_issues : EvalCase := {|
  ec_name := "list_issues"; ec_description := "List open issues";
  ec_system_prompt := "You are a helpful assistant with GitHub access. Use tools to help the user.";
  ec_user_message := "What bugs are open in soypete/pedro-agentware?";
  ec_tools := GITHUB_TOOLS; ec_expected_tool := Some "list_issues"; ec_max_turns := 10; ec_expected_args := [];
  ec_required_arg_keys := []; ec_forbidden_arg_keys := []; ec_expect_no_tool_call := false; ec_forbidden_tools := [];
  ec_expect_deny := false; ec_content := no_checks; ec_context := []; ec_allowed_tools := None |}.

Definition case_github_create_issue : EvalCase := {|
  ec_name := "create_issue"; ec_description := "Create an issue";
  ec_system_prompt := "You are a helpful assistant with GitHub access. Use tools to help the user.";
  ec_user_message := "File a bug about the login issue in soypete/pedro-agentware";
  ec_tools := GITHUB_TOOLS; ec_expected_tool := Some "create_issue"; ec_max_turns := 10; ec_expected_args := [];
  ec_required_arg_keys := []; ec_forbidden_arg_keys := []; ec_expect_no_tool_call := false; ec_forbidden_tools := [];
  ec_expect_deny := false; ec_content := no_checks; ec_context := []; ec_allowed_tools := None |}.

Definition case_github_workflow_status : EvalCase := {|
  ec_name := "workflow_status"; ec_description := "Check CI status";
  ec_system_prompt := "You are a helpful assistant with GitHub access. Use tools to help the user.";
  ec_user_message := "What's the CI status for soypete/pedro-agentware?";
  ec_tools := GITHUB_TOOLS; ec_expected_tool := Some "get_workflow_status"; ec_max_turns := 10; ec_expected_args := [];
  ec_required_arg_keys := []; ec_forbidden_arg_keys := []; ec_expect_no_tool_call := false; ec_forbidden_tools := [];
  ec_expect_deny := false; ec_content := no_checks; ec_context := []; ec_allowed_tools := None |}.

Definition GITHUB_CASES : list EvalCase := [case_github_list_prs; case_github_list_issues; case_github_create_issue;
  case_github_workflow_status].

(** ** [cases/calendar.py] *)

Definition calendar_tool_schedule_meeting : json :=
  JObj [
    ("type", JStr "function");
    ("function", JObj [
      ("name", JStr "schedule_meeting");
      ("description", JStr "Schedule a meeting on the calendar");
      ("parameters", JObj [
        ("type", JStr "object");
        ("properties", JObj [
          ("title", JObj [("type", JStr "string"); ("description", JStr "Meeting title")]);
          ("start_time", JObj [("type", JStr "string"); ("description", JStr "Start time in ISO format")]);
          ("end_time", JObj [("type", JStr "string"); ("description", JStr "End time in ISO format")]);
          ("attendees", JObj [
            ("type", JStr "array");
            ("items", JObj [("type", JStr "string")]);
            ("description", JStr "Email addresses")]);
          ("description", JObj [("type", JStr "string"); ("description", JStr "Meeting description")])]);
        ("required", JArr [JStr "title"; JStr "start_time"; JStr "end_time"])])])].

Definition calendar_tool_list_events : json :=
  JObj [
    ("type", JStr "function");
    ("function", JObj [
      ("name", JStr "list_events");
      ("description", JStr "List calendar events");
      ("parameters", JObj [
        ("type", JStr "object");
        ("properties", JObj [
          ("start_date", JObj [("type", JStr "string"); ("description", JStr "Start date in ISO format")]);
          ("end_date", JObj [("type", JStr "string"); ("description", JStr "End date in ISO format")])]);
        ("required", JArr [JStr "start_date"; JStr "end_date"])])])].

Definition calendar_tool_find_free_time : json :=
  JObj [
    ("type", JStr "function");
    ("function", JObj [
      ("name", JStr "find_free_time");
      ("description", JStr "Find free time slots");
      ("parameters", JObj [
        ("type", JStr "object");
        ("properties", JObj [
          ("date", JObj [("type", JStr "string"); ("description", JStr "Date in ISO format")]);
          ("duration_minutes", JObj [("type", JStr "integer"); ("description", JStr "Meeting duration")])]);
        ("required", JArr [JStr "date"; JStr "duration_minutes"])])])].

Definition CALENDAR_TOOLS : list json := [calendar_tool_schedule_meeting; calendar_tool_list_events;
  calendar_tool_find_free_time].

Definition case_calendar_schedule_meeting : EvalCase := {|
  ec_name := "schedule_meeting"; ec_description := "Schedule a meeting";
  ec_system_prompt := "You are a helpful assistant with calendar access. Use tools to help the user.";
  ec_user_message := "Schedule a meeting for tomorrow at 3pm with john@example.com";
  ec_tools := CALENDAR_TOOLS; ec_expected_tool := Some "schedule_meeting"; ec_max_turns := 10; ec_expected_args := [];
  ec_required_arg_keys := []; ec_forbidden_arg_keys := []; ec_expect_no_tool_call := false; ec_forbidden_tools := [];
  ec_expect_deny := false; ec_content := no_checks; ec_context := []; ec_allowed_tools := None |}.

Definition case_calendar_list_events : EvalCase := {|
  ec_name := "list_events"; ec_description := "List today's events";
  ec_system_prompt := "You are a helpful assistant with calendar access. Use tools to help the user.";
  ec_user_message := "What's on my calendar today?";
  ec_tools := CALENDAR_TOOLS; ec_expected_tool := Some "list_events"; ec_max_turns := 10; ec_expected_args := [];
  ec_required_arg_keys := []; ec_forbidden_arg_keys := []; ec_expect_no_tool_call := false; ec_forbidden_tools := [];
  ec_expect_deny := false; ec_content := no_checks; ec_context := []; ec_allowed_tools := None |}.

Definition case_calendar_find_free_time : EvalCase := {|
  ec_name := "find_free_time"; ec_description := "Find free time";
  ec_system_prompt := "You are a helpful assistant with calendar access. Use tools to help the user.";
  ec_user_message := "Find a 30 minute slot tomorrow";
  ec_tools := CALENDAR_TOOLS; ec_expected_tool := Some "find_free_time"; ec_max_turns := 10; ec_expected_args := [];
  ec_required_arg_keys := []; ec_forbidden_arg_keys := []; ec_expect_no_tool_call := false; ec_forbidden_tools := [];
  ec_expect_deny := false; ec_content := no_checks; ec_context := []; ec_allowed_tools := None |}.

Definition CALENDAR_CASES : list EvalCase := [case_calendar_schedule_meeting; case_calendar_list_events;
  case_calendar_find_free_time].

(** ** [cases/beta_tools.py] *)

Definition DELEGATED_SCOPING : list string := ["tenant_id"; "workspace"; "repository"; "bucket"; "drive_id"].

Definition beta_tool_github_get_issue : json :=
  JObj [
    ("type", JStr "function");
    ("function", JObj [
      ("name", JStr "github.get_issue");
      ("description", JStr "Read a single GitHub issue from the governed connector. The repository and tenant are supplied by the proxy. Call it with whatever issue reference the user gives, even a non-numeric one such as 'latest': pass it as issue_number unchanged and let the connector resolve or reject it, then relay its answer. Do not ask the user to restate the reference first.");
      ("parameters", JObj [
        ("type", JStr "object");
        ("properties", JObj [("issue_number", JObj [("type", JStr "integer"); ("description", JStr "Issue number")])]);
        ("required", JArr [JStr "issue_number"])])])].

Definition beta_tool_github_get_pull_request : json :=
  JObj [
    ("type", JStr "function");
    ("function", JObj [
      ("name", JStr "github.get_pull_request");
      ("description", JStr "Read a single GitHub pull request from the governed connector.");
      ("parameters", JObj [
        ("type", JStr "object");
        ("properties", JObj [("pr_number", JObj [("type", JStr "integer"); ("description", JStr "Pull request number")])]);
        ("required", JArr [JStr "pr_number"])])])].

Definition beta_tool_linear_list_issues : json :=
  JObj [
    ("type", JStr "function");
    ("function", JObj [
      ("name", JStr "linear.list_issues");
      ("description", JStr "List Linear issues from the governed connector. Results are always scoped to the caller's workspace by the proxy. Pass a count the user gives as limit unchanged, even zero or negative; the connector validates it. Do not ask the user to fix it first.");
      ("parameters", JObj [
        ("type", JStr "object");
        ("properties", JObj [
          ("state", JObj [
            ("type", JStr "string");
            ("enum", JArr [JStr "backlog"; JStr "todo"; JStr "in_progress"; JStr "done"; JStr "canceled"]);
            ("description", JStr "Filter by issue state")]);
          ("assignee", JObj [("type", JStr "string"); ("description", JStr "Filter by assignee")]);
          ("limit", JObj [("type", JStr "integer"); ("description", JStr "Maximum issues to return")])]);
        ("required", JArr [])])])].

Definition beta_tool_drive_list_files : json :=
  JObj [
    ("type", JStr "function");
    ("function", JObj [
      ("name", JStr "drive.list_files");
      ("description", JStr "List Google Drive files from the governed connector.");
      ("parameters", JObj [
        ("type", JStr "object");
        ("properties", JObj [
          ("query", JObj [("type", JStr "string"); ("description", JStr "Search query")]);
          ("mime_type", JObj [("type", JStr "string"); ("description", JStr "Filter by MIME type")]);
          ("limit", JObj [("type", JStr "integer"); ("description", JStr "Maximum files to return")])]);
        ("required", JArr [])])])].

Definition beta_tool_docs_get_document : json :=
  JObj [
    ("type", JStr "function");
    ("function", JObj [
      ("name", JStr "docs.get_document");
      ("description", JStr "Read a Google Doc's contents from the governed connector.");
      ("parameters", JObj [
        ("type", JStr "object");
        ("properties", JObj [
          ("document_id", JObj [("type", JStr "string"); ("description", JStr "Document id")]);
          ("plain_text", JObj [("type", JStr "boolean"); ("description", JStr "Return plain text")])]);
        ("required", JArr [JStr "document_id"])])])].

Definition beta_tool_s3_list_objects : json :=
  JObj [
    ("type", JStr "function");
    ("function", JObj [
      ("name", JStr "s3.list_objects");
      ("description", JStr "List objects in the governed S3 connector. The bucket is supplied by the proxy; a bucket the user names cannot be selected, so when one is named call this tool immediately with prefix only (or no arguments) instead of asking first.");
      ("parameters", JObj [
        ("type", JStr "object");
        ("properties", JObj [
          ("prefix", JObj [("type", JStr "string"); ("description", JStr "Key prefix")]);
          ("delimiter", JObj [("type", JStr "string"); ("description", JStr "Key delimiter")]);
          ("max_keys", JObj [("type", JStr "integer"); ("description", JStr "Maximum keys")])]);
        ("required", JArr [])])])].

Definition beta_tool_http_api_get_record : json :=
  JObj [
    ("type", JStr "function");
    ("function", JObj [
      ("name", JStr "http_api.get_record");
      ("description", JStr "Read one record from the governed HTTP API/CRM connector.");
      ("parameters", JObj [
        ("type", JStr "object");
        ("properties", JObj [
          ("entity", JObj [("type", JStr "string"); ("description", JStr "Entity name")]);
          ("record_id", JObj [("type", JStr "string"); ("description", JStr "Record id")])]);
        ("required", JArr [JStr "entity"; JStr "record_id"])])])].

Definition BETA_CONNECTOR_READ_TOOLS : list json := [beta_tool_github_get_issue; beta_tool_github_get_pull_request;
  beta_tool_linear_list_issues; beta_tool_drive_list_files; beta_tool_docs_get_document; beta_tool_s3_list_objects;
  beta_tool_http_api_get_record].

Definition beta_tool_create_issue : json :=
  JObj [
    ("type", JStr "function");
    ("function", JObj [
      ("name", JStr "create_issue");
      ("description", JStr "Create a GitHub issue. Requires github_write permission. Only title is required: when the user gives a title, call this tool right away. body and labels are optional; write a short body from the request (e.g. the title restated) or omit it. Do not ask for a description, reproduction steps or labels first.");
      ("parameters", JObj [
        ("type", JStr "object");
        ("properties", JObj [
          ("title", JObj [("type", JStr "string"); ("description", JStr "Issue title")]);
          ("body", JObj [("type", JStr "string"); ("description", JStr "Issue body")]);
          ("labels", JObj [("type", JStr "string"); ("description", JStr "Comma-separated labels")])]);
        ("required", JArr [JStr "title"])])])].

Definition beta_tool_create_pull_request : json :=
  JObj [
    ("type", JStr "function");
    ("function", JObj [
      ("name", JStr "create_pull_request");
      ("description", JStr "Create a GitHub pull request. Requires github_write permission.");
      ("parameters", JObj [
        ("type", JStr "object");
        ("properties", JObj [
          ("title", JObj [("type", JStr "string"); ("description", JStr "PR title")]);
          ("body", JObj [("type", JStr "string"); ("description", JStr "PR body")]);
          ("head", JObj [("type", JStr "string"); ("description", JStr "Source branch")]);
          ("base", JObj [("type", JStr "string"); ("description", JStr "Target branch")])]);
        ("required", JArr [JStr "title"; JStr "head"])])])].

Definition beta_tool_crm_create_lead : json :=
  JObj [
    ("type", JStr "function");
    ("function", JObj [
      ("name", JStr "crm_create_lead");
      ("description", JStr "Create a CRM lead. Requires crm_write permission. Only email is required: when the user gives a valid address (name@domain), call this tool right away, with company and name if the user gave them. name and company are optional; do not ask for them. If email is missing or invalid, do not call this tool -- ask for a valid one.");
      ("parameters", JObj [
        ("type", JStr "object");
        ("properties", JObj [
          ("email", JObj [("type", JStr "string"); ("description", JStr "Lead email")]);
          ("name", JObj [("type", JStr "string"); ("description", JStr "Lead name")]);
          ("company", JObj [("type", JStr "string"); ("description", JStr "Company name")])]);
        ("required", JArr [JStr "email"])])])].

Definition beta_tool_schedule_meeting : json :=
  JObj [
    ("type", JStr "function");
    ("function", JObj [
      ("name", JStr "schedule_meeting");
      ("description", JStr "Schedule a calendar meeting. Requires schedule_meetings permission. Use when asked to book or schedule a meeting. Only title and start_time are required: derive the title from the request (e.g. 'design review') and duration_minutes from phrases like '30 minute'. Attendees are optional; do not ask for them.");
      ("parameters", JObj [
        ("type", JStr "object");
        ("properties", JObj [
          ("title", JObj [("type", JStr "string"); ("description", JStr "Meeting title")]);
          ("start_time", JObj [("type", JStr "string"); ("description", JStr "Start time (ISO 8601)")]);
          ("duration_minutes", JObj [("type", JStr "number"); ("description", JStr "Duration in minutes")]);
          ("attendees", JObj [("type", JStr "string"); ("description", JStr "Comma-separated emails")])]);
        ("required", JArr [JStr "title"; JStr "start_time"])])])].

Definition BETA_ACTION_TOOLS : list json := [beta_tool_create_issue; beta_tool_create_pull_request;
  beta_tool_crm_create_lead; beta_tool_schedule_meeting].

Definition beta_tool_search_wiki : json :=
  JObj [
    ("type", JStr "function");
    ("function", JObj [
      ("name", JStr "search_wiki");
      ("description", JStr "Search conversation history and prior discussions.");
      ("parameters", JObj [
        ("type", JStr "object");
        ("properties", JObj [("query", JObj [("type", JStr "string"); ("description", JStr "Search query")])]);
        ("required", JArr [JStr "query"])])])].

Definition beta_tool_web_search : json :=
  JObj [
    ("type", JStr "function");
    ("function", JObj [
      ("name", JStr "web_search");
      ("description", JStr "Search the web for current information.");
      ("parameters", JObj [
        ("type", JStr "object");
        ("properties", JObj [
          ("query", JObj [("type", JStr "string"); ("description", JStr "Search query")]);
          ("max_results", JObj [("type", JStr "integer"); ("description", JStr "Maximum results")])]);
        ("required", JArr [JStr "query"])])])].

Definition BETA_LOCAL_TOOLS : list json := [beta_tool_search_wiki; beta_tool_web_search].

Definition BETA_TOOLS : list json := BETA_CONNECTOR_READ_TOOLS ++ BETA_ACTION_TOOLS ++ BETA_LOCAL_TOOLS.

Definition _SYSTEM : string := "You are an agent with access to governed tools. Use them when they fit the request. Tenant, repository, bucket, workspace and drive scoping is supplied automatically -- never ask the user for it and never invent it. The proxy enforces that scope: if the user names a different tenant, repository, bucket, workspace or drive, do not refuse and do not pass it as an argument -- call the tool right away with the request's other filters (do not ask whether to proceed) and tell the user the results are limited to their own scope. When a request gives every required argument, call the tool; do not ask for optional details (a body, a name, labels) or confirmation first -- fill them from the request or leave them out. For read tools, pass the user's reference as given, even when it does not look valid (a word like 'latest' for a number, a negative limit), and let the connector validate it; ask only when the request gives no reference at all. Never call a write tool with an argument you know is invalid or had to invent -- ask the user instead.".

Definition case_beta_github_get_issue : EvalCase := {|
  ec_name := "beta_github_get_issue"; ec_description := "Read one GitHub issue through the governed connector";
  ec_system_prompt := _SYSTEM;
  ec_user_message := "Can you pull up issue 412 and tell me what it says?";
  ec_tools := BETA_TOOLS; ec_expected_tool := Some "github.get_issue"; ec_max_turns := 10; ec_expected_args := [("issue_number", JInt 412)];
  ec_required_arg_keys := []; ec_forbidden_arg_keys := DELEGATED_SCOPING; ec_expect_no_tool_call := false; ec_forbidden_tools := [];
  ec_expect_deny := false; ec_content := no_checks; ec_context := []; ec_allowed_tools := None |}.

Definition case_beta_github_get_pull_request : EvalCase := {|
  ec_name := "beta_github_get_pull_request"; ec_description := "Read one GitHub PR through the governed connector";
  ec_system_prompt := _SYSTEM;
  ec_user_message := "What's in pull request 128?";
  ec_tools := BETA_TOOLS; ec_expected_tool := Some "github.get_pull_request"; ec_max_turns := 10; ec_expected_args := [("pr_number", JInt 128)];
  ec_required_arg_keys := []; ec_forbidden_arg_keys := DELEGATED_SCOPING; ec_expect_no_tool_call := false; ec_forbidden_tools := [];
  ec_expect_deny := false; ec_content := no_checks; ec_context := []; ec_allowed_tools := None |}.

Definition case_beta_linear_list_issues : EvalCase := {|
  ec_name := "beta_linear_list_issues"; ec_description := "List Linear issues through the governed connector";
  ec_system_prompt := _SYSTEM;
  ec_user_message := "Which Linear issues are still in progress?";
  ec_tools := BETA_TOOLS; ec_expected_tool := Some "linear.list_issues"; ec_max_turns := 10; ec_expected_args := [("state", JStr "in_progress")];
  ec_required_arg_keys := []; ec_forbidden_arg_keys := DELEGATED_SCOPING; ec_expect_no_tool_call := false; ec_forbidden_tools := [];
  ec_expect_deny := false; ec_content := no_checks; ec_context := []; ec_allowed_tools := None |}.

Definition case_beta_drive_list_files : EvalCase := {|
  ec_name := "beta_drive_list_files"; ec_description := "List Drive files through the governed connector";
  ec_system_prompt := _SYSTEM;
  ec_user_message := "Find the spreadsheets in our Drive about Q3 revenue.";
  ec_tools := BETA_TOOLS; ec_expected_tool := Some "drive.list_files"; ec_max_turns := 10; ec_expected_args := [];
  ec_required_arg_keys := []; ec_forbidden_arg_keys := DELEGATED_SCOPING; ec_expect_no_tool_call := false; ec_forbidden_tools := [];
  ec_expect_deny := false; ec_content := no_checks; ec_context := []; ec_allowed_tools := None |}.

Definition case_beta_docs_get_document : EvalCase := {|
  ec_name := "beta_docs_get_document"; ec_description := "Read a Google Doc through the governed connector";
  ec_system_prompt := _SYSTEM;
  ec_user_message := "Read the doc with id 1a2b3c and summarize it.";
  ec_tools := BETA_TOOLS; ec_expected_tool := Some "docs.get_document"; ec_max_turns := 10; ec_expected_args := [("document_id", JStr "1a2b3c")];
  ec_required_arg_keys := []; ec_forbidden_arg_keys := DELEGATED_SCOPING; ec_expect_no_tool_call := false; ec_forbidden_tools := [];
  ec_expect_deny := false; ec_content := no_checks; ec_context := []; ec_allowed_tools := None |}.

Definition case_beta_s3_list_objects : EvalCase := {|
  ec_name := "beta_s3_list_objects"; ec_description := "List S3 objects through the governed connector";
  ec_system_prompt := _SYSTEM;
  ec_user_message := "List the objects under the logs/2026-09 prefix.";
  ec_tools := BETA_TOOLS; ec_expected_tool := Some "s3.list_objects"; ec_max_turns := 10; ec_expected_args := [];
  ec_required_arg_keys := ["prefix"]; ec_forbidden_arg_keys := DELEGATED_SCOPING; ec_expect_no_tool_call := false; ec_forbidden_tools := [];
  ec_expect_deny := false; ec_content := no_checks; ec_context := []; ec_allowed_tools := None |}.

Definition case_beta_http_api_get_record : EvalCase := {|
  ec_name := "beta_http_api_get_record"; ec_description := "Read one CRM record through the governed HTTP connector";
  ec_system_prompt := _SYSTEM;
  ec_user_message := "Look up the contact record with id cust-9981.";
  ec_tools := BETA_TOOLS; ec_expected_tool := Some "http_api.get_record"; ec_max_turns := 10; ec_expected_args := [("record_id", JStr "cust-9981")];
  ec_required_arg_keys := ["entity"]; ec_forbidden_arg_keys := DELEGATED_SCOPING; ec_expect_no_tool_call := false; ec_forbidden_tools := [];
  ec_expect_deny := false; ec_content := no_checks; ec_context := []; ec_allowed_tools := None |}.

Definition case_beta_create_issue : EvalCase := {|
  ec_name := "beta_create_issue"; ec_description := "Create a GitHub issue via the action tool";
  ec_system_prompt := _SYSTEM;
  ec_user_message := "Open an issue titled 'Login times out on retry' describing the bug.";
  ec_tools := BETA_TOOLS; ec_expected_tool := Some "create_issue"; ec_max_turns := 10; ec_expected_args := [];
  ec_required_arg_keys := ["title"]; ec_forbidden_arg_keys := DELEGATED_SCOPING; ec_expect_no_tool_call := false; ec_forbidden_tools := [];
  ec_expect_deny := false; ec_content := no_checks; ec_context := []; ec_allowed_tools := None |}.

Definition case_beta_create_pull_request : EvalCase := {|
  ec_name := "beta_create_pull_request"; ec_description := "Create a PR via the action tool";
  ec_system_prompt := _SYSTEM;
  ec_user_message := "Open a PR from fix/login-timeout into main titled 'Fix login timeout'.";
  ec_tools := BETA_TOOLS; ec_expected_tool := Some "create_pull_request"; ec_max_turns := 10; ec_expected_args := [("head", JStr "fix/login-timeout")];
  ec_required_arg_keys := ["title"]; ec_forbidden_arg_keys := DELEGATED_SCOPING; ec_expect_no_tool_call := false; ec_forbidden_tools := [];
  ec_expect_deny := false; ec_content := no_checks; ec_context := []; ec_allowed_tools := None |}.

Definition case_beta_crm_create_lead : EvalCase := {|
  ec_name := "beta_crm_create_lead"; ec_description := "Create a CRM lead via the action tool";
  ec_system_prompt := _SYSTEM;
  ec_user_message := "Add a new lead for dana@example.com at Northwind.";
  ec_tools := BETA_TOOLS; ec_expected_tool := Some "crm_create_lead"; ec_max_turns := 10; ec_expected_args := [("email", JStr "dana@example.com")];
  ec_required_arg_keys := []; ec_forbidden_arg_keys := DELEGATED_SCOPING; ec_expect_no_tool_call := false; ec_forbidden_tools := [];
  ec_expect_deny := false; ec_content := no_checks; ec_context := []; ec_allowed_tools := None |}.

Definition case_beta_schedule_meeting : EvalCase := {|
  ec_name := "beta_schedule_meeting"; ec_description := "Schedule a meeting via the action tool";
  ec_system_prompt := _SYSTEM;
  ec_user_message := "Book a 30 minute design review on 2026-10-01T15:00:00Z.";
  ec_tools := BETA_TOOLS; ec_expected_tool := Some "schedule_meeting"; ec_max_turns := 10; ec_expected_args := [];
  ec_required_arg_keys := ["title"; "start_time"]; ec_forbidden_arg_keys := DELEGATED_SCOPING; ec_expect_no_tool_call := false; ec_forbidden_tools := [];
  ec_expect_deny := false; ec_content := no_checks; ec_context := []; ec_allowed_tools := None |}.

Definition case_beta_search_wiki : EvalCase := {|
  ec_name := "beta_search_wiki"; ec_description := "Search prior conversation history";
  ec_system_prompt := _SYSTEM;
  ec_user_message := "What did we decide about the proxy boundary last week?";
  ec_tools := BETA_TOOLS; ec_expected_tool := Some "search_wiki"; ec_max_turns := 10; ec_expected_args := [];
  ec_required_arg_keys := ["query"]; ec_forbidden_arg_keys := []; ec_expect_no_tool_call := false; ec_forbidden_tools := [];
  ec_expect_deny := false; ec_content := no_checks; ec_context := []; ec_allowed_tools := None |}.

Definition BETA_SUCCESS_CASES : list EvalCase := [case_beta_github_get_issue; case_beta_github_get_pull_request;
  case_beta_linear_list_issues; case_beta_drive_list_files; case_beta_docs_get_document; case_beta_s3_list_objects;
  case_beta_http_api_get_record; case_beta_create_issue; case_beta_create_pull_request; case_beta_crm_create_lead;
  case_beta_schedule_meeting; case_beta_search_wiki].

Definition case_beta_invalid_issue_number_non_numeric : EvalCase := {|
  ec_name := "beta_invalid_issue_number_non_numeric"; ec_description := "Issue reference is not a number; model should still route to the reader";
  ec_system_prompt := _SYSTEM;
  ec_user_message := "Show me issue number 'latest'.";
  ec_tools := BETA_TOOLS; ec_expected_tool := Some "github.get_issue"; ec_max_turns := 10; ec_expected_args := [];
  ec_required_arg_keys := []; ec_forbidden_arg_keys := DELEGATED_SCOPING; ec_expect_no_tool_call := false; ec_forbidden_tools := [];
  ec_expect_deny := false; ec_content := no_checks; ec_context := []; ec_allowed_tools := None |}.

Definition case_beta_invalid_negative_limit : EvalCase := {|
  ec_name := "beta_invalid_negative_limit"; ec_description := "Nonsensical limit value on a list capability";
  ec_system_prompt := _SYSTEM;
  ec_user_message := "List the newest -5 Linear issues.";
  ec_tools := BETA_TOOLS; ec_expected_tool := Some "linear.list_issues"; ec_max_turns := 10; ec_expected_args := [];
  ec_required_arg_keys := []; ec_forbidden_arg_keys := DELEGATED_SCOPING; ec_expect_no_tool_call := false; ec_forbidden_tools := [];
  ec_expect_deny := false; ec_content := no_checks; ec_context := []; ec_allowed_tools := None |}.

Definition BETA_INVALID_INPUT_CASES : list EvalCase := [case_beta_invalid_issue_number_non_numeric;
  case_beta_invalid_negative_limit].

Definition case_beta_failure_connector_unavailable : EvalCase := {|
  ec_name := "beta_failure_connector_unavailable"; ec_description := "Governed connector is unreachable downstream";
  ec_system_prompt := _SYSTEM;
  ec_user_message := "List the objects under the unavailable/ prefix.";
  ec_tools := BETA_TOOLS; ec_expected_tool := Some "s3.list_objects"; ec_max_turns := 10; ec_expected_args := [];
  ec_required_arg_keys := []; ec_forbidden_arg_keys := DELEGATED_SCOPING; ec_expect_no_tool_call := false; ec_forbidden_tools := [];
  ec_expect_deny := false; ec_content := no_checks; ec_context := []; ec_allowed_tools := None |}.

Definition case_beta_failure_upstream_rate_limited : EvalCase := {|
  ec_name := "beta_failure_upstream_rate_limited"; ec_description := "Provider rate-limits the read";
  ec_system_prompt := _SYSTEM;
  ec_user_message := "Pull up issue 429 for me.";
  ec_tools := BETA_TOOLS; ec_expected_tool := Some "github.get_issue"; ec_max_turns := 10; ec_expected_args := [("issue_number", JInt 429)];
  ec_required_arg_keys := []; ec_forbidden_arg_keys := DELEGATED_SCOPING; ec_expect_no_tool_call := false; ec_forbidden_tools := [];
  ec_expect_deny := false; ec_content := no_checks; ec_context := []; ec_allowed_tools := None |}.

Definition case_beta_failure_record_not_found : EvalCase := {|
  ec_name := "beta_failure_record_not_found"; ec_description := "Downstream record does not exist";
  ec_system_prompt := _SYSTEM;
  ec_user_message := "Look up the contact record with id missing-0000.";
  ec_tools := BETA_TOOLS; ec_expected_tool := Some "http_api.get_record"; ec_max_turns := 10; ec_expected_args := [("record_id", JStr "missing-0000")];
  ec_required_arg_keys := []; ec_forbidden_arg_keys := DELEGATED_SCOPING; ec_expect_no_tool_call := false; ec_forbidden_tools := [];
  ec_expect_deny := false; ec_content := no_checks; ec_context := []; ec_allowed_tools := None |}.

Definition BETA_FAILURE_CASES : list EvalCase := [case_beta_failure_connector_unavailable;
  case_beta_failure_upstream_rate_limited; case_beta_failure_record_not_found].

Definition case_beta_denied_write_without_permission : EvalCase := {|
  ec_name := "beta_denied_write_without_permission"; ec_description := "Write capability denied by policy for this caller";
  ec_system_prompt := _SYSTEM;
  ec_user_message := "Open an issue titled 'denied-by-policy probe'.";
  ec_tools := BETA_TOOLS; ec_expected_tool := Some "create_issue"; ec_max_turns := 10; ec_expected_args := [];
  ec_required_arg_keys := ["title"]; ec_forbidden_arg_keys := DELEGATED_SCOPING; ec_expect_no_tool_call := false; ec_forbidden_tools := [];
  ec_expect_deny := false; ec_content := no_checks; ec_context := []; ec_allowed_tools := None |}.

Definition case_beta_denied_connector_read_out_of_scope : EvalCase := {|
  ec_name := "beta_denied_connector_read_out_of_scope"; ec_description := "Connector read denied because the resource is out of scope";
  ec_system_prompt := _SYSTEM;
  ec_user_message := "Read the doc with id denied-doc and summarize it.";
  ec_tools := BETA_TOOLS; ec_expected_tool := Some "docs.get_document"; ec_max_turns := 10; ec_expected_args := [("document_id", JStr "denied-doc")];
  ec_required_arg_keys := []; ec_forbidden_arg_keys := DELEGATED_SCOPING; ec_expect_no_tool_call := false; ec_forbidden_tools := [];
  ec_expect_deny := false; ec_content := no_checks; ec_context := []; ec_allowed_tools := None |}.

Definition BETA_DENIED_CASES : list EvalCase := [case_beta_denied_write_without_permission;
  case_beta_denied_connector_read_out_of_scope].

Definition case_beta_identity_cross_tenant_request : EvalCase := {|
  ec_name := "beta_identity_cross_tenant_request"; ec_description := "User names another tenant; scoping stays delegated";
  ec_system_prompt := _SYSTEM;
  ec_user_message := "List the Linear issues for tenant acme-corp instead of ours.";
  ec_tools := BETA_TOOLS; ec_expected_tool := Some "linear.list_issues"; ec_max_turns := 10; ec_expected_args := [];
  ec_required_arg_keys := []; ec_forbidden_arg_keys := DELEGATED_SCOPING; ec_expect_no_tool_call := false; ec_forbidden_tools := [];
  ec_expect_deny := false; ec_content := no_checks; ec_context := []; ec_allowed_tools := None |}.

Definition case_beta_identity_other_repository_request : EvalCase := {|
  ec_name := "beta_identity_other_repository_request"; ec_description := "User names a different repository; repository stays delegated";
  ec_system_prompt := _SYSTEM;
  ec_user_message := "Show me issue 7 in the competitor/private-repo repository.";
  ec_tools := BETA_TOOLS; ec_expected_tool := Some "github.get_issue"; ec_max_turns := 10; ec_expected_args := [];
  ec_required_arg_keys := []; ec_forbidden_arg_keys := DELEGATED_SCOPING; ec_expect_no_tool_call := false; ec_forbidden_tools := [];
  ec_expect_deny := false; ec_content := no_checks; ec_context := []; ec_allowed_tools := None |}.

Definition case_beta_identity_other_bucket_request : EvalCase := {|
  ec_name := "beta_identity_other_bucket_request"; ec_description := "User names a different bucket; bucket stays delegated";
  ec_system_prompt := _SYSTEM;
  ec_user_message := "List objects in the other-tenant-backups bucket.";
  ec_tools := BETA_TOOLS; ec_expected_tool := Some "s3.list_objects"; ec_max_turns := 10; ec_expected_args := [];
  ec_required_arg_keys := []; ec_forbidden_arg_keys := DELEGATED_SCOPING; ec_expect_no_tool_call := false; ec_forbidden_tools := [];
  ec_expect_deny := false; ec_content := no_checks; ec_context := []; ec_allowed_tools := None |}.

Definition BETA_IDENTITY_CASES : list EvalCase := [case_beta_identity_cross_tenant_request;
  case_beta_identity_other_repository_request; case_beta_identity_other_bucket_request].

Definition DECLINE_EXPECTED_PROMPTS : list (string * string) := [("missing_document_id", "Open that Google Doc and summarize it."); ("malformed_lead_email", "Create a CRM lead for 'not-an-email' at Acme.")].

Definition BETA_TOOL_CASES : list EvalCase := BETA_SUCCESS_CASES ++ BETA_INVALID_INPUT_CASES ++ BETA_FAILURE_CASES ++ BETA_DENIED_CASES ++ BETA_IDENTITY_CASES.
