(* ===== verification/EvalExecutors.v ===== *)
(** * Mock tools and the built-in cases

    [evals/executors.py]: the canned answers of the tools, and what the built-in
    cases of [EvalCases.v] promise together with the check of [EvalCase.v].

    Parameters: [glob_files] and [read_file], the file system; [evaluate],
    [str(eval(...))] of an expression without names, or the text of what it
    raises. *)
From Stdlib Require Import ZArith Lia Ascii String.
From stdpp Require Import base tactics list strings.
From S2P Require Import Prelude PyStr PyFloat Json Types EvalCase EvalCaseFacts EvalCases.

Definition dumps (d : jdict) : string := json_dumps default_style (JObj d).
Definition proxy_scope : json := JObj [("tenant_id", JStr "<proxy-supplied>"); ("delegated", JBool true)].

Definition beta_tool_executor (tool_name : string) (args : json) : res exn string :=
  let get k := any_get args k JNull in
  let text k := v ← any_get args k (JStr ""); Ok (py_str v) in
  if String.eqb tool_name "github.get_issue" then
    number ← get "issue_number";
    Ok (dumps (if String.eqb (py_str number) "429"
               then [("error", JStr "rate_limited"); ("retry_after_seconds", JInt 30); ("source", JStr "provider")]
               else [("issue_number", number); ("title", JStr "Login times out on retry"); ("state", JStr "open"); ("scope", proxy_scope)]))
  else if String.eqb tool_name "github.get_pull_request" then
    number ← get "pr_number";
    Ok (dumps [("pr_number", number); ("title", JStr "Fix login timeout"); ("state", JStr "open"); ("scope", proxy_scope)])
  else if String.eqb tool_name "linear.list_issues" then
    Ok (dumps [("issues", JArr [JObj [("key", JStr "ENG-201"); ("state", JStr "in_progress")]]); ("scope", proxy_scope)])
  else if String.eqb tool_name "drive.list_files" then
    Ok (dumps [("files", JArr [JObj [("id", JStr "1a2b3c"); ("name", JStr "Q3 revenue"); ("mime_type", JStr "spreadsheet")]]);
               ("scope", proxy_scope)])
  else if String.eqb tool_name "docs.get_document" then
    document_id ← get "document_id";
    Ok (dumps (if py_eq document_id (JStr "denied-doc")
               then [("error", JStr "denied"); ("reason", JStr "resource outside the caller's granted scope"); ("source", JStr "policy")]
               else [("document_id", document_id); ("text", JStr "..."); ("scope", proxy_scope)]))
  else if String.eqb tool_name "s3.list_objects" then
    prefix ← text "prefix";
    Ok (dumps (if String.prefix "unavailable/" prefix
               then [("error", JStr "connector_unavailable"); ("source", JStr "connector"); ("retryable", JBool true)]
               else [("objects", JArr [JObj [("key", JStr (String.append prefix "app.log")); ("size", JInt 1024)]]); ("scope", proxy_scope)]))
  else if String.eqb tool_name "http_api.get_record" then
    record ← text "record_id";
    if String.prefix "missing-" record then Ok (dumps [("error", JStr "not_found"); ("source", JStr "provider")])
    else
      entity ← get "entity"; record_id ← get "record_id";
      Ok (dumps [("entity", entity); ("record_id", record_id); ("scope", proxy_scope)])
  else if String.eqb tool_name "create_issue" then
    title_text ← text "title";
    if py_in "denied-by-policy" title_text
    then Ok (dumps [("error", JStr "denied"); ("reason", JStr "missing required permission: github_write"); ("source", JStr "policy")])
    else title ← get "title"; Ok (dumps [("number", JInt 3); ("title", title); ("state", JStr "open")])
  else if String.eqb tool_name "create_pull_request" then
    title ← get "title"; head ← get "head"; base ← any_get args "base" (JStr "main");
    Ok (dumps [("number", JInt 9); ("title", title); ("head", head); ("base", base)])
  else if String.eqb tool_name "crm_create_lead" then
    email ← text "email";
    Ok (dumps (if negb (py_in "@" email)
               then [("error", JStr "invalid_argument"); ("field", JStr "email"); ("source", JStr "validation")]
               else [("lead_id", JStr "lead-77"); ("email", JStr email)]))
  else if String.eqb tool_name "schedule_meeting" then
    title ← get "title"; start_time ← get "start_time";
    Ok (dumps [("id", JStr "meeting-123"); ("title", title); ("start_time", start_time)])
  else if String.eqb tool_name "search_wiki" then
    Ok (dumps [("results", JArr [JObj [("title", JStr "Proxy boundary decision"); ("score", JFloat (float_of_dec false 91 (-2)))]])])
  else if String.eqb tool_name "web_search" then
    Ok (dumps [("results", JArr [JObj [("title", JStr "Result"); ("url", JStr "https://example.com")]])])
  else Ok (String.append "Mock result for " tool_name).

Definition tool_names_of (tools : list json) : list string :=
  omap (fun tool => match tool with
                    | JObj d => match jget d "function" with
                                | JObj fn => match jget fn "name" with JStr s => Some s | _ => None end
                                | _ => None
                                end
                    | _ => None
                    end) tools.
Definition _BETA_TOOL_NAMES : list string := tool_names_of BETA_TOOLS.

Definition suite_tool_executor (tool_name : string) (args : json) : res exn string :=
  if str_in tool_name _BETA_TOOL_NAMES then beta_tool_executor tool_name args
  else Ok (dumps [("status", JStr "ok"); ("tool", JStr tool_name); ("result", JStr "mock result")]).

Section Mock.
Context (glob_files : json -> json -> res exn (list string)) (read_file : json -> res exn string) (evaluate : json -> string + string).

Definition dump_list (l : list json) : string := json_dumps default_style (JArr l).
Definition item (title : string) (number : Z) : json := JObj [("title", JStr title); ("number", JInt number); ("state", JStr "open")].
Definition mock_tool_executor (tool_name : string) (args : json) : res exn string :=
  let get k := any_get args k JNull in
  if String.eqb tool_name "glob" then
    pattern ← any_get args "pattern" (JStr ""); directory ← any_get args "directory" (JStr ".");
    files ← glob_files directory pattern; Ok (dump_list (map JStr (take 10 files)))
  else if String.eqb tool_name "read_file" then
    path ← any_get args "path" (JStr "");
    match read_file path with
    | Ok text => Ok (py_take 1000 text)
    | Raise (Exn (UserError "FileNotFoundError") _) => Ok (String.append "File not found: " (py_str path))
    | Raise e => Raise e
    end
  else if String.eqb tool_name "search_files" then Ok (dump_list [JStr "match in file1.go"; JStr "match in file2.go"])
  else if String.eqb tool_name "calculator" then
    expr ← any_get args "expression" (JStr "0");
    Ok match evaluate expr with inl result => result | inr e => String.append "Error: " e end
  else if String.eqb tool_name "get_weather" then
    location ← get "location"; Ok (dumps [("location", location); ("temp", JInt 72); ("condition", JStr "sunny")])
  else if String.eqb tool_name "translate" then
    text ← get "text"; target ← get "target_lang";
    Ok (dumps [("original", text); ("translated", JStr (str_join ["[translated: "; py_str text; "]"])); ("target", target)])
  else if String.eqb tool_name "list_prs" then Ok (dump_list [item "Add feature" 1; item "Fix bug" 2])
  else if String.eqb tool_name "list_issues" then Ok (dump_list [item "Bug in login" 1])
  else if String.eqb tool_name "create_issue" then
    title ← get "title"; Ok (dumps [("number", JInt 3); ("title", title); ("state", JStr "open")])
  else if String.eqb tool_name "get_workflow_status" then Ok (dumps [("status", JStr "success"); ("conclusion", JStr "passed")])
  else if String.eqb tool_name "schedule_meeting" then
    title ← get "title"; start_time ← get "start_time";
    Ok (dumps [("id", JStr "meeting-123"); ("title", title); ("start_time", start_time)])
  else if String.eqb tool_name "list_events" then
    Ok (dump_list [JObj [("title", JStr "Team standup"); ("start", JStr "2024-01-15T09:00:00Z")]])
  else if String.eqb tool_name "find_free_time" then
    Ok (dump_list [JObj [("start", JStr "2024-01-15T14:00:00Z"); ("end", JStr "2024-01-15T14:30:00Z")]])
  else Ok (String.append "Mock result for " tool_name).

Definition dispatch_tool_executor (tool_name : string) (args : json) : res exn string :=
  if str_in tool_name _BETA_TOOL_NAMES then beta_tool_executor tool_name args else mock_tool_executor tool_name args.
End Mock.

(** ** The executor of the suites answers every call *)

Definition answers (r : res exn string) : Prop := exists answer, r = Ok answer.

Lemma answers_if (b : bool) x y : answers x -> answers y -> answers (if b then x else y).
Proof. by destruct b. Qed.
Lemma answers_get args k d f : (forall v, answers (f v)) -> answers (v ← any_get (JObj args) k d; f v).
Proof. intros H. apply H. Qed.
Lemma answers_text args k d f : (forall v, answers (f v)) -> answers (t ← (v ← any_get (JObj args) k d; Ok (py_str v)); f t).
Proof. intros H. apply H. Qed.

Lemma suite_executor_total tool_name args : answers (suite_tool_executor tool_name (JObj args)).
Proof.
  unfold suite_tool_executor, beta_tool_executor. cbv zeta beta.
  repeat first [apply answers_if | apply answers_get; intros ? | apply answers_text; intros ? | by eexists].
Qed.

(** ** The built-in cases *)

Definition ALL_CASES : list EvalCase := FILE_SEARCH_CASES ++ GENERAL_CASES ++ GITHUB_CASES ++ CALENDAR_CASES ++ BETA_TOOL_CASES.

(** Arguments made of what a case asks for: the keys its tool requires, then those
    of its own, with a text for a value where it expects none. *)
Definition required_texts (schema : jdict) : list string :=
  match jget_or schema "required" (JArr []) with JArr l => default [] (strings_of l) | _ => [] end.
Definition some_args (case : EvalCase) : jdict :=
  match declared_schema (ec_tools case) (default "" (ec_expected_tool case)) with
  | Ok schema => dmerge (map (fun k => (k, JStr "x")) (required_texts schema ++ ec_required_arg_keys case)) (ec_expected_args case)
  | Raise _ => []
  end.
Definition can_pass (case : EvalCase) : bool :=
  match ec_expected_tool case with
  | Some tool =>
      match validate_tool_call id Ok case tool (JStr (json_dumps default_style (JObj (some_args case)))) with
      | Ok (true, EmptyString) => true
      | _ => false
      end
  | None => false
  end.


Lemma all_can_pass : forallb can_pass ALL_CASES = true.
Proof. by vm_compute. Qed.
Lemma all_distinct : bool_decide (NoDup (map ec_name ALL_CASES)) = true.
Proof. by vm_compute. Qed.

(** The check of a case keeps a key out: it forbids it, or its tool declares
    parameters without it. *)
Definition keeps_out (case : EvalCase) (k : string) : bool :=
  str_in k (ec_forbidden_arg_keys case) ||
  match declared_schema (ec_tools case) (default "" (ec_expected_tool case)) with
  | Ok schema => match jget_or schema "properties" (JObj []) with
                 | JObj (p :: ps) => negb (str_in k (dkeys (p :: ps)))
                 | _ => false
                 end
  | Raise _ => false
  end.
Lemma beta_keeps_scoping_out : forallb (fun case => forallb (keeps_out case) DELEGATED_SCOPING) BETA_TOOL_CASES = true.
Proof. by vm_compute. Qed.

Lemma kept_out case k name raw args : keeps_out case k = true -> valid_call case name raw -> loads_or_empty raw = Ok (JObj args) ->
  k ∉ dkeys args.
Proof.
  intros Hk (Hn & args' & schema & Hr & Hs & [Hd _ _ Hf _]) Hr'. assert (args' = args) as -> by congruence.
  unfold keeps_out in Hk. rewrite Hn in Hk. cbn [default from_option id] in Hk. rewrite Hs in Hk. apply orb_prop in Hk as [Hk|Hk].
  - by apply Hf, str_in_spec.
  - destruct (jget_or schema "properties" (JObj [])) as [| | | | | |[|p ps]]; try done. intros Hin%(Hd p ps eq_refl).
    by apply negb_true_iff, str_in_false in Hk.
Qed.

(** The built-in cases are fair and keep the delegation: they have distinct
    names, each has a call that its check accepts, and no call that the check of a
    beta case accepts carries a scoping argument that the proxy supplies. *)
Lemma builtin_cases_are_fair (json_message : string -> string) (sorted_any : list json -> res exn (list json)) :
  (forall l k, sorted_any l = Ok k -> l ≡ₚ k) ->
  NoDup (map ec_name ALL_CASES) /\
  (forall case, case ∈ ALL_CASES -> exists tool raw, ec_expected_tool case = Some tool /\
     validate_tool_call json_message sorted_any case tool raw = Ok accept) /\
  (forall case name raw args k, case ∈ BETA_TOOL_CASES -> validate_tool_call json_message sorted_any case name raw = Ok accept ->
     loads_or_empty raw = Ok (JObj args) -> k ∈ DELEGATED_SCOPING -> k ∉ dkeys args).
Proof.
  intros Hp. split; [exact (proj1 (bool_decide_eq_true _) all_distinct)|]. split.
  - intros case Hc%list_elem_of_In. pose proof all_can_pass as H. eapply forallb_forall in H; [|exact Hc]. unfold can_pass in H.
    destruct (ec_expected_tool case) as [tool|]; [|done]. exists tool, (JStr (json_dumps default_style (JObj (some_args case)))). split; [done|]. apply (validate_accept _ _ Hp).
    apply (validate_accept id Ok); [by intros ? ? [= ->]|].
    destruct (validate_tool_call id Ok _ _ _) as [[[] []]|]; try done.
  - intros case name raw args k Hc%list_elem_of_In Hv%(validate_accept _ _ Hp) Hr Hk%list_elem_of_In.
    pose proof beta_keeps_scoping_out as H. eapply forallb_forall in H; [|exact Hc]. eapply forallb_forall in H; [|exact Hk].
    by eapply kept_out.
Qed.

Lemma builtin_cases_example :
  (forall l k : list json, Ok l = @Ok exn _ k -> l ≡ₚ k) /\ NoDup (map ec_name ALL_CASES).
Proof.
  assert (Hp : forall l k : list json, Ok l = @Ok exn _ k -> l ≡ₚ k) by (by intros ? ? [= ->]).
  split; [exact Hp | exact (proj1 (builtin_cases_are_fair id Ok Hp))].
Defined.
