(* ===== verification/EvalRunner.v ===== *)
(** * Running evaluation cases

    [evals/runner.py], class [EvalRunner]: the loop of a legacy case, the loop of a
    table case, whose calls go through the middleware of [Middleware.v] under the
    case's policy, the preflight, and the report.

    Parameters: the model's client and the mock tools act on a world [X]; [elapsed]
    is the time between two of its states in milliseconds, [stamp] the times the
    middleware takes of it, [exc_str] the text of an exception.  Printing is left
    out. *)
From Stdlib Require Import ZArith Lia Ascii String SpecFloat.
From stdpp Require Import base tactics list strings.
From S2P Require Import Prelude PyStr PyFloat PyBytes Json Types AuditTrail Middleware EvalCase.

(** [evals/models.py]: what a client returns; [content] is a text or [None]. *)
Record tool_call := { tc_id : json; tc_name : string; tc_arguments : json }.
Record ModelResult := { mr_content : option string; mr_tool_calls : list tool_call; mr_finish_reason : json; mr_usage : json }.

Record EvalResult := {
  er_case_name : string; er_model_name : string; er_success : bool; er_turns : Z; er_tool_calls : list json;
  er_error : string; er_duration_ms : Z; er_errored : bool; er_final_text : string }.

Record EvalReport := { ep_timestamp : string; ep_models : list string; ep_results : list EvalResult }.
Definition count_if {A} (p : A -> bool) (l : list A) : Z := Z.of_nat (length (List.filter p l)).
Definition pass_rate (report : EvalReport) (model : string) : res exn spec_float :=
  let model_results := List.filter (fun r => String.eqb (er_model_name r) model) (ep_results report) in
  if null model_results then Ok (float_of_Z 0)
  else int_div (count_if er_success model_results) (Z.of_nat (length model_results)).

Definition role_message (role content : string) : json := JObj [("role", JStr role); ("content", JStr content)].
Definition opening (case : EvalCase) : list json :=
  [role_message "system" (ec_system_prompt case); role_message "user" (ec_user_message case)].

(** A call as an entry of an assistant message, and the answer to it. *)
Definition call_entry (tc : tool_call) : json :=
  JObj [("id", tc_id tc); ("type", JStr "function");
        ("function", JObj [("name", JStr (tc_name tc)); ("arguments", tc_arguments tc)])].
Definition assistant_message (content : json) (calls : list tool_call) : json :=
  JObj [("role", JStr "assistant"); ("content", content); ("tool_calls", JArr (map call_entry calls))].
Definition tool_message (tc : tool_call) (content : string) : json :=
  JObj [("role", JStr "tool"); ("tool_call_id", tc_id tc); ("content", JStr content)].

Definition POLICY_DENIED_PREFIX : string := "denied by policy".
Inductive verdict := CONTINUE | ONE_MORE_TURN | STOP.

Definition _after_tool_turn (case : EvalCase) (calls : list made_call) : verdict :=
  if ec_expect_deny case then (if existsb mc_denied calls then ONE_MORE_TURN else CONTINUE)
  else if negb (is_empty (ec_content case)) then CONTINUE
  else STOP.

Record EvalRunner := {
  rn_base_url : string; rn_max_turns : Z; rn_backend : string; rn_timeout : Z; rn_max_tokens : Z;
  rn_temperature : json; rn_seed : option Z; rn_thinking : option bool; rn_top_p : option json; rn_top_k : option Z }.

Definition opt_field {A} (k : string) (f : A -> json) (o : option A) : jdict := match o with Some a => [(k, f a)] | None => [] end.
Definition _sampling (r : EvalRunner) : jdict :=
  [("temperature", rn_temperature r)] ++ opt_field "top_p" id (rn_top_p r) ++ opt_field "top_k" JInt (rn_top_k r)
  ++ opt_field "seed" JInt (rn_seed r) ++ opt_field "thinking" JBool (rn_thinking r).

(** [type(e).__name__] *)
Definition class_name (c : exn_class) : string :=
  match c with
  | TypeError => "TypeError" | ValueError => "ValueError" | KeyError => "KeyError" | AttributeError => "AttributeError"
  | IndexError => "IndexError" | PermissionError => "PermissionError" | RuntimeError => "RuntimeError" | OSError => "OSError"
  | TimeoutError => "TimeoutError" | OverflowError => "OverflowError" | JSONDecodeError => "JSONDecodeError" | UserError n => n
  end.

Section Runner.
Context {X : Type}.
(** The client's [complete]: messages, tools and keyword arguments. *)
Context (complete : string -> list json -> option (list json) -> jdict -> eff X exn ModelResult)
  (tool_executor : string -> json -> eff X exn string) (elapsed : X -> X -> Z) (stamp : X -> clock) (exc_str : exn -> string).
Context (lower : string -> string) (re_search : string -> string -> res exn bool)
  (json_message : string -> string) (sorted_any : list json -> res exn (list json)).

Definition bump (z : Z) : Z := (z + 1)%Z.

(** ** Legacy cases *)

Record CaseLoop := { cl_world : X; cl_messages : list json; cl_made : list json; cl_turns : Z }.
Definition set_cl_world (x : X) (s : CaseLoop) : CaseLoop :=
  {| cl_world := x; cl_messages := cl_messages s; cl_made := cl_made s; cl_turns := cl_turns s |}.
Definition legacy_entry (turns : Z) (tc : tool_call) : json :=
  JObj [("turn", JInt turns); ("name", JStr (tc_name tc)); ("arguments", tc_arguments tc)].
Definition note_call (tc : tool_call) (s : CaseLoop) : CaseLoop :=
  {| cl_world := cl_world s; cl_messages := cl_messages s; cl_made := cl_made s ++ [legacy_entry (cl_turns s) tc];
     cl_turns := cl_turns s |}.
Definition add_answer (tc : tool_call) (answer : string) (s : CaseLoop) : CaseLoop :=
  {| cl_world := cl_world s; cl_made := cl_made s; cl_turns := cl_turns s;
     cl_messages := cl_messages s ++ [assistant_message JNull [tc]; tool_message tc answer] |}.

(** [json.loads(...) if ... else {}], and [{}] for what does not decode. *)
Definition lenient_args (raw : json) : res exn json :=
  match loads_or_empty raw with Raise (Exn JSONDecodeError _) => Ok (JObj []) | r => r end.

(** The calls of one answer: the verdict on the first call of the expected tool,
    or [None] when there is none. *)
Fixpoint legacy_calls (case : EvalCase) (calls : list tool_call) : eff CaseLoop exn (option outcome) :=
  match calls with
  | [] => mret None
  | tc :: calls' =>
      _ ← eff_modify (note_call tc);
      if is_expected case (tc_name tc) then
        o ← eff_lift (validate_tool_call json_message sorted_any case (tc_name tc) (tc_arguments tc)); mret (Some o)
      else
        args ← eff_lift (lenient_args (tc_arguments tc));
        answer ← eff_zoom cl_world set_cl_world (tool_executor (tc_name tc) args);
        _ ← eff_modify (add_answer tc answer);
        legacy_calls case calls'
  end.

(** The turns left; the verdict, with the name of the tool it is about. *)
Fixpoint legacy_turns (fuel : nat) (case : EvalCase) (model : string) : eff CaseLoop exn (option outcome) :=
  match fuel with
  | O => mret None
  | S fuel' =>
      s ← eff_get;
      result ← eff_zoom cl_world set_cl_world (complete model (cl_messages s) (Some (ec_tools case)) []);
      _ ← eff_modify (fun s => {| cl_world := cl_world s; cl_messages := cl_messages s; cl_made := cl_made s; cl_turns := bump (cl_turns s) |});
      match mr_tool_calls result with
      | [] => mret None
      | calls =>
          o ← legacy_calls case calls;
          match o with Some v => mret (Some v) | None => legacy_turns fuel' case model end
      end
  end.

Definition run_case (case : EvalCase) (model : string) (x : X) : EvalResult * X :=
  let '(r, s) := legacy_turns (Z.to_nat (ec_max_turns case)) case model
                   {| cl_world := x; cl_messages := opening case; cl_made := []; cl_turns := 0 |} in
  let result success error :=
    {| er_case_name := ec_name case; er_model_name := model; er_success := success; er_turns := cl_turns s;
       er_tool_calls := cl_made s; er_error := error; er_duration_ms := elapsed x (cl_world s);
       er_errored := false; er_final_text := "" |} in
  (match r with
   | Ok (Some (true, _)) => result true ""
   | Ok (Some (false, reason)) => result false (str_join ["invalid call to "; default "None" (ec_expected_tool case); ": "; reason])
   | Ok None => result false (str_join ["Expected tool '"; default "None" (ec_expected_tool case); "' not called in ";
                                        int_str (cl_turns s); " turns"])
   | Raise e => result false (exc_str e)
   end, cl_world s).

(** ** Table cases *)

Abbreviation mw := (MiddlewareImpl.t EvalPolicy InMemoryAuditor.t X).

(** [_FunctionToolExecutor.execute] *)
Definition function_executor (tool : string) (args : jdict) : eff X exn tool_result :=
  answer ← tool_executor tool (JObj args); mret (JStr answer, true, "").

Definition invalid_arguments : string :=
  json_dumps default_style (JObj [("error", JStr "invalid_arguments"); ("source", JStr "harness")]).
Definition refusal (denied : bool) (error : string) : string :=
  json_dumps default_style (JObj [("error", JStr (if denied then "denied" else "tool_error")); ("reason", JStr error);
                                  ("source", JStr (if denied then "policy" else "executor"))]).

(** The time the policy stamps its next decision with. *)
Definition tick (m : mw) : mw :=
  match MiddlewareImpl._evaluator m with
  | Some p => MiddlewareImpl.with_policy {| ep_allowed := ep_allowed p; ep_now := c_decision (stamp (MiddlewareImpl._executor m)) |} m
  | None => m
  end.

Definition _execute_governed (caller : CallerContext) (tc : tool_call) : eff mw exn (string * bool) := fun m =>
  match loads_or_empty (tc_arguments tc) with
  | Raise (Exn JSONDecodeError _) => (Ok (invalid_arguments, false), m)
  | Raise e => (Raise e, m)
  | Ok (JObj args) =>
      let '(r, m') := MiddlewareImpl.execute function_executor (stamp (MiddlewareImpl._executor m)) (tc_name tc) args caller "agentware-evals" (tick m) in
      (match r with
       | Ok (result, true, _) => Ok (match result with JStr s => s | v => json_dumps default_style v end, false)
       | Ok (_, false, error) =>
           let denied := String.prefix POLICY_DENIED_PREFIX error in Ok (refusal denied error, denied)
       | Raise e => Raise e
       end, m')
  | Ok _ => (Ok (invalid_arguments, false), m)
  end.

Record TableLoop := {
  tl_mw : mw; tl_messages : list json; tl_calls : list made_call; tl_final_text : string; tl_finished : bool;
  tl_truncated : bool; tl_turns : Z }.
Definition tl_world (s : TableLoop) : X := MiddlewareImpl._executor (tl_mw s).
Definition set_tl_mw (m : mw) (s : TableLoop) : TableLoop :=
  {| tl_mw := m; tl_messages := tl_messages s; tl_calls := tl_calls s; tl_final_text := tl_final_text s;
     tl_finished := tl_finished s; tl_truncated := tl_truncated s; tl_turns := tl_turns s |}.
Definition set_tl_world (x : X) (s : TableLoop) : TableLoop := set_tl_mw (MiddlewareImpl.set_executor x (tl_mw s)) s.
Definition say (m : json) (s : TableLoop) : TableLoop :=
  {| tl_mw := tl_mw s; tl_messages := tl_messages s ++ [m]; tl_calls := tl_calls s; tl_final_text := tl_final_text s;
     tl_finished := tl_finished s; tl_truncated := tl_truncated s; tl_turns := tl_turns s |}.
Definition add_call (c : made_call) (s : TableLoop) : TableLoop :=
  {| tl_mw := tl_mw s; tl_messages := tl_messages s; tl_calls := tl_calls s ++ [c]; tl_final_text := tl_final_text s;
     tl_finished := tl_finished s; tl_truncated := tl_truncated s; tl_turns := tl_turns s |}.
Definition turn (s : TableLoop) : TableLoop :=
  {| tl_mw := tl_mw s; tl_messages := tl_messages s; tl_calls := tl_calls s; tl_final_text := tl_final_text s;
     tl_finished := tl_finished s; tl_truncated := tl_truncated s; tl_turns := bump (tl_turns s) |}.
Definition conclude (text : string) (truncated : bool) (s : TableLoop) : TableLoop :=
  {| tl_mw := tl_mw s; tl_messages := tl_messages s; tl_calls := tl_calls s; tl_final_text := text;
     tl_finished := negb truncated; tl_truncated := truncated; tl_turns := tl_turns s |}.

Fixpoint governed_calls (caller : CallerContext) (calls : list tool_call) : eff TableLoop exn unit :=
  match calls with
  | [] => mret tt
  | tc :: calls' =>
      answer ← eff_zoom tl_mw set_tl_mw (_execute_governed caller tc);
      _ ← eff_modify (fun s => add_call {| mc_turn := tl_turns s; mc_name := tc_name tc; mc_arguments := tc_arguments tc;
                                           mc_denied := (answer : string * bool).2 |} s);
      _ ← eff_modify (say (tool_message tc (answer : string * bool).1));
      governed_calls caller calls'
  end.

(** The turns left, and whether this is the last one a denial leaves. *)
Fixpoint table_turns (fuel : nat) (case : EvalCase) (model : string) (kwargs : jdict) (caller : CallerContext) (last_turn : bool)
    : eff TableLoop exn unit :=
  match fuel with
  | O => mret tt
  | S fuel' =>
      s ← eff_get;
      result ← eff_zoom tl_world set_tl_world (complete model (tl_messages s) (Some (ec_tools case)) kwargs);
      _ ← eff_modify turn;
      match mr_tool_calls result with
      | [] => eff_modify (conclude (default "" (mr_content result)) (py_eq (mr_finish_reason result) (JStr "length")))
      | calls =>
          let content := match mr_content result with Some (String _ _ as t) => JStr t | _ => JNull end in
          _ ← eff_modify (say (assistant_message content calls));
          _ ← governed_calls caller calls;
          if last_turn then mret tt
          else
            s ← eff_get;
            match _after_tool_turn case (tl_calls s) with
            | STOP => mret tt
            | ONE_MORE_TURN => table_turns fuel' case model kwargs caller true
            | CONTINUE => table_turns fuel' case model kwargs caller false
            end
      end
  end.

Definition made_entry (c : made_call) : json :=
  JObj [("turn", JInt (mc_turn c)); ("name", JStr (mc_name c)); ("arguments", mc_arguments c); ("denied", JBool (mc_denied c))].

Definition new_middleware (case : EvalCase) (now : datetime) (x : X) : mw :=
  {| MiddlewareImpl._executor := x; MiddlewareImpl._evaluator := policy_for case now;
     MiddlewareImpl._auditor := Some InMemoryAuditor.init |}.

Definition table_kwargs (r : EvalRunner) : jdict := ("max_tokens", JInt (rn_max_tokens r)) :: _sampling r.

(** The loop of a table case from its beginning. *)
Definition play (r : EvalRunner) (case : EvalCase) (model : string) (caller : CallerContext) (now : datetime) (x : X)
    : res exn unit * TableLoop :=
  table_turns (Z.to_nat (rn_max_turns r)) case model (table_kwargs r) caller false
    {| tl_mw := new_middleware case now x; tl_messages := opening case; tl_calls := []; tl_final_text := "";
       tl_finished := false; tl_truncated := false; tl_turns := 0 |}.

Definition table_result (case : EvalCase) (model : string) (x : X) (s : TableLoop) (success : bool) (error : string) (errored : bool) : EvalResult :=
  {| er_case_name := ec_name case; er_model_name := model; er_success := success; er_turns := tl_turns s;
     er_tool_calls := map made_entry (tl_calls s); er_error := error; er_duration_ms := elapsed x (tl_world s);
     er_errored := errored; er_final_text := tl_final_text s |}.

Definition run_table_case (r : EvalRunner) (case : EvalCase) (model session_id : string) : eff X exn EvalResult := fun x =>
  match caller_context_for case session_id with
  | Raise e => (Raise e, x)
  | Ok caller =>
      let '(out, s) := play r case model caller (c_decision (stamp x)) x in
      let result := table_result case model x s in
      (match out with
       | Raise e => Ok (result false (str_join [class_name (exn_cls e); ": "; exc_str e]) true)
       | Ok _ =>
           o ← score_table_case lower re_search json_message sorted_any case (tl_calls s) (tl_final_text s) (tl_finished s);
           let '(ok, reason) := (o : outcome) in
           Ok (result ok (if negb ok && tl_truncated s
                          then str_join [reason; " (reply truncated at max_tokens="; int_str (rn_max_tokens r); ")"]
                          else reason) false)
       end, tl_world s)
  end.

(** ** The preflight and whole runs *)

Definition EndpointUnavailableError (msg : string) : exn := Exn (UserError "EndpointUnavailableError") msg.

Definition preflight (r : EvalRunner) (model : string) : eff X exn unit := fun x =>
  match complete model [role_message "user" "ping"] None (("max_tokens", JInt 1) :: _sampling r) x with
  | (Ok _, x') => (Ok tt, x')
  | (Raise e, x') =>
      (Raise (EndpointUnavailableError (str_join ["model "; py_repr model; " is not reachable at "; py_repr (rn_base_url r);
                                                  " via the "; rn_backend r; " backend: "; exc_str e])), x')
  end.

(** The runner's own results grow with those of the report. *)
Record Run := { ru_world : X; ru_results : list EvalResult; ru_report : list EvalResult }.
Definition set_ru_world (x : X) (s : Run) : Run := {| ru_world := x; ru_results := ru_results s; ru_report := ru_report s |}.
Fixpoint run_cases (cases : list EvalCase) (model : string) : eff Run exn unit :=
  match cases with
  | [] => mret tt
  | case :: cases' => fun s =>
      let '(r, x) := run_case case model (ru_world s) in
      run_cases cases' model {| ru_world := x; ru_results := ru_results s ++ [r]; ru_report := ru_report s ++ [r] |}
  end.
Fixpoint run_models (r : EvalRunner) (cases : list EvalCase) (models : list string) (with_preflight : bool) : eff Run exn unit :=
  match models with
  | [] => mret tt
  | model :: models' =>
      _ ← (if with_preflight then eff_zoom ru_world set_ru_world (preflight r model) else mret tt);
      _ ← run_cases cases model;
      run_models r cases models' with_preflight
  end.
Definition run_evals (r : EvalRunner) (timestamp : string) (cases : list EvalCase) (models : list string) (with_preflight : bool)
    (results : list EvalResult) (x : X) : res exn EvalReport * Run :=
  let '(out, s) := run_models r cases models with_preflight {| ru_world := x; ru_results := results; ru_report := [] |} in
  (_ ← out; Ok {| ep_timestamp := timestamp; ep_models := models; ep_results := ru_report s |}, s).
End Runner.

(** What [save_report] writes. *)
Definition result_json (r : EvalResult) : json :=
  JObj [("case", JStr (er_case_name r)); ("model", JStr (er_model_name r)); ("success", JBool (er_success r));
        ("turns", JInt (er_turns r)); ("tool_calls", JArr (er_tool_calls r)); ("error", JStr (er_error r));
        ("duration_ms", JInt (er_duration_ms r))].
Definition save_report (report : EvalReport) : string :=
  json_dumps (indented 2) (JObj [("timestamp", JStr (ep_timestamp report)); ("models", JArr (map JStr (ep_models report)));
                                 ("results", JArr (map result_json (ep_results report)))]).
