(* ===== verification/EvalRunnerFacts.v ===== *)
(** * A case runs only the tools it allows

    The loop of a table case ([EvalRunner.v]) against what an observer sees of the
    model and of the mock tools: how often the model is asked, and which tools
    run.  A world is observed through [asks] and [ran]. *)
From Stdlib Require Import ZArith Lia Ascii String.
From stdpp Require Import base tactics list strings.
From S2P Require Import Prelude PyStr PyFloat PyBytes Json Types AuditTrail Middleware EvalCase EvalCaseFacts EvalRunner.

(** What a client and an executor do to the observations of the world. *)
Record observes {X} (complete : string -> list json -> option (list json) -> jdict -> eff X exn ModelResult)
    (tool_executor : string -> json -> eff X exn string) (asks : X -> nat) (ran : X -> list string) : Prop := {
  ob_asks : forall model messages tools kwargs x, asks (complete model messages tools kwargs x).2 = S (asks x);
  ob_silent : forall model messages tools kwargs x, ran (complete model messages tools kwargs x).2 = ran x;
  ob_runs : forall tool args x, ran (tool_executor tool args x).2 = ran x ++ [tool];
  ob_quiet : forall tool args x, asks (tool_executor tool args x).2 = asks x }.

Definition permitted (case : EvalCase) (tool : string) : bool :=
  match ec_allowed_tools case with Some allowed => str_in tool allowed | None => true end.
(** The arguments of a call are an object. *)
Definition decodes (c : made_call) : bool := match loads_or_empty (mc_arguments c) with Ok (JObj _) => true | _ => false end.
Definition runs (case : EvalCase) (c : made_call) : bool := decodes c && permitted case (mc_name c).

Section Facts.
Context {X : Type}.
Context (complete : string -> list json -> option (list json) -> jdict -> eff X exn ModelResult)
  (tool_executor : string -> json -> eff X exn string) (stamp : X -> clock).
Context (asks : X -> nat) (ran : X -> list string) (Hob : observes complete tool_executor asks ran).
Context (case : EvalCase).

Abbreviation mw := (MiddlewareImpl.t EvalPolicy InMemoryAuditor.t X).

(** The middleware holds the policy of the case, and records. *)
Definition governed (m : mw) : Prop :=
  ep_allowed <$> MiddlewareImpl._evaluator m = ec_allowed_tools case /\ is_Some (MiddlewareImpl._auditor m).

Lemma tick_governed m : governed m -> governed (tick stamp m) /\ MiddlewareImpl._executor (tick stamp m) = MiddlewareImpl._executor m.
Proof. unfold tick, governed. destruct (MiddlewareImpl._evaluator m) eqn:E; cbn; by rewrite ?E. Qed.

Lemma denied_prefix d : String.prefix POLICY_DENIED_PREFIX (deny_message d) = true.
Proof. unfold deny_message, POLICY_DENIED_PREFIX. simpl. by destruct (d_reason d). Qed.

Lemma decide_case now tool args caller (m : mw) :
  ep_allowed <$> MiddlewareImpl._evaluator m = ec_allowed_tools case ->
  exists d (m1 : mw), MiddlewareImpl.decide_call now tool args caller m = (Ok d, m1) /\
    ep_allowed <$> MiddlewareImpl._evaluator m1 = ec_allowed_tools case /\
    MiddlewareImpl._executor m1 = MiddlewareImpl._executor m /\ bool_decide (d_action d = DENY) = negb (permitted case tool).
Proof.
  intros He. unfold MiddlewareImpl.decide_call, permitted. rewrite <- He.
  destruct (MiddlewareImpl._evaluator m) as [p|] eqn:E; [|by eexists _, _; rewrite E].
  eexists _, _. split; [done|]. split; [done|]. split; [done|]. simpl. by destruct (str_in tool (ep_allowed p)).
Qed.

(** One call: what the middleware answers and what has run. *)
Lemma execute_observed now tool args caller framework (m : mw) :
  governed m ->
  let '(r, m') := MiddlewareImpl.execute (function_executor tool_executor) now tool args caller framework m in
  governed m' /\ asks (MiddlewareImpl._executor m') = asks (MiddlewareImpl._executor m) /\
  ran (MiddlewareImpl._executor m') = ran (MiddlewareImpl._executor m) ++ (if permitted case tool then [tool] else []) /\
  (if permitted case tool
   then forall a, r = Ok a -> exists s, a = (JStr s, true, "")
   else exists d, r = Ok (JNull, false, deny_message d)).
Proof using Hob.
  intros [He [a Ha]].
  pose proof (MiddlewareImpl.execute_unfold (function_executor tool_executor) now tool args caller framework m a Ha) as Hu.
  destruct (MiddlewareImpl.execute _ _ _ _ _ _ m) as [r m']. destruct (decide_case (c_decision now) tool args caller m He) as (d & m1 & Hd & He1 & Hx & Hdeny).
  rewrite Hd, Hdeny in Hu. destruct (permitted case tool); cbn in Hu.
  - unfold function_executor, mbind, eff_bind in Hu.
    pose proof (ob_runs _ _ _ _ Hob tool (JObj (effective_args d args)) (MiddlewareImpl._executor m)) as Hr.
    pose proof (ob_quiet _ _ _ _ Hob tool (JObj (effective_args d args)) (MiddlewareImpl._executor m)) as Hq.
    destruct (tool_executor _ _ _) as [[s|e] x']; cbn in *; injection Hu as -> ->; cbn; unfold governed; cbn;
      rewrite He1; repeat split; eauto; intros ? [= <-]; eauto.
  - destruct Hu as [-> ->]. unfold governed. cbn. rewrite Hx, app_nil_r. repeat split; eauto.
Qed.

Definition call_of (tc : tool_call) (turn : Z) (denied : bool) : made_call :=
  {| mc_turn := turn; mc_name := tc_name tc; mc_arguments := tc_arguments tc; mc_denied := denied |}.

(** At most one more tool runs in a call that raises. *)
Definition leftover {A} (out : res exn A) (l : list string) : Prop :=
  Forall (fun t => permitted case t = true) l /\ length l <= match out with Ok _ => 0 | Raise _ => 1 end.

(** What a governed call may do to the world, in terms of its answer. *)
Definition call_effect (tc : tool_call) (turn : Z) (r : res exn (string * bool)) (before after : list string) : Prop :=
  match r with
  | Ok (_, denied) =>
      after = before ++ map mc_name (List.filter (runs case) [call_of tc turn denied]) /\
      denied = decodes (call_of tc turn denied) && negb (permitted case (tc_name tc))
  | Raise _ => exists l, leftover r l /\ after = before ++ l
  end.

Lemma no_effect {A} (e : exn) (l : list string) : exists l', leftover (@Raise exn A e) l' /\ l = l ++ l'.
Proof. exists []. rewrite app_nil_r. split; [|done]. split; [constructor | simpl; lia]. Qed.

Lemma governed_observed caller tc (m : mw) turn :
  governed m ->
  let '(r, m') := _execute_governed tool_executor stamp caller tc m in
  governed m' /\ asks (MiddlewareImpl._executor m') = asks (MiddlewareImpl._executor m) /\
  call_effect tc turn r (ran (MiddlewareImpl._executor m)) (ran (MiddlewareImpl._executor m')).
Proof using Hob.
  intros Hg. unfold _execute_governed, call_effect, runs, decodes. cbn.
  destruct (loads_or_empty (tc_arguments tc)) as [[| | | | | |args]|[[] ?]] eqn:Hl; cbn;
    try (by rewrite app_nil_r); try (split_and!; first [done | apply no_effect]).
  destruct (tick_governed m Hg) as [Hg' Hx].
  pose proof (execute_observed (stamp (MiddlewareImpl._executor m)) (tc_name tc) args caller "agentware-evals" _ Hg') as He.
  destruct (MiddlewareImpl.execute _ _ _ _ _ _ _) as [r m']. rewrite Hx in He. destruct He as (Hg2 & Hq & Hr & Ha).
  split_and!; try done. destruct (permitted case (tc_name tc)) eqn:Hp.
  - destruct r as [[[v ok] error]|e]; [destruct (Ha _ eq_refl) as (s & [= -> -> ->]); done|].
    exists [tc_name tc]. split; [|done]. split; [by repeat constructor | simpl; lia].
  - destruct Ha as [dd ->]. by rewrite denied_prefix.
Qed.

(** ** The loop *)

Definition tools_ran (s : TableLoop) : list string := ran (tl_world s).

(** The state of the loop, and what the world has seen since [start]. *)
Record played (start : list string) (s : TableLoop) (extra : list string) : Prop := {
  pl_governed : governed (tl_mw s);
  pl_ran : tools_ran s = start ++ map mc_name (List.filter (runs case) (tl_calls s)) ++ extra;
  pl_denied : Forall (fun c => mc_denied c = decodes c && negb (permitted case (mc_name c))) (tl_calls s) }.

Lemma governed_calls_played caller calls start s :
  played start s [] ->
  let '(out, s') := governed_calls tool_executor stamp caller calls s in
  asks (tl_world s') = asks (tl_world s) /\ tl_turns s' = tl_turns s /\ exists extra, leftover out extra /\ played start s' extra.
Proof using Hob.
  revert s. induction calls as [|tc calls IH]; intros s Hs; simpl.
  - split_and!; [done..|]. exists []. split; [split; [constructor | simpl; lia] | done].
  - unfold mbind at 1, eff_bind at 1, eff_zoom. destruct Hs as [Hg Hr Hd].
    pose proof (governed_observed caller tc (tl_mw s) (tl_turns s) Hg) as H1.
    destruct (_execute_governed _ _ _ _ _) as [[[content denied]|e] m'] eqn:He; destruct H1 as (Hg' & Hq & Heff); cbn in Heff.
    + destruct Heff as [Heff Hden]. unfold mbind, eff_bind, eff_modify.
      match goal with |- let '(_, _) := governed_calls _ _ _ _ ?s' in _ => specialize (IH s') end.
      destruct (governed_calls _ _ _ _ _) as [out s']. destruct IH as (IHa & IHt & IHx).
      { split; cbn; [done| |].
        - unfold tools_ran, tl_world in *. cbn. rewrite Heff, Hr, List.filter_app, map_app, !app_nil_r, app_assoc. done.
        - apply Forall_app. split; [done|]. by constructor. }
      split_and!; [|done..]. rewrite IHa. exact Hq.
    + destruct Heff as (l & Hl & Heff). split_and!; [exact Hq | done |]. exists l. split; [done|].
      split; cbn; [done| |done]. unfold tools_ran, tl_world in *. cbn. rewrite Heff, Hr, app_nil_r. by rewrite app_assoc.
Qed.

Lemma table_turns_played fuel model kwargs caller last_turn start s :
  played start s [] ->
  let '(out, s') := table_turns complete tool_executor stamp fuel case model kwargs caller last_turn s in
  asks (tl_world s') <= asks (tl_world s) + fuel /\ exists extra, leftover out extra /\ played start s' extra.
Proof using Hob.
  revert last_turn s. induction fuel as [|fuel IH]; intros last_turn s Hs; cbn [table_turns].
  - split; [lia|]. exists []. split; [split; [constructor | simpl; lia] | done].
  - unfold mbind at 1, eff_bind at 1, eff_get at 1. unfold mbind at 1, eff_bind at 1, eff_zoom.
    pose proof (ob_asks _ _ _ _ Hob model (tl_messages s) (Some (ec_tools case)) kwargs (tl_world s)) as Ha.
    pose proof (ob_silent _ _ _ _ Hob model (tl_messages s) (Some (ec_tools case)) kwargs (tl_world s)) as Hr.
    destruct (complete _ _ _ _ _) as [r x']. cbn in Ha, Hr.
    assert (H0 : played start (set_tl_world x' s) []).
    { destruct Hs as [[? ?] Hrun ?]. split; [done | | done]. unfold tools_ran. cbn. by rewrite Hr. }
    destruct r as [result|e]; [|split; [cbn; lia | exists []; split; [split; [constructor | simpl; lia] | done]]].
    unfold mbind at 1, eff_bind at 1, eff_modify at 1. destruct (mr_tool_calls result) as [|tc calls].
    { split; [cbn; lia|]. exists []. split; [split; [constructor | simpl; lia]|]. destruct H0 as [? ? ?]. by split. }
    cbv zeta. unfold mbind at 1, eff_bind at 1, eff_modify at 1. unfold mbind at 1, eff_bind at 1.
    match goal with |- context [governed_calls _ _ _ _ ?s'] => pose proof (governed_calls_played caller (tc :: calls) start s') as Hc end.
    destruct (governed_calls _ _ _ _ _) as [[[]|e] s'].
    2:{ destruct Hc as (Hq & _ & Hx); [destruct H0 as [? ? ?]; by split | split; [rewrite Hq; cbn; lia | done]]. }
    destruct Hc as (Hq & _ & extra & [_ Hlen] & Hp); [destruct H0 as [? ? ?]; by split|].
    assert (extra = []) as -> by (destruct extra; [done | simpl in Hlen; lia]).
    assert (Hq' : asks (tl_world s') = S (asks (tl_world s))) by (rewrite Hq; exact Ha).
    destruct last_turn; [split; [cbn; lia | exists []; split; [split; [constructor | simpl; lia] | done]]|].
    unfold mbind, eff_bind, eff_get. destruct (_after_tool_turn case (tl_calls s')).
    1,2: match goal with |- context [table_turns _ _ _ _ _ _ _ _ ?b _] => specialize (IH b s' Hp) end;
      destruct (table_turns _ _ _ _ _ _ _ _ _ _); destruct IH as [IHa IHx]; split; [lia | done].
    split; [cbn; lia | exists []; split; [split; [constructor | simpl; lia] | done]].
Qed.

Lemma play_observed r model caller now x :
  let '(out, s) := play complete tool_executor stamp r case model caller now x in
  asks (tl_world s) <= asks x + Z.to_nat (rn_max_turns r) /\ exists extra, leftover out extra /\ played (ran x) s extra.
Proof using Hob.
  unfold play. apply table_turns_played. split; cbn; [|by rewrite app_nil_r|constructor].
  split; cbn; [|eauto]. unfold policy_for. by destruct (ec_allowed_tools case).
Qed.
End Facts.

Lemma run_table_case_played {X} complete tool_executor elapsed stamp exc_str lower re_search json_message sorted_any
    (asks : X -> nat) (ran : X -> list string) r case model session x out x' :
  observes complete tool_executor asks ran ->
  run_table_case complete tool_executor elapsed stamp exc_str lower re_search json_message sorted_any r case model session x = (out, x') ->
  asks x' <= asks x + Z.to_nat (rn_max_turns r) /\
  exists extra calls text finished, ran x' = ran x ++ map mc_name (List.filter (runs case) calls) ++ extra /\
    Forall (fun t => permitted case t = true) extra /\
    Forall (fun c => mc_denied c = decodes c && negb (permitted case (mc_name c))) calls /\
    (forall result, out = Ok result -> er_tool_calls result = map made_entry calls /\ (er_errored result = false -> extra = []) /\
      (er_success result = true ->
       er_errored result = false /\ er_final_text result = text /\
       score_table_case lower re_search json_message sorted_any case calls text finished = Ok accept)).
Proof.
  intros Hob. unfold run_table_case. destruct (caller_context_for case session) as [caller|e].
  2:{ intros [= <- <-]. split; [lia|]. exists [], [], "", false. rewrite app_nil_r. by repeat split. }
  pose proof (play_observed complete tool_executor stamp asks ran Hob case r model caller (c_decision (stamp x)) x) as Hp.
  destruct (play _ _ _ _ _ _ _ _ _) as [o s]. destruct Hp as (Ha & extra & [Hex Hlen] & [_ Hr Hd]).
  intros [= <- <-]. split; [done|]. exists extra, (tl_calls s), (tl_final_text s), (tl_finished s).
  split; [exact Hr|]. split; [done|]. split; [done|]. intros result Hres.
  destruct o as [u|e]; [|injection Hres as <-; by split_and!]. cbn in Hlen.
  assert (extra = []) as -> by (destruct extra; [done | simpl in Hlen; lia]).
  destruct (score_table_case _ _ _ _ case _ _ _) as [[ok reason]|] eqn:Hs; [|done]. injection Hres as <-. cbn.
  split_and!; [done..|]. intros ->. by rewrite (score_reason _ _ _ _ _ _ _ _ _ Hs).
Qed.

Lemma all_permitted case calls extra : Forall (fun t => permitted case t = true) extra ->
  Forall (fun t => permitted case t = true) (map mc_name (List.filter (runs case) calls) ++ extra).
Proof.
  intros He. apply Forall_app. split; [|done]. apply Forall_map, Forall_forall. intros c Hc.
  apply list_elem_of_In, filter_In in Hc as [_ Hc]. by apply andb_prop in Hc as [_ Hc].
Qed.

(** C13: a table case asks the model at most [max_turns] times, and only tools
    its policy allows ever run, whatever the model answers and whatever raises.
    When the case is scored, the tools that ran are exactly the recorded calls of
    permitted tools with an object of arguments, in order, and a call is recorded
    as denied exactly when its tool is not permitted and its arguments are an
    object; a case that passes has a transcript that meets every expectation of
    the case. *)
Theorem disallowed_tools_never_run {X} complete tool_executor elapsed stamp exc_str lower re_search json_message sorted_any
    (asks : X -> nat) (ran : X -> list string) r case model session x out x'
    (Hob : observes complete tool_executor asks ran) (Hperm : forall l k, sorted_any l = Ok k -> l ≡ₚ k)
    (Hrun : run_table_case complete tool_executor elapsed stamp exc_str lower re_search json_message sorted_any r case model session x
            = (out, x')) :
  asks x' <= asks x + Z.to_nat (rn_max_turns r) /\
  exists new, ran x' = ran x ++ new /\ Forall (fun t => permitted case t = true) new /\
    forall result, out = Ok result -> er_errored result = false ->
      exists calls, er_tool_calls result = map made_entry calls /\ new = map mc_name (List.filter (runs case) calls) /\
        Forall (fun c => mc_denied c = decodes c && negb (permitted case (mc_name c))) calls /\
        (er_success result = true ->
         (forall c, c ∈ calls -> mc_name c ∉ ec_forbidden_tools case) /\ calls_ok case calls /\
         (is_empty (ec_content case) = false -> content_ok lower re_search (ec_content case) (er_final_text result))).
Proof.
  destruct (run_table_case_played _ _ _ _ _ _ _ _ _ _ _ _ _ _ _ _ _ _ Hob Hrun) as (Ha & extra & calls & text & fin & Hr & Hex & Hd & Hres).
  split; [done|]. exists (map mc_name (List.filter (runs case) calls) ++ extra). split; [done|]. split.
  - by apply all_permitted.
  - intros result -> He. destruct (Hres result eq_refl) as (Hcalls & Hx & Hs). rewrite (Hx He), app_nil_r.
    exists calls. split_and!; [done..|]. intros Hok. destruct (Hs Hok) as (_ & <- & Hsc).
    apply (score_accepts_what_is_expected _ _ _ _ Hperm) in Hsc as (Hf & Hc & Ht). split_and!; [done..|].
    intros Hem. by apply Ht.
Qed.

(** ** Legacy cases *)

Section Legacy.
Context {X : Type}.
Context (complete : string -> list json -> option (list json) -> jdict -> eff X exn ModelResult)
  (tool_executor : string -> json -> eff X exn string).
Context (asks : X -> nat) (ran : X -> list string) (Hob : observes complete tool_executor asks ran).
Context (json_message : string -> string) (sorted_any : list json -> res exn (list json)) (case : EvalCase).

(** A list of tools without the expected one. *)
Definition others (l : list string) : Prop := Forall (fun t => is_expected case t = false) l.

Lemma no_other (l l' : list string) : l' = l -> exists new, l' = l ++ new /\ others new.
Proof. intros ->. exists []. rewrite app_nil_r. by split; [|constructor]. Qed.

(** What calls or turns may do: other tools run, and a verdict is that of the check
    of the last recorded call. *)
Definition legacy_effect (s : CaseLoop) (out : res exn (option outcome)) (s' : CaseLoop) : Prop :=
  (exists new, ran (cl_world s') = ran (cl_world s) ++ new /\ others new) /\
  forall v, out = Ok (Some v) -> exists tc before, cl_made s' = before ++ [legacy_entry (cl_turns s') tc] /\
    is_expected case (tc_name tc) = true /\ validate_tool_call json_message sorted_any case (tc_name tc) (tc_arguments tc) = Ok v.

Lemma legacy_effect_refl s out : (forall v, out <> Ok (Some v)) -> legacy_effect s out s.
Proof. intros H. split; [by apply no_other | by intros v ?%H]. Qed.

Lemma legacy_effect_trans s s1 out s2 new : ran (cl_world s1) = ran (cl_world s) ++ new -> others new ->
  legacy_effect s1 out s2 -> legacy_effect s out s2.
Proof.
  intros Hr Ho [(new' & Hr' & Ho') Hv]. split; [|done]. exists (new ++ new'). rewrite Hr', Hr, (assoc_L (++)). split; [done|]. by apply Forall_app.
Qed.

Lemma legacy_calls_effect calls s :
  let '(out, s') := legacy_calls tool_executor json_message sorted_any case calls s in
  legacy_effect s out s' /\ asks (cl_world s') = asks (cl_world s) /\ cl_turns s' = cl_turns s.
Proof using Hob.
  revert s. induction calls as [|tc calls IH]; intros s; [by split; [apply legacy_effect_refl|]|].
  cbn [legacy_calls]. unfold mbind at 1, eff_bind at 1, eff_modify at 1. destruct (is_expected case (tc_name tc)) eqn:He.
  - unfold mbind, eff_bind, eff_lift, mret, eff_ret. destruct (validate_tool_call _ _ _ _ _) as [v|e] eqn:Hv; cbn.
    + split; [|done]. split; [by apply no_other|]. intros ? [= <-]. by exists tc, (cl_made s).
    + split; [|done]. split; [by apply no_other | done].
  - unfold mbind, eff_bind, eff_lift, eff_zoom, eff_modify. destruct (lenient_args (tc_arguments tc)) as [args|e]; cbn.
    2:{ split; [|done]. split; [by apply no_other | done]. }
    pose proof (ob_runs _ _ _ _ Hob (tc_name tc) args (cl_world s)) as Hr. pose proof (ob_quiet _ _ _ _ Hob (tc_name tc) args (cl_world s)) as Hq.
    destruct (tool_executor _ _ _) as [[answer|e] x']; cbn in Hr, Hq |- *.
    + match goal with |- let '(_, _) := legacy_calls _ _ _ _ _ ?s0 in _ => specialize (IH s0) end.
      destruct (legacy_calls _ _ _ _ _ _) as [out s']. destruct IH as (IHe & IHa & IHt). cbn in IHa, IHt. split_and!; [|congruence..].
      eapply legacy_effect_trans; [| |exact IHe]; [exact Hr | by repeat constructor].
    + split_and!; [|done..]. split; [|done]. exists [tc_name tc]. split; [done|]. by repeat constructor.
Qed.

Lemma legacy_turns_effect fuel model s :
  let '(out, s') := legacy_turns complete tool_executor json_message sorted_any fuel case model s in
  legacy_effect s out s' /\ asks (cl_world s') <= asks (cl_world s) + fuel.
Proof using Hob.
  revert s. induction fuel as [|fuel IH]; intros s; [split; [by apply legacy_effect_refl | cbn; lia]|].
  cbn [legacy_turns]. unfold mbind at 1, eff_bind at 1, eff_get at 1. unfold mbind at 1, eff_bind at 1, eff_zoom.
  pose proof (ob_asks _ _ _ _ Hob model (cl_messages s) (Some (ec_tools case)) [] (cl_world s)) as Ha.
  pose proof (ob_silent _ _ _ _ Hob model (cl_messages s) (Some (ec_tools case)) [] (cl_world s)) as Hr.
  destruct (complete _ _ _ _ _) as [[result|e] x']; cbn in Ha, Hr.
  2:{ split; [|cbn; lia]. split; [by apply no_other | done]. }
  unfold mbind at 1, eff_bind at 1, eff_modify at 1. destruct (mr_tool_calls result) as [|tc calls].
  { split; [|cbn; lia]. split; [by apply no_other | done]. }
  unfold mbind, eff_bind.
  match goal with |- context [legacy_calls _ _ _ _ _ ?s0] => pose proof (legacy_calls_effect (tc :: calls) s0) as Hc end.
  destruct (legacy_calls _ _ _ _ _ _) as [[[v|]|e] s1]; destruct Hc as (He & Hq & _); cbn in Hq.
  - split; [|cbn; lia]. eapply (legacy_effect_trans _ _ _ _ []); [| |exact He]; [rewrite app_nil_r; exact Hr | constructor].
  - specialize (IH s1). destruct (legacy_turns _ _ _ _ _ _ _ _) as [out s2]. destruct IH as [IHe IHa]. split; [|lia].
    destruct He as [(new & Hn & Ho) _]. eapply legacy_effect_trans; [| |exact IHe]; [rewrite Hn; cbn; by rewrite Hr | exact Ho].
  - split; [|cbn; lia]. eapply (legacy_effect_trans _ _ _ _ []); [| |exact He]; [rewrite app_nil_r; exact Hr | constructor].
Qed.
End Legacy.

(** A legacy case asks the model at most [max_turns] times and never runs the
    tool it expects, whose first call ends the case: what the mock would answer,
    a failure or a denial, is never seen.  When it passes, the last call it records
    is a valid call of that tool. *)
Lemma legacy_case_never_runs_its_tool {X} complete tool_executor elapsed exc_str json_message sorted_any
    (asks : X -> nat) (ran : X -> list string) case model x result x'
    (Hob : observes complete tool_executor asks ran) (Hperm : forall l k, sorted_any l = Ok k -> l ≡ₚ k)
    (Hrun : run_case complete tool_executor elapsed exc_str json_message sorted_any case model x = (result, x')) :
  asks x' <= asks x + Z.to_nat (ec_max_turns case) /\
  (exists new, ran x' = ran x ++ new /\ forall tool, ec_expected_tool case = Some tool -> tool ∉ new) /\
  (er_success result = true -> exists tc before, er_tool_calls result = before ++ [legacy_entry (er_turns result) tc] /\
     valid_call case (tc_name tc) (tc_arguments tc)).
Proof.
  unfold run_case in Hrun.
  match type of Hrun with context [legacy_turns _ _ _ _ ?n _ _ ?s0] =>
    pose proof (legacy_turns_effect complete tool_executor asks ran Hob json_message sorted_any case n model s0) as He end.
  destruct (legacy_turns _ _ _ _ _ _ _ _) as [out s]. injection Hrun as <- <-. destruct He as [[(new & Hn & Ho) Hv] Ha]. cbn in Hn, Ha.
  split; [done|]. split.
  - exists new. split; [done|]. intros tool Ht Hin. unfold others in Ho. rewrite Forall_forall in Ho. apply Ho in Hin.
    unfold is_expected in Hin. by rewrite Ht, String.eqb_refl in Hin.
  - intros Hs. destruct out as [[[[] reason]|]|e]; try done. destruct (Hv _ eq_refl) as (tc & before & Hm & _ & Hval).
    exists tc, before. split; [done|]. rewrite (validate_tool_call_reason _ _ _ _ _ _ Hval) in Hval.
    by apply (validate_accept json_message sorted_any Hperm) in Hval.
Qed.

(** ** A scripted model that first looks an order up and tries to delete it *)

Definition script (n : nat) : ModelResult :=
  match n with
  | O => {| mr_content := None; mr_finish_reason := JStr "tool_calls"; mr_usage := JNull;
            mr_tool_calls := [{| tc_id := JStr "1"; tc_name := "get_order"; tc_arguments := delete_args |};
                              {| tc_id := JStr "2"; tc_name := "delete_order"; tc_arguments := delete_args |}] |}
  | _ => {| mr_content := Some "I may not delete it"; mr_tool_calls := []; mr_finish_reason := JStr "stop"; mr_usage := JNull |}
  end.
Definition scripted (model : string) (messages : list json) (tools : option (list json)) (kwargs : jdict)
    : eff (nat * list string) exn ModelResult := fun x => (Ok (script x.1), (S x.1, x.2)).
Definition noting (tool : string) (args : json) : eff (nat * list string) exn string := fun x => (Ok "{}", (x.1, x.2 ++ [tool])).
Definition example_runner : EvalRunner := {|
  rn_base_url := "http://localhost"; rn_max_turns := 5; rn_backend := "ollama"; rn_timeout := 60; rn_max_tokens := 2048;
  rn_temperature := JInt 0; rn_seed := None; rn_thinking := None; rn_top_p := None; rn_top_k := None |}.
Definition no_time (x : nat * list string) : clock := {| c_decision := DT 0 None; c_record := DT 0 None |}.
Definition example_run := run_table_case scripted noting (fun _ _ => 0%Z) no_time (fun _ => "") id never_searches id Ok
  example_runner example_case "m" "s".

Lemma disallowed_tools_never_run_witness :
  (example_run (0, [])).2 = (2, ["get_order"]) /\
  exists new, ["get_order"] = [] ++ new /\ Forall (fun t => permitted example_case t = true) new.
Proof.
  split; [by vm_compute|].
  assert (Hob : observes scripted noting fst snd) by by split.
  destruct (disallowed_tools_never_run scripted noting (fun _ _ => 0%Z) no_time (fun _ => "") id never_searches id Ok fst snd
    example_runner example_case "m" "s" (0, []) (example_run (0, [])).1 (2, ["get_order"]) Hob
    ltac:(by intros ? ? [= ->]) ltac:(by vm_compute)) as (_ & new & Hn & Hp & _).
  exists new. split; [exact Hn | exact Hp].
Defined.

Lemma legacy_case_never_runs_its_tool_witness :
  exists new, ["get_order"] = [] ++ new /\ forall tool, Some "delete_order" = Some tool -> tool ∉ new.
Proof.
  assert (Hob : observes scripted noting fst snd) by by split.
  destruct (legacy_case_never_runs_its_tool scripted noting (fun _ _ => 0%Z) (fun _ => "") id Ok fst snd example_case "m" (0, [])
    (run_case scripted noting (fun _ _ => 0%Z) (fun _ => "") id Ok example_case "m" (0, [])).1 (1, ["get_order"])
    Hob ltac:(by intros ? ? [= ->]) ltac:(by vm_compute)) as (_ & Hn & _).
  exact Hn.
Defined.

(** A disallowed call whose arguments do not decode is not denied, and fails a deny case. *)
Definition garbled : list made_call :=
  [{| mc_turn := 1; mc_name := "delete_order"; mc_arguments := JStr "{"; mc_denied := false |}].
Lemma garbled_call_fails_a_deny_case :
  runs example_case (hd {| mc_turn := 0; mc_name := ""; mc_arguments := JNull; mc_denied := false |} garbled) = false /\
  (score_table_case id never_searches id Ok example_case garbled "I may not delete it" true) =
    Ok (reject ["disallowed call(s) were not denied: ['delete_order']"]).
Proof. split; by vm_compute. Qed.
