(* ===== verification/EvalSuite.v ===== *)
(** * Suites of table tests

    [evals/suite.py]: the validators of a suite, and the loader that turns a file
    into evaluation cases.

    Parameters: [typed], the fields of a decoded file by their declared types
    ([None] when one is missing, unknown or of another type); [compiles],
    [re.compile]; [read_text] and the other looks at the file system;
    [prompt_path], the path of a file a suite names, and
    [path_str], the text of a path; the texts of the
    exceptions of the libraries.  A path argument is the text of a [Path]. *)
From Stdlib Require Import ZArith Lia Ascii String.
From stdpp Require Import base tactics list strings.
From S2P Require Import Prelude PyStr Json Types Regex Middleware EvalCase.

Definition SUITE_SCHEMA : string := "agentware.eval-suite.v1".
Definition SuiteValidationError (text : string) : exn := Exn (UserError "SuiteValidationError") text.

(** ** Patterns *)

(** A class of ASCII characters. *)
Definition ascii_class (p : ascii -> bool) (c : string) : bool := match c with String a EmptyString => p a | _ => false end.
Definition name_start (a : ascii) : bool := is_lower a || is_digit a.
Definition id_rest (a : ascii) : bool := name_start a || char_in a "._-".
Definition name_rest (a : ascii) : bool := name_start a || char_in a "_-".

(** [r{0,n}] *)
Fixpoint up_to (n : nat) (r : Regex.regex) : Regex.regex := match n with O => REps | S n' => opt (RCat r (up_to n' r)) end.
Definition anchored (r : Regex.regex) : pattern := {| p_before := fun _ _ => true; p_body := r; p_after := at_end |}.
Definition CASE_ID_PATTERN : pattern :=
  anchored (RCat (RChar (ascii_class name_start)) (up_to 63 (RChar (ascii_class id_rest)))).
Definition name_part : Regex.regex := RCat (RChar (ascii_class name_start)) (RStar true (RChar (ascii_class name_rest))).
Definition SUITE_NAME_PATTERN : pattern := anchored (RCat name_part (plus (RCat (lit ".") name_part))).
Definition re_match (p : pattern) (s : string) : bool := bool_decide (is_Some (match_pattern p None (py_chars s))).

(** ** The fields of a suite *)

Record _Expect := {
  ex_tool : option string; ex_args : jdict; ex_required_arg_keys : list string; ex_forbidden_arg_keys : list string;
  ex_forbidden_tools : list string; ex_deny : bool; ex_content : ContentChecks }.
Record _Context := { cx_role : string; cx_groups : list string; cx_allowed_tools : option (list string); cx_extra : jdict }.
Record _Case := { cs_id : string; cs_prompt : string; cs_context : _Context; cs_expect : _Expect }.
Record _Function := { fn_name : string; fn_description : string; fn_parameters : jdict; fn_extra : jdict }.
Record _Suite := {
  su_suite : string; su_kind : string; su_system_prompt : option string; su_system_prompt_file : option string;
  su_tools : list _Function; su_repeats : Z; su_cases : list _Case }.

(** [model_dump] *)
Definition dump_tool (f : _Function) : json :=
  JObj [("type", JStr "function");
        ("function", JObj ([("name", JStr (fn_name f)); ("description", JStr (fn_description f));
                            ("parameters", JObj (fn_parameters f))] ++ fn_extra f))].
Definition dump_context (c : _Context) : jdict :=
  [("role", JStr (cx_role c)); ("groups", JArr (map JStr (cx_groups c)))] ++ cx_extra c.

(** ** Validators: what they reject *)

Section Validators.
Context (compiles : string -> bool).

Definition min_length {A} (l : list A) : bool := negb (null l).
Definition is_none {A} (o : option A) : bool := match o with None => true | Some _ => false end.
Definition unique (l : list string) : bool := bool_decide (NoDup l).

Definition _regex_compiles (c : ContentChecks) : bool := forallb compiles (EvalCase.regex c).

Definition _args_need_a_tool (e : _Expect) : bool :=
  let has_arg_checks := negb (null (ex_args e)) || negb (null (ex_required_arg_keys e)) || negb (null (ex_forbidden_arg_keys e)) in
  if has_arg_checks && is_none (ex_tool e) then false
  else match ex_tool e with Some tool => negb (str_in tool (ex_forbidden_tools e)) | None => true end.

Definition _id_shape (id : string) : bool := re_match CASE_ID_PATTERN id.
Definition _suite_shape (name : string) : bool := re_match SUITE_NAME_PATTERN name.

(** The loop of [_consistent] on one case. *)
Definition case_consistent (declared : list string) (c : _Case) : bool :=
  let expect := cs_expect c in
  let allowed := cx_allowed_tools (cs_context c) in
  match ex_tool expect with Some tool => str_in tool declared | None => true end &&
  match allowed with Some l => forallb (fun t => str_in t declared) l | None => true end &&
  (if ex_deny expect
   then match allowed with
        | None => false
        | Some l => match ex_tool expect with Some tool => negb (str_in tool l) | None => true end
        end
   else true).

Definition _consistent (s : _Suite) : bool :=
  xorb (is_none (su_system_prompt s)) (is_none (su_system_prompt_file s)) &&
  unique (map fn_name (su_tools s)) &&
  unique (map cs_id (su_cases s)) &&
  forallb (case_consistent (map fn_name (su_tools s))) (su_cases s).

Definition valid_case (c : _Case) : bool :=
  _id_shape (cs_id c) && negb (String.eqb (cs_prompt c) "") && _regex_compiles (ex_content (cs_expect c)) &&
  _args_need_a_tool (cs_expect c).
Definition valid_suite (s : _Suite) : bool :=
  _suite_shape (su_suite s) && forallb (fun f => negb (String.eqb (fn_name f) "")) (su_tools s) && (1 <=? su_repeats s)%Z &&
  min_length (su_cases s) && forallb valid_case (su_cases s) && _consistent s.
End Validators.

(** ** Loading *)

Record Suite := { s_name : string; s_kind : string; s_path : string; s_repeats : Z; s_cases : list EvalCase }.

(** The ids of the cases without a [tool] key. *)
Definition lacks_tool (case : json) : list string :=
  match case with
  | JObj c => match jget c "expect" with JObj e => if dmem e "tool" then [] else [py_str (jget c "id")] | _ => [] end
  | _ => []
  end.
Definition _missing_tool_key (raw : json) : res exn (list string) :=
  match raw with
  | JObj d =>
      let cases := jget d "cases" in
      l ← py_iter (if py_truthy cases then cases else JArr []); Ok (flat_map lacks_tool l)
  | _ => Ok []
  end.

Definition eval_case (system_prompt : string) (tools : list json) (no_tool_key : list string) (c : _Case) : EvalCase :=
  let expect := cs_expect c in
  {| ec_name := cs_id c; ec_description := cs_id c; ec_system_prompt := system_prompt; ec_user_message := cs_prompt c;
     ec_tools := tools; ec_expected_tool := ex_tool expect; ec_max_turns := 10;
     ec_expect_no_tool_call := is_none (ex_tool expect) && negb (str_in (cs_id c) no_tool_key);
     ec_expected_args := ex_args expect; ec_required_arg_keys := ex_required_arg_keys expect;
     ec_forbidden_arg_keys := ex_forbidden_arg_keys expect; ec_forbidden_tools := ex_forbidden_tools expect;
     ec_expect_deny := ex_deny expect; ec_content := ex_content expect; ec_context := dump_context (cs_context c);
     ec_allowed_tools := cx_allowed_tools (cs_context c) |}.

Definition repeated (l : list string) : list string :=
  py_sorted (nodup string_dec (List.filter (fun n => bool_decide (1 < count_occ string_dec l n)) l)).

Section Load.
Context (compiles : string -> bool) (typed : json -> option _Suite) (read_text : string -> res exn string)
  (prompt_path : string -> string -> string) (path_str : string -> string) (is_dir is_file : string -> bool) (json_files : string -> list string).
Context (json_message exc_str : exn -> string) (invalid : json -> string).

Definition system_prompt_of (suite_path : string) (parsed : _Suite) : res exn string :=
  match su_system_prompt_file parsed with
  | Some file =>
      if String.prefix "/" file then Raise (SuiteValidationError (str_join [suite_path; ": system_prompt_file must be relative"]))
      else
        match read_text (prompt_path suite_path file) with
        | Raise e =>
            if is_os_error (exn_cls e)
            then Raise (SuiteValidationError (str_join [suite_path; ": cannot read system_prompt_file "; path_str file; ": "; exc_str e]))
            else Raise e
        | r => r
        end
  | None => Ok (default "" (su_system_prompt parsed))
  end.

Definition load_suite (suite_path : string) : res exn Suite :=
  match read_text suite_path with
  | Raise e =>
      if is_os_error (exn_cls e) then Raise (SuiteValidationError (str_join [suite_path; ": cannot read suite: "; exc_str e]))
      else Raise e
  | Ok text =>
      match any_loads (JStr text) with
      | Raise e => Raise (SuiteValidationError (str_join [suite_path; ": not valid JSON: "; json_message e]))
      | Ok raw =>
          match typed raw with
          | Some parsed =>
              if valid_suite compiles parsed then
                system_prompt ← system_prompt_of suite_path parsed;
                no_tool_key ← _missing_tool_key raw;
                Ok {| s_name := su_suite parsed; s_kind := su_kind parsed; s_path := suite_path; s_repeats := su_repeats parsed;
                      s_cases := map (eval_case system_prompt (map dump_tool (su_tools parsed)) no_tool_key) (su_cases parsed) |}
              else Raise (SuiteValidationError (str_join [suite_path; ": invalid "; SUITE_SCHEMA; " suite:"; nl; invalid raw]))
          | None => Raise (SuiteValidationError (str_join [suite_path; ": invalid "; SUITE_SCHEMA; " suite:"; nl; invalid raw]))
          end
      end
  end.

Definition suite_files (root : string) : res exn (list string) :=
  if is_dir root then
    match py_sorted (json_files root) with
    | [] => Raise (SuiteValidationError (String.append root ": no *.json suites found"))
    | files => Ok files
    end
  else if is_file root then Ok [root]
  else Raise (SuiteValidationError (String.append root ": no such suite file or directory")).

Definition load_suites (root : string) : res exn (list Suite) :=
  files ← suite_files root;
  suites ← res_map load_suite files;
  match repeated (map s_name suites) with
  | [] => Ok suites
  | dupes => Raise (SuiteValidationError (String.append "duplicate suite names: " (repr_strs dupes)))
  end.
End Load.
