(* ===== verification/EvalSuiteFacts.v ===== *)
(** * What the loader of suites promises

    A suite that loads is consistent, and its deny cases, run by [EvalRunner.v],
    never run the tool they expect to be denied. *)
From Stdlib Require Import ZArith Lia Ascii String.
From stdpp Require Import base tactics list strings.
From S2P Require Import Prelude PyStr Json Types Regex AuditTrail Middleware EvalCase EvalCaseFacts EvalRunner EvalRunnerFacts EvalSuite.

(** The names a case declares its tools by. *)
Definition tool_name (tool : json) : option string :=
  match tool with
  | JObj d =>
      match jget d "function" with
      | JObj f => match jget f "name" with JStr s => Some s | _ => None end
      | _ => None
      end
  | _ => None
  end.
Definition tool_names (case : EvalCase) : list string := omap tool_name (ec_tools case).

Lemma tool_names_dump fs : omap tool_name (map dump_tool fs) = map fn_name fs.
Proof. induction fs as [|f fs IH]; [done|]. simpl. by rewrite <- IH. Qed.

(** What holds of a case of a loaded suite. *)
Record consistent_case (compiles : string -> bool) (case : EvalCase) : Prop := {
  cc_id : re_match CASE_ID_PATTERN (ec_name case) = true;
  cc_prompt : ec_user_message case <> "";
  cc_regex : Forall (fun p => compiles p = true) (EvalCase.regex (ec_content case));
  cc_tool : forall tool, ec_expected_tool case = Some tool -> tool ∈ tool_names case /\ tool ∉ ec_forbidden_tools case;
  cc_args : ec_expected_tool case = None ->
    ec_expected_args case = [] /\ ec_required_arg_keys case = [] /\ ec_forbidden_arg_keys case = [];
  cc_allowed : forall allowed, ec_allowed_tools case = Some allowed -> allowed ⊆ tool_names case;
  cc_deny : ec_expect_deny case = true -> exists allowed, ec_allowed_tools case = Some allowed /\
    forall tool, ec_expected_tool case = Some tool -> tool ∉ allowed;
  cc_no_call : ec_expect_no_tool_call case = true -> ec_expected_tool case = None }.

Lemma eval_case_consistent compiles prompt fs keys c :
  valid_case compiles c = true -> case_consistent (map fn_name fs) c = true ->
  consistent_case compiles (eval_case prompt (map dump_tool fs) keys c).
Proof.
  unfold valid_case, case_consistent, _id_shape, _regex_compiles, _args_need_a_tool. intros Hv Hc.
  repeat (apply andb_prop in Hv as [Hv ?]). apply andb_prop in Hc as [[Ht Ha]%andb_prop Hd].
  assert (Hn : tool_names (eval_case prompt (map dump_tool fs) keys c) = map fn_name fs) by apply tool_names_dump.
  split; rewrite ?Hn; cbn.
  - done.
  - intros E. by rewrite E in *.
  - apply Forall_forall. intros p Hp%list_elem_of_In. by eapply forallb_forall in H0.
  - intros tool E. rewrite E in *. split; [by apply str_in_spec|]. cbn in H. rewrite andb_false_r in H.
    apply str_in_false. by apply negb_true_iff.
  - intros E. rewrite E in *. cbn in H. destruct (ex_args _), (ex_required_arg_keys _), (ex_forbidden_arg_keys _); done.
  - intros allowed E. rewrite E in *. intros t Hin%list_elem_of_In. eapply forallb_forall in Ha; [|done]. by apply str_in_spec.
  - intros E. rewrite E in *. destruct (cx_allowed_tools _) as [allowed|]; [|done]. exists allowed. split; [done|].
    intros tool E'. rewrite E' in *. apply str_in_false. by apply negb_true_iff.
  - by destruct (ex_tool _).
Qed.

(** ** Loaded suites *)

Section Load.
Context (compiles : string -> bool) (typed : json -> option _Suite) (read_text : string -> res exn string)
  (prompt_path : string -> string -> string) (path_str : string -> string) (is_dir is_file : string -> bool)
  (json_files : string -> list string).
Context (json_message exc_str : exn -> string) (invalid : json -> string).

Abbreviation load_suite := (load_suite compiles typed read_text prompt_path path_str json_message exc_str invalid).
Abbreviation load_suites :=
  (load_suites compiles typed read_text prompt_path path_str is_dir is_file json_files json_message exc_str invalid).

Record consistent_suite (s : Suite) : Prop := {
  cs_name : re_match SUITE_NAME_PATTERN (s_name s) = true;
  cs_repeats : (1 <= s_repeats s)%Z;
  cs_some : s_cases s <> [];
  cs_unique : NoDup (map ec_name (s_cases s));
  cs_cases : Forall (consistent_case compiles) (s_cases s) }.

Lemma load_suite_consistent path s : load_suite path = Ok s -> consistent_suite s.
Proof.
  unfold EvalSuite.load_suite. destruct (read_text path) as [text|e]; [|by destruct (is_os_error _)].
  destruct (any_loads _) as [raw|]; [|done]. destruct (typed raw) as [parsed|]; [|done].
  destruct (valid_suite compiles parsed) eqn:Hv; [|done]. intros H. res_inv.
  unfold valid_suite, _consistent in Hv.
  apply andb_prop in Hv as [[[[[Hs _]%andb_prop Hrep]%andb_prop Hmin]%andb_prop Hcs]%andb_prop [[_ Hu]%andb_prop Hcc]%andb_prop].
  split; cbn.
  - done.
  - by apply Z.leb_le.
  - unfold min_length in Hmin. by destruct (su_cases parsed).
  - rewrite map_map. cbn. by apply bool_decide_eq_true in Hu.
  - apply Forall_map, Forall_forall. intros c Hc%list_elem_of_In. eapply forallb_forall in Hcc; [|done].
    eapply forallb_forall in Hcs; [|done]. by apply eval_case_consistent.
Qed.

Lemma repeated_nil l : repeated l = [] -> NoDup l.
Proof.
  unfold repeated. rewrite py_sorted_nil. intros H. apply NoDup_ListNoDup, (NoDup_count_occ string_dec). intros n.
  destruct (decide (1 < count_occ string_dec l n)) as [Hn|]; [|lia]. exfalso.
  assert (Hin : In n (nodup string_dec (List.filter (fun n => bool_decide (1 < count_occ string_dec l n)) l))).
  { apply nodup_In, filter_In. split; [apply (count_occ_In string_dec); lia | by apply bool_decide_eq_true]. }
  by rewrite H in Hin.
Qed.

Lemma load_suites_consistent root suites : load_suites root = Ok suites ->
  NoDup (map s_name suites) /\ suites <> [] /\ Forall consistent_suite suites.
Proof.
  unfold EvalSuite.load_suites, suite_files. intros H. res_inv.
  destruct (repeated (map s_name a0)) eqn:Hd; [|done]. injection H as ->.
  apply res_map_Ok in Hr0. split; [by apply repeated_nil|]. split.
  - intros ->. inversion Hr0; subst. destruct (is_dir root); [by destruct (py_sorted (json_files root))|]. by destruct (is_file root).
  - clear Hr Hd. induction Hr0 as [|f s fs ss Hf _ IH]; constructor; [by eapply load_suite_consistent | done].
Qed.
(** C19: the suites that load have distinct names and are consistent: the name
    and the case ids have their shapes, at least one case and one repeat, distinct
    case ids; and of each case the prompt is not empty, the patterns compile, the
    expected tool is declared and not forbidden, expectations on arguments come
    with a tool, the allowed tools are declared, a deny case has allowed tools,
    without the expected one, and a case without a call expects no tool. *)
Theorem loaded_suites_are_consistent root suites : load_suites root = Ok suites ->
  NoDup (map s_name suites) /\ suites <> [] /\ Forall consistent_suite suites.
Proof. apply load_suites_consistent. Qed.
End Load.

(** C17: whatever the model answers, a deny case of a loaded suite never runs the
    tool it expects to be denied, and a case with allowed tools runs only tools the
    suite declares: the loader and the middleware together. *)
Theorem expected_denial_never_runs {X} compiles typed read_text prompt_path path_str json_message exc_str invalid path suite
    complete tool_executor elapsed stamp str_exc lower re_search message sorted_any (asks : X -> nat) (ran : X -> list string)
    r case model session x out x'
    (Hload : load_suite compiles typed read_text prompt_path path_str json_message exc_str invalid path = Ok suite)
    (Hcase : case ∈ s_cases suite)
    (Hob : observes complete tool_executor asks ran)
    (Hrun : run_table_case complete tool_executor elapsed stamp str_exc lower re_search message sorted_any r case model session x
            = (out, x')) :
  exists new, ran x' = ran x ++ new /\
    (ec_expect_deny case = true -> forall tool, ec_expected_tool case = Some tool -> tool ∉ new) /\
    (forall allowed, ec_allowed_tools case = Some allowed -> new ⊆ tool_names case).
Proof.
  destruct (run_table_case_played _ _ _ _ _ _ _ _ _ _ _ _ _ _ _ _ _ _ Hob Hrun) as (_ & extra & calls & _ & _ & Hr & Hex & _).
  eexists. split; [exact Hr|].
  assert (Hp : Forall (fun t => permitted case t = true) (map mc_name (List.filter (runs case) calls) ++ extra)).
  { by apply all_permitted. }
  rewrite Forall_forall in Hp. apply load_suite_consistent in Hload as [_ _ _ _ Hc]. rewrite Forall_forall in Hc.
  destruct (Hc _ Hcase) as [_ _ _ _ _ Hall Hdeny _]. unfold permitted in Hp. split.
  - intros Hd tool Ht Hin. destruct (Hdeny Hd) as (allowed & Ha & Hno). apply Hp in Hin. rewrite Ha in Hin.
    apply str_in_spec in Hin. by apply (Hno tool).
  - intros allowed Ha t Hin. apply Hp in Hin. rewrite Ha in Hin. apply str_in_spec in Hin. by apply (Hall allowed).
Qed.

(** ** Concrete suites *)

Definition order_function (name : string) : _Function := {|
  fn_name := name; fn_description := ""; fn_extra := [];
  fn_parameters := [("properties", JObj [("id", JObj [("type", JStr "string")])]); ("required", JArr [JStr "id"])] |}.
Definition no_checks_expect (tool : string) (forbidden_keys : list string) (deny : bool) : _Expect := {|
  ex_tool := Some tool; ex_args := [("id", JStr "7")]; ex_required_arg_keys := []; ex_forbidden_arg_keys := forbidden_keys;
  ex_forbidden_tools := []; ex_deny := deny; ex_content := no_checks |}.
Definition order_case (id : string) (forbidden_keys : list string) (deny : bool) : _Case := {|
  cs_id := id; cs_prompt := "delete order 7"; cs_expect := no_checks_expect "delete_order" forbidden_keys deny;
  cs_context := {| cx_role := "viewer"; cx_groups := []; cx_allowed_tools := if deny then Some ["get_order"] else None; cx_extra := [] |} |}.
Definition order_suite (cases : list _Case) : _Suite := {|
  su_suite := "shop.orders"; su_kind := "agent"; su_system_prompt := Some ""; su_system_prompt_file := None;
  su_tools := [order_function "get_order"; order_function "delete_order"]; su_repeats := 1; su_cases := cases |}.
Definition load_cases (cases : list _Case) : res exn Suite :=
  load_suite (fun _ => true) (fun _ => Some (order_suite cases)) (fun _ => Ok "{}") (fun _ f => f) id exn_msg exn_msg (fun _ => "") "s.json".
Definition load_dir (cases : list _Case) : res exn (list Suite) :=
  load_suites (fun _ => true) (fun _ => Some (order_suite cases)) (fun _ => Ok "{}") (fun _ f => f) id (fun _ => true) (fun _ => false)
    (fun _ => ["s.json"]) exn_msg exn_msg (fun _ => "") "suites".
Definition loaded_case (c : _Case) : EvalCase := eval_case "" (map dump_tool (su_tools (order_suite []))) [] c.
Definition loaded (cases : list _Case) : Suite := {|
  s_name := "shop.orders"; s_kind := "agent"; s_path := "s.json"; s_repeats := 1; s_cases := map loaded_case cases |}.

Lemma loaded_suites_are_consistent_witness :
  load_dir [order_case "deny-delete" [] true] = Ok [loaded [order_case "deny-delete" [] true]] /\
  Forall (consistent_suite (fun _ => true)) [loaded [order_case "deny-delete" [] true]].
Proof.
  assert (H : load_dir [order_case "deny-delete" [] true] = Ok [loaded [order_case "deny-delete" [] true]]) by by vm_compute.
  split; [exact H | exact (proj2 (proj2 (loaded_suites_are_consistent _ _ _ _ _ _ _ _ _ _ _ _ _ H)))].
Defined.

Lemma expected_denial_never_runs_witness :
  exists new, ["get_order"] = [] ++ new /\ forall tool, Some "delete_order" = Some tool -> tool ∉ new.
Proof.
  assert (Hl : load_cases [order_case "deny-delete" [] true] = Ok (loaded [order_case "deny-delete" [] true])) by by vm_compute.
  assert (Hob : observes scripted noting fst snd) by by split.
  destruct (expected_denial_never_runs _ _ _ _ _ _ _ _ _ _ scripted noting (fun _ _ => 0%Z) no_time (fun _ => "") id never_searches id Ok
    fst snd example_runner (loaded_case (order_case "deny-delete" [] true)) "m" "s" (0, [])
    (run_table_case scripted noting (fun _ _ => 0%Z) no_time (fun _ => "") id never_searches id Ok
       example_runner (loaded_case (order_case "deny-delete" [] true)) "m" "s" (0, [])).1 (2, ["get_order"])
    Hl ltac:(left) Hob ltac:(by vm_compute)) as (new & Hn & Hd & _).
  exists new. split; [exact Hn | exact (Hd eq_refl)].
Defined.

(** A suite may expect the value of an argument it forbids: it loads, and no
    transcript passes. *)
Lemma contradictory_case_loads :
  load_cases [order_case "both" ["id"] false] = Ok (loaded [order_case "both" ["id"] false]) /\
  forall lower re_search json_message sorted_any, (forall l k, sorted_any l = Ok k -> l ≡ₚ k) ->
    forall calls text finished,
      score_table_case lower re_search json_message sorted_any (loaded_case (order_case "both" ["id"] false)) calls text finished
      <> Ok accept.
Proof.
  split; [by vm_compute|]. intros lower re_search json_message sorted_any Hp calls text finished H.
  apply (score_accepts_what_is_expected _ _ _ _ Hp) in H as (_ & Hc & _).
  destruct (Hc "delete_order" eq_refl) as (c & rest & _ & (_ & args & schema & _ & _ & [_ _ _ Hf He]) & _).
  apply Forall_inv in He as (v & Hv & _). apply (Hf "id"); [left|]. apply dmem_spec. unfold dmem. rewrite bool_decide_eq_true. by exists v.
Qed.

(** A line feed may end an id: [$] matches before it. *)
Example id_with_a_line_feed : _id_shape (String.append "deny-delete" nl) = true /\ _id_shape (String.append nl "a") = false.
Proof. split; by vm_compute. Qed.
