(* ===== verification/EvalProfiles.v ===== *)
(** * Model profiles

    [evals/profiles.py]: a profile of a decoded YAML file, its base URL, and the
    lookup of one by its name.

    Parameters: [read_text], the file; [safe_load], [yaml.safe_load] of its text,
    whose result has the values of JSON and texts for keys; the texts of the
    exceptions. *)
From Stdlib Require Import ZArith Lia Ascii String SpecFloat.
From stdpp Require Import base tactics list strings.
From S2P Require Import Prelude PyStr PyFloat Json Types EvalCase.

(** [evals/models.py] *)
Inductive ModelBackend := OPENAI | ANTHROPIC | OLLAMA | VLLM | LMSTUDIO | LLAMACPP | CUSTOM.
#[global] Instance ModelBackend_eq_dec : EqDecision ModelBackend.
Proof. solve_decision. Defined.
Definition backend_value (b : ModelBackend) : string :=
  match b with
  | OPENAI => "openai" | ANTHROPIC => "anthropic" | OLLAMA => "ollama" | VLLM => "vllm" | LMSTUDIO => "lmstudio"
  | LLAMACPP => "llamacpp" | CUSTOM => "custom"
  end.
Definition backends : list ModelBackend := [OPENAI; ANTHROPIC; OLLAMA; VLLM; LMSTUDIO; LLAMACPP; CUSTOM].
(** [ModelBackend(s)] *)
Definition backend_of (s : string) : option ModelBackend := List.find (fun b => String.eqb (backend_value b) s) backends.

Definition ProfileError (text : string) : exn := Exn (UserError "ProfileError") text.

Record ModelProfile := {
  p_name : string; p_backend : ModelBackend; p_model : string; p_base_url_env : string; p_concurrency : Z;
  p_opencode_model : string; p_temperature : spec_float; p_seed : option Z; p_top_p : option spec_float; p_top_k : option Z;
  p_thinking : option bool }.

Definition rstrip_slashes (s : string) : string := str_join (rev (drop_while (String.eqb "/") (rev (py_chars s)))).
Definition base_url (p : ModelProfile) (env : dict string) : res exn string :=
  let value := py_strip (dget_or env (p_base_url_env p) "") in
  if String.eqb value "" then
    Raise (ProfileError (str_join ["profile "; py_repr (p_name p); ": environment variable "; p_base_url_env p; " is not set"]))
  else Ok (rstrip_slashes value).

Definition reject_profile {A} (name : string) (what : list string) : res exn A :=
  Raise (ProfileError (str_join ("profile " :: py_repr name :: ": " :: what))).

(** A number that is not a bool. *)
Definition is_number (v : json) : bool := match v with JInt _ | JFloat _ => true | _ => false end.
(** [a < b] and [a <= b] of numbers. *)
Definition num_lt (a b : json) : bool := bool_decide (num_compare a b = Some Lt).
Definition num_le (a b : json) : bool := num_lt a b || bool_decide (num_compare a b = Some Eq).

(** [float(v)] of a number. *)
Definition float_of_num (v : json) : res exn spec_float :=
  match v with
  | JFloat f => Ok f
  | JInt z => match float_of_Z z with
              | S754_infinity _ => Raise (Exn OverflowError "int too large to convert to float")
              | f => Ok f
              end
  | _ => Raise (Exn TypeError "float() argument must be a string or a real number")
  end.

Definition required_text (name : string) (raw : jdict) (key : string) : res exn string :=
  match jget raw key with
  | JStr (String _ _ as s) => Ok s
  | _ => reject_profile name [key; " must be a non-empty string"]
  end.

(** An integer field that may be absent. *)
Definition opt_int (name : string) (raw : jdict) (key : string) (least : Z) (what : string) : res exn (option Z) :=
  match jget raw key with
  | JNull => Ok None
  | JInt z => if (z <? least)%Z then reject_profile name [key; " must be a "; what; " integer"] else Ok (Some z)
  | _ => reject_profile name [key; " must be a "; what; " integer"]
  end.

Definition _profile (name : string) (raw : json) : res exn ModelProfile :=
  match raw with
  | JObj raw =>
      backend_text ← required_text name raw "backend";
      model ← required_text name raw "model";
      base_url_env ← required_text name raw "base_url_env";
      backend ← match backend_of backend_text with
                | Some b => Ok b
                | None => reject_profile name ["backend must be one of "; repr_strs (map backend_value backends)]
                end;
      concurrency ← match jget_or raw "concurrency" (JInt 1) with
                    | JInt z => if (z <? 1)%Z then reject_profile name ["concurrency must be a positive integer"] else Ok z
                    | _ => reject_profile name ["concurrency must be a positive integer"]
                    end;
      opencode_model ← match jget_or raw "opencode_model" (JStr "") with
                       | JStr s => Ok s
                       | _ => reject_profile name ["opencode_model must be a string"]
                       end;
      let temperature := jget_or raw "temperature" (JFloat (float_of_Z 0)) in
      _ ← (if is_number temperature && negb (num_lt temperature (JInt 0)) then Ok tt
           else reject_profile name ["temperature must be a number >= 0"]);
      seed ← opt_int name raw "seed" 0 "non-negative";
      let top_p := jget raw "top_p" in
      _ ← match top_p with
          | JNull => Ok tt
          | _ => if is_number top_p && num_lt (JInt 0) top_p && num_le top_p (JInt 1) then Ok tt
                 else reject_profile name ["top_p must be a number in (0, 1]"]
          end;
      top_k ← opt_int name raw "top_k" 1 "positive";
      thinking ← match jget raw "thinking" with
                 | JNull => Ok None
                 | JBool b => Ok (Some b)
                 | _ => reject_profile name ["thinking must be true or false"]
                 end;
      temperature ← float_of_num temperature;
      top_p ← match top_p with JNull => Ok None | v => f ← float_of_num v; Ok (Some f) end;
      Ok {| p_name := name; p_backend := backend; p_model := model; p_base_url_env := base_url_env; p_concurrency := concurrency;
            p_opencode_model := opencode_model; p_temperature := temperature; p_seed := seed; p_top_p := top_p; p_top_k := top_k;
            p_thinking := thinking |}
  | _ => reject_profile name ["must be a mapping"]
  end.

Section Load.
Context (read_text : string -> res exn string) (safe_load : string -> json + exn) (exc_str : exn -> string).

Definition load_profiles (path : string) : res exn (dict ModelProfile) :=
  match read_text path with
  | Raise e => if is_os_error (exn_cls e) then Raise (ProfileError (str_join [path; ": cannot read profiles: "; exc_str e])) else Raise e
  | Ok text =>
      match safe_load text with
      | inr e => Raise (ProfileError (str_join [path; ": not valid YAML: "; exc_str e]))
      | inl (JObj data) =>
          match jget data "profiles" with
          | JObj profiles => res_map (fun kv => p ← _profile kv.1 kv.2; Ok (kv.1, p)) profiles
          | _ => Raise (ProfileError (String.append path ": expected a top-level 'profiles' mapping"))
          end
      | inl _ => Raise (ProfileError (String.append path ": expected a top-level 'profiles' mapping"))
      end
  end.

Definition resolve_profile (path name : string) : res exn ModelProfile :=
  profiles ← load_profiles path;
  match dget profiles name with
  | Some p => Ok p
  | None => Raise (ProfileError (str_join ["unknown model profile "; py_repr name; "; known: "; repr_strs (py_sorted (dkeys profiles))]))
  end.
End Load.

(** ** Profiles in range *)

(** What [load_profiles] promises of a profile. *)
Record in_range (name : string) (p : ModelProfile) : Prop := {
  ir_name : p_name p = name;
  ir_model : p_model p <> "" /\ p_base_url_env p <> "";
  ir_concurrency : (1 <= p_concurrency p)%Z;
  ir_temperature : float_compare_Z (p_temperature p) 0 <> Some Lt;
  ir_seed : forall z, p_seed p = Some z -> (0 <= z)%Z;
  ir_top_p : forall f, p_top_p p = Some f ->
    float_compare_Z f 0 = Some Gt /\ (float_compare_Z f 1 = Some Lt \/ float_compare_Z f 1 = Some Eq);
  ir_top_k : forall z, p_top_k p = Some z -> (1 <= z)%Z }.

Lemma opt_int_range name raw key least what o z : opt_int name raw key least what = Ok o -> o = Some z -> (least <= z)%Z.
Proof.
  unfold opt_int. destruct (jget raw key); try done; [by intros [= <-]|]. destruct (Z.ltb_spec z0 least); [done|].
  intros [= <-] [= <-]. done.
Qed.

Lemma round_aux_positive m e l f : binary_round_aux f_prec f_emax false m e l = f -> float_compare_Z f 0 <> Some Lt.
Proof.
  unfold binary_round_aux. intros <-. destruct (shr_fexp _ _ m e l) as [mrs' e']. destruct (shr_fexp _ _ _ e' loc_Exact) as [mrs'' e''].
  destruct (shr_m mrs'') as [|p|p]; [done| |done]. destruct (Z.leb _ _); [|done]. cbn [float_compare_Z float_parts]. unfold dyadic_compare. cbn.
  intros [= H]. rewrite Z.compare_lt_iff in H. pose proof (Z.pow_nonneg 2 (e'' - Z.min e'' 0) ltac:(lia)) as Hp.
  pose proof (Z.mul_nonneg_nonneg (Z.pos p) _ ltac:(lia) Hp). rewrite Z.mul_0_l in H. lia.
Qed.

Lemma float_of_Z_positive z : (0 <= z)%Z -> float_compare_Z (float_of_Z z) 0 <> Some Lt.
Proof.
  intros Hz. unfold float_of_Z, float_of_dec. replace (z <? 0)%Z with false by (symmetry; apply Z.ltb_ge; lia).
  destruct z as [|p|p]; [done| |lia]. change (Z.abs (Z.pos p)) with (Z.pos p).
  change (float_compare_Z (binary_normalize f_prec f_emax (Z.pos p * 10 ^ 0) 0 false) 0 <> Some Lt).
  rewrite Z.pow_0_r, Z.mul_1_r. cbn [binary_normalize]. unfold binary_round.
  match goal with |- context [shl_align ?a ?b ?c] => destruct (shl_align a b c) as [mz ez] end. by eapply round_aux_positive.
Qed.

Lemma num_lt_int a b : num_lt (JInt a) (JInt b) = true <-> (a < b)%Z.
Proof. unfold num_lt. rewrite bool_decide_eq_true, <- Z.compare_lt_iff. cbn. split; congruence. Qed.
Lemma num_le_int a b : num_le (JInt a) (JInt b) = true <-> (a <= b)%Z.
Proof.
  unfold num_le. rewrite orb_true_iff, num_lt_int, bool_decide_eq_true. cbn. pose proof (Z.compare_eq_iff a b) as He.
  split; [intros [?|[= H]]; [lia | apply He in H; lia] | intros H; destruct (decide (a = b)) as [->|]; [right; by rewrite Z.compare_refl | left; lia]].
Qed.

Lemma _profile_in_range name raw p : _profile name raw = Ok p -> in_range name p.
Proof.
  intros H. destruct raw as [| | | | | |raw]; try done. unfold _profile in H. res_inv. split; cbn.
  - done.
  - assert (Hne : forall key s, required_text name raw key = Ok s -> s <> "").
    { unfold required_text. intros key s. destruct (jget raw key) as [| | | |[|? ?]| |]; try done. by intros [= <-]. }
    eauto.
  - destruct (jget_or raw "concurrency" (JInt 1)); try done. destruct (Z.ltb_spec z 1); [done|]. by simplify_eq.
  - destruct (is_number _ && negb _) eqn:Ht in Hr5; [|done]. apply andb_prop in Ht as [Hn Ht].
    destruct (jget_or raw "temperature" _); try done; cbn in *.
    + apply negb_true_iff, bool_decide_eq_false in Ht. cbn in Ht.
      destruct (float_of_Z z) eqn:Ez; try done; injection Hr10 as <-; rewrite <- Ez; apply float_of_Z_positive; destruct (Z.compare_spec z 0); try lia; congruence.
    + injection Hr10 as <-. apply negb_true_iff, bool_decide_eq_false in Ht. exact Ht.
  - intros z Hz. by eapply opt_int_range.
  - intros f ->. destruct (jget raw "top_p") as [|b|z|g|s|l|d]; try done.
    + cbn [is_number andb] in Hr7. destruct (num_lt _ _ && _) eqn:Ht; [|done]. apply andb_prop in Ht as [H0%num_lt_int H1%num_le_int].
      assert (z = 1%Z) as -> by lia.
      cbn in Hr11. res_inv. vm_compute in Hr12. injection Hr12 as <-. split; [by vm_compute | right; by vm_compute].
    + cbn [is_number andb] in Hr7. destruct (num_lt _ _ && _) eqn:Ht; [|done]. apply andb_prop in Ht as [H0 H1].
      cbn in Hr11. injection Hr11 as <-. unfold num_le, num_lt in *. cbn in H0, H1. apply bool_decide_eq_true in H0. apply orb_prop in H1.
      rewrite !bool_decide_eq_true in H1. split; [|done]. destruct (float_compare_Z g 0) as [[]|]; done.
  - intros z Hz. by eapply opt_int_range.
Qed.

(** The profile [resolve_profile] returns carries the asked name and is in
    range, whatever the file holds: a model and a variable, at least one request at
    a time, a temperature not below 0, [top_p] in (0, 1], a non-negative seed and
    a positive [top_k]. *)
Lemma resolve_in_range (read_text : string -> res exn string) safe_load exc_str path name p :
  resolve_profile read_text safe_load exc_str path name = Ok p -> in_range name p.
Proof.
  unfold resolve_profile, load_profiles. intros H. res_inv. destruct (dget a name) as [q|] eqn:Hq; [|done]. res_inv.
  destruct (read_text path); [|by destruct (is_os_error _)]. destruct (safe_load a0) as [[| | | | | |data]|]; try done.
  destruct (jget data "profiles") as [| | | | | |d]; try done. apply res_map_Ok in Hr.
  induction Hr as [|[k v] [k' q] l l' Hkv _ IH]; [done|]. cbn in Hkv, Hq. res_inv.
  destruct (String.eqb_spec name k') as [->|]; [|auto]. injection Hq as ->. by eapply _profile_in_range.
Qed.

Definition example_data : json := JObj [("profiles", JObj [("gpt",
  JObj [("backend", JStr "vllm"); ("model", JStr "m"); ("base_url_env", JStr "EVAL_URL"); ("concurrency", JInt 2);
        ("temperature", JInt 0); ("top_p", JInt 1); ("seed", JInt 42)])])].
Definition example_profile : ModelProfile := {|
  p_name := "gpt"; p_backend := VLLM; p_model := "m"; p_base_url_env := "EVAL_URL"; p_concurrency := 2; p_opencode_model := "";
  p_temperature := float_of_Z 0; p_seed := Some 42%Z; p_top_p := Some (float_of_Z 1); p_top_k := None; p_thinking := None |}.
Lemma resolved_example :
  resolve_profile Ok (fun _ => inl example_data) exn_msg "p.yaml" "gpt" = Ok example_profile /\ in_range "gpt" example_profile.
Proof.
  assert (H : resolve_profile Ok (fun _ => inl example_data) exn_msg "p.yaml" "gpt" = Ok example_profile) by by vm_compute.
  split; [exact H | exact (resolve_in_range _ _ _ _ _ _ H)].
Defined.

(** What the ranges let through: a temperature that is not a number, a number too
    large for a float, which is not a [ProfileError], and a base URL of slashes,
    which is resolved to the empty one. *)
Definition with_temperature (v : json) : json := JObj [("backend", JStr "vllm"); ("model", JStr "m"); ("base_url_env", JStr "EVAL_URL"); ("temperature", v)].
Lemma profile_edges :
  (exists p, _profile "gpt" (with_temperature (JFloat S754_nan)) = Ok p /\ p_temperature p = S754_nan) /\
  (exists m, _profile "gpt" (with_temperature (JInt (10 ^ 400))) = Raise (Exn OverflowError m)) /\
  base_url example_profile [("EVAL_URL", " // ")] = Ok "".
Proof. split_and!; [by eexists | eexists; by vm_compute | by vm_compute]. Qed.
