(* ===== verification/EvalModels.v ===== *)
(** * The model clients of the evaluations

    [evals/models.py]: what each client sends for a conversation and what it reads
    from the answer, the choice of a client, and [AgentExecutor].

    Parameters: [urlopen], which posts a body to a URL under some headers and
    answers with the text of a reply, an HTTP error, or an exception. *)
From Stdlib Require Import ZArith Lia Ascii String SpecFloat.
From stdpp Require Import base tactics list strings.
From S2P Require Import Prelude PyStr PyFloat Json Types EvalCase EvalRunner EvalProfiles.

(** The keyword arguments of [complete]. *)
Record sampling := {
  temperature : json; max_tokens : Z; seed : option Z; thinking : option bool; top_p : option json; top_k : option Z }.

(** An answer as it was read: nothing is known of the types of its fields. *)
Record raw_call := { rc_id : json; rc_name : json; rc_arguments : json }.
Record raw_result := { rr_content : json; rr_tool_calls : list raw_call; rr_finish_reason : json; rr_usage : json }.
(** The answer the runners work with, when its names are texts and its content a
    text or [None]. *)
Definition typed_call (c : raw_call) : option tool_call :=
  match rc_name c with JStr n => Some {| tc_id := rc_id c; tc_name := n; tc_arguments := rc_arguments c |} | _ => None end.
Definition typed_result (r : raw_result) : option ModelResult :=
  calls ← mapM typed_call (rr_tool_calls r);
  content ← match rr_content r with JStr s => Some (Some s) | JNull => Some None | _ => None end;
  Some {| mr_content := content; mr_tool_calls := calls; mr_finish_reason := rr_finish_reason r; mr_usage := rr_usage r |}.

Definition thinking_template_kwargs (thinking : bool) : json := JObj [("enable_thinking", JBool thinking); ("thinking", JBool thinking)].

Record client := { c_model : string; c_base_url : string; c_api_key : string; c_timeout : Z }.

(** ** Requests *)

Record request := { q_url : string; q_headers : dict string; q_payload : jdict }.
Definition content_type : string * string := ("Content-Type", "application/json").
(** [if tools: payload["tools"] = tools] *)
Definition tools_field (tools : option (list json)) : jdict := match tools with Some ((_ :: _) as l) => [("tools", JArr l)] | _ => [] end.

Definition chat_fields (c : client) (messages : list json) (s : sampling) : jdict :=
  [("model", JStr (c_model c)); ("messages", JArr messages); ("temperature", temperature s); ("max_tokens", JInt (max_tokens s))].

Definition OpenAIClient_request (c : client) (messages : list json) (tools : option (list json)) (s : sampling) : request := {|
  q_url := String.append (c_base_url c) "/chat/completions";
  q_headers := content_type :: (if py_truthy_str (c_api_key c) then [("Authorization", String.append "Bearer " (c_api_key c))] else []);
  q_payload := chat_fields c messages s ++ opt_field "seed" JInt (seed s) ++ opt_field "top_p" id (top_p s) ++ tools_field tools |}.

Definition template_fields (s : sampling) : jdict :=
  opt_field "seed" JInt (seed s) ++ opt_field "top_p" id (top_p s) ++ opt_field "top_k" JInt (top_k s)
  ++ opt_field "chat_template_kwargs" thinking_template_kwargs (thinking s).
Definition VLLMClient_request (c : client) (messages : list json) (tools : option (list json)) (s : sampling) : request := {|
  q_url := String.append (c_base_url c) "/chat/completions";
  q_headers := [content_type; ("Authorization", String.append "Bearer " (c_api_key c))];
  q_payload := chat_fields c messages s ++ template_fields s ++ tools_field tools |}.
Definition LlamaCPPClient_request (c : client) (messages : list json) (tools : option (list json)) (s : sampling) : request := {|
  q_url := String.append (c_base_url c) "/chat/completions";
  q_headers := [content_type];
  q_payload := chat_fields c messages s ++ template_fields s ++ tools_field tools ++ [("cache_prompt", JBool true)] |}.

(** Messages are untyped: a message that is not an object has no [get]. *)
Fixpoint split_system (system : json) (messages : list json) : res exn (json * list json) :=
  match messages with
  | [] => Ok (system, [])
  | msg :: messages' =>
      role ← any_get msg "role" JNull;
      if py_eq role (JStr "system") then
        content ← any_get msg "content" (JStr ""); split_system content messages'
      else
        rest ← split_system system messages'; Ok (rest.1, msg :: rest.2)
  end.
Fixpoint anthropic_messages (messages : list json) : res exn (list json) :=
  match messages with
  | [] => Ok []
  | msg :: messages' =>
      calls ← any_get msg "tool_calls" JNull;
      if py_truthy calls then anthropic_messages messages'
      else
        role ← any_get msg "role" (JStr "user");
        content ← any_get msg "content" (JStr "");
        rest ← anthropic_messages messages';
        Ok (JObj [("role", if py_eq role (JStr "tool") then JStr "user" else role); ("content", content)] :: rest)
  end.
Definition AnthropicClient_request (c : client) (messages : list json) (tools : option (list json)) (s : sampling) : res exn request :=
  split ← split_system (JStr "") messages;
  sent ← anthropic_messages (split : json * list json).2;
  Ok {| q_url := String.append (c_base_url c) "/v1/messages";
        q_headers := [content_type; ("x-api-key", c_api_key c); ("anthropic-version", "2023-06-01")];
        q_payload := [("model", JStr (c_model c)); ("messages", JArr sent); ("temperature", temperature s);
                      ("max_tokens", JInt (max_tokens s)); ("system", (split : json * list json).1)]
                     ++ opt_field "top_p" id (top_p s) ++ opt_field "top_k" JInt (top_k s) ++ tools_field tools |}.

Definition ollama_call (tc : json) : res exn json :=
  i ← any_get tc "id" (JStr "");
  name ← any_get tc "name" (JStr "");
  arguments ← any_get tc "arguments" (JStr "");
  Ok (JObj [("role", JStr "assistant"); ("content", JNull);
            ("tool_calls", JArr [JObj [("id", i); ("type", JStr "function");
                                       ("function", JObj [("name", name); ("arguments", arguments)])]])]).
Definition ollama_message (msg : json) : res exn (list json) :=
  role ← any_get msg "role" JNull;
  if py_eq role (JStr "system") then
    content ← any_get msg "content" (JStr ""); Ok [JObj [("role", JStr "system"); ("content", content)]]
  else
    calls ← any_get msg "tool_calls" JNull;
    if py_truthy calls then l ← py_iter calls; res_map ollama_call l
    else if py_eq role (JStr "tool") then
      content ← any_get msg "content" (JStr "");
      Ok [JObj [("role", JStr "user"); ("content", JStr (String.append "[tool result]: " (py_str content)))]]
    else Ok [msg].
Definition ollama_messages (messages : list json) : res exn (list json) :=
  l ← res_map ollama_message messages; Ok (concat l).
Definition ollama_options (s : sampling) : jdict :=
  [("num_predict", JInt (max_tokens s)); ("temperature", temperature s)]
  ++ opt_field "seed" JInt (seed s) ++ opt_field "top_p" id (top_p s) ++ opt_field "top_k" JInt (top_k s).
Definition OllamaClient_request (c : client) (messages : list json) (tools : option (list json)) (s : sampling) : res exn request :=
  sent ← ollama_messages messages;
  Ok {| q_url := String.append (c_base_url c) "/api/chat"; q_headers := [content_type];
        q_payload := [("model", JStr (c_model c)); ("messages", JArr sent); ("temperature", temperature s);
                      ("options", JObj (ollama_options s)); ("stream", JBool false)]
                     ++ opt_field "think" JBool (thinking s) ++ tools_field tools |}.

(** ** Answers *)

Definition required_call (tc : json) : res exn raw_call :=
  i ← any_item tc "id";
  function ← any_item tc "function"; name ← any_item function "name";
  function ← any_item tc "function"; arguments ← any_item function "arguments";
  Ok {| rc_id := i; rc_name := name; rc_arguments := arguments |}.
Definition lenient_call (tc : json) : res exn raw_call :=
  i ← any_get tc "id" (JStr "");
  function ← any_get tc "function" (JObj []); name ← any_get function "name" (JStr "");
  arguments ← any_get function "arguments" (JStr "");
  Ok {| rc_id := i; rc_name := name; rc_arguments := arguments |}.

(** The calls of an OpenAI-compatible message. *)
Definition message_calls (message : json) : res exn (list raw_call) :=
  calls ← any_get message "tool_calls" JNull;
  if py_truthy calls then l ← py_iter calls; res_map required_call l else Ok [].
(** [OpenAIClient] and [VLLMClient] read the answer alike. *)
Definition chat_result (data : json) : res exn raw_result :=
  choices ← any_item data "choices"; choice ← any_first choices;
  message ← any_item choice "message";
  calls ← message_calls message;
  content ← any_get message "content" (JStr "");
  finish ← any_get choice "finish_reason" (JStr "");
  usage ← any_get data "usage" (JObj []);
  Ok {| rr_content := content; rr_tool_calls := calls; rr_finish_reason := finish; rr_usage := usage |}.

Definition LlamaCPPClient_result (data : json) : res exn raw_result :=
  choices ← any_get data "choices" (JArr [JObj []]); choice ← any_first choices;
  msg ← any_get choice "message" (JObj []);
  content ← any_get msg "content" (JStr "");
  calls ← any_get msg "tool_calls" (JArr []); l ← py_iter calls; calls ← res_map lenient_call l;
  finish ← any_get choice "finish_reason" (JStr "");
  usage ← any_get data "usage" (JObj []);
  Ok {| rr_content := content; rr_tool_calls := calls; rr_finish_reason := finish; rr_usage := usage |}.

Fixpoint read_blocks (content : string) (calls : list raw_call) (blocks : list json) : res exn (string * list raw_call) :=
  match blocks with
  | [] => Ok (content, calls)
  | block :: blocks' =>
      type ← any_get block "type" JNull;
      if py_eq type (JStr "text") then
        text ← any_get block "text" (JStr "");
        match text with
        | JStr t => read_blocks (String.append content t) calls blocks'
        | _ => Raise (Exn TypeError "can only concatenate str")
        end
      else if py_eq type (JStr "tool_use") then
        i ← any_get block "id" (JStr ""); name ← any_get block "name" (JStr ""); input ← any_get block "input" (JObj []);
        read_blocks content (calls ++ [{| rc_id := i; rc_name := name; rc_arguments := JStr (json_dumps default_style input) |}]) blocks'
      else read_blocks content calls blocks'
  end.
Definition AnthropicClient_result (data : json) : res exn raw_result :=
  blocks ← any_get data "content" (JArr []); l ← py_iter blocks;
  r ← read_blocks "" [] l;
  finish ← any_get data "stop_reason" (JStr "");
  usage ← any_get data "usage" (JObj []);
  Ok {| rr_content := JStr (r : string * list raw_call).1; rr_tool_calls := r.2; rr_finish_reason := finish; rr_usage := usage |}.

Definition OllamaClient_result (data : json) : res exn raw_result :=
  message ← any_get data "message" (JObj []);
  content ← any_get message "content" (JStr "");
  calls ← any_get message "tool_calls" JNull;
  calls ← (if py_truthy calls then l ← py_iter calls; res_map lenient_call l else Ok []);
  done ← any_get data "done" (JBool false);
  Ok {| rr_content := content; rr_tool_calls := calls; rr_finish_reason := JStr (if py_truthy done then "stop" else "");
        rr_usage := JObj [] |}.

(** ** The choice of a client *)

Inductive model_client := OpenAI (c : client) | Anthropic (c : client) | Ollama (c : client) | VLLM_ (c : client) | LlamaCPP_ (c : client).
Definition mk_client (model base_url api_key : string) (timeout : Z) : client :=
  {| c_model := model; c_base_url := base_url; c_api_key := api_key; c_timeout := timeout |}.
Definition OpenAIClient (env : dict string) (model base_url api_key : string) (timeout : Z) : model_client :=
  OpenAI (mk_client model base_url (str_or api_key (dget_or env "OPENAI_API_KEY" "")) timeout).
Definition AnthropicClient (env : dict string) (model api_key base_url : string) (timeout : Z) : model_client :=
  Anthropic (mk_client model base_url (str_or api_key (dget_or env "ANTHROPIC_API_KEY" "")) timeout).
Definition LMStudioClient (model base_url : string) (timeout : Z) : model_client := VLLM_ (mk_client model base_url "not-needed" timeout).
Definition LlamaCPPClient (model base_url : string) (timeout : Z) : model_client := LlamaCPP_ (mk_client model base_url "" timeout).

(** [None] and the empty text are alike for [base_url] and [api_key]. *)
Definition create_model_client (env : dict string) (backend : ModelBackend) (model base_url api_key : string) (timeout : Z) : model_client :=
  match backend with
  | OPENAI => OpenAIClient env model (str_or base_url "https://api.openai.com/v1") api_key timeout
  | ANTHROPIC => AnthropicClient env model api_key (str_or base_url "https://api.anthropic.com") timeout
  | OLLAMA => Ollama (mk_client model (str_or base_url "http://localhost:11434") "" timeout)
  | VLLM => VLLM_ (mk_client model (str_or base_url "http://localhost:8000/v1") (str_or api_key "EMPTY") timeout)
  | LMSTUDIO => LMStudioClient model (str_or base_url "http://localhost:1234/v1") timeout
  | LLAMACPP => LlamaCPPClient model (str_or base_url "http://localhost:8000") timeout
  | CUSTOM => OpenAIClient env model (str_or base_url "http://localhost:8080/v1") api_key timeout
  end.

Definition client_request (m : model_client) (messages : list json) (tools : option (list json)) (s : sampling) : res exn request :=
  match m with
  | OpenAI c => Ok (OpenAIClient_request c messages tools s)
  | Anthropic c => AnthropicClient_request c messages tools s
  | Ollama c => OllamaClient_request c messages tools s
  | VLLM_ c => Ok (VLLMClient_request c messages tools s)
  | LlamaCPP_ c => Ok (LlamaCPPClient_request c messages tools s)
  end.
Definition client_result (m : model_client) (data : json) : res exn raw_result :=
  match m with
  | OpenAI _ | VLLM_ _ => chat_result data
  | Anthropic _ => AnthropicClient_result data
  | Ollama _ => OllamaClient_result data
  | LlamaCPP_ _ => LlamaCPPClient_result data
  end.
Definition client_timeout (m : model_client) : Z :=
  match m with OpenAI c | Anthropic c | Ollama c | VLLM_ c | LlamaCPP_ c => c_timeout c end.
(** What an HTTP error becomes: a [RuntimeError], or a plain [Exception]. *)
Definition http_error (m : model_client) (code : Z) (body : string) : exn :=
  Exn match m with LlamaCPP_ _ => UserError "Exception" | _ => RuntimeError end (str_join ["HTTP "; int_str code; ": "; body]).

Section Complete.
Context {X : Type}.
Inductive http_reply := Reply (body : string) | HTTPError (code : Z) (body : string).
Context (urlopen : string -> dict string -> string -> Z -> eff X exn http_reply).

Definition complete (m : model_client) (messages : list json) (tools : option (list json)) (s : sampling) : eff X exn raw_result :=
  q ← eff_lift (client_request m messages tools s);
  reply ← urlopen (q_url q) (q_headers q) (json_dumps default_style (JObj (q_payload q))) (client_timeout m);
  match reply with
  | HTTPError code body => eff_raise (http_error m code body)
  | Reply body => data ← eff_lift (any_loads (JStr body)); eff_lift (client_result m data)
  end.
End Complete.

(** ** [AgentExecutor] *)

Section Agent.
Context {X : Type} (ask : list json -> list json -> eff X exn ModelResult) (tool_executor : string -> json -> eff X exn string).

Fixpoint agent_calls (calls : list tool_call) : eff (CaseLoop (X := X)) exn unit :=
  match calls with
  | [] => mret tt
  | tc :: calls' =>
      _ ← eff_modify (note_call tc);
      args ← eff_lift (loads_or_empty (tc_arguments tc));
      answer ← eff_zoom cl_world set_cl_world (tool_executor (tc_name tc) args);
      _ ← eff_modify (add_answer tc answer);
      agent_calls calls'
  end.
(** The turns left, and the content of the last answer. *)
Fixpoint agent_turns (fuel : nat) (tools : list json) (content : option (option string)) : eff (CaseLoop (X := X)) exn (option (option string)) :=
  match fuel with
  | O => mret content
  | S fuel' =>
      s ← eff_get;
      result ← eff_zoom cl_world set_cl_world (ask (cl_messages s) tools);
      _ ← eff_modify (fun s => {| cl_world := cl_world s; cl_messages := cl_messages s; cl_made := cl_made s; cl_turns := bump (cl_turns s) |});
      match mr_tool_calls result with
      | [] => mret (Some (mr_content result))
      | calls => _ ← agent_calls calls; agent_turns fuel' tools (Some (mr_content result))
      end
  end.

Definition AgentExecutor_run (max_turns : Z) (system_prompt user_message : string) (tools : list json) : eff X exn jdict := fun x =>
  let '(r, s) := agent_turns (Z.to_nat max_turns) tools None
                   {| cl_world := x; cl_messages := [role_message "system" system_prompt; role_message "user" user_message];
                      cl_made := []; cl_turns := 0 |} in
  ((content ← r;
    Ok [("content", match content with Some (Some t) => JStr t | Some None => JNull | None => JStr "" end);
        ("tool_calls", JArr (cl_made s)); ("turns", JInt (cl_turns s)); ("success", JBool (negb (null (cl_made s))))]), cl_world s).
End Agent.
