(* ===== verification/EvalModelsFacts.v ===== *)
(** * Conversations through the model clients

    What a runner sends back to a model keeps its tool calls with the
    OpenAI-compatible clients, and loses them with the others. *)
From Stdlib Require Import ZArith Lia Ascii String SpecFloat.
From stdpp Require Import base tactics list strings.
From S2P Require Import Prelude PyStr PyFloat Json Types EvalCase EvalRunner EvalProfiles EvalModels.

Definition openai_compatible (m : model_client) : Prop := match m with OpenAI _ | VLLM_ _ | LlamaCPP_ _ => True | _ => False end.
Definition as_raw (tc : tool_call) : raw_call := {| rc_id := tc_id tc; rc_name := JStr (tc_name tc); rc_arguments := tc_arguments tc |}.
(** An answer that consists of one message. *)
Definition answer_of (message : json) : json := JObj [("choices", JArr [JObj [("message", message)]])].

Lemma read_entries (f : json -> res exn raw_call) calls : (forall tc, f (call_entry tc) = Ok (as_raw tc)) ->
  res_map f (map call_entry calls) = Ok (map as_raw calls).
Proof. intros Hf. induction calls as [|tc calls IH]; [done|]. simpl. by rewrite Hf, IH. Qed.

Lemma typed_raw calls : mapM typed_call (map as_raw calls) = Some calls.
Proof. induction calls as [|[i n a] calls IH]; [done|]. simpl. by rewrite IH. Qed.

(** With an OpenAI-compatible client a conversation keeps its tool calls: the
    messages of a runner are sent as they are, and the assistant message that a
    runner sends back is read as the calls it was made of. *)
Lemma sent_calls_read_back (m : model_client) (messages : list json) (tools : option (list json)) (s : sampling)
    (content : option string) (calls : list tool_call) :
  openai_compatible m ->
  (exists q, client_request m messages tools s = Ok q /\ dget (q_payload q) "messages" = Some (JArr messages)) /\
  exists r, client_result m (answer_of (assistant_message (default JNull (JStr <$> content)) calls)) = Ok r /\
    typed_result r = Some {| mr_content := content; mr_tool_calls := calls; mr_finish_reason := JStr ""; mr_usage := JObj [] |}.
Proof.
  intros Hm. destruct m as [c|c|c|c|c]; try done; (split; [by eexists|]); unfold client_result, chat_result, LlamaCPPClient_result, answer_of, assistant_message, message_calls; cbn.
  1,2: destruct calls as [|tc calls]; [eexists; split; [done|]; by destruct content|]; cbn [map py_truthy py_iter mbind res_bind];
    change (call_entry tc :: map call_entry calls) with (map call_entry (tc :: calls)); rewrite (read_entries required_call) by done;
    eexists; split; [done|]; unfold typed_result; cbn [rr_tool_calls]; rewrite typed_raw; by destruct content.
  rewrite (read_entries lenient_call) by done. eexists; split; [done|]. unfold typed_result. cbn [rr_tool_calls rr_content].
  rewrite typed_raw. by destruct content.
Qed.

Lemma sent_calls_example :
  exists r, client_result (VLLM_ (mk_client "m" "u" "" 60)) (answer_of (assistant_message JNull [{| tc_id := JStr "1"; tc_name := "ls"; tc_arguments := JStr "{}" |}])) = Ok r /\
    typed_result r = Some {| mr_content := None; mr_tool_calls := [{| tc_id := JStr "1"; tc_name := "ls"; tc_arguments := JStr "{}" |}];
                             mr_finish_reason := JStr ""; mr_usage := JObj [] |}.
Proof.
  exact (proj2 (sent_calls_read_back (VLLM_ (mk_client "m" "u" "" 60)) [] None
    {| temperature := JInt 0; max_tokens := 1; seed := None; thinking := None; top_p := None; top_k := None |} None
    [{| tc_id := JStr "1"; tc_name := "ls"; tc_arguments := JStr "{}" |}] I)).
Defined.

(** The Ollama client looks for the name and the arguments of a call in the wrong
    place, and sends both empty; the Anthropic client leaves the message out. *)
Definition nameless (tc : tool_call) : json :=
  JObj [("role", JStr "assistant"); ("content", JNull);
        ("tool_calls", JArr [JObj [("id", tc_id tc); ("type", JStr "function");
                                   ("function", JObj [("name", JStr ""); ("arguments", JStr "")])]])].
Lemma ollama_sends_no_names content tc calls :
  ollama_message (assistant_message content (tc :: calls)) = Ok (map nameless (tc :: calls)).
Proof.
  assert (H : forall l, res_map ollama_call (map call_entry l) = Ok (map nameless l)).
  { induction l as [|t l IH]; [done|]. simpl. by rewrite IH. }
  exact (H (tc :: calls)).
Qed.
Lemma anthropic_drops_calls content tc calls messages :
  anthropic_messages (assistant_message content (tc :: calls) :: messages) = anthropic_messages messages.
Proof. done. Qed.
(** Only [length] means a truncated reply to the runner. *)
Example anthropic_truncation : forall r, client_result (Anthropic (mk_client "m" "" "" 60)) (JObj [("stop_reason", JStr "max_tokens")]) = Ok r ->
  py_eq (rr_finish_reason r) (JStr "length") = false.
Proof. intros r [= <-]. done. Qed.

(** ** [AgentExecutor] *)

Section Agent.
Context {X : Type} (ask : list json -> list json -> eff X exn ModelResult) (tool_executor : string -> json -> eff X exn string).
Context (asks : X -> nat) (Hask : forall m t x, asks (ask m t x).2 = S (asks x)) (Htool : forall n a x, asks (tool_executor n a x).2 = asks x).

Lemma agent_calls_asks calls s : asks (cl_world (agent_calls tool_executor calls s).2) = asks (cl_world s).
Proof using Htool.
  revert s. induction calls as [|tc calls IH]; intros s; [done|]. cbn [agent_calls]. unfold mbind, eff_bind, eff_modify, eff_lift, eff_zoom.
  destruct (loads_or_empty _) as [args|]; [|done]. cbn. pose proof (Htool (tc_name tc) args (cl_world s)) as Ht.
  destruct (tool_executor _ _ _) as [[answer|e] x']; cbn in *; [|done]. by rewrite IH.
Qed.

(** The agent asks at most [max_turns] times, and says it succeeded when it made a
    call, whatever came of it. *)
Lemma agent_bounded max_turns system user tools x :
  let '(r, x') := AgentExecutor_run ask tool_executor max_turns system user tools x in asks x' <= asks x + Z.to_nat max_turns.
Proof using Hask Htool.
  unfold AgentExecutor_run.
  enough (H : forall fuel content s, asks (cl_world (agent_turns ask tool_executor fuel tools content s).2) <= asks (cl_world s) + fuel).
  { match goal with |- context [agent_turns _ _ _ _ None ?s] => specialize (H (Z.to_nat max_turns) None s) end.
    destruct (agent_turns _ _ _ _ _ _). exact H. }
  induction fuel as [|fuel IH]; intros content s; [cbn; lia|]. cbn [agent_turns]. unfold mbind at 1, eff_bind at 1, eff_get at 1.
  unfold mbind at 1, eff_bind at 1, eff_zoom. pose proof (Hask (cl_messages s) tools (cl_world s)) as Ha.
  destruct (ask _ _ _) as [[result|e] x']; cbn in Ha; [|cbn; lia]. unfold mbind at 1, eff_bind at 1, eff_modify at 1.
  destruct (mr_tool_calls result) as [|tc calls]; [cbn; lia|]. unfold mbind, eff_bind.
  match goal with |- context [agent_calls _ ?l ?s0] => pose proof (agent_calls_asks l s0) as Hc; destruct (agent_calls tool_executor l s0) as [[u|e] s'] end;
    cbn in Hc |- *; [|lia]. etransitivity; [apply IH|]. lia.
Qed.
End Agent.
