(* ===== verification/EvalTable.v ===== *)
(** * Suites, repeats and the benchmark

    [evals/table.py] and [evals/benchmark.py]: the runs of a suite, how the repeats
    of a case combine, the exit code, the scrubbed benchmark document and its
    rendering.

    Parameters: [word_char] and [digit_char], what [\w] and [\d] match; [run], what
    the run of a case under a session id returns.  The runs of a suite go through a
    thread pool, whose [map] yields the results in the order of the runs, so that a
    run is a function of its case and session here; what it may do to a shared
    world is in [EvalRunner.v].  Printing is left out, and [git] is a parameter. *)
From Stdlib Require Import ZArith Lia Ascii String SpecFloat.
From stdpp Require Import base tactics list strings.
From S2P Require Import Prelude PyStr PyFloat Json Types Regex EvalCase EvalRunner EvalSuite.

(** ** Rounding and printing floats *)

Definition float_ratio (m : positive) (e : Z) : Z * Z := if (0 <=? e)%Z then (Z.pos m * 2 ^ e, 1)%Z else (Z.pos m, 2 ^ (- e))%Z.
(** [m * 2^e * 10^digits], rounded to an integer. *)
Definition scaled (digits : nat) (m : positive) (e : Z) : Z :=
  let '(num, den) := float_ratio m e in div_half_even (num * 10 ^ Z.of_nat digits) den.
(** [round(f, digits)] *)
Definition py_round (digits : nat) (f : spec_float) : spec_float :=
  match f with S754_finite s m e => float_of_dec s (scaled digits m e) (- Z.of_nat digits) | _ => f end.
(** [f"{f:.<digits>f}"] *)
Definition fixed_layout (digits : nat) (n : Z) : string :=
  let s := int_str n in
  let s := String.append (zeros (S digits - String.length s)) s in
  match digits with
  | O => s
  | _ => let k := String.length s - digits in str_join [py_take k s; "."; py_drop k s]
  end.
Definition format_fixed (digits : nat) (f : spec_float) : string :=
  let sign (s : bool) := if s then "-" else "" in
  match f with
  | S754_zero s => String.append (sign s) (fixed_layout digits 0)
  | S754_infinity s => String.append (sign s) "inf"
  | S754_nan => "nan"
  | S754_finite s m e => String.append (sign s) (fixed_layout digits (scaled digits m e))
  end.
(** [f"{f:.<digits>%}"] *)
Definition format_percent (digits : nat) (f : spec_float) : string :=
  String.append (format_fixed digits (SFmul f_prec f_emax f (float_of_Z 100))) "%".
Definition float_ge (f g : spec_float) : bool := match float_compare f g with Some Gt | Some Eq => true | _ => false end.

Example rounded : py_round 4 (float_of_dec false 66666666 (-8)) = float_of_dec false 6667 (-4).
Proof. by vm_compute. Qed.
Example percents : format_percent 1 (float_of_dec false 6667 (-4)) = "66.7%" /\ format_percent 0 (float_of_dec false 95 (-2)) = "95%"
  /\ format_fixed 1 (float_of_dec false 4 (-2)) = "0.0".
Proof. split_and!; by vm_compute. Qed.

(** ** Scrubbing *)

Definition REDACTED : string := "<redacted>".

Section Scrub.
Context (word_char digit_char : string -> bool).

(** [r{n}] *)
Fixpoint times (n : nat) (r : Regex.regex) : Regex.regex := match n with O => REps | S n' => RCat r (times n' r) end.
(** A [\b] after a character of a word. *)
Definition word_end (s : list string) : bool := match s with c :: _ => negb (word_char c) | [] => true end.
Definition octet : Regex.regex := RCat (RChar digit_char) (up_to 2 (RChar digit_char)).
Definition _IPV4 : pattern := {|
  p_before := word_boundary word_char; p_after := word_end;
  p_body := cats [octet; times 3 (RCat (lit ".") octet); opt (RCat (lit ":") (plus (RChar digit_char)))] |}.
Definition host_label : Regex.regex := plus (RChar (fun c => word_char c || String.eqb c "-")).
Definition _TAILNET_HOST : pattern := {|
  p_before := word_boundary word_char; p_after := word_end;
  p_body := cats [host_label; RStar true (RCat (lit ".") host_label); ilit ".ts.net"] |}.
Definition url_char (c : string) : bool := negb (is_space c) && negb (str_in c ["'"; dquote; "<"; ">"]).
Definition _URL : pattern := {|
  p_before := word_boundary word_char; p_after := fun _ => true;
  p_body := cats [ilit "http"; opt (ilit "s"); lit "://"; plus (RChar url_char)] |}.

Definition redact (p : pattern) (text : string) : string :=
  let cs := py_chars text in join_with REDACTED (map str_join (split_pieces (length cs) p None cs)).
Definition drop_secret (text secret : string) : string := if py_truthy_str secret then py_replace secret REDACTED text else text.
Definition scrub (text : string) (secrets : list string) : string :=
  redact _IPV4 (redact _TAILNET_HOST (redact _URL (foldl drop_secret text secrets))).
End Scrub.

(** ** Outcomes *)

Record CaseOutcome := {
  co_id : string; co_passed : bool; co_reason : string; co_errored : bool; co_duration_ms : Z; co_runs : Z;
  co_passed_runs : Z; co_errored_runs : Z }.
(** The constructor, with [__post_init__]. *)
Definition new_outcome (id : string) (passed : bool) (reason : string) (errored : bool) (duration_ms runs passed_runs errored_runs : Z) : CaseOutcome := {|
  co_id := id; co_passed := passed; co_reason := reason; co_errored := errored; co_duration_ms := duration_ms; co_runs := runs;
  co_passed_runs := if (passed_runs <? 0)%Z then (if passed then runs else 0%Z) else passed_runs;
  co_errored_runs := if (errored_runs <? 0)%Z then (if errored then runs else 0%Z) else errored_runs |}.

Definition sum_of {A} (f : A -> Z) (l : list A) : Z := foldr (fun a n => f a + n)%Z 0%Z l.

Record SuiteResult := { sr_suite : string; sr_kind : string; sr_cases : list CaseOutcome }.
Definition sr_passed (r : SuiteResult) : Z := sum_of co_passed_runs (sr_cases r).
Definition sr_errors (r : SuiteResult) : Z := sum_of co_errored_runs (sr_cases r).
Definition sr_total (r : SuiteResult) : Z := sum_of co_runs (sr_cases r).
Definition sr_failed (r : SuiteResult) : Z := (sr_total r - sr_passed r - sr_errors r)%Z.
Definition sr_pass_rate (r : SuiteResult) : res exn spec_float :=
  if (sr_total r =? 0)%Z then Ok (float_of_Z 0) else int_div (sr_passed r) (sr_total r).

(** [enumerate(l, 1)] *)
Fixpoint enumerate_from {A} (i : Z) (l : list A) : list (Z * A) :=
  match l with [] => [] | x :: l' => (i, x) :: enumerate_from (i + 1) l' end.

Definition failed_run (r : EvalResult) : bool := negb (er_success r) && negb (er_errored r).
Definition combine_repeats (case_id : string) (runs : list EvalResult) : CaseOutcome :=
  let total := Z.of_nat (length runs) in
  let prefix i := if (1 <? total)%Z then str_join ["repeat "; int_str i; "/"; int_str total; ": "] else "" in
  let failed := List.filter (fun ir => failed_run ir.2) (enumerate_from 1 runs) in
  let errored := List.filter (fun ir => er_errored ir.2) (enumerate_from 1 runs) in
  let reasons := map (fun ir => String.append (prefix ir.1) (er_error ir.2)) failed
                 ++ map (fun ir => str_join [prefix ir.1; "error: "; er_error ir.2]) errored in
  let passed_runs := count_if er_success runs in
  new_outcome case_id (passed_runs =? total)%Z (join_with "; " reasons) (negb (null errored) && null failed)
    (sum_of er_duration_ms runs) total passed_runs (Z.of_nat (length errored)).

(** ** Suites *)

(** [range(n)] *)
Definition range (n : Z) : list Z := map Z.of_nat (seq 0 (Z.to_nat n)).
Definition units (suite : Suite) : list (EvalCase * Z) := flat_map (fun case => map (fun rep => (case, rep)) (range (s_repeats suite))) (s_cases suite).
Definition session_of (suite : Suite) (case : EvalCase) (rep : Z) : string := str_join [s_name suite; ":"; ec_name case; ":"; int_str rep].

(** [by_case.setdefault(name, []).append(result)] *)
Definition add_result (d : dict (list EvalResult)) (ur : (EvalCase * Z) * EvalResult) : dict (list EvalResult) :=
  dset d (ec_name ur.1.1) (dget_or d (ec_name ur.1.1) [] ++ [ur.2]).

Section Run.
Context (run : EvalCase -> string -> res exn EvalResult).

Definition run_unit (suite : Suite) (u : EvalCase * Z) : res exn EvalResult := run u.1 (session_of suite u.1 u.2).
Definition run_suite (suite : Suite) : res exn SuiteResult :=
  results ← res_map (run_unit suite) (units suite);
  let by_case := foldl add_result [] (zip (units suite) results) in
  cases ← res_map (fun case => runs ← of_option (Exn KeyError (ec_name case)) (dget by_case (ec_name case));
                               Ok (combine_repeats (ec_name case) runs)) (s_cases suite);
  Ok {| sr_suite := s_name suite; sr_kind := s_kind suite; sr_cases := cases |}.
End Run.

Definition set_cases (suite : Suite) (cases : list EvalCase) : Suite :=
  {| s_name := s_name suite; s_kind := s_kind suite; s_path := s_path suite; s_repeats := s_repeats suite; s_cases := cases |}.
Definition set_repeats (suite : Suite) (n : Z) : Suite :=
  {| s_name := s_name suite; s_kind := s_kind suite; s_path := s_path suite; s_repeats := n; s_cases := s_cases suite |}.
Definition select_cases (suites : list Suite) (case_ids : list string) : res exn (list Suite) :=
  let known := flat_map (fun s => map ec_name (s_cases s)) suites in
  match dedup_strs (List.filter (fun i => negb (str_in i known)) case_ids) with
  | [] =>
      Ok (flat_map (fun s => match List.filter (fun c => str_in (ec_name c) case_ids) (s_cases s) with
                             | [] => []
                             | cases => [set_cases s cases]
                             end) suites)
  | unknown => Raise (Exn ValueError (String.append "unknown case id(s): " (repr_strs unknown)))
  end.

Definition EXIT_OK : Z := 0.
Definition EXIT_BELOW_THRESHOLD : Z := 1.
Definition EXIT_UNAVAILABLE : Z := 2.
(** [all(...)], which stops at the first suite below the threshold. *)
Fixpoint all_meet (results : list SuiteResult) (threshold : spec_float) : res exn bool :=
  match results with
  | [] => Ok true
  | r :: results' => rate ← sr_pass_rate r; if float_ge rate threshold then all_meet results' threshold else Ok false
  end.
Definition exit_code (results : list SuiteResult) (threshold : spec_float) : res exn Z :=
  b ← all_meet results threshold; Ok (if (b : bool) then EXIT_OK else EXIT_BELOW_THRESHOLD).

(** ** The benchmark *)

(** The document of [build_benchmark], its numbers as they are. *)
Record bench_case := { bc_id : string; bc_passed : bool; bc_reason : string; bc_duration_ms : Z; bc_runs : Z; bc_passed_runs : Z }.
Record bench_suite := {
  bs_suite : string; bs_kind : string; bs_passed : Z; bs_failed : Z; bs_errors : Z; bs_total : Z; bs_pass_rate : spec_float;
  bs_cases : list bench_case }.
Record benchmark := {
  b_model_profile : string; b_model : string; b_created_at : string; b_git_sha : string; b_results : list bench_suite }.

Definition bench_case_of (clean : string -> string) (c : CaseOutcome) : bench_case := {|
  bc_id := co_id c; bc_passed := co_passed c; bc_reason := clean (co_reason c); bc_duration_ms := co_duration_ms c;
  bc_runs := co_runs c; bc_passed_runs := co_passed_runs c |}.
Definition bench_suite_of (clean : string -> string) (r : SuiteResult) : res exn bench_suite :=
  rate ← sr_pass_rate r;
  Ok {| bs_suite := sr_suite r; bs_kind := sr_kind r; bs_passed := sr_passed r; bs_failed := sr_failed r; bs_errors := sr_errors r;
        bs_total := sr_total r; bs_pass_rate := py_round 4 rate; bs_cases := map (bench_case_of clean) (sr_cases r) |}.
Definition build_benchmark (word_char digit_char : string -> bool) (results : list SuiteResult)
    (model_profile model sha created_at : string) (secrets : list string) : res exn benchmark :=
  suites ← res_map (bench_suite_of (fun reason => scrub word_char digit_char reason secrets)) results;
  Ok {| b_model_profile := model_profile; b_model := model; b_created_at := created_at; b_git_sha := sha; b_results := suites |}.

Definition case_json (c : bench_case) : json :=
  JObj [("id", JStr (bc_id c)); ("passed", JBool (bc_passed c)); ("reason", JStr (bc_reason c)); ("duration_ms", JInt (bc_duration_ms c));
        ("runs", JInt (bc_runs c)); ("passed_runs", JInt (bc_passed_runs c))].
Definition suite_json (r : bench_suite) : json :=
  JObj [("suite", JStr (bs_suite r)); ("kind", JStr (bs_kind r)); ("passed", JInt (bs_passed r)); ("failed", JInt (bs_failed r));
        ("errors", JInt (bs_errors r)); ("total", JInt (bs_total r)); ("pass_rate", JFloat (bs_pass_rate r));
        ("cases", JArr (map case_json (bs_cases r)))].
Definition benchmark_json (b : benchmark) : json :=
  JObj [("schema", JStr "haikei.eval-benchmark.v1"); ("harness", JStr "agentware"); ("model_profile", JStr (b_model_profile b));
        ("model", JStr (b_model b)); ("created_at", JStr (b_created_at b)); ("git_sha", JStr (b_git_sha b));
        ("results", JArr (map suite_json (b_results b)))].

Definition _cell (text : string) : string := py_replace nl " " (py_replace "|" "\|" text).
Definition suite_status (r : bench_suite) (threshold : spec_float) : string :=
  if float_ge (bs_pass_rate r) threshold then "PASS" else "BELOW THRESHOLD".
Definition mean_seconds (r : bench_suite) : res exn spec_float :=
  match bs_cases r with
  | [] => Ok (float_of_Z 0)
  | cases => mean ← int_div (sum_of bc_duration_ms cases) (Z.of_nat (length cases)); Ok (SFdiv f_prec f_emax mean (float_of_Z 1000))
  end.
Definition suite_row (threshold : spec_float) (r : bench_suite) : res exn string :=
  mean_s ← mean_seconds r;
  Ok (str_join ["| "; bs_suite r; " | "; bs_kind r; " | "; int_str (bs_passed r); " | "; int_str (bs_failed r); " | "; int_str (bs_errors r);
                " | "; int_str (bs_total r); " | "; format_percent 1 (bs_pass_rate r); " | "; format_fixed 1 mean_s; "s | ";
                suite_status r threshold; " |"]).
Definition failing_rows (r : bench_suite) : list string :=
  match List.filter (fun c => negb (bc_passed c)) (bs_cases r) with
  | [] => []
  | failing =>
      [""; String.append "## Failing cases: " (bs_suite r); ""; "| Case | Reason |"; "|---|---|"]
      ++ map (fun c => str_join ["| "; bc_id c; " | "; _cell (bc_reason c); " |"]) failing
  end.
Definition render_markdown (b : benchmark) (threshold : spec_float) : res exn string :=
  rows ← res_map (suite_row threshold) (b_results b);
  Ok (String.append (join_with nl
        ([String.append "# Eval benchmark: " (b_model_profile b); "";
          str_join ["- Model: `"; b_model b; "`"]; "- Harness: agentware"; String.append "- Created: " (b_created_at b);
          str_join ["- Git SHA: `"; str_or (b_git_sha b) "unknown"; "`"]; String.append "- Threshold: " (format_percent 0 threshold);
          "- Counts are runs (cases x repeats); the pass rate is passed runs / total runs."; "";
          "| Suite | Kind | Passed | Failed | Errors | Total | Pass rate | Mean case time | Status |";
          "|---|---|---:|---:|---:|---:|---:|---:|---|"]
         ++ rows ++ flat_map failing_rows (b_results b))) nl).

(** The two files of a benchmark. *)
Definition write_benchmark (b : benchmark) (threshold : spec_float) : res exn (dict string) :=
  markdown ← render_markdown b threshold;
  Ok [("benchmark.json", String.append (json_dumps (indented 2) (benchmark_json b)) nl); ("benchmark.md", markdown)].

(** [git_sha]: what the two commands print, or [None] when one fails. *)
Definition git_sha (head status : option string) : string :=
  match head, status with
  | Some sha, Some dirty => if py_truthy_str (py_strip dirty) then String.append (py_strip sha) "-dirty" else py_strip sha
  | _, _ => ""
  end.
