(* ===== verification/EvalTableFacts.v ===== *)
(** * Every run is counted, and nothing secret is written

    The counts of a suite against its runs, and the scrubbing of a benchmark. *)
From Stdlib Require Import ZArith Lia Ascii String SpecFloat.
From stdpp Require Import base tactics list strings.
From S2P Require Import Prelude PyStr PyFloat Json Types Regex Middleware EvalCase EvalRunner EvalSuite EvalTable.

(** ** Scrubbing *)

Lemma py_in_infix sub a b c : py_in sub b = true -> py_in sub (String.append a (String.append b c)) = true.
Proof.
  rewrite !py_in_spec. intros (x & y & ->). exists (String.append a x), (String.append y c). by rewrite !str_app_assoc.
Qed.

(** A text without angle brackets that is not part of the mark. *)
Definition plain_secret (s : string) : Prop :=
  s <> "" /\ lacks "<" s = true /\ lacks ">" s = true /\ py_in s "redacted" = false.

Section Secret.
Context (secret : string) (Hs : plain_secret secret).

Lemma around_mark x y : py_in secret x = false -> py_in secret y = false ->
  py_in secret (String.append x (String.append REDACTED y)) = false.
Proof using Hs.
  destruct Hs as (Hne & Hl & Hr & Hm). intros Hx Hy. apply not_true_is_false. intros H.
  change (String.append REDACTED y) with (String "<" (String.append "redacted" (String ">" y))) in H.
  apply (py_in_around "<") in H as [H|H]; [congruence | | done..].
  apply (py_in_around ">") in H as [H|H]; [congruence.. | done | done].
Qed.

Lemma join_marks pieces : Forall (fun p => py_in secret p = false) pieces -> py_in secret (join_with REDACTED pieces) = false.
Proof using Hs.
  induction 1 as [|x l Hx Hl IH]; [destruct Hs as (Hne & _); by destruct secret|].
  destruct l as [|y l]; [done|]. change (join_with REDACTED (x :: y :: l)) with (String.append x (String.append REDACTED (join_with REDACTED (y :: l)))).
  by apply around_mark.
Qed.

Lemma split_pieces_infix fuel p prev s : Forall (fun b => exists a c, s = a ++ b ++ c) (split_pieces fuel p prev s).
Proof.
  revert prev s. induction fuel as [|fuel IH]; intros prev s; cbn [split_pieces].
  - constructor; [exists [], []; by rewrite app_nil_r | done].
  - destruct (search_from p prev s) as [[[[b m] rest] g]|] eqn:Hf; [|constructor; [exists [], []; by rewrite app_nil_r | done]].
    apply search_from_Some in Hf as (-> & _). constructor; [by exists [], (m ++ rest)|].
    eapply Forall_impl; [apply IH|]. cbn. intros x (a & c & ->). exists (b ++ m ++ a), c. by rewrite <- !(assoc_L (++)).
Qed.

Lemma redact_keeps p s : py_in secret s = false -> py_in secret (redact p s) = false.
Proof using Hs.
  intros H. unfold redact. apply join_marks, Forall_map. eapply Forall_impl; [apply split_pieces_infix|]. cbn. intros b (a & c & Hb).
  apply not_true_is_false. intros Hin. apply (py_in_infix _ (str_join a) _ (str_join c)) in Hin.
  by rewrite <- !str_join_app, <- Hb, str_join_chars, H in Hin.
Qed.

Lemma replace_keeps old s : old <> "" -> py_in secret s = false -> py_in secret (py_replace old REDACTED s) = false.
Proof using Hs.
  intros Ho. induction s as [s IH] using (induction_ltof1 _ String.length). unfold ltof in IH. intros H.
  destruct s as [|a s]; [done|]. destruct (String.prefix old (String a s)) eqn:Hp.
  - apply prefix_split in Hp as [t Ht]. rewrite Ht in *. rewrite replace_match by done.
    assert (Hlt : String.length t < String.length (String.append old t)).
    { rewrite str_length_app. destruct old; simpl; [done|lia]. }
    apply (around_mark ""); [destruct Hs as (Hne & _); by destruct secret|]. apply IH; [done|].
    apply not_true_is_false. intros Hin. apply (py_in_infix _ old _ "") in Hin. by rewrite str_app_nil_r, H in Hin.
  - unfold py_replace. cbn [replace_from]. rewrite Hp. cbn [py_in]. apply orb_false_iff. split.
    + destruct Hs as (Hne & Hl & _). apply not_true_is_false. intros Hx.
      change (String a (replace_from old REDACTED 0 s)) with (String a (py_replace old REDACTED s)) in Hx.
      destruct secret as [|d o] eqn:E; [done|]. cbn [String.prefix] in Hx. destruct (ascii_dec d a) as [->|] eqn:Ed; [|done].
      unfold lacks in Hl. cbn [str_forall] in Hl. py_bool. apply (prefix_replace old "redacted" "<" ">") in Hx; [|done..].
      cbn [py_in String.prefix] in H. rewrite Ed, Hx in H. done.
    + apply IH; [simpl; lia|]. cbn [py_in] in H. by apply orb_false_iff in H as [_ H].
Qed.

Lemma drop_secret_keeps s t : py_in secret s = false -> py_in secret (drop_secret s t) = false.
Proof using Hs. unfold drop_secret. destruct (py_truthy_str t) eqn:Ht; [|done]. intros. apply replace_keeps; [|done]. intros ->. done. Qed.

Lemma drop_secret_removes s : py_in secret (drop_secret s secret) = false.
Proof using Hs.
  destruct Hs as (Hne & Hl & Hr & Hm). unfold drop_secret. replace (py_truthy_str secret) with true by by destruct secret.
  by apply (replace_removes secret "redacted" "<" ">").
Qed.
End Secret.

Lemma scrub_removes (word_char digit_char : string -> bool) (text secret : string) (secrets : list string) :
  plain_secret secret -> secret ∈ secrets -> py_in secret (scrub word_char digit_char text secrets) = false.
Proof.
  intros Hs Hin. unfold scrub. apply redact_keeps; [done|]. apply redact_keeps; [done|]. apply redact_keeps; [done|].
  revert text. induction secrets as [|t l IH]; intros text; [by apply elem_of_nil in Hin|]. cbn [foldl].
  apply elem_of_cons in Hin as [<-|Hin]; [|by apply IH].
  assert (H : forall l s, py_in secret s = false -> py_in secret (foldl drop_secret s l) = false).
  { intros l'. induction l' as [|t l' IHl]; intros s H; [done|]. apply IHl. by apply drop_secret_keeps. }
  apply H. by apply drop_secret_removes.
Qed.

(** C18: scrubbing removes the secrets it is given, wherever they occur in the text
    and whatever the substitutions of the other secrets, of URLs, of tailnet hosts
    and of addresses put together: no secret without angle brackets (that is not
    part of the word that replaces it) is left in the result. *)
Theorem scrub_removes_secrets (word_char digit_char : string -> bool) (text secret : string) (secrets : list string) :
  plain_secret secret -> secret ∈ secrets -> py_in secret (scrub word_char digit_char text secrets) = false.
Proof. apply scrub_removes. Qed.

Lemma scrub_removes_secrets_witness :
  plain_secret "http://10.0.0.7:8000/v1" /\
  py_in "http://10.0.0.7:8000/v1" (scrub (fun _ => true) (fun _ => true) "no route to http://10.0.0.7:8000/v1" ["http://10.0.0.7:8000/v1"]) = false.
Proof.
  assert (Hs : plain_secret "http://10.0.0.7:8000/v1") by (split_and!; by vm_compute).
  split; [exact Hs|]. apply (scrub_removes_secrets _ _ _ _ _ Hs). left.
Defined.

(** ** Counting runs *)

Lemma sum_of_app {A} (f : A -> Z) l k : sum_of f (l ++ k) = (sum_of f l + sum_of f k)%Z.
Proof. unfold sum_of. induction l as [|x l IH]; simpl; lia. Qed.
Lemma sum_of_map {A B} (g : A -> B) (f : B -> Z) l : sum_of f (map g l) = sum_of (fun x => f (g x)) l.
Proof. unfold sum_of. induction l as [|x l IH]; simpl; lia. Qed.
Lemma sum_of_ext {A} (f g : A -> Z) l : (forall x, x ∈ l -> f x = g x) -> sum_of f l = sum_of g l.
Proof. unfold sum_of. induction l as [|x l IH]; intros H; [done|]. simpl. rewrite (H x) by left. rewrite IH; [done|]. intros y Hy. apply H. by right. Qed.

Lemma count_if_cons {A} (p : A -> bool) x l : count_if p (x :: l) = ((if p x then 1 else 0) + count_if p l)%Z.
Proof. unfold count_if. cbn [List.filter]. destruct (p x); cbn [length]; lia. Qed.
Lemma count_if_app {A} (p : A -> bool) l k : count_if p (l ++ k) = (count_if p l + count_if p k)%Z.
Proof. unfold count_if. rewrite List.filter_app, length_app. lia. Qed.

(** The results of the units whose case has a name. *)
Abbreviation unit_result := ((EvalCase * Z) * EvalResult)%type.
Definition of_name (name : string) (l : list unit_result) : list EvalResult :=
  map snd (List.filter (fun ur => String.eqb (ec_name ur.1.1) name) l).

Lemma of_name_cons name u r l : of_name name ((u, r) :: l) = if String.eqb (ec_name u.1) name then r :: of_name name l else of_name name l.
Proof. unfold of_name. cbn. by destruct (String.eqb _ _). Qed.

(** Each result is counted under the name of its case. *)
Lemma count_by_name (p : EvalResult -> bool) names (l : list unit_result) :
  NoDup names -> Forall (fun ur => ec_name ur.1.1 ∈ names) l ->
  sum_of (fun n => count_if p (of_name n l)) names = count_if p (map snd l).
Proof.
  intros Hn. induction 1 as [|[u r] l Hu _ IH].
  - clear Hn. unfold sum_of. induction names; simpl; [done|]. by rewrite IHnames.
  - cbn [map snd]. rewrite count_if_cons, <- IH. cbn in Hu. clear IH. revert Hu. induction Hn as [|n names Hn _ IH]; intros Hu; [by apply elem_of_nil in Hu|].
    unfold sum_of in *. cbn [foldr]. rewrite of_name_cons. destruct (String.eqb_spec (ec_name u.1) n) as [<-|Hne].
    + rewrite count_if_cons. enough (Hsame : forall k, ec_name u.1 ∉ k ->
        foldr (fun a m => count_if p (of_name a ((u, r) :: l)) + m)%Z 0%Z k = foldr (fun a m => count_if p (of_name a l) + m)%Z 0%Z k).
      { rewrite Hsame by done. lia. }
      induction k as [|m k IHk]; intros Hk; [done|]. cbn [foldr]. rewrite of_name_cons, IHk by (intros ?; apply Hk; by right).
      destruct (String.eqb_spec (ec_name u.1) m) as [<-|]; [|done]. exfalso. apply Hk. by left.
    + apply elem_of_cons in Hu as [Hc|Hu]; [done|]. specialize (IH Hu). lia.
Qed.

Lemma by_case_get name (l : list unit_result) d :
  dget (foldl add_result d l) name = match of_name name l with [] => dget d name | rs => Some (dget_or d name [] ++ rs) end.
Proof.
  revert d. induction l as [|[u r] l IH]; intros d; [done|]. cbn [foldl]. rewrite IH, of_name_cons. unfold add_result. cbn [fst snd].
  unfold dget_or. rewrite dget_dset, (String.eqb_sym name). destruct (String.eqb_spec (ec_name u.1) name) as [->|Hne]; [|done].
  destruct (of_name name l); [done|]. simpl. by rewrite <- (assoc_L (++)).
Qed.

(** ** The runs of a suite *)

Lemma enumerate_filter {A} (p : A -> bool) l i : map snd (List.filter (fun ir => p ir.2) (enumerate_from i l)) = List.filter p l.
Proof. revert i. induction l as [|x l IH]; intros i; [done|]. cbn. destruct (p x); cbn; by rewrite IH. Qed.
Lemma count_enumerate {A} (p : A -> bool) l : Z.of_nat (length (List.filter (fun ir => p ir.2) (enumerate_from 1 l))) = count_if p l.
Proof. unfold count_if. by rewrite <- (enumerate_filter p l 1), length_map. Qed.

Lemma count_nonneg {A} (p : A -> bool) l : (0 <= count_if p l)%Z.
Proof. unfold count_if. lia. Qed.

Lemma combine_counts id runs :
  let c := combine_repeats id runs in
  co_id c = id /\ co_runs c = Z.of_nat (length runs) /\ co_passed_runs c = count_if er_success runs /\
  co_errored_runs c = count_if er_errored runs /\ co_passed c = (count_if er_success runs =? Z.of_nat (length runs))%Z.
Proof.
  unfold combine_repeats, new_outcome. cbn. rewrite count_enumerate.
  pose proof (count_nonneg er_success runs). pose proof (count_nonneg er_errored runs).
  repeat rewrite (proj2 (Z.ltb_ge _ _)) by done. done.
Qed.

Section Suite.
Context (run : EvalCase -> string -> res exn EvalResult) (suite : Suite).
Context (unique : NoDup (map ec_name (s_cases suite))).

Lemma units_names : Forall (fun u => ec_name u.1 ∈ map ec_name (s_cases suite)) (units suite).
Proof.
  apply Forall_forall. unfold units. intros u Hu. apply list_elem_of_In, in_flat_map in Hu as (c & Hc & Hu).
  apply in_map_iff in Hu as (rep & <- & _). apply list_elem_of_In, in_map. done.
Qed.

Lemma units_length : length (units suite) = length (s_cases suite) * Z.to_nat (s_repeats suite).
Proof.
  clear unique. unfold units, range. rewrite length_flat_map. induction (s_cases suite) as [|c l IH]; [done|]. simpl. rewrite IH, !length_map, length_seq. lia.
Qed.

(** The outcomes of a suite, case by case, from the results of its units. *)
Lemma run_suite_outcomes out : run_suite run suite = Ok out ->
  exists results, res_map (run_unit run suite) (units suite) = Ok results /\ length results = length (units suite) /\
    sr_cases out = map (fun c => combine_repeats (ec_name c) (of_name (ec_name c) (zip (units suite) results))) (s_cases suite).
Proof.
  unfold run_suite. intros H. res_inv. cbn. rename a into results. exists results. split; [done|].
  assert (Hlen : length results = length (units suite)) by (apply res_map_Ok in Hr; symmetry; by eapply Forall2_length).
  split; [done|]. apply res_map_Ok in Hr0. clear unique. induction Hr0 as [|c o l k Hc _ IH]; [done|]. cbn [map]. rewrite <- IH. f_equal. res_inv.
  rewrite by_case_get in Hr0. cbn in Hr0. by destruct (of_name _ _); simplify_eq.
Qed.

Lemma suite_counts out results (p : EvalResult -> bool) (f : CaseOutcome -> Z) :
  length results = length (units suite) ->
  sr_cases out = map (fun c => combine_repeats (ec_name c) (of_name (ec_name c) (zip (units suite) results))) (s_cases suite) ->
  (forall id runs, f (combine_repeats id runs) = count_if p runs) -> sum_of f (sr_cases out) = count_if p results.
Proof using unique.
  intros Hlen -> Hf. rewrite sum_of_map. erewrite sum_of_ext; [|intros c _; apply Hf].
  rewrite <- (sum_of_map ec_name (fun n => count_if p (of_name n (zip (units suite) results)))).
  rewrite count_by_name; [by rewrite <- (snd_zip (units suite) results) at 2; [|lia] | done |].
  apply Forall_forall. intros [u r] Hur%elem_of_zip_l. pose proof units_names as Hn. rewrite Forall_forall in Hn. by apply Hn.
Qed.
End Suite.

(** A run that passes is not one that could not be scored. *)
Definition exclusive (run : EvalCase -> string -> res exn EvalResult) : Prop :=
  forall case session r, run case session = Ok r -> er_success r = true -> er_errored r = false.

(** Each run is a run of a table case, from some state of the world. *)
Definition runs_table_cases {X} complete tool_executor elapsed stamp exc_str lower re_search json_message sorted_any runner model
    (run : EvalCase -> string -> res exn EvalResult) : Prop :=
  forall case session, exists x : X, run case session =
    (run_table_case complete tool_executor elapsed stamp exc_str lower re_search json_message sorted_any runner case model session x).1.

Lemma table_cases_exclusive {X} complete tool_executor elapsed stamp exc_str lower re_search json_message sorted_any runner model run :
  @runs_table_cases X complete tool_executor elapsed stamp exc_str lower re_search json_message sorted_any runner model run -> exclusive run.
Proof.
  intros Hrun case session r Hr. destruct (Hrun case session) as [x Hx]. rewrite Hx in Hr. unfold run_table_case in Hr.
  destruct (caller_context_for case session); [|done]. destruct (play _ _ _ _ _ _ _ _ _) as [[u|e] s]; cbn in Hr; [|by injection Hr as <-].
  destruct (score_table_case _ _ _ _ _ _ _ _) as [[ok reason]|]; [|done]. by injection Hr as <-.
Qed.

Lemma count_partition (l : list EvalResult) : Forall (fun r => er_success r = true -> er_errored r = false) l ->
  count_if failed_run l = (Z.of_nat (length l) - count_if er_success l - count_if er_errored l)%Z.
Proof.
  induction 1 as [|r l Hr _ IH]; [done|]. rewrite !count_if_cons, IH. unfold failed_run. cbn [length].
  destruct (er_success r); [rewrite (Hr eq_refl)|destruct (er_errored r)]; cbn; lia.
Qed.

Lemma count_all {A} (p : A -> bool) l : (count_if p l =? Z.of_nat (length l))%Z = true <-> Forall (fun x => p x = true) l.
Proof.
  rewrite Z.eqb_eq. induction l as [|x l IH]; [split; [constructor | done]|]. rewrite count_if_cons, Forall_cons, <- IH. cbn [length].
  assert (Hle : (count_if p l <= Z.of_nat (length l))%Z) by (unfold count_if; pose proof (filter_length_le p l); lia).
  destruct (p x); split; [intros; split; [done | lia] | intros [_ ?]; lia | intros; lia | by intros [? _]].
Qed.

Lemma units_in suite c rep : c ∈ s_cases suite -> rep ∈ range (s_repeats suite) -> (c, rep) ∈ units suite.
Proof.
  intros Hc Hrep. apply list_elem_of_In. unfold units. apply in_flat_map. exists c. split; [by apply list_elem_of_In|].
  apply in_map. by apply list_elem_of_In.
Qed.

(** The results a case is judged by are those of its own repeats. *)
Lemma of_name_units run suite results c r : NoDup (map ec_name (s_cases suite)) -> c ∈ s_cases suite ->
  res_map (run_unit run suite) (units suite) = Ok results ->
  r ∈ of_name (ec_name c) (zip (units suite) results) <->
  exists rep, rep ∈ range (s_repeats suite) /\ run c (session_of suite c rep) = Ok r.
Proof.
  intros Hu Hc Hres%res_map_Ok. unfold of_name. rewrite list_elem_of_In, in_map_iff. split.
  - intros ([[c' rep] r'] & <- & Hin). apply filter_In in Hin as [Hin Hn]. cbn in Hn. apply String.eqb_eq in Hn.
    apply list_elem_of_In, list_elem_of_lookup in Hin as [i Hi]. apply lookup_zip_Some in Hi as [Hi Hr].
    pose proof (Forall2_lookup_lr _ _ _ _ _ _ Hres Hi Hr) as Hrun. cbn in Hrun.
    apply list_elem_of_lookup_2, list_elem_of_In in Hi. unfold units in Hi. apply in_flat_map in Hi as (c'' & Hc'' & Hi).
    apply in_map_iff in Hi as (rep' & [= -> ->] & Hrep). exists rep. split; [by apply list_elem_of_In|].
    assert (c' = c) as ->; [|done]. apply list_elem_of_In in Hc''. apply list_elem_of_lookup in Hc as [i1 H1], Hc'' as [i2 H2].
    assert (i1 = i2) as ->; [|congruence]. eapply NoDup_lookup; [exact Hu | by rewrite list_lookup_fmap, H1 | rewrite list_lookup_fmap, H2; cbn; by rewrite Hn].
  - intros (rep & Hrep & Hrun).
    pose proof (units_in suite c rep Hc Hrep) as Hin. apply list_elem_of_lookup in Hin as [i Hi]. destruct (Forall2_lookup_l _ _ _ _ _ Hres Hi) as (r' & Hr' & Hrun').
    change (run c (session_of suite c rep) = Ok r') in Hrun'. assert (r' = r) as -> by congruence.
    exists ((c, rep), r). split; [done|]. apply filter_In. split; [|by apply String.eqb_refl].
    apply list_elem_of_In, (list_elem_of_lookup_2 _ i). apply lookup_zip_Some. done.
Qed.

Lemma count_true {A} (l : list A) : count_if (fun _ => true) l = Z.of_nat (length l).
Proof. unfold count_if. f_equal. by induction l as [|? ? IH]; [|cbn; f_equal]. Qed.

Lemma run_suite_totals run suite out : NoDup (map ec_name (s_cases suite)) -> run_suite run suite = Ok out ->
  exists results, res_map (run_unit run suite) (units suite) = Ok results /\ length results = length (units suite) /\
    sr_cases out = map (fun c => combine_repeats (ec_name c) (of_name (ec_name c) (zip (units suite) results))) (s_cases suite) /\
    sr_total out = Z.of_nat (length results) /\ sr_passed out = count_if er_success results /\ sr_errors out = count_if er_errored results.
Proof.
  intros Hunique Hout. destruct (run_suite_outcomes run suite out Hout) as (results & Hres & Hlen & Hcases). exists results.
  pose proof (suite_counts suite Hunique out results) as Hcount. split_and!; try done.
  - unfold sr_total. rewrite (Hcount (fun _ => true) co_runs Hlen Hcases); [apply count_true|]. intros id l.
    rewrite count_true. apply combine_counts.
  - apply (Hcount er_success co_passed_runs Hlen Hcases). intros. apply combine_counts.
  - apply (Hcount er_errored co_errored_runs Hlen Hcases). intros. apply combine_counts.
Qed.

(** The counts of a suite are those of its runs. *)
Definition counts_runs (run : EvalCase -> string -> res exn EvalResult) (suite : Suite) (out : SuiteResult) : Prop :=
  exists results, res_map (run_unit run suite) (units suite) = Ok results /\
    sr_passed out = count_if er_success results /\ sr_errors out = count_if er_errored results /\
    sr_failed out = count_if failed_run results.

Lemma suite_counted run suite out : exclusive run -> NoDup (map ec_name (s_cases suite)) -> run_suite run suite = Ok out ->
  sr_total out = Z.of_nat (length (s_cases suite) * Z.to_nat (s_repeats suite)) /\ counts_runs run suite out.
Proof.
  intros Hex Hunique Hout. destruct (run_suite_totals run suite out Hunique Hout) as (results & Hres & Hlen & _ & Htot & Hpass & Herr).
  split; [by rewrite Htot, Hlen, units_length|]. exists results. split_and!; try done. unfold sr_failed.
  rewrite Htot, Hpass, Herr, count_partition; [done|]. apply res_map_Ok in Hres. apply Forall_forall. intros r Hr.
  apply list_elem_of_lookup in Hr as [i Hi]. destruct (Forall2_lookup_r _ _ _ _ _ Hres Hi) as (u & _ & Hu). by eapply Hex.
Qed.

(** C16: the outcome of a suite counts every run once.  For distinct case names and
    runs of table cases: the total is the number of cases times the repeats; the
    passed, failed and errored counts are those of the individual runs and add up to
    the total; and a case is passed exactly when each of its repeats passed. *)
Theorem suite_counts_every_run {X} complete tool_executor elapsed stamp exc_str lower re_search json_message sorted_any runner model
    (run : EvalCase -> string -> res exn EvalResult) (suite : Suite) (out : SuiteResult)
    (Hrun : @runs_table_cases X complete tool_executor elapsed stamp exc_str lower re_search json_message sorted_any runner model run)
    (Hunique : NoDup (map ec_name (s_cases suite))) (Hout : run_suite run suite = Ok out) :
  sr_total out = Z.of_nat (length (s_cases suite) * Z.to_nat (s_repeats suite)) /\
  map co_id (sr_cases out) = map ec_name (s_cases suite) /\
  counts_runs run suite out /\
  Forall2 (fun c o => co_passed o = true <->
             forall rep, rep ∈ range (s_repeats suite) -> exists r, run c (session_of suite c rep) = Ok r /\ er_success r = true)
          (s_cases suite) (sr_cases out).
Proof.
  destruct (run_suite_totals run suite out Hunique Hout) as (results & Hres & Hlen & Hcases & _).
  destruct (suite_counted run suite out (table_cases_exclusive _ _ _ _ _ _ _ _ _ _ _ _ Hrun) Hunique Hout) as [Htot Hcounts].
  split; [done|]. split; [rewrite Hcases, map_map; apply map_ext; intros; apply combine_counts|]. split; [done|].
  rewrite Hcases. apply Forall2_fmap_r, Forall_Forall2_diag, Forall_forall. intros c Hc. unfold compose.
  destruct (combine_counts (ec_name c) (of_name (ec_name c) (zip (units suite) results))) as (_ & _ & _ & _ & ->).
  rewrite count_all, Forall_forall. split.
  - intros H rep Hrep.
    pose proof (units_in suite c rep Hc Hrep) as Hin. apply list_elem_of_lookup in Hin as [i Hi]. pose proof Hres as Hres'. apply res_map_Ok in Hres'.
    destruct (Forall2_lookup_l _ _ _ _ _ Hres' Hi) as (r & _ & Hr). exists r. split; [done|].
    apply H. eapply of_name_units; eauto.
  - intros H r Hr. eapply of_name_units in Hr as (rep & Hrep & Hr); [|done..]. destruct (H rep Hrep) as (r' & Hr' & Hs). congruence.
Qed.

(** A world of two runs: the first try of a case fails, the second passes. *)
Definition flaky_case : EvalCase := {|
  ec_name := "flaky"; ec_description := ""; ec_system_prompt := ""; ec_user_message := "say hello"; ec_tools := [];
  ec_expected_tool := None; ec_max_turns := 10; ec_expected_args := []; ec_required_arg_keys := []; ec_forbidden_arg_keys := [];
  ec_expect_no_tool_call := true; ec_forbidden_tools := []; ec_expect_deny := false;
  ec_content := {| contains_all := ["hello"]; contains_any := []; regex := []; not_contains := [] |}; ec_context := [];
  ec_allowed_tools := None |}.
Definition flaky_suite : Suite := {| s_name := "a.b"; s_kind := "agent"; s_path := ""; s_repeats := 2; s_cases := [flaky_case] |}.
Definition greets (model : string) (messages : list json) (tools : option (list json)) (kwargs : jdict) : eff bool exn ModelResult := fun b =>
  (Ok {| mr_content := Some (if b then "hello" else "bye"); mr_tool_calls := []; mr_finish_reason := JStr "stop"; mr_usage := JNull |}, b).
Definition flaky_runner : EvalRunner := {|
  rn_base_url := ""; rn_max_turns := 3; rn_backend := "vllm"; rn_timeout := 60; rn_max_tokens := 16; rn_temperature := JInt 0;
  rn_seed := None; rn_thinking := None; rn_top_p := None; rn_top_k := None |}.
Definition flaky_run (case : EvalCase) (session : string) : res exn EvalResult :=
  (run_table_case greets (fun _ _ b => (Ok "", b)) (fun _ _ => 5%Z) (fun _ => {| c_decision := DT 0 None; c_record := DT 0 None |})
     (fun _ => "") id (fun _ _ => Ok true) id Ok flaky_runner case "m" session (String.eqb session "a.b:flaky:1")).1.
Definition flaky_out : SuiteResult := {| sr_suite := "a.b"; sr_kind := "agent"; sr_cases := [
  {| co_id := "flaky"; co_passed := false; co_reason := "repeat 1/2: final text is missing required phrases: ['hello']"; co_errored := false;
     co_duration_ms := 10; co_runs := 2; co_passed_runs := 1; co_errored_runs := 0 |}] |}.

Lemma suite_counts_every_run_witness : run_suite flaky_run flaky_suite = Ok flaky_out /\ sr_total flaky_out = 2%Z /\ sr_passed flaky_out = 1%Z.
Proof.
  assert (H : run_suite flaky_run flaky_suite = Ok flaky_out) by by vm_compute.
  split; [exact H|]. split; [|done].
  refine (proj1 (suite_counts_every_run greets (fun _ _ b => (Ok "", b)) (fun _ _ => 5%Z)
    (fun _ => {| c_decision := DT 0 None; c_record := DT 0 None |}) (fun _ => "") id (fun _ _ => Ok true) id Ok flaky_runner "m"
    flaky_run flaky_suite flaky_out _ _ H)).
  - intros case session. by exists (String.eqb session "a.b:flaky:1").
  - repeat constructor. by apply not_elem_of_nil.
Defined.

(** The page compares the rounded rate with the threshold and the exit code the
    exact one: two of three runs pass a threshold of 0.6667 on the page only. *)
Definition two_of_three : SuiteResult := {| sr_suite := "a.b"; sr_kind := "agent"; sr_cases := [
  new_outcome "c" false "" false 0 3 2 0] |}.
Definition two_thirds : spec_float := float_of_dec false 6667 (-4).
Lemma page_and_exit_code_differ :
  (r ← bench_suite_of id two_of_three; Ok (suite_status r two_thirds)) = Ok "PASS" /\
  exit_code [two_of_three] two_thirds = Ok EXIT_BELOW_THRESHOLD.
Proof. split; by vm_compute. Qed.
