(* ===== verification/WikiTools.v ===== *)
(** * The memory client's life, its tools for LangGraph, and an agent over them

    - [Session]: the constructor of [WikiMemory] in [memory/client.py], with the
      process it spawns, and its use in a [with] statement;
    - [LangGraph]: the callables of [memory/langgraph.py];
    - [Dogfood]: [examples/wiki_memory_dogfood.py].

    Parameters: the memory core and pgmpy, as in [Memory.v]; [popen], what spawning
    a command raises; and whether waiting for the core's end times out. *)
From Stdlib Require Import ZArith Lia Ascii String SpecFloat Sorting.Sorted.
From stdpp Require Import base tactics list strings.
From S2P Require Import Prelude PyStr PyFloat Json JsonFacts Types LintTools PyLines JsonLines EvalTable Memory.
Import Client.

Module Session.

(** The client, and what was done to processes: commands spawned and the
    operations of [close]. *)
Inductive process_event := Spawned (command : list string) | Done (o : process_op).
Record World := { client : WikiMemory; log : list process_event }.
Definition new_world : World := {| client := spawned; log := [] |}.

Section Session.
Context (poll : list string -> option Z) (write_error : list string -> option exn)
  (readline stderr : list string -> string) (popen : list string -> option exn) (times_out : list string -> bool)
  (exc_str : exn -> string).

Definition on_client {A} (m : op A) : eff World exn A := eff_zoom client (fun c w => {| client := c; log := log w |}) m.
Definition record (es : list process_event) : eff World exn unit := eff_modify (fun w => {| client := client w; log := log w ++ es |}).

Definition init (user_id root : string) (tbox_paths : list string) (memctl_path environ_memctl : option string) (session_id : string)
  : eff World exn unit :=
  command ← eff_lift (server_command user_id root tbox_paths memctl_path environ_memctl session_id);
  match popen command with
  | Some e =>
      if bool_decide (exn_cls e = OSError)
      then eff_raise (MemoryServerError (str_join ["failed to spawn "; default "" (head command); ": "; exc_str e]))
      else eff_raise e
  | None => _ ← record [Spawned command]; on_client (handshake poll write_error readline stderr)
  end.

Definition close_now : eff World exn unit := fun w =>
  record (map Done (close (poll (sent (client w))) (times_out (sent (client w))))) w.

(** [__exit__], and [with WikiMemory(...) as memory: body]. *)
Definition closing {A} (body : eff World exn A) : eff World exn A := fun w =>
  let '(r, w1) := body w in
  match close_now w1 with (Ok _, w2) => (r, w2) | (Raise e, w2) => (Raise e, w2) end.
Definition with_memory {A} (construct : eff World exn unit) (body : eff World exn A) : eff World exn A :=
  _ ← construct; closing body.

(** ** What the constructor leaves *)

Lemma handshake_log w : log (snd (on_client (handshake poll write_error readline stderr) w)) = log w.
Proof. unfold on_client, eff_zoom. by destruct (handshake _ _ _ _ (client w)). Qed.

(** The constructor spawns at most one process, and raises after it spawned one
    only when the core did not answer the handshake: then nothing closes it. *)
Lemma init_spawns user root tboxes path environ session w r w' :
  init user root tboxes path environ session w = (r, w') ->
  (log w' = log w /\ is_ok r = false) \/
  (exists command, server_command user root tboxes path environ session = Ok command /\ log w' = log w ++ [Spawned command] /\
     (is_ok r = false -> is_ok (fst (handshake poll write_error readline stderr (client w))) = false)).
Proof.
  unfold init, mbind, eff_bind, eff_lift. destruct (server_command _ _ _ _ _ _) as [command|e]; [|intros [= <- <-]; by left].
  destruct (popen command) as [e|]; [destruct (bool_decide _); intros [= <- <-]; by left|].
  cbn [record eff_modify]. intros H. right. exists command. split; [done|].
  pose proof (handshake_log {| client := client w; log := log w ++ [Spawned command] |}) as Hl.
  unfold record, eff_modify in H. rewrite H in Hl. split; [exact Hl|].
  unfold on_client, eff_zoom in H. cbn [client] in H. destruct (handshake _ _ _ _ (client w)) as [r0 c]. injection H as <- _. done.
Qed.

(** A core that the constructor accepted is closed, however the body ends; it is
    killed exactly when it still runs and waiting for it times out. *)
Lemma with_closes {A} construct (body : eff World exn A) w w1 : construct w = (Ok tt, w1) ->
  with_memory construct body w =
    (fst (body w1), {| client := client (snd (body w1));
       log := log (snd (body w1)) ++ map Done (close (poll (sent (client (snd (body w1))))) (times_out (sent (client (snd (body w1)))))) |}).
Proof. intros Hc. unfold with_memory, closing, mbind, eff_bind. rewrite Hc. by destruct (body w1). Qed.
Lemma killed_when_late code late : Kill ∈ close code late <-> code = None /\ late = true.
Proof. destruct code as [z|], late; cbn; set_solver. Qed.
End Session.

(** ** The numbers of the requests *)

Section Numbers.
Context (poll : list string -> option Z) (write_error : list string -> option exn) (readline stderr : list string -> string).
Abbreviation _request := (_request poll write_error readline stderr).
Abbreviation _notify := (_notify poll write_error stderr).

Definition line (m : jdict) : string := json_dumps default_style (JObj m).
Lemma die_sent {A} w r (w' : WikiMemory) : die (A := A) poll stderr w = (r, w') -> sent w' = sent w /\ _next_id w' = _next_id w.
Proof. unfold die, mbind, eff_bind, _death_reason, eff_raise. by intros [= <- <-]. Qed.
Lemma send_sent m w r w' : _send poll write_error stderr m w = (r, w') ->
  _next_id w' = _next_id w /\ (sent w' = sent w \/ sent w' = sent w ++ [line m]).
Proof.
  unfold _send. destruct (poll (sent w)) as [z|]; [intros [-> ->]%die_sent; auto|].
  destruct (write_error _) as [e|]; intros [= <- <-]; auto.
Qed.

(** A request takes the next number, and writes at most one line, which carries
    it. *)
Lemma request_sent method params w r w' : _request method params w = (r, w') ->
  _next_id w' = (_next_id w + 1)%Z /\
  (sent w' = sent w \/ sent w' = sent w ++ [line (request (_next_id w + 1) method params)]).
Proof.
  unfold Client._request, mbind, eff_bind, eff_modify, eff_get. destruct (_send _ _ _ _ _) as [[u|e] w1] eqn:Hs;
    apply send_sent in Hs as [Hi Hs]; cbn [_next_id sent] in Hi, Hs; [|intros [= <- <-]; auto].
  destruct (negb _); [intros [-> ->]%die_sent; auto|].
  destruct (json_loads _); unfold eff_lift, eff_raise; intros [= <- <-]; auto.
Qed.

(** The messages of the lines written: numbered requests and notifications. *)
Definition text_of (m : Z * string * jdict + string) : string :=
  line match m with inl (id, method, params) => request id method params | inr method => notification method end.
Definition number_of (m : Z * string * jdict + string) : option Z := match m with inl (id, _, _) => Some id | inr _ => None end.
Definition numbered (w : WikiMemory) : Prop :=
  exists ms, sent w = map text_of ms /\ StronglySorted Z.lt (omap number_of ms) /\ Forall (fun id => (0 < id <= _next_id w)%Z) (omap number_of ms).

Inductive talks (w w' : WikiMemory) : Prop :=
| asks method params r : _request method params w = (r, w') -> talks w w'
| notifies method r : _notify method w = (r, w') -> talks w w'.

(** Whatever is asked, and whatever fails, the requests on the wire carry rising
    numbers: a number is used once, and one that failed is not used again. *)
Lemma requests_are_numbered w : steps talks spawned w -> numbered w /\ (0 <= _next_id w)%Z.
Proof.
  intros Hs. revert Hs. apply (steps_invariant talks (fun w => numbered w /\ (0 <= _next_id w)%Z)).
  - clear. intros w w' [(ms & Hm & Hsorted & Hall) H0] Ht.
    destruct Ht as [method params r Ht|method r Ht].
    + apply request_sent in Ht as [Hi Hsent]. split; [unfold numbered|lia].
      assert (Hall' : Forall (fun id => (0 < id <= _next_id w')%Z) (omap number_of ms)) by (eapply Forall_impl; [exact Hall | cbn; lia]).
      destruct Hsent as [-> | ->]; [by exists ms|].
      exists (ms ++ [inl ((_next_id w + 1)%Z, method, params)]). rewrite map_app, Hm, omap_app. split; [done|]. cbn [omap list_omap number_of]. split.
      * clear Hm Hall' Hi. induction Hsorted as [|id ids Hs IH Hlt]; cbn; [repeat constructor|]. apply Forall_cons in Hall as [Hid Hall].
        constructor; [by apply IH|]. apply Forall_app. split; [done|]. repeat constructor. lia.
      * apply Forall_app. split; [done|]. repeat constructor; lia.
    + apply send_sent in Ht as [Hi Hsent]. rewrite Hi. split; [|done]. unfold numbered. rewrite Hi. destruct Hsent as [-> | ->]; [by exists ms|].
      exists (ms ++ [inr method]). rewrite map_app, Hm, omap_app. cbn. by rewrite app_nil_r.
  - split; [|cbn; lia]. exists []. repeat constructor.
Qed.
End Numbers.
End Session.

(** ** [LangGraphMemoryTools.tools] *)

Module LangGraph.
Section Tools.
Context (poll : list string -> option Z) (write_error : list string -> option exn) (readline stderr : list string -> string).

Definition rendered (m : op (json * bool * string)) : op string := result ← m; mret (_render result).
Definition memory_ingest (source_id text : string) := rendered (ingest poll write_error readline stderr source_id text).
Definition memory_write_page (content : string) := rendered (write_page poll write_error readline stderr content).
Definition memory_query (question : string) := rendered (query poll write_error readline stderr question).
Definition memory_get_claims (page_id : string) :=
  rendered (get_claims poll write_error readline stderr (if py_truthy_str page_id then Some page_id else None)).
Definition memory_lint := rendered (lint poll write_error readline stderr).
Definition tools : list string := ["memory_ingest"; "memory_write_page"; "memory_query"; "memory_get_claims"; "memory_lint"].
End Tools.

(** The callables carry the names the core serves its tools under. *)
Example tool_names : tools = MEMORY_TOOLS.
Proof. reflexivity. Qed.
End LangGraph.

(** ** The agent of [wiki_memory_dogfood.py] *)

Module Dogfood.

Definition AssertionError (message : string) : exn := Exn (UserError "AssertionError") message.
Definition TBOX_NAMES : list string := ["ontologies/education/TBOX_LEARNING_SOFTWARE.ttl"; "ontologies/social/twitch_topics.ttl"].
Definition TBOX_PATHS (repo_root : string) : list string := map (fun name => str_join [repo_root; "/"; name]) TBOX_NAMES.
Definition SOURCES : list (string * string) :=
  [("src-pprof-talk", "Talk transcript: bounded worker pools cap goroutine counts under load.");
   ("src-go-blog-pipelines", "Go blog: pipelines and cancellation; worker pools bound concurrency.");
   ("src-team-runbook", "Team runbook: use worker pools; goroutine leaks page the on-call.");
   ("src-hn-comment", "Comment: goroutine leaks are harmless, the runtime cleans them up eventually.")].

(** [v not in (None, [], False)]: by equality, so that zero is left out as well. *)
Definition kept (v : json) : bool := negb (existsb (py_eq v) [JNull; JArr []; JBool false]).
Definition entry (c : jdict) : jdict :=
  let entry := List.filter (fun kv => negb (String.eqb kv.1 "page") && kept kv.2) c in
  if dmem entry "confidence" then entry else dset entry "confidence" (jget c "confidence").
Definition claim_line (c : jdict) : string := String.append "  - " (json_dumps default_style (JObj (entry c))).
Definition page_head : list string :=
  ["---"; "id: go-worker-pools"; "type: sw:Skill"; str_join ["labels: ["; dquote; "Worker Pools"; dquote; "]"]; "topics: [twitch:Go]"; "claims:"].
Definition page_foot : list string :=
  ["sources: [src-pprof-talk, src-go-blog-pipelines, src-team-runbook]"; "---"; "";
   "Worker pools bound concurrency. They build on [[goroutines]]."; ""].
Definition page_markdown (claims : list jdict) : string := String.concat nl (page_head ++ map claim_line claims ++ page_foot).

Definition strs (l : list string) : json := JArr (map JStr l).
Definition INITIAL_CLAIMS : list jdict :=
  [[("id", JStr "c1"); ("text", JStr "Bounded worker pools prevent goroutine leaks under load");
    ("sources", strs ["src-pprof-talk"; "src-team-runbook"]); ("confidence", JNull)];
   [("id", JStr "c2"); ("text", JStr "Worker pools bound concurrency"); ("sources", strs ["src-go-blog-pipelines"]);
    ("supports", strs ["c1"]); ("confidence", JNull)];
   [("id", JStr "c3"); ("text", JStr "Goroutine leaks are harmless in practice"); ("sources", strs ["src-hn-comment"]);
    ("contradicts", strs ["c1"]); ("confidence", JNull)]].
Definition reliability : jdict :=
  map (fun s => (s, Infer.float_const 9 (-1))) ["src-pprof-talk"; "src-go-blog-pipelines"; "src-team-runbook"].
Definition wrong_page : string := py_replace "topics: [twitch:Go]" "topics: [twitch:Golang]" (page_markdown (take 2 INITIAL_CLAIMS)).

(** [s.rsplit("/", 1)[-1]] of an untyped value, and [list(v)] of objects. *)
Definition last_part (v : json) : res exn string :=
  match v with JStr s => Ok (default "" (last (py_split "/" s))) | _ => attr_error "object has no attribute 'rsplit'" end.
Definition claim_dict (v : json) : res exn jdict := match v with JObj d => Ok d | _ => Raise (Exn TypeError "a claim is not an object") end.
Definition claims_of (v : json) : res exn (list jdict) := l ← py_iter v; res_map claim_dict l.

(** [violations[0].nearest[0]] without its path. *)
Definition nearest_term (violations : list DiagnosticViolation) : res exn (json * string) :=
  v ← of_option (Exn IndexError "list index out of range") (head violations);
  first ← any_first (dv_nearest v);
  name ← last_part first;
  Ok (dv_constraint v, name).

Section Run.
Context (poll : list string -> option Z) (write_error : list string -> option exn) (readline stderr : list string -> string)
  (sorted_any : list json -> res exn (list json)) (infer : json -> res exn Infer.response).
Abbreviation memory_ingest := (LangGraph.memory_ingest poll write_error readline stderr).
Abbreviation memory_write_page := (LangGraph.memory_write_page poll write_error readline stderr).
Abbreviation get_claims := (get_claims poll write_error readline stderr).
Abbreviation execute := (execute poll write_error readline stderr).

Definition check (b : bool) (message : string) : op unit := eff_lift (guard_or b (AssertionError message)).
Definition ingest_source (s : string * string) : op unit :=
  out ← memory_ingest (fst s) (snd s); check (py_startswith "ingested" out) out.
Fixpoint ingest_all (l : list (string * string)) : op unit :=
  match l with [] => mret tt | s :: l' => _ ← ingest_source s; ingest_all l' end.
Definition write_or_fail (page : string) : op unit :=
  out ← memory_write_page page; check (String.eqb out "wrote go-worker-pools") out.

(** The term that the ontology refuses, and the entry of [deny_log]. *)
Definition denied_then_corrected : op json :=
  out ← memory_write_page wrong_page;
  _ ← check (py_startswith "DENIED:" out) "expected the ontology to deny twitch:Golang";
  violations ← eff_lift (parse_diagnostics out);
  found ← eff_lift (nearest_term violations);
  let term := String.append "twitch:" (snd found) in
  _ ← write_or_fail (py_replace "twitch:Golang" term wrong_page);
  mret (JObj [("attempt", JStr "twitch:Golang"); ("constraint", fst found); ("corrected_to", JStr term)]).

Definition inferred (claims : list jdict) : res exn Infer.response :=
  request ← Confidence.build_inference_request sorted_any claims [] reliability []; infer (JObj request).
(** [[c for c in claims if c["id"] != id]] *)
Fixpoint without_id (id : string) (claims : list jdict) : res exn (list jdict) :=
  match claims with
  | [] => Ok []
  | c :: claims' =>
      v ← of_option (Exn KeyError "id") (dget c "id");
      rest ← without_id id claims';
      Ok (if py_eq v (JStr id) then rest else c :: rest)
  end.
Definition response_dict (r : Infer.response) : jdict := match Infer.response_json r with JObj d => d | _ => [] end.

(** The text of a tool's answer, read as JSON. *)
Definition asked (tool : string) (args : jdict) : op json :=
  r ← execute tool args;
  let '(text, ok, err) := r in
  _ ← check ok err;
  match text with
  | JStr t => eff_lift (of_option (Exn JSONDecodeError t) (json_loads t))
  | _ => eff_raise (Exn TypeError "the JSON object must be str, bytes or bytearray")
  end.
Definition ids (v : json) : res exn (list json) := l ← py_iter v; res_map (fun c => any_item c "id") l.
(** A comprehension over the claims, keyed by their ids. *)
Definition written (c : jdict) : res exn (string * json) :=
  id ← of_option (Exn KeyError "id") (dget c "id");
  confidence ← of_option (Exn KeyError "confidence") (dget c "confidence");
  Ok (py_str id, JObj [("confidence", confidence); ("contested", jget_or c "contested" (JBool false))]).

Record Found := {
  f_deny : json; f_baseline : Infer.response; f_response : Infer.response; f_final : json; f_contested : json; f_low : json }.

Definition session : op Found :=
  _ ← ingest_all (take 3 SOURCES);
  deny ← denied_then_corrected;
  _ ← ingest_all (drop 3 SOURCES);
  _ ← write_or_fail (page_markdown INITIAL_CLAIMS);
  listed ← get_claims None;
  claims ← eff_lift (claims_of (fst (fst listed)));
  others ← eff_lift (without_id "c3" claims);
  baseline ← eff_lift (inferred others);
  response ← eff_lift (inferred claims);
  merged ← eff_lift (Confidence.merge_confidence claims (response_dict response));
  _ ← write_or_fail (page_markdown merged);
  final ← get_claims (Some "go-worker-pools");
  contested ← asked "memory_query" [("kind", JStr "contested_claims")];
  low ← asked "memory_query" [("kind", JStr "low_confidence"); ("threshold", Infer.float_const 6 (-1))];
  mret {| f_deny := deny; f_baseline := baseline; f_response := response; f_final := fst (fst final); f_contested := contested; f_low := low |}.

Definition report (f : Found) : res exn jdict :=
  let c1 := py_str (Confidence.claim_node_id (JStr "go-worker-pools") (JStr "c1")) in
  let c3 := py_str (Confidence.claim_node_id (JStr "go-worker-pools") (JStr "c3")) in
  let part r k id := v ← any_item (JObj (response_dict r)) k; any_item v id in
  baseline ← part (f_baseline f) "marginals" c1;
  final1 ← part (f_response f) "marginals" c1;
  final3 ← part (f_response f) "marginals" c3;
  contested1 ← part (f_response f) "contested" c1;
  contested3 ← part (f_response f) "contested" c3;
  claims ← claims_of (f_final f);
  back ← res_map written claims;
  contested ← ids (f_contested f);
  low ← ids (f_low f);
  Ok [("deny_log", JArr [f_deny f]); ("baseline_c1", baseline); ("final_c1", final1); ("final_c3", final3);
      ("contested_c1", contested1); ("contested_c3", contested3); ("written_back", JObj (dmerge [] back));
      ("contested_query", JArr contested); ("low_confidence_query", JArr low); ("method", JStr (Infer.rs_method (f_response f)))].

Context (popen : list string -> option exn) (times_out : list string -> bool) (exc_str : exn -> string).
Definition run (repo_root : string) (environ_memctl : option string) (root : string) : eff Session.World exn jdict :=
  found ← Session.with_memory poll times_out
            (Session.init poll write_error readline stderr popen exc_str "soypete" root (TBOX_PATHS repo_root) None environ_memctl "dogfood")
            (Session.on_client session);
  eff_lift (report found).

(** What [main] prints of a report: the numbers are floats when they come from
    inference. *)
Definition main_lines (r : jdict) : res exn (list string) :=
  match jget r "baseline_c1", jget r "final_c1" with
  | JFloat b, JFloat f =>
      deny ← any_length (jget r "deny_log");
      Ok [json_dumps (indented 2) (JObj r);
          str_join [nl; "c1 confidence dropped "; format_fixed 3 b; " -> "; format_fixed 3 f; " (Δ "; format_fixed 3 (SFsub f_prec f_emax b f);
                    "); contested="; py_str (jget r "contested_c1")];
          String.append "deny→retry cycles: " (int_str deny)]
  | _, _ => Raise (Exn TypeError "unsupported format")
  end.
End Run.

(** *** The page *)

Lemma page_lines claims : page_markdown claims = lines_text (page_head ++ map claim_line claims ++ take 4 page_foot).
Proof.
  unfold page_markdown. change page_foot with (take 4 page_foot ++ [""]) at 1. rewrite !app_assoc.
  generalize ((page_head ++ map claim_line claims) ++ take 4 page_foot). intros l.
  induction l as [|x l IH]; [done|]. unfold lines_text in *. cbn [map str_join app]. rewrite <- IH, str_app_assoc.
  by destruct l.
Qed.

Lemma dget_filter_kept (p : string * json -> bool) c k : dict_ok c ->
  dget (List.filter p c) k = match dget c k with Some v => if p (k, v) then Some v else None | None => None end.
Proof.
  intros Hc. induction c as [|[k' v'] c IH]; [done|]. apply NoDup_cons in Hc as [Hk Hc]. specialize (IH Hc).
  cbn [List.filter dget]. destruct (String.eqb_spec k k') as [->|Hne].
  - destruct (p (k', v')); cbn [dget]; [by rewrite String.eqb_refl|]. rewrite IH. apply dget_None in Hk. cbn [fst] in Hk. by rewrite Hk.
  - destruct (p (k', v')); cbn [dget]; [|done]. by rewrite (proj2 (String.eqb_neq _ _) Hne).
Qed.
Lemma dict_ok_filter (p : string * json -> bool) c : dict_ok c -> dict_ok (List.filter p c).
Proof.
  unfold dict_ok, dkeys. induction c as [|kv c IH]; [done|]. cbn [map List.filter]. intros [Hk Hc]%NoDup_cons.
  destruct (p kv); [|auto]. cbn [map]. apply NoDup_cons. split; [|auto]. intros Hin. apply Hk.
  apply list_elem_of_fmap in Hin as (kv' & -> & Hin). apply list_elem_of_fmap. exists kv'. split; [done|].
  apply list_elem_of_In, filter_In in Hin as [Hin _]. by apply list_elem_of_In.
Qed.

(** What an entry says of a claim: never its page, always its confidence, and of
    the rest what is not empty. *)
Lemma dget_entry c k : dict_ok c ->
  dget (entry c) k =
    if String.eqb k "confidence" then Some (jget c "confidence")
    else if String.eqb k "page" then None
    else match dget c k with Some v => if kept v then Some v else None | None => None end.
Proof.
  intros Hc. unfold entry. pose proof (dget_filter_kept (fun kv => negb (String.eqb kv.1 "page") && kept kv.2) c k Hc) as Hk.
  pose proof (dget_filter_kept (fun kv => negb (String.eqb kv.1 "page") && kept kv.2) c "confidence" Hc) as Hconf. cbn [fst snd] in Hk, Hconf.
  change (String.eqb "confidence" "page") with false in Hconf. cbn [negb andb] in Hconf.
  unfold dmem. case_bool_decide as Hm.
  - destruct (String.eqb_spec k "confidence") as [->|Hne].
    + rewrite Hconf in Hm |- *. unfold jget. destruct (dget c "confidence") as [v|]; [|by destruct Hm]. destruct (kept v); [done | by destruct Hm].
    + rewrite Hk. destruct (dget c k) as [v|]; [|by destruct (String.eqb k "page")]. by destruct (String.eqb k "page").
  - rewrite dget_dset. destruct (String.eqb k "confidence"); [done|]. rewrite Hk.
    destruct (dget c k) as [v|]; [|by destruct (String.eqb k "page")]. by destruct (String.eqb k "page").
Qed.
Lemma entry_json_ok c : json_ok (JObj c) = true -> json_ok (JObj (entry c)) = true.
Proof.
  cbn [json_ok]. rewrite !andb_true_iff, !bool_decide_eq_true, !forallb_forall. intros [Hnd Hall].
  assert (Hf : forall p kv, In kv (List.filter p c) -> utf8_ok kv.1 && json_ok kv.2 = true) by (intros p kv [Hin _]%filter_In; auto).
  unfold entry. destruct (dmem _ _); (split; [|]); [by apply dict_ok_filter | apply Hf | by apply dict_ok_dset, dict_ok_filter|].
  intros kv Hin. apply dset_In in Hin as [Hin| ->]; [by eapply Hf|]. cbn [fst snd]. unfold jget.
  destruct (dget c "confidence") as [v|] eqn:Hv; [|done]. apply dget_In, list_elem_of_In, Hall in Hv. cbn [fst snd] in Hv. apply andb_true_iff in Hv as [_ Hv]. cbn [default from_option id]. by rewrite Hv.
Qed.

(** A page is read back line by line: between its head and its foot each claim
    has a line, and the JSON text after the dash is the claim's entry. *)
Lemma page_reads_back claims : Forall (fun c => json_ok (JObj c) = true) claims ->
  splitlines (page_markdown claims) = page_head ++ map claim_line claims ++ take 4 page_foot /\
  Forall (fun c => json_loads (str_drop 4 (claim_line c)) = Some (JObj (entry c))) claims.
Proof.
  intros Hc. rewrite page_lines. split.
  - apply splitlines_lines. repeat (apply Forall_app; split); [by repeat constructor | | by repeat constructor].
    apply Forall_fmap. eapply Forall_impl; [exact Hc|]. intros c Hok. unfold claim_line. apply visible_app; [done|]. by apply (dumps_visible (JObj (entry c)) 0), entry_json_ok.
  - eapply Forall_impl; [exact Hc|]. intros c Hok. unfold claim_line. rewrite (str_drop_app "  - "). apply loads_dumps; [auto with py | by apply entry_json_ok].
Qed.

(** *** A run

    Over a core that answers as the vault would: the page with the unknown topic
    is denied with the nearest term, and the claims come back with their page. *)
Definition answer (failed : bool) (text : string) : string :=
  json_dumps default_style (JObj [("result", JObj [("isError", JBool failed); ("content", JArr [JObj [("type", JStr "text"); ("text", JStr text)]])])]).
Definition ex_listed : list jdict := map (fun c => ("page", JStr "go-worker-pools") :: c) INITIAL_CLAIMS.
Definition ex_denial : string :=
  jq "denied; diagnostics: [{'constraint':'topic','term':'twitch:Golang','message':'unknown','nearest':['http://kei/topics/Go']}]".
Definition dumped (l : list jdict) : string := json_dumps default_style (JArr (map JObj l)).
Definition ex_readline (sent : list string) : string :=
  match length sent with
  | 1 => jq "{'result':{}}"
  | 6 => answer true ex_denial
  | 7 | 9 | 11 => answer false "wrote go-worker-pools"
  | 10 => answer false (dumped ex_listed)
  | 12 => answer false (dumped (map (fun c => dset c "confidence" (JInt 1)) ex_listed))
  | 13 => answer false (dumped (take 1 ex_listed))
  | 14 => answer false "[]"
  | _ => answer false "ingested"
  end.
(** Belief in a claim falls when [c3] is there to contradict it. *)
Definition ex_belief (m : Infer.markov) (_ : json) : res exn spec_float :=
  Ok (float_of_dec false (if existsb (py_eq (JStr "go-worker-pools#c3")) (Infer.mn_nodes m) then 65 else 9) (if existsb (py_eq (JStr "go-worker-pools#c3")) (Infer.mn_nodes m) then -2 else -1)).
Definition ex_infer : json -> res exn Infer.response :=
  Infer.infer (fun s => Raise (Exn ValueError s)) (fun _ => Ok tt) ex_belief (fun _ _ _ => Raise (Exn ValueError "no sample")) (fun f => f).
Definition ex_run : res exn jdict * Session.World :=
  run (fun _ => None) (fun _ => None) ex_readline (fun _ => "") (fun _ => Raise (Exn TypeError "unsorted")) ex_infer (fun _ => None) (fun _ => false) exn_msg
    "/repo" None "/tmp/memory" Session.new_world.

Definition ex_deny_log : json :=
  JArr [JObj [("attempt", JStr "twitch:Golang"); ("constraint", JStr "topic"); ("corrected_to", JStr "twitch:Go")]].
Example dogfood_runs :
  (r ← fst ex_run; Ok (jget r "deny_log", jget r "contested_query", jget r "contested_c1")) = Ok (ex_deny_log, JArr [JStr "c1"], JBool true) /\
  (r ← fst ex_run; lines ← main_lines r; Ok (drop 1 lines))
  = Ok [String.append nl "c1 confidence dropped 0.900 -> 0.650 (Δ 0.250); contested=True"; "deny→retry cycles: 1"] /\
  Session.log (snd ex_run) =
    [Session.Spawned (["memctl"; "serve"; "-root"; "/tmp/memory"; "-user"; "soypete"; "-session"; "dogfood"; "-tbox";
       "/repo/ontologies/education/TBOX_LEARNING_SOFTWARE.ttl"; "-tbox"; "/repo/ontologies/social/twitch_topics.ttl"]);
     Session.Done CloseStdin; Session.Done (Wait 5)] /\
  length (sent (Session.client (snd ex_run))) = 14.
Proof. split_and!; vm_compute; reflexivity. Qed.

(** The corrected page is the page itself. *)
Example correction_restores_the_page : py_replace "twitch:Golang" "twitch:Go" wrong_page = page_markdown (take 2 INITIAL_CLAIMS).
Proof. vm_compute. reflexivity. Qed.

(** A claim of confidence 0 keeps it, though zero counts as empty; an empty text
    does not go. *)
Example zero_confidence_is_kept :
  entry [("page", JStr "p"); ("confidence", JInt 0); ("contested", JBool false); ("text", JStr ""); ("sources", JArr [])]
  = [("text", JStr ""); ("confidence", JInt 0)].
Proof. reflexivity. Qed.
End Dogfood.
