(* ===== verification/EvalMain.v ===== *)
(** * The command line of the evaluations

    [evals/main.py]: [run_suites], which loads suites and a profile, runs every
    case, writes the benchmark and decides the exit code, and the run of the
    built-in cases.

    Parameters: the arguments as [argparse] delivers them; the environment; [load]
    and [resolve], [load_suites] and [resolve_profile] on the file system;
    [preflight] and [run], the endpoint; the clock and [git].  Printing is left out;
    the file of transcripts is in [EvalTranscripts.v]. *)
From Stdlib Require Import ZArith Lia Ascii String SpecFloat.
From stdpp Require Import base tactics list strings.
From S2P Require Import Prelude PyStr PyFloat Json Types Regex EvalCase EvalCases EvalExecutors EvalRunner EvalSuite EvalProfiles EvalTable.

Record arguments := {
  a_suite : list string; a_model_profile : string; a_profiles : option string; a_out : string; a_threshold : spec_float; a_jobs : Z;
  a_timeout : Z; a_repeats : option Z; a_case : list string; a_max_tokens : Z; a_max_turns : Z }.

(** What [except (SuiteValidationError, ProfileError, ValueError)] catches. *)
Definition blocks_run (c : exn_class) : bool :=
  match c with
  | ValueError | JSONDecodeError => true
  | UserError n => str_in n ["SuiteValidationError"; "ProfileError"; "UnicodeDecodeError"]
  | _ => false
  end.
Definition is_unavailable (c : exn_class) : bool := bool_decide (c = UserError "EndpointUnavailableError").

(** How a run ends: blocked, or with the results, the benchmark and its files. *)
Inductive ending :=
| Blocked (message : string)
| Scored (jobs : Z) (results : list SuiteResult) (bench : benchmark) (files : dict string) (code : Z).
Definition exit_of (e : ending) : Z := match e with Blocked _ => EXIT_UNAVAILABLE | Scored _ _ _ _ code => code end.

Definition runner_for (args : arguments) (p : ModelProfile) (url : string) : EvalRunner := {|
  rn_base_url := url; rn_max_turns := a_max_turns args; rn_backend := backend_value (p_backend p); rn_timeout := a_timeout args;
  rn_max_tokens := a_max_tokens args; rn_temperature := JFloat (p_temperature p); rn_seed := p_seed p; rn_thinking := p_thinking p;
  rn_top_p := JFloat <$> p_top_p p; rn_top_k := p_top_k p |}.

(** [transcript_writer]: the line of one run. *)
Definition transcript_line (word_char digit_char : string -> bool) (secrets : list string) (suite : Suite) (case : EvalCase) (rep : Z) (r : EvalResult) : string :=
  scrub word_char digit_char
    (json_dumps default_style
       (JObj [("suite", JStr (s_name suite)); ("case", JStr (ec_name case)); ("repeat", JInt rep); ("passed", JBool (er_success r));
              ("errored", JBool (er_errored r)); ("reason", JStr (er_error r)); ("turns", JInt (er_turns r));
              ("tool_calls", JArr (er_tool_calls r)); ("final_text", JStr (er_final_text r))])) secrets.

Section Main.
Context (env : dict string) (default_profiles : string) (load : string -> res exn (list Suite))
  (resolve : string -> string -> res exn ModelProfile) (preflight : EvalRunner -> string -> res exn unit)
  (run : EvalRunner -> string -> EvalCase -> string -> res exn EvalResult).
Context (word_char digit_char : string -> bool) (sha created_at : string).

Definition select (args : arguments) (suites : list Suite) : res exn (list Suite) :=
  match a_case args with [] => Ok suites | ids => select_cases suites ids end.
Definition override_repeats (args : arguments) (suites : list Suite) : res exn (list Suite) :=
  match a_repeats args with
  | Some n => if (n <? 1)%Z then Raise (Exn ValueError "--repeats must be a positive integer") else Ok (map (fun s => set_repeats s n) suites)
  | None => Ok suites
  end.

(** What the [try] block computes. *)
Definition prepare (args : arguments) : res exn (list Suite * ModelProfile * string) :=
  loaded ← res_map load (a_suite args);
  suites ← select args (concat loaded);
  suites ← override_repeats args suites;
  profile ← resolve (default default_profiles (a_profiles args)) (a_model_profile args);
  url ← base_url profile env;
  Ok (suites, profile, url).

Definition unreachable (p : ModelProfile) : string :=
  str_join ["profile "; py_repr (p_name p); " ("; p_model p; ") is not reachable at $"; p_base_url_env p; " via the ";
            backend_value (p_backend p); " backend"].
Definition capped_jobs (args : arguments) (p : ModelProfile) : Z := Z.max 1 (Z.min (a_jobs args) (p_concurrency p)).

Definition run_suites (args : arguments) : res exn ending :=
  if negb (py_truthy_str (a_out args)) then Ok (Blocked "--out <dir> is required with --suite")
  else
    match prepare args with
    | Raise e => if blocks_run (exn_cls e) then Ok (Blocked (exn_msg e)) else Raise e
    | Ok (suites, profile, url) =>
        let runner := runner_for args profile url in
        match preflight runner (p_model profile) with
        | Raise e => if is_unavailable (exn_cls e) then Ok (Blocked (unreachable profile)) else Raise e
        | Ok _ =>
            results ← res_map (run_suite (run runner (p_model profile))) suites;
            bench ← build_benchmark word_char digit_char results (p_name profile) (p_model profile) sha created_at [url];
            files ← write_benchmark bench (a_threshold args);
            code ← exit_code results (a_threshold args);
            Ok (Scored (capped_jobs args profile) results bench files code)
        end
    end.

Definition main_suites (args : arguments) : res exn ending :=
  if py_truthy_str (a_model_profile args) then run_suites args else Ok (Blocked "--model-profile is required with --suite").
End Main.

(** ** The built-in cases *)

Record legacy_flags := { f_file_search : bool; f_general : bool; f_github : bool; f_calendar : bool; f_beta_tools : bool }.
Definition chosen_cases (f : legacy_flags) : list EvalCase * string :=
  if f_file_search f then (FILE_SEARCH_CASES, "file_search_results.json")
  else if f_general f then (GENERAL_CASES, "general_results.json")
  else if f_github f then (GITHUB_CASES, "github_results.json")
  else if f_calendar f then (CALENDAR_CASES, "calendar_results.json")
  else if f_beta_tools f then (BETA_TOOL_CASES, "beta_tools_results.json")
  else (ALL_CASES, "results.json").
Definition models_of (text : string) : list string :=
  List.filter py_truthy_str (map py_strip (py_split "," text)).

(** The report and its file, or the exit code of an endpoint that is not there. *)
Definition main_legacy {X} (runs : list EvalCase -> list string -> eff X exn EvalReport) (f : legacy_flags) (models : string)
    : eff X exn (string * string + Z) := fun x =>
  let '(cases, output_file) := chosen_cases f in
  match runs cases (models_of models) x with
  | (Ok report, x') => (Ok (inl (output_file, save_report report)), x')
  | (Raise e, x') => (if is_unavailable (exn_cls e) then Ok (inr EXIT_UNAVAILABLE) else Raise e, x')
  end.
