(* ===== verification/EvalTranscripts.v ===== *)
(** * The transcripts of an evaluation

    The hook of [evals/main.py] that appends one scrubbed line per run
    ([transcript_writer]), under the pool of [evals/table.py], which calls it in
    the order in which runs end.  The file is text; creating its directory is left
    out. *)
From Stdlib Require Import ZArith Lia Ascii String SpecFloat.
From stdpp Require Import base tactics list strings.
From S2P Require Import Prelude PyStr PyFloat Json JsonFacts Types PyLines JsonLines Regex EvalCase EvalRunner EvalSuite EvalTable EvalTableFacts EvalMain.

(** One call of the hook. *)
Record done_run := { d_suite : Suite; d_case : EvalCase; d_rep : Z; d_result : EvalResult }.

Section Writer.
Context (word_char digit_char : string -> bool) (secrets : list string).

Definition line_of (d : done_run) : string :=
  transcript_line word_char digit_char secrets (d_suite d) (d_case d) (d_rep d) (d_result d).

(** [write]: appended under the lock. *)
Definition write (file : string) (d : done_run) : string :=
  String.append file (String.append (line_of d) nl).

(** The file that was there is emptied first. *)
Definition transcript_writer (old : string) (ended : list done_run) : string := foldl write "" ended.

(** ** A line is visible text *)

Lemma chars_visible s l : visible_text s = true -> (exists a c, py_chars s = a ++ l ++ c) -> visible_text (str_join l) = true.
Proof.
  intros Hs (a & c & Hc). apply visible_chars in Hs. rewrite Hc, !Forall_app in Hs. apply visible_join. naive_solver.
Qed.

Lemma redact_visible p s : visible_text s = true -> visible_text (redact p s) = true.
Proof.
  intros Hs. unfold redact. apply join_visible; [reflexivity|]. apply Forall_map.
  eapply Forall_impl; [apply split_pieces_infix|]. cbn. intros l Hl. by apply (chars_visible s).
Qed.

Lemma replace_from_visible old new k s : visible_text new = true -> visible_text s = true ->
  visible_text (replace_from old new k s) = true.
Proof.
  intros Hn. revert k. induction s as [|a s IH]; intros k Hs; [done|]. cbn [str_forall] in Hs. apply andb_true_iff in Hs as [Ha Hs].
  cbn [replace_from]. destruct k; [|by apply IH]. destruct (String.prefix _ _).
  - apply visible_app; [done | by apply IH].
  - cbn [str_forall]. by rewrite Ha, IH.
Qed.

Lemma scrub_visible text : visible_text text = true -> visible_text (scrub word_char digit_char text secrets) = true.
Proof.
  intros Ht. unfold scrub. do 3 apply redact_visible. revert text Ht. induction secrets as [|t l IH]; intros text Ht; [done|].
  apply IH. unfold drop_secret. destruct (py_truthy_str t); [|done]. by apply replace_from_visible.
Qed.

(** What a run and its case hold can be printed. *)
Definition printable (d : done_run) : Prop :=
  json_ok (JArr ([JStr (s_name (d_suite d)); JStr (ec_name (d_case d)); JStr (er_error (d_result d)); JStr (er_final_text (d_result d))]
                 ++ er_tool_calls (d_result d))) = true.

Lemma line_visible d : printable d -> visible_text (line_of d) = true.
Proof.
  intros H. unfold line_of, transcript_line. apply scrub_visible. unfold json_dumps. apply dumps_visible.
  unfold printable in H. cbn in H |- *. rewrite !andb_true_iff in H.
  destruct H as (H1 & H2 & H3 & H4 & H5). rewrite H1, H2, H3, H4. cbn. by rewrite H5.
Qed.

(** ** The file *)

Lemma written ended file : foldl write file ended = String.append file (lines_text (map line_of ended)).
Proof.
  revert file. induction ended as [|d l IH]; intros file; cbn; [by rewrite str_app_nil_r|].
  rewrite IH. unfold write, lines_text. cbn. by rewrite !str_app_assoc.
Qed.

(** The file has one line for each run that ended, in that order, and nothing of
    what was there before. *)
Lemma transcript_has_a_line_per_run (old : string) (ended : list done_run) :
  Forall printable ended -> splitlines (transcript_writer old ended) = map line_of ended.
Proof.
  intros H. unfold transcript_writer. rewrite written. cbn [String.append]. apply splitlines_lines, Forall_map.
  eapply Forall_impl; [exact H | apply line_visible].
Qed.

(** No secret that the writer was given is in the file, not even across lines. *)
Lemma transcript_holds_no_secret (old secret : string) (ended : list done_run) :
  plain_secret secret -> lacks (Ascii.ascii_of_nat 10) secret = true -> secret ∈ secrets ->
  py_in secret (transcript_writer old ended) = false.
Proof.
  intros Hs Hl Hin. unfold transcript_writer. rewrite written. cbn [String.append]. unfold lines_text.
  assert (Hne : secret <> "") by apply Hs. induction ended as [|d l IH]; [by destruct secret|].
  cbn [map str_join]. apply not_true_is_false. intros H. rewrite str_app_assoc in H.
  change (String.append nl ?x) with (String (Ascii.ascii_of_nat 10) x) in H.
  apply py_in_around in H as [H|H]; [|congruence|done..].
  unfold line_of, transcript_line in H. by rewrite scrub_removes in H.
Qed.
End Writer.

(** ** The runs of a suite *)

(** Each unit of a suite with its result, as the hook is given them. *)
Definition ended_runs (suite : Suite) (results : list EvalResult) : list done_run :=
  zip_with (fun u r => {| d_suite := suite; d_case := u.1; d_rep := u.2; d_result := r |}) (units suite) results.

(** However the pool orders the runs, a suite leaves as many lines as its outcome
    counts runs, each the line of one of its runs. *)
Lemma transcript_counts_every_run word_char digit_char secrets old run suite out ended :
  NoDup (map ec_name (s_cases suite)) -> run_suite run suite = Ok out ->
  (forall results, res_map (run_unit run suite) (units suite) = Ok results ->
     ended ≡ₚ ended_runs suite results /\ Forall printable ended) ->
  let file := splitlines (transcript_writer word_char digit_char secrets old ended) in
  Z.of_nat (length file) = sr_total out /\
  (forall line, line ∈ file <-> exists u r, u ∈ units suite /\ run_unit run suite u = Ok r /\
     line = transcript_line word_char digit_char secrets suite u.1 u.2 r).
Proof.
  intros Hu Hout He. destruct (run_suite_totals run suite out Hu Hout) as (results & Hres & Hlen & _ & Htot & _).
  destruct (He results Hres) as [Hp Hok]. cbv zeta. rewrite transcript_has_a_line_per_run by done.
  pose proof Hres as H2. apply res_map_Ok in H2. pose proof (Forall2_length _ _ _ H2) as Hl. split.
  - rewrite length_map, Hp. unfold ended_runs. rewrite length_zip_with, Htot. lia.
  - intros line. rewrite list_elem_of_In, in_map_iff. setoid_rewrite <- list_elem_of_In. setoid_rewrite Hp.
    unfold ended_runs. split.
    + intros (d & <- & Hd). apply elem_of_lookup_zip_with in Hd as (i & u & r & -> & Hi & Hr).
      exists u, r. split_and!; [by eapply list_elem_of_lookup_2 | by eapply Forall2_lookup_lr in H2 | done].
    + intros (u & r & Hin & Hr & ->). apply list_elem_of_lookup in Hin as [i Hi].
      destruct (Forall2_lookup_l _ _ _ _ _ H2 Hi) as (r' & Hi' & Hr'). assert (r' = r) as -> by congruence.
      eexists. split; [|apply elem_of_lookup_zip_with; by exists i, u, r]. done.
Qed.

(** ** Examples *)

(** Two runs that end in the other order, one with a text that holds the address
    and a line feed. *)
Definition ex_ended : list done_run :=
  let result text := {| er_case_name := "flaky"; er_model_name := "gpt"; er_success := true; er_turns := 1; er_tool_calls := [];
                        er_error := ""; er_duration_ms := 5; er_errored := false; er_final_text := text |} in
  let run rep text := {| d_suite := flaky_suite; d_case := flaky_case; d_rep := rep; d_result := result text |} in
  [run 1%Z (str_join ["at"; nl; "http://10.0.0.7/v1"]); run 0%Z "hello"].

Example transcript_lines :
  let file := transcript_writer (fun _ => true) (fun _ => true) ["http://10.0.0.7/v1"] "left over" ex_ended in
  (length (splitlines file), py_in "left over" file, py_in "10.0.0.7" file, py_in "at\n<redacted>" file)
  = (2%nat, false, false, true).
Proof. vm_compute. reflexivity. Qed.

Lemma transcript_holds_no_secret_witness :
  py_in "http://10.0.0.7/v1" (transcript_writer (fun _ => true) (fun _ => true) ["http://10.0.0.7/v1"] "" ex_ended) = false.
Proof.
  apply transcript_holds_no_secret; [split_and!; by vm_compute | reflexivity | left].
Defined.
