(* ===== verification/EvalMainFacts.v ===== *)
(** * What the exit code of an evaluation means

    The loader of suites, the profiles, the runs of table cases, the counts and the
    scrubbing, together in the command of [EvalMain.v]. *)
From Stdlib Require Import ZArith Lia Ascii String SpecFloat.
From stdpp Require Import base tactics list strings.
From S2P Require Import Prelude PyStr PyFloat Json Types Regex Middleware EvalCase EvalCaseFacts EvalCases EvalExecutors EvalRunner EvalSuite EvalSuiteFacts EvalProfiles EvalTable EvalTableFacts EvalMain.

(** A suite whose runs are worth counting. *)
Record ready (s : Suite) : Prop := { r_unique : NoDup (map ec_name (s_cases s)); r_some : s_cases s <> []; r_repeats : (1 <= s_repeats s)%Z }.

Lemma consistent_ready compiles s : consistent_suite compiles s -> ready s.
Proof. intros [_ Hr Hs Hu _]. by split. Qed.

Lemma NoDup_map_filter {A B} (f : A -> B) (p : A -> bool) l : NoDup (map f l) -> NoDup (map f (List.filter p l)).
Proof.
  induction l as [|x l IH]; [done|]. cbn. intros [Hx Hl]%NoDup_cons. destruct (p x); [|auto]. cbn. constructor; [|auto].
  intros Hin. apply Hx. apply list_elem_of_In, in_map_iff in Hin as (y & Hy & Hin). apply filter_In in Hin as [Hin _].
  apply list_elem_of_In, in_map_iff. eauto.
Qed.

Lemma select_ready suites ids out : Forall ready suites -> select_cases suites ids = Ok out -> Forall ready out.
Proof.
  unfold select_cases. intros Hs. destruct (dedup_strs _); [|done]. intros [= <-]. apply Forall_forall. intros s Hin.
  apply list_elem_of_In, in_flat_map in Hin as (s0 & Hs0%list_elem_of_In & Hin). rewrite Forall_forall in Hs. destruct (Hs _ Hs0) as [Hu _ Hr].
  destruct (List.filter _ (s_cases s0)) as [|c l] eqn:Hf; [done|]. destruct Hin as [<-|[]]. split; cbn; [|done|done].
  change (NoDup (map ec_name (c :: l))). rewrite <- Hf. by apply NoDup_map_filter.
Qed.

Section Main.
Context (env : dict string) (default_profiles : string) (load : string -> res exn (list Suite))
  (resolve : string -> string -> res exn ModelProfile).
Context (load_ready : forall path suites, load path = Ok suites -> Forall ready suites)
  (resolve_range : forall path name p, resolve path name = Ok p -> in_range name p).

Lemma prepare_ready args suites profile url : prepare env default_profiles load resolve args = Ok (suites, profile, url) ->
  Forall ready suites /\ in_range (a_model_profile args) profile /\ base_url profile env = Ok url.
Proof using load_ready resolve_range.
  unfold prepare, select, override_repeats. intros H. res_inv. split; [|eauto].
  assert (Hl : Forall ready (concat a)).
  { apply Forall_concat. apply res_map_Ok in Hr. clear - Hr load_ready. induction Hr; constructor; eauto. }
  assert (Hsel : Forall ready a0) by (destruct (a_case args); [by simplify_eq | by eapply select_ready]).
  destruct (a_repeats args) as [n|]; [|by simplify_eq]. destruct (Z.ltb_spec n 1); [done|]. injection Hr1 as <-.
  apply Forall_map. eapply Forall_impl; [exact Hsel|]. intros s [Hu Hs _]. by split.
Qed.

(** What the arguments ask of a suite: its cases, or those of them that [--case]
    names, each as often as the suite says or [--repeats] says instead. *)
Definition asked (args : arguments) (s : Suite) : list (string * Z * EvalCase) :=
  map (fun c => (s_name s, default (s_repeats s) (a_repeats args), c))
    (List.filter (fun c => null (a_case args) || str_in (ec_name c) (a_case args)) (s_cases s)).
Definition planned (s : Suite) : list (string * Z * EvalCase) := map (fun c => (s_name s, s_repeats s, c)) (s_cases s).

Lemma select_asked args suites out : select args suites = Ok out ->
  flat_map planned (map (fun s => set_repeats s (default (s_repeats s) (a_repeats args))) out) = flat_map (asked args) suites.
Proof.
  unfold select, asked. destruct (a_case args) as [|i ids].
  - intros [= <-]. induction suites as [|s l IH]; [done|]. cbn [map flat_map]. rewrite IH. f_equal. unfold planned. cbn.
    f_equal. by induction (s_cases s) as [|c cs IHc]; [|cbn; rewrite <- IHc].
  - cbn [null]. unfold select_cases. destruct (dedup_strs _); [|done]. intros [= <-].
    induction suites as [|s l IH]; [done|]. cbn [flat_map]. rewrite map_app, flat_map_app, IH. f_equal. cbn [orb].
    destruct (List.filter _ (s_cases s)) as [|c cs]; [done|]. cbn [map flat_map]. by rewrite app_nil_r.
Qed.

Lemma prepare_selects args suites profile url : prepare env default_profiles load resolve args = Ok (suites, profile, url) ->
  exists loaded, Forall2 (fun path l => load path = Ok l) (a_suite args) loaded /\
    flat_map planned suites = flat_map (asked args) (concat loaded) /\
    resolve (default default_profiles (a_profiles args)) (a_model_profile args) = Ok profile /\ base_url profile env = Ok url.
Proof.
  unfold prepare. intros H. res_inv. exists a. apply res_map_Ok in Hr. split_and!; try done.
  rewrite <- (select_asked _ _ _ Hr0). f_equal. unfold override_repeats in Hr1. destruct (a_repeats args) as [n|]; cbn.
  - destruct (n <? 1)%Z; [done|]. by injection Hr1 as <-.
  - injection Hr1 as <-. clear. induction a0 as [|[] l IH]; [done|]. cbn. by rewrite <- IH.
Qed.
End Main.

Lemma all_meet_spec results threshold b : all_meet results threshold = Ok b ->
  b = true <-> Forall (fun r => exists rate, sr_pass_rate r = Ok rate /\ float_ge rate threshold = true) results.
Proof.
  revert b. induction results as [|r l IH]; intros b; cbn [all_meet]; [intros [= <-]; by split; [constructor|]|]. intros H. res_inv.
  rewrite Forall_cons. destruct (float_ge a threshold) eqn:Hg.
  - rewrite (IH _ H). split; [eauto | by intros [_ ?]].
  - injection H as <-. split; [done|]. intros [(rate & Hrate & Hge) _]. congruence.
Qed.

Lemma benchmark_scrubbed word_char digit_char results profile model sha at_ url b :
  plain_secret url -> build_benchmark word_char digit_char results profile model sha at_ [url] = Ok b ->
  Forall (fun s => Forall (fun c => py_in url (bc_reason c) = false) (bs_cases s)) (b_results b).
Proof.
  unfold build_benchmark. intros Hs H. res_inv. cbn. apply res_map_Ok in Hr.
  induction Hr as [|r s l k Hrs _ IH]; constructor; [|done]. unfold bench_suite_of in Hrs. res_inv. cbn.
  apply Forall_map, Forall_forall. intros c _.
  change (py_in url (scrub word_char digit_char (co_reason c) [url]) = false). apply scrub_removes; [exact Hs | left].
Qed.

(** The suites of a benchmark are the results it was built from. *)
Lemma benchmark_results word_char digit_char results profile model sha at_ secrets b :
  build_benchmark word_char digit_char results profile model sha at_ secrets = Ok b ->
  map (fun s => (bs_suite s, bs_passed s, bs_failed s, bs_errors s)) (b_results b)
  = map (fun r => (sr_suite r, sr_passed r, sr_failed r, sr_errors r)) results.
Proof.
  unfold build_benchmark. intros H. res_inv. cbn. apply res_map_Ok in Hr. induction Hr as [|r s l k Hrs _ IH]; [done|].
  cbn. rewrite IH. unfold bench_suite_of in Hrs. by res_inv.
Qed.

(** C14: the exit code of a table-test run.  2 is a run that was blocked, with
    nothing scored or written: without an output directory, when the suites, the
    cases, the profile or its URL cannot be had, or when the endpoint is not
    reachable.  Otherwise the profile is in range and bounds the jobs; the suites
    that ran hold exactly the cases of the loaded suites, or those that [--case]
    names, with the repeats of the suite, or of [--repeats]; each was run as often as
    its repeats say and counted once; the benchmark holds the counts of those suites,
    and when the endpoint's URL is not empty, has no angle brackets and is not part of
    the word that replaces it, no reason in the benchmark shows it; and the exit code
    is 0 when every suite reaches the threshold and 1 when one does not. *)
Theorem exit_code_says_what_ran {X} compiles typed read_text prompt_path path_str is_dir is_file json_files json_message exc_str invalid
    read_profiles safe_load env default_profiles preflight
    (run : EvalRunner -> string -> EvalCase -> string -> res exn EvalResult) word_char digit_char sha created_at args e
    complete tool_executor elapsed stamp str_exc lower re_search message sorted_any
    (Hrun : forall runner model,
       @runs_table_cases X complete tool_executor elapsed stamp str_exc lower re_search message sorted_any runner model (run runner model))
    (load := load_suites compiles typed read_text prompt_path path_str is_dir is_file json_files json_message exc_str invalid)
    (resolve := resolve_profile read_profiles safe_load exc_str)
    (prepared := prepare env default_profiles load resolve args)
    (Hout : run_suites env default_profiles load resolve preflight run word_char digit_char sha created_at args = Ok e) :
  match e with
  | Blocked _ => exit_of e = 2%Z /\
      (a_out args = "" \/ is_ok prepared = false \/
       exists suites profile url, prepared = Ok (suites, profile, url) /\ is_ok (preflight (runner_for args profile url) (p_model profile)) = false)
  | Scored jobs results bench files code =>
      exists loaded suites profile url,
        Forall2 (fun path l => load path = Ok l) (a_suite args) loaded /\
        flat_map planned suites = flat_map (asked args) (concat loaded) /\
        resolve (default default_profiles (a_profiles args)) (a_model_profile args) = Ok profile /\
        base_url profile env = Ok url /\
        in_range (a_model_profile args) profile /\ jobs = Z.max 1 (Z.min (a_jobs args) (p_concurrency profile)) /\
        (1 <= jobs <= p_concurrency profile)%Z /\
        Forall2 (fun suite out => run_suite (run (runner_for args profile url) (p_model profile)) suite = Ok out /\
                   sr_total out = Z.of_nat (length (s_cases suite) * Z.to_nat (s_repeats suite)) /\ (0 < sr_total out)%Z /\
                   counts_runs (run (runner_for args profile url) (p_model profile)) suite out) suites results /\
        map (fun s => (bs_suite s, bs_passed s, bs_failed s, bs_errors s)) (b_results bench)
          = map (fun r => (sr_suite r, sr_passed r, sr_failed r, sr_errors r)) results /\
        (plain_secret url -> Forall (fun s => Forall (fun c => py_in url (bc_reason c) = false) (bs_cases s)) (b_results bench)) /\
        (exit_of e = 0%Z <-> Forall (fun out => exists rate, sr_pass_rate out = Ok rate /\ float_ge rate (a_threshold args) = true) results) /\
        (exit_of e = 0%Z \/ exit_of e = 1%Z)
  end.
Proof.
  unfold run_suites in Hout. fold prepared in Hout. destruct (py_truthy_str (a_out args)) eqn:Ho; cbn [negb] in Hout.
  2:{ injection Hout as <-. split; [done|]. left. by apply py_truthy_str_false. }
  destruct prepared as [[[suites profile] url]|ex] eqn:Hp.
  2:{ destruct (blocks_run _); [|done]. injection Hout as <-. split; [done|]. right. by left. }
  destruct (preflight _ _) as [u|ex] eqn:Hpre.
  2:{ destruct (is_unavailable _); [|done]. injection Hout as <-. split; [done|]. right. right. exists suites, profile, url. by rewrite Hpre. }
  destruct (prepare_selects _ _ _ _ _ _ _ _ Hp) as (loaded & Hload & Hplan & Hres & Hurl).
  apply prepare_ready in Hp as (Hready & Hrange & _).
  2:{ intros path l (_ & _ & Hl)%load_suites_consistent. eapply Forall_impl; [exact Hl | apply consistent_ready]. }
  2:{ intros path name p Hr. by eapply resolve_in_range. }
  res_inv. exists loaded, suites, profile, url. do 5 (split; [done|]). split; [done|]. split.
  { unfold capped_jobs. destruct Hrange as [_ _ Hc _ _ _ _]. lia. }
  split; [|split; [by eapply benchmark_results|]; split; [intros Hs; by eapply benchmark_scrubbed|]].
  - apply res_map_Ok in Hr. clear - Hr Hrun Hready. induction Hr as [|s o l k Hso _ IH]; constructor; [|by apply IH; inversion Hready].
    apply Forall_inv in Hready as [Hu Hne Hrep]. split; [done|].
    destruct (suite_counted _ _ _ (table_cases_exclusive _ _ _ _ _ _ _ _ _ _ _ _ (Hrun _ _)) Hu Hso) as [Ht Hc].
    split_and!; try done. rewrite Ht. destruct (s_cases s); [done|]. cbn. lia.
  - unfold exit_code in Hr2. cbn [exit_of]. res_inv.
    match goal with H : all_meet _ _ = Ok ?b |- _ => rewrite <- (all_meet_spec _ _ _ H); destruct b end; split; auto; by split.
Qed.

(** A run over the flaky suite: one of its two runs passes. *)
Definition flaky_fields : _Suite := {|
  su_suite := "a.b"; su_kind := "agent"; su_system_prompt := Some ""; su_system_prompt_file := None; su_tools := []; su_repeats := 2;
  su_cases := [{| cs_id := "flaky"; cs_prompt := "say hello";
                  cs_context := {| cx_role := ""; cx_groups := []; cx_allowed_tools := None; cx_extra := [] |};
                  cs_expect := {| ex_tool := None; ex_args := []; ex_required_arg_keys := []; ex_forbidden_arg_keys := [];
                                  ex_forbidden_tools := []; ex_deny := false; ex_content := ec_content flaky_case |} |}] |}.
Definition flaky_args : arguments := {|
  a_suite := ["s.json"]; a_model_profile := "gpt"; a_profiles := None; a_out := "out"; a_threshold := float_of_dec false 95 (-2);
  a_jobs := 8; a_timeout := 600; a_repeats := None; a_case := []; a_max_tokens := 1024; a_max_turns := 10 |}.
Definition greet_run (runner : EvalRunner) (model : string) (case : EvalCase) (session : string) : res exn EvalResult :=
  (run_table_case greets (fun _ _ b => (Ok "", b)) (fun _ _ => 5%Z) (fun _ => {| c_decision := DT 0 None; c_record := DT 0 None |})
     (fun _ => "") id (fun _ _ => Ok true) id Ok runner case model session (String.eqb session "a.b:flaky:1")).1.
Definition flaky_main : res exn ending :=
  run_suites [("EVAL_URL", "http://10.0.0.7:8000/v1/")] "p.yaml"
    (load_suites (fun _ => true) (fun _ => Some flaky_fields) (fun _ => Ok "{}") (fun _ f => f) id (fun _ => false) (fun _ => true)
       (fun _ => []) exn_msg exn_msg (fun _ => ""))
    (resolve_profile Ok (fun _ => inl example_data) exn_msg) (fun _ _ => Ok tt) greet_run (fun _ => false) (fun _ => false) "sha" "now" flaky_args.

Lemma exit_code_says_what_ran_witness : exists e, flaky_main = Ok e /\ exit_of e = EXIT_BELOW_THRESHOLD /\
  match e with Blocked _ => False | Scored jobs results _ _ _ => (1 <= jobs)%Z /\ results = [flaky_out] end.
Proof.
  destruct flaky_main as [e|] eqn:He; [|by vm_compute in He]. exists e. split; [done|].
  assert (Hrun : forall runner model, runs_table_cases greets (fun _ _ b => (Ok "", b)) (fun _ _ => 5%Z)
    (fun _ => {| c_decision := DT 0 None; c_record := DT 0 None |}) (fun _ => "") id (fun _ _ => Ok true) id Ok runner model (greet_run runner model)).
  { intros runner model case session. by exists (String.eqb session "a.b:flaky:1"). }
  pose proof (exit_code_says_what_ran _ _ _ _ _ _ _ _ _ _ _ _ _ _ _ _ _ _ _ _ _ _ _ _ _ _ _ _ _ _ _ _ Hrun He) as H.
  vm_compute in He. injection He as <-. destruct H as (loaded & suites & profile & url & _ & _ & _ & _ & _ & _ & [Hj _] & _).
  split; [done|]. split; [exact Hj | done].
Defined.
