(* ===== verification/Conversation.v ===== *)
(** * The store of conversations

    [llmcontext/manager.py]: the in-memory context manager, a list of messages per
    job.  [get_history] hands out a copy, so that the lists of the store are never
    shared with a caller. *)
From Stdlib Require Import ZArith Lia String.
From stdpp Require Import base tactics list strings.
From S2P Require Import Prelude PyStr Json Types Messages.

Record ToolResultEntry := {
  tre_call_id : string; tre_tool_name : string; tre_args : jdict; tre_output : string; tre_success : bool }.

Record t := { _history : dict (list Message) }.
Definition init : t := {| _history := [] |}.

Definition _ensure_history (job_id : string) (c : t) : list Message * t :=
  match dget (_history c) job_id with
  | Some l => (l, c)
  | None => ([], {| _history := dset (_history c) job_id [] |})
  end.
Definition append (job_id : string) (msg : Message) (c : t) : t :=
  let '(l, c) := _ensure_history job_id c in {| _history := dset (_history c) job_id (l ++ [msg]) |}.

Definition append_prompt (job_id : string) (msg : Message) (c : t) : t := append job_id msg c.
Definition append_response (job_id : string) (msg : Message) (c : t) : t := append job_id msg c.
Definition append_tool_calls (job_id : string) (calls : list jdict) (c : t) : t := c.
Definition append_tool_results (job_id : string) (results : list ToolResultEntry) (c : t) : t := c.
Definition get_history (job_id : string) (c : t) : list Message := default [] (dget (_history c) job_id).
Definition purge (job_id : string) (c : t) : t := {| _history := ddel (_history c) job_id |}.

(** ** The store follows its log *)

Inductive op :=
| AppendPrompt (job_id : string) (msg : Message)
| AppendResponse (job_id : string) (msg : Message)
| AppendToolCalls (job_id : string) (calls : list jdict)
| AppendToolResults (job_id : string) (results : list ToolResultEntry)
| Purge (job_id : string).
Definition apply (c : t) (o : op) : t :=
  match o with
  | AppendPrompt j m => append_prompt j m c
  | AppendResponse j m => append_response j m c
  | AppendToolCalls j l => append_tool_calls j l c
  | AppendToolResults j l => append_tool_results j l c
  | Purge j => purge j c
  end.
Definition run (ops : list op) : t := foldl apply init ops.

(** The specification: the messages appended to a job since its last purge. *)
Definition spec_step (job_id : string) (l : list Message) (o : op) : list Message :=
  match o with
  | AppendPrompt j m | AppendResponse j m => if String.eqb job_id j then l ++ [m] else l
  | Purge j => if String.eqb job_id j then [] else l
  | _ => l
  end.
Definition history_of (job_id : string) (ops : list op) : list Message := foldl (spec_step job_id) [] ops.

Lemma get_append job_id j m c : get_history job_id (append j m c) =
  if String.eqb job_id j then get_history job_id c ++ [m] else get_history job_id c.
Proof.
  unfold append, _ensure_history, get_history.
  destruct (dget (_history c) j) as [l|] eqn:Hj; cbn [_history]; rewrite !dget_dset;
    destruct (String.eqb_spec job_id j) as [->|]; rewrite ?Hj; done.
Qed.

Lemma run_dict_ok ops : dict_ok (_history (run ops)).
Proof.
  unfold run. induction ops as [|o ops IH] using rev_ind; [constructor|]. rewrite foldl_snoc.
  destruct o; cbn; unfold append_prompt, append_response, append, _ensure_history; try done;
    try (destruct (dget _ _); cbn; repeat apply dict_ok_dset; done). by apply dict_ok_ddel.
Qed.

(** C36: a job's history is what was appended to it since its last purge, in
    order, whatever happened to other jobs in between; tool calls and results are
    not stored. *)
Theorem history_follows_log (ops : list op) (job_id : string) :
  get_history job_id (run ops) = history_of job_id ops.
Proof.
  induction ops as [|o ops IH] using rev_ind; [done|]. pose proof (run_dict_ok ops) as Hok.
  unfold run, history_of in *. rewrite !foldl_snoc.
  destruct o as [j m|j m|j l|j l|j]; cbn [apply spec_step]; try exact IH; rewrite <- ?IH; try apply get_append.
  unfold get_history, purge. cbn [_history]. rewrite dget_ddel by done. by destruct (String.eqb job_id j).
Qed.
