(* ===== verification/Compaction.v ===== *)
(** * Compaction of a conversation

    [llmcontext/strategies.py] ([TieredCompact]) and
    [llmcontext/context_window.py] ([ContextWindowManager]).  The token counter
    and the threshold callback are arguments, as in the code; the defaults are
    defined.  The manager's lock makes each method one atomic step. *)
From Stdlib Require Import ZArith Lia SpecFloat.
From stdpp Require Import base tactics list strings.
From S2P Require Import Prelude PyStr PyFloat Json Types Messages LinkConfig.

Definition counter : Type := list Message -> Z.

(** ** The strategy *)

Definition _is_nudge_type (t : MessageType) : bool :=
  bool_decide (t = STEP_NUDGE) || bool_decide (t = RETRY_NUDGE) || bool_decide (t = PREREQUISITE_NUDGE).

Record TieredCompact := { keep_recent : Z; truncate_chars : Z; last_phase : Z }.
Definition TieredCompact_default : TieredCompact := {| keep_recent := 2; truncate_chars := 200; last_phase := 0 |}.
Definition set_phase (p : Z) (t : TieredCompact) : TieredCompact :=
  {| keep_recent := keep_recent t; truncate_chars := truncate_chars t; last_phase := p |}.

(** The step indices in the order in which they first appear. *)
Fixpoint steps_from (seen : list Z) (ms : list Message) : list Z :=
  match ms with
  | [] => []
  | m :: ms' =>
      match msg_step m with
      | Some s => if bool_decide (s ∈ seen) then steps_from seen ms' else s :: steps_from (s :: seen) ms'
      | None => steps_from seen ms'
      end
  end.
Definition steps_of (ms : list Message) : list Z := steps_from [] ms.

(** The keys of the dictionary of protected steps. *)
Definition _protected_steps (t : TieredCompact) (ms : list Message) : list Z :=
  if (keep_recent t <=? 0)%Z then []
  else
    let steps := steps_of ms in
    if (Z.of_nat (length steps) <=? keep_recent t)%Z then steps
    else drop (length steps - Z.to_nat (keep_recent t)) steps.

Definition _is_protected (m : Message) (protected : list Z) : bool :=
  match msg_step m with None => false | Some s => bool_decide (s ∈ protected) end.

(** What a phase does with a message past the second that is not protected:
    keep it, replace it, or drop it. *)
Fixpoint phase_from (i : nat) (f : Message -> option Message) (protected : list Z) (ms : list Message) : list Message :=
  match ms with
  | [] => []
  | m :: ms' =>
      let rest := phase_from (S i) f protected ms' in
      if (i <? 2)%nat || _is_protected m protected then m :: rest
      else match f m with Some m' => m' :: rest | None => rest end
  end.

(** [s[:n]] for an integer [n]: a negative one counts from the end. *)
Definition slice_to (n : Z) (s : string) : string :=
  py_take (Z.to_nat (if (n <? 0)%Z then Z.of_nat (py_len s) + n else n)) s.

Definition phase1_message (t : TieredCompact) (m : Message) : option Message :=
  if _is_nudge_type (msg_type m) then None
  else if bool_decide (msg_type m = TOOL_RESULT) && (truncate_chars t <? Z.of_nat (py_len (msg_content m)))%Z
  then Some (set_content (slice_to (truncate_chars t) (msg_content m)) m)
  else Some m.
Definition phase2_message (m : Message) : option Message :=
  if bool_decide (msg_type m = TOOL_RESULT) then None else Some m.
Definition phase3_message (m : Message) : option Message :=
  if bool_decide (msg_type m = REASONING \/ msg_type m = TEXT_RESPONSE) then None else Some m.

Definition run_phase (t : TieredCompact) (f : Message -> option Message) (ms : list Message) : list Message :=
  phase_from 0 f (_protected_steps t ms) ms.
Definition _phase1_compact (t : TieredCompact) := run_phase t (phase1_message t).
Definition _phase2_compact (t : TieredCompact) := run_phase t phase2_message.
Definition _phase3_compact (t : TieredCompact) := run_phase t phase3_message.

(** The highest step of the conversation, from -1. *)
Definition max_step (ms : list Message) : Z :=
  foldl (fun acc m => match msg_step m with Some s => if (acc <? s)%Z then s else acc | None => acc end) (-1)%Z ms.
(** [current, current - 1, ...] down to 0, at most [n] of them (the first even
    when it is all there is). *)
Fixpoint count_down (n : nat) (current : Z) : list Z :=
  match n with
  | O => []
  | S n' => current :: (if (current - 1 <? 0)%Z then [] else count_down n' (current - 1))
  end.
Fixpoint last_outside (i : nat) (best : Z) (protected : list Z) (ms : list Message) : Z :=
  match ms with
  | [] => best
  | m :: ms' => last_outside (S i) (if _is_protected m protected then best else Z.of_nat i) protected ms'
  end.
(** Computed before the phases, none of which reads it. *)
Definition _find_eligible_end (ms : list Message) (keep_recent : Z) : Z :=
  let n := Z.of_nat (length ms) in
  if (keep_recent <=? 0)%Z then n - 1
  else if (max_step ms <? 0)%Z then n - 1 - Z.min keep_recent n
  else last_outside 0 (-1) (count_down (Z.to_nat keep_recent) (max_step ms)) ms.

(** [compact]: the messages and the strategy with its [last_phase]. *)
Definition compact (t : TieredCompact) (ms : list Message) (target : Z) (count : counter) : list Message * TieredCompact :=
  match ms with
  | [] => ([], set_phase 0 t)
  | _ =>
      if (count ms <=? target)%Z then (ms, set_phase 0 t)
      else
        let ms1 := _phase1_compact t ms in
        if (count ms1 <=? target)%Z then (ms1, set_phase 1 t)
        else
          let ms2 := _phase2_compact t ms1 in
          if (count ms2 <=? target)%Z then (ms2, set_phase 2 t)
          else (_phase3_compact t ms2, set_phase 3 t)
  end.

(** ** The default counter *)

Definition message_tokens (m : Message) : Z :=
  let overhead := (Z.of_nat (py_len (role_str (msg_role m))) + 4)%Z in
  let calls := foldl (fun acc tc => acc + (Z.of_nat (py_len (tc_name tc)) + 1))%Z 0%Z (msg_tool_calls m) in
  (Z.of_nat (py_len (msg_content m)) / 4 + (overhead + calls))%Z.
Definition default_counter : counter := foldl (fun acc m => acc + message_tokens m)%Z 0%Z.

(** ** The context window *)

(** [int(n * ratio)]. *)
Definition int_mul_float (n : Z) (ratio : spec_float) : res exn Z :=
  match float_of_Z n with
  | S754_infinity _ => Raise (Exn OverflowError "int too large to convert to float")
  | f =>
      match SFmul f_prec f_emax f ratio with
      | S754_nan => Raise (Exn ValueError "cannot convert float NaN to integer")
      | S754_infinity _ => Raise (Exn OverflowError "cannot convert float infinity to integer")
      | p => of_option (Exn ValueError "") (float_trunc p)
      end
  end.

Definition WARN_FULL := "[Context is nearly full. Summarize critical findings and complete current task.]".
Definition WARN_FILLING := "[Context is filling up. Be concise and front-load important information.]".
Definition PCT_80 : spec_float := float_of_dec false 80 (-2).
Definition PCT_65 : spec_float := float_of_dec false 65 (-2).
Definition PCT_75 : spec_float := float_of_dec false 75 (-2).
Definition default_context_warning (tokens budget : Z) (pct : spec_float) : option string :=
  if f_le PCT_80 pct then Some WARN_FULL
  else if f_le PCT_65 pct then Some WARN_FILLING
  else None.

Record CompactEvent := {
  ce_step_index : Z;
  ce_tokens_before : Z;
  ce_tokens_after : Z;
  ce_budget_tokens : Z;
  ce_messages_before : nat;
  ce_messages_after : nat;
  ce_phase_reached : Z;
  ce_strategy_name : string;
}.

(** The events an [on_compact] callback was given, when there is one. *)
Record ContextWindowManager := {
  _context_window : Z;
  _compaction_ratio : spec_float;
  _strategy : TieredCompact;
  _last_known_tokens : option Z;
  _context_thresholds : list spec_float;
  _fired_thresholds : list spec_float;
  _on_compact : option (list CompactEvent);
}.

(** [sorted]. *)
Fixpoint insert_float (x : spec_float) (l : list spec_float) : list spec_float :=
  match l with
  | [] => [x]
  | y :: l' => if f_lt x y then x :: y :: l' else y :: insert_float x l'
  end.
Definition sort_floats (l : list spec_float) : list spec_float := foldl (fun acc x => insert_float x acc) [] l.

Definition new_ContextWindowManager (context_window : Z) (strategy : option TieredCompact)
    (context_thresholds : option (list spec_float)) (on_compact : option (list CompactEvent)) : ContextWindowManager :=
  {| _context_window := context_window; _compaction_ratio := PCT_75;
     _strategy := default TieredCompact_default strategy; _last_known_tokens := None;
     _context_thresholds :=
       match context_thresholds with Some ((_ :: _) as l) => sort_floats l | _ => [PCT_65; PCT_80] end;
     _fired_thresholds := []; _on_compact := on_compact |}.

Definition set_ratio (r : spec_float) (w : ContextWindowManager) : ContextWindowManager :=
  {| _context_window := _context_window w; _compaction_ratio := r; _strategy := _strategy w;
     _last_known_tokens := _last_known_tokens w; _context_thresholds := _context_thresholds w;
     _fired_thresholds := _fired_thresholds w; _on_compact := _on_compact w |}.
Definition set_known (n : option Z) (w : ContextWindowManager) : ContextWindowManager :=
  {| _context_window := _context_window w; _compaction_ratio := _compaction_ratio w; _strategy := _strategy w;
     _last_known_tokens := n; _context_thresholds := _context_thresholds w;
     _fired_thresholds := _fired_thresholds w; _on_compact := _on_compact w |}.
Definition set_fired (l : list spec_float) (w : ContextWindowManager) : ContextWindowManager :=
  {| _context_window := _context_window w; _compaction_ratio := _compaction_ratio w; _strategy := _strategy w;
     _last_known_tokens := _last_known_tokens w; _context_thresholds := _context_thresholds w;
     _fired_thresholds := l; _on_compact := _on_compact w |}.
Definition set_compacted (t : TieredCompact) (ev : CompactEvent) (w : ContextWindowManager) : ContextWindowManager :=
  {| _context_window := _context_window w; _compaction_ratio := _compaction_ratio w; _strategy := t;
     _last_known_tokens := None; _context_thresholds := _context_thresholds w; _fired_thresholds := [];
     _on_compact := (fun log => log ++ [ev]) <$> _on_compact w |}.

Section Window.
Context (count : counter) (on_context_threshold : Z -> Z -> spec_float -> option string).
Implicit Types (w : ContextWindowManager) (ms : list Message).

Definition win : Type -> Type := eff ContextWindowManager exn.

Definition set_compaction_ratio (r : spec_float) : win unit := eff_modify (set_ratio r).
Definition update_token_count (n : Z) : win unit := eff_modify (set_known (Some n)).

Definition _estimate_tokens w ms : Z := match _last_known_tokens w with Some n => n | None => count ms end.

Definition check ms : win (Z * bool) := fun w =>
  (threshold ← int_mul_float (_context_window w) (_compaction_ratio w);
   Ok (_estimate_tokens w ms, (threshold <=? _estimate_tokens w ms)%Z), w).
Definition should_compact ms : win bool := fun w =>
  (threshold ← int_mul_float (_context_window w) (_compaction_ratio w);
   Ok (threshold <? _estimate_tokens w ms)%Z, w).

Definition window_compact ms : win (list Message) := fun w =>
  match int_mul_float (_context_window w) (_compaction_ratio w) with
  | Raise e => (Raise e, w)
  | Ok target =>
      let '(compacted, strategy) := compact (_strategy w) ms target count in
      let ev := {| ce_step_index := 0; ce_tokens_before := _estimate_tokens w ms;
                   ce_tokens_after := count compacted; ce_budget_tokens := _context_window w;
                   ce_messages_before := length ms; ce_messages_after := length compacted;
                   ce_phase_reached := last_phase strategy; ce_strategy_name := "TieredCompact" |} in
      (Ok compacted, set_compacted strategy ev w)
  end.

(** Membership in the set of fired thresholds. *)
Definition f_eq (a b : spec_float) : bool := match float_compare a b with Some Eq => true | _ => false end.
Definition fired (x : spec_float) (l : list spec_float) : bool := existsb (f_eq x) l.

(** The loop, highest threshold first. *)
Definition crossed (pct : spec_float) (thresholds fired_set : list spec_float) : option spec_float :=
  find_first (fun th => f_le th pct && negb (fired th fired_set)) (rev thresholds).

Definition check_thresholds ms : win (option string) := fun w =>
  let current := _estimate_tokens w ms in
  let budget := _context_window w in
  if (current =? 0)%Z || (budget =? 0)%Z then (Ok None, w)
  else
    match int_div current budget with
    | Raise e => (Raise e, w)
    | Ok pct =>
        match crossed pct (_context_thresholds w) (_fired_thresholds w) with
        | None => (Ok None, w)
        | Some th => (Ok (on_context_threshold current budget pct), set_fired (_fired_thresholds w ++ [th]) w)
        end
    end.
End Window.
