(* ===== verification/CompactionFacts.v ===== *)
(** * What compaction keeps

    The theorems about [Compaction.v]: the messages no phase may touch survive
    all three, the default estimate never grows, and a threshold warns once
    between compactions. *)
From Stdlib Require Import ZArith Lia SpecFloat.
From stdpp Require Import base tactics list strings sorting gmap.
From S2P Require Import Prelude PyStr PyFloat Json Types Messages LinkConfig Compaction.

(** ** Steps in order *)

Definition step_seq (ms : list Message) : list Z := omap msg_step ms.
(** A conversation whose step indices never go back. *)
Definition steps_in_order (ms : list Message) : Prop := StronglySorted Z.le (step_seq ms).

Lemma step_seq_cons m ms : step_seq (m :: ms) = match msg_step m with Some s => s :: step_seq ms | None => step_seq ms end.
Proof. done. Qed.

Lemma steps_from_spec seen ms : steps_in_order ms -> (forall s x, s ∈ step_seq ms -> x ∈ seen -> (x <= s)%Z) ->
  StronglySorted Z.lt (steps_from seen ms) /\ forall y, y ∈ steps_from seen ms <-> y ∈ step_seq ms /\ y ∉ seen.
Proof.
  unfold steps_in_order. revert seen. induction ms as [|m ms IH]; intros seen; [split; [constructor | set_solver]|].
  rewrite step_seq_cons. simpl. destruct (msg_step m) as [s|] eqn:Hs; [|apply IH].
  intros [Hall Ho]%StronglySorted_cons Hseen. rewrite Forall_forall in Hall. case_bool_decide as Hin.
  - destruct (IH seen Ho) as [H1 H2]; [set_solver|]. split; [done|]. intros y. rewrite H2. set_solver.
  - destruct (IH (s :: seen) Ho) as [H1 H2]; [set_solver|]. split.
    + apply StronglySorted_cons. split; [|done]. apply Forall_forall. intros y Hy%H2.
      destruct Hy as [Hy Hn]. specialize (Hall y Hy). set_unfold in Hn. lia.
    + intros y. rewrite elem_of_cons, H2. set_unfold. split; [|destruct (decide (y = s)); naive_solver].
      intros [-> | [? ?]]; naive_solver.
Qed.

Lemma steps_of_spec ms : steps_in_order ms ->
  StronglySorted Z.lt (steps_of ms) /\ forall y, y ∈ steps_of ms <-> y ∈ step_seq ms.
Proof.
  intros H. destruct (steps_from_spec [] ms H) as [H1 H2]; [set_solver|]. split; [done|].
  intros y. rewrite H2. set_solver.
Qed.

(** In a strictly increasing list the elements above one are those after it. *)
Lemma greater_after (l : list Z) i s : StronglySorted Z.lt l -> l !! i = Some s ->
  length (filter (fun x => s < x)%Z l) = length l - S i.
Proof.
  revert i. induction l as [|x l IH]; intros i; [done|].
  intros [Hall Ho]%StronglySorted_cons. rewrite Forall_forall in Hall. destruct i as [|i]; simpl.
  - intros [= ->]. rewrite filter_cons_False by lia. rewrite Nat.sub_0_r.
    f_equal. clear -Hall. induction l as [|y l IH]; [done|].
    rewrite filter_cons_True by (apply Hall; set_solver). rewrite IH by set_solver. done.
  - intros Hi. rewrite filter_cons_False; [by rewrite (IH i Ho Hi)|].
    apply list_elem_of_lookup_2 in Hi. apply Hall in Hi. lia.
Qed.

Lemma strictly_sorted_NoDup (l : list Z) : StronglySorted Z.lt l -> NoDup l.
Proof.
  induction l as [|x l IH]; intros H; [constructor|]. apply StronglySorted_cons in H as [Hall Ho].
  rewrite Forall_forall in Hall. constructor; [|by apply IH]. intros Hx%Hall. lia.
Qed.

(** ** Protected steps *)

(** A step is protected when fewer than [keep_recent] steps come after it. *)
Lemma protected_spec t ms s : steps_in_order ms ->
  s ∈ _protected_steps t ms <->
  (0 < keep_recent t)%Z /\ s ∈ step_seq ms /\
  (Z.of_nat (length (filter (fun x => s < x)%Z (steps_of ms))) < keep_recent t)%Z.
Proof.
  intros Ho. destruct (steps_of_spec ms Ho) as [Hs Hin]. unfold _protected_steps.
  destruct (Z.leb_spec (keep_recent t) 0); [set_solver by lia|]. rewrite <- Hin.
  assert (Hpos : forall i, steps_of ms !! i = Some s -> i < length (steps_of ms) /\
            length (filter (fun x => s < x)%Z (steps_of ms)) = length (steps_of ms) - S i).
  { intros i Hi. split; [by eapply lookup_lt_Some | by apply greater_after]. }
  destruct (Z.leb_spec (Z.of_nat (length (steps_of ms))) (keep_recent t)).
  - split; [|naive_solver]. intros Hm. split_and!; [done | done |].
    apply list_elem_of_lookup_1 in Hm as [i Hi]. destruct (Hpos i Hi). lia.
  - split.
    + intros Hm. apply list_elem_of_lookup_1 in Hm as [i Hi]. rewrite lookup_drop in Hi.
      split_and!; [done | by eapply list_elem_of_lookup_2 |]. destruct (Hpos _ Hi). lia.
    + intros (_ & Hm & Hlt). apply list_elem_of_lookup_1 in Hm as [i Hi]. destruct (Hpos i Hi) as [Hi' Hl].
      apply (list_elem_of_lookup_2 _ (i - (length (steps_of ms) - Z.to_nat (keep_recent t)))).
      rewrite lookup_drop. rewrite <- Hi. f_equal. lia.
Qed.

(** Removing messages takes no protection away from the steps that remain. *)
Lemma protected_mono t ms ms' s : steps_in_order ms -> steps_in_order ms' ->
  (forall x, x ∈ step_seq ms' -> x ∈ step_seq ms) -> s ∈ step_seq ms' ->
  s ∈ _protected_steps t ms -> s ∈ _protected_steps t ms'.
Proof.
  intros Ho Ho' Hsub Hs. rewrite !protected_spec by done. intros (Hk & _ & Hlt). split_and!; [done | done |].
  destruct (steps_of_spec ms Ho) as [H1 H2]. destruct (steps_of_spec ms' Ho') as [H1' H2'].
  eapply Z.le_lt_trans; [|exact Hlt]. apply inj_le, submseteq_length, NoDup_submseteq.
  - by apply NoDup_filter, strictly_sorted_NoDup.
  - intros x. rewrite !list_elem_of_filter, H2, H2'. naive_solver.
Qed.

(** ** Phases *)

(** A phase may drop a message, or replace its content. *)
Definition phase_map (f : Message -> option Message) : Prop :=
  forall m m', f m = Some m' -> msg_step m' = msg_step m /\ msg_type m' = msg_type m.

Lemma phase1_map t : phase_map (phase1_message t).
Proof. intros m m'. unfold phase1_message. repeat case_match; intros; simplify_eq; done. Qed.
Lemma phase2_map : phase_map phase2_message.
Proof. intros m m'. unfold phase2_message. case_match; intros; simplify_eq; done. Qed.
Lemma phase3_map : phase_map phase3_message.
Proof. intros m m'. unfold phase3_message. case_match; intros; simplify_eq; done. Qed.

Lemma phase_steps i f prot ms : phase_map f ->
  forall s, s ∈ step_seq (phase_from i f prot ms) -> s ∈ step_seq ms.
Proof.
  intros Hf. revert i. induction ms as [|m ms IH]; intros i s; [done|].
  simpl phase_from. rewrite (step_seq_cons m ms). destruct (_ || _).
  - rewrite step_seq_cons. destruct (msg_step m); set_solver.
  - destruct (f m) as [m'|] eqn:Hm; [|destruct (msg_step m); set_solver].
    rewrite step_seq_cons. destruct (Hf _ _ Hm) as [-> _]. destruct (msg_step m); set_solver.
Qed.

Lemma phase_in_order i f prot ms : phase_map f -> steps_in_order ms -> steps_in_order (phase_from i f prot ms).
Proof.
  unfold steps_in_order. intros Hf. revert i. induction ms as [|m ms IH]; intros i; [done|].
  simpl phase_from. rewrite (step_seq_cons m ms). intros Ho.
  assert (Ho' : StronglySorted Z.le (step_seq (phase_from (S i) f prot ms))).
  { apply IH. destruct (msg_step m); [by apply StronglySorted_cons in Ho as [_ ?] | done]. }
  assert (Hcons : StronglySorted Z.le
            (match msg_step m with Some s => s :: step_seq (phase_from (S i) f prot ms)
             | None => step_seq (phase_from (S i) f prot ms) end)).
  { destruct (msg_step m) as [s|]; [|done]. apply StronglySorted_cons in Ho as [Hall _].
    apply StronglySorted_cons. split; [|done]. rewrite Forall_forall in *. intros x Hx. apply Hall.
    by eapply phase_steps. }
  destruct (_ || _); [by rewrite step_seq_cons|]. destruct (f m) as [m'|] eqn:Hm; [|done].
  rewrite step_seq_cons. by destruct (Hf _ _ Hm) as [-> _].
Qed.

(** The types a phase may drop or cut. *)
Definition expendable (m : Message) : bool :=
  bool_decide (msg_type m ∈ [STEP_NUDGE; RETRY_NUDGE; PREREQUISITE_NUDGE; TOOL_RESULT; REASONING; TEXT_RESPONSE]).
Lemma expendable_alt m :
  expendable m = _is_nudge_type (msg_type m) || bool_decide (msg_type m ∈ [TOOL_RESULT; REASONING; TEXT_RESPONSE]).
Proof. unfold expendable. by destruct (msg_type m). Qed.

(** The messages compaction must not touch: the first two, those of a protected
    step, and those of the other types. *)
Fixpoint shielded_from (i : nat) (prot : list Z) (ms : list Message) : list Message :=
  match ms with
  | [] => []
  | m :: ms' =>
      if (i <? 2)%nat || _is_protected m prot || negb (expendable m) then m :: shielded_from (S i) prot ms'
      else shielded_from (S i) prot ms'
  end.
Definition shielded (t : TieredCompact) (ms : list Message) : list Message :=
  shielded_from 0 (_protected_steps t ms) ms.

(** Past the second message the position no longer matters. *)
Lemma shielded_from_ge i j prot ms : 2 <= i -> 2 <= j -> shielded_from i prot ms = shielded_from j prot ms.
Proof.
  revert i j. induction ms as [|m ms IH]; intros i j Hi Hj; [done|]. simpl.
  rewrite !(proj2 (Nat.ltb_ge _ _)) by done. by rewrite (IH (S i) (S j)) by lia.
Qed.

Definition keeps_shielded (f : Message -> option Message) : Prop :=
  forall m, expendable m = false -> f m = Some m.

(** A phase that protects at least the steps [P] leaves what [P] shields. *)
Lemma phase_shielded i f prot P ms : phase_map f -> keeps_shielded f ->
  (forall m, m ∈ ms -> _is_protected m P = true -> _is_protected m prot = true) ->
  shielded_from i P (phase_from i f prot ms) = shielded_from i P ms.
Proof.
  intros Hf Hk. revert i. induction ms as [|m ms IH]; intros i HP; [done|].
  assert (IH' : shielded_from (S i) P (phase_from (S i) f prot ms) = shielded_from (S i) P ms)
    by (apply IH; set_solver).
  simpl phase_from. destruct ((i <? 2)%nat || _is_protected m prot) eqn:Hprot.
  { simpl. by rewrite IH'. }
  apply orb_false_iff in Hprot as [Hi Hprot].
  assert (HmP : _is_protected m P = false).
  { destruct (_is_protected m P) eqn:E; [|done]. rewrite (HP m) in Hprot by set_solver. done. }
  assert (Hge : forall l, shielded_from i P l = shielded_from (S i) P l).
  { intros l. apply Nat.ltb_ge in Hi. apply shielded_from_ge; lia. }
  simpl. rewrite Hi, HmP. simpl. destruct (expendable m) eqn:He; simpl.
  - destruct (f m) as [m'|] eqn:Hm; [|by rewrite Hge, IH'].
    destruct (Hf _ _ Hm) as [Hs Ht]. simpl. rewrite Hi.
    replace (_is_protected m' P) with (_is_protected m P) by (unfold _is_protected; by rewrite Hs).
    replace (expendable m') with (expendable m) by (unfold expendable; by rewrite Ht).
    rewrite HmP, He. simpl. exact IH'.
  - rewrite (Hk m He). simpl. rewrite Hi, HmP, He. simpl. by rewrite IH'.
Qed.

Lemma phase1_keeps t : keeps_shielded (phase1_message t).
Proof.
  intros m. rewrite expendable_alt. intros [H1 H2]%orb_false_iff. unfold phase1_message. rewrite H1. apply bool_decide_eq_false in H2.
  rewrite bool_decide_eq_false_2 by set_solver. done.
Qed.
Lemma phase2_keeps : keeps_shielded phase2_message.
Proof.
  intros m. rewrite expendable_alt. intros [_ H2]%orb_false_iff. unfold phase2_message. apply bool_decide_eq_false in H2.
  by rewrite bool_decide_eq_false_2 by set_solver.
Qed.
Lemma phase3_keeps : keeps_shielded phase3_message.
Proof.
  intros m. rewrite expendable_alt. intros [_ H2]%orb_false_iff. unfold phase3_message. apply bool_decide_eq_false in H2.
  by rewrite bool_decide_eq_false_2 by set_solver.
Qed.

(** ** Pruning *)

(** A tool result may be cut to a prefix of itself. *)
Definition trimmed (m m' : Message) : Prop :=
  m' = m \/ msg_type m = TOOL_RESULT /\ exists n, m' = set_content (py_take n (msg_content m)) m.

(** What compaction may do to a conversation: cut tool results, and drop
    messages of the expendable types. *)
Inductive pruned : list Message -> list Message -> Prop :=
| pruned_nil : pruned [] []
| pruned_keep m m' l l' : trimmed m m' -> pruned l l' -> pruned (m :: l) (m' :: l')
| pruned_drop m l l' : expendable m = true -> pruned l l' -> pruned (m :: l) l'.

Lemma pruned_refl l : pruned l l.
Proof. induction l; constructor; [by left | done]. Qed.

Lemma trimmed_trans a b c : trimmed a b -> trimmed b c -> trimmed a c.
Proof.
  intros [->|(Ht & n & ->)] [->|(Ht' & k & ->)]; [by left | by right; eauto | by right; eauto |].
  right. split; [done|]. exists (k `min` n). by rewrite <- py_take_take.
Qed.

Lemma trimmed_expendable a b : trimmed a b -> expendable b = expendable a.
Proof. by intros [->|(Ht & n & ->)]. Qed.

Lemma pruned_trans l1 l2 l3 : pruned l1 l2 -> pruned l2 l3 -> pruned l1 l3.
Proof.
  intros H. revert l3. induction H as [|m m' l l' Ht H IH|m l l' He H IH]; intros l3 H3.
  - done.
  - inversion H3; subst; [constructor; [by eapply trimmed_trans | auto] |].
    apply pruned_drop; [by rewrite <- (trimmed_expendable m m') | auto].
  - apply pruned_drop; auto.
Qed.

Definition prunes (f : Message -> option Message) : Prop :=
  forall m, match f m with Some m' => trimmed m m' | None => expendable m = true end.

Lemma phase1_prunes t : prunes (phase1_message t).
Proof.
  intros m. unfold phase1_message. rewrite expendable_alt. destruct (_is_nudge_type _) eqn:Hn; [done|].
  destruct (bool_decide (msg_type m = TOOL_RESULT)) eqn:Ht; simpl; [|by left].
  apply bool_decide_eq_true in Ht. destruct (_ <? _)%Z; [right; split; [done | eexists; reflexivity] | by left].
Qed.
Lemma phase2_prunes : prunes phase2_message.
Proof.
  intros m. unfold phase2_message. rewrite expendable_alt. case_bool_decide as Ht; [|by left].
  apply orb_true_iff. right. rewrite Ht. apply bool_decide_eq_true. set_solver.
Qed.
Lemma phase3_prunes : prunes phase3_message.
Proof.
  intros m. unfold phase3_message. rewrite expendable_alt. case_bool_decide as Ht; [|by left].
  apply orb_true_iff. right. apply bool_decide_eq_true. set_solver.
Qed.

Lemma phase_pruned i f prot ms : prunes f -> pruned ms (phase_from i f prot ms).
Proof.
  intros Hf. revert i. induction ms as [|m ms IH]; intros i; simpl; [constructor|].
  destruct (_ || _); [constructor; [by left | done]|]. specialize (Hf m).
  destruct (f m) as [m'|]; [by constructor | by apply pruned_drop].
Qed.

(** ** The three phases together *)

Record sound_phase (f : Message -> option Message) : Prop := {
  sp_map : phase_map f; sp_keeps : keeps_shielded f; sp_prunes : prunes f }.
Lemma phase1_sound t : sound_phase (phase1_message t).
Proof. split; [apply phase1_map | apply phase1_keeps | apply phase1_prunes]. Qed.
Lemma phase2_sound : sound_phase phase2_message.
Proof. split; [apply phase2_map | apply phase2_keeps | apply phase2_prunes]. Qed.
Lemma phase3_sound : sound_phase phase3_message.
Proof. split; [apply phase3_map | apply phase3_keeps | apply phase3_prunes]. Qed.
Create HintDb compaction.
#[export] Hint Resolve phase1_sound phase2_sound phase3_sound pruned_refl pruned_trans : compaction.

(** [ms] is what some phases made of [ms0]. *)
Definition compacts_to (t : TieredCompact) (ms0 ms : list Message) : Prop :=
  pruned ms0 ms /\
  (steps_in_order ms0 -> steps_in_order ms /\ (forall s, s ∈ step_seq ms -> s ∈ step_seq ms0) /\
     shielded_from 0 (_protected_steps t ms0) ms = shielded t ms0).

Lemma compacts_refl t ms : compacts_to t ms ms.
Proof. split; [auto with compaction | by auto]. Qed.

Lemma compacts_phase t f ms0 ms : sound_phase f -> compacts_to t ms0 ms -> compacts_to t ms0 (run_phase t f ms).
Proof.
  intros [Hm Hk Hp] [H1 H2]. split; [eapply pruned_trans; [done | by apply phase_pruned]|].
  intros Ho. destruct (H2 Ho) as (Ho' & Hsub & Hsh). split_and!.
  - by apply phase_in_order.
  - intros s Hs. apply Hsub. by eapply phase_steps.
  - rewrite <- Hsh. apply phase_shielded; [done | done |]. intros m Hin. unfold _is_protected.
    destruct (msg_step m) as [s|] eqn:Hs; [|done]. rewrite !bool_decide_eq_true.
    apply protected_mono; [done | done | done |]. apply list_elem_of_omap. by exists m.
Qed.
#[export] Hint Resolve compacts_refl compacts_phase : compaction.

Lemma compact_compacts t ms target count : compacts_to t ms (compact t ms target count).1.
Proof.
  unfold compact, _phase3_compact, _phase2_compact, _phase1_compact.
  repeat case_match; simpl; repeat (apply compacts_refl || (apply compacts_phase; [auto with compaction|])).
Qed.

(** *** What must survive, without the code's table of protected steps *)

(** A message is recent in a conversation when it belongs to a step and fewer
    than [keep] different steps of the conversation come after that one. *)
Definition recent (keep : Z) (whole : list Message) (m : Message) : bool :=
  match msg_step m with
  | None => false
  | Some s => (Z.of_nat (size (filter (fun x => s < x)%Z (list_to_set (step_seq whole) : gset Z))) <? keep)%Z
  end.
(** The messages of [ms] that must survive: the first two, the recent ones of
    the [whole] conversation, and those of the types that are never dropped. *)
Fixpoint untouchable_from (keep : Z) (whole : list Message) (i : nat) (ms : list Message) : list Message :=
  match ms with
  | [] => []
  | m :: ms' =>
      if (i <? 2)%nat || recent keep whole m || negb (expendable m)
      then m :: untouchable_from keep whole (S i) ms'
      else untouchable_from keep whole (S i) ms'
  end.
Definition untouchable (keep : Z) (whole ms : list Message) : list Message := untouchable_from keep whole 0 ms.

Lemma recent_protected t ms m : steps_in_order ms -> (forall s, msg_step m = Some s -> s ∈ step_seq ms) ->
  recent (keep_recent t) ms m = _is_protected m (_protected_steps t ms).
Proof.
  intros Ho Hm. unfold recent, _is_protected. destruct (msg_step m) as [s|]; [|done].
  destruct (steps_of_spec ms Ho) as [Hs Hin].
  assert (Hsz : size (filter (fun x => s < x)%Z (list_to_set (step_seq ms) : gset Z)) =
            length (filter (fun x => s < x)%Z (steps_of ms))).
  { rewrite <- (size_list_to_set (C := gset Z) (filter _ (steps_of ms))).
    - f_equal. apply set_eq. intros x. rewrite elem_of_filter, !elem_of_list_to_set, list_elem_of_filter, Hin. done.
    - by apply NoDup_filter, strictly_sorted_NoDup. }
  rewrite Hsz. apply eq_bool_prop_intro. rewrite !Is_true_true, bool_decide_eq_true, protected_spec, Z.ltb_lt by done.
  split; [|naive_solver]. intros Hlt. split_and!; [lia | by apply Hm | done].
Qed.

Lemma untouchable_shielded t whole i ms : steps_in_order whole -> (forall s, s ∈ step_seq ms -> s ∈ step_seq whole) ->
  untouchable_from (keep_recent t) whole i ms = shielded_from i (_protected_steps t whole) ms.
Proof.
  intros Ho. revert i. induction ms as [|m ms IH]; intros i Hsub; [done|]. simpl.
  rewrite step_seq_cons in Hsub.
  rewrite recent_protected, IH; [done | | done |]; intros s Hs; apply Hsub.
  - destruct (msg_step m); set_solver.
  - rewrite Hs. set_solver.
Qed.

(** C22: compaction keeps what matters. It only cuts tool results to a prefix
    and drops nudges, tool results, reasoning and text; a conversation that fits
    is returned as it is; and when step indices never go back, the messages that
    must survive do, through all three phases, unchanged and in order: the first
    two, every message whose step is among the last [keep_recent] (fewer than
    [keep_recent] different steps of the conversation given come after it), and
    every message of a type other than those four. *)
Theorem compact_keeps_shielded (t : TieredCompact) (ms : list Message) (target : Z) (count : counter) :
  let out := (compact t ms target count).1 in
  pruned ms out /\
  ((count ms <= target)%Z -> out = ms) /\
  (steps_in_order ms -> untouchable (keep_recent t) ms out = untouchable (keep_recent t) ms ms).
Proof.
  intros out. destruct (compact_compacts t ms target count) as [H1 H2]. split_and!; [done | |].
  - intros H. unfold out, compact. destruct ms; [done|]. by rewrite (proj2 (Z.leb_le _ _) H).
  - intros Ho. destruct (H2 Ho) as (_ & Hsub & Hsh). unfold untouchable.
    rewrite !untouchable_shielded by done. exact Hsh.
Qed.

(** ** Tokens *)

Lemma tokens_nonneg m : (0 <= message_tokens m)%Z.
Proof.
  unfold message_tokens.
  assert (H : forall l a, (0 <= a)%Z -> (0 <= foldl (fun acc tc => acc + (Z.of_nat (py_len (tc_name tc)) + 1)) a l)%Z).
  { induction l as [|tc l IH]; intros a Ha; simpl; [done|]. apply IH. lia. }
  specialize (H (msg_tool_calls m) 0%Z). pose proof (Z.div_pos (Z.of_nat (py_len (msg_content m))) 4). lia.
Qed.

Lemma tokens_trimmed m m' : trimmed m m' -> (message_tokens m' <= message_tokens m)%Z.
Proof.
  intros [->|(_ & n & ->)]; [lia|]. unfold message_tokens. simpl. rewrite py_len_take.
  apply Z.add_le_mono_r, Z.div_le_mono; lia.
Qed.

Lemma counter_shift l a : foldl (fun acc m => acc + message_tokens m)%Z a l = (a + default_counter l)%Z.
Proof.
  unfold default_counter. revert a. induction l as [|m l IH]; intros a; simpl; [lia|].
  rewrite (IH (a + message_tokens m)%Z), (IH (0 + message_tokens m)%Z). lia.
Qed.

Lemma counter_cons m l : default_counter (m :: l) = (message_tokens m + default_counter l)%Z.
Proof. apply (counter_shift l (0 + message_tokens m)%Z). Qed.

Lemma counter_pruned l l' : pruned l l' -> (default_counter l' <= default_counter l)%Z.
Proof.
  induction 1 as [|m m' l l' Ht _ IH|m l l' _ _ IH]; rewrite ?counter_cons; [done | |].
  - pose proof (tokens_trimmed m m' Ht). lia.
  - pose proof (tokens_nonneg m). lia.
Qed.

(** Under the default estimate compaction never makes a conversation
    longer, and it goes no further than it needs: a phase runs only when the one
    before left the estimate above the target, and the target is met unless all
    three have run. *)
Lemma compact_never_grows (t : TieredCompact) (ms : list Message) (target : Z) :
  let '(out, t') := compact t ms target default_counter in
  (default_counter out <= default_counter ms)%Z /\
  ((default_counter out <= target)%Z \/ ms = [] \/ last_phase t' = 3%Z) /\
  ((default_counter ms <= target)%Z -> ms <> [] -> last_phase t' = 0%Z) /\
  ((default_counter (_phase1_compact t ms) <= target)%Z -> (last_phase t' <= 1)%Z) /\
  ((default_counter (_phase2_compact t (_phase1_compact t ms)) <= target)%Z -> (last_phase t' <= 2)%Z).
Proof.
  destruct (compact t ms target default_counter) as [out t'] eqn:E.
  pose proof (compact_compacts t ms target default_counter) as [Hp _]. rewrite E in Hp. simpl in Hp.
  split; [by apply counter_pruned|]. clear Hp. unfold compact in E.
  destruct ms as [|m ms]; [injection E as <- <-; simpl; split_and!; auto; lia|].
  repeat match goal with H : context [(?a <=? ?b)%Z] |- _ => destruct (Z.leb_spec a b) end;
    injection E as <- <-; simpl; split_and!; auto; intros; lia.
Qed.

(** ** Thresholds *)

Section Thresholds.
Context (count : counter) (warn : Z -> Z -> spec_float -> option string).

(** What happens to a window between two compactions. *)
Inductive win_op := OpCheck (ms : list Message) | OpTokens (n : Z) | OpRatio (r : spec_float).
Definition win_run (op : win_op) : win (option string) :=
  match op with
  | OpCheck ms => check_thresholds count warn ms
  | OpTokens n => _ ← update_token_count n; mret None
  | OpRatio r => _ ← set_compaction_ratio r; mret None
  end.
(** The answers of a sequence of operations; one that raises answers nothing. *)
Fixpoint win_runs (ops : list win_op) (w : ContextWindowManager) : list string * ContextWindowManager :=
  match ops with
  | [] => ([], w)
  | op :: ops' =>
      let '(r, w') := win_run op w in
      let '(l, w'') := win_runs ops' w' in
      (match r with Ok (Some s) => s :: l | _ => l end, w'')
  end.

Lemma f_le_not_nan a b : f_le a b = true -> a <> S754_nan.
Proof. intros H ->. unfold f_le, float_compare in H. done. Qed.

Lemma f_eq_refl a : a <> S754_nan -> f_eq a a = true.
Proof.
  intros H. unfold f_eq, float_compare. destruct a as [s|s| |s m e]; try done; [by destruct s |].
  simpl. unfold dyadic_compare. by rewrite Z.compare_refl.
Qed.

Definition fired_ok (w : ContextWindowManager) : Prop :=
  NoDup (_fired_thresholds w) /\ (forall x, x ∈ _fired_thresholds w -> x ∈ _context_thresholds w).

Lemma fired_ok_length w : fired_ok w -> length (_fired_thresholds w) <= length (_context_thresholds w).
Proof. intros [H1 H2]. by apply submseteq_length, NoDup_submseteq. Qed.

Lemma win_run_fired op w r w' : win_run op w = (r, w') -> fired_ok w ->
  fired_ok w' /\ _context_thresholds w' = _context_thresholds w /\
  length (_fired_thresholds w) + (match r with Ok (Some _) => 1 | _ => 0 end) <= length (_fired_thresholds w').
Proof.
  intros H Hw. destruct op as [ms|n|x]; [|injection H as <- <-; repeat split; try apply Hw; simpl; lia..].
  simpl in H. unfold check_thresholds in H. destruct (_ || _); [injection H as <- <-; repeat split; try apply Hw; lia|].
  destruct (int_div _ _) as [pct|e]; [|injection H as <- <-; repeat split; try apply Hw; lia].
  destruct (crossed _ _ _) as [th|] eqn:Hc; [|injection H as <- <-; repeat split; try apply Hw; lia].
  injection H as <- <-. unfold crossed, find_first in Hc. apply find_some in Hc as [Hin Hb].
  apply andb_true_iff in Hb as [Hle Hnf]. apply in_rev, list_elem_of_In in Hin.
  assert (Hn : th ∉ _fired_thresholds w).
  { intros Hf. apply negb_true_iff in Hnf. unfold fired in Hnf.
    rewrite (proj2 (existsb_exists _ _)) in Hnf; [done|]. exists th. split; [by apply list_elem_of_In|].
    apply f_eq_refl. by eapply f_le_not_nan. }
  destruct Hw as [Hnd Hsub]. split; [|split; [done | simpl; rewrite length_app; simpl; repeat case_match; lia]].
  split; simpl.
  - apply NoDup_app. split_and!; [done | set_solver | apply NoDup_singleton].
  - intros x [Hx|Hx]%elem_of_app; [auto | set_solver].
Qed.

(** Each threshold warns at most once between compactions: whatever is
    measured, and however the reported token counts move, a window that starts
    with none fired gives no more warnings than it has thresholds. *)
Lemma thresholds_fire_once (ops : list win_op) (w : ContextWindowManager) :
  _fired_thresholds w = [] ->
  length (win_runs ops w).1 <= length (_context_thresholds w) /\ NoDup (_fired_thresholds (win_runs ops w).2).
Proof.
  intros H0. assert (Hw : fired_ok w) by (split; rewrite H0; [constructor | set_solver]).
  enough (HG : length (_fired_thresholds w) + length (win_runs ops w).1 <= length (_context_thresholds w) /\
            fired_ok (win_runs ops w).2) by (rewrite H0 in HG; destruct HG as [? [? ?]]; done).
  clear H0. revert w Hw. induction ops as [|op ops IH]; intros w Hw; simpl.
  - split; [|done]. pose proof (fired_ok_length w Hw). lia.
  - destruct (win_run op w) as [r w'] eqn:Hr. destruct (win_run_fired _ _ _ _ Hr Hw) as (Hw' & Ht & Hl).
    specialize (IH w' Hw'). destruct (win_runs ops w') as [l w'']. simpl in *. rewrite Ht in IH.
    destruct IH as [IH1 IH2]. split; [|done]. destruct r as [[s|]|e]; simpl; lia.
Qed.
End Thresholds.

(** ** A conversation *)

Definition ex_message (t : MessageType) (step : option Z) (content : string) : Message :=
  {| msg_role := R_USER; msg_content := content; msg_tool_call_id := ""; msg_tool_calls := [];
     msg_meta := Build_MessageMeta t step None None |}.
Definition ex_conversation : list Message :=
  [ex_message SYSTEM_PROMPT None "system"; ex_message USER_INPUT None "question";
   ex_message TOOL_RESULT (Some 0%Z) "a long tool result"; ex_message RETRY_NUDGE (Some 0%Z) "again";
   ex_message REASONING (Some 1%Z) "thinking"; ex_message USER_INPUT (Some 1%Z) "more";
   ex_message TOOL_RESULT (Some 2%Z) "recent"; ex_message TEXT_RESPONSE (Some 3%Z) "answer"].
Definition ex_strategy : TieredCompact := {| keep_recent := 2; truncate_chars := 6; last_phase := 0 |}.

Example compact_phase_one :
  map msg_content (compact ex_strategy ex_conversation 110 default_counter).1 =
  ["system"; "question"; "a long"; "thinking"; "more"; "recent"; "answer"].
Proof. vm_compute. reflexivity. Qed.
Example compact_phase_three :
  map msg_content (compact ex_strategy ex_conversation 10 default_counter).1 =
  ["system"; "question"; "more"; "recent"; "answer"].
Proof. vm_compute. reflexivity. Qed.

(** Protection is recomputed at each phase.  When step indices interleave, a
    phase that drops the first message of an old step makes it look recent, and
    the step that was protected loses its messages. *)
Definition ex_interleaved : list Message :=
  [ex_message SYSTEM_PROMPT None "system"; ex_message USER_INPUT None "question";
   ex_message RETRY_NUDGE (Some 1%Z) "again"; ex_message TOOL_RESULT (Some 2%Z) "recent";
   ex_message USER_INPUT (Some 1%Z) "more"].
Example protection_lost :
  let t := {| keep_recent := 1; truncate_chars := 200; last_phase := 0 |} in
  _protected_steps t ex_interleaved = [2%Z] /\
  map msg_content (compact t ex_interleaved 0 default_counter).1 = ["system"; "question"; "more"].
Proof. vm_compute. split; reflexivity. Qed.

Definition ex_window : ContextWindowManager := new_ContextWindowManager 100 None None (Some []).
Lemma thresholds_fire_once_witness :
  (win_runs default_counter default_context_warning
     [OpTokens 70; OpCheck []; OpCheck []; OpTokens 90; OpCheck []; OpTokens 99; OpCheck []] ex_window).1 =
    [WARN_FILLING; WARN_FULL] /\
  2 <= length (_context_thresholds ex_window).
Proof.
  split; [vm_compute; reflexivity|].
  exact (proj1 (thresholds_fire_once default_counter default_context_warning
    [OpTokens 70; OpCheck []; OpCheck []; OpTokens 90; OpCheck []; OpTokens 99; OpCheck []] ex_window eq_refl)).
Defined.

Lemma compact_keeps_shielded_witness :
  map msg_content (untouchable 2 ex_conversation (compact ex_strategy ex_conversation 10 default_counter).1) =
  ["system"; "question"; "more"; "recent"; "answer"].
Proof.
  assert (Ho : steps_in_order ex_conversation).
  { repeat (constructor; [|repeat constructor; vm_compute; discriminate]). constructor. }
  transitivity (map msg_content (untouchable 2 ex_conversation ex_conversation)); [|vm_compute; reflexivity].
  exact (f_equal (map msg_content) (proj2 (proj2 (compact_keeps_shielded ex_strategy ex_conversation 10 default_counter)) Ho)).
Defined.
