(* ===== verification/Guardrails.v ===== *)
(** * Guardrails

    [middleware/guardrails/]: the nudges ([nudge.py]), the step enforcer
    ([step_enforcer.py]), the error tracker ([error_tracker.py]) and the facade
    that classifies a response against a configuration ([facade.py]).  The
    facade's configuration, responses and state are untyped documents, and the
    exceptions of reading them are kept. *)
From Stdlib Require Import ZArith Lia Ascii String.
From stdpp Require Import base tactics list strings.
From S2P Require Import Prelude PyStr Json Types.

(** ** Nudges *)

Inductive NudgeKind := RETRY | UNKNOWN_TOOL | STEP | PREREQUISITE.
Record Nudge := { n_role : string; n_content : string; n_kind : NudgeKind; n_tier : Z }.

Fixpoint concat_all (l : list string) : string :=
  match l with [] => "" | s :: l' => String.append s (concat_all l') end.

Definition _join_tool_names (names : list string) : string :=
  match names with
  | [] => "(no tools available)"
  | [a] => a
  | [a; b] => concat_all [a; " and "; b]
  | _ => concat_all [join_with ", " (removelast names); ", and "; List.last names ""]
  end.

Definition retry_nudge (raw_response : string) (tool_names : list string) : Nudge :=
  {| n_role := "user";
     n_content := concat_all
       ["Your previous response was not a valid tool call. ";
        "You must respond with a tool call, not free text. ";
        "Available tools: "; _join_tool_names tool_names; ". Please try again with a valid tool call."];
     n_kind := RETRY; n_tier := 0 |}.

Definition unknown_tool_nudge (tool_name : string) (available_tools : list string) : Nudge :=
  {| n_role := "user";
     n_content := concat_all
       ["Tool '"; tool_name; "' does not exist. "; "Available tools: "; _join_tool_names available_tools;
        ". Call one of them."];
     n_kind := UNKNOWN_TOOL; n_tier := 0 |}.

Definition step_nudge (terminal_tool : string) (pending_steps : list string) (tier : Z) : Nudge :=
  let tier := Z.max 1 (Z.min 3 tier) in
  let steps := _join_tool_names pending_steps in
  {| n_role := "user";
     n_content :=
       if (tier =? 1)%Z then
         concat_all ["You cannot call "; terminal_tool; " yet. "; "You must first complete these required steps: ";
           steps; ". "; "Call one of them now."]
       else if (tier =? 2)%Z then
         concat_all ["You must call one of these tools now: "; steps; ". Pick one."]
       else
         concat_all ["STOP. You MUST call one of: "; steps; ". "; "Do NOT call "; terminal_tool; ". ";
           "Your next response MUST be a tool call to one of: "; steps; "."];
     n_kind := STEP; n_tier := tier |}.

Definition prerequisite_nudge (tool_name : string) (missing_prereqs : list string) : Nudge :=
  {| n_role := "user";
     n_content := concat_all ["You cannot call "; tool_name; " yet. "; "You must first call: ";
       _join_tool_names missing_prereqs; ". "; "Call the prerequisite tool now."];
     n_kind := PREREQUISITE; n_tier := 0 |}.

(** ** Step enforcer *)

Module StepEnforcer.

Record t := {
  _step_definitions : dict (list string);
  _completed_steps : dict (dict bool);
  _allowed_terminals : dict (dict bool);
}.
Definition init : t := {| _step_definitions := []; _completed_steps := []; _allowed_terminals := [] |}.

Definition add_step (tool : string) (prerequisites : option (list string)) (e : t) : t :=
  {| _step_definitions := dset (_step_definitions e) tool (default [] prerequisites);
     _completed_steps := _completed_steps e; _allowed_terminals := _allowed_terminals e |}.
Definition add_terminal (tool : string) (allowed : option (dict bool)) (e : t) : t :=
  {| _step_definitions := _step_definitions e; _completed_steps := _completed_steps e;
     _allowed_terminals := dset (_allowed_terminals e) tool (default [] allowed) |}.
Definition set_completed (c : dict (dict bool)) (e : t) : t :=
  {| _step_definitions := _step_definitions e; _completed_steps := c; _allowed_terminals := _allowed_terminals e |}.

Definition mark_step_complete (session_id step : string) (e : t) : t :=
  let c := if dmem (_completed_steps e) session_id then _completed_steps e
           else dset (_completed_steps e) session_id [] in
  set_completed (dset c session_id (dset (dget_or c session_id []) step true)) e.

Definition reset_session (session_id : string) (e : t) : t :=
  set_completed (ddel (_completed_steps e) session_id) e.

Definition can_execute (session_id tool : string) (e : t) : bool * list string :=
  match dget (_step_definitions e) tool with
  | None => (true, [])
  | Some prereqs =>
      let completed := dget_or (_completed_steps e) session_id [] in
      let missing := List.filter (fun p => negb (dget_or completed p false)) prereqs in
      (Nat.eqb (length missing) 0, missing)
  end.

(** The tool and the missing steps are the fields of [StepNotAllowedError]. *)
Record StepNotAllowedError := { err_tool : string; err_missing : list string }.
Definition validate_execution (session_id tool : string) (e : t) : res StepNotAllowedError unit :=
  let '(allowed, missing) := can_execute session_id tool e in
  if (allowed : bool) then Ok tt else Raise {| err_tool := tool; err_missing := missing |}.

Definition is_terminal_allowed (session_id terminal_tool : string) (e : t) : bool :=
  (can_execute session_id terminal_tool e).1.
Definition get_allowed_terminals (session_id : string) (e : t) : list string :=
  List.filter (fun tool => (can_execute session_id tool e).1) (dkeys (_step_definitions e)).

(** What happens to an enforcer while sessions run. *)
Inductive op := Mark (session step : string) | Reset (session : string).
Definition run_op (o : op) (e : t) : t :=
  match o with Mark s p => mark_step_complete s p e | Reset s => reset_session s e end.
Definition run (ops : list op) (e : t) : t := fold_left (fun e o => run_op o e) ops e.

(** The history of one session: has the step been marked since the last reset? *)
Definition marked (session step : string) (ops : list op) : bool :=
  fold_left (fun acc o =>
    match o with
    | Mark s p => if String.eqb s session && String.eqb p step then true else acc
    | Reset s => if String.eqb s session then false else acc
    end) ops false.

Definition is_complete (session step : string) (e : t) : bool :=
  dget_or (dget_or (_completed_steps e) session []) step false.

Lemma run_op_keeps_ok o e : dict_ok (_completed_steps e) -> dict_ok (_completed_steps (run_op o e)).
Proof.
  intros H. destruct o as [s p|s]; simpl; [|by apply dict_ok_ddel].
  unfold mark_step_complete. simpl. destruct (dmem _ _); auto using dict_ok_dset.
Qed.

Lemma run_op_complete o e session step : dict_ok (_completed_steps e) ->
  is_complete session step (run_op o e) =
  match o with
  | Mark s p => if String.eqb s session && String.eqb p step then true else is_complete session step e
  | Reset s => if String.eqb s session then false else is_complete session step e
  end.
Proof.
  intros Hok. unfold is_complete. destruct o as [s p|s]; simpl.
  - unfold mark_step_complete. simpl. set (c := if dmem _ _ then _ else _).
    assert (Hc : forall k, dget_or c k [] = dget_or (_completed_steps e) k []).
    { intros k. unfold c, dmem, dget_or. case_bool_decide as Hm; [done|]. rewrite dget_dset.
      destruct (String.eqb_spec k s) as [->|]; [|done].
      apply eq_None_not_Some in Hm. by rewrite Hm. }
    unfold dget_or at 2. rewrite dget_dset, (String.eqb_sym session s).
    destruct (String.eqb_spec s session) as [->|Hs]; simpl.
    + rewrite Hc. unfold dget_or at 1. rewrite dget_dset, (String.eqb_sym step p).
      by destruct (String.eqb p step).
    + fold (dget_or c session []). by rewrite Hc.
  - unfold dget_or at 2. rewrite dget_ddel, (String.eqb_sym session s) by done.
    by destruct (String.eqb s session).
Qed.

Lemma run_complete ops e session step : dict_ok (_completed_steps e) ->
  is_complete session step (run ops e) =
  fold_left (fun acc o =>
    match o with
    | Mark s p => if String.eqb s session && String.eqb p step then true else acc
    | Reset s => if String.eqb s session then false else acc
    end) ops (is_complete session step e).
Proof.
  unfold run. revert e. induction ops as [|o ops IH]; intros e Hok; [done|]. simpl.
  rewrite IH by (by apply run_op_keeps_ok). by rewrite run_op_complete.
Qed.

Lemma run_definitions ops e : _step_definitions (run ops e) = _step_definitions e.
Proof. unfold run. revert e. induction ops as [|o ops IH]; intros e; [done|]. simpl. rewrite IH. by destruct o. Qed.

(** A tool may run in a session exactly when each of its prerequisites has
    been marked in that session since its last reset, whatever the other
    sessions do; what is missing is reported, in order; a tool without a
    definition is never held back. *)
Lemma can_execute_iff_marked (defs : dict (list string)) (ops : list op) (session tool : string) :
  let e := run ops {| _step_definitions := defs; _completed_steps := []; _allowed_terminals := [] |} in
  match dget defs tool with
  | None => can_execute session tool e = (true, []) /\ validate_execution session tool e = Ok tt
  | Some prereqs =>
      (can_execute session tool e).2 = List.filter (fun p => negb (marked session p ops)) prereqs /\
      (validate_execution session tool e = Ok tt <-> forall p, p ∈ prereqs -> marked session p ops = true)
  end.
Proof.
  intros e. assert (Hc : forall p, is_complete session p e = marked session p ops).
  { intros p. unfold e. rewrite run_complete; [done | apply NoDup_nil_2]. }
  assert (Hd : _step_definitions e = defs) by (unfold e; by rewrite run_definitions).
  clearbody e. unfold validate_execution, can_execute. rewrite Hd.
  destruct (dget defs tool) as [prereqs|]; [|done]. simpl.
  rewrite (List.filter_ext (fun p => negb (dget_or (dget_or (_completed_steps e) session []) p false))
             (fun p => negb (marked session p ops))) by (intros p; by rewrite <- Hc).
  split; [done|]. destruct (List.filter _ prereqs) as [|p l] eqn:Hf; simpl.
  - split; [|done]. intros _ p Hp. destruct (marked session p ops) eqn:Hm; [done|].
    apply list_elem_of_In in Hp. assert (H : In p []) by (rewrite <- Hf; apply filter_In; by rewrite Hm). done.
  - split; [done|]. intros H. assert (Hin : In p (List.filter (fun p => negb (marked session p ops)) prereqs))
      by (rewrite Hf; by left).
    apply filter_In in Hin as [Hin Hn]. apply list_elem_of_In, H in Hin. by rewrite Hin in Hn.
Qed.
End StepEnforcer.

(** ** Error tracker *)

Module ErrorTracker.

Inductive ErrorCategory := TIMEOUT | NOT_FOUND | INVALID_ARGS | PERMISSION | RATE_LIMIT | UNKNOWN.
#[global] Instance ErrorCategory_eq_dec : EqDecision ErrorCategory.
Proof. solve_decision. Defined.

(** Times are microseconds of [datetime.now()]. *)
Record ToolError := {
  te_timestamp : Z;
  te_tool : string;
  te_args : jdict;
  te_category : ErrorCategory;
  te_message : string;
  te_session_id : string;
  te_retry_count : nat;
}.

Record t := { _errors : dict (list ToolError); _max_errors_per_tool : Z; _window_duration : Z }.

Definition minutes (n : Z) : Z := n * 60000000.
Definition init (max_errors_per_tool window_duration_minutes : Z) : t :=
  {| _errors := []; _max_errors_per_tool := max_errors_per_tool;
     _window_duration := minutes window_duration_minutes |}.
Definition set_thresholds (max_errors window_minutes : Z) (k : t) : t :=
  {| _errors := _errors k; _max_errors_per_tool := max_errors; _window_duration := minutes window_minutes |}.
Definition set_errors (e : dict (list ToolError)) (k : t) : t :=
  {| _errors := e; _max_errors_per_tool := _max_errors_per_tool k; _window_duration := _window_duration k |}.

Definition errors_of (session_id : string) (k : t) : list ToolError := dget_or (_errors k) session_id [].
Definition get_error_count (session_id tool : string) (k : t) : nat :=
  length (List.filter (fun e => String.eqb (te_tool e) tool) (errors_of session_id k)).

(** What a prune at time [now] keeps of a session. *)
Definition pruned (k : t) (now : Z) (l : list ToolError) : list ToolError :=
  if (Z.of_nat (length l) <=? _max_errors_per_tool k)%Z then l
  else List.filter (fun e => (now - _window_duration k <? te_timestamp e)%Z) l.
Definition _prune_old_errors (now : Z) (session_id : string) (k : t) : t :=
  match dget (_errors k) session_id with
  | None => k
  | Some l => set_errors (dset (_errors k) session_id (pruned k now l)) k
  end.

(** The two readings of the clock are the time of the error and of the prune. *)
Definition record_error (stamp now : Z) (session_id tool : string) (args : jdict) (message : string)
    (category : ErrorCategory) (k : t) : t :=
  let k := if dmem (_errors k) session_id then k else set_errors (dset (_errors k) session_id []) k in
  let err := {| te_timestamp := stamp; te_tool := tool; te_args := args; te_category := category;
                te_message := message; te_session_id := session_id;
                te_retry_count := get_error_count session_id tool k |} in
  _prune_old_errors now session_id
    (set_errors (dset (_errors k) session_id (errors_of session_id k ++ [err])) k).

Definition get_recent_errors (now : Z) (session_id : string) (k : t) : list ToolError * t :=
  let k := _prune_old_errors now session_id k in (errors_of session_id k, k).
Definition get_errors_by_category (session_id : string) (c : ErrorCategory) (k : t) : list ToolError :=
  List.filter (fun e => bool_decide (te_category e = c)) (errors_of session_id k).
Definition is_error_rate_exceeded (session_id tool : string) (k : t) : bool :=
  (_max_errors_per_tool k <=? Z.of_nat (get_error_count session_id tool k))%Z.
Definition reset_session (session_id : string) (k : t) : t := set_errors (ddel (_errors k) session_id) k.
Definition should_block_tool (session_id tool : string) (k : t) : bool := is_error_rate_exceeded session_id tool k.

(** ** What the tracker remembers *)

Inductive op :=
| Record_ (stamp now : Z) (session tool : string) (args : jdict) (message : string) (category : ErrorCategory)
| Recent (now : Z) (session : string)
| Reset (session : string).
Definition run_op (o : op) (k : t) : t :=
  match o with
  | Record_ stamp now s tool args msg c => record_error stamp now s tool args msg c k
  | Recent now s => (get_recent_errors now s k).2
  | Reset s => reset_session s k
  end.
Definition run (ops : list op) (k : t) : t := fold_left (fun k o => run_op o k) ops k.

(** The specification: the times of the errors of one tool in one session since
    its last reset, and the last time the tracker looked at its clock. *)
Fixpoint times_from (session tool : string) (acc : list Z) (ops : list op) : list Z :=
  match ops with
  | [] => acc
  | Record_ stamp _ s tl _ _ _ :: ops' =>
      times_from session tool (if String.eqb s session && String.eqb tl tool then acc ++ [stamp] else acc) ops'
  | Recent _ _ :: ops' => times_from session tool acc ops'
  | Reset s :: ops' => times_from session tool (if String.eqb s session then [] else acc) ops'
  end.
Definition op_now (o : op) : Z := match o with Record_ _ now _ _ _ _ _ => now | Recent now _ => now | Reset _ => 0 end.

(** The recorded times of a tool that the tracker still holds. *)
Definition held (session tool : string) (k : t) : list Z :=
  map te_timestamp (List.filter (fun e => String.eqb (te_tool e) tool) (errors_of session k)).
Definition young (cutoff : Z) (l : list Z) : list Z := List.filter (fun x => (cutoff <? x)%Z) l.

Lemma errors_of_set s s' l k : errors_of s (set_errors (dset (_errors k) s' l) k) = if String.eqb s s' then l else errors_of s k.
Proof. unfold errors_of, dget_or. simpl. rewrite dget_dset. by destruct (String.eqb s s'). Qed.

Lemma errors_of_prune now s s' k :
  errors_of s (_prune_old_errors now s' k) = if String.eqb s s' then pruned k now (errors_of s k) else errors_of s k.
Proof.
  unfold _prune_old_errors. destruct (dget (_errors k) s') as [l|] eqn:Hl; [rewrite errors_of_set|];
    destruct (String.eqb_spec s s') as [->|]; try done; unfold errors_of, dget_or; rewrite Hl; [done|].
  unfold pruned. by case_match.
Qed.

Lemma errors_of_record stamp now s' tool args msg c s k :
  exists n, errors_of s (record_error stamp now s' tool args msg c k) =
    (if String.eqb s s' then
       pruned k now (errors_of s k ++ [Build_ToolError stamp tool args c msg s' n])
     else errors_of s k).
Proof.
  unfold record_error. set (k0 := if dmem _ _ then k else _).
  assert (Hk : forall s, errors_of s k0 = errors_of s k).
  { intros s0. unfold k0, dmem. case_bool_decide as Hm; [done|]. rewrite errors_of_set.
    destruct (String.eqb_spec s0 s') as [->|]; [|done]. apply eq_None_not_Some in Hm.
    unfold errors_of, dget_or. by rewrite Hm. }
  assert (Hp : forall a b, pruned k0 a b = pruned k a b) by (intros; unfold k0; by destruct (dmem _ _)).
  eexists. rewrite errors_of_prune, errors_of_set. destruct (String.eqb_spec s s') as [->|]; [|apply Hk].
  rewrite Hk. apply (Hp now).
Qed.

Definition of_tool (tool : string) (l : list ToolError) : list Z :=
  map te_timestamp (List.filter (fun e => String.eqb (te_tool e) tool) l).

Lemma of_tool_app tool l1 l2 : of_tool tool (l1 ++ l2) = of_tool tool l1 ++ of_tool tool l2.
Proof. unfold of_tool. by rewrite List.filter_app, map_app. Qed.

Lemma young_pruned k now cutoff tool l : (now - _window_duration k <= cutoff)%Z ->
  young cutoff (of_tool tool (pruned k now l)) = young cutoff (of_tool tool l).
Proof.
  intros Hc. unfold pruned. case_match; [done|]. clear -Hc. unfold young, of_tool.
  induction l as [|e l IH]; simpl; [done|].
  destruct (Z.ltb_spec (now - _window_duration k) (te_timestamp e)); simpl;
    destruct (String.eqb (te_tool e) tool); simpl; rewrite ?IH; try done.
  by rewrite (proj2 (Z.ltb_ge _ _)) by lia.
Qed.

Lemma pruned_sublist k now tool l : of_tool tool (pruned k now l) `sublist_of` of_tool tool l.
Proof.
  unfold pruned, of_tool. case_match; [done|]. clear. induction l as [|e l IH]; simpl; [constructor|].
  destruct (_ <? _)%Z; simpl; destruct (String.eqb (te_tool e) tool); simpl; first [done | by apply sublist_skip | by apply sublist_cons].
Qed.

Lemma run_op_limits o k :
  _window_duration (run_op o k) = _window_duration k /\ _max_errors_per_tool (run_op o k) = _max_errors_per_tool k.
Proof.
  destruct o as [? ? s ? ? ? ?|? s|s]; simpl; unfold record_error, _prune_old_errors, reset_session, dmem;
    repeat (case_match; simpl); done.
Qed.

Lemma run_op_ok o k : dict_ok (_errors k) -> dict_ok (_errors (run_op o k)).
Proof.
  intros H. destruct o as [? ? s ? ? ? ?|? s|s]; simpl; unfold record_error, _prune_old_errors, reset_session, dmem;
    repeat (case_match; simpl); auto using dict_ok_dset, dict_ok_ddel.
Qed.

(** The tracker against the list [acc] of times recorded so far. *)
Definition remembers (cutoff : Z) (acc held : list Z) : Prop :=
  held `sublist_of` acc /\ young cutoff held = young cutoff acc.

Lemma remembers_pruned k now cutoff tool acc l : (now - _window_duration k <= cutoff)%Z ->
  remembers cutoff acc (of_tool tool l) -> remembers cutoff acc (of_tool tool (pruned k now l)).
Proof.
  intros Hc [H1 H2]. split; [etrans; [apply pruned_sublist | done] | by rewrite young_pruned].
Qed.

Lemma run_remembers ops cutoff session tool acc k : dict_ok (_errors k) ->
  (forall o, o ∈ ops -> op_now o - _window_duration k <= cutoff)%Z ->
  remembers cutoff acc (held session tool k) ->
  remembers cutoff (times_from session tool acc ops) (held session tool (run ops k)) /\
  _max_errors_per_tool (run ops k) = _max_errors_per_tool k.
Proof.
  unfold run. revert acc k. induction ops as [|o ops IH]; intros acc k Hok Hnow Hr; [by split|].
  assert (Hw := run_op_limits o k). destruct Hw as [Hw Hm].
  assert (Ho : (op_now o - _window_duration k <= cutoff)%Z) by (apply Hnow; set_solver).
  simpl fold_left. rewrite <- Hm. destruct o as [stamp now s tl args msg c|now s|s]; simpl times_from;
    (apply IH; [by apply run_op_ok | intros o' Ho'; rewrite Hw; apply Hnow; set_solver |]);
    unfold held; fold (of_tool tool); simpl run_op.
  - destruct (errors_of_record stamp now s tl args msg c session k) as [n Hn]. rewrite Hn.
    rewrite (String.eqb_sym s session). destruct (String.eqb session s); simpl; [|done].
    apply remembers_pruned; [done|]. rewrite of_tool_app. unfold of_tool at 2. simpl.
    destruct (String.eqb tl tool); simpl; [|by rewrite app_nil_r].
    destruct Hr as [H1 H2]. split; [by apply sublist_app|].
    unfold held, young in *. fold (of_tool tool) in *. rewrite !List.filter_app. f_equal. exact H2.
  - rewrite errors_of_prune. destruct (String.eqb session s); [|done]. by apply remembers_pruned.
  - unfold reset_session, errors_of, dget_or. simpl. rewrite dget_ddel, (String.eqb_sym session s) by done.
    destruct (String.eqb s session); [split; [constructor | done] | done].
Qed.

(** The tracker forgets nothing that is still in its window: when at least
    as many errors of a tool as the limit have been recorded in a session since
    its reset within the window before the latest reading of the clock, the tool
    is blocked there; and it is never blocked on fewer errors than the limit in
    all, whatever happens in other sessions and to other tools. *)
Lemma frequent_errors_block (max_errors window_minutes now : Z) (ops : list op) (session tool : string) :
  (forall o, o ∈ ops -> (op_now o <= now)%Z) ->
  let k := run ops (init max_errors window_minutes) in
  let times := times_from session tool [] ops in
  ((max_errors <= Z.of_nat (length (young (now - minutes window_minutes) times)))%Z ->
     should_block_tool session tool k = true) /\
  ((Z.of_nat (length times) < max_errors)%Z -> should_block_tool session tool k = false).
Proof.
  intros Hnow k times.
  destruct (run_remembers ops (now - minutes window_minutes) session tool [] (init max_errors window_minutes))
    as [[H1 H2] Hm]; [apply NoDup_nil_2 | | by split |].
  { intros o Ho. simpl. specialize (Hnow o Ho). lia. }
  fold k times in H1, H2, Hm. simpl in Hm. unfold should_block_tool, is_error_rate_exceeded. rewrite Hm.
  assert (Hc : get_error_count session tool k = length (held session tool k))
    by (unfold get_error_count, held; by rewrite length_map).
  rewrite Hc. apply sublist_length in H1. split; intros H.
  - apply Z.leb_le. rewrite <- H2 in H. etrans; [exact H|]. apply inj_le. apply filter_length_le.
  - apply Z.leb_gt. lia.
Qed.

Lemma frequent_errors_block_witness :
  should_block_tool "s" "t"
    (run [Record_ 0 0 "s" "t" [] "e" TIMEOUT; Record_ 400000000 400000000 "s" "t" [] "e" TIMEOUT;
          Record_ 500000000 500000001 "s" "t" [] "e" UNKNOWN] (init 2 5)) = true.
Proof.
  apply (frequent_errors_block 2 5 500000001
    [Record_ 0 0 "s" "t" [] "e" TIMEOUT; Record_ 400000000 400000000 "s" "t" [] "e" TIMEOUT;
     Record_ 500000000 500000001 "s" "t" [] "e" UNKNOWN] "s" "t").
  - intros o Ho. set_unfold in Ho. destruct_or! Ho; subst; simpl; lia.
  - vm_compute. discriminate.
Defined.
End ErrorTracker.

(** ** The facade *)

Module Facade.

Record t := {
  tool_names : list json;
  required_steps : json;
  terminal_tool : json;
  prerequisites : json;
  max_prereq_violations : json;
  nudges : json;
  _state : jdict;
}.
Definition set_state (s : jdict) (g : t) : t :=
  {| tool_names := tool_names g; required_steps := required_steps g; terminal_tool := terminal_tool g;
     prerequisites := prerequisites g; max_prereq_violations := max_prereq_violations g; nudges := nudges g;
     _state := s |}.

Definition or_else (v default : json) : json := if py_truthy v then v else default.

(** [__init__]: [set(tool_names)] iterates and hashes. *)
Definition init (tools required terminal prereqs max_violations nudge_texts : json) : res exn t :=
  names ← py_iter tools;
  _ ← res_map any_hash names;
  Ok {| tool_names := names; required_steps := or_else required (JArr []); terminal_tool := terminal;
        prerequisites := or_else prereqs (JArr []); max_prereq_violations := max_violations;
        nudges := or_else nudge_texts (JObj []); _state := [] |}.

Definition from_config (config : jdict) : res exn t :=
  if negb (py_eq (jget config "version") (JInt 1)) then Raise (Exn ValueError "unsupported guardrails config version")
  else
    tools ← of_option (Exn KeyError "tool_names") (dget config "tool_names");
    init tools (jget config "required_steps") (jget config "terminal_tool") (jget config "prerequisites")
      (jget_or config "max_prereq_violations" (JInt 2)) (jget config "nudges").

(** [v.get(key)] for a key that is itself untyped: only a string can be one. *)
Definition get_by (v key : json) : res exn json :=
  match v with
  | JObj d => _ ← any_hash key; Ok match key with JStr k => jget d k | _ => JNull end
  | _ => attr_error "object has no attribute 'get'"
  end.

Definition nudge_key (outcome kind : string) : string :=
  if String.eqb outcome "fatal" then "fatal"
  else if String.eqb kind "step" then "step_blocked"
  else if String.eqb kind "unknown_tool" then "retry"
  else kind.

Definition with_nudge (g : t) (key : string) (result : jdict) : res exn jdict :=
  text ← any_get (nudges g) key JNull;
  Ok (if py_truthy text then dset result "nudge_text" text else result).

Definition _result (g : t) (outcome kind : string) (details : jdict) : res exn jdict :=
  with_nudge g (nudge_key outcome kind)
    (dset (dmerge [("outcome", JStr outcome)] details) "nudge_kind" (JStr kind)).

(** The first call whose tool is not a known name; its [tool], when there is
    one, is what is compared with [None]. *)
Definition unknown_tool (names calls : list json) : res exn json :=
  found ← res_find (fun call => tool ← any_get call "tool" JNull; known ← in_set tool names; Ok (negb known)) calls;
  match found with
  | None => Ok JNull
  | Some call => any_item call "tool"
  end.

(** [any(entry.get("tool") == step for entry in completed)]. *)
Definition completed_has (completed : json) (step : json) : res exn bool :=
  entries ← py_iter completed;
  res_any (fun entry => tool ← any_get entry "tool" JNull; Ok (py_eq tool step)) entries.

Definition missing_steps (g : t) (completed : json) : res exn (list json) :=
  steps ← py_iter (required_steps g);
  res_filter (fun step => has ← completed_has completed step; Ok (negb has)) steps.

Definition entry_satisfies (match_arg target prerequisite entry : json) : res exn bool :=
  tool ← any_get entry "tool" JNull;
  requires ← any_item prerequisite "requires";
  if negb (py_eq tool requires) then Ok false
  else if negb (py_truthy match_arg) then Ok true
  else
    args ← any_get entry "args" (JObj []);
    v ← get_by args match_arg;
    Ok (py_eq v target).

(** [true]: the prerequisite concerns this call and is not met. *)
Definition violates (completed call prerequisite : json) : res exn bool :=
  call_tool ← any_item call "tool";
  pre_tool ← any_item prerequisite "tool";
  if negb (py_eq call_tool pre_tool) then Ok false
  else
    match_arg ← any_get prerequisite "match_arg" JNull;
    target ← (if py_truthy match_arg then args ← any_get call "args" (JObj []); get_by args match_arg else Ok JNull);
    entries ← py_iter completed;
    found ← res_any (entry_satisfies match_arg target prerequisite) entries;
    Ok (negb found).

(** The nested loops over the calls and the prerequisites. *)
Fixpoint first_violation (g : t) (completed : json) (calls : list json) : res exn (option json) :=
  match calls with
  | [] => Ok None
  | call :: calls' =>
      prereqs ← py_iter (prerequisites g);
      found ← res_find (violates completed call) prereqs;
      match found with
      | Some p => Ok (Some p)
      | None => first_violation g completed calls'
      end
  end.

Definition check (response : jdict) (state : option jdict) : eff t exn jdict :=
  _ ← match state with Some s => eff_modify (set_state s) | None => mret tt end;
  g ← eff_get;
  let current := _state g in
  let calls_value := jget_or response "tool_calls" (JArr []) in
  calls ← eff_lift (py_iter calls_value);
  unknown ← eff_lift (unknown_tool (tool_names g) calls);
  if negb (is_null unknown) then eff_lift (_result g "retry" "unknown_tool" [])
  else
    let completed := jget_or current "completed_steps" (JArr []) in
    missing ← eff_lift (match calls with
      | [] => Ok []
      | call :: _ =>
          tool ← any_item call "tool";
          if py_eq tool (terminal_tool g) then missing_steps g completed else Ok []
      end);
    match missing with
    | _ :: _ => eff_lift (_result g "step_blocked" "step" [("missing_steps", JArr missing)])
    | [] =>
        violation ← eff_lift (first_violation g completed calls);
        match violation with
        | None => mret [("outcome", JStr "execute"); ("tool_calls", calls_value)]
        | Some p =>
            violations ← eff_lift (any_succ (jget_or current "prereq_violations" (JInt 0)));
            _ ← eff_modify (set_state (dset current "prereq_violations" violations));
            fatal ← eff_lift (any_gt violations (max_prereq_violations g));
            requires ← eff_lift (any_item p "requires");
            eff_lift (_result g (if (fatal : bool) then "fatal" else "retry") "prerequisite"
              [("missing_prerequisites", JArr [requires]); ("prereq_violations", violations)])
        end
    end.

Definition record (rec : jdict) (state : option jdict) : eff t exn jdict :=
  _ ← match state with Some s => eff_modify (set_state s) | None => mret tt end;
  g ← eff_get;
  let current := _state g in
  if negb (dmem rec "error") && negb (dmem rec "category") then
    done ← eff_lift (py_iter (jget_or current "completed_steps" (JArr [])));
    tool ← eff_lift (of_option (Exn KeyError "tool") (dget rec "tool"));
    let completed := JArr (done ++ [JObj [("tool", tool); ("args", jget_or rec "args" (JObj []))]]) in
    _ ← eff_modify (set_state (dset current "completed_steps" completed));
    mret [("outcome", JStr "recorded"); ("completed_steps", completed)]
  else
    errors ← eff_lift (py_iter (jget_or current "tool_errors" (JArr [])));
    tool ← eff_lift (of_option (Exn KeyError "tool") (dget rec "tool"));
    let errors := JArr (errors ++ [JObj [("tool", tool); ("category", jget_or rec "category" (JStr "unknown"))]]) in
    _ ← eff_modify (set_state (dset current "tool_errors" errors));
    eff_lift (with_nudge g "retry" [("outcome", JStr "recorded"); ("tool_errors", errors)]).

(** ** Specification on well-typed documents *)

Record prerequisite := { p_tool : string; p_requires : string; p_match_arg : option string }.
Record config := {
  c_names : list string; c_required : list string; c_terminal : option string;
  c_prerequisites : list prerequisite; c_max : Z; c_nudges : jdict }.
(** A call, or a completed step: a tool and its arguments. *)
Definition call : Type := string * jdict.

Definition of_call (c : call) : json := JObj [("tool", JStr c.1); ("args", JObj c.2)].
Definition of_prerequisite (p : prerequisite) : json :=
  JObj ([("tool", JStr (p_tool p)); ("requires", JStr (p_requires p))] ++
        match p_match_arg p with Some a => [("match_arg", JStr a)] | None => [] end).
Definition of_config (c : config) (state : jdict) : t :=
  {| tool_names := map JStr (c_names c); required_steps := JArr (map JStr (c_required c));
     terminal_tool := match c_terminal c with Some s => JStr s | None => JNull end;
     prerequisites := JArr (map of_prerequisite (c_prerequisites c)); max_prereq_violations := JInt (c_max c);
     nudges := JObj (c_nudges c); _state := state |}.

(** A completed step answers a prerequisite of a call: the right tool, with the
    call's value of the matched argument when there is one. *)
Definition answers (p : prerequisite) (c step : call) : bool :=
  String.eqb step.1 (p_requires p) &&
  match p_match_arg p with
  | Some a => negb (py_truthy_str a) || py_eq (jget step.2 a) (jget c.2 a)
  | None => true
  end.
Definition unmet (completed : list call) (c : call) (p : prerequisite) : bool :=
  String.eqb c.1 (p_tool p) && negb (existsb (answers p c) completed).
Definition done_step (completed : list call) (step : string) : bool := existsb (fun e => String.eqb e.1 step) completed.

Inductive verdict := VUnknown | VBlocked (missing : list string) | VPrereq (p : prerequisite) | VExecute.

Fixpoint first_unmet (cfg : config) (completed calls : list call) : option prerequisite :=
  match calls with
  | [] => None
  | c :: calls' =>
      match List.find (unmet completed c) (c_prerequisites cfg) with
      | Some p => Some p
      | None => first_unmet cfg completed calls'
      end
  end.
Definition missing_of (cfg : config) (completed calls : list call) : list string :=
  match calls with
  | c :: _ => if bool_decide (Some c.1 = c_terminal cfg)
              then List.filter (fun s => negb (done_step completed s)) (c_required cfg) else []
  | [] => []
  end.
Definition judge (cfg : config) (completed calls : list call) : verdict :=
  if negb (forallb (fun c : call => str_in c.1 (c_names cfg)) calls) then VUnknown
  else match missing_of cfg completed calls with
       | (_ :: _) as l => VBlocked l
       | [] => match first_unmet cfg completed calls with Some p => VPrereq p | None => VExecute end
       end.

(** ** Refinement *)

Definition match_arg_of (p : prerequisite) : json := match p_match_arg p with Some a => JStr a | None => JNull end.
Lemma call_tool c : any_item (of_call c) "tool" = Ok (JStr c.1).
Proof. done. Qed.
Lemma prerequisite_tool p : any_item (of_prerequisite p) "tool" = Ok (JStr (p_tool p)).
Proof. done. Qed.
Lemma prerequisite_match_arg p : any_get (of_prerequisite p) "match_arg" JNull = Ok (match_arg_of p).
Proof. unfold match_arg_of, of_prerequisite. by destruct (p_match_arg p). Qed.
Lemma bind_Ok {A B} (a : A) (f : A -> res exn B) : Ok a ≫= f = f a.
Proof. done. Qed.

Lemma names_exists s names : existsb (py_eq (JStr s)) (map JStr names) = str_in s names.
Proof. unfold str_in. induction names as [|n names IH]; [done|]. simpl. by rewrite <- IH. Qed.

Lemma unknown_spec names calls :
  unknown_tool (map JStr names) (map of_call calls) =
  Ok (match List.find (fun c : call => negb (str_in c.1 names)) calls with Some c => JStr c.1 | None => JNull end).
Proof.
  unfold unknown_tool.
  rewrite (res_find_pure _ (fun v => match v with JObj d => match jget d "tool" with JStr s => negb (str_in s names) | _ => true end | _ => true end)).
  - simpl. induction calls as [|c calls IH]; [done|]. simpl. destruct (str_in c.1 names); simpl; [exact IH | done].
  - intros v Hv. apply list_elem_of_fmap in Hv as (c & -> & _). simpl.
    do 2 f_equal. apply names_exists.
Qed.

Lemma completed_has_spec completed s :
  completed_has (JArr (map of_call completed)) (JStr s) = Ok (done_step completed s).
Proof.
  unfold completed_has, done_step. simpl.
  rewrite (res_any_pure _ (fun v => match v with JObj d => py_eq (jget d "tool") (JStr s) | _ => false end)).
  - f_equal. induction completed as [|c l IH]; [done|]. simpl. by rewrite IH.
  - intros v Hv. apply list_elem_of_fmap in Hv as (c & -> & _). done.
Qed.

Lemma filter_map_JStr (q : string -> bool) (l : list string) :
  List.filter (fun v => match v with JStr s => q s | _ => false end) (map JStr l) = map JStr (List.filter q l).
Proof. induction l as [|s l IH]; [done|]. simpl. rewrite IH. by destruct (q s). Qed.

Lemma missing_spec cfg state completed :
  missing_steps (of_config cfg state) (JArr (map of_call completed)) =
  Ok (map JStr (List.filter (fun s => negb (done_step completed s)) (c_required cfg))).
Proof.
  unfold missing_steps. simpl.
  rewrite (res_filter_pure _ (fun v => match v with JStr s => negb (done_step completed s) | _ => false end)).
  - by rewrite filter_map_JStr.
  - intros v Hv. apply list_elem_of_fmap in Hv as (s & -> & _). by rewrite completed_has_spec.
Qed.

Lemma entry_spec p c step :
  entry_satisfies (match p_match_arg p with Some a => JStr a | None => JNull end)
    (match p_match_arg p with Some a => if py_truthy_str a then jget c.2 a else JNull | None => JNull end)
    (of_prerequisite p) (of_call step) = Ok (answers p c step).
Proof.
  unfold entry_satisfies, answers, of_prerequisite. simpl. unfold dget_or. simpl.
  destruct (String.eqb step.1 (p_requires p)); simpl; [|done].
  destruct (p_match_arg p) as [a|]; [|done]. simpl. by destruct (py_truthy_str a).
Qed.

Lemma violates_spec completed c p :
  violates (JArr (map of_call completed)) (of_call c) (of_prerequisite p) = Ok (unmet completed c p).
Proof.
  unfold violates, unmet. rewrite call_tool, bind_Ok, prerequisite_tool, bind_Ok. simpl (py_eq _ _).
  destruct (String.eqb c.1 (p_tool p)); [|done]. simpl (negb true). cbv iota.
  rewrite prerequisite_match_arg, bind_Ok.
  assert (Ht : (if py_truthy (match_arg_of p) then args ← any_get (of_call c) "args" (JObj []); get_by args (match_arg_of p)
                else Ok JNull) =
               Ok (match p_match_arg p with Some a => if py_truthy_str a then jget c.2 a else JNull | None => JNull end)).
  { unfold match_arg_of. destruct (p_match_arg p) as [a|]; [|done]. simpl. by destruct (py_truthy_str a). }
  rewrite Ht, bind_Ok. simpl (py_iter _). rewrite bind_Ok.
  rewrite (res_any_pure _ (fun v => match v with
            | JObj (( _, JStr s) :: (_, JObj d) :: _) => answers p c (s, d) | _ => false end)).
  - simpl. do 2 f_equal. induction completed as [|e l IH]; [done|]. simpl. rewrite IH. by destruct e.
  - intros v Hv. apply list_elem_of_fmap in Hv as ([s d] & -> & _). by apply (entry_spec p c (s, d)).
Qed.

Lemma violation_spec cfg state completed calls :
  first_violation (of_config cfg state) (JArr (map of_call completed)) (map of_call calls) =
  Ok (of_prerequisite <$> first_unmet cfg completed calls).
Proof.
  induction calls as [|c calls IH]; [done|]. cbn [first_violation first_unmet map].
  simpl (py_iter _). unfold mbind at 1, res_bind at 1.
  assert (Hf : res_find (violates (JArr (map of_call completed)) (of_call c)) (map of_prerequisite (c_prerequisites cfg)) =
    Ok (of_prerequisite <$> List.find (unmet completed c) (c_prerequisites cfg))).
  { induction (c_prerequisites cfg) as [|p l IHl]; [done|]. cbn [map res_find List.find]. rewrite violates_spec.
    simpl. by destruct (unmet completed c p). }
  rewrite Hf. simpl. by destruct (List.find _ _).
Qed.

Lemma with_nudge_spec cfg state key r : exists r', with_nudge (of_config cfg state) key r = Ok r' /\
  forall k, k <> "nudge_text" -> dget r' k = dget r k.
Proof.
  unfold with_nudge. simpl. destruct (py_truthy _); eexists; (split; [reflexivity|]); [|done].
  intros k Hk. by apply dget_dset_ne.
Qed.

Lemma result_spec cfg state outcome kind details : dict_ok details -> dget details "outcome" = None ->
  exists r, _result (of_config cfg state) outcome kind details = Ok r /\ dget r "outcome" = Some (JStr outcome).
Proof.
  intros Hok Hd. unfold _result.
  destruct (with_nudge_spec cfg state (nudge_key outcome kind)
              (dset (dmerge [("outcome", JStr outcome)] details) "nudge_kind" (JStr kind))) as (r & Hr & Hk).
  exists r. split; [done|]. rewrite Hk by done. rewrite dget_dset_ne by done. by rewrite dget_dmerge, Hd.
Qed.

Definition outcome_of (cfg : config) (violations : Z) (v : verdict) : string :=
  match v with
  | VUnknown => "retry"
  | VBlocked _ => "step_blocked"
  | VPrereq _ => if (c_max cfg <? violations + 1)%Z then "fatal" else "retry"
  | VExecute => "execute"
  end.
Definition state_after (violations : Z) (v : verdict) (state : jdict) : jdict :=
  match v with VPrereq _ => dset state "prereq_violations" (JInt (violations + 1)) | _ => state end.

Lemma find_negb_forallb {A} (p : A -> bool) l :
  List.find (fun x => negb (p x)) l = None <-> forallb p l = true.
Proof. induction l as [|x l IH]; [done|]. simpl. by destruct (p x). Qed.

Lemma first_unmet_None cfg completed calls :
  first_unmet cfg completed calls = None <->
  forall c p, c ∈ calls -> p ∈ c_prerequisites cfg -> unmet completed c p = false.
Proof.
  induction calls as [|c calls IH]; simpl; [split; [set_solver | done]|].
  destruct (List.find (unmet completed c) (c_prerequisites cfg)) as [p|] eqn:Hf.
  - split; [done|]. intros H. apply find_some in Hf as [Hin Hu]. rewrite (H c p) in Hu; [done | set_solver |].
    by apply list_elem_of_In.
  - rewrite IH. split; intros H c' p Hc Hp; [|apply H; set_solver].
    apply elem_of_cons in Hc as [-> | Hc]; [|by apply H].
    apply (find_none _ _ Hf). by apply list_elem_of_In.
Qed.

Lemma judge_execute cfg completed calls :
  judge cfg completed calls = VExecute <->
  (forall c, c ∈ calls -> c.1 ∈ c_names cfg) /\ missing_of cfg completed calls = [] /\
  (forall c p, c ∈ calls -> p ∈ c_prerequisites cfg -> unmet completed c p = false).
Proof.
  unfold judge. rewrite <- first_unmet_None.
  assert (Hk : forallb (fun c : call => str_in c.1 (c_names cfg)) calls = true <-> forall c, c ∈ calls -> c.1 ∈ c_names cfg).
  { rewrite forallb_forall. split; intros H c Hc; apply str_in_spec, H; by apply list_elem_of_In. }
  rewrite <- Hk. destruct (forallb _ calls); simpl; [|by split; [|intros [? _]]].
  destruct (missing_of cfg completed calls); [|by split; [|intros (_ & ? & _)]].
  destruct (first_unmet cfg completed calls); [by split; [|intros (_ & _ & ?)] | done].
Qed.

Lemma check_judges (cfg : config) (g_state state : jdict) (completed calls : list call) (violations : Z) :
  jget_or state "completed_steps" (JArr []) = JArr (map of_call completed) ->
  jget_or state "prereq_violations" (JInt 0) = JInt violations ->
  let v := judge cfg completed calls in
  exists r, check [("tool_calls", JArr (map of_call calls))] (Some state) (of_config cfg g_state) =
      (Ok r, of_config cfg (state_after violations v state)) /\
    dget r "outcome" = Some (JStr (outcome_of cfg violations v)).
Proof.
  intros Hc Hv v. unfold check, mbind, eff_bind, eff_modify, eff_get, eff_lift.
  change (set_state state (of_config cfg g_state)) with (of_config cfg state).
  change (_state (of_config cfg state)) with state. unfold jget_or at 1. simpl (dget _ _). simpl (default _ _).
  cbn [py_iter]. cbv beta iota.
  change (tool_names (of_config cfg state)) with (map JStr (c_names cfg)). rewrite unknown_spec. cbv beta iota.
  unfold v, judge. destruct (List.find _ calls) as [c|] eqn:Hu.
  { destruct (forallb _ calls) eqn:Hall; [apply find_negb_forallb in Hall; congruence|]. simpl.
    destruct (result_spec cfg state "retry" "unknown_tool" []) as (r & Hr & Ho); [apply NoDup_nil_2 | done |].
    exists r. by rewrite Hr. }
  rewrite (proj1 (find_negb_forallb _ _) Hu). cbn [negb is_null]. cbv beta iota. rewrite Hc, Hv.
  assert (Hm : (match map of_call calls with
      | [] => Ok []
      | call :: _ =>
          tool ← any_item call "tool";
          if py_eq tool (terminal_tool (of_config cfg state)) then missing_steps (of_config cfg state) (JArr (map of_call completed)) else Ok []
      end) = Ok (map JStr (missing_of cfg completed calls))).
  { destruct calls as [|c calls]; [done|]. cbn [map]. rewrite call_tool, bind_Ok. unfold missing_of, of_config at 1.
    cbn [terminal_tool]. destruct (c_terminal cfg) as [s|]; [|by rewrite bool_decide_eq_false_2].
    cbn [py_eq]. destruct (String.eqb_spec c.1 s) as [->|Hne].
    - rewrite bool_decide_eq_true_2 by done. apply missing_spec.
    - rewrite bool_decide_eq_false_2 by congruence. done. }
  unfold mbind in Hm. rewrite Hm. clear Hm. cbv beta iota.
  destruct (missing_of cfg completed calls) as [|s l]; cbn [map]; cbv iota beta.
  - rewrite violation_spec. destruct (first_unmet cfg completed calls) as [p|]; simpl.
    + unfold any_gt. simpl. rewrite Z.compare_antisym.
      destruct (result_spec cfg (dset state "prereq_violations" (JInt (violations + 1)))
        (if (c_max cfg <? violations + 1)%Z then "fatal" else "retry") "prerequisite"
        [("missing_prerequisites", JArr [JStr (p_requires p)]); ("prereq_violations", JInt (violations + 1))])
        as (r & Hr & Ho); [repeat constructor; set_solver | done |].
      exists r. split; [|done]. rewrite <- Hr. unfold Z.ltb. by destruct (c_max cfg ?= violations + 1)%Z.
    + by eexists.
  - destruct (result_spec cfg state "step_blocked" "step" [("missing_steps", JArr (JStr s :: map JStr l))])
      as (r & Hr & Ho); [repeat constructor; set_solver | done |].
    exists r. by rewrite Hr.
Qed.

(** C20: the facade implements its specification on well-typed documents: it
    answers with the first of unknown tool, missing step, unmet prerequisite and
    execute; an unmet prerequisite counts a violation, fatal past the limit, and
    nothing else changes the state.  It answers execute exactly when every tool
    is known, a terminal call first has all its required steps completed, and
    every call has all its prerequisites answered. *)
Theorem check_refines_judge (cfg : config) (g_state state : jdict) (completed calls : list call) (violations : Z) :
  jget_or state "completed_steps" (JArr []) = JArr (map of_call completed) ->
  jget_or state "prereq_violations" (JInt 0) = JInt violations ->
  let v := judge cfg completed calls in
  exists r, check [("tool_calls", JArr (map of_call calls))] (Some state) (of_config cfg g_state) =
      (Ok r, of_config cfg (state_after violations v state)) /\
    dget r "outcome" = Some (JStr (outcome_of cfg violations v)) /\
    (dget r "outcome" = Some (JStr "execute") <->
     (forall c, c ∈ calls -> c.1 ∈ c_names cfg) /\ missing_of cfg completed calls = [] /\
     (forall c p, c ∈ calls -> p ∈ c_prerequisites cfg -> unmet completed c p = false)).
Proof.
  intros Hc Hv v. destruct (check_judges cfg g_state state completed calls violations Hc Hv) as (r & Hr & Ho).
  exists r. split; [done|]. split; [done|]. rewrite Ho, <- judge_execute. fold v.
  split; [|by intros ->]. intros [= H]. unfold outcome_of in H. destruct v; try done.
  by destruct (_ <? _)%Z.
Qed.

Definition ex_config : config :=
  {| c_names := ["search"; "read"; "submit"]; c_required := ["read"]; c_terminal := Some "submit";
     c_prerequisites := [{| p_tool := "read"; p_requires := "search"; p_match_arg := Some "path" |}];
     c_max := 1; c_nudges := [("fatal", JStr "stop")] |}.
Definition ex_state : jdict :=
  [("completed_steps", JArr [of_call ("search", [("path", JStr "a")])]); ("prereq_violations", JInt 1)].

Lemma check_refines_judge_witness :
  exists r, check [("tool_calls", JArr [of_call ("read", [("path", JStr "b")])])] (Some ex_state) (of_config ex_config []) =
      (Ok r, of_config ex_config (dset ex_state "prereq_violations" (JInt 2))) /\
    dget r "outcome" = Some (JStr "fatal").
Proof.
  destruct (check_refines_judge ex_config [] ex_state [("search", [("path", JStr "a")])] [("read", [("path", JStr "b")])] 1
    eq_refl eq_refl) as (r & Hr & Ho & _).
  exists r. split; [exact Hr | exact Ho].
Defined.

(** A call whose tool is null hides the unknown tools after it: the first match
    has the value that stands for none. *)
Example null_tool_hides_unknown :
  fst <$> [check [("tool_calls", JArr [JObj [("tool", JNull)]; JObj [("tool", JStr "rm")]])] (Some [])
    (of_config {| c_names := ["search"]; c_required := []; c_terminal := Some "submit"; c_prerequisites := [];
                  c_max := 1; c_nudges := [] |} [])] =
  [Ok [("outcome", JStr "execute"); ("tool_calls", JArr [JObj [("tool", JNull)]; JObj [("tool", JStr "rm")]])]].
Proof. reflexivity. Qed.

End Facade.
