(* ===== verification/Jobs.v ===== *)
(** * Jobs

    [jobs/job.py] and [jobs/manager.py]: the store of asynchronous agent tasks.
    The lock makes each method one atomic step; the clock readings are its
    arguments (microseconds of [datetime.now()]).  The manager hands out the job
    objects themselves; a job is read here at the moment of the call. *)
From Stdlib Require Import ZArith Lia Ascii String.
From stdpp Require Import base tactics list strings.
From S2P Require Import Prelude PyStr PyFloat Json JsonFacts Types PyTime.

Inductive JobStatus := PENDING | RUNNING | COMPLETE | FAILED | CANCELED.
#[global] Instance JobStatus_eq_dec : EqDecision JobStatus.
Proof. solve_decision. Defined.
Definition job_status_value (s : JobStatus) : string :=
  match s with
  | PENDING => "pending" | RUNNING => "running" | COMPLETE => "complete" | FAILED => "failed" | CANCELED => "canceled"
  end.

Record Job := {
  j_id : string; j_status : JobStatus; j_description : string;
  j_created_at : Z; j_updated_at : Z; j_result : string; j_error : string }.

(** [isoformat] of the two times is an argument. *)
Definition job_to_dict (iso : Z -> string) (j : Job) : jdict :=
  [("id", JStr (j_id j)); ("status", JStr (job_status_value (j_status j))); ("description", JStr (j_description j));
   ("created_at", JStr (iso (j_created_at j))); ("updated_at", JStr (iso (j_updated_at j)));
   ("result", JStr (j_result j)); ("error", JStr (j_error j))].

Record InMemoryJobManager := { _jobs : dict Job; _counter : Z }.
Definition new_manager : InMemoryJobManager := {| _jobs := []; _counter := 0 |}.

(** [now.strftime('%Y%m%d%H%M%S')] and [f"{n:04d}"]. *)
Definition job_stamp (now : Z) : string :=
  let c := civil_of_wall now in
  String.append (int_str (tm_year c))
    (str_join (map pad2 [tm_month c; tm_day c; tm_hour c; tm_min c; tm_sec c])).
Fixpoint zero_fill (n : nat) (s : string) : string :=
  match n with O => s | S n' => String "0" (zero_fill n' s) end.
Definition pad04 (n : Z) : string := let s := int_str n in zero_fill (4 - String.length s) s.
Definition job_id_of (now counter : Z) : string := String.append (job_stamp now) (String "-" (pad04 counter)).

Definition create (now1 now2 : Z) (description : string) : eff InMemoryJobManager exn string := fun m =>
  let counter := (_counter m + 1)%Z in
  let id := job_id_of now1 counter in
  let job := {| j_id := id; j_status := PENDING; j_description := description; j_created_at := now2;
                j_updated_at := now2; j_result := ""; j_error := "" |} in
  (Ok id, {| _jobs := dset (_jobs m) id job; _counter := counter |}).

Definition not_found (job_id : string) : exn := Exn KeyError (String.append "job not found: " job_id).

(** The body the four transitions share: look the job up, write to it. *)
Definition update_job (job_id : string) (f : Job -> Job) : eff InMemoryJobManager exn unit := fun m =>
  match dget (_jobs m) job_id with
  | None => (Raise (not_found job_id), m)
  | Some j => (Ok tt, {| _jobs := dset (_jobs m) job_id (f j); _counter := _counter m |})
  end.
Definition set_status (s : JobStatus) (result error : string) (now : Z) (j : Job) : Job :=
  {| j_id := j_id j; j_status := s; j_description := j_description j; j_created_at := j_created_at j;
     j_updated_at := now; j_result := result; j_error := error |}.

Definition start (now : Z) (job_id : string) : eff InMemoryJobManager exn unit :=
  update_job job_id (fun j => set_status RUNNING (j_result j) (j_error j) now j).
Definition complete (now : Z) (job_id result : string) : eff InMemoryJobManager exn unit :=
  update_job job_id (fun j => set_status COMPLETE result (j_error j) now j).
Definition fail (now : Z) (job_id error : string) : eff InMemoryJobManager exn unit :=
  update_job job_id (fun j => set_status FAILED (j_result j) error now j).
Definition cancel (now : Z) (job_id : string) : eff InMemoryJobManager exn unit :=
  update_job job_id (fun j => set_status CANCELED (j_result j) (j_error j) now j).

Definition get (job_id : string) (m : InMemoryJobManager) : res exn Job :=
  of_option (not_found job_id) (dget (_jobs m) job_id).
Definition list_jobs (status : option JobStatus) (m : InMemoryJobManager) : list Job :=
  match status with
  | None => dvals (_jobs m)
  | Some s => List.filter (fun j => bool_decide (j_status j = s)) (dvals (_jobs m))
  end.

(** ** Histories *)

Inductive op :=
| OCreate (now1 now2 : Z) (description : string)
| OStart (now : Z) (id : string)
| OComplete (now : Z) (id result : string)
| OFail (now : Z) (id error : string)
| OCancel (now : Z) (id : string).

Definition run_op (o : op) (m : InMemoryJobManager) : InMemoryJobManager :=
  match o with
  | OCreate n1 n2 d => (create n1 n2 d m).2
  | OStart n i => (start n i m).2
  | OComplete n i r => (complete n i r m).2
  | OFail n i e => (fail n i e m).2
  | OCancel n i => (cancel n i m).2
  end.
Definition run (ops : list op) : InMemoryJobManager := fold_left (fun m o => run_op o m) ops new_manager.

(** The specification: the identifiers created, in order, and the status the
    last operation on one gave it. *)
Fixpoint created (counter : Z) (ops : list op) : list string :=
  match ops with
  | [] => []
  | OCreate n1 _ _ :: ops' => job_id_of n1 (counter + 1) :: created (counter + 1) ops'
  | _ :: ops' => created counter ops'
  end.
Definition op_status (id : string) (o : op) : option JobStatus :=
  match o with
  | OCreate _ _ _ => None
  | OStart _ i => if String.eqb i id then Some RUNNING else None
  | OComplete _ i _ => if String.eqb i id then Some COMPLETE else None
  | OFail _ i _ => if String.eqb i id then Some FAILED else None
  | OCancel _ i => if String.eqb i id then Some CANCELED else None
  end.
(** Operations before the creation of [id] do not touch it. *)
Fixpoint status_of (id : string) (counter : Z) (current : option JobStatus) (ops : list op) : option JobStatus :=
  match ops with
  | [] => current
  | OCreate n1 _ _ :: ops' =>
      status_of id (counter + 1) (if String.eqb (job_id_of n1 (counter + 1)) id then Some PENDING else current) ops'
  | o :: ops' =>
      status_of id counter
        (match current, op_status id o with Some _, Some s => Some s | _, _ => current end) ops'
  end.

(** ** Identifiers are fresh *)

Lemma int_str_digits n : (0 <= n)%Z -> str_forall is_digit (int_str n) = true /\ digits_val 0 (int_str n) = n.
Proof.
  intros Hn. destruct n as [|p|p]; [done | | lia].
  destruct (int_str_pos p) as (a & d & -> & Ha & _ & Hd & Hv & _). split; [|done]. simpl. by rewrite Ha.
Qed.

Lemma pad04_digits n : (0 <= n)%Z -> str_forall is_digit (pad04 n) = true /\ digits_val 0 (pad04 n) = n.
Proof.
  intros Hn. unfold pad04. destruct (int_str_digits n Hn) as [Hd Hv].
  induction (4 - String.length (int_str n)) as [|k IH]; simpl; [by split | exact IH].
Qed.

Lemma suffix_unique a1 a2 d1 d2 : str_forall is_digit d1 = true -> str_forall is_digit d2 = true ->
  String.append a1 (String "-" d1) = String.append a2 (String "-" d2) -> d1 = d2.
Proof.
  assert (Hno : forall a d e, str_forall is_digit d = true -> d <> String.append a (String "-" e)).
  { intros a d e Hd ->. rewrite str_forall_app in Hd. apply andb_true_iff in Hd as [_ Hd]. done. }
  intros H1 H2. revert a2. induction a1 as [|x a1 IH]; intros [|y a2]; simpl; intros H.
  - by injection H.
  - injection H as _ H. by destruct (Hno a2 d1 d2 H1).
  - injection H as _ H. symmetry in H. by destruct (Hno a1 d2 d1 H2).
  - injection H as _ H. by apply (IH a2).
Qed.

Lemma job_id_inj n1 c1 n2 c2 : (0 <= c1)%Z -> (0 <= c2)%Z -> job_id_of n1 c1 = job_id_of n2 c2 -> c1 = c2.
Proof.
  intros H1 H2 H. destruct (pad04_digits c1 H1) as [D1 V1], (pad04_digits c2 H2) as [D2 V2].
  apply suffix_unique in H; [|done..]. congruence.
Qed.

(** ** The store *)

Lemma dkeys_dset_mem {V} (d : dict V) k v : is_Some (dget d k) -> dkeys (dset d k v) = dkeys d.
Proof. intros H. rewrite dkeys_dset. unfold dmem. by rewrite bool_decide_eq_true_2. Qed.

Lemma update_job_keys id f m : dkeys (_jobs (update_job id f m).2) = dkeys (_jobs m) /\
  _counter (update_job id f m).2 = _counter m.
Proof.
  unfold update_job. destruct (dget (_jobs m) id) as [j|] eqn:H; [|done]. split; [|done].
  apply dkeys_dset_mem. by exists j.
Qed.

(** The identifiers in the store come from counters up to the current one. *)
Definition inv (m : InMemoryJobManager) : Prop :=
  (0 <= _counter m)%Z /\ NoDup (dkeys (_jobs m)) /\
  forall k, k ∈ dkeys (_jobs m) -> exists n c, k = job_id_of n c /\ (1 <= c <= _counter m)%Z.

Lemma fresh_id m now : inv m -> dget (_jobs m) (job_id_of now (_counter m + 1)) = None.
Proof.
  intros (H0 & _ & Hk). apply dget_None. intros Hin. destruct (Hk _ Hin) as (n & c & Heq & Hc).
  apply job_id_inj in Heq; lia.
Qed.

Lemma create_keys n1 n2 d m : inv m ->
  dkeys (_jobs (create n1 n2 d m).2) = dkeys (_jobs m) ++ [job_id_of n1 (_counter m + 1)].
Proof. intros H. simpl. rewrite dkeys_dset. unfold dmem. rewrite fresh_id by done. by rewrite bool_decide_eq_false_2. Qed.

Lemma run_op_inv o m : inv m -> inv (run_op o m).
Proof.
  intros Hi. pose proof Hi as (H0 & Hnd & Hk).
  destruct o as [n1 n2 d|n i|n i r|n i e|n i]; cbn [run_op];
    [|unfold inv, start, complete, fail, cancel; match goal with |- context [update_job ?a ?b m] =>
        destruct (update_job_keys a b m) as [-> ->] end; done..].
  unfold inv. rewrite create_keys by done. simpl (_counter _). split_and!; [lia | |].
  - apply NoDup_app. split_and!; [done | | apply NoDup_singleton].
    intros k Hin Hk'. apply list_elem_of_singleton in Hk'. subst.
    pose proof (fresh_id m n1 Hi) as Hf. by apply dget_None in Hf.
  - intros k [Hin|Hin]%elem_of_app.
    + destruct (Hk k Hin) as (n & c & -> & Hc). exists n, c. split; [done | lia].
    + apply list_elem_of_singleton in Hin. subst. exists n1, (_counter m + 1)%Z. split; [done | lia].
Qed.

Lemma run_snoc ops o : run (ops ++ [o]) = run_op o (run ops).
Proof. unfold run. by rewrite fold_left_app. Qed.

Lemma inv_run_from ops m : inv m -> inv (fold_left (fun m o => run_op o m) ops m).
Proof. revert m. induction ops as [|o ops IH]; intros m H; [done|]. apply IH. by apply run_op_inv. Qed.

Definition job_status (id : string) (m : InMemoryJobManager) : option JobStatus := j_status <$> dget (_jobs m) id.

Lemma update_job_status i f s m id : (forall j, j_status (f j) = s) ->
  job_status id (update_job i f m).2 =
  match job_status id m, (if String.eqb i id then Some s else None) with Some _, Some s => Some s | _, _ => job_status id m end.
Proof.
  intros Hf. unfold job_status, update_job. destruct (dget (_jobs m) i) as [j|] eqn:Hj; simpl.
  - rewrite dget_dset, (String.eqb_sym id i). destruct (String.eqb_spec i id) as [->|]; [|by destruct (dget _ id)].
    rewrite Hj. simpl. by rewrite Hf.
  - destruct (String.eqb_spec i id) as [->|]; [by rewrite Hj | by destruct (dget _ id)].
Qed.

Lemma run_op_status o m id : inv m ->
  job_status id (run_op o m) =
  match o with
  | OCreate n1 _ _ => if String.eqb (job_id_of n1 (_counter m + 1)) id then Some PENDING else job_status id m
  | _ => match job_status id m, op_status id o with Some _, Some s => Some s | _, _ => job_status id m end
  end.
Proof.
  intros Hi. destruct o as [n1 n2 d|n i|n i r|n i e|n i]; cbn [run_op op_status];
    [|unfold start, complete, fail, cancel; by apply update_job_status..].
  unfold job_status. simpl. rewrite dget_dset, (String.eqb_sym id). by destruct (String.eqb _ id).
Qed.

Lemma run_op_keys o m : inv m ->
  dkeys (_jobs (run_op o m)) = dkeys (_jobs m) ++ created (_counter m) [o] /\
  _counter (run_op o m) = (match o with OCreate _ _ _ => _counter m + 1 | _ => _counter m end)%Z.
Proof.
  intros Hi. destruct o as [n1 n2 d|n i|n i r|n i e|n i]; cbn [run_op created];
    [split; [by apply create_keys | done] |
     rewrite app_nil_r; unfold start, complete, fail, cancel; apply update_job_keys..].
Qed.

Lemma run_from ops m id : inv m ->
  let m' := fold_left (fun m o => run_op o m) ops m in
  dkeys (_jobs m') = dkeys (_jobs m) ++ created (_counter m) ops /\
  job_status id m' = status_of id (_counter m) (job_status id m) ops.
Proof.
  revert m. induction ops as [|o ops IH]; intros m Hi; [simpl; by rewrite app_nil_r|].
  destruct (run_op_keys o m Hi) as [Hk Hc]. pose proof (run_op_status o m id Hi) as Hs.
  destruct (IH (run_op o m) (run_op_inv o m Hi)) as [IH1 IH2]. cbn [fold_left]. split.
  - rewrite IH1, Hk, Hc, <- (assoc_L (++)). f_equal. by destruct o.
  - rewrite IH2, Hs, Hc. by destruct o.
Qed.

Lemma list_jobs_status s m j : NoDup (dkeys (_jobs m)) ->
  j ∈ list_jobs (Some s) m <-> exists id, dget (_jobs m) id = Some j /\ j_status j = s.
Proof.
  intros Hnd. unfold list_jobs, dvals. rewrite list_elem_of_In, filter_In, bool_decide_eq_true, <- list_elem_of_In.
  split.
  - intros [H Hs]. apply list_elem_of_fmap in H as ([id j'] & -> & Hin). exists id. split; [|done].
    clear Hs. unfold dkeys in Hnd. induction (_jobs m) as [|[k v] d IH]; [by apply elem_of_nil in Hin|]. simpl in *.
    apply NoDup_cons in Hnd as [Hn Hnd]. apply elem_of_cons in Hin as [Heq|Hin].
    + injection Heq as -> ->. by rewrite String.eqb_refl.
    + destruct (String.eqb_spec id k) as [->|]; [|by apply IH].
      destruct Hn. apply list_elem_of_fmap. by exists (k, j').
  - intros (id & Hid & Hs). split; [|done]. apply dget_In in Hid. apply list_elem_of_fmap. by exists (id, j).
Qed.

(** The store holds one job per creation, in order, whatever the clocks say:
    identifiers never collide; a job has the status of the last operation on it,
    any status may follow any other, an operation on an unknown identifier raises
    and changes nothing, and a listing by status is exact. *)
Lemma store_follows_history (ops : list op) (id : string) :
  let m := run ops in
  dkeys (_jobs m) = created 0 ops /\ NoDup (created 0 ops) /\
  j_status <$> dget (_jobs m) id = status_of id 0 None ops /\
  (id ∉ created 0 ops -> forall now, get id m = Raise (not_found id) /\ start now id m = (Raise (not_found id), m)) /\
  (forall s j, j ∈ list_jobs (Some s) m <-> exists k, dget (_jobs m) k = Some j /\ j_status j = s).
Proof.
  assert (Hi : inv new_manager) by (split_and!; [simpl; lia | apply NoDup_nil_2 | intros k Hk; by apply elem_of_nil in Hk]).
  pose proof (inv_run_from ops _ Hi) as (_ & Hnd & _). destruct (run_from ops new_manager id Hi) as [H1 H2].
  intros m. fold (run ops) in H1, H2, Hnd. fold m in H1, H2, Hnd. simpl in H1.
  split_and!; [done | by rewrite <- H1 | done | | intros s j; by apply list_jobs_status].
  rewrite <- H1. intros Hn now. apply dget_None in Hn. unfold get, start, update_job. by rewrite Hn.
Qed.

Example two_jobs :
  let ops := [OCreate 0 0 "a"; OCreate 0 0 "b"; OComplete 5 "19700101000000-0001" "r"; OStart 6 "19700101000000-0001"] in
  created 0 ops = ["19700101000000-0001"; "19700101000000-0002"] /\
  status_of "19700101000000-0001" 0 None ops = Some RUNNING.
Proof. split; vm_compute; reflexivity. Qed.
