(* ===== verification/Executor.v ===== *)
(** * The agent loop

    [executor/executor.py], [InferenceExecutor.execute]: ask the backend, run the
    tool calls it makes, and go round until it answers without one.  The backend
    and the tool executor are arguments that act on a world of their own; what
    either raises leaves the loop. *)
From Stdlib Require Import ZArith Lia.
From stdpp Require Import base tactics list strings.
From S2P Require Import Prelude PyStr Json Types Messages.

Inductive TerminationReason := T_COMPLETE | T_MAX_ITERATIONS | T_ERROR | T_CANCELED.
#[global] Instance TerminationReason_eq_dec : EqDecision TerminationReason.
Proof. solve_decision. Defined.

Record ExecuteRequest := {
  rq_system_prompt : string; rq_user_message : string; rq_history : list Message; rq_max_iterations : Z;
  rq_caller_ctx : CallerContext; rq_job_id : string }.
Record ExecuteResult := {
  rs_final_response : string; rs_iterations : Z; rs_tool_calls_made : Z;
  rs_termination_reason : TerminationReason; rs_conversation : list Message }.

Section Executor.
Context {X : Type} (complete : list Message -> eff X exn Response)
  (run_tool : string -> json -> CallerContext -> eff X exn (json * bool * json))
  (config_max_iterations : Z).

(** [f"Tool {name} result: {result if success else error}"]. *)
Definition tool_message (tc : ToolCall) (answer : json * bool * json) : Message :=
  let '(result, success, error) := answer in
  {| msg_role := R_TOOL;
     msg_content := String.append "Tool " (String.append (tc_name tc)
       (String.append " result: " (py_str (if (success : bool) then result else error))));
     msg_tool_call_id := tc_id tc; msg_tool_calls := []; msg_meta := MessageMeta_default |}.

(** The calls of one response, in order; each answer extends the conversation. *)
Fixpoint run_calls (caller : CallerContext) (calls : list ToolCall) (conversation : list Message) : eff X exn (list Message) :=
  match calls with
  | [] => mret conversation
  | tc :: calls' =>
      answer ← run_tool (tc_name tc) (tc_arguments tc) caller;
      run_calls caller calls' (conversation ++ [tool_message tc answer])
  end.

(** The local variables of the loop. *)
Record Loop := { lp_conversation : list Message; lp_iterations : Z; lp_tool_calls_made : Z; lp_final : string }.

(** [fuel] bounds the turns: [max_iters - iterations] of them are left. *)
Fixpoint turns (fuel : nat) (caller : CallerContext) (l : Loop) : eff X exn Loop :=
  match fuel with
  | O => mret l
  | S fuel' =>
      response ← complete (lp_conversation l);
      match rsp_tool_calls response with
      | [] => mret {| lp_conversation := lp_conversation l; lp_iterations := lp_iterations l;
                      lp_tool_calls_made := lp_tool_calls_made l; lp_final := rsp_content response |}
      | calls =>
          conversation ← run_calls caller calls (lp_conversation l);
          turns fuel' caller
            {| lp_conversation := conversation; lp_iterations := lp_iterations l + 1;
               lp_tool_calls_made := lp_tool_calls_made l + Z.of_nat (length calls); lp_final := lp_final l |}
      end
  end.

Definition opening (req : ExecuteRequest) : list Message :=
  mk_message R_SYSTEM (rq_system_prompt req) :: rq_history req ++ [mk_message R_USER (rq_user_message req)].
Definition max_iters (req : ExecuteRequest) : Z :=
  if (rq_max_iterations req =? 0)%Z then config_max_iterations else rq_max_iterations req.

Definition execute (req : ExecuteRequest) : eff X exn ExecuteResult :=
  l ← turns (Z.to_nat (max_iters req)) (rq_caller_ctx req)
        {| lp_conversation := opening req; lp_iterations := 0; lp_tool_calls_made := 0; lp_final := "" |};
  mret {| rs_final_response := lp_final l; rs_iterations := lp_iterations l;
          rs_tool_calls_made := lp_tool_calls_made l;
          rs_termination_reason :=
            if (max_iters req <=? lp_iterations l)%Z then T_MAX_ITERATIONS
            else if py_truthy_str (lp_final l) then T_COMPLETE else T_ERROR;
          rs_conversation := lp_conversation l |}.

(** ** What a run leaves behind *)

(** A message that answers a call. *)
Definition answers_call (tc : ToolCall) (m : Message) : Prop := exists answer, m = tool_message tc answer.

Lemma run_calls_spec caller calls conversation x out x' :
  run_calls caller calls conversation x = (Ok out, x') ->
  exists ms, out = conversation ++ ms /\ Forall2 answers_call calls ms.
Proof.
  revert conversation x. induction calls as [|tc calls IH]; intros conversation x; simpl.
  - intros [= <- <-]. exists []. by rewrite app_nil_r.
  - unfold mbind, eff_bind. destruct (run_tool _ _ _ x) as [[answer|e] x1]; [|done].
    intros H. destruct (IH _ _ H) as (ms & -> & Hms).
    exists (tool_message tc answer :: ms). rewrite <- (assoc_L (++)). split; [done|].
    constructor; [by exists answer | done].
Qed.

(** The turns that made calls, each with the conversation the backend saw and
    the calls it made. *)
Inductive transcript : list Message -> list (list ToolCall) -> list Message -> Prop :=
| transcript_nil c : transcript c [] c
| transcript_turn c calls ms rest out :
    calls <> [] -> Forall2 answers_call calls ms -> transcript (c ++ ms) rest out ->
    transcript c (calls :: rest) out.

Lemma turns_spec fuel caller l x l' x' : turns fuel caller l x = (Ok l', x') ->
  exists rounds, transcript (lp_conversation l) rounds (lp_conversation l') /\
    lp_iterations l' = (lp_iterations l + Z.of_nat (length rounds))%Z /\
    lp_tool_calls_made l' = (lp_tool_calls_made l + Z.of_nat (length (concat rounds)))%Z /\
    length rounds <= fuel /\
    (length rounds = fuel /\ lp_final l' = lp_final l \/
     length rounds < fuel /\
     exists response y, complete (lp_conversation l') y = (Ok response, x') /\
       rsp_tool_calls response = [] /\ lp_final l' = rsp_content response).
Proof.
  revert l x. induction fuel as [|fuel IH]; intros l x; cbn [turns].
  - intros [= <- <-]. exists []. simpl. split_and!; [constructor | lia | lia | lia | by left].
  - unfold mbind, eff_bind. destruct (complete _ x) as [[response|e] x1] eqn:Hc; [|done].
    destruct (rsp_tool_calls response) as [|tc calls] eqn:Ht.
    + intros [= <- <-]. exists []. simpl. split_and!; [constructor | lia | lia | lia |].
      right. split; [lia|]. by exists response, x.
    + cbv beta iota. destruct (run_calls caller (tc :: calls) (lp_conversation l) x1) as [[conv|e] x2] eqn:Hr; [|done].
      intros H. destruct (IH _ _ H) as (rounds & H1 & H2 & H3 & H4 & H5).
      destruct (run_calls_spec _ _ _ _ _ _ Hr) as (ms & -> & Hms).
      exists ((tc :: calls) :: rounds). simpl lp_conversation in H1. split_and!.
      * by econstructor.
      * simpl in *. lia.
      * simpl in *. rewrite length_app. lia.
      * simpl. lia.
      * simpl in *. destruct H5 as [[H5 H6]|[H5 H6]]; [left; split; [lia | done] | right; split; [lia | done]].
Qed.

(** A run ends within its iteration limit and reports what it did: after the
    system prompt, the history and the user message, the conversation holds
    exactly the answers to the calls of each round, in order, and as many calls
    are reported; the reason is [max_iterations] when every allowed round made
    calls, and otherwise the last completion made none and its text, when not
    empty, is the final response. *)
Lemma execute_reports_the_run (req : ExecuteRequest) (x x' : X) (r : ExecuteResult) :
  execute req x = (Ok r, x') ->
  exists rounds, transcript (opening req) rounds (rs_conversation r) /\
    rs_iterations r = Z.of_nat (length rounds) /\
    rs_tool_calls_made r = Z.of_nat (length (concat rounds)) /\
    (length rounds <= Z.to_nat (max_iters req)) /\
    (rs_termination_reason r = T_MAX_ITERATIONS <-> (max_iters req <= rs_iterations r)%Z) /\
    (rs_termination_reason r = T_MAX_ITERATIONS -> rs_final_response r = "") /\
    (rs_termination_reason r <> T_MAX_ITERATIONS ->
       (exists response y, complete (rs_conversation r) y = (Ok response, x') /\
          rsp_tool_calls response = [] /\ rs_final_response r = rsp_content response) /\
       (rs_termination_reason r = T_COMPLETE <-> rs_final_response r <> "")).
Proof.
  unfold execute, mbind, eff_bind. destruct (turns _ _ _ x) as [[l|e] x1] eqn:Ht; [|done].
  intros [= <- <-]. destruct (turns_spec _ _ _ _ _ _ Ht) as (rounds & H1 & H2 & H3 & H4 & H5).
  exists rounds. simpl in *. rewrite <- py_truthy_str_true.
  assert (Hi : lp_iterations l = Z.of_nat (length rounds)) by lia.
  destruct (Z.leb_spec (max_iters req) (lp_iterations l)) as [Hm|Hm].
  - destruct H5 as [[H5 H6]|[H5 _]]; [|lia]. by split_and!.
  - destruct H5 as [[H5 H6]|[H5 H6]]; [lia|]. split_and!; try done.
    + split; [by destruct (py_truthy_str _) | lia].
    + by destruct (py_truthy_str _).
    + intros _. split; [done|]. by destruct (py_truthy_str _).
Qed.

(** A measure of the world that counts the requests to the backend: each adds
    one, and tools leave it. *)
Section Counted.
Context (asked : X -> nat)
  (answers : forall conversation y, exists response y', complete conversation y = (Ok response, y') /\ asked y' = S (asked y))
  (runs : forall name args caller y, exists answer y', run_tool name args caller y = (Ok answer, y') /\ asked y' = asked y).

Lemma run_calls_counted caller calls : forall conversation y,
  exists out y', run_calls caller calls conversation y = (Ok out, y') /\ asked y' = asked y.
Proof using runs.
  induction calls as [|tc calls IH]; intros conversation y; simpl; [by do 2 eexists|].
  unfold mbind, eff_bind. destruct (runs (tc_name tc) (tc_arguments tc) caller y) as (answer & y1 & -> & <-). apply IH.
Qed.

Lemma turns_counted caller : forall fuel l y, exists n l' y', turns fuel caller l y = (Ok l', y') /\
  lp_iterations l' = (lp_iterations l + Z.of_nat n)%Z /\
  (n = fuel /\ asked y' = asked y + n \/ n < fuel /\ asked y' = asked y + n + 1).
Proof using answers runs.
  induction fuel as [|fuel IH]; intros l y; cbn [turns].
  { exists 0, l, y. split_and!; [done | lia | left; lia]. }
  unfold mbind, eff_bind. destruct (answers (lp_conversation l) y) as (response & y1 & -> & H1).
  destruct (rsp_tool_calls response) as [|tc calls].
  { exists 0. do 2 eexists. split; [reflexivity|]. simpl. split; [lia | right; lia]. }
  destruct (run_calls_counted caller (tc :: calls) (lp_conversation l) y1) as (out & y2 & -> & H2).
  edestruct IH as (n & l' & y' & Hrun & Hi & Hn). exists (S n), l', y'. split; [exact Hrun|].
  simpl in Hi. split; [lia | destruct Hn; [left | right]; lia].
Qed.

(** C37: the loop ends within its limit. With a backend and a tool executor that
    do not raise, [execute] always returns a result. The limit is the request's
    [max_iterations], or the configured one when that is 0. The result reports at
    most that many iterations; and the backend, by any count of the requests it
    gets, was asked once for each iteration reported and once more for the answer
    when the run ended before the limit, so never more often than the limit. *)
Theorem execute_terminates (req : ExecuteRequest) (x : X) :
  let limit := if (rq_max_iterations req =? 0)%Z then config_max_iterations else rq_max_iterations req in
  exists r x', execute req x = (Ok r, x') /\
    (0 <= rs_iterations r <= Z.max 0 limit)%Z /\
    asked x' = asked x + Z.to_nat (rs_iterations r)
                 + (if decide (rs_termination_reason r = T_MAX_ITERATIONS) then 0 else 1) /\
    asked x' <= asked x + Z.to_nat limit /\
    (rs_termination_reason r = T_MAX_ITERATIONS <-> (limit <= rs_iterations r)%Z).
Proof using answers runs.
  intros limit. change limit with (max_iters req). unfold execute, mbind, eff_bind.
  destruct (turns_counted (rq_caller_ctx req) (Z.to_nat (max_iters req))
    {| lp_conversation := opening req; lp_iterations := 0; lp_tool_calls_made := 0; lp_final := "" |} x)
    as (n & l & x' & -> & Hi & Hn). simpl in Hi.
  eexists _, _. split; [reflexivity|]. cbn [rs_iterations rs_termination_reason].
  destruct (Z.leb_spec (max_iters req) (lp_iterations l)) as [Hm|Hm].
  - rewrite decide_True by done. split_and!; try lia; done.
  - rewrite decide_False by (by destruct (py_truthy_str _)). split_and!; try lia.
    split; [by destruct (py_truthy_str _) | lia].
Qed.
End Counted.
End Executor.

(** ** A run: one call, then an answer *)

Definition ex_backend (c : list Message) : eff nat exn Response := fun n =>
  (Ok (if (n <? 1)%nat
       then {| rsp_content := ""; rsp_reasoning := ""; rsp_finish_reason := ""; rsp_usage_tokens := no_usage;
               rsp_tool_calls := [{| tc_id := "c1"; tc_name := "echo"; tc_arguments := JObj [] |}] |}
       else text_response "done"), S n).
Definition ex_tool (name : string) (args : json) (caller : CallerContext) : eff nat exn (json * bool * json) :=
  mret (JStr "hi", true, JNull).
Definition ex_request : ExecuteRequest :=
  {| rq_system_prompt := "sys"; rq_user_message := "do"; rq_history := []; rq_max_iterations := 0;
     rq_caller_ctx := CallerContext_default; rq_job_id := "" |}.

Lemma execute_reports_the_run_witness :
  exists r, execute ex_backend ex_tool 20 ex_request 0 = (Ok r, 2) /\
    rs_final_response r = "done" /\ rs_termination_reason r = T_COMPLETE /\
    map msg_content (rs_conversation r) = ["sys"; "do"; "Tool echo result: hi"] /\
    exists rounds, transcript (opening ex_request) rounds (rs_conversation r) /\
      rs_iterations r = Z.of_nat (length rounds).
Proof.
  destruct (execute ex_backend ex_tool 20 ex_request 0) as [[r|e] x] eqn:H; [|vm_compute in H; discriminate H].
  destruct (execute_reports_the_run ex_backend ex_tool 20 ex_request 0 x r H) as (rounds & H1 & H2 & _).
  exists r. split; [vm_compute in H; injection H as _ <-; reflexivity|].
  split; [vm_compute in H; injection H as <- _; reflexivity|].
  split; [vm_compute in H; injection H as <- _; reflexivity|].
  split; [vm_compute in H; injection H as <- _; reflexivity|].
  exists rounds. split; [exact H1 | exact H2].
Defined.

(** The world of the example is the number of requests. *)
Lemma execute_terminates_witness :
  exists r x', execute ex_backend ex_tool 20 ex_request 0 = (Ok r, x') /\ (rs_iterations r <= 20)%Z /\ x' <= 20.
Proof.
  destruct (execute_terminates ex_backend ex_tool 20 (fun n => n)
    (fun _ y => ltac:(by do 2 eexists)) (fun _ _ _ y => ltac:(by do 2 eexists)) ex_request 0)
    as (r & x' & Hrun & [_ Hi] & _ & Hx & _).
  exists r, x'. split; [exact Hrun|]. split; [exact Hi | exact Hx].
Defined.
