(* ===== verification/ResponseValidator.v ===== *)
(** * Tool calls out of a model's text

    [middleware/guardrails/response_validator.py]: a response is accepted when it
    names known tools only, and text is searched for calls written as JSON, as
    [name[ARGS]{...}], or in the Qwen XML format.  The set of tool names is the
    list of its members in the order in which it iterates. *)
From Stdlib Require Import ZArith Lia Ascii String.
From stdpp Require Import base tactics list strings.
From S2P Require Import Prelude PyStr Json JsonFacts Types Regex Guardrails.

Record GToolCall := { g_tool : string; g_args : json }.
Record ValidationResult := { v_tool_calls : list GToolCall; v_nudge : option Nudge; v_needs_retry : bool }.

Section Validator.
Context (word_char : string -> bool).

Record ResponseValidator := {
  rv_tool_names : list string;
  rv_rescue_enabled : bool;
  rv_retry_nudge_fn : string -> list string -> Nudge;
}.
Definition new_validator (tool_names : list string) (rescue_enabled : bool)
    (retry_nudge_fn : option (string -> list string -> Nudge)) : ResponseValidator :=
  {| rv_tool_names := tool_names; rv_rescue_enabled := rescue_enabled;
     rv_retry_nudge_fn := default retry_nudge retry_nudge_fn |}.

(** The compiled patterns. *)
Definition _think_pattern : regex :=
  RAlt (cats [ilit "[THINK]"; RStar false dot; ilit "[/THINK]"])
       (cats [ilit "<think>"; RStar false dot; ilit "</think>"]).
Definition _python_tag_pattern : regex := ilit "<|python_tag|>".
Definition _code_fence_pattern : regex :=
  cats [lit "```"; opt (lit "json"); RStar true (RChar is_space); opt (lit nl)].
Definition _rehearsal_pattern : regex :=
  cats [RGroup 1 (plus (RChar word_char)); lit "[ARGS]";
        RGroup 2 (cats [lit "{"; RStar false dot; lit "}"])].
Definition name_char (c : string) : bool := negb (String.eqb c ">") && negb (is_space c).
Definition _qwen_function_pattern : regex :=
  cats [lit "<function="; RGroup 1 (plus (RChar name_char)); lit ">"; RGroup 2 (RStar false any_char); lit "</function>"].
Definition _qwen_parameter_pattern : regex :=
  cats [lit "<parameter="; RGroup 1 (plus (RChar name_char)); lit ">"; RGroup 2 (RStar false any_char); lit "</parameter>"].

(** [a or b] on untyped values. *)
Definition or_any (a b : json) : json := if py_truthy a then a else b.

(** An unhashable name raises; a document that is not an object cannot occur, as
    the candidate begins with a brace. *)
Definition _try_parse_tool_call (v : ResponseValidator) (json_str : string) : res exn (option GToolCall) :=
  match json_loads json_str with
  | Some (JObj d) =>
      let tool_name := or_any (jget d "tool") (jget d "name") in
      if negb (py_truthy tool_name) then Ok None
      else
        _ ← any_hash tool_name;
        match tool_name with
        | JStr s =>
            if negb (str_in s (rv_tool_names v)) then Ok None
            else Ok (Some {| g_tool := s; g_args := or_any (or_any (jget d "args") (jget d "arguments")) (JObj []) |})
        | _ => Ok None
        end
  | Some _ => attr_error "object has no attribute 'get'"
  | None => Ok None
  end.

(** The inner loop, from an opening brace: the characters up to the brace that
    brings the depth back to zero, and the rest; [None] when none does. *)
Fixpoint balanced (depth : nat) (cs : list string) : option (list string * list string) :=
  match cs with
  | [] => None
  | c :: cs' =>
      let cont d := '(a, b) ← balanced d cs'; Some (c :: a, b) in
      if String.eqb c "{" then cont (S depth)
      else if String.eqb c "}" then
        match depth with
        | O | S O => Some ([c], cs')
        | S d => cont d
        end
      else cont depth
  end.

(** The outer loop.  An opening brace that is never closed is skipped. *)
Fixpoint scan_json (fuel : nat) (v : ResponseValidator) (cs : list string) : res exn (list GToolCall) :=
  match fuel, cs with
  | S fuel', c :: cs' =>
      if String.eqb c "{" then
        match balanced 0 cs with
        | Some (candidate, rest) =>
            call ← _try_parse_tool_call v (str_join candidate);
            calls ← scan_json fuel' v rest;
            Ok (match call with Some x => x :: calls | None => calls end)
        | None => scan_json fuel' v cs'
        end
      else scan_json fuel' v cs'
  | _, _ => Ok []
  end.
Definition _extract_json_tool_calls (v : ResponseValidator) (text : string) : res exn (list GToolCall) :=
  let cs := py_chars (py_strip (sub_empty _code_fence_pattern text)) in
  scan_json (length cs) v cs.

Definition rehearsal_call (v : ResponseValidator) (g : groups) : option GToolCall :=
  let name := str_join (group 1 g) in
  if negb (str_in name (rv_tool_names v)) then None
  else match json_loads (str_join (group 2 g)) with
       | Some (JObj d) => Some {| g_tool := name; g_args := JObj d |}
       | _ => None
       end.
Definition _extract_rehearsal_tool_calls (v : ResponseValidator) (text : string) : list GToolCall :=
  omap (rehearsal_call v) (findall _rehearsal_pattern text).

Definition qwen_args (body : string) : jdict :=
  foldl (fun args g =>
    dset args (str_join (group 1 g)) (JStr (py_removesuffix nl (py_removeprefix nl (str_join (group 2 g))))))
    [] (findall _qwen_parameter_pattern body).
Definition qwen_call (v : ResponseValidator) (g : groups) : option GToolCall :=
  let name := str_join (group 1 g) in
  if negb (str_in name (rv_tool_names v)) then None
  else Some {| g_tool := name; g_args := JObj (qwen_args (str_join (group 2 g))) |}.
Definition _extract_qwen_xml_tool_calls (v : ResponseValidator) (text : string) : list GToolCall :=
  omap (qwen_call v) (findall _qwen_function_pattern text).

Definition _rescue_tool_call (v : ResponseValidator) (response : string) : res exn (list GToolCall) :=
  let cleaned := py_strip (sub_empty _python_tag_pattern (sub_empty _think_pattern response)) in
  if negb (py_truthy_str cleaned) then Ok []
  else
    calls ← _extract_json_tool_calls v cleaned;
    match calls with
    | _ :: _ => Ok calls
    | [] =>
        match _extract_rehearsal_tool_calls v cleaned with
        | (_ :: _) as calls => Ok calls
        | [] => Ok (_extract_qwen_xml_tool_calls v cleaned)
        end
    end.

Definition validate_text_response (v : ResponseValidator) (response : string) : res exn ValidationResult :=
  rescued ← (if rv_rescue_enabled v then _rescue_tool_call v response else Ok []);
  Ok match rescued with
     | _ :: _ => {| v_tool_calls := rescued; v_nudge := None; v_needs_retry := false |}
     | [] => {| v_tool_calls := []; v_nudge := Some (rv_retry_nudge_fn v response (rv_tool_names v)); v_needs_retry := true |}
     end.

Definition validate_tool_calls (v : ResponseValidator) (calls : list GToolCall) : ValidationResult :=
  match List.filter (fun tc => negb (str_in (g_tool tc) (rv_tool_names v))) calls with
  | tc :: _ => {| v_tool_calls := []; v_nudge := Some (unknown_tool_nudge (g_tool tc) (rv_tool_names v)); v_needs_retry := true |}
  | [] => {| v_tool_calls := calls; v_nudge := None; v_needs_retry := false |}
  end.
End Validator.

Definition ascii_word (c : string) : bool :=
  match c with String a EmptyString => is_alnum a || Ascii.eqb a "_" | _ => false end.
Definition ex_validator : ResponseValidator := new_validator ["read"; "write"] true None.

Example rescue_json :
  v_tool_calls <$> [match validate_text_response ascii_word ex_validator
    (jq "Sure: <think>hm</think>```json {'tool': 'read', 'args': {'path': 'a'}} ``` {'name':'rm'} {'name':'write'}") with
    | Ok r => r | Raise _ => {| v_tool_calls := []; v_nudge := None; v_needs_retry := true |} end] =
  [[{| g_tool := "read"; g_args := JObj [("path", JStr "a")] |}; {| g_tool := "write"; g_args := JObj [] |}]].
Proof. vm_compute. reflexivity. Qed.
Example rescue_rehearsal :
  _extract_rehearsal_tool_calls ascii_word ex_validator (jq "I would read[ARGS]{'path': 'b'}.") =
  [{| g_tool := "read"; g_args := JObj [("path", JStr "b")] |}].
Proof. vm_compute. reflexivity. Qed.
Example rescue_qwen :
  _extract_qwen_xml_tool_calls ex_validator "<tool_call><function=read><parameter=path>a b</parameter></function>" =
  [{| g_tool := "read"; g_args := JObj [("path", JStr "a b")] |}].
Proof. vm_compute. reflexivity. Qed.
(** The scanner counts the braces inside strings too. *)
Example brace_in_string_is_lost :
  _extract_json_tool_calls ex_validator (jq "{'tool': 'write', 'args': {'text': 'if (x) }'}}") = Ok [].
Proof. vm_compute. reflexivity. Qed.

(** ** Only known tools *)

Definition known (v : ResponseValidator) (calls : list GToolCall) : Prop :=
  Forall (fun tc => g_tool tc ∈ rv_tool_names v) calls.

Section Facts.
Context (word_char : string -> bool) (v : ResponseValidator).

Lemma try_parse_known s tc : _try_parse_tool_call v s = Ok (Some tc) -> g_tool tc ∈ rv_tool_names v.
Proof.
  unfold _try_parse_tool_call. intros H. destruct (json_loads s) as [[]|]; try done.
  destruct (negb (py_truthy _)); [done|]. res_inv. destruct (or_any _ _) as [| | | |name| |]; try done.
  destruct (str_in name (rv_tool_names v)) eqn:Hn; [|done]. injection H as <-. by apply str_in_spec.
Qed.

Lemma scan_known fuel cs calls : scan_json fuel v cs = Ok calls -> known v calls.
Proof.
  revert cs calls. induction fuel as [|fuel IH]; intros cs calls; [intros [= <-]; constructor|].
  destruct cs as [|c cs]; [intros [= <-]; constructor|]. cbn [scan_json].
  destruct (String.eqb c "{"); [|apply IH]. destruct (balanced 0 (c :: cs)) as [[candidate rest]|]; [|apply IH].
  intros H. res_inv. apply IH in Hr0. destruct a as [tc|]; [|done]. constructor; [by eapply try_parse_known | done].
Qed.

Lemma omap_known {A} (f : A -> option GToolCall) l :
  (forall x tc, f x = Some tc -> g_tool tc ∈ rv_tool_names v) -> known v (omap f l).
Proof.
  intros Hf. induction l as [|x l IH]; csimpl; [constructor|].
  destruct (f x) as [tc|] eqn:Hx; csimpl; [|done]. constructor; [by eapply Hf | done].
Qed.

Lemma rescue_known s calls : _rescue_tool_call word_char v s = Ok calls -> known v calls.
Proof.
  unfold _rescue_tool_call. destruct (negb _); [intros [= <-]; constructor|]. intros H. res_inv.
  destruct a as [|tc a].
  - destruct (_extract_rehearsal_tool_calls _ _ _) as [|tc l] eqn:Hr0; injection H as <-.
    + apply omap_known. intros g tc. unfold qwen_call. destruct (str_in _ _) eqn:Hn; [|done].
      intros [= <-]. by apply str_in_spec.
    + rewrite <- Hr0. apply omap_known. intros g tc'. unfold rehearsal_call. destruct (str_in _ _) eqn:Hn; [|done].
      simpl. destruct (json_loads _) as [[]|]; try done. intros [= <-]. by apply str_in_spec.
  - injection H as <-. by eapply scan_known.
Qed.

Lemma text_known s r : validate_text_response word_char v s = Ok r -> known v (v_tool_calls r).
Proof.
  unfold validate_text_response. intros H. res_inv.
  destruct (rv_rescue_enabled v); [|injection Hr as <-; constructor].
  apply rescue_known in Hr. by destruct a.
Qed.

Lemma calls_known calls : known v (v_tool_calls (validate_tool_calls v calls)).
Proof.
  unfold validate_tool_calls. destruct (List.filter _ calls) as [|tc l] eqn:Hf; [|constructor].
  simpl. apply Forall_forall. intros tc Hin. apply str_in_spec.
  destruct (str_in (g_tool tc) (rv_tool_names v)) eqn:Hn; [done|].
  assert (H : In tc (List.filter (fun tc => negb (str_in (g_tool tc) (rv_tool_names v))) calls)).
  { apply filter_In. split; [by apply list_elem_of_In | by rewrite Hn]. }
  by rewrite Hf in H.
Qed.

(** C32: the validator lets known tools through and nothing else: whatever the
    text, every call it extracts names a registered tool, and it asks for a retry
    with a nudge exactly when it extracts none; native calls pass unchanged when
    all of them are known, and are refused together otherwise. *)
Theorem only_known_tools_pass (response : string) (calls : list GToolCall) :
  (forall r, validate_text_response word_char v response = Ok r ->
     Forall (fun tc => g_tool tc ∈ rv_tool_names v) (v_tool_calls r) /\
     (v_needs_retry r = true <-> v_tool_calls r = []) /\
     (v_needs_retry r = true <-> v_nudge r <> None)) /\
  (let r := validate_tool_calls v calls in
   if forallb (fun tc => str_in (g_tool tc) (rv_tool_names v)) calls
   then v_tool_calls r = calls /\ v_needs_retry r = false
   else v_tool_calls r = [] /\ v_needs_retry r = true /\ v_nudge r <> None).
Proof.
  split.
  - intros r H. split; [by apply text_known in H|]. unfold validate_text_response in H. res_inv.
    by destruct a.
  - unfold validate_tool_calls. simpl. destruct (forallb _ calls) eqn:Hall.
    + replace (List.filter _ calls) with (@nil GToolCall); [done|]. symmetry.
      rewrite forallb_forall in Hall. induction calls as [|tc l IH]; [done|]. simpl.
      rewrite (Hall tc) by (by left). simpl. apply IH. intros x Hx. apply Hall. by right.
    + destruct (List.filter _ calls) as [|tc l] eqn:Hf; [|by split_and!]. exfalso.
      apply not_true_iff_false in Hall. apply Hall, forallb_forall. intros tc Hin.
      destruct (str_in (g_tool tc) (rv_tool_names v)) eqn:Hn; [done|].
      assert (H : In tc (List.filter (fun tc => negb (str_in (g_tool tc) (rv_tool_names v))) calls))
        by (apply filter_In; by rewrite Hn).
      by rewrite Hf in H.
Qed.

(** ** A printed call is read back *)

(** A dictionary printed as JSON, as a response: the cleaning steps leave it
    alone, and its braces are balanced only at its end. *)
Definition plain_text (s : string) : Prop :=
  py_strip (sub_empty _python_tag_pattern (sub_empty _think_pattern s)) = s /\
  py_strip (sub_empty _code_fence_pattern s) = s /\
  balanced 0 (py_chars s) = Some (py_chars s, []).

Lemma scan_whole s cs tc : py_chars s = "{" :: cs -> balanced 0 (py_chars s) = Some (py_chars s, []) ->
  _try_parse_tool_call v s = Ok (Some tc) -> scan_json (length (py_chars s)) v (py_chars s) = Ok [tc].
Proof.
  intros Hc Hb Hp. rewrite Hc at 1 2. cbn [length scan_json]. rewrite <- Hc, Hb, str_join_chars, Hp. simpl.
  by destruct (length cs).
Qed.

Lemma brace_head t : py_chars (String "{" (String "034" t)) = "{" :: py_chars (String "034" t).
Proof.
  destruct (py_chars_cons_start "034" t) as (c & cs & Hc & Hs). cbn [py_chars] in *. rewrite Hc.
  by rewrite Hs.
Qed.

Definition call_text (tool : string) (args : json) : string :=
  json_dumps default_style (JObj [("tool", JStr tool); ("args", args)]).

Lemma call_text_head tool args : exists t, call_text tool args = String "{" (String "034" t).
Proof. by eexists. Qed.

(** A call the model prints as JSON is read back: when the cleaning steps
    leave the text alone and its braces balance at its end only, rescuing it
    gives that one call, with its arguments (an empty object for falsy ones). *)
Lemma printed_call_is_rescued (tool : string) (args : json) :
  rv_rescue_enabled v = true -> tool ∈ rv_tool_names v -> tool <> "" ->
  json_ok (JObj [("tool", JStr tool); ("args", args)]) = true -> plain_text (call_text tool args) ->
  validate_text_response word_char v (call_text tool args) =
  Ok {| v_tool_calls := [{| g_tool := tool; g_args := if py_truthy args then args else JObj [] |}];
        v_nudge := None; v_needs_retry := false |}.
Proof.
  intros He Hin Hne Hok (Hclean & Hfence & Hb). destruct (call_text_head tool args) as [t Ht].
  assert (Hp : _try_parse_tool_call v (call_text tool args) =
               Ok (Some {| g_tool := tool; g_args := if py_truthy args then args else JObj [] |})).
  { unfold _try_parse_tool_call, call_text. rewrite loads_dumps; [|by split; exists " " |exact Hok].
    unfold jget. simpl. assert (Ho : or_any (JStr tool) JNull = JStr tool).
    { unfold or_any. simpl. by rewrite (proj2 (py_truthy_str_true _) Hne). }
    rewrite Ho. simpl. rewrite (proj2 (py_truthy_str_true _) Hne), (proj2 (str_in_spec _ _) Hin). simpl. do 3 f_equal.
    unfold or_any. destruct (py_truthy args) eqn:Ha; by rewrite ?Ha. }
  unfold validate_text_response. rewrite He. unfold _rescue_tool_call. rewrite Hclean.
  unfold _extract_json_tool_calls. rewrite Hfence. cbv zeta.
  rewrite (scan_whole _ _ _ (eq_trans (f_equal py_chars Ht) (brace_head t)) Hb Hp).
  rewrite Ht. reflexivity.
Qed.
End Facts.

Lemma printed_call_is_rescued_witness :
  validate_text_response ascii_word ex_validator (call_text "write" (JObj [("path", JStr "a"); ("lines", JArr [JInt 1; JInt 2])])) =
  Ok {| v_tool_calls := [{| g_tool := "write"; g_args := JObj [("path", JStr "a"); ("lines", JArr [JInt 1; JInt 2])] |}];
        v_nudge := None; v_needs_retry := false |}.
Proof.
  apply (printed_call_is_rescued ascii_word ex_validator "write" (JObj [("path", JStr "a"); ("lines", JArr [JInt 1; JInt 2])])).
  - reflexivity.
  - apply list_elem_of_further, list_elem_of_here.
  - discriminate.
  - vm_compute. reflexivity.
  - split; [vm_compute; reflexivity|]. split; vm_compute; reflexivity.
Defined.
