(* ===== verification/Inference.v ===== *)
(** * The guarded inference loop

    [middleware/inference.py], [run_inference]: one attempt compacts and warns,
    asks the backend, strips reasoning, validates the answer, and either returns
    it or records an error and appends a nudge and the rejected text.

    The backend is an argument acting on a world of its own; the reasoning
    adapter (the caller's or the default one) is two functions, the second of
    which strips what the first extracts, and either may fail with a
    [ReasoningError], which is caught, or another exception, which is not. *)
From Stdlib Require Import ZArith Lia String.
From stdpp Require Import base tactics list strings.
From S2P Require Import Prelude PyStr PyFloat Json Types Messages Compaction Guardrails Regex ResponseValidator.

Inductive reasoning_error := ReasoningError (message : string) | OtherError (e : exn).

Definition RetriesExhaustedError : exn_class := UserError "RetriesExhaustedError".
Definition retries_exhausted (attempts : Z) : exn :=
  Exn RetriesExhaustedError (concat_all ["retries exhausted after "; int_str attempts; " attempts"]).

Record InferenceResult (T : Type) := {
  ir_response : Response; ir_new_messages : list Message; ir_tool_call_counter : Z; ir_attempts : Z;
  ir_reasoning_tree : option T }.
Arguments ir_response {T}. Arguments ir_new_messages {T}. Arguments ir_tool_call_counter {T}.
Arguments ir_attempts {T}. Arguments ir_reasoning_tree {T}.

(** [_get_tool_names]. *)
Definition _get_tool_names (specs : list ToolDefinition) : list string := map td_name specs.

Definition set_tool_calls (calls : list ToolCall) (r : Response) : Response :=
  {| rsp_content := rsp_content r; rsp_reasoning := rsp_reasoning r; rsp_tool_calls := calls;
     rsp_finish_reason := rsp_finish_reason r; rsp_usage_tokens := rsp_usage_tokens r |}.

(** The objects the loop writes to. *)
Record World (X : Type) := {
  w_client : X;
  w_context_manager : option ContextWindowManager;
  w_error_tracker : option ErrorTracker.t;
}.
Arguments w_client {X}. Arguments w_context_manager {X}. Arguments w_error_tracker {X}.
Arguments Build_World {X}.

Section Inference.
Context {X T : Type}
  (word_char : string -> bool)
  (complete : list Message -> eff X exn Response)
  (model_name : string)
  (count : counter) (on_context_threshold : Z -> Z -> SpecFloat.spec_float -> option string)
  (extract : json -> string -> string -> res reasoning_error T)
  (strip : json -> res reasoning_error string)
  (validator : option ResponseValidator)
  (step_enforcer : option StepEnforcer.t)
  (session_id : string)
  (clock : Z -> Z * Z).

Definition infer : Type -> Type := eff (World X) exn.

Definition with_client {A} (m : eff X exn A) : infer A := fun w =>
  let '(r, x) := m (w_client w) in (r, Build_World x (w_context_manager w) (w_error_tracker w)).
(** Run a method of the context manager, when there is one. *)
Definition with_manager {A} (default : A) (m : win A) : infer A := fun w =>
  match w_context_manager w with
  | None => (Ok default, w)
  | Some c => let '(r, c') := m c in (r, Build_World (w_client w) (Some c') (w_error_tracker w))
  end.
Definition track (f : ErrorTracker.t -> ErrorTracker.t) : infer unit := fun w =>
  (Ok tt, Build_World (w_client w) (w_context_manager w) (f <$> w_error_tracker w)).

(** [record_error(session_id, "", {}, e, UNKNOWN)] at an attempt. *)
Definition record_failure (attempt : Z) (message : string) : infer unit :=
  track (ErrorTracker.record_error (clock attempt).1 (clock attempt).2 session_id "" [] message ErrorTracker.UNKNOWN).

Definition prepare (messages : list Message) : infer (list Message) :=
  compacting ← with_manager false (should_compact count messages);
  messages ← (if (compacting : bool) then with_manager messages (window_compact count messages) else mret messages);
  warning ← with_manager None (check_thresholds count on_context_threshold messages);
  mret match warning with
       | Some s => if py_truthy_str s then messages ++ [typed_message R_USER s CONTEXT_WARNING] else messages
       | None => messages
       end.

Definition ask (attempt : Z) (messages : list Message) : infer Response := fun w =>
  match with_client (complete messages) w with
  | (Ok r, w') => (Ok r, w')
  | (Raise e, w') => (_ ← record_failure attempt (exn_msg e); eff_raise e) w'
  end.

Definition update_tokens (r : Response) : infer unit :=
  if (0 <? total_tokens (rsp_usage_tokens r))%Z
  then with_manager tt (update_token_count (total_tokens (rsp_usage_tokens r)))
  else mret tt.

Definition reasoning_input (r : Response) : json :=
  JObj (("content", JStr (rsp_content r)) ::
        if py_truthy_str (rsp_reasoning r) then [("reasoning_content", JStr (rsp_reasoning r))] else []).

(** The tree, the clean content, and whether the reasoning failed. *)
Definition analyse (r : Response) : res exn (option T * string * bool) :=
  if py_truthy_str (rsp_content r) || py_truthy_str (rsp_reasoning r) then
    match extract (reasoning_input r) model_name "llm-backend" with
    | Raise (OtherError e) => Raise e
    | Raise (ReasoningError _) => Ok (None, "", true)
    | Ok tree =>
        match strip (reasoning_input r) with
        | Raise (OtherError e) => Raise e
        | Raise (ReasoningError _) => Ok (Some tree, "", true)
        | Ok clean => Ok (Some tree, clean, false)
        end
    end
  else Ok (None, rsp_content r, false).

Definition to_guardrails (tc : ToolCall) : GToolCall := {| g_tool := tc_name tc; g_args := tc_arguments tc |}.
Definition of_guardrails (tc : GToolCall) : ToolCall :=
  {| tc_id := ""; tc_name := g_tool tc; tc_arguments := g_args tc |}.
Definition retry_result : ValidationResult := {| v_tool_calls := []; v_nudge := None; v_needs_retry := true |}.

(** The validation of a response, and the response with the rescued calls. *)
Definition validate (r : Response) (clean : string) (failed : bool) : res exn (ValidationResult * Response) :=
  if failed then Ok (retry_result, r)
  else
    match rsp_tool_calls r with
    | _ :: _ =>
        let calls := map to_guardrails (rsp_tool_calls r) in
        Ok (match validator with
            | Some v => validate_tool_calls v calls
            | None => {| v_tool_calls := calls; v_nudge := None; v_needs_retry := false |}
            end, r)
    | [] =>
        if py_truthy_str clean then
          result ← match validator with
                   | Some v => validate_text_response word_char v clean
                   | None => Ok {| v_tool_calls := []; v_nudge := None; v_needs_retry := false |}
                   end;
          Ok (result, if negb (v_needs_retry result) && negb (Nat.eqb (length (v_tool_calls result)) 0)
                      then set_tool_calls (map of_guardrails (v_tool_calls result)) r else r)
        else
          result ← match validator with
                   | Some v => validate_text_response word_char v ""
                   | None => Ok retry_result
                   end;
          Ok (result, r)
    end.

(** The nudges for the calls the step enforcer does not allow. *)
Definition step_nudges (r : Response) : list Message :=
  match step_enforcer with
  | None => []
  | Some e =>
      omap (fun tc =>
        let '(allowed, missing) := StepEnforcer.can_execute session_id (tc_name tc) e in
        if (allowed : bool) then None
        else Some (typed_message R_USER (n_content (step_nudge (tc_name tc) missing 1)) STEP_NUDGE))
        (rsp_tool_calls r)
  end.

(** One turn of the loop: a result, or the conversation of the next attempt. *)
Definition attempt (max_attempts attempts : Z) (messages : list Message) : infer (InferenceResult T + list Message) :=
  messages ← prepare messages;
  response ← ask attempts messages;
  _ ← update_tokens response;
  analysis ← eff_lift (analyse response);
  let '(tree, clean, failed) := analysis in
  checked ← eff_lift (validate response clean failed);
  let '(result, response) := checked in
  if negb (v_needs_retry result) then
    _ ← track (ErrorTracker.reset_session session_id);
    mret (inl {| ir_response := response; ir_new_messages := messages ++ step_nudges response;
                 ir_tool_call_counter := Z.of_nat (length (rsp_tool_calls response)); ir_attempts := attempts;
                 ir_reasoning_tree := tree |})
  else
    _ ← record_failure attempts "validation failed";
    if (max_attempts <=? attempts)%Z then eff_raise (retries_exhausted attempts)
    else
      let nudged := match v_nudge result with
                    | Some n => messages ++ [typed_message R_USER (n_content n) RETRY_NUDGE]
                    | None => messages
                    end in
      mret (inr (nudged ++ [typed_message R_ASSISTANT clean TEXT_RESPONSE])).

(** [fuel]: the attempts left. *)
Fixpoint attempts_from (fuel : nat) (max_attempts attempts : Z) (messages : list Message) : infer (InferenceResult T) :=
  match fuel with
  | O => eff_raise (retries_exhausted attempts)
  | S fuel' =>
      outcome ← attempt max_attempts (attempts + 1) messages;
      match outcome with
      | inl result => mret result
      | inr messages' => attempts_from fuel' max_attempts (attempts + 1) messages'
      end
  end.

Definition effective_attempts (max_attempts : Z) : Z := if (max_attempts <=? 0)%Z then 3 else max_attempts.
Definition run_inference (messages : list Message) (max_attempts : Z) : infer (InferenceResult T) :=
  let n := effective_attempts max_attempts in
  attempts_from (Z.to_nat n) n 0 messages.
End Inference.

(** ** Counting the attempts *)

(** A backend that counts how often it is asked. *)
Definition counted {X} (complete : list Message -> eff X exn Response) (messages : list Message) : eff (X * nat) exn Response :=
  fun w => let '(r, x) := complete messages w.1 in (r, (x, S w.2)).

Section Facts.
Context {X T : Type}
  (word_char : string -> bool) (complete : list Message -> eff X exn Response) (model_name : string)
  (count : counter) (on_context_threshold : Z -> Z -> SpecFloat.spec_float -> option string)
  (extract : json -> string -> string -> res reasoning_error T) (strip : json -> res reasoning_error string)
  (validator : option ResponseValidator) (step_enforcer : option StepEnforcer.t) (session_id : string)
  (clock : Z -> Z * Z).

Abbreviation one_attempt :=
  (attempt word_char (counted complete) model_name count on_context_threshold extract strip validator step_enforcer
     session_id clock).
Abbreviation from_attempt :=
  (attempts_from word_char (counted complete) model_name count on_context_threshold extract strip validator step_enforcer
     session_id clock).
Abbreviation infer_counted :=
  (run_inference word_char (counted complete) model_name count on_context_threshold extract strip validator step_enforcer
     session_id clock).

(** The number of times the backend has been asked. *)
Definition asked (w : World (X * nat)) : nat := (w_client w).2.

(** A step that does not ask the backend. *)
Definition silent {A} (m : infer (X := X * nat) A) : Prop := forall w, asked (m w).2 = asked w.

Lemma silent_ret {A} (a : A) : silent (mret a).
Proof. done. Qed.
Lemma silent_lift {A} (m : res exn A) : silent (eff_lift m).
Proof. done. Qed.
Lemma silent_raise {A} (e : exn) : silent (A := A) (eff_raise e).
Proof. done. Qed.
Lemma silent_bind {A B} (m : infer A) (f : A -> infer B) : silent m -> (forall a, silent (f a)) -> silent (m ≫= f).
Proof.
  intros Hm Hf w. specialize (Hm w). unfold mbind, eff_bind. destruct (m w) as [[a|e] w']; [|done].
  simpl in Hm. by rewrite <- Hm, Hf.
Qed.
Lemma silent_manager {A} (d : A) (m : win A) : silent (with_manager d m).
Proof. intros w. unfold with_manager. destruct (w_context_manager w) as [c|]; [|done]. by destruct (m c). Qed.
Lemma silent_track f : silent (track f).
Proof. done. Qed.
Create HintDb silent.
#[local] Hint Resolve silent_ret silent_lift silent_raise silent_manager silent_track : silent.

Lemma silent_prepare messages : silent (prepare count on_context_threshold messages).
Proof.
  unfold prepare. apply silent_bind; [auto with silent|]. intros b. apply silent_bind; [destruct b; auto with silent|].
  intros ms. apply silent_bind; auto with silent.
Qed.

Lemma ask_counts n messages w r w' : ask (counted complete) session_id clock n messages w = (r, w') -> asked w' = S (asked w).
Proof.
  unfold ask, with_client, counted. destruct (complete messages (w_client w).1) as [[rsp|e] x]; by intros [= <- <-].
Qed.

(** What a finished run guarantees of its result. *)
Definition result_ok (r : InferenceResult T) : Prop :=
  ir_tool_call_counter r = Z.of_nat (length (rsp_tool_calls (ir_response r))) /\
  forall v, validator = Some v -> Forall (fun tc => tc_name tc ∈ rv_tool_names v) (rsp_tool_calls (ir_response r)).

Lemma validated_known r clean failed result r' :
  validate word_char validator r clean failed = Ok (result, r') -> v_needs_retry result = false ->
  forall v, validator = Some v -> Forall (fun tc => tc_name tc ∈ rv_tool_names v) (rsp_tool_calls r').
Proof.
  intros H Hn v ->. unfold validate in H. destruct failed; [injection H as <- <-; done|].
  destruct (rsp_tool_calls r) as [|tc calls] eqn:Hc.
  - destruct (py_truthy_str clean); res_inv.
    + apply text_known in Hr. rewrite Hn in *. simpl in *.
      destruct (v_tool_calls _) as [|tc l] eqn:Hl; simpl; [by rewrite Hc|].
      unfold known in Hr. rewrite Forall_forall in Hr. apply Forall_forall.
      intros x Hx. change (of_guardrails tc :: map of_guardrails l) with (map of_guardrails (tc :: l)) in Hx.
      apply list_elem_of_fmap in Hx as (y & -> & Hy). by apply Hr.
    + by rewrite Hc.
  - injection H as <- <-. rewrite Hc. unfold validate_tool_calls in Hn.
    destruct (List.filter _ _) as [|x l] eqn:Hf; [|done]. apply Forall_forall. intros y Hy. apply str_in_spec.
    destruct (str_in (tc_name y) (rv_tool_names v)) eqn:Hs; [done|].
    assert (Hin : In (to_guardrails y) (List.filter (fun tc => negb (str_in (g_tool tc) (rv_tool_names v)))
                                          (map to_guardrails (tc :: calls)))).
    { apply filter_In. split; [apply in_map; by apply list_elem_of_In | simpl; by rewrite Hs]. }
    cbn [map] in Hin. by rewrite Hf in Hin.
Qed.

(** One attempt asks at most once; a result has asked once. *)
Lemma attempt_spec maximum n messages w out w' : one_attempt maximum n messages w = (out, w') ->
  asked w' <= S (asked w) /\
  match out with
  | Ok (inl r) => asked w' = S (asked w) /\ ir_attempts r = n /\ result_ok r
  | Ok (inr _) => asked w' = S (asked w) /\ (n < maximum)%Z
  | Raise _ => True
  end.
Proof.
  unfold attempt, mbind, eff_bind at 1. pose proof (silent_prepare messages w) as Hp.
  destruct (prepare count on_context_threshold messages w) as [[ms|e] w1]; simpl in Hp; [|intros [= <- <-]; by rewrite Hp; split; [lia|]].
  unfold eff_bind at 1. destruct (ask _ _ _ n ms w1) as [r1 w2] eqn:Ha. apply ask_counts in Ha. rewrite Hp in Ha.
  destruct r1 as [rsp|e]; [|intros [= <- <-]; by rewrite Ha].
  unfold eff_bind at 1. assert (Hu : silent (update_tokens rsp)) by (unfold update_tokens; destruct (_ <? _)%Z; auto with silent).
  specialize (Hu w2). destruct (update_tokens rsp w2) as [[u|e] w3]; simpl in Hu; [|intros [= <- <-]; by rewrite Hu, Ha].
  rewrite Ha in Hu. unfold eff_bind at 1, eff_lift at 1.
  destruct (analyse _ _ _ rsp) as [[[tree clean] failed]|e]; [|intros [= <- <-]; by rewrite Hu].
  unfold eff_bind at 1, eff_lift at 1.
  destruct (validate _ _ rsp clean failed) as [[result rsp']|e] eqn:Hv; [|intros [= <- <-]; by rewrite Hu].
  destruct (v_needs_retry result) eqn:Hn; simpl.
  - unfold eff_bind, record_failure, track. destruct (Z.leb_spec maximum n).
    + intros [= <- <-]. unfold asked in *. simpl. split; [lia | done].
    + intros [= <- <-]. unfold asked in *. simpl. split_and!; lia.
  - unfold eff_bind, track. intros [= <- <-]. unfold asked in *. simpl. split_and!; [lia | lia | done |].
    split; [done|]. by eapply validated_known.
Qed.

Lemma attempts_spec fuel maximum n messages w out w' :
  from_attempt fuel maximum n messages w = (out, w') -> (Z.of_nat fuel + n = maximum)%Z ->
  match out with
  | Ok r => (n < ir_attempts r <= maximum)%Z /\
            Z.of_nat (asked w') = (Z.of_nat (asked w) + (ir_attempts r - n))%Z /\ result_ok r
  | Raise _ => asked w' <= asked w + fuel
  end.
Proof.
  revert n messages w. induction fuel as [|fuel IH]; intros n messages w; cbn [attempts_from].
  - intros [= <- <-] _. lia.
  - unfold mbind, eff_bind. destruct (one_attempt maximum (n + 1) messages w) as [out1 w1] eqn:Ha.
    apply attempt_spec in Ha as [Hle Ha]. destruct out1 as [[r|ms]|e]; intros H Hn.
    + injection H as <- <-. destruct Ha as (H1 & H2 & H3). rewrite H2, H1. split_and!; [lia | lia | lia | done].
    + destruct Ha as [H1 H2]. specialize (IH (n + 1)%Z ms w1 H ltac:(lia)).
      destruct out as [r|e]; [|lia]. destruct IH as (I1 & I2 & I3). split_and!; [lia | lia | lia | done].
    + injection H as <- <-. lia.
Qed.
End Facts.

(** C12: the loop is bounded and what it returns has been checked: the backend is
    asked at most [max_attempts] times (three when that is not positive); a
    result comes from the last asking, reports how many there were, and, behind
    a validator, calls registered tools only, whether the model called them
    natively or they were rescued from its text. *)
Theorem inference_bounded {X T : Type} (word_char : string -> bool) (complete : list Message -> eff X exn Response)
    (model_name : string) (count : counter) (on_context_threshold : Z -> Z -> SpecFloat.spec_float -> option string)
    (extract : json -> string -> string -> res reasoning_error T) (strip : json -> res reasoning_error string)
    (validator : option ResponseValidator) (step_enforcer : option StepEnforcer.t) (session_id : string)
    (clock : Z -> Z * Z) (messages : list Message) (max_attempts : Z) (w : World (X * nat)) :
  let '(out, w') := run_inference word_char (counted complete) model_name count on_context_threshold extract strip
                      validator step_enforcer session_id clock messages max_attempts w in
  (Z.of_nat (asked w') <= Z.of_nat (asked w) + effective_attempts max_attempts)%Z /\
  forall r, out = Ok r ->
    (1 <= ir_attempts r <= effective_attempts max_attempts)%Z /\
    Z.of_nat (asked w') = (Z.of_nat (asked w) + ir_attempts r)%Z /\
    ir_tool_call_counter r = Z.of_nat (length (rsp_tool_calls (ir_response r))) /\
    (forall v, validator = Some v -> Forall (fun tc => tc_name tc ∈ rv_tool_names v) (rsp_tool_calls (ir_response r))).
Proof.
  destruct (run_inference _ _ _ _ _ _ _ _ _ _ _ _ _ w) as [out w'] eqn:H. unfold run_inference in H.
  assert (Hpos : (0 < effective_attempts max_attempts)%Z)
    by (unfold effective_attempts; destruct (Z.leb_spec max_attempts 0); lia).
  apply attempts_spec in H; [|lia]. destruct out as [r|e].
  - destruct H as (H1 & H2 & H3 & H4). split; [lia|]. intros r' [= <-]. split_and!; [lia | lia | lia | done | done].
  - split; [lia | done].
Qed.

(** ** Runs *)

Definition ex_extract (input : json) (model backend : string) : res reasoning_error unit := Ok tt.
Definition ex_strip (input : json) : res reasoning_error string :=
  match input with JObj d => Ok (match jget d "content" with JStr s => s | _ => "" end) | _ => Ok "" end.
Definition ex_world : World (nat * nat) :=
  {| w_client := (0, 0); w_context_manager := None; w_error_tracker := Some (ErrorTracker.init 5 5) |}.
Definition ex_llm (answers : list Response) (c : list Message) : eff nat exn Response := fun n =>
  (Ok (List.nth n answers (text_response "")), S n).
Definition ex_call (name : string) : Response :=
  {| rsp_content := ""; rsp_reasoning := ""; rsp_finish_reason := ""; rsp_usage_tokens := no_usage;
     rsp_tool_calls := [{| tc_id := "c"; tc_name := name; tc_arguments := JObj [] |}] |}.
Definition ex_run (answers : list Response) (steps : option StepEnforcer.t) (max_attempts : Z) :=
  run_inference ascii_word (counted (ex_llm answers)) "m" default_counter default_context_warning ex_extract ex_strip
    (Some ex_validator) steps "s" (fun n => (n, n)) [mk_message R_USER "go"] max_attempts ex_world.

(** The first answer is refused, the call in the text of the second is rescued. *)
Example second_attempt_rescued :
  match ex_run [ex_call "rm"; text_response (jq "{'tool': 'read'}")] None 3 with
  | (Ok r, w) => Some (ir_attempts r, map tc_name (rsp_tool_calls (ir_response r)),
                       map (fun m => mm_type (msg_meta m)) (ir_new_messages r), asked w)
  | _ => None
  end = Some (2%Z, ["read"], [USER_INPUT; RETRY_NUDGE; TEXT_RESPONSE], 2).
Proof. vm_compute. reflexivity. Qed.

Example exhausted :
  match ex_run [] None 2 with (Raise e, w) => Some (e, asked w) | _ => None end = Some (retries_exhausted 2, 2).
Proof. vm_compute. reflexivity. Qed.

(** The step enforcer nudges but does not hold back: the call it does not allow
    is in the result. *)
Example disallowed_step_is_returned :
  match ex_run [ex_call "write"] (Some (StepEnforcer.add_step "write" (Some ["read"]) StepEnforcer.init)) 3 with
  | (Ok r, _) => Some (map tc_name (rsp_tool_calls (ir_response r)), map (fun m => mm_type (msg_meta m)) (ir_new_messages r))
  | _ => None
  end = Some (["write"], [USER_INPUT; STEP_NUDGE]).
Proof. vm_compute. reflexivity. Qed.
