(* ===== verification/Reasoning.v ===== *)
(** * The reasoning adapter

    [reasoning/types.py] and [reasoning/adapter.py]: what a model says is split
    into the clean text and the reasoning (a native field, a field registered for
    the model, thinking parts or thinking tags), and the reasoning becomes a chain
    of bounded nodes.

    Parameters: which characters outside ASCII are word characters and digits to
    [re], [str.lower], [sha256_hex], and the text of a decoder's error.  The
    adapter's state is the map of registered model fields; the clock's reading is
    an argument. *)
From Stdlib Require Import ZArith Lia Ascii String.
From stdpp Require Import base tactics list strings.
From S2P Require Import Prelude PyStr PyBytes Json JsonFacts Types Regex Messages Inference.

(** ** The context tree *)

Definition CONTRACT_VERSION := "1".

Inductive Format := NATIVE | THINKING | MODEL_SPECIFIC | NONE.
Definition format_value (f : Format) : string :=
  match f with NATIVE => "native" | THINKING => "thinking" | MODEL_SPECIFIC => "model_specific" | NONE => "none" end.

Inductive NodeKind := GOAL | OBSERVATION | DECISION | TOOL_CALL | TOOL_RESULT | CONCLUSION | BLOCKER.
#[global] Instance NodeKind_eq_dec : EqDecision NodeKind.
Proof. solve_decision. Defined.
Definition kind_value (k : NodeKind) : string :=
  match k with
  | GOAL => "goal" | OBSERVATION => "observation" | DECISION => "decision" | TOOL_CALL => "tool-call"
  | TOOL_RESULT => "tool-result" | CONCLUSION => "conclusion" | BLOCKER => "blocker"
  end.

Inductive NodeStatus := ACTIVE | COMPLETE | BLOCKED | SUPERSEDED.
Definition status_value (s : NodeStatus) : string :=
  match s with ACTIVE => "active" | COMPLETE => "complete" | BLOCKED => "blocked" | SUPERSEDED => "superseded" end.

Record Node := {
  nd_id : string; nd_parent_id : string; nd_kind : NodeKind; nd_status : NodeStatus; nd_summary : string;
  nd_created_at : datetime; nd_updated_at : datetime; nd_evidence_refs : list string; nd_tool_call_refs : list string }.

Record ContextTree := {
  ct_version : string; ct_format : Format; ct_model : string; ct_backend : string; ct_created_at : datetime;
  ct_root_id : string; ct_nodes : list Node }.
Definition empty (t : ContextTree) : bool := match ct_nodes t with [] => true | _ => false end.

Section ToDict.
Context (isoformat : datetime -> string).
Definition node_to_dict (n : Node) : jdict :=
  [("id", JStr (nd_id n)); ("parent_id", JStr (nd_parent_id n)); ("kind", JStr (kind_value (nd_kind n)));
   ("status", JStr (status_value (nd_status n))); ("summary", JStr (nd_summary n));
   ("evidence_refs", JArr (map JStr (nd_evidence_refs n))); ("tool_call_refs", JArr (map JStr (nd_tool_call_refs n)));
   ("created_at", JStr (isoformat (nd_created_at n))); ("updated_at", JStr (isoformat (nd_updated_at n)))].
Definition tree_to_dict (t : ContextTree) : jdict :=
  [("version", JStr (ct_version t)); ("format", JStr (format_value (ct_format t))); ("model", JStr (ct_model t));
   ("backend", JStr (ct_backend t)); ("created_at", JStr (isoformat (ct_created_at t)));
   ("root_id", JStr (ct_root_id t)); ("nodes", JArr (map (fun n => JObj (node_to_dict n)) (ct_nodes t)))].
End ToDict.

(** ** Errors *)

Inductive reasoning_class :=
| MalformedInputError | MalformedJSONError | MalformedReasoningFieldError | MalformedContentError
| UnbalancedThinkingError | ReasoningTooLargeError | TooManyNodesError | TooDeepError.
#[global] Instance reasoning_class_eq_dec : EqDecision reasoning_class.
Proof. solve_decision. Defined.

(** A [ReasoningError], or the [UnicodeEncodeError] of [str.encode] on a lone
    surrogate, which is none. *)
Inductive adapter_error :=
| Adapter (c : reasoning_class) (message : string)
| EncodeError.

(** ** Options and patterns *)

Record ReasoningOptions := {
  max_reasoning_bytes : Z; max_nodes : Z; max_depth : Z; max_summary_chars : Z }.
Definition default_options : ReasoningOptions :=
  {| max_reasoning_bytes := 64 * 1024; max_nodes := 64; max_depth := 32; max_summary_chars := 512 |}.

Definition KNOWN_REASONING_FIELDS : list string := ["reasoning_content"; "thinking"; "thinking_content"; "reasoning"].
Definition RECOGNIZED_KEYS : list string :=
  ["message"; "content"; "reasoning_content"; "thinking"; "thinking_content"; "reasoning"].

Definition _THINKING_OPEN : regex := RAlt (ilit "<thinking>") (ilit "[THINK]").
Definition _THINKING_CLOSE : regex := RAlt (ilit "</thinking>") (ilit "[/THINK]").

Definition blanks : regex := RStar true (RChar is_space).
Definition one_of (l : list string) : regex := RChar (fun c => str_in c l).
Fixpoint alts (l : list regex) : regex :=
  match l with [] => REps | [r] => r | r :: l' => RAlt r (alts l') end.
Definition letter (c : string) : bool :=
  match c with String a EmptyString => is_upper a || is_lower a | _ => false end.
Definition letter_or_digit (c : string) : bool := match c with String a EmptyString => is_alnum a | _ => false end.
(** [[a-zA-Z_][a-zA-Z0-9_.-]*]. *)
Definition identifier : regex :=
  RCat (RChar (fun c => letter c || is_char "_" c))
       (RStar true (RChar (fun c => letter_or_digit c || str_in c ["_"; "."; "-"]))).

Definition _PARAGRAPH_SEP : pattern :=
  anywhere (cats [lit nl; RStar true (one_of [" "; tab]); lit nl]).
Definition _KIND_PREFIX : regex :=
  cats [blanks;
        RGroup 1 (alts (map ilit ["goal"; "observation"; "decision"; "tool-call"; "tool_call"; "tool-result"; "tool_result";
                                  "tool"; "conclusion"; "blocker"]));
        blanks; one_of [":"; "="]; blanks].
Definition _STATUS_MARKER : pattern :=
  {| p_before := fun _ _ => true;
     p_body := cats [blanks; lit "["; RGroup 1 (alts (map ilit ["blocked"; "pending"; "active"; "superseded"; "complete"]));
                     lit "]"; blanks];
     p_after := at_end |}.

Definition _KIND_BY_LABEL : list (string * NodeKind) :=
  [("goal", GOAL); ("observation", OBSERVATION); ("decision", DECISION); ("tool-call", TOOL_CALL); ("tool_call", TOOL_CALL);
   ("tool", TOOL_CALL); ("tool-result", TOOL_RESULT); ("tool_result", TOOL_RESULT); ("conclusion", CONCLUSION);
   ("blocker", BLOCKER)].
Definition _STATUS_BY_LABEL : list (string * NodeStatus) :=
  [("blocked", BLOCKED); ("pending", ACTIVE); ("active", ACTIVE); ("superseded", SUPERSEDED); ("complete", COMPLETE)].

(** ** Thinking tags *)

Definition search (r : regex) (s : list string) := search_from (anywhere r) None s.
Definition has_match (r : regex) (s : list string) : bool := match search r s with Some _ => true | None => false end.
Definition unbalanced : adapter_error := Adapter UnbalancedThinkingError "".

(** The loop: the texts between the blocks, and the blocks' insides.  A block
    takes two characters or more, so the length of the text is enough fuel. *)
Fixpoint split_blocks (fuel : nat) (rest : list string) : res adapter_error (list (list string) * list (list string)) :=
  match search _THINKING_OPEN rest with
  | None => if has_match _THINKING_CLOSE rest then Raise unbalanced else Ok ([rest], [])
  | Some (before, _, inner, _) =>
      match search _THINKING_CLOSE inner, fuel with
      | None, _ | _, O => Raise unbalanced
      | Some (reason, _, rest', _), S fuel' =>
          '(parts, reasons) ← split_blocks fuel' rest'; Ok (before :: parts, reason :: reasons)
      end
  end.

Definition split_thinking_tags (text : string) : res adapter_error (string * string) :=
  let cs := py_chars text in
  if negb (has_match _THINKING_OPEN cs) && negb (has_match _THINKING_CLOSE cs) then Ok (text, "")
  else
    '(parts, reasons) ← split_blocks (length cs) cs;
    Ok (str_join (map str_join parts), py_strip (join_with nl (map str_join reasons))).

(** ** Nested messages *)

Fixpoint jdepth (v : json) : nat :=
  match v with
  | JArr l => S (max_list (map jdepth l))
  | JObj d => S (max_list (map (fun kv => jdepth kv.2) d))
  | _ => 0
  end.

Definition _first_choice_message (m : jdict) : option jdict :=
  match jget m "choices" with
  | JArr (JObj choice :: _) => match jget choice "message" with JObj msg => Some msg | _ => None end
  | _ => None
  end.

(** The message that [_analyze_structured] goes on with, if any. *)
Definition inner_message (m : jdict) : option jdict :=
  match jget m "message" with JObj message => Some message | _ => _first_choice_message m end.
Fixpoint innermost (fuel : nat) (m : jdict) : jdict :=
  match fuel, inner_message m with
  | S fuel', Some message => innermost fuel' message
  | _, _ => m
  end.

(** ** Reasoning and clean content of a message *)

Record _Analysis := { an_reasoning : string; an_clean : string; an_format : Format }.

(** The texts and the thinking of typed parts. *)
Fixpoint content_parts (parts : list json) : res adapter_error (list string * list string) :=
  match parts with
  | [] => Ok ([], [])
  | JObj part :: parts' =>
      if py_eq (jget part "type") (JStr "text") then
        match jget part "text" with
        | JStr text => '(texts, thinking) ← content_parts parts'; Ok (text :: texts, thinking)
        | _ => Raise (Adapter MalformedContentError "text part has no string text")
        end
      else if py_eq (jget part "type") (JStr "thinking") then
        match jget part "thinking" with
        | JStr t => '(texts, thinking) ← content_parts parts'; Ok (texts, t :: thinking)
        | _ => Raise (Adapter MalformedReasoningFieldError "thinking part has no string thinking")
        end
      else content_parts parts'
  | _ :: _ => Raise (Adapter MalformedContentError "content part is not an object")
  end.
Definition _extract_content_parts (parts : list json) : res adapter_error (string * string) :=
  '(texts, thinking) ← content_parts parts; Ok (join_with nl texts, join_with nl thinking).

Definition message_content (m : jdict) : res adapter_error (string * string) :=
  match dget m "content" with
  | None | Some JNull => Ok ("", "")
  | Some (JStr s) => Ok (s, "")
  | Some (JArr parts) => _extract_content_parts parts
  | Some v => Raise (Adapter MalformedContentError (str_join ["content field is "; type_name v; ", not a string"]))
  end.

(** The string of a field; [None] when there is none, or it is empty. *)
Definition reasoning_field (m : jdict) (field_name : string) : res adapter_error (option string) :=
  match jget m field_name with
  | JNull => Ok None
  | JStr s => Ok (if py_truthy_str s then Some s else None)
  | v => Raise (Adapter MalformedReasoningFieldError
                  (str_join ["field "; py_repr field_name; " is "; type_name v; ", not a string"]))
  end.
Fixpoint first_field (m : jdict) (fields : list string) : res adapter_error (string * Format) :=
  match fields with
  | [] => Ok ("", NONE)
  | f :: fields' =>
      value ← reasoning_field m f;
      match value with Some s => Ok (s, NATIVE) | None => first_field m fields' end
  end.

Record ReasoningAdapter := { _opts : ReasoningOptions; _model_fields : dict string }.
Definition new_adapter (options : option ReasoningOptions) : ReasoningAdapter :=
  {| _opts := default default_options options; _model_fields := [] |}.

Inductive raw_input :=
| RawStr (s : string)
| RawBytes (s : string)
| RawDict (d : jdict)
| RawOther (type_name : string).

Section Adapter.
Context (word_char digit_char : string -> bool) (lower sha256_hex json_error : string -> string).

Definition register_model_field (model field_name : string) (a : ReasoningAdapter) : ReasoningAdapter :=
  if py_truthy_str model && py_truthy_str field_name
  then {| _opts := _opts a; _model_fields := dset (_model_fields a) (lower model) field_name |}
  else a.

Definition _extract_reasoning_field (a : ReasoningAdapter) (m : jdict) (model : string) : res adapter_error (string * Format) :=
  specific ← match (if py_truthy_str model then dget (_model_fields a) (lower model) else None) with
             | Some field_name => if py_truthy_str field_name then reasoning_field m field_name else Ok None
             | None => Ok None
             end;
  match specific with
  | Some value => Ok (value, MODEL_SPECIFIC)
  | None => first_field m KNOWN_REASONING_FIELDS
  end.

(** A message that holds no other message. *)
Definition analyze_message (a : ReasoningAdapter) (m : jdict) (model : string) : res adapter_error _Analysis :=
  '(content, part_reasoning) ← message_content m;
  '(reasoning, fmt) ← _extract_reasoning_field a m model;
  let '(reasoning, fmt) :=
    if negb (py_truthy_str reasoning) && py_truthy_str part_reasoning then (part_reasoning, NATIVE) else (reasoning, fmt) in
  '(clean, tags) ← split_thinking_tags content;
  Ok (if py_truthy_str reasoning then {| an_reasoning := reasoning; an_clean := clean; an_format := fmt |}
      else if py_truthy_str tags then {| an_reasoning := tags; an_clean := clean; an_format := THINKING |}
      else {| an_reasoning := ""; an_clean := content; an_format := NONE |}).

Definition _analyze_structured (a : ReasoningAdapter) (m : jdict) (model : string) : res adapter_error _Analysis :=
  analyze_message a (innermost (jdepth (JObj m)) m) model.

Definition _analyze_text (raw : string) : res adapter_error _Analysis :=
  '(clean, tags) ← split_thinking_tags raw;
  Ok (if py_truthy_str tags then {| an_reasoning := tags; an_clean := clean; an_format := THINKING |}
      else {| an_reasoning := ""; an_clean := raw; an_format := NONE |}).

Definition _has_recognized_key (m : jdict) : bool := existsb (fun k => str_in k RECOGNIZED_KEYS) (dkeys m).

(** Text that may be a document: [text] is what is analysed when it is not. *)
Definition analyze_document (a : ReasoningAdapter) (document text model : string) : res adapter_error _Analysis :=
  match json_loads document with
  | None => Raise (Adapter MalformedJSONError (json_error document))
  | Some (JObj m) => if _has_recognized_key m then _analyze_structured a m model else _analyze_text text
  | Some _ => _analyze_text text
  end.

Definition _analyze_string (a : ReasoningAdapter) (raw model : string) : res adapter_error _Analysis :=
  let trimmed := py_strip raw in
  if String.prefix "{" trimmed then analyze_document a trimmed raw model else _analyze_text raw.

Definition _analyze_bytes (a : ReasoningAdapter) (raw model : string) : res adapter_error _Analysis :=
  let trimmed := bytes_strip raw in
  if String.prefix "{" trimmed || String.prefix "[" trimmed
  then analyze_document a (decode_replace trimmed) (decode_replace raw) model
  else _analyze_text (decode_replace raw).

Definition _analyze (a : ReasoningAdapter) (raw : raw_input) (model : string) : res adapter_error _Analysis :=
  match raw with
  | RawStr s => _analyze_string a s model
  | RawBytes s => _analyze_bytes a s model
  | RawDict m => _analyze_structured a m model
  | RawOther name => Raise (Adapter MalformedInputError (String.append "unsupported raw type " name))
  end.

(** ** Nodes *)

Definition split_paragraphs (text : string) : list string :=
  let cs := py_chars text in
  List.filter py_truthy_str (map (fun p => py_strip (str_join p)) (split_pieces (length cs) _PARAGRAPH_SEP None cs)).

Definition _LIST_ORNAMENT : regex :=
  cats [blanks; RAlt (one_of ["-"; "*"; "+"; bytes [226; 128; 162]%N])
                     (RCat (plus (RChar digit_char)) (one_of ["."; ")"])); plus (RChar is_space)].

Fixpoint label_get {A} (l : list (string * A)) (label : string) (default : A) : A :=
  match l with [] => default | (k, v) :: l' => if String.eqb label k then v else label_get l' label default end.

Definition classify_paragraph (para : string) : NodeKind * string :=
  let summary := match match_at _LIST_ORNAMENT (py_chars para) with Some (rest, _) => rest | None => py_chars para end in
  match match_at _KIND_PREFIX summary with
  | Some (rest, g) =>
      (label_get _KIND_BY_LABEL (lower (str_join (group 1 g))) OBSERVATION, py_strip (str_join rest))
  | None => (OBSERVATION, str_join summary)
  end.

Definition status_from_summary (summary : string) (kind : NodeKind) : NodeStatus * string :=
  match search_from _STATUS_MARKER None (py_chars summary) with
  | Some (before, _, _, g) =>
      (label_get _STATUS_BY_LABEL (lower (str_join (group 1 g))) COMPLETE, py_strip (str_join before))
  | None => (match kind with BLOCKER => BLOCKED | _ => COMPLETE end, summary)
  end.

Definition non_space : regex := plus (RChar (fun c => negb (is_space c))).
Definition keyword (word : string) : pattern :=
  {| p_before := word_boundary word_char; p_body := cats [lit word; blanks; one_of ["="; ":"]; blanks; RGroup 1 non_space];
     p_after := fun _ => true |}.
(** The texts that each evidence pattern finds. *)
Definition evidence_found (s : list string) : list (list string) :=
  map fst (find_matches (length s) (anywhere (cats [lit "[E"; plus (RChar digit_char); lit "]"])) None s)
  ++ map (fun m => group 1 m.2) (find_matches (length s) (keyword "ref") None s)
  ++ map (fun m => group 1 m.2) (find_matches (length s) (keyword "evidence") None s).
Fixpoint dedup (seen : list string) (refs : list string) : list string :=
  match refs with
  | [] => []
  | ref :: refs' =>
      if py_truthy_str ref && negb (str_in ref seen) then ref :: dedup (ref :: seen) refs' else dedup seen refs'
  end.
Definition extract_evidence (summary : string) : list string :=
  dedup [] (map (fun ref => str_join (strip_list (fun c => str_in c ["["; "]"]) ref)) (evidence_found (py_chars summary))).

Definition _TOOL_REF : pattern :=
  {| p_before := word_boundary word_char;
     p_body := cats [RAlt (lit "tool") (lit "call"); blanks; one_of ["="; ":"]; blanks; RGroup 1 identifier];
     p_after := fun _ => true |}.
Definition _LEADING_IDENTIFIER : regex := cats [RGroup 1 identifier; blanks; one_of [":"; "="]].
Definition _BARE_IDENTIFIER : pattern := {| p_before := fun _ _ => true; p_body := identifier; p_after := at_end |}.

Definition extract_tool_refs (kind : NodeKind) (summary : string) : list string :=
  match kind with
  | TOOL_CALL | TOOL_RESULT =>
      let s := py_chars summary in
      match match_at _LEADING_IDENTIFIER s with
      | Some (_, g) => [str_join (group 1 g)]
      | None =>
          match search_from _TOOL_REF None s with
          | Some (_, _, _, g) => [str_join (group 1 g)]
          | None => match match_pattern _BARE_IDENTIFIER None s with Some _ => [summary] | None => [] end
          end
      end
  | _ => []
  end.

(** [s[:n]] for any integer [n]. *)
Definition slice_to (n : Z) (s : string) : string :=
  py_take (Z.to_nat (if (n <? 0)%Z then n + Z.of_nat (py_len s) else n)) s.

Definition _node_id (kind : NodeKind) (parent_id summary : string) : string :=
  py_take 16 (sha256_hex (str_join [kind_value kind; chr 0; parent_id; chr 0; summary])).

(** [.encode()]: a lone surrogate has no encoding. *)
Definition encode (s : string) : res adapter_error string := if utf8_valid false s then Ok s else Raise EncodeError.

Definition new_node (now : datetime) (parent_id : string) (kind : NodeKind) (status : NodeStatus)
    (summary : string) : Node :=
  {| nd_id := _node_id kind parent_id summary; nd_parent_id := parent_id; nd_kind := kind; nd_status := status;
     nd_summary := summary; nd_created_at := now; nd_updated_at := now; nd_evidence_refs := extract_evidence summary;
     nd_tool_call_refs := extract_tool_refs kind summary |}.

(** A paragraph's kind, status and bounded summary. *)
Definition read_paragraph (opts : ReasoningOptions) (para : string) : NodeKind * NodeStatus * string :=
  let '(kind, summary) := classify_paragraph para in
  let '(status, summary) := status_from_summary summary kind in
  (kind, status, slice_to (max_summary_chars opts) summary).

Fixpoint build_nodes (opts : ReasoningOptions) (now : datetime) (parent_id : string) (depth : Z) (paragraphs : list string)
  : res adapter_error (list Node) :=
  match paragraphs with
  | [] => Ok []
  | para :: paragraphs' =>
      let depth := (depth + 1)%Z in
      _ ← guard_or (depth <=? max_depth opts)%Z (Adapter TooDeepError "reasoning tree too deep");
      let '(kind, status, summary) := read_paragraph opts para in
      if negb (py_truthy_str summary) then build_nodes opts now parent_id (depth - 1) paragraphs'
      else
        _ ← encode summary;
        let n := new_node now parent_id kind status summary in
        nodes ← build_nodes opts now (nd_id n) depth paragraphs';
        Ok (n :: nodes)
  end.

Definition _parse_nodes (opts : ReasoningOptions) (reasoning : string) (now : datetime) : res adapter_error (list Node) :=
  encoded ← encode reasoning;
  _ ← guard_or (Z.of_nat (py_bytes_len encoded) <=? max_reasoning_bytes opts)%Z
        (Adapter ReasoningTooLargeError "reasoning exceeds maximum size");
  let paragraphs := split_paragraphs reasoning in
  _ ← guard_or (Z.of_nat (length paragraphs) <=? max_nodes opts)%Z (Adapter TooManyNodesError "too many reasoning nodes");
  build_nodes opts now "" 0 paragraphs.

(** ** The three entry points *)

Definition strip (a : ReasoningAdapter) (raw : raw_input) : res adapter_error string :=
  analysis ← _analyze a raw ""; Ok (an_clean analysis).

Definition extract (a : ReasoningAdapter) (now : datetime) (raw : raw_input) (model backend : string)
  : res adapter_error ContextTree :=
  analysis ← _analyze a raw model;
  nodes ← (if py_truthy_str (py_strip (an_reasoning analysis)) then _parse_nodes (_opts a) (an_reasoning analysis) now
           else Ok []);
  Ok {| ct_version := CONTRACT_VERSION; ct_format := an_format analysis; ct_model := model; ct_backend := backend;
        ct_created_at := now; ct_root_id := match nodes with n :: _ => nd_id n | [] => "" end; ct_nodes := nodes |}.

(** The input is analysed twice. *)
Definition parse (a : ReasoningAdapter) (now : datetime) (raw : raw_input) (model backend : string)
  : res adapter_error (string * ContextTree) :=
  analysis ← _analyze a raw model;
  tree ← extract a now raw model backend;
  Ok (an_clean analysis, tree).
End Adapter.

(** ** Thinking blocks *)

(** The reading of a text: texts and blocks in turn, each block from the first
    opening tag to the first closing tag after it, and no tag after the last. *)
Inductive thinking_blocks : list string -> list (list string) -> list (list string) -> Prop :=
| no_block rest : free _THINKING_OPEN rest [] -> free _THINKING_CLOSE rest [] -> thinking_blocks rest [rest] []
| one_block before o reason c rest parts reasons :
    free _THINKING_OPEN before (o ++ reason ++ c ++ rest) -> is_match _THINKING_OPEN o (reason ++ c ++ rest) ->
    free _THINKING_CLOSE reason (c ++ rest) -> is_match _THINKING_CLOSE c rest ->
    thinking_blocks rest parts reasons ->
    thinking_blocks (before ++ o ++ reason ++ c ++ rest) (before :: parts) (reason :: reasons).

Lemma open_width : 0 < width _THINKING_OPEN.
Proof. vm_compute. lia. Qed.
Lemma close_width : 0 < width _THINKING_CLOSE.
Proof. vm_compute. lia. Qed.

Lemma has_match_free r s : 0 < width r -> has_match r s = false <-> free r s [].
Proof.
  intros Hw. unfold has_match, search. pose proof (search_leftmost r None s Hw) as H. split; intros Hm.
  - by destruct (search_from _ _ _) as [[[[? ?] ?] ?]|].
  - by rewrite (search_none r None s Hw Hm).
Qed.

Lemma split_blocks_sound fuel cs parts reasons :
  split_blocks fuel cs = Ok (parts, reasons) -> thinking_blocks cs parts reasons.
Proof.
  revert cs parts reasons. induction fuel as [|fuel IH]; intros cs parts reasons; cbn [split_blocks]; unfold search;
    pose proof (search_leftmost _ None cs open_width) as Ho;
    destruct (search_from _ None cs) as [[[[before o] inner] g]|].
  1, 3: destruct Ho as (-> & _ & Ho & Hf); pose proof (search_leftmost _ None inner close_width) as Hc;
    destruct (search_from _ None inner) as [[[[reason c] rest] g']|]; try done.
  - destruct Hc as (-> & _ & Hc & Hfc). intros H. res_inv. destruct a as [ps rs]. res_inv.
    constructor; try done. by apply IH.
  - intros H. destruct (has_match _ _) eqn:Hm; [done|]. injection H as <- <-. constructor; [done|].
    by apply has_match_free; [apply close_width|].
  - intros H. destruct (has_match _ _) eqn:Hm; [done|]. injection H as <- <-. constructor; [done|].
    by apply has_match_free; [apply close_width|].
Qed.

(** The reading is unique, and the loop finds it with enough fuel. *)
Lemma split_blocks_complete fuel cs parts reasons : length cs <= fuel ->
  thinking_blocks cs parts reasons -> split_blocks fuel cs = Ok (parts, reasons).
Proof.
  intros Hlen H. revert fuel Hlen.
  induction H as [rest Ho Hc|before o reason c rest parts reasons Hfo Ho Hfc Hc H IH]; intros fuel Hlen.
  - assert (Hs : has_match _THINKING_CLOSE rest = false) by (by apply has_match_free; [apply close_width|]).
    destruct fuel; cbn [split_blocks]; unfold search; rewrite (search_none _ None rest open_width Ho), Hs; done.
  - destruct (search_free _ None _ _ _ open_width Ho Hfo) as [g Hg].
    destruct (search_free _ None _ _ _ close_width Hc Hfc) as [g' Hg'].
    pose proof (search_leftmost _ None (before ++ o ++ reason ++ c ++ rest) open_width) as Hl.
    rewrite Hg in Hl. destruct Hl as (_ & Hne & _). rewrite !length_app in Hlen.
    destruct fuel as [|fuel]; [destruct o; simpl in *; [done|lia]|].
    cbn [split_blocks]; unfold search; rewrite Hg, Hg', IH; [done|]. destruct o; simpl in *; [done|lia].
Qed.

Lemma split_blocks_error fuel cs e : split_blocks fuel cs = Raise e -> e = unbalanced.
Proof.
  revert cs. induction fuel as [|fuel IH]; intros cs; cbn [split_blocks];
    destruct (search _ cs) as [[[[before o] inner] g]|]; try (destruct (has_match _ _); congruence);
    destruct (search _ inner) as [[[[reason c] rest] g']|]; try congruence.
  intros H. destruct (split_blocks fuel rest) as [[]|] eqn:Hs; [done|]. injection H as <-. by eapply IH.
Qed.

Definition clean_text (parts : list (list string)) : string := str_join (map str_join parts).
Definition block_text (reasons : list (list string)) : string := py_strip (join_with nl (map str_join reasons)).

Lemma split_thinking_spec (text : string) :
  (forall clean reasoning, split_thinking_tags text = Ok (clean, reasoning) <->
     exists parts reasons, thinking_blocks (py_chars text) parts reasons /\
       clean = clean_text parts /\ reasoning = block_text reasons) /\
  (forall e, split_thinking_tags text = Raise e <->
     e = unbalanced /\ forall parts reasons, ~ thinking_blocks (py_chars text) parts reasons).
Proof.
  assert (Hplain : negb (has_match _THINKING_OPEN (py_chars text)) && negb (has_match _THINKING_CLOSE (py_chars text)) = true ->
    split_thinking_tags text = '(parts, reasons) ← split_blocks (length (py_chars text)) (py_chars text); Ok (clean_text parts, block_text reasons)).
  { intros H. unfold split_thinking_tags. rewrite H. py_bool.
    rewrite (split_blocks_complete _ _ [py_chars text] []); [|done|constructor; apply has_match_free; auto using open_width, close_width].
    cbn. unfold clean_text. simpl. by rewrite str_app_nil_r, str_join_chars. }
  assert (Hs : split_thinking_tags text =
    '(parts, reasons) ← split_blocks (length (py_chars text)) (py_chars text); Ok (clean_text parts, block_text reasons)).
  { destruct (negb _ && negb _) eqn:Hb in Hplain; [by apply Hplain|]. unfold split_thinking_tags. by rewrite Hb. }
  rewrite Hs. clear Hplain Hs. pose proof (split_blocks_complete (length (py_chars text)) (py_chars text)) as Hc.
  destruct (split_blocks _ _) as [[parts reasons]|e] eqn:H.
  - apply split_blocks_sound in H. split.
    + intros clean reasoning. cbn. split; [intros [= <- <-]; eauto|]. intros (ps & rs & Hp & -> & ->).
      specialize (Hc ps rs (le_n _) Hp). by injection Hc as -> ->.
    + intros e. split; [done|]. intros [_ Hn]. by apply Hn in H.
  - pose proof (split_blocks_error _ _ _ H) as ->. split.
    + intros clean reasoning. split; [done|]. intros (ps & rs & Hp & _). by specialize (Hc ps rs (le_n _) Hp).
    + intros e. cbn. split; [|by intros [-> _]]. intros [= <-]. split; [done|]. intros ps rs Hp. by specialize (Hc ps rs (le_n _) Hp).
Qed.

(** What an input is taken for: the JSON it may be, decoded, and the text it is
    otherwise. *)
Definition document_of (raw : raw_input) : option (option json) :=
  match raw with
  | RawStr s => if String.prefix "{" (py_strip s) then Some (json_loads (py_strip s)) else None
  | RawBytes s => if String.prefix "{" (bytes_strip s) || String.prefix "[" (bytes_strip s)
                  then Some (json_loads (decode_replace (bytes_strip s))) else None
  | _ => None
  end.
Definition text_of (raw : raw_input) : option string :=
  match raw with RawStr s => Some s | RawBytes s => Some (decode_replace s) | _ => None end.
Definition is_message (m : jdict) (raw : raw_input) : Prop :=
  raw = RawDict m \/ (document_of raw = Some (Some (JObj m)) /\ _has_recognized_key m = true).

(** The text that is stripped, and whether reasoning came beside it: a text, or the
    content of the innermost message with its reasoning field or thinking parts. *)
Inductive content_of (lower : string -> string) (a : ReasoningAdapter) (raw : raw_input) : string -> bool -> Prop :=
| from_text text :
    text_of raw = Some text -> document_of raw <> Some None -> (forall m, ~ is_message m raw) -> content_of lower a raw text false
| from_message m content thinking reasoning fmt :
    is_message m raw -> message_content (innermost (jdepth (JObj m)) m) = Ok (content, thinking) ->
    _extract_reasoning_field lower a (innermost (jdepth (JObj m)) m) "" = Ok (reasoning, fmt) ->
    content_of lower a raw content (py_truthy_str reasoning || py_truthy_str thinking).

Definition stripped (text : string) (native : bool) (clean : string) : Prop :=
  exists parts reasons, thinking_blocks (py_chars text) parts reasons /\
    clean = if native || py_truthy_str (block_text reasons) then clean_text parts else text.

(** Blocks that are there are found; what is found was there. *)
Lemma split_reads text parts reasons : thinking_blocks (py_chars text) parts reasons ->
  split_thinking_tags text = Ok (clean_text parts, block_text reasons).
Proof. intros H. apply (proj1 (split_thinking_spec text)). eauto. Qed.

(** The clean part of a text, with the reasoning that came beside it, or without. *)
Lemma split_strips (text : string) (native : bool) (clean : string) :
  ('(c, tags) ← split_thinking_tags text; Ok (if native || py_truthy_str tags then c else text)) = Ok clean
  <-> stripped text native clean.
Proof.
  unfold stripped. split.
  - destruct (split_thinking_tags text) as [[c r]|] eqn:H; [|done]. apply (proj1 (split_thinking_spec text)) in H.
    destruct H as (parts & reasons & Hb & -> & ->). intros [= <-]. eauto.
  - intros (parts & reasons & Hb & ->). by rewrite (split_reads _ _ _ Hb).
Qed.

Lemma strip_text text : an_clean <$> _analyze_text text = '(c, tags) ← split_thinking_tags text; Ok (if false || py_truthy_str tags then c else text).
Proof. unfold _analyze_text. destruct (split_thinking_tags text) as [[c r]|]; [|done]. cbn. by destruct (py_truthy_str r). Qed.

Lemma strip_message lower a m content thinking reasoning fmt :
  message_content m = Ok (content, thinking) -> _extract_reasoning_field lower a m "" = Ok (reasoning, fmt) ->
  an_clean <$> analyze_message lower a m "" =
  '(c, tags) ← split_thinking_tags content; Ok (if py_truthy_str reasoning || py_truthy_str thinking || py_truthy_str tags then c else content).
Proof.
  intros Hm Hr. unfold analyze_message. rewrite Hm. cbn [mbind res_bind]. rewrite Hr. cbn [mbind res_bind].
  destruct (py_truthy_str reasoning) eqn:Hre; [|destruct (py_truthy_str thinking) eqn:Hth]; cbn [negb andb orb];
    destruct (split_thinking_tags content) as [[c r]|]; cbn; rewrite ?Hre, ?Hth; try done. by destruct (py_truthy_str r).
Qed.

(** What stripping an input is, when it has a text. *)
Lemma strip_content lower json_error a raw text native : content_of lower a raw text native ->
  strip lower json_error a raw = '(c, tags) ← split_thinking_tags text; Ok (if native || py_truthy_str tags then c else text).
Proof.
  intros H. change (strip lower json_error a raw) with (an_clean <$> _analyze lower json_error a raw "").
  destruct H as [text Ht Hd Hno | m content thinking reasoning fmt Hm Hc Hr].
  - rewrite <- strip_text. f_equal. destruct raw as [s|s|d|n]; try done; injection Ht as <-; cbn [document_of] in Hd; cbn [_analyze].
    + unfold _analyze_string. destruct (String.prefix _ _) eqn:Hp; [|done]. unfold analyze_document.
      destruct (json_loads _) as [[]|] eqn:Hl; try done. destruct (_has_recognized_key _) eqn:Hk; [|done].
      exfalso. apply (Hno d). right. cbn [document_of]. by rewrite Hp, Hl.
    + unfold _analyze_bytes. destruct (_ || _) eqn:Hp; [|done]. unfold analyze_document.
      destruct (json_loads _) as [[]|] eqn:Hl; try done. destruct (_has_recognized_key _) eqn:Hk; [|done].
      exfalso. apply (Hno d). right. cbn [document_of]. by rewrite Hp, Hl.
  - rewrite <- (strip_message lower a _ _ _ _ _ Hc Hr). f_equal. destruct Hm as [-> | [Hd Hk]]; [done|].
    destruct raw as [s|s|d|n]; try done; cbn [document_of] in Hd; cbn [_analyze];
      [unfold _analyze_string | unfold _analyze_bytes]; (destruct (_ : bool) eqn:Hp in Hd; [|done]);
      injection Hd as Hd; rewrite Hp; unfold analyze_document; by rewrite Hd, Hk.
Qed.

(** C21: stripping removes the thinking blocks and nothing else, or fails.  An
    input has a text to strip when it is one, or holds a message whose content is
    one.  [strip] succeeds exactly when that text reads as texts and blocks in turn,
    each block from the first opening tag to the first closing tag after it, with no
    tag after the last block; the result is then the texts without the blocks (so a
    closing tag before an opening one stays), or the whole text when the blocks hold
    blanks only and no reasoning came beside it.  A text that does not read so fails
    as unbalanced. *)
Theorem strip_removes_exactly_the_blocks (lower json_error : string -> string) (a : ReasoningAdapter) (raw : raw_input)
    (text : string) (native : bool) :
  content_of lower a raw text native ->
  (forall clean, strip lower json_error a raw = Ok clean <->
     exists parts reasons, thinking_blocks (py_chars text) parts reasons /\
       clean = if native || py_truthy_str (block_text reasons) then clean_text parts else text) /\
  (forall e, strip lower json_error a raw = Raise e <->
     e = unbalanced /\ forall parts reasons, ~ thinking_blocks (py_chars text) parts reasons).
Proof.
  intros H. rewrite (strip_content _ json_error _ _ _ _ H). split; [intros clean; apply split_strips|].
  intros e. rewrite <- (proj2 (split_thinking_spec text)). destruct (split_thinking_tags text) as [[c r]|]; [done|].
  cbn. by split; intros [= ->].
Qed.

(** ** The tree *)

(** A message is reached with the fuel given. *)
Lemma jget_depth m k v : jget m k = v -> jdepth v <= max_list (map (fun kv => jdepth kv.2) m).
Proof.
  unfold jget. induction m as [|[k0 v0] m IH]; simpl; [by intros <-|].
  destruct (String.eqb k k0); simpl; [intros <-; lia|]. intros H. specialize (IH H). lia.
Qed.

Lemma inner_message_depth m message : inner_message m = Some message -> jdepth (JObj message) < jdepth (JObj m).
Proof.
  unfold inner_message, _first_choice_message. intros H.
  destruct (jget m "message") as [| | | | | |d] eqn:Hm; try (injection H as <-; apply jget_depth in Hm; cbn in *; lia).
  all: destruct (jget m "choices") as [| | | | |[|[| | | | | |choice] ?]|] eqn:Hc; try done;
    destruct (jget choice "message") as [| | | | | |msg] eqn:Hmsg; try done; injection H as <-;
    apply jget_depth in Hc, Hmsg; cbn in *; lia.
Qed.

Lemma innermost_spec fuel m : jdepth (JObj m) <= fuel -> inner_message (innermost fuel m) = None.
Proof.
  revert m. induction fuel as [|fuel IH]; intros m Hd; [cbn in Hd; lia|]. cbn [innermost].
  destruct (inner_message m) as [message|] eqn:Hm; [|done]. apply IH. apply inner_message_depth in Hm. lia.
Qed.

Lemma dedup_NoDup seen refs : NoDup (dedup seen refs) /\ forall x, x ∈ dedup seen refs -> (x ∉ seen) /\ x <> "".
Proof.
  revert seen. induction refs as [|ref refs IH]; intros seen; simpl; [split; [constructor | set_solver]|].
  destruct (py_truthy_str ref && negb (str_in ref seen)) eqn:Hb; [|apply IH]. py_bool.
  apply str_in_false in H0. apply py_truthy_str_true in H. destruct (IH (ref :: seen)) as [Hnd Hin]. split.
  - constructor; [|done]. intros Hx. apply Hin in Hx as [Hx _]. set_solver.
  - intros x Hx. apply elem_of_cons in Hx as [->|Hx]; [done|]. apply Hin in Hx as [Hx ?]. set_solver.
Qed.

Section Tree.
Context (word_char digit_char : string -> bool) (lower sha256_hex json_error : string -> string).

(** What every node of a tree satisfies. *)
Record node_ok (opts : ReasoningOptions) (now : datetime) (n : Node) : Prop := {
  no_summary : nd_summary n <> "";
  no_bounded : (0 <= max_summary_chars opts -> Z.of_nat (py_len (nd_summary n)) <= max_summary_chars opts)%Z;
  no_id : nd_id n = _node_id sha256_hex (nd_kind n) (nd_parent_id n) (nd_summary n);
  no_times : nd_created_at n = now /\ nd_updated_at n = now;
  no_evidence : NoDup (nd_evidence_refs n);
  no_tools : nd_tool_call_refs n <> [] -> nd_kind n = TOOL_CALL \/ nd_kind n = TOOL_RESULT }.

Fixpoint chained (parent_id : string) (nodes : list Node) : Prop :=
  match nodes with [] => True | n :: nodes' => nd_parent_id n = parent_id /\ chained (nd_id n) nodes' end.

Lemma slice_to_len n s : (0 <= n -> Z.of_nat (py_len (slice_to n s)) <= n)%Z.
Proof. intros Hn. unfold slice_to. rewrite py_len_take. destruct (Z.ltb_spec n 0); lia. Qed.

Lemma read_paragraph_len opts para kind status summary :
  read_paragraph digit_char lower opts para = (kind, status, summary) ->
  (0 <= max_summary_chars opts -> Z.of_nat (py_len summary) <= max_summary_chars opts)%Z.
Proof.
  unfold read_paragraph. destruct (classify_paragraph _ _ _) as [k s1]. destruct (status_from_summary _ _ _) as [st s2].
  intros [= <- <- <-]. apply slice_to_len.
Qed.

Lemma new_node_ok opts now parent_id kind status summary :
  summary <> "" -> (0 <= max_summary_chars opts -> Z.of_nat (py_len summary) <= max_summary_chars opts)%Z ->
  node_ok opts now (new_node word_char digit_char sha256_hex now parent_id kind status summary).
Proof.
  intros Hs Hl. split; simpl; try done.
  - apply dedup_NoDup.
  - unfold extract_tool_refs. destruct kind; auto; done.
Qed.

Lemma build_nodes_ok opts now paragraphs : forall parent_id depth nodes,
  build_nodes word_char digit_char lower sha256_hex opts now parent_id depth paragraphs = Ok nodes ->
  Forall (node_ok opts now) nodes /\ chained parent_id nodes /\ length nodes <= length paragraphs /\
  (nodes = [] \/ depth + Z.of_nat (length nodes) <= max_depth opts)%Z.
Proof.
  induction paragraphs as [|para paragraphs IH]; intros parent_id depth nodes H; cbn [build_nodes] in H.
  - res_inv. split_and!; auto; done.
  - res_inv. destruct (read_paragraph _ _ opts para) as [[kind status] summary] eqn:Hp. py_bool.
    destruct (negb (py_truthy_str summary)) eqn:Hs.
    + apply IH in H as (Hn & Hc & Hl & Hd). split_and!; [done | done | simpl; lia |]. destruct Hd; [auto | right; lia].
    + py_bool. apply py_truthy_str_true in Hs. res_inv. apply IH in Hr1 as (Hn & Hc & Hl & Hd). split_and!.
      * constructor; [|done]. apply new_node_ok; [done|]. by eapply read_paragraph_len.
      * done.
      * simpl. lia.
      * right. destruct Hd as [-> |Hd]; simpl in *; lia.
Qed.

(** A reasoning tree is a bounded chain.  An extracted tree has at most
    [max_nodes] nodes and at most [max_depth], each the child of the one before
    and the first the root; every node has a summary, of at most
    [max_summary_chars] characters, an identifier that is a function of its kind,
    its parent and its summary, distinct evidence references, and tool references
    only when it is a tool's; without reasoning there is no node. *)
Lemma tree_is_a_bounded_chain (a : ReasoningAdapter) (now : datetime) (raw : raw_input) (model backend : string) (t : ContextTree) :
  extract word_char digit_char lower sha256_hex json_error a now raw model backend = Ok t ->
  chained "" (ct_nodes t) /\ Forall (node_ok (_opts a) now) (ct_nodes t) /\
  ct_root_id t = match ct_nodes t with n :: _ => nd_id n | [] => "" end /\
  (ct_nodes t = [] \/
   Z.of_nat (length (ct_nodes t)) <= max_nodes (_opts a) /\ Z.of_nat (length (ct_nodes t)) <= max_depth (_opts a))%Z /\
  (forall analysis, _analyze lower json_error a raw model = Ok analysis ->
     ct_format t = an_format analysis /\
     (py_strip (an_reasoning analysis) = "" -> ct_nodes t = []) /\
     (ct_nodes t <> [] -> Z.of_nat (py_bytes_len (an_reasoning analysis)) <= max_reasoning_bytes (_opts a))%Z).
Proof.
  unfold extract. intros H. res_inv. rewrite Hr. cbn [ct_nodes ct_root_id ct_format].
  assert (Hn : chained "" a1 /\ Forall (node_ok (_opts a) now) a1 /\
    (a1 = [] \/ (Z.of_nat (length a1) <= max_nodes (_opts a) /\ Z.of_nat (length a1) <= max_depth (_opts a)))%Z /\
    (py_strip (an_reasoning a0) = "" -> a1 = []) /\
    (a1 <> [] -> Z.of_nat (py_bytes_len (an_reasoning a0)) <= max_reasoning_bytes (_opts a))%Z).
  { destruct (py_truthy_str (py_strip (an_reasoning a0))) eqn:Ht.
    - apply py_truthy_str_true in Ht. unfold _parse_nodes in Hr0. res_inv. py_bool.
      unfold encode in Hr1. destruct (utf8_valid _ _); [|done]. res_inv.
      apply build_nodes_ok in Hr0 as (Hf & Hc & Hl & Hd). split_and!; try done. destruct Hd as [|Hd]; [by left | right; lia].
    - res_inv. split_and!; try done. by left. }
  destruct Hn as (Hc & Hf & Hb & He & Hz). split_and!; try done. intros analysis [= <-]. done.
Qed.
End Tree.

(** ** The inference loop with this adapter *)

Section InferenceAdapter.
Context (word_char digit_char : string -> bool) (lower sha256_hex json_error : string -> string)
  (a : ReasoningAdapter) (now : datetime).

Definition UnicodeEncodeError : exn := Exn (UserError "UnicodeEncodeError") "surrogates not allowed".
(** [except ReasoningError] catches the adapter's own errors only. *)
Definition as_inference {A} (r : res adapter_error A) : res reasoning_error A :=
  match r with
  | Ok x => Ok x
  | Raise (Adapter _ m) => Raise (ReasoningError m)
  | Raise EncodeError => Raise (OtherError UnicodeEncodeError)
  end.
Definition as_raw (v : json) : raw_input := match v with JObj d => RawDict d | _ => RawOther (type_name v) end.
Definition loop_extract (v : json) (model backend : string) : res reasoning_error ContextTree :=
  as_inference (extract word_char digit_char lower sha256_hex json_error a now (as_raw v) model backend).
Definition loop_strip (v : json) : res reasoning_error string := as_inference (strip lower json_error a (as_raw v)).

Lemma analysis_of_response (r : Response) model an :
  _analyze lower json_error a (as_raw (reasoning_input r)) model = Ok an ->
  exists parts reasons, thinking_blocks (py_chars (rsp_content r)) parts reasons /\
    (an_clean an = clean_text parts \/
     block_text reasons = "" /\ an_reasoning an = "" /\ an_clean an = rsp_content r).
Proof.
  assert (Hi : forall fuel, innermost fuel (("content", JStr (rsp_content r)) ::
        if py_truthy_str (rsp_reasoning r) then [("reasoning_content", JStr (rsp_reasoning r))] else []) =
     (("content", JStr (rsp_content r)) ::
        if py_truthy_str (rsp_reasoning r) then [("reasoning_content", JStr (rsp_reasoning r))] else [])).
  { intros [|fuel]; [done|]. by destruct (py_truthy_str (rsp_reasoning r)). }
  unfold reasoning_input, as_raw, _analyze, _analyze_structured. rewrite Hi. clear Hi. unfold analyze_message.
  cbn -[_extract_reasoning_field split_thinking_tags]. intros H. res_inv. destruct a0 as [reasoning fmt].
  rewrite andb_false_r in H. res_inv. destruct a0 as [clean tags].
  apply split_thinking_spec in Hr0 as (parts & reasons & Hb & -> & ->). exists parts, reasons. split; [done|].
  destruct (py_truthy_str reasoning); [injection H as <-; by left|].
  destruct (py_truthy_str (block_text reasons)) eqn:Hbt; injection H as <-; [by left|]. right.
  by apply py_truthy_str_false in Hbt.
Qed.

(** What the loop reads of a model's answer is its text without the thinking
    blocks.  When the reasoning did not fail, the text given to the validator is
    the concatenation of what is between the thinking blocks of the content, or
    the content itself when its blocks hold no text; when it failed, nothing of
    the content is given; and the analysis raises nothing but the encoding error
    of a lone surrogate, so every error of the adapter's own is a retry. *)
Lemma inference_reads_clean_text (r : Response) (model : string) :
  match analyse model loop_extract loop_strip r with
  | Ok (tree, clean, false) =>
      rsp_content r = "" /\ clean = "" \/
      exists parts reasons, thinking_blocks (py_chars (rsp_content r)) parts reasons /\
        (clean = clean_text parts \/ block_text reasons = "" /\ clean = rsp_content r)
  | Ok (tree, clean, true) => clean = ""
  | Raise e => e = UnicodeEncodeError
  end.
Proof.
  unfold analyse. destruct (py_truthy_str (rsp_content r) || py_truthy_str (rsp_reasoning r)) eqn:Hb.
  2: { apply orb_false_iff in Hb as [Hb _]. apply py_truthy_str_false in Hb. by left. }
  unfold loop_extract. destruct (extract _ _ _ _ _ _ _ _ _ _) as [tree|[]]; cbn; try done.
  unfold loop_strip, strip. destruct (_analyze _ _ _ _ _) as [an|[]] eqn:Ha; cbn; try done.
  apply analysis_of_response in Ha as (parts & reasons & Ht & [H|(H & _ & H')]); right; exists parts, reasons; auto.
Qed.
End InferenceAdapter.

(** ** Examples *)

Definition ex_word (c : string) : bool := letter_or_digit c || is_char "_" c.
Definition ex_digit (c : string) : bool := match c with String a EmptyString => is_digit a | _ => false end.
Definition ex_now : datetime := DT 0 None.
Definition ex_extract (opts : option ReasoningOptions) (raw : raw_input) :=
  extract ex_word ex_digit py_lower (fun s => s) (fun _ => "invalid") (new_adapter opts) ex_now raw "m" "b".
Definition ex_text : string :=
  str_join ["x<thinking>- Goal: ship [E1]"; nl; nl; "tool: grep = run [Pending]"; nl; tab; nl; "BLOCKER: no key</THINKING>y"].

Example nodes_of_a_text :
  match ex_extract None (RawStr ex_text) with
  | Ok t => map (fun n => (nd_kind n, nd_status n, nd_summary n, nd_evidence_refs n, nd_tool_call_refs n)) (ct_nodes t)
  | Raise _ => []
  end = [(GOAL, COMPLETE, "ship [E1]", ["E1"], []); (TOOL_CALL, ACTIVE, "grep = run", [], ["grep"]);
         (BLOCKER, BLOCKED, "no key", [], [])].
Proof. vm_compute. reflexivity. Qed.

Definition ex_strip (s : string) : res adapter_error string := strip py_lower (fun _ => "invalid") (new_adapter None) (RawStr s).

Example strip_cases :
  map ex_strip ["a<thinking>b</thinking>c"; "a[THINK]b</thinking>c[think]d[/think]"; "a</thinking>b"; "a<thinking>b"; "{x"] =
  [Ok "ac"; Ok "ac"; Raise unbalanced; Raise unbalanced; Raise (Adapter MalformedJSONError "invalid")].
Proof. vm_compute. reflexivity. Qed.

(** A closing tag before an opening one is kept, two texts can join to a tag, and
    an empty block stays. *)
Example strip_leaves_tags :
  map ex_strip ["a</thinking>b<thinking>c</thinking>d"; "<thin<thinking>x</thinking>king>secret"; "a<thinking> </thinking>b"] =
  [Ok "a</thinking>bd"; Ok "<thinking>secret"; Ok "a<thinking> </thinking>b"].
Proof. vm_compute. reflexivity. Qed.

(** A lone surrogate escapes as an error that is no [ReasoningError]. *)
Example surrogate_escapes :
  ex_extract None (RawStr (jq "{'content': '', 'thinking': '\ud800'}")) = Raise EncodeError.
Proof. vm_compute. reflexivity. Qed.

Lemma tree_is_a_bounded_chain_witness : exists t,
  ex_extract None (RawStr ex_text) = Ok t /\ chained "" (ct_nodes t) /\ length (ct_nodes t) = 3.
Proof.
  destruct (ex_extract None (RawStr ex_text)) as [t|] eqn:H; [|discriminate H].
  exists t. split; [reflexivity|]. split.
  - apply (tree_is_a_bounded_chain ex_word ex_digit py_lower (fun s => s) (fun _ => "invalid") (new_adapter None) ex_now
             (RawStr ex_text) "m" "b" t). exact H.
  - vm_compute in H. injection H as <-. reflexivity.
Defined.

(** A message of an Anthropic response: the blocks are removed from its text, and
    the empty one too, since thinking came beside it. *)
Lemma strip_removes_exactly_the_blocks_witness :
  let m := [("content", JArr [JObj [("type", JStr "thinking"); ("thinking", JStr "hm")];
                              JObj [("type", JStr "text"); ("text", JStr "a<thinking> </thinking>b")]])] in
  strip py_lower (fun _ => "invalid") (new_adapter None) (RawDict m) = Ok "ab".
Proof.
  intros m. apply (strip_removes_exactly_the_blocks py_lower (fun _ => "invalid") (new_adapter None) (RawDict m)
                     "a<thinking> </thinking>b" true).
  - apply (from_message py_lower (new_adapter None) (RawDict m) m "a<thinking> </thinking>b" "hm" "" NONE); [by left | reflexivity..].
  - exists [["a"]; ["b"]], [[" "]]. split; [|reflexivity].
    apply (split_blocks_sound 30). vm_compute. reflexivity.
Defined.
