(* ===== verification/ToolFormat.v ===== *)
(** * Tool call formats of model families

    [toolformat/formatter.py]: the formatters that print tool definitions and
    results for a model and parse its tool calls: JSON (generic, OpenAI, DeepSeek,
    GLM), XML of Anthropic, XML of Qwen; and the choice of one by model name.

    Parameters: [word_char] (what [\w] matches), [lower] ([str.lower]) and
    [json_error] (the text of a decoder's error). *)
From Stdlib Require Import ZArith Lia Ascii String.
From stdpp Require Import base tactics list strings.
From S2P Require Import Prelude PyStr Json JsonFacts Types Regex ToolRegistry.

Record ParsedToolCall := { p_id : json; p_name : json; p_args : jdict; p_raw : string }.

(** [parameters], or [input_schema] when it is absent or null; a method is called. *)
Definition attribute_or_none (a : attribute) : option attribute :=
  match a with Absent | Value JNull => None | _ => Some a end.
Definition _get_input_schema (tool : Tool) : option jdict :=
  let attr := match attribute_or_none (t_parameters tool) with
              | Some a => Some a
              | None => attribute_or_none (t_input_schema tool)
              end in
  match attr with
  | Some (Value (JObj d)) | Some (Method (JObj d)) => Some d
  | _ => None
  end.

(** [str(result.data)], nothing for [None]. *)
Definition result_output (r : Result) : string := if is_null (r_data r) then "" else py_str (r_data r).
Definition result_error (r : Result) : string := match r_error r with Some e => e | None => "None" end.

Section Formats.
Context (word_char : string -> bool) (lower json_error : string -> string).

(** ** JSON *)

Definition definition_entry (tool : Tool) : json :=
  JObj [("type", JStr "function");
        ("function", JObj ([("name", JStr (t_name tool)); ("description", JStr (t_description tool))]
           ++ match _get_input_schema tool with Some schema => [("parameters", JObj schema)] | None => [] end))].
Definition json_definitions (tools : list Tool) : string :=
  match tools with [] => "" | _ => json_dumps compact (JArr (map definition_entry tools)) end.

(** One entry; [None] skips it. *)
Definition generic_call (response : string) (c : json) : option ParsedToolCall :=
  match c with
  | JObj d =>
      let name := jget_or d "name" (JStr "") in
      if negb (py_truthy name) then None
      else
        let call args := Some {| p_id := jget_or d "id" (JStr ""); p_name := name; p_args := args; p_raw := response |} in
        match jget d "arguments" with
        | JObj args => call args
        | JStr s => match json_loads s with Some (JObj args) => call args | _ => None end
        | _ => None
        end
  | _ => None
  end.
Definition generic_parse (response : string) : list ParsedToolCall :=
  if negb (py_truthy_str response) then []
  else match json_loads response with
       | Some (JArr calls) => omap (generic_call response) calls
       | _ => []
       end.

Definition generic_result (name : string) (r : Result) : string :=
  if r_success r then result_output r else String.append "Error: " (result_error r).

Fixpoint generic_check (calls : list json) : option string :=
  match calls with
  | [] => None
  | JObj d :: calls' =>
      let name := jget d "name" in
      if negb (py_truthy name) then Some "tool call missing 'name' field"
      else if is_null (jget d "arguments") then Some (str_join ["tool call "; py_repr_json name; " missing 'arguments'"])
      else generic_check calls'
  | _ :: _ => Some "tool call is not an object"
  end.
Definition generic_validate (response : string) : option string :=
  if negb (py_truthy_str response) then None
  else match json_loads response with
       | None => Some (String.append "invalid JSON format: " (json_error response))
       | Some (JArr calls) => generic_check calls
       | Some _ => Some "expected a JSON array"
       end.

(** ** Anthropic *)

Definition blanks : regex := RStar true (RChar is_space).
Definition not_quote : regex := RChar (fun c => negb (is_char dquote c)).
Definition _invoke_re : pattern :=
  anywhere (RCat (lit "<invoke") (RCat (plus (RChar is_space)) (RCat (lit (String.append "tool=" dquote))
    (RCat (RGroup 1 (RStar true not_quote)) (RCat (lit dquote) (RCat blanks (RCat (lit ">")
    (RCat (RGroup 2 (RStar false dot)) (lit "</invoke>"))))))))).
(** [findall] of a pattern with two groups. *)
Definition findall2 (p : pattern) (response : string) : list (string * string) :=
  let cs := py_chars response in
  map (fun m => (str_join (group 1 m.2), str_join (group 2 m.2))) (find_matches (length cs) p None cs).

Definition anthropic_call (response : string) (m : string * string) : option ParsedToolCall :=
  let '(name, args_raw) := m in
  if negb (py_truthy_str name) then None
  else
    let args_raw := py_strip args_raw in
    if negb (py_truthy_str args_raw) then None
    else match json_loads args_raw with
         | Some (JObj args) => Some {| p_id := JStr ""; p_name := JStr name; p_args := args; p_raw := response |}
         | _ => None
         end.
Definition anthropic_parse (response : string) : list ParsedToolCall :=
  if negb (py_truthy_str response) then [] else omap (anthropic_call response) (findall2 _invoke_re response).

(** The definitions are JSON in this family too: only calls and results are XML. *)
Definition anthropic_entry (tool : Tool) : json :=
  let function := [("name", JStr (t_name tool)); ("description", JStr (t_description tool))] in
  JObj [("type", JStr "function");
        ("function", JObj match _get_input_schema tool with
                          | Some schema => function ++ [("parameters", JObj schema)]
                          | None => function
                          end)].
Definition anthropic_definitions (tools : list Tool) : string :=
  if bool_decide (tools = []) then "" else json_dumps compact (JArr (map anthropic_entry tools)).

Definition anthropic_result (name : string) (r : Result) : string :=
  str_join [String.append "<function_results><result tool=" dquote; name; dquote; ">"; generic_result name r;
            "</result></function_results>"].

(** A tag with the word boundary [\b] after its name and a group up to the closing
    bracket: after a word character, [\b] asks for another kind of character, so
    what the group takes is empty or begins with one. *)
Definition tag_re (tag : string) : pattern :=
  let inner c := negb (is_char ">" c) in
  anywhere (RCat (lit (String.append "<" tag))
    (RCat (RGroup 1 (RAlt (RCat (RChar (fun c => inner c && negb (word_char c))) (RStar true (RChar inner))) REps)) (lit ">"))).
Definition tag_attributes (tag response : string) : list (list string) :=
  let cs := py_chars response in map (fun m => group 1 m.2) (find_matches (length cs) (tag_re tag) None cs).
Definition found (r : regex) (s : list string) : bool :=
  match search_from (anywhere r) None s with Some _ => true | None => false end.
Definition tool_attribute : regex :=
  RCat (lit (String.append "tool=" dquote)) (RCat (RStar true not_quote) (lit dquote)).

Definition call_text (name rest : string) : string := str_join ["tool call "; py_repr name; rest].
Fixpoint anthropic_check (calls : list (string * string)) : option string :=
  match calls with
  | [] => None
  | (name, args_raw) :: calls' =>
      if negb (py_truthy_str name) then Some "tool call missing 'tool' attribute"
      else if negb (py_truthy_str (py_strip args_raw)) then Some (call_text name " missing arguments")
      else match json_loads args_raw with
           | None => Some (call_text name (String.append " has invalid JSON arguments: " (json_error args_raw)))
           | Some _ => anthropic_check calls'
           end
  end.
Definition anthropic_validate (response : string) : option string :=
  if negb (py_truthy_str response) then None
  else if forallb (found tool_attribute) (tag_attributes "invoke" response)
       then anthropic_check (findall2 _invoke_re response)
       else Some "tool call missing 'tool' attribute".

(** ** Qwen *)

Definition _tool_call_re : pattern :=
  anywhere (RCat (lit "<tool_call>") (RCat blanks (RCat (lit (String.append "<tool name=" dquote))
    (RCat (RGroup 1 (plus not_quote)) (RCat (lit (String.append dquote ">")) (RCat blanks
    (RCat (RGroup 2 (RStar false any_char)) (RCat blanks (RCat (lit "</tool>") (RCat blanks (lit "</tool_call>"))))))))))).

Definition qwen_definition (tool : Tool) : string :=
  str_join (["<tool_description>"; nl; "<tool_name>"; t_name tool; "</tool_name>"; nl;
             "<description>"; t_description tool; "</description>"; nl]
    ++ match _get_input_schema tool with
       | Some schema => ["<parameters>"; json_dumps compact (JObj schema); "</parameters>"; nl]
       | None => []
       end ++ ["</tool_description>"; nl]).
Definition qwen_definitions (tools : list Tool) : string := str_join (map qwen_definition tools).

Definition qwen_call (response : string) (m : string * string) : ParsedToolCall :=
  let args_raw := py_strip m.2 in
  let args := if py_truthy_str args_raw then
                match json_loads args_raw with Some (JObj args) => args | _ => [("_raw", JStr args_raw)] end
              else [] in
  {| p_id := JStr ""; p_name := JStr m.1; p_args := args; p_raw := response |}.
Definition qwen_parse (response : string) : list ParsedToolCall :=
  if negb (py_truthy_str response) then [] else map (qwen_call response) (findall2 _tool_call_re response).

Definition qwen_result (name : string) (r : Result) : string :=
  str_join (["<tool_response>"; nl; "<tool_name>"; name; "</tool_name>"; nl]
    ++ (if r_success r then ["<result>"; result_output r; "</result>"] else ["<error>"; result_error r; "</error>"])
    ++ [nl; "</tool_response>"]).

Definition name_attribute : regex :=
  RCat (lit "name") (RCat blanks (RCat (lit "=") (RCat blanks (RCat (lit dquote) (RCat (RStar true not_quote) (lit dquote)))))).
Fixpoint qwen_check (calls : list (string * string)) : option string :=
  match calls with
  | [] => None
  | (name, args_raw) :: calls' =>
      let args_raw := py_strip args_raw in
      if negb (py_truthy_str name) then Some "tool call missing function name"
      else if negb (py_truthy_str args_raw) then Some (call_text name " missing arguments")
      else match json_loads args_raw with
           | None => Some (call_text name (String.append " has invalid JSON arguments: " (json_error args_raw)))
           | Some _ => qwen_check calls'
           end
  end.
Definition qwen_validate (response : string) : option string :=
  if negb (py_truthy_str response) then None
  else if forallb (found name_attribute) (tag_attributes "tool" response)
       then qwen_check (findall2 _tool_call_re response)
       else Some "tool call missing function name".

(** ** The formatters *)

Inductive formatter := Generic | OpenAI | Anthropic | Qwen | DeepSeek | GLM.

Definition model_family (f : formatter) : string :=
  match f with
  | Generic => "generic" | OpenAI => "openai" | Anthropic => "anthropic" | Qwen => "qwen" | DeepSeek => "deepseek" | GLM => "glm"
  end.
Definition format_tool_definitions (f : formatter) (tools : list Tool) : string :=
  match f with
  | Anthropic => anthropic_definitions tools
  | Qwen => qwen_definitions tools
  | _ => json_definitions tools
  end.
Definition parse_tool_calls (f : formatter) (response : string) : list ParsedToolCall :=
  match f with
  | Anthropic => anthropic_parse response
  | Qwen => qwen_parse response
  | _ => generic_parse response
  end.
Definition format_tool_result (f : formatter) (name : string) (r : Result) : string :=
  match f with Anthropic => anthropic_result name r | Qwen => qwen_result name r | _ => generic_result name r end.
Definition validate_format (f : formatter) (response : string) : option string :=
  match f with
  | Anthropic => anthropic_validate response
  | Qwen => qwen_validate response
  | _ => generic_validate response
  end.

Definition get_formatter (model_name : string) : formatter :=
  let has s := py_in s (lower model_name) in
  if has "anthropic" || has "claude" then Anthropic
  else if has "qwq" || has "qwen" then Qwen
  else if has "deepseek" then DeepSeek
  else if has "chatglm" || has "glm" then GLM
  else if has "o1" || has "o3" || has "gpt" then OpenAI
  else Generic.
End Formats.

(** ** Parsed calls are written in the response *)

(** The shape of one tagged call in a text. *)
Record invoke_in (response : string) (name args : list string) : Prop := {
  in_text : exists x blank1 blank2 y, Forall (fun c => is_space c = true) (blank1 ++ blank2) /\
    py_chars response = x ++ py_chars "<invoke" ++ blank1 ++ py_chars (String.append "tool=" dquote) ++ name ++
      py_chars dquote ++ blank2 ++ py_chars ">" ++ args ++ py_chars "</invoke>" ++ y;
  in_name : Forall (fun c => c <> dquote) name;
  in_args : Forall (fun c => c <> nl) args }.

Record qwen_in (response : string) (name args : list string) : Prop := {
  qin_text : exists x b1 b2 b3 b4 y, Forall (fun c => is_space c = true) (b1 ++ b2 ++ b3 ++ b4) /\
    py_chars response = x ++ py_chars "<tool_call>" ++ b1 ++ py_chars (String.append "<tool name=" dquote) ++ name ++
      py_chars (String.append dquote ">") ++ b2 ++ args ++ b3 ++ py_chars "</tool>" ++ b4 ++ py_chars "</tool_call>" ++ y;
  qin_name : Forall (fun c => c <> dquote) name /\ name <> [] }.

Lemma not_quotes m : lang (RStar true not_quote) m -> Forall (fun c => c <> dquote) m.
Proof.
  intros H. apply lang_star_forall in H. eapply Forall_impl; [exact H|]. intros c Hc ->. discriminate Hc.
Qed.

Lemma blanks_spaces m : lang blanks m -> Forall (fun c => is_space c = true) m.
Proof. apply lang_star_forall. Qed.

Lemma findall2_in p response name args : (name, args) ∈ findall2 p response ->
  exists x y m g, py_chars response = x ++ m ++ y /\ name = str_join (group 1 g) /\ args = str_join (group 2 g) /\
    exists prev, match_pattern p prev (m ++ y) = Some (y, g).
Proof.
  unfold findall2. intros H. apply list_elem_of_In, in_map_iff in H as ([m g] & [= <- <-] & H).
  apply list_elem_of_In, find_matches_in in H as (x & y & prev & Hs & Hm). exists x, y, m, g. eauto 10.
Qed.

Lemma app_inv_rest {A} (m y rest k : list A) : m ++ y = k ++ rest -> rest = y -> m = k.
Proof. intros H ->. by apply app_inv_tail in H. Qed.

Lemma invoke_found response name args : (name, args) ∈ findall2 _invoke_re response ->
  exists n a, name = str_join n /\ args = str_join a /\ invoke_in response n a.
Proof.
  intros H. apply findall2_in in H as (x & y & m & g & Hs & Hn & Ha & prev & Hm).
  unfold match_pattern, _invoke_re, anywhere in Hm. cbn [p_before p_body p_after] in Hm.
  apply matches_plain in Hm as (t1 & s1 & E1 & L1 & Hm); [|done].
  apply matches_plain in Hm as (t2 & s2 & -> & L2 & Hm); [|done].
  apply matches_plain in Hm as (t3 & s3 & -> & L3 & Hm); [|done].
  apply matches_group_cat in Hm as (n & s4 & -> & L4 & Hm); [|done].
  apply matches_plain in Hm as (t5 & s5 & -> & L5 & Hm); [|done].
  apply matches_plain in Hm as (t6 & s6 & -> & L6 & Hm); [|done].
  apply matches_plain in Hm as (t7 & s7 & -> & L7 & Hm); [|done].
  apply matches_group_cat in Hm as (a & s8 & -> & L8 & Hm); [|done].
  apply matches_lang in Hm as (t9 & s9 & g' & -> & L9 & Hg & Hm). rewrite (Hg eq_refl) in Hm. injection Hm as -> <-.
  apply lang_lit in L1, L3, L5, L7, L9. subst. exists n, a. split_and!; [done..|].
  apply lang_plus_forall in L2 as [L2 _]. apply blanks_spaces in L6. split.
  - exists x, t2, t6, y. split; [by apply Forall_app|]. by rewrite Hs, E1.
  - by apply not_quotes.
  - apply lang_star_forall in L8. eapply Forall_impl; [exact L8|]. intros c Hc ->. discriminate Hc.
Qed.

Lemma qwen_found response name args : (name, args) ∈ findall2 _tool_call_re response ->
  exists n a, name = str_join n /\ args = str_join a /\ qwen_in response n a.
Proof.
  intros H. apply findall2_in in H as (x & y & m & g & Hs & Hn & Ha & prev & Hm).
  unfold match_pattern, _tool_call_re, anywhere in Hm. cbn [p_before p_body p_after] in Hm.
  apply matches_plain in Hm as (t1 & s1 & E1 & L1 & Hm); [|done].
  apply matches_plain in Hm as (b1 & s2 & -> & B1 & Hm); [|done].
  apply matches_plain in Hm as (t3 & s3 & -> & L3 & Hm); [|done].
  apply matches_group_cat in Hm as (n & s4 & -> & L4 & Hm); [|done].
  apply matches_plain in Hm as (t5 & s5 & -> & L5 & Hm); [|done].
  apply matches_plain in Hm as (b2 & s6 & -> & B2 & Hm); [|done].
  apply matches_group_cat in Hm as (a & s7 & -> & L7 & Hm); [|done].
  apply matches_plain in Hm as (b3 & s8 & -> & B3 & Hm); [|done].
  apply matches_plain in Hm as (t9 & s9 & -> & L9 & Hm); [|done].
  apply matches_plain in Hm as (b4 & s10 & -> & B4 & Hm); [|done].
  apply matches_lang in Hm as (t11 & s11 & g' & -> & L11 & Hg & Hm). rewrite (Hg eq_refl) in Hm. injection Hm as -> <-.
  apply lang_lit in L1, L3, L5, L9, L11. subst. exists n, a. split_and!; [done..|].
  apply blanks_spaces in B1, B2, B3, B4. split.
  - exists x, b1, b2, b3, b4, y. split; [by rewrite !Forall_app|]. by rewrite Hs, E1.
  - apply lang_plus_forall in L4 as [L4 Hne]. split; [|done]. eapply Forall_impl; [exact L4|].
    intros c Hc ->. discriminate Hc.
Qed.

(** Where a parsed call comes from. *)
Inductive written (response : string) : formatter -> ParsedToolCall -> Prop :=
| written_json f calls d args : (f <> Anthropic /\ f <> Qwen) -> json_loads response = Some (JArr calls) -> JObj d ∈ calls ->
    (jget d "arguments" = JObj args \/ exists s, jget d "arguments" = JStr s /\ json_loads s = Some (JObj args)) ->
    written response f {| p_id := jget_or d "id" (JStr ""); p_name := jget_or d "name" (JStr ""); p_args := args; p_raw := response |}
| written_invoke name raw args : invoke_in response name raw -> json_loads (py_strip (str_join raw)) = Some (JObj args) ->
    written response Anthropic {| p_id := JStr ""; p_name := JStr (str_join name); p_args := args; p_raw := response |}
| written_qwen name raw args : qwen_in response name raw ->
    (json_loads (py_strip (str_join raw)) = Some (JObj args) \/
     py_strip (str_join raw) = "" /\ args = [] \/ args = [("_raw", JStr (py_strip (str_join raw)))]) ->
    written response Qwen {| p_id := JStr ""; p_name := JStr (str_join name); p_args := args; p_raw := response |}.

Lemma generic_written f response c : (f <> Anthropic /\ f <> Qwen) -> c ∈ generic_parse response ->
  written response f c /\ py_truthy (p_name c) = true.
Proof.
  intros Hf. unfold generic_parse. destruct (negb _); [set_solver|]. destruct (json_loads response) as [[| | | | |calls|]|] eqn:Hl; try set_solver.
  intros H. apply list_elem_of_omap in H as (v & Hin & Hc). unfold generic_call in Hc. destruct v as [| | | | | |d]; try done.
  destruct (py_truthy (jget_or d "name" (JStr ""))) eqn:Hn; [|done]. cbn in Hc.
  destruct (jget d "arguments") as [| | | |s| |args] eqn:Ha; try done.
  - destruct (json_loads s) as [[| | | | | |args]|] eqn:Hs; try done. injection Hc as <-. split; [|done].
    eapply written_json; eauto.
  - injection Hc as <-. split; [|done]. eapply written_json; eauto.
Qed.

Lemma str_join_empty l : Forall (fun c : string => c <> "") l -> l <> [] -> str_join l <> "".
Proof. destruct l as [|[|a c] l]; simpl; [done| |done]. intros H _. by apply Forall_cons in H as [? _]. Qed.

Lemma py_chars_nonempty s : Forall (fun c : string => c <> "") (py_chars s).
Proof.
  induction s as [|a s IH]; simpl; [constructor|]. destruct (py_chars s) as [|c cs]; [by repeat constructor|].
  destruct (starts_cont c); constructor; try done. by apply Forall_cons in IH as [_ IH].
Qed.

(** A parser invents no call.  Every call it returns is written in the
    response: as an object of the decoded array, as an [invoke] element on one
    line, or as a [tool_call] element; its arguments are the decoded object (the
    Qwen parser wraps what is not one); it has a name, and it carries the response
    as its raw text. *)
Lemma parsed_calls_are_written (f : formatter) (response : string) (c : ParsedToolCall) :
  c ∈ parse_tool_calls f response ->
  written response f c /\ p_raw c = response /\ py_truthy (p_name c) = true.
Proof.
  assert (Hgen : f <> Anthropic /\ f <> Qwen -> c ∈ generic_parse response ->
    written response f c /\ p_raw c = response /\ py_truthy (p_name c) = true).
  { intros Hf Hc. destruct (generic_written f response c Hf Hc) as [Hw Hn]. split_and!; [done| |done]. by destruct Hw. }
  destruct f; cbn [parse_tool_calls]; try (apply Hgen; done); clear Hgen.
  - unfold anthropic_parse. destruct (negb _); [set_solver|]. intros H.
    apply list_elem_of_omap in H as ([name args_raw] & Hin & Hc). apply invoke_found in Hin as (n & a & -> & -> & Hi).
    unfold anthropic_call in Hc. destruct (py_truthy_str (str_join n)) eqn:Hn; [|done]. cbn in Hc.
    destruct (negb _); [done|]. destruct (json_loads _) as [[| | | | | |args]|] eqn:Hl; try done. injection Hc as <-.
    split_and!; [by apply written_invoke with a | done | exact Hn].
  - unfold qwen_parse. destruct (negb _); [set_solver|]. intros H.
    apply list_elem_of_In, in_map_iff in H as ([name args_raw] & <- & Hin). apply list_elem_of_In in Hin.
    apply qwen_found in Hin as (n & a & -> & -> & Hi). unfold qwen_call. cbn [fst snd]. split_and!; [|done|].
    + apply written_qwen with a; [done|]. destruct (py_truthy_str (py_strip (str_join a))) eqn:Ha.
      * destruct (json_loads _) as [[| | | | | |args]|]; auto.
      * apply py_truthy_str_false in Ha. auto.
    + cbn. apply py_truthy_str_true, str_join_empty; [|by destruct (qin_name _ _ _ Hi)].
      destruct (qin_text _ _ _ Hi) as (x & b1 & b2 & b3 & b4 & y & _ & Ht).
      pose proof (py_chars_nonempty response) as Hne. rewrite Ht, !Forall_app in Hne. by destruct Hne as (_ & _ & _ & _ & Hne & _).
Qed.

(** ** A printed array of calls is parsed *)

Definition call_entry (as_text : option style) (c : ParsedToolCall) : json :=
  JObj [("id", p_id c); ("name", p_name c);
        ("arguments", match as_text with Some st => JStr (json_dumps st (JObj (p_args c))) | None => JObj (p_args c) end)].

Lemma printed_call_parses as_text response c : match as_text with Some st => style_ok st | None => True end ->
  json_ok (JObj (p_args c)) = true -> py_truthy (p_name c) = true -> p_raw c = response ->
  generic_call response (call_entry as_text c) = Some c.
Proof.
  intros Hst Ha Hn <-. unfold generic_call, call_entry. cbn -[json_loads json_dumps]. rewrite Hn. cbn -[json_loads json_dumps].
  destruct as_text; [rewrite loads_dumps by done|]; by destruct c.
Qed.

(** C35: calls that a model of a JSON family (generic, OpenAI, DeepSeek, GLM; not
    Anthropic or Qwen, whose calls are markup) prints as a JSON array are the calls
    that are parsed. For a list of calls that is not empty, each with a name that
    is true (not empty), arguments that are an object that can be printed, and
    the response as its raw text: whatever the printing style, with the arguments
    as an object or as the text of one, the parser returns the same calls in the
    same order, and the format check accepts the array. *)
Theorem printed_calls_are_parsed (json_error : string -> string) (st : style) (as_text : option style) (calls : list ParsedToolCall) (f : formatter) (word_char : string -> bool) :
  let response := json_dumps st (JArr (map (call_entry as_text) calls)) in
  style_ok st -> match as_text with Some st' => style_ok st' | None => True end ->
  f ∈ [Generic; OpenAI; DeepSeek; GLM] -> calls <> [] ->
  json_ok (JArr (map (call_entry as_text) calls)) = true -> Forall (fun c => json_ok (JObj (p_args c)) = true) calls ->
  Forall (fun c => py_truthy (p_name c) = true /\ p_raw c = response) calls ->
  parse_tool_calls f response = calls /\ validate_format word_char json_error f response = None.
Proof.
  intros response Hst Hst' Hf Hne Hok Hargs Hcalls.
  assert (Hl : json_loads response = Some (JArr (map (call_entry as_text) calls))) by (by apply loads_dumps).
  assert (Hr : negb (py_truthy_str response) = false).
  { apply negb_false_iff, py_truthy_str_true. intros E. rewrite E in Hl. discriminate Hl. }
  assert (Hp : generic_parse response = calls).
  { unfold generic_parse. rewrite Hr, Hl. clear -Hcalls Hargs Hst'. generalize dependent response. intros response Hcalls.
    induction Hcalls as [|c calls [Hn Hraw] Hcalls IH]; [done|]. apply Forall_cons in Hargs as [Ha Hargs].
    cbn [map omap list_omap]. by rewrite printed_call_parses, IH. }
  assert (Hv : generic_validate json_error response = None).
  { unfold generic_validate. rewrite Hr, Hl. clear -Hcalls. generalize dependent response. intros response Hcalls.
    induction Hcalls as [|c calls [Hn _] Hcalls IH]; [done|]. cbn. rewrite Hn. cbn. by destruct as_text. }
  destruct f; try done; set_solver.
Qed.

(** The definitions of tools are the same text for every family but Qwen, and a
    text that decodes to one entry for each tool, in order. *)
Lemma definitions_are_json (f : formatter) (tools : list Tool) : f <> Qwen -> tools <> [] ->
  json_ok (JArr (map definition_entry tools)) = true ->
  format_tool_definitions f tools = json_definitions tools /\
  json_loads (format_tool_definitions f tools) = Some (JArr (map definition_entry tools)).
Proof.
  intros Hf Ht Hok. assert (He : format_tool_definitions f tools = json_definitions tools).
  { destruct f; try done. simpl. unfold anthropic_definitions, json_definitions. rewrite bool_decide_eq_false_2 by done.
    destruct tools as [|t tools]; [done|]. do 2 f_equal. apply map_ext. intros t'.
    unfold anthropic_entry, definition_entry. by destruct (_get_input_schema t'). }
  split; [done|]. rewrite He. destruct tools as [|t tools]; [done|]. unfold json_definitions.
  apply loads_dumps; [apply compact_ok | done].
Qed.

(** ** Examples *)

Definition ex_word (c : string) : bool := match c with String a EmptyString => is_alnum a || Ascii.eqb a "_" | _ => false end.
Definition ex_invoke : string := jq "ok <invoke tool='ls'>{'p': 1}</invoke> <invoke tool=''>{}</invoke><invoke tool='rm'>[]</invoke>".
Definition ex_qwen : string := jq "<tool_call> <tool name='ls'> {'p': 1} </tool></tool_call><tool_call><tool name='x'>run</tool></tool_call>".

Example parsed :
  (map (fun c => (p_name c, p_args c)) (parse_tool_calls Anthropic ex_invoke),
   map (fun c => (p_name c, p_args c)) (parse_tool_calls Qwen ex_qwen)) =
  ([(JStr "ls", [("p", JInt 1)])],
   [(JStr "ls", [("p", JInt 1)]); (JStr "x", [("_raw", JStr "run")])]).
Proof. vm_compute. reflexivity. Qed.

(** Arguments on several lines are not found. *)
Example multi_line_is_lost :
  parse_tool_calls Anthropic (jq (str_join ["<invoke tool='ls'>{"; nl; "'p': 1}</invoke>"])) = [].
Proof. vm_compute. reflexivity. Qed.

(** The format check accepts calls that the parser drops. *)
Example accepted_but_dropped :
  map (fun s => (validate_format ex_word (fun _ => "bad") Generic (jq s), parse_tool_calls Generic (jq s)))
    ["[{'name':'a','arguments':3}]"; "[{'name':'a','arguments':'{'}]"] = [(None, []); (None, [])].
Proof. vm_compute. reflexivity. Qed.

Example formats_checked :
  map (fun fs => validate_format ex_word (fun _ => "bad") fs.1 (jq fs.2))
    [(Generic, "{"); (Generic, "{}"); (Anthropic, "<invoke name='x'>"); (Anthropic, ex_invoke); (Qwen, "<tool id='3'>"); (Qwen, ex_qwen)]
  = [Some "invalid JSON format: bad"; Some "expected a JSON array"; Some "tool call missing 'tool' attribute";
     Some "tool call missing 'tool' attribute"; Some "tool call missing function name"; Some "tool call 'x' has invalid JSON arguments: bad"].
Proof. vm_compute. reflexivity. Qed.

Example families :
  map (fun m => model_family (get_formatter py_lower m)) ["Claude-3"; "QwQ-32b"; "deepseek-r1"; "glm-4"; "gpt-4o"; "llama"] =
  ["anthropic"; "qwen"; "deepseek"; "glm"; "openai"; "generic"].
Proof. reflexivity. Qed.

Lemma parsed_calls_are_written_witness : exists c,
  parse_tool_calls Anthropic ex_invoke = [c] /\ written ex_invoke Anthropic c.
Proof.
  destruct (parse_tool_calls Anthropic ex_invoke) as [|c [|]] eqn:H; [vm_compute in H; discriminate H | | vm_compute in H; discriminate H].
  exists c. split; [reflexivity|]. apply (parsed_calls_are_written Anthropic ex_invoke c). rewrite H. apply list_elem_of_here.
Defined.

Definition ex_calls : list ParsedToolCall :=
  let args := [("p", JStr "a")] in
  let call raw := [{| p_id := JStr "1"; p_name := JStr "ls"; p_args := args; p_raw := raw |}] in
  call (json_dumps default_style (JArr (map (call_entry (Some compact)) (call "")))).

Lemma printed_calls_are_parsed_witness :
  parse_tool_calls Generic (jq "[{'id': '1', 'name': 'ls', 'arguments': '{\'p\':\'a\'}'}]") = ex_calls /\
  parse_tool_calls OpenAI (json_dumps default_style (JArr (map (call_entry (Some compact)) ex_calls))) = ex_calls.
Proof.
  split; [vm_compute; reflexivity|].
  apply (printed_calls_are_parsed (fun _ => "bad") default_style (Some compact) ex_calls OpenAI ex_word);
    [exact default_style_ok | exact compact_ok | set_solver | discriminate
    | vm_compute; reflexivity | repeat constructor | repeat constructor].
Defined.
