(* ===== verification/ChildWire.v ===== *)
(** * The runtime child's wire lines

    [kei/runtime_link.py]: the typed, bounded reader of one line of the child's
    standard output ([_Fields], [_parse_agents], [parse_child_line_counted]).
    The line is UTF-8 text without a byte-order mark; [\d] in the timestamp
    pattern is an ASCII digit here. *)
From Stdlib Require Import ZArith Lia Ascii String SpecFloat.
From stdpp Require Import base tactics list strings.
From S2P Require Import Prelude PyStr PyFloat Json JsonFacts Types LinkConfig.

Definition CONTRACT_VERSION : Z := 1.
Definition MAX_CHILD_LINE_BYTES : nat := 4096.
Definition _MAX_SEQ : Z := 2 ^ 53 - 1.
Definition _MAX_LATENCY_MS : Z := 3600000.
Definition _MAX_NEXT_IN_MS : Z := 3600000.

Record AssignedAgent := { ag_id : string; ag_is_default : bool }.

Record RuntimeIdentity := {
  id_run_id : string;
  id_installation_id : string;
  id_org_id : string;
  id_workspace_id : string;
  id_platform : string;
  id_status : string;
  id_binding_status : string;
  id_runtime_version : string;
  id_default_agent_id : option string;
  id_agents : list AssignedAgent;
}.

Record BeatEvent := {
  be_run_id : string;
  be_seq : Z;
  be_at : string;
  be_outcome : BeatOutcome;
  be_http_status : Z;
  be_latency_ms : Z;
  be_next_in_ms : Z;
}.

Record TerminalEvent := { te_run_id : string; te_reason : string }.

Inductive ChildEvent :=
| EIdentity (i : RuntimeIdentity)
| EBeat (b : BeatEvent)
| ETerminal (t : TerminalEvent)
| EIgnored.

Inductive ChildLineError := LineTooLongError | MalformedLineError (key : string) | ContractMismatchError (key : string).

(** ** The timestamp pattern *)

(** A fixed shape: [d] stands for a digit, any other character for itself. *)
Fixpoint match_shape (shape s : string) : option (string * string) :=
  match shape with
  | EmptyString => Some (EmptyString, s)
  | String c shape' =>
      match s with
      | String a s' =>
          if (if Ascii.eqb c "d" then is_digit a else Ascii.eqb a c) then
            match match_shape shape' s' with
            | Some (m, r) => Some (String a m, r)
            | None => None
            end
          else None
      | EmptyString => None
      end
  end.

(** The optional fraction: a dot and one to nine digits. *)
Definition match_frac (s : string) : option (string * string) :=
  match s with
  | String a s' =>
      if Ascii.eqb a "." then
        let '(d, r) := span_digits s' in
        if ((1 <=? String.length d) && (String.length d <=? 9))%nat then Some (String a d, r) else None
      else Some (EmptyString, s)
  | EmptyString => Some (EmptyString, s)
  end.

Definition match_zone (s : string) : option (string * string) :=
  match s with
  | String a s' =>
      if Ascii.eqb a "Z" then Some ("Z", s')
      else if Ascii.eqb a "+" || Ascii.eqb a "-" then
        match match_shape "dd:dd" s' with Some (m, r) => Some (String a m, r) | None => None end
      else None
  | EmptyString => None
  end.

(** The groups of [_TIMESTAMP_RE.match(value)]. *)
Definition timestamp_groups (s : string) : option (string * string * string) :=
  match match_shape "dddd-dd-ddTdd:dd:dd" s with
  | Some (base, r1) =>
      match match_frac r1 with
      | Some (frac, r2) =>
          match match_zone r2 with
          | Some (zone, r3) =>
              if String.eqb r3 EmptyString || String.eqb r3 nl then Some (base, frac, zone) else None
          | None => None
          end
      | None => None
      end
  | None => None
  end.

Definition _TIMESTAMP_RE (s : string) : bool :=
  match timestamp_groups s with Some _ => true | None => false end.

Example timestamp_examples :
  map timestamp_groups ["2026-01-02T03:04:05Z"; "2026-01-02T03:04:05.123+02:30"; "2026-01-02T03:04:05.Z"; "2026-1-02T03:04:05Z"]
  = [Some ("2026-01-02T03:04:05", "", "Z"); Some ("2026-01-02T03:04:05", ".123", "+02:30"); None; None].
Proof. vm_compute. reflexivity. Qed.

(** ** Field readers *)

Abbreviation wire := (res ChildLineError).

Definition text (raw : jdict) (key : string) (required : bool) : wire string :=
  match dget raw key with
  | None => if required then Raise (MalformedLineError key) else Ok EmptyString
  | Some (JStr s) => Ok s
  | Some _ => Raise (MalformedLineError key)
  end.

Definition ident (raw : jdict) (key : string) (required : bool) : wire string :=
  value ← text raw key required;
  if (py_truthy_str value || required) && negb (_ID_RE value) then Raise (MalformedLineError key)
  else Ok value.

Definition timestamp (raw : jdict) (key : string) : wire string :=
  value ← text raw key true;
  if negb (_TIMESTAMP_RE value) then Raise (MalformedLineError key) else Ok value.

Definition integer (raw : jdict) (key : string) (required : bool) (lo hi : Z) : wire Z :=
  match dget raw key with
  | None => if required then Raise (MalformedLineError key) else Ok 0%Z
  | Some (JInt z) => if ((lo <=? z) && (z <=? hi))%Z then Ok z else Raise (MalformedLineError key)
  | Some _ => Raise (MalformedLineError key)
  end.

(** ** Agents *)

Definition _parse_agent_entry (entry : json) : option AssignedAgent :=
  match entry with
  | JObj d =>
      match jget d "agent_id" with
      | JStr agent_id =>
          if _ID_RE agent_id then
            match jget_or d "is_default" (JBool false) with
            | JBool b => Some {| ag_id := agent_id; ag_is_default := b |}
            | _ => None
            end
          else None
      | _ => None
      end
  | _ => None
  end.

(** The loop over the entries: the default so far, the agents so far, the drops. *)
Fixpoint agents_loop (default : option string) (agents : list AssignedAgent) (dropped : Z) (entries : list json)
  : option string * list AssignedAgent * Z :=
  match entries with
  | [] => (default, agents, dropped)
  | e :: entries' =>
      match _parse_agent_entry e with
      | None => agents_loop default agents (dropped + 1) entries'
      | Some a =>
          agents_loop (match default with
                       | None => if ag_is_default a then Some (ag_id a) else None
                       | d => d
                       end) (agents ++ [a]) dropped entries'
      end
  end.

Definition _parse_agents (raw : jdict) : option string * list AssignedAgent * Z :=
  let '(default, dropped) :=
    match dget raw "agent_id" with
    | None => (None, 0%Z)
    | Some (JStr v) => if _ID_RE v then (Some v, 0%Z) else (None, 1%Z)
    | Some _ => (None, 1%Z)
    end in
  match dget raw "agents" with
  | None => (default, [], dropped)
  | Some (JArr entries) => agents_loop default [] dropped entries
  | Some _ => (default, [], (dropped + 1)%Z)
  end.

(** ** One line *)

Definition parse_identity (raw : jdict) : wire (ChildEvent * Z) :=
  let '(default_agent_id, agents, dropped) := _parse_agents raw in
  run_id ← ident raw "run_id" true;
  installation_id ← ident raw "installation_id" true;
  org_id ← ident raw "org_id" true;
  workspace_id ← ident raw "workspace_id" false;
  platform ← ident raw "platform" false;
  status ← ident raw "status" false;
  binding_status ← ident raw "binding_status" false;
  runtime_version ← ident raw "runtime_version" false;
  Ok (EIdentity {| id_run_id := run_id; id_installation_id := installation_id; id_org_id := org_id;
                   id_workspace_id := workspace_id; id_platform := platform; id_status := status;
                   id_binding_status := binding_status; id_runtime_version := runtime_version;
                   id_default_agent_id := default_agent_id; id_agents := agents |}, dropped).

Definition parse_beat (raw : jdict) : wire (ChildEvent * Z) :=
  run_id ← ident raw "run_id" true;
  seq ← integer raw "seq" false 0 _MAX_SEQ;
  at_ ← timestamp raw "at";
  outcome ← text raw "outcome" true;
  latency_ms ← integer raw "latency_ms" false 0 _MAX_LATENCY_MS;
  next_in_ms ← integer raw "next_in_ms" false 0 _MAX_NEXT_IN_MS;
  http_status ← integer raw "http_status" false 0 599;
  if ((0 <? http_status) && (http_status <? 100))%Z then Raise (MalformedLineError "http_status")
  else
    match enum_of beat_outcome_value beat_outcomes outcome with
    | None => Raise (ContractMismatchError "outcome")
    | Some o => Ok (EBeat {| be_run_id := run_id; be_seq := seq; be_at := at_; be_outcome := o;
                             be_http_status := http_status; be_latency_ms := latency_ms;
                             be_next_in_ms := next_in_ms |}, 0%Z)
    end.

Definition parse_terminal (raw : jdict) : wire (ChildEvent * Z) :=
  run_id ← ident raw "run_id" true;
  reason ← text raw "reason" true;
  if negb (_REASON_RE reason) then Raise (MalformedLineError "reason")
  else Ok (ETerminal {| te_run_id := run_id; te_reason := reason |}, 0%Z).

(** A decoded line, by its version and event name. *)
Definition parse_object (raw : jdict) : wire (ChildEvent * Z) :=
  match jget raw "v" with
  | JInt v =>
      if negb (v =? CONTRACT_VERSION)%Z then Raise (ContractMismatchError "v")
      else
        match jget raw "event" with
        | JStr event =>
            if String.eqb event "identity" then parse_identity raw
            else if String.eqb event "beat" then parse_beat raw
            else if String.eqb event "terminal" then parse_terminal raw
            else Ok (EIgnored, 0%Z)
        | _ => Raise (MalformedLineError "event")
        end
  | _ => Raise (ContractMismatchError "v")
  end.

Definition line_body (line : string) : string := py_removesuffix cr (py_removesuffix nl line).

Definition parse_child_line_counted (line : string) : wire (ChildEvent * Z) :=
  let data := line_body line in
  if (MAX_CHILD_LINE_BYTES <? py_bytes_len data)%nat then Raise LineTooLongError
  else
    match json_loads data with
    | None => Raise (MalformedLineError "not json")
    | Some (JObj raw) => parse_object raw
    | Some _ => Raise (MalformedLineError "not an object")
    end.

Definition parse_child_line (line : string) : wire ChildEvent := fst <$> parse_child_line_counted line.

Example beat_line :
  parse_child_line (jq "{'v':1,'event':'beat','run_id':'r1','seq':7,'at':'2026-01-02T03:04:05Z','outcome':'ok','token':'x'}")
  = Ok (EBeat {| be_run_id := "r1"; be_seq := 7; be_at := "2026-01-02T03:04:05Z"; be_outcome := BEAT_OK;
                 be_http_status := 0; be_latency_ms := 0; be_next_in_ms := 0 |}).
Proof. vm_compute. reflexivity. Qed.

(** ** Bounds and allowlist *)

Lemma text_Ok raw key r s : text raw key r = Ok s ->
  dget raw key = Some (JStr s) \/ (dget raw key = None /\ r = false /\ s = EmptyString).
Proof. unfold text. destruct (dget raw key) as [[]|], r; intros [= <-]; auto. Qed.

Lemma ident_Ok raw key r s : ident raw key r = Ok s -> _ID_RE s = true \/ (r = false /\ s = EmptyString).
Proof.
  unfold ident. intros H. res_inv. destruct (_ID_RE a) eqn:He; [left; simpl in H; by rewrite andb_false_r in H; simplify_eq|].
  rewrite andb_true_r in H. destruct (py_truthy_str a) eqn:Ht; [done|]. destruct r; [done|]. simplify_eq/=.
  apply py_truthy_str_false in Ht. auto.
Qed.

Lemma integer_Ok raw key r lo hi z : integer raw key r lo hi = Ok z ->
  (lo <= z <= hi)%Z \/ (r = false /\ z = 0%Z).
Proof.
  unfold integer. destruct (dget raw key) as [[]|]; try done.
  - destruct (_ && _) eqn:H; [|done]. intros [= <-]. py_bool. left. lia.
  - destruct r; [done|]. intros [= <-]. auto.
Qed.

Lemma timestamp_Ok raw key s : timestamp raw key = Ok s -> _TIMESTAMP_RE s = true.
Proof. unfold timestamp. intros H. res_inv. destruct (_TIMESTAMP_RE a) eqn:E; [|done]. by simplify_eq/=. Qed.

Definition agent_ok (a : AssignedAgent) : Prop := _ID_RE (ag_id a) = true.

Lemma parse_agent_entry_ok e a : _parse_agent_entry e = Some a -> agent_ok a.
Proof. unfold _parse_agent_entry, agent_ok. intros H. py_cases. Qed.

(** The entries are kept in order or dropped and counted, and the default is
    the one given, or else the first entry marked as such. *)
Lemma agents_loop_spec def ags dr entries :
  let kept := omap _parse_agent_entry entries in
  agents_loop def ags dr entries =
    (match def with
     | Some d => Some d
     | None => option_map ag_id (find_first ag_is_default kept)
     end, ags ++ kept, (dr + Z.of_nat (length entries - length kept))%Z).
Proof.
  unfold find_first. revert def ags dr. induction entries as [|e entries IH]; intros def ags dr; cbn [agents_loop].
  - simpl. rewrite app_nil_r, Z.add_0_r. by destruct def.
  - assert (Hlen : length (omap _parse_agent_entry entries) <= length entries).
    { clear. induction entries as [|e l IH]; csimpl; [lia|]. destruct (_parse_agent_entry e); simpl; lia. }
    csimpl. destruct (_parse_agent_entry e) as [a|]; rewrite IH; csimpl.
    + rewrite <- (assoc_L (++)). destruct def; [done|]. by destruct (ag_is_default a).
    + f_equal. lia.
Qed.

(** What an accepted event may hold. *)
Definition opt_id (s : string) : Prop := s = EmptyString \/ _ID_RE s = true.
Definition default_ok (d : option string) : Prop := match d with Some a => _ID_RE a = true | None => True end.
Definition event_ok (e : ChildEvent) : Prop :=
  match e with
  | EIdentity i =>
      _ID_RE (id_run_id i) = true /\ _ID_RE (id_installation_id i) = true /\ _ID_RE (id_org_id i) = true /\
      Forall opt_id [id_workspace_id i; id_platform i; id_status i; id_binding_status i; id_runtime_version i] /\
      Forall agent_ok (id_agents i) /\ default_ok (id_default_agent_id i)
  | EBeat b =>
      _ID_RE (be_run_id b) = true /\ _TIMESTAMP_RE (be_at b) = true /\
      (0 <= be_seq b <= _MAX_SEQ)%Z /\ (0 <= be_latency_ms b <= _MAX_LATENCY_MS)%Z /\
      (0 <= be_next_in_ms b <= _MAX_NEXT_IN_MS)%Z /\
      (be_http_status b = 0 \/ 100 <= be_http_status b <= 599)%Z
  | ETerminal t => _ID_RE (te_run_id t) = true /\ _REASON_RE (te_reason t) = true
  | EIgnored => True
  end.

Lemma ident_required raw key s : ident raw key true = Ok s -> _ID_RE s = true.
Proof. intros H. by destruct (ident_Ok _ _ _ _ H) as [?|[? _]]. Qed.
Lemma ident_optional raw key s : ident raw key false = Ok s -> opt_id s.
Proof. intros H. unfold opt_id. destruct (ident_Ok _ _ _ _ H) as [?|[_ ?]]; auto. Qed.
Lemma integer_optional raw key lo hi z : (lo <= 0 <= hi)%Z -> integer raw key false lo hi = Ok z -> (lo <= z <= hi)%Z.
Proof. intros Hl H. destruct (integer_Ok _ _ _ _ _ _ H) as [?|[_ ->]]; lia. Qed.

Lemma kept_agents_ok entries : Forall agent_ok (omap _parse_agent_entry entries).
Proof.
  induction entries as [|e l IH]; csimpl; [constructor|].
  destruct (_parse_agent_entry e) as [a|] eqn:He; csimpl; [|done].
  constructor; [by eapply parse_agent_entry_ok | done].
Qed.

Lemma parse_agents_ok raw d ags n : _parse_agents raw = (d, ags, n) ->
  Forall agent_ok ags /\ default_ok d /\ (0 <= n)%Z.
Proof.
  unfold _parse_agents. destruct (match dget raw "agent_id" with None => _ | Some _ => _ end) as [def dr] eqn:Hd.
  assert (Hdr : (0 <= dr)%Z /\ default_ok def) by (repeat case_match; simplify_eq; split; done || lia). clear Hd. destruct Hdr as [Hdr Hdef].
  destruct (dget raw "agents") as [[]|]; try (intros [= <- <- <-]; split_and!; [constructor | done | lia]).
  rewrite agents_loop_spec. intros [= <- <- <-]. pose proof (kept_agents_ok l) as Hk. split_and!; [done | | lia].
  destruct def as [d0|]; [done|]. destruct (find_first _ _) as [x|] eqn:Hf; [|done]. apply find_first_inv in Hf as [Hin _].
  rewrite Forall_forall in Hk. by apply Hk.
Qed.

(** What the checks of an object guarantee of the event it becomes. *)
Lemma parse_object_ok d e dropped : parse_object d = Ok (e, dropped) ->
  event_ok e /\ (0 <= dropped)%Z /\ (dropped <> 0%Z -> exists i, e = EIdentity i).
Proof.
  unfold parse_object. intros Hp.
  destruct (jget d "v"); try done. destruct (negb _); [done|]. destruct (jget d "event"); try done.
  destruct (String.eqb s "identity"); [|destruct (String.eqb s "beat"); [|destruct (String.eqb s "terminal"); [|by simplify_eq]]].
  - unfold parse_identity in Hp. destruct (_parse_agents d) as [[def ags] n] eqn:Ha. res_inv.
    apply parse_agents_ok in Ha as (Hags & Hdef & Hn).
    split_and!; [|done|eauto]. simpl.
    split_and!; [by eapply ident_required | by eapply ident_required | by eapply ident_required | | done | done].
    rewrite !Forall_cons. split_and!; [by eapply ident_optional..|constructor].
  - unfold parse_beat in Hp. res_inv. destruct ((0 <? a5) && (a5 <? 100))%Z eqn:Hh; [done|].
    destruct (enum_of _ _ _); [|done]. injection Hp as <- <-. split_and!; [|done|done]. simpl.
    apply integer_optional in Hr0, Hr3, Hr4, Hr5; try (unfold _MAX_SEQ, _MAX_LATENCY_MS, _MAX_NEXT_IN_MS; lia).
    split_and!; try lia; [by eapply ident_required | by eapply timestamp_Ok].
  - unfold parse_terminal in Hp. res_inv. destruct (_REASON_RE a0) eqn:Hre; [|done]. injection Hp as <- <-.
    split_and!; [|done|done]. simpl. split; [by eapply ident_required | done].
Qed.

(** A line becomes an object, and that an event. *)
Lemma parse_line_object line e dropped : parse_child_line_counted line = Ok (e, dropped) ->
  py_bytes_len (line_body line) <= MAX_CHILD_LINE_BYTES /\ exists d, parse_object d = Ok (e, dropped).
Proof.
  unfold parse_child_line_counted. destruct (Nat.ltb_spec MAX_CHILD_LINE_BYTES (py_bytes_len (line_body line))); [done|].
  destruct (json_loads _) as [[]|]; try done. eauto.
Qed.

(** C9: an accepted line is within its bounds: at most 4096 bytes; identifiers (of
    the run, the installation, the organisation, every agent and the default agent
    when there is one), timestamps and reasons that match their patterns, optional
    identifiers that do or are empty; counters inside their ranges (an HTTP status
    is 0 when absent); and no drop counted except for an identity. *)
Theorem parse_child_line_bounded (line : string) (e : ChildEvent) (dropped : Z) :
  parse_child_line_counted line = Ok (e, dropped) ->
  py_bytes_len (line_body line) <= 4096 /\ event_ok e /\
  (0 <= dropped)%Z /\ (dropped <> 0%Z -> exists i, e = EIdentity i).
Proof.
  intros H. apply parse_line_object in H as (Hlen & d & Hd). split; [done|]. by eapply parse_object_ok.
Qed.

Definition identity_text : string :=
  jq "{'v':1,'event':'identity','run_id':'r1','installation_id':'i1','org_id':'o1','agents':[{'agent_id':'a1'},{'agent_id':'a2','is_default':true},{'agent_id':7}]}".

Lemma parse_child_line_bounded_witness :
  exists e, parse_child_line_counted (String.append identity_text nl) = Ok (EIdentity e, 1%Z) /\
    id_default_agent_id e = Some "a2" /\ event_ok (EIdentity e).
Proof.
  destruct (parse_child_line_counted (String.append identity_text nl)) as [[e n]|] eqn:H; [|vm_compute in H; discriminate H].
  pose proof (parse_child_line_bounded _ _ _ H) as (_ & Hok & _).
  vm_compute in H. injection H as <- <-. eexists. split; [reflexivity|]. split; [reflexivity | exact Hok].
Defined.

(** ** Nothing else is read *)

Definition WIRE_KEYS : list string :=
  ["v"; "event"; "run_id"; "installation_id"; "org_id"; "workspace_id"; "platform"; "status"; "binding_status";
   "runtime_version"; "agent_id"; "agents"; "seq"; "at"; "outcome"; "latency_ms"; "next_in_ms"; "http_status"; "reason"].

Definition agree (ks : list string) (raw raw' : jdict) : Prop := forall k, k ∈ ks -> dget raw k = dget raw' k.

(** The parser reads the allowlisted keys only: two objects that agree on
    them parse the same, whatever payload, token or result the others carry. *)
Lemma parse_reads_only_wire_keys (raw raw' : jdict) :
  agree WIRE_KEYS raw raw' -> parse_object raw = parse_object raw'.
Proof.
  intros H. assert (Hk : forall k, str_in k WIRE_KEYS = true -> dget raw k = dget raw' k).
  { intros k Hk. apply H. by apply str_in_spec. }
  assert (Ht : forall k r, str_in k WIRE_KEYS = true -> text raw k r = text raw' k r)
    by (intros k r Hin; unfold text; by rewrite (Hk k Hin)).
  assert (Hid : forall k r, str_in k WIRE_KEYS = true -> ident raw k r = ident raw' k r)
    by (intros k r Hin; unfold ident; by rewrite (Ht k r Hin)).
  assert (Hi : forall k r lo hi, str_in k WIRE_KEYS = true -> integer raw k r lo hi = integer raw' k r lo hi)
    by (intros k r lo hi Hin; unfold integer; by rewrite (Hk k Hin)).
  unfold parse_object, jget. rewrite (Hk "v" eq_refl), (Hk "event" eq_refl).
  unfold parse_identity, parse_beat, parse_terminal, _parse_agents, timestamp.
  rewrite (Hk "agent_id" eq_refl), (Hk "agents" eq_refl), (Ht "outcome" true eq_refl), (Ht "reason" true eq_refl),
    (Ht "at" true eq_refl), (Hi "seq" false _ _ eq_refl), (Hi "latency_ms" false _ _ eq_refl),
    (Hi "next_in_ms" false _ _ eq_refl), (Hi "http_status" false _ _ eq_refl), (Hid "run_id" true eq_refl),
    (Hid "installation_id" true eq_refl), (Hid "org_id" true eq_refl), (Hid "workspace_id" false eq_refl),
    (Hid "platform" false eq_refl), (Hid "status" false eq_refl), (Hid "binding_status" false eq_refl),
    (Hid "runtime_version" false eq_refl).
  done.
Qed.

Lemma parse_reads_only_wire_keys_witness :
  parse_object [("v", JInt 1); ("event", JStr "terminal"); ("run_id", JStr "r"); ("reason", JStr "stale"); ("token", JStr "s3cret")]
  = parse_object [("event", JStr "terminal"); ("reason", JStr "stale"); ("run_id", JStr "r"); ("v", JInt 1)].
Proof.
  apply parse_reads_only_wire_keys. intros k Hk. unfold WIRE_KEYS in Hk. set_unfold in Hk.
  destruct_or! Hk; subst; reflexivity.
Defined.
