(* ===== verification/LinkEvents.v ===== *)
(** * Redacted lifecycle events

    [kei/runtime_link.py]: [LinkEvent] with the checks of its constructor, its
    dictionary form and the shared RFC 3339 timestamps. *)
From Stdlib Require Import ZArith Lia Ascii String SpecFloat.
From stdpp Require Import base tactics list strings.
From S2P Require Import Prelude PyStr PyFloat Json JsonFacts Types PyTime LinkConfig ChildWire.

(** ** Timestamps *)

(** The number written in [n] characters from position [i]. *)
Definition num_at (i n : nat) (s : string) : Z := digits_val 0 (String.substring i n s).

(** [datetime.strptime(base, "%Y-%m-%dT%H:%M:%S")] of a text of that shape. *)
Definition strptime (base : string) (us : Z) : option civil :=
  let c := Civil (num_at 0 4 base) (num_at 5 2 base) (num_at 8 2 base) (num_at 11 2 base)
                 (num_at 14 2 base) (num_at 17 2 base) us in
  if civil_ok c then Some c else None.

Definition zone_offset (zone : string) : option Z :=
  if String.eqb zone "Z" then Some 0%Z
  else
    let sign := (if String.prefix "-" zone then -1 else 1)%Z in
    let off := (sign * (num_at 1 2 zone * 3600000000 + num_at 4 2 zone * 60000000))%Z in
    if (Z.abs off <? day_us)%Z then Some off else None.

(** Fractions beyond microseconds truncate. [None] is the [ValueError]. *)
Definition _parse_timestamp (value : json) : option datetime :=
  match value with
  | JStr s =>
      match timestamp_groups s with
      | None => None
      | Some (base, frac, zone) =>
          let micros := digits_val 0 (py_take 6 (String.append (py_drop 1 (str_or frac ".")) "000000")) in
          match zone_offset zone, strptime base micros with
          | Some off, Some c => Some (DT (wall_of_civil c) (Some off))
          | _, _ => None
          end
      end
  | _ => None
  end.

Definition instant (t : datetime) : Z := (dt_wall t - default 0 (dt_offset t))%Z.

(** [utc.strftime("%Y-%m-%dT%H:%M:%S.")] with the milliseconds and the suffix. *)
Definition format_civil (c : civil) : string :=
  String.append (int_str (tm_year c)) (String.append "-" (String.append (pad2 (tm_month c))
    (String.append "-" (String.append (pad2 (tm_day c)) (String.append "T" (String.append (pad2 (tm_hour c))
    (String.append ":" (String.append (pad2 (tm_min c)) (String.append ":" (String.append (pad2 (tm_sec c))
    (String.append "." (String.append (pad3 (tm_us c / 1000)) "Z")))))))))))).

(** An instant outside years 1 to 9999 overflows. *)
Definition _format_timestamp (t : datetime) : option string :=
  let c := civil_of_wall (instant t) in
  if ((1 <=? tm_year c) && (tm_year c <=? 9999))%Z then Some (format_civil c) else None.

Example format_example : _format_timestamp (DT 1767323045678901 (Some 7200000000%Z)) = Some "2026-01-02T01:04:05.678Z".
Proof. vm_compute. reflexivity. Qed.
Example parse_example : map (fun s => _parse_timestamp (JStr s))
  ["2026-01-02T01:04:05.6789Z"; "2026-01-02T03:04:05-02:30"; "2026-02-30T03:04:05Z"; "2026-01-02T03:04:05+24:00"; "2026-01-02T03:04:60Z"]
  = [Some (DT 1767315845678900 (Some 0%Z)); Some (DT 1767323045000000 (Some (-9000000000)%Z)); None; None; None].
Proof. vm_compute. reflexivity. Qed.

(** ** The event *)

Record EventHarness := { eh_kind : string; eh_sdk_lang : string; eh_version : string;
                         eh_deployment_env : string; eh_sdk_version : string }.

Record LinkEvent := {
  ev_name : LifecycleEventName;
  ev_at : datetime;
  ev_state : LinkState;
  ev_sdk_instance_id : string;
  ev_harness : EventHarness;
  ev_reason : option FailureClass;
  ev_run_id : string;
  ev_seq : Z;
  ev_restarts : Z;
  ev_consecutive_fails : Z;
}.

Definition _is_count (value hi : Z) : bool := (0 <=? value)%Z && (value <=? hi)%Z.

(** [__post_init__]; the members of the enumerations are typed here. *)
Definition event_checks (e : LinkEvent) : bool :=
  let h := ev_harness e in
  bool_decide (is_Some (dt_offset (ev_at e))) &&
  (negb (py_truthy_str (ev_run_id e)) || _ID_RE (ev_run_id e)) &&
  _ID_RE (ev_sdk_instance_id e) &&
  str_in (eh_kind h) _HARNESS_KINDS &&
  str_in (eh_sdk_lang h) SDK_LANGS &&
  (negb (py_truthy_str (eh_version h)) || _VERSION_RE (eh_version h)) &&
  (negb (py_truthy_str (eh_deployment_env h)) || _ENV_NAME_RE (eh_deployment_env h)) &&
  (negb (py_truthy_str (eh_sdk_version h)) || _VERSION_RE (eh_sdk_version h)) &&
  _is_count (ev_seq e) _MAX_SEQ && _is_count (ev_restarts e) _MAX_SEQ &&
  _is_count (ev_consecutive_fails e) _MAX_SEQ.

(** The constructor: [None] is [InvalidLinkEventError]. *)
Definition new_event (e : LinkEvent) : option LinkEvent := if event_checks e then Some e else None.

Definition as_str (v : json) : option string := match v with JStr s => Some s | _ => None end.
(** A count that is not exactly an [int] fails [_is_count]. *)
Definition as_count (v : json) : option Z := match v with JInt z => Some z | _ => None end.

Definition harness_of (v : json) : option EventHarness :=
  d ← (if py_truthy v then match v with JObj d => Some d | _ => None end else Some []);
  kind ← as_str (jget_or d "kind" (JStr ""));
  sdk_lang ← as_str (jget_or d "sdk_lang" (JStr ""));
  version ← as_str (jget_or d "version" (JStr ""));
  deployment_env ← as_str (jget_or d "deployment_env" (JStr ""));
  sdk_version ← as_str (jget_or d "sdk_version" (JStr ""));
  Some {| eh_kind := kind; eh_sdk_lang := sdk_lang; eh_version := version;
          eh_deployment_env := deployment_env; eh_sdk_version := sdk_version |}.

Definition reason_of (v : json) : option (option FailureClass) :=
  if py_truthy v then
    match v with
    | JStr s => Some <$> enum_of failure_class_value failure_classes s
    | _ => None
    end
  else Some None.

(** Every exception of the body becomes [InvalidLinkEventError], so the order
    of the failures does not show. *)
Definition from_dict (raw : jdict) : option LinkEvent :=
  reason ← reason_of (jget raw "reason");
  name ← (s ← as_str (jget raw "name"); enum_of lifecycle_value lifecycle_names s);
  at_ ← _parse_timestamp (jget raw "at");
  state ← (s ← as_str (jget raw "state"); enum_of link_state_value link_states s);
  run_id ← as_str (jget_or raw "run_id" (JStr ""));
  seq ← as_count (jget_or raw "seq" (JInt 0));
  sdk_instance_id ← as_str (jget_or raw "sdk_instance_id" (JStr ""));
  harness ← harness_of (jget raw "harness");
  restarts ← as_count (jget_or raw "restarts" (JInt 0));
  fails ← as_count (jget_or raw "consecutive_fails" (JInt 0));
  new_event {| ev_name := name; ev_at := at_; ev_state := state; ev_sdk_instance_id := sdk_instance_id;
               ev_harness := harness; ev_reason := reason; ev_run_id := run_id; ev_seq := seq;
               ev_restarts := restarts; ev_consecutive_fails := fails |}.

Definition to_dict (e : LinkEvent) : option jdict :=
  at_ ← _format_timestamp (ev_at e);
  let h := ev_harness e in
  Some [("name", JStr (lifecycle_value (ev_name e)));
        ("at", JStr at_);
        ("state", JStr (link_state_value (ev_state e)));
        ("reason", JStr (match ev_reason e with Some r => failure_class_value r | None => "" end));
        ("run_id", JStr (ev_run_id e));
        ("seq", JInt (ev_seq e));
        ("sdk_instance_id", JStr (ev_sdk_instance_id e));
        ("harness", JObj [("kind", JStr (eh_kind h)); ("version", JStr (eh_version h));
                          ("deployment_env", JStr (eh_deployment_env h));
                          ("sdk_lang", JStr (eh_sdk_lang h)); ("sdk_version", JStr (eh_sdk_version h))]);
        ("restarts", JInt (ev_restarts e));
        ("consecutive_fails", JInt (ev_consecutive_fails e))].

Definition to_json (e : LinkEvent) : option string := json_dumps compact ∘ JObj <$> to_dict e.

(** ** Round trips *)

Lemma match_shape_app sh1 s1 sh2 s2 : match_shape sh1 s1 = Some (s1, EmptyString) ->
  match_shape (String.append sh1 sh2) (String.append s1 s2)
  = match match_shape sh2 s2 with Some (m, r) => Some (String.append s1 m, r) | None => None end.
Proof.
  revert s1. induction sh1 as [|c sh IH]; intros [|a s1] H; simpl in *; try done.
  - by destruct (match_shape sh2 s2) as [[]|].
  - destruct (if Ascii.eqb c "d" then is_digit a else Ascii.eqb a c); [|done].
    destruct (match_shape sh s1) as [[m r]|] eqn:E; [|done]. injection H as -> ->.
    rewrite IH by done. by destruct (match_shape sh2 s2) as [[]|].
Qed.

Lemma match_pad2 n : (0 <= n <= 99)%Z -> match_shape "dd" (pad2 n) = Some (pad2 n, EmptyString).
Proof. intros H. destruct (pad2_digits n H) as [Hd _]. unfold pad2 in *. simpl in *. by destruct (is_digit _), (is_digit _). Qed.
Lemma match_pad4 n : (0 <= n <= 9999)%Z -> match_shape "dddd" (pad4 n) = Some (pad4 n, EmptyString).
Proof.
  intros H. destruct (pad4_digits n H) as [Hd _]. unfold pad4, pad3, pad2 in *. simpl in *.
  by destruct (is_digit _), (is_digit _), (is_digit _), (is_digit _).
Qed.

(** The base of a printed timestamp. *)
Definition base_of (c : civil) : string :=
  String.append (pad4 (tm_year c)) (String.append "-" (String.append (pad2 (tm_month c))
    (String.append "-" (String.append (pad2 (tm_day c)) (String.append "T" (String.append (pad2 (tm_hour c))
    (String.append ":" (String.append (pad2 (tm_min c)) (String.append ":" (pad2 (tm_sec c))))))))))).

Definition civil_printable (c : civil) : Prop :=
  (1000 <= tm_year c <= 9999 /\ 1 <= tm_month c <= 12 /\ 1 <= tm_day c <= days_in_month (tm_year c) (tm_month c) /\
   0 <= tm_hour c <= 23 /\ 0 <= tm_min c <= 59 /\ 0 <= tm_sec c <= 59 /\ 0 <= tm_us c <= 999999)%Z.

Lemma days_in_month_le y m : (days_in_month y m <= 31)%Z.
Proof. unfold days_in_month. repeat case_match; lia. Qed.

Lemma base_matches c r : civil_printable c ->
  match_shape "dddd-dd-ddTdd:dd:dd" (String.append (base_of c) r) = Some (base_of c, r).
Proof.
  intros (Hy & Hm & Hd & Hh & Hmi & Hs & _). pose proof (days_in_month_le (tm_year c) (tm_month c)).
  assert (Hnil : match_shape EmptyString r = Some (EmptyString, r)) by done.
  unfold base_of. rewrite !str_app_assoc.
  assert (Hlit : forall a, Ascii.eqb a "d" = false -> match_shape (String a EmptyString) (String a EmptyString)
    = Some (String a EmptyString, EmptyString)) by (intros a Ha; simpl; by rewrite Ha, Ascii.eqb_refl).
  change "dddd-dd-ddTdd:dd:dd" with (String.append "dddd" (String.append "-" (String.append "dd"
    (String.append "-" (String.append "dd" (String.append "T" (String.append "dd" (String.append ":"
    (String.append "dd" (String.append ":" (String.append "dd" EmptyString))))))))))).
  rewrite !match_shape_app by first [apply match_pad4; lia | apply match_pad2; lia | by apply Hlit].
  rewrite Hnil. by rewrite str_app_nil_r.
Qed.

Lemma base_reads c us : civil_printable c -> (0 <= us <= 999999)%Z ->
  strptime (base_of c) us = Some (Civil (tm_year c) (tm_month c) (tm_day c) (tm_hour c) (tm_min c) (tm_sec c) us).
Proof.
  intros (Hy & Hm & Hd & Hh & Hmi & Hs & _) Hus. pose proof (days_in_month_le (tm_year c) (tm_month c)).
  unfold strptime, num_at.
  change (String.substring 0 4 (base_of c)) with (pad4 (tm_year c)).
  change (String.substring 5 2 (base_of c)) with (pad2 (tm_month c)).
  change (String.substring 8 2 (base_of c)) with (pad2 (tm_day c)).
  change (String.substring 11 2 (base_of c)) with (pad2 (tm_hour c)).
  change (String.substring 14 2 (base_of c)) with (pad2 (tm_min c)).
  change (String.substring 17 2 (base_of c)) with (pad2 (tm_sec c)).
  rewrite (proj2 (pad4_digits (tm_year c) ltac:(lia))), (proj2 (pad2_digits (tm_month c) ltac:(lia))),
    (proj2 (pad2_digits (tm_day c) ltac:(lia))), (proj2 (pad2_digits (tm_hour c) ltac:(lia))),
    (proj2 (pad2_digits (tm_min c) ltac:(lia))), (proj2 (pad2_digits (tm_sec c) ltac:(lia))). rewrite !Z.mul_0_l, !Z.add_0_l.
  assert (Hok : civil_ok (Civil (tm_year c) (tm_month c) (tm_day c) (tm_hour c) (tm_min c) (tm_sec c) us) = true).
  { unfold civil_ok, date_ok. cbn. rewrite !andb_true_iff, !Z.leb_le. lia. }
  by rewrite Hok.
Qed.

Lemma strip_frac n : (0 <= n <= 999)%Z ->
  match_frac (String.append "." (String.append (pad3 n) "Z")) = Some (String.append "." (pad3 n), "Z") /\
  digits_val 0 (py_take 6 (String.append (py_drop 1 (str_or (String.append "." (pad3 n)) ".")) "000000")) = (n * 1000)%Z.
Proof.
  intros Hn. destruct (pad3_digits n Hn) as [Hd Hv]. split.
  - cbn [String.append match_frac]. change (Ascii.eqb "." ".") with true. cbn iota.
    rewrite (span_digits_app (pad3 n) "Z" (pad3 n) EmptyString); [done | done | by apply span_digits_all].
  - assert (Hc : forall a, is_digit a = true -> is_cont a = false).
    { intros a Ha. unfold is_digit, is_cont in *. apply andb_true_iff in Ha as [_ Ha%N.leb_le].
      apply andb_false_iff. left. apply N.leb_gt. lia. }
    unfold pad3, pad2 in Hd. cbn [str_forall] in Hd. rewrite !andb_true_iff in Hd. destruct Hd as (H1 & H2 & H3 & _).
    apply Hc in H1, H2, H3.
    assert (E : py_drop 1 (str_or (String.append "." (pad3 n)) ".") = pad3 n).
    { unfold str_or, py_drop. change (py_truthy_str (String.append "." _)) with true. cbn iota. unfold pad3, pad2.
      rewrite py_chars_single by (cbn [String.append str_forall]; by rewrite H1, H2, H3). done. }
    rewrite E. specialize (Hv 0%Z). unfold pad3, pad2 in Hv |- *. unfold py_take.
    rewrite py_chars_single by (cbn [String.append str_forall]; by rewrite H1, H2, H3).
    cbn [String.append list_ascii_of_string map take str_join].
    cbn [digits_val] in Hv |- *. change (digit_val "0") with 0%Z. lia.
Qed.

(** The millisecond an instant is printed with. *)
Definition to_ms (t : datetime) : datetime := DT (instant t - instant t mod 1000) (Some 0%Z).

Lemma civil_to_ms c w : wall_of_civil c = w -> (0 <= tm_us c <= 999999)%Z ->
  wall_of_civil (Civil (tm_year c) (tm_month c) (tm_day c) (tm_hour c) (tm_min c) (tm_sec c) (tm_us c / 1000 * 1000))
  = (w - w mod 1000)%Z.
Proof.
  destruct c as [y mo d h mi se u]. unfold wall_of_civil. cbn [tm_year tm_month tm_day tm_hour tm_min tm_sec tm_us].
  generalize (ymd2ord y mo d - epoch_ord)%Z. intros k Hw Hu. change day_us with 86400000000%Z in *.
  assert (Hm : (w mod 1000 = u mod 1000)%Z).
  { rewrite <- Hw.
    replace (k * 86400000000 + h * 3600000000 + mi * 60000000 + se * 1000000 + u)%Z
      with (u + (k * 86400000 + h * 3600000 + mi * 60000 + se * 1000) * 1000)%Z by lia.
    by rewrite Z.mod_add. }
  rewrite Hm. pose proof (Z.div_mod u 1000 ltac:(done)). lia.
Qed.

(** Printing an instant and reading the text gives its millisecond back. *)
Lemma timestamp_roundtrip t : (1000 <= tm_year (civil_of_wall (instant t)) <= 9999)%Z ->
  exists s, _format_timestamp t = Some s /\ _parse_timestamp (JStr s) = Some (to_ms t).
Proof.
  intros Hy. set (w := instant t) in *. set (c := civil_of_wall w) in *.
  destruct (civil_of_wall_spec w) as (Hw & Hm & Hd & Hh & Hmi & Hs & Hus). fold c in Hw, Hm, Hd, Hh, Hmi, Hs, Hus.
  assert (Hp : civil_printable c) by (unfold civil_printable; lia).
  assert (Hms : (0 <= tm_us c / 1000 <= 999)%Z).
  { split; [apply Z.div_pos; lia|]. assert (tm_us c / 1000 < 1000)%Z by (apply Z.div_lt_upper_bound; lia). lia. }
  exists (format_civil c). split.
  { unfold _format_timestamp. fold w. fold c.
    by rewrite (proj2 (Z.leb_le 1 (tm_year c))), (proj2 (Z.leb_le (tm_year c) 9999)) by lia. }
  destruct (strip_frac _ Hms) as [Hfrac Hval].
  assert (Hf : format_civil c = String.append (base_of c) (String.append "." (String.append (pad3 (tm_us c / 1000)) "Z"))).
  { unfold format_civil, base_of. rewrite int_str_year by lia. by rewrite !str_app_assoc. }
  unfold _parse_timestamp, timestamp_groups. rewrite Hf, base_matches, Hfrac by done.
  change (match_zone "Z") with (Some ("Z", EmptyString)). cbn iota. change (String.eqb EmptyString EmptyString) with true.
  cbn [orb]. change (zone_offset "Z") with (Some 0%Z). cbn iota. rewrite Hval, base_reads by (done || lia).
  cbn iota. rewrite (civil_to_ms c w) by done. done.
Qed.

(** The event with its time cut to the millisecond it is printed with. *)
Definition at_ms (e : LinkEvent) : LinkEvent :=
  {| ev_name := ev_name e; ev_at := to_ms (ev_at e); ev_state := ev_state e;
     ev_sdk_instance_id := ev_sdk_instance_id e; ev_harness := ev_harness e; ev_reason := ev_reason e;
     ev_run_id := ev_run_id e; ev_seq := ev_seq e; ev_restarts := ev_restarts e;
     ev_consecutive_fails := ev_consecutive_fails e |}.

(** C39: an event that passes its constructor's checks, and whose time falls in
    UTC in one of the years 1000 to 9999, survives its dictionary form: it is read
    back unchanged but for its time, cut to the millisecond and expressed in UTC.
    The constructor does not check the year: one below 1000 is printed with fewer
    than four digits, which the reader refuses ([early_year_is_not_read]). *)
Theorem event_roundtrip (e : LinkEvent) :
  event_checks e = true -> (1000 <= tm_year (civil_of_wall (instant (ev_at e))) <= 9999)%Z ->
  exists d, to_dict e = Some d /\ from_dict d = Some (at_ms e).
Proof.
  intros Hc Hy. destruct (timestamp_roundtrip _ Hy) as (s & Hs & Hp).
  unfold to_dict. rewrite Hs. eexists. split; [reflexivity|].
  destruct enum_roundtrip as (Hst & Hfc & _ & Hn).
  unfold from_dict. cbv zeta. change (jget _ "reason") with (JStr (match ev_reason e with Some r => failure_class_value r | None => "" end)).
  assert (Hr : reason_of (JStr (match ev_reason e with Some r => failure_class_value r | None => "" end)) = Some (ev_reason e))
    by (by destruct (ev_reason e) as [[]|]).
  rewrite Hr. cbn [mbind option_bind].
  change (jget _ "name") with (JStr (lifecycle_value (ev_name e))). cbn [as_str mbind option_bind]. rewrite Hn.
  cbn [mbind option_bind]. change (jget _ "at") with (JStr s). rewrite Hp. cbn [mbind option_bind].
  change (jget _ "state") with (JStr (link_state_value (ev_state e))). cbn [as_str mbind option_bind]. rewrite Hst.
  cbn [mbind option_bind].
  assert (Hc' : event_checks (at_ms e) = true).
  { unfold event_checks in *. cbn [at_ms ev_at ev_run_id ev_sdk_instance_id ev_harness ev_seq ev_restarts
      ev_consecutive_fails to_ms dt_offset] in *. rewrite !andb_true_iff in *. rewrite bool_decide_eq_true.
    destruct_and! Hc. split_and!; auto. }
  transitivity (new_event (at_ms e)); [|unfold new_event; by rewrite Hc'].
  clear. by destruct e as [n at_ st sid [k l v de sv] rs run seq rst fl].
Qed.

Definition ex_event : LinkEvent :=
  {| ev_name := LE_DEGRADED; ev_at := DT 1767323045678901 (Some 7200000000%Z); ev_state := DEGRADED;
     ev_sdk_instance_id := "sdk-1";
     ev_harness := {| eh_kind := "cli"; eh_sdk_lang := "python"; eh_version := "1.2"; eh_deployment_env := "";
                      eh_sdk_version := "0.16.0" |};
     ev_reason := Some F_CATALOG_TIMEOUT; ev_run_id := "run:7"; ev_seq := 12; ev_restarts := 1; ev_consecutive_fails := 2 |}.

(** The same event in the year 999. *)
Definition ex_early : LinkEvent :=
  {| ev_name := ev_name ex_event; ev_at := DT (wall_of_civil (Civil 999 1 2 3 4 5 0)) (Some 0%Z); ev_state := ev_state ex_event;
     ev_sdk_instance_id := ev_sdk_instance_id ex_event; ev_harness := ev_harness ex_event; ev_reason := ev_reason ex_event;
     ev_run_id := ev_run_id ex_event; ev_seq := ev_seq ex_event; ev_restarts := ev_restarts ex_event;
     ev_consecutive_fails := ev_consecutive_fails ex_event |}.
Lemma early_year_is_not_read :
  event_checks ex_early = true /\
  exists d, to_dict ex_early = Some d /\ dget d "at" = Some (JStr "999-01-02T03:04:05.000Z") /\ from_dict d = None.
Proof. split; [vm_compute; reflexivity|]. eexists. split; [vm_compute; reflexivity|]. split; vm_compute; reflexivity. Qed.

Lemma event_roundtrip_witness :
  exists d, to_dict ex_event = Some d /\ dget d "at" = Some (JStr "2026-01-02T01:04:05.678Z") /\
    from_dict d = Some (at_ms ex_event).
Proof.
  destruct (event_roundtrip ex_event) as (d & Hd & Hf).
  - vm_compute. reflexivity.
  - vm_compute. split; discriminate.
  - exists d. split; [exact Hd|]. split; [|exact Hf]. vm_compute in Hd. injection Hd as <-. reflexivity.
Defined.
