(* ===== verification/LinkSupervisor.v ===== *)
(** * The RuntimeLink supervisor

    [kei/runtime_link.py], class [Link]: the state kept under the lock, the
    event ring, the handlers of the child's events and of its exit, the watch
    loop over the child's output and its timers, and the restart loop with its
    crashloop detection.

    The methods run on one event loop and hold the lock while they change the
    state, so each is one atomic step here.  What the loop waits for is the
    argument of a step: a line, the end of the stream, a timer.  The delay before
    a restart is computed ([back_off]), and may raise; the sleep itself changes
    nothing.  Clocks and the random number of the delay are arguments: [datetime.now(utc)] as microseconds, [time.time()] too.  A sink
    is the log of what it was sent ([None] when none is configured); sinks run
    in tasks of their own whose exceptions are swallowed. *)
From Stdlib Require Import ZArith Lia Ascii String SpecFloat.
From stdpp Require Import base tactics list strings.
From S2P Require Import Prelude PyStr PyFloat Json JsonFacts Types PyTime LinkConfig ChildWire LinkEvents.

Definition EVENT_BUFFER_SIZE : nat := 64.
Definition CRASHLOOP_THRESHOLD : nat := 5.
Definition CRASHLOOP_WINDOW : Z := 900000000.
Definition SDK_LANG := "python".
Definition SDK_VERSION := "0.16.0".

Definition InvalidLinkEventError : exn := Exn (UserError "InvalidLinkEventError") "invalid lifecycle event".

Definition _classify_beat_outcome (o : BeatOutcome) : FailureClass :=
  match o with
  | CATALOG_UNREACHABLE => F_CATALOG_UNREACHABLE
  | CATALOG_TIMEOUT => F_CATALOG_TIMEOUT
  | CATALOG_ERROR => F_CATALOG_ERROR
  | CATALOG_BACKPRESSURE => F_CATALOG_BACKPRESSURE
  | CATALOG_REJECTED => CONTRACT_MISMATCH
  | _ => RUNTIME_UNAVAILABLE
  end.

Definition _exit_code_failure_class (exit_code : Z) : option FailureClass * bool :=
  if (exit_code =? 0)%Z then (None, false)
  else if (exit_code =? 2)%Z then (Some CONTRACT_MISMATCH, true)
  else if (exit_code =? 3)%Z then (Some INSTALLATION_UNAUTHORIZED, true)
  else if (4 <=? exit_code)%Z then (Some CONFIG_INVALID, true)
  else (Some RUNTIME_UNAVAILABLE, false).

Inductive Metric :=
| MBeat (b : BeatEvent)
| MRestart (attempt : Z) (cause : FailureClass)
| MLifecycle (state : LinkState) (reason : option FailureClass).

Record Link := {
  cfg : RuntimeLinkConfig;
  _sdk_id : string;
  _metrics_sink : option (list Metric);
  _audit_sink : option (list LinkEvent);
  _state : LinkState;
  _reason : option FailureClass;
  _last_beat : option datetime;
  _last_ok : option datetime;
  _fails : Z;
  _restarts : Z;
  _run_id : string;
  _identity : option RuntimeIdentity;
  _crash_times : list Z;
  _events : list LinkEvent;
  _supervising : bool;
  _started : bool;
  _stopped : bool;
}.

(** [__init__]. *)
Definition new_Link (c : RuntimeLinkConfig) (sdk_id : string) (metrics : option (list Metric))
    (audit : option (list LinkEvent)) : Link :=
  {| cfg := c; _sdk_id := sdk_id; _metrics_sink := metrics; _audit_sink := audit; _state := DISABLED;
     _reason := None; _last_beat := None; _last_ok := None; _fails := 0; _restarts := 0; _run_id := "";
     _identity := None; _crash_times := []; _events := []; _supervising := false; _started := false;
     _stopped := false |}.

(** [new_link]: the configuration is normalized first. *)
Definition new_link (netloc_ok : string -> bool) (c : RuntimeLinkConfig) (sdk_id : string)
    (metrics : option (list Metric)) (audit : option (list LinkEvent)) : res config_error Link :=
  c' ← normalize_config netloc_ok c; Ok (new_Link c' sdk_id metrics audit).

(** ** Field updates *)

Definition upd_state (s : LinkState) (r : option FailureClass) (l : Link) : Link :=
  {| cfg := cfg l; _sdk_id := _sdk_id l; _metrics_sink := _metrics_sink l; _audit_sink := _audit_sink l;
     _state := s; _reason := r; _last_beat := _last_beat l; _last_ok := _last_ok l; _fails := _fails l;
     _restarts := _restarts l; _run_id := _run_id l; _identity := _identity l;
     _crash_times := _crash_times l; _events := _events l; _supervising := _supervising l;
     _started := _started l; _stopped := _stopped l |}.
Definition upd_reason (r : option FailureClass) (l : Link) : Link := upd_state (_state l) r l.
Definition upd_sinks (m : option (list Metric)) (a : option (list LinkEvent)) (ev : list LinkEvent) (l : Link) : Link :=
  {| cfg := cfg l; _sdk_id := _sdk_id l; _metrics_sink := m; _audit_sink := a;
     _state := _state l; _reason := _reason l; _last_beat := _last_beat l; _last_ok := _last_ok l; _fails := _fails l;
     _restarts := _restarts l; _run_id := _run_id l; _identity := _identity l;
     _crash_times := _crash_times l; _events := ev; _supervising := _supervising l;
     _started := _started l; _stopped := _stopped l |}.
Definition upd_beat (beat ok : option datetime) (fails : Z) (run_id : string) (l : Link) : Link :=
  {| cfg := cfg l; _sdk_id := _sdk_id l; _metrics_sink := _metrics_sink l; _audit_sink := _audit_sink l;
     _state := _state l; _reason := _reason l; _last_beat := beat; _last_ok := ok; _fails := fails;
     _restarts := _restarts l; _run_id := run_id; _identity := _identity l;
     _crash_times := _crash_times l; _events := _events l; _supervising := _supervising l;
     _started := _started l; _stopped := _stopped l |}.
Definition upd_fails (n : Z) (l : Link) : Link := upd_beat (_last_beat l) (_last_ok l) n (_run_id l) l.
Definition upd_identity (i : RuntimeIdentity) (l : Link) : Link :=
  {| cfg := cfg l; _sdk_id := _sdk_id l; _metrics_sink := _metrics_sink l; _audit_sink := _audit_sink l;
     _state := _state l; _reason := _reason l; _last_beat := _last_beat l; _last_ok := _last_ok l; _fails := _fails l;
     _restarts := _restarts l; _run_id := id_run_id i; _identity := Some i;
     _crash_times := _crash_times l; _events := _events l; _supervising := _supervising l;
     _started := _started l; _stopped := _stopped l |}.
Definition upd_restarts (n : Z) (crashes : list Z) (l : Link) : Link :=
  {| cfg := cfg l; _sdk_id := _sdk_id l; _metrics_sink := _metrics_sink l; _audit_sink := _audit_sink l;
     _state := _state l; _reason := _reason l; _last_beat := _last_beat l; _last_ok := _last_ok l; _fails := _fails l;
     _restarts := n; _run_id := _run_id l; _identity := _identity l;
     _crash_times := crashes; _events := _events l; _supervising := _supervising l;
     _started := _started l; _stopped := _stopped l |}.
Definition upd_flags (supervising started stopped : bool) (l : Link) : Link :=
  {| cfg := cfg l; _sdk_id := _sdk_id l; _metrics_sink := _metrics_sink l; _audit_sink := _audit_sink l;
     _state := _state l; _reason := _reason l; _last_beat := _last_beat l; _last_ok := _last_ok l; _fails := _fails l;
     _restarts := _restarts l; _run_id := _run_id l; _identity := _identity l;
     _crash_times := _crash_times l; _events := _events l; _supervising := supervising;
     _started := started; _stopped := stopped |}.

Definition send_metric (m : Metric) (l : Link) : Link :=
  upd_sinks ((fun log => log ++ [m]) <$> _metrics_sink l) (_audit_sink l) (_events l) l.

(** ** Status *)

Record LinkStatus := {
  st_state : LinkState; st_reason : option FailureClass; st_last_beat_at : option datetime;
  st_last_catalog_ok_at : option datetime; st_consecutive_fails : Z; st_run_id : string; st_restarts : Z }.
Definition status (l : Link) : LinkStatus :=
  {| st_state := _state l; st_reason := _reason l; st_last_beat_at := _last_beat l;
     st_last_catalog_ok_at := _last_ok l; st_consecutive_fails := _fails l; st_run_id := _run_id l;
     st_restarts := _restarts l |}.

(** ** Events *)

Definition step : Type -> Type := eff Link exn.

(** [int(now.timestamp() * 1000)]: a correctly rounded quotient, a rounded
    product, and a truncation. *)
Definition timestamp_ms (us : Z) : Z :=
  match float_parts (float_of_dec (us <? 0)%Z (Z.abs us) (-6)) with
  | Some (m, e) => let f := dyadic_floor (dyadic_round (Z.abs m * 1000) e) in if (m <? 0)%Z then (- f)%Z else f
  | None => 0%Z
  end.

(** The ring: when it is full the oldest event makes room. *)
Definition ring_push (ev : LinkEvent) (q : list LinkEvent) : list LinkEvent :=
  if (length q <? EVENT_BUFFER_SIZE)%nat then q ++ [ev] else tail q ++ [ev].

Definition lifecycle_event (now : Z) (name : LifecycleEventName) (state : LinkState) (l : Link) : LinkEvent :=
  {| ev_name := name; ev_at := DT now (Some 0%Z); ev_state := state; ev_sdk_instance_id := _sdk_id l;
     ev_harness := {| eh_kind := h_kind (cfg_harness (cfg l)); eh_sdk_lang := SDK_LANG;
                      eh_version := h_version (cfg_harness (cfg l));
                      eh_deployment_env := h_deployment_env (cfg_harness (cfg l));
                      eh_sdk_version := SDK_VERSION |};
     ev_reason := _reason l; ev_run_id := _run_id l; ev_seq := timestamp_ms now;
     ev_restarts := _restarts l; ev_consecutive_fails := _fails l |}.

Definition _emit_lifecycle_event (now : Z) (name : LifecycleEventName) (state : LinkState) : step unit := fun l =>
  match new_event (lifecycle_event now name state l) with
  | None => (Raise InvalidLinkEventError, l)
  | Some ev =>
      (Ok tt, upd_sinks (_metrics_sink l) ((fun log => log ++ [ev]) <$> _audit_sink l) (ring_push ev (_events l)) l)
  end.

Definition event_name_of (s : LinkState) : option LifecycleEventName :=
  match s with
  | STARTING => Some LE_STARTED | CONNECTED => Some LE_CONNECTED | DEGRADED => Some LE_DEGRADED
  | RECONNECTING => Some LE_RECONNECTING | TERMINAL => Some LE_TERMINAL | STOPPED => Some LE_STOPPED
  | DISABLED => None
  end.

Definition _transition_locked (now : Z) (state : LinkState) (reason : option FailureClass) : step unit :=
  _ ← eff_modify (upd_state state reason);
  _ ← match event_name_of state with Some n => _emit_lifecycle_event now n state | None => mret tt end;
  eff_modify (send_metric (MLifecycle state reason)).

(** ** Handlers of the child's events *)

Definition _handle_identity (now : Z) (identity : RuntimeIdentity) (dropped : Z) : step unit :=
  _ ← eff_modify (fun l => upd_fails dropped (upd_identity identity l));
  l ← eff_get;
  if bool_decide (_state l = STARTING) then _transition_locked now CONNECTED None
  else _transition_locked now DEGRADED None.

Definition _handle_beat (now : Z) (beat : BeatEvent) : step unit :=
  let at_ := Some (DT now (Some 0%Z)) in
  _ ← eff_modify (fun l => upd_beat at_ (_last_ok l) (_fails l)
                             (if py_truthy_str (be_run_id beat) then be_run_id beat else _run_id l) l);
  _ ← eff_modify (send_metric (MBeat beat));
  l ← eff_get;
  match be_outcome beat with
  | BEAT_OK =>
      _ ← eff_modify (fun l => upd_beat (_last_beat l) at_ 0 (_run_id l) l);
      if bool_decide (_state l = DEGRADED \/ _state l = RECONNECTING) then _transition_locked now CONNECTED None
      else mret tt
  | UNAUTHORIZED => _transition_locked now TERMINAL (Some INSTALLATION_UNAUTHORIZED)
  | o =>
      _ ← eff_modify (fun l => upd_fails (_fails l + 1) l);
      if bool_decide (_state l = CONNECTED) then _transition_locked now DEGRADED (Some (_classify_beat_outcome o))
      else mret tt
  end.

Definition terminal_class (reason : string) : FailureClass :=
  if String.eqb reason "unauthorized" then INSTALLATION_UNAUTHORIZED
  else if String.eqb reason "contract" then CONTRACT_MISMATCH
  else if String.eqb reason "config" then CONFIG_INVALID
  else if String.eqb reason "stale" then INSTALLATION_STALE
  else RUNTIME_UNAVAILABLE.

Definition _handle_terminal (now : Z) (t : TerminalEvent) : step unit :=
  _transition_locked now TERMINAL (Some (terminal_class (te_reason t))).

Definition _handle_child_event (now : Z) (e : ChildEvent) (dropped : Z) : step unit :=
  match e with
  | EIdentity i => _handle_identity now i dropped
  | EBeat b => _handle_beat now b
  | ETerminal t => _handle_terminal now t
  | EIgnored => mret tt
  end.

(** [true] is [_ErrTerminalError]. *)
Definition _handle_child_exit (now exit_code : Z) : step bool :=
  let '(fc, terminal) := _exit_code_failure_class exit_code in
  if terminal then
    _ ← _transition_locked now TERMINAL fc;
    mret true
  else if (exit_code =? 0)%Z then mret false
  else
    _ ← eff_modify (fun l => upd_restarts (_restarts l + 1) (_crash_times l) l);
    l ← eff_get;
    _ ← eff_modify (send_metric (MRestart (_restarts l) (default RUNTIME_UNAVAILABLE fc)));
    mret false.

(** ** Watching the child *)

(** What [stream.readline()] comes to. *)
Inductive read_result := RLine (data : string) | REof | RError.

Definition _read_stdout (r : read_result) : step (option (ChildEvent * Z)) := fun l =>
  match r with
  | RError | REof => (Ok None, l)
  | RLine data =>
      if negb (py_truthy_str data) then (Ok None, l)
      else
        match parse_child_line_counted data with
        | Raise _ => (Ok None, upd_fails (_fails l + 1) l)
        | Ok (EIgnored, _) => (Ok None, l)
        | Ok (e, dropped) => (Ok (Some (e, dropped)), l)
        end
  end.

(** The local variables of [_watch_child]: the flag, and which timers exist. *)
Record Watch := { identity_received : bool; identity_timer : bool; beat_timer : bool }.
Definition watch_start : Watch := {| identity_received := false; identity_timer := false; beat_timer := false |}.

(** One return of [asyncio.wait]: the line read, if the reader finished, whether
    the pending timer fired, and whether the reader had finished before the
    wait began. *)
Record Wake := { w_now : Z; w_line : option read_result; w_timer : bool; w_read_done : bool }.

Inductive watch_next := WContinue (w : Watch) | WKilled | WBreak.

Definition arm (w : Watch) : Watch :=
  if identity_received w
  then {| identity_received := true; identity_timer := identity_timer w; beat_timer := true |}
  else {| identity_received := false; identity_timer := true; beat_timer := beat_timer w |}.

(** The timers after an event of the child. *)
Definition rearm (e : ChildEvent) (w : Watch) : Watch :=
  match e with
  | EIdentity _ => {| identity_received := true; identity_timer := false; beat_timer := true |}
  | EBeat _ => {| identity_received := identity_received w; identity_timer := identity_timer w; beat_timer := true |}
  | _ => w
  end.

(** The timer that was pending is the identity timer before an identity, the
    beat timer after; a beat or an identity has replaced the latter, and an
    identity has cancelled the former, while the line was handled. *)
Definition timer_step (wake : Wake) (armed w : Watch) (replaced : bool) : step watch_next :=
  let expired :=
    if identity_received armed then beat_timer w && negb replaced else identity_timer w in
  if w_timer wake && expired then
    _ ← eff_modify (upd_reason (Some RUNTIME_UNRESPONSIVE));
    mret WKilled
  else if w_read_done wake then mret WBreak
  else mret (WContinue w).

Definition watch_step (wake : Wake) (w : Watch) : step watch_next :=
  let w := arm w in
  match w_line wake with
  | Some r =>
      ev ← _read_stdout r;
      match ev with
      | None => mret (WContinue w)
      | Some (e, dropped) =>
          _ ← _handle_child_event (w_now wake) e dropped;
          timer_step wake w (rearm e w) (match e with EIdentity _ | EBeat _ => true | _ => false end)
      end
  | None => timer_step wake w w false
  end.

(** [_watch_child]: the wakes until it returns an exit code.  A timeout kills
    the child and returns -1; leaving the loop waits for the exit code.
    [None]: still watching when the wakes run out. *)
Fixpoint _watch_child (wakes : list Wake) (exit_code : Z) (w : Watch) : step (option Z) :=
  match wakes with
  | [] => mret None
  | k :: wakes' =>
      n ← watch_step k w;
      match n with
      | WContinue w' => _watch_child wakes' exit_code w'
      | WKilled => mret (Some (-1)%Z)
      | WBreak => mret (Some exit_code)
      end
  end.

(** ** Spawning and restarting *)

(** One life of the child: the random number its backoff draws, whether the spawn
    succeeds, what its watch sees, its exit code, and the clocks at the points
    where they are read. *)
Record Life := {
  lf_now : Z;
  lf_random : spec_float;
  lf_spawn_ok : bool;
  lf_wakes : list Wake;
  lf_exit_code : Z;
  lf_time : Z;
}.

Inductive life_end := LRestart | LTerminal | LError | LRunning.

(** Catch any exception of a step. *)
Definition catching {A} (m : step A) (handler : A) : step A := fun l =>
  match m l with
  | (Ok a, l') => (Ok a, l')
  | (Raise _, l') => (Ok handler, l')
  end.

Definition _spawn_and_watch (life : Life) : step life_end :=
  _ ← _transition_locked (lf_now life) STARTING None;
  if negb (lf_spawn_ok life) then
    _ ← eff_modify (upd_reason (Some RUNTIME_UNAVAILABLE));
    mret LError
  else
    _ ← _emit_lifecycle_event (lf_now life) LE_STARTED STARTING;
    r ← catching (Some <$> _watch_child (lf_wakes life) (lf_exit_code life) watch_start) None;
    match r with
    | None => mret LError
    | Some None => mret LRunning
    | Some (Some code) =>
        terminal ← _handle_child_exit (lf_now life) code;
        mret (if terminal : bool then LTerminal else LRestart)
    end.

Definition _is_crashloop (l : Link) : bool :=
  if (length (_crash_times l) <? CRASHLOOP_THRESHOLD)%nat then false
  else (default 0 (last (_crash_times l)) - default 0 (head (_crash_times l)) <=? CRASHLOOP_WINDOW)%Z.

(** Count a transient error; keep the last five times. *)
Definition count_crash (now : Z) (l : Link) : Link :=
  let crashes := _crash_times l ++ [now] in
  upd_restarts (_restarts l + 1)
    (if (CRASHLOOP_THRESHOLD <? length crashes)%nat then tail crashes else crashes) l.

(** Before a restart: the transition, and the backoff, which may raise. *)
Definition back_off (life : Life) : step unit :=
  l ← eff_get;
  if (0 <? _restarts l)%Z then
    _ ← _transition_locked (lf_now life) RECONNECTING None;
    eff_lift (wait (cfg_restart (cfg l)) (_restarts l - 1) (lf_random life))
  else mret tt.

(** One iteration of [_supervise]: go round again, return, or still inside the
    watch. *)
Inductive sup_next := SLoop | SReturn | SWatching.

Definition supervise_once (life : Life) : step sup_next :=
  _ ← back_off life;
  e ← _spawn_and_watch life;
  match e with
  | LRestart => mret SLoop
  | LTerminal => mret SReturn
  | LRunning => mret SWatching
  | LError =>
      _ ← eff_modify (count_crash (lf_time life));
      l ← eff_get;
      if _is_crashloop l then
        _ ← _transition_locked (lf_now life) TERMINAL (Some RUNTIME_CRASHLOOP);
        mret SReturn
      else
        _ ← _transition_locked (lf_now life) RECONNECTING None;
        mret SLoop
  end.

(** The loop over the lives of the child, while it lasts. *)
Fixpoint _supervise (lives : list Life) : step sup_next :=
  match lives with
  | [] => mret SLoop
  | life :: lives' =>
      n ← supervise_once life;
      match n with SLoop => _supervise lives' | _ => mret n end
  end.

(** ** Starting and stopping *)

Definition start : step unit := fun l =>
  if _started l || _stopped l then (Ok tt, l)
  else (Ok tt, upd_flags (cfg_enabled (cfg l)) true (_stopped l) l).

Definition stop (now : Z) : step unit := fun l =>
  if _stopped l || negb (_started l) then (Ok tt, l)
  else
    let l := upd_flags (_supervising l) (_started l) true l in
    let '(r, l) := if bool_decide (_state l = TERMINAL) then (Ok tt, l)
                   else _transition_locked now STOPPED None l in
    match r with
    | Ok _ => (Ok tt, upd_flags false (_started l) (_stopped l) l)
    | Raise e => (Raise e, l)
    end.

(** ** The child's command line and environment *)

Definition _build_env (environ : dict string) : dict string :=
  dset (dset (omap (fun k => v ← dget environ k; Some (k, v)) CHILD_ENV_ALLOWLIST)
    "KEI_AGENTWARE_SDK_LANG" SDK_LANG) "KEI_AGENTWARE_SDK_VERSION" SDK_VERSION.

Definition child_argv (c : RuntimeLinkConfig) : list string :=
  [bin_path (cfg_binary c); "runtime"; "heartbeat"; "--interval";
   String.append (float_repr (cfg_interval c)) "s"; "--timeout";
   String.append (float_repr (cfg_beat_timeout c)) "s"; "--output"; "jsonl"; "--parent-stdin"].

(** ** Emission never fails on a valid link *)

Definition clock_ok (now : Z) : Prop := (0 <= timestamp_ms now <= _MAX_SEQ)%Z.
Definition count_ok (n : Z) : Prop := (0 <= n <= _MAX_SEQ)%Z.

(** Everything the constructor of an event checks. *)
Definition emit_ready (l : Link) : Prop :=
  let h := cfg_harness (cfg l) in
  h_kind h ∈ _HARNESS_KINDS /\
  (h_version h = "" \/ _VERSION_RE (h_version h) = true) /\
  (h_deployment_env h = "" \/ _ENV_NAME_RE (h_deployment_env h) = true) /\
  _ID_RE (_sdk_id l) = true /\ opt_id (_run_id l) /\ count_ok (_restarts l) /\ count_ok (_fails l).

Lemma opt_check s p : s = "" \/ p s = true -> negb (py_truthy_str s) || p s = true.
Proof. intros [-> | ->]; [done | apply orb_true_r]. Qed.

Lemma event_checks_ready now name state l : emit_ready l -> clock_ok now ->
  event_checks (lifecycle_event now name state l) = true.
Proof.
  intros (Hk & Hv & Hd & Hs & Hr & Hrs & Hf) Hc. unfold event_checks, lifecycle_event. simpl.
  apply str_in_spec in Hk. rewrite Hk, Hs. rewrite (opt_check _ _ Hv), (opt_check _ _ Hd), (opt_check _ _ Hr).
  unfold _is_count, clock_ok, count_ok in *.
  rewrite !(proj2 (Z.leb_le _ _)) by lia. reflexivity.
Qed.

Definition emitted (now : Z) (name : LifecycleEventName) (state : LinkState) (l : Link) : Link :=
  let ev := lifecycle_event now name state l in
  upd_sinks (_metrics_sink l) ((fun log => log ++ [ev]) <$> _audit_sink l) (ring_push ev (_events l)) l.

Lemma emit_ok now name state l : emit_ready l -> clock_ok now ->
  _emit_lifecycle_event now name state l = (Ok tt, emitted now name state l).
Proof.
  intros Hl Hc. unfold _emit_lifecycle_event, new_event. by rewrite event_checks_ready.
Qed.

Definition transitioned (now : Z) (state : LinkState) (reason : option FailureClass) (l : Link) : Link :=
  send_metric (MLifecycle state reason)
    (match event_name_of state with
     | Some n => emitted now n state (upd_state state reason l)
     | None => upd_state state reason l
     end).

Lemma transition_ok now state reason l : emit_ready l -> clock_ok now ->
  _transition_locked now state reason l = (Ok tt, transitioned now state reason l).
Proof.
  intros Hl Hc. unfold _transition_locked, transitioned, mbind, eff_bind, eff_modify.
  destruct (event_name_of state) as [n|]; [|done]. by rewrite (emit_ok now n state (upd_state state reason l)).
Qed.

Lemma transitioned_fields now state reason l :
  let l' := transitioned now state reason l in
  _state l' = state /\ _reason l' = reason /\ cfg l' = cfg l /\ _sdk_id l' = _sdk_id l /\ _run_id l' = _run_id l /\
  _restarts l' = _restarts l /\ _fails l' = _fails l /\ _crash_times l' = _crash_times l /\
  _identity l' = _identity l.
Proof. unfold transitioned. by destruct (event_name_of state). Qed.

Lemma transitioned_ready now state reason l : emit_ready l -> emit_ready (transitioned now state reason l).
Proof.
  unfold emit_ready. destruct (transitioned_fields now state reason l) as (_ & _ & -> & -> & -> & -> & -> & _). done.
Qed.

Lemma emit_ready_upd l l' : emit_ready l -> cfg l' = cfg l -> _sdk_id l' = _sdk_id l ->
  opt_id (_run_id l') -> count_ok (_restarts l') -> count_ok (_fails l') -> emit_ready l'.
Proof. unfold emit_ready. intros (Hk & Hv & Hd & Hs & _) -> -> Hr Hrs Hf. done. Qed.
