(* ===== verification/LinkSupervisorFacts.v ===== *)
(** * What the RuntimeLink supervisor guarantees

    The theorems about [LinkSupervisor.v]: the link refines a two-field state
    machine, emission never fails on a valid link, the event ring is the tail of
    the audit log, and when the crashloop detection trips. *)
From Stdlib Require Import ZArith Lia Ascii String SpecFloat.
From stdpp Require Import base tactics list strings.
From S2P Require Import Prelude PyStr PyFloat Json Types PyTime LinkConfig ChildWire LinkEvents LinkSupervisor.

(** ** Invariants of steps *)

Definition preserves {A} (I : Link -> Prop) (m : step A) : Prop := forall l, I l -> I (m l).2.

Section Preserves.
Context (I : Link -> Prop).

Lemma preserves_ret {A} (a : A) : preserves I (mret a).
Proof. intros l Hl. exact Hl. Qed.
Lemma preserves_get : preserves I eff_get.
Proof. intros l Hl. exact Hl. Qed.
Lemma preserves_modify f : (forall l, I l -> I (f l)) -> preserves I (eff_modify f).
Proof. intros H l Hl. by apply H. Qed.
Lemma preserves_bind {A B} (m : step A) (f : A -> step B) :
  preserves I m -> (forall a, preserves I (f a)) -> preserves I (m ≫= f).
Proof.
  intros Hm Hf l Hl. specialize (Hm l Hl). unfold mbind, eff_bind.
  destruct (m l) as [[a|e] l']; [by apply Hf | done].
Qed.
Lemma preserves_fmap {A B} (f : A -> B) (m : step A) : preserves I m -> preserves I (f <$> m).
Proof. intros Hm l Hl. specialize (Hm l Hl). unfold fmap, eff_fmap. by destruct (m l) as [[a|e] l']. Qed.
Lemma preserves_lift {A} (r : res exn A) : preserves I (eff_lift r).
Proof. intros l Hl. exact Hl. Qed.
Lemma preserves_catching {A} (m : step A) h : preserves I m -> preserves I (catching m h).
Proof. intros Hm l Hl. specialize (Hm l Hl). unfold catching. by destruct (m l) as [[a|e] l']. Qed.
End Preserves.

Create HintDb preserve.
#[export] Hint Resolve preserves_ret preserves_get preserves_modify preserves_bind preserves_fmap
  preserves_lift preserves_catching : preserve.

(** Walk down a step whose updates all keep the invariant. *)
Ltac preserve :=
  repeat lazymatch goal with
  | |- preserves _ (_ ≫= _) => apply preserves_bind; [|intros ?]
  | |- preserves _ (mret _) => apply preserves_ret
  | |- preserves _ (_ <$> _) => apply preserves_fmap
  | |- preserves _ eff_get => apply preserves_get
  | |- preserves _ (eff_modify _) => apply preserves_modify; intros ? ?
  | |- preserves _ (catching _ _) => apply preserves_catching
  | |- preserves _ (eff_lift _) => apply preserves_lift
  | |- preserves _ (match ?b with _ => _ end) => destruct b
  | |- preserves _ _ => solve [eauto with preserve]
  end.

(** ** The sinks *)

(** What holds of the audit log and the event buffer, and still holds after an
    event is sent to both. *)
Definition on_sinks (I : option (list LinkEvent) -> list LinkEvent -> Prop) (l : Link) : Prop :=
  I (_audit_sink l) (_events l).
Definition send_closed (I : option (list LinkEvent) -> list LinkEvent -> Prop) : Prop :=
  forall ev log q, I log q -> I ((fun log => log ++ [ev]) <$> log) (ring_push ev q).

(** Nothing the link does touches the sinks except by emitting an event. *)
Section Sinks.
Context (I : option (list LinkEvent) -> list LinkEvent -> Prop) (I_closed : send_closed I).

Lemma emit_sinks now name state : preserves (on_sinks I) (_emit_lifecycle_event now name state).
Proof.
  intros l Hl. unfold _emit_lifecycle_event. destruct (new_event _) as [ev|]; [|done].
  by apply I_closed.
Qed.
#[local] Hint Resolve emit_sinks : preserve.

Lemma transition_sinks now state reason : preserves (on_sinks I) (_transition_locked now state reason).
Proof. unfold _transition_locked. preserve; done. Qed.
#[local] Hint Resolve transition_sinks : preserve.

Lemma handle_sinks now e n : preserves (on_sinks I) (_handle_child_event now e n).
Proof.
  unfold _handle_child_event, _handle_identity, _handle_beat, _handle_terminal. preserve; done.
Qed.
#[local] Hint Resolve handle_sinks : preserve.

Lemma read_sinks r : preserves (on_sinks I) (_read_stdout r).
Proof. intros l Hl. unfold _read_stdout. by repeat case_match. Qed.
#[local] Hint Resolve read_sinks : preserve.

Lemma watch_step_sinks k w : preserves (on_sinks I) (watch_step k w).
Proof. unfold watch_step, timer_step. preserve; done. Qed.
#[local] Hint Resolve watch_step_sinks : preserve.

Lemma watch_sinks wakes code w : preserves (on_sinks I) (_watch_child wakes code w).
Proof.
  revert w. induction wakes as [|k wakes IH]; intros w; simpl; [preserve|].
  apply preserves_bind; [|intros []; preserve]. preserve.
Qed.
#[local] Hint Resolve watch_sinks : preserve.

Lemma exit_sinks now code : preserves (on_sinks I) (_handle_child_exit now code).
Proof. unfold _handle_child_exit. preserve; done. Qed.
#[local] Hint Resolve exit_sinks : preserve.

Lemma once_sinks life : preserves (on_sinks I) (supervise_once life).
Proof. unfold supervise_once, back_off, _spawn_and_watch. preserve; done. Qed.

Lemma supervise_sinks lives : preserves (on_sinks I) (_supervise lives).
Proof.
  induction lives as [|life lives IH]; simpl; [preserve|].
  apply preserves_bind; [apply once_sinks | intros []; preserve].
Qed.

Lemma start_sinks : preserves (on_sinks I) start.
Proof. intros l Hl. unfold start. by destruct (_ || _). Qed.

Lemma stop_sinks now : preserves (on_sinks I) (stop now).
Proof.
  intros l Hl. unfold stop. destruct (_ || _); [done|]. case_bool_decide; [done|].
  pose proof (transition_sinks now STOPPED None (upd_flags (_supervising l) (_started l) true l) Hl) as Ht.
  by destruct (_transition_locked _ _ _ _) as [[[]|e] l'].
Qed.
End Sinks.

(** ** The event ring *)

Definition lastn {A} (n : nat) (l : list A) : list A := drop (length l - n) l.

(** The ring holds the last events the audit sink was sent. *)
Definition ring_ok (log : option (list LinkEvent)) (q : list LinkEvent) : Prop :=
  forall sent, log = Some sent -> q = lastn EVENT_BUFFER_SIZE sent.

Lemma lastn_snoc {A} n (l : list A) x : (0 < n)%nat ->
  lastn n (l ++ [x]) = (if (length (lastn n l) <? n)%nat then lastn n l else tail (lastn n l)) ++ [x].
Proof.
  intros Hn. unfold lastn. rewrite length_app, length_drop. simpl.
  destruct (Nat.ltb_spec (length l - (length l - n)) n) as [H|H].
  - replace (length l + 1 - n) with 0 by lia. replace (length l - n) with 0 by lia. done.
  - replace (length l + 1 - n) with (S (length l - n)) by lia.
    rewrite drop_app_le by lia. f_equal. set (k := length l - n). clearbody k. clear.
    revert l. induction k as [|k IH]; intros [|y l]; simpl; done || apply IH.
Qed.

Lemma length_lastn {A} n (l : list A) : (length (lastn n l) <= n)%nat.
Proof. unfold lastn. rewrite length_drop. lia. Qed.

Lemma ring_closed : send_closed ring_ok.
Proof.
  intros ev [log|] q Hq sent; [|done]. intros [= <-]. rewrite (Hq log eq_refl).
  unfold ring_push. rewrite lastn_snoc by (unfold EVENT_BUFFER_SIZE; lia). by case_match.
Qed.

(** The event buffer is bounded and loses nothing but the oldest: whatever
    the child and the clocks do, and however often it is restarted and then
    stopped, it holds the last 64 events of those the audit sink received, in
    order. *)
Lemma ring_is_the_audit_tail (c : RuntimeLinkConfig) (sdk_id : string) (metrics : option (list Metric))
    (lives : list Life) (stop_at : Z) (log : list LinkEvent) :
  let l := ((_ ← start; _ ← _supervise lives; stop stop_at) (new_Link c sdk_id metrics (Some []))).2 in
  _audit_sink l = Some log ->
  _events l = lastn EVENT_BUFFER_SIZE log /\ (length (_events l) <= EVENT_BUFFER_SIZE)%nat.
Proof.
  intros l Ha. enough (Hr : on_sinks ring_ok l) by (rewrite (Hr log Ha); split; [done | apply length_lastn]).
  unfold l. pose proof ring_closed as Hc.
  apply preserves_bind; [by apply start_sinks | intros ? | by intros log0 [= <-]].
  apply preserves_bind; [by apply supervise_sinks | intros ?; by apply stop_sinks].
Qed.

(** ** The state machine *)

(** The states and reasons the link goes through, without counters or events. *)
Definition machine : Type := LinkState * option FailureClass.
Definition view (l : Link) : machine := (_state l, _reason l).

Definition machine_step (s : machine) (e : ChildEvent) : machine :=
  match e with
  | EIdentity _ => match s.1 with STARTING => (CONNECTED, None) | _ => (DEGRADED, None) end
  | EBeat b =>
      match be_outcome b, s.1 with
      | BEAT_OK, (DEGRADED | RECONNECTING) => (CONNECTED, None)
      | BEAT_OK, _ => s
      | UNAUTHORIZED, _ => (TERMINAL, Some INSTALLATION_UNAUTHORIZED)
      | o, CONNECTED => (DEGRADED, Some (_classify_beat_outcome o))
      | _, _ => s
      end
  | ETerminal t => (TERMINAL, Some (terminal_class (te_reason t)))
  | EIgnored => s
  end.

(** What a handler needs of a parsed event and of the counters. *)
Definition arg_ok (e : ChildEvent) (dropped : Z) (l : Link) : Prop :=
  event_ok e /\ count_ok dropped /\ (_fails l < _MAX_SEQ)%Z.

Definition handled (e : ChildEvent) (dropped : Z) (l l' : Link) : Prop :=
  emit_ready l' /\ view l' = machine_step (view l) e /\ (_fails l' <= Z.max dropped (_fails l + 1))%Z.

Lemma transitioned_handled now state reason e dropped l l1 :
  emit_ready l1 -> (_fails l1 <= Z.max dropped (_fails l + 1))%Z ->
  machine_step (view l) e = (state, reason) -> handled e dropped l (transitioned now state reason l1).
Proof.
  intros Hr Hf Hm. unfold handled, view at 1.
  destruct (transitioned_fields now state reason l1) as (-> & -> & _ & _ & _ & _ & -> & _).
  split_and!; [by apply transitioned_ready | by rewrite Hm | done].
Qed.

Lemma handle_child_event_spec now e dropped l :
  emit_ready l -> clock_ok now -> arg_ok e dropped l ->
  exists l', _handle_child_event now e dropped l = (Ok tt, l') /\ handled e dropped l l'.
Proof.
  intros Hl Hc (He & Hd & Hf). pose proof Hl as (_ & _ & _ & _ & Hr & Hrs & Hfl).
  assert (Hz : count_ok 0) by (unfold count_ok, _MAX_SEQ; lia).
  destruct e as [i|b|t|]; cbn [_handle_child_event].
  - destruct He as (Hid & _).
    assert (H1 : emit_ready (upd_fails dropped (upd_identity i l)))
      by (apply (emit_ready_upd l); [done | done | done | by right | done | done]).
    unfold _handle_identity, mbind, eff_bind, eff_modify, eff_get. simpl (_state _).
    case_bool_decide as Hs; rewrite transition_ok by done; eexists; (split; [reflexivity|]);
      (apply transitioned_handled; [done | simpl; lia | simpl; by destruct (_state l)]).
  - destruct He as (Hid & _).
    set (rid := if py_truthy_str (be_run_id b) then be_run_id b else _run_id l).
    assert (Hrid : opt_id rid) by (unfold rid; destruct (py_truthy_str _); [by right | done]).
    set (l1 := send_metric (MBeat b) (upd_beat (Some (DT now (Some 0%Z))) (_last_ok l) (_fails l) rid l)).
    assert (H1 : emit_ready l1) by (by apply (emit_ready_upd l)).
    assert (H2 : forall x, emit_ready (upd_beat (_last_beat l1) x 0 (_run_id l1) l1))
      by (intros x; by apply (emit_ready_upd l)).
    assert (H3 : emit_ready (upd_fails (_fails l1 + 1) l1)).
    { apply (emit_ready_upd l); [done | done | done | done | done |]. simpl. unfold count_ok in *. lia. }
    unfold _handle_beat, mbind, eff_bind, eff_modify, eff_get. fold rid. fold l1.
    unfold count_ok in Hfl.
    destruct (be_outcome b) eqn:Ho; try case_bool_decide as Hs;
      try (rewrite transition_ok by done);
      (eexists; split; [reflexivity|]);
      try (apply transitioned_handled; [done | simpl; lia |]);
      try (split_and!; [done | | simpl; lia]);
      simpl in *; rewrite Ho; destruct (_state l); try done; exfalso; naive_solver.
  - unfold _handle_terminal. rewrite transition_ok by done. eexists. split; [reflexivity|].
    apply transitioned_handled; [done | unfold count_ok in *; lia | done].
  - eexists. split; [reflexivity|]. split_and!; [done | done | lia].
Qed.

(** Every line the child writes in one life, with the clock and the count of
    dropped agents. *)
Fixpoint handle_all (evs : list (Z * ChildEvent * Z)) : step unit :=
  match evs with
  | [] => mret tt
  | (now, e, dropped) :: evs' => _ ← _handle_child_event now e dropped; handle_all evs'
  end.
Definition child_life (now : Z) (evs : list (Z * ChildEvent * Z)) : step unit :=
  _ ← _transition_locked now STARTING None; handle_all evs.

(** [n] bounds what the failure counter can still grow to. *)
Definition evs_ok (n : Z) (evs : list (Z * ChildEvent * Z)) : Prop :=
  Forall (fun x => clock_ok x.1.1 /\ event_ok x.1.2 /\ (0 <= x.2 <= n)%Z) evs /\
  (0 <= n /\ n + Z.of_nat (length evs) <= _MAX_SEQ)%Z.

Lemma handle_all_spec evs n l : emit_ready l -> evs_ok n evs -> (_fails l <= n)%Z ->
  exists l', handle_all evs l = (Ok tt, l') /\ emit_ready l' /\
    view l' = foldl (fun s x => machine_step s x.1.2) (view l) evs.
Proof.
  revert n l. induction evs as [|[[now e] d] evs IH]; intros n l Hl [Hall Hn] Hf; [by exists l|].
  apply Forall_cons in Hall as [(Hc & He & Hd) Hall]. simpl in *.
  destruct (handle_child_event_spec now e d l) as (l1 & Hrun & Hl1 & Hv & Hf1); [done | done | |].
  { split_and!; [done | unfold count_ok; lia | lia]. }
  destruct (IH (n + 1)%Z l1) as (l' & Hrun' & Hl' & Hv'); [done | | lia |].
  { split; [|lia]. eapply Forall_impl; [exact Hall|]. simpl. intros x (? & ? & ?). split_and!; [done | done | lia..]. }
  exists l'. unfold mbind, eff_bind. rewrite Hrun. by rewrite Hrun', Hv', Hv.
Qed.

Lemma child_life_spec now evs n l : emit_ready l -> clock_ok now -> evs_ok n evs -> (_fails l <= n)%Z ->
  exists l', child_life now evs l = (Ok tt, l') /\ emit_ready l' /\
    view l' = foldl (fun s x => machine_step s x.1.2) (STARTING, None) evs.
Proof.
  intros Hl Hc He Hf. unfold child_life. unfold mbind at 1, eff_bind at 1. rewrite transition_ok by done.
  destruct (transitioned_fields now STARTING None l) as (Hs & Hr & _ & _ & _ & _ & Hff & _).
  destruct (handle_all_spec evs n (transitioned now STARTING None l)) as (l' & Hrun & Hl' & Hv);
    [by apply transitioned_ready | done | by rewrite Hff |].
  exists l'. split_and!; [done | done |]. rewrite Hv. unfold view. by rewrite Hs, Hr.
Qed.

(** A link made from an enabled configuration can emit every event. *)
Lemma new_link_ready netloc_ok c sdk_id m a l :
  new_link netloc_ok c sdk_id m a = Ok l -> cfg_enabled c = true -> _ID_RE sdk_id = true -> emit_ready l.
Proof.
  unfold new_link. intros H Hen Hid. res_inv. apply normalize_facts in Hr as (-> & _ & Hv & Hd & _ & He & _).
  assert (Hz : count_ok 0) by (unfold count_ok, _MAX_SEQ; lia).
  unfold emit_ready. simpl in *. destruct (He Hen) as (Hk & _).
  split_and!; [done | done | done | done | by left | done | done].
Qed.

(** C6: a link made from an enabled configuration never raises while it handles
    what its child writes: every lifecycle event it builds from accepted lines
    is valid, and its state and reason follow the abstract state machine. *)
Theorem link_refines_machine (netloc_ok : string -> bool) (c : RuntimeLinkConfig) (sdk_id : string)
    (m : option (list Metric)) (a : option (list LinkEvent)) (l : Link) (now n : Z) (evs : list (Z * ChildEvent * Z)) :
  new_link netloc_ok c sdk_id m a = Ok l -> cfg_enabled c = true -> _ID_RE sdk_id = true ->
  clock_ok now -> evs_ok n evs ->
  exists l', child_life now evs l = (Ok tt, l') /\
    view l' = foldl (fun s x => machine_step s x.1.2) (STARTING, None) evs.
Proof.
  intros Hn Hen Hid Hc He.
  destruct (child_life_spec now evs n l) as (l' & Hrun & _ & Hv);
    [by eapply new_link_ready | done | done | | by exists l'].
  unfold new_link in Hn. res_inv. simpl. destruct He. lia.
Qed.

Definition is_identity (e : ChildEvent) : bool := match e with EIdentity _ => true | _ => false end.

Lemma machine_before_identity evs (s : machine) :
  Forall (fun x : Z * ChildEvent * Z => is_identity x.1.2 = false) evs -> s.1 = STARTING \/ s.1 = TERMINAL ->
  let s' := foldl (fun s x => machine_step s x.1.2) s evs in s'.1 = STARTING \/ s'.1 = TERMINAL.
Proof.
  revert s. induction evs as [|[[now e] d] evs IH]; intros s; [done|].
  intros [He Hall]%Forall_cons Hs. simpl. apply IH; [done|]. simpl in He.
  destruct e as [i|b|t|]; try done; simpl; [|by right].
  destruct Hs as [Hs|Hs]; destruct (be_outcome b); rewrite ?Hs; simpl; auto.
Qed.

(** Beats alone do not connect: until the child of this life has announced
    its identity the link is starting or terminal, whatever beats and terminal
    lines arrive. *)
Lemma no_identity_no_connection (l : Link) (now n : Z) (evs : list (Z * ChildEvent * Z)) :
  emit_ready l -> clock_ok now -> evs_ok n evs -> (_fails l <= n)%Z ->
  Forall (fun x => is_identity x.1.2 = false) evs ->
  exists l', child_life now evs l = (Ok tt, l') /\ (_state l' = STARTING \/ _state l' = TERMINAL).
Proof.
  intros Hl Hc He Hf Hall. destruct (child_life_spec now evs n l) as (l' & Hrun & _ & Hv); [done..|].
  exists l'. split; [done|]. pose proof (machine_before_identity evs (STARTING, None) Hall (or_introl eq_refl)) as H.
  simpl in H. rewrite <- Hv in H. exact H.
Qed.

(** ** Crash loops *)

(** The specification: some five consecutive failures fit in the window. *)
Definition five_within (ts : list Z) : bool :=
  (5 <=? length ts)%nat && (default 0 (last ts) - default 0 (ts !! (length ts - 5)%nat) <=? 900000000)%Z.
Fixpoint crashloop_in (hist ts : list Z) : bool :=
  match ts with
  | [] => false
  | t :: ts' => five_within (hist ++ [t]) || crashloop_in (hist ++ [t]) ts'
  end.

(** A life whose spawn fails, after a backoff with a number that is one. *)
Definition spawn_failure (life : Life) : Prop :=
  lf_spawn_ok life = false /\ clock_ok (lf_now life) /\ lf_random life <> S754_nan.

Lemma head_lastn {A} n (l : list A) : head (lastn n l) = l !! (length l - n)%nat.
Proof. unfold lastn. rewrite head_lookup, lookup_drop. f_equal. lia. Qed.

Lemma last_lastn {A} n (l : list A) : (0 < n)%nat -> last (lastn n l) = last l.
Proof.
  intros Hn. unfold lastn. destruct l as [|x l'] eqn:E; [done|]. rewrite <- E.
  rewrite !last_lookup, lookup_drop, length_drop. f_equal. subst. simpl. lia.
Qed.

Lemma count_crash_lastn hist t l : _crash_times l = lastn CRASHLOOP_THRESHOLD hist ->
  _crash_times (count_crash t l) = lastn CRASHLOOP_THRESHOLD (hist ++ [t]).
Proof.
  intros H. unfold count_crash. simpl. rewrite H, lastn_snoc by (unfold CRASHLOOP_THRESHOLD; lia).
  rewrite length_app. simpl. pose proof (length_lastn CRASHLOOP_THRESHOLD hist) as Hl.
  destruct (Nat.ltb_spec CRASHLOOP_THRESHOLD (length (lastn CRASHLOOP_THRESHOLD hist) + 1));
    destruct (Nat.ltb_spec (length (lastn CRASHLOOP_THRESHOLD hist)) CRASHLOOP_THRESHOLD); try lia; [|done].
  destruct (lastn CRASHLOOP_THRESHOLD hist); [simpl in *; unfold CRASHLOOP_THRESHOLD in *; lia | done].
Qed.

Lemma is_crashloop_spec hist l : _crash_times l = lastn CRASHLOOP_THRESHOLD hist ->
  _is_crashloop l = five_within hist.
Proof.
  intros H. unfold _is_crashloop, five_within. change 5 with CRASHLOOP_THRESHOLD. change 900000000%Z with CRASHLOOP_WINDOW.
  rewrite H, head_lastn, last_lastn by (unfold CRASHLOOP_THRESHOLD; lia).
  assert (Hl : length (lastn CRASHLOOP_THRESHOLD hist) = Nat.min (length hist) CRASHLOOP_THRESHOLD)
    by (unfold lastn; rewrite length_drop; lia).
  rewrite Hl. destruct (Nat.leb_spec CRASHLOOP_THRESHOLD (length hist));
    destruct (Nat.ltb_spec (Nat.min (length hist) CRASHLOOP_THRESHOLD) CRASHLOOP_THRESHOLD); done || lia.
Qed.

(** The backoff of a link whose restart settings are numbers in their range. *)
Lemma back_off_ok life l : emit_ready l -> backoff_in_range (cfg_restart (cfg l)) -> clock_ok (lf_now life) ->
  lf_random life <> S754_nan ->
  exists l', back_off life l = (Ok tt, l') /\ emit_ready l' /\ cfg l' = cfg l /\ _restarts l' = _restarts l /\
    _crash_times l' = _crash_times l /\ _run_id l' = _run_id l /\ _fails l' = _fails l.
Proof.
  intros Hl Hb Hc Hr. unfold back_off, mbind, eff_bind, eff_get, eff_lift. destruct (0 <? _restarts l)%Z; [|by exists l].
  rewrite transition_ok by done. rewrite wait_in_range by done. eexists. split; [done|]. split; [by apply transitioned_ready|].
  by destruct (transitioned_fields (lf_now life) RECONNECTING None l) as (_ & _ & Hcfg & _ & -> & -> & -> & -> & _).
Qed.

(** One failed spawn. *)
Lemma spawn_failure_once life l hist : emit_ready l -> backoff_in_range (cfg_restart (cfg l)) -> spawn_failure life ->
  (_restarts l < _MAX_SEQ)%Z -> _crash_times l = lastn CRASHLOOP_THRESHOLD hist ->
  exists l', emit_ready l' /\ cfg l' = cfg l /\ _restarts l' = (_restarts l + 1)%Z /\
    _crash_times l' = lastn CRASHLOOP_THRESHOLD (hist ++ [lf_time life]) /\
    supervise_once life l = (Ok (if five_within (hist ++ [lf_time life]) then SReturn else SLoop), l') /\
    view l' = if five_within (hist ++ [lf_time life]) then (TERMINAL, Some RUNTIME_CRASHLOOP) else (RECONNECTING, None).
Proof.
  intros Hl Hb (Hs & Hc & Hrnd) Hn Hh. pose proof Hl as (_ & _ & _ & _ & Hrid & Hrs & Hfl).
  destruct (back_off_ok life l) as (l0 & Hpre & Hl0 & Hcfg0 & Hr0 & Hct0 & Hid0 & Hf0); [done..|].
  set (now := lf_now life) in *. set (time := lf_time life).
  set (l1 := upd_reason (Some RUNTIME_UNAVAILABLE) (transitioned now STARTING None l0)).
  set (l2 := count_crash time l1).
  assert (Hct : _crash_times l2 = lastn CRASHLOOP_THRESHOLD (hist ++ [time])).
  { apply count_crash_lastn. by rewrite <- Hh, <- Hct0. }
  assert (Hr2 : _restarts l2 = (_restarts l + 1)%Z) by (rewrite <- Hr0; done).
  assert (Hl2 : emit_ready l2).
  { apply (emit_ready_upd (transitioned now STARTING None l0)); [by apply transitioned_ready | done | done | | |].
    - change (opt_id (_run_id l0)). by rewrite Hid0.
    - rewrite Hr2. unfold count_ok in *. lia.
    - change (count_ok (_fails l0)). by rewrite Hf0. }
  pose (r := if five_within (hist ++ [time]) then (TERMINAL, Some RUNTIME_CRASHLOOP) else (RECONNECTING, None) : machine).
  exists (transitioned now r.1 r.2 l2).
  destruct (transitioned_fields now r.1 r.2 l2) as (Hst & Hre & Hcf & _ & _ & Hrr & _ & Hcc & _).
  split_and!; [by apply transitioned_ready | exact (eq_trans Hcf Hcfg0) | by rewrite Hrr | by rewrite Hcc | |].
  - unfold supervise_once. unfold mbind at 1, eff_bind at 1. rewrite Hpre.
    unfold _spawn_and_watch, mbind, eff_bind, eff_modify, eff_get. fold now.
    rewrite transition_ok, Hs by done. simpl (negb _). cbv beta iota zeta delta [mret eff_ret].
    fold time l1 l2. rewrite (is_crashloop_spec _ _ Hct). unfold r.
    destruct (five_within _); by rewrite transition_ok.
  - unfold view. rewrite Hst, Hre. unfold r. by destruct (five_within _).
Qed.

Lemma spawn_failures_supervise lives l hist : emit_ready l -> backoff_in_range (cfg_restart (cfg l)) ->
  Forall spawn_failure lives -> (_restarts l + Z.of_nat (length lives) <= _MAX_SEQ)%Z ->
  _crash_times l = lastn CRASHLOOP_THRESHOLD hist ->
  exists l', _supervise lives l = (Ok (if crashloop_in hist (map lf_time lives) then SReturn else SLoop), l') /\
    (lives <> [] -> view l' = if crashloop_in hist (map lf_time lives) then (TERMINAL, Some RUNTIME_CRASHLOOP)
                              else (RECONNECTING, None)).
Proof.
  revert l hist. induction lives as [|life lives IH]; intros l hist Hl Hb Hall Hn Hc; [by exists l|].
  apply Forall_cons in Hall as [Hx Hall]. simpl (length _) in Hn.
  destruct (spawn_failure_once life l hist) as (l1 & Hl1 & Hcfg & Hr1 & Hc1 & Hrun & Hv); [done.. | lia | done |].
  simpl (map _ _). simpl (crashloop_in _ _). simpl (_supervise _). unfold mbind, eff_bind. rewrite Hrun.
  destruct (five_within (hist ++ [lf_time life])) eqn:Hw; simpl; [by exists l1|].
  destruct (IH l1 (hist ++ [lf_time life])) as (l' & Hrun' & Hv'); [done | by rewrite Hcfg | done | rewrite Hr1; lia | done |].
  exists l'. split; [done|]. intros _. destruct lives as [|y lives]; [|by apply Hv'].
  simpl in Hrun'. injection Hrun' as <-. by rewrite Hv.
Qed.

(** C38: spawns that keep failing.  For a link without crashes so far, whose
    identifiers and counters an event accepts, and whose restart settings are
    numbers in the range that validation asks for (a NaN passes validation, and
    the backoff before the first restart raises): while every spawn fails, at
    times that an event can carry and no more often than the counters count, the
    supervisor gives up exactly when some five consecutive failures happened
    within 900 seconds.  Then the link is terminal with [runtime_crashloop], and
    otherwise it is still reconnecting and goes on.  The documents speak of more
    than five restarts; the code gives up at the fifth failure. *)
Theorem crashloop_exactly_five_in_window (l : Link) (lives : list Life) :
  emit_ready l -> backoff_in_range (cfg_restart (cfg l)) -> _crash_times l = [] -> lives <> [] ->
  Forall spawn_failure lives -> (_restarts l + Z.of_nat (length lives) <= _MAX_SEQ)%Z ->
  exists l', _supervise lives l = (Ok (if crashloop_in [] (map lf_time lives) then SReturn else SLoop), l') /\
    view l' = if crashloop_in [] (map lf_time lives) then (TERMINAL, Some RUNTIME_CRASHLOOP) else (RECONNECTING, None).
Proof.
  intros Hl Hb Hc Hts Hall Hn. destruct (spawn_failures_supervise lives l []) as (l' & Hrun & Hv); [done..|].
  exists l'. split; [done | by apply Hv].
Qed.

(** ** A child that never speaks *)

(** A life whose child starts, writes nothing, and is killed at the identity
    timeout. *)
Definition mute_wake (now : Z) : Wake := {| w_now := now; w_line := None; w_timer := true; w_read_done := false |}.
Definition mute (life : Life) : Prop :=
  lf_spawn_ok life = true /\ (exists now, lf_wakes life = [mute_wake now]) /\ clock_ok (lf_now life) /\
  lf_random life <> S754_nan.

Lemma mute_life_once life l : emit_ready l -> backoff_in_range (cfg_restart (cfg l)) -> mute life ->
  (_restarts l < _MAX_SEQ)%Z ->
  exists l', supervise_once life l = (Ok SLoop, l') /\ emit_ready l' /\ cfg l' = cfg l /\
    _restarts l' = (_restarts l + 1)%Z /\ _crash_times l' = _crash_times l /\
    view l' = (STARTING, Some RUNTIME_UNRESPONSIVE).
Proof.
  intros Hl Hb (Hs & (at_ & Hw) & Hc & Hrnd) Hn. pose proof Hl as (_ & _ & _ & _ & Hrid & Hrs & Hfl).
  destruct (back_off_ok life l) as (l0 & Hpre & Hl0 & Hcfg0 & Hr0 & Hct0 & Hid0 & Hf0); [done..|].
  set (now := lf_now life) in *. set (l1 := transitioned now STARTING None l0).
  assert (Hl1 : emit_ready l1) by (by apply transitioned_ready).
  destruct (transitioned_fields now STARTING None l0) as (Hs1 & _ & _ & _ & Hid1 & Hr1 & Hf1 & Hct1 & _).
  fold l1 in Hs1, Hid1, Hr1, Hf1, Hct1.
  set (l2 := upd_reason (Some RUNTIME_UNRESPONSIVE) (emitted now LE_STARTED STARTING l1)).
  set (l3 := upd_restarts (_restarts l2 + 1) (_crash_times l2) l2).
  exists (send_metric (MRestart (_restarts l3) RUNTIME_UNAVAILABLE) l3).
  split_and!.
  - unfold supervise_once. unfold mbind at 1, eff_bind at 1. rewrite Hpre.
    unfold _spawn_and_watch, mbind, eff_bind. fold now. rewrite transition_ok, Hs by done. fold l1.
    simpl (negb _). cbv beta iota. rewrite emit_ok by done. rewrite Hw. reflexivity.
  - apply (emit_ready_upd l1); [done | done | done | | |].
    + change (opt_id (_run_id l1)). by rewrite Hid1, Hid0.
    + change (count_ok (_restarts l1 + 1)). rewrite Hr1, Hr0. unfold count_ok in *. lia.
    + change (count_ok (_fails l1)). by rewrite Hf1, Hf0.
  - exact Hcfg0.
  - change (_restarts l1 + 1 = _restarts l + 1)%Z. by rewrite Hr1, Hr0.
  - change (_crash_times l1 = _crash_times l). by rewrite Hct1, Hct0.
  - change ((_state l1, Some RUNTIME_UNRESPONSIVE) = (STARTING, Some RUNTIME_UNRESPONSIVE)). by rewrite Hs1.
Qed.

(** C40: only failures to spawn count as crashes.  A child that starts, says
    nothing and is killed at the identity timeout is restarted as often as it
    happens, however fast, and the supervisor does not give up.  This is for a
    link whose identifiers and counters an event accepts, at times that an event
    can carry, up to the range of the counters, and with restart settings that
    are numbers in the range that validation asks for (with a NaN, which passes
    validation, the backoff before the first restart raises). *)
Theorem unresponsive_child_restarts_forever (l : Link) (lives : list Life) :
  emit_ready l -> backoff_in_range (cfg_restart (cfg l)) -> Forall mute lives ->
  (_restarts l + Z.of_nat (length lives) <= _MAX_SEQ)%Z ->
  exists l', _supervise lives l = (Ok SLoop, l') /\
    _restarts l' = (_restarts l + Z.of_nat (length lives))%Z /\ _crash_times l' = _crash_times l.
Proof.
  revert l. induction lives as [|life lives IH]; intros l Hl Hb Hall Hn; [exists l; simpl; split_and!; [done | lia | done]|].
  apply Forall_cons in Hall as [Hx Hall]. simpl (length _) in *.
  destruct (mute_life_once life l) as (l1 & Hrun & Hl1 & Hcfg & Hr1 & Hc1 & _); [done.. | lia |].
  destruct (IH l1) as (l' & Hrun' & Hr' & Hc'); [done | by rewrite Hcfg | done | lia |].
  exists l'. split_and!; [|lia | congruence].
  simpl. unfold mbind, eff_bind. by rewrite Hrun.
Qed.

(** The end of the child's output does not end the watch: while the reader
    reports the end of the stream, the watch goes on for any number of wakes
    with the state of the link unchanged, whatever the exit code. *)
Lemma eof_never_ends_the_watch (n : nat) (wake : Wake) (code : Z) (w : Watch) (l : Link) :
  w_line wake = Some REof -> _watch_child (replicate n wake) code w l = (Ok None, l).
Proof.
  intros Hw. revert w. induction n as [|n IH]; intros w; [done|].
  simpl. unfold watch_step, mbind, eff_bind. rewrite Hw. simpl. apply IH.
Qed.

(** ** Starting and stopping *)

(** [start] and [stop] are idempotent, a link cannot be started after it
    was stopped, and stopping leaves it stopped unless it was terminal. *)
Lemma start_stop_idempotent (l : Link) (now1 now2 : Z) :
  emit_ready l -> clock_ok now1 -> _started l = false -> _stopped l = false ->
  exists l1 l2, start l = (Ok tt, l1) /\ start l1 = (Ok tt, l1) /\ _supervising l1 = cfg_enabled (cfg l) /\
    stop now2 l = (Ok tt, l) /\
    stop now1 l1 = (Ok tt, l2) /\ stop now2 l2 = (Ok tt, l2) /\ start l2 = (Ok tt, l2) /\
    _supervising l2 = false /\ _state l2 = (if bool_decide (_state l = TERMINAL) then TERMINAL else STOPPED).
Proof.
  intros Hl Hc Hs Hst. set (l1 := upd_flags (cfg_enabled (cfg l)) true false l).
  assert (H1 : start l = (Ok tt, l1)) by (unfold start, l1; by rewrite Hs, Hst).
  set (l1' := upd_flags (cfg_enabled (cfg l)) true true l).
  set (l2 := upd_flags false true true
    (if bool_decide (_state l = TERMINAL) then l1' else transitioned now1 STOPPED None l1')).
  exists l1, l2.
  assert (H2 : stop now1 l1 = (Ok tt, l2)).
  { unfold stop, l2. simpl. case_bool_decide; [done|].
    change (upd_flags (cfg_enabled (cfg l)) true true l1) with l1'. rewrite (transition_ok now1 STOPPED None l1') by done. reflexivity. }
  split_and!; try done; [unfold stop; by rewrite Hs, orb_true_r |].
  unfold l2. by case_bool_decide.
Qed.

(** ** The child's environment *)

(** The child sees the allowlisted variables of the parent and nothing
    else, each with the parent's value except the SDK's own two. *)
Lemma child_env_is_allowlisted (environ : dict string) (k v : string) :
  dget (_build_env environ) k = Some v ->
  k ∈ CHILD_ENV_ALLOWLIST /\
  (k = "KEI_AGENTWARE_SDK_LANG" /\ v = SDK_LANG \/ k = "KEI_AGENTWARE_SDK_VERSION" /\ v = SDK_VERSION \/
   dget environ k = Some v).
Proof.
  unfold _build_env. rewrite !dget_dset.
  destruct (String.eqb_spec k "KEI_AGENTWARE_SDK_VERSION") as [->|_];
    [intros [= <-]; split; [unfold CHILD_ENV_ALLOWLIST; set_solver | auto]|].
  destruct (String.eqb_spec k "KEI_AGENTWARE_SDK_LANG") as [->|_];
    [intros [= <-]; split; [unfold CHILD_ENV_ALLOWLIST; set_solver | auto]|].
  intros H%dget_In. apply list_elem_of_omap in H as (k' & Hk' & H).
  destruct (dget environ k') as [v'|] eqn:Hv; [|done]. simpl in H. simplify_eq. auto.
Qed.

(** ** Witnesses *)

Definition ex_link_cfg : RuntimeLinkConfig :=
  match config_from_env (fun _ => true) ex_link_env2 no_harness with Ok c => c | Raise _ => default_config end.
Definition ex_link : Link := new_Link ex_link_cfg "sdk1" (Some []) (Some []).
Definition ex_now : Z := 1700000000000000.
Definition ex_beat (o : BeatOutcome) : ChildEvent :=
  EBeat {| be_run_id := "r1"; be_seq := 1; be_at := "2024-01-01T00:00:00Z"; be_outcome := o; be_latency_ms := 5;
           be_next_in_ms := 60000; be_http_status := 200 |}.

Lemma ex_link_new : new_link (fun _ => true) ex_link_cfg "sdk1" (Some []) (Some []) = Ok ex_link.
Proof. vm_compute. reflexivity. Qed.
Lemma ex_link_ready : emit_ready ex_link.
Proof. apply (new_link_ready _ _ _ _ _ _ ex_link_new); vm_compute; reflexivity. Qed.
Lemma ex_now_ok k : k ∈ [0; 1; 2; 3]%Z -> clock_ok (ex_now + k * 1000000).
Proof. intros H. set_unfold in H. destruct_or! H; subst; vm_compute; split; discriminate. Qed.

Lemma ex_beat_ok o : event_ok (ex_beat o).
Proof. split_and!; try reflexivity; try (vm_compute; discriminate). right. vm_compute. split; discriminate. Qed.

Definition ex_terminal : ChildEvent := ETerminal {| te_run_id := "r1"; te_reason := "stale" |}.
Lemma ex_terminal_ok : event_ok ex_terminal.
Proof. split; vm_compute; reflexivity. Qed.

Definition ex_identity : ChildEvent :=
  EIdentity {| id_run_id := "r1"; id_installation_id := "i1"; id_org_id := "o1"; id_workspace_id := "";
    id_platform := ""; id_status := ""; id_binding_status := ""; id_runtime_version := "";
    id_default_agent_id := None; id_agents := [] |}.
Lemma ex_identity_ok : event_ok ex_identity.
Proof.
  refine (conj _ (conj _ (conj _ (conj _ (conj _ I))))); try (vm_compute; reflexivity); repeat constructor.
Qed.

Definition ex_evs : list (Z * ChildEvent * Z) :=
  [(ex_now, ex_identity, 1%Z); (ex_now, ex_beat CATALOG_TIMEOUT, 0%Z); (ex_now, ex_beat BEAT_OK, 0%Z)].
Lemma ex_evs_ok : evs_ok 1 ex_evs.
Proof.
  split; [|split; vm_compute; discriminate].
  unfold ex_evs. rewrite !Forall_cons. simpl. split_and!; try apply (ex_now_ok 0); try apply ex_beat_ok; try apply ex_identity_ok;
    try lia; try set_solver.
Qed.

Lemma link_refines_machine_witness :
  exists l', child_life ex_now ex_evs ex_link = (Ok tt, l') /\ view l' = (CONNECTED, None).
Proof.
  exact (link_refines_machine (fun _ => true) ex_link_cfg "sdk1" (Some []) (Some []) ex_link ex_now 1 ex_evs
           ex_link_new eq_refl eq_refl (ex_now_ok 0 ltac:(set_solver)) ex_evs_ok).
Defined.

Lemma no_identity_no_connection_witness :
  exists l', child_life ex_now [(ex_now, ex_beat BEAT_OK, 0%Z); (ex_now, ex_terminal, 0%Z)] ex_link = (Ok tt, l') /\
    (_state l' = STARTING \/ _state l' = TERMINAL).
Proof.
  apply (no_identity_no_connection ex_link ex_now 1).
  - apply ex_link_ready.
  - apply (ex_now_ok 0). set_solver.
  - split; [|split; vm_compute; discriminate].
    rewrite !Forall_cons. simpl. split_and!; try apply (ex_now_ok 0); try apply ex_beat_ok; try apply ex_terminal_ok;
      try lia; try set_solver.
  - vm_compute. discriminate.
  - repeat constructor.
Defined.

(** A life that is mute, and one whose spawn fails; their times of failure. *)
Definition half : spec_float := float_of_dec false 5 (-1).
Definition ex_mute (time : Z) : Life :=
  {| lf_now := ex_now; lf_random := half; lf_spawn_ok := true; lf_wakes := [mute_wake ex_now]; lf_exit_code := 0; lf_time := time |}.
Definition ex_failure (time : Z) : Life :=
  {| lf_now := ex_now; lf_random := half; lf_spawn_ok := false; lf_wakes := []; lf_exit_code := 0; lf_time := time |}.

Lemma ex_link_backoff : backoff_in_range (cfg_restart (cfg ex_link)).
Proof. vm_compute. by split_and!. Qed.
Lemma ex_mute_ok time : mute (ex_mute time).
Proof. split_and!; [done | by eexists | apply (ex_now_ok 0); set_solver | done]. Qed.
Lemma ex_failure_ok time : spawn_failure (ex_failure time).
Proof. split_and!; [done | apply (ex_now_ok 0); set_solver | done]. Qed.

Lemma ring_is_the_audit_tail_witness :
  exists log, length log = 75%nat /\
    _events ((_ ← start; _ ← _supervise (replicate 25 (ex_mute 0)); stop ex_now)
               (new_Link ex_link_cfg "sdk1" None (Some []))).2 = lastn EVENT_BUFFER_SIZE log.
Proof.
  set (l := ((_ ← start; _ ← _supervise (replicate 25 (ex_mute 0)); stop ex_now)
               (new_Link ex_link_cfg "sdk1" None (Some []))).2).
  destruct (_audit_sink l) as [log|] eqn:Ha; [|vm_compute in Ha; discriminate Ha].
  exists log. split.
  - assert (H : length <$> _audit_sink l = Some 75%nat) by (vm_compute; reflexivity). rewrite Ha in H. by injection H.
  - exact (proj1 (ring_is_the_audit_tail ex_link_cfg "sdk1" None (replicate 25 (ex_mute 0)) ex_now log Ha)).
Defined.

Lemma crashloop_exactly_five_in_window_witness :
  exists l', _supervise (map ex_failure [0; 1; 2; 3; 900000001; 900000002]%Z) ex_link = (Ok SLoop, l') /\
    view l' = (RECONNECTING, None).
Proof.
  apply (crashloop_exactly_five_in_window ex_link (map ex_failure [0; 1; 2; 3; 900000001; 900000002]%Z)).
  - apply ex_link_ready.
  - apply ex_link_backoff.
  - reflexivity.
  - discriminate.
  - apply Forall_map, Forall_true. intros t. apply ex_failure_ok.
  - vm_compute. discriminate.
Defined.

Lemma unresponsive_child_restarts_forever_witness :
  exists l', _supervise (replicate 40 (ex_mute 0)) ex_link = (Ok SLoop, l') /\
    _restarts l' = 40%Z /\ _crash_times l' = [].
Proof.
  apply (unresponsive_child_restarts_forever ex_link (replicate 40 (ex_mute 0))).
  - apply ex_link_ready.
  - apply ex_link_backoff.
  - apply Forall_replicate, ex_mute_ok.
  - vm_compute. discriminate.
Defined.

(** A NaN in the restart settings passes validation.  The first life of the child
    is as usual; then the backoff raises, and the link is left reconnecting, with
    nothing to supervise it. *)
Definition nan_cfg : RuntimeLinkConfig :=
  {| cfg_enabled := cfg_enabled ex_link_cfg; cfg_binary := cfg_binary ex_link_cfg;
     cfg_control_plane_url := cfg_control_plane_url ex_link_cfg; cfg_token_env := cfg_token_env ex_link_cfg;
     cfg_interval := cfg_interval ex_link_cfg; cfg_beat_timeout := cfg_beat_timeout ex_link_cfg;
     cfg_grace := cfg_grace ex_link_cfg;
     cfg_restart := {| bo_min := S754_nan; bo_max := fz 300; bo_stable_reset := fz 300 |};
     cfg_stop_timeout := cfg_stop_timeout ex_link_cfg; cfg_log_count := cfg_log_count ex_link_cfg;
     cfg_harness := cfg_harness ex_link_cfg |}.
Example nan_restart_ends_supervision :
  is_ok (normalize_config (fun _ => true) nan_cfg) = true /\
  (let '(r, l) := _supervise [ex_mute 0; ex_mute 0] (new_Link nan_cfg "sdk1" None None) in
   (r, view l, _restarts l)) =
  (Raise (Exn ValueError "cannot convert float NaN to integer"), (RECONNECTING, None), 1%Z).
Proof. vm_compute. done. Qed.

Lemma eof_never_ends_the_watch_witness :
  _watch_child (replicate 1000 {| w_now := ex_now; w_line := Some REof; w_timer := true; w_read_done := true |})
    3 watch_start ex_link = (Ok None, ex_link).
Proof. apply eof_never_ends_the_watch. reflexivity. Defined.

Lemma child_env_is_allowlisted_witness :
  dget (_build_env [("AWS_SECRET", "s"); ("PATH", "/bin"); ("KEI_AGENTWARE_SDK_LANG", "go")]) "PATH" = Some "/bin" /\
  "PATH" ∈ CHILD_ENV_ALLOWLIST.
Proof.
  split; [reflexivity|].
  apply (child_env_is_allowlisted [("AWS_SECRET", "s"); ("PATH", "/bin"); ("KEI_AGENTWARE_SDK_LANG", "go")] "PATH" "/bin").
  reflexivity.
Defined.
