(* ===== verification/LinkReader.v ===== *)
(** * Reading the lifecycle events of a link

    The consumer of [Link.events] ([kei/runtime_link.py]) interleaved with the
    supervisor: what it was given, what waits for it, and when an event is lost. *)
From Stdlib Require Import ZArith Lia String.
From stdpp Require Import base tactics list strings.
From S2P Require Import Prelude Json Types LinkConfig ChildWire LinkEvents LinkSupervisor LinkSupervisorFacts.

(** ** The consumer *)

(** [get] on the queue: the oldest event, or [None] while it waits for one. *)
Definition next_event (l : Link) : option (LinkEvent * Link) :=
  match _events l with
  | [] => None
  | ev :: q => Some (ev, upd_sinks (_metrics_sink l) (_audit_sink l) q l)
  end.

(** The generator: the events it has yielded, and whether it has ended. *)
Record Reader := { rd_link : Link; rd_seen : list LinkEvent; rd_ended : bool }.

(** One resumption of [events]: the event it waits for, or the cancellation that
    ends the loop. *)
Inductive pull := Get | Cancelled.
Definition events (p : pull) (r : Reader) : Reader :=
  if rd_ended r then r
  else match p with
       | Cancelled => {| rd_link := rd_link r; rd_seen := rd_seen r; rd_ended := true |}
       | Get =>
           match next_event (rd_link r) with
           | None => r
           | Some (ev, l) => {| rd_link := l; rd_seen := rd_seen r ++ [ev]; rd_ended := false |}
           end
       end.

(** ** Interleavings *)

(** What can run between two resumptions: a part of the supervisor that runs
    under the lock, a whole life of the child, or a call of the user. *)
Inductive turn :=
| TStart
| TMove (now : Z) (state : LinkState) (reason : option FailureClass)
| TEvent (now : Z) (e : ChildEvent) (dropped : Z)
| TWake (wake : Wake) (w : Watch)
| TExit (now exit_code : Z)
| TLife (life : Life)
| TStop (now : Z)
| TPull (p : pull).

Definition after {A} (m : step A) (r : Reader) : Reader :=
  {| rd_link := (m (rd_link r)).2; rd_seen := rd_seen r; rd_ended := rd_ended r |}.

Definition take_turn (r : Reader) (t : turn) : Reader :=
  match t with
  | TStart => after start r
  | TMove now state reason => after (_transition_locked now state reason) r
  | TEvent now e dropped => after (_handle_child_event now e dropped) r
  | TWake wake w => after (watch_step wake w) r
  | TExit now code => after (_handle_child_exit now code) r
  | TLife life => after (supervise_once life) r
  | TStop now => after (stop now) r
  | TPull p => events p r
  end.

Definition interleave (turns : list turn) (r : Reader) : Reader := foldl take_turn r turns.

Definition new_reader (l : Link) : Reader := {| rd_link := l; rd_seen := []; rd_ended := false |}.

(** ** What the consumer is given *)

(** A turn of the link keeps whatever sending an event keeps; a resumption
    moves at most the oldest event to the consumer. *)
Inductive moved : Reader -> Reader -> Prop :=
| moved_link r r' :
    rd_seen r' = rd_seen r ->
    (forall I, send_closed I -> on_sinks I (rd_link r) -> on_sinks I (rd_link r')) -> moved r r'
| moved_event r r' ev :
    _audit_sink (rd_link r') = _audit_sink (rd_link r) ->
    _events (rd_link r) = ev :: _events (rd_link r') -> rd_seen r' = rd_seen r ++ [ev] -> moved r r'.

Lemma turn_moves r t : moved r (take_turn r t).
Proof.
  destruct t as [|now s rs|now e d|k w|now c|life|now|p]; try (apply moved_link; [done|]; intros I HI Hr).
  - by apply start_sinks.
  - by apply transition_sinks.
  - by apply handle_sinks.
  - by apply watch_step_sinks.
  - by apply exit_sinks.
  - by apply once_sinks.
  - by apply stop_sinks.
  - simpl. unfold events. destruct (rd_ended r); [by apply moved_link|]. destruct p; [|by apply moved_link].
    unfold next_event. destruct (_events (rd_link r)) as [|ev q] eqn:He; [by apply moved_link|].
    by apply (moved_event _ _ ev).
Qed.

(** What the consumer saw and what waits for it, against the audit log. *)
Definition in_order (seen : list LinkEvent) (log : option (list LinkEvent)) (q : list LinkEvent) : Prop :=
  forall sent, log = Some sent ->
    seen ++ q `sublist_of` sent /\ q `suffix_of` sent /\ (length q <= EVENT_BUFFER_SIZE)%nat.

Lemma in_order_closed seen : send_closed (in_order seen).
Proof.
  intros ev [log|] q Hq sent; [|done]. intros [= <-].
  destruct (Hq log eq_refl) as (Hs & [pre ->] & Hl). unfold ring_push.
  destruct (Nat.ltb_spec (length q) EVENT_BUFFER_SIZE) as [Hlt|Hge].
  - split_and!; [|exists pre; by rewrite <- app_assoc | rewrite length_app; simpl; lia].
    rewrite app_assoc. by apply sublist_app.
  - split_and!.
    + rewrite app_assoc. apply sublist_app; [|done]. etrans; [|exact Hs].
      apply sublist_app; [done|]. destruct q; [done|]. by apply sublist_cons.
    + destruct q as [|x q]; [exists pre; by rewrite app_nil_r|]. exists (pre ++ [x]). simpl. by rewrite <- !app_assoc.
    + rewrite length_app. unfold EVENT_BUFFER_SIZE in *. destruct q; simpl in *; lia.
Qed.

Lemma turn_in_order r t :
  on_sinks (in_order (rd_seen r)) (rd_link r) ->
  on_sinks (in_order (rd_seen (take_turn r t))) (rd_link (take_turn r t)).
Proof.
  intros Hr. destruct (turn_moves r t) as [r r' -> H | r r' ev Ha He Hs]; [by apply H; [apply in_order_closed|]|].
  intros sent Hsent. rewrite Ha in Hsent. destruct (Hr sent Hsent) as (H1 & [pre Hpre] & H3).
  rewrite Hs, He in *. simpl in *. rewrite <- app_assoc. split_and!; [done | | lia].
  exists (pre ++ [ev]). by rewrite <- app_assoc.
Qed.

(** Whatever the supervisor does between two resumptions, the consumer is given
    events of the audit log, each at most once and in its order; what waits for
    it is the end of that log, and never more than 64 events. *)
Lemma reader_follows_the_log (l : Link) (turns : list turn) (sent : list LinkEvent) :
  _audit_sink l = Some [] -> _events l = [] ->
  let r := interleave turns (new_reader l) in
  _audit_sink (rd_link r) = Some sent ->
  rd_seen r ++ _events (rd_link r) `sublist_of` sent /\ _events (rd_link r) `suffix_of` sent /\
  (length (_events (rd_link r)) <= EVENT_BUFFER_SIZE)%nat.
Proof.
  intros Ha He r. revert sent. change (on_sinks (in_order (rd_seen r)) (rd_link r)).
  unfold r. clear r. induction turns as [|t turns IH] using rev_ind.
  - intros sent Hsent. simpl in *. rewrite Ha in Hsent. injection Hsent as <-. rewrite He.
    split_and!; [done | by exists [] | simpl; lia].
  - unfold interleave. rewrite foldl_app. simpl. by apply turn_in_order.
Qed.

(** ** When nothing is lost *)

(** What was sent after the log was [log0] and the buffer [q0] still waits, if
    the buffer never filled. *)
Definition grown (log0 q0 : list LinkEvent) (log : option (list LinkEvent)) (q : list LinkEvent) : Prop :=
  exists new, log = Some (log0 ++ new) /\ ((length q < EVENT_BUFFER_SIZE)%nat -> q = q0 ++ new).

Lemma grown_closed log0 q0 : send_closed (grown log0 q0).
Proof.
  intros ev log q (new & -> & Hq). exists (new ++ [ev]). simpl. rewrite app_assoc. split; [done|].
  unfold ring_push. destruct (Nat.ltb_spec (length q) EVENT_BUFFER_SIZE) as [Hlt|Hge]; rewrite length_app.
  - intros _. rewrite (Hq Hlt). by rewrite app_assoc.
  - destruct q; unfold EVENT_BUFFER_SIZE in *; simpl in *; lia.
Qed.

(** A consumer that never lets 64 events wait is given every event of the audit
    log: what it saw and what waits for it are the log. *)
Lemma prompt_reader_loses_nothing (l : Link) (turns : list turn) :
  _audit_sink l = Some [] -> _events l = [] ->
  (forall n, (length (_events (rd_link (interleave (take n turns) (new_reader l)))) < EVENT_BUFFER_SIZE)%nat) ->
  let r := interleave turns (new_reader l) in
  _audit_sink (rd_link r) = Some (rd_seen r ++ _events (rd_link r)).
Proof.
  intros Ha He. induction turns as [|t turns IH] using rev_ind; intros Hn; [simpl; by rewrite Ha, He|].
  assert (Hlast := Hn (S (length turns))). rewrite take_ge in Hlast by (rewrite length_app; simpl; lia).
  assert (Hr := IH ltac:(intros n; destruct (decide (n <= length turns)) as [Hle|Hgt];
    [specialize (Hn n); rewrite take_app_le in Hn by done; exact Hn
    |specialize (Hn (length turns)); rewrite take_app_length in Hn; rewrite take_ge by lia; exact Hn])).
  simpl in Hr. unfold interleave in *. rewrite foldl_app in *. simpl in *.
  set (r := foldl take_turn (new_reader l) turns) in *. clearbody r.
  destruct (turn_moves r t) as [r r' Hs H | r r' ev Ha' He' Hs].
  - destruct (H (grown (rd_seen r ++ _events (rd_link r)) (_events (rd_link r)))) as (new & -> & Hq);
      [apply grown_closed | exists []; by rewrite !app_nil_r|].
    rewrite Hs, (Hq Hlast). by rewrite app_assoc.
  - rewrite Ha', Hr, Hs, He'. by rewrite <- app_assoc.
Qed.

(** ** Examples *)

(** A consumer that comes after 65 events is given the last 64 of them, and then
    waits; one that is cancelled is given nothing more. *)
Definition ex_reader : Reader := new_reader (new_Link ex_link_cfg "sdk1" None (Some [])).
Example late_reader_loses_the_first :
  let r := interleave (replicate 65 (TMove ex_now CONNECTED None) ++ replicate 70 (TPull Get)) ex_reader in
  match _audit_sink (rd_link r) with
  | Some (_ :: sent) => length (rd_seen r) = 64%nat /\ rd_seen r = sent /\ _events (rd_link r) = []
  | _ => False
  end.
Proof. vm_compute. split_and!; reflexivity. Qed.
Example cancelled_reader_stops :
  let r := interleave [TMove ex_now CONNECTED None; TPull Cancelled; TPull Get] ex_reader in
  rd_seen r = [] /\ length (_events (rd_link r)) = 1%nat.
Proof. vm_compute. split; reflexivity. Qed.

Lemma prompt_reader_loses_nothing_witness :
  let turns := [TStart; TMove ex_now STARTING None; TPull Get; TStop ex_now; TPull Get] in
  length (rd_seen (interleave turns ex_reader)) = 2%nat /\
  _audit_sink (rd_link (interleave turns ex_reader)) =
    Some (rd_seen (interleave turns ex_reader) ++ _events (rd_link (interleave turns ex_reader))).
Proof.
  split; [reflexivity|]. apply (prompt_reader_loses_nothing (new_Link ex_link_cfg "sdk1" None (Some []))); [done..|].
  intros n. destruct n as [|[|[|[|[|n]]]]]; simpl take; rewrite ?take_nil;
    apply Nat.ltb_lt; vm_compute; reflexivity.
Defined.
