(* ===== verification/LinkChild.v ===== *)
(** * The child processes of the RuntimeLink

    [kei/runtime_link.py], class [Link]: the attribute [_process] and what the
    supervisor does to processes.  [LinkSupervisor.v] has the state the lock
    protects; here the same loops also carry the children that were spawned,
    and the projection to that state is [LinkSupervisor.v] again
    ([supervise_projects]).  A process that is killed exits; cancellation
    arrives while the watch waits, not between a spawn and the assignment of
    its handle. *)
From Stdlib Require Import ZArith Lia Ascii String SpecFloat.
From stdpp Require Import base tactics list strings.
From S2P Require Import Prelude PyStr PyFloat Json Types PyTime LinkConfig ChildWire LinkEvents LinkSupervisor LinkSupervisorFacts.

(** [returncode is None], and whether the pipe to its standard input is open. *)
Record Child := { ch_running : bool; ch_stdin : bool }.
(** Every child spawned so far, and the index of [self._process]. *)
Record Procs := { p_children : list Child; p_process : option nat }.
Definition no_procs : Procs := {| p_children := []; p_process := None |}.

Definition pstep : Type -> Type := eff (Link * Procs) exn.
Definition on_link {A} (m : step A) : pstep A := eff_zoom fst (fun l w => (l, snd w)) m.
Definition on_procs (f : Procs -> Procs) : pstep unit := eff_modify (fun w => (fst w, f (snd w))).

(** The child [i] has exited: by itself, or killed and waited for. *)
Definition exited (i : nat) (p : Procs) : Procs :=
  {| p_children := alter (fun c => {| ch_running := false; ch_stdin := ch_stdin c |}) i (p_children p);
     p_process := p_process p |}.
Definition closed_stdin (i : nat) (p : Procs) : Procs :=
  {| p_children := alter (fun c => {| ch_running := ch_running c; ch_stdin := false |}) i (p_children p);
     p_process := p_process p |}.

(** [_spawn_child]: the handle, when the process can be created. *)
Definition _spawn_child (p : Procs) : nat * Procs :=
  (length (p_children p),
   {| p_children := p_children p ++ [{| ch_running := true; ch_stdin := true |}];
      p_process := Some (length (p_children p)) |}).

Definition running (i : nat) (p : Procs) : bool :=
  match p_children p !! i with Some c => ch_running c | None => false end.

Definition kill_child (p : Procs) : Procs :=
  match p_process p with
  | None => p
  | Some i =>
      let p := closed_stdin i p in
      let p := if running i p then exited i p else p in
      {| p_children := p_children p; p_process := None |}
  end.
Definition _kill_child : pstep unit := on_procs kill_child.

(** [_watch_child], with what it does to the process it watches. *)
Fixpoint watch_child (i : nat) (wakes : list Wake) (exit_code : Z) (w : Watch) : pstep (option Z) :=
  match wakes with
  | [] => mret None
  | k :: wakes' =>
      n ← on_link (watch_step k w);
      match n with
      | WContinue w' => watch_child i wakes' exit_code w'
      | WKilled => _ ← on_procs (exited i); mret (Some (-1)%Z)
      | WBreak => _ ← on_procs (exited i); mret (Some exit_code)
      end
  end.

(** [except Exception as exc: return exc]. *)
Definition catching_all {W A} (m : eff W exn A) (handler : A) : eff W exn A := fun w =>
  match m w with (Ok a, w') => (Ok a, w') | (Raise _, w') => (Ok handler, w') end.

Definition spawn_and_watch (life : Life) : pstep life_end :=
  _ ← on_link (_transition_locked (lf_now life) STARTING None);
  if negb (lf_spawn_ok life) then
    _ ← on_link (eff_modify (upd_reason (Some RUNTIME_UNAVAILABLE)));
    mret LError
  else
    w ← eff_get;
    let '(i, p) := _spawn_child (snd w) in
    _ ← on_procs (fun _ => p);
    _ ← on_link (_emit_lifecycle_event (lf_now life) LE_STARTED STARTING);
    r ← catching_all (Some <$> watch_child i (lf_wakes life) (lf_exit_code life) watch_start) None;
    match r with
    | None => mret LError
    | Some None => mret LRunning
    | Some (Some code) =>
        terminal ← on_link (_handle_child_exit (lf_now life) code);
        mret (if terminal : bool then LTerminal else LRestart)
    end.

Definition once (life : Life) : pstep sup_next :=
  _ ← on_link (back_off life);
  e ← spawn_and_watch life;
  match e with
  | LRestart => mret SLoop
  | LTerminal => mret SReturn
  | LRunning => mret SWatching
  | LError =>
      _ ← on_link (eff_modify (count_crash (lf_time life)));
      w ← eff_get;
      if _is_crashloop (fst w) then
        _ ← on_link (_transition_locked (lf_now life) TERMINAL (Some RUNTIME_CRASHLOOP));
        mret SReturn
      else
        _ ← on_link (_transition_locked (lf_now life) RECONNECTING None);
        mret SLoop
  end.

(** The body of [_supervise], and its [finally]: a return and an exception kill
    the child; going round again and watching do not leave the [try]. *)
Fixpoint supervise_body (lives : list Life) : pstep sup_next :=
  match lives with
  | [] => mret SLoop
  | life :: lives' =>
      n ← once life;
      match n with SLoop => supervise_body lives' | _ => mret n end
  end.
Definition supervise (lives : list Life) : pstep sup_next := fun w =>
  match supervise_body lives w with
  | (Ok SReturn, w') => (Ok SReturn, (_kill_child w').2)
  | (Ok n, w') => (Ok n, w')
  | (Raise e, w') => (Raise e, (_kill_child w').2)
  end.

(** [stop]: the state first, then the supervisor, whose [finally] runs when it
    is cancelled, and its own [_kill_child]. *)
Definition stop_link (now : Z) : pstep unit := fun w =>
  if _stopped (fst w) || negb (_started (fst w)) then (Ok tt, w)
  else (_ ← on_link (stop now); _ ← _kill_child; _kill_child) w.

(** ** The same supervisor *)

(** [m] on links is what [m'] does, processes aside. *)
Definition projects {A} (m' : pstep A) (m : step A) : Prop :=
  forall l p, exists p', m' (l, p) = ((m l).1, ((m l).2, p')).

Lemma projects_on_link {A} (m : step A) : projects (on_link m) m.
Proof. intros l p. exists p. unfold on_link, eff_zoom. simpl. by destruct (m l). Qed.
Lemma projects_ret {A} (a : A) : projects (mret a) (mret a).
Proof. intros l p. by exists p. Qed.
Lemma projects_bind {A B} (m' : pstep A) m (f' : A -> pstep B) f :
  projects m' m -> (forall a, projects (f' a) (f a)) -> projects (m' ≫= f') (m ≫= f).
Proof.
  intros Hm Hf l p. destruct (Hm l p) as (p1 & H1). unfold mbind, eff_bind. rewrite H1.
  destruct (m l) as [[a|e] l1]; [apply Hf | by exists p1].
Qed.
Lemma projects_procs {B} f (m' : pstep B) m : projects m' m -> projects (_ ← on_procs f; m') m.
Proof. intros Hm l p. apply Hm. Qed.
Lemma projects_get {B} (f' : Link * Procs -> pstep B) f :
  (forall l p, projects (f' (l, p)) (f l)) -> projects (w ← eff_get; f' w) (l ← eff_get; f l).
Proof. intros Hf l p. apply Hf. Qed.
Lemma projects_look {B} (f' : Link * Procs -> pstep B) m :
  (forall l p, projects (f' (l, p)) m) -> projects (w ← eff_get; f' w) m.
Proof. intros Hf l p. apply Hf. Qed.
Lemma projects_catching {A} (m' : pstep A) m h : projects m' m -> projects (catching_all m' h) (catching m h).
Proof.
  intros Hm l p. destruct (Hm l p) as (p1 & H1). exists p1. unfold catching_all, catching. rewrite H1.
  by destruct (m l) as [[a|e] l1].
Qed.
Lemma projects_fmap {A B} (g : A -> B) (m' : pstep A) m : projects m' m -> projects (g <$> m') (g <$> m).
Proof.
  intros Hm l p. destruct (Hm l p) as (p1 & H1). exists p1. unfold fmap, eff_fmap. rewrite H1.
  by destruct (m l) as [[a|e] l1].
Qed.

Ltac projects :=
  repeat match goal with
  | |- projects (on_link ?m) ?m => apply projects_on_link
  | |- projects (mret _) (mret _) => apply projects_ret
  | |- projects (_ ← on_procs _; _) _ => apply projects_procs
  | |- projects (_ ← eff_get; _) (_ ← eff_get; _) => apply projects_get; intros ? ?; cbn [fst snd]
  | |- projects (_ ≫= _) (_ ≫= _) => apply projects_bind; [|intros ?]
  | |- projects (catching_all _ _) (catching _ _) => apply projects_catching
  | |- projects (_ <$> _) (_ <$> _) => apply projects_fmap
  | |- projects (match ?b with _ => _ end) (match ?b with _ => _ end) => destruct b
  end.

Lemma watch_projects i wakes code w : projects (watch_child i wakes code w) (_watch_child wakes code w).
Proof. revert w. induction wakes as [|k wakes IH]; intros w; simpl; projects. apply IH. Qed.

Lemma spawn_projects life : projects (spawn_and_watch life) (_spawn_and_watch life).
Proof.
  unfold spawn_and_watch, _spawn_and_watch. apply projects_bind; [apply projects_on_link|]. intros _.
  destruct (negb _); [projects|]. apply projects_look. intros l p. simpl. projects. apply watch_projects.
Qed.

Lemma once_projects life : projects (once life) (supervise_once life).
Proof.
  unfold once, supervise_once. projects. apply spawn_projects.
Qed.

(** The state under the lock is that of [LinkSupervisor.v]. *)
Lemma supervise_projects lives : projects (supervise lives) (_supervise lives).
Proof.
  assert (H : projects (supervise_body lives) (_supervise lives)).
  { induction lives as [|life lives IH]; simpl; projects; apply once_projects || apply IH. }
  intros l p. destruct (H l p) as (p' & Hp). unfold supervise. rewrite Hp.
  destruct (_supervise lives l) as [[[]|e] l']; by eexists.
Qed.

(** ** One child at a time *)

(** What is running is the child the link holds. *)
Definition held (p : Procs) : Prop := forall i, running i p = true -> p_process p = Some i.
Definition none_running (p : Procs) : Prop := forall i, running i p = false.

Lemma running_exited i j p : running j (exited i p) = (if decide (i = j) then false else running j p).
Proof.
  unfold running, exited. cbn [p_children]. rewrite list_lookup_alter.
  destruct (decide (i = j)) as [->|]; [|done]. by destruct (p_children p !! j).
Qed.
Lemma running_closed i j p : running j (closed_stdin i p) = running j p.
Proof.
  unfold running, closed_stdin. cbn [p_children]. rewrite list_lookup_alter.
  destruct (decide (i = j)) as [->|]; [|done]. by destruct (p_children p !! j).
Qed.
Lemma running_spawn j p : running j (_spawn_child p).2 = (if decide (j = length (p_children p)) then true else running j p).
Proof.
  unfold running, _spawn_child. cbn [snd p_children]. destruct (decide _) as [->|Hne].
  - by rewrite list_lookup_middle.
  - destruct (decide (j < length (p_children p))%nat) as [H|H]; [by rewrite lookup_app_l|].
    rewrite lookup_app_r by lia. rewrite (lookup_ge_None_2 (p_children p)) by lia.
    by rewrite lookup_ge_None_2 by (simpl; lia).
Qed.

Lemma exited_none i p : held p -> p_process p = Some i -> none_running (exited i p).
Proof.
  intros Hh Hi j. rewrite running_exited. destruct (decide (i = j)); [done|].
  destruct (running j p) eqn:Hj; [|done]. apply Hh in Hj. congruence.
Qed.
Lemma none_held p : none_running p -> held p.
Proof. intros H i. by rewrite H. Qed.
Lemma spawn_held p : none_running p -> held (_spawn_child p).2.
Proof. intros H j. rewrite running_spawn, H. by destruct (decide _) as [->|]. Qed.

Lemma kill_none p : held p -> none_running (kill_child p) /\ p_process (kill_child p) = None.
Proof.
  intros Hh. unfold kill_child. destruct (p_process p) as [i|] eqn:Hp.
  - split; [|done]. intros j.
    assert (Hj : running j p = true -> i = j) by (intros Hj; apply Hh in Hj; congruence).
    change (running j (if running i (closed_stdin i p) then exited i (closed_stdin i p) else closed_stdin i p) = false).
    destruct (running i (closed_stdin i p)) eqn:Hi; rewrite ?running_exited, running_closed in *.
    + destruct (decide (i = j)); [done|]. destruct (running j p); [|done]. by destruct Hj.
    + destruct (running j p) eqn:Hr; [|done]. specialize (Hj eq_refl). congruence.
  - split; [|done]. intros j. destruct (running j p) eqn:Hj; [|done]. apply Hh in Hj. congruence.
Qed.

(** ** Emission never fails in a supervised life *)

(** What a wake brings: a clock that can be written in an event, and no line
    that drops more than [n] agents. *)
Definition wake_ok (n : Z) (k : Wake) : Prop :=
  clock_ok (w_now k) /\
  match w_line k with
  | Some (RLine data) => forall e d, parse_child_line_counted data = Ok (e, d) -> (d <= n)%Z
  | _ => True
  end.
Definition life_ok (n : Z) (life : Life) : Prop :=
  clock_ok (lf_now life) /\ Forall (wake_ok n) (lf_wakes life) /\ lf_random life <> S754_nan.

(** The counters of a link, bounded. *)
Definition good (n r : Z) (l : Link) : Prop := emit_ready l /\ (_fails l <= n)%Z /\ (_restarts l <= r)%Z.

Lemma good_le n r n' r' l : good n r l -> (n <= n')%Z -> (r <= r')%Z -> good n' r' l.
Proof. intros (H & Hn & Hr) ? ?. split_and!; [done | lia..]. Qed.

Lemma transition_good now state reason n r l : good n r l -> clock_ok now ->
  exists l', _transition_locked now state reason l = (Ok tt, l') /\ good n r l'.
Proof.
  intros (Hl & Hn & Hr) Hc. rewrite transition_ok by done. eexists. split; [done|].
  destruct (transitioned_fields now state reason l) as (_ & _ & _ & _ & _ & Hrs & Hf & _).
  split_and!; [by apply transitioned_ready | by rewrite Hf | by rewrite Hrs].
Qed.

(** The counters of a step that only sets the reason. *)
Lemma good_reason n r x l : good n r l -> good n r (upd_reason x l).
Proof. done. Qed.

(** What no update of the supervisor touches, it keeps. *)
Section Untouched.
Context (I : Link -> Prop).
Context (Hstate : forall s x l, I l -> I (upd_state s x l)) (Hsinks : forall ms a ev l, I l -> I (upd_sinks ms a ev l)).
Context (Hbeat : forall b k f i l, I l -> I (upd_beat b k f i l)) (Hid : forall i l, I l -> I (upd_identity i l)).

Lemma transition_keeps now s x : preserves I (_transition_locked now s x).
Proof.
  unfold _transition_locked. preserve; [by apply Hstate | | by apply Hsinks].
  intros l0 Hl0. unfold _emit_lifecycle_event. destruct (new_event _); [by apply Hsinks | done].
Qed.
Lemma handle_keeps now e d : preserves I (_handle_child_event now e d).
Proof.
  unfold _handle_child_event, _handle_identity, _handle_beat, _handle_terminal.
  preserve; try apply transition_keeps; auto; try (by apply Hbeat); try (by apply Hsinks); by apply Hbeat, Hid.
Qed.
Lemma watch_keeps wakes code w : preserves I (_watch_child wakes code w).
Proof.
  revert w. induction wakes as [|k wakes IH]; intros w; simpl; [preserve|].
  apply preserves_bind; [|intros []; preserve; apply IH]. unfold watch_step, timer_step.
  preserve; try apply handle_keeps; try (by apply Hstate).
  intros l0 Hl0. unfold _read_stdout. repeat case_match; try done. by apply Hbeat.
Qed.
Context (Hrestarts : forall n c l, I l -> I (upd_restarts n c l)).
Lemma once_keeps life : preserves I (supervise_once life).
Proof.
  unfold supervise_once, back_off, _spawn_and_watch, _handle_child_exit.
  preserve; try apply transition_keeps; try apply watch_keeps; try (by apply Hstate); try (by apply Hrestarts); try (by apply Hsinks).
  intros l0 Hl0. unfold _emit_lifecycle_event. destruct (new_event _); [by apply Hsinks | done].
Qed.
Lemma supervise_keeps lives : preserves I (_supervise lives).
Proof.
  induction lives as [|life lives IH]; simpl; [preserve|].
  apply preserves_bind; [apply once_keeps | intros []; preserve; apply IH].
Qed.
End Untouched.

Lemma handle_restarts now e d r : preserves (fun l => _restarts l = r) (_handle_child_event now e d).
Proof. by apply handle_keeps. Qed.

Lemma timer_good wake armed w b n r l : good n r l ->
  exists x l', timer_step wake armed w b l = (Ok x, l') /\ good n r l'.
Proof.
  intros Hl. unfold timer_step, mbind, eff_bind, eff_modify. destruct (_ && _).
  - eexists _, _. split; [reflexivity|]. by apply good_reason.
  - destruct (w_read_done wake); by eexists _, _.
Qed.

Lemma watch_step_good d n r k w l : good n r l -> wake_ok d k -> (0 <= d <= n)%Z -> (n < _MAX_SEQ)%Z ->
  exists x l', watch_step k w l = (Ok x, l') /\ good (n + 1) r l'.
Proof.
  intros Hg [Hc Hk] Hd Hn. assert (Hg1 : good (n + 1) r l) by (eapply good_le; [done | lia..]).
  unfold watch_step. destruct (w_line k) as [[data| |]|]; [| by eexists _, _ | by eexists _, _ | by apply timer_good].
  unfold mbind, eff_bind, _read_stdout. destruct (negb _); [by eexists _, _|].
  destruct (parse_child_line_counted data) as [[e dr]|x] eqn:Hp.
  - specialize (Hk e dr eq_refl). pose proof Hp as (_ & o & Ho%parse_object_ok)%parse_line_object.
    destruct Ho as (He & Hdr & _).
    assert (Hrest : exists x l', (_ ← _handle_child_event (w_now k) e dr;
        timer_step k (arm w) (rearm e (arm w)) (match e with EIdentity _ | EBeat _ => true | _ => false end)) l = (Ok x, l')
        /\ good (n + 1) r l').
    { destruct Hg as (Hl & Hf & Hr).
      destruct (handle_child_event_spec (w_now k) e dr l) as (l' & Hrun & Hl' & _ & Hf'); [done | done | |].
      { split_and!; [done | unfold count_ok; lia | lia]. }
      unfold mbind, eff_bind. rewrite Hrun. apply timer_good. split_and!; [done | lia |].
      pose proof (handle_restarts (w_now k) e dr (_restarts l) l eq_refl) as H. rewrite Hrun in H. simpl in H. by rewrite H. }
    destruct e; try exact Hrest. by eexists _, _.
  - eexists _, _. split; [reflexivity|]. destruct Hg as (Hl & Hf & Hr). split_and!; [|simpl; lia | done].
    pose proof Hl as (_ & _ & _ & _ & Hi & Hrs & Hfs). apply (emit_ready_upd l); try done.
    simpl. unfold count_ok in *. lia.
Qed.

(** ** The lives of the child *)

Lemma watch_child_good d i wakes code w n r l p : good n r l -> Forall (wake_ok d) wakes -> (0 <= d <= n)%Z ->
  (n + Z.of_nat (length wakes) <= _MAX_SEQ)%Z ->
  exists x l', watch_child i wakes code w (l, p) = (Ok x, (l', match x with None => p | Some _ => exited i p end)) /\
    good (n + Z.of_nat (length wakes)) r l'.
Proof.
  revert n w l. induction wakes as [|k wakes IH]; intros n w l Hg Hw Hd Hn; cbn [watch_child length] in *.
  { exists None, l. split; [done|]. eapply good_le; [done | lia..]. }
  apply Forall_cons in Hw as [Hk Hw]. destruct (watch_step_good d n r k w l Hg Hk Hd ltac:(lia)) as (x & l1 & Hrun & Hg1).
  unfold mbind, eff_bind, on_link at 1, eff_zoom. simpl (fst _). rewrite Hrun.
  assert (Hg2 : good (n + Z.of_nat (S (length wakes))) r l1) by (eapply good_le; [done | lia..]).
  destruct x as [w'| |]; [|by eexists (Some _), l1..].
  destruct (IH (n + 1)%Z w' l1) as (x & l' & Hx & Hl'); [done | done | lia | lia |].
  exists x, l'. split; [exact Hx|]. eapply good_le; [done | lia..].
Qed.

Lemma exit_good now code n r l : good n r l -> clock_ok now -> (r < _MAX_SEQ)%Z ->
  exists b l', _handle_child_exit now code l = (Ok b, l') /\ good n (r + 1) l'.
Proof.
  intros Hg Hc Hr. assert (Hg1 : good n (r + 1) l) by (eapply good_le; [done | lia..]).
  unfold _handle_child_exit. destruct (_exit_code_failure_class code) as [fc []].
  - destruct (transition_good now TERMINAL fc n (r + 1) l Hg1 Hc) as (l' & Hrun & Hl').
    unfold mbind, eff_bind. rewrite Hrun. by eexists _, _.
  - destruct (code =? 0)%Z; [by eexists _, _|]. eexists _, _. split; [reflexivity|].
    destruct Hg as (Hl & Hf & Hrs). split_and!; [|done | simpl; lia].
    pose proof Hl as (_ & _ & _ & _ & Hi & Hc1 & Hc2). apply (emit_ready_upd l); try done. simpl. unfold count_ok in *. lia.
Qed.

Definition wakes_of (life : Life) : Z := Z.of_nat (length (lf_wakes life)).

Lemma spawn_good d life n r l p : good n r l -> none_running p -> life_ok d life -> (0 <= d <= n)%Z ->
  (n + wakes_of life <= _MAX_SEQ)%Z -> (r < _MAX_SEQ)%Z ->
  exists e l' p', spawn_and_watch life (l, p) = (Ok e, (l', p')) /\
    good (n + wakes_of life) (match e with LRestart | LTerminal => r + 1 | _ => r end) l' /\
    match e with LRunning => held p' | _ => none_running p' end.
Proof.
  intros Hg Hp (Hc & Hw & _) Hd Hn Hr. unfold wakes_of in *.
  destruct (transition_good (lf_now life) STARTING None n r l Hg Hc) as (l1 & H1 & Hg1).
  unfold spawn_and_watch, mbind, eff_bind, on_link, eff_zoom, eff_get, on_procs, eff_modify. cbn [fst snd]. rewrite H1.
  destruct (negb (lf_spawn_ok life)).
  { eexists LError, _, p. split; [reflexivity|]. split; [|done]. apply good_reason. eapply good_le; [done | lia..]. }
  cbn [fst snd]. destruct (_spawn_child p) as [i p1] eqn:Hs. cbn [fst snd].
  assert (Hh : held p1) by (change p1 with (i, p1).2; rewrite <- Hs; by apply spawn_held).
  assert (Hi : p_process p1 = Some i) by (unfold _spawn_child in Hs; by injection Hs as <- <-).
  rewrite emit_ok by (done || apply Hg1). set (l2 := emitted _ _ _ l1).
  destruct (watch_child_good d i (lf_wakes life) (lf_exit_code life) watch_start n r l2 p1) as (x & l3 & H3 & Hg3); [done..|].
  unfold catching_all, fmap, eff_fmap. rewrite H3. destruct x as [code|]; [|by exists LRunning, l3, p1].
  destruct (exit_good (lf_now life) code _ r l3 Hg3 Hc Hr) as (b & l4 & H4 & Hg4). cbn [fst]. rewrite H4.
  exists (if b then LTerminal else LRestart), l4, (exited i p1).
  split; [by destruct b|]. destruct b; (split; [done|]; by apply exited_none).
Qed.

(** The backoff raises for settings out of range only, and touches no process. *)
Lemma back_off_good life n r l : good n r l -> clock_ok (lf_now life) -> lf_random life <> S754_nan ->
  exists x l', back_off life l = (x, l') /\ good n r l' /\
    (x = Ok tt \/ exists e, x = Raise e /\ ~ backoff_in_range (cfg_restart (cfg l))).
Proof.
  intros Hg Hc Hr. unfold back_off, mbind, eff_bind, eff_get, eff_lift.
  destruct (0 <? _restarts l)%Z; [|exists (Ok tt), l; auto].
  destruct (transition_good (lf_now life) RECONNECTING None n r l Hg Hc) as (l1 & -> & Hg1).
  eexists _, l1. split; [done|]. split; [done|].
  destruct (wait _ _ _) as [[]|e] eqn:Hw; [by left | right]. exists e. split; [done|]. intros Hb. by rewrite wait_in_range in Hw.
Qed.

(** Where a step of the supervisor leaves the processes, and when it raises. *)
Definition ends (b : Backoff) (x : res exn sup_next) (p : Procs) : Prop :=
  match x with
  | Ok SWatching => held p
  | Ok _ => none_running p
  | Raise _ => none_running p /\ ~ backoff_in_range b
  end.

Lemma once_good d life n r l p : good n r l -> none_running p -> life_ok d life -> (0 <= d <= n)%Z ->
  (n + wakes_of life <= _MAX_SEQ)%Z -> (r < _MAX_SEQ)%Z ->
  exists x l' p', once life (l, p) = (x, (l', p')) /\ good (n + wakes_of life) (r + 1) l' /\
    ends (cfg_restart (cfg l)) x p'.
Proof.
  intros Hg Hp Hlf Hd Hn Hr. pose proof Hlf as (Hc & _ & Hrnd).
  destruct (back_off_good life n r l Hg Hc Hrnd) as (x & l1 & H1 & Hg1 & Hx).
  unfold once, mbind, eff_bind, on_link, eff_zoom, eff_get, eff_modify. cbn [fst snd]. rewrite H1.
  destruct Hx as [-> | (e & -> & He)]; [|exists (Raise e), l1, p; split; [done|]; split; [|done];
    eapply good_le; [done | unfold wakes_of; lia..]].
  destruct (spawn_good d life n r l1 p) as (e & l2 & p2 & H2 & Hg2 & Hp2); [done..|]. rewrite H2.
  destruct e; [by exists (Ok SLoop), l2, p2 | by exists (Ok SReturn), l2, p2 | |].
  - cbn [fst snd]. set (l3 := count_crash (lf_time life) l2).
    assert (Hg3 : good (n + wakes_of life) (r + 1) l3).
    { destruct Hg2 as (Hl & Hf & Hrs). split_and!; [|done | simpl; lia].
      pose proof Hl as (_ & _ & _ & _ & Hi & Hc1 & Hc2). apply (emit_ready_upd l2); try done. simpl. unfold count_ok in *. lia. }
    destruct (_is_crashloop l3).
    + destruct (transition_good (lf_now life) TERMINAL (Some RUNTIME_CRASHLOOP) _ _ _ Hg3 Hc) as (l4 & H4 & Hg4).
      cbn [fst]. rewrite H4. by exists (Ok SReturn), l4, p2.
    + destruct (transition_good (lf_now life) RECONNECTING None _ _ _ Hg3 Hc) as (l4 & H4 & Hg4).
      cbn [fst]. rewrite H4. by exists (Ok SLoop), l4, p2.
  - exists (Ok SWatching), l2, p2. split; [done|]. split; [|done]. eapply good_le; [done | lia..].
Qed.

Definition all_wakes (lives : list Life) : Z := foldr (fun life n => (wakes_of life + n)%Z) 0%Z lives.

Lemma all_wakes_nonneg lives : (0 <= all_wakes lives)%Z.
Proof. induction lives; simpl; unfold wakes_of in *; lia. Qed.

Lemma supervise_good d lives n r l p : good n r l -> none_running p -> Forall (life_ok d) lives -> (0 <= d <= n)%Z ->
  (n + all_wakes lives <= _MAX_SEQ)%Z -> (r + Z.of_nat (length lives) <= _MAX_SEQ)%Z ->
  exists x l' p', supervise_body lives (l, p) = (x, (l', p')) /\
    good (n + all_wakes lives) (r + Z.of_nat (length lives)) l' /\ ends (cfg_restart (cfg l)) x p'.
Proof.
  revert n r l p. induction lives as [|life lives IH]; intros n r l p Hg Hp Hall Hd Hn Hr;
    cbn [supervise_body all_wakes foldr length] in *.
  { exists (Ok SLoop), l, p. split; [done|]. split; [|done]. eapply good_le; [done | lia..]. }
  fold (all_wakes lives) in *. apply Forall_cons in Hall as [Hl Hall]. pose proof (all_wakes_nonneg lives).
  destruct (once_good d life n r l p) as (x & l1 & p1 & H1 & Hg1 & Hp1); [done | done | done | done | lia | lia |].
  assert (Hcfg : cfg l1 = cfg l).
  { destruct (once_projects life l p) as (p2 & Hproj). rewrite H1 in Hproj. injection Hproj as _ -> _.
    by apply (once_keeps (fun l' => cfg l' = cfg l)). }
  unfold mbind, eff_bind. rewrite H1.
  assert (Hg1' : good (n + (wakes_of life + all_wakes lives)) (r + Z.of_nat (S (length lives))) l1)
    by (eapply good_le; [done | lia..]).
  destruct x as [[]|e]; [|by eexists (Ok SReturn), l1, p1|by eexists (Ok SWatching), l1, p1|by eexists (Raise e), l1, p1].
  destruct (IH (n + wakes_of life)%Z (r + 1)%Z l1 p1) as (x & l' & p' & H' & Hg' & Hp'); try done; [unfold wakes_of in *; lia.. |].
  exists x, l', p'. split; [done|]. split; [eapply good_le; [done | lia..]|]. by rewrite <- Hcfg.
Qed.

Lemma stop_ok now l : emit_ready l -> clock_ok now -> exists l', stop now l = (Ok tt, l').
Proof.
  intros Hl Hc. unfold stop. destruct (_ || _); [by exists l|]. case_bool_decide; [by eexists|].
  rewrite transition_ok by done. by eexists.
Qed.
Lemma kill_idle p : p_process p = None -> kill_child p = p.
Proof. unfold kill_child. by intros ->. Qed.

(** A new link counts nothing yet, and its restart settings are in range unless
    one of them is a NaN. *)
Lemma new_link_fields netloc_ok c sdk_id m a l : new_link netloc_ok c sdk_id m a = Ok l ->
  _fails l = 0%Z /\ _restarts l = 0%Z /\ _started l = false /\ _stopped l = false /\
  (~ backoff_in_range (cfg_restart (cfg l)) -> bo_min (cfg_restart c) = S754_nan \/ bo_max (cfg_restart c) = S754_nan).
Proof.
  unfold new_link. intros H. destruct (normalize_config netloc_ok c) as [c'|] eqn:Hn; [|done]. injection H as <-. split_and!; try done.
  assert (Hr : cfg_restart c' = cfg_restart c) by (by destruct (normalize_facts _ _ _ Hn) as [-> _]).
  intros Hno. cbn [cfg new_Link] in Hno. pose proof (normalize_restart _ _ _ Hn) as Hb. rewrite Hr in *.
  destruct (bo_min (cfg_restart c)), (bo_max (cfg_restart c)); auto; by destruct Hno; apply Hb.
Qed.

(** C10: no child process is leaked.  An enabled link with a valid instance id is
    started, supervised, and in the end stopped.  Of all the children a link ever spawns at
    most one runs at any time: the one the link holds, while its watch waits.
    None runs when the supervisor has returned or raised, and none when [stop] has
    returned, whatever the children write, however they exit and however often
    they are restarted (while the clocks can be written in an event and the
    counters are in their range).  The supervisor raises only when a bound of the
    restart delay is a NaN, which validation lets through: then the backoff before
    a restart does. *)
Theorem children_end_with_the_link (netloc_ok : string -> bool) (c : RuntimeLinkConfig) (sdk_id : string)
    (m : option (list Metric)) (a : option (list LinkEvent)) (l : Link) (n : Z) (lives : list Life) (stop_at : Z) :
  new_link netloc_ok c sdk_id m a = Ok l -> cfg_enabled c = true -> _ID_RE sdk_id = true ->
  Forall (life_ok n) lives -> (0 <= n)%Z -> (n + all_wakes lives <= _MAX_SEQ)%Z ->
  (Z.of_nat (length lives) <= _MAX_SEQ)%Z -> clock_ok stop_at ->
  exists r l' p',
    (_ ← on_link start; supervise lives) (l, no_procs) = (r, (l', p')) /\
    _supervise lives (start l).2 = (r, l') /\
    (forall i, running i p' = true -> r = Ok SWatching /\ p_process p' = Some i) /\
    (forall e, r = Raise e -> bo_min (cfg_restart c) = S754_nan \/ bo_max (cfg_restart c) = S754_nan) /\
    exists l'' p'', stop_link stop_at (l', p') = (Ok tt, (l'', p'')) /\ p_process p'' = None /\
      forall i, running i p'' = false.
Proof.
  intros Hn Hen Hid Hall H0 Hw Hlen Hc.
  pose proof (new_link_ready _ _ _ _ _ _ Hn Hen Hid) as Hready.
  destruct (new_link_fields _ _ _ _ _ _ Hn) as (Hf0 & Hr0 & Hs0 & Ht0 & Hrange).
  set (l1 := upd_flags (cfg_enabled (cfg l)) true (_stopped l) l).
  assert (Hstart : start l = (Ok tt, l1)) by (unfold start, l1; by rewrite Hs0, Ht0).
  assert (Hg : good n 0 l1) by (split; [done | simpl; lia]).
  destruct (supervise_good n lives n 0 l1 no_procs) as (x & l2 & p2 & Hrun & (Hl2 & _) & Hp2); [done.. | lia | done | lia |].
  destruct (supervise_projects lives l1 no_procs) as (p3 & Hproj).
  pose proof (supervise_keeps (fun l => _started l = true /\ _stopped l = false)
    ltac:(done) ltac:(done) ltac:(done) ltac:(done) ltac:(done) lives l1 (conj eq_refl Ht0)) as Hflags.
  assert (Hheld : held p2) by (destruct x as [[]|]; simpl in Hp2; naive_solver eauto using none_held).
  set (p' := match x with Ok SReturn | Raise _ => kill_child p2 | _ => p2 end).
  assert (Hsup : supervise lives (l1, no_procs) = (x, (l2, p'))) by (unfold supervise; rewrite Hrun; by destruct x as [[]|]).
  assert (Hp' : held p' /\ (x <> Ok SWatching -> none_running p')).
  { destruct x as [[]|]; simpl; [by split| |by split|]; (split; [apply none_held|intros _]; by apply kill_none). }
  rewrite Hsup in Hproj. injection Hproj as Hx Hl' _.
  exists x, l2, p'. split_and!.
  - unfold mbind, eff_bind, on_link, eff_zoom. cbn [fst snd]. by rewrite Hstart.
  - rewrite Hstart. cbn [snd]. rewrite (surjective_pairing (_supervise lives l1)). by rewrite <- Hx, <- Hl'.
  - intros i Hi. split; [|by apply Hp']. destruct Hp' as [_ Hnone].
    destruct x as [[]|]; [..|done|]; by rewrite Hnone in Hi.
  - intros e ->. apply Hrange. by destruct Hp2.
  - rewrite <- Hl' in Hflags. destruct Hflags as [Hst Hsp].
    unfold stop_link, mbind, eff_bind, on_link, eff_zoom. cbn [fst snd]. rewrite Hst, Hsp. cbn [orb negb].
    destruct (stop_ok stop_at l2 Hl2 Hc) as (l3 & ->). unfold _kill_child, on_procs, eff_modify. cbn [fst snd].
    destruct (kill_none p' (proj1 Hp')) as [Hnone Hnull]. rewrite (kill_idle (kill_child p')) by done.
    by exists l3, (kill_child p').
Qed.

(** An exception inside the watch (here a clock before 1970, which no lifecycle
    event can carry) leaves its child running; the next life replaces the
    handle, and nothing will ever kill the first child. *)
Definition refused_life : Life :=
  {| lf_now := ex_now; lf_random := S754_zero false; lf_spawn_ok := true;
     lf_wakes := [{| w_now := -1000000; w_line := Some (RLine identity_text); w_timer := false; w_read_done := false |}];
     lf_exit_code := 0; lf_time := ex_now |}.
Definition quiet_life : Life :=
  {| lf_now := ex_now; lf_random := S754_zero false; lf_spawn_ok := true;
     lf_wakes := [{| w_now := ex_now; w_line := Some (RLine identity_text); w_timer := false; w_read_done := false |}];
     lf_exit_code := 0; lf_time := ex_now |}.
Example refused_event_leaks_the_child :
  let '(_, (l, p)) := supervise [refused_life; quiet_life] (ex_link, no_procs) in
  (running 0 p, running 1 p, p_process p) = (true, true, Some 1%nat) /\
  (let '(_, (_, p')) := stop_link ex_now ((start l).2, p) in (running 0 p', running 1 p') = (true, false)).
Proof. vm_compute. done. Qed.

(** A mute child that is killed, one that ends with status 1, and one that is
    being watched when the link is stopped. *)
Definition ex_lives : list Life :=
  [ex_mute ex_now;
   {| lf_now := ex_now; lf_random := S754_zero false; lf_spawn_ok := true;
      lf_wakes := [{| w_now := ex_now; w_line := None; w_timer := false; w_read_done := true |}];
      lf_exit_code := 1; lf_time := ex_now |}; quiet_life].

Lemma children_end_with_the_link_witness :
  exists s l p, (_ ← on_link start; supervise ex_lives) (ex_link, no_procs) = (s, (l, p)) /\
    (s, length (p_children p), running 2 p) = (Ok SWatching, 3, true) /\
    exists l' p', stop_link ex_now (l, p) = (Ok tt, (l', p')) /\ forall i, running i p' = false.
Proof.
  destruct (children_end_with_the_link (fun _ => true) ex_link_cfg "sdk1" (Some []) (Some []) ex_link 1 ex_lives ex_now)
    as (s & l & p & Hrun & _ & _ & _ & l' & p' & Hstop & _ & Hnone).
  - exact ex_link_new.
  - vm_compute. reflexivity.
  - vm_compute. reflexivity.
  - assert (Hok : clock_ok ex_now) by apply (ex_now_ok 0 ltac:(set_solver)).
    assert (Hlife : forall w, wake_ok 1 w -> Forall (wake_ok 1) [w]) by (intros w Hw; by constructor).
    repeat (apply Forall_cons_2; [split; [exact Hok|]; split; [|discriminate]; apply Hlife; split; [exact Hok|]; try exact I|]); [|by constructor].
    intros e d H. vm_compute in H. injection H as _ <-. discriminate.
  - lia.
  - vm_compute. discriminate.
  - vm_compute. discriminate.
  - apply (ex_now_ok 0). set_solver.
  - exists s, l, p. split; [exact Hrun|]. split; [|exists l', p'; split; [exact Hstop | exact Hnone]].
    vm_compute in Hrun. injection Hrun as <- <- <-. reflexivity.
Defined.
