(* ===== verification/LiveCapture.v ===== *)
(** * Live captures and the cross-language drift check

    [scripts/live-captures/capture.py]: the requests sent to the live models and
    the fixture candidates made of their answers (Module [Capture]), and the
    comparison, which puts the candidates next to the shared fixtures, runs the
    fixture tests of every language and takes them away again (Module [Compare]).

    Parameters: [urlopen], one POST; [exec], a language's tests, which read the
    fixtures and write outside both directories; [fill], Go's filling of the candidates; the clock.
    The fixtures and the captures are two directories that do not hold each
    other, dictionaries from relative paths to texts. *)
From Stdlib Require Import ZArith Lia Ascii String SpecFloat.
From stdpp Require Import base tactics list strings.
From S2P Require Import Prelude PyStr PyFloat Json JsonFacts Types EvalCase EvalProfiles EvalModels.

Definition FAMILIES : list string := ["toolformat"; "reasoning"].
Definition CaptureError (message : string) : exn := Exn (UserError "CaptureError") message.

(** [v or w]. *)
Definition or_else (v w : json) : json := if py_truthy v then v else w.

(** A directory, and [write_json] in it: a text with a lone surrogate cannot be
    written. *)
Definition write_json {W} (write : string -> string -> W -> W) (path : string) (value : json) : eff W exn unit :=
  let text := String.append (json_dumps (indented_raw 2) value) nl in
  if utf8_ok text then eff_modify (write path text)
  else eff_raise (Exn (UserError "UnicodeEncodeError") "surrogates not allowed").

Module Capture.

Definition load_tools (document : json) : res exn (list json) :=
  tools ← any_item document "tools";
  l ← py_iter tools;
  res_map (fun t =>
    name ← any_item t "name"; description ← any_item t "description"; parameters ← any_item t "input_schema";
    Ok (JObj [("type", JStr "function");
              ("function", JObj [("name", name); ("description", description); ("parameters", parameters)])])) l.

Definition build_request (profile : ModelProfile) (prompt : json) (tools : list json) (max_tokens : json) : res exn jdict :=
  messages ← any_item prompt "messages";
  wants ← any_get prompt "tools" JNull;
  Ok ([("model", JStr (p_model profile)); ("messages", messages); ("temperature", JFloat (p_temperature profile));
       ("max_tokens", max_tokens)]
      ++ opt_field "seed" (p_seed profile) JInt ++ opt_field "top_p" (p_top_p profile) JFloat
      ++ opt_field "top_k" (p_top_k profile) JInt ++ opt_field "chat_template_kwargs" (p_thinking profile) thinking_template_kwargs
      ++ (if py_truthy wants then [("tools", JArr tools)] else [])).

Definition message_of (response : json) : res exn jdict :=
  choices ← any_get response "choices" JNull;
  choice ← any_first (or_else choices (JArr [JObj []]));
  Ok match choice with JObj d => match jget d "message" with JObj m => m | _ => [] end | _ => [] end.

(** [{id, name, arguments}] of a call. *)
Definition flat_call (call : json) : res exn json :=
  fn ← any_get call "function" JNull;
  name ← any_get (or_else fn (JObj [])) "name" JNull;
  arguments ← any_get (or_else fn (JObj [])) "arguments" JNull;
  id ← any_get call "id" JNull;
  Ok (JObj ((if py_truthy id then [("id", id)] else []) ++ [("name", name); ("arguments", arguments)])).

Record case := { k_section : string; k_name : json; k_input : string }.
Definition content_name (prompt_id : json) : json := JStr (String.append (py_str prompt_id) " (content)").

Definition toolformat_cases (prompt_id : json) (message : jdict) : res exn (list case * list case) :=
  let calls := or_else (jget message "tool_calls") (JArr []) in
  of_calls ← (if py_truthy calls then
                l ← py_iter calls;
                flat ← res_map flat_call l;
                let payload := json_dumps (Style None "," ":" false) (JArr flat) in
                Ok [{| k_section := "parse_calls"; k_name := prompt_id; k_input := payload |};
                    {| k_section := "validate_format"; k_name := prompt_id; k_input := payload |}]
              else Ok []);
  let '(of_content, text) :=
    match jget message "content" with
    | JStr content =>
        let at_ section := {| k_section := section; k_name := content_name prompt_id; k_input := content |} in
        if py_truthy_str (py_strip content)
        then ([at_ "validate_format"], if py_in "<tool_call>" content then [at_ "parse_calls"; at_ "validate_format"] else [])
        else ([], [])
    | _ => ([], [])
    end in
  Ok (of_calls ++ of_content, text).

(** The cases of one section; only the two sections above are ever filled. *)
Definition in_section (cases : list case) (section : string) : json :=
  JArr (map (fun k => JObj [("name", k_name k); ("input", JStr (k_input k))])
          (List.filter (fun k => String.eqb (k_section k) section) cases)).
Definition toolformat_fixture (family : json) (description : string) (source : json) (cases : list case) : json :=
  JObj ([("family", family); ("description", JStr description); ("source", source)]
        ++ map (fun section => (section, in_section cases section)) ["format_definitions"; "parse_calls"; "format_result"; "validate_format"]).

Section Capture.
Context {W : Type}.
(** What [urlopen] raises: one of the exceptions that are caught, by its class,
    or another. *)
Inductive urlopen_exn := Unreachable (cls : string) | OtherExn (e : exn).
Context (urlopen : string -> jdict -> W -> res urlopen_exn string * W) (elapsed_ms : W -> W -> Z) (now : W -> string)
  (response_json : string -> option json).

(** The world, the files under [--out], and what was printed. *)
Record t := { world : W; out : dict string; printed : list string }.
Abbreviation cap := (eff t exn).

Definition write (path text : string) (s : t) : t := {| world := world s; out := dset (out s) path text; printed := printed s |}.

Definition failed (payload : jdict) (cls : string) : exn :=
  CaptureError (str_join [py_str (jget payload "model"); ": chat/completions failed: "; cls]).
Definition post (base_url : string) (payload : jdict) : cap json := fun s =>
  let '(r, w) := urlopen (String.append base_url "/chat/completions") payload (world s) in
  let s' := {| world := w; out := out s; printed := printed s |} in
  match r with
  | Ok body => match response_json body with Some v => (Ok v, s') | None => (Raise (failed payload "JSONDecodeError"), s') end
  | Raise (Unreachable cls) => (Raise (failed payload cls), s')
  | Raise (OtherExn e) => (Raise e, s')
  end.

Definition opt_json {A} (f : A -> json) (o : option A) : json := match o with Some x => f x | None => JNull end.
Definition source_of (name : string) (profile : ModelProfile) (captured_at : string) : json :=
  JObj [("profile", JStr name); ("model", JStr (p_model profile)); ("backend", JStr (backend_value (p_backend profile)));
        ("captured_at", JStr captured_at); ("temperature", JFloat (p_temperature profile)); ("top_p", opt_json JFloat (p_top_p profile));
        ("top_k", opt_json JInt (p_top_k profile)); ("seed", opt_json JInt (p_seed profile)); ("thinking", opt_json JBool (p_thinking profile))].

Record collected := { c_structured : list case; c_text : list case; c_examples : list json }.

Fixpoint ask_all (name url : string) (source : json) (profile : ModelProfile) (tools : list json) (max_tokens : json) (prompts : list json)
    (c : collected) : cap collected :=
  match prompts with
  | [] => mret c
  | prompt :: prompts' =>
      payload ← eff_lift (build_request profile prompt tools max_tokens);
      before ← eff_get;
      response ← post url payload;
      after ← eff_get;
      id ← eff_lift (any_item prompt "id");
      _ ← write_json write (str_join ["raw/"; name; "/"; py_str id; ".json"])
            (JObj [("source", source); ("prompt", id); ("elapsed_ms", JInt (elapsed_ms (world before) (world after)));
                   ("request", JObj payload); ("response", response)]);
      message ← eff_lift (message_of response);
      cases ← eff_lift (toolformat_cases id message);
      ask_all name url source profile tools max_tokens prompts'
        {| c_structured := c_structured c ++ fst cases; c_text := c_text c ++ snd cases;
           c_examples := c_examples c ++ [JObj [("name", id); ("raw_response", response)]] |}
  end.

Definition candidate (family name suffix : string) : string := str_join ["candidates/"; family; "/live-"; name; suffix].

(** The counts of prompts and of cases. *)
Definition capture_profile (name : string) (profile : ModelProfile) (settings prompts : json) (tools : list json) (environ : dict string)
  : cap (nat * nat) :=
  url ← eff_lift (base_url profile environ);
  s ← eff_get;
  let captured_at := now (world s) in
  let source := source_of name profile captured_at in
  listed ← eff_lift (l ← any_item prompts "prompts"; py_iter l);
  max_tokens ← eff_lift (any_get prompts "max_tokens" (JInt 2048));
  c ← ask_all name url source profile tools max_tokens listed {| c_structured := []; c_text := []; c_examples := [] |};
  let description := str_join ["Live capture from "; p_model profile; " ("; backend_value (p_backend profile); ", profile "; name; ") at ";
                               captured_at; ". Candidate only: expected values come from Go."] in
  family ← eff_lift (any_get settings "toolformat_family" (JStr "openai"));
  _ ← (match c_structured c with
       | [] => mret tt
       | cases => write_json write (candidate "toolformat" name "-cases.json") (toolformat_fixture family description source cases)
       end);
  text_family ← eff_lift (any_get settings "text_toolformat_family" JNull);
  _ ← (match c_text c with
       | [] => mret tt
       | cases =>
           if py_truthy text_family
           then write_json write (candidate "toolformat" name "-text-cases.json") (toolformat_fixture text_family description source cases)
           else mret tt
       end);
  reasoning ← eff_lift (any_get settings "reasoning_family" (JStr name));
  _ ← write_json write (candidate "reasoning" name "-cases.json")
        (JObj [("family", reasoning); ("description", JStr description); ("source", source); ("examples", JArr (c_examples c))]);
  mret (length (c_examples c), (length (c_structured c) + length (c_text c))%nat).

(** [except (ProfileError, CaptureError)]. *)
Definition ends_capture (e : exn) : bool :=
  bool_decide (exn_cls e = UserError "ProfileError") || bool_decide (exn_cls e = UserError "CaptureError").
Definition say (line : string) (s : t) : t := {| world := world s; out := out s; printed := printed s ++ [line] |}.

Fixpoint capture_all (profiles : dict ModelProfile) (prompts : json) (tools : list json) (environ : dict string) (names : list string)
    (results : list (string * (nat * nat))) : cap (Z + list (string * (nat * nat))) :=
  match names with
  | [] => mret (inr results)
  | name :: names' =>
      all ← eff_lift (any_get prompts "profiles" (JObj []));
      settings ← eff_lift (any_get all name (JObj []));
      profile ← eff_lift (of_option (Exn KeyError name) (dget profiles name));
      (fun s => match capture_profile name profile settings prompts tools environ s with
               | (Ok counts, s') => capture_all profiles prompts tools environ names' (results ++ [(name, counts)]) s'
               | (Raise e, s') => if ends_capture e then (Ok (inl 2%Z), say (str_join ["error: "; name; ": "; exn_msg e]) s') else (Raise e, s')
               end) : cap (Z + list (string * (nat * nat)))
  end.

(** [loaded]: what [load_profiles] returns or raises. *)
Definition cmd_capture (prompts tools_document : json) (loaded : res exn (dict ModelProfile)) (chosen : list string) (environ : dict string)
  : cap Z :=
  tools ← eff_lift (load_tools tools_document);
  match loaded with
  | Raise e => if bool_decide (exn_cls e = UserError "ProfileError") then _ ← eff_modify (say (String.append "error: " (exn_msg e))); mret 1%Z
               else eff_raise e
  | Ok profiles =>
      let names := match chosen with [] => py_sorted (dkeys profiles) | _ => chosen end in
      match List.filter (fun n => negb (str_in n (dkeys profiles))) names with
      | _ :: _ as unknown =>
          _ ← eff_modify (say (str_join ["error: unknown profile(s) "; repr_strs unknown; "; known: "; repr_strs (py_sorted (dkeys profiles))]));
          mret 1%Z
      | [] =>
          r ← capture_all profiles prompts tools environ names [];
          match r with
          | inl code => mret code
          | inr results =>
              _ ← eff_modify (fun s => foldl (fun s '(name, (n, k)) =>
                    say (str_join [name; ": "; int_str (Z.of_nat n); " prompt(s), "; int_str (Z.of_nat k); " toolformat case(s)"]) s) s results);
              mret 0%Z
          end
      end
  end.
End Capture.
End Capture.

(** ** Comparing *)

Module Compare.

(** The working directory and the command of a language's fixture tests. *)
Definition LANGUAGES : dict (string * list string) :=
  [("go", ("go", ["go"; "test"; "-count=1"; "-run"; "^(TestToolformatFixtures|TestReasoningFixtures)$"; "./toolformat/"; "./reasoning/"]));
   ("python", ("python", ["uv"; "run"; "--extra"; "dev"; "pytest"; "-q"; "tests/toolformat_fixtures_test.py"; "tests/reasoning_fixtures_test.py"]));
   ("typescript", ("typescript", ["node"; "--experimental-vm-modules"; "node_modules/jest/bin/jest.js"; "toolformat-reasoning-fixtures"]));
   ("rust", (".", ["cargo"; "test"; "--manifest-path"; "rust/Cargo.toml"; "-p"; "agentware-kei"; "--test"; "toolformat_fixtures"; "--test";
                   "reasoning_fixtures"]))].

(** The fixtures, the captures, and what was printed. *)
Record t := { fixtures : dict string; captures : dict string; printed : list string }.
Abbreviation cmp := (eff t exn).
Definition set_fixtures (f : dict string) (s : t) : t := {| fixtures := f; captures := captures s; printed := printed s |}.
Definition write (path text : string) (s : t) : t :=
  {| fixtures := fixtures s; captures := dset (captures s) path text; printed := printed s |}.
Definition say (line : string) (s : t) : t := {| fixtures := fixtures s; captures := captures s; printed := printed s ++ [line] |}.

(** A file of [candidates/<family>], as [(family, name)], and its paths. *)
Abbreviation candidate := (string * string)%type.
Definition src (c : candidate) : string := str_join ["candidates/"; fst c; "/"; snd c].
Definition dest (c : candidate) : string := str_join [fst c; "/"; snd c].

(** What [glob] matches in a family's directory, by their paths. *)
Definition in_family (family path : string) : option candidate :=
  let dir := str_join ["candidates/"; family; "/"] in
  let name := str_drop (String.length dir) path in
  if String.prefix dir path && negb (py_in "/" name) && py_endswith "-cases.json" name then Some (family, name) else None.
Definition candidate_files (files : dict string) : list candidate :=
  sort_by (fun a b => String.leb (src a) (src b)) (concat (map (fun family => omap (in_family family) (dkeys files)) FAMILIES)).

Section Compare.
(** What starting a program raises: that it is not found, or another exception. *)
Inductive run_exn := NotFound (text : string) | OtherRun (e : exn).
(** [exec cwd cmd fixtures]: the exit code of a language's tests and what they
    print; [fill]: the same of Go's filling of the captures, and the captures
    after it; [copy_error]: what [copyfile] raises for a destination, and what it
    leaves there. *)
Context (exec : string -> list string -> dict string -> res run_exn (Z * string))
  (fill : dict string -> res run_exn (Z * string) * dict string)
  (copy_error : string -> option (exn * option string)).

Definition header (cwd : string) (cmd : list string) : string := str_join ["$ (cd "; cwd; " && "; String.concat " " cmd; ")"; nl].
(** [run]: the log, and the exit code. *)
Definition finished (log cwd : string) (cmd : list string) (r : res run_exn (Z * string)) : cmp Z :=
  let wrote text := eff_modify (write (str_join ["logs/"; log; ".log"]) (String.append (header cwd cmd) text)) in
  match r with
  | Ok (code, text) => _ ← wrote text; mret code
  | Raise (NotFound text) => _ ← wrote (String.append text nl); mret 127%Z
  | Raise (OtherRun e) => _ ← wrote ""; eff_raise e
  end.
Definition run (cwd : string) (cmd : list string) (lang : string) : cmp Z :=
  s ← eff_get; finished lang cwd cmd (exec cwd cmd (fixtures s)).
Definition fill_command : list string := ["go"; "test"; "-count=1"; "-v"; "-run"; "^TestFillLiveCaptures$"; "./toolformat/"; "./reasoning/"].
Definition fill_from_go : cmp Z := fun s =>
  let '(r, c) := fill (captures s) in
  finished "go-fill" "go" fill_command r {| fixtures := fixtures s; captures := c; printed := printed s |}.

Definition unlink (path : string) (s : t) : t := set_fixtures (ddel (fixtures s) path) s.
Definition unstage (staged : list string) (s : t) : t := foldl (fun s path => unlink path s) s staged.

Definition read_text (path : string) : cmp string := fun s =>
  (of_option (Exn OSError (String.append "No such file or directory: " path)) (dget (captures s) path), s).

Definition copyfile (c : candidate) : cmp unit :=
  text ← read_text (src c);
  match copy_error (dest c) with
  | None => eff_modify (fun s => set_fixtures (dset (fixtures s) (dest c) text) s)
  | Some (e, left_) =>
      _ ← eff_modify (fun s => match left_ with Some part => set_fixtures (dset (fixtures s) (dest c) part) s | None => s end);
      eff_raise e
  end.

Fixpoint stage_from (staged : list string) (files : list candidate) : cmp (list string) :=
  match files with
  | [] => mret staged
  | c :: files' => fun s =>
      let attempt :=
        (s0 ← eff_get;
         _ ← (match dget (fixtures s0) (dest c) with
              | Some _ => eff_raise (Exn (UserError "FileExistsError") (String.append (dest c) " already exists; remove it or rename the capture"))
              | None => mret tt
              end);
         copyfile c) in
      match attempt s with
      | (Ok _, s') => stage_from (staged ++ [dest c]) files' s'
      | (Raise e, s') => (Raise e, unstage staged s')
      end
  end.
Definition stage (files : list candidate) : cmp (list string) := stage_from [] files.

(** ** The report *)

Record row := { r_file : string; r_cases : Z; r_rejected : Z }.
Record report := { candidates : list row; languages : dict string }.
Definition drift (r : report) : bool := existsb (fun v => negb (String.eqb v "pass")) (dvals (languages r)).

(** [len(fx.get(key) or [])]. *)
Definition count_of (fx : json) (key : string) : res exn Z := v ← any_get fx key JNull; any_length (or_else v (JArr [])).
Definition row_of (c : candidate) : cmp row :=
  text ← read_text (src c);
  eff_lift (fx ← of_option (Exn JSONDecodeError text) (json_loads text);
            counts ← res_map (count_of fx) (if String.eqb (fst c) "reasoning" then ["examples"] else ["parse_calls"; "validate_format"]);
            rejected ← count_of fx "go_rejected";
            Ok {| r_file := dest c; r_cases := foldr Z.add 0%Z counts; r_rejected := rejected |}).
Fixpoint rows_of (files : list candidate) : cmp (list row) :=
  match files with
  | [] => mret []
  | c :: files' => r ← row_of c; l ← rows_of files'; mret (r :: l)
  end.

Definition result_of (code : Z) : string := if (code =? 0)%Z then "pass" else str_join ["fail (exit "; int_str code; ")"].
Fixpoint run_languages (langs : list string) (results : dict string) : cmp (dict string) :=
  match langs with
  | [] => mret results
  | lang :: langs' =>
      '(cwd, cmd) ← eff_lift (of_option (Exn KeyError lang) (dget LANGUAGES lang));
      code ← run cwd cmd lang;
      _ ← eff_modify (say (str_join [lang; ": "; result_of code]));
      run_languages langs' (dset results lang (result_of code))
  end.

Definition summarize (r : report) : string :=
  String.concat nl
    (["## Live model captures: cross-language drift"; ""; "| Candidate fixture | Cases | Rejected by Go |"; "| --- | --- | --- |"]
     ++ map (fun c => str_join ["| `"; r_file c; "` | "; int_str (r_cases c); " | "; int_str (r_rejected c); " |"]) (candidates r)
     ++ [""; "| Language | Result |"; "| --- | --- |"]
     ++ map (fun '(lang, result) =>
          str_join ["| "; lang; " | ";
                    if String.eqb result "pass" then "agrees with Go" else str_join ["**"; result; "** (see `logs/"; lang; ".log`)"]; " |"])
          (languages r)
     ++ [""; str_join ["**"; if drift r then "DRIFT" else "No drift"; "**"]; ""]).
Definition report_json (r : report) : json :=
  JObj [("candidates", JArr (map (fun c => JObj [("file", JStr (r_file c)); ("cases", JInt (r_cases c)); ("go_rejected", JInt (r_rejected c))])
                               (candidates r)));
        ("languages", JObj (map (fun kv => (fst kv, JStr (snd kv))) (languages r))); ("drift", JBool (drift r))].

(** [try: body finally: unstage(staged)]. *)
Definition with_staged {A} (staged : list string) (body : cmp A) : cmp A := fun s =>
  let '(r, s') := body s in (r, unstage staged s').

Definition cmd_compare (langs : list string) : cmp Z :=
  s ← eff_get;
  match candidate_files (captures s) with
  | [] => _ ← eff_modify (say "error: no candidate fixtures"); mret 1%Z
  | files =>
      filled ← fill_from_go;
      if negb (filled =? 0)%Z then _ ← eff_modify (say "error: Go could not fill the candidates"); mret 1%Z
      else
        rows ← rows_of files;
        staged ← stage files;
        results ← with_staged staged (run_languages langs []);
        let r := {| candidates := rows; languages := results |} in
        _ ← write_json write "report.json" (report_json r);
        _ ← eff_modify (fun s => say (summarize r) (write "summary.md" (summarize r) s));
        mret (if drift r then 1%Z else 0%Z)
  end.
End Compare.
End Compare.
