(* ===== verification/LiveCaptureFacts.v ===== *)
(** * The comparison leaves the fixtures as it found them

    What [cmd_compare] does to the fixtures on every path, and what its exit
    code says; and that what a capture writes and reports does not depend on the
    address it was taken from. *)
From Stdlib Require Import ZArith Lia Ascii String SpecFloat.
From stdpp Require Import base tactics list strings.
From S2P Require Import Prelude PyStr PyFloat Json JsonFacts Types EvalProfiles EvalModels ToolFormat LiveCapture.

(** ** Operations that do not touch the fixtures *)

Section Compare.
Import Compare.
Context (exec : string -> list string -> dict string -> res run_exn (Z * string))
  (fill : dict string -> res run_exn (Z * string) * dict string)
  (copy_error : string -> option (exn * option string)).

Definition keeps {A} (m : eff t exn A) : Prop := forall s, fixtures (m s).2 = fixtures s.

Lemma keeps_ret {A} (a : A) : keeps (mret a). Proof. done. Qed.
Lemma keeps_raise {A} e : keeps (@eff_raise _ _ A e). Proof. done. Qed.
Lemma keeps_get : keeps eff_get. Proof. done. Qed.
Lemma keeps_lift {A} (r : res exn A) : keeps (eff_lift r). Proof. done. Qed.
Lemma keeps_modify f : (forall s, fixtures (f s) = fixtures s) -> keeps (eff_modify f). Proof. intros H s. apply H. Qed.
Lemma keeps_bind {A B} (m : eff t exn A) (f : A -> eff t exn B) : keeps m -> (forall a, keeps (f a)) -> keeps (m ≫= f).
Proof.
  intros Hm Hf s. unfold mbind, eff_bind. specialize (Hm s). destruct (m s) as [[a|e] s1]; [|done]. cbn in Hm. by rewrite Hf.
Qed.
Create HintDb keeps.
#[local] Hint Resolve keeps_ret keeps_raise keeps_get keeps_lift keeps_modify keeps_bind : keeps.

Lemma keeps_write_json path v : keeps (write_json write path v).
Proof. unfold write_json. destruct (utf8_ok _); auto with keeps. Qed.
Lemma keeps_finished log cwd cmd r : keeps (finished log cwd cmd r).
Proof. unfold finished. destruct r as [[code text]|[text|e]]; auto 6 with keeps. Qed.
Lemma keeps_run cwd cmd lang : keeps (run exec cwd cmd lang).
Proof. unfold run. auto using keeps_finished with keeps. Qed.
Lemma keeps_fill : keeps (fill_from_go fill).
Proof. intros s. unfold fill_from_go. destruct (fill (captures s)) as [r c]. by rewrite keeps_finished. Qed.
Lemma keeps_rows files : keeps (rows_of files).
Proof.
  induction files as [|c files IH]; cbn [rows_of]; [auto with keeps|]. apply keeps_bind; [|auto with keeps].
  unfold row_of. apply keeps_bind; [by intros s | auto with keeps].
Qed.
Lemma keeps_languages langs results : keeps (run_languages exec langs results).
Proof.
  revert results. induction langs as [|lang langs IH]; intros results; cbn [run_languages]; [auto with keeps|].
  apply keeps_bind; [auto with keeps | intros [cwd cmd]]. apply keeps_bind; [apply keeps_run | auto with keeps].
Qed.

(** ** Staging *)

Lemma ddel_mid (d : dict string) k v rest : k ∉ dkeys d -> ddel (d ++ (k, v) :: rest) k = d ++ rest.
Proof.
  induction d as [|[k' v'] d IH]; intros Hk; cbn [app ddel]; [by rewrite String.eqb_refl|].
  cbn in Hk. apply not_elem_of_cons in Hk as [Hne Hk]. destruct (String.eqb_spec k k') as [->|_]; [done|]. by rewrite IH.
Qed.
Lemma unstage_fixtures staged s : fixtures (unstage staged s) = foldl ddel (fixtures s) staged.
Proof. unfold unstage. revert s. induction staged as [|p staged IH]; intros s; [done|]. cbn [foldl]. by rewrite IH. Qed.
Lemma unstaged (f0 added : dict string) : (forall k, k ∈ dkeys added -> k ∉ dkeys f0) -> foldl ddel (f0 ++ added) (dkeys added) = f0.
Proof.
  revert f0. induction added as [|[k v] added IH]; intros f0 Hf; cbn [dkeys map foldl]; [by rewrite app_nil_r|].
  rewrite ddel_mid by (apply Hf; by left). apply IH. intros k' Hk'. apply Hf. by right.
Qed.

(** Files added to the fixtures: their paths are new, and their texts are those
    of the candidates. *)
Definition staged_of (caps : dict string) (files : list candidate) (added : dict string) : Prop :=
  Forall2 (fun c kv => kv.1 = dest c /\ dget caps (src c) = Some kv.2) files added.

Lemma staged_unique caps files a a' : staged_of caps files a -> staged_of caps files a' -> a = a'.
Proof.
  unfold staged_of. intros H. revert a'. induction H as [|c [k v] files a [Hk Hv] _ IH]; intros a' H'; inversion H' as [|? [k' v'] ? b [Hk' Hv'] Hb]; subst; [done|].
  cbn in *. rewrite (IH b Hb). congruence.
Qed.

Lemma stage_spec (Hcopy : forall p e left_, copy_error p = Some (e, left_) -> left_ = None) f0 added files s :
  fixtures s = f0 ++ added -> (forall k, k ∈ dkeys added -> k ∉ dkeys f0) ->
  match stage_from copy_error (dkeys added) files s with
  | (Ok staged, s') => exists more, fixtures s' = f0 ++ added ++ more /\ staged = dkeys (added ++ more) /\
      (forall k, k ∈ dkeys (added ++ more) -> k ∉ dkeys f0) /\ staged_of (captures s) files more /\ captures s' = captures s
  | (Raise _, s') => fixtures s' = f0
  end.
Proof.
  revert added s. induction files as [|c files IH]; intros added s Hs Hnew; cbn [stage_from].
  { exists []. rewrite !app_nil_r. split_and!; done || constructor. }
  assert (Hback : fixtures (unstage (dkeys added) s) = f0) by (rewrite unstage_fixtures, Hs; by apply unstaged).
  unfold mbind at 1 2, eff_bind at 1 2, eff_get. destruct (dget (fixtures s) (dest c)) eqn:Hd; [exact Hback|].
  unfold mret, eff_ret, copyfile, read_text. unfold mbind at 1, eff_bind at 1.
  destruct (dget (captures s) (src c)) as [text|] eqn:Ht; cbn [of_option]; [|exact Hback].
  destruct (copy_error (dest c)) as [[e left_]|] eqn:Hc.
  - apply Hcopy in Hc as ->. exact Hback.
  - unfold eff_modify. apply dget_None in Hd. pose proof (dset_fresh (fixtures s) (dest c) text Hd) as Hset.
    pose (s1 := set_fixtures (dset (fixtures s) (dest c) text) s).
    assert (Hs1 : fixtures s1 = f0 ++ added ++ [(dest c, text)]) by (unfold s1; cbn [fixtures set_fixtures]; rewrite Hset, Hs; by rewrite <- (assoc_L (++))).
    rewrite Hs in Hd. unfold dkeys in Hd. rewrite map_app in Hd. 
    assert (Hnew1 : forall k, k ∈ dkeys (added ++ [(dest c, text)]) -> k ∉ dkeys f0).
    { intros k. unfold dkeys. rewrite map_app. intros [Hk|Hk]%elem_of_app; [by apply Hnew|].
      apply list_elem_of_singleton in Hk as ->. intros Hk. apply Hd, elem_of_app. by left. }
    specialize (IH (added ++ [(dest c, text)]) s1 Hs1 Hnew1). unfold dkeys at 1 in IH. rewrite map_app in IH.
    change (match stage_from copy_error (map fst added ++ [dest c]) files s1 with
      | (Ok staged, s') => exists more, fixtures s' = f0 ++ added ++ more /\ staged = dkeys (added ++ more) /\
          (forall k, k ∈ dkeys (added ++ more) -> k ∉ dkeys f0) /\ staged_of (captures s) (c :: files) more /\ captures s' = captures s
      | (Raise _, s') => fixtures s' = f0
      end).
    cbn [map fst] in IH. destruct (stage_from _ _ files s1) as [[staged|e] s']; [|exact IH].
    destruct IH as (more & Hf & -> & Hk & Hst & Hcap). exists ((dest c, text) :: more).
    rewrite <- (assoc_L (++) added) in Hf, Hk |- *. cbn [app] in *. split_and!; [exact Hf | done | exact Hk | | exact Hcap].
    constructor; [done | exact Hst].
Qed.

(** ** The languages *)

(** The exit code of a language's tests over given fixtures. *)
Definition verdict (fx : dict string) (lang : string) : option Z :=
  match dget LANGUAGES lang with
  | Some (cwd, cmd) =>
      match exec cwd cmd fx with Ok (code, _) => Some code | Raise (NotFound _) => Some 127%Z | Raise (OtherRun _) => None end
  | None => None
  end.

Lemma result_pass code : result_of code = "pass" <-> code = 0%Z.
Proof. unfold result_of. destruct (Z.eqb_spec code 0); split; done. Qed.

Lemma run_verdict cwd cmd lang s code s' : dget LANGUAGES lang = Some (cwd, cmd) -> run exec cwd cmd lang s = (Ok code, s') ->
  verdict (fixtures s) lang = Some code /\ fixtures s' = fixtures s.
Proof.
  intros Hl Hr. pose proof (keeps_run cwd cmd lang s) as Hk. rewrite Hr in Hk. split; [|exact Hk].
  unfold verdict. rewrite Hl. unfold run, finished, mbind, eff_bind, eff_get, eff_modify, eff_raise, mret, eff_ret in Hr.
  destruct (exec cwd cmd (fixtures s)) as [[c text]|[text|e]]; by simplify_eq.
Qed.

Lemma languages_spec langs results s res' s' : run_languages exec langs results s = (Ok res', s') -> dict_ok results ->
  dict_ok res' /\ (forall k, k ∈ langs -> exists code, verdict (fixtures s) k = Some code) /\
  forall k, dget res' k = if str_in k langs then result_of <$> verdict (fixtures s) k else dget results k.
Proof.
  revert results s. induction langs as [|lang langs IH]; intros results s H Hok; cbn [run_languages] in H.
  { injection H as <- <-. split_and!; [done | set_solver | done]. }
  unfold mbind at 1, eff_bind at 1, eff_lift in H. destruct (dget LANGUAGES lang) as [[cwd cmd]|] eqn:Hl; cbn [of_option] in H; [|done].
  unfold mbind at 1, eff_bind at 1 in H. destruct (run exec cwd cmd lang s) as [[code|e] s1] eqn:Hr; [|done].
  apply run_verdict in Hr as [Hv Hf]; [|done]. unfold mbind, eff_bind, eff_modify in H.
  apply IH in H as (Hok' & Hall & Hget); [|by apply dict_ok_dset]. cbn [fixtures say] in Hall, Hget. rewrite Hf in Hall, Hget.
  split_and!; [done | |].
  - intros k [->|Hk]%elem_of_cons; eauto.
  - intros k. rewrite Hget, dget_dset. change (str_in k (lang :: langs)) with (String.eqb k lang || str_in k langs).
    destruct (String.eqb_spec k lang) as [->|]; cbn [orb]; [|done]. rewrite Hv. by destruct (str_in lang langs).
Qed.

Lemma dict_ok_get (d : dict string) k v : dict_ok d -> (k, v) ∈ d -> dget d k = Some v.
Proof.
  unfold dict_ok. induction d as [|[k0 v0] d IH]; [set_solver|]. cbn [dkeys map fst dget]. intros [Hn Hd]%NoDup_cons [[= -> ->]|Hin]%elem_of_cons.
  - by rewrite String.eqb_refl.
  - destruct (String.eqb_spec k k0) as [->|_]; [|by apply IH]. destruct Hn. by apply (list_elem_of_fmap_2 fst _ (k0, v)).
Qed.

Lemma drift_verdicts langs s res' s' rows : run_languages exec langs [] s = (Ok res', s') ->
  drift {| candidates := rows; languages := res' |} = false <-> forall lang, lang ∈ langs -> verdict (fixtures s) lang = Some 0%Z.
Proof.
  intros H. apply languages_spec in H as (Hok & Hall & Hget); [|constructor]. unfold drift. cbn [languages].
  rewrite <- not_true_iff_false, existsb_exists. split.
  - intros Hno lang Hin. destruct (Hall lang Hin) as [code Hv]. specialize (Hget lang). rewrite (proj2 (str_in_spec lang langs) Hin), Hv in Hget.
    cbn in Hget. destruct (decide (code = 0%Z)) as [->|Hc]; [done|]. exfalso. apply Hno. exists (result_of code). split.
    + apply list_elem_of_In. apply (list_elem_of_fmap_2 snd _ (lang, result_of code)). by apply dget_In.
    + apply negb_true_iff, String.eqb_neq. by rewrite result_pass.
  - intros Hv (x & Hx & Hne). apply list_elem_of_In, list_elem_of_fmap in Hx as ([k v] & -> & Hin). apply dict_ok_get in Hin; [|done].
    rewrite Hget in Hin. destruct (str_in k langs) eqn:Hk; [|done]. apply str_in_spec in Hk. rewrite (Hv k Hk) in Hin. cbn in Hin.
    injection Hin as <-. done.
Qed.

(** Go's filling, and the captures after it. *)
Lemma filled_captures s :
  match fill (captures s) with
  | (Ok (code, log), filled) => exists s1, fill_from_go fill s = (Ok code, s1) /\ fixtures s1 = fixtures s /\
      captures s1 = dset filled "logs/go-fill.log" (String.append (header "go" fill_command) log)
  | (Raise (NotFound _), _) => exists s1, fill_from_go fill s = (Ok 127%Z, s1) /\ fixtures s1 = fixtures s
  | (Raise (OtherRun e), _) => exists s1, fill_from_go fill s = (Raise e, s1) /\ fixtures s1 = fixtures s
  end.
Proof.
  unfold fill_from_go. destruct (fill (captures s)) as [[[code log]|[text|e]] filled]; eexists; split; reflexivity || (split; reflexivity) || reflexivity.
Qed.

Lemma rows_same files s : (rows_of files s).2 = s.
Proof.
  induction files as [|c files IH]; [done|]. cbn [rows_of]. unfold mbind at 1, eff_bind at 1. unfold row_of, read_text.
  unfold mbind at 1, eff_bind at 1. destruct (of_option _ _); [|done]. unfold eff_lift.
  match goal with |- context [match ?r with _ => _ end] => destruct r end; [|done]. unfold mbind, eff_bind.
  destruct (rows_of files s) as [[l|e] s1]; exact IH.
Qed.

(** A run that ends after the staging. *)
Lemma staged_run (Hcopy : forall p e left_, copy_error p = Some (e, left_) -> left_ = None) files langs s :
  match (staged ← stage copy_error files; with_staged staged (run_languages exec langs [])) s with
  | (Ok results, s') => fixtures s' = fixtures s /\ exists added, staged_of (captures s) files added /\
      forall rows, drift {| candidates := rows; languages := results |} = false <-> forall lang, lang ∈ langs -> verdict (fixtures s ++ added) lang = Some 0%Z
  | (Raise _, s') => fixtures s' = fixtures s
  end.
Proof.
  pose proof (stage_spec Hcopy (fixtures s) [] files s ltac:(by rewrite app_nil_r) ltac:(set_solver)) as Hst.
  unfold stage, mbind, eff_bind. change (dkeys []) with (@nil string) in Hst.
  destruct (stage_from copy_error [] files s) as [[staged|e] s1]; [|exact Hst].
  destruct Hst as (added & Hf & -> & Hnew & Hso & Hc). cbn [app] in *. unfold with_staged.
  pose proof (keeps_languages langs [] s1) as Hk. destruct (run_languages exec langs [] s1) as [[results|e] s2] eqn:Hrun; cbn [snd] in Hk.
  - split; [rewrite unstage_fixtures, Hk, Hf; by apply unstaged|]. exists added. split; [exact Hso|]. intros rows.
    rewrite <- Hf. by eapply drift_verdicts.
  - rewrite unstage_fixtures, Hk, Hf. by apply unstaged.
Qed.

(** C29: the drift check leaves the fixtures as it found them, whatever it
    returns or raises, when a copy that fails leaves nothing behind; and when it
    returns, the code is 0 exactly when there are candidates, Go filled them, and
    every language's tests passed over the fixtures with all the candidates, as
    Go filled them, next to them; and 1 otherwise. *)
Theorem compare_restores_fixtures langs s r s' :
  (forall p e left_, copy_error p = Some (e, left_) -> left_ = None) ->
  cmd_compare exec fill copy_error langs s = (r, s') ->
  fixtures s' = fixtures s /\
  forall code, r = Ok code -> (code = 0 \/ code = 1)%Z /\
    (code = 0%Z <-> candidate_files (captures s) <> [] /\
       exists log filled added, fill (captures s) = (Ok (0%Z, log), filled) /\ staged_of
         (dset filled "logs/go-fill.log" (String.append (header "go" fill_command) log)) (candidate_files (captures s)) added /\
         forall lang, lang ∈ langs -> verdict (fixtures s ++ added) lang = Some 0%Z).
Proof.
  intros Hcopy. unfold cmd_compare. unfold mbind at 1, eff_bind at 1, eff_get. cbn iota.
  destruct (candidate_files (captures s)) as [|c0 files0] eqn:Hfiles.
  { intros [= <- <-]. split; [done|]. intros code [= <-]. split; [by right|]. split; [done|]. by intros [? _]. }
  assert (Hne : candidate_files (captures s) <> []) by (by rewrite Hfiles). rewrite <- Hfiles. clear Hfiles c0 files0.
  set (files := candidate_files (captures s)) in *.
  unfold mbind at 1, eff_bind at 1. pose proof (filled_captures s) as Hfill.
  destruct (fill (captures s)) as [[[code log]|[text|e]] filled] eqn:Hf; destruct Hfill as (s1 & -> & Hs1).
  2:{ cbn. intros [= <- <-]. split; [exact Hs1|]. intros code [= <-]. split; [by right|]. split; [done|]. by intros (_ & ? & ? & ? & [=] & _). }
  2:{ intros [= <- <-]. by split. }
  destruct Hs1 as [Hs1 Hcaps]. destruct (Z.eqb_spec code 0) as [->|Hcode]; cbn [negb].
  2:{ cbn. intros [= <- <-]. split; [exact Hs1|]. intros c [= <-]. split; [by right|]. split; [done|]. by intros (_ & ? & ? & ? & [= ?] & _). }
  unfold mbind at 1, eff_bind at 1. pose proof (rows_same files s1) as Hrows. destruct (rows_of files s1) as [[rows|e] s1'];
    cbn [snd] in Hrows; subst s1'; [|intros [= <- <-]; by split].
  pose proof (staged_run Hcopy files langs s1) as Hrun. unfold mbind, eff_bind in Hrun |- *.
  destruct (stage copy_error files s1) as [[staged|e] s2]; [|intros [= <- <-]; split; [congruence | done]].
  destruct (with_staged staged (run_languages exec langs []) s2) as [[results|e] s3]; [|intros [= <- <-]; split; [congruence | done]].
  destruct Hrun as (Hs3 & added & Hso & Hdrift). specialize (Hdrift rows). set (rep := {| candidates := rows; languages := results |}) in *.
  pose proof (keeps_write_json "report.json" (report_json rep) s3) as Hw.
  destruct (write_json write "report.json" (report_json rep) s3) as [[[]|e] s4]; cbn [snd] in Hw;
    [|intros [= <- <-]; split; [congruence | done]].
  unfold eff_modify, mret, eff_ret. intros [= <- <-]. split; [cbn [fixtures say write]; congruence|].
  intros code [= <-]. split; [destruct (drift rep); auto|].
  assert (Hcode : (if drift rep then 1 else 0)%Z = 0%Z <-> drift rep = false) by (destruct (drift rep); done). rewrite Hcode, Hdrift, Hs1.
  rewrite Hcaps in Hso. split.
  - intros Hv. split; [done|]. by exists log, filled, added.
  - intros (_ & log' & filled' & added' & [= <- <-] & Hso' & Hv). by rewrite (staged_unique _ _ _ _ Hso Hso').
Qed.
End Compare.

(** ** The captures *)

Section Capture.
Import Capture.
Context {W : Type} (urlopen : string -> jdict -> W -> res urlopen_exn string * W) (elapsed_ms : W -> W -> Z) (now : W -> string)
  (response_json : string -> option json).
(** The answer is the same at every address. *)
Hypothesis same_answers : forall u u' payload w, urlopen u payload w = urlopen u' payload w.

Lemma post_same u u' payload s : post urlopen response_json u payload s = post urlopen response_json u' payload s.
Proof. unfold post. by rewrite (same_answers _ (String.append u' "/chat/completions")). Qed.

Lemma bind_same {S E A B} (m m' : eff S E A) (f f' : A -> eff S E B) s :
  m s = m' s -> (forall a s1, f a s1 = f' a s1) -> (m ≫= f) s = (m' ≫= f') s.
Proof. unfold mbind, eff_bind. intros -> Hf. destruct (m' s) as [[a|e] s1]; auto. Qed.

Lemma lift_ok {S E A B} (a : A) (f : A -> eff S E B) s : (eff_lift (Ok a) ≫= f) s = f a s.
Proof. reflexivity. Qed.

Lemma ask_all_same name u u' source profile tools max_tokens prompts c s :
  ask_all urlopen elapsed_ms response_json name u source profile tools max_tokens prompts c s =
  ask_all urlopen elapsed_ms response_json name u' source profile tools max_tokens prompts c s.
Proof.
  revert c s. induction prompts as [|prompt prompts IH]; intros c s; [done|]. cbn [ask_all].
  apply bind_same; [done | intros payload s1]. apply bind_same; [done | intros before s2].
  apply bind_same; [apply post_same | intros response s3]. do 5 (apply bind_same; [done | intros ? ?]). apply IH.
Qed.

(** The address of a model is in nothing that a capture writes, prints or
    raises. *)
Lemma address_not_captured prompts tools loaded chosen env env' s :
  (forall profiles name p, loaded = Ok profiles -> dget profiles name = Some p ->
     exists u u', base_url p env = Ok u /\ base_url p env' = Ok u') ->
  cmd_capture urlopen elapsed_ms now response_json prompts tools loaded chosen env s =
  cmd_capture urlopen elapsed_ms now response_json prompts tools loaded chosen env' s.
Proof.
  intros Hurl. unfold cmd_capture. apply bind_same; [done | intros l s1]. destruct loaded as [profiles|e]; [|done].
  assert (Hall : forall names results s,
    capture_all urlopen elapsed_ms now response_json profiles prompts l env names results s =
    capture_all urlopen elapsed_ms now response_json profiles prompts l env' names results s).
  { induction names as [|name names IH]; intros results s2; [done|]. cbn [capture_all].
    do 2 (apply bind_same; [done | intros ? ?]). destruct (dget profiles name) as [p|] eqn:Hget; [|done]. cbn [of_option]. rewrite !lift_ok.
    match goal with |- context [capture_profile _ _ _ _ name p ?st prompts l env ?x] =>
      assert (Hp : capture_profile urlopen elapsed_ms now response_json name p st prompts l env x =
                   capture_profile urlopen elapsed_ms now response_json name p st prompts l env' x) end.
    { destruct (Hurl profiles name p eq_refl Hget) as (u & u' & He & He'). unfold capture_profile. rewrite He, He', !lift_ok.
      do 3 (apply bind_same; [done | intros ? ?]). apply bind_same; [apply ask_all_same | done]. }
    rewrite Hp. destruct (capture_profile _ _ _ _ _ _ _ _ _ env' _) as [[r|e] s9]; [apply IH | done]. }
  destruct (List.filter _ _); [|done]. apply bind_same; [apply Hall | done].
Qed.

(** What the server sent as tool calls, and how a fixture case holds them: the
    parser of the tool formats reads the same calls back. *)
Definition server_call (c : string * string * jdict) (text : string) : json :=
  let '(id, name, _) := c in
  JObj [("id", JStr id); ("type", JStr "function"); ("function", JObj [("name", JStr name); ("arguments", JStr text)])].
Definition sent_ok (c : string * string * jdict) (text : string) : Prop :=
  let '(id, name, args) := c in utf8_ok id = true /\ utf8_ok name = true /\ name <> "" /\ utf8_ok text = true /\ json_loads text = Some (JObj args).
Definition parsed_as (payload : string) (c : string * string * jdict) : ParsedToolCall :=
  let '(id, name, args) := c in {| p_id := JStr id; p_name := JStr name; p_args := args; p_raw := payload |}.

Definition flat_of (c : string * string * jdict) (text : string) : json :=
  let '(id, name, _) := c in JObj ((if py_truthy_str id then [("id", JStr id)] else []) ++ [("name", JStr name); ("arguments", JStr text)]).

Lemma flat_sent c text : flat_call (server_call c text) = Ok (flat_of c text).
Proof. by destruct c as [[[|a id] name] args]. Qed.
Lemma flat_ok c text : sent_ok c text -> json_ok (flat_of c text) = true.
Proof.
  destruct c as [[id name] args]. intros (Hi & Hn & _ & Ht & _). unfold flat_of. destruct (py_truthy_str id); cbn [app json_ok forallb fst snd].
  - rewrite Hi, Hn, Ht. reflexivity.
  - rewrite Hn, Ht. reflexivity.
Qed.
Lemma flat_parsed payload c text : sent_ok c text -> generic_call payload (flat_of c text) = Some (parsed_as payload c).
Proof.
  destruct c as [[[|a id] [|b name]] args]; intros (_ & _ & Hn & _ & Ht); try done; unfold generic_call, flat_of; cbn -[json_loads];
    by rewrite Ht.
Qed.

Lemma captured_calls_parse prompt_id message calls texts : calls <> [] -> Forall2 sent_ok calls texts ->
  jget message "tool_calls" = JArr (zip_with server_call calls texts) ->
  exists payload rest text, toolformat_cases prompt_id message =
      Ok ({| k_section := "parse_calls"; k_name := prompt_id; k_input := payload |} :: rest, text) /\
    generic_parse payload = map (parsed_as payload) calls.
Proof.
  intros Hne Hsent Hcalls. unfold toolformat_cases. rewrite Hcalls.
  set (flat := zip_with flat_of calls texts). set (payload := json_dumps (Style None "," ":" false) (JArr flat)).
  assert (Hflat : res_map flat_call (zip_with server_call calls texts) = Ok flat).
  { unfold flat. clear. revert texts. induction calls as [|c calls IH]; intros [|t texts]; try done. cbn [zip_with res_map].
    rewrite flat_sent. cbn. by rewrite IH. }
  assert (Hok : json_ok (JArr flat) = true).
  { unfold flat. clear -Hsent. induction Hsent as [|c t calls texts Hc _ IH]; [done|]. cbn [zip_with json_ok forallb] in *. by rewrite flat_ok. }
  assert (Hl : json_loads payload = Some (JArr flat)) by (apply loads_dumps; [split; eexists; by split | done]).
  exists payload. destruct calls as [|c0 calls0]; [done|]. destruct texts as [|t0 texts0]; [by inversion Hsent|].
  unfold or_else. change (py_truthy (JArr (zip_with server_call (c0 :: calls0) (t0 :: texts0)))) with true. cbn iota.
  change (py_truthy (JArr (zip_with server_call (c0 :: calls0) (t0 :: texts0)))) with true. cbn iota. cbn [py_iter].
  unfold mbind, res_bind. rewrite Hflat. fold payload. destruct (match jget message "content" with JStr _ => _ | _ => _ end) as [found text].
  eexists _, text. split; [reflexivity|].
  assert (Hp : negb (py_truthy_str payload) = false).
  { apply negb_false_iff, py_truthy_str_true. intros E. rewrite E in Hl. discriminate Hl. }
  unfold generic_parse. rewrite Hp, Hl. unfold flat. generalize payload. clear -Hsent. intros payload.
  induction Hsent as [|c t calls texts Hc _ IH]; [done|]. cbn [zip_with omap list_omap map]. by rewrite flat_parsed, IH.
Qed.
End Capture.

(** A copy that fails after it began leaves a file among the fixtures. *)
Example partial_copy_is_left :
  let s := {| Compare.fixtures := [("toolformat/glm-cases.json", "g")]; Compare.captures := [("candidates/toolformat/live-m-cases.json", "{}")];
              Compare.printed := [] |} in
  let r := Compare.cmd_compare (fun _ _ _ => Ok (0%Z, "")) (fun c => (Ok (0%Z, ""), c))
             (fun _ => Some (Exn OSError "No space left on device", Some "{")) ["go"] s in
  (r.1, Compare.fixtures r.2) =
  (Raise (Exn OSError "No space left on device"), [("toolformat/glm-cases.json", "g"); ("toolformat/live-m-cases.json", "{")]).
Proof. vm_compute. reflexivity. Qed.

(** ** A comparison *)

Module Example.
Import Compare.
Definition ex_dirs : t :=
  {| fixtures := [("toolformat/glm-cases.json", "g")];
     captures := [("candidates/reasoning/live-m-cases.json", jq "{'examples': [{}]}"); ("candidates/toolformat/live-m-cases.json", "{}");
                  ("raw/m/p.json", "{}")];
     printed := [] |}.
(** Rust fails when there are three fixtures. *)
Definition ex_exec (cwd : string) (cmd : list string) (fx : dict string) : res run_exn (Z * string) :=
  Ok (if String.eqb cwd "." && (length fx =? 3)%nat then 101%Z else 0%Z, "ran").
Definition ex_fill (caps : dict string) : res run_exn (Z * string) * dict string :=
  (Ok (0%Z, "filled"), dset caps "candidates/toolformat/live-m-cases.json" (jq "{'parse_calls': [{}, {}], 'go_rejected': [1]}")).
Definition ex_compare (langs : list string) : eff t exn Z := cmd_compare ex_exec ex_fill (fun _ => None) langs.

Lemma compare_restores_fixtures_witness :
  exists s1 s2, ex_compare ["go"; "python"] ex_dirs = (Ok 0%Z, s1) /\ ex_compare ["go"; "rust"] ex_dirs = (Ok 1%Z, s2) /\
    fixtures s1 = fixtures ex_dirs /\ fixtures s2 = fixtures ex_dirs /\
    dget (captures s2) "summary.md" = Some (String.concat nl
      ["## Live model captures: cross-language drift"; ""; "| Candidate fixture | Cases | Rejected by Go |"; "| --- | --- | --- |";
       "| `reasoning/live-m-cases.json` | 1 | 0 |"; "| `toolformat/live-m-cases.json` | 2 | 1 |"; "";
       "| Language | Result |"; "| --- | --- |"; "| go | agrees with Go |"; "| rust | **fail (exit 101)** (see `logs/rust.log`) |"; "";
       "**DRIFT**"; ""]).
Proof.
  assert (Hno : forall p e left_, (fun _ : string => @None (exn * option string)) p = Some (e, left_) -> left_ = None) by (intros ? ? ? [=]).
  destruct (ex_compare ["go"; "python"] ex_dirs) as [r1 s1] eqn:H1. destruct (ex_compare ["go"; "rust"] ex_dirs) as [r2 s2] eqn:H2.
  exists s1, s2. destruct (compare_restores_fixtures _ _ _ _ _ _ _ Hno H1) as [Hf1 _]. destruct (compare_restores_fixtures _ _ _ _ _ _ _ Hno H2) as [Hf2 _].
  assert (Hr1 : r1 = (ex_compare ["go"; "python"] ex_dirs).1) by (rewrite H1; reflexivity).
  assert (Hr2 : r2 = (ex_compare ["go"; "rust"] ex_dirs).1) by (rewrite H2; reflexivity).
  assert (Hs2 : s2 = (ex_compare ["go"; "rust"] ex_dirs).2) by (rewrite H2; reflexivity).
  split_and!; [rewrite Hr1; vm_compute; reflexivity | rewrite Hr2; vm_compute; reflexivity | exact Hf1 | exact Hf2 | rewrite Hs2; vm_compute; reflexivity].
Defined.
End Example.
