(* ===== verification/Adapters.v ===== *)
(** * Adapters of other agent frameworks

    [python/adapters/]: the result of a backend ([base.py]) and the backends over
    the Hermes command line, the Kitaru library and a Pydantic AI agent, a Module
    each.

    Parameters: [hermes], one run of the command; the Kitaru library, its objects
    by their attributes; [agent_run], a run of a Pydantic AI agent, and what the
    event loop does. *)
From Stdlib Require Import ZArith Lia Ascii String SpecFloat.
From stdpp Require Import base tactics list strings.
From S2P Require Import Prelude PyStr PyFloat Json Types.

(** ** [base.py] *)

Record AgentTool := { at_name : json; at_description : json; at_schema : json }.
Record AgentResult := { ar_success : bool; ar_output : json; ar_error : option string; ar_metadata : jdict }.
(** The constructor, with [__post_init__]. *)
Definition agent_result (success : bool) (output : json) (error : option string) (metadata : jdict) : res exn AgentResult :=
  match success, error with
  | false, None => Raise (Exn ValueError "error must be set when success is False")
  | _, _ => Ok {| ar_success := success; ar_output := output; ar_error := error; ar_metadata := metadata |}
  end.

Definition ImportError (message : string) : exn := Exn (UserError "ImportError") message.

Module Hermes.

(** [subprocess.run]: an exit, a timeout, or another exception. *)
Inductive run_result := Exited (returncode : Z) (stdout stderr : string) | TimeoutExpired | RunFailed (e : exn).

Record HermesTool := { h_name : json; h_description : json }.
Record Client := { hermes_path : string }.
Definition _base_args (c : Client) : list string := [hermes_path c].

Section Hermes.
Context {W : Type} (hermes : list string -> spec_float -> W -> run_result * W) (exc_str : exn -> string).

Definition thirty : spec_float := float_of_Z 30.

Definition read_tools (stdout : string) : res exn (list HermesTool) :=
  match json_loads stdout with
  | None => Ok []
  | Some data =>
      tools ← any_get data "tools" (JArr []);
      l ← py_iter tools;
      res_map (fun t => name ← any_get t "name" (JStr ""); description ← any_get t "description" (JStr "");
                        Ok {| h_name := name; h_description := description |}) l
  end.
Definition list_tools (c : Client) : eff W exn (list HermesTool) := fun w =>
  let '(r, w') := hermes (_base_args c ++ ["tools"; "list"; "--json"]) thirty w in
  (match r with
   | Exited code stdout _ => if negb (code =? 0)%Z then Ok [] else read_tools stdout
   | TimeoutExpired => Ok []
   | RunFailed e => Raise e
   end, w').

(** The output and the error. *)
Definition execute (c : Client) (tool_name : string) (args : jdict) (timeout : spec_float) (w : W) : (string * option string) * W :=
  let '(r, w') := hermes (_base_args c ++ ["tool"; "run"; tool_name; "--args"; json_dumps default_style (JObj args)]) timeout w in
  (match r with
   | Exited code stdout stderr => if negb (code =? 0)%Z then ("", Some stderr) else (stdout, None)
   | TimeoutExpired => ("", Some "timeout")
   | RunFailed e => ("", Some (exc_str e))
   end, w').

Definition get_skills (c : Client) : eff W exn (list string) := fun w =>
  let '(r, w') := hermes (_base_args c ++ ["skills"; "list"]) thirty w in
  (match r with
   | Exited code stdout _ =>
       Ok (if negb (code =? 0)%Z then []
           else map py_strip (List.filter (fun line => py_truthy_str (py_strip line) && negb (py_startswith "#" line)) (py_split "010" stdout)))
   | TimeoutExpired => Ok []
   | RunFailed e => Raise e
   end, w').

(** [config]: the text of the configuration file, when it exists. *)
Definition get_config (config : option string) : res exn json :=
  match config with
  | Some text => of_option (Exn JSONDecodeError text) (json_loads text)
  | None => Ok (JObj [])
  end.

(** *** The adapter *)

Record Adapter := { a_client : Client; a_timeout : spec_float; _tool_cache : option (list AgentTool); a_world : W }.
Definition moved (w : W) (a : Adapter) : Adapter :=
  {| a_client := a_client a; a_timeout := a_timeout a; _tool_cache := _tool_cache a; a_world := w |}.
Definition cached (c : option (list AgentTool)) (a : Adapter) : Adapter :=
  {| a_client := a_client a; a_timeout := a_timeout a; _tool_cache := c; a_world := a_world a |}.

Definition adapter_execute (tool_name : string) (args : jdict) : eff Adapter exn AgentResult := fun a =>
  let '((output, error), w) := execute (a_client a) tool_name args (a_timeout a) (a_world a) in
  let metadata := [("tool_name", JStr tool_name)] in
  (if match error with Some e => py_truthy_str e | None => false end
   then agent_result false JNull error metadata
   else agent_result true (JStr output) None metadata, moved w a).

Definition adapter_list_tools : eff Adapter exn (list AgentTool) := fun a =>
  match _tool_cache a with
  | Some tools => (Ok tools, a)
  | None =>
      match list_tools (a_client a) (a_world a) with
      | (Raise e, w) => (Raise e, moved w a)
      | (Ok hs, w) =>
          let tools := map (fun t => {| at_name := h_name t; at_description := h_description t; at_schema := JObj [] |}) hs in
          (Ok tools, cached (Some tools) (moved w a))
      end
  end.
Definition refresh_tools (a : Adapter) : Adapter := cached None a.
Definition create_adapter (path : string) (timeout : spec_float) (w : W) : Adapter :=
  {| a_client := {| hermes_path := path |}; a_timeout := timeout; _tool_cache := None; a_world := w |}.

(** *** What an execution reports *)

Definition outcome (c : Client) (tool_name : string) (args : jdict) (timeout : spec_float) (w : W) : run_result :=
  fst (hermes (_base_args c ++ ["tool"; "run"; tool_name; "--args"; json_dumps default_style (JObj args)]) timeout w).

(** The adapter always answers, and with success exactly when the command exited
    with 0, or failed without a word: then too the output is reported. *)
Lemma hermes_reports tool_name args a : exists r a', adapter_execute tool_name args a = (Ok r, a') /\
  (ar_success r = true <->
   match outcome (a_client a) tool_name args (a_timeout a) (a_world a) with
   | Exited code _ stderr => code = 0%Z \/ stderr = ""
   | TimeoutExpired => False
   | RunFailed e => exc_str e = ""
   end).
Proof.
  unfold adapter_execute, execute, outcome. destruct (hermes _ _ _) as [[code stdout stderr| |e] w]; cbn [fst].
  - destruct (Z.eqb_spec code 0) as [->|Hc]; cbn [negb]; [eexists _, _; split; [reflexivity | naive_solver]|].
    destruct stderr as [|x stderr]; eexists _, _; (split; [reflexivity|]); cbn; naive_solver.
  - eexists _, _. split; [reflexivity|]. done.
  - destruct (exc_str e) eqn:He; eexists _, _; (split; [reflexivity|]); cbn; naive_solver.
Qed.

(** The tools are asked for once until they are refreshed. *)
Lemma tools_are_cached tools a a' : adapter_list_tools a = (Ok tools, a') ->
  forall w, adapter_list_tools (moved w a') = (Ok tools, moved w a').
Proof.
  unfold adapter_list_tools. destruct (_tool_cache a) as [ts|] eqn:Hc; [intros [= <- <-] w; cbn; by rewrite Hc|].
  destruct (list_tools _ _) as [[hs|e] w0]; [|done]. by intros [= <- <-] w.
Qed.
End Hermes.
End Hermes.

Module Kitaru.

(** [result.output]: missing, an object with [model_dump] or [dict], a decoded
    value, or another object by its text. *)
Inductive output_value := NoOutput (e : exn) | Dumped (r : res exn json) | Value (v : json) | Text (s : res exn string).
Record Handle := { k_id : string; k_status : string; k_created : string; k_updated : string; k_output : output_value }.
Record Execution := { e_id : string; e_status : string; e_started : string; e_updated : string; e_output : option json }.

(** Every exception becomes [None]. *)
Definition _get_execution_output (r : Handle) : option json :=
  match k_output r with
  | NoOutput _ => None
  | Dumped (Ok v) => Some v
  | Dumped (Raise _) => None
  | Value (JObj d) => Some (JObj d)
  | Value v => Some (JObj [("value", JStr (py_str v))])
  | Text (Ok s) => Some (JObj [("value", JStr s)])
  | Text (Raise _) => None
  end.
Definition execution_of (id : string) (r : Handle) : Execution :=
  {| e_id := id; e_status := k_status r; e_started := k_created r; e_updated := k_updated r; e_output := _get_execution_output r |}.
Definition finished (status : string) : bool := str_in status ["completed"; "failed"; "error"; "canceled"].

Section Kitaru.
(** The library, when it is installed. *)
Context {W : Type} (installed : bool) (deployments : eff W exn (list string)) (invoke_flow : string -> jdict -> eff W exn string)
  (get : string -> eff W exn Handle) (executions : eff W exn (list Handle)) (now : W -> spec_float) (sleep : spec_float -> W -> W).

Definition absent {A} : eff W exn A := eff_raise (Exn AttributeError "'NoneType' object has no attribute").
Definition get_deployments : eff W exn (list string) :=
  if installed then deployments else eff_raise (ImportError "kitaru is not installed. Install with: pip install kitaru").
Definition invoke (flow : string) (inputs : jdict) : eff W exn string := if installed then invoke_flow flow inputs else absent.
Definition get_execution (id : string) : eff W exn Execution :=
  if installed then r ← get id; mret (execution_of id r) else absent.
Definition list_executions : eff W exn (list Execution) :=
  if installed
  then l ← executions;
       mret (map (fun r => {| e_id := k_id r; e_status := k_status r; e_started := k_created r; e_updated := k_updated r; e_output := None |}) l)
  else absent.

(** [None]: still waiting after [fuel] looks. *)
Fixpoint wait_from (fuel : nat) (id : string) (poll_interval timeout start : spec_float) (w : W) : option (res exn Execution * W) :=
  match fuel with
  | O => None
  | S fuel' =>
      match float_compare (SFsub f_prec f_emax (now w) start) timeout with
      | Some Lt =>
          if negb installed then Some (absent w)
          else
            match get id w with
            | (Raise e, w') => Some (Raise e, w')
            | (Ok r, w') => if finished (k_status r) then Some (Ok (execution_of id r), w')
                            else wait_from fuel' id poll_interval timeout start (sleep poll_interval w')
            end
      | _ => Some (Raise (Exn TimeoutError (str_join ["Execution "; id; " timed out"])), w)
      end
  end.
Definition wait_for_completion (fuel : nat) (id : string) (poll_interval timeout : spec_float) (w : W) : option (res exn Execution * W) :=
  wait_from fuel id poll_interval timeout (now w) w.

(** What is returned is a finished execution, and only before the timeout. *)
Lemma waited_execution_is_finished fuel id p t start w e w' : wait_from fuel id p t start w = Some (Ok e, w') ->
  finished (e_status e) = true /\ e_id e = id.
Proof.
  revert w. induction fuel as [|fuel IH]; intros w H; [done|]. cbn [wait_from] in H.
  destruct (float_compare _ _) as [[]|]; try done. destruct installed; [|done]. cbn [negb] in H.
  destruct (get id w) as [[r|x] w1]; [|done]. destruct (finished (k_status r)) eqn:Hf; [|by apply IH in H]. by injection H as <- <-.
Qed.

Definition expired (start timeout : spec_float) (w : W) : bool :=
  match float_compare (SFsub f_prec f_emax (now w) start) timeout with Some Lt => false | _ => true end.

(** Waiting ends when each look and sleep brings the end of the time nearer. *)
Lemma waiting_ends (left_ : W -> nat) id p t start w :
  (forall w, expired start t w = false -> left_ (sleep p (snd (get id w))) < left_ w) ->
  exists r, wait_from (S (left_ w)) id p t start w = Some r.
Proof.
  intros Hless. assert (H : forall fuel w, left_ w < fuel -> exists r, wait_from fuel id p t start w = Some r).
  { induction fuel as [|fuel IH]; intros w1 Hw; [lia|]. cbn [wait_from]. pose proof (Hless w1) as Hl. unfold expired in Hl.
    destruct (float_compare _ _) as [[]|]; try by eexists. destruct installed; [|by eexists]. cbn [negb].
    destruct (get id w1) as [[r|x] w2]; [|by eexists]. destruct (finished (k_status r)); [by eexists|]. apply IH. specialize (Hl eq_refl). cbn in Hl. lia. }
  apply H. lia.
Qed.

(** *** The adapter *)

(** [client.flow(name).run_with_wait]: [None] for a client without [flow], as
    the one above is. *)
Context (exc_str : exn -> string) (flow_mapping : dict string) (wait_interval : spec_float).
Abbreviation flows := (option (string -> jdict -> spec_float -> eff W exn Execution)).

Definition adapter_execute (flow : flows) (tool_name : string) (args : jdict) : eff W exn AgentResult := fun w =>
  match dget flow_mapping tool_name with
  | None => (agent_result false JNull (Some (String.append "unknown tool: " tool_name)) [], w)
  | Some flow_name =>
      match flow with
      | None => (Raise (Exn AttributeError "'Client' object has no attribute 'flow'"), w)
      | Some run =>
          let names := [("tool_name", JStr tool_name); ("flow_name", JStr flow_name)] in
          let '(r, w') := run flow_name args wait_interval w in
          (match (execution ← r;
                  agent_result (String.eqb (e_status execution) "completed")
                    (match e_output execution with Some v => if py_truthy v then JStr (py_str v) else JNull | None => JNull end) None
                    (("execution_id", JStr (e_id execution)) :: ("status", JStr (e_status execution)) :: names)) with
           | Ok result => Ok result
           | Raise e => agent_result false JNull (Some (String.append "flow execution failed: " (exc_str e))) names
           end, w')
      end
  end.

Definition adapter_list_tools : list AgentTool :=
  map (fun '(tool_name, flow_name) =>
    {| at_name := JStr tool_name; at_description := JStr (String.append "Execute Kitaru flow: " flow_name);
       at_schema := JObj [("type", JStr "object");
                          ("properties", JObj [("inputs", JObj [("type", JStr "object"); ("description", JStr "Flow input parameters")])])] |})
    flow_mapping.

(** The adapter reports success exactly for a completed flow; a flow that ended
    otherwise is reported by the complaint of the result's constructor, without
    its identifier and status. *)
Lemma kitaru_reports run tool_name flow_name args w : dget flow_mapping tool_name = Some flow_name ->
  exists r, adapter_execute (Some run) tool_name args w = (Ok r, snd (run flow_name args wait_interval w)) /\
    match fst (run flow_name args wait_interval w) with
    | Ok e => (ar_success r = true <-> e_status e = "completed") /\
        (e_status e <> "completed" ->
         ar_error r = Some (String.append "flow execution failed: " (exc_str (Exn ValueError "error must be set when success is False"))) /\
         ar_metadata r = [("tool_name", JStr tool_name); ("flow_name", JStr flow_name)])
    | Raise e => ar_success r = false /\ ar_error r = Some (String.append "flow execution failed: " (exc_str e))
    end.
Proof.
  intros Hf. unfold adapter_execute. rewrite Hf. destruct (run flow_name args wait_interval w) as [[e|e] w']; cbn [fst snd].
  - unfold mbind, res_bind. destruct (String.eqb_spec (e_status e) "completed") as [He|He]; cbn [agent_result]; eexists; (split; [reflexivity|]); cbn; done.
  - eexists. split; [reflexivity|]. done.
Qed.
End Kitaru.

(** [create_adapter] gives the client keywords that it does not take. *)
Definition client_keywords : list string := ["server_url"; "auth_token"; "project"].
Definition check_keywords (given : list string) : res exn unit :=
  match List.find (fun k => negb (str_in k client_keywords)) given with
  | Some k => Raise (Exn TypeError (str_join ["Client.__init__() got an unexpected keyword argument '"; k; "'"]))
  | None => Ok tt
  end.
Definition create_adapter {A} (adapter : A) : res exn A := _ ← check_keywords ["base_url"; "api_key"]; Ok adapter.
Lemma kitaru_adapter_is_never_created {A} (adapter : A) : is_ok (create_adapter adapter) = false.
Proof. reflexivity. Qed.
End Kitaru.

Module Pydantic.

(** The name [Agent] of the module: the class for a type checker only. *)
Definition Agent : option unit := None.

Record Config := { timeout : spec_float; max_retries : Z }.
(** What the event loop of the thread is, and how a run in it with a limit ends. *)
Inductive loop := NoLoop | Running | Idle.
Inductive limited := Done (r : AgentResult) | TimedOut | Broken (e : exn).

Section Pydantic.
(** [agent.run]: the text of the data and the model. *)
Context {W : Type} (agent_run : string -> eff W exn (string * json)) (exc_str : exn -> string) (float_str : spec_float -> string).

Definition request (tool_name : string) (args : jdict) : string :=
  str_join ["Please execute the tool '"; tool_name; "' with the following parameters: "; py_str (JObj args)].
Definition _execute_async (tool_name : string) (args : jdict) : eff W exn AgentResult := fun w =>
  let '(r, w') := agent_run (request tool_name args) w in
  (match r with
   | Ok (data, model) => agent_result true (JStr data) None [("tool_name", JStr tool_name); ("model", model)]
   | Raise e => agent_result false JNull (Some (exc_str e)) [("tool_name", JStr tool_name)]
   end, w').

(** [PydanticAdapterAsync] repeats that body. *)
Definition async_execute (tool_name : string) (args : jdict) : eff W exn AgentResult := fun w =>
  let '(r, w') := agent_run (request tool_name args) w in
  (match r with
   | Ok (data, model) => agent_result true (JStr data) None [("tool_name", JStr tool_name); ("model", model)]
   | Raise e => agent_result false JNull (Some (exc_str e)) [("tool_name", JStr tool_name)]
   end, w').
Definition async_list_tools : list AgentTool := [].

(** [bounded]: a run in the loop under [wait_for]. *)
Definition execute (here : loop) (bounded : eff W exn AgentResult -> W -> limited * W) (c : Config) (tool_name : string) (args : jdict)
  : eff W exn AgentResult := fun w =>
  let metadata := [("tool_name", JStr tool_name)] in
  let failed e := agent_result false JNull (Some (exc_str e)) metadata in
  match here with
  | Running => (agent_result false JNull (Some "Cannot execute sync in async context. Use PydanticAdapterAsync.") [], w)
  | NoLoop =>
      match _execute_async tool_name args w with
      | (Ok r, w') => (Ok r, w')
      | (Raise e, w') => (failed e, w')
      end
  | Idle =>
      let '(r, w') := bounded (_execute_async tool_name args) w in
      (match r with
       | Done r => Ok r
       | TimedOut => agent_result false JNull (Some (str_join ["timeout after "; float_str (timeout c); "s"])) metadata
       | Broken e => failed e
       end, w')
  end.

Record Adapter := { p_config : Config; _tools_cache : option (list AgentTool) }.
Definition init (c : Config) : res exn Adapter :=
  match Agent with
  | None => Raise (ImportError "pydantic-ai is not installed. Install with: pip install pydantic-ai")
  | Some _ => Ok {| p_config := c; _tools_cache := None |}
  end.
Definition create_adapter (timeout : spec_float) (max_retries : Z) : res exn Adapter := init {| timeout := timeout; max_retries := max_retries |}.

(** [tools]: the tool definitions of the agent; an exception is no tools. *)
Definition list_tools (tools : res exn (list AgentTool)) (a : Adapter) : list AgentTool * Adapter :=
  match _tools_cache a with
  | Some l => (l, a)
  | None => match tools with Ok l => (l, {| p_config := p_config a; _tools_cache := Some l |}) | Raise _ => ([], a) end
  end.
Definition refresh_tools (a : Adapter) : Adapter := {| p_config := p_config a; _tools_cache := None |}.

Lemma pydantic_adapter_is_never_created c : init c = Raise (ImportError "pydantic-ai is not installed. Install with: pip install pydantic-ai").
Proof. reflexivity. Qed.

(** Every result that fails has an error, and nothing is raised. *)
Lemma pydantic_answers here bounded c tool_name args w :
  (forall m w, match fst (bounded m w) with Done r => ar_success r = false -> ar_error r <> None | _ => True end) ->
  exists r w', execute here bounded c tool_name args w = (Ok r, w') /\ (ar_success r = false -> ar_error r <> None).
Proof.
  intros Hb. assert (Ha : exists r w', _execute_async tool_name args w = (Ok r, w') /\ (ar_success r = false -> ar_error r <> None)).
  { unfold _execute_async. destruct (agent_run _ w) as [[[data model]|e] w']; eexists _, _; by split. }
  destruct here; cbn [execute].
  - destruct Ha as (r & w' & -> & Hr). by exists r, w'.
  - eexists _, _. by split.
  - specialize (Hb (_execute_async tool_name args) w). destruct (bounded _ w) as [[r| |e] w']; eexists _, _; by split.
Qed.
(** The asynchronous adapter answers as the synchronous one does without a loop. *)
Lemma async_agrees bounded c tool_name args w : execute NoLoop bounded c tool_name args w = async_execute tool_name args w.
Proof. unfold execute, _execute_async, async_execute. by destruct (agent_run _ w) as [[[data model]|e] w']. Qed.

(** *** [client.py]

    [client_run]: a run, with the data as it is. *)
Context (client_run : string -> eff W exn json).

Record PydanticTool := { pt_name : string; pt_description : string; parameters_json_schema : jdict }.
(** The constructor, with what the import of the library gave. *)
Definition client_init (imported : bool) : res exn unit := if imported then Ok tt else Raise (ImportError "pydantic-ai is not installed").
(** [tools]: name, description and schema, or [None], of each of the agent's. *)
Definition client_list_tools (tools : list (string * string * option jdict)) : list PydanticTool :=
  map (fun '(name, description, schema) => {| pt_name := name; pt_description := description; parameters_json_schema := default [] schema |}) tools.
Definition client_execute (tool_name : string) (args : jdict) (w : W) : (json * option string) * W :=
  let '(r, w') := client_run (str_join ["Execute tool: "; tool_name; " with args: "; py_str (JObj args)]) w in
  (match r with Ok data => (data, None) | Raise e => (JNull, Some (exc_str e)) end, w').
End Pydantic.
End Pydantic.
