(* ===== verification/DockerFixtures.v ===== *)
(** * The services of the repository's containers

    - [KitaruMock]: [docker/kitaru-mock/server.py], an in-memory flow server;
    - [WebSearch]: [docker/websearch-agent/agent.py], an agent that searches by
      asking a model.

    FastAPI's routing and validation of bodies are left out; identifiers and clock
    readings are arguments, and [post] is one exchange with the model's server:
    its decoded answer, or what [httpx] raises. *)
From Stdlib Require Import ZArith Lia Ascii String SpecFloat.
From stdpp Require Import base tactics list strings.
From S2P Require Import Prelude PyStr PyFloat Json Types.

Module KitaruMock.

Record Execution := {
  x_id : string; x_status : string; x_started : string; x_updated : string; x_output : json; x_flow : string; x_inputs : jdict }.
Abbreviation Executions := (dict Execution).
Definition exec_json (x : Execution) : json :=
  JObj [("id", JStr (x_id x)); ("status", JStr (x_status x)); ("started_at", JStr (x_started x)); ("updated_at", JStr (x_updated x));
        ("output", x_output x); ("flow_name", JStr (x_flow x)); ("inputs", JObj (x_inputs x))].

Definition not_found : exn := Exn (UserError "HTTPException") "404: Execution not found".
Definition answer (fields : list (string * json)) : json := JObj fields.

Definition health : json := answer [("status", JStr "ok")].
Definition run_flow (exec_id started updated flow_name : string) (inputs : jdict) (s : Executions) : json * Executions :=
  (answer [("execution_id", JStr exec_id); ("status", JStr "running")],
   dset s exec_id {| x_id := exec_id; x_status := "running"; x_started := started; x_updated := updated; x_output := JNull;
                     x_flow := flow_name; x_inputs := inputs |}).
(** Looking at a running execution completes it. *)
Definition completed (now : string) (x : Execution) : Execution :=
  if String.eqb (x_status x) "running" then
    {| x_id := x_id x; x_status := "completed"; x_started := x_started x; x_updated := now;
       x_output := JObj [("result", JStr (str_join ["Flow "; x_flow x; " completed successfully"]))]; x_flow := x_flow x; x_inputs := x_inputs x |}
  else x.
Definition get_execution (exec_id now : string) : eff Executions exn json := fun s =>
  match dget s exec_id with
  | None => (Raise not_found, s)
  | Some x => (Ok (exec_json (completed now x)), dset s exec_id (completed now x))
  end.
(** The routes that only look whether the execution exists. *)
Definition known (exec_id : string) (v : json) (s : Executions) : res exn json := if dmem s exec_id then Ok v else Raise not_found.
Definition create_checkpoint (exec_id name : string) := known exec_id (answer [("status", JStr "ok"); ("checkpoint", JStr name)]).
Definition get_checkpoint (exec_id name : string) := known exec_id (answer [("name", JStr name); ("data", answer [("saved", JBool true)])]).
Definition save_artifact (exec_id key : string) := known exec_id (answer [("status", JStr "ok"); ("key", JStr key)]).
Definition get_artifact (exec_id key : string) := known exec_id (answer [("key", JStr key); ("data", answer [("stored", JBool true)])]).

Inductive step : Executions -> Executions -> Prop :=
| step_run s id started updated flow inputs : dmem s id = false -> step s (snd (run_flow id started updated flow inputs s))
| step_get s id now : step s (snd (get_execution id now s)).

(** What a run stays: its identifier, its flow and inputs; and running or
    completed, with a result exactly when completed. *)
Definition is_run (id flow : string) (inputs : jdict) (x : Execution) : Prop :=
  x_id x = id /\ x_flow x = flow /\ x_inputs x = inputs /\
  (x_status x = "running" /\ x_output x = JNull \/
   x_status x = "completed" /\ x_output x = JObj [("result", JStr (str_join ["Flow "; flow; " completed successfully"]))]).

Lemma completed_run now id flow inputs x : is_run id flow inputs x -> is_run id flow inputs (completed now x) /\ x_status (completed now x) = "completed".
Proof.
  intros (Hi & Hf & Hin & [[Hs Ho]|[Hs Ho]]); unfold completed, is_run; rewrite Hs; cbn; [subst; auto 10|]. rewrite Hs. auto 10.
Qed.

(** A flow that was run is completed, with its own result, at the first look,
    whatever else the server did in between, and it stays completed as it is. *)
Lemma a_run_completes_when_looked_at id started updated flow inputs s s' now :
  steps step (snd (run_flow id started updated flow inputs s)) s' ->
  exists x, get_execution id now s' = (Ok (exec_json x), snd (get_execution id now s')) /\ x_status x = "completed" /\ is_run id flow inputs x /\
    forall later, fst (get_execution id later (snd (get_execution id now s'))) = Ok (exec_json x).
Proof.
  intros Hs. assert (Hx : exists x, dget s' id = Some x /\ is_run id flow inputs x).
  { revert Hs. apply (steps_invariant step (fun s => exists x, dget s id = Some x /\ is_run id flow inputs x)).
    - intros a b Ha Hab. revert Ha. destruct Hab as [s0 id' st up fl inp Hnew|s0 id' now']; intros (x & Hx & Hr).
      + cbn. rewrite dget_dset. destruct (String.eqb_spec id id') as [<-|_]; [|eauto]. apply bool_decide_eq_false in Hnew. rewrite Hx in Hnew. by destruct Hnew.
      + unfold get_execution. destruct (dget s0 id') as [x'|] eqn:Hx'; cbn [snd]; [|eauto]. rewrite dget_dset.
        destruct (String.eqb_spec id id') as [<-|_]; [|eauto]. rewrite Hx in Hx'. injection Hx' as <-. eexists. split; [done|]. by apply completed_run.
    - cbn. rewrite dget_dset_eq. eexists. split; [done|]. unfold is_run. cbn. auto 10. }
  destruct Hx as (x & Hx & Hr). destruct (completed_run now _ _ _ _ Hr) as [Hr' Hc]. exists (completed now x).
  unfold get_execution at 1 2. rewrite Hx. cbn [fst snd]. split_and!; [done..|]. intros later. unfold get_execution. rewrite Hx. cbn [snd]. rewrite dget_dset_eq.
  cbn [fst]. unfold completed at 1. by rewrite Hc.
Qed.
End KitaruMock.

Module WebSearch.

Record SearchResult := { title : json; url : json; snippet : json }.
(** [SearchResult( **r)]: exactly the three fields. *)
Definition search_result (r : json) : res exn SearchResult :=
  match r with
  | JObj d =>
      _ ← guard_or (forallb (fun kv => str_in kv.1 ["title"; "url"; "snippet"]) d) (Exn TypeError "got an unexpected keyword argument");
      t ← of_option (Exn TypeError "missing a required argument: 'title'") (dget d "title");
      u ← of_option (Exn TypeError "missing a required argument: 'url'") (dget d "url");
      s ← of_option (Exn TypeError "missing a required argument: 'snippet'") (dget d "snippet");
      Ok {| title := t; url := u; snippet := s |}
  | _ => Raise (Exn TypeError "argument after ** must be a mapping")
  end.

Record WebSearchAgent := { endpoint : string; api_key : string }.
Fixpoint drop_slashes (s : string) : string :=
  match s with String a s' => if Ascii.eqb a "/" then drop_slashes s' else s | EmptyString => s end.
Definition new_agent (endpoint api_key : string) : WebSearchAgent :=
  {| endpoint := str_rev (drop_slashes (str_rev endpoint)); api_key := api_key |}.

Section Agent.
Context {W : Type} (post : string -> dict string -> json -> eff W exn json) (exc_str : exn -> string).

(** [response.json()["choices"][0]["message"]["content"]] *)
Definition content_of (response : json) : res exn json :=
  choices ← any_item response "choices"; first ← any_first choices; message ← any_item first "message"; any_item message "content".
Definition complete (a : WebSearchAgent) (prompt : string) (temperature : spec_float) : eff W exn json :=
  response ← post (String.append (endpoint a) "/chat/completions") [("Authorization", String.append "Bearer " (api_key a))]
    (JObj [("model", JStr "qwen3.6"); ("messages", JArr [JObj [("role", JStr "user"); ("content", JStr prompt)]]); ("temperature", JFloat temperature)]);
  eff_lift (content_of response).

Definition tenths (n : Z) : spec_float := float_of_dec false n (-1).
Definition search_prompt (query : string) : string :=
  String.concat nl
    [str_join ["Given the user query: "; dquote; query; dquote]; ""; "Search the web for relevant information. Return a list of results with:";
     "- title"; "- url (if found)"; "- brief snippet"; ""; "Format as JSON array:";
     str_join ["[{"; dquote; "title"; dquote; ": "; dquote; "..."; dquote; ", "; dquote; "url"; dquote; ": "; dquote; "..."; dquote; ", ";
               dquote; "snippet"; dquote; ": "; dquote; "..."; dquote; "}]"]].
Definition read_results (content : json) : res exn (list SearchResult) :=
  match content with
  | JStr s => v ← of_option (Exn JSONDecodeError s) (json_loads s); l ← py_iter v; res_map search_result l
  | _ => Raise (Exn TypeError "the JSON object must be str, bytes or bytearray")
  end.
Definition failed_search (e : exn) : list SearchResult :=
  [{| title := JStr (String.append "Error: " (exc_str e)); url := JStr ""; snippet := JStr "Failed to search" |}].
Definition search (a : WebSearchAgent) (query : string) (w : W) : list SearchResult * W :=
  let '(r, w') := (content ← complete a (search_prompt query) (tenths 3); eff_lift (read_results content)) w in
  (match r with Ok results => results | Raise e => failed_search e end, w').

Definition summary_prompt (topic : string) (results : list SearchResult) : string :=
  String.concat nl
    [String.append "Research topic: " topic; ""; "Results found:";
     String.concat nl (map (fun r => str_join ["- "; py_str (title r); ": "; py_str (snippet r)]) results); "";
     "Provide a comprehensive summary with citations."].
Definition research (a : WebSearchAgent) (topic : string) (w : W) : json * W :=
  let '(results, w) := search a topic w in
  let '(r, w) := complete a (summary_prompt topic results) (tenths 5) w in
  (match r with Ok content => content | Raise e => JStr (String.append "Research failed: " (exc_str e)) end, w).

(** A search finds nothing but what the model's answer holds, and a failed one
    says so in its only result. *)
Lemma search_reports a query w : let '(results, w') := search a query w in
  (exists text v l, fst (complete a (search_prompt query) (tenths 3) w) = Ok (JStr text) /\ json_loads text = Some v /\ py_iter v = Ok l /\
     Forall2 (fun r x => search_result r = Ok x) l results) \/
  (exists e, results = failed_search e).
Proof.
  unfold search, mbind, eff_bind. destruct (complete _ _ _ w) as [[c|e] w1]; cbn [fst]; [|right; eauto]. unfold eff_lift, read_results.
  destruct c as [|b|z|f|s|l|d]; try (right; eauto; fail). destruct (json_loads s) as [v|] eqn:Hv; cbn; [|right; eauto].
  destruct (py_iter v) as [l|e] eqn:Hl; cbn; [|right; eauto]. destruct (res_map search_result l) as [xs|e] eqn:Hx; cbn; [|right; eauto].
  left. exists s, v, l. split_and!; [done..|]. by apply res_map_Ok.
Qed.
End Agent.
End WebSearch.
